(* ===== verification/_CoqProject ===== *)
-Q . S2P
Prelude.v
GoStrings.v
Api.v
Kube.v
SveltosTypes.v
Conditions.v
ApiManagement.v
Effects.v
TemplateChain.v
ServiceBasics.v
ClusterTypes.v
SveltosState.v
ServiceDeps.v
ServiceOrder.v
ServiceUpgrades.v
ContractVersions.v
ServiceSetPipeline.v
DependencyGraph.v
ServiceValidation.v
Cluster.v
Compatibility.v
SveltosProfile.v
AdmissionChecks.v
Secrets.v
ChildCleanup.v
HelmReleases.v
ClusterStatus.v
CapiConditions.v
RbacSync.v
ClusterRbac.v
ClusterRbacSafe.v
ClusterDelete.v
ClusterValues.v
ClusterResources.v
ClusterIpam.v
ClusterServices.v
ClusterUpdate.v
ClusterUpdateSafe.v
ClusterReconcile.v
ClusterServer.v
ClusterDemo.v
UpdateDemo.v
Webhooks.v
ObjectWebhooks.v
AccessManagement.v
AccessController.v
AccessServer.v
HealthRules.v
Verdicts.v
VerifyStates.v
SveltosReconcile.v
SveltosConverge.v
SveltosStatus.v
SveltosDemo.v
McsDependencies.v
McsStatus.v
McsReconcile.v
