(* ===== verification/Prelude.v ===== *)
(** * kcm (k0rdent cluster manager) verified.

    kcm runs in a management cluster. Owners describe clusters
    (ClusterDeployment) and services (inside a ClusterDeployment, or in a
    MultiClusterService that selects clusters by label); controllers turn them
    into ServiceSets, one per owner and cluster, which a provider carries out.
    Admission webhooks and the controllers share the checks of
    [src/internal/util/validation]. The program is Go; this library translates
    its decision logic to functions of the state of the API server and proves
    what each part promises.

    ** How Go is read

    - A Go error is a [gerror]: its message, the API status it carries, what it
      wraps or joins, and the sentinel it answers [errors.Is] for. A call that
      returns a value and an error is a [result]; one whose value matters next
      to the error returns a pair.
    - A slice is a list, a map a [gmap], a set of map keys a [gset]. Ranging
      over a map visits the keys in an order Go leaves open: [MapRange] supplies
      one per range statement, every theorem holds for all of them, and the
      definitions run with [elements_range].
    - A call that can end in a run-time panic returns an [outcome]; deferred
      functions run on that way out too ([Reconcile], [ensureProfile]). In the
      monad [M] of [Effects] a panic is the error [nil_dereference], which goes
      through [attempt].
    - A controller that works on several clusters is a function of the state of
      all of them: [Effects] has the calls that change a state and may fail (the
      monad [M]), clients, and the list [past] of the states the clusters have
      been in, so that a theorem can speak of every point at which the process
      may stop ([always]). Two goroutines run one after the other, in either
      order. A wait polls a state that moves on its own ([Poller]).
    - Clocks are parameters: one per place where the order of two readings
      matters, one [now] for a whole reconcile elsewhere.
    - A nil pointer or a nil map that matters is [None]. Byte strings are Go
      strings ([GoStrings]: the functions of [strings] and [strconv] in use).
    - Getting, listing and writing objects are the classes [Getter], [Lister]
      ([Api]), [Writer], [Deleter], [Refresher] ([Kube]); the laws a proof needs
      of the API server are [ObjectStore] and, for lists, hypotheses like
      [AdmissionChecks.lists]. Handlers take the state of the server and return
      the next one. [Cluster] is an in-memory server that satisfies the laws:
      the witnesses run on it.
    - What is not in the repository is a parameter with its documented
      behaviour: label selectors, condition helpers, semantic versions, DNS
      names, hashing, building a REST client.

    ** The parts and where they are

    - [Api], [ApiManagement]: the resources of [src/api/v1beta1] and their
      index functions.
    - [TemplateChain]: [templatechain_common.go], validation of chains and the
      enumeration and choice of upgrade routes.
    - [ContractVersions]: [compatibility_contract.go] and
      [templates_common.go], contract versions and the status of templates.
    - [ServiceBasics], [ServiceDeps], [ServiceOrder], [ServiceUpgrades],
      [ServiceSetPipeline]: [src/internal/serviceset], in the order the
      pipeline runs: versions are filled in, services with unsatisfied
      dependencies are held back ([FilterServiceDependencies]), the next hop of
      each upgrade is chosen ([nextUpgradeStep], [ServicesToDeploy]), the result
      is merged with what is stored and ordered by dependency
      ([BuildServicesList], [sortByDependency]), and the ServiceSet is built and
      written ([Build], [GetServiceSetWithOperation],
      [CreateOrUpdateServiceSet]).
    - [DependencyGraph], [ServiceValidation]: [services.go] and
      [multiclusterservice.go] of the validation package.
    - [Compatibility]: [cluster_template.go], [provider_template.go], [mgmt.go]:
      a template against its parent, and providers against the contracts in use.
    - [AdmissionChecks]: credentials, RBAC policies, deletions, and the clients
      of regional clusters.
    - [Webhooks], [ObjectWebhooks]: [src/internal/webhook], composed of the
      checks above.
    - The Sveltos adapter, [src/internal/controller/adapters/sveltos], which
      carries a ServiceSet out. [SveltosState]: [state.go], the state of every
      service from what Sveltos reports for a cluster. [HealthRules], [Verdicts],
      [VerifyStates]: [verify.go], the rules that say when an object is healthy,
      the verdict on a release, and the decision that combines it with Sveltos's.
      [SveltosTypes], [SveltosProfile]: the profile built from a ServiceSet, up
      to [profileSpec] in [serviceset_controller.go]; [SveltosReconcile]: the
      rest of that file, from [Reconcile] down. [SveltosConverge] and
      [SveltosStatus] prove where a reconcile leads and what the status then
      says; [SveltosDemo] is a server it all runs on.
    - [Conditions]: the aggregate Ready condition.
    - [AccessManagement], [AccessController]: the distribution of objects to
      namespaces: the types and migration of [accessmanagement_types.go], the
      plan of [src/internal/util/accessmanagement], the webhook, and the
      controller that carries the plan out on objects of any kind; [AccessServer]
      is a server it runs on.
    - The ClusterDeployment controller, [clusterdeployment_controller.go], on the
      state of [ClusterTypes]: the clusters, the scope of a reconcile and the
      cache of RBAC synchronisations. [ClusterRbac] grants and revokes an
      RBACPolicy in the child cluster by [RbacSync]
      ([src/internal/controller/rbac]), and [ClusterRbacSafe] proves what holds
      whenever the process stops; [ClusterStatus] is the status, [CapiConditions]
      the part of it that comes from Cluster API; [ClusterValues] fills the
      values of the Helm chart, [ClusterResources] writes the secrets, the
      configuration maps and the data source a cluster needs, copying by
      [Secrets] ([src/internal/util/kube/secrets.go]); [ClusterIpam] sees to
      addresses and [ClusterServices] to the services of the cluster;
      [ClusterUpdate] puts these together to [reconcileUpdate], which tries the
      chart ([src/internal/helm/actor.go]) before it writes the HelmRelease by
      [HelmReleases] ([src/internal/helm/release.go]), and [ClusterUpdateSafe]
      proves when it does; [ClusterDelete] is the deletion, which cleans the
      child cluster up by [ChildCleanup] ([src/internal/util/kube/delete.go]);
      [ClusterReconcile] collects the scope and is the handler itself.
      [ClusterServer] is a server with all of their objects, [ClusterDemo] and
      [UpdateDemo] the runs on it.
    - [McsDependencies], [McsStatus], [McsReconcile]:
      [multiclusterservice_controller.go], the whole reconcile; it calls the
      pipeline once per matching cluster.

    ** What the theorems show

    - Dependencies: a service is let through exactly when everything it depends
      on, directly or not, is at its desired version
      ([FilterServiceDependencies_spec]); one held back stays as stored
      ([locked_service_preserved]); the list comes out in dependency order
      ([BuildServicesList_dependency_order]), which admission guarantees without
      further assumption ([validated_services_ordered]).
    - Upgrades: routes are complete and longest ([UpgradePaths_longest_routes]),
      an upgrade in flight is left alone ([ServicesToDeploy_in_flight_kept]) and
      repeating the prescribed hop reaches the desired version
      ([upgrades_reach_desired]).
    - Cycles: the search is sound and complete ([hasCycle_correct]), and its
      calls are nested no deeper than the number of nodes and one
      ([dfs_terminates]).
    - Roll-out of MultiClusterServices: nothing is written to a cluster before
      its dependencies are deployed there ([okToReconcile_deployed],
      [blocked_ServiceSet_untouched]) and nothing blocks for good
      ([okToReconcile_unblocks]); the cleanup removes exactly what no longer
      matches; the status lists each matching cluster once and its counts agree
      with it.
    - Carrying a ServiceSet out: the items of a profile are those of the services
      and nothing is built from an invalid template ([refs_correct]); a profile
      that has been ensured agrees with the ServiceSet and is then left alone,
      whatever defaults the server has ([ensureProfile_converges]), and the
      condition on it says whether it was built and written, and which stage
      failed otherwise ([ensureProfile_reports]); each service has one state
      ([reconcile_one_state_each]); what is called deployed is deployed, was
      fingerprinted and found healthy ([reconcile_deployed_sound], on
      [verify_services_correct], [verifyHelmServiceOnCluster_spec] and
      [featureHelm_states]); and deletion ends with the profile gone
      ([reconcileDelete_progress]).
    - Access to child clusters: roles of others are never written to
      ([foreign_roles_untouched]); a sync that goes through leaves the catalog
      of the policy and nothing else ([sync_converges]), and only such a sync is
      reported ready ([rbac_ready_means_granted]); whenever the process stops,
      a cluster with objects of ours has its grant on record
      ([rbac_grant_recorded]).
    - Update of clusters: no Helm release is touched, so no cluster created or
      changed, unless all the cluster needs was in place
      ([release_only_when_ready]); the scope holds what the ClusterDeployment
      refers to ([getClusterScope_exact]); what the user put into the values
      stays ([fill_keeps_user_values]); a cluster that asks for addresses goes on only
      with them ([ipam_before_cluster]); services are written only to a cluster
      whose Kubernetes version they fit ([services_fit_cluster]) and are counted
      once each ([services_condition_counts]).
    - Deletion of clusters: the finalizer goes last ([finalizer_goes_last]) and
      it goes ([deletion_completes]); the clean-up deletes only what is in the
      way ([cleanup_deletes_only], [DeleteAllExceptAndWait_spec],
      [findTopLevelAllowedController_climbs]) and has seen the volumes released
      when it says so ([volumes_seen_released]).
    - Distribution: the plan divides the copies exactly ([PlanGroupKind_exact]);
      a reconciliation touches nothing but copies ([reconcile_protects]) and,
      without an error, has converged ([reconcile_kind_converges]); admission
      checks every removal that changed rules newly lead to
      ([access_update_admitted],
      [unchanged_rules_remove_the_same]), migrating rules changes no target
      ([migration_keeps_targets]) and namespace events wake what they concern
      ([namespace_wakes_its_rules]).
    - Admission: [deployment_admitted_exactly] and [update_admitted_exactly]
      state what the webhook demands in terms of the objects;
      [changed_contracts_sound] that checking what an update changes is enough;
      the deletion theorems that nothing still referred to goes.

    Examples evaluate the definitions where the code departs from its own
    comments; the manifest lists them as findings.

    ** Fuel

    Recursion that is not structural takes fuel, with the bound proved enough:
    [dfs] as many nested calls as nodes and one ([dfs_terminates]; it bounds the
    depth, not the number of calls), [findPaths] one per supported template
    left, since a path never repeats one, [place] one per service, [drop_loop] one per service since each further round drops one,
    [trim_front] one per byte. Retrying on a conflict is a parameter
    ([AccessController.Retrier]): a bounded number of attempts, however many.

    ** Not modelled, and why

    Watches, event sources, logs, events, metrics, leader election and flags
    (no decision is made there); deep copies (generated); Helm, Flux, Velero,
    Sveltos and Cluster API themselves. The template, credential, Management,
    Region and Release controllers mostly install Helm releases and report on
    them; telemetry writes counters. Other controllers and users do not run
    between two steps of a reconcile, except that clusters move on while it
    waits: it reads and writes one sequence of server states, and
    the API server's optimistic locking shows up as a failing write. *)

From Stdlib Require Export ZArith Lia Bool.
From stdpp Require Export base tactics option list gmap sets strings pretty sorting.

(* --------------------------------------------------------------------- *)
(** ** Go errors *)
(* --------------------------------------------------------------------- *)

(** The reason an API status carries; only the ones the controllers test for
    have a constructor of their own. *)
Inductive status_reason :=
  | ReasonNotFound
  | ReasonAlreadyExists
  | ReasonConflict
  | ReasonOther (r : string).

#[export] Instance status_reason_eq_dec : EqDecision status_reason.
Proof. solve_decision. Defined.

(** A non-nil Go [error]: an opaque message, an API status error, an error
    wrapped with a prefix ([fmt.Errorf("prefix%w")]), [errors.Join], and an
    error that answers [errors.Is] for a sentinel and shows nothing else of
    what it holds: the sentinel itself, or a type with an [Is] method. *)
Inductive gerror :=
  | ErrNew (msg : string)
  | ErrApi (reason : status_reason) (msg : string)
  | ErrWrap (prefix : string) (e : gerror)
  | ErrJoin (es : list gerror)
  | ErrMark (mark : string) (e : gerror).

Definition newline : string := String (Ascii.ascii_of_nat 10) "".

(** [err.Error()]. *)
Fixpoint Error (e : gerror) : string :=
  match e with
  | ErrNew msg => msg
  | ErrApi _ msg => msg
  | ErrWrap p e => p +:+ Error e
  | ErrJoin es => String.concat newline (map Error es)
  | ErrMark _ e => Error e
  end.

(** [errors.As] to an API status: the first one, in pre-order. *)
Fixpoint api_reason (e : gerror) : option status_reason :=
  match e with
  | ErrNew _ => None
  | ErrApi r _ => Some r
  | ErrWrap _ e => api_reason e
  | ErrJoin es =>
      (fix go es := match es with
                    | [] => None
                    | e :: es => match api_reason e with
                                 | Some r => Some r
                                 | None => go es
                                 end
                    end) es
  | ErrMark _ _ => None
  end.

(** [errors.Is] for the sentinel of that name. *)
Fixpoint errors_Is (mark : string) (e : gerror) : bool :=
  match e with
  | ErrNew _ | ErrApi _ _ => false
  | ErrWrap _ e => errors_Is mark e
  | ErrJoin es => existsb (errors_Is mark) es
  | ErrMark m _ => bool_decide (m = mark)
  end.

(** [var errX = errors.New(message)]. *)
Definition sentinel (message : string) : gerror := ErrMark message (ErrNew message).

(** [apierrors.IsNotFound], [IsAlreadyExists], [IsConflict]. *)
Definition has_reason (r : status_reason) (e : gerror) : bool :=
  bool_decide (api_reason e = Some r).
Definition IsNotFound : gerror → bool := has_reason ReasonNotFound.
Definition IsAlreadyExists : gerror → bool := has_reason ReasonAlreadyExists.
Definition IsConflict : gerror → bool := has_reason ReasonConflict.

(** [errors.Join]: nil errors are dropped, and nothing left is nil. *)
Definition errors_Join (es : list (option gerror)) : option gerror :=
  match omap id es with
  | [] => None
  | es => Some (ErrJoin es)
  end.

(** [errors.Join(errs, err)] as the accumulator loops use it. *)
Definition join_err (errs : option gerror) (e : gerror) : option gerror :=
  errors_Join [errs; Some e].

Lemma join_err_some errs e : is_Some (join_err errs e).
Proof. destruct errs; by eexists. Qed.
Lemma join_err_ne errs e : join_err errs e ≠ None.
Proof. by destruct errs. Qed.

(* --------------------------------------------------------------------- *)
(** ** Fallible results *)
(* --------------------------------------------------------------------- *)

(** The value-or-error pair of a Go call whose value is only used when the
    error is nil. *)
Inductive result (A : Type) :=
  | Ok (a : A)
  | Err (e : gerror).
Arguments Ok {A} _.
Arguments Err {A} _.

#[export] Instance result_ret : MRet result := λ A a, Ok a.
#[export] Instance result_bind : MBind result := λ A B f r,
  match r with Ok a => f a | Err e => Err e end.
#[export] Instance result_fmap : FMap result := λ A B f r,
  match r with Ok a => Ok (f a) | Err e => Err e end.

(** [if err != nil { return fmt.Errorf("prefix: %w", err) }]. *)
Definition wrap_err {A} (prefix : string) (r : result A) : result A :=
  match r with Ok a => Ok a | Err e => Err (ErrWrap prefix e) end.

Lemma Ok_inj {A} (a b : A) : Ok a = Ok b → a = b.
Proof. by intros [=]. Qed.

Definition is_ok {A} (r : result A) : bool :=
  match r with Ok _ => true | Err _ => false end.

Lemma bind_Ok {A B} (f : A → result B) r b :
  r ≫= f = Ok b ↔ ∃ a, r = Ok a ∧ f a = Ok b.
Proof. destruct r; split; naive_solver. Qed.

Lemma wrap_err_Ok {A} p (r : result A) a : wrap_err p r = Ok a ↔ r = Ok a.
Proof. destruct r; simpl; split; congruence. Qed.

(** A loop that stops at the first error. *)
Fixpoint mapM_result {A B} (f : A → result B) (l : list A) : result (list B) :=
  match l with
  | [] => Ok []
  | x :: l => y ← f x; ys ← mapM_result f l; Ok (y :: ys)
  end.

Lemma mapM_result_Ok {A B} (f : A → result B) l k :
  mapM_result f l = Ok k ↔ Forall2 (λ x y, f x = Ok y) l k.
Proof.
  revert k. induction l as [|x l IH]; intros k; simpl.
  - split; [intros [= <-]; constructor | by intros ->%Forall2_nil_inv_l].
  - rewrite bind_Ok. split.
    + intros (y & Hy & (ys & Hys & [= <-])%bind_Ok).
      constructor; [done|]. by apply IH.
    + intros (y & ys & Hy & Hys & ->)%Forall2_cons_inv_l.
      exists y. split; [done|]. apply bind_Ok. exists ys.
      split; [by apply IH|done].
Qed.

(** A loop over a slice whose body updates an accumulator or fails. *)
Fixpoint foldM_result {A B} (f : B → A → result B) (b : B) (l : list A) : result B :=
  match l with
  | [] => Ok b
  | x :: l => b' ← f b x; foldM_result f b' l
  end.

(** Two runs of the same call have the same result. *)
Ltac ok_eq :=
  repeat match goal with
  | H1 : ?e = Ok ?a, H2 : ?e = Ok ?b |- _ => rewrite H1 in H2; apply Ok_inj in H2
  end; simplify_eq.

Ltac res_inv :=
  repeat match goal with
  | H : Ok _ = Ok _ |- _ => injection H as H
  | H : Ok _ = Err _ |- _ => discriminate H
  | H : Err _ = Ok _ |- _ => discriminate H
  | H : (_ ≫= _) = Ok _ |- _ => apply bind_Ok in H as (? & ? & H)
  | H : wrap_err _ _ = Ok _ |- _ => apply wrap_err_Ok in H
  end.

(* --------------------------------------------------------------------- *)
(** ** Slices *)
(* --------------------------------------------------------------------- *)

(** [slices.IndexFunc]. *)
Fixpoint IndexFunc {A} (p : A → bool) (l : list A) : option nat :=
  match l with
  | [] => None
  | x :: l => if p x then Some 0 else S <$> IndexFunc p l
  end.

Lemma IndexFunc_Some {A} (p : A → bool) l i :
  IndexFunc p l = Some i →
  (∃ x, l !! i = Some x ∧ p x = true) ∧
  (∀ j y, j < i → l !! j = Some y → p y = false).
Proof.
  revert i. induction l as [|x l IH]; intros i; simpl; [done|].
  destruct (p x) eqn:Hp.
  - intros [= <-]. split; [eauto|]. intros; lia.
  - destruct (IndexFunc p l) as [n|] eqn:E; [|done]. intros [= <-].
    destruct (IH n eq_refl) as [H1 H2]. split; [done|].
    intros [|j] y Hj; simpl; [by intros [= <-]|].
    intros. eapply H2; [|done]. lia.
Qed.

Lemma IndexFunc_None {A} (p : A → bool) l :
  IndexFunc p l = None ↔ ∀ x, x ∈ l → p x = false.
Proof.
  induction l as [|x l IH]; simpl.
  - split; [intros _ x Hx; by apply elem_of_nil in Hx | done].
  - destruct (p x) eqn:Hp.
    + split; [done|]. intros H. rewrite (H x) in Hp; [done|]. left.
    + rewrite fmap_None, IH. split.
      * intros H y [->|Hy]%elem_of_cons; [done|auto].
      * intros H y Hy. apply H. by right.
Qed.

Lemma IndexFunc_lt {A} (p : A → bool) l i : IndexFunc p l = Some i → i < length l.
Proof. intros [(x & Hx & _) _]%IndexFunc_Some. by eapply lookup_lt_Some. Qed.

Lemma existsb_elem_of {A} (p : A → bool) l :
  existsb p l = true ↔ ∃ x, x ∈ l ∧ p x = true.
Proof.
  rewrite List.existsb_exists.
  split; intros (x & Hx & Hp); exists x; split; try done; by apply list_elem_of_In.
Qed.

(** [slices.DeleteFunc], and the [for ... continue] loops that drop items. *)
Definition filterb {A} (p : A → bool) (l : list A) : list A := filter (λ x, p x = true) l.

Lemma filterb_elem_of {A} (p : A → bool) l x : x ∈ filterb p l ↔ x ∈ l ∧ p x = true.
Proof. unfold filterb. rewrite list_elem_of_filter. tauto. Qed.

Lemma filterb_sublist {A} (p : A → bool) l : filterb p l `sublist_of` l.
Proof.
  unfold filterb. induction l as [|x l IH]; [constructor|].
  rewrite filter_cons. case_decide; by constructor.
Qed.

Lemma filterb_sublist_impl {A} (p q : A → bool) l :
  (∀ x, p x = true → q x = true) → filterb p l `sublist_of` filterb q l.
Proof.
  intros Himp. unfold filterb. induction l as [|x l IH]; [constructor|].
  rewrite !filter_cons. destruct (decide (p x = true)) as [Hp|Hp].
  - rewrite decide_True by auto. by constructor.
  - case_decide; [by constructor|done].
Qed.

Lemma filter_all {A} (P : A → Prop) `{!∀ x, Decision (P x)} (l : list A) :
  (∀ x, x ∈ l → P x) → filter P l = l.
Proof.
  induction l as [|x l IH]; intros Hall; [done|].
  rewrite filter_cons, decide_True by (apply Hall; left).
  f_equal. apply IH. intros; apply Hall; by right.
Qed.

Lemma length_pos_elem {A} (l : list A) : 0 < length l ↔ ∃ x, x ∈ l.
Proof.
  destruct l as [|x l]; simpl; split; try lia.
  - by intros [x Hx%elem_of_nil].
  - intros _. exists x. left.
Qed.

Lemma fmap_nil_iff {A B} (f : A → B) l : f <$> l = [] ↔ l = [].
Proof. split; [apply fmap_nil_inv | by intros ->]. Qed.

Lemma sublist_fmap {A B} (f : A → B) l k : l `sublist_of` k → f <$> l `sublist_of` f <$> k.
Proof. induction 1; simpl; by constructor. Qed.

(** Elements of a list with distinct keys are determined by their key. *)
Lemma NoDup_fmap_eq {A B} (f : A → B) l x y :
  NoDup (f <$> l) → x ∈ l → y ∈ l → f x = f y → x = y.
Proof.
  intros Hnd [i Hi]%list_elem_of_lookup [j Hj]%list_elem_of_lookup Hf.
  assert (i = j) as ->; [|congruence].
  eapply (NoDup_lookup (f <$> l)); [done| |]; rewrite list_lookup_fmap;
    [by rewrite Hi|by rewrite Hj, Hf].
Qed.

#[export] Instance filterb_perm {A} (p : A → bool) :
  Proper (Permutation ==> Permutation) (filterb p).
Proof. unfold filterb. solve_proper. Qed.

Lemma Permutation_nil_iff {A} (l k : list A) : l ≡ₚ k → l = [] ↔ k = [].
Proof.
  intros Hp. split; intros ->; [by apply Permutation_nil_l in Hp|].
  by apply Permutation_nil_r in Hp.
Qed.

Lemma filterb_ext {A} (p q : A → bool) l :
  (∀ x, x ∈ l → p x = q x) → filterb p l = filterb q l.
Proof.
  unfold filterb. induction l as [|x l IH]; intros H; [done|].
  rewrite !filter_cons, IH by (intros; apply H; by right).
  rewrite (H x) by left. repeat case_decide; congruence.
Qed.

(* --------------------------------------------------------------------- *)
(** ** Sorting *)
(* --------------------------------------------------------------------- *)

(** [slices.SortStableFunc] (and [slices.SortFunc] where no two elements
    compare equal, which determines the result): insertion sort. [leb a b]
    is [cmp(a, b) <= 0]. *)
Section isort.
Context {A : Type} (leb : A → A → bool).

Fixpoint insert_sorted (x : A) (l : list A) : list A :=
  match l with
  | [] => [x]
  | y :: l' => if leb x y then x :: l else y :: insert_sorted x l'
  end.

Definition isort (l : list A) : list A := foldr insert_sorted [] l.

Lemma insert_sorted_perm x l : insert_sorted x l ≡ₚ x :: l.
Proof.
  induction l as [|y l IH]; simpl; [done|].
  destruct (leb x y); [done|]. rewrite IH. by constructor.
Qed.

Lemma isort_perm l : isort l ≡ₚ l.
Proof.
  induction l as [|x l IH]; simpl; [done|].
  by rewrite insert_sorted_perm, IH.
Qed.

Lemma isort_elem_of x l : x ∈ isort l ↔ x ∈ l.
Proof. by rewrite isort_perm. Qed.

Definition Rle (a b : A) : Prop := leb a b = true.

(** Sorting a list that is in order leaves it alone. *)
Lemma isort_id l : StronglySorted Rle l → isort l = l.
Proof.
  induction 1 as [|x l Hl IH Hx]; simpl; [done|].
  rewrite IH. destruct l as [|y l]; simpl; [done|].
  apply Forall_cons in Hx as [Hx _]. unfold Rle in Hx. by rewrite Hx.
Qed.

(** Elements that compare equal keep their order. *)
Lemma isort_stable (P : A → Prop) `{!∀ x, Decision (P x)} l :
  (∀ a b, P a → P b → leb a b = true) →
  filter P (isort l) = filter P l.
Proof.
  intros Heq. induction l as [|x l IH]; simpl; [done|].
  rewrite filter_cons, <- IH. clear IH.
  induction (isort l) as [|y k IH]; simpl.
  - rewrite filter_cons. by case_decide.
  - destruct (leb x y) eqn:E.
    + rewrite (filter_cons _ x). by case_decide.
    + rewrite (filter_cons _ y (insert_sorted x k)), IH, !filter_cons.
      repeat case_decide; try done.
      rewrite (Heq x y) in E; done.
Qed.

Hypothesis leb_total : ∀ a b, leb a b = true ∨ leb b a = true.
Hypothesis leb_trans : ∀ a b c, leb a b = true → leb b c = true → leb a c = true.

Lemma insert_sorted_sorted x l :
  StronglySorted Rle l → StronglySorted Rle (insert_sorted x l).
Proof.
  induction 1 as [|y l Hl IH Hy]; simpl.
  - repeat constructor.
  - destruct (leb x y) eqn:E.
    + constructor; [by constructor|]. constructor; [done|].
      eapply Forall_impl; [exact Hy|]. intros z Hz.
      by eapply leb_trans.
    + constructor; [done|]. rewrite insert_sorted_perm.
      constructor; [|done].
      destruct (leb_total x y) as [H|H]; [congruence|done].
Qed.

Lemma isort_sorted l : StronglySorted Rle (isort l).
Proof. induction l; simpl; [constructor|by apply insert_sorted_sorted]. Qed.

(** Where no two distinct elements compare equal the sorted order is unique,
    so it does not depend on the order the input came in. *)
Lemma isort_unique l k :
  (∀ a b, a ∈ l → b ∈ l → leb a b = true → leb b a = true → a = b) →
  l ≡ₚ k → isort l = isort k.
Proof.
  intros Hanti Hp. eapply (StronglySorted_unique_strong Rle).
  - intros a b Ha Hb. apply Hanti; [by apply isort_elem_of|].
    rewrite Hp. by apply isort_elem_of.
  - apply isort_sorted.
  - apply isort_sorted.
  - by rewrite !isort_perm.
Qed.
End isort.

Lemma strongly_sorted_lt {A} (R : A → A → Prop) l i j x y :
  StronglySorted R l → i < j → l !! i = Some x → l !! j = Some y → R x y.
Proof.
  intros Hs. revert i j. induction Hs as [|z l Hl IH Hz]; intros i j Hij Hi Hj; [done|].
  destruct j as [|j]; [lia|]. destruct i as [|i]; simpl in *.
  - simplify_eq. rewrite Forall_forall in Hz. apply Hz. by eapply list_elem_of_lookup_2.
  - eapply IH; [|done..]. lia.
Qed.

Lemma string_length_app s t : String.length (s +:+ t) = String.length s + String.length t.
Proof. induction s as [|a s IH]; simpl; [done|]. by rewrite IH. Qed.

(** [cmp.Compare(a, b) <= 0] on Go strings: byte-wise lexicographic order. *)
Definition string_leb (a b : string) : bool := bool_decide (String.le a b).

Lemma string_leb_total a b : string_leb a b = true ∨ string_leb b a = true.
Proof.
  unfold string_leb. rewrite !bool_decide_eq_true.
  destruct (total String.le a b); auto.
Qed.
Lemma string_leb_trans a b c :
  string_leb a b = true → string_leb b c = true → string_leb a c = true.
Proof. unfold string_leb. rewrite !bool_decide_eq_true. by intros ->. Qed.
Lemma string_leb_antisym a b : string_leb a b = true → string_leb b a = true → a = b.
Proof. unfold string_leb. rewrite !bool_decide_eq_true. apply (anti_symm _). Qed.

(* --------------------------------------------------------------------- *)
(** ** Maps *)
(* --------------------------------------------------------------------- *)

(** [for _, x := range l { m[key(x)] = val(x) }]: the last entry wins. *)
Section index.
Context {K : Type} `{Countable K} {A V : Type} (key : A → K) (val : A → V).

Definition index_by (l : list A) : gmap K V :=
  foldl (λ m x, <[key x := val x]> m) ∅ l.

Lemma index_by_snoc l x : index_by (l ++ [x]) = <[key x := val x]> (index_by l).
Proof. unfold index_by. by rewrite foldl_app. Qed.

Lemma index_by_app l k x :
  index_by (l ++ k) !! x = match index_by k !! x with Some v => Some v | None => index_by l !! x end.
Proof.
  induction k as [|y k IH] using rev_ind; [by rewrite app_nil_r|].
  rewrite app_assoc, !index_by_snoc. destruct (decide (key y = x)) as [->|Hne].
  - by rewrite !lookup_insert_eq.
  - by rewrite !lookup_insert_ne.
Qed.

Lemma index_by_Some l k v :
  index_by l !! k = Some v → ∃ x, x ∈ l ∧ key x = k ∧ val x = v.
Proof.
  induction l as [|x l IH] using rev_ind; [done|].
  rewrite index_by_snoc, lookup_insert_Some.
  intros [[Hk Hv]|[Hk Hv]].
  - exists x. set_solver.
  - destruct (IH Hv) as (y & ? & ? & ?). exists y. set_solver.
Qed.

Lemma index_by_is_Some l k : is_Some (index_by l !! k) ↔ ∃ x, x ∈ l ∧ key x = k.
Proof.
  induction l as [|x l IH] using rev_ind.
  - split; [by intros [? ?]|]. intros (x & Hx & _). by apply elem_of_nil in Hx.
  - rewrite index_by_snoc, lookup_insert_is_Some', IH. set_solver.
Qed.

Lemma index_by_None l k : index_by l !! k = None ↔ ∀ x, x ∈ l → key x ≠ k.
Proof.
  rewrite eq_None_not_Some, index_by_is_Some. naive_solver.
Qed.

(** With distinct keys every element is found under its key. *)
Lemma index_by_lookup l x :
  NoDup (key <$> l) → x ∈ l → index_by l !! key x = Some (val x).
Proof.
  induction l as [|y l IH] using rev_ind; intros Hnd Hx; [by apply elem_of_nil in Hx|].
  rewrite index_by_snoc. rewrite fmap_app in Hnd.
  apply NoDup_app in Hnd as (Hnd & Hdis & _).
  apply elem_of_app in Hx as [Hx|Hx%list_elem_of_singleton].
  - rewrite lookup_insert_ne; [auto|].
    intros Heq. apply (Hdis (key x)); [by apply list_elem_of_fmap_2|].
    simpl. rewrite Heq. left.
  - subst. by rewrite lookup_insert_eq.
Qed.
End index.

(** [for _, x := range l { m[key(x)] = append(m[key(x)], x) }]. *)
Section group.
Context {K : Type} `{Countable K} {A : Type} (key : A → K).

Definition group_by (l : list A) : gmap K (list A) :=
  foldl (λ m x, <[key x := default [] (m !! key x) ++ [x]]> m) ∅ l.

(** Every element is kept, in order, under its key. *)
Lemma group_by_lookup l k :
  group_by l !! k = match filterb (λ x, bool_decide (key x = k)) l with [] => None | l => Some l end.
Proof.
  induction l as [|x l IH] using rev_ind; [done|].
  unfold group_by, filterb in *. rewrite foldl_app, filter_app, filter_cons, filter_nil. cbn [foldl].
  destruct (decide (key x = k)) as [<-|Hne].
  - rewrite decide_True by by apply bool_decide_eq_true. rewrite lookup_insert_eq, IH.
    by destruct (filter _ l).
  - rewrite decide_False by by rewrite bool_decide_eq_true. rewrite lookup_insert_ne by done.
    by rewrite app_nil_r.
Qed.

Lemma group_by_Some l k xs :
  group_by l !! k = Some xs ↔ xs = filterb (λ x, bool_decide (key x = k)) l ∧ xs ≠ [].
Proof. rewrite group_by_lookup. destruct (filterb _ l); split; naive_solver. Qed.

Lemma group_by_is_Some l k : is_Some (group_by l !! k) ↔ ∃ x, x ∈ l ∧ key x = k.
Proof.
  rewrite group_by_lookup. split.
  - destruct (filterb _ l) as [|x xs] eqn:E; [by intros []|]. intros _. exists x.
    assert (x ∈ filterb (λ x, bool_decide (key x = k)) l) as Hx by (rewrite E; left).
    apply filterb_elem_of in Hx as [? Hk]. by apply bool_decide_eq_true in Hk.
  - intros (x & Hx & Hk). destruct (filterb _ l) as [|y ys] eqn:E; [|by eexists].
    assert (x ∈ filterb (λ x, bool_decide (key x = k)) l) as Hin
      by by apply filterb_elem_of; rewrite bool_decide_eq_true.
    rewrite E in Hin. by apply elem_of_nil in Hin.
Qed.
End group.

(** A loop that passes over keys it has met: [seen] holds those met before. *)
Section unseen.
Context {K : Type} `{Countable K} {A : Type} (key : A → K).

Fixpoint unseen (seen : gset K) (l : list A) : list A :=
  match l with
  | [] => []
  | x :: l => if bool_decide (key x ∈ seen) then unseen seen l else x :: unseen ({[ key x ]} ∪ seen) l
  end.

Lemma unseen_app seen l k :
  unseen seen (l ++ k) = unseen seen l ++ unseen (list_to_set (key <$> l) ∪ seen) k.
Proof.
  revert seen. induction l as [|x l IH]; intros seen; cbn [app unseen].
  - by rewrite fmap_nil, list_to_set_nil, (left_id_L ∅ (∪)).
  - rewrite fmap_cons, list_to_set_cons. case_bool_decide as Hin; rewrite IH.
    + by replace ({[key x]} ∪ list_to_set (key <$> l) ∪ seen) with (list_to_set (key <$> l) ∪ seen) by set_solver.
    + by replace (list_to_set (key <$> l) ∪ ({[key x]} ∪ seen))
        with ({[key x]} ∪ list_to_set (key <$> l) ∪ seen) by set_solver.
Qed.

Lemma unseen_elem_of seen l x : x ∈ unseen seen l → x ∈ l ∧ key x ∉ seen.
Proof.
  revert seen. induction l as [|y l IH]; intros seen; cbn [unseen]; [by intros ?%elem_of_nil|].
  case_bool_decide as Hin.
  - intros [? ?]%IH. split; [by right|done].
  - intros [->|[? ?]%IH]%elem_of_cons; [by split; [left|]|]. split; [by right|set_solver].
Qed.
End unseen.

(** A Go [range] over a map visits its keys in an unspecified order, which may
    differ from one [range] statement (or one iteration of an outer loop) to
    the next. [range_seq t s] is the order of the [t]-th range over key set
    [s]; all that is promised of it is that it visits every key once. *)
Class MapRange (K : Type) `{Countable K} := {
  range_seq : nat → gset K → list K;
  range_seq_perm : ∀ t s, range_seq t s ≡ₚ elements s
}.

Lemma range_seq_elem `{MapRange K} t s k : k ∈ range_seq t s ↔ k ∈ s.
Proof. by rewrite range_seq_perm, elem_of_elements. Qed.

#[export] Instance omap_perm {A B} (f : A → option B) :
  Proper (Permutation ==> Permutation) (omap f : list A → list B).
Proof.
  induction 1 as [|x l k _ IH|x y l|l k k' _ IH1 _ IH2]; simpl; [done| | |by rewrite IH1].
  - destruct (f x); [by constructor|done].
  - destruct (f x), (f y); try done. constructor.
Qed.

(** A range over a map visits each entry once. *)
Lemma range_values `{MapRange K} {V W} (t : nat) (m : gmap K V) (f : V → W) :
  omap (λ k, f <$> m !! k) (range_seq t (dom m)) ≡ₚ f <$> (map_to_list m).*2.
Proof.
  rewrite range_seq_perm.
  transitivity (omap (λ k, f <$> m !! k) (map_to_list m).*1).
  - apply omap_perm, NoDup_Permutation; [apply NoDup_elements|apply NoDup_fst_map_to_list|].
    intros k. rewrite elem_of_elements, elem_of_dom, list_elem_of_fmap. split.
    + intros [v Hv]. exists (k, v). by rewrite elem_of_map_to_list.
    + intros ([k' v] & -> & Hv%elem_of_map_to_list). by eexists.
  - assert (∀ k v, (k, v) ∈ map_to_list m → m !! k = Some v) as Hm
      by by intros ? ?; rewrite elem_of_map_to_list.
    revert Hm. generalize (map_to_list m). intros l.
    induction l as [|[k v] l IH]; intros Hm; [done|]. csimpl. rewrite (Hm k v) by left. simpl.
    constructor. apply IH. intros; apply Hm; by right.
Qed.

(** One such order, for running the definitions. *)
#[export] Program Instance elements_range `{Countable K} : MapRange K | 100 :=
  {| range_seq _ s := elements s |}.
Next Obligation. done. Qed.

(** Its mirror image: the tests that a result does not depend on the order
    compare the two. *)
Program Definition reverse_range `{Countable K} : MapRange K :=
  {| range_seq _ s := reverse (elements s) |}.
Next Obligation. intros. by rewrite reverse_Permutation. Qed.

(* --------------------------------------------------------------------- *)
(** ** Hints and tactics shared by the components *)
(* --------------------------------------------------------------------- *)

Create HintDb kcm.
#[export] Hint Resolve string_leb_total string_leb_trans string_leb_antisym : kcm.
#[export] Hint Resolve join_err_some filterb_sublist : kcm.

(** Splits every boolean connective and boolean decision in the context. *)
Ltac bool_simpl :=
  repeat match goal with
  | H : (_ && _)%bool = true |- _ => apply andb_true_iff in H as [? ?]
  | H : (_ || _)%bool = false |- _ => apply orb_false_iff in H as [? ?]
  | H : negb _ = true |- _ => apply negb_true_iff in H
  | H : negb _ = false |- _ => apply negb_false_iff in H
  | H : bool_decide _ = true |- _ => apply bool_decide_eq_true in H
  | H : bool_decide _ = false |- _ => apply bool_decide_eq_false in H
  end.
