(* ===== verification/GoStrings.v ===== *)
(** * Go strings.

    The functions of Go's [strings] and [strconv] packages the components use,
    on byte strings, with the lemmas that relate them: [Split] and [Join] are
    inverse, [Index] finds the first occurrence, [Atoi] reads back what is
    printed. *)

From S2P Require Import Prelude.

#[local] Arguments String.append !_ _ / : simpl nomatch.

(** ** Bytes *)

Definition byte_in (lo hi : nat) (c : Ascii.ascii) : bool :=
  ((lo <=? Ascii.nat_of_ascii c) && (Ascii.nat_of_ascii c <=? hi))%nat.

(** The bytes of a string. *)
Fixpoint bytes (s : string) : list Ascii.ascii :=
  match s with EmptyString => [] | String a s => a :: bytes s end.
Fixpoint of_bytes (l : list Ascii.ascii) : string :=
  match l with [] => EmptyString | a :: l => String a (of_bytes l) end.

Lemma of_bytes_bytes s : of_bytes (bytes s) = s.
Proof. induction s; simpl; congruence. Qed.
Lemma bytes_of_bytes l : bytes (of_bytes l) = l.
Proof. induction l; simpl; congruence. Qed.
Lemma bytes_app s t : bytes (s +:+ t) = bytes s ++ bytes t.
Proof. induction s; simpl; congruence. Qed.
Lemma bytes_inj s t : bytes s = bytes t → s = t.
Proof. intros H. by rewrite <- (of_bytes_bytes s), H, of_bytes_bytes. Qed.

Lemma string_app_assoc s t u : (s +:+ t) +:+ u = s +:+ (t +:+ u).
Proof. induction s; simpl; congruence. Qed.
Lemma string_app_nil s : s +:+ "" = s.
Proof. induction s; simpl; congruence. Qed.

(** [strings.IndexByte(s, c) != -1]. *)
Definition ContainsByte (c : Ascii.ascii) (s : string) : bool := bool_decide (c ∈ bytes s).

(** ** Substrings *)

(** [s[:n]] and [s[n:]], [n] being within bounds. *)
Definition str_take (n : nat) (s : string) : string := of_bytes (take n (bytes s)).
Definition str_drop (n : nat) (s : string) : string := of_bytes (drop n (bytes s)).

Definition HasPrefix (s prefix : string) : bool := String.prefix prefix s.

Fixpoint Index (s sub : string) : option nat :=
  if HasPrefix s sub then Some 0
  else match s with EmptyString => None | String _ s => S <$> Index s sub end.

(** [strings.Cut]: what is before and after the first separator. *)
Definition Cut (s sep : string) : option (string * string) :=
  n ← Index s sep; Some (str_take n s, str_drop (n + String.length sep) s).

(** [strings.TrimSuffix]. *)
Definition TrimSuffix (s suffix : string) : string :=
  let n := String.length s - String.length suffix in
  if bool_decide (str_drop n s = suffix) then str_take n s else s.

Lemma length_bytes s : length (bytes s) = String.length s.
Proof. induction s; simpl; congruence. Qed.

Lemma str_take_app s t : str_take (String.length s) (s +:+ t) = s.
Proof. unfold str_take. by rewrite bytes_app, <- length_bytes, take_app_length, of_bytes_bytes. Qed.
Lemma str_drop_app s t : str_drop (String.length s) (s +:+ t) = t.
Proof. unfold str_drop. by rewrite bytes_app, <- length_bytes, drop_app_length, of_bytes_bytes. Qed.

Lemma str_take_length n s : n ≤ String.length s → String.length (str_take n s) = n.
Proof.
  intros Hn. unfold str_take. rewrite <- length_bytes, bytes_of_bytes, length_take, length_bytes. lia.
Qed.

(** Trimming takes no more than the suffix. *)
Lemma TrimSuffix_length s suffix :
  String.length s - String.length suffix ≤ String.length (TrimSuffix s suffix).
Proof. unfold TrimSuffix. case_bool_decide; [rewrite str_take_length; lia|lia]. Qed.

Lemma HasPrefix_true s p : HasPrefix s p = true ↔ ∃ r, s = p +:+ r.
Proof.
  unfold HasPrefix. revert s. induction p as [|a p IH]; intros s; simpl.
  - assert (String.prefix "" s = true) as -> by by destruct s. split; [|done]. intros _. by exists s.
  - destruct s as [|b s]; simpl; [split; [done|by intros []]|].
    destruct (Ascii.ascii_dec a b) as [->|Hne].
    + rewrite IH. split; intros [r Hr]; exists r; [by rewrite Hr|by injection Hr].
    + split; [done|]. intros [r [= ? ?]]. by destruct Hne.
Qed.

Lemma Index_unfold s sub :
  Index s sub = if HasPrefix s sub then Some 0
                else match s with EmptyString => None | String _ s => S <$> Index s sub end.
Proof. by destruct s. Qed.

Lemma Index_Some s sub n :
  Index s sub = Some n → ∃ a b, s = a +:+ (sub +:+ b) ∧ String.length a = n.
Proof.
  revert n. induction s as [|c s IH]; intros n; rewrite Index_unfold;
    (destruct (HasPrefix _ sub) eqn:E;
     [apply HasPrefix_true in E as [r Hr]; intros [= <-]; exists "", r; done|]); [done|].
  destruct (Index s sub) as [m|]; [|done]. intros [= <-].
  destruct (IH m eq_refl) as (a & b & -> & <-). by exists (String c a), b.
Qed.

Lemma Index_None s sub : Index s sub = None ↔ ∀ a b, s ≠ a +:+ (sub +:+ b).
Proof.
  induction s as [|c s IH]; rewrite Index_unfold.
  - destruct (HasPrefix "" sub) eqn:E.
    + split; [done|]. intros Hno. apply HasPrefix_true in E as [r Hr]. by destruct (Hno "" r).
    + split; [|done]. intros _ a b Heq.
      destruct a as [|c a]; [|done]. assert (HasPrefix "" sub = true) as Ht; [|congruence].
      apply HasPrefix_true. by exists b.
  - destruct (HasPrefix (String c s) sub) eqn:E.
    + split; [done|]. intros Hno. apply HasPrefix_true in E as [r Hr]. by destruct (Hno "" r).
    + rewrite fmap_None, IH. split; intros Hno a b Heq.
      * destruct a as [|c' a]; simpl in Heq.
        { assert (HasPrefix (String c s) sub = true) as Ht; [|congruence].
          apply HasPrefix_true. by exists b. }
        injection Heq as -> Heq. by apply (Hno a b).
      * apply (Hno (String c a) b). simpl. by rewrite Heq.
Qed.

Lemma Cut_Some s sep a b :
  Cut s sep = Some (a, b) → s = a +:+ (sep +:+ b).
Proof.
  unfold Cut. destruct (Index s sep) as [n|] eqn:E; simpl; [|done]. intros [= <- <-].
  apply Index_Some in E as (a & b & -> & <-). rewrite str_take_app.
  rewrite <- string_length_app, <- string_app_assoc, str_drop_app. by rewrite string_app_assoc.
Qed.

(** ** Split and Join *)

(** [strings.Split(s, sep)] for a separator of one byte. *)
Fixpoint Split (s : string) (sep : Ascii.ascii) : list string :=
  match s with
  | EmptyString => [""]
  | String a s =>
      if bool_decide (a = sep) then "" :: Split s sep
      else match Split s sep with
           | x :: l => String a x :: l
           | [] => [String a ""]
           end
  end.

(** [strings.ReplaceAll] of one byte by another. *)
Fixpoint replace_byte (old new : Ascii.ascii) (s : string) : string :=
  match s with
  | EmptyString => EmptyString
  | String a s => String (if bool_decide (a = old) then new else a) (replace_byte old new s)
  end.

Definition Join (l : list string) (sep : string) : string := String.concat sep l.

(** [fmt.Sprintf("%v", l)] of a slice of strings. *)
Definition show_slice (l : list string) : string := "[" +:+ Join l " " +:+ "]".

Lemma Split_ne s sep : Split s sep ≠ [].
Proof. destruct s as [|a s]; simpl; [done|]. case_bool_decide; [done|]. by destruct (Split s sep). Qed.

Lemma Join_cons x l sep : l ≠ [] → Join (x :: l) sep = x +:+ (sep +:+ Join l sep).
Proof. by destruct l. Qed.

Lemma Join_length_elem x l sep : x ∈ l → String.length x ≤ String.length (Join l sep).
Proof.
  induction l as [|y l IH]; intros Hx; [by apply elem_of_nil in Hx|].
  apply elem_of_cons in Hx as [->|Hx].
  - destruct l; [done|]. rewrite Join_cons by done. rewrite string_length_app. lia.
  - rewrite Join_cons by (by intros ->; apply elem_of_nil in Hx). rewrite !string_length_app. specialize (IH Hx). lia.
Qed.

Lemma Join_Split s sep : Join (Split s sep) (String sep "") = s.
Proof.
  induction s as [|a s IH]; [done|]. simpl. pose proof (Split_ne s sep) as Hne. case_bool_decide as Ha.
  - subst a. rewrite Join_cons by done. by rewrite IH.
  - destruct (Split s sep) as [|x l]; [done|]. rewrite <- IH. by destruct l.
Qed.

Lemma Split_no_sep x sep : sep ∉ bytes x → Split x sep = [x].
Proof.
  induction x as [|a x IH]; intros Hx; [done|]. simpl in *. apply not_elem_of_cons in Hx as [Ha Hx].
  rewrite bool_decide_eq_false_2 by done. by rewrite IH.
Qed.

Lemma Split_app x s sep : sep ∉ bytes x → Split (x +:+ String sep s) sep = x :: Split s sep.
Proof.
  induction x as [|a x IH]; intros Hx; simpl in *.
  - by rewrite bool_decide_eq_true_2.
  - apply not_elem_of_cons in Hx as [Ha Hx]. rewrite bool_decide_eq_false_2 by done. by rewrite IH.
Qed.

Lemma Split_Join l sep : l ≠ [] → (∀ x, x ∈ l → sep ∉ bytes x) → Split (Join l (String sep "")) sep = l.
Proof.
  induction l as [|x l IH]; intros Hne Hl; [done|].
  assert (sep ∉ bytes x) as Hx by (apply Hl; left). destruct l as [|y l]; [by apply Split_no_sep|].
  rewrite Join_cons by done. simpl. rewrite Split_app by done. f_equal.
  apply IH; [done|]. intros; apply Hl; by right.
Qed.

(** ** White space *)

(** The UTF-8 encodings of Unicode white space ([unicode.IsSpace]). *)
Definition byte_string (l : list nat) : list Ascii.ascii := Ascii.ascii_of_nat <$> l.
Definition spaces : list (list Ascii.ascii) :=
  byte_string <$>
  [[9]; [10]; [11]; [12]; [13]; [32]; [194; 133]; [194; 160]; [225; 154; 128];
   [226; 128; 128]; [226; 128; 129]; [226; 128; 130]; [226; 128; 131]; [226; 128; 132]; [226; 128; 133];
   [226; 128; 134]; [226; 128; 135]; [226; 128; 136]; [226; 128; 137]; [226; 128; 138];
   [226; 128; 168]; [226; 128; 169]; [226; 128; 175]; [226; 129; 159]; [227; 128; 128]]%nat.

Fixpoint drop_prefix (p l : list Ascii.ascii) : option (list Ascii.ascii) :=
  match p, l with
  | [], _ => Some l
  | a :: p, b :: l => if bool_decide (a = b) then drop_prefix p l else None
  | _ :: _, [] => None
  end.

(** Drops encodings from the front; every round drops a byte at least, so the
    length is fuel enough. *)
Fixpoint trim_front (fuel : nat) (encodings : list (list Ascii.ascii)) (l : list Ascii.ascii)
  : list Ascii.ascii :=
  match fuel with
  | 0 => l
  | S fuel => match omap (λ e, drop_prefix e l) encodings with
              | l :: _ => trim_front fuel encodings l
              | [] => l
              end
  end.

Definition TrimSpace (s : string) : string :=
  let l := trim_front (String.length s) spaces (bytes s) in
  of_bytes (reverse (trim_front (length l) (reverse <$> spaces) (reverse l))).

Lemma drop_prefix_Some p l k : drop_prefix p l = Some k ↔ l = p ++ k.
Proof.
  revert l. induction p as [|a p IH]; intros l; simpl; [split; congruence|].
  destruct l as [|b l]; [done|]. case_bool_decide as Hb; [subst; rewrite IH; split; congruence|].
  split; [done|]. congruence.
Qed.

(** What is trimmed consists of whole encodings. *)
Lemma trim_front_app fuel encodings l :
  ∃ es, Forall (λ e, e ∈ encodings) es ∧ l = concat es ++ trim_front fuel encodings l.
Proof.
  revert l. induction fuel as [|fuel IH]; intros l; simpl; [by exists []|].
  destruct (omap (λ e, drop_prefix e l) encodings) as [|k ks] eqn:E; [by exists []|].
  assert (k ∈ omap (λ e, drop_prefix e l) encodings) as (e & He & Hk%drop_prefix_Some)%list_elem_of_omap
    by (rewrite E; left).
  destruct (IH k) as (es & Hes & Heq). exists (e :: es). split; [by constructor|].
  simpl. by rewrite <- app_assoc, <- Heq.
Qed.

Lemma trim_front_id fuel encodings l :
  (∀ e, e ∈ encodings → ∃ a, head e = Some a ∧ head l ≠ Some a) → trim_front fuel encodings l = l.
Proof.
  intros Hno. destruct fuel as [|fuel]; [done|]. simpl.
  destruct (omap (λ e, drop_prefix e l) encodings) as [|k ks] eqn:E; [done|].
  assert (k ∈ omap (λ e, drop_prefix e l) encodings) as (e & He & Hk%drop_prefix_Some)%list_elem_of_omap
    by (rewrite E; left).
  destruct (Hno e He) as (a & Ha & Hl). destruct e as [|a' e]; [done|]. simpl in Ha. subst l. by destruct Hl.
Qed.

(** The bytes white space is made of. *)
Definition space_byte (a : Ascii.ascii) : bool := bool_decide (a ∈ concat spaces).

Lemma TrimSpace_surround s :
  ∃ pre post, bytes s = pre ++ bytes (TrimSpace s) ++ post ∧
    Forall (λ a, space_byte a = true) pre ∧ Forall (λ a, space_byte a = true) post.
Proof.
  unfold TrimSpace. set (l := trim_front (String.length s) spaces (bytes s)). rewrite bytes_of_bytes.
  destruct (trim_front_app (String.length s) spaces (bytes s)) as (es & Hes & Heq). fold l in Heq.
  destruct (trim_front_app (length l) (reverse <$> spaces) (reverse l)) as (fs & Hfs & Heq').
  exists (concat es), (reverse (concat fs)). split_and!.
  - rewrite Heq. f_equal. rewrite <- reverse_app, <- Heq'. by rewrite reverse_involutive.
  - apply Forall_forall. intros a Ha. apply bool_decide_eq_true.
    apply list_elem_of_In, in_concat in Ha as (e & He & Ha).
    rewrite Forall_forall in Hes. apply list_elem_of_In, in_concat. exists e. split; [|done].
    apply list_elem_of_In, Hes. by apply list_elem_of_In.
  - apply Forall_forall. intros a Ha. rewrite elem_of_reverse in Ha. apply bool_decide_eq_true.
    apply list_elem_of_In, in_concat in Ha as (e & He & Ha).
    rewrite Forall_forall in Hfs. apply list_elem_of_In in He. apply Hfs in He.
    apply list_elem_of_fmap in He as (e' & -> & He'). apply list_elem_of_In, in_concat. exists e'.
    split; [by apply list_elem_of_In|]. apply list_elem_of_In. apply list_elem_of_In in Ha.
    by rewrite elem_of_reverse in Ha.
Qed.

(** ** Numbers *)

Definition digit (a : Ascii.ascii) : option N :=
  if byte_in 48 57 a then Some (Ascii.N_of_ascii a - 48)%N else None.

Fixpoint parse_digits (acc : N) (s : string) : option N :=
  match s with
  | EmptyString => Some acc
  | String a s => d ← digit a; parse_digits (acc * 10 + d) s
  end.

Definition ParseUint (s : string) : option N :=
  match s with EmptyString => None | _ => parse_digits 0 s end.

Definition minus_byte : Ascii.ascii := Ascii.ascii_of_nat 45.
Definition plus_byte : Ascii.ascii := Ascii.ascii_of_nat 43.

(** [strconv.Atoi] where it succeeds: an optional sign and decimal digits, the
    value within 64 bits. *)
Definition Atoi (s : string) : option Z :=
  let '(neg, digits) := match s with
                        | String a r => if bool_decide (a = minus_byte) then (true, r)
                                        else if bool_decide (a = plus_byte) then (false, r) else (false, s)
                        | EmptyString => (false, s)
                        end in
  n ← ParseUint digits;
  if (neg : bool) then if bool_decide (Z.of_N n ≤ 2 ^ 63)%Z then Some (- Z.of_N n)%Z else None
  else if bool_decide (Z.of_N n < 2 ^ 63)%Z then Some (Z.of_N n) else None.

Lemma Atoi_range s z : Atoi s = Some z → (- 2 ^ 63 ≤ z < 2 ^ 63)%Z.
Proof.
  unfold Atoi. destruct (match s with EmptyString => _ | _ => _ end) as [neg digits].
  destruct (ParseUint digits) as [n|]; simpl; [|done].
  destruct neg; case_bool_decide; intros [= <-]; lia.
Qed.

(** Digits and signs. *)
Definition numeral_byte (a : Ascii.ascii) : bool :=
  byte_in 48 57 a || bool_decide (a = minus_byte) || bool_decide (a = plus_byte).

Lemma parse_digits_bytes acc s n :
  parse_digits acc s = Some n → Forall (λ a, byte_in 48 57 a = true) (bytes s).
Proof.
  revert acc. induction s as [|a s IH]; intros acc; simpl; [constructor|].
  unfold digit. destruct (byte_in 48 57 a) eqn:E; simpl; [|done]. intros Hp. constructor; eauto.
Qed.

Lemma Atoi_bytes s z :
  Atoi s = Some z → bytes s ≠ [] ∧ Forall (λ a, numeral_byte a = true) (bytes s).
Proof.
  unfold Atoi. destruct s as [|a s]; [done|]. intros Hz. split; [done|].
  assert (∀ t n, ParseUint t = Some n → Forall (λ a, numeral_byte a = true) (bytes t)) as Hall.
  { intros t n Ht. eapply Forall_impl; [apply (parse_digits_bytes 0 t n); by destruct t|].
    intros x Hx. unfold numeral_byte. simpl in Hx. by rewrite Hx. }
  simpl. repeat case_bool_decide;
    (destruct (ParseUint _) as [n|] eqn:E; [|done]); try constructor; eauto using Forall_cons;
    try (subst; reflexivity); by apply Hall in E as [? ?]%Forall_cons.
Qed.

Lemma digit_pretty n : (n < 10)%N → digit (pretty_N_char n) = Some n.
Proof.
  intros Hn. assert (n = 0 ∨ n = 1 ∨ n = 2 ∨ n = 3 ∨ n = 4 ∨ n = 5 ∨ n = 6 ∨ n = 7 ∨ n = 8 ∨ n = 9)%N as Hc by lia.
  destruct_or! Hc; subst; reflexivity.
Qed.

Lemma parse_pretty_go x s : parse_digits 0 (pretty_N_go x s) = parse_digits x s.
Proof.
  revert s. induction (N.lt_wf_0 x) as [x _ IH]; intros s.
  destruct (decide (x = 0)%N) as [->|Hx]; [by rewrite pretty_N_go_0|].
  rewrite pretty_N_go_step, IH by (lia || (apply N.div_lt; lia)). simpl.
  rewrite digit_pretty by (apply N.mod_lt; lia). simpl. f_equal.
  pose proof (N.div_mod x 10 ltac:(done)). lia.
Qed.

Lemma pretty_N_go_ne x s : (0 < x)%N → pretty_N_go x s ≠ "".
Proof.
  revert s. induction (N.lt_wf_0 x) as [x _ IH]; intros s Hx. rewrite pretty_N_go_step by done.
  destruct (decide (x `div` 10 = 0)%N) as [->|Hd]; [by rewrite pretty_N_go_0|].
  apply IH; [by apply N.div_lt|by apply N.neq_0_lt_0].
Qed.

Lemma ParseUint_pretty (n : N) : ParseUint (pretty n) = Some n.
Proof.
  unfold pretty, pretty_N. destruct (decide (n = 0)%N) as [->|Hn]; [done|].
  assert (parse_digits 0 (pretty_N_go n "") = Some n) as Hp by by rewrite parse_pretty_go.
  unfold ParseUint. destruct (pretty_N_go n "") eqn:E; [|done].
  by apply pretty_N_go_ne in E; [|lia].
Qed.

(** What is printed in decimal is read back. *)
Lemma Atoi_pretty (n : N) : (Z.of_N n < 2 ^ 63)%Z → Atoi (pretty n) = Some (Z.of_N n).
Proof.
  intros Hn. pose proof (ParseUint_pretty n) as Hp. unfold Atoi.
  assert (∀ a r, pretty n = String a r → a ≠ minus_byte ∧ a ≠ plus_byte) as Hsign.
  { intros a r E. rewrite E in Hp. unfold ParseUint in Hp. apply parse_digits_bytes in Hp.
    simpl in Hp. apply Forall_cons in Hp as [Ha _]. by split; intros ->. }
  destruct (pretty n) as [|a r] eqn:E; [done|]. destruct (Hsign a r eq_refl) as [H1 H2].
  rewrite !bool_decide_eq_false_2 by done. rewrite Hp. simpl. by rewrite bool_decide_eq_true_2.
Qed.

(** ** Quoting *)

(** [strconv.Quote], the verb [%q]. Bytes from 128 on are kept as they are,
    which is what it does with printable characters. *)
Definition hex_digit (n : nat) : Ascii.ascii :=
  Ascii.ascii_of_nat (if Nat.ltb n 10 then 48 + n else 87 + n).
Definition quote_byte (a : Ascii.ascii) : list Ascii.ascii :=
  let n := Ascii.nat_of_ascii a in
  let backslash := Ascii.ascii_of_nat 92 in
  let escaped c := [backslash; Ascii.ascii_of_nat c] in
  match n with
  | 34 | 92 => escaped n
  | 7 => escaped 97 | 8 => escaped 98 | 12 => escaped 102 | 10 => escaped 110
  | 13 => escaped 114 | 9 => escaped 116 | 11 => escaped 118
  | _ => if Nat.ltb n 32 || Nat.eqb n 127
         then [backslash; Ascii.ascii_of_nat 120; hex_digit (Nat.div n 16); hex_digit (Nat.modulo n 16)]
         else [a]
  end.
Definition quote (s : string) : string :=
  let q := [Ascii.ascii_of_nat 34] in of_bytes (q ++ concat (quote_byte <$> bytes s) ++ q).
