(* ===== verification/Api.v ===== *)
(** * API types of [src/api/v1beta1].

    The custom resources the components below work on, with the source's field
    names, and the part of [metav1.ObjectMeta], [corev1.ObjectReference] and
    [metav1.LabelSelector] the controllers read. Payloads that are only passed
    through to another system (Helm options of the addon-controller library,
    JSON configuration, resource selectors of Sveltos) are kept as the text
    they are serialised to. *)

From S2P Require Import Prelude.

(** [client.ObjectKey]. *)
Record ObjectKey := mkKey { key_ns : string; key_name : string }.

#[export] Instance ObjectKey_eq_dec : EqDecision ObjectKey.
Proof. solve_decision. Defined.
#[export] Program Instance ObjectKey_countable : Countable ObjectKey :=
  inj_countable' (λ k, (key_ns k, key_name k)) (λ p, mkKey p.1 p.2) _.
Next Obligation. by intros []. Qed.

(** [ObjectKey.String()]. *)
Definition key_string (k : ObjectKey) : string := key_ns k +:+ "/" +:+ key_name k.

(** Decoded JSON. *)
Inductive value := VString (s : string) | VMap (m : gmap string value) | VOther (json : string).

(** [corev1.ObjectReference]: the fields the controllers set. *)
Record ObjectReference := mkRef {
  ref_kind : string; ref_namespace : string; ref_name : string; ref_apiVersion : string }.

#[export] Instance ObjectReference_eq_dec : EqDecision ObjectReference.
Proof. solve_decision. Defined.

(** [metav1.OwnerReference]. *)
Record OwnerReference := mkOwner {
  own_apiVersion : string; own_kind : string; own_name : string; own_uid : string;
  own_controller : bool; own_blockOwnerDeletion : bool }.

#[export] Instance OwnerReference_eq_dec : EqDecision OwnerReference.
Proof. solve_decision. Defined.

(** [metav1.ObjectMeta]: a nil label map is [None]. *)
Record ObjectMeta := mkMeta {
  om_name : string;
  om_namespace : string;
  om_uid : string;
  om_generation : Z;
  om_labels : option (gmap string string);
  om_annotations : gmap string string;
  om_ownerReferences : list OwnerReference;
  om_finalizers : list string;
  om_deletionTimestamp : option Z }.

Definition empty_meta : ObjectMeta := mkMeta "" "" "" 0 None ∅ [] [] None.
Definition named_meta (ns n : string) : ObjectMeta := mkMeta n ns "" 0 None ∅ [] [] None.

Definition meta_key (m : ObjectMeta) : ObjectKey := mkKey (om_namespace m) (om_name m).

(** [metav1.Condition]. *)
Inductive ConditionStatus := CondTrue | CondFalse | CondUnknown.
#[export] Instance ConditionStatus_eq_dec : EqDecision ConditionStatus.
Proof. solve_decision. Defined.

Record Condition := mkCondition {
  cond_type : string; cond_status : ConditionStatus; cond_reason : string;
  cond_message : string; cond_observedGeneration : Z; cond_lastTransitionTime : Z }.
#[export] Instance Condition_eq_dec : EqDecision Condition.
Proof. solve_decision. Defined.

(** [metav1.LabelSelector] and its requirements. *)
Inductive LabelSelectorOperator := OpIn | OpNotIn | OpExists | OpDoesNotExist.
#[export] Instance LabelSelectorOperator_eq_dec : EqDecision LabelSelectorOperator.
Proof. solve_decision. Defined.

Record LabelSelectorRequirement := mkRequirement {
  lsr_key : string; lsr_operator : LabelSelectorOperator; lsr_values : list string }.
#[export] Instance LabelSelectorRequirement_eq_dec : EqDecision LabelSelectorRequirement.
Proof. solve_decision. Defined.

Record LabelSelector := mkSelector {
  ls_matchLabels : gmap string string;
  ls_matchExpressions : list LabelSelectorRequirement }.
#[export] Instance LabelSelector_eq_dec : EqDecision LabelSelector.
Proof. solve_decision. Defined.

(** [addoncontrollerv1beta1.HelmInstallOptions]: the fields set here, and the
    text of the others. *)
Record HelmInstallOptions := mkInstallOptions {
  hio_createNamespace : option bool; hio_replace : option bool; hio_disableHooks : bool; hio_rest : string }.
#[export] Instance HelmInstallOptions_eq_dec : EqDecision HelmInstallOptions.
Proof. solve_decision. Defined.

(** A nil [*bool] is [None]. *)
Record ServiceHelmOptions := mkHelmOptions {
  EnableClientCache : option bool;
  DependencyUpdate : option bool;
  Wait : option bool;
  WaitForJobs : option bool;
  CreateNamespace : option bool;
  SkipCRDs : option bool;
  Atomic : option bool;
  DisableHooks : option bool;
  DisableOpenAPIValidation : option bool;
  Timeout : option Z;
  SkipSchemaValidation : option bool;
  Replace : option bool;
  Labels : option (gmap string string);
  UninstallOptions : option string;
  UpgradeOptions : option string;
  InstallOptions : option HelmInstallOptions;
  Description : string }.
#[export] Instance ServiceHelmOptions_eq_dec : EqDecision ServiceHelmOptions.
Proof. solve_decision. Defined.

Record ValuesFrom := mkValuesFrom { vf_kind : string; vf_name : string }.
#[export] Instance ValuesFrom_eq_dec : EqDecision ValuesFrom.
Proof. solve_decision. Defined.

Record ServiceDependsOn := mkDep { dep_name : string; dep_namespace : string }.
#[export] Instance ServiceDependsOn_eq_dec : EqDecision ServiceDependsOn.
Proof. solve_decision. Defined.

(** A service as a ClusterDeployment or MultiClusterService asks for it. *)
Record Service := mkService {
  svc_helmOptions : option ServiceHelmOptions;
  svc_helmAction : string;
  svc_name : string;
  svc_namespace : string;
  svc_template : string;
  svc_templateChain : string;
  svc_version : string;
  svc_values : string;
  svc_valuesFrom : list ValuesFrom;
  svc_dependsOn : list ServiceDependsOn;
  svc_disable : bool }.
#[export] Instance Service_eq_dec : EqDecision Service.
Proof. solve_decision. Defined.

(** A service as a ServiceSet spec stores it. *)
Record ServiceWithValues := mkServiceWithValues {
  sv_helmOptions : option ServiceHelmOptions;
  sv_version : string;
  sv_helmAction : string;
  sv_name : string;
  sv_namespace : string;
  sv_template : string;
  sv_values : string;
  sv_valuesFrom : list ValuesFrom }.
#[export] Instance ServiceWithValues_eq_dec : EqDecision ServiceWithValues.
Proof. solve_decision. Defined.

Definition set_svc_version (v : string) (s : Service) : Service :=
  mkService (svc_helmOptions s) (svc_helmAction s) (svc_name s) (svc_namespace s)
    (svc_template s) (svc_templateChain s) v (svc_values s) (svc_valuesFrom s)
    (svc_dependsOn s) (svc_disable s).

Definition set_sv_version (v : string) (s : ServiceWithValues) : ServiceWithValues :=
  mkServiceWithValues (sv_helmOptions s) v (sv_helmAction s) (sv_name s) (sv_namespace s)
    (sv_template s) (sv_values s) (sv_valuesFrom s).

(** [StateManagementProviderConfig]; the JSON configuration as its text. *)
Record StateManagementProviderConfig := mkProviderConfig {
  pc_config : option string; pc_name : string; pc_selfManagement : bool }.
#[export] Instance StateManagementProviderConfig_eq_dec : EqDecision StateManagementProviderConfig.
Proof. solve_decision. Defined.

Record ServiceSpec := mkServiceSpec {
  ss_provider : StateManagementProviderConfig;
  ss_syncMode : string;
  ss_services : list Service;
  ss_templateResourceRefs : list string;
  ss_policyRefs : list string;
  ss_driftIgnore : list string;
  ss_driftExclusions : list string;
  ss_priority : Z;
  ss_stopOnConflict : bool;
  ss_reload : bool;
  ss_continueOnError : bool }.

Definition empty_service_spec (services : list Service) : ServiceSpec :=
  mkServiceSpec (mkProviderConfig None "" false) "" services [] [] [] [] 0 false false false.

(** ** Template chains and upgrade paths *)

Record AvailableUpgrade := mkUpgrade { au_name : string; au_version : string }.
#[export] Instance AvailableUpgrade_eq_dec : EqDecision AvailableUpgrade.
Proof. solve_decision. Defined.

Record SupportedTemplate := mkSupported {
  spt_name : string; spt_availableUpgrades : list AvailableUpgrade }.

Record TemplateChainSpec := mkChainSpec { tc_supportedTemplates : list SupportedTemplate }.

Record TemplateChainStatus := mkChainStatus {
  tcs_validationError : string; tcs_valid : bool }.

Record ServiceTemplateChain := mkChain {
  tc_meta : ObjectMeta; tc_spec : TemplateChainSpec; tc_status : TemplateChainStatus }.

Record UpgradePath := mkUpgradePath {
  up_upgradePaths : list string; up_versions : list AvailableUpgrade }.

Record ServiceUpgradePaths := mkServiceUpgradePaths {
  sup_name : string; sup_namespace : string; sup_template : string;
  sup_availableUpgrades : list UpgradePath }.

(** ** Service templates *)

(** [sourcev1.HelmChartSpec]: the fields the controllers read. *)
Record HelmChartSpec := mkChartSpec { hc_chart : string; hc_version : string; hc_interval : Z }.

Record LocalSourceRef := mkLocalSourceRef {
  lsrc_kind : string; lsrc_name : string; lsrc_namespace : string }.

Record RemoteSourceSpec := mkRemoteSourceSpec {
  rs_git : option string; rs_bucket : option string; rs_oci : option string }.

Record SourceSpec := mkSourceSpec {
  src_localSourceRef : option LocalSourceRef;
  src_remoteSourceSpec : option RemoteSourceSpec;
  src_deploymentType : string;
  src_path : string }.

(** [helmcontrollerv2.CrossNamespaceSourceReference]. *)
Record CrossNamespaceSourceReference := mkChartRef {
  cr_kind : string; cr_name : string; cr_namespace : string }.

Record HelmSpec := mkHelmSpec {
  hs_chartSpec : option HelmChartSpec;
  hs_chartRef : option CrossNamespaceSourceReference;
  hs_chartSource : option SourceSpec }.

Record ServiceTemplateSpec := mkServiceTemplateSpec {
  sts_helmOptions : option ServiceHelmOptions;
  sts_helm : option HelmSpec;
  sts_kustomize : option SourceSpec;
  sts_resources : option SourceSpec;
  sts_version : string;
  sts_kubernetesConstraint : string }.

Record TemplateValidationStatus := mkTemplateValidation {
  tv_validationError : string; tv_valid : bool }.

(** The object a template is read from; its conditions are not read here. *)
Record SourceStatus := mkSourceStatus {
  srs_kind : string; srs_name : string; srs_namespace : string }.

Record ServiceTemplateStatus := mkServiceTemplateStatus {
  stst_kubernetesConstraint : string;
  stst_sourceStatus : option SourceStatus;
  stst_chartRef : option CrossNamespaceSourceReference;
  stst_validation : TemplateValidationStatus }.

Record ServiceTemplate := mkServiceTemplate {
  stpl_meta : ObjectMeta; stpl_spec : ServiceTemplateSpec; stpl_status : ServiceTemplateStatus }.

(** ** Owners of services *)

Record MatchingCluster := mkMatchingCluster {
  mc_ref : ObjectReference;
  mc_lastTransitionTime : option Z;
  mc_reason : string;
  mc_message : string;
  mc_regional : bool;
  mc_deployed : bool }.
#[export] Instance MatchingCluster_eq_dec : EqDecision MatchingCluster.
Proof. solve_decision. Defined.

Record MultiClusterServiceSpec := mkMCSSpec {
  mcs_clusterSelector : LabelSelector;
  mcs_dependsOn : list string;
  mcs_serviceSpec : ServiceSpec;
  mcs_keepServicesOnSelectorMismatch : bool }.

(** The state the provider reports for one service. *)
Definition ServiceStateDeployed := "Deployed".
Definition ServiceStateFailed := "Failed".
Definition ServiceStateNotDeployed := "Pending".
Definition ServiceStateProvisioning := "Provisioning".
Definition ServiceStateDeleting := "Deleting".
Definition ServiceStateDeleted := "Deleted".

(** [ServiceTypeUnset] is the empty string. *)
Inductive ServiceType := ServiceTypeHelm | ServiceTypeKustomize | ServiceTypeResource | ServiceTypeUnset.
#[export] Instance ServiceType_eq_dec : EqDecision ServiceType.
Proof. solve_decision. Defined.

Record ServiceState := mkServiceState {
  st_lastStateTransitionTime : option Z;
  st_version : string;
  st_type : ServiceType;
  st_name : string;
  st_namespace : string;
  st_template : string;
  st_state : string;
  st_failureMessage : string;
  st_lastDeployedHash : string;
  st_conditions : list Condition }.
#[export] Instance ServiceState_eq_dec : EqDecision ServiceState.
Proof. solve_decision. Defined.

Record MultiClusterServiceStatus := mkMCSStatus {
  mcss_services : list ServiceState;
  mcss_servicesUpgradePaths : list ServiceUpgradePaths;
  mcss_matchingClusters : list MatchingCluster;
  mcss_conditions : list Condition;
  mcss_observedGeneration : Z }.

Record MultiClusterService := mkMCS {
  mcs_meta : ObjectMeta; mcs_spec : MultiClusterServiceSpec; mcs_status : MultiClusterServiceStatus }.

(** Address spaces as their text. *)
Record ClusterIPAMClaimSpec := mkIPAMClaimSpec {
  icl_provider : string; icl_cluster : string; icl_clusterIPAMRef : string; icl_nodeNetwork : string;
  icl_clusterNetwork : string; icl_externalNetwork : string }.
Record ClusterIPAMClaimType := mkIPAMClaimType {
  ict_spec : option ClusterIPAMClaimSpec; ict_ref : string }.
Definition no_ipamClaim : ClusterIPAMClaimType := mkIPAMClaimType None "".

Record ClusterDeploymentSpec := mkCDSpec {
  cds_config : option string;
  cds_propagateCredentials : option bool;
  cds_ipamClaim : ClusterIPAMClaimType;
  cds_template : string;
  cds_credential : string;
  cds_clusterAuth : string;
  cds_dataSource : string;
  cds_auditPolicy : string;
  cds_rbacPolicy : string;
  cds_serviceSpec : ServiceSpec;
  cds_dryRun : bool;
  cds_cleanupOnDeletion : bool }.

Record ClusterDeploymentStatus := mkCDStatus {
  cdst_services : list ServiceState;
  cdst_servicesUpgradePaths : list ServiceUpgradePaths;
  cdst_rbacPolicyGrant : string;
  cdst_kubernetesVersion : string;
  cdst_region : string;
  cdst_conditions : list Condition;
  cdst_availableUpgrades : list string;
  cdst_observedGeneration : Z }.

Record ClusterDeployment := mkCD {
  cd_meta : ObjectMeta; cd_spec : ClusterDeploymentSpec; cd_status : ClusterDeploymentStatus }.

(** ** Service sets and providers *)

Record ServiceSetSpec := mkServiceSetSpec {
  sss_cluster : string;
  sss_multiClusterService : string;
  sss_provider : StateManagementProviderConfig;
  sss_services : list ServiceWithValues }.
#[export] Instance ServiceSetSpec_eq_dec : EqDecision ServiceSetSpec.
Proof. solve_decision. Defined.

Record ServiceSetStatus := mkServiceSetStatus {
  ssst_cluster : option ObjectReference;
  ssst_conditions : list Condition;
  ssst_services : list ServiceState;
  ssst_providerReady : bool;
  ssst_providerSuspended : bool;
  ssst_deployed : bool }.
#[export] Instance ServiceSetStatus_eq_dec : EqDecision ServiceSetStatus.
Proof. solve_decision. Defined.

Record ServiceSet := mkServiceSet {
  sset_meta : ObjectMeta; sset_spec : ServiceSetSpec; sset_status : ServiceSetStatus }.

(** [kcmv1.ServiceSet{}]. *)
Definition empty_ServiceSet : ServiceSet :=
  mkServiceSet empty_meta (mkServiceSetSpec "" "" (mkProviderConfig None "" false) [])
    (mkServiceSetStatus None [] [] false false false).

Inductive ServiceSetOperation :=
  ServiceSetOperationCreate | ServiceSetOperationUpdate | ServiceSetOperationNone.
#[export] Instance ServiceSetOperation_eq_dec : EqDecision ServiceSetOperation.
Proof. solve_decision. Defined.

Record StateManagementProvider := mkSMP {
  smp_meta : ObjectMeta; smp_selector : option LabelSelector; smp_suspend : bool; smp_ready : bool }.

(** ** The Kubernetes API as the components read it

    The cluster and its client are outside the repository: a component only
    relies on being able to get an object by key, or list the objects of a
    namespace. Which kinds it reads is what its section assumes. *)

Class Getter (C T : Type) := c_get : C → ObjectKey → result T.

(** [c.List] restricted to a namespace (all of them when it is empty) and to
    field selectors, given as the predicate the index functions define. *)
Definition in_namespace (ns : string) (m : ObjectMeta) : bool :=
  bool_decide (ns = "") || bool_decide (om_namespace m = ns).

Class Lister (C T : Type) := c_list : C → string → (T → bool) → result (list T).

(** A read of an object the API server does not have. *)
Definition not_found_err (kind : string) (k : ObjectKey) : gerror :=
  ErrApi ReasonNotFound (kind +:+ " " +:+ key_name k +:+ " not found").
