(* ===== verification/Kube.v ===== *)
(** * The Kubernetes machinery the controllers call.

    Interfaces of code that is not part of the repository: the writing half of
    the API client, compiled label selectors and the condition helper of
    apimachinery, each with the documented behaviour the proofs rely on as laws
    of the class, and a small concrete instance of each for running the
    definitions. *)

From S2P Require Import Prelude Api.

(** ** Writing objects *)

(** Creating and updating an object through the API server. *)
Class Writer (C T : Type) := {
  c_create : C → T → C * option gerror;
  c_update : C → T → C * option gerror
}.

(** What the API server promises about the objects of a kind: an object read is
    the one of that name, and a write touches no other. [store_ok] are the
    states a server can be in. *)
Class ObjectStore (C T : Type) (meta : T → ObjectMeta) `{!Getter C T} `{!Writer C T} := {
  store_ok : C → Prop;
  store_ok_create c x : store_ok c → store_ok (c_create c x).1;
  store_ok_update c x : store_ok c → store_ok (c_update c x).1;
  store_get_key c k x : store_ok c → c_get c k = Ok x → meta_key (meta x) = k;
  store_create_frame c x k : k ≠ meta_key (meta x) → c_get (c_create c x).1 k = c_get c k;
  store_update_frame c x k : k ≠ meta_key (meta x) → c_get (c_update c x).1 k = c_get c k
}.

Class Deleter (C T : Type) := c_delete : C → T → C * option gerror.

(** Calls that refresh the object passed with what the server answered:
    [Update], a merge [Patch] of one label, and [Status().Update]. *)
Class Refresher (C T : Type) := {
  c_update_refresh : C → T → C * T * option gerror;
  c_patch_label : C → T → string → string → C * T * option gerror;
  c_status_update : C → T → C * T * option gerror
}.

(** The label every object the controllers handle carries. *)
Definition GenericComponentNameLabel := "k0rdent.mirantis.com/component".
Definition GenericComponentLabelValueKCM := "kcm".

(** [client.IgnoreNotFound]. *)
Definition IgnoreNotFound (err : option gerror) : option gerror :=
  match err with
  | Some e => if IsNotFound e then None else Some e
  | None => None
  end.

(** [client.Limit(n)]: at most [n] of the objects that match. *)
Definition Limit {T} (n : nat) (r : result (list T)) : result (list T) := take n <$> r.

(** ** Label selectors *)

Class LabelSelectors := {
  Selector : Type;
  LabelSelectorAsSelector : LabelSelector → result Selector;
  Selector_Empty : Selector → bool;
  Selector_Matches : Selector → gmap string string → bool
}.

(** [labels.Set(o.Labels)]: a nil map has no label. *)
Definition labels_of (m : ObjectMeta) : gmap string string := default ∅ (om_labels m).

(** ** Status conditions *)

Definition find_condition (t : string) (cs : list Condition) : option Condition :=
  head (filterb (λ c, bool_decide (cond_type c = t)) cs).

(** What a condition says, its transition time aside. *)
Definition same_content (a b : Condition) : Prop :=
  cond_type a = cond_type b ∧ cond_status a = cond_status b ∧ cond_reason a = cond_reason b ∧
  cond_message a = cond_message b ∧ cond_observedGeneration a = cond_observedGeneration b.

(** [apimeta.SetStatusCondition]: the new conditions and whether they changed.
    It updates the condition of that type, or appends it, and leaves the
    others alone. *)
Class StatusConditions := {
  SetStatusCondition : list Condition → Condition → list Condition * bool;
  set_condition_found cs c :
    ∃ c', find_condition (cond_type c) (SetStatusCondition cs c).1 = Some c' ∧ same_content c' c;
  set_condition_others cs c :
    filterb (λ x, negb (bool_decide (cond_type x = cond_type c))) (SetStatusCondition cs c).1 =
    filterb (λ x, negb (bool_decide (cond_type x = cond_type c))) cs
}.

Lemma find_condition_other `{StatusConditions} cs c t :
  t ≠ cond_type c → find_condition t (SetStatusCondition cs c).1 = find_condition t cs.
Proof.
  intros Hne. unfold find_condition.
  assert (∀ l, filterb (λ c, bool_decide (cond_type c = t)) l =
    filterb (λ c, bool_decide (cond_type c = t))
      (filterb (λ x, negb (bool_decide (cond_type x = cond_type c))) l)) as Hf.
  { intros l. induction l as [|x l IH]; [done|]. unfold filterb in *. rewrite !filter_cons.
    destruct (decide (negb (bool_decide (cond_type x = cond_type c)) = true)) as [E|E].
    - rewrite filter_cons. by rewrite IH.
    - rewrite <- IH. rewrite decide_False; [done|]. rewrite bool_decide_eq_true. intros Ht.
      apply E. rewrite Ht. apply negb_true_iff. by apply bool_decide_eq_false. }
  by rewrite Hf, set_condition_others, <- Hf.
Qed.

Lemma find_condition_Some t cs c : find_condition t cs = Some c → c ∈ cs ∧ cond_type c = t.
Proof.
  unfold find_condition. intros Hh%head_Some_elem_of. apply filterb_elem_of in Hh as [? Ht].
  bool_simpl. done.
Qed.

(** ** Finalizers *)

(** [controllerutil.AddFinalizer] and [RemoveFinalizer]: the new finalizers
    and whether they changed. *)
Class Finalizers := {
  AddFinalizer : list string → string → list string * bool;
  RemoveFinalizer : list string → string → list string * bool;
  add_finalizer_changed l f : (AddFinalizer l f).2 = true ↔ f ∉ l;
  remove_finalizer_changed l f : (RemoveFinalizer l f).2 = true ↔ f ∈ l;
  remove_finalizer_gone l f : f ∉ (RemoveFinalizer l f).1
}.

(** [!DeletionTimestamp.IsZero()]. *)
Definition being_deleted (m : ObjectMeta) : bool := bool_decide (is_Some (om_deletionTimestamp m)).

Definition set_finalizers (l : list string) (m : ObjectMeta) : ObjectMeta :=
  mkMeta (om_name m) (om_namespace m) (om_uid m) (om_generation m) (om_labels m) (om_annotations m)
    (om_ownerReferences m) l (om_deletionTimestamp m).

(** ** Instances *)

Program Definition simple_finalizers : Finalizers := {|
  AddFinalizer l f := if bool_decide (f ∈ l) then (l, false) else (l ++ [f], true);
  RemoveFinalizer l f := (filterb (λ x, negb (bool_decide (x = f))) l, bool_decide (f ∈ l))
|}.
Next Obligation. intros l f. simpl. by case_bool_decide. Qed.
Next Obligation. intros l f. simpl. apply bool_decide_eq_true. Qed.
Next Obligation. intros l f [_ Hf]%filterb_elem_of. by rewrite bool_decide_eq_true_2 in Hf. Qed.

Fixpoint set_condition (cs : list Condition) (c : Condition) : list Condition :=
  match cs with
  | [] => [c]
  | x :: cs =>
      if bool_decide (cond_type x = cond_type c)
      then mkCondition (cond_type c) (cond_status c) (cond_reason c) (cond_message c)
             (cond_observedGeneration c)
             (if bool_decide (cond_status x = cond_status c) then cond_lastTransitionTime x
              else cond_lastTransitionTime c) :: cs
      else x :: set_condition cs c
  end.

Program Definition simple_conditions : StatusConditions :=
  {| SetStatusCondition cs c := (set_condition cs c, negb (bool_decide (set_condition cs c = cs))) |}.
Next Obligation.
  intros cs c. simpl. induction cs as [|x cs IH]; simpl.
  - exists c. unfold find_condition, filterb. rewrite filter_cons.
    rewrite decide_True by by apply bool_decide_eq_true. by repeat split.
  - unfold find_condition, filterb in *. case_bool_decide as E; rewrite filter_cons.
    + rewrite decide_True by (apply bool_decide_eq_true; reflexivity).
      eexists; split; [reflexivity|]. by repeat split.
    + rewrite decide_False by by rewrite bool_decide_eq_true. exact IH.
Qed.
Next Obligation.
  intros cs c. simpl. induction cs as [|x cs IH]; simpl.
  - unfold filterb. rewrite filter_cons, decide_False; [done|].
    rewrite negb_true_iff, bool_decide_eq_false. by intros [].
  - unfold filterb in *. case_bool_decide as E; rewrite !filter_cons.
    + rewrite !decide_False; rewrite ?negb_true_iff, ?bool_decide_eq_false; [done| |]; by intros [].
    + by rewrite IH.
Qed.

(** Selectors evaluated on the fly. *)
Definition requirement_matches (labels : gmap string string) (r : LabelSelectorRequirement) : bool :=
  match lsr_operator r, labels !! lsr_key r with
  | OpIn, Some v => bool_decide (v ∈ lsr_values r)
  | OpIn, None => false
  | OpNotIn, Some v => negb (bool_decide (v ∈ lsr_values r))
  | OpNotIn, None => true
  | OpExists, v => bool_decide (is_Some v)
  | OpDoesNotExist, v => negb (bool_decide (is_Some v))
  end.

Definition selector_matches (s : LabelSelector) (labels : gmap string string) : bool :=
  forallb (λ p, bool_decide (labels !! p.1 = Some p.2)) (map_to_list (ls_matchLabels s)) &&
  forallb (requirement_matches labels) (ls_matchExpressions s).

Definition simple_selectors : LabelSelectors :=
  {| Selector := LabelSelector;
     LabelSelectorAsSelector s := Ok s;
     Selector_Empty s := bool_decide (s = mkSelector ∅ []);
     Selector_Matches := selector_matches |}.
