(* ===== verification/SveltosTypes.v ===== *)
(** * Resources of Sveltos, Flux and Cluster API, as far as kcm reads or writes
    them.

    The types belong to those projects; a field that only ever passes through is
    kept as its text. *)

From S2P Require Import Prelude Api.

(** ** Profiles *)

Record ValueFrom := mkValueFrom { vfr_kind : string; vfr_name : string; vfr_namespace : string }.
#[export] Instance ValueFrom_eq_dec : EqDecision ValueFrom.
Proof. solve_decision. Defined.

Record RegistryCredentialsConfig := mkRegistryCredentials {
  rcc_plainHTTP : bool; rcc_insecureSkipTLSVerify : bool;
  rcc_credentialsSecretRef : option ObjectKey; rcc_caSecretRef : option ObjectKey }.
#[export] Instance RegistryCredentialsConfig_eq_dec : EqDecision RegistryCredentialsConfig.
Proof. solve_decision. Defined.

(** [HelmOptions]. *)
Record HelmOptions := mkSveltosOptions {
  sho_timeout : option Z; sho_installOptions : HelmInstallOptions; sho_skipCRDs : bool;
  sho_skipSchemaValidation : bool; sho_wait : bool; sho_waitForJobs : bool; sho_disableHooks : bool;
  sho_disableOpenAPIValidation : bool; sho_atomic : bool; sho_dependencyUpdate : bool;
  sho_labels : gmap string string; sho_enableClientCache : bool; sho_description : string;
  sho_upgradeOptions : string; sho_uninstallOptions : string }.
#[export] Instance HelmOptions_eq_dec : EqDecision HelmOptions.
Proof. solve_decision. Defined.

(** [HelmChart] of a profile. *)
Record SveltosHelmChart := mkSveltosChart {
  shc_values : string; shc_valuesFrom : list ValueFrom; shc_repositoryURL : string; shc_repositoryName : string;
  shc_chartName : string; shc_chartVersion : string; shc_releaseName : string; shc_releaseNamespace : string;
  shc_credentials : option RegistryCredentialsConfig; shc_options : option HelmOptions; shc_action : string }.
#[export] Instance SveltosHelmChart_eq_dec : EqDecision SveltosHelmChart.
Proof. solve_decision. Defined.

Record KustomizationRef := mkKustomizationRef {
  kr_namespace : string; kr_name : string; kr_kind : string; kr_path : string; kr_targetNamespace : string;
  kr_deploymentType : string; kr_valuesFrom : list ValueFrom }.
#[export] Instance KustomizationRef_eq_dec : EqDecision KustomizationRef.
Proof. solve_decision. Defined.

Record PolicyRef := mkPolicyRef {
  plr_namespace : string; plr_name : string; plr_kind : string; plr_path : string; plr_deploymentType : string;
  plr_rest : string }.
#[export] Instance PolicyRef_eq_dec : EqDecision PolicyRef.
Proof. solve_decision. Defined.

Record TemplateResourceRef := mkTemplateResourceRef { trr_resource : ObjectReference; trr_identifier : string }.
#[export] Instance TemplateResourceRef_eq_dec : EqDecision TemplateResourceRef.
Proof. solve_decision. Defined.

Record Patch := mkPatch { pat_target : option string; pat_patch : string }.
#[export] Instance Patch_eq_dec : EqDecision Patch.
Proof. solve_decision. Defined.

(** [Spec] of profiles; [prs_rest] are the fields kcm never sets. *)
Record ProfileSpec := mkProfileSpec {
  prs_clusterSelector : LabelSelector; prs_clusterRefs : list ObjectReference; prs_tier : Z;
  prs_stopMatchingBehavior : string; prs_syncMode : string; prs_continueOnConflict : bool;
  prs_continueOnError : bool; prs_reloader : bool; prs_templateResourceRefs : list TemplateResourceRef;
  prs_policyRefs : list PolicyRef; prs_helmCharts : list SveltosHelmChart;
  prs_kustomizationRefs : list KustomizationRef; prs_patches : list Patch; prs_patchesFrom : list ValueFrom;
  prs_driftExclusions : list string; prs_maxConsecutiveFailures : option N; prs_rest : string }.
#[export] Instance ProfileSpec_eq_dec : EqDecision ProfileSpec.
Proof. solve_decision. Defined.

Record Profile := mkProfile {
  prf_meta : ObjectMeta; prf_spec : ProfileSpec; prf_matchingClusterRefs : list ObjectReference }.
Record ClusterProfile := mkClusterProfile {
  cprf_meta : ObjectMeta; cprf_spec : ProfileSpec; cprf_matchingClusterRefs : list ObjectReference }.
Definition ProfileKind := "Profile".
Definition ClusterProfileKind := "ClusterProfile".
Definition SveltosGroupVersion := "lib.projectsveltos.io/v1beta1".
Definition SveltosClusterKind := "SveltosCluster".

Record SveltosCluster := mkSveltosCluster {
  svc_meta : ObjectMeta; svc_kubeconfigName : string; svc_kubeconfigKeyName : string }.

(** [clusterapiv1.Cluster]: the infrastructure cluster it refers to, by kind and
    name, whether its control plane is initialized, and its conditions. *)
Record CapiCluster := mkCapiCluster {
  capi_meta : ObjectMeta; capi_infrastructureRef : option (string * string);
  capi_controlPlaneInitialized : option bool; capi_conditions : list Condition }.
Definition CapiClusterKind := "Cluster".
Definition CapiGroupVersion := "cluster.x-k8s.io/v1beta2".

(** ** Flux sources *)

(** [sourcev1.HelmChart]; the revision is that of the artifact, if there is one. *)
Record Artifact := mkArtifact { art_url : string; art_revision : string; art_digest : string }.
Record FluxHelmChart := mkFluxHelmChart {
  fhc_meta : ObjectMeta; fhc_version : string; fhc_chart : string; fhc_sourceKind : string; fhc_sourceName : string;
  fhc_artifact : option Artifact }.
Definition fhc_revision (chart : FluxHelmChart) : option string := art_revision <$> fhc_artifact chart.
(** The references to secrets are names. *)
Record HelmRepository := mkHelmRepository {
  hr_meta : ObjectMeta; hr_url : string; hr_type : string; hr_insecure : bool;
  hr_secretRef : option string; hr_certSecretRef : option string }.
Record GitRepository := mkGitRepository { gr_meta : ObjectMeta; gr_secretRef : option string }.
