(* ===== verification/Conditions.v ===== *)
(** * The aggregate Ready condition
    ([src/internal/util/conditions/ready_condition.go]).

    Every resource with several conditions summarises them in one of type
    Ready: errors before warnings before unknowns before ready. *)

From S2P Require Import Prelude Api Kube.

(** Constants of [src/api/v1beta1/common.go]. *)
Definition SucceededReason := "Succeeded".
Definition FailedReason := "Failed".
Definition ProgressingReason := "Progressing".
Definition DeletingReason := "Deleting".
Definition PausedReason := "Paused".
Definition ReadyCondition := "Ready".
Definition DeletingCondition := "Deleting".
Definition PausedCondition := "Paused".
Definition ServicesInReadyStateCondition := "ServicesInReadyState".
Definition ServicesDependencyValidationCondition := "ServicesDependencyValidation".

Definition buildReadyCondition (errs warnings unknownMsgs : list string) (totalConditions : nat)
    (generation : Z) : Condition :=
  if bool_decide (0 < length errs) then
    mkCondition ReadyCondition CondFalse FailedReason (String.concat ". " errs) generation 0
  else if bool_decide (0 < length warnings) then
    mkCondition ReadyCondition CondFalse ProgressingReason (String.concat ". " warnings) generation 0
  else if bool_decide (totalConditions = 0) || bool_decide (0 < length unknownMsgs) then
    mkCondition ReadyCondition CondUnknown ProgressingReason (String.concat ". " unknownMsgs) generation 0
  else
    mkCondition ReadyCondition CondTrue SucceededReason "Object is ready" generation 0.

Section ready.
Context `{StatusConditions}.
(** The error and the warning a False condition stands for. *)
Variable handleFalseConditionFunc : Condition → string * string.

(** The body of the loop over the conditions. *)
Definition collect (acc : list string * list string * list string) (cond : Condition)
  : list string * list string * list string :=
  let '(errs, warnings, unknownMsgs) := acc in
  if bool_decide (cond_type cond = ReadyCondition) || bool_decide (cond_type cond = DeletingCondition)
  then acc
  else if bool_decide (cond_type cond = PausedCondition) then
    if bool_decide (cond_status cond = CondTrue) && bool_decide (cond_reason cond = PausedReason)
    then (errs ++ [cond_message cond], warnings, unknownMsgs)
    else acc
  else
    match cond_status cond with
    | CondTrue => acc
    | CondUnknown => (errs, warnings, unknownMsgs ++ [cond_message cond])
    | CondFalse =>
        let '(errMsg, warningMsg) := handleFalseConditionFunc cond in
        (if negb (bool_decide (errMsg = "")) then errs ++ [errMsg] else errs,
         if negb (bool_decide (warningMsg = "")) then warnings ++ [warningMsg] else warnings,
         unknownMsgs)
    end.

Definition is_deleting (c : Condition) : bool :=
  bool_decide (cond_type c = DeletingCondition) && bool_decide (cond_status c = CondTrue).

Definition UpdateReadyCondition (conditions : list Condition) (generation : Z) : list Condition :=
  match IndexFunc is_deleting conditions with
  | Some deletingIdx =>
      let message := default "" (cond_message <$> conditions !! deletingIdx) in
      (SetStatusCondition conditions
         (mkCondition ReadyCondition CondFalse DeletingReason message generation 0)).1
  | None =>
      let '(errs, warnings, unknownMsgs) := foldl collect ([], [], []) conditions in
      (SetStatusCondition conditions
         (buildReadyCondition errs warnings unknownMsgs (length conditions) generation)).1
  end.

(** ** What the condition reports *)

(** The conditions that take part in the summary. *)
Definition summarised (c : Condition) : Prop :=
  cond_type c ≠ ReadyCondition ∧ cond_type c ≠ DeletingCondition ∧ cond_type c ≠ PausedCondition.

Definition reports_error (c : Condition) : Prop :=
  (cond_type c = PausedCondition ∧ cond_status c = CondTrue ∧ cond_reason c = PausedReason) ∨
  (summarised c ∧ cond_status c = CondFalse ∧ (handleFalseConditionFunc c).1 ≠ "").
Definition reports_warning (c : Condition) : Prop :=
  summarised c ∧ cond_status c = CondFalse ∧ (handleFalseConditionFunc c).2 ≠ "".
Definition reports_unknown (c : Condition) : Prop :=
  summarised c ∧ cond_status c = CondUnknown.

Lemma nonempty_iff (b : bool) (x : string) (P : Prop) :
  (b = true ↔ P) → (if b then [x] else []) ≠ [] ↔ P.
Proof. intros <-. destruct b; split; congruence. Qed.

(** What one condition contributes to each of the three lists. *)
Lemma collect_spec e w u c :
  ∃ de dw du, collect (e, w, u) c = (e ++ de, w ++ dw, u ++ du) ∧
    (de ≠ [] ↔ reports_error c) ∧ (dw ≠ [] ↔ reports_warning c) ∧ (du ≠ [] ↔ reports_unknown c).
Proof.
  unfold collect, reports_error, reports_warning, reports_unknown, summarised.
  assert (PausedCondition ≠ ReadyCondition ∧ PausedCondition ≠ DeletingCondition) as [Hpr Hpd] by done.
  destruct (handleFalseConditionFunc c) as [em wm]. cbn [fst snd].
  destruct (decide (cond_type c = ReadyCondition)) as [Er|Er].
  { rewrite (bool_decide_eq_true_2 _ Er). exists [], [], []. rewrite !app_nil_r.
    rewrite Er. split; [done|]. split_and!; split; try done; intuition congruence. }
  destruct (decide (cond_type c = DeletingCondition)) as [Ed|Ed].
  { rewrite (bool_decide_eq_true_2 _ Ed), orb_true_r. exists [], [], []. rewrite !app_nil_r.
    rewrite Ed. split; [done|]. split_and!; split; try done; intuition congruence. }
  rewrite (bool_decide_eq_false_2 _ Er), (bool_decide_eq_false_2 _ Ed). cbn [orb].
  destruct (decide (cond_type c = PausedCondition)) as [Ep|Ep].
  { rewrite (bool_decide_eq_true_2 _ Ep).
    exists (if bool_decide (cond_status c = CondTrue) && bool_decide (cond_reason c = PausedReason)
            then [cond_message c] else []), [], []. rewrite !app_nil_r.
    split; [by destruct (_ && _); rewrite ?app_nil_r|]. split_and!.
    - apply nonempty_iff. rewrite andb_true_iff, !bool_decide_eq_true. tauto.
    - split; [done|tauto].
    - split; [done|tauto]. }
  rewrite (bool_decide_eq_false_2 _ Ep).
  exists (if bool_decide (cond_status c = CondFalse ∧ em ≠ "") then [em] else []),
    (if bool_decide (cond_status c = CondFalse ∧ wm ≠ "") then [wm] else []),
    (if bool_decide (cond_status c = CondUnknown) then [cond_message c] else []).
  split.
  - destruct (cond_status c); [by rewrite !app_nil_r| |by rewrite !app_nil_r].
    rewrite (bool_decide_eq_false_2 (CondFalse = CondUnknown)), app_nil_r by done.
    destruct (decide (em = "")) as [->|Hem], (decide (wm = "")) as [->|Hwm];
      rewrite ?(bool_decide_eq_true_2 (CondFalse = CondFalse ∧ em ≠ "")),
        ?(bool_decide_eq_true_2 (CondFalse = CondFalse ∧ wm ≠ "")),
        ?(bool_decide_eq_false_2 (em = "")), ?(bool_decide_eq_false_2 (wm = "")) by done;
      simpl; by rewrite ?app_nil_r.
  - split_and!; apply nonempty_iff; rewrite bool_decide_eq_true; tauto.
Qed.

Lemma collect_all cs e w u :
  ∃ de dw du, foldl collect (e, w, u) cs = (e ++ de, w ++ dw, u ++ du) ∧
    (de ≠ [] ↔ ∃ c, c ∈ cs ∧ reports_error c) ∧
    (dw ≠ [] ↔ ∃ c, c ∈ cs ∧ reports_warning c) ∧
    (du ≠ [] ↔ ∃ c, c ∈ cs ∧ reports_unknown c).
Proof.
  revert e w u. induction cs as [|c cs IH]; intros e w u; cbn [foldl].
  - exists [], [], []. rewrite !app_nil_r. split; [done|].
    split_and!; (split; [done|]; intros (x & Hx%elem_of_nil & _); done).
  - destruct (collect_spec e w u c) as (de & dw & du & -> & He & Hw & Hu).
    destruct (IH (e ++ de) (w ++ dw) (u ++ du)) as (de' & dw' & du' & -> & He' & Hw' & Hu').
    exists (de ++ de'), (dw ++ dw'), (du ++ du'). rewrite !app_assoc. split; [done|].
    assert (∀ (l k : list string), l ++ k ≠ [] ↔ l ≠ [] ∨ k ≠ []) as Happ.
    { intros [|x l] k; simpl; split; [by right|by intros [[]|]|by left|done]. }
    rewrite !Happ, He, Hw, Hu, He', Hw', Hu'. setoid_rewrite elem_of_cons.
    split_and!; naive_solver.
Qed.

Lemma length_pos_ne {A} (l : list A) : 0 < length l ↔ l ≠ [].
Proof. destruct l; simpl; split; try lia; done. Qed.

(** The Ready condition the summary calls for. *)
Inductive ready_as (cs : list Condition) : ConditionStatus → string → Prop :=
  | ready_deleting c : c ∈ cs → is_deleting c = true → ready_as cs CondFalse DeletingReason
  | ready_error c : (∀ d, d ∈ cs → is_deleting d = false) → c ∈ cs → reports_error c →
      ready_as cs CondFalse FailedReason
  | ready_warning c : (∀ d, d ∈ cs → is_deleting d = false) → (∀ d, d ∈ cs → ¬ reports_error d) →
      c ∈ cs → reports_warning c → ready_as cs CondFalse ProgressingReason
  | ready_unknown : (∀ d, d ∈ cs → is_deleting d = false) →
      (∀ d, d ∈ cs → ¬ reports_error d ∧ ¬ reports_warning d) →
      cs = [] ∨ (∃ c, c ∈ cs ∧ reports_unknown c) → ready_as cs CondUnknown ProgressingReason
  | ready_true : (∀ d, d ∈ cs → is_deleting d = false) → cs ≠ [] →
      (∀ d, d ∈ cs → ¬ reports_error d ∧ ¬ reports_warning d ∧ ¬ reports_unknown d) →
      ready_as cs CondTrue SucceededReason.

Lemma buildReadyCondition_ready cs errs warnings unknownMsgs generation :
  (∀ d, d ∈ cs → is_deleting d = false) →
  (errs ≠ [] ↔ ∃ c, c ∈ cs ∧ reports_error c) →
  (warnings ≠ [] ↔ ∃ c, c ∈ cs ∧ reports_warning c) →
  (unknownMsgs ≠ [] ↔ ∃ c, c ∈ cs ∧ reports_unknown c) →
  let c := buildReadyCondition errs warnings unknownMsgs (length cs) generation in
  cond_type c = ReadyCondition ∧ ready_as cs (cond_status c) (cond_reason c).
Proof.
  intros Hd He Hw Hu. unfold buildReadyCondition. cbn zeta.
  case_bool_decide as Ee; [|case_bool_decide as Ew; [|destruct (_ || _) eqn:Eu]]; split; try done; simpl;
    rewrite length_pos_ne in *.
  - apply He in Ee as (c & ? & ?). by eapply ready_error.
  - rewrite He in Ee. apply Hw in Ew as (c & ? & ?). eapply ready_warning; try done.
    intros d Hin Hr. apply Ee. eauto.
  - rewrite He in Ee. rewrite Hw in Ew. apply ready_unknown; [done| |].
    + intros d Hin. split; intros Hr; [apply Ee|apply Ew]; eauto.
    + apply orb_true_iff in Eu as [Eu|Eu]; bool_simpl; [left; by apply nil_length_inv|right].
      apply Hu. by apply length_pos_ne.
  - rewrite He in Ee. rewrite Hw in Ew. bool_simpl. rewrite length_pos_ne in *. rewrite Hu in *.
    apply ready_true; [done|by intros ->|]. intros d Hin.
    split_and!; intros Hr; [apply Ee|apply Ew|]; eauto.
Qed.

Lemma UpdateReadyCondition_ready conditions generation :
  ∃ c, find_condition ReadyCondition (UpdateReadyCondition conditions generation) = Some c ∧
    cond_observedGeneration c = generation ∧ ready_as conditions (cond_status c) (cond_reason c).
Proof.
  unfold UpdateReadyCondition. destruct (IndexFunc is_deleting conditions) as [i|] eqn:E.
  - apply IndexFunc_Some in E as [(x & Hi & Hx) _].
    destruct (set_condition_found conditions (mkCondition ReadyCondition CondFalse DeletingReason
      (default "" (cond_message <$> conditions !! i)) generation 0)) as (c & Hc & (_ & Hs & Hr & _ & Hg)).
    exists c. split; [exact Hc|]. split; [done|]. rewrite Hs, Hr. simpl.
    eapply ready_deleting; [|exact Hx]. by eapply list_elem_of_lookup_2.
  - assert (∀ d, d ∈ conditions → is_deleting d = false) as Hd by by apply IndexFunc_None.
    destruct (collect_all conditions [] [] []) as (de & dw & du & -> & He & Hw & Hu). simpl.
    set (new := buildReadyCondition de dw du (length conditions) generation).
    destruct (buildReadyCondition_ready conditions de dw du generation Hd He Hw Hu) as [Ht Hready].
    fold new in Ht, Hready.
    destruct (set_condition_found conditions new) as (c & Hc & (_ & Hs & Hr & _ & Hg)).
    exists c. rewrite Ht in Hc. split; [done|]. rewrite Hs, Hr, Hg. split; [|done].
    unfold new, buildReadyCondition. by repeat case_match.
Qed.

(** The five cases exclude each other. *)
Lemma ready_as_fun cs s1 r1 s2 r2 :
  ready_as cs s1 r1 → ready_as cs s2 r2 → s1 = s2 ∧ r1 = r2.
Proof.
  assert (∀ c, is_deleting c = true → (∀ d, d ∈ cs → is_deleting d = false) → c ∈ cs → False)
    as Hdel by (intros c Ht Hf Hin; by rewrite (Hf c Hin) in Ht).
  intros H1 H2. destruct H1, H2; try done; exfalso; naive_solver set_solver.
Qed.

(** C37: the Ready condition is False/Deleting while a Deleting condition is
    True, else False/Failed exactly when some condition reports an error, else
    False/Progressing exactly when one reports a warning, else
    Unknown/Progressing exactly when one is unknown (or there are none), and
    True otherwise; it carries the generation given, and no other condition
    changes. *)
Theorem UpdateReadyCondition_priority conditions generation status reason :
  (ready_as conditions status reason ↔
   ∃ c, find_condition ReadyCondition (UpdateReadyCondition conditions generation) = Some c ∧
     cond_observedGeneration c = generation ∧ cond_status c = status ∧ cond_reason c = reason) ∧
  filterb (λ x, negb (bool_decide (cond_type x = ReadyCondition))) (UpdateReadyCondition conditions generation) =
  filterb (λ x, negb (bool_decide (cond_type x = ReadyCondition))) conditions.
Proof.
  split.
  - destruct (UpdateReadyCondition_ready conditions generation) as (c & Hc & Hg & Hr). split.
    + intros Hs. exists c. destruct (ready_as_fun _ _ _ _ _ Hr Hs). done.
    + intros (c' & Hc' & _ & <- & <-). by assert (c' = c) as -> by congruence.
  - unfold UpdateReadyCondition. destruct (IndexFunc is_deleting conditions).
    + exact (set_condition_others conditions (mkCondition ReadyCondition _ _ _ _ _)).
    + destruct (foldl collect _ _) as [[e w] u].
      replace ReadyCondition with (cond_type (buildReadyCondition e w u (length conditions) generation));
        [apply set_condition_others|]. unfold buildReadyCondition. by repeat case_match.
Qed.
End ready.

(** Without any condition the state is unknown, but the Ready condition this
    adds is counted the next time: the second summary, of nothing but the
    first one, says the object is ready. *)
Example ready_from_nothing :
  let update cs := UpdateReadyCondition (H:=simple_conditions) (λ _, ("", "")) cs 1 in
  (cond_status <$> update [], cond_status <$> update (update [])) = ([CondUnknown], [CondTrue]).
Proof. vm_compute. reflexivity. Qed.
