(* ===== verification/ApiManagement.v ===== *)
(** * Management-side API types of [src/api/v1beta1].

    The Management object, the Regions and the Release it is installed from,
    the templates of clusters and providers, and what a ClusterDeployment
    refers to by name (Credential, RBACPolicy). Helm values and other JSON
    payloads are kept as their text. *)

From S2P Require Import Prelude Api.

(** [Providers] and [CompatibilityContracts]. *)
Definition Providers := list string.
Abbreviation CompatibilityContracts := (gmap string string).

Definition ManagementName := "kcm".
Definition CoreKCMName := "kcm".
Definition CoreKCMRegionalName := "kcm-regional".
Definition KCMRegionalTemplateAnnotation := "k0rdent.mirantis.com/kcm-regional-template".
Definition InfrastructureProviderPrefix := "infrastructure-".
Definition ClusterRoleBindingNamePrefix := "k0rdent-".

(** ** Credential *)

Record CredentialSpec := mkCredentialSpec {
  crs_identityRef : option ObjectReference; crs_region : string; crs_description : string }.
Record CredentialStatus := mkCredentialStatus {
  crst_conditions : list Condition; crst_ready : bool }.
Record Credential := mkCredential {
  cred_meta : ObjectMeta; cred_spec : CredentialSpec; cred_status : CredentialStatus }.

(** ** Components of a management or regional cluster *)

Record Component := mkComponent { cmp_config : option string; cmp_template : string }.
Record Core := mkCore { core_kcm : Component; core_capi : Component }.
Record Provider := mkProvider { prv_component : Component; prv_name : string }.
Record KCMComponentInfo := mkComponentInfo {
  ci_chartName : string; ci_defaultTemplate : string; ci_releaseName : string }.

Record ComponentStatus := mkComponentStatus {
  cst_template : string; cst_error : string; cst_exposedProviders : Providers; cst_success : bool }.

Record ComponentsCommonSpec := mkComponentsSpec {
  ccs_core : option Core; ccs_globalValues : option string; ccs_providers : list Provider }.
Record ComponentsCommonStatus := mkComponentsStatus {
  ccst_capiContracts : gmap string CompatibilityContracts;
  ccst_components : gmap string ComponentStatus;
  ccst_availableProviders : Providers }.

(** ** Release *)

Record NamedProviderTemplate := mkNamedTemplate { npt_template : string; npt_name : string }.
Record ReleaseSpec := mkReleaseSpec {
  rls_version : string; rls_kcm : string; rls_regional : string; rls_capi : string;
  rls_providers : list NamedProviderTemplate }.
Record ReleaseStatus := mkReleaseStatus {
  rlst_conditions : list Condition; rlst_observedGeneration : Z; rlst_ready : bool }.
Record Release := mkRelease {
  rel_meta : ObjectMeta; rel_spec : ReleaseSpec; rel_status : ReleaseStatus }.

(** [Release.ProviderTemplate]: the template of the first provider of that name. *)
Definition ProviderTemplate_of (rel : Release) (name : string) : string :=
  match filterb (λ p, bool_decide (npt_name p = name)) (rls_providers (rel_spec rel)) with
  | p :: _ => npt_template p
  | [] => ""
  end.

Definition getKCMRegionalTemplateName (rel : Release) : string :=
  if negb (bool_decide (rls_regional (rel_spec rel) = "")) then rls_regional (rel_spec rel)
  else default "" (om_annotations (rel_meta rel) !! KCMRegionalTemplateAnnotation).

Definition Release_Templates (rel : Release) : list string :=
  let templates := [rls_kcm (rel_spec rel); rls_capi (rel_spec rel)] in
  let kcmRegionalTemplateName := getKCMRegionalTemplateName rel in
  let templates := if negb (bool_decide (kcmRegionalTemplateName = ""))
                   then templates ++ [kcmRegionalTemplateName] else templates in
  foldl (λ templates p, templates ++ [npt_template p]) templates (rls_providers (rel_spec rel)).

Definition Release_Providers (rel : Release) : list Provider :=
  (λ p, mkProvider (mkComponent None "") (npt_name p)) <$> rls_providers (rel_spec rel).

(** ** Management and Region *)

Record ManagementCleanup := mkManagementCleanup {
  mc_k0rdentCRDs : bool; mc_capiProviderCRDs : bool }.
Record ManagementSpec := mkManagementSpec {
  ms_release : string; ms_components : ComponentsCommonSpec; ms_cleanup : ManagementCleanup }.
Record ManagementStatus := mkManagementStatus {
  mst_conditions : list Condition; mst_backupName : string; mst_release : string;
  mst_components : ComponentsCommonStatus; mst_observedGeneration : Z }.
Record Management := mkManagement {
  mgmt_meta : ObjectMeta; mgmt_spec : ManagementSpec; mgmt_status : ManagementStatus }.

(** [Management.Templates]: the templates the spec names itself. *)
Definition Management_Templates (m : Management) : list string :=
  let named (t : string) := if negb (bool_decide (t = "")) then [t] else [] in
  let templates := match ccs_core (ms_components (mgmt_spec m)) with
                   | Some core => named (cmp_template (core_capi core)) ++ named (cmp_template (core_kcm core))
                   | None => []
                   end in
  foldl (λ templates p, templates ++ named (cmp_template (prv_component p))) templates
    (ccs_providers (ms_components (mgmt_spec m))).

(** A key of a Secret. *)
Record SecretKeyReference := mkSecretKey { skr_name : string; skr_key : string }.
Record ClusterDeploymentRef := mkCDRef { cdr_namespace : string; cdr_name : string }.

Record RegionSpec := mkRegionSpec {
  rgs_kubeConfig : option SecretKeyReference;
  rgs_clusterDeployment : option ClusterDeploymentRef;
  rgs_components : ComponentsCommonSpec }.
Record RegionStatus := mkRegionStatus {
  rgst_components : ComponentsCommonStatus; rgst_conditions : list Condition;
  rgst_observedGeneration : Z }.
Record Region := mkRegion {
  rgn_meta : ObjectMeta; rgn_spec : RegionSpec; rgn_status : RegionStatus }.

(** The interface both satisfy ([ComponentsManager], [ClusterParent]): the
    values below are all of them. *)
Inductive ClusterParent :=
  | ParentManagement (m : Management)
  | ParentRegion (r : Region).

Definition parent_name (p : ClusterParent) : string :=
  match p with
  | ParentManagement m => om_name (mgmt_meta m)
  | ParentRegion r => om_name (rgn_meta r)
  end.
Definition Components (p : ClusterParent) : ComponentsCommonSpec :=
  match p with
  | ParentManagement m => ms_components (mgmt_spec m)
  | ParentRegion r => rgs_components (rgn_spec r)
  end.
Definition GetComponentsStatus (p : ClusterParent) : ComponentsCommonStatus :=
  match p with
  | ParentManagement m => mst_components (mgmt_status m)
  | ParentRegion r => rgst_components (rgn_status r)
  end.
Definition HelmReleasePrefix (p : ClusterParent) : string :=
  match p with ParentManagement _ => "" | ParentRegion r => om_name (rgn_meta r) end.
Definition GetKCMComponentInfo (p : ClusterParent) (release : Release) (kcmReleaseName : string)
  : KCMComponentInfo :=
  match p with
  | ParentManagement _ => mkComponentInfo CoreKCMName (rls_kcm (rel_spec release)) kcmReleaseName
  | ParentRegion _ =>
      mkComponentInfo CoreKCMRegionalName (getKCMRegionalTemplateName release) CoreKCMRegionalName
  end.
Definition parent_kind (p : ClusterParent) : string :=
  match p with ParentManagement _ => "Management" | ParentRegion _ => "Region" end.

(** ** Cluster and provider templates *)

Record TemplateStatusCommon := mkTemplateStatus {
  tsc_config : option string;
  tsc_chartRef : option CrossNamespaceSourceReference;
  tsc_chartVersion : string;
  tsc_description : string;
  tsc_schemaConfigMapName : string;
  tsc_validation : TemplateValidationStatus;
  tsc_observedGeneration : Z }.

Record ClusterTemplateSpec := mkClusterTemplateSpec {
  cts_helm : HelmSpec; cts_providerContracts : CompatibilityContracts;
  cts_kubernetesVersion : string; cts_providers : Providers }.
Record ClusterTemplateStatus := mkClusterTemplateStatus {
  ctst_providerContracts : CompatibilityContracts; ctst_kubernetesVersion : string;
  ctst_providers : Providers; ctst_common : TemplateStatusCommon }.
Record ClusterTemplate := mkClusterTemplate {
  ct_meta : ObjectMeta; ct_spec : ClusterTemplateSpec; ct_status : ClusterTemplateStatus }.

Record ProviderTemplateSpec := mkProviderTemplateSpec {
  pts_helm : HelmSpec; pts_capiContracts : CompatibilityContracts; pts_providers : Providers }.
Record ProviderTemplateStatus := mkProviderTemplateStatus {
  ptst_capiContracts : CompatibilityContracts; ptst_providers : Providers;
  ptst_common : TemplateStatusCommon }.
Record ProviderTemplate := mkProviderTemplate {
  pt_meta : ObjectMeta; pt_spec : ProviderTemplateSpec; pt_status : ProviderTemplateStatus }.

Definition pt_valid (t : ProviderTemplate) : bool := tv_valid (tsc_validation (ptst_common (pt_status t))).

(** [HelmSpec.String()]; without a chart reference or specification the code
    dereferences a nil pointer. *)
Definition HelmSpec_String (s : HelmSpec) : result string :=
  match hs_chartRef s with
  | Some r =>
      Ok (if negb (bool_decide (cr_namespace r = ""))
          then cr_namespace r +:+ "/" +:+ cr_name r +:+ ", Kind=" +:+ cr_kind r
          else cr_name r +:+ ", Kind=" +:+ cr_kind r)
  | None =>
      match hs_chartSpec s with
      | Some c => Ok (if negb (bool_decide (hc_version c = ""))
                      then hc_chart c +:+ ": " +:+ hc_version c else hc_chart c)
      | None => Err (ErrNew "nil pointer dereference")
      end
  end.

(** ** Provider interfaces *)

(** The group, version and kind of a cluster identity; the references of its
    objects as their text. *)
Record ClusterIdentity := mkClusterIdentity {
  cid_group : string; cid_version : string; cid_kind : string; cid_references : list string }.
Record ProviderInterfaceSpec := mkProviderInterfaceSpec {
  pis_description : string; pis_clusterIdentityKinds : list string;
  pis_clusterIdentities : list ClusterIdentity }.
Record ProviderInterface := mkProviderInterface {
  pi_meta : ObjectMeta; pi_spec : ProviderInterfaceSpec }.

(** [corev1.Secret] and [corev1.Namespace]. *)
Record Secret := mkSecret { sec_meta : ObjectMeta; sec_data : gmap string string }.
Record Namespace := mkNamespace { nsp_meta : ObjectMeta }.

(** The label of the objects the controllers manage. *)
Definition KCMManagedLabelKey := "k0rdent.mirantis.com/managed".
Definition KCMManagedLabelValue := "true".

(** ** RBACPolicy *)

Record RBACPolicySubject := mkSubject { rsub_kind : string; rsub_name : string }.
#[export] Instance RBACPolicySubject_eq_dec : EqDecision RBACPolicySubject.
Proof. solve_decision. Defined.
#[export] Program Instance RBACPolicySubject_countable : Countable RBACPolicySubject :=
  inj_countable' (λ s, (rsub_kind s, rsub_name s)) (λ p, mkSubject p.1 p.2) _.
Next Obligation. by intros []. Qed.

(** [rbacv1.PolicyRule], [ClusterRole], [RoleRef], [Subject] and
    [ClusterRoleBinding]. *)
Record PolicyRule := mkPolicyRule {
  pr_verbs : list string; pr_apiGroups : list string; pr_resources : list string;
  pr_resourceNames : list string; pr_nonResourceURLs : list string }.
#[export] Instance PolicyRule_eq_dec : EqDecision PolicyRule.
Proof. solve_decision. Defined.
Record ClusterRole := mkClusterRole { cr_meta : ObjectMeta; cr_rules : list PolicyRule }.
Record RoleRef := mkRoleRef { rr_apiGroup : string; rr_kind : string; rr_name : string }.
#[export] Instance RoleRef_eq_dec : EqDecision RoleRef.
Proof. solve_decision. Defined.
Record Subject := mkRbacSubject { sub_kind : string; sub_apiGroup : string; sub_name : string; sub_namespace : string }.
#[export] Instance Subject_eq_dec : EqDecision Subject.
Proof. solve_decision. Defined.
Record ClusterRoleBinding := mkClusterRoleBinding {
  crb_meta : ObjectMeta; crb_roleRef : RoleRef; crb_subjects : list Subject }.

Record RBACPolicyBinding := mkBinding {
  rbb_name : string; rbb_clusterRole : string; rbb_rules : list PolicyRule;
  rbb_subjects : list RBACPolicySubject }.
Record RBACPolicy := mkRBACPolicy { rbac_meta : ObjectMeta; rbac_bindings : list RBACPolicyBinding }.

(** ** Field indexes *)

Definition ExtractTemplateNameFromClusterDeployment (cd : ClusterDeployment) : list string :=
  [cds_template (cd_spec cd)].
Definition ExtractCredentialNameFromClusterDeployment (cd : ClusterDeployment) : list string :=
  [cds_credential (cd_spec cd)].
Definition ExtractClusterAuthenticationNameFromClusterDeployment (cd : ClusterDeployment) : list string :=
  if bool_decide (cds_clusterAuth (cd_spec cd) = "") then [] else [cds_clusterAuth (cd_spec cd)].
Definition ExtractClusterAuditPolicyNameFromClusterDeployment (cd : ClusterDeployment) : list string :=
  if bool_decide (cds_auditPolicy (cd_spec cd) = "") then [] else [cds_auditPolicy (cd_spec cd)].
Definition ExtractRBACPolicyNameFromClusterDeployment (cd : ClusterDeployment) : list string :=
  if bool_decide (cds_rbacPolicy (cd_spec cd) = "") then [] else [cds_rbacPolicy (cd_spec cd)].
Definition ExtractServiceTemplateNamesFromClusterDeployment (cd : ClusterDeployment) : list string :=
  svc_template <$> ss_services (cds_serviceSpec (cd_spec cd)).
Definition ExtractServiceTemplateNamesFromMultiClusterService (mcs : MultiClusterService) : list string :=
  svc_template <$> ss_services (mcs_serviceSpec (mcs_spec mcs)).
Definition ExtractProvidersFromClusterTemplate (ct : ClusterTemplate) : list string :=
  ctst_providers (ct_status ct).
Definition HelmChartIndexValue (namespace name : string) : string := namespace +:+ "/" +:+ name.
Definition HelmChartKind := "HelmChart".
Definition ExtractChartRefFromClusterTemplate (ct : ClusterTemplate) : list string :=
  match hs_chartRef (cts_helm (ct_spec ct)) with
  | None => []
  | Some r =>
      if negb (bool_decide (cr_kind r = HelmChartKind)) then []
      else
        let namespace := if bool_decide (cr_namespace r = "") then om_namespace (ct_meta ct) else cr_namespace r in
        [HelmChartIndexValue namespace (cr_name r)]
  end.
Definition ExtractCredentialRegion (cred : Credential) : list string := [crs_region (cred_spec cred)].

(** [client.MatchingFields{key: value}] with the index function of the key. *)
Definition MatchingField {T} (extract : T → list string) (value : string) (x : T) : bool :=
  bool_decide (value ∈ extract x).
