(* ===== verification/Effects.v ===== *)
(** * Calls with effects, clients and several clusters

    The controllers that work on more than one cluster, the management cluster,
    the regional one and the child: calls that change a state and may fail, the
    clients they go through, the states the clusters pass through while a
    reconcile runs, and the rules for reasoning about such calls. *)

From S2P Require Import Prelude Api Kube.

(** ** Calls *)

(** A Go call that changes [S] and returns a value or an error. What was
    changed before an error stays changed. *)
Definition M (S A : Type) : Type := S → S * result A.

#[export] Instance M_ret {S} : MRet (M S) := λ A a s, (s, Ok a).
#[export] Instance M_bind {S} : MBind (M S) := λ A B k m s,
  match m s with (s, Ok a) => k a s | (s, Err e) => (s, Err e) end.

Definition fail {S A} (e : gerror) : M S A := λ s, (s, Err e).
(** A call whose error is looked at rather than returned. *)
Definition try {S A} (m : M S A) : M S (result A) := λ s, let '(s, r) := m s in (s, Ok r).
Definition lift {S A} (r : result A) : M S A := λ s, (s, r).
Definition gets {S A} (f : S → A) : M S A := λ s, (s, Ok (f s)).
Definition modify {S} (f : S → S) : M S unit := λ s, (f s, Ok tt).
Definition wrapM {S A} (prefix : string) (m : M S A) : M S A := λ s, let '(s, r) := m s in (s, wrap_err prefix r).
(** [if b { m }]. *)
Definition when {S} (b : bool) (m : M S unit) : M S unit := if b then m else mret tt.
Definition fail_if {S} (err : option gerror) : M S unit :=
  match err with Some e => fail e | None => mret tt end.

(** A run-time panic on the way through calls like these is an error, and no code
    looks at it: [attempt] is [try] but for a panic. *)
Definition nil_dereference : gerror := sentinel "runtime error: invalid memory address or nil pointer dereference".
Definition panicking (e : gerror) : bool :=
  errors_Is "runtime error: invalid memory address or nil pointer dereference" e.
Definition attempt {S A} (m : M S A) : M S (result A) := λ s,
  match m s with
  | (s, Ok a) => (s, Ok (Ok a))
  | (s, Err e) => if panicking e then (s, Err e) else (s, Ok (Err e))
  end.

(** A loop that stops at the first error, and one that carries a value along. *)
Fixpoint iterM {S A} (f : A → M S unit) (l : list A) : M S unit :=
  match l with [] => mret tt | x :: l => f x ≫= λ _, iterM f l end.
Fixpoint foldM {S A B} (f : B → A → M S B) (b : B) (l : list A) : M S B :=
  match l with [] => mret b | x :: l => b' ← f b x; foldM f b' l end.
(** [client.IgnoreNotFound(err) != nil] ends the caller, with a prefix. *)
Definition ignore_not_found {S} (prefix : string) (m : M S unit) : M S unit := λ s,
  let '(s, r) := m s in
  (s, match r with Ok _ => Ok tt | Err e => if IsNotFound e then Ok tt else Err (ErrWrap prefix e) end).

(** ** Clients *)

(** A client of one cluster, in a state that holds several things. *)
Record client (S C : Type) := mkClient {
  view : S → C;
  put : C → S → S;
  view_put : ∀ c s, view (put c s) = c }.
Arguments mkClient {S C} _ _ _.
Arguments view {S C} _ _.
Arguments put {S C} _ _ _.
Arguments view_put {S C} _ _ _.

Section client_calls.
Context {S C : Type}.

Definition call {A} (cl : client S C) (f : C → C * result A) : M S A := λ s,
  let '(c, r) := f (view cl s) in (put cl c s, r).
Definition err_result (err : option gerror) : result unit :=
  match err with Some e => Err e | None => Ok tt end.
Definition effect (f : C → C * option gerror) : C → C * result unit := λ c, let '(c, err) := f c in (c, err_result err).

Definition Get (T : Type) `{!Getter C T} (cl : client S C) (k : ObjectKey) : M S T :=
  gets (λ s, c_get (T:=T) (view cl s) k) ≫= lift.
Definition ListObjects (T : Type) `{!Lister C T} (cl : client S C) (ns : string) (p : T → bool) : M S (list T) :=
  gets (λ s, c_list (view cl s) ns p) ≫= lift.
Definition Create {T : Type} `{!Writer C T} (cl : client S C) (x : T) : M S unit := call cl (effect (λ c, c_create c x)).
Definition Update {T : Type} `{!Writer C T} (cl : client S C) (x : T) : M S unit := call cl (effect (λ c, c_update c x)).
Definition Delete {T : Type} `{!Deleter C T} (cl : client S C) (x : T) : M S unit := call cl (effect (λ c, c_delete c x)).
End client_calls.

(** ** Merge patches *)

(** [client.MergeFrom(base)]: the data of the patch that leads to the object,
    and sending it. No patch is needed to stay where one is. *)
Class Patcher (C T : Type) := {
  patch_Data : T → T → result string;
  c_patch : C → T → T → C * option gerror;
  patch_Data_same x : patch_Data x x = Ok "{}"
}.
Definition Patch {S C T : Type} `{!Patcher C T} (cl : client S C) (x base : T) : M S unit :=
  call cl (effect (λ c, c_patch c x base)).

(** ** What an API server promises of a kind *)

(** An object is stored with the labels and the data given, all that can be left
    of a deleted one is held by a finalizer, no other object of the kind is
    touched, and a list holds exactly the objects that match. A patch made from
    what is stored leaves the labels and the data of the object it leads to; an
    empty one means nothing of that changes. *)
Class Kind (C T : Type) (meta : T → ObjectMeta) {D : Type} (data : T → D)
    `{!Getter C T} `{!Writer C T} `{!Deleter C T} `{!Patcher C T} `{!Lister C T} := {
  kind_key (c : C) k (x : T) : c_get c k = Ok x → meta_key (meta x) = k;
  kind_create (c : C) (x : T) c' : c_create c x = (c', None) →
    ∃ y, c_get c' (meta_key (meta x)) = Ok y ∧ om_labels (meta y) = om_labels (meta x) ∧ data y = data x;
  kind_patch (c : C) (x base : T) c' : c_get c (meta_key (meta x)) = Ok base → c_patch c x base = (c', None) →
    ∃ y, c_get c' (meta_key (meta x)) = Ok y ∧ om_labels (meta y) = om_labels (meta x) ∧ data y = data x;
  kind_delete (c : C) (x : T) c' err : c_delete c x = (c', err) →
    match err with Some e => IsNotFound e = true | None => True end →
    ∀ y, c_get (T:=T) c' (meta_key (meta x)) = Ok y → om_finalizers (meta y) ≠ [];
  kind_delete_left (c : C) (x : T) y : c_get (c_delete c x).1 (meta_key (meta x)) = Ok y →
    om_finalizers (meta y) ≠ [] ∨ c_get c (meta_key (meta x)) = Ok y;
  kind_create_frame (c : C) (x : T) k : k ≠ meta_key (meta x) → c_get (T:=T) (c_create c x).1 k = c_get c k;
  kind_patch_frame (c : C) (x base : T) k : k ≠ meta_key (meta x) → c_get (T:=T) (c_patch c x base).1 k = c_get c k;
  kind_delete_frame (c : C) (x : T) k : k ≠ meta_key (meta x) → c_get (T:=T) (c_delete c x).1 k = c_get c k;
  kind_list (c : C) ns (p : T → bool) l : c_list c ns p = Ok l →
    ∀ x, x ∈ l ↔ c_get c (meta_key (meta x)) = Ok x ∧ in_namespace ns (meta x) = true ∧ p x = true;
  kind_list_NoDup (c : C) ns (p : T → bool) l : c_list c ns p = Ok l → NoDup ((λ x, meta_key (meta x)) <$> l);
  patch_Data_empty (x base : T) : patch_Data x base = Ok "{}" →
    om_labels (meta x) = om_labels (meta base) ∧ data x = data base
}.

(** Writing objects of the kind [A] leaves those of the kind [B] alone. *)
Class Apart (C A B : Type) `{!Writer C A} `{!Deleter C A} `{!Patcher C A} `{!Getter C B} := {
  apart_create (c : C) (x : A) k : c_get (T:=B) (c_create c x).1 k = c_get c k;
  apart_patch (c : C) (x base : A) k : c_get (T:=B) (c_patch c x base).1 k = c_get c k;
  apart_delete (c : C) (x : A) k : c_get (T:=B) (c_delete c x).1 k = c_get c k
}.

(** ** [controllerutil.CreateOrUpdate] *)

Inductive OperationResult := OperationResultNone | OperationResultCreated | OperationResultUpdated.
#[export] Instance OperationResult_eq_dec : EqDecision OperationResult.
Proof. solve_decision. Defined.

Section create_or_update.
Context {S C T : Type} `{!Getter C T} `{!Writer C T}.
Variable meta : T → ObjectMeta.
Variable cl : client S C.
Variables (x : T) (mutate : T → M S T).

(** Documented: the object is read; if it is not found the one passed is mutated
    and created; otherwise the one read is mutated, and updated if that changed
    it. The object comes back as the server then has it. *)
Definition stored_as (c : C) (k : ObjectKey) (z : T) : Prop := c_get c k = Ok z ∧ meta_key (meta z) = k.
Inductive created_or_updated (s : S) : S → result (T * OperationResult) → Prop :=
  | cou_unread e : c_get (view cl s) (meta_key (meta x)) = Err e → IsNotFound e = false → created_or_updated s s (Err e)
  | cou_failed base s' e :
      (c_get (view cl s) (meta_key (meta x)) = Ok base ∨
       base = x ∧ ∃ e', c_get (T:=T) (view cl s) (meta_key (meta x)) = Err e' ∧ IsNotFound e' = true) →
      mutate base s = (s', Err e) → created_or_updated s s' (Err e)
  | cou_create e' y s1 c' err z : c_get (T:=T) (view cl s) (meta_key (meta x)) = Err e' → IsNotFound e' = true →
      mutate x s = (s1, Ok y) → c_create (view cl s1) y = (c', err) → (err = None → stored_as c' (meta_key (meta y)) z) →
      created_or_updated s (put cl c' s1) (match err with Some e => Err e | None => Ok (z, OperationResultCreated) end)
  | cou_same base s1 : stored_as (view cl s) (meta_key (meta x)) base → mutate base s = (s1, Ok base) →
      created_or_updated s s1 (Ok (base, OperationResultNone))
  | cou_update base y s1 c' err z : stored_as (view cl s) (meta_key (meta x)) base → mutate base s = (s1, Ok y) → y ≠ base →
      c_update (view cl s1) y = (c', err) → (err = None → stored_as c' (meta_key (meta y)) z) →
      created_or_updated s (put cl c' s1) (match err with Some e => Err e | None => Ok (z, OperationResultUpdated) end).

Lemma created_or_updated_pure (f : T → T) s s' r : (∀ y, mutate y = mret (f y)) →
  created_or_updated s s' r → s' = s ∨ ∃ c, s' = put cl c s.
Proof.
  intros Hf [|base ? ? ? Hm|? ? ? ? ? ? ? ? Hm|? ? ? Hm|? ? ? ? ? ? ? Hm]; [by left|..];
    rewrite Hf in Hm; unfold mret, M_ret in Hm; simplify_eq; eauto.
Qed.
End create_or_update.

Class CreateOrUpdater (C T : Type) (meta : T → ObjectMeta) `{!Getter C T} `{!Writer C T} := {
  CreateOrUpdate {S} (cl : client S C) (x : T) (mutate : T → M S T) : M S (T * OperationResult);
  create_or_update_does {S} (cl : client S C) x mutate s s' r :
    CreateOrUpdate cl x mutate s = (s', r) → created_or_updated meta cl x mutate s s' r
}.

(** The same as a program, for the demonstrations, on a server that stores what
    it is given. *)
Section create_or_update_in_memory.
Context {C T : Type} `{!EqDecision T} `{!Getter C T} `{!Writer C T} (meta : T → ObjectMeta).
Class Storing := {
  storing_key (c : C) k (x : T) : c_get c k = Ok x → meta_key (meta x) = k;
  storing_create (c : C) (x : T) c' : c_create c x = (c', None) → c_get c' (meta_key (meta x)) = Ok x;
  storing_update (c : C) (x : T) c' : c_update c x = (c', None) → c_get c' (meta_key (meta x)) = Ok x
}.
Definition mem_create_or_update {S} (cl : client S C) (x : T) (mutate : T → M S T) : M S (T * OperationResult) := λ s,
  match c_get (T:=T) (view cl s) (meta_key (meta x)) with
  | Ok base =>
      match mutate base s with
      | (s1, Err e) => (s1, Err e)
      | (s1, Ok y) =>
          if bool_decide (y = base) then (s1, Ok (base, OperationResultNone))
          else let '(c', err) := c_update (view cl s1) y in
               (put cl c' s1, match err with Some e => Err e | None => Ok (y, OperationResultUpdated) end)
      end
  | Err e =>
      if IsNotFound e then
        match mutate x s with
        | (s1, Err e) => (s1, Err e)
        | (s1, Ok y) =>
            let '(c', err) := c_create (view cl s1) y in
            (put cl c' s1, match err with Some e => Err e | None => Ok (y, OperationResultCreated) end)
        end
      else (s, Err e)
  end.
Lemma mem_create_or_update_does `{!Storing} {S} (cl : client S C) x mutate s s' r :
  mem_create_or_update cl x mutate s = (s', r) → created_or_updated meta cl x mutate s s' r.
Proof.
  unfold mem_create_or_update. destruct (c_get _ _) as [base|e] eqn:Eg.
  - destruct (mutate base s) as [s1 [y|e]] eqn:Em; [|intros [= <- <-]; eapply cou_failed; eauto].
    case_bool_decide as Hy; [intros [= <- <-]; subst; eapply cou_same; [split; [done|by eapply storing_key]|done]|].
    destruct (c_update _ y) as [c' err] eqn:Eu. intros [= <- <-]. eapply cou_update; [split; [done|by eapply storing_key]|done..|]. intros ->. split; [by eapply storing_update|done].
  - destruct (IsNotFound e) eqn:Ee; [|intros [= <- <-]; by apply cou_unread].
    destruct (mutate x s) as [s1 [y|e']] eqn:Em; [|intros [= <- <-]; eapply cou_failed; eauto].
    destruct (c_create _ y) as [c' err] eqn:Eu. intros [= <- <-]. eapply cou_create; try done. intros ->. split; [by eapply storing_create|done].
Qed.
End create_or_update_in_memory.

(** ** Several clusters *)

(** The clusters by the handle their clients hold, and the states they went
    through, latest first: if the process dies, they are left in one of those. *)
Record fleet (Handle C : Type) := mkFleet { at_ : Handle → C; past : list (Handle → C) }.
Arguments mkFleet {Handle C} _ _.
Arguments at_ {Handle C} _ _.
Arguments past {Handle C} _.

Section fleet.
Context {Handle C : Type} `{EqDecision Handle}.

Definition fleet_put (h : Handle) (c : C) (w : fleet Handle C) : fleet Handle C :=
  mkFleet (λ h', if bool_decide (h' = h) then c else at_ w h') (at_ w :: past w).

Definition always (I : (Handle → C) → Prop) (w : fleet Handle C) : Prop := I (at_ w) ∧ Forall I (past w).

Lemma fleet_put_at h c w : at_ (fleet_put h c w) h = c.
Proof. simpl. by rewrite bool_decide_eq_true_2. Qed.
Lemma fleet_put_other h c w h' : h' ≠ h → at_ (fleet_put h c w) h' = at_ w h'.
Proof. intros Hne. simpl. by rewrite bool_decide_eq_false_2. Qed.
Lemma always_put I h c w : always I w → I (at_ (fleet_put h c w)) → always I (fleet_put h c w).
Proof. intros [Hi Hp] Hc. split; [done|]. by constructor. Qed.
End fleet.

(** ** Reasoning about calls *)

(** From a state where [P] holds, [m] ends in a state and with a result for
    which [Q] holds. *)
Definition triple {S A} (P : S → Prop) (m : M S A) (Q : S → result A → Prop) : Prop :=
  ∀ s, P s → Q (m s).1 (m s).2.
Definition keeps {S A} (I : S → Prop) (m : M S A) : Prop := triple I m (λ s _, I s).
(** [m] only looks. *)
Definition pure_call {S A} (m : M S A) : Prop := ∀ s, (m s).1 = s.

Section triples.
Context {S : Type}.
Implicit Types (P I : S → Prop).

Lemma triple_weaken {A} P P' (m : M S A) (Q Q' : S → result A → Prop) :
  (∀ s, P s → P' s) → triple P' m Q' → (∀ s r, Q' s r → Q s r) → triple P m Q.
Proof. intros Hp Hm Hq s Hs. apply Hq, Hm, Hp, Hs. Qed.
Lemma triple_ret {A} P (a : A) (Q : S → result A → Prop) : (∀ s, P s → Q s (Ok a)) → triple P (mret a) Q.
Proof. intros Hq s Hs. by apply Hq. Qed.
Lemma triple_fail {A} P e (Q : S → result A → Prop) : (∀ s, P s → Q s (Err e)) → triple P (fail e) Q.
Proof. intros Hq s Hs. by apply Hq. Qed.
Lemma triple_bind {A B} P (m : M S A) (k : A → M S B) (Q : S → result A → Prop) (R : S → result B → Prop) :
  triple P m Q → (∀ a, triple (λ s, Q s (Ok a)) (k a) R) → (∀ s e, Q s (Err e) → R s (Err e)) →
  triple P (m ≫= k) R.
Proof.
  intros Hm Hk He s Hs. specialize (Hm s Hs). unfold mbind, M_bind.
  destruct (m s) as [s' [a|e]]; [by apply Hk|by apply He].
Qed.
Lemma triple_try {A} P (m : M S A) (Q : S → result A → Prop) (R : S → result (result A) → Prop) :
  triple P m Q → (∀ s r, Q s r → R s (Ok r)) → triple P (try m) R.
Proof. intros Hm Hr s Hs. specialize (Hm s Hs). unfold try. destruct (m s) as [s' r]. by apply Hr. Qed.
Lemma triple_wrap {A} P prefix (m : M S A) (Q R : S → result A → Prop) :
  triple P m Q → (∀ s a, Q s (Ok a) → R s (Ok a)) → (∀ s e, Q s (Err e) → R s (Err (ErrWrap prefix e))) →
  triple P (wrapM prefix m) R.
Proof.
  intros Hm Ha He s Hs. specialize (Hm s Hs). unfold wrapM. destruct (m s) as [s' [a|e]]; simpl; [by apply Ha|by apply He].
Qed.
Lemma triple_gets {A} P (f : S → A) (Q : S → result A → Prop) : (∀ s, P s → Q s (Ok (f s))) → triple P (gets f) Q.
Proof. intros Hq s Hs. by apply Hq. Qed.
Lemma triple_lift {A} P (r : result A) (Q : S → result A → Prop) : (∀ s, P s → Q s r) → triple P (lift r) Q.
Proof. intros Hq s Hs. by apply Hq. Qed.
Lemma triple_modify P f (Q : S → result unit → Prop) : (∀ s, P s → Q (f s) (Ok tt)) → triple P (modify f) Q.
Proof. intros Hq s Hs. by apply Hq. Qed.

Lemma keeps_ret {A} I (a : A) : keeps I (mret a).
Proof. by intros s. Qed.
Lemma keeps_fail {A} I e : keeps I (fail (A:=A) e).
Proof. by intros s. Qed.
Lemma keeps_lift {A} I (r : result A) : keeps I (lift r).
Proof. by intros s. Qed.
Lemma keeps_gets {A} I (f : S → A) : keeps I (gets f).
Proof. by intros s. Qed.
Lemma keeps_bind {A B} I (m : M S A) (k : A → M S B) : keeps I m → (∀ a, keeps I (k a)) → keeps I (m ≫= k).
Proof. intros Hm Hk. eapply triple_bind; [exact Hm|exact Hk|done]. Qed.
Lemma keeps_try {A} I (m : M S A) : keeps I m → keeps I (try m).
Proof. intros Hm. by eapply triple_try. Qed.
Lemma keeps_wrap {A} I prefix (m : M S A) : keeps I m → keeps I (wrapM prefix m).
Proof. intros Hm. by eapply triple_wrap. Qed.
Lemma keeps_when I b (m : M S unit) : keeps I m → keeps I (when b m).
Proof. destruct b; [done|]. intros _. apply keeps_ret. Qed.
Lemma keeps_fail_if I err : keeps I (fail_if err).
Proof. destruct err; [apply keeps_fail|apply keeps_ret]. Qed.
Lemma keeps_modify I f : (∀ s, I s → I (f s)) → keeps I (modify f).
Proof. intros Hf s Hs. by apply Hf. Qed.

Lemma keeps_iterM {A} I (f : A → M S unit) l : (∀ x, x ∈ l → keeps I (f x)) → keeps I (iterM f l).
Proof.
  induction l as [|x l IH]; intros Hf; [apply keeps_ret|]. apply keeps_bind; [apply Hf; left|].
  intros _. apply IH. intros y Hy. apply Hf. by right.
Qed.
Lemma keeps_foldM {A B} I (f : B → A → M S B) l : (∀ b x, x ∈ l → keeps I (f b x)) → ∀ b, keeps I (foldM f b l).
Proof.
  induction l as [|x l IH]; intros Hf b; [apply keeps_ret|]. apply keeps_bind; [apply Hf; left|].
  intros b'. apply IH. intros b'' y Hy. apply Hf. by right.
Qed.
Lemma keeps_ignore I prefix (m : M S unit) : keeps I m → keeps I (ignore_not_found prefix m).
Proof. intros Hm s Hs. specialize (Hm s Hs). unfold ignore_not_found. by destruct (m s). Qed.

Lemma keeps_Get {C T} `{!Getter C T} I (cl : client S C) k : keeps I (Get T cl k).
Proof. apply keeps_bind; [apply keeps_gets|]. intros a. apply keeps_lift. Qed.
Lemma keeps_List {C T} `{!Lister C T} I (cl : client S C) ns p : keeps I (ListObjects T cl ns p).
Proof. apply keeps_bind; [apply keeps_gets|]. intros a. apply keeps_lift. Qed.
Lemma keeps_call {C A} I (cl : client S C) (f : C → C * result A) :
  (∀ s, I s → I (put cl (f (view cl s)).1 s)) → keeps I (call cl f).
Proof. intros Hf s Hs. specialize (Hf s Hs). unfold call. by destruct (f (view cl s)). Qed.
Lemma keeps_effect {C} I (cl : client S C) (f : C → C * option gerror) :
  (∀ s, I s → I (put cl (f (view cl s)).1 s)) → keeps I (call cl (effect f)).
Proof. intros Hf. apply keeps_call. intros s Hs. specialize (Hf s Hs). unfold effect. by destruct (f (view cl s)). Qed.

Lemma Get_eq {C T} `{!Getter C T} (cl : client S C) k s : Get T cl k s = (s, c_get (view cl s) k).
Proof. done. Qed.
Lemma List_eq {C T} `{!Lister C T} (cl : client S C) ns p s : ListObjects T cl ns p s = (s, c_list (view cl s) ns p).
Proof. done. Qed.
Lemma bind_eq {A B} (m : M S A) (k : A → M S B) s :
  (m ≫= k) s = match m s with (s', Ok a) => k a s' | (s', Err e) => (s', Err e) end.
Proof. done. Qed.
Lemma call_effect_eq {C} (cl : client S C) (f : C → C * option gerror) s :
  call cl (effect f) s =
  (put cl (f (view cl s)).1 s, err_result (f (view cl s)).2).
Proof. unfold call, effect. by destruct (f (view cl s)). Qed.
Lemma Create_eq {C T} `{!Writer C T} (cl : client S C) (x : T) s :
  Create cl x s = (put cl (c_create (view cl s) x).1 s, err_result (c_create (view cl s) x).2).
Proof. apply (call_effect_eq cl (λ c, c_create c x)). Qed.
Lemma Update_eq {C T} `{!Writer C T} (cl : client S C) (x : T) s :
  Update cl x s = (put cl (c_update (view cl s) x).1 s, err_result (c_update (view cl s) x).2).
Proof. apply (call_effect_eq cl (λ c, c_update c x)). Qed.
Lemma Delete_eq {C T} `{!Deleter C T} (cl : client S C) (x : T) s :
  Delete cl x s = (put cl (c_delete (view cl s) x).1 s, err_result (c_delete (view cl s) x).2).
Proof. apply (call_effect_eq cl (λ c, c_delete c x)). Qed.
Lemma Patch_eq {C T} `{!Patcher C T} (cl : client S C) (x base : T) s :
  Patch cl x base s = (put cl (c_patch (view cl s) x base).1 s, err_result (c_patch (view cl s) x base).2).
Proof. apply (call_effect_eq cl (λ c, c_patch c x base)). Qed.
Lemma gets_lift_eq {A} (f : S → result A) s : (gets f ≫= lift) s = (s, f s).
Proof. done. Qed.
Lemma try_eq {A} (m : M S A) s : try m s = ((m s).1, Ok (m s).2).
Proof. unfold try. by destruct (m s). Qed.
Lemma wrap_eq {A} prefix (m : M S A) s : wrapM prefix m s = ((m s).1, wrap_err prefix (m s).2).
Proof. unfold wrapM. by destruct (m s). Qed.
Lemma bind_inv {A B} (m : M S A) (k : A → M S B) s s' b :
  (m ≫= k) s = (s', Ok b) → ∃ s1 a, m s = (s1, Ok a) ∧ k a s1 = (s', Ok b).
Proof. rewrite bind_eq. destruct (m s) as [s1 [a|e]]; [eauto|done]. Qed.
End triples.

#[export] Hint Resolve keeps_ret keeps_fail keeps_lift keeps_gets keeps_bind keeps_try keeps_wrap keeps_when keeps_fail_if keeps_ignore keeps_Get keeps_List : keeps.

(** Invariance of a call, down to its writes. *)
Ltac keep :=
  repeat first
    [ progress (eauto 3 with keeps)
    | apply keeps_bind; [|intros ?]
    | apply keeps_try | apply keeps_wrap | apply keeps_when
    | match goal with |- keeps _ (match ?x with _ => _ end) => destruct x end ].

(** ** A kind held in memory

    One map per kind; what an in-memory server answers, for the demonstrations. *)

Section memory.
Context {T : Type} (meta : T → ObjectMeta) (kind : string).
Notation store := (gmap ObjectKey T).

Definition mem_get (m : store) (k : ObjectKey) : result T :=
  match m !! k with
  | Some x => if bool_decide (meta_key (meta x) = k) then Ok x else Err (not_found_err kind k)
  | None => Err (not_found_err kind k)
  end.
Definition mem_create (m : store) (x : T) : store * option gerror :=
  if is_ok (mem_get m (meta_key (meta x))) then (m, Some (ErrApi ReasonAlreadyExists "already exists"))
  else (<[meta_key (meta x) := x]> m, None).
Definition mem_update (m : store) (x : T) : store * option gerror :=
  if is_ok (mem_get m (meta_key (meta x))) then (<[meta_key (meta x) := x]> m, None)
  else (m, Some (not_found_err kind (meta_key (meta x)))).
Definition mem_delete (m : store) (x : T) : store * option gerror :=
  match mem_get m (meta_key (meta x)) with
  | Ok y => (if bool_decide (om_finalizers (meta y) = []) then delete (meta_key (meta x)) m else m, None)
  | Err e => (m, Some e)
  end.
Definition mem_list (m : store) (ns : string) (p : T → bool) : result (list T) :=
  Ok (snd <$> filterb (λ kx, bool_decide (meta_key (meta kx.2) = kx.1) && in_namespace ns (meta kx.2) && p kx.2) (map_to_list m)).

Lemma mem_get_Ok m k x : mem_get m k = Ok x ↔ m !! k = Some x ∧ meta_key (meta x) = k.
Proof. unfold mem_get. destruct (m !! k); [|naive_solver]. case_bool_decide; naive_solver. Qed.
Lemma mem_get_insert m x : mem_get (<[meta_key (meta x) := x]> m) (meta_key (meta x)) = Ok x.
Proof. apply mem_get_Ok. by rewrite lookup_insert_eq. Qed.
Lemma mem_get_insert_ne m x k : k ≠ meta_key (meta x) → mem_get (<[meta_key (meta x) := x]> m) k = mem_get m k.
Proof. intros Hne. unfold mem_get. by rewrite lookup_insert_ne. Qed.
Lemma mem_create_stored m x m' : mem_create m x = (m', None) → mem_get m' (meta_key (meta x)) = Ok x.
Proof. unfold mem_create. destruct (is_ok _); [done|]. intros [= <-]. apply mem_get_insert. Qed.
Lemma mem_update_stored m x m' : mem_update m x = (m', None) → mem_get m' (meta_key (meta x)) = Ok x.
Proof. unfold mem_update. destruct (is_ok _); [|done]. intros [= <-]. apply mem_get_insert. Qed.
Lemma mem_create_frame m x k : k ≠ meta_key (meta x) → mem_get (mem_create m x).1 k = mem_get m k.
Proof. intros Hne. unfold mem_create. destruct (is_ok _); [done|]. by apply mem_get_insert_ne. Qed.
Lemma mem_update_frame m x k : k ≠ meta_key (meta x) → mem_get (mem_update m x).1 k = mem_get m k.
Proof. intros Hne. unfold mem_update. destruct (is_ok _); [|done]. by apply mem_get_insert_ne. Qed.
Lemma mem_delete_frame m x k : k ≠ meta_key (meta x) → mem_get (mem_delete m x).1 k = mem_get m k.
Proof.
  intros Hne. unfold mem_delete. destruct (mem_get m _); [|done]. case_bool_decide; [|done].
  cbn [fst]. unfold mem_get. by rewrite lookup_delete_ne.
Qed.
Lemma mem_delete_gone m x m' err y : mem_delete m x = (m', err) →
  mem_get m' (meta_key (meta x)) = Ok y → om_finalizers (meta y) ≠ [].
Proof.
  unfold mem_delete. destruct (mem_get m _) as [z|e] eqn:Hg.
  - case_bool_decide; intros [= <- <-].
    + unfold mem_get. by rewrite lookup_delete_eq.
    + rewrite Hg. by intros [= <-].
  - intros [= <- <-]. by rewrite Hg.
Qed.
Lemma mem_list_spec m ns p l : mem_list m ns p = Ok l →
  (∀ x, x ∈ l ↔ mem_get m (meta_key (meta x)) = Ok x ∧ in_namespace ns (meta x) = true ∧ p x = true) ∧
  NoDup ((λ x, meta_key (meta x)) <$> l).
Proof.
  intros [= <-]. set (q := λ kx : ObjectKey * T, bool_decide (meta_key (meta kx.2) = kx.1) && in_namespace ns (meta kx.2) && p kx.2). split.
  - intros x. rewrite mem_get_Ok, list_elem_of_fmap. split.
    + intros ([k y] & -> & Hy). apply filterb_elem_of in Hy as [Hy Hq]. unfold q in Hq. cbn [fst snd] in *.
      apply elem_of_map_to_list in Hy. bool_simpl. subst k. done.
    + intros ([Hx _] & Hn & Hp). exists (meta_key (meta x), x). split; [done|]. apply filterb_elem_of. split.
      * by apply elem_of_map_to_list.
      * unfold q. cbn [fst snd]. by rewrite Hn, Hp, bool_decide_eq_true_2.
  - assert ((λ x, meta_key (meta x)) <$> (snd <$> filterb q (map_to_list m)) = fst <$> filterb q (map_to_list m)) as ->.
    { rewrite <- list_fmap_compose. apply list_fmap_ext. intros i [k y] Hi. apply list_elem_of_lookup_2 in Hi.
      apply filterb_elem_of in Hi as [_ Hq]. unfold q in Hq. cbn in *. bool_simpl. done. }
    apply (NoDup_fmap_fst); [|apply NoDup_filter, NoDup_map_to_list].
    intros k y1 y2 [Hy1 _]%filterb_elem_of [Hy2 _]%filterb_elem_of. apply elem_of_map_to_list in Hy1, Hy2. congruence.
Qed.
End memory.
