(* ===== verification/TemplateChain.v ===== *)
(** * Template chains ([src/api/v1beta1/templatechain_common.go]).

    A chain lists, per supported template, the templates it may be upgraded
    to. This file models its validation ([IsValid]), the enumeration of every
    upgrade route from a template ([findAllUpgradePaths], a depth-first search)
    and the choice of one longest route per destination ([UpgradePaths]). *)

From S2P Require Import Prelude Api.

(** ** Validation *)

Section IsValid.
Context `{!MapRange string}.

Definition not_supported_msg (template : string) : string :=
  "template " +:+ template +:+
  " is allowed for upgrade but is not present in the list of '.spec.supportedTemplates'".
Definition mixed_versions_msg (template : string) : string :=
  "template " +:+ template +:+
  " has mixed version/no-version available upgrades: either all or none should have version set".

Definition has_version (u : AvailableUpgrade) : bool := negb (bool_decide (au_version u = "")).

(** Some but not all of the upgrades carry a version. *)
Definition mixed_versions (upgrades : list AvailableUpgrade) : bool :=
  match upgrades with
  | [] => false
  | u :: us => existsb (λ u', negb (Bool.eqb (has_version u') (has_version u))) us
  end.

Definition supported_names (s : TemplateChainSpec) : list string :=
  spt_name <$> tc_supportedTemplates s.
Definition upgrade_names (s : TemplateChainSpec) : list string :=
  t ← tc_supportedTemplates s; au_name <$> spt_availableUpgrades t.

(** [IsValid] returns the sorted warnings and whether there are none. *)
Definition IsValid (s : TemplateChainSpec) : list string * bool :=
  let supportedTemplates : gset string := list_to_set (supported_names s) in
  let availableForUpgrade : gset string := list_to_set (upgrade_names s) in
  let unsupported :=
    filterb (λ t, negb (bool_decide (t ∈ supportedTemplates))) (range_seq 0 availableForUpgrade) in
  let mixed := filterb (λ t, mixed_versions (spt_availableUpgrades t)) (tc_supportedTemplates s) in
  let warnings :=
    (not_supported_msg <$> unsupported) ++ (mixed_versions_msg <$> (spt_name <$> mixed)) in
  (isort string_leb warnings, bool_decide (warnings = [])).
End IsValid.

(** ** Upgrade routes *)

Definition template_map (s : TemplateChainSpec) : gmap string SupportedTemplate :=
  index_by spt_name id (tc_supportedTemplates s).

Section search.
Variable templateMap : gmap string SupportedTemplate.

(** The recursive closure [findPaths]: the paths it appends to [result], in
    order. [visited] is passed down instead of being set and reset on the
    way back. Out of fuel it finds nothing; [findPaths_complete] shows the
    fuel [findAllUpgradePaths] gives is enough to find everything. *)
Fixpoint findPaths (fuel : nat) (current : string) (path : list AvailableUpgrade)
    (visited : gset string) : list (list AvailableUpgrade) :=
  match fuel with
  | 0 => []
  | S fuel =>
      if bool_decide (current ∈ visited) then []
      else match templateMap !! current with
           | None => []
           | Some template =>
               upgrade ← spt_availableUpgrades template;
               if existsb (λ u, bool_decide (u = upgrade)) path then []
               else (path ++ [upgrade]) ::
                    findPaths fuel (au_name upgrade) (path ++ [upgrade]) ({[current]} ∪ visited)
           end
  end.
End search.

Definition template_not_found (templateName : string) : gerror :=
  ErrNew ("template " +:+ templateName +:+ " not found").

Definition findAllUpgradePaths (s : TemplateChainSpec) (templateName : string)
  : result (list (list AvailableUpgrade)) :=
  let templateMap := template_map s in
  match templateMap !! templateName with
  | None => Err (template_not_found templateName)
  | Some _ => Ok (findPaths templateMap (S (size templateMap)) templateName [] ∅)
  end.

Definition last_name (path : list AvailableUpgrade) : option string := au_name <$> last path.

(** One step of the loop that keeps the longest path per destination. *)
Definition keep_longest (uniquePaths : gmap string (list AvailableUpgrade))
    (path : list AvailableUpgrade) : gmap string (list AvailableUpgrade) :=
  match last_name path with
  | None => uniquePaths
  | Some key =>
      match uniquePaths !! key with
      | Some existing => if bool_decide (length existing < length path)
                         then <[key := path]> uniquePaths else uniquePaths
      | None => <[key := path]> uniquePaths
      end
  end.

Definition unique_paths (allPaths : list (list AvailableUpgrade)) : gmap string (list AvailableUpgrade) :=
  foldl keep_longest ∅ allPaths.

(** A hop without a version states its template name instead. *)
Definition default_version (u : AvailableUpgrade) : AvailableUpgrade :=
  if bool_decide (au_version u = "") then mkUpgrade (au_name u) (au_name u) else u.

Section UpgradePaths.
Context `{!MapRange string}.

Definition UpgradePaths (s : TemplateChainSpec) (templateName : string) : result (list UpgradePath) :=
  allPaths ← findAllUpgradePaths s templateName;
  let uniquePaths := unique_paths allPaths in
  Ok (omap (λ key, (λ path, mkUpgradePath [] (default_version <$> path)) <$> uniquePaths !! key)
        (range_seq 0 (dom uniquePaths))).
End UpgradePaths.

(** ** Routes *)

(** [chain_route tm c p]: [p] is a sequence of hops the chain allows from [c]. *)
Inductive chain_route (tm : gmap string SupportedTemplate) : string → list AvailableUpgrade → Prop :=
  | route_one c t u :
      tm !! c = Some t → u ∈ spt_availableUpgrades t → chain_route tm c [u]
  | route_cons c t u p :
      tm !! c = Some t → u ∈ spt_availableUpgrades t →
      chain_route tm (au_name u) p → chain_route tm c (u :: p).

(** The templates a route upgrades from. *)
Fixpoint sources (c : string) (p : list AvailableUpgrade) : list string :=
  match p with [] => [] | u :: p => c :: sources (au_name u) p end.

(** A route that upgrades from no template twice and takes no hop twice. *)
Definition simple_route tm c p : Prop :=
  chain_route tm c p ∧ NoDup (sources c p) ∧ NoDup p.

(** A chain is acyclic when its upgrades go up in some ranking. *)
Definition ranked (tm : gmap string SupportedTemplate) (rank : string → nat) : Prop :=
  ∀ c t u, tm !! c = Some t → u ∈ spt_availableUpgrades t → rank c < rank (au_name u).
Definition acyclic_chain tm : Prop := ∃ rank, ranked tm rank.

Section routes.
Variable tm : gmap string SupportedTemplate.

Lemma chain_route_ne c p : chain_route tm c p → p ≠ [].
Proof. by destruct 1. Qed.

Lemma chain_route_inv c u p :
  chain_route tm c (u :: p) →
  (∃ t, tm !! c = Some t ∧ u ∈ spt_availableUpgrades t) ∧
  (p = [] ∨ chain_route tm (au_name u) p).
Proof. inversion 1; subst; eauto. Qed.

Lemma chain_route_cons c t u p :
  tm !! c = Some t → u ∈ spt_availableUpgrades t →
  p = [] ∨ chain_route tm (au_name u) p → chain_route tm c (u :: p).
Proof. intros ?? [->|?]; econstructor; eauto. Qed.

(** A non-empty prefix of a route is a route. *)
Lemma chain_route_take c p n : chain_route tm c p → 0 < n → chain_route tm c (take n p).
Proof.
  intros Hr. revert n. induction Hr as [c t u Ht Hu|c t u p Ht Hu Hr IH]; intros n Hn.
  - destruct n; [lia|]. simpl. rewrite take_nil. by econstructor.
  - destruct n as [|n]; [lia|]. simpl. eapply chain_route_cons; eauto.
    destruct n; [by left|]. right. apply IH. lia.
Qed.

Lemma sources_elem c p x :
  x ∈ sources c p → x = c ∨ ∃ u, u ∈ p ∧ x = au_name u.
Proof.
  revert c. induction p as [|u p IH]; intros c; simpl.
  - by intros ?%elem_of_nil.
  - intros [->|Hx]%elem_of_cons; [by left|].
    right. destruct (IH _ Hx) as [->|(v & Hv & ->)]; eexists; split; try done; set_solver.
Qed.

Lemma sources_dom c p x : chain_route tm c p → x ∈ sources c p → x ∈ dom tm.
Proof.
  induction 1 as [c t u Ht Hu|c t u p Ht Hu Hr IH]; simpl.
  - intros ->%list_elem_of_singleton. by apply elem_of_dom_2 in Ht.
  - intros [->|?]%elem_of_cons; [by apply elem_of_dom_2 in Ht|auto].
Qed.

Lemma sources_head c p : p ≠ [] → c ∈ sources c p.
Proof. destruct p; [done|]. intros _. left. Qed.

Lemma sources_length c p : length (sources c p) = length p.
Proof. revert c. induction p; intros; simpl; auto. Qed.

(** What one call of the closure finds: the extensions of [path] by a route
    that avoids the templates visited and repeats no hop. *)
Lemma findPaths_elem fuel cur path visited q :
  size (dom tm ∖ visited) < fuel →
  q ∈ findPaths tm fuel cur path visited ↔
  ∃ p, q = path ++ p ∧ chain_route tm cur p ∧ NoDup (sources cur p) ∧
       (∀ x, x ∈ sources cur p → x ∉ visited) ∧ NoDup p ∧ (∀ u, u ∈ p → u ∉ path).
Proof.
  revert cur path visited q.
  induction fuel as [|fuel IH]; intros cur path visited q Hfuel; [lia|].
  cbn [findPaths]. case_bool_decide as Hvis.
  { split; [by intros ?%elem_of_nil|]. intros (p & -> & Hr & _ & Hs & _).
    exfalso. eapply Hs; [|done]. apply sources_head. by eapply chain_route_ne. }
  destruct (tm !! cur) as [t|] eqn:Ht; last first.
  { split; [by intros ?%elem_of_nil|]. intros (p & -> & Hr & _).
    destruct Hr; congruence. }
  assert (Hdom : cur ∈ dom tm) by by apply elem_of_dom_2 in Ht.
  assert (Hsz : size (dom tm ∖ ({[cur]} ∪ visited)) < fuel).
  { assert (dom tm ∖ ({[cur]} ∪ visited) ⊂ dom tm ∖ visited) as Hlt%subset_size by set_solver.
    lia. }
  rewrite list_elem_of_bind. split.
  - intros (u & Hq & Hu). destruct (existsb _ path) eqn:Hex; [by apply elem_of_nil in Hq|].
    assert (Hup : u ∉ path).
    { intros Hin. enough (existsb (λ u', bool_decide (u' = u)) path = true) by congruence.
      apply existsb_elem_of. exists u. split; [done|]. by apply bool_decide_eq_true. }
    apply elem_of_cons in Hq as [->|Hq].
    + exists [u]. simpl. split_and!; try done.
      * by econstructor.
      * apply NoDup_singleton.
      * set_solver.
      * apply NoDup_singleton.
      * set_solver.
    + apply IH in Hq as (p & -> & Hr & Hnd & Hs & Hndp & Hpath); [|done].
      exists (u :: p). rewrite <- app_assoc. simpl. split_and!; try done.
      * by econstructor.
      * constructor; [|done]. intros Hc. eapply Hs in Hc. set_solver.
      * intros x [->|Hx]%elem_of_cons; [done|]. apply Hs in Hx. set_solver.
      * constructor; [|done]. intros Hc. apply Hpath in Hc. set_solver.
      * intros v [->|Hv]%elem_of_cons; [done|]. apply Hpath in Hv. set_solver.
  - intros (p & -> & Hr & Hnd & Hs & Hndp & Hpath).
    destruct p as [|u p]; [by apply chain_route_ne in Hr|].
    apply chain_route_inv in Hr as [(t' & Ht' & Hu) Hr]. simplify_eq.
    exists u. split; [|done]. simpl in *.
    destruct (existsb _ path) eqn:Hex.
    { apply existsb_elem_of in Hex as (v & Hv & ->%bool_decide_eq_true).
      exfalso. eapply Hpath; [left|done]. }
    destruct Hr as [->|Hr]; [by left|]. right. rewrite cons_middle, app_assoc.
    apply NoDup_cons in Hnd as [Hc Hnd]. apply NoDup_cons in Hndp as [Hu' Hndp].
    apply IH; [done|]. exists p. split_and!; try done.
    + intros x Hx. specialize (Hs x). set_solver.
    + intros v Hv. specialize (Hpath v). set_solver.
Qed.
End routes.

Lemma findAllUpgradePaths_Ok s t all :
  findAllUpgradePaths s t = Ok all →
  ∀ p, p ∈ all ↔ simple_route (template_map s) t p.
Proof.
  unfold findAllUpgradePaths. destruct (template_map s !! t); [|done]. intros <-%Ok_inj p.
  rewrite findPaths_elem.
  - unfold simple_route. split.
    + intros (q & -> & ? & ? & _ & ? & _). done.
    + intros (? & ? & ?). exists p. split_and!; set_solver.
  - rewrite difference_empty_L, size_dom. lia.
Qed.

Lemma last_name_Some p k : last_name p = Some k ↔ ∃ u, last p = Some u ∧ au_name u = k.
Proof. unfold last_name. rewrite fmap_Some. naive_solver. Qed.

Lemma unique_paths_snoc all p : unique_paths (all ++ [p]) = keep_longest (unique_paths all) p.
Proof. unfold unique_paths. by rewrite foldl_app. Qed.

(** Per destination the table holds a path to it, and none of the paths is longer. *)
Definition longest_in (all : list (list AvailableUpgrade)) (k : string)
    (r : option (list AvailableUpgrade)) : Prop :=
  match r with
  | Some p => p ∈ all ∧ last_name p = Some k ∧
              ∀ q, q ∈ all → last_name q = Some k → length q ≤ length p
  | None => ∀ q, q ∈ all → last_name q ≠ Some k
  end.

Lemma longest_in_other all k x r :
  last_name x ≠ Some k → longest_in all k r → longest_in (all ++ [x]) k r.
Proof. destruct r; simpl; set_solver. Qed.

Lemma unique_paths_longest all k : longest_in all k (unique_paths all !! k).
Proof.
  induction all as [|x all IH] using rev_ind.
  { unfold unique_paths. simpl. rewrite lookup_empty. intros q Hq.
    by apply elem_of_nil in Hq. }
  rewrite unique_paths_snoc. unfold keep_longest.
  destruct (decide (last_name x = Some k)) as [Hx|Hx].
  - rewrite Hx. destruct (unique_paths all !! k) as [e|] eqn:He; [case_bool_decide as Hl|].
    + rewrite lookup_insert_eq. simpl in *. destruct IH as (? & ? & Hmax).
      split_and!; [set_solver|done|].
      intros q [Hq| ->%list_elem_of_singleton]%elem_of_app Hk; [|done].
      specialize (Hmax q Hq Hk). lia.
    + rewrite He. simpl in *. destruct IH as (? & ? & Hmax).
      split_and!; [set_solver|done|].
      intros q [Hq| ->%list_elem_of_singleton]%elem_of_app Hk; [auto|lia].
    + rewrite lookup_insert_eq. simpl in *. split_and!; [set_solver|done|].
      intros q [Hq| ->%list_elem_of_singleton]%elem_of_app Hk; [by destruct (IH q Hq)|done].
  - destruct (last_name x) as [kx|] eqn:Hkx.
    + assert (kx ≠ k) by congruence.
      apply longest_in_other; [congruence|].
      destruct (unique_paths all !! kx); [case_bool_decide|];
        rewrite ?lookup_insert_ne by done; done.
    + apply longest_in_other; [congruence|done].
Qed.

Lemma default_version_name u : au_name (default_version u) = au_name u.
Proof. unfold default_version. by case_bool_decide. Qed.

Lemma last_name_default p : last_name (default_version <$> p) = last_name p.
Proof.
  unfold last_name. rewrite fmap_last. destruct (last p); simpl; [|done].
  by rewrite default_version_name.
Qed.

Section UpgradePaths_spec.
Context `{!MapRange string}.

(** The routes offered, and the longest simple route each of them is. *)
Lemma UpgradePaths_elem s t paths up :
  UpgradePaths s t = Ok paths → up ∈ paths →
  ∃ p k, up = mkUpgradePath [] (default_version <$> p) ∧ last_name p = Some k ∧
    simple_route (template_map s) t p ∧
    ∀ q, simple_route (template_map s) t q → last_name q = Some k → length q ≤ length p.
Proof.
  unfold UpgradePaths. intros (all & Hall & <-%Ok_inj)%bind_Ok.
  pose proof (findAllUpgradePaths_Ok _ _ _ Hall) as Hspec.
  rewrite list_elem_of_omap. intros (k & _ & Hk).
  apply fmap_Some in Hk as (p & Hp & ->).
  pose proof (unique_paths_longest all k) as Hl. rewrite Hp in Hl.
  destruct Hl as (Hin & Hlast & Hmax). exists p, k. split_and!; try done.
  - by apply Hspec.
  - intros q Hq. apply Hmax. by apply Hspec.
Qed.

(** Every destination a simple route leads to is offered. *)
Lemma UpgradePaths_reach s t paths q k :
  UpgradePaths s t = Ok paths → simple_route (template_map s) t q → last_name q = Some k →
  ∃ up, up ∈ paths ∧ last_name (up_versions up) = Some k.
Proof.
  unfold UpgradePaths. intros (all & Hall & <-%Ok_inj)%bind_Ok Hq Hk.
  pose proof (findAllUpgradePaths_Ok _ _ _ Hall) as Hspec.
  pose proof (unique_paths_longest all k) as Hl.
  destruct (unique_paths all !! k) as [p|] eqn:Hp; last first.
  { exfalso. eapply Hl; [|exact Hk]. by apply Hspec. }
  destruct Hl as (_ & Hlast & _).
  exists (mkUpgradePath [] (default_version <$> p)). simpl.
  rewrite last_name_default. split; [|done].
  apply list_elem_of_omap. exists k. rewrite Hp. split; [|done].
  apply range_seq_elem, elem_of_dom. eauto.
Qed.

Lemma UpgradePaths_error s t :
  (∃ e, UpgradePaths s t = Err e) ↔ t ∉ supported_names s.
Proof.
  unfold UpgradePaths, findAllUpgradePaths, template_map, supported_names.
  destruct (index_by _ _ _ !! t) eqn:E.
  - split; [intros [? ?]; done|]. intros Ht. exfalso. apply Ht.
    apply index_by_Some in E as (x & Hx & <- & _). by apply list_elem_of_fmap_2.
  - split; [|by eauto]. intros _ (x & -> & Hx)%list_elem_of_fmap.
    by eapply index_by_None in E.
Qed.

(** One route per destination. *)
Lemma UpgradePaths_destinations s t paths :
  UpgradePaths s t = Ok paths →
  NoDup ((λ up, last_name (up_versions up)) <$> paths).
Proof.
  unfold UpgradePaths. intros (all & _ & <-%Ok_inj)%bind_Ok.
  set (m := unique_paths all).
  assert (Hnd : NoDup (range_seq 0 (dom m))).
  { rewrite range_seq_perm. apply NoDup_elements. }
  induction Hnd as [|k ks Hk Hnd IH]; simpl; [constructor|].
  destruct (m !! k) as [p|] eqn:Hp; simpl; [|done].
  constructor; [|done]. rewrite last_name_default.
  pose proof (unique_paths_longest all k) as Hl. unfold m in Hp. rewrite Hp in Hl.
  destruct Hl as (_ & -> & _).
  intros (up & Hup & (k' & Hk' & Hm)%list_elem_of_omap)%list_elem_of_fmap.
  apply fmap_Some in Hm as (p' & Hp' & ->). simpl in Hup.
  pose proof (unique_paths_longest all k') as Hl'. unfold m in Hp'. rewrite Hp' in Hl'.
  destruct Hl' as (_ & Hl' & _). rewrite last_name_default in Hup. congruence.
Qed.
End UpgradePaths_spec.

(** ** Properties *)

Lemma mixed_versions_false us :
  mixed_versions us = false ↔
  (∀ u, u ∈ us → has_version u = true) ∨ (∀ u, u ∈ us → has_version u = false).
Proof.
  destruct us as [|u us]; simpl; [split; [left|]; set_solver|].
  rewrite <- not_true_iff_false, existsb_elem_of. split.
  - intros Hno. destruct (has_version u) eqn:Hu; [left|right];
      intros v [->|Hv]%elem_of_cons; try done;
      destruct (has_version v) eqn:E; try done; destruct Hno; exists v; by rewrite E.
  - intros Hall (v & Hv & Hne).
    destruct Hall as [Hall|Hall];
      rewrite (Hall v), (Hall u) in Hne by (by left || by right); done.
Qed.

Section validity.
Context `{!MapRange string}.

(** A chain is reported valid exactly when every template it upgrades to
    is itself supported and no supported template mixes upgrades with and
    without a version. *)
Lemma IsValid_spec s :
  (IsValid s).2 = true ↔
  (∀ n, n ∈ upgrade_names s → n ∈ supported_names s) ∧
  (∀ t, t ∈ tc_supportedTemplates s →
     (∀ u, u ∈ spt_availableUpgrades t → has_version u = true) ∨
     (∀ u, u ∈ spt_availableUpgrades t → has_version u = false)).
Proof.
  unfold IsValid. simpl. rewrite bool_decide_eq_true, app_nil, !fmap_nil_iff. split.
  - intros [Hun Hmix]. split.
    + intros n Hn. destruct (decide (n ∈ supported_names s)) as [|Hns]; [done|].
      exfalso. eapply (not_elem_of_nil n). rewrite <- Hun, filterb_elem_of, range_seq_elem.
      rewrite elem_of_list_to_set, negb_true_iff, bool_decide_eq_false, elem_of_list_to_set.
      done.
    + intros t Ht. apply mixed_versions_false.
      destruct (mixed_versions _) eqn:E; [|done].
      exfalso. eapply (not_elem_of_nil t). rewrite <- Hmix, filterb_elem_of. done.
  - intros [Hsup Hmix]. split.
    + apply elem_of_nil_inv. intros n Hn.
      apply filterb_elem_of in Hn as [Hn Hns].
      rewrite range_seq_elem, elem_of_list_to_set in Hn. apply Hsup in Hn.
      bool_simpl. apply Hns. by apply elem_of_list_to_set.
    + apply elem_of_nil_inv. intros t [Ht Hm]%filterb_elem_of.
      apply Hmix, mixed_versions_false in Ht. congruence.
Qed.
End validity.

(** The warnings do not depend on the order in which the map of upgrade
    targets is ranged over. *)
Lemma IsValid_order_irrelevant (R1 R2 : MapRange string) s :
  @IsValid R1 s = @IsValid R2 s.
Proof.
  unfold IsValid.
  assert (∀ k : gset string, @range_seq _ _ _ R1 0 k ≡ₚ @range_seq _ _ _ R2 0 k) as Hp.
  { intros k. by rewrite !range_seq_perm. }
  f_equal.
  - apply isort_unique; eauto with kcm. by rewrite Hp.
  - apply bool_decide_ext, Permutation_nil_iff. by rewrite Hp.
Qed.

(** C22: [UpgradePaths] offers, for each template an upgrade route can end at,
    exactly one route, in hop order, starting at the given template and no
    shorter than any other route to that destination; hops without a version
    state their template name. *)
Theorem UpgradePaths_longest_routes `{!MapRange string} s t paths :
  UpgradePaths s t = Ok paths →
  (∀ up, up ∈ paths → ∃ p k,
     up_versions up = default_version <$> p ∧ last_name p = Some k ∧
     simple_route (template_map s) t p ∧
     ∀ q, simple_route (template_map s) t q → last_name q = Some k → length q ≤ length p) ∧
  (∀ q k, simple_route (template_map s) t q → last_name q = Some k →
     ∃ up, up ∈ paths ∧ last_name (up_versions up) = Some k) ∧
  NoDup ((λ up, last_name (up_versions up)) <$> paths).
Proof.
  intros Hp. split_and!.
  - intros up Hup. destruct (UpgradePaths_elem _ _ _ _ Hp Hup) as (p & k & -> & ?).
    by exists p, k.
  - intros q k. by apply UpgradePaths_reach.
  - by eapply UpgradePaths_destinations.
Qed.

Lemma UpgradePaths_longest_routes_witness :
  let s := mkChainSpec
    [mkSupported "a-1-0" [mkUpgrade "a-2-0" ""; mkUpgrade "a-1-1" ""];
     mkSupported "a-1-1" [mkUpgrade "a-2-0" ""]; mkSupported "a-2-0" []] in
  let hop n := mkUpgrade n n in
  let paths := [mkUpgradePath [] [hop "a-1-1"]; mkUpgradePath [] [hop "a-1-1"; hop "a-2-0"]] in
  (∀ up, up ∈ paths → ∃ p k,
     up_versions up = default_version <$> p ∧ last_name p = Some k ∧
     simple_route (template_map s) "a-1-0" p ∧
     ∀ q, simple_route (template_map s) "a-1-0" q → last_name q = Some k → length q ≤ length p) ∧
  (∀ q k, simple_route (template_map s) "a-1-0" q → last_name q = Some k →
     ∃ up, up ∈ paths ∧ last_name (up_versions up) = Some k) ∧
  NoDup ((λ up, last_name (up_versions up)) <$> paths).
Proof.
  apply UpgradePaths_longest_routes. vm_compute. reflexivity.
Defined.
