(* ===== verification/ServiceBasics.v ===== *)
(** * Service identities, versions and the ServiceSet of an owner
    (first part of [src/internal/serviceset/util.go]).

    How a service is keyed and which version it states, what counts as being at
    the desired version, how the ServiceSet belonging to a
    MultiClusterService and a ClusterDeployment is named and found, and how
    versions left out of a spec are read off the ServiceTemplate. *)

From S2P Require Import Prelude Api.

(** ** Keys and versions *)

Definition effectiveNamespace (serviceNamespace : string) : string :=
  if bool_decide (serviceNamespace = "") then "default" else serviceNamespace.

Definition ServiceKey (namespace name : string) : ObjectKey :=
  mkKey (effectiveNamespace namespace) name.

Definition svc_key (s : Service) : ObjectKey := ServiceKey (svc_namespace s) (svc_name s).
Definition sv_key (s : ServiceWithValues) : ObjectKey := ServiceKey (sv_namespace s) (sv_name s).
Definition st_key (s : ServiceState) : ObjectKey := ServiceKey (st_namespace s) (st_name s).
(** By the raw namespace and name. *)
Definition st_raw_key (s : ServiceState) : ObjectKey := mkKey (st_namespace s) (st_name s).
Definition sv_raw_key (s : ServiceWithValues) : ObjectKey := mkKey (sv_namespace s) (sv_name s).
Definition dep_key (d : ServiceDependsOn) : ObjectKey := ServiceKey (dep_namespace d) (dep_name d).

Definition ServiceVersion (version template : string) : string :=
  if negb (bool_decide (version = "")) then version else template.

Definition AtDesiredVersion (state status spec desired : string) : bool :=
  bool_decide (state = ServiceStateDeployed) && bool_decide (status = spec)
  && bool_decide (spec = desired).

(** A Go map read of a missing key is the zero value. *)
Definition get_string (m : gmap ObjectKey string) (k : ObjectKey) : string :=
  default "" (m !! k).

Definition DeployedVersions (serviceSet : ServiceSet) : gmap ObjectKey string :=
  foldl (λ versions state,
    if negb (bool_decide (st_state state = ServiceStateDeployed))
       || bool_decide (st_version state = "")
    then versions
    else <[st_key state := st_version state]> versions)
    ∅ (ssst_services (sset_status serviceSet)).

Definition FullyDeployed (serviceSet : ServiceSet) : bool :=
  if negb (ssst_deployed (sset_status serviceSet)) then false
  else
    let deployed := DeployedVersions serviceSet in
    forallb (λ svc,
      if bool_decide (sv_version svc = "") then true
      else bool_decide (get_string deployed (sv_key svc) = sv_version svc))
      (sss_services (sset_spec serviceSet)).

(** ** The ServiceSet of an owner *)

Definition SelfManagementClusterReference : ObjectReference :=
  mkRef "SveltosCluster" "mgmt" "mgmt" "lib.projectsveltos.io/v1beta1".

Definition ClusterDeploymentKind := "ClusterDeployment".
Definition MultiClusterServiceKind := "MultiClusterService".
Definition kcm_GroupVersion := "k0rdent.mirantis.com/v1beta1".

Definition ClusterReference (serviceSet : option ServiceSet) : ObjectReference :=
  match serviceSet with
  | None => mkRef "" "" "" ""
  | Some serviceSet =>
      if bool_decide (sss_cluster (sset_spec serviceSet) = "")
      then SelfManagementClusterReference
      else mkRef ClusterDeploymentKind (om_namespace (sset_meta serviceSet))
             (sss_cluster (sset_spec serviceSet)) kcm_GroupVersion
  end.

Section names.
(** The first four bytes of the SHA-256 sum, in hexadecimal. *)
Variable sha256_4 : string → string.

Definition ServiceSetObjectKey (systemNamespace : string) (cd : option ClusterDeployment)
    (mcs : MultiClusterService) : ObjectKey :=
  let mcsNameHash := sha256_4 (om_name (mcs_meta mcs)) in
  match cd with
  | None => mkKey systemNamespace ("management-" +:+ mcsNameHash)
  | Some cd => mkKey (om_namespace (cd_meta cd))
                 (om_name (cd_meta cd) +:+ "-" +:+ mcsNameHash)
  end.
End names.

(** The field indexes over ServiceSets. *)
Definition ExtractServiceSetCluster (s : ServiceSet) : list string :=
  [sss_cluster (sset_spec s)].
Definition ExtractServiceSetMultiClusterService (s : ServiceSet) : list string :=
  if bool_decide (sss_multiClusterService (sset_spec s) = "") then []
  else [sss_multiClusterService (sset_spec s)].

(** The names an owner pair contributes, empty for a nil owner. *)
Definition mcs_name_of (mcs : option MultiClusterService) : string :=
  match mcs with Some mcs => om_name (mcs_meta mcs) | None => "" end.
Definition cd_name_of (cd : option ClusterDeployment) : string :=
  match cd with Some cd => om_name (cd_meta cd) | None => "" end.
Definition cd_namespace_of (systemNamespace : string) (cd : option ClusterDeployment) : string :=
  match cd with Some cd => om_namespace (cd_meta cd) | None => systemNamespace end.

(** The field selector of [fetchServiceSet]. *)
Definition owner_selector (cdName mcsName : string) (s : ServiceSet) : bool :=
  (bool_decide (cdName = "") || bool_decide (cdName ∈ ExtractServiceSetCluster s)) &&
  (bool_decide (mcsName = "") || bool_decide (mcsName ∈ ExtractServiceSetMultiClusterService s)).

(** The two cases in which the listed ServiceSets include foreign ones. *)
Definition foreign_ServiceSet (cdName mcsName : string) (s : ServiceSet) : bool :=
  (negb (bool_decide (cdName = "")) && bool_decide (mcsName = "")
     && negb (bool_decide (sss_multiClusterService (sset_spec s) = ""))) ||
  (bool_decide (cdName = "") && negb (bool_decide (mcsName = ""))
     && negb (bool_decide (sss_cluster (sset_spec s) = ""))).

Definition too_many_ServiceSets (namespace cdName mcsName : string) (n : nat) : gerror :=
  ErrNew ("expected 1 ServiceSet for cd=" +:+ namespace +:+ "/" +:+ cdName +:+
          " && mcs=" +:+ mcsName +:+ ", got " +:+ pretty n).

Section fetch.
Context {C : Type} `{!Lister C ServiceSet} (c : C).

Definition fetchServiceSet (systemNamespace : string) (mcs : option MultiClusterService)
    (cd : option ClusterDeployment) : result ServiceSet :=
  let mcsName := mcs_name_of mcs in
  let cdName := cd_name_of cd in
  let namespace := cd_namespace_of systemNamespace cd in
  items ← wrap_err "failed to list ServiceSets: "
            (c_list c namespace (owner_selector cdName mcsName));
  let serviceSets := filterb (λ s, negb (foreign_ServiceSet cdName mcsName s)) items in
  match serviceSets with
  | [] => Ok empty_ServiceSet
  | [s] => Ok s
  | _ => Err (too_many_ServiceSets namespace cdName mcsName (length serviceSets))
  end.
End fetch.

(** ** Versions read off the ServiceTemplate *)

(** The version a ServiceTemplate states, its name when it states none. *)
Definition template_version (name : string) (template : ServiceTemplate) : string :=
  let spec := stpl_spec template in
  let version :=
    if bool_decide (sts_version spec = "") then
      match sts_helm spec with
      | Some helm => match hs_chartSpec helm with
                     | Some chart => hc_version chart
                     | None => sts_version spec
                     end
      | None => sts_version spec
      end
    else sts_version spec in
  if bool_decide (version = "") then name else version.

Section versions.
Context {C : Type} `{!Getter C ServiceTemplate} (c : C) (namespace : string).

(** The body both loops share, up to the error's wording. *)
Definition fetch_version (what : string) (template : string) : result string :=
  t ← wrap_err ("failed to fetch " +:+ what +:+ " " +:+ namespace +:+ "/" +:+ template +:+ ": ")
        (c_get c (mkKey namespace template));
  Ok (template_version template t).

Definition needs_version (version template : string) : bool :=
  bool_decide (version = "") && negb (bool_decide (template = "")).

Definition fillServiceVersions (services : list Service) : result (list Service) :=
  mapM_result (λ svc,
    if needs_version (svc_version svc) (svc_template svc)
    then v ← fetch_version "template" (svc_template svc); Ok (set_svc_version v svc)
    else Ok svc) services.

Definition fillServiceWithValueVersions (services : list ServiceWithValues)
  : result (list ServiceWithValues) :=
  mapM_result (λ svc,
    if needs_version (sv_version svc) (sv_template svc)
    then v ← fetch_version "Template" (sv_template svc); Ok (set_sv_version v svc)
    else Ok svc) services.
End versions.

(** ** An in-memory cluster

    The objects of a cluster held in finite maps, for running the definitions
    on concrete inputs. *)
Record Store := mkStore {
  store_templates : gmap ObjectKey ServiceTemplate;
  store_chains : gmap ObjectKey ServiceTemplateChain;
  store_serviceSets : gmap ObjectKey ServiceSet;
  store_providers : gmap ObjectKey StateManagementProvider }.

Definition empty_store : Store := mkStore ∅ ∅ ∅ ∅.

Definition store_get {T} (kind : string) (m : gmap ObjectKey T) (k : ObjectKey) : result T :=
  match m !! k with Some x => Ok x | None => Err (not_found_err kind k) end.

#[export] Instance store_get_template : Getter Store ServiceTemplate :=
  λ c, store_get "ServiceTemplate" (store_templates c).
#[export] Instance store_get_chain : Getter Store ServiceTemplateChain :=
  λ c, store_get "ServiceTemplateChain" (store_chains c).
#[export] Instance store_get_serviceSet : Getter Store ServiceSet :=
  λ c, store_get "ServiceSet" (store_serviceSets c).
#[export] Instance store_get_provider : Getter Store StateManagementProvider :=
  λ c, store_get "StateManagementProvider" (store_providers c).
#[export] Instance store_list_serviceSets : Lister Store ServiceSet :=
  λ c ns p, Ok (filterb (λ s, in_namespace ns (sset_meta s) && p s)
                  ((map_to_list (store_serviceSets c)).*2)).

(** A service that states only its name, template, version and dependencies. *)
Definition simple_service (name template version : string) (deps : list string) : Service :=
  mkService None "" name "" template "" version "" [] ((λ d, mkDep d "") <$> deps) false.
Definition simple_stored (name template version : string) : ServiceWithValues :=
  mkServiceWithValues None version "" name "default" template "" [].
Definition simple_state (name template version state : string) : ServiceState :=
  mkServiceState None version ServiceTypeHelm name "default" template state "" "" [].

(** ** Properties *)

Lemma effectiveNamespace_ne ns : effectiveNamespace ns ≠ "".
Proof. unfold effectiveNamespace. by case_bool_decide. Qed.

Lemma DeployedVersions_snoc m st conds svcs s r u d sp :
  DeployedVersions (mkServiceSet m sp (mkServiceSetStatus st conds (svcs ++ [s]) r u d)) =
  (if negb (bool_decide (st_state s = ServiceStateDeployed)) || bool_decide (st_version s = "")
   then DeployedVersions (mkServiceSet m sp (mkServiceSetStatus st conds svcs r u d))
   else <[st_key s := st_version s]>
          (DeployedVersions (mkServiceSet m sp (mkServiceSetStatus st conds svcs r u d)))).
Proof. unfold DeployedVersions. simpl. by rewrite foldl_app. Qed.

(** A version is recorded only for a service the provider reports Deployed. *)
Lemma DeployedVersions_Some serviceSet k v :
  DeployedVersions serviceSet !! k = Some v →
  v ≠ "" ∧ ∃ s, s ∈ ssst_services (sset_status serviceSet) ∧ st_key s = k ∧
    st_state s = ServiceStateDeployed ∧ st_version s = v.
Proof.
  destruct serviceSet as [m sp [st conds svcs r u d]].
  induction svcs as [|s svcs IH] using rev_ind; [done|].
  rewrite DeployedVersions_snoc. simpl in *.
  destruct (_ || _) eqn:E.
  - intros Hv. destruct (IH Hv) as (? & x & ? & ?). split; [done|]. exists x. set_solver.
  - rewrite lookup_insert_Some. intros [[Hk <-]|[Hk Hv]].
    + bool_simpl. split; [done|]. exists s. set_solver.
    + destruct (IH Hv) as (? & x & ? & ?). split; [done|]. exists x. set_solver.
Qed.

(** A ServiceSet is fully deployed only when the provider says it is done
    and every service that states a version has been confirmed Deployed at
    exactly that version. *)
Lemma FullyDeployed_confirmed serviceSet :
  FullyDeployed serviceSet = true →
  ssst_deployed (sset_status serviceSet) = true ∧
  ∀ svc, svc ∈ sss_services (sset_spec serviceSet) → sv_version svc ≠ "" →
    ∃ s, s ∈ ssst_services (sset_status serviceSet) ∧ st_key s = sv_key svc ∧
      st_state s = ServiceStateDeployed ∧ st_version s = sv_version svc.
Proof.
  unfold FullyDeployed. destruct (ssst_deployed _); simpl; [|done].
  intros Hall. split; [done|]. intros svc Hin Hv.
  rewrite forallb_forall in Hall. specialize (Hall svc ltac:(by apply list_elem_of_In)).
  rewrite bool_decide_eq_false_2 in Hall by done. bool_simpl.
  unfold get_string in Hall.
  destruct (DeployedVersions serviceSet !! sv_key svc) as [v|] eqn:E; simpl in *; [|congruence].
  apply DeployedVersions_Some in E as (_ & s & ? & ? & ? & <-). by exists s.
Qed.

Definition deployed_example : ServiceSet :=
  mkServiceSet (named_meta "ns" "set")
    (mkServiceSetSpec "cluster" "" (mkProviderConfig None "ksm" false)
       [simple_stored "a" "a-1" "1.0.0"])
    (mkServiceSetStatus None [] [simple_state "a" "a-1" "1.0.0" ServiceStateDeployed] true false true).

Lemma FullyDeployed_confirmed_witness :
  FullyDeployed deployed_example = true ∧ ssst_deployed (sset_status deployed_example) = true.
Proof.
  split; [vm_compute; reflexivity|].
  apply FullyDeployed_confirmed. vm_compute. reflexivity.
Defined.

Section fetch_spec.
Context {C : Type} `{!Lister C ServiceSet} (c : C).

(** The ServiceSet found for a pair of owners is the only one of the
    namespace whose cluster and MultiClusterService are exactly those of the
    owners (an absent owner matching only the empty name), the empty
    ServiceSet when there is none; two of them are an error. *)
Lemma fetchServiceSet_owner (systemNamespace : string) mcs cd items :
  (cd_name_of cd ≠ "" ∨ mcs_name_of mcs ≠ "") →
  c_list c (cd_namespace_of systemNamespace cd)
    (owner_selector (cd_name_of cd) (mcs_name_of mcs)) = Ok items →
  (∀ s, s ∈ items → owner_selector (cd_name_of cd) (mcs_name_of mcs) s = true) →
  let mine := filterb (λ s, bool_decide (sss_cluster (sset_spec s) = cd_name_of cd) &&
    bool_decide (sss_multiClusterService (sset_spec s) = mcs_name_of mcs)) items in
  match fetchServiceSet c systemNamespace mcs cd with
  | Ok s => mine = [] ∧ s = empty_ServiceSet ∨ mine = [s]
  | Err _ => 2 ≤ length mine
  end.
Proof.
  intros Hne Hl Hsel mine.
  assert (mine = filterb (λ s, negb (foreign_ServiceSet (cd_name_of cd) (mcs_name_of mcs) s)) items)
    as Hm.
  { apply filterb_ext. intros s Hs. specialize (Hsel s Hs).
    unfold owner_selector, foreign_ServiceSet, ExtractServiceSetCluster,
      ExtractServiceSetMultiClusterService in *.
    generalize dependent (cd_name_of cd). generalize dependent (mcs_name_of mcs). intros n d.
    repeat case_bool_decide; simpl in *; intros; try done;
      rewrite ?list_elem_of_singleton, ?elem_of_nil in *; naive_solver. }
  unfold fetchServiceSet. rewrite Hl. simpl. rewrite <- Hm.
  destruct mine as [|s [|s' l]]; simpl; [by left|by right|lia].
Qed.
End fetch_spec.

Definition deployed_cluster : ClusterDeployment :=
  mkCD (named_meta "ns" "cluster")
    (mkCDSpec None None no_ipamClaim "" "" "" "" "" "" (empty_service_spec []) false false)
    (mkCDStatus [] [] "" "" "" [] [] 0).

Definition deployed_store : Store :=
  mkStore ∅ ∅ {[ mkKey "ns" "set" := deployed_example ]} ∅.

Lemma fetchServiceSet_owner_witness :
  fetchServiceSet deployed_store "sys" None (Some deployed_cluster) = Ok deployed_example ∧
  match fetchServiceSet deployed_store "sys" None (Some deployed_cluster) with
  | Ok s => [deployed_example] = [] ∧ s = empty_ServiceSet ∨ [deployed_example] = [s]
  | Err _ => 2 ≤ 1
  end.
Proof.
  split; [vm_compute; reflexivity|].
  apply (fetchServiceSet_owner deployed_store "sys" None (Some deployed_cluster) [deployed_example]).
  - left. vm_compute. congruence.
  - vm_compute. reflexivity.
  - intros s ->%list_elem_of_singleton. vm_compute. reflexivity.
Defined.
