(* ===== verification/ClusterTypes.v ===== *)
(** * ClusterDeployments: resources, scope and state of a reconcile.

    The resources [src/internal/controller/clusterdeployment_controller.go]
    reads and writes besides those of the other components, the scope it
    collects for one ClusterDeployment, and what a reconcile runs on: the
    clusters, the scope and the cache of RBAC synchronisations. *)

From S2P Require Import Prelude GoStrings Api Kube Conditions ApiManagement Effects SveltosTypes ServiceBasics.

(** ** Conditions and reasons *)

Definition TemplateReadyCondition := "TemplateReady".
Definition HelmChartReadyCondition := "HelmChartReady".
Definition HelmReleaseReadyCondition := "HelmReleaseReady".
Definition CAPIClusterSummaryCondition := "CAPIClusterSummary".
Definition CloudResourcesDeletedCondition := "CloudResourcesDeletedCondition".
Definition ClusterAuthenticationReadyCondition := "ClusterAuthenticationReady".
Definition RBACPolicyReadyCondition := "RBACPolicyReady".
Definition ClusterAuditPolicyReadyCondition := "ClusterAuditPolicyReady".
Definition ServicesK8sCompatibleCondition := "ServicesK8sCompatible".
Definition DataSourceReadyCondition := "DataSourceReady".
Definition ClusterDataSourceReadyCondition := "ClusterDataSourceReady".
Definition HelmChartNameChangedCondition := "HelmChartNameChanged".
Definition CredentialReadyCondition := "CredentialReady".
Definition WaitingForCloudResourcesDeletionReason := "WaitingForCloudResourcesDeletion".
Definition WaitingForClusterDeletionReason := "WaitingForClusterDeletion".
Definition WaitingForHelmReleaseDeletionReason := "WaitingForHelmReleaseDeletion".
Definition WaitingForServiceSetsDeletionReason := "WaitingForServiceSetsDeletion".
Definition WaitingForClusterDataSourceDeletionReason := "WaitingForClusterDataSourceDeletion".
Definition DeletionCompletedReason := "DeletionCompleted".
Definition HelmChartNameChangedReason := "HelmChartNameChanged".
Definition CAPIClusterMissingReason := "CAPIClusterMissing".
Definition RBACPolicyPartiallyAppliedReason := "RBACPolicyPartiallyApplied".
Definition RBACPolicyNotFoundReason := "RBACPolicyNotFound".
Definition NotPausedReason := "NotPaused".

Definition ClusterDeploymentFinalizer := "k0rdent.mirantis.com/cluster-deployment".
Definition ClusterDataSourceFinalizer := "k0rdent.mirantis.com/cluster-data-source".
Definition BlockingFinalizer := "k0rdent.mirantis.com/cleanup".
Definition RegionPauseAnnotation := "k0rdent.mirantis.com/region-pause".
Definition RBACPolicyGrantedState := "Granted".

(** ** Resources *)

Record DataSource := mkDataSource { ds_meta : ObjectMeta; ds_certificateAuthority : SecretKeyReference }.
Record ClusterDataSourceStatus := mkCDSourceStatus {
  cdss_kineDataSourceSecret : string; cdss_caSecret : string; cdss_error : string;
  cdss_observedGeneration : Z; cdss_ready : bool }.
Record ClusterDataSource := mkCDSource {
  cdso_meta : ObjectMeta; cdso_schema : string; cdso_dataSource : string; cdso_status : ClusterDataSourceStatus }.

(** The configurations of the API server as their text; of an authenticator the
    certificate of its issuer is a field of its own. A nil list of JWT
    authenticators is [None]. *)
Record JWTAuthenticator := mkJWT { jwt_certificateAuthority : string; jwt_rest : string }.
Record ClusterAuthentication := mkClusterAuth {
  ca_meta : ObjectMeta; ca_jwt : option (list JWTAuthenticator); ca_anonymous : option string;
  ca_caSecretNamespace : string; ca_caSecret : SecretKeyReference }.
Record ClusterAuditPolicy := mkClusterAudit { cap_meta : ObjectMeta; cap_policy : string }.
Definition HasAuthenticationConfiguration (a : ClusterAuthentication) : bool :=
  match ca_jwt a, ca_anonymous a with None, None => false | _, _ => true end.

(** [helmcontrollerv2.HelmRelease]; the install and upgrade options as their JSON. *)
Record HelmReleaseSpec := mkHelmReleaseSpec {
  hrs_chartRef : option CrossNamespaceSourceReference; hrs_interval : Z; hrs_releaseName : string;
  hrs_values : option string; hrs_dependsOn : option (list string); hrs_targetNamespace : string;
  hrs_timeout : option Z; hrs_install : option string; hrs_upgrade : option string;
  hrs_kubeConfig : option SecretKeyReference }.
Record HelmRelease := mkHelmRelease {
  hrl_meta : ObjectMeta; hrl_spec : HelmReleaseSpec; hrl_conditions : list Condition }.
(** [clusterapiv1.Machine], and the infrastructure cluster of a provider. *)
Record Machine := mkMachine { mch_meta : ObjectMeta }.
Record InfraCluster := mkInfra { inf_kind : string; inf_meta : ObjectMeta }.

(** IPAM data is the JSON of the provider. *)
Record ClusterIPAMClaim := mkIPAMClaim { ipc_meta : ObjectMeta; ipc_spec : ClusterIPAMClaimSpec; ipc_bound : bool }.
Record ClusterIPAMProviderData := mkProviderData { ipd_data : option string; ipd_name : string; ipd_ready : bool }.
Record ClusterIPAM := mkIPAM { ipam_meta : ObjectMeta; ipam_providerData : list ClusterIPAMProviderData }.

Record ClusterTemplateChain := mkClusterChain { ctch_meta : ObjectMeta; ctch_spec : TemplateChainSpec }.

(** [corev1.ConfigMap]. *)
Record PlainConfigMap := mkPlainConfigMap { pcm_meta : ObjectMeta; pcm_data : gmap string string }.

(** ** Updating a ClusterDeployment *)

Definition cd_key (cd : ClusterDeployment) : ObjectKey := meta_key (cd_meta cd).
Definition cd_conditions (cd : ClusterDeployment) : list Condition := cdst_conditions (cd_status cd).
Definition cd_generation (cd : ClusterDeployment) : Z := om_generation (cd_meta cd).
Definition set_cd_meta (m : ObjectMeta) (cd : ClusterDeployment) : ClusterDeployment := mkCD m (cd_spec cd) (cd_status cd).
Definition set_cd_status (st : ClusterDeploymentStatus) (cd : ClusterDeployment) : ClusterDeployment := mkCD (cd_meta cd) (cd_spec cd) st.
Definition set_cd_spec (sp : ClusterDeploymentSpec) (cd : ClusterDeployment) : ClusterDeployment := mkCD (cd_meta cd) sp (cd_status cd).
Definition set_cd_conditions (l : list Condition) (cd : ClusterDeployment) : ClusterDeployment :=
  let st := cd_status cd in
  set_cd_status (mkCDStatus (cdst_services st) (cdst_servicesUpgradePaths st) (cdst_rbacPolicyGrant st)
    (cdst_kubernetesVersion st) (cdst_region st) l (cdst_availableUpgrades st) (cdst_observedGeneration st)) cd.
Definition set_cd_grant (g : string) (cd : ClusterDeployment) : ClusterDeployment :=
  let st := cd_status cd in
  set_cd_status (mkCDStatus (cdst_services st) (cdst_servicesUpgradePaths st) g
    (cdst_kubernetesVersion st) (cdst_region st) (cdst_conditions st) (cdst_availableUpgrades st) (cdst_observedGeneration st)) cd.
Definition set_cd_kubernetesVersion (v : string) (cd : ClusterDeployment) : ClusterDeployment :=
  let st := cd_status cd in
  set_cd_status (mkCDStatus (cdst_services st) (cdst_servicesUpgradePaths st) (cdst_rbacPolicyGrant st)
    v (cdst_region st) (cdst_conditions st) (cdst_availableUpgrades st) (cdst_observedGeneration st)) cd.
Definition set_cd_region (r : string) (cd : ClusterDeployment) : ClusterDeployment :=
  let st := cd_status cd in
  set_cd_status (mkCDStatus (cdst_services st) (cdst_servicesUpgradePaths st) (cdst_rbacPolicyGrant st)
    (cdst_kubernetesVersion st) r (cdst_conditions st) (cdst_availableUpgrades st) (cdst_observedGeneration st)) cd.
Definition set_cd_services (l : list ServiceState) (paths : list ServiceUpgradePaths) (cd : ClusterDeployment) : ClusterDeployment :=
  let st := cd_status cd in
  set_cd_status (mkCDStatus l paths (cdst_rbacPolicyGrant st) (cdst_kubernetesVersion st) (cdst_region st)
    (cdst_conditions st) (cdst_availableUpgrades st) (cdst_observedGeneration st)) cd.
Definition set_cd_availableUpgrades (l : list string) (cd : ClusterDeployment) : ClusterDeployment :=
  let st := cd_status cd in
  set_cd_status (mkCDStatus (cdst_services st) (cdst_servicesUpgradePaths st) (cdst_rbacPolicyGrant st)
    (cdst_kubernetesVersion st) (cdst_region st) (cdst_conditions st) l (cdst_observedGeneration st)) cd.
Definition set_cd_observedGeneration (g : Z) (cd : ClusterDeployment) : ClusterDeployment :=
  let st := cd_status cd in
  set_cd_status (mkCDStatus (cdst_services st) (cdst_servicesUpgradePaths st) (cdst_rbacPolicyGrant st)
    (cdst_kubernetesVersion st) (cdst_region st) (cdst_conditions st) (cdst_availableUpgrades st) g) cd.
Definition set_cds_config (c : option string) (sp : ClusterDeploymentSpec) : ClusterDeploymentSpec :=
  mkCDSpec c (cds_propagateCredentials sp) (cds_ipamClaim sp) (cds_template sp) (cds_credential sp) (cds_clusterAuth sp)
    (cds_dataSource sp) (cds_auditPolicy sp) (cds_rbacPolicy sp) (cds_serviceSpec sp) (cds_dryRun sp) (cds_cleanupOnDeletion sp).
Definition set_cds_ipamRef (r : string) (sp : ClusterDeploymentSpec) : ClusterDeploymentSpec :=
  mkCDSpec (cds_config sp) (cds_propagateCredentials sp) (mkIPAMClaimType (ict_spec (cds_ipamClaim sp)) r) (cds_template sp)
    (cds_credential sp) (cds_clusterAuth sp) (cds_dataSource sp) (cds_auditPolicy sp) (cds_rbacPolicy sp)
    (cds_serviceSpec sp) (cds_dryRun sp) (cds_cleanupOnDeletion sp).

(** ** The scope of a reconcile *)

Record clusterDeletionState := mkDeletionState {
  capiClusterDeleted : bool; cloudResourcesDeleted : bool; helmReleaseDeleted : bool;
  serviceSetsDeleted : bool; clusterDataSourceDeleted : bool }.
Record authConfig := mkAuthConfig { auth_clAuth : ClusterAuthentication; auth_hash : string }.
Record auditConfig := mkAuditConfig { audit_policy : string; audit_hash : string }.
Record kineConfig := mkKineConfig { kine_dataSource : DataSource; kine_clusterDataSource : option ClusterDataSource }.

Record clusterScope (Handle : Type) := mkScope {
  sc_cd : ClusterDeployment; sc_cred : Credential; sc_region : option Region; sc_kine : option kineConfig;
  sc_auth : option authConfig; sc_rbacPolicy : option RBACPolicy; sc_audit : option auditConfig;
  sc_rgnClient : Handle; sc_deletion : clusterDeletionState }.
Arguments mkScope {Handle} _ _ _ _ _ _ _ _ _.
Arguments sc_cd {Handle} _.
Arguments sc_cred {Handle} _.
Arguments sc_region {Handle} _.
Arguments sc_kine {Handle} _.
Arguments sc_auth {Handle} _.
Arguments sc_rbacPolicy {Handle} _.
Arguments sc_audit {Handle} _.
Arguments sc_rgnClient {Handle} _.
Arguments sc_deletion {Handle} _.

Record rbacSyncState := mkSyncState { rss_nextSyncAt : Z; rss_uid : string; rss_generation : Z }.

(** The clusters, the scope, and [rbacSynced] by the UID of the ClusterDeployment. *)
Record rstate (Handle C : Type) := mkRState {
  rs_fleet : fleet Handle C; rs_scope : clusterScope Handle; rs_synced : gmap string rbacSyncState }.
Arguments mkRState {Handle C} _ _ _.
Arguments rs_fleet {Handle C} _.
Arguments rs_scope {Handle C} _.
Arguments rs_synced {Handle C} _.

(** [Status().Patch] with the difference of two objects, which refreshes the
    object like every write. *)
Class StatusPatcher (C T : Type) := c_status_patch : C → T → T → C * T * option gerror.

Section state.
Context {Handle C : Type} `{EqDecision Handle} `{!StatusConditions}.
Notation St := (rstate Handle C).

Definition put_fleet (h : Handle) (c : C) (s : St) : St :=
  mkRState (fleet_put h c (rs_fleet s)) (rs_scope s) (rs_synced s).
Program Definition client_of (h : Handle) : client St C := mkClient (λ s, at_ (rs_fleet s) h) (put_fleet h) _.
Next Obligation. intros h c s. apply fleet_put_at. Qed.

Definition scope_put_cd (cd : ClusterDeployment) (sc : clusterScope Handle) : clusterScope Handle :=
  mkScope cd (sc_cred sc) (sc_region sc) (sc_kine sc) (sc_auth sc) (sc_rbacPolicy sc) (sc_audit sc) (sc_rgnClient sc) (sc_deletion sc).
Definition set_scope (sc : clusterScope Handle) (s : St) : St := mkRState (rs_fleet s) sc (rs_synced s).
Definition set_cd (cd : ClusterDeployment) (s : St) : St := set_scope (scope_put_cd cd (rs_scope s)) s.
Definition set_synced (m : gmap string rbacSyncState) (s : St) : St := mkRState (rs_fleet s) (rs_scope s) m.
Definition cd_of (s : St) : ClusterDeployment := sc_cd (rs_scope s).

Definition the_cd : M St ClusterDeployment := gets cd_of.
Definition the_scope : M St (clusterScope Handle) := gets rs_scope.
Definition upd_cd (f : ClusterDeployment → ClusterDeployment) : M St unit := modify (λ s, set_cd (f (cd_of s)) s).
Definition upd_deletion (f : clusterDeletionState → clusterDeletionState) : M St unit :=
  modify (λ s, let sc := rs_scope s in set_scope (mkScope (sc_cd sc) (sc_cred sc) (sc_region sc) (sc_kine sc)
    (sc_auth sc) (sc_rbacPolicy sc) (sc_audit sc) (sc_rgnClient sc) (f (sc_deletion sc))) s).

(** A write of the ClusterDeployment, which comes back as the server has it. *)
Definition refresh_cd (h : Handle) (f : C → ClusterDeployment → C * ClusterDeployment * option gerror) : M St unit := λ s,
  let '(c, cd, err) := f (at_ (rs_fleet s) h) (cd_of s) in (set_cd cd (put_fleet h c s), err_result err).

(** ** Conditions of the ClusterDeployment *)

Definition put_condition (c : Condition) (cd : ClusterDeployment) : ClusterDeployment :=
  set_cd_conditions (SetStatusCondition (cd_conditions cd) c).1 cd.
Definition new_condition (typ reason : string) (status : ConditionStatus) (err : option gerror) (cd : ClusterDeployment) : Condition :=
  mkCondition typ status reason (default "" (Error <$> err)) (cd_generation cd) 0.
Definition cd_setCondition (typ reason : string) (status : ConditionStatus) (err : option gerror) (cd : ClusterDeployment)
  : ClusterDeployment := put_condition (new_condition typ reason status err cd) cd.
(** [apimeta.RemoveStatusCondition]. *)
Definition remove_condition (typ : string) (cd : ClusterDeployment) : ClusterDeployment :=
  set_cd_conditions (filterb (λ c, negb (bool_decide (cond_type c = typ))) (cd_conditions cd)) cd.
Definition cd_condition (typ : string) (cd : ClusterDeployment) : option Condition := find_condition typ (cd_conditions cd).

(** Events are not part of the model, so neither is whether it changed. *)
Definition setCondition (typ reason : string) (status : ConditionStatus) (err : option gerror) : M St unit :=
  upd_cd (cd_setCondition typ reason status err).

Lemma keeps_the_cd (I : St → Prop) : keeps I the_cd.
Proof. by intros s. Qed.
Lemma keeps_the_scope (I : St → Prop) : keeps I the_scope.
Proof. by intros s. Qed.

Lemma cd_condition_set c cd : ∃ c', cd_condition (cond_type c) (put_condition c cd) = Some c' ∧ same_content c' c.
Proof. apply set_condition_found. Qed.
Lemma cd_condition_other t c cd : t ≠ cond_type c → cd_condition t (put_condition c cd) = cd_condition t cd.
Proof. apply find_condition_other. Qed.
End state.

#[export] Hint Resolve keeps_the_cd keeps_the_scope : keeps.
