(* ===== verification/SveltosState.v ===== *)
(** * The state of services as Sveltos reports it
    ([src/internal/controller/adapters/sveltos/state.go]).

    Sveltos summarises, per cluster, the features it applies (Helm charts,
    Kustomizations, resources) and the Helm releases. This file derives from a
    summary the state of every service of a ServiceSet. *)

From S2P Require Import Prelude GoStrings Api ServiceBasics.

#[local] Arguments String.append !_ _ / : simpl nomatch.

(** ** Sveltos summaries: the fields read *)

(** [libsveltosv1beta1.FeatureStatus]; a summary without the feature has none
    of the named ones. *)
Inductive FeatureStatus :=
  | FeatureStatusProvisioning
  | FeatureStatusProvisioned
  | FeatureStatusFailed
  | FeatureStatusFailedNonRetriable
  | FeatureStatusRemoving
  | FeatureStatusAgentRemoving
  | FeatureStatusRemoved
  | FeatureStatusBlocked
  | FeatureStatusOther (s : string).
#[export] Instance FeatureStatus_eq_dec : EqDecision FeatureStatus.
Proof. solve_decision. Defined.

Inductive FeatureID := FeatureHelm | FeatureKustomize | FeatureResources.
#[export] Instance FeatureID_eq_dec : EqDecision FeatureID.
Proof. solve_decision. Defined.

Record FeatureSummary := mkFeatureSummary {
  fs_featureID : FeatureID; fs_status : FeatureStatus; fs_failureMessage : option string }.
(** [Status == HelmChartStatusConflict] is all that is read of the status. *)
Record HelmChartSummary := mkHelmChartSummary {
  hcs_releaseName : string; hcs_releaseNamespace : string; hcs_conflict : bool;
  hcs_conflictMessage : string; hcs_valuesHash : string; hcs_patchesHash : string;
  hcs_failureMessage : option string }.
Record ClusterSummary := mkClusterSummary {
  cs_kustomizationRefs : list string; cs_policyRefs : list string;
  cs_featureSummaries : list FeatureSummary; cs_helmReleaseSummaries : list HelmChartSummary }.

(** ** Failure messages *)

Definition lower (a : Ascii.ascii) : bool := byte_in 97 122 a.
Definition lower_digit (a : Ascii.ascii) : bool := lower a || byte_in 48 57 a.
Definition label_byte (a : Ascii.ascii) : bool := lower_digit a || bool_decide (a = Ascii.ascii_of_nat 45).

Fixpoint take_run (p : Ascii.ascii → bool) (l : list Ascii.ascii) : list Ascii.ascii :=
  match l with a :: l => if p a then a :: take_run p l else [] | [] => [] end.
(** Without the bytes at the end that [p] rejects. *)
Fixpoint drop_end (p : Ascii.ascii → bool) (l : list Ascii.ascii) : list Ascii.ascii :=
  match l with
  | [] => []
  | a :: l => match drop_end p l with
              | [] => if p a then [a] else []
              | r => a :: r
              end
  end.

(** What [first([-a-z0-9]*[a-z0-9])?] matches at the start: greedy, so the
    longest run of label bytes that ends in a letter or digit. *)
Definition match_label (first : Ascii.ascii → bool) (l : list Ascii.ascii) : option (list Ascii.ascii) :=
  match l with
  | a :: l => if first a then Some (a :: drop_end lower_digit (take_run label_byte l)) else None
  | [] => None
  end.

(** The leftmost match of [prefix] followed by a label, without the prefix:
    [FindString] and [CutPrefix]; an empty match has no prefix to cut. *)
Fixpoint find_label (first : Ascii.ascii → bool) (prefix s : string) : option string :=
  match (if HasPrefix s prefix then match_label first (bytes (str_drop (String.length prefix) s)) else None) with
  | Some l => Some (of_bytes l)
  | None => match s with EmptyString => None | String _ s => find_label first prefix s end
  end.

Definition byte_newline : Ascii.ascii := Ascii.ascii_of_nat 10.

Definition unpackHelmFailureMsg (msg : string) : gset ObjectKey :=
  foldl (λ result line,
    match find_label lower "releaseName=" line with
    | None => result
    | Some releaseName =>
        match find_label lower_digit "releaseNamespace=" line with
        | None => result
        | Some releaseNamespace => {[ ServiceKey releaseNamespace releaseName ]} ∪ result
        end
    end) ∅ (Split msg byte_newline).

(** ** States *)

Definition featureStatusToServiceState (featureStatus : FeatureStatus) : string :=
  match featureStatus with
  | FeatureStatusProvisioning => ServiceStateProvisioning
  | FeatureStatusProvisioned => ServiceStateDeployed
  | FeatureStatusFailed => ServiceStateFailed
  | FeatureStatusFailedNonRetriable => ServiceStateFailed
  | FeatureStatusRemoving => ServiceStateDeleting
  | FeatureStatusAgentRemoving => ServiceStateDeleting
  | FeatureStatusRemoved => ServiceStateDeleted
  | FeatureStatusBlocked => ServiceStateDeleting
  | FeatureStatusOther _ => ServiceStateNotDeployed
  end.

Definition set_state (state : string) (s : ServiceState) : ServiceState :=
  mkServiceState (st_lastStateTransitionTime s) (st_version s) (st_type s) (st_name s) (st_namespace s)
    (st_template s) state (st_failureMessage s) (st_lastDeployedHash s) (st_conditions s).
Definition set_failed (msg : string) (s : ServiceState) : ServiceState :=
  mkServiceState (st_lastStateTransitionTime s) (st_version s) (st_type s) (st_name s) (st_namespace s)
    (st_template s) ServiceStateFailed msg (st_lastDeployedHash s) (st_conditions s).

Definition feature_of (id : FeatureID) (summary : ClusterSummary) : option FeatureSummary :=
  head (filterb (λ f, bool_decide (fs_featureID f = id)) (cs_featureSummaries summary)).

(** What [featureKustomize] and [featureResources] share. *)
Definition feature_state (id : FeatureID) (refs : list string) (what : string) (summary : ClusterSummary)
    (newState : ServiceState) : ServiceState :=
  let '(deployed, failure) :=
    match feature_of id summary with
    | Some feature => (bool_decide (fs_status feature = FeatureStatusProvisioned), fs_failureMessage feature)
    | None => (negb (bool_decide (0 < length refs)), None)
    end in
  let newState := if deployed then set_state ServiceStateDeployed newState else newState in
  match failure with
  | Some msg => set_failed ("One or more " +:+ what +:+ " failed to deploy: " +:+ msg) newState
  | None => newState
  end.

Definition featureKustomize (newState : ServiceState) (summary : ClusterSummary) : ServiceState :=
  feature_state FeatureKustomize (cs_kustomizationRefs summary) "Kustomizations" summary newState.
Definition featureResources (newState : ServiceState) (summary : ClusterSummary) : ServiceState :=
  feature_state FeatureResources (cs_policyRefs summary) "Resources" summary newState.

(** The last part of [featureHelm]: the release is found and has no conflict. *)
Definition helm_release_state (helmFeatureStatus : FeatureStatus) (svcInHelmFeatureFailMsg : gset ObjectKey)
    (helmRelease : HelmChartSummary) (newState : ServiceState) : ServiceState :=
  let newState := set_state (featureStatusToServiceState helmFeatureStatus) newState in
  let isValuesHashSet := negb (bool_decide (hcs_valuesHash helmRelease = "")) in
  let failure := default "" (hcs_failureMessage helmRelease) in
  let isFailureMsgSet := negb (bool_decide (failure = "")) in
  match isValuesHashSet, isFailureMsgSet with
  | false, false =>
      if bool_decide (helmFeatureStatus = FeatureStatusProvisioning)
      then set_state ServiceStateProvisioning newState else set_state ServiceStateNotDeployed newState
  | false, true => set_failed failure newState
  | true, false =>
      let newState := if bool_decide (helmFeatureStatus = FeatureStatusProvisioning) then
                        if negb (bool_decide (st_key newState ∈ svcInHelmFeatureFailMsg))
                        then set_state ServiceStateProvisioning newState else newState
                      else newState in
      let newState := if bool_decide (helmFeatureStatus = FeatureStatusProvisioned)
                      then set_state ServiceStateDeployed newState else newState in
      let newState := if bool_decide (helmFeatureStatus = FeatureStatusFailed)
                      then set_state ServiceStateDeployed newState else newState in
      if bool_decide (helmFeatureStatus = FeatureStatusFailedNonRetriable)
      then set_state ServiceStateDeployed newState else newState
  | true, true => set_failed failure newState
  end.

Definition helmReleaseMap (summary : ClusterSummary) : gmap ObjectKey HelmChartSummary :=
  index_by (λ r, mkKey (hcs_releaseNamespace r) (hcs_releaseName r)) id (cs_helmReleaseSummaries summary).

Definition helm_feature_status (summary : ClusterSummary) : FeatureStatus :=
  match feature_of FeatureHelm summary with Some f => fs_status f | None => FeatureStatusOther "" end.
Definition helm_feature_message (summary : ClusterSummary) : string :=
  match feature_of FeatureHelm summary with Some f => default "" (fs_failureMessage f) | None => "" end.

Definition featureHelm (newState : ServiceState) (summary : ClusterSummary) : ServiceState :=
  let helmFeatureStatus := helm_feature_status summary in
  let convertedHelmFeatureStatus := featureStatusToServiceState helmFeatureStatus in
  if bool_decide (convertedHelmFeatureStatus = ServiceStateDeleting) ||
     bool_decide (convertedHelmFeatureStatus = ServiceStateDeleted)
  then set_state convertedHelmFeatureStatus newState
  else
    let svcInHelmFeatureFailMsg := unpackHelmFailureMsg (helm_feature_message summary) in
    match helmReleaseMap summary !! st_key newState with
    | None => set_state ServiceStateNotDeployed newState
    | Some helmRelease =>
        if hcs_conflict helmRelease then set_failed (hcs_conflictMessage helmRelease) newState
        else helm_release_state helmFeatureStatus svcInHelmFeatureFailMsg helmRelease newState
    end.

(** ** All the services of a ServiceSet *)

Section states.
Variable now : Z.

(** The body of the loop over the status; [spec] is the service of the spec
    of that key. *)
Definition next_state (summary : ClusterSummary) (spec : ServiceWithValues) (svc : ServiceState) : ServiceState :=
  let version := match st_type svc with
                 | ServiceTypeHelm => st_version svc
                 | ServiceTypeUnset => ""
                 | _ => sv_version spec
                 end in
  let newState := mkServiceState (st_lastStateTransitionTime svc) version (st_type svc) (sv_name spec)
    (sv_namespace spec) (sv_template spec) ServiceStateProvisioning "" (st_lastDeployedHash svc) (st_conditions svc) in
  let newState := match st_type svc with
                  | ServiceTypeKustomize => featureKustomize newState summary
                  | ServiceTypeResource => featureResources newState summary
                  | ServiceTypeHelm => featureHelm newState summary
                  | ServiceTypeUnset => newState
                  end in
  if negb (bool_decide (st_state newState = st_state svc))
  then mkServiceState (Some now) (st_version newState) (st_type newState) (st_name newState) (st_namespace newState)
         (st_template newState) (st_state newState) (st_failureMessage newState) (st_lastDeployedHash newState)
         (st_conditions newState)
  else newState.

Definition state_leb (a b : ServiceState) : bool :=
  if negb (bool_decide (key_ns (st_key a) = key_ns (st_key b)))
  then string_leb (key_ns (st_key a)) (key_ns (st_key b))
  else string_leb (key_name (st_key a)) (key_name (st_key b)).

Definition servicesStateFromSummary (summary : option ClusterSummary) (serviceSet : option ServiceSet)
  : list ServiceState :=
  match summary, serviceSet with
  | Some summary, Some serviceSet =>
      let servicesMap := index_by sv_key (λ svc, svc) (sss_services (sset_spec serviceSet)) in
      let states := omap (λ svc, (λ spec, next_state summary spec svc) <$> servicesMap !! st_key svc)
                      (ssst_services (sset_status serviceSet)) in
      isort state_leb states
  | _, _ => []
  end.
End states.

(** ** Properties: Helm releases *)

(** What a release is reported as, by its own fields and the status of the
    feature alone. *)
Lemma helm_release_state_messages fs msgs msgs' r s :
  helm_release_state fs msgs r s = helm_release_state fs msgs' r s.
Proof.
  unfold helm_release_state. destruct (negb (bool_decide (hcs_valuesHash r = ""))); [|done].
  destruct (negb (bool_decide (default "" _ = ""))); [done|].
  destruct (decide (fs = FeatureStatusProvisioning)) as [->|Hf].
  - destruct (negb (bool_decide (_ ∈ msgs))), (negb (bool_decide (_ ∈ msgs'))); reflexivity.
  - by rewrite (bool_decide_eq_false_2 (fs = FeatureStatusProvisioning)).
Qed.

Definition going_away (fs : FeatureStatus) : bool :=
  match fs with
  | FeatureStatusRemoving | FeatureStatusAgentRemoving | FeatureStatusRemoved | FeatureStatusBlocked => true
  | _ => false
  end.

Lemma featureHelm_unfold s summary :
  featureHelm s summary =
  if going_away (helm_feature_status summary)
  then set_state (featureStatusToServiceState (helm_feature_status summary)) s
  else
    match helmReleaseMap summary !! st_key s with
    | None => set_state ServiceStateNotDeployed s
    | Some r => if hcs_conflict r then set_failed (hcs_conflictMessage r) s
                else helm_release_state (helm_feature_status summary) ∅ r s
    end.
Proof.
  unfold featureHelm. cbn zeta. destruct (helm_feature_status summary); simpl; try done;
    destruct (helmReleaseMap summary !! st_key s) as [r|]; try done; destruct (hcs_conflict r); try done;
    apply helm_release_state_messages.
Qed.

(** The failure message of the Helm feature, which is parsed for the
    services it mentions, has no bearing on what a service is reported as. *)
Lemma helm_failure_message_irrelevant s summary summary' :
  helm_feature_status summary = helm_feature_status summary' →
  cs_helmReleaseSummaries summary = cs_helmReleaseSummaries summary' →
  featureHelm s summary = featureHelm s summary'.
Proof. intros Hs Hr. rewrite !featureHelm_unfold. unfold helmReleaseMap. by rewrite Hs, Hr. Qed.

Definition release_failure (r : HelmChartSummary) : string := default "" (hcs_failureMessage r).

(** The state of a release without conflict. *)
Lemma helm_release_state_state fs r s :
  going_away fs = false →
  st_state (helm_release_state fs ∅ r s) =
  if negb (bool_decide (release_failure r = "")) then ServiceStateFailed
  else if bool_decide (hcs_valuesHash r = "") then
    if bool_decide (fs = FeatureStatusProvisioning) then ServiceStateProvisioning else ServiceStateNotDeployed
  else match fs with
       | FeatureStatusProvisioned | FeatureStatusFailed | FeatureStatusFailedNonRetriable => ServiceStateDeployed
       | FeatureStatusProvisioning => ServiceStateProvisioning
       | _ => ServiceStateNotDeployed
       end.
Proof.
  intros Hg. unfold helm_release_state. fold (release_failure r).
  destruct (bool_decide (hcs_valuesHash r = "")), (bool_decide (release_failure r = "")); cbn [negb]; try done.
  - by destruct (bool_decide (fs = FeatureStatusProvisioning)).
  - by destruct fs.
Qed.

(** A service released with Helm is reported Deployed exactly when, with no
    removal under way, its release has been applied without a failure or
    conflict of its own and the feature has come to rest; and Failed exactly
    when its own release has failed or conflicts. The failure of one service
    is never reported for another. *)
Lemma featureHelm_states s summary :
  let fs := helm_feature_status summary in
  let release r := helmReleaseMap summary !! st_key s = Some r in
  let state := st_state (featureHelm s summary) in
  (state = ServiceStateDeployed ↔
     fs ∈ [FeatureStatusProvisioned; FeatureStatusFailed; FeatureStatusFailedNonRetriable] ∧
     ∃ r, release r ∧ hcs_conflict r = false ∧ hcs_valuesHash r ≠ "" ∧ release_failure r = "") ∧
  (state = ServiceStateFailed ↔
     going_away fs = false ∧ ∃ r, release r ∧ (hcs_conflict r = true ∨ release_failure r ≠ "")).
Proof.
  cbn zeta. rewrite featureHelm_unfold. set (fs := helm_feature_status summary).
  destruct (going_away fs) eqn:Hg.
  { split; split; try (destruct fs; done); intros [Hin _]; [|done]. destruct fs; set_solver. }
  destruct (helmReleaseMap summary !! st_key s) as [r|].
  2:{ split; (split; [done|]); by intros (_ & r & [=] & _). }
  destruct (hcs_conflict r) eqn:Hc.
  { split.
    - split; [done|]. intros (_ & r' & [= <-] & Hc' & _). congruence.
    - split; [|done]. intros _. split; [done|]. exists r. auto. }
  rewrite helm_release_state_state by done. case_bool_decide as Hf; cbn [negb].
  2:{ split.
    - split; [done|]. by intros (_ & r' & [= <-] & _ & _ & Hf').
    - split; [|done]. intros _. split; [done|]. exists r. auto. }
  case_bool_decide as Hh.
  - split.
    + split; [by case_bool_decide|]. by intros (_ & r' & [= <-] & _ & Hh' & _).
    + split; [by case_bool_decide|]. intros (_ & r' & [= <-] & [?|?]); congruence.
  - split.
    + split; [|by intros [Hin _]; destruct fs; set_solver]. intros Hd. split; [destruct fs; set_solver|]. by exists r.
    + split; [by destruct fs|]. intros (_ & r' & [= <-] & [?|?]); congruence.
Qed.

(** ** Properties: the states of a ServiceSet *)

(** Everything but the state and the message. *)
Definition same_service (a b : ServiceState) : Prop :=
  st_lastStateTransitionTime a = st_lastStateTransitionTime b ∧ st_version a = st_version b ∧ st_type a = st_type b ∧
  st_name a = st_name b ∧ st_namespace a = st_namespace b ∧ st_template a = st_template b ∧
  st_lastDeployedHash a = st_lastDeployedHash b ∧ st_conditions a = st_conditions b.

Lemma feature_state_same id refs what summary s : same_service (feature_state id refs what summary s) s.
Proof.
  unfold feature_state. destruct (match feature_of id summary with Some _ => _ | None => _ end) as [d [m|]]; by destruct d.
Qed.

Lemma helm_release_state_same fs r s : same_service (helm_release_state fs ∅ r s) s.
Proof. unfold helm_release_state. repeat destruct (bool_decide _); done. Qed.

Lemma featureHelm_same summary s : same_service (featureHelm s summary) s.
Proof.
  rewrite featureHelm_unfold. destruct (going_away _); [done|].
  destruct (_ !! _) as [r|]; [|done]. destruct (hcs_conflict r); [done|]. apply helm_release_state_same.
Qed.

Section state_properties.
Variable now : Z.

(** What a reconcile keeps of the state before, and what it takes from the spec. *)
Record carried (spec : ServiceWithValues) (old new : ServiceState) : Prop := {
  ca_service : st_name new = sv_name spec ∧ st_namespace new = sv_namespace spec ∧ st_template new = sv_template spec;
  ca_type : st_type new = st_type old;
  ca_version : st_version new = match st_type old with
               | ServiceTypeHelm => st_version old
               | ServiceTypeUnset => ""
               | _ => sv_version spec
               end;
  ca_verified : st_lastDeployedHash new = st_lastDeployedHash old ∧ st_conditions new = st_conditions old;
  ca_time : st_lastStateTransitionTime new =
            if bool_decide (st_state new = st_state old) then st_lastStateTransitionTime old else Some now }.

Lemma next_state_carried summary spec old : carried spec old (next_state now summary spec old).
Proof.
  unfold next_state.
  set (s0 := mkServiceState _ _ _ _ _ _ _ _ _ _).
  set (s1 := match st_type old with ServiceTypeKustomize => _ | _ => _ end).
  assert (same_service s1 s0) as Hs
    by (subst s1; destruct (st_type old); [apply featureHelm_same|apply feature_state_same..|by split_and!]).
  clearbody s1. destruct Hs as (H1 & H2 & H3 & H4 & H5 & H6 & H7 & H8). subst s0. simpl in *.
  case_bool_decide as Hst; simpl; split; simpl; rewrite ?H1, ?H2, ?H3, ?H4, ?H5, ?H6, ?H7, ?H8; try done.
  - by rewrite bool_decide_eq_true_2.
  - by rewrite bool_decide_eq_false_2.
Qed.

Lemma state_leb_total a b : state_leb a b = true ∨ state_leb b a = true.
Proof.
  unfold state_leb. destruct (decide (key_ns (st_key a) = key_ns (st_key b))) as [He|He].
  - rewrite !bool_decide_eq_true_2 by done. apply string_leb_total.
  - rewrite !bool_decide_eq_false_2 by done. apply string_leb_total.
Qed.

Lemma state_leb_trans a b c : state_leb a b = true → state_leb b c = true → state_leb a c = true.
Proof.
  unfold state_leb. generalize (st_key a) (st_key b) (st_key c). clear. intros [na a] [nb b] [nc c]. simpl.
  destruct (decide (na = nb)) as [->|Hab]; [rewrite (bool_decide_eq_true_2 (nb = nb)) by done|rewrite (bool_decide_eq_false_2 (na = nb)) by done].
  - simpl. destruct (decide (nb = nc)) as [->|Hbc]; [rewrite bool_decide_eq_true_2 by done; apply string_leb_trans|].
    by rewrite (bool_decide_eq_false_2 (nb = nc)).
  - simpl. destruct (decide (nb = nc)) as [->|Hbc].
    + rewrite (bool_decide_eq_true_2 (nc = nc)) by done. intros Hn _. by rewrite bool_decide_eq_false_2.
    + rewrite (bool_decide_eq_false_2 (nb = nc)) by done. intros H1 H2. simpl in H2.
      destruct (decide (na = nc)) as [->|Hac]; [by destruct Hab; apply string_leb_antisym|].
      rewrite bool_decide_eq_false_2 by done. by eapply string_leb_trans.
Qed.

(** The states listed are, sorted by service, those of exactly the services
    the status and the spec both list, each computed from the entry before: a
    Helm service keeps the version confirmed on the cluster, any other takes
    the version of the spec; the verified hash and conditions stay, and the
    transition time moves exactly when the state changes. *)
Lemma servicesStateFromSummary_spec summary serviceSet :
  let spec := sss_services (sset_spec serviceSet) in
  let status := ssst_services (sset_status serviceSet) in
  let states := servicesStateFromSummary now (Some summary) (Some serviceSet) in
  NoDup (sv_key <$> spec) →
  StronglySorted (Rle state_leb) states ∧
  st_key <$> states ≡ₚ filterb (λ k, bool_decide (k ∈ sv_key <$> spec)) (st_key <$> status) ∧
  ∀ s, s ∈ states → ∃ old svc, old ∈ status ∧ svc ∈ spec ∧ st_key s = st_key old ∧ sv_key svc = st_key old ∧ carried svc old s.
Proof.
  intros spec status states Hnd. subst states. unfold servicesStateFromSummary. fold spec status. cbn zeta.
  set (m := index_by sv_key (λ svc, svc) spec).
  set (l := omap _ status).
  assert (∀ k svc, m !! k = Some svc → svc ∈ spec ∧ sv_key svc = k) as Hm
    by (intros k svc (x & Hx & <- & <-)%index_by_Some; done).
  assert (∀ svc old, m !! st_key old = Some svc → st_key (next_state now summary svc old) = st_key old) as Hkey.
  { intros svc old [_ Hk]%Hm. destruct (next_state_carried summary svc old) as [(Hn & Hns & _) _ _ _ _].
    unfold st_key. rewrite Hn, Hns. exact Hk. }
  split; [apply isort_sorted; [apply state_leb_total|apply state_leb_trans]|]. split.
  - rewrite (isort_perm state_leb l). subst l. clear Hnd. induction status as [|old status IH]; [done|].
    csimpl. unfold filterb. rewrite filter_cons. fold (filterb (λ k, bool_decide (k ∈ sv_key <$> spec)) (st_key <$> status)).
    destruct (m !! st_key old) as [svc|] eqn:E; simpl.
    + rewrite decide_True; [|apply bool_decide_eq_true; apply Hm in E as [Hs <-]; by apply list_elem_of_fmap_2].
      rewrite (Hkey _ _ E). by constructor.
    + rewrite decide_False; [done|]. intros Hin. apply bool_decide_eq_true, list_elem_of_fmap in Hin as (svc & Hk & Hs).
      pose proof (proj1 (index_by_None sv_key (λ svc, svc) spec (st_key old)) E svc Hs). congruence.
  - intros s Hs. apply isort_elem_of in Hs. apply list_elem_of_omap in Hs as (old & Hold & Hs).
    destruct (m !! st_key old) as [svc|] eqn:E; [|done]. injection Hs as <-. exists old, svc.
    rewrite (Hkey _ _ E). apply Hm in E as [? ?]. auto using next_state_carried.
Qed.
End state_properties.

(** ** Running it *)

(** [nginx] is applied and [db] has failed. *)
Definition helm_releases : list HelmChartSummary :=
  [mkHelmChartSummary "nginx" "default" false "" "hash" "" None;
   mkHelmChartSummary "db" "default" false "" "" "" (Some "context deadline exceeded")].
Definition helm_summary (fs : FeatureStatus) (msg : string) : ClusterSummary :=
  mkClusterSummary [] [] [mkFeatureSummary FeatureHelm fs (Some msg)] helm_releases.

Example unpack_message :
  elements (unpackHelmFailureMsg
    ("chart=ingress-nginx, releaseNamespace=web, releaseName=nginx: context deadline exceeded" +:+ newline +:+
     "no release here")) = [mkKey "web" "nginx"].
Proof. vm_compute. reflexivity. Qed.

Lemma helm_failure_message_irrelevant_witness :
  let s := simple_state "nginx" "nginx-1" "1" ServiceStateDeployed in
  featureHelm s (helm_summary FeatureStatusProvisioning "releaseNamespace=default, releaseName=nginx: failed") =
  featureHelm s (helm_summary FeatureStatusProvisioning "").
Proof. apply helm_failure_message_irrelevant; reflexivity. Defined.

Definition sveltos_serviceSet : ServiceSet :=
  mkServiceSet (named_meta "ns" "set")
    (mkServiceSetSpec "cluster" "" (mkProviderConfig None "" false)
       [simple_stored "nginx" "nginx-1" "1.1.0"; simple_stored "db" "db-1" "2.0.0"])
    (mkServiceSetStatus None [] [simple_state "nginx" "nginx-1" "1.0.0" ServiceStateProvisioning;
                                 simple_state "gone" "gone-1" "1.0.0" ServiceStateDeployed;
                                 simple_state "db" "db-1" "" ServiceStateFailed] true false false).

Lemma servicesStateFromSummary_spec_witness :
  (λ s, (st_name s, st_version s, st_state s)) <$>
    servicesStateFromSummary 7 (Some (helm_summary FeatureStatusFailed "")) (Some sveltos_serviceSet) =
    [("db", "", ServiceStateFailed); ("nginx", "1.0.0", ServiceStateDeployed)] ∧
  st_key <$> servicesStateFromSummary 7 (Some (helm_summary FeatureStatusFailed "")) (Some sveltos_serviceSet) ≡ₚ
    filterb (λ k, bool_decide (k ∈ [mkKey "default" "nginx"; mkKey "default" "db"]))
      [mkKey "default" "nginx"; mkKey "default" "gone"; mkKey "default" "db"].
Proof.
  split; [vm_compute; reflexivity|].
  apply (servicesStateFromSummary_spec 7 (helm_summary FeatureStatusFailed "") sveltos_serviceSet).
  apply (bool_decide_unpack _). vm_compute. exact I.
Defined.
