(* ===== verification/ServiceDeps.v ===== *)
(** * Dependency filtering ([FilterServiceDependencies] of
    [src/internal/serviceset/util.go]).

    A service may be applied once everything it depends on, directly or not, is
    deployed at the version asked for. The code computes this with counters and
    a loop that drops services from a set until nothing changes; the theorems
    show the result is the set the comment describes, whatever order the maps
    are ranged over in. *)

From S2P Require Import Prelude Api ServiceBasics.

(** ** The maps the function populates *)

Definition serviceIdx (desired : list Service) : gmap ObjectKey nat :=
  index_by (λ p, svc_key p.2) fst (imap pair desired).

Definition dependsOnCount (desired : list Service) : gmap ObjectKey Z :=
  index_by svc_key (λ s, Z.of_nat (length (svc_dependsOn s))) desired.

(** [dependents[dKey] = append(dependents[dKey], svcKey)]. *)
Definition append_dependent (svcKey : ObjectKey) (m : gmap ObjectKey (list ObjectKey))
    (d : ServiceDependsOn) : gmap ObjectKey (list ObjectKey) :=
  <[dep_key d := default [] (m !! dep_key d) ++ [svcKey]]> m.

Definition dependents (desired : list Service) : gmap ObjectKey (list ObjectKey) :=
  foldl (λ m svc, foldl (append_dependent (svc_key svc)) m (svc_dependsOn svc)) ∅ desired.

Definition missing_dependency_err (svc : Service) (depKey : ObjectKey) : gerror :=
  ErrNew ("service " +:+ effectiveNamespace (svc_namespace svc) +:+ "/" +:+ svc_name svc +:+
          " depends on " +:+ key_ns depKey +:+ "/" +:+ key_name depKey +:+
          " which is not present in the desired services list").

(** The validation loop: the first reference to an absent service. *)
Definition missing_dependency (desired : list Service) : option gerror :=
  let idx := serviceIdx desired in
  head (svc ← desired; d ← svc_dependsOn svc;
        match idx !! dep_key d with
        | Some _ => []
        | None => [missing_dependency_err svc (dep_key d)]
        end).

Definition specVersion (sset : ServiceSet) : gmap ObjectKey string :=
  index_by sv_key (λ s, ServiceVersion (sv_version s) (sv_template s))
    (sss_services (sset_spec sset)).
Definition statusVersion (sset : ServiceSet) : gmap ObjectKey string :=
  index_by st_key (λ s, ServiceVersion (st_version s) (st_template s))
    (ssst_services (sset_status sset)).
Definition statusState (sset : ServiceSet) : gmap ObjectKey string :=
  index_by st_key st_state (ssst_services (sset_status sset)).
Definition desiredVersion (desired : list Service) : gmap ObjectKey string :=
  index_by svc_key (λ s, ServiceVersion (svc_version s) (svc_template s)) desired.

(** The gate of one service taken on its own. *)
Definition at_desired (sset : ServiceSet) (desired : list Service) (k : ObjectKey) : bool :=
  AtDesiredVersion (get_string (statusState sset) k) (get_string (statusVersion sset) k)
    (get_string (specVersion sset) k) (get_string (desiredVersion desired) k).

(** [desiredServices[serviceIdx[k]].DependsOn]. *)
Definition deps_of (desired : list Service) (k : ObjectKey) : list ObjectKey :=
  match serviceIdx desired !! k with
  | Some i => match desired !! i with
              | Some svc => dep_key <$> svc_dependsOn svc
              | None => []
              end
  | None => []
  end.

Section filter.
Context `{!MapRange ObjectKey}.

(** One round of the fixpoint loop: [dropped] and the set, changed while it
    is ranged over. *)
Definition drop_step (deps : ObjectKey → list ObjectKey)
    (acc : gset ObjectKey * bool) (k : ObjectKey) : gset ObjectKey * bool :=
  if existsb (λ d, negb (bool_decide (d ∈ acc.1))) (deps k)
  then (acc.1 ∖ {[k]}, true) else acc.

Definition drop_pass (deps : ObjectKey → list ObjectKey) (t : nat) (deployed : gset ObjectKey)
  : gset ObjectKey * bool :=
  foldl (drop_step deps) (deployed, false) (range_seq t deployed).

(** [for dropped := true; dropped; ]. Every round but the last removes a
    service, so the size of the set is enough fuel. *)
Fixpoint drop_loop (deps : ObjectKey → list ObjectKey) (fuel t : nat) (deployed : gset ObjectKey)
  : gset ObjectKey :=
  match fuel with
  | 0 => deployed
  | S fuel =>
      let (deployed', dropped) := drop_pass deps t deployed in
      if dropped then drop_loop deps fuel (S t) deployed' else deployed'
  end.

(** [dependsOnCount[ServiceKey(d.Namespace, d.Name)]--]. *)
Definition decrement (counts : gmap ObjectKey Z) (d : ObjectKey) : gmap ObjectKey Z :=
  let k := ServiceKey (key_ns d) (key_name d) in
  <[k := (default 0 (counts !! k) - 1)%Z]> counts.

Definition remaining_counts (desired : list Service) (deployed : gset ObjectKey) (t : nat)
  : gmap ObjectKey Z :=
  foldl (λ counts svc,
    foldl decrement counts (default [] (dependents desired !! ServiceKey (key_ns svc) (key_name svc))))
    (dependsOnCount desired) (range_seq t deployed).

(** The services that are at their desired version, before the lock travels
    down the chain. *)
Definition initially_deployed (sset : ServiceSet) (desired : list Service) : gset ObjectKey :=
  filter (λ k, at_desired sset desired k = true) (dom (serviceIdx desired)).

Definition deployedServices (sset : ServiceSet) (desired : list Service) : gset ObjectKey :=
  let d := initially_deployed sset desired in
  drop_loop (deps_of desired) (S (size d)) 0 d.

(** The part of the function after the ServiceSet is fetched. *)
Definition filter_services (sset : ServiceSet) (desired : list Service) : list Service :=
  let deployed := deployedServices sset desired in
  let counts := remaining_counts desired deployed (S (size (initially_deployed sset desired))) in
  filterb (λ svc, bool_decide (default 0 (counts !! svc_key svc) <= 0)%Z) desired.

Context {C : Type} `{!Lister C ServiceSet} (c : C).

Definition FilterServiceDependencies (systemNamespace : string)
    (mcs : option MultiClusterService) (cd : option ClusterDeployment)
    (desired : list Service) : result (list Service) :=
  match missing_dependency desired with
  | Some e => Err e
  | None =>
      sset ← fetchServiceSet c systemNamespace mcs cd;
      Ok (filter_services sset desired)
  end.
End filter.

(** ** What the filter is to compute *)

(** [k] names a service of the list that lists [k'] among its dependencies. *)
Definition depends_on (desired : list Service) (k k' : ObjectKey) : Prop :=
  ∃ svc, svc ∈ desired ∧ svc_key svc = k ∧ k' ∈ dep_key <$> svc_dependsOn svc.

(** The service and everything it depends on, directly or not, is deployed at
    its desired version. *)
Definition satisfied (sset : ServiceSet) (desired : list Service) (k : ObjectKey) : Prop :=
  ∀ k', rtc (depends_on desired) k k' → at_desired sset desired k' = true.

(** Every reference resolves within the list. *)
Definition deps_present (desired : list Service) : Prop :=
  ∀ svc d, svc ∈ desired → d ∈ svc_dependsOn svc → ∃ s, s ∈ desired ∧ svc_key s = dep_key d.

(** ** The maps, as relations on the list *)

Lemma serviceIdx_lookup desired svc :
  NoDup (svc_key <$> desired) → svc ∈ desired →
  ∃ i, serviceIdx desired !! svc_key svc = Some i ∧ desired !! i = Some svc.
Proof.
  intros Hnd [i Hi]%list_elem_of_lookup. exists i. split; [|done].
  unfold serviceIdx.
  assert ((λ p : nat * Service, svc_key p.2) <$> imap pair desired = svc_key <$> desired) as Heq.
  { apply list_eq. intros j. rewrite !list_lookup_fmap, list_lookup_imap.
    by destruct (desired !! j). }
  apply (index_by_lookup (λ p : nat * Service, svc_key p.2) fst (imap pair desired) (i, svc)).
  - by rewrite Heq.
  - apply list_elem_of_lookup. exists i. by rewrite list_lookup_imap, Hi.
Qed.

Lemma serviceIdx_is_Some desired k :
  is_Some (serviceIdx desired !! k) ↔ ∃ svc, svc ∈ desired ∧ svc_key svc = k.
Proof.
  unfold serviceIdx. rewrite index_by_is_Some. split.
  - intros ([i svc] & (j & y & ? & ?)%elem_of_lookup_imap & Hk). simplify_eq/=.
    eexists. split; [|done]. by eapply list_elem_of_lookup_2.
  - intros (svc & [i Hi]%list_elem_of_lookup & Hk). exists (i, svc). split; [|done].
    apply list_elem_of_lookup. exists i. by rewrite list_lookup_imap, Hi.
Qed.

Lemma deps_of_service desired svc :
  NoDup (svc_key <$> desired) → svc ∈ desired →
  deps_of desired (svc_key svc) = dep_key <$> svc_dependsOn svc.
Proof.
  intros Hnd Hin. destruct (serviceIdx_lookup _ _ Hnd Hin) as (i & Hi & Hl).
  unfold deps_of. by rewrite Hi, Hl.
Qed.

Lemma deps_of_depends_on desired k k' :
  NoDup (svc_key <$> desired) →
  k' ∈ deps_of desired k ↔ depends_on desired k k'.
Proof.
  intros Hnd. split.
  - destruct (serviceIdx desired !! k) as [i|] eqn:Hi; last first.
    { unfold deps_of. rewrite Hi. by intros ?%elem_of_nil. }
    destruct (proj1 (serviceIdx_is_Some desired k) ltac:(eauto)) as (svc & Hin & <-).
    rewrite deps_of_service by done. intros ?. by exists svc.
  - intros (svc & Hin & <- & Hk'). by rewrite deps_of_service.
Qed.

Lemma missing_dependency_None desired :
  missing_dependency desired = None ↔ deps_present desired.
Proof.
  unfold missing_dependency. rewrite head_None. split.
  - intros Hnil svc d Hsvc Hd. apply serviceIdx_is_Some.
    destruct (serviceIdx desired !! dep_key d) as [i|] eqn:E; [by eexists|].
    exfalso. eapply (not_elem_of_nil (missing_dependency_err svc (dep_key d))).
    rewrite <- Hnil. apply list_elem_of_bind. exists svc. split; [|done].
    apply list_elem_of_bind. exists d. rewrite E. set_solver.
  - intros Hp. apply elem_of_nil_inv. intros e (svc & He & Hsvc)%list_elem_of_bind.
    apply list_elem_of_bind in He as (d & He & Hd).
    destruct (proj2 (serviceIdx_is_Some desired (dep_key d)) (Hp svc d Hsvc Hd)) as [i Hi].
    rewrite Hi in He. by apply elem_of_nil in He.
Qed.

(** ** The drop loop computes the largest closed subset *)

(** Every dependency of a member is a member. *)
Definition closed (deps : ObjectKey → list ObjectKey) (U : gset ObjectKey) : Prop :=
  ∀ k d, k ∈ U → d ∈ deps k → d ∈ U.

Section drop.
Context `{!MapRange ObjectKey} (deps : ObjectKey → list ObjectKey).

Lemma missing_dep_true (U : gset ObjectKey) k :
  existsb (λ d, negb (bool_decide (d ∈ U))) (deps k) = true ↔ ∃ d, d ∈ deps k ∧ d ∉ U.
Proof.
  rewrite existsb_elem_of.
  split; intros (d & Hd & Hu); exists d; split; try done.
  - by bool_simpl.
  - apply negb_true_iff. by apply bool_decide_eq_false.
Qed.

(** What has been dropped from [d0] leads to something outside [d0]. *)
Definition dropped_for_cause (d0 cur : gset ObjectKey) : Prop :=
  ∀ k, k ∈ d0 → k ∉ cur → ∃ k', rtc (λ a b, b ∈ deps a) k k' ∧ k' ∉ d0.

Lemma drop_fold_cause d0 ks acc :
  dropped_for_cause d0 acc.1 → dropped_for_cause d0 (foldl (drop_step deps) acc ks).1.
Proof.
  revert acc. induction ks as [|k ks IH]; intros acc Hc; [done|].
  simpl. apply IH. unfold drop_step. destruct (existsb _ _) eqn:E; [|done].
  apply missing_dep_true in E as (d & Hd & Hn). simpl. intros x Hx Hxn.
  destruct (decide (x = k)) as [->|Hne]; [|apply Hc; set_solver].
  destruct (decide (d ∈ d0)) as [Hd0|Hd0].
  - destruct (Hc d Hd0 Hn) as (k' & Hr & Hk'). exists k'. split; [|done].
    by eapply rtc_l.
  - exists d. split; [by apply rtc_once|done].
Qed.

Lemma drop_fold_subset ks acc : (foldl (drop_step deps) acc ks).1 ⊆ acc.1.
Proof.
  revert acc. induction ks as [|k ks IH]; intros acc; simpl; [done|].
  etrans; [apply IH|]. unfold drop_step. destruct (existsb _ _); set_solver.
Qed.

Lemma drop_fold_true ks acc :
  acc.2 = true → (foldl (drop_step deps) acc ks).2 = true.
Proof.
  revert acc. induction ks as [|k ks IH]; intros acc Ht; simpl; [done|].
  apply IH. unfold drop_step. by destruct (existsb _ _).
Qed.

(** A round that drops nothing leaves the set as it was, with every service
    it visited satisfied by it. *)
Lemma drop_fold_false ks acc :
  (foldl (drop_step deps) acc ks).2 = false →
  (foldl (drop_step deps) acc ks).1 = acc.1 ∧
  ∀ k d, k ∈ ks → d ∈ deps k → d ∈ acc.1.
Proof.
  induction ks as [|k ks IH]; simpl; [set_solver|].
  unfold drop_step at 2 4. destruct (existsb _ (deps k)) eqn:E.
  - intros Hf. by rewrite drop_fold_true in Hf.
  - intros Hf. destruct (IH Hf) as [-> Hall]. split; [done|].
    intros k' d [->|Hk']%elem_of_cons Hd; [|by eapply Hall].
    destruct (decide (d ∈ acc.1)) as [|Hn]; [done|].
    assert (existsb (λ d, negb (bool_decide (d ∈ acc.1))) (deps k) = true); [|congruence].
    apply missing_dep_true. eauto.
Qed.

(** A round that drops something leaves a smaller set. *)
Lemma drop_fold_smaller ks acc :
  acc.2 = false → (∀ k, k ∈ ks → k ∈ acc.1) → NoDup ks →
  (foldl (drop_step deps) acc ks).2 = true →
  (foldl (drop_step deps) acc ks).1 ⊂ acc.1.
Proof.
  intros Hf. revert acc Hf. induction ks as [|k ks IH]; intros acc Hf Hin Hnd; simpl; [congruence|].
  apply NoDup_cons in Hnd as [Hk Hnd]. unfold drop_step at 2 4.
  destruct (existsb _ (deps k)) eqn:E.
  - intros _. pose proof (drop_fold_subset ks (acc.1 ∖ {[k]}, true)) as Hsub. simpl in Hsub.
    assert (k ∈ acc.1) by (apply Hin; left). set_solver.
  - apply IH; [done| |done]. intros k' Hk'. apply Hin. by right.
Qed.

Lemma drop_loop_cause d0 fuel t cur :
  dropped_for_cause d0 cur → dropped_for_cause d0 (drop_loop deps fuel t cur).
Proof.
  revert t cur. induction fuel as [|fuel IH]; intros t cur Hc; simpl; [done|].
  pose proof (drop_fold_cause d0 (range_seq t cur) (cur, false) Hc) as Hc'.
  unfold drop_pass. destruct (foldl _ _ _) as [cur' []]; [by apply IH|done].
Qed.

(** With at least one unit of fuel per member the loop ends in a round that
    drops nothing, in a closed subset of the set it started from. *)
Lemma drop_loop_closed fuel t cur :
  size cur < fuel → closed deps (drop_loop deps fuel t cur) ∧ drop_loop deps fuel t cur ⊆ cur.
Proof.
  revert t cur. induction fuel as [|fuel IH]; intros t cur Hsz; simpl; [lia|].
  unfold drop_pass.
  destruct (foldl _ _ _) as [cur' b] eqn:E.
  assert (cur' = (foldl (drop_step deps) (cur, false) (range_seq t cur)).1) as Hc by by rewrite E.
  destruct b.
  - assert (cur' ⊂ cur) as Hlt.
    { rewrite Hc. apply drop_fold_smaller; [done| | |by rewrite E].
      - intros k. by rewrite range_seq_elem.
      - rewrite range_seq_perm. apply NoDup_elements. }
    destruct (IH (S t) cur') as [Hcl Hsub].
    { apply subset_size in Hlt. lia. }
    split; [done|]. set_solver.
  - destruct (drop_fold_false (range_seq t cur) (cur, false)) as [Heq Hall]; [by rewrite E|].
    simpl in Heq, Hall. rewrite Hc, Heq. split; [|done].
    intros k d Hk Hd. eapply Hall; [|done]. by apply range_seq_elem.
Qed.

(** The loop keeps exactly the services from which every service that can be
    reached along dependencies was in the set to begin with. *)
Lemma drop_loop_reachable d0 t k :
  k ∈ drop_loop deps (S (size d0)) t d0 ↔
  ∀ k', rtc (λ a b, b ∈ deps a) k k' → k' ∈ d0.
Proof.
  destruct (drop_loop_closed (S (size d0)) t d0) as [Hcl Hsub]; [lia|].
  split.
  - intros Hk k' Hr. apply Hsub.
    induction Hr as [|a b c Hab Hr IH]; [done|]. apply IH. by eapply Hcl.
  - intros Hall. destruct (decide (k ∈ drop_loop deps (S (size d0)) t d0)) as [|Hn]; [done|].
    assert (dropped_for_cause d0 (drop_loop deps (S (size d0)) t d0)) as Hc.
    { apply drop_loop_cause. intros x Hx Hnx. done. }
    destruct (Hc k) as (k' & Hr & Hk'); [apply Hall, rtc_refl|done|].
    destruct Hk'. by apply Hall.
Qed.
End drop.

(** ** The counters count the dependencies not yet satisfied *)

(** How often [x] occurs. *)
Definition occurrences (x : ObjectKey) (l : list ObjectKey) : nat :=
  length (filter (x =.) l).

Lemma occurrences_app x l k : occurrences x (l ++ k) = occurrences x l + occurrences x k.
Proof. unfold occurrences. by rewrite filter_app, length_app. Qed.

Lemma effectiveNamespace_idemp ns : effectiveNamespace (effectiveNamespace ns) = effectiveNamespace ns.
Proof. unfold effectiveNamespace. repeat case_bool_decide; congruence. Qed.

Lemma ServiceKey_normal ns n : ServiceKey (key_ns (ServiceKey ns n)) (key_name (ServiceKey ns n)) = ServiceKey ns n.
Proof. unfold ServiceKey. simpl. by rewrite effectiveNamespace_idemp. Qed.

(** Keys made by [ServiceKey]. *)
Definition normal_key (k : ObjectKey) : Prop := ServiceKey (key_ns k) (key_name k) = k.

Lemma decrement_fold ds counts k :
  (∀ d, d ∈ ds → normal_key d) →
  default 0%Z (foldl decrement counts ds !! k) =
  (default 0 (counts !! k) - Z.of_nat (occurrences k ds))%Z.
Proof.
  revert counts. induction ds as [|d ds IH]; intros counts Hn; simpl.
  - unfold occurrences. simpl. lia.
  - rewrite IH by (intros; apply Hn; by right). unfold decrement at 1.
    rewrite (Hn d) by left.
    unfold occurrences. rewrite filter_cons. case_decide as Hd.
    + subst. rewrite lookup_insert_eq. simpl. lia.
    + rewrite lookup_insert_ne by done. done.
Qed.

Lemma append_dependents_lookup svcKey ds m d :
  default [] (foldl (append_dependent svcKey) m ds !! d) =
  default [] (m !! d) ++ ((λ _, svcKey) <$> filter (λ x, dep_key x = d) ds).
Proof.
  revert m. induction ds as [|x ds IH]; intros m; simpl; [by rewrite app_nil_r|].
  rewrite IH. unfold append_dependent. rewrite filter_cons. case_decide as Hd.
  - subst. rewrite lookup_insert_eq. simpl. by rewrite <- app_assoc.
  - by rewrite lookup_insert_ne.
Qed.

Lemma dependents_lookup desired d :
  default [] (dependents desired !! d) =
  (svc ← desired; (λ _, svc_key svc) <$> filter (λ x, dep_key x = d) (svc_dependsOn svc)).
Proof.
  unfold dependents. induction desired as [|svc l IH] using rev_ind; [done|].
  rewrite foldl_app, bind_app. simpl. rewrite append_dependents_lookup, IH.
  by rewrite app_nil_r.
Qed.

Lemma occurrences_const {A} k (l : list A) : occurrences k ((λ _, k) <$> l) = length l.
Proof.
  unfold occurrences. induction l as [|x l IH]; [done|].
  rewrite fmap_cons, filter_cons. case_decide; [|done]. simpl. by rewrite IH.
Qed.

Lemma occurrences_other {A} k k' (l : list A) : k ≠ k' → occurrences k ((λ _, k') <$> l) = 0.
Proof.
  intros Hne. unfold occurrences. induction l as [|x l IH]; [done|].
  rewrite fmap_cons, filter_cons. by case_decide.
Qed.

Lemma occurrences_fmap d ds :
  occurrences d (dep_key <$> ds) = length (filter (λ x, dep_key x = d) ds).
Proof.
  unfold occurrences. induction ds as [|x ds IH]; [done|].
  rewrite fmap_cons, !filter_cons. repeat case_decide; try congruence. simpl. by rewrite IH.
Qed.

(** The occurrences of a service among the dependents of [d]: how often it
    lists [d]. *)
Lemma dependents_occurrences desired svc d :
  NoDup (svc_key <$> desired) → svc ∈ desired →
  occurrences (svc_key svc) (default [] (dependents desired !! d)) =
  occurrences d (dep_key <$> svc_dependsOn svc).
Proof.
  intros Hnd Hin. rewrite dependents_lookup.
  induction desired as [|s l IH]; [by apply elem_of_nil in Hin|].
  rewrite bind_cons, occurrences_app.
  rewrite fmap_cons in Hnd. apply NoDup_cons in Hnd as [Hs Hnd].
  apply elem_of_cons in Hin as [<-|Hin].
  - rewrite occurrences_const, occurrences_fmap.
    enough (occurrences (svc_key svc) (s ← l; (λ _, svc_key s) <$>
      filter (λ x, dep_key x = d) (svc_dependsOn s)) = 0) by lia.
    clear IH Hnd. induction l as [|s l IH]; [done|].
    rewrite fmap_cons in Hs. apply not_elem_of_cons in Hs as [Hs1 Hs2].
    rewrite bind_cons, occurrences_app, occurrences_other, IH; done.
  - rewrite IH by done. rewrite occurrences_other; [done|].
    intros Heq. apply Hs. rewrite <- Heq. by apply list_elem_of_fmap_2.
Qed.

Lemma occurrences_total (ds ks : list ObjectKey) :
  NoDup ks → sum_list_with (λ k, occurrences k ds) ks = length (filter (.∈ ks) ds).
Proof.
  intros Hnd. induction Hnd as [|k ks Hk Hnd IH]; simpl.
  - induction ds as [|d ds IHd]; [done|]. rewrite filter_cons.
    case_decide as Hd; [by apply elem_of_nil in Hd|done].
  - rewrite IH. clear IH. unfold occurrences. induction ds as [|d ds IHd]; [done|].
    rewrite !filter_cons. repeat case_decide; simpl; try set_solver; lia.
Qed.

Lemma dependents_normal desired d k : k ∈ default [] (dependents desired !! d) → normal_key k.
Proof.
  rewrite dependents_lookup. intros (svc & Hk & _)%list_elem_of_bind.
  apply list_elem_of_fmap in Hk as (_ & -> & _). apply ServiceKey_normal.
Qed.

Section eligibility.
Context `{!MapRange ObjectKey}.

Lemma remaining_counts_fold desired ks counts svc :
  NoDup (svc_key <$> desired) → svc ∈ desired → (∀ k, k ∈ ks → normal_key k) →
  default 0%Z (foldl (λ counts d, foldl decrement counts
    (default [] (dependents desired !! ServiceKey (key_ns d) (key_name d)))) counts ks !! svc_key svc)
  = (default 0 (counts !! svc_key svc) -
     Z.of_nat (sum_list_with (λ k, occurrences k (dep_key <$> svc_dependsOn svc)) ks))%Z.
Proof.
  intros Hnd Hin. revert counts. induction ks as [|k ks IH]; intros counts Hn; simpl; [lia|].
  rewrite IH by (intros; apply Hn; by right).
  rewrite decrement_fold by (intros ?; apply dependents_normal).
  assert (ServiceKey (key_ns k) (key_name k) = k) as -> by (apply Hn; left).
  rewrite dependents_occurrences by done. lia.
Qed.

Lemma remaining_counts_spec desired deployed t svc :
  NoDup (svc_key <$> desired) → svc ∈ desired → (∀ k, k ∈ deployed → normal_key k) →
  (default 0 (remaining_counts desired deployed t !! svc_key svc) <= 0)%Z ↔
  ∀ d, d ∈ svc_dependsOn svc → dep_key d ∈ deployed.
Proof.
  intros Hnd Hin Hn. unfold remaining_counts.
  rewrite remaining_counts_fold; [|done..|]; last first.
  { intros k Hk%range_seq_elem. by apply Hn. }
  rewrite occurrences_total; last first.
  { rewrite range_seq_perm. apply NoDup_elements. }
  unfold dependsOnCount. rewrite (index_by_lookup svc_key) by done. simpl.
  rewrite <- (length_fmap dep_key).
  set (ds := dep_key <$> svc_dependsOn svc).
  set (ks := range_seq t deployed).
  transitivity (∀ d, d ∈ ds → d ∈ ks).
  - pose proof (length_filter (.∈ ks) ds) as Hle. split.
    + intros Hz. intros d Hd. destruct (decide (d ∈ ks)) as [|Hno]; [done|].
      pose proof (length_filter_lt (.∈ ks) ds d Hd Hno). lia.
    + intros Hall. rewrite (filter_all (.∈ ks) ds); [lia|done].
  - unfold ds, ks. split.
    + intros Hall d Hd. apply (range_seq_elem t), Hall. by apply list_elem_of_fmap_2.
    + intros Hall d (x & -> & Hx)%list_elem_of_fmap. apply range_seq_elem. by apply Hall.
Qed.

Lemma initially_deployed_elem sset desired k :
  k ∈ initially_deployed sset desired ↔
  (∃ svc, svc ∈ desired ∧ svc_key svc = k) ∧ at_desired sset desired k = true.
Proof.
  unfold initially_deployed.
  rewrite elem_of_filter, elem_of_dom, serviceIdx_is_Some. tauto.
Qed.

(** Services and everything reachable from them stay in the list. *)
Lemma deps_reach_present desired k k' :
  deps_present desired → rtc (depends_on desired) k k' →
  (∃ svc, svc ∈ desired ∧ svc_key svc = k) → ∃ svc, svc ∈ desired ∧ svc_key svc = k'.
Proof.
  intros Hp Hr. induction Hr as [|a b c (svc & Hin & Ha & Hb) Hr IH]; [done|].
  intros _. apply IH. apply list_elem_of_fmap in Hb as (d & -> & Hd). by eapply Hp.
Qed.

Lemma deployedServices_satisfied sset desired k :
  NoDup (svc_key <$> desired) → deps_present desired →
  (∃ svc, svc ∈ desired ∧ svc_key svc = k) →
  k ∈ deployedServices sset desired ↔ satisfied sset desired k.
Proof.
  intros Hnd Hp Hk. unfold deployedServices. rewrite drop_loop_reachable.
  assert (∀ a b, rtc (λ a b, b ∈ deps_of desired a) a b ↔ rtc (depends_on desired) a b) as Hrtc.
  { intros a b. split; intros Hr;
      (induction Hr; [apply rtc_refl|eapply rtc_l; [|done]]); by apply deps_of_depends_on. }
  unfold satisfied. split; intros Hall k' Hr.
  - apply Hrtc, Hall, initially_deployed_elem in Hr; tauto.
  - apply Hrtc in Hr. apply initially_deployed_elem.
    split; [by eapply deps_reach_present|auto].
Qed.

Lemma filter_services_elem sset desired svc :
  NoDup (svc_key <$> desired) → deps_present desired → svc ∈ desired →
  svc ∈ filter_services sset desired ↔
  ∀ d, d ∈ svc_dependsOn svc → satisfied sset desired (dep_key d).
Proof.
  intros Hnd Hp Hin. unfold filter_services.
  rewrite filterb_elem_of, bool_decide_eq_true, remaining_counts_spec; [|done..|].
  - split.
    + intros [_ Hall] d Hd. apply deployedServices_satisfied; auto. by eapply Hp.
    + intros Hall. split; [done|]. intros d Hd.
      apply deployedServices_satisfied; auto. by eapply Hp.
  - intros k Hk. unfold deployedServices in Hk.
    apply drop_loop_closed in Hk; [|lia].
    apply initially_deployed_elem in Hk as [(s & _ & <-) _].
    apply ServiceKey_normal.
Qed.
End eligibility.

(** ** Properties *)

Section filter_spec.
Context `{!MapRange ObjectKey} {C : Type} `{!Lister C ServiceSet} (c : C).

Lemma filter_dependencies_elem systemNamespace mcs cd desired filtered :
  NoDup (svc_key <$> desired) →
  FilterServiceDependencies c systemNamespace mcs cd desired = Ok filtered →
  ∃ sset, fetchServiceSet c systemNamespace mcs cd = Ok sset ∧
    filtered `sublist_of` desired ∧
    ∀ svc, svc ∈ desired →
      svc ∈ filtered ↔ ∀ d, d ∈ svc_dependsOn svc → satisfied sset desired (dep_key d).
Proof.
  intros Hnd. unfold FilterServiceDependencies.
  destruct (missing_dependency desired) as [e|] eqn:Hm; [done|].
  intros (sset & Hs & <-%Ok_inj)%bind_Ok. exists sset. split_and!; [done|apply filterb_sublist|].
  intros svc Hin. apply filter_services_elem; [done| |done]. by apply missing_dependency_None.
Qed.

(** C2: whatever order the maps are ranged over in, the services let through
    are, in the order the owner lists them, exactly those whose every
    dependency is satisfied: the dependency and all it depends on, however
    long the chain, are Deployed with status, spec and desired version equal. *)
Theorem FilterServiceDependencies_spec systemNamespace mcs cd desired filtered :
  NoDup (svc_key <$> desired) →
  FilterServiceDependencies c systemNamespace mcs cd desired = Ok filtered →
  ∃ sset, fetchServiceSet c systemNamespace mcs cd = Ok sset ∧
    filtered `sublist_of` desired ∧
    ∀ svc, svc ∈ desired →
      svc ∈ filtered ↔ ∀ d, d ∈ svc_dependsOn svc → satisfied sset desired (dep_key d).
Proof. apply filter_dependencies_elem. Qed.

(** Filtering fails exactly when a service depends on one that is not in
    the desired list, or the owner's ServiceSet cannot be fetched. *)
Lemma FilterServiceDependencies_error systemNamespace mcs cd desired :
  (∃ e, FilterServiceDependencies c systemNamespace mcs cd desired = Err e) ↔
  ¬ deps_present desired ∨ ∃ e, fetchServiceSet c systemNamespace mcs cd = Err e.
Proof.
  rewrite <- missing_dependency_None. unfold FilterServiceDependencies.
  destruct (missing_dependency desired) as [e|].
  - split; [by left|eauto].
  - destruct (fetchServiceSet _ _ _ _) as [s|e]; simpl.
    + split; [intros [? ?]; done|intros [?|[? ?]]; done].
    + split; [eauto|by eexists].
Qed.
End filter_spec.

(** The result does not depend on the order in which Go ranges over its maps. *)
Lemma filter_services_order (R1 R2 : MapRange ObjectKey) sset desired :
  NoDup (svc_key <$> desired) → deps_present desired →
  @filter_services R1 sset desired = @filter_services R2 sset desired.
Proof.
  intros Hnd Hp. apply filterb_ext. intros svc Hin.
  apply eq_iff_eq_true.
  pose proof (@filter_services_elem R1 sset desired svc Hnd Hp Hin) as H1.
  pose proof (@filter_services_elem R2 sset desired svc Hnd Hp Hin) as H2.
  unfold filter_services in H1, H2. rewrite filterb_elem_of in H1, H2. tauto.
Qed.

(** A chain a <- b <- c where [a] is still being upgraded: [b] is Deployed at an
    unchanged version, yet only [a] may be applied. *)
Definition chain_desired : list Service :=
  [simple_service "c" "c-1" "1.0.0" ["b"]; simple_service "b" "b-1" "1.0.0" ["a"];
   simple_service "a" "a-2" "2.0.0" []].
Definition chain_ServiceSet : ServiceSet :=
  mkServiceSet (named_meta "ns" "set")
    (mkServiceSetSpec "cluster" "" (mkProviderConfig None "ksm" false)
       [simple_stored "a" "a-1" "1.0.0"; simple_stored "b" "b-1" "1.0.0";
        simple_stored "c" "c-1" "1.0.0"])
    (mkServiceSetStatus None []
       [simple_state "a" "a-1" "1.0.0" ServiceStateDeployed;
        simple_state "b" "b-1" "1.0.0" ServiceStateDeployed;
        simple_state "c" "c-1" "1.0.0" ServiceStateDeployed] true false true).
Definition chain_store : Store := mkStore ∅ ∅ {[ mkKey "ns" "set" := chain_ServiceSet ]} ∅.

Lemma FilterServiceDependencies_spec_witness :
  ∃ sset, fetchServiceSet chain_store "sys" None (Some deployed_cluster) = Ok sset ∧
    [simple_service "a" "a-2" "2.0.0" []] `sublist_of` chain_desired ∧
    ∀ svc, svc ∈ chain_desired →
      svc ∈ [simple_service "a" "a-2" "2.0.0" []] ↔
      ∀ d, d ∈ svc_dependsOn svc → satisfied sset chain_desired (dep_key d).
Proof.
  apply (FilterServiceDependencies_spec chain_store "sys" None (Some deployed_cluster)).
  - apply (bool_decide_unpack _). vm_compute. exact I.
  - vm_compute. reflexivity.
Defined.
