(* ===== verification/ServiceOrder.v ===== *)
(** * Dependency order and the merged services list ([sortByDependency] and
    [BuildServicesList] of [src/internal/serviceset/util.go]).

    The spec of a ServiceSet lists a service after the services it depends on.
    The order is a depth-first post-order over the dependency graph; the merge
    keeps eligible services at their target version, locked ones as stored and
    drops those the owner removed. *)

From S2P Require Import Prelude Api ServiceBasics ServiceDeps.

(** ** [sortByDependency] *)

Section place.
Variables (services : list Service) (index : gmap ObjectKey nat).

(** The recursive closure [place], on the captured [seen] and [ordered]. Its
    depth is bounded by the number of services not seen, so running out of
    fuel (or of the slice) does not happen: [place_spec]. *)
Fixpoint place (fuel : nat) (i : nat) (st : gset nat * list Service) : gset nat * list Service :=
  match fuel with
  | 0 => st
  | S fuel =>
      if bool_decide (i ∈ st.1) then st
      else match services !! i with
           | None => st
           | Some svc =>
               let st := ({[i]} ∪ st.1, st.2) in
               let st := foldl (λ st dep,
                 match index !! dep_key dep with
                 | Some j => place fuel j st
                 | None => st
                 end) st (svc_dependsOn svc) in
               (st.1, st.2 ++ [svc])
           end
  end.
End place.

Definition sortByDependency (services : list Service) : list Service :=
  if bool_decide (length services < 2) then services
  else
    let index := serviceIdx services in
    (foldl (λ st i, place services index (S (length services)) i st)
       (∅, []) (seq 0 (length services))).2.

(** ** [BuildServicesList] *)

(** The comparison by key of [slices.SortFunc]. *)
Definition key_leb (a b : ObjectKey) : bool :=
  if bool_decide (key_ns a = key_ns b) then string_leb (key_name a) (key_name b)
  else string_leb (key_ns a) (key_ns b).
Definition svc_leb (a b : Service) : bool := key_leb (svc_key a) (svc_key b).

Definition ranks (desired : list Service) : gmap ObjectKey nat :=
  serviceIdx (sortByDependency (isort svc_leb desired)).

Definition rank_of (rank : gmap ObjectKey nat) (k : ObjectKey) : nat := default 0 (rank !! k).

(** Stored services still desired that were not let through: locked. *)
Definition locked_services (stored filtered : list ServiceWithValues) (desired : list Service)
  : list ServiceWithValues :=
  let desiredSet : gset ObjectKey := list_to_set (svc_key <$> desired) in
  let filteredSet : gset ObjectKey := list_to_set (sv_key <$> filtered) in
  filterb (λ svc, bool_decide (sv_key svc ∈ desiredSet) && negb (bool_decide (sv_key svc ∈ filteredSet)))
    stored.

Definition BuildServicesList (stored filtered : list ServiceWithValues) (desired : list Service)
  : list ServiceWithValues :=
  let result := filtered ++ locked_services stored filtered desired in
  let rank := ranks desired in
  isort (λ a b, Nat.leb (rank_of rank (sv_key a)) (rank_of rank (sv_key b))) result.

(** The dependencies within a list go down in some ranking: no cycle. *)
Definition acyclic_deps (desired : list Service) : Prop :=
  ∃ r : ObjectKey → nat, ∀ k k', depends_on desired k k' →
    (∃ s, s ∈ desired ∧ svc_key s = k') → r k' < r k.

(** ** Depth-first placement *)

Section place_spec.
Variables services : list Service.
Local Abbreviation index := (serviceIdx services).
Local Abbreviation n := (length services).

(** The in-batch dependencies of the [i]-th service. *)
Definition batch_deps (i : nat) : list nat :=
  match services !! i with
  | Some svc => omap (λ d, index !! dep_key d) (svc_dependsOn svc)
  | None => []
  end.

(** Every index comes after its dependencies. *)
Inductive topological : list nat → Prop :=
  | topological_nil : topological []
  | topological_snoc l i :
      topological l → (∀ j, j ∈ batch_deps i → j ∈ l) → topological (l ++ [i]).

Definition at_indices (l : list nat) : list Service := omap (services !!.) l.

(** [idxs] are the indices placed, [stack] those whose call is in progress. *)
Record placed (seen : gset nat) (idxs stack : list nat) : Prop := {
  placed_seen : ∀ i, i ∈ seen ↔ i ∈ idxs ∨ i ∈ stack;
  placed_nodup : NoDup (idxs ++ stack);
  placed_bound : ∀ i, i ∈ idxs ++ stack → i < n
}.

Lemma placed_stack_length seen idxs stack : placed seen idxs stack → length stack ≤ n.
Proof.
  intros [_ Hnd Hb]. apply NoDup_app in Hnd as (_ & _ & Hnd).
  rewrite <- (length_seq n 0). apply submseteq_length, NoDup_submseteq; [done|].
  intros i Hi. apply elem_of_seq. specialize (Hb i). set_solver by lia.
Qed.

Lemma index_bound k j : index !! k = Some j → j < n.
Proof.
  unfold serviceIdx. intros ([i s] & Hin & _ & <-)%index_by_Some.
  apply elem_of_lookup_imap in Hin as (i' & y & ? & ?%lookup_lt_Some). by simplify_eq/=.
Qed.

Lemma batch_deps_bound i j : j ∈ batch_deps i → j < n.
Proof.
  unfold batch_deps. destruct (services !! i); [|by intros ?%elem_of_nil].
  intros (d & _ & Hd)%list_elem_of_omap. by eapply index_bound.
Qed.

(** What a call adds: it places the service, whatever it needed before it,
    and nothing twice; in dependency order when the ranking [r] shows that no
    service on the stack is a dependency. *)
Definition extends (r : nat → nat) (st st' : gset nat * list Service)
    (idxs stack : list nat) (i : nat) : Prop :=
  ∃ new seen', st' = (seen', st.2 ++ at_indices new) ∧ placed seen' (idxs ++ new) stack ∧
    st.1 ⊆ seen' ∧ i ∈ seen' ∧
    ((∀ a b, b ∈ batch_deps a → r b < r a) → (∀ s, s ∈ stack → r i < r s) →
     topological idxs → topological (idxs ++ new)).

Lemma placed_push seen idxs stack i :
  placed seen idxs stack → i ∉ seen → i < n → placed ({[i]} ∪ seen) idxs (i :: stack).
Proof.
  intros [Hs Hnd Hb] Hi Hn. split.
  - intros j. rewrite elem_of_union, elem_of_singleton, Hs, elem_of_cons. tauto.
  - rewrite <- Permutation_middle. constructor; [|done].
    rewrite elem_of_app, <- Hs. done.
  - intros j. rewrite <- Permutation_middle, elem_of_cons. intros [->|Hj]; auto.
Qed.

Lemma placed_pop seen idxs stack i :
  placed seen idxs (i :: stack) → placed seen (idxs ++ [i]) stack.
Proof.
  intros [Hs Hnd Hb]. split.
  - intros j. rewrite Hs, elem_of_cons, elem_of_app, list_elem_of_singleton. tauto.
  - by rewrite <- app_assoc.
  - intros j. rewrite <- app_assoc. apply Hb.
Qed.

Lemma at_indices_app l k : at_indices (l ++ k) = at_indices l ++ at_indices k.
Proof. apply omap_app. Qed.

(** The loop over the dependencies of [i], given what each call does. *)
Lemma place_deps r (call : nat → gset nat * list Service → gset nat * list Service) i stack ds :
  (∀ d j, d ∈ ds → index !! dep_key d = Some j → j ∈ batch_deps i) →
  (∀ j seen idxs ordered, j ∈ batch_deps i → placed seen idxs (i :: stack) →
     extends r (seen, ordered) (call j (seen, ordered)) idxs (i :: stack) j) →
  ∀ seen idxs ordered, placed seen idxs (i :: stack) →
  ∃ new seen',
    foldl (λ st dep, match index !! dep_key dep with Some j => call j st | None => st end)
      (seen, ordered) ds = (seen', ordered ++ at_indices new) ∧
    placed seen' (idxs ++ new) (i :: stack) ∧ seen ⊆ seen' ∧
    (∀ d j, d ∈ ds → index !! dep_key d = Some j → j ∈ seen') ∧
    ((∀ a b, b ∈ batch_deps a → r b < r a) → (∀ s, s ∈ stack → r i < r s) →
     topological idxs → topological (idxs ++ new)).
Proof.
  intros Hds Hcall. induction ds as [|d ds IH]; intros seen idxs ordered Hp; simpl.
  - exists [], seen. rewrite !app_nil_r. split_and!; try done. intros ?? H. by apply elem_of_nil in H.
  - destruct (index !! dep_key d) as [j|] eqn:Hj; last first.
    { destruct (IH ltac:(intros; eapply Hds; [by right|done]) seen idxs ordered Hp)
        as (new & seen' & ? & ? & ? & Hin & ?). exists new, seen'. split_and!; try done.
      intros d' j' [->|Hd']%elem_of_cons Hj'; [congruence|by eapply Hin]. }
    assert (j ∈ batch_deps i) as Hji by (by eapply (Hds d); [left|]).
    destruct (Hcall j seen idxs ordered Hji Hp) as (new1 & seen1 & Heq & Hp1 & Hsub1 & Hin1 & Ht1).
    rewrite Heq.
    destruct (IH ltac:(intros; eapply Hds; [by right|done]) seen1 (idxs ++ new1)
      (ordered ++ at_indices new1) Hp1) as (new2 & seen2 & Heq2 & Hp2 & Hsub2 & Hin2 & Ht2).
    exists (new1 ++ new2), seen2. rewrite at_indices_app, !app_assoc. simpl in *.
    split_and!; try done; [set_solver| |].
    + intros d' j' [->|Hd']%elem_of_cons Hj'; [|by eapply Hin2]. simplify_eq. by apply Hsub2.
    + intros Hr Hs Ht. apply Ht2; [done..|]. apply Ht1; [done| |done].
      intros s [->|Hin]%elem_of_cons; [by apply Hr|].
      specialize (Hs s Hin). specialize (Hr _ _ Hji). lia.
Qed.

Lemma place_spec r fuel i stack :
  n < fuel + length stack → i < n → ∀ seen idxs ordered, placed seen idxs stack →
  extends r (seen, ordered) (place services index fuel i (seen, ordered)) idxs stack i.
Proof.
  revert i stack. induction fuel as [|fuel IH]; intros i stack Hf Hi seen idxs ordered Hp.
  { pose proof (placed_stack_length _ _ _ Hp). lia. }
  cbn [place]. case_bool_decide as Hseen; simpl in Hseen.
  { exists [], seen. rewrite !app_nil_r. by split_and!. }
  destruct (lookup_lt_is_Some_2 services i Hi) as [svc Hsvc]. rewrite Hsvc. cbn zeta.
  destruct (place_deps r (place services index fuel) i stack (svc_dependsOn svc))
    with (seen := {[i]} ∪ seen) (idxs := idxs) (ordered := ordered)
    as (new & seen' & Heq & Hp' & Hsub & Hin & Ht).
  - intros d j Hd Hj. unfold batch_deps. rewrite Hsvc. apply list_elem_of_omap. eauto.
  - intros j seen0 idxs0 ordered0 Hj Hp0. apply IH; [simpl; lia| |done].
    by eapply batch_deps_bound.
  - by apply placed_push.
  - simpl in Heq |- *. rewrite Heq. simpl. exists (new ++ [i]), seen'.
    rewrite at_indices_app, !app_assoc. split_and!.
    + f_equal. simpl. by rewrite Hsvc.
    + by apply placed_pop.
    + simpl. set_solver.
    + apply Hsub. set_solver.
    + intros Hr Hs Htop. apply topological_snoc; [by apply Ht|].
      intros j Hj. assert (j ∈ seen') as Hjs.
      { pose proof Hj as Hj2. unfold batch_deps in Hj2. rewrite Hsvc in Hj2.
        apply list_elem_of_omap in Hj2 as (d & Hd & Hdj). by eapply Hin. }
      apply (placed_seen _ _ _ Hp') in Hjs. specialize (Hr _ _ Hj).
      destruct Hjs as [?|[->|Hst]%elem_of_cons]; [done|lia|].
      specialize (Hs _ Hst). lia.
Qed.

(** The outer loop places every service. *)
Lemma place_all r l seen idxs ordered :
  (∀ i, i ∈ l → i < n) → placed seen idxs [] →
  ∃ new seen', foldl (λ st i, place services index (S n) i st) (seen, ordered) l
                 = (seen', ordered ++ at_indices new) ∧
    placed seen' (idxs ++ new) [] ∧ (∀ i, i ∈ l → i ∈ idxs ++ new) ∧
    ((∀ a b, b ∈ batch_deps a → r b < r a) → topological idxs → topological (idxs ++ new)).
Proof.
  revert seen idxs ordered. induction l as [|i l IH]; intros seen idxs ordered Hb Hp; cbn [foldl].
  - exists [], seen. rewrite !app_nil_r. split_and!; try done. intros i H. by apply elem_of_nil in H.
  - destruct (place_spec r (S n) i []) with (seen := seen) (idxs := idxs) (ordered := ordered)
      as (new1 & seen1 & Heq & Hp1 & _ & Hin & Ht1); [simpl; lia|apply Hb; left|done|].
    rewrite Heq.
    destruct (IH seen1 (idxs ++ new1) (ordered ++ at_indices new1))
      as (new2 & seen2 & Heq2 & Hp2 & Hin2 & Ht2); [intros; apply Hb; by right|done|].
    exists (new1 ++ new2), seen2. rewrite at_indices_app, !app_assoc.
    split_and!; try done.
    + intros j [->|Hj]%elem_of_cons; [|by apply Hin2].
      apply elem_of_app. left. apply (placed_seen _ _ _ Hp1) in Hin. set_solver.
    + intros Hr Ht. apply Ht2; [done|]. apply Ht1; [done|set_solver|done].
Qed.
End place_spec.

(** ** The order [sortByDependency] puts services in *)

Lemma at_indices_seq_prefix services more n :
  n ≤ length services → at_indices (services ++ more) (seq 0 n) = take n services.
Proof.
  induction n as [|n IH]; intros Hn; [done|].
  rewrite seq_S, at_indices_app, IH by lia. simpl.
  destruct (lookup_lt_is_Some_2 services n) as [s Hs]; [lia|].
  rewrite lookup_app_l, Hs by lia. by rewrite (take_S_r _ _ s).
Qed.

Lemma at_indices_seq services : at_indices services (seq 0 (length services)) = services.
Proof.
  rewrite <- (app_nil_r services) at 1. rewrite at_indices_seq_prefix by done.
  by rewrite firstn_all.
Qed.

Lemma at_indices_lookup services l p :
  (∀ i, i ∈ l → i < length services) →
  at_indices services l !! p = l !! p ≫= (services !!.).
Proof.
  revert p. induction l as [|i l IH]; intros p Hb; [done|].
  destruct (lookup_lt_is_Some_2 services i) as [s Hs]; [apply Hb; left|].
  unfold at_indices. cbn [omap list_omap]. rewrite Hs.
  destruct p as [|p]; simpl; [by rewrite Hs|].
  apply IH. intros; apply Hb; by right.
Qed.

(** A topological list holds the dependencies of its members. *)
Lemma topological_closed services l a b :
  topological services l → b ∈ l → a ∈ batch_deps services b → a ∈ l.
Proof.
  induction 1 as [|l i Ht IH Hi]; [by intros ?%elem_of_nil|].
  intros [Hb| ->%list_elem_of_singleton]%elem_of_app Ha; apply elem_of_app; left; auto.
Qed.

Lemma topological_before services l p q a b :
  topological services l → NoDup l → l !! p = Some a → l !! q = Some b →
  a ∈ batch_deps services b → p < q.
Proof.
  intros Ht. revert p q. induction Ht as [|l i Ht IH Hi]; intros p q Hnd Hp Hq Ha; [done|].
  apply NoDup_app in Hnd as (Hnd & Hdis & _).
  assert (i ∉ l) as Hil by (intros Hin; eapply Hdis; [done|left]).
  apply lookup_app_Some in Hq as [Hq|[Hlq Hq]]; apply lookup_app_Some in Hp as [Hp|[Hlp Hp]].
  - eapply IH; eauto.
  - apply list_lookup_singleton_Some in Hp as [_ <-]. exfalso. apply Hil.
    eapply topological_closed; [done| |done]. by eapply list_elem_of_lookup_2.
  - apply lookup_lt_Some in Hp. lia.
  - apply list_lookup_singleton_Some in Hp as [_ <-].
    apply list_lookup_singleton_Some in Hq as [_ <-]. exfalso. by apply Hil, Hi.
Qed.

(** What the depth-first order comes to, whatever the graph. *)
Lemma sortByDependency_indices r services :
  ∃ idxs, sortByDependency services = at_indices services idxs ∧
    idxs ≡ₚ seq 0 (length services) ∧
    ((∀ a b, b ∈ batch_deps services a → r b < r a) → topological services idxs).
Proof.
  unfold sortByDependency. case_bool_decide as Hlen.
  - exists (seq 0 (length services)). split_and!; [|done|].
    + by rewrite at_indices_seq.
    + intros Hr. destruct services as [|s [|? ?]]; simpl in *; [constructor| |lia].
      apply (topological_snoc _ []); [constructor|]. intros j Hj.
      pose proof (batch_deps_bound _ _ _ Hj). simpl in *.
      assert (j = 0) as -> by lia. apply Hr in Hj. lia.
  - destruct (place_all services r (seq 0 (length services)) ∅ [] [])
      as (new & seen & -> & Hp & Hin & Ht).
    + intros i Hi%elem_of_seq. lia.
    + split; [set_solver|constructor|]. intros i Hi. by apply elem_of_nil in Hi.
    + exists new. simpl. split_and!; [done| |].
      * apply NoDup_Permutation; [|apply NoDup_seq|].
        { pose proof (placed_nodup _ _ _ _ Hp) as Hnd. by rewrite app_nil_r in Hnd. }
        intros i. split; [|apply Hin]. intros Hi. apply elem_of_seq.
        pose proof (placed_bound _ _ _ _ Hp i). set_solver by lia.
      * intros Hr. apply Ht; [done|constructor].
Qed.

Lemma batch_deps_service services i j :
  j ∈ batch_deps services i →
  ∃ a b d, services !! j = Some a ∧ services !! i = Some b ∧
           d ∈ svc_dependsOn b ∧ dep_key d = svc_key a.
Proof.
  unfold batch_deps. destruct (services !! i) as [b|]; [|by intros ?%elem_of_nil].
  intros (d & Hd & Hj)%list_elem_of_omap. unfold serviceIdx in Hj.
  apply index_by_Some in Hj as ([j' a] & Hin & Hk & <-).
  apply elem_of_lookup_imap in Hin as (? & ? & ? & ?). simplify_eq/=. eauto 7.
Qed.

(** Every service comes after the ones of the list it depends on. *)
Definition dep_ordered (l : list Service) : Prop :=
  ∀ i j a b, l !! i = Some a → l !! j = Some b → svc_key a ∈ dep_key <$> svc_dependsOn b → i < j.

Lemma sortByDependency_perm services : sortByDependency services ≡ₚ services.
Proof.
  destruct (sortByDependency_indices (λ _, 0) services) as (idxs & -> & Hp & _).
  unfold at_indices. rewrite Hp. apply reflexive_eq, at_indices_seq.
Qed.

Lemma sortByDependency_ordered services :
  NoDup (svc_key <$> services) → acyclic_deps services → dep_ordered (sortByDependency services).
Proof.
  intros Hnd (rk & Hrk).
  set (r i := match services !! i with Some s => rk (svc_key s) | None => 0 end).
  destruct (sortByDependency_indices r services) as (idxs & -> & Hp & Ht).
  assert (Hb : ∀ i, i ∈ idxs → i < length services).
  { intros i. rewrite Hp, elem_of_seq. lia. }
  intros i j a b. rewrite !at_indices_lookup by done.
  intros (x & Hx & Ha)%bind_Some (y & Hy & Hsb)%bind_Some Hd.
  eapply (topological_before services idxs); try done.
  - apply Ht. intros u v (sa & sb & d & Hsa & Hsb' & Hin & Hk)%batch_deps_service.
    unfold r. rewrite Hsa, Hsb'. apply Hrk.
    + exists sb. split_and!; [by eapply list_elem_of_lookup_2|done|].
      rewrite <- Hk. by apply list_elem_of_fmap_2.
    + exists sa. split; [by eapply list_elem_of_lookup_2|done].
  - rewrite Hp. apply NoDup_seq.
  - unfold batch_deps. rewrite Hsb. apply list_elem_of_omap.
    apply list_elem_of_fmap in Hd as (d & Hk & Hd). exists d. split; [done|].
    rewrite <- Hk. destruct (serviceIdx_lookup services a Hnd) as (z & Hz & Hz').
    { by eapply list_elem_of_lookup_2. }
    rewrite Hz. f_equal. eapply (NoDup_lookup (svc_key <$> services)); [done| |];
      rewrite list_lookup_fmap; [by rewrite Hz'|by rewrite Ha].
Qed.

Section stable.
Variable services : list Service.
Hypothesis deps_earlier : ∀ i j, j ∈ batch_deps services i → j < i.

Lemma place_next i svc ordered :
  services !! i = Some svc →
  place services (serviceIdx services) (S (length services)) i (list_to_set (seq 0 i), ordered)
  = (list_to_set (seq 0 (S i)), ordered ++ [svc]).
Proof.
  intros Hs. cbn [place]. rewrite bool_decide_eq_false_2; cbn [fst]; last first.
  { rewrite elem_of_list_to_set, elem_of_seq. lia. }
  rewrite Hs. cbn zeta.
  assert (∀ ds, (∀ d, d ∈ ds → d ∈ svc_dependsOn svc) →
    foldl (λ st dep, match serviceIdx services !! dep_key dep with
      | Some j => place services (serviceIdx services) (length services) j st | None => st end)
      ({[i]} ∪ list_to_set (seq 0 i), ordered) ds = ({[i]} ∪ list_to_set (seq 0 i), ordered)) as Hfold.
  { induction ds as [|d ds IH]; intros Hds; [done|]. cbn [foldl].
    etrans; [|apply IH; intros; apply Hds; by right]. f_equal.
    destruct (serviceIdx services !! dep_key d) as [j|] eqn:Hj; [|done].
    assert (j < i) as Hlt.
    { apply deps_earlier. unfold batch_deps. rewrite Hs. apply list_elem_of_omap.
      exists d. split; [|done]. apply Hds. left. }
    destruct (length services); [done|]. cbn [place].
    rewrite bool_decide_eq_true_2; [done|]. simpl.
    rewrite elem_of_union, elem_of_list_to_set, elem_of_seq. right. lia. }
  rewrite Hfold by done. cbn [fst snd]. f_equal.
  rewrite seq_S, list_to_set_app_L. cbn [list_to_set plus]. set_solver.
Qed.

Lemma sortByDependency_id : sortByDependency services = services.
Proof.
  unfold sortByDependency. case_bool_decide; [done|]. cbn zeta.
  assert (∀ n, n ≤ length services →
    foldl (λ st i, place services (serviceIdx services) (S (length services)) i st) (∅, []) (seq 0 n)
    = (list_to_set (seq 0 n), take n services)) as Hfold.
  { induction n as [|n IH]; intros Hn; [done|].
    destruct (lookup_lt_is_Some_2 services n) as [s Hs]; [lia|].
    rewrite seq_S at 1. rewrite foldl_app, IH by lia. cbn [foldl plus].
    rewrite (place_next n s) by done. by rewrite (take_S_r _ _ s). }
  rewrite Hfold by done. simpl. apply firstn_all.
Qed.
End stable.

(** ** Properties *)

(** The dependency order is a rearrangement of the services given; when no
    dependency cycle runs through them every service comes after those it
    depends on, and services already listed that way are left as they are. *)
Lemma sortByDependency_correct services :
  NoDup (svc_key <$> services) →
  sortByDependency services ≡ₚ services ∧
  (acyclic_deps services → dep_ordered (sortByDependency services)) ∧
  (dep_ordered services → sortByDependency services = services).
Proof.
  intros Hnd. split_and!; [apply sortByDependency_perm|by apply sortByDependency_ordered|].
  intros Hord. apply sortByDependency_id. intros i j Hj.
  apply batch_deps_service in Hj as (a & b & d & Ha & Hb & Hd & Hk).
  eapply Hord; try done. rewrite <- Hk. by apply list_elem_of_fmap_2.
Qed.

Definition unsorted_example : list Service :=
  [simple_service "web" "web-1" "1" ["db"; "cache"]; simple_service "cache" "cache-1" "1" ["db"];
   simple_service "log" "log-1" "1" []; simple_service "db" "db-1" "1" []].

Lemma sortByDependency_correct_witness :
  svc_name <$> sortByDependency unsorted_example = ["db"; "cache"; "web"; "log"] ∧
  sortByDependency unsorted_example ≡ₚ unsorted_example.
Proof.
  split; [vm_compute; reflexivity|].
  apply sortByDependency_correct. apply (bool_decide_unpack _). vm_compute. exact I.
Defined.

(** ** The merged list *)

Lemma key_leb_total a b : key_leb a b = true ∨ key_leb b a = true.
Proof.
  unfold key_leb. repeat case_bool_decide; try congruence; apply string_leb_total.
Qed.
Lemma key_leb_trans a b c : key_leb a b = true → key_leb b c = true → key_leb a c = true.
Proof.
  unfold key_leb.
  destruct (decide (key_ns a = key_ns b)) as [Hab|Hab], (decide (key_ns b = key_ns c)) as [Hbc|Hbc];
    rewrite ?(bool_decide_eq_true_2 _ Hab), ?(bool_decide_eq_false_2 _ Hab),
      ?(bool_decide_eq_true_2 _ Hbc), ?(bool_decide_eq_false_2 _ Hbc).
  - rewrite bool_decide_eq_true_2 by congruence. apply string_leb_trans.
  - rewrite bool_decide_eq_false_2 by congruence. by rewrite Hab.
  - rewrite bool_decide_eq_false_2 by congruence. by rewrite Hbc.
  - intros H1 H2. pose proof (string_leb_trans _ _ _ H1 H2) as H3.
    case_bool_decide as Hac; [|done].
    rewrite <- Hac in H2. pose proof (string_leb_antisym _ _ H1 H2). congruence.
Qed.
Lemma key_leb_antisym a b : key_leb a b = true → key_leb b a = true → a = b.
Proof.
  destruct a as [na a], b as [nb b]. unfold key_leb. simpl.
  repeat case_bool_decide; try congruence; intros H1 H2;
    pose proof (string_leb_antisym _ _ H1 H2); congruence.
Qed.
#[export] Hint Resolve key_leb_total key_leb_trans key_leb_antisym : kcm.

(** Listing the desired services in another order changes no rank. *)
Lemma isort_svc_perm l k :
  NoDup (svc_key <$> l) → l ≡ₚ k → isort svc_leb l = isort svc_leb k.
Proof.
  intros Hnd Hp. apply isort_unique; [| | |done]; unfold svc_leb; eauto with kcm.
  intros a b Ha Hb H1 H2. eapply (NoDup_fmap_eq svc_key); eauto with kcm.
Qed.

Lemma rank_leb_total (f : ServiceWithValues → nat) a b : Nat.leb (f a) (f b) = true ∨ Nat.leb (f b) (f a) = true.
Proof. rewrite !Nat.leb_le. lia. Qed.
Lemma rank_leb_trans (f : ServiceWithValues → nat) a b c :
  Nat.leb (f a) (f b) = true → Nat.leb (f b) (f c) = true → Nat.leb (f a) (f c) = true.
Proof. rewrite !Nat.leb_le. lia. Qed.

Lemma BuildServicesList_perm stored filtered desired :
  BuildServicesList stored filtered desired ≡ₚ filtered ++ locked_services stored filtered desired.
Proof. apply isort_perm. Qed.

Lemma locked_services_elem stored filtered desired s :
  s ∈ locked_services stored filtered desired ↔
  s ∈ stored ∧ sv_key s ∈ svc_key <$> desired ∧ sv_key s ∉ sv_key <$> filtered.
Proof.
  unfold locked_services.
  rewrite filterb_elem_of, andb_true_iff, negb_true_iff, bool_decide_eq_true, bool_decide_eq_false.
  by rewrite !elem_of_list_to_set.
Qed.

Lemma BuildServicesList_elem stored filtered desired s :
  s ∈ BuildServicesList stored filtered desired ↔
  s ∈ filtered ∨
  (s ∈ stored ∧ sv_key s ∈ svc_key <$> desired ∧ sv_key s ∉ sv_key <$> filtered).
Proof. by rewrite BuildServicesList_perm, elem_of_app, locked_services_elem. Qed.

(** The merged list holds the services let through, and of the stored ones,
    unchanged, exactly those still desired that were not let through; a stored
    service the owner removed is dropped, and nothing else appears. *)
Lemma BuildServicesList_content stored filtered desired s :
  s ∈ BuildServicesList stored filtered desired ↔
  s ∈ filtered ∨
  (s ∈ stored ∧ sv_key s ∈ svc_key <$> desired ∧ sv_key s ∉ sv_key <$> filtered).
Proof. apply BuildServicesList_elem. Qed.

Lemma BuildServicesList_sorted stored filtered desired :
  StronglySorted (Rle (λ a b, Nat.leb (rank_of (ranks desired) (sv_key a))
                                      (rank_of (ranks desired) (sv_key b))))
    (BuildServicesList stored filtered desired).
Proof. apply isort_sorted; [apply rank_leb_total|apply rank_leb_trans]. Qed.

Lemma sorted_desired_perm desired : sortByDependency (isort svc_leb desired) ≡ₚ desired.
Proof. by rewrite sortByDependency_perm, isort_perm. Qed.

Lemma NoDup_keys_perm (l k : list Service) :
  l ≡ₚ k → NoDup (svc_key <$> k) → NoDup (svc_key <$> l).
Proof. by intros ->. Qed.

Lemma depends_on_perm l k a b : l ≡ₚ k → depends_on l a b → depends_on k a b.
Proof. intros Hp (svc & Hin & ?). exists svc. by rewrite <- Hp. Qed.

Lemma acyclic_deps_perm l k : l ≡ₚ k → acyclic_deps l → acyclic_deps k.
Proof.
  intros Hp (r & Hr). exists r. intros a b Hd (s & Hs & Hk). apply Hr.
  - by eapply depends_on_perm.
  - exists s. by rewrite Hp.
Qed.

(** A dependency ranks strictly before its dependents. *)
Lemma ranks_depends_on desired k k' :
  NoDup (svc_key <$> desired) → acyclic_deps desired →
  depends_on desired k k' → k' ∈ svc_key <$> desired →
  rank_of (ranks desired) k' < rank_of (ranks desired) k.
Proof.
  intros Hnd Hac (b & Hb & <- & Hd) (a & -> & Ha)%list_elem_of_fmap.
  set (l := sortByDependency (isort svc_leb desired)).
  assert (Hl : l ≡ₚ desired) by apply sorted_desired_perm.
  assert (Hndl : NoDup (svc_key <$> l)) by by eapply NoDup_keys_perm.
  assert (dep_ordered l) as Hord.
  { apply sortByDependency_ordered.
    - eapply NoDup_keys_perm; [apply isort_perm|done].
    - eapply acyclic_deps_perm; [symmetry; apply isort_perm|done]. }
  rewrite <- Hl in Ha, Hb.
  destruct (serviceIdx_lookup l a Hndl Ha) as (i & Hi & Hia).
  destruct (serviceIdx_lookup l b Hndl Hb) as (j & Hj & Hjb).
  unfold rank_of, ranks. fold l. rewrite Hi, Hj. simpl. by eapply Hord.
Qed.

Lemma dependency_ordered stored filtered desired i j a b :
  NoDup (svc_key <$> desired) → acyclic_deps desired →
  (∀ s, s ∈ filtered → sv_key s ∈ svc_key <$> desired) →
  BuildServicesList stored filtered desired !! i = Some a →
  BuildServicesList stored filtered desired !! j = Some b →
  depends_on desired (sv_key b) (sv_key a) → i < j.
Proof.
  intros Hnd Hac Hf Ha Hb Hd.
  assert (sv_key a ∈ svc_key <$> desired) as Hin.
  { apply list_elem_of_lookup_2 in Ha. rewrite BuildServicesList_elem in Ha. naive_solver. }
  pose proof (ranks_depends_on _ _ _ Hnd Hac Hd Hin) as Hlt.
  destruct (decide (i < j)) as [|Hge]; [done|].
  destruct (decide (i = j)) as [->|Hne].
  { simplify_eq. lia. }
  pose proof (strongly_sorted_lt _ _ j i b a (BuildServicesList_sorted stored filtered desired)
    ltac:(lia) Hb Ha) as Hle.
  unfold Rle in Hle. apply Nat.leb_le in Hle. lia.
Qed.

(** C4: in the merged list a service, locked or not, comes after every listed
    service it depends on, unless a dependency cycle runs through the desired
    services. *)
Theorem BuildServicesList_dependency_order stored filtered desired i j a b :
  NoDup (svc_key <$> desired) → acyclic_deps desired →
  (∀ s, s ∈ filtered → sv_key s ∈ svc_key <$> desired) →
  BuildServicesList stored filtered desired !! i = Some a →
  BuildServicesList stored filtered desired !! j = Some b →
  depends_on desired (sv_key b) (sv_key a) → i < j.
Proof. apply dependency_ordered. Qed.

(** The merged list does not depend on the order in which the owner lists
    the desired services, so reordering them rewrites no spec. *)
Lemma BuildServicesList_listing_irrelevant stored filtered desired desired' :
  NoDup (svc_key <$> desired) → desired ≡ₚ desired' →
  BuildServicesList stored filtered desired = BuildServicesList stored filtered desired'.
Proof.
  intros Hnd Hp. unfold BuildServicesList, ranks.
  rewrite (isort_svc_perm _ _ Hnd Hp). f_equal. f_equal.
  apply filterb_ext. intros s _. f_equal. apply bool_decide_ext.
  by rewrite !elem_of_list_to_set, Hp.
Qed.

Definition merge_stored : list ServiceWithValues :=
  [simple_stored "web" "web-1" "1"; simple_stored "old" "old-1" "1"; simple_stored "cache" "cache-1" "1"].
Definition merge_filtered : list ServiceWithValues := [simple_stored "db" "db-2" "2"].

Lemma unsorted_example_acyclic : acyclic_deps unsorted_example.
Proof.
  exists (λ k, if bool_decide (key_name k = "db") then 0
               else if bool_decide (key_name k = "cache") then 1 else 2).
  intros k k' (s & Hs & <- & Hd) _.
  repeat (apply elem_of_cons in Hs as [->|Hs];
    [vm_compute in Hd |- *; set_unfold in Hd; destruct_or?; simplify_eq/=; try done; lia|]);
  by apply elem_of_nil in Hs.
Qed.

Lemma BuildServicesList_dependency_order_witness :
  sv_name <$> BuildServicesList merge_stored merge_filtered unsorted_example = ["db"; "cache"; "web"] ∧
  1 < 2.
Proof.
  split; [vm_compute; reflexivity|].
  apply (BuildServicesList_dependency_order merge_stored merge_filtered unsorted_example 1 2
    (simple_stored "cache" "cache-1" "1") (simple_stored "web" "web-1" "1")).
  - apply (bool_decide_unpack _). vm_compute. exact I.
  - exact unsorted_example_acyclic.
  - intros s ->%list_elem_of_singleton. apply (bool_decide_unpack _). vm_compute. exact I.
  - vm_compute. reflexivity.
  - vm_compute. reflexivity.
  - exists (simple_service "web" "web-1" "1" ["db"; "cache"]).
    split_and!; [left|reflexivity|apply (bool_decide_unpack _); vm_compute; exact I].
Defined.

Lemma BuildServicesList_listing_irrelevant_witness :
  BuildServicesList merge_stored merge_filtered unsorted_example =
  BuildServicesList merge_stored merge_filtered (reverse unsorted_example).
Proof.
  apply BuildServicesList_listing_irrelevant.
  - apply (bool_decide_unpack _). vm_compute. exact I.
  - symmetry. apply reverse_Permutation.
Defined.

(** Services with no dependency between them may still change places: [db] moves
    ahead of [log] because [web], listed before both, needs it. *)
Example sortByDependency_moves_unrelated :
  svc_name <$> sortByDependency
    [simple_service "web" "web-1" "1" ["db"]; simple_service "log" "log-1" "1" [];
     simple_service "db" "db-1" "1" []] = ["db"; "web"; "log"].
Proof. vm_compute. reflexivity. Qed.
