(* ===== verification/ServiceUpgrades.v ===== *)
(** * Upgrade steps of services ([src/internal/serviceset/util.go]).

    Which version of each eligible service goes into the spec: the upgrade
    routes of its template chain, the next hop on them, the version in flight
    left alone, and the target list [ServicesToDeploy] assembles. *)

From S2P Require Import Prelude Api TemplateChain ServiceBasics.

(** ** Chains and routes of the stored services *)

Definition chain_map (desiredServices : list Service) : gmap ObjectKey string :=
  index_by (λ s, mkKey (effectiveNamespace (svc_namespace s)) (svc_name s)) svc_templateChain
    desiredServices.

(** [kcmv1.Service] with only these fields set. *)
Definition service_ref (name namespace template chain : string) : Service :=
  mkService None "" name namespace template chain "" "" [] [] false.

Definition ServicesWithDesiredChains (desiredServices : list Service)
    (deployedServices : list ServiceWithValues) : list Service :=
  let chainMap := chain_map desiredServices in
  (λ svc, service_ref (sv_name svc) (effectiveNamespace (sv_namespace svc)) (sv_template svc)
     (get_string chainMap (mkKey (effectiveNamespace (sv_namespace svc)) (sv_name svc))))
    <$> deployedServices.

Section upgrade_paths.
Context `{!MapRange string} {C : Type} `{!Getter C ServiceTemplateChain} (c : C).

(** What one service contributes: its routes, or an error. *)
Definition service_upgrade_paths (namespace : string) (svc : Service)
  : result ServiceUpgradePaths :=
  let paths := mkServiceUpgradePaths (svc_name svc) (effectiveNamespace (svc_namespace svc))
                 (svc_template svc) in
  if bool_decide (svc_templateChain svc = "") then
    let version := if bool_decide (svc_version svc = "") then svc_template svc
                   else svc_version svc in
    Ok (paths [mkUpgradePath [] [mkUpgrade (svc_template svc) version]])
  else
    let key := mkKey namespace (svc_templateChain svc) in
    chain ← wrap_err ("failed to get ServiceTemplateChain " +:+ key_string key +:+
                      " to fetch upgrade paths: ") (c_get c key);
    upgradePaths ← wrap_err ("failed to get upgrade paths for ServiceTemplate " +:+
                             svc_template svc +:+ ": ")
                     (UpgradePaths (tc_spec chain) (svc_template svc));
    Ok (paths upgradePaths).

(** The loop goes on past an error: the routes found are returned along with
    every error joined. *)
Definition ServicesUpgradePaths (services : list Service) (namespace : string)
  : list ServiceUpgradePaths * option gerror :=
  foldl (λ acc svc,
    match service_upgrade_paths namespace svc with
    | Ok p => (acc.1 ++ [p], acc.2)
    | Err e => (acc.1, join_err acc.2 e)
    end) ([], None) services.
End upgrade_paths.

(** ** The next hop *)

Definition named (n : string) (u : AvailableUpgrade) : bool := bool_decide (au_name u = n).

(** Hops up to and including the one the service already sits at are behind us. *)
Definition next_index (currentTemplate : string) (versions : list AvailableUpgrade) (target : nat) : nat :=
  match IndexFunc (named currentTemplate) (take target versions) with
  | Some at_ => S at_
  | None => 0
  end.

Definition route_step (currentTemplate desiredTemplate : string)
    (acc : AvailableUpgrade * nat) (route : UpgradePath) : AvailableUpgrade * nat :=
  match IndexFunc (named desiredTemplate) (up_versions route) with
  | None => acc
  | Some target =>
      if bool_decide (acc.2 < S target) then
        match up_versions route !! next_index currentTemplate (up_versions route) target with
        | Some hop => (hop, S target)
        | None => acc
        end
      else acc
  end.

(** The two guards under which a computed path is positioned against the service. *)
Definition path_applies (name namespace currentTemplate : string) (path : ServiceUpgradePaths) : bool :=
  bool_decide (sup_name path = name) &&
  bool_decide (effectiveNamespace (sup_namespace path) = effectiveNamespace namespace) &&
  negb (negb (bool_decide (sup_template path = "")) && negb (bool_decide (currentTemplate = ""))
        && negb (bool_decide (sup_template path = currentTemplate))).

Definition zero_upgrade : AvailableUpgrade := mkUpgrade "" "".

Definition nextUpgradeStep (upgradePaths : list ServiceUpgradePaths)
    (name namespace currentTemplate desiredTemplate : string) : AvailableUpgrade :=
  (foldl (λ acc path,
     if path_applies name namespace currentTemplate path
     then foldl (route_step currentTemplate desiredTemplate) acc (sup_availableUpgrades path)
     else acc) (zero_upgrade, 0) upgradePaths).1.

(** Whether the routes allow the service to reach the desired template at all:
    decided by the first path computed for the service. *)
Fixpoint desiredTemplateInUpgradePaths (upgradePaths : list ServiceUpgradePaths)
    (svc : ServiceWithValues) (desiredTemplate desiredVersion : string) : bool :=
  match upgradePaths with
  | [] => false
  | path :: rest =>
      if negb (bool_decide (sup_name path = sv_name svc)) ||
         negb (bool_decide (sup_namespace path = effectiveNamespace (sv_namespace svc)))
      then desiredTemplateInUpgradePaths rest svc desiredTemplate desiredVersion
      else if negb (bool_decide (sup_template path = sv_template svc)) then false
      else existsb (λ route, existsb (λ u, bool_decide (au_name u = desiredTemplate)
                                           || bool_decide (au_version u = desiredVersion))
                               (up_versions route)) (sup_availableUpgrades path)
  end.

(** The semantic-version library: parsing, and the order on parsed versions. *)
Class Semver := {
  semver : Type;
  NewVersion : string → option semver;
  NewVersion_error : string → gerror;
  LessThan : semver → semver → bool
}.

Definition isDowngrade `{Semver} (desiredVersion currentVersion : string) : bool :=
  match NewVersion desiredVersion with
  | None => false
  | Some desired =>
      match NewVersion currentVersion with
      | None => false
      | Some current => LessThan desired current
      end
  end.

(** ** The target of every eligible service *)

Definition makeService (s : Service) (version template : string) : ServiceWithValues :=
  mkServiceWithValues (svc_helmOptions s) version (svc_helmAction s) (svc_name s)
    (effectiveNamespace (svc_namespace s)) template (svc_values s) (svc_valuesFrom s).

Definition appendIfNotPresent (services : list ServiceWithValues) (s : Service)
    (minimumUpgrade : AvailableUpgrade) : list ServiceWithValues :=
  let exists_ := existsb (λ c, bool_decide (sv_name c = svc_name s) &&
       bool_decide (sv_namespace c = effectiveNamespace (svc_namespace s)) &&
       bool_decide (sv_version c = au_version minimumUpgrade)) services in
  if negb exists_
  then services ++ [makeService s (au_version minimumUpgrade) (au_name minimumUpgrade)]
  else services.

Section deploy.
Context `{Semver}.
Variables (upgradePaths : list ServiceUpgradePaths) (filteredServices : list Service)
          (serviceSet : ServiceSet).

Local Abbreviation stored := (sss_services (sset_spec serviceSet)).

Definition version_or_template (s : Service) : string :=
  if bool_decide (svc_version s = "") then svc_template s else svc_version s.

Definition desiredVersions : gmap ObjectKey string := index_by svc_key version_or_template filteredServices.
Definition desiredTemplates : gmap ObjectKey string := index_by svc_key svc_template filteredServices.

(** The stored services that are also eligible. *)
Definition relevant_stored : list ServiceWithValues :=
  filterb (λ svc, bool_decide (is_Some (desiredVersions !! sv_key svc))) stored.

Definition storedTemplates : gmap ObjectKey string := index_by sv_key sv_template relevant_stored.

Definition upgrade_allowed (svc : ServiceWithValues) : bool :=
  let desiredVersion := get_string desiredVersions (sv_key svc) in
  negb (bool_decide (sv_version svc = "")) && isDowngrade desiredVersion (sv_version svc) ||
  desiredTemplateInUpgradePaths upgradePaths svc
    (get_string desiredTemplates (sv_key svc)) desiredVersion.

(** Upgradeable by default, overridden for stored services. *)
Definition upgradeAvailable (k : ObjectKey) : bool :=
  default true (index_by sv_key upgrade_allowed relevant_stored !! k).

Definition in_flight (svc : ServiceWithValues) : bool :=
  negb (bool_decide (sv_version svc = "") ||
        bool_decide (sv_version svc = get_string (DeployedVersions serviceSet) (sv_key svc))).

(** The mutable fields come from the desired spec, the version stays. *)
Definition merge_mutable (svc : ServiceWithValues) : ServiceWithValues :=
  match List.find (λ ds, bool_decide (svc_name ds = sv_name svc) &&
      bool_decide (effectiveNamespace (svc_namespace ds) = effectiveNamespace (sv_namespace svc)))
      filteredServices with
  | None => svc
  | Some ds => mkServiceWithValues (svc_helmOptions ds) (sv_version svc) (svc_helmAction ds)
                 (sv_name svc) (sv_namespace svc) (sv_template svc) (svc_values ds) (svc_valuesFrom ds)
  end.

Definition inFlightServices : gmap ObjectKey ServiceWithValues :=
  index_by sv_key merge_mutable (filterb in_flight relevant_stored).

Definition stored_at (s : Service) : bool :=
  existsb (λ svc, bool_decide (sv_name svc = svc_name s) &&
    bool_decide (effectiveNamespace (sv_namespace svc) = key_ns (svc_key s))) stored.

(** The hop to take: the desired template where no route is known, and no
    version where the hop carries only its template name. *)
Definition next_hop (s : Service) : AvailableUpgrade :=
  let key := svc_key s in
  let nextUpgrade := nextUpgradeStep upgradePaths (svc_name s) (svc_namespace s)
                       (get_string storedTemplates key) (get_string desiredTemplates key) in
  if bool_decide (au_name nextUpgrade = "")
  then mkUpgrade (get_string desiredTemplates key) (get_string desiredVersions key)
  else if bool_decide (au_version nextUpgrade = au_name nextUpgrade)
       then mkUpgrade (au_name nextUpgrade) ""
       else nextUpgrade.

(** One iteration of the final loop. *)
Definition deploy_step (services : list ServiceWithValues) (s : Service) : list ServiceWithValues :=
  let key := svc_key s in
  match inFlightServices !! key with
  | Some svc => services ++ [svc]
  | None =>
      if svc_disable s then services
      else if negb (upgradeAvailable key) then
        if stored_at s then services ++ [makeService s (svc_version s) (svc_template s)] else services
      else if bool_decide (upgradePaths = []) then
        services ++ [makeService s (get_string desiredVersions key) (get_string desiredTemplates key)]
      else appendIfNotPresent services s (next_hop s)
  end.

Definition ServicesToDeploy : list ServiceWithValues := foldl deploy_step [] filteredServices.
End deploy.

(** ** The hop chosen lies on a longest route *)

(** The routes positioned against the service, in order. *)
Definition candidate_routes (ups : list ServiceUpgradePaths) (name ns cur : string) : list UpgradePath :=
  path ← filterb (path_applies name ns cur) ups; sup_availableUpgrades path.

Lemma nextUpgradeStep_flat ups name ns cur des :
  nextUpgradeStep ups name ns cur des =
  (foldl (route_step cur des) (zero_upgrade, 0) (candidate_routes ups name ns cur)).1.
Proof.
  unfold nextUpgradeStep, candidate_routes. f_equal. generalize (zero_upgrade, 0).
  induction ups as [|p ups IH]; intros acc; [done|].
  cbn [foldl]. rewrite IH. unfold filterb. rewrite filter_cons.
  destruct (path_applies name ns cur p) eqn:E.
  - rewrite decide_True by done. by rewrite bind_cons, foldl_app.
  - by rewrite decide_False by congruence.
Qed.

(** The position of the desired template on a route that reaches it. *)
Definition reaches (des : string) (route : UpgradePath) (target : nat) : Prop :=
  IndexFunc (named des) (up_versions route) = Some target.

Lemma next_index_le cur versions target : next_index cur versions target ≤ target.
Proof.
  unfold next_index. destruct (IndexFunc _ _) eqn:E; [|lia].
  apply IndexFunc_lt in E. rewrite length_take in E. lia.
Qed.

(** The index [route.Versions[next]] is within bounds. *)
Lemma next_index_bound cur des route target :
  reaches des route target → is_Some (up_versions route !! next_index cur (up_versions route) target).
Proof.
  intros Hr%IndexFunc_lt. apply lookup_lt_is_Some_2.
  pose proof (next_index_le cur (up_versions route) target). lia.
Qed.

Definition best_hop (cur des : string) (routes : list UpgradePath) (acc : AvailableUpgrade * nat) : Prop :=
  (acc = (zero_upgrade, 0) ∧ ∀ r t, r ∈ routes → ¬ reaches des r t) ∨
  ∃ route target, route ∈ routes ∧ reaches des route target ∧ acc.2 = S target ∧
    up_versions route !! next_index cur (up_versions route) target = Some acc.1 ∧
    ∀ r t, r ∈ routes → reaches des r t → t ≤ target.

Lemma route_steps_best cur des routes :
  best_hop cur des routes (foldl (route_step cur des) (zero_upgrade, 0) routes).
Proof.
  induction routes as [|x routes IH] using rev_ind.
  { left. split; [done|]. intros r t Hr. by apply elem_of_nil in Hr. }
  rewrite foldl_app. simpl. set (acc := foldl _ _ routes) in *.
  unfold route_step. destruct (IndexFunc _ _) as [target|] eqn:Ex; last first.
  { destruct IH as [[-> Hno]|(route & target & Hin & Hr & Hlen & Hhop & Hmax)].
    - left. split; [done|]. unfold reaches in *.
      intros r t [Hr| ->%list_elem_of_singleton]%elem_of_app; [by apply Hno|congruence].
    - right. exists route, target. split_and!; try done; [set_solver|].
      unfold reaches in *.
      intros r t [Hr'| ->%list_elem_of_singleton]%elem_of_app Ht; [by eapply Hmax|congruence]. }
  destruct (next_index_bound cur des x target Ex) as [hop Hhop].
  case_bool_decide as Hlt.
  - rewrite Hhop. right. exists x, target. split_and!; try done; [set_solver|].
    unfold reaches in *.
    intros r t [Hr| ->%list_elem_of_singleton]%elem_of_app Ht; [|by simplify_eq].
    destruct IH as [[_ Hno]|(route & target' & _ & _ & Hlen & _ & Hmax)]; [by destruct (Hno r t)|].
    specialize (Hmax r t Hr Ht). lia.
  - right. destruct IH as [[Heq _]|(route & target' & Hin & Hr & Hlen & Hhop' & Hmax)].
    { rewrite Heq in Hlt. simpl in Hlt. lia. }
    exists route, target'. split_and!; try done; [set_solver|].
    unfold reaches in *.
    intros r t [Hr'| ->%list_elem_of_singleton]%elem_of_app Ht; [by eapply Hmax|].
    simplify_eq. lia.
Qed.

Lemma next_step_longest ups name ns cur des :
  let routes := candidate_routes ups name ns cur in
  let hop := nextUpgradeStep ups name ns cur des in
  (hop = zero_upgrade ∧ ∀ r t, r ∈ routes → ¬ reaches des r t) ∨
  ∃ route target, route ∈ routes ∧ reaches des route target ∧
    (∀ r t, r ∈ routes → reaches des r t → t ≤ target) ∧
    next_index cur (up_versions route) target ≤ target ∧
    up_versions route !! next_index cur (up_versions route) target = Some hop.
Proof.
  intros routes hop. unfold hop. rewrite nextUpgradeStep_flat.
  destruct (route_steps_best cur des routes) as [[Heq Hno]|(r & t & ? & ? & ? & ? & ?)].
  - left. unfold routes in Heq. by rewrite Heq.
  - right. exists r, t. split_and!; try done. apply next_index_le.
Qed.

(** The next hop is nothing when no route positioned at the service's
    template reaches the desired one; otherwise it is taken from a route that
    reaches the desired template in as many hops as any, at the first position
    past the current template and no further than the desired one, so the index
    into the route is in bounds. *)
Lemma nextUpgradeStep_longest ups name ns cur des :
  let routes := candidate_routes ups name ns cur in
  let hop := nextUpgradeStep ups name ns cur des in
  (hop = zero_upgrade ∧ ∀ r t, r ∈ routes → ¬ reaches des r t) ∨
  ∃ route target, route ∈ routes ∧ reaches des route target ∧
    (∀ r t, r ∈ routes → reaches des r t → t ≤ target) ∧
    next_index cur (up_versions route) target ≤ target ∧
    up_versions route !! next_index cur (up_versions route) target = Some hop.
Proof. apply next_step_longest. Qed.

(** ** Following the hops reaches the desired template *)

Lemma last_name_cons u p : p ≠ [] → last_name (u :: p) = last_name p.
Proof. by destruct p. Qed.

Section progress.
Context `{!MapRange string}.
Variables (chain : TemplateChainSpec) (name ns des : string).
Local Abbreviation tm := (template_map chain).

(** The hop the chain prescribes for a service sitting at [cur], its routes
    computed for that template as every reconcile does. *)
Definition chain_hop (cur : string) : AvailableUpgrade :=
  match UpgradePaths chain cur with
  | Ok paths => nextUpgradeStep [mkServiceUpgradePaths name ns cur paths] name ns cur des
  | Err _ => zero_upgrade
  end.

(** [n] reconciles, each completing the hop prescribed. *)
Fixpoint follow (n : nat) (cur : string) : string :=
  match n with
  | 0 => cur
  | S n => follow n (au_name (chain_hop cur))
  end.

Definition longest_route (cur : string) (n : nat) : Prop :=
  (∃ p, chain_route tm cur p ∧ last_name p = Some des ∧ length p = n) ∧
  ∀ p, chain_route tm cur p → last_name p = Some des → length p ≤ n.

(** The chain allows the upgrade from [a] to [b]. *)
Definition upgrade_edge (a b : string) : Prop :=
  ∃ t u, tm !! a = Some t ∧ u ∈ spt_availableUpgrades t ∧ au_name u = b.

Section ranking.
Variable rank : string → nat.
Hypothesis Hrank : ranked tm rank.

Lemma ranked_route_above c p u : chain_route tm c p → u ∈ p → rank c < rank (au_name u).
Proof.
  induction 1 as [c t v Ht Hv|c t v p Ht Hv Hr IH].
  - intros ->%list_elem_of_singleton. by eapply Hrank.
  - pose proof (Hrank _ _ _ Ht Hv). intros [->|Hu]%elem_of_cons; [done|].
    specialize (IH Hu). lia.
Qed.

Lemma ranked_route_simple c p : chain_route tm c p → simple_route tm c p.
Proof.
  intros Hr. split; [done|].
  induction Hr as [c t u Ht Hu|c t u p Ht Hu Hr [IHs IHp]]; simpl.
  - split; apply NoDup_singleton.
  - pose proof (Hrank _ _ _ Ht Hu) as Hlt. split; constructor; try done.
    + intros [->|(v & Hv & ->)]%sources_elem; [lia|].
      pose proof (ranked_route_above _ _ _ Hr Hv). lia.
    + intros Hin. pose proof (ranked_route_above _ _ _ Hr Hin). lia.
Qed.

Lemma ranked_route_increasing c p i j u v :
  chain_route tm c p → i < j → p !! i = Some u → p !! j = Some v → rank (au_name u) < rank (au_name v).
Proof.
  intros Hr. revert i j. induction Hr as [c t w Ht Hw|c t w p Ht Hw Hr IH]; intros i j Hij Hi Hj.
  - destruct j; [lia|done].
  - destruct j as [|j]; [lia|]. destruct i as [|i]; simpl in *.
    + simplify_eq. eapply ranked_route_above; [done|]. by eapply list_elem_of_lookup_2.
    + eapply (IH i j); try done. lia.
Qed.

Lemma route_length_bound c p : chain_route tm c p → length p ≤ size tm.
Proof.
  intros Hr. rewrite <- (sources_length c p), <- size_dom.
  destruct (ranked_route_simple _ _ Hr) as (_ & Hnd & _).
  rewrite <- (size_list_to_set (C:=gset string) (sources c p)) by done.
  apply subseteq_size. intros x Hx%elem_of_list_to_set. by eapply sources_dom.
Qed.

(** The desired template is reached at the end of the first prefix naming it. *)
Lemma reaches_prefix c q up target :
  chain_route tm c q → up_versions up = default_version <$> q → reaches des up target →
  chain_route tm c (take (S target) q) ∧ last_name (take (S target) q) = Some des ∧
  length (take (S target) q) = S target.
Proof.
  intros Hr Hup Ht. unfold reaches in Ht. rewrite Hup in Ht.
  pose proof (IndexFunc_lt _ _ _ Ht) as Hlt. rewrite length_fmap in Hlt.
  apply IndexFunc_Some in Ht as [(x & Hx & Hn) _].
  rewrite list_lookup_fmap in Hx. apply fmap_Some in Hx as (y & Hy & ->).
  split_and!.
  - apply chain_route_take; [done|lia].
  - rewrite (take_S_r _ _ y) by done. unfold last_name. rewrite last_snoc. simpl.
    unfold named in Hn. rewrite default_version_name in Hn. by bool_simpl; subst.
  - rewrite length_take. lia.
Qed.

Lemma last_named_reaches (vs : list AvailableUpgrade) up :
  up_versions up = vs → last_name vs = Some des → ∃ t, reaches des up t.
Proof.
  intros <- (u & Hu & Hn)%last_name_Some. unfold reaches.
  destruct (IndexFunc _ _) as [t|] eqn:E; [by exists t|].
  apply last_Some in Hu as [l Hl].
  rewrite IndexFunc_None in E. specialize (E u ltac:(rewrite Hl; set_solver)).
  unfold named in E. by rewrite bool_decide_eq_true_2 in E.
Qed.

(** On an acyclic route only the last hop names its destination. *)
Lemma ranked_last_unique c q i u :
  chain_route tm c q → last_name q = Some des → q !! i = Some u → au_name u = des → S i = length q.
Proof.
  intros Hr (v & Hv & Hn)%last_name_Some Hi Hu. rewrite last_lookup in Hv.
  pose proof (lookup_lt_Some _ _ _ Hi) as Hlt.
  destruct (decide (i < pred (length q))) as [Hlt'|]; [|lia].
  pose proof (ranked_route_increasing _ _ _ _ _ _ Hr Hlt' Hi Hv). rewrite Hu, Hn in *. lia.
Qed.

Lemma longest_supported cur n : longest_route cur (S n) → ∃ paths, UpgradePaths chain cur = Ok paths.
Proof.
  intros [(p & Hp & _) _]. destruct (UpgradePaths chain cur) as [paths|e] eqn:Hup; [by exists paths|].
  exfalso. assert (cur ∉ supported_names chain) as Hn by (apply UpgradePaths_error; eauto).
  apply Hn. destruct Hp as [? t ? Ht _|? t ? ? Ht _ _];
    apply index_by_Some in Ht as (y & Hy & <- & _); by apply list_elem_of_fmap_2.
Qed.

Lemma candidate_routes_self cur paths :
  candidate_routes [mkServiceUpgradePaths name ns cur paths] name ns cur = paths.
Proof.
  unfold candidate_routes, filterb. rewrite filter_cons, decide_True.
  - simpl. by rewrite app_nil_r.
  - unfold path_applies. simpl.
    rewrite (bool_decide_eq_true_2 (name = name)), (bool_decide_eq_true_2 (cur = cur)),
      (bool_decide_eq_true_2 (effectiveNamespace ns = _)) by done.
    by destruct (bool_decide (cur = "")).
Qed.

(** Some offered route to the desired template is as long as any there is. *)
Lemma longest_offered cur n paths :
  longest_route cur (S n) → UpgradePaths chain cur = Ok paths →
  ∃ up, up ∈ paths ∧ reaches des up n.
Proof.
  intros [(p & Hp & Hlast & Hlen) Hmax] Hup.
  destruct (UpgradePaths_reach _ _ _ p des Hup) as (up & Hin & Hl);
    [by apply ranked_route_simple|done|].
  destruct (UpgradePaths_elem _ _ _ _ Hup Hin) as (q & k & -> & Hk & (Hq & _) & Hlong).
  simpl in Hl. rewrite last_name_default, Hk in Hl. injection Hl as ->.
  specialize (Hlong p (ranked_route_simple _ _ Hp) Hlast).
  specialize (Hmax q Hq Hk).
  destruct (last_named_reaches (default_version <$> q) (mkUpgradePath [] (default_version <$> q)))
    as [t Ht]; [done|by rewrite last_name_default|].
  exists (mkUpgradePath [] (default_version <$> q)). split; [done|].
  destruct (reaches_prefix cur q (mkUpgradePath [] (default_version <$> q)) t Hq eq_refl Ht) as (_ & Hpre & Hpl).
  apply last_name_Some in Hpre as (u & Hu & Hn).
  rewrite last_lookup, Hpl in Hu. simpl in Hu. rewrite lookup_take_lt in Hu by lia.
  pose proof (ranked_last_unique _ _ _ _ Hq Hk Hu Hn).
  replace n with t by lia. done.
Qed.

Lemma next_index_fresh cur q target :
  chain_route tm cur q → next_index cur (default_version <$> q) target = 0.
Proof.
  intros Hr. unfold next_index.
  destruct (IndexFunc _ _) as [i|] eqn:E; [|done]. exfalso.
  apply IndexFunc_Some in E as [(x & Hx & Hn) _].
  apply lookup_take_Some in Hx as [Hx _]. rewrite list_lookup_fmap in Hx.
  apply fmap_Some in Hx as (u & Hu & ->). unfold named in Hn.
  rewrite default_version_name in Hn. apply bool_decide_eq_true in Hn.
  apply list_elem_of_lookup_2 in Hu. pose proof (ranked_route_above _ _ _ Hr Hu) as Hlt.
  rewrite Hn in Hlt. lia.
Qed.

(** A hop is an upgrade the chain allows and shortens the longest route by one. *)
Lemma chain_hop_longest cur n :
  longest_route cur (S n) →
  upgrade_edge cur (au_name (chain_hop cur)) ∧
  (n = 0 ∧ au_name (chain_hop cur) = des ∨
   0 < n ∧ longest_route (au_name (chain_hop cur)) n).
Proof.
  intros Hlong. destruct (longest_supported _ _ Hlong) as [paths Hup].
  destruct (longest_offered _ _ _ Hlong Hup) as (up & Hin & Hreach).
  destruct Hlong as [_ Hmax]. unfold chain_hop. rewrite Hup.
  pose proof (next_step_longest [mkServiceUpgradePaths name ns cur paths] name ns cur des)
    as Hstep. cbn zeta in Hstep. rewrite candidate_routes_self in Hstep.
  destruct Hstep as [[_ Hno]|(route & target & Hrin & Hrr & Hbest & _ & Hhop)]; [by destruct (Hno up n)|].
  pose proof (Hbest _ _ Hin Hreach) as Hle.
  destruct (UpgradePaths_elem _ _ _ _ Hup Hrin) as (q & k & -> & _ & (Hq & _) & _).
  destruct (reaches_prefix cur q (mkUpgradePath [] (default_version <$> q)) target Hq eq_refl Hrr) as (Hpre & Hplast & Hplen).
  pose proof (Hmax _ Hpre Hplast). assert (target = n) as -> by lia.
  simpl in Hhop. rewrite next_index_fresh in Hhop by done.
  destruct q as [|u0 q]; [done|]. injection Hhop as <-. rewrite default_version_name.
  change (take (S n) (u0 :: q)) with (u0 :: take n q) in *.
  apply chain_route_inv in Hpre as [(t & Ht & Hu0) Hrest].
  split; [by exists t, u0|]. destruct n as [|n].
  - left. split; [done|]. by apply last_name_Some in Hplast as (? & [= <-] & ?).
  - right. split; [lia|]. rewrite length_cons in Hplen.
    set (r := take (S n) q) in *.
    destruct Hrest as [Hnil|Hrest]; [by rewrite Hnil in Hplen|]. split.
    + exists r. rewrite last_name_cons in Hplast by (by intros Hnil; rewrite Hnil in Hplen).
      split_and!; [done..|lia].
    + intros p Hp Hl. specialize (Hmax (u0 :: p)). rewrite length_cons in Hmax.
      apply le_S_n, Hmax; [by econstructor|]. rewrite last_name_cons; [done|].
      by eapply chain_route_ne.
Qed.

Lemma follow_longest n cur :
  longest_route cur (S n) →
  follow (S n) cur = des ∧ ∀ m, m < S n → upgrade_edge (follow m cur) (follow (S m) cur).
Proof.
  revert cur. induction n as [|n IH]; intros cur Hl;
    destruct (chain_hop_longest _ _ Hl) as [Hedge [[Hn Hd]|[Hn Hl']]]; try lia.
  - split; [done|]. intros m Hm. assert (m = 0) as -> by lia. done.
  - destruct (IH _ Hl') as [Hdes Hedges]. split; [done|].
    intros [|m] Hm; [done|]. apply (Hedges m). lia.
Qed.

Lemma longest_route_exists cur p :
  chain_route tm cur p → last_name p = Some des →
  ∃ n, longest_route cur (S n) ∧ length p ≤ S n ∧ S n ≤ size tm.
Proof.
  intros Hp Hlast.
  destruct (UpgradePaths chain cur) as [paths|e] eqn:Hup; last first.
  { exfalso. assert (cur ∉ supported_names chain) as Hn by (apply UpgradePaths_error; eauto).
    apply Hn. destruct Hp as [? t ? Ht _|? t ? ? Ht _ _];
      apply index_by_Some in Ht as (y & Hy & <- & _); by apply list_elem_of_fmap_2. }
  destruct (UpgradePaths_reach _ _ _ p des Hup) as (up & Hin & Hl);
    [by apply ranked_route_simple|done|].
  destruct (UpgradePaths_elem _ _ _ _ Hup Hin) as (q & k & -> & Hk & (Hq & _) & Hlong).
  simpl in Hl. rewrite last_name_default, Hk in Hl. injection Hl as ->.
  pose proof (chain_route_ne _ _ _ Hq). destruct q as [|u q]; [done|].
  exists (length q). split_and!.
  - split; [by exists (u :: q)|]. intros p' Hp' Hl'. apply Hlong; [|done].
    by apply ranked_route_simple.
  - apply Hlong; [|done]. by apply ranked_route_simple.
  - by apply (route_length_bound cur (u :: q)).
Qed.
End ranking.
End progress.

(** C3: in a chain without cycles a service that keeps completing the hop
    prescribed for it reaches the desired template, whenever some route leads
    there: after as many hops as the longest route has, never more than there
    are supported templates, each one an upgrade the chain allows and none
    skipped in favour of a shorter way. *)
Theorem upgrades_reach_desired `{!MapRange string} chain name ns cur des p :
  acyclic_chain (template_map chain) →
  chain_route (template_map chain) cur p → last_name p = Some des →
  ∃ n, follow chain name ns des n cur = des ∧
    length p ≤ n ∧ n ≤ size (template_map chain) ∧
    ∀ m, m < n → upgrade_edge chain (follow chain name ns des m cur)
                                    (follow chain name ns des (S m) cur).
Proof.
  intros [rank Hrank] Hp Hlast.
  destruct (longest_route_exists chain des rank Hrank cur p Hp Hlast) as (n & Hl & Hge & Hle).
  destruct (follow_longest chain name ns des rank Hrank n cur Hl) as [Hd He].
  by exists (S n).
Qed.

(** 1.0 may go to 1.1 and to 2.0; 1.1 to 2.0. *)
Definition chain_example : TemplateChainSpec := mkChainSpec
  [mkSupported "a-1-0" [mkUpgrade "a-2-0" ""; mkUpgrade "a-1-1" ""];
   mkSupported "a-1-1" [mkUpgrade "a-2-0" ""]; mkSupported "a-2-0" []].

Lemma chain_example_acyclic : acyclic_chain (template_map chain_example).
Proof.
  exists (λ c, if bool_decide (c = "a-1-0") then 0 else if bool_decide (c = "a-1-1") then 1 else 2).
  intros c t u Ht Hu. apply index_by_Some in Ht as (x & Hx & <- & <-).
  repeat (apply elem_of_cons in Hx as [->|Hx];
    [simpl in Hu; repeat (apply elem_of_cons in Hu as [->|Hu]; [vm_compute; lia|]);
     by apply elem_of_nil in Hu|]).
  by apply elem_of_nil in Hx.
Qed.

Lemma upgrades_reach_desired_witness :
  follow chain_example "svc" "" "a-2-0" 1 "a-1-0" = "a-1-1" ∧
  ∃ n, follow chain_example "svc" "" "a-2-0" n "a-1-0" = "a-2-0" ∧
    length [mkUpgrade "a-2-0" ""] ≤ n ∧ n ≤ size (template_map chain_example) ∧
    ∀ m, m < n → upgrade_edge chain_example (follow chain_example "svc" "" "a-2-0" m "a-1-0")
                                            (follow chain_example "svc" "" "a-2-0" (S m) "a-1-0").
Proof.
  split; [vm_compute; reflexivity|].
  apply (upgrades_reach_desired chain_example "svc" "" "a-1-0" "a-2-0" [mkUpgrade "a-2-0" ""]).
  - exact chain_example_acyclic.
  - eapply route_one; [vm_compute; reflexivity|]. left.
  - reflexivity.
Defined.

(** ** The target list, service by service *)

Section targets.
Context `{Semver}.
Variables (ups : list ServiceUpgradePaths) (filtered : list Service) (sset : ServiceSet).

(** What the list holds for one eligible service, on its own. *)
Definition target_of (s : Service) : option ServiceWithValues :=
  match inFlightServices filtered sset !! svc_key s with
  | Some svc => Some svc
  | None =>
      if svc_disable s then None
      else if negb (upgradeAvailable ups filtered sset (svc_key s)) then
        if stored_at sset s then Some (makeService s (svc_version s) (svc_template s)) else None
      else if bool_decide (ups = []) then
        Some (makeService s (version_or_template s) (svc_template s))
      else let hop := next_hop ups filtered sset s in
           Some (makeService s (au_version hop) (au_name hop))
  end.

Lemma merge_mutable_key svc : sv_key (merge_mutable filtered svc) = sv_key svc.
Proof. unfold merge_mutable. by destruct (List.find _ _). Qed.

Lemma inFlight_Some k svc :
  inFlightServices filtered sset !! k = Some svc →
  ∃ st, st ∈ sss_services (sset_spec sset) ∧ sv_key st = k ∧ in_flight sset st = true ∧
        svc = merge_mutable filtered st.
Proof.
  unfold inFlightServices. intros (st & Hst & Hk & <-)%index_by_Some.
  apply filterb_elem_of in Hst as [Hst Hf]. apply filterb_elem_of in Hst as [Hst _]. by exists st.
Qed.

Lemma makeService_key s v t : sv_key (makeService s v t) = svc_key s.
Proof.
  unfold sv_key, svc_key, ServiceKey, effectiveNamespace. simpl. unfold effectiveNamespace.
  repeat case_bool_decide; congruence.
Qed.

Lemma target_of_key s t : target_of s = Some t → sv_key t = svc_key s.
Proof.
  unfold target_of. destruct (inFlightServices filtered sset !! svc_key s) as [svc|] eqn:E.
  - intros [= <-]. apply inFlight_Some in E as (st & _ & <- & _ & ->). apply merge_mutable_key.
  - repeat (case_match; try done); intros [= <-]; apply makeService_key.
Qed.

Lemma desired_lookup s :
  NoDup (svc_key <$> filtered) → s ∈ filtered →
  get_string (desiredVersions filtered) (svc_key s) = version_or_template s ∧
  get_string (desiredTemplates filtered) (svc_key s) = svc_template s.
Proof.
  intros Hnd Hin. unfold get_string, desiredVersions, desiredTemplates.
  by rewrite !(index_by_lookup svc_key) by done.
Qed.

Lemma deploy_step_target acc s :
  NoDup (svc_key <$> filtered) → s ∈ filtered →
  (∀ t, t ∈ acc → sv_key t ≠ svc_key s) →
  deploy_step ups filtered sset acc s = acc ++ option_list (target_of s).
Proof.
  intros Hnd Hin Hacc. destruct (desired_lookup s Hnd Hin) as [Hv Ht].
  unfold deploy_step, target_of.
  destruct (inFlightServices filtered sset !! svc_key s); [done|].
  destruct (svc_disable s); simpl; [by rewrite app_nil_r|].
  destruct (negb _); [destruct (stored_at sset s); simpl; [done|by rewrite app_nil_r]|].
  case_bool_decide; simpl; [by rewrite Hv, Ht|].
  unfold appendIfNotPresent. destruct (existsb _ acc) eqn:E; [|done].
  exfalso. apply existsb_elem_of in E as (t & Hta & Hb). bool_simpl.
  apply (Hacc t Hta). rewrite <- (makeService_key s "" ""). unfold sv_key. simpl. congruence.
Qed.

(** The loop that appends one service at a time, checking for duplicates on
    the way, is the pointwise target of every eligible service. *)
Lemma ServicesToDeploy_targets :
  NoDup (svc_key <$> filtered) → ServicesToDeploy ups filtered sset = omap target_of filtered.
Proof.
  intros Hnd. unfold ServicesToDeploy.
  assert (∀ l k, filtered = k ++ l →
    foldl (deploy_step ups filtered sset) (omap target_of k) l = omap target_of filtered) as Hgen.
  { induction l as [|s l IH]; intros k Heq.
    - by rewrite Heq, app_nil_r.
    - cbn [foldl]. rewrite deploy_step_target.
      + specialize (IH (k ++ [s]) ltac:(by rewrite <- app_assoc)).
        rewrite omap_app in IH. cbn [omap list_omap] in IH. by destruct (target_of s).
      + done.
      + rewrite Heq. set_solver.
      + intros t (s' & Hs' & Ht)%list_elem_of_omap Hk. apply target_of_key in Ht.
        rewrite Heq, fmap_app in Hnd. apply NoDup_app in Hnd as (_ & Hdis & _).
        apply (Hdis (svc_key s')); [by apply list_elem_of_fmap_2|].
        simpl. rewrite <- Ht, Hk. left. }
  by apply (Hgen filtered []).
Qed.
End targets.

(** ** Properties *)

(** A semantic-version library for running the definitions: dot-separated
    decimal numbers, compared component by component. *)
Definition digit (a : Ascii.ascii) : option N :=
  let n := Ascii.N_of_ascii a in
  if ((48 <=? n) && (n <=? 57))%N then Some (n - 48)%N else None.
Fixpoint dotted (s : string) (cur : option N) : option (list N) :=
  match s with
  | EmptyString => (λ n, [n]) <$> cur
  | String a s =>
      if bool_decide (Ascii.N_of_ascii a = 46%N) then
        match cur with Some n => cons n <$> dotted s None | None => None end
      else match digit a with
           | Some d => dotted s (Some (default 0 cur * 10 + d)%N)
           | None => None
           end
  end.
Fixpoint numbers_lt (l k : list N) : bool :=
  match l, k with
  | x :: l, y :: k => (x <? y)%N || ((x =? y)%N && numbers_lt l k)
  | [], _ :: _ => true
  | _, [] => false
  end.
Definition dotted_semver : Semver :=
  {| semver := list N; NewVersion s := dotted s None;
     NewVersion_error _ := ErrNew "invalid semantic version"; LessThan := numbers_lt |}.

Section deploy_properties.
Context `{Semver}.

(** The target list holds, in the order of the eligible services, one
    entry per service computed from that service alone: the stored entry
    while an upgrade is in flight, nothing while it is disabled, and
    otherwise the hop its upgrade paths prescribe or, where none are
    computed, the desired version. *)
Lemma ServicesToDeploy_pointwise ups filtered sset :
  NoDup (svc_key <$> filtered) →
  ServicesToDeploy ups filtered sset = omap (target_of ups filtered sset) filtered.
Proof. apply ServicesToDeploy_targets. Qed.

Lemma find_service filtered s st :
  NoDup (svc_key <$> filtered) → s ∈ filtered → svc_key s = sv_key st →
  List.find (λ ds, bool_decide (svc_name ds = sv_name st) &&
    bool_decide (effectiveNamespace (svc_namespace ds) = effectiveNamespace (sv_namespace st)))
    filtered = Some s.
Proof.
  intros Hnd Hin Hk. induction filtered as [|x l IH]; [by apply elem_of_nil in Hin|].
  rewrite fmap_cons in Hnd. apply NoDup_cons in Hnd as [Hx Hnd]. simpl.
  apply elem_of_cons in Hin as [<-|Hin].
  - unfold svc_key, sv_key, ServiceKey in Hk. injection Hk as Hn Hns.
    by rewrite !bool_decide_eq_true_2.
  - destruct (_ && _) eqn:E; [|by apply IH]. exfalso. bool_simpl. apply Hx.
    assert (svc_key x = svc_key s) as ->; [|by apply list_elem_of_fmap_2].
    rewrite Hk. unfold svc_key, sv_key, ServiceKey. congruence.
Qed.

Lemma inFlight_lookup filtered sset s st :
  NoDup (sv_key <$> sss_services (sset_spec sset)) → NoDup (svc_key <$> filtered) →
  s ∈ filtered → st ∈ sss_services (sset_spec sset) → svc_key s = sv_key st →
  inFlightServices filtered sset !! svc_key s =
  (if in_flight sset st then Some (merge_mutable filtered st) else None).
Proof.
  intros Hnds Hnd Hs Hst Hk.
  assert (st ∈ relevant_stored filtered sset) as Hrel.
  { apply filterb_elem_of. split; [done|]. apply bool_decide_eq_true.
    apply index_by_is_Some. by exists s. }
  assert (∀ p, NoDup (sv_key <$> filterb p (relevant_stored filtered sset))) as Hndf.
  { intros p. eapply sublist_NoDup; [exact Hnds|]. apply sublist_fmap.
    etrans; apply filterb_sublist. }
  unfold inFlightServices. rewrite Hk. destruct (in_flight sset st) eqn:E.
  - apply (index_by_lookup sv_key); [done|]. by apply filterb_elem_of.
  - apply index_by_None. intros x [Hx Hf]%filterb_elem_of Hkx.
    apply filterb_elem_of in Hx as [Hx _].
    enough (x = st) by congruence.
    by eapply (NoDup_fmap_eq sv_key).
Qed.

(** While the version stored for an eligible service is not the one
    confirmed on the cluster, the service is emitted at that version and
    template, whatever version is desired and whatever the upgrade paths say;
    only values and Helm options follow the desired spec. *)
Lemma ServicesToDeploy_in_flight_kept ups filtered sset s st :
  NoDup (sv_key <$> sss_services (sset_spec sset)) → NoDup (svc_key <$> filtered) →
  s ∈ filtered → st ∈ sss_services (sset_spec sset) → svc_key s = sv_key st →
  sv_version st ≠ "" → sv_version st ≠ get_string (DeployedVersions sset) (sv_key st) →
  ∀ t, t ∈ ServicesToDeploy ups filtered sset → sv_key t = sv_key st →
    sv_version t = sv_version st ∧ sv_template t = sv_template st ∧
    sv_values t = svc_values s ∧ sv_valuesFrom t = svc_valuesFrom s ∧
    sv_helmOptions t = svc_helmOptions s ∧ sv_helmAction t = svc_helmAction s.
Proof.
  intros Hnds Hnd Hs Hst Hk Hv Hd t. rewrite ServicesToDeploy_targets by done.
  intros (s' & Hs' & Ht)%list_elem_of_omap Hkt.
  pose proof (target_of_key _ _ _ _ _ Ht) as Hkt'.
  assert (s' = s) as ->.
  { eapply (NoDup_fmap_eq svc_key); [exact Hnd|done..|congruence]. }
  unfold target_of in Ht. rewrite (inFlight_lookup _ _ _ st) in Ht by done.
  assert (in_flight sset st = true) as Hf.
  { unfold in_flight. by rewrite !bool_decide_eq_false_2. }
  rewrite Hf in Ht. injection Ht as <-. unfold merge_mutable.
  by rewrite (find_service _ s).
Qed.

(** A service its chain does not let through is emitted at the desired
    version and template: the chain gate has no effect on it. *)
Lemma ServicesToDeploy_blocked_desired ups filtered sset s st :
  NoDup (sv_key <$> sss_services (sset_spec sset)) → NoDup (svc_key <$> filtered) →
  s ∈ filtered → st ∈ sss_services (sset_spec sset) → svc_key s = sv_key st →
  in_flight sset st = false → svc_disable s = false →
  upgradeAvailable ups filtered sset (svc_key s) = false →
  makeService s (svc_version s) (svc_template s) ∈ ServicesToDeploy ups filtered sset.
Proof.
  intros Hnds Hnd Hs Hst Hk Hf Hdis Hup. rewrite ServicesToDeploy_targets by done.
  apply list_elem_of_omap. exists s. split; [done|].
  unfold target_of. rewrite (inFlight_lookup _ _ _ st), Hf, Hdis, Hup by done. simpl.
  assert (stored_at sset s = true) as ->; [|done].
  apply existsb_elem_of. exists st. split; [done|].
  unfold svc_key, sv_key, ServiceKey in *. injection Hk as Hns Hn. simpl.
  by rewrite !bool_decide_eq_true_2.
Qed.
End deploy_properties.

(** [a] is stored at 1.1 while the cluster still runs 1.0; the owner asks for 2.0. *)
Definition flight_desired : Service :=
  mkService None "" "a" "" "a-2-0" "chain" "2.0.0" "new: values" [] [] false.
Definition flight_ServiceSet (stored : ServiceWithValues) (deployed : string) : ServiceSet :=
  mkServiceSet (named_meta "ns" "set")
    (mkServiceSetSpec "cluster" "" (mkProviderConfig None "ksm" false) [stored])
    (mkServiceSetStatus None [] [simple_state "a" "a" deployed ServiceStateDeployed] true false true).

Lemma ServicesToDeploy_pointwise_witness :
  ServicesToDeploy (H:=dotted_semver) [] [flight_desired] (flight_ServiceSet (simple_stored "a" "a-1-1" "1.1.0") "1.0.0")
  = omap (target_of (H:=dotted_semver) [] [flight_desired]
            (flight_ServiceSet (simple_stored "a" "a-1-1" "1.1.0") "1.0.0")) [flight_desired].
Proof.
  apply (ServicesToDeploy_pointwise (H:=dotted_semver)). apply (bool_decide_unpack _). vm_compute. exact I.
Defined.

Lemma ServicesToDeploy_in_flight_kept_witness :
  let set_ := flight_ServiceSet (simple_stored "a" "a-1-1" "1.1.0") "1.0.0" in
  sv_version <$> ServicesToDeploy (H:=dotted_semver) [] [flight_desired] set_ = ["1.1.0"] ∧
  ∀ t, t ∈ ServicesToDeploy (H:=dotted_semver) [] [flight_desired] set_ →
    sv_key t = sv_key (simple_stored "a" "a-1-1" "1.1.0") →
    sv_version t = "1.1.0" ∧ sv_template t = "a-1-1" ∧ sv_values t = "new: values" ∧
    sv_valuesFrom t = [] ∧ sv_helmOptions t = None ∧ sv_helmAction t = "".
Proof.
  split; [vm_compute; reflexivity|].
  apply (ServicesToDeploy_in_flight_kept (H:=dotted_semver) [] [flight_desired]
    (flight_ServiceSet (simple_stored "a" "a-1-1" "1.1.0") "1.0.0")
    flight_desired (simple_stored "a" "a-1-1" "1.1.0")).
  - apply (bool_decide_unpack _). vm_compute. exact I.
  - apply (bool_decide_unpack _). vm_compute. exact I.
  - left.
  - left.
  - vm_compute. reflexivity.
  - vm_compute. congruence.
  - vm_compute. congruence.
Defined.

(** The chain leads from 1.0, where the service is deployed, to 1.1 only. The
    desired 2.0 is not reachable, and is emitted all the same. *)
Example blocked_upgrade_is_deployed :
  let paths := [mkServiceUpgradePaths "a" "default" "a-1-0"
                  [mkUpgradePath [] [mkUpgrade "a-1-1" "1.1.0"]]] in
  let set_ := flight_ServiceSet (simple_stored "a" "a-1-0" "1.0.0") "1.0.0" in
  upgradeAvailable (H:=dotted_semver) paths [flight_desired] set_ (svc_key flight_desired) = false ∧
  (λ t, (sv_template t, sv_version t)) <$>
    ServicesToDeploy (H:=dotted_semver) paths [flight_desired] set_ = [("a-2-0", "2.0.0")].
Proof. vm_compute. done. Qed.

(** Computing upgrade paths never stops at a failing service: the paths of
    all the others are returned in order, and an error is returned exactly when
    some service's chain or template could not be resolved. *)
Lemma ServicesUpgradePaths_partial `{!MapRange string} {C} `{!Getter C ServiceTemplateChain}
    (c : C) services ns :
  (ServicesUpgradePaths c services ns).1 =
    omap (λ svc, match service_upgrade_paths c ns svc with Ok p => Some p | Err _ => None end) services ∧
  ((ServicesUpgradePaths c services ns).2 = None ↔
   ∀ svc, svc ∈ services → is_ok (service_upgrade_paths c ns svc) = true).
Proof.
  unfold ServicesUpgradePaths. induction services as [|svc l [IH1 IH2]] using rev_ind.
  { split; [done|]. split; [|done]. intros _ svc Hs. by apply elem_of_nil in Hs. }
  rewrite foldl_app, omap_app. simpl.
  destruct (service_upgrade_paths c ns svc) as [p|e] eqn:E; simpl.
  - rewrite IH1, IH2. split; [done|]. split.
    + intros Hall x [Hx| ->%list_elem_of_singleton]%elem_of_app; [auto|by rewrite E].
    + intros Hall x Hx. apply Hall. set_solver.
  - rewrite IH1, app_nil_r. split; [done|]. split.
    + by intros Hn%join_err_ne.
    + intros Hall. specialize (Hall svc ltac:(set_solver)). by rewrite E in Hall.
Qed.
