(* ===== verification/ContractVersions.v ===== *)
(** * Provider contracts of templates
    ([src/api/v1beta1]: [compatibility_contract.go], [templates_common.go] and
    the [FillStatusWithProviders] methods of the templates).

    Which Cluster API contract versions are well formed, and how the providers
    and contracts a template states, or its chart is annotated with, end up in
    its status. *)

From S2P Require Import Prelude GoStrings Api ApiManagement ServiceUpgrades.

#[local] Arguments String.append !_ _ / : simpl nomatch.

(** ** Contract versions *)

Definition byte_v : Ascii.ascii := Ascii.ascii_of_nat 118.
Definition byte_underscore : Ascii.ascii := Ascii.ascii_of_nat 95.
Definition byte_comma : Ascii.ascii := Ascii.ascii_of_nat 44.

Definition atoi_ok (s : string) : bool := match Atoi s with Some _ => true | None => false end.

Definition isNonMajor (version prefix : string) (prefixIdx : nat) : bool :=
  let majorVer := str_take prefixIdx version in
  let prefixedVer := str_drop (prefixIdx + String.length prefix) version in
  if negb (atoi_ok majorVer) then false else atoi_ok prefixedVer.

Definition alphaPrefix := "alpha".
Definition betaPrefix := "beta".

Definition isCAPIContractSingleVersion (version : string) : bool :=
  match version with
  | EmptyString => false
  | String first versionNumber =>
      if bool_decide (String.length version < 2) || negb (bool_decide (first = byte_v)) then false
      else if ContainsByte byte_v versionNumber || ContainsByte byte_underscore versionNumber then false
      else
        match Index versionNumber alphaPrefix, Index versionNumber betaPrefix with
        | Some alphaIndex, _ => isNonMajor versionNumber alphaPrefix alphaIndex
        | None, Some betaIndex => isNonMajor versionNumber betaPrefix betaIndex
        | None, None => atoi_ok (TrimSpace versionNumber)
        end
  end.

Definition isCAPIContractVersion (version : string) : bool :=
  forallb isCAPIContractSingleVersion (Split version byte_underscore).

(** ** Providers *)

(** [slices.Compact]: drops an element equal to the one before it. *)
Fixpoint Compact (l : list string) : list string :=
  match l with
  | x :: (y :: _) as l' => if bool_decide (x = y) then Compact l' else x :: Compact l'
  | _ => l
  end.

Definition sort_strings : list string → list string := isort string_leb.

Section fill.
(** The label Cluster API names a provider with. *)
Variable ProviderNameLabel : string.

Definition getProvidersList (providers : Providers) (annotations : gmap string string) : Providers :=
  if bool_decide (0 < length providers) then Compact (sort_strings providers)
  else
    let providersFromAnno := default "" (annotations !! ProviderNameLabel) in
    if bool_decide (String.length providersFromAnno = 0) then []
    else
      let pstatus := filterb (λ c, negb (bool_decide (c = "")))
                       (TrimSpace <$> Split providersFromAnno byte_comma) in
      Compact (sort_strings pstatus).

(** ** Contracts *)

Definition ClusterTemplateKind := "ClusterTemplate".
Definition ProviderTemplateKind := "ProviderTemplate".
Definition chartAnnoCAPIPrefix := "cluster.x-k8s.io/".

Context `{!MapRange string}.

(** The error about an entry of the spec, if there is one. *)
Definition spec_contract_error (kind key providerContract : string) : option gerror :=
  if bool_decide (kind = ProviderTemplateKind) && negb (isCAPIContractSingleVersion key) then
    Some (ErrNew ("incorrect CAPI contract version " +:+ key +:+ " in the spec"))
  else if bool_decide (kind = ProviderTemplateKind) && negb (bool_decide (providerContract = ""))
          && negb (isCAPIContractVersion providerContract) then
    Some (ErrNew ("incorrect provider contract version " +:+ providerContract +:+
            " in the spec for the " +:+ key +:+ " CAPI contract version"))
  else if bool_decide (kind = ClusterTemplateKind) && negb (isCAPIContractSingleVersion providerContract) then
    Some (ErrNew ("incorrect provider contract version " +:+ providerContract +:+
            " in the spec for the " +:+ key +:+ " provider name"))
  else None.

(** The name after the prefix, where the annotation states a contract. *)
Definition contract_annotation (kind k : string) : option string :=
  '(_, name) ← Cut k chartAnnoCAPIPrefix;
  if (bool_decide (kind = ProviderTemplateKind) && isCAPIContractSingleVersion name) ||
     (bool_decide (kind = ClusterTemplateKind) &&
        (HasPrefix name "bootstrap-" || HasPrefix name "control-plane-" || HasPrefix name "infrastructure-"))
  then Some name
  else None.

(** The core Cluster API provider states no contract of its own. *)
Definition annotation_valid (kind providerContract : string) : bool :=
  (bool_decide (kind = ProviderTemplateKind) &&
     (bool_decide (providerContract = "") || isCAPIContractVersion providerContract)) ||
  (bool_decide (kind = ClusterTemplateKind) && isCAPIContractSingleVersion providerContract).

Definition getCAPIContracts (kind : string) (contracts : CompatibilityContracts)
    (annotations : gmap string string) : CompatibilityContracts * option gerror :=
  if bool_decide (0 < size contracts) then
    foldl (λ '(contractsStatus, merr) key,
      let providerContract := default "" (contracts !! key) in
      match spec_contract_error kind key providerContract with
      | Some e => (contractsStatus, join_err merr e)
      | None => (<[key := providerContract]> contractsStatus, merr)
      end) (∅, None) (range_seq 0 (dom contracts))
  else
    foldl (λ '(contractsStatus, merr) k,
      let providerContract := default "" (annotations !! k) in
      match contract_annotation kind k with
      | None => (contractsStatus, merr)
      | Some name =>
          if annotation_valid kind providerContract
          then (<[name := providerContract]> contractsStatus, merr)
          else (contractsStatus, join_err merr (ErrNew ("incorrect provider contract version " +:+
                  providerContract +:+ " given for the " +:+ k +:+ " annotation")))
      end) (∅, None) (range_seq 1 (dom annotations)).

(** ** Status *)

Definition ChartAnnotationKubernetesVersion := "k0rdent.mirantis.com/k8s-version".

Definition set_ct_status (st : ClusterTemplateStatus) (t : ClusterTemplate) : ClusterTemplate :=
  mkClusterTemplate (ct_meta t) (ct_spec t) st.

Definition ClusterTemplate_FillStatus `{Semver} (kind : string) (annotations : gmap string string)
    (t : ClusterTemplate) : ClusterTemplate * option gerror :=
  let name := key_string (meta_key (ct_meta t)) in
  let providers := getProvidersList (cts_providers (ct_spec t)) annotations in
  let st := ct_status t in
  let with_providers := mkClusterTemplateStatus (ctst_providerContracts st) (ctst_kubernetesVersion st)
                          providers (ctst_common st) in
  let '(contractsStatus, err) := getCAPIContracts kind (cts_providerContracts (ct_spec t)) annotations in
  match err with
  | Some e => (set_ct_status with_providers t,
      Some (ErrWrap ("failed to get CAPI contract versions for ClusterTemplate " +:+ name +:+ ": ") e))
  | None =>
      let with_contracts k := mkClusterTemplateStatus contractsStatus k providers (ctst_common st) in
      let kversion := if negb (bool_decide (cts_kubernetesVersion (ct_spec t) = ""))
                      then cts_kubernetesVersion (ct_spec t)
                      else default "" (annotations !! ChartAnnotationKubernetesVersion) in
      if bool_decide (kversion = "") then (set_ct_status (with_contracts (ctst_kubernetesVersion st)) t, None)
      else
        match NewVersion kversion with
        | None => (set_ct_status (with_contracts (ctst_kubernetesVersion st)) t,
            Some (ErrWrap ("failed to parse kubernetes version " +:+ kversion +:+ " for ClusterTemplate " +:+
              name +:+ ": ") (NewVersion_error kversion)))
        | Some _ => (set_ct_status (with_contracts kversion) t, None)
        end
  end.

Definition ProviderTemplate_FillStatus (kind : string) (annotations : gmap string string)
    (t : ProviderTemplate) : ProviderTemplate * option gerror :=
  let providers := getProvidersList (pts_providers (pt_spec t)) annotations in
  let '(contractsStatus, err) := getCAPIContracts kind (pts_capiContracts (pt_spec t)) annotations in
  match err with
  | Some e => (mkProviderTemplate (pt_meta t) (pt_spec t)
                 (mkProviderTemplateStatus (ptst_capiContracts (pt_status t)) providers (ptst_common (pt_status t))),
      Some (ErrWrap ("failed to get CAPI contract versions for ProviderTemplate " +:+ om_name (pt_meta t) +:+ ": ") e))
  | None => (mkProviderTemplate (pt_meta t) (pt_spec t)
               (mkProviderTemplateStatus contractsStatus providers (ptst_common (pt_status t))), None)
  end.
End fill.

(** ** The grammar of contract versions *)

(** Neither numerals nor white space contain letters. *)
Definition letter (a : Ascii.ascii) : bool := byte_in 95 122 a.

Lemma numeral_not_letter a : numeral_byte a = true → letter a = false.
Proof.
  destruct a as [b0 b1 b2 b3 b4 b5 b6 b7].
  destruct b0, b1, b2, b3, b4, b5, b6, b7; vm_compute; congruence.
Qed.

Lemma space_not_letter a : space_byte a = true → letter a = false.
Proof.
  unfold space_byte. intros Ha%bool_decide_eq_true.
  assert (Forall (λ a, letter a = false) (concat spaces)) as Hall by (vm_compute; repeat constructor).
  rewrite Forall_forall in Hall. by apply Hall.
Qed.

Lemma atoi_ok_bytes s : atoi_ok s = true → bytes s ≠ [] ∧ Forall (λ a, numeral_byte a = true) (bytes s).
Proof. unfold atoi_ok. destruct (Atoi s) eqn:E; [|done]. intros _. by eapply Atoi_bytes. Qed.

(** What may follow the [v]. *)
Inductive version_body : string → Prop :=
  | body_alpha a b : atoi_ok a = true → atoi_ok b = true → version_body (a +:+ (alphaPrefix +:+ b))
  | body_beta a b : atoi_ok a = true → atoi_ok b = true → version_body (a +:+ (betaPrefix +:+ b))
  | body_major s : atoi_ok (TrimSpace s) = true → version_body s.

Definition byte_l : Ascii.ascii := Ascii.ascii_of_nat 108.
Definition byte_t : Ascii.ascii := Ascii.ascii_of_nat 116.

Lemma first_not_numeral c : letter c = true → ∀ x, numeral_byte x = true → x ≠ c.
Proof. intros Hc x Hx%numeral_not_letter ->. congruence. Qed.

(** The prefix is found where the first numeral ends. *)
Lemma Index_numeral a b prefix c p :
  prefix = String c p → (∀ x, numeral_byte x = true → x ≠ c) → atoi_ok a = true →
  Index (a +:+ (prefix +:+ b)) prefix = Some (String.length a).
Proof.
  intros -> Hc [_ Ha]%atoi_ok_bytes. induction a as [|x a IH].
  - rewrite Index_unfold. assert (HasPrefix ("" +:+ (String c p +:+ b)) (String c p) = true) as ->; [|done].
    apply HasPrefix_true. by exists b.
  - simpl in Ha. apply Forall_cons in Ha as [Hx Ha].
    change (String x a +:+ (String c p +:+ b)) with (String x (a +:+ (String c p +:+ b))).
    rewrite Index_unfold.
    assert (HasPrefix (String x (a +:+ (String c p +:+ b))) (String c p) = false) as ->.
    { apply not_true_iff_false. intros [r [= Hxc _]]%HasPrefix_true. by apply (Hc x). }
    by rewrite (IH Ha).
Qed.

Lemma Index_bytes s sub c : c ∈ bytes sub → c ∉ bytes s → Index s sub = None.
Proof. intros Hc Hs. apply Index_None. intros a b ->. apply Hs. rewrite !bytes_app. set_solver. Qed.

Lemma isNonMajor_app a prefix b :
  isNonMajor (a +:+ (prefix +:+ b)) prefix (String.length a) = atoi_ok a && atoi_ok b.
Proof.
  unfold isNonMajor. rewrite str_take_app, <- string_app_assoc, <- string_length_app, str_drop_app.
  by destruct (atoi_ok a).
Qed.

Lemma no_letter l (P : Ascii.ascii → bool) c :
  (∀ a, P a = true → letter a = false) → letter c = true → Forall (λ a, P a = true) l → c ∉ l.
Proof. intros HP Hc Hl Hin. rewrite Forall_forall in Hl. apply Hl, HP in Hin. congruence. Qed.

Lemma atoi_no_letter s c : letter c = true → atoi_ok s = true → c ∉ bytes s.
Proof. intros Hc [_ Hs]%atoi_ok_bytes. by eapply no_letter; [apply numeral_not_letter| |]. Qed.

Lemma trimmed_no_letter s c : letter c = true → atoi_ok (TrimSpace s) = true → c ∉ bytes s.
Proof.
  intros Hc Ht. destruct (TrimSpace_surround s) as (pre & post & -> & Hpre & Hpost).
  rewrite !not_elem_of_app. split_and!; [|by apply atoi_no_letter|];
    by eapply no_letter; [apply space_not_letter| |].
Qed.

(** The bytes a body is made of. *)
Lemma version_body_bytes s :
  version_body s → bytes s ≠ [] ∧ byte_v ∉ bytes s ∧ byte_underscore ∉ bytes s.
Proof.
  assert (letter byte_v = true ∧ letter byte_underscore = true) as [Hv Hu] by done.
  assert (∀ c, c ∈ [byte_v; byte_underscore] → c ∉ bytes alphaPrefix ∧ c ∉ bytes betaPrefix) as Hp.
  { intros c Hc. assert (c = byte_v ∨ c = byte_underscore) as [->| ->] by set_solver;
      split; apply (bool_decide_unpack _); vm_compute; exact I. }
  destruct (Hp byte_v ltac:(left)) as [Hpv1 Hpv2], (Hp byte_underscore ltac:(right; left)) as [Hpu1 Hpu2].
  destruct 1 as [a b Ha Hb|a b Ha Hb|s Ht].
  1,2: pose proof (proj1 (atoi_ok_bytes a Ha)) as Hne; rewrite !bytes_app, !not_elem_of_app;
    split; [by intros [??]%app_eq_nil|]; split_and!; try done; by apply atoi_no_letter.
  split_and!; [|by apply trimmed_no_letter|by apply trimmed_no_letter].
  pose proof (proj1 (atoi_ok_bytes _ Ht)) as Hne.
  destruct (TrimSpace_surround s) as (pre & post & -> & _). intros [_ [? _]%app_eq_nil]%app_eq_nil. done.
Qed.

Lemma accepted_version version :
  isCAPIContractSingleVersion version = true ↔ ∃ body, version = String byte_v body ∧ version_body body.
Proof.
  split.
  - destruct version as [|first body]; [done|]. cbn [isCAPIContractSingleVersion].
    destruct (_ || _) eqn:E1; [done|]. destruct (ContainsByte _ _ || _) eqn:E2; [done|]. bool_simpl. subst first.
    intros Hk. exists body. split; [done|].
    destruct (Index body alphaPrefix) as [i|] eqn:Ea.
    + apply Index_Some in Ea as (a & b & -> & <-). rewrite isNonMajor_app in Hk. bool_simpl. by constructor.
    + destruct (Index body betaPrefix) as [i|] eqn:Eb; [|by constructor 3].
      apply Index_Some in Eb as (a & b & -> & <-). rewrite isNonMajor_app in Hk. bool_simpl. by constructor.
  - intros (body & -> & Hb). pose proof (version_body_bytes _ Hb) as (Hne & Hv & Hu).
    cbn [isCAPIContractSingleVersion].
    assert (0 < String.length body) as Hlen by (destruct body; simpl in *; [done|lia]).
    rewrite bool_decide_eq_false_2 by (cbn [String.length]; lia).
    rewrite (bool_decide_eq_true_2 (byte_v = byte_v)) by done.
    unfold ContainsByte. rewrite !bool_decide_eq_false_2 by done. cbn [orb negb].
    assert (letter byte_l = true ∧ letter byte_t = true) as [Hl Ht] by done.
    destruct Hb as [a b Ha Hb|a b Ha Hb|body Hs].
    + rewrite (Index_numeral a b alphaPrefix _ _ eq_refl) by (done || apply first_not_numeral; done).
      by rewrite isNonMajor_app, Ha, Hb.
    + rewrite (Index_bytes _ alphaPrefix byte_l).
      * rewrite (Index_numeral a b betaPrefix _ _ eq_refl) by (done || apply first_not_numeral; done).
        by rewrite isNonMajor_app, Ha, Hb.
      * apply (bool_decide_unpack _). vm_compute. exact I.
      * rewrite !bytes_app, !not_elem_of_app. split_and!; [by apply atoi_no_letter| |by apply atoi_no_letter].
        apply (bool_decide_unpack _). vm_compute. exact I.
    + rewrite (Index_bytes _ alphaPrefix byte_l), (Index_bytes _ betaPrefix byte_t); try done;
        try (by apply trimmed_no_letter); apply (bool_decide_unpack _); vm_compute; exact I.
Qed.

(** The versions accepted are those of the grammar: a [v] followed by a
    number, or by two numbers with [alpha] or [beta] in between, a number being
    what [Atoi] reads, white space around a major version being ignored. *)
Lemma isCAPIContractSingleVersion_grammar version :
  isCAPIContractSingleVersion version = true ↔ ∃ body, version = String byte_v body ∧ version_body body.
Proof. apply accepted_version. Qed.

(** ** Versions written in decimal *)

Inductive api_version :=
  | Major (n : N)
  | AlphaVersion (n m : N)
  | BetaVersion (n m : N).

Definition render_version (v : api_version) : string :=
  String byte_v (match v with
                 | Major n => pretty n
                 | AlphaVersion n m => pretty n +:+ (alphaPrefix +:+ pretty m)
                 | BetaVersion n m => pretty n +:+ (betaPrefix +:+ pretty m)
                 end).

Definition in_int (n : N) : Prop := (Z.of_N n < 2 ^ 63)%Z.
Definition version_in_range (v : api_version) : Prop :=
  match v with
  | Major n => in_int n
  | AlphaVersion n m | BetaVersion n m => in_int n ∧ in_int m
  end.

Lemma atoi_ok_pretty n : in_int n → atoi_ok (pretty n) = true.
Proof. intros Hn. unfold atoi_ok. by rewrite Atoi_pretty. Qed.

(** A numeral has no white space around it. *)
Lemma TrimSpace_numeral s : atoi_ok s = true → TrimSpace s = s.
Proof.
  intros [Hne Hs]%atoi_ok_bytes. unfold TrimSpace.
  assert (Forall (λ a, numeral_byte a = false) (concat spaces)) as Hsp by (vm_compute; repeat constructor).
  rewrite Forall_forall in Hs, Hsp.
  assert (∀ (encs : list (list Ascii.ascii)) (l : list Ascii.ascii),
    (∀ e, e ∈ encs → ∃ a, head e = Some a ∧ a ∈ concat spaces) → (∀ a, a ∈ l → numeral_byte a = true) →
    ∀ fuel, trim_front fuel encs l = l) as Hid.
  { intros encs l He Hl fuel. apply trim_front_id. intros e Hin. destruct (He e Hin) as (a & Ha & Hc).
    exists a. split; [done|]. intros Hh. apply head_Some_elem_of, Hl in Hh. rewrite (Hsp a Hc) in Hh. done. }
  assert (∀ e, e ∈ spaces → ∃ a, head e = Some a ∧ a ∈ concat spaces) as Hheads.
  { assert (forallb (λ e, match head e with Some a => bool_decide (a ∈ concat spaces) | None => false end) spaces = true)
      as Hall by (vm_compute; reflexivity).
    rewrite forallb_forall in Hall. intros e He%list_elem_of_In%Hall. destruct (head e) as [a|]; [|done].
    exists a. by bool_simpl. }
  assert (∀ e, e ∈ reverse <$> spaces → ∃ a, head e = Some a ∧ a ∈ concat spaces) as Hlasts.
  { assert (forallb (λ e, match head e with Some a => bool_decide (a ∈ concat spaces) | None => false end)
      (reverse <$> spaces) = true) as Hall by (vm_compute; reflexivity).
    rewrite forallb_forall in Hall. intros e He%list_elem_of_In%Hall. destruct (head e) as [a|]; [|done].
    exists a. by bool_simpl. }
  rewrite (Hid spaces) by done. rewrite Hid; [by rewrite reverse_involutive, of_bytes_bytes|done|].
  intros a Ha. rewrite elem_of_reverse in Ha. auto.
Qed.

Lemma render_version_body v :
  version_in_range v → ∃ body, render_version v = String byte_v body ∧ version_body body.
Proof.
  intros Hr. eexists. split; [reflexivity|]. destruct v as [n|n m|n m]; simpl in Hr.
  - constructor 3. rewrite TrimSpace_numeral; by apply atoi_ok_pretty.
  - destruct Hr. constructor 1; by apply atoi_ok_pretty.
  - destruct Hr. constructor 2; by apply atoi_ok_pretty.
Qed.

(** C36: a list of versions written in decimal and joined with underscores is
    split into the same versions again, and accepted. *)
Theorem contract_versions_roundtrip vs :
  vs ≠ [] → Forall version_in_range vs →
  let s := Join (render_version <$> vs) (String byte_underscore "") in
  Split s byte_underscore = render_version <$> vs ∧ isCAPIContractVersion s = true.
Proof.
  intros Hne Hr. cbn zeta.
  assert (∀ x, x ∈ render_version <$> vs → ∃ body, x = String byte_v body ∧ version_body body) as Hx.
  { intros x (v & -> & Hv)%list_elem_of_fmap. rewrite Forall_forall in Hr. by apply render_version_body, Hr. }
  assert (Split (Join (render_version <$> vs) (String byte_underscore "")) byte_underscore = render_version <$> vs) as Hs.
  { apply Split_Join; [by destruct vs|]. intros x (body & -> & Hb)%Hx.
    apply version_body_bytes in Hb as (_ & _ & Hu). simpl. apply not_elem_of_cons. by split. }
  split; [done|]. unfold isCAPIContractVersion. rewrite Hs. apply forallb_forall.
  intros x Hin%list_elem_of_In%Hx. by apply accepted_version.
Qed.

Lemma contract_versions_roundtrip_witness :
  Join (render_version <$> [AlphaVersion 1 4; BetaVersion 1 1]) "_" = "v1alpha4_v1beta1" ∧
  isCAPIContractVersion (Join (render_version <$> [AlphaVersion 1 4; BetaVersion 1 1]) "_") = true.
Proof.
  split; [vm_compute; reflexivity|].
  apply (contract_versions_roundtrip [AlphaVersion 1 4; BetaVersion 1 1]); [done|].
  repeat constructor.
Defined.

(** Numbers may carry a sign, and a major version white space. *)
Example signed_versions :
  forallb isCAPIContractSingleVersion ["v-1"; "v+1alpha-2"; "v 1 "] = true.
Proof. vm_compute. reflexivity. Qed.

(** ** What the status lists *)

Lemma Compact_cons_cons a b l :
  Compact (a :: b :: l) = if bool_decide (a = b) then Compact (b :: l) else a :: Compact (b :: l).
Proof. reflexivity. Qed.

Lemma Compact_elem l x : x ∈ Compact l ↔ x ∈ l.
Proof.
  induction l as [|a [|b l] IH]; [done..|]. rewrite Compact_cons_cons. case_bool_decide as Hab.
  - subst. rewrite IH. rewrite !elem_of_cons. tauto.
  - rewrite elem_of_cons, IH, (elem_of_cons (b :: l)). done.
Qed.

(** Strictly before. *)
Definition string_lt (a b : string) : Prop := string_leb a b = true ∧ a ≠ b.

Lemma Compact_sorted l : StronglySorted (Rle string_leb) l → StronglySorted string_lt (Compact l).
Proof.
  induction l as [|a [|b l] IH]; intros Hs; [constructor|cbn; repeat constructor|].
  apply StronglySorted_inv in Hs as [Hs Ha]. specialize (IH Hs). rewrite Compact_cons_cons. case_bool_decide as Hab; [done|].
  constructor; [done|]. apply Forall_forall. intros x Hx.
  rewrite Compact_elem in Hx. rewrite Forall_forall in Ha.
  split; [by apply Ha|]. intros <-. apply StronglySorted_inv in Hs as [_ Hb]. rewrite Forall_forall in Hb.
  apply elem_of_cons in Hx as [->|Hx]; [done|]. apply Hab, string_leb_antisym; [apply Ha; left|by apply Hb].
Qed.

Lemma sorted_compact l : StronglySorted string_lt (Compact (sort_strings l)) ∧
  ∀ x, x ∈ Compact (sort_strings l) ↔ x ∈ l.
Proof.
  split.
  - apply Compact_sorted, isort_sorted; [apply string_leb_total|apply string_leb_trans].
  - intros x. rewrite Compact_elem. apply isort_elem_of.
Qed.

(** The providers in a status are in strict alphabetical order, without
    repetition: those of the spec if it has any, otherwise the non-empty
    trimmed names of the chart's comma-separated annotation. *)
Lemma getProvidersList_spec label providers annotations :
  let result := getProvidersList label providers annotations in
  StronglySorted string_lt result ∧
  ∀ x, x ∈ result ↔
    (providers ≠ [] ∧ x ∈ providers) ∨
    (providers = [] ∧ x ≠ "" ∧ ∃ part, part ∈ Split (default "" (annotations !! label)) byte_comma ∧
       x = TrimSpace part).
Proof.
  cbn zeta. unfold getProvidersList. case_bool_decide as Hp; [|case_bool_decide as Ha].
  - destruct (sorted_compact providers) as [Hs He]. split; [done|]. intros x. rewrite He.
    destruct providers as [|p l]; simpl in *; [lia|]. split; [by left|]. by intros [[_ ?]|[? _]].
  - destruct providers; [|simpl in Hp; lia]. split; [constructor|]. intros x.
    split; [intros Hx; by apply elem_of_nil in Hx|]. intros [[? _]|(_ & Hx & part & Hpart & ->)]; [done|].
    destruct (default "" _) as [|]; [|done]. simpl in Hpart. apply list_elem_of_singleton in Hpart as ->. done.
  - destruct providers; [|simpl in Hp; lia].
    set (l := filterb _ _). destruct (sorted_compact l) as [Hs He]. split; [done|]. intros x. rewrite He.
    subst l. rewrite filterb_elem_of, negb_true_iff, bool_decide_eq_false, list_elem_of_fmap. naive_solver.
Qed.

(** ** Contracts in a status *)

Section contracts.
Context `{!MapRange string}.

(** The loop of the spec's case. *)
Lemma spec_contracts_fold kind (contracts : gmap string string) ks :
  (∀ k, k ∈ ks → is_Some (contracts !! k)) →
  let '(res, err) := foldl (λ '(contractsStatus, merr) key,
      let providerContract := default "" (contracts !! key) in
      match spec_contract_error kind key providerContract with
      | Some e => (contractsStatus, join_err merr e)
      | None => (<[key := providerContract]> contractsStatus, merr)
      end) (∅ : gmap string string, None) ks in
  (∀ k v, res !! k = Some v ↔ k ∈ ks ∧ contracts !! k = Some v ∧ spec_contract_error kind k v = None) ∧
  (err = None ↔ ∀ k v, k ∈ ks → contracts !! k = Some v → spec_contract_error kind k v = None).
Proof.
  induction ks as [|k0 ks IH] using rev_ind; intros Hks.
  - simpl. split; [|split; [|done]].
    + intros k v. rewrite lookup_empty. split; [done|]. intros [Hk _]. by apply elem_of_nil in Hk.
    + intros _ k v Hk. by apply elem_of_nil in Hk.
  - rewrite foldl_app. cbn [foldl].
    specialize (IH ltac:(intros; apply Hks; set_solver)).
    destruct (foldl _ _ ks) as [res err]. destruct IH as [Hres Herr].
    destruct (Hks k0 ltac:(set_solver)) as [v0 Hv0]. rewrite Hv0. simpl.
    destruct (spec_contract_error kind k0 v0) as [e|] eqn:E.
    + split.
      * intros k v. rewrite Hres. setoid_rewrite elem_of_app. setoid_rewrite list_elem_of_singleton.
        naive_solver congruence.
      * split; [by intros ?%join_err_ne|]. intros Hall. rewrite (Hall k0 v0) in E; set_solver.
    + split.
      * intros k v. rewrite lookup_insert_Some, Hres. setoid_rewrite elem_of_app. setoid_rewrite list_elem_of_singleton.
        destruct (decide (k0 = k)) as [->|Hne]; [|naive_solver]. naive_solver congruence.
      * rewrite Herr. setoid_rewrite elem_of_app. setoid_rewrite list_elem_of_singleton.
        naive_solver congruence.
Qed.

(** From a spec that states contracts the status gets exactly those that
    are well formed for the kind of template, whatever order they are visited
    in, and an error is reported exactly when one is not. *)
Lemma getCAPIContracts_spec kind (contracts annotations : gmap string string) :
  contracts ≠ ∅ →
  let '(res, err) := getCAPIContracts kind contracts annotations in
  (∀ k v, res !! k = Some v ↔ contracts !! k = Some v ∧ spec_contract_error kind k v = None) ∧
  (err = None ↔ ∀ k v, contracts !! k = Some v → spec_contract_error kind k v = None).
Proof.
  intros Hne. unfold getCAPIContracts.
  rewrite bool_decide_eq_true_2 by (apply Nat.neq_0_lt_0; by intros ?%map_size_empty_inv).
  assert (∀ k, k ∈ range_seq 0 (dom contracts) ↔ is_Some (contracts !! k)) as Hk
    by (intros k; by rewrite range_seq_elem, elem_of_dom).
  pose proof (spec_contracts_fold kind contracts (range_seq 0 (dom contracts)) ltac:(intros; by apply Hk)) as Hf.
  destruct (foldl _ _ _) as [res err]. destruct Hf as [Hres Herr]. split.
  - intros k v. rewrite Hres, Hk. naive_solver.
  - rewrite Herr. setoid_rewrite Hk. naive_solver.
Qed.
End contracts.

Lemma getCAPIContracts_spec_witness :
  (getCAPIContracts ProviderTemplateKind {[ "v1beta1" := "v1beta1_v1beta2" ]} ∅).2 = None ∧
  let '(res, err) := getCAPIContracts ProviderTemplateKind {[ "v1beta1" := "v1beta1_v1beta2" ]} ∅ in
  (∀ k v, res !! k = Some v ↔ ({[ "v1beta1" := "v1beta1_v1beta2" ]} : gmap string string) !! k = Some v ∧
     spec_contract_error ProviderTemplateKind k v = None) ∧
  (err = None ↔ ∀ k v, ({[ "v1beta1" := "v1beta1_v1beta2" ]} : gmap string string) !! k = Some v →
     spec_contract_error ProviderTemplateKind k v = None).
Proof.
  split; [vm_compute; reflexivity|].
  apply (getCAPIContracts_spec ProviderTemplateKind {[ "v1beta1" := "v1beta1_v1beta2" ]} ∅).
  apply map_non_empty_singleton.
Defined.
