(* ===== verification/ServiceSetPipeline.v ===== *)
(** * Building the ServiceSet of an owner ([src/internal/serviceset]: the rest
    of [util.go], [builder.go] and [processor.go]).

    The pipeline every reconcile of a ClusterDeployment or MultiClusterService
    runs: resolve versions, filter by dependencies, compute targets, merge with
    the stored services, build the object and decide whether to write it. *)

From S2P Require Import Prelude Api Kube TemplateChain ServiceBasics ServiceDeps ServiceOrder ServiceUpgrades.

(** ** Provider configuration *)

(** The [config] struct: the deprecated fields of a ServiceSpec. *)
Record legacy_config := mkLegacyConfig {
  lc_syncMode : string;
  lc_templateResourceRefs : list string;
  lc_policyRefs : list string;
  lc_driftIgnore : list string;
  lc_driftExclusions : list string;
  lc_priority : Z;
  lc_stopOnConflict : bool;
  lc_reload : bool;
  lc_continueOnError : bool }.

Definition legacy_of (spec : ServiceSpec) : legacy_config :=
  mkLegacyConfig (ss_syncMode spec) (ss_templateResourceRefs spec) (ss_policyRefs spec)
    (ss_driftIgnore spec) (ss_driftExclusions spec) (ss_priority spec) (ss_stopOnConflict spec)
    (ss_reload spec) (ss_continueOnError spec).

Definition DefaultStateManagementProvider := "ksm-projectsveltos".

Section provider_config.
(** [json.Marshal] on the struct. *)
Variable json_Marshal : legacy_config → result string.

Definition StateManagementProviderConfigFromServiceSpec (serviceSpec : ServiceSpec)
  : result StateManagementProviderConfig :=
  let p := ss_provider serviceSpec in
  let self := pc_selfManagement p in
  match bool_decide (pc_name p = ""), pc_config p with
  | true, None =>
      raw ← wrap_err "failed to marshal config: " (json_Marshal (legacy_of serviceSpec));
      Ok (mkProviderConfig (Some raw) DefaultStateManagementProvider self)
  | true, Some cfg => Ok (mkProviderConfig (Some cfg) DefaultStateManagementProvider self)
  | false, None => Ok (mkProviderConfig None (pc_name p) self)
  | false, Some cfg => Ok (mkProviderConfig (Some cfg) (pc_name p) (pc_selfManagement p))
  end.
End provider_config.

(** ** Labels a selector requires *)

(** [selection.Operator] of the label-selector library. *)
Inductive SelectionOperator :=
  | SelEquals | SelDoubleEquals | SelIn | SelExists
  | SelNotIn | SelDoesNotExist | SelNotEquals | SelGreaterThan | SelLessThan.

Record SelRequirement := mkSelRequirement {
  sr_key : string; sr_operator : SelectionOperator; sr_values : list string }.

Section required_labels.
(** [metav1.LabelSelectorAsSelector] followed by [Requirements]: the
    requirements of a selector, their values sorted, or the reason it is
    invalid. *)
Variable selector_requirements : LabelSelector → result (list SelRequirement).

Definition require_label (labels : gmap string string) (req : SelRequirement) : gmap string string :=
  match sr_operator req with
  | SelEquals | SelDoubleEquals =>
      match sr_values req with [v] => <[sr_key req := v]> labels | _ => labels end
  | SelIn =>
      match sr_values req with v :: _ => <[sr_key req := v]> labels | [] => labels end
  | SelExists =>
      match labels !! sr_key req with Some _ => labels | None => <[sr_key req := ""]> labels end
  | SelNotIn | SelDoesNotExist | SelNotEquals => labels
  | SelGreaterThan | SelLessThan => labels
  end.

Definition extractRequiredLabels (selector : option LabelSelector) : result (gmap string string) :=
  match selector with
  | None => Err (ErrNew "selector cannot be nil")
  | Some selector =>
      requirements ← selector_requirements selector;
      Ok (foldl require_label (ls_matchLabels selector) requirements)
  end.
End required_labels.

(** ** The builder *)

(** [metav1.NewControllerRef]. *)
Definition NewControllerRef (m : ObjectMeta) (kind : string) : OwnerReference :=
  mkOwner kcm_GroupVersion kind (om_name m) (om_uid m) true true.

Record Builder := mkBuilder {
  b_serviceSet : ServiceSet;
  b_clusterDeployment : option ClusterDeployment;
  b_multiClusterService : option MultiClusterService;
  b_selector : option LabelSelector;
  b_servicesToDeploy : list ServiceWithValues }.

Definition NewBuilder (cd : option ClusterDeployment) (serviceSet : ServiceSet)
    (selector : option LabelSelector) : Builder :=
  mkBuilder serviceSet cd None selector [].
Definition WithMultiClusterService (mcs : option MultiClusterService) (b : Builder) : Builder :=
  mkBuilder (b_serviceSet b) (b_clusterDeployment b) mcs (b_selector b) (b_servicesToDeploy b).
Definition WithServicesToDeploy (services : list ServiceWithValues) (b : Builder) : Builder :=
  mkBuilder (b_serviceSet b) (b_clusterDeployment b) (b_multiClusterService b) (b_selector b) services.

(** Neither owner set: the code dereferences a nil pointer. *)
Definition nil_owner : gerror := ErrNew "nil pointer dereference".

Section build.
Variable json_Marshal : legacy_config → result string.
Variable selector_requirements : LabelSelector → result (list SelRequirement).

Definition owner_reference (b : Builder) : result OwnerReference :=
  match b_clusterDeployment b, b_multiClusterService b with
  | Some cd, _ => Ok (NewControllerRef (cd_meta cd) ClusterDeploymentKind)
  | None, Some mcs => Ok (NewControllerRef (mcs_meta mcs) MultiClusterServiceKind)
  | None, None => Err nil_owner
  end.

(** The configuration of the MultiClusterService overrides the other, error
    included. *)
Definition builder_config (b : Builder) : result StateManagementProviderConfig :=
  match b_multiClusterService b, b_clusterDeployment b with
  | Some mcs, _ => StateManagementProviderConfigFromServiceSpec json_Marshal
                     (mcs_serviceSpec (mcs_spec mcs))
  | None, Some cd => StateManagementProviderConfigFromServiceSpec json_Marshal
                       (cds_serviceSpec (cd_spec cd))
  | None, None => Ok (mkProviderConfig None "" false)
  end.

Definition Build (b : Builder) : result ServiceSet :=
  ownerReference ← owner_reference b;
  labels ← wrap_err "failed to extract required labels from StateManagementProvider selector: "
             (extractRequiredLabels selector_requirements (b_selector b));
  let m := sset_meta (b_serviceSet b) in
  let merged := match om_labels m with
                | None => labels
                | Some l => labels ∪ l
                end in
  providerConfig ← wrap_err "failed to convert ServiceSpec to ProviderConfig: " (builder_config b);
  Ok (mkServiceSet
    (mkMeta (om_name m) (om_namespace m) (om_uid m) (om_generation m) (Some merged)
       (om_annotations m) [ownerReference] (om_finalizers m) (om_deletionTimestamp m))
    (mkServiceSetSpec
       (cd_name_of (b_clusterDeployment b))
       (mcs_name_of (b_multiClusterService b))
       (mkProviderConfig (pc_config providerConfig) (pc_name providerConfig)
          (bool_decide (b_clusterDeployment b = None :> option ClusterDeployment)))
       (b_servicesToDeploy b))
    (sset_status (b_serviceSet b))).
End build.

(** ** Resolution and the operation to perform *)

Definition set_services (services : list ServiceWithValues) (s : ServiceSet) : ServiceSet :=
  mkServiceSet (sset_meta s)
    (mkServiceSetSpec (sss_cluster (sset_spec s)) (sss_multiClusterService (sset_spec s))
       (sss_provider (sset_spec s)) services) (sset_status s).

Record OperationRequisites := mkRequisites {
  or_objectKey : ObjectKey;
  or_MCS : option MultiClusterService;
  or_CD : option ClusterDeployment;
  or_systemNamespace : string }.

Section pipeline.
Context `{!MapRange ObjectKey} `{!MapRange string} `{Semver} {C : Type}.
Context `{!Getter C ServiceTemplate} `{!Getter C ServiceTemplateChain}.
Context `{!Getter C ServiceSet} `{!Getter C StateManagementProvider} `{!Lister C ServiceSet}.
Variable c : C.
Variable json_Marshal : legacy_config → result string.
Variable selector_requirements : LabelSelector → result (list SelRequirement).

(** Returns the services to deploy and the ServiceSet, whose stored services
    have had their versions resolved in place. *)
Definition ResolveServicesToApply (systemNamespace : string) (mcs : option MultiClusterService)
    (cd : option ClusterDeployment) (desiredServices : list Service) (serviceSet : ServiceSet)
  : result (list ServiceWithValues * ServiceSet) :=
  let templateNamespace := om_namespace (sset_meta serviceSet) in
  resolvedDesired ← wrap_err "failed to resolve versions for desired services: "
    (fillServiceVersions c templateNamespace desiredServices);
  filteredServices ← wrap_err "failed to filter service dependencies: "
    (FilterServiceDependencies c systemNamespace mcs cd resolvedDesired);
  storedServices ← wrap_err "failed to resolve versions for stored services: "
    (fillServiceWithValueVersions c templateNamespace (sss_services (sset_spec serviceSet)));
  let serviceSet := set_services storedServices serviceSet in
  let '(upgradePaths, err) := ServicesUpgradePaths c
    (ServicesWithDesiredChains resolvedDesired storedServices) templateNamespace in
  match err with
  | Some e => Err (ErrWrap "failed to determine upgrade paths: " e)
  | None =>
      servicesToDeploy ← wrap_err "failed to resolve versions for services to deploy: "
        (fillServiceWithValueVersions c templateNamespace
           (ServicesToDeploy upgradePaths filteredServices serviceSet));
      Ok (servicesToDeploy, serviceSet)
  end.

(** The services and the spec the owner states. *)
Definition owner_spec (req : OperationRequisites) : result ServiceSpec :=
  match or_MCS req, or_CD req with
  | Some mcs, _ => Ok (mcs_serviceSpec (mcs_spec mcs))
  | None, Some cd => Ok (cds_serviceSpec (cd_spec cd))
  | None, None => Err nil_owner
  end.

(** The ServiceSet to start from: the one found, or a new one. *)
Definition initial_ServiceSet (key : ObjectKey) : result (ServiceSet * ServiceSetOperation) :=
  match c_get c key with
  | Ok s => Ok (s, ServiceSetOperationUpdate)
  | Err e =>
      if IsNotFound e
      then Ok (mkServiceSet (named_meta (key_ns key) (key_name key))
                 (sset_spec empty_ServiceSet) (sset_status empty_ServiceSet),
               ServiceSetOperationCreate)
      else Err (ErrWrap ("failed to get ServiceSet " +:+ key_string key +:+ ": ") e)
  end.

Definition GetServiceSetWithOperation (req : OperationRequisites)
  : result (ServiceSet * ServiceSetOperation) :=
  serviceSpec ← owner_spec req;
  let desiredServices := ss_services serviceSpec in
  providerSpec ← wrap_err "failed to convert ServiceSpec to provider config: "
    (StateManagementProviderConfigFromServiceSpec json_Marshal serviceSpec);
  provider ← wrap_err ("failed to get StateManagementProvider " +:+ pc_name providerSpec +:+ ": ")
    (c_get (T:=StateManagementProvider) c (mkKey "" (pc_name providerSpec)));
  initial ← initial_ServiceSet (or_objectKey req);
  let '(serviceSet, op) := initial in
  resolved ← wrap_err "failed to resolve services to apply: "
    (ResolveServicesToApply (or_systemNamespace req) (or_MCS req) (or_CD req)
       desiredServices serviceSet);
  let '(filteredServices, serviceSet) := resolved in
  let resultingServices :=
    BuildServicesList (sss_services (sset_spec serviceSet)) filteredServices desiredServices in
  let existingSpec := sset_spec serviceSet in
  candidate ← wrap_err "failed to build ServiceSet: "
    (Build json_Marshal selector_requirements
       (WithServicesToDeploy resultingServices
          (WithMultiClusterService (or_MCS req)
             (NewBuilder (or_CD req) serviceSet (smp_selector provider)))));
  if bool_decide (op = ServiceSetOperationUpdate) && bool_decide (existingSpec = sset_spec candidate)
  then Ok (candidate, ServiceSetOperationNone)
  else Ok (candidate, op).
End pipeline.

(** ** Writing the result *)

Section processor.
Context {C : Type} `{!Writer C ServiceSet}.

Definition CreateOrUpdateServiceSet (c : C) (op : ServiceSetOperation) (serviceSet : ServiceSet)
  : C * option gerror :=
  let key := key_string (meta_key (sset_meta serviceSet)) in
  match op with
  | ServiceSetOperationCreate =>
      let (c', err) := c_create c serviceSet in
      match err with
      | Some e => if IsAlreadyExists e then (c', None)
                  else (c', Some (ErrWrap ("failed to create ServiceSet " +:+ key +:+ ": ") e))
      | None => (c', None)
      end
  | ServiceSetOperationUpdate =>
      let (c', err) := c_update c serviceSet in
      match err with
      | Some e => if IsConflict e then (c', None)
                  else (c', Some (ErrWrap ("failed to update ServiceSet " +:+ key +:+ ": ") e))
      | None => (c', None)
      end
  | ServiceSetOperationNone => (c, None)
  end.
End processor.

(** ** What a successful run went through *)

Section pipeline_spec.
Context `{!MapRange ObjectKey} `{!MapRange string} `{Semver} {C : Type}.
Context `{!Getter C ServiceTemplate} `{!Getter C ServiceTemplateChain}.
Context `{!Getter C ServiceSet} `{!Getter C StateManagementProvider} `{!Lister C ServiceSet}.
Variable c : C.
Variable json_Marshal : legacy_config → result string.
Variable selector_requirements : LabelSelector → result (list SelRequirement).

Lemma fillServiceVersions_fields ns l k :
  fillServiceVersions c ns l = Ok k →
  Forall2 (λ s s', svc_key s' = svc_key s ∧ svc_dependsOn s' = svc_dependsOn s ∧
                   svc_template s' = svc_template s) l k.
Proof.
  intros Hk%mapM_result_Ok. eapply Forall2_impl; [exact Hk|]. simpl. intros s s'.
  destruct (needs_version _ _); [|by intros <-%Ok_inj].
  by intros (v & _ & <-%Ok_inj)%bind_Ok.
Qed.

Lemma fillServiceVersions_keys ns l k :
  fillServiceVersions c ns l = Ok k → svc_key <$> k = svc_key <$> l.
Proof.
  intros Hf%fillServiceVersions_fields. induction Hf as [|s s' l k [Hs _] _ IH]; [done|].
  by rewrite !fmap_cons, Hs, IH.
Qed.

Lemma fillServiceWithValueVersions_keys ns l k :
  fillServiceWithValueVersions c ns l = Ok k → sv_key <$> k = sv_key <$> l.
Proof.
  intros Hk%mapM_result_Ok. induction Hk as [|s s' l k Hs _ IH]; [done|].
  rewrite !fmap_cons, IH. f_equal. revert Hs.
  destruct (needs_version _ _); [|by intros <-%Ok_inj].
  by intros (v & _ & <-%Ok_inj)%bind_Ok.
Qed.

(** The stages of [ResolveServicesToApply]. *)
Lemma ResolveServicesToApply_inv sys mcs cd desired s toDeploy s' :
  ResolveServicesToApply c sys mcs cd desired s = Ok (toDeploy, s') →
  ∃ resolved filtered stored paths,
    fillServiceVersions c (om_namespace (sset_meta s)) desired = Ok resolved ∧
    FilterServiceDependencies c sys mcs cd resolved = Ok filtered ∧
    fillServiceWithValueVersions c (om_namespace (sset_meta s)) (sss_services (sset_spec s)) = Ok stored ∧
    s' = set_services stored s ∧
    fillServiceWithValueVersions c (om_namespace (sset_meta s))
      (ServicesToDeploy paths filtered s') = Ok toDeploy.
Proof.
  unfold ResolveServicesToApply.
  intros (resolved & Hr%wrap_err_Ok & Hk)%bind_Ok.
  apply bind_Ok in Hk as (filtered & Hf%wrap_err_Ok & Hk).
  apply bind_Ok in Hk as (stored & Hs%wrap_err_Ok & Hk).
  destruct (ServicesUpgradePaths _ _ _) as [paths [e|]]; [done|].
  apply bind_Ok in Hk as (td & Ht%wrap_err_Ok & Hk). apply Ok_inj in Hk. simplify_eq.
  eauto 10.
Qed.

(** Every service to deploy is one of those let through. *)
Lemma ServicesToDeploy_keys paths filtered s t :
  NoDup (svc_key <$> filtered) → t ∈ ServicesToDeploy paths filtered s →
  ∃ svc, svc ∈ filtered ∧ sv_key t = svc_key svc.
Proof.
  intros Hnd. rewrite ServicesToDeploy_targets by done.
  intros (svc & Hsvc & Ht)%list_elem_of_omap. exists svc. split; [done|].
  by eapply target_of_key.
Qed.

Lemma FilterServiceDependencies_sublist sys mcs cd desired filtered :
  FilterServiceDependencies c sys mcs cd desired = Ok filtered → filtered `sublist_of` desired.
Proof.
  unfold FilterServiceDependencies. destruct (missing_dependency desired); [done|].
  intros (sset & _ & <-%Ok_inj)%bind_Ok. apply filterb_sublist.
Qed.

Lemma ResolveServicesToApply_keys sys mcs cd desired s toDeploy s' :
  NoDup (svc_key <$> desired) →
  ResolveServicesToApply c sys mcs cd desired s = Ok (toDeploy, s') →
  ∀ t, t ∈ toDeploy → ∃ resolved filtered svc,
    fillServiceVersions c (om_namespace (sset_meta s)) desired = Ok resolved ∧
    FilterServiceDependencies c sys mcs cd resolved = Ok filtered ∧
    svc ∈ filtered ∧ sv_key t = svc_key svc.
Proof.
  intros Hnd (resolved & filtered & stored & paths & Hr & Hf & _ & _ & Ht)%ResolveServicesToApply_inv t Hin.
  assert (sv_key t ∈ sv_key <$> ServicesToDeploy paths filtered s') as Hk.
  { rewrite <- (fillServiceWithValueVersions_keys _ _ _ Ht). by apply list_elem_of_fmap_2. }
  apply list_elem_of_fmap in Hk as (t' & Hk & Hin').
  apply ServicesToDeploy_keys in Hin' as (svc & Hsvc & Hk').
  - exists resolved, filtered, svc. by rewrite Hk.
  - eapply sublist_NoDup; [|apply sublist_fmap; by eapply FilterServiceDependencies_sublist].
    by rewrite (fillServiceVersions_keys _ _ _ Hr).
Qed.

Lemma Build_services b s :
  Build json_Marshal selector_requirements b = Ok s →
  sss_services (sset_spec s) = b_servicesToDeploy b.
Proof.
  unfold Build. intros (o & _ & Hk)%bind_Ok. apply bind_Ok in Hk as (l & _ & Hk).
  apply bind_Ok in Hk as (p & _ & Hk). by apply Ok_inj in Hk as <-.
Qed.

(** The object built is the one found, or the one to create under the key. *)
Lemma GetServiceSetWithOperation_key req s op :
  GetServiceSetWithOperation c json_Marshal selector_requirements req = Ok (s, op) →
  (∀ s0, c_get c (or_objectKey req) = Ok s0 → meta_key (sset_meta s0) = or_objectKey req) →
  meta_key (sset_meta s) = or_objectKey req.
Proof.
  unfold GetServiceSetWithOperation. intros Hk Hget.
  apply bind_Ok in Hk as (spec & _ & Hk). apply bind_Ok in Hk as (pc & _ & Hk).
  apply bind_Ok in Hk as (prov & _ & Hk). apply bind_Ok in Hk as ([s0 op0] & Hi & Hk).
  apply bind_Ok in Hk as ([td s1] & Hr%wrap_err_Ok & Hk).
  apply bind_Ok in Hk as (cand & Hb%wrap_err_Ok & Hk).
  assert (s = cand) as -> by (destruct (_ && _); by apply Ok_inj in Hk as [= -> _]).
  apply ResolveServicesToApply_inv in Hr as (? & ? & stored & ? & _ & _ & _ & -> & _).
  assert (meta_key (sset_meta s0) = or_objectKey req) as <-.
  { unfold initial_ServiceSet in Hi. destruct (c_get c (or_objectKey req)) as [s0'|e].
    - apply Ok_inj in Hi as [= -> _]. auto.
    - destruct (IsNotFound e); [|done]. apply Ok_inj in Hi as [= <- _]. by destruct (or_objectKey req). }
  unfold Build in Hb. apply bind_Ok in Hb as (o & _ & Hb). apply bind_Ok in Hb as (l & _ & Hb).
  apply bind_Ok in Hb as (p & _ & Hb). apply Ok_inj in Hb as <-. done.
Qed.

(** The stages of [GetServiceSetWithOperation]. *)
Lemma GetServiceSetWithOperation_inv req s op :
  GetServiceSetWithOperation c json_Marshal selector_requirements req = Ok (s, op) →
  ∃ spec s0 op0 toDeploy s1,
    owner_spec req = Ok spec ∧ initial_ServiceSet c (or_objectKey req) = Ok (s0, op0) ∧
    ResolveServicesToApply c (or_systemNamespace req) (or_MCS req) (or_CD req)
      (ss_services spec) s0 = Ok (toDeploy, s1) ∧
    sss_services (sset_spec s) =
      BuildServicesList (sss_services (sset_spec s1)) toDeploy (ss_services spec) ∧
    op = (if bool_decide (op0 = ServiceSetOperationUpdate) && bool_decide (sset_spec s1 = sset_spec s)
          then ServiceSetOperationNone else op0).
Proof.
  unfold GetServiceSetWithOperation.
  intros (spec & Hspec & Hk)%bind_Ok. apply bind_Ok in Hk as (pc & _ & Hk).
  apply bind_Ok in Hk as (prov & _ & Hk). apply bind_Ok in Hk as ([s0 op0] & Hi & Hk).
  apply bind_Ok in Hk as ([td s1] & Hr%wrap_err_Ok & Hk).
  apply bind_Ok in Hk as (cand & Hb%wrap_err_Ok & Hk).
  exists spec, s0, op0, td, s1. apply Build_services in Hb as Hsv. simpl in Hsv.
  destruct (_ && _) eqn:E; apply Ok_inj in Hk; simplify_eq; rewrite E; auto.
Qed.
End pipeline_spec.

(** ** Properties *)

Section pipeline_properties.
Context `{!MapRange ObjectKey} `{!MapRange string} `{Semver} {C : Type}.
Context `{!Getter C ServiceTemplate} `{!Getter C ServiceTemplateChain}.
Context `{!Getter C ServiceSet} `{!Getter C StateManagementProvider} `{!Lister C ServiceSet}.
Variable c : C.
Variable json_Marshal : legacy_config → result string.
Variable selector_requirements : LabelSelector → result (list SelRequirement).
Local Abbreviation Get := (GetServiceSetWithOperation c json_Marshal selector_requirements).

(** C1: a stored service with a dependency that is not satisfied stays in the
    ServiceSet exactly as stored (its version read off its template if it
    stated none): same version, template, values and options, whatever the
    owner now asks for, and it appears once. *)
Theorem locked_service_preserved req s op spec existing stored resolved sset st svc d :
  owner_spec req = Ok spec →
  NoDup (svc_key <$> ss_services spec) →
  c_get c (or_objectKey req) = Ok existing →
  NoDup (sv_key <$> sss_services (sset_spec existing)) →
  fillServiceWithValueVersions c (om_namespace (sset_meta existing))
    (sss_services (sset_spec existing)) = Ok stored →
  fillServiceVersions c (om_namespace (sset_meta existing)) (ss_services spec) = Ok resolved →
  fetchServiceSet c (or_systemNamespace req) (or_MCS req) (or_CD req) = Ok sset →
  Get req = Ok (s, op) →
  st ∈ stored → svc ∈ resolved → svc_key svc = sv_key st →
  d ∈ svc_dependsOn svc → ¬ satisfied sset resolved (dep_key d) →
  st ∈ sss_services (sset_spec s) ∧
  ∀ t, t ∈ sss_services (sset_spec s) → sv_key t = sv_key st → t = st.
Proof.
  intros Hspec Hnd Hget Hnds Hstored Hres Hfetch HGet Hst Hsvc Hkey Hd Hunsat.
  apply GetServiceSetWithOperation_inv in HGet
    as (spec' & s0 & op0 & td & s1 & Hspec' & Hinit & Hrs & Hserv & _).
  assert (spec' = spec) as -> by congruence.
  unfold initial_ServiceSet in Hinit. rewrite Hget in Hinit.
  apply Ok_inj in Hinit. injection Hinit as <- <-.
  pose proof (ResolveServicesToApply_keys c _ _ _ _ _ _ _ Hnd Hrs) as Hkeys.
  apply ResolveServicesToApply_inv in Hrs
    as (resolved' & filtered & stored' & paths & Hr & Hf & Hs & -> & _).
  assert (resolved' = resolved) as -> by congruence.
  assert (stored' = stored) as -> by congruence. simpl in Hserv.
  assert (Hndr : NoDup (svc_key <$> resolved)) by by rewrite (fillServiceVersions_keys c _ _ _ Hr).
  assert (Hout : sv_key st ∉ sv_key <$> td).
  { intros (t & Ht & Hin)%list_elem_of_fmap.
    destruct (Hkeys t Hin) as (r & f & svc' & Hr' & Hf' & Hin' & Hk').
    assert (r = resolved) as -> by congruence. assert (f = filtered) as -> by congruence.
    destruct (filter_dependencies_elem c _ _ _ _ _ Hndr Hf) as (sset' & Hfetch' & Hsub & Hel).
    assert (sset' = sset) as -> by congruence. assert (svc' ∈ resolved) as Hin2.
    { by eapply sublist_subseteq in Hsub; apply Hsub. }
    assert (svc' = svc) as -> by (eapply (NoDup_fmap_eq svc_key); [exact Hndr|done..|congruence]).
    apply Hunsat. by apply (Hel svc Hsvc). }
  rewrite Hserv. split.
  - apply BuildServicesList_elem. right. split_and!; try done.
    rewrite <- Hkey, <- (fillServiceVersions_keys c _ _ _ Hr). by apply list_elem_of_fmap_2.
  - intros t Ht Hk. apply BuildServicesList_elem in Ht as [Ht|(Ht & _)].
    + destruct Hout. rewrite <- Hk. by apply list_elem_of_fmap_2.
    + eapply (NoDup_fmap_eq sv_key); [|done..].
      by rewrite (fillServiceWithValueVersions_keys c _ _ _ Hstored).
Qed.

(** The ServiceSet built lists only services its owner asks for: one that
    was removed from the owner's spec is gone. *)
Lemma only_desired_services req s op spec :
  owner_spec req = Ok spec → NoDup (svc_key <$> ss_services spec) →
  Get req = Ok (s, op) →
  ∀ t, t ∈ sss_services (sset_spec s) → sv_key t ∈ svc_key <$> ss_services spec.
Proof.
  intros Hspec Hnd HGet t Ht.
  apply GetServiceSetWithOperation_inv in HGet
    as (spec' & s0 & op0 & td & s1 & Hspec' & _ & Hrs & Hserv & _). ok_eq.
  rewrite Hserv in Ht. apply BuildServicesList_elem in Ht as [Ht|(_ & Ht & _)]; [|done].
  destruct (ResolveServicesToApply_keys c _ _ _ _ _ _ _ Hnd Hrs t Ht)
    as (r & f & svc & Hr & Hf & Hin & ->).
  rewrite <- (fillServiceVersions_keys c _ _ _ Hr). apply list_elem_of_fmap_2.
  apply FilterServiceDependencies_sublist in Hf. by eapply sublist_subseteq in Hf; apply Hf.
Qed.

(** The operation is create exactly when the ServiceSet does not exist;
    for one that exists it is none exactly when the spec built equals the
    stored spec with its versions resolved, and update otherwise. *)
Lemma operation_decided req s op :
  Get req = Ok (s, op) →
  match c_get (T:=ServiceSet) c (or_objectKey req) with
  | Err e => IsNotFound e = true ∧ op = ServiceSetOperationCreate
  | Ok existing =>
      ∃ stored, fillServiceWithValueVersions c (om_namespace (sset_meta existing))
                  (sss_services (sset_spec existing)) = Ok stored ∧
      ((op = ServiceSetOperationNone ∧ sset_spec s = sset_spec (set_services stored existing)) ∨
       (op = ServiceSetOperationUpdate ∧ sset_spec s ≠ sset_spec (set_services stored existing)))
  end.
Proof.
  intros (spec & s0 & op0 & td & s1 & _ & Hinit & Hrs & _ & Hop)%GetServiceSetWithOperation_inv.
  apply ResolveServicesToApply_inv in Hrs as (r & f & stored & paths & _ & _ & Hs & -> & _).
  unfold initial_ServiceSet in Hinit.
  destruct (c_get c (or_objectKey req)) as [existing|e]; [|destruct (IsNotFound e)];
    try done; apply Ok_inj in Hinit; simplify_eq/=.
  - exists stored. split; [done|].
    case_bool_decide as E; [left|right]; by split.
  - done.
Qed.
End pipeline_properties.

(** Writing a ServiceSet that is up to date touches nothing; a create that
    lost the race to another one and an update that conflicts are not errors,
    every other failure is returned. *)
Lemma CreateOrUpdateServiceSet_errors `{!Writer C ServiceSet} (c : C) op s :
  ((CreateOrUpdateServiceSet c op s).2 = None ↔
   match op with
   | ServiceSetOperationNone => True
   | ServiceSetOperationCreate => ∀ e, (c_create c s).2 = Some e → IsAlreadyExists e = true
   | ServiceSetOperationUpdate => ∀ e, (c_update c s).2 = Some e → IsConflict e = true
   end) ∧
  (CreateOrUpdateServiceSet c op s).1 =
   match op with
   | ServiceSetOperationNone => c
   | ServiceSetOperationCreate => (c_create c s).1
   | ServiceSetOperationUpdate => (c_update c s).1
   end.
Proof.
  unfold CreateOrUpdateServiceSet.
  destruct op; [destruct (c_create c s) as [c' [e|]]|destruct (c_update c s) as [c' [e|]]|];
    simpl; try destruct (IsAlreadyExists e) eqn:E1; try destruct (IsConflict e) eqn:E2;
    simpl; split; try done; split; naive_solver congruence.
Qed.

(** ** Witnesses *)

Definition simple_requirements (s : LabelSelector) : result (list SelRequirement) :=
  Ok (((λ p, mkSelRequirement p.1 SelEquals [p.2]) <$> map_to_list (ls_matchLabels s)) ++
      ((λ r, mkSelRequirement (lsr_key r)
               match lsr_operator r with
               | OpIn => SelIn | OpNotIn => SelNotIn
               | OpExists => SelExists | OpDoesNotExist => SelDoesNotExist end
               (lsr_values r)) <$> ls_matchExpressions s)).
Definition simple_marshal (_ : legacy_config) : result string := Ok "{}".

(** The cluster of [chain_store] with its provider, owned by a ClusterDeployment
    that asks for [a] to be upgraded while [b] and [c] wait for it. *)
Definition pipeline_store : Store :=
  mkStore ∅ ∅ {[ mkKey "ns" "set" := chain_ServiceSet ]}
    {[ mkKey "" DefaultStateManagementProvider :=
         mkSMP (named_meta "" DefaultStateManagementProvider)
           (Some (mkSelector {[ "adapter" := "kcm" ]} [])) false true ]}.
Definition pipeline_cluster : ClusterDeployment :=
  mkCD (named_meta "ns" "cluster")
    (mkCDSpec None None no_ipamClaim "" "" "" "" "" "" (empty_service_spec chain_desired) false false)
    (mkCDStatus [] [] "" "" "" [] [] 0).
Definition pipeline_request : OperationRequisites :=
  mkRequisites (mkKey "ns" "set") None (Some pipeline_cluster) "sys".
Definition pipeline_result : result (ServiceSet * ServiceSetOperation) :=
  GetServiceSetWithOperation (H:=dotted_semver) pipeline_store simple_marshal simple_requirements
    pipeline_request.

Definition pipeline_set : ServiceSet :=
  match pipeline_result with Ok (s, _) => s | Err _ => empty_ServiceSet end.

Lemma pipeline_runs : pipeline_result = Ok (pipeline_set, ServiceSetOperationUpdate).
Proof. vm_compute. reflexivity. Qed.

Lemma locked_service_preserved_witness :
  ((λ t, (sv_name t, sv_version t)) <$> sss_services (sset_spec pipeline_set)) =
    [("a", "2.0.0"); ("b", "1.0.0"); ("c", "1.0.0")] ∧
  simple_stored "c" "c-1" "1.0.0" ∈ sss_services (sset_spec pipeline_set) ∧
  ∀ t, t ∈ sss_services (sset_spec pipeline_set) →
    sv_key t = sv_key (simple_stored "c" "c-1" "1.0.0") → t = simple_stored "c" "c-1" "1.0.0".
Proof.
  split; [vm_compute; reflexivity|].
  apply (locked_service_preserved (H:=dotted_semver) pipeline_store simple_marshal simple_requirements
    pipeline_request pipeline_set ServiceSetOperationUpdate (empty_service_spec chain_desired)
    chain_ServiceSet (sss_services (sset_spec chain_ServiceSet)) chain_desired chain_ServiceSet
    (simple_stored "c" "c-1" "1.0.0") (simple_service "c" "c-1" "1.0.0" ["b"]) (mkDep "b" "")).
  - reflexivity.
  - apply (bool_decide_unpack _). vm_compute. exact I.
  - vm_compute. reflexivity.
  - apply (bool_decide_unpack _). vm_compute. exact I.
  - vm_compute. reflexivity.
  - vm_compute. reflexivity.
  - vm_compute. reflexivity.
  - exact pipeline_runs.
  - apply (bool_decide_unpack _). vm_compute. exact I.
  - left.
  - vm_compute. reflexivity.
  - left.
  - intros Hs. specialize (Hs (mkKey "default" "a")).
    assert (at_desired chain_ServiceSet chain_desired (mkKey "default" "a") = false) as Hf
      by (vm_compute; reflexivity).
    rewrite Hs in Hf; [done|]. apply rtc_once.
    exists (simple_service "b" "b-1" "1.0.0" ["a"]).
    split_and!; [right; left|vm_compute; reflexivity|].
    apply (bool_decide_unpack _). vm_compute. exact I.
Defined.

Lemma only_desired_services_witness :
  sset_spec pipeline_set ≠ sset_spec chain_ServiceSet ∧
  ∀ t, t ∈ sss_services (sset_spec pipeline_set) → sv_key t ∈ svc_key <$> chain_desired.
Proof.
  split; [vm_compute; congruence|].
  apply (only_desired_services (H:=dotted_semver) pipeline_store simple_marshal simple_requirements
    pipeline_request pipeline_set ServiceSetOperationUpdate (empty_service_spec chain_desired)).
  - reflexivity.
  - apply (bool_decide_unpack _). vm_compute. exact I.
  - exact pipeline_runs.
Defined.

Lemma operation_decided_witness :
  ∃ stored, fillServiceWithValueVersions pipeline_store "ns"
              (sss_services (sset_spec chain_ServiceSet)) = Ok stored ∧
  ((ServiceSetOperationUpdate = ServiceSetOperationNone ∧
      sset_spec pipeline_set = sset_spec (set_services stored chain_ServiceSet)) ∨
   (ServiceSetOperationUpdate = ServiceSetOperationUpdate ∧
      sset_spec pipeline_set ≠ sset_spec (set_services stored chain_ServiceSet))).
Proof.
  apply (operation_decided (H:=dotted_semver) pipeline_store simple_marshal simple_requirements
    pipeline_request pipeline_set ServiceSetOperationUpdate pipeline_runs).
Defined.
