(* ===== verification/DependencyGraph.v ===== *)
(** * Cycle detection in dependency graphs ([dfs], [hasCycle] and
    [hasCycleFrom] of [src/internal/util/validation]).

    A graph maps a node to the nodes it depends on. The search keeps the nodes
    visited and those on the current path; the theorems show it reports an
    error exactly when there is a cycle, in the whole graph or in the part
    reachable from the start. *)

From S2P Require Import Prelude Api.

Abbreviation graph := (gmap ObjectKey (list ObjectKey)).

(** [graph[node]]: nil for a node that is not a key. *)
Definition succs (g : graph) (n : ObjectKey) : list ObjectKey := default [] (g !! n).

Definition cycle_err (node : ObjectKey) : gerror :=
  ErrNew ("dependency cycle detected at " +:+ key_string node).

(** Not an error of the code: the search of [dfs] with too little fuel. *)
Definition out_of_fuel : gerror := ErrNew "out of fuel".

Section dfs.
Variable g : graph.

(** Returns the two maps as the call leaves them. *)
Fixpoint dfs (fuel : nat) (node : ObjectKey) (visited inStack : gset ObjectKey)
  : result (gset ObjectKey * gset ObjectKey) :=
  if bool_decide (node ∈ inStack) then Err (cycle_err node)
  else if bool_decide (node ∈ visited) then Ok (visited, inStack)
  else match fuel with
       | 0 => Err out_of_fuel
       | S fuel =>
           st ← foldM_result (λ st d, dfs fuel d st.1 st.2)
                  ({[node]} ∪ visited, {[node]} ∪ inStack) (succs g node);
           Ok (st.1, st.2 ∖ {[node]})
       end.

(** How deep calls can be nested: one per node that has successors, and one for
    a node without. *)
Definition dfs_fuel : nat := S (size g).

Definition hasCycleFrom (start : ObjectKey) : option gerror :=
  match dfs dfs_fuel start ∅ ∅ with Ok _ => None | Err e => Some e end.

Context `{!MapRange ObjectKey}.

Definition hasCycle : option gerror :=
  match foldM_result (λ st key,
          if bool_decide (key ∈ st.1) then Ok st else dfs dfs_fuel key st.1 st.2)
          (∅, ∅) (range_seq 0 (dom g)) with
  | Ok _ => None
  | Err e => Some e
  end.
End dfs.

(** ** Graph-theoretic reading *)

Definition edge (g : graph) (a b : ObjectKey) : Prop := b ∈ succs g a.

(** A node lies on a cycle. *)
Definition on_cycle (g : graph) (k : ObjectKey) : Prop := tc (edge g) k k.

Section dfs_spec.
Variable g : graph.

(** The finished nodes: visited and no longer on the path. *)
Definition finished (visited inStack : gset ObjectKey) (k : ObjectKey) : Prop :=
  k ∈ visited ∧ k ∉ inStack.

(** The successors of a finished node are finished and ranked below it. *)
Definition finished_ranked (visited inStack : gset ObjectKey) (rank : ObjectKey → nat) (bound : nat) : Prop :=
  ∀ b, finished visited inStack b →
    rank b < bound ∧ ∀ s, edge g b s → finished visited inStack s ∧ rank s < rank b.

Definition dfs_inv (visited inStack : gset ObjectKey) : Prop :=
  inStack ⊆ visited ∧ ∃ rank bound, finished_ranked visited inStack rank bound.

Lemma dfs_unfold fuel node visited inStack v' st' :
  dfs g fuel node visited inStack = Ok (v', st') →
  node ∉ inStack ∧
  ((node ∈ visited ∧ v' = visited ∧ st' = inStack) ∨
   (node ∉ visited ∧ ∃ fuel' v2 st2, fuel = S fuel' ∧
      foldM_result (λ st d, dfs g fuel' d st.1 st.2)
        ({[node]} ∪ visited, {[node]} ∪ inStack) (succs g node) = Ok (v2, st2) ∧
      v' = v2 ∧ st' = st2 ∖ {[node]})).
Proof.
  destruct fuel as [|fuel]; cbn [dfs]; case_bool_decide as Hs; try done;
    case_bool_decide as Hv; try done.
  - intros [= <- <-]. eauto.
  - intros [= <- <-]. eauto.
  - intros ([v2 st2] & Hf & [= <- <-])%bind_Ok. split; [done|]. right. eauto 8.
Qed.

(** A call leaves the path as it was and the maps grow. *)
Lemma dfs_frame fuel node visited inStack v' st' :
  dfs g fuel node visited inStack = Ok (v', st') →
  st' = inStack ∧ visited ⊆ v' ∧ node ∈ v'.
Proof.
  revert node visited inStack v' st'.
  induction fuel as [|fuel IH]; intros node visited inStack v' st' [Hn Hc]%dfs_unfold;
    destruct Hc as [(Hv & -> & ->)|(Hv & f & v2 & st2 & Heq & Hf & -> & ->)];
    try done; simplify_eq.
  assert (∀ ds st st1, foldM_result (λ st d, dfs g f d st.1 st.2) st ds = Ok st1 →
            st1.2 = st.2 ∧ st.1 ⊆ st1.1) as Hfold.
  { induction ds as [|d ds IHd]; intros st st1; simpl; [by intros <-%Ok_inj|].
    intros ([v3 st3] & Hd & Hrest)%bind_Ok. apply IH in Hd as (? & ? & _).
    apply IHd in Hrest as [? ?]. simpl in *. split; [congruence|set_solver]. }
  apply Hfold in Hf as [Hst Hsub]. simpl in *. subst. set_solver.
Qed.

(** Without an error the node and everything it leads to is finished. *)
Lemma dfs_finished fuel node visited inStack v' st' :
  dfs_inv visited inStack → dfs g fuel node visited inStack = Ok (v', st') →
  dfs_inv v' st' ∧ finished v' st' node.
Proof.
  revert node visited inStack v' st'.
  induction fuel as [|fuel IH]; intros node visited inStack v' st' Hinv Hdfs;
    pose proof (dfs_frame _ _ _ _ _ _ Hdfs) as (-> & Hsub & Hin);
    apply dfs_unfold in Hdfs as [Hn Hc];
    destruct Hc as [(Hv & -> & _)|(Hv & f & v2 & st2 & Heq & Hf & -> & Hst)]; try done; injection Heq as ->.
  assert (∀ ds st st1, foldM_result (λ st d, dfs g f d st.1 st.2) st ds = Ok st1 →
            dfs_inv st.1 st.2 → dfs_inv st1.1 st1.2 ∧ st1.2 = st.2 ∧ st.1 ⊆ st1.1 ∧
            ∀ d, d ∈ ds → finished st1.1 st1.2 d) as Hfold.
  { induction ds as [|d ds IHd]; intros st st1; simpl.
    - intros <-%Ok_inj ?. split_and!; try done. intros d Hd. by apply elem_of_nil in Hd.
    - intros ([v3 st3] & Hd & Hrest)%bind_Ok Hi.
      pose proof (dfs_frame _ _ _ _ _ _ Hd) as (Hst3 & Hsub3 & _).
      apply IH in Hd as [Hi3 Hfin]; [|done].
      apply IHd in Hrest as (Hi1 & Hst1 & Hsub1 & Hall); [|done]. simpl in *. subst.
      split_and!; [done|congruence|set_solver|].
      intros d' [->|Hd']%elem_of_cons; [|by apply Hall].
      destruct Hfin as [? ?]. split; [set_solver|congruence]. }
  apply Hfold in Hf as ([Hs2 (rank & bound & Hr)] & Hst2 & Hsub2 & Hall); simpl in *.
  - clear Hst. subst st2. split; [|by split]. split; [set_solver|].
    exists (λ k, if decide (k = node) then bound else rank k), (S bound).
    intros b [Hb Hbs]. destruct (decide (b = node)) as [->|Hne].
    + split; [lia|]. intros s Hedge. destruct (Hall s Hedge) as [Hs Hns].
      destruct (Hr s) as [Hlt _]; [by split|].
      rewrite decide_False by set_solver. split; [|done]. split; set_solver.
    + destruct (Hr b) as [Hlt Hsucc]; [split; set_solver|]. split; [lia|].
      intros s Hedge. destruct (Hsucc s Hedge) as [[Hs Hns] Hrs].
      rewrite decide_False by set_solver. split; [|done]. split; set_solver.
  - destruct Hinv as [Hsi (rank & bound & Hr)]. split; [set_solver|].
    exists rank, bound. intros b [Hb Hbs]. destruct (Hr b) as [Hlt Hsucc]; [split; set_solver|].
    split; [done|]. intros s Hedge. destruct (Hsucc s Hedge) as [[Hs Hns] Hrs].
    split; [|done]. split; [set_solver|]. intros [->%elem_of_singleton|?]%elem_of_union; set_solver.
Qed.

Lemma succs_dom a b : edge g a b → a ∈ dom g.
Proof.
  unfold edge, succs. intros Hb. apply elem_of_dom.
  destruct (g !! a); [by eexists|]. by apply elem_of_nil in Hb.
Qed.

(** An error names a node reachable from the start that lies on a cycle; with
    a unit of fuel per node not yet visited there is no other error. *)
Lemma dfs_error fuel node visited inStack e :
  size (dom g ∖ visited) < fuel → (∀ s, s ∈ inStack → tc (edge g) s node) →
  dfs g fuel node visited inStack = Err e →
  ∃ k, rtc (edge g) node k ∧ on_cycle g k ∧ e = cycle_err k.
Proof.
  revert node visited inStack. induction fuel as [|fuel IH];
    intros node visited inStack Hf Hpath; [lia|]. cbn [dfs].
  case_bool_decide as Hs.
  { intros [= <-]. exists node. split_and!; [done|by apply Hpath|done]. }
  case_bool_decide as Hv; [done|].
  assert (∀ ds st, (∀ d, d ∈ ds → edge g node d) → node ∈ st.1 → visited ⊆ st.1 →
    st.2 = {[node]} ∪ inStack →
    foldM_result (λ st d, dfs g fuel d st.1 st.2) st ds = Err e →
    ∃ k, rtc (edge g) node k ∧ on_cycle g k ∧ e = cycle_err k) as Hfold.
  { induction ds as [|d ds IHd]; intros [v st] Hds Hnv Hsub Hst; simpl in *; [done|].
    assert (Hd : edge g node d) by (apply Hds; left).
    destruct (dfs g fuel d v st) as [[v' st']|e'] eqn:E; simpl.
    - apply dfs_frame in E as (-> & Hsub' & _).
      apply (IHd (v', st)); simpl; [|set_solver..|done]. intros; apply Hds; by right.
    - intros [= ->]. apply IH in E as (k & Hr & Hk & ->).
      + exists k. split_and!; [|done..]. by eapply rtc_l.
      + assert (dom g ∖ v ⊂ dom g ∖ visited) as Hlt%subset_size; [|lia].
        apply succs_dom in Hd. set_solver.
      + subst st. intros s [->%elem_of_singleton|Hin]%elem_of_union; [by apply tc_once|].
        eapply tc_r; [by apply Hpath|done]. }
  specialize (Hfold (succs g node) ({[node]} ∪ visited, {[node]} ∪ inStack)).
  destruct (foldM_result _ _ _) as [st|e'] eqn:E; simpl; [done|].
  intros [= ->]. apply Hfold; simpl; [done|set_solver|set_solver|done|done].
Qed.

Lemma initial_inv : dfs_inv ∅ ∅.
Proof.
  split; [done|]. exists (λ _, 0), 0. intros b [Hb _]. by apply not_elem_of_empty in Hb.
Qed.

(** No cycle passes through, or is reachable from, a finished node. *)
Lemma finished_acyclic visited inStack rank bound k :
  finished_ranked visited inStack rank bound → finished visited inStack k →
  ∀ k', rtc (edge g) k k' → ¬ on_cycle g k'.
Proof.
  intros Hr Hk k' Hreach Hcycle.
  assert (Hk' : finished visited inStack k').
  { clear Hcycle. induction Hreach as [|a b c Hab Hbc IH]; [done|].
    apply IH. by apply (Hr a Hk). }
  assert (∀ a b, tc (edge g) a b → finished visited inStack a → rank b < rank a) as Hdec.
  { intros a b Ht. induction Ht as [a b Hab|a b c Hab Hbc IH]; intros Ha;
      destruct (Hr a Ha) as [_ Hsucc]; destruct (Hsucc b Hab) as [Hb Hlt]; [done|].
    specialize (IH Hb). lia. }
  specialize (Hdec k' k' Hcycle Hk'). lia.
Qed.

Lemma dfs_fuel_enough visited : size (dom g ∖ visited) < dfs_fuel g.
Proof.
  unfold dfs_fuel. rewrite <- size_dom.
  assert (dom g ∖ visited ⊆ dom g) as Hle%subseteq_size by set_solver. lia.
Qed.

(** ** Termination *)

(** More fuel changes nothing once there is enough. *)
Lemma dfs_more_fuel fuel node visited inStack r :
  dfs g fuel node visited inStack = r → r ≠ Err out_of_fuel → dfs g (S fuel) node visited inStack = r.
Proof.
  revert node visited inStack r. induction fuel as [|fuel IH]; intros node visited inStack r Hr Hne.
  - revert Hr. cbn [dfs]. do 2 (case_bool_decide; [done|]). by intros <-.
  - revert Hr. cbn [dfs]. do 2 (case_bool_decide; [done|]). intros Hr. rewrite <- Hr. rewrite <- Hr in Hne.
    assert (∀ ds st, foldM_result (λ st d, dfs g fuel d st.1 st.2) st ds ≠ Err out_of_fuel →
      foldM_result (λ st d, dfs g (S fuel) d st.1 st.2) st ds = foldM_result (λ st d, dfs g fuel d st.1 st.2) st ds) as Hfold.
    { induction ds as [|d ds IHd]; intros st Hst; cbn [foldM_result]; [done|].
      cbn [foldM_result] in Hst. destruct (dfs g fuel d st.1 st.2) as [st'|e] eqn:E.
      - rewrite (IH _ _ _ _ E) by done. by apply IHd.
      - rewrite (IH _ _ _ _ E) by done. done. }
    rewrite Hfold; [done|]. by intros Heq; rewrite Heq in Hne.
Qed.

(** A call visits a node with successors it had not, or ends at once. *)
Lemma dfs_enough fuel node visited inStack :
  size (dom g ∖ visited) < fuel → dfs g fuel node visited inStack ≠ Err out_of_fuel.
Proof.
  revert node visited inStack. induction fuel as [|fuel IH]; intros node visited inStack Hf; [lia|].
  cbn [dfs]. case_bool_decide; [done|]. case_bool_decide as Hv; [done|].
  assert (∀ ds st, size (dom g ∖ st.1) < fuel →
    foldM_result (λ st d, dfs g fuel d st.1 st.2) st ds ≠ Err out_of_fuel) as Hfold.
  { induction ds as [|d ds IHd]; intros st Hst; cbn [foldM_result]; [done|].
    destruct (dfs g fuel d st.1 st.2) as [[v' st']|e] eqn:E; cbn [mbind result_bind].
    - apply dfs_frame in E as (_ & Hsub & _). apply IHd. simpl.
      assert (dom g ∖ v' ⊆ dom g ∖ st.1) as Hle%subseteq_size by set_solver. lia.
    - intros [= ->]. by eapply IH. }
  destruct (decide (node ∈ dom g)) as [Hn|Hn].
  - assert (size (dom g ∖ ({[node]} ∪ visited)) < size (dom g ∖ visited)) as Hlt.
    { apply subset_size. set_solver. }
    specialize (Hfold (succs g node) ({[node]} ∪ visited, {[node]} ∪ inStack) ltac:(simpl; lia)).
    destruct (foldM_result _ _ _) as [st|e]; [done|]. intros [= ->]. done.
  - apply not_elem_of_dom in Hn. unfold succs. rewrite Hn. done.
Qed.

(** The recursive search ends: its calls are never nested deeper than the number
    of nodes and one, from any state of its two maps, so more fuel leaves its
    answer the same. *)
Lemma dfs_terminates n node visited inStack :
  dfs g (dfs_fuel g) node visited inStack ≠ Err out_of_fuel ∧
  dfs g (n + dfs_fuel g) node visited inStack = dfs g (dfs_fuel g) node visited inStack.
Proof.
  assert (dfs g (dfs_fuel g) node visited inStack ≠ Err out_of_fuel) as Hne
    by apply dfs_enough, dfs_fuel_enough. split; [done|].
  induction n as [|n IH]; [done|]. by apply dfs_more_fuel; [|].
Qed.
End dfs_spec.

Lemma hasCycleFrom_spec g start :
  match hasCycleFrom g start with
  | None => ∀ k, rtc (edge g) start k → ¬ on_cycle g k
  | Some e => ∃ k, rtc (edge g) start k ∧ on_cycle g k ∧ e = cycle_err k
  end.
Proof.
  unfold hasCycleFrom. destruct (dfs _ _ _ _ _) as [[v st]|e] eqn:E.
  - apply dfs_finished in E as [[_ (rank & bound & Hr)] Hfin]; [|apply initial_inv].
    by eapply finished_acyclic.
  - apply dfs_error in E; [done|apply dfs_fuel_enough|]. intros s Hs. set_solver.
Qed.

Section whole_graph.
Context `{!MapRange ObjectKey} (g : graph).

Local Abbreviation visit := (λ (st : gset ObjectKey * gset ObjectKey) key,
  if bool_decide (key ∈ st.1) then Ok st else dfs g (dfs_fuel g) key st.1 st.2).

Lemma visit_all ks st st1 :
  foldM_result visit st ks = Ok st1 → dfs_inv g st.1 st.2 → st.2 = ∅ →
  dfs_inv g st1.1 st1.2 ∧ st1.2 = ∅ ∧ st.1 ⊆ st1.1 ∧ ∀ k, k ∈ ks → k ∈ st1.1.
Proof.
  revert st. induction ks as [|k ks IH]; intros st; cbn [foldM_result].
  - intros <-%Ok_inj ? ?. split_and!; try done. intros k Hk. by apply elem_of_nil in Hk.
  - intros ([v2 st2] & Hk & Hrest)%bind_Ok Hi Hst.
    assert (dfs_inv g v2 st2 ∧ st2 = ∅ ∧ st.1 ⊆ v2 ∧ k ∈ v2) as (Hi2 & Hst2 & Hsub2 & Hk2).
    { revert Hk. case_bool_decide as Hkv.
      - intros Heq%Ok_inj. by subst st.
      - intros Hd. pose proof (dfs_frame _ _ _ _ _ _ _ Hd) as (-> & ? & ?).
        apply dfs_finished in Hd as [? _]; done. }
    apply IH in Hrest as (? & ? & ? & Hall); [|done..]. simpl in *.
    split_and!; try done; [set_solver|].
    intros k' [->|?]%elem_of_cons; [set_solver|auto].
Qed.

Lemma visit_error ks st e :
  foldM_result visit st ks = Err e → st.2 = ∅ → ∃ k, on_cycle g k ∧ e = cycle_err k.
Proof.
  revert st. induction ks as [|k ks IH]; intros st; cbn [foldM_result]; [done|]. intros He Hst.
  case_bool_decide as Hkv; [by apply (IH st)|].
  destruct (dfs g (dfs_fuel g) k st.1 st.2) as [[v' st']|e'] eqn:E.
  - apply dfs_frame in E as (-> & _ & _). by eapply (IH (v', st.2)).
  - injection He as ->. apply dfs_error in E as (k' & _ & ? & ?); [by exists k'| |].
    + apply dfs_fuel_enough.
    + rewrite Hst. intros s Hs. set_solver.
Qed.

Lemma hasCycle_ranked :
  hasCycle g = None → ∃ rank : ObjectKey → nat, ∀ a b, edge g a b → rank b < rank a.
Proof.
  unfold hasCycle. destruct (foldM_result _ _ _) as [st|] eqn:E; [|done]. intros _.
  apply visit_all in E as ([_ (rank & bound & Hr)] & Hst & _ & Hall); [|apply initial_inv|done].
  exists rank. intros a b Hab. pose proof (succs_dom _ _ _ Hab) as Ha.
  apply (Hr a); [|done]. split; [|set_solver]. apply Hall. by apply range_seq_elem.
Qed.

Lemma hasCycle_spec :
  match hasCycle g with
  | None => ∀ k, ¬ on_cycle g k
  | Some e => ∃ k, on_cycle g k ∧ e = cycle_err k
  end.
Proof.
  destruct (hasCycle g) as [e|] eqn:E.
  - unfold hasCycle in E. destruct (foldM_result _ _ _) eqn:Ef; [done|].
    injection E as ->. by eapply visit_error.
  - apply hasCycle_ranked in E as [rank Hr]. intros k Hk.
    assert (∀ a b, tc (edge g) a b → rank b < rank a) as Hdec.
    { induction 1 as [a b Hab|a b c Hab _ IH]; [by apply Hr|]. apply Hr in Hab. lia. }
    specialize (Hdec k k Hk). lia.
Qed.

(** C23: the search of the whole graph, whatever order its keys are ranged over
    in, reports no error exactly when the graph has no cycle, and names a node
    on a cycle otherwise. *)
Theorem hasCycle_correct :
  match hasCycle g with
  | None => ∀ k, ¬ on_cycle g k
  | Some e => ∃ k, on_cycle g k ∧ e = cycle_err k
  end.
Proof. apply hasCycle_spec. Qed.
End whole_graph.
