(* ===== verification/ServiceValidation.v ===== *)
(** * Admission checks of services and their owners
    ([src/internal/util/validation/services.go] and [multiclusterservice.go]).

    The checks the webhooks and the controllers run before services are
    deployed: templates and chains exist and are valid, every dependency is
    defined, no dependency cycle, and no MultiClusterService others depend on
    is deleted. *)

From S2P Require Import Prelude Api ServiceBasics ServiceDeps ServiceOrder ServiceUpgrades DependencyGraph.

(** ** Templates and chains *)

Definition errServicesHaveValidTemplates : gerror := ErrNew "some services have invalid templates".
Definition errServicesDependency : gerror := ErrNew "some services have invalid dependencies".

(** [errors.Join(errs, err)] with either possibly nil. *)
Definition join_opt (errs err : option gerror) : option gerror := errors_Join [errs; err].

Section templates.
Context {C : Type} `{!Getter C ServiceTemplate} `{!Getter C ServiceTemplateChain} (cl : C).
(** [validation.ValidateNamespaceName] wrapped in [field.Invalid]: the errors
    of a name, for the field given. *)
Variable invalid_name : string → string → list gerror.

Definition invalid_template (key : ObjectKey) (t : ServiceTemplate) : gerror :=
  ErrNew ("the ServiceTemplate " +:+ key_string key +:+ " is invalid with the error: " +:+
          tv_validationError (stst_validation (stpl_status t))).

Definition template_valid (t : ServiceTemplate) : bool := tv_valid (stst_validation (stpl_status t)).

Definition validateServiceTemplate (svc : Service) (ns : string) : option gerror :=
  let key := mkKey ns (svc_template svc) in
  match c_get (T:=ServiceTemplate) cl key with
  | Err e => Some (ErrWrap ("failed to get ServiceTemplate " +:+ key_string key +:+ ": ") e)
  | Ok t => if template_valid t then None else Some (invalid_template key t)
  end.

(** The loop over the supported templates of that name, up to the first that
    can be read and is valid: the errors before it, the key last looked up
    and whether one was found. *)
Fixpoint matching_template (ns template : string) (supported : list SupportedTemplate)
    (errs : option gerror) (key : ObjectKey) : option gerror * ObjectKey * bool :=
  match supported with
  | [] => (errs, key, false)
  | t :: supported =>
      if negb (bool_decide (spt_name t = template))
      then matching_template ns template supported errs key
      else
        let key := mkKey ns (spt_name t) in
        match c_get (T:=ServiceTemplate) cl key with
        | Err e => matching_template ns template supported
                     (join_err errs (ErrWrap ("failed to get ServiceTemplate " +:+ key_string key +:+ ": ") e)) key
        | Ok tpl =>
            if negb (template_valid tpl)
            then matching_template ns template supported (join_err errs (invalid_template key tpl)) key
            else (errs, key, true)
        end
  end.

Definition validateServiceTemplateChain (svc : Service) (ns : string) : option gerror :=
  let key := mkKey ns (svc_templateChain svc) in
  match c_get (T:=ServiceTemplateChain) cl key with
  | Err e => Some (ErrWrap ("failed to get ServiceTemplateChain " +:+ key_string key +:+ ": ") e)
  | Ok chain =>
      if negb (tcs_valid (tc_status chain)) then
        Some (ErrNew ("the ServiceTemplateChain " +:+ key_string key +:+
          " is invalid with the error: " +:+ tcs_validationError (tc_status chain)))
      else
        let '(errs, key, found) :=
          matching_template ns (svc_template svc) (tc_supportedTemplates (tc_spec chain)) None key in
        if found then errs
        else join_err errs (ErrNew ("the ServiceTemplateChain " +:+ key_string key +:+
               " does not support ServiceTemplate " +:+ svc_template svc))
  end.

Definition name_errors (field value : string) (errs : option gerror) : option gerror :=
  if bool_decide (value = "") then errs else foldl join_err errs (invalid_name field value).

Definition ServicesHaveValidTemplates (services : list Service) (ns : string) : option gerror :=
  let errs := foldl (λ errs svc,
    let errs := name_errors "namespace" (svc_namespace svc) errs in
    let errs := name_errors "name" (svc_name svc) errs in
    let errs := join_opt errs (validateServiceTemplate svc ns) in
    if bool_decide (svc_templateChain svc = "") then errs
    else join_opt errs (validateServiceTemplateChain svc ns)) None services in
  match errs with
  | Some e => errors_Join [Some errServicesHaveValidTemplates; Some e]
  | None => None
  end.
End templates.

(** A list of errors joined one after the other: nil exactly when all are. *)
Lemma join_opt_both a b : join_opt a b = None ↔ a = None ∧ b = None.
Proof. destruct a, b; split; try done; by intros []. Qed.
Lemma foldl_join_None errs l : foldl join_err errs l = None ↔ errs = None ∧ l = [].
Proof.
  revert errs. induction l as [|e l IH]; intros errs; simpl; [tauto|].
  rewrite IH. split; [by intros [?%join_err_ne _]|by intros [_ ?]].
Qed.

Section template_properties.
Context {C : Type} `{!Getter C ServiceTemplate} `{!Getter C ServiceTemplateChain} (cl : C).
Variable invalid_name : string → string → list gerror.

(** What one service has to refer to. *)
Record service_templates_ok (ns : string) (svc : Service) : Prop := {
  sto_namespace : svc_namespace svc = "" ∨ invalid_name "namespace" (svc_namespace svc) = [];
  sto_name : svc_name svc = "" ∨ invalid_name "name" (svc_name svc) = [];
  sto_template : ∃ t, c_get cl (mkKey ns (svc_template svc)) = Ok t ∧ template_valid t = true;
  sto_chain : svc_templateChain svc = "" ∨ validateServiceTemplateChain cl svc ns = None }.

Lemma name_errors_None field value errs :
  name_errors invalid_name field value errs = None ↔ errs = None ∧ (value = "" ∨ invalid_name field value = []).
Proof. unfold name_errors. case_bool_decide; [naive_solver|]. rewrite foldl_join_None. naive_solver. Qed.

Lemma validateServiceTemplate_None svc ns :
  validateServiceTemplate cl svc ns = None ↔
  ∃ t, c_get cl (mkKey ns (svc_template svc)) = Ok t ∧ template_valid t = true.
Proof.
  unfold validateServiceTemplate.
  destruct (c_get _ _) as [t|e]; [|split; [done|]; by intros (? & ? & _)].
  destruct (template_valid t) eqn:E; split; [eauto|done|done|]. intros (t' & [= <-] & ?). congruence.
Qed.

(** Services pass exactly when each has valid names and refers to templates
    that can be read and are valid. *)
Lemma ServicesHaveValidTemplates_None services ns :
  ServicesHaveValidTemplates cl invalid_name services ns = None ↔
  ∀ svc, svc ∈ services → service_templates_ok ns svc.
Proof.
  unfold ServicesHaveValidTemplates.
  match goal with |- context [foldl ?f None services] => set (step := f) end.
  assert (∀ errs svc, step errs svc = None ↔ errs = None ∧ service_templates_ok ns svc) as Hstep.
  { intros errs svc. subst step. cbn beta zeta. case_bool_decide as Hc.
    - rewrite join_opt_both, !name_errors_None, validateServiceTemplate_None. split.
      + intros [[[-> ?] ?] ?]. split; [done|]. split; auto.
      + intros [-> [? ? ? ?]]. done.
    - rewrite !join_opt_both, !name_errors_None, validateServiceTemplate_None. split.
      + intros [[[[-> ?] ?] ?] ?]. split; [done|]. split; auto.
      + intros [-> [? ? ? [?|?]]]; done. }
  assert (∀ l errs, foldl step errs l = None ↔ errs = None ∧ ∀ svc, svc ∈ l → service_templates_ok ns svc) as Hfold.
  { induction l as [|x l IH]; intros errs; cbn [foldl].
    - split; [|naive_solver]. intros ->. split; [done|]. intros svc Hx. by apply elem_of_nil in Hx.
    - rewrite IH, Hstep. setoid_rewrite elem_of_cons. naive_solver. }
  specialize (Hfold services None). destruct (foldl _ _ _); naive_solver.
Qed.
End template_properties.

(** ** Service dependencies *)

Section dependencies.
Context `{!MapRange ObjectKey}.

Definition dependsOnMap (services : list Service) : graph :=
  index_by svc_key (λ s, dep_key <$> svc_dependsOn s) services.

Definition undefined_dependency (d svc : ObjectKey) : gerror :=
  ErrNew ("dependency " +:+ key_string d +:+ " of service " +:+ key_string svc +:+
          " is not defined as a service").

Definition validateServiceDependency (services : list Service) : option gerror :=
  let m := dependsOnMap services in
  foldl (λ err svc, foldl (λ err d,
      match m !! d with
      | Some _ => err
      | None => join_err err (undefined_dependency d svc)
      end) err (succs m svc)) None (range_seq 0 (dom m)).

(** Here duplicates of a service add up, and one without dependencies is no key. *)
Definition dependency_graph (services : list Service) : graph :=
  foldl (λ m svc, foldl (λ m d, <[svc_key svc := succs m (svc_key svc) ++ [dep_key d]]> m)
                    m (svc_dependsOn svc)) ∅ services.

Definition validateServiceDependencyCycle (services : list Service) : option gerror :=
  match services with
  | [] => None
  | _ => hasCycle (dependency_graph services)
  end.

Definition ValidateServiceDependencyOverall (services : list Service) : option gerror :=
  match validateServiceDependency services with
  | Some e => errors_Join [Some errServicesDependency;
                           Some (ErrWrap "failed service dependency validation: " e)]
  | None =>
      match validateServiceDependencyCycle services with
      | Some e => errors_Join [Some errServicesDependency;
                               Some (ErrWrap "failed service dependency cycle validation: " e)]
      | None => None
      end
  end.
End dependencies.

(** ** MultiClusterService dependencies *)

Definition mcs_name (m : MultiClusterService) : string := om_name (mcs_meta m).
Definition mcs_key (m : MultiClusterService) : ObjectKey := mkKey "" (mcs_name m).
Definition mcs_deps (m : MultiClusterService) : list string := mcs_dependsOn (mcs_spec m).

Definition generateMCSDependencyGraph (mcsList : list MultiClusterService) : graph :=
  index_by mcs_key (λ m, mkKey "" <$> mcs_deps m) mcsList.

Definition add_dependent (m : MultiClusterService) (g : graph) (d : string) : graph :=
  <[mkKey "" d := succs g (mkKey "" d) ++ [mcs_key m]]> g.

Definition generateReverseMCSDependencyGraph (mcsList : list MultiClusterService) : graph :=
  foldl (λ g m,
    let g := match g !! mcs_key m with Some _ => g | None => <[mcs_key m := []]> g end in
    foldl (add_dependent m) g (mcs_deps m)) ∅ mcsList.

Definition validateMCSDependency (mcs : MultiClusterService) (mcsList : list MultiClusterService)
  : option gerror :=
  let g := generateMCSDependencyGraph mcsList in
  foldl (λ err d,
    match g !! mkKey "" d with
    | Some _ => err
    | None => join_err err (ErrNew ("dependency " +:+ key_string (mkKey "" d) +:+ " of " +:+
                key_string (meta_key (mcs_meta mcs)) +:+ " is not defined"))
    end) None (mcs_deps mcs).

Definition validateMCSDependencyCycle (mcs : MultiClusterService) (mcsList : list MultiClusterService)
  : option gerror :=
  match mcs_deps mcs with
  | [] => None
  | _ => hasCycleFrom (generateMCSDependencyGraph (mcsList ++ [mcs])) (mcs_key mcs)
  end.

Section mcs_checks.
Context {C : Type} `{!Lister C MultiClusterService} (c : C).

Definition ValidateMCSDependencyOverall (mcs : MultiClusterService) : option gerror :=
  match c_list c "" (λ _, true) with
  | Err e => Some (ErrWrap "failed to list MultiClusterServices: " e)
  | Ok mcsList =>
      match validateMCSDependency mcs mcsList with
      | Some e => Some (ErrWrap "failed MCS dependency validation: " e)
      | None =>
          match validateMCSDependencyCycle mcs mcsList with
          | Some e => Some (ErrWrap "failed MCS dependency cycle validation: " e)
          | None => None
          end
      end
  end.

Definition ValidateMCSDelete (mcs : MultiClusterService) : option gerror :=
  match c_list c "" (λ _, true) with
  | Err e => Some (ErrWrap "failed to list MultiClusterServices: " e)
  | Ok mcsList =>
      let dependents := succs (generateReverseMCSDependencyGraph mcsList) (mcs_key mcs) in
      if bool_decide (0 < length dependents)
      then Some (ErrNew ("failed to delete MultiClusterService " +:+ key_string (mcs_key mcs) +:+
             " because " +:+ pretty (length dependents) +:+
             " other MultiClusterServices depend on it"))
      else None
  end.
End mcs_checks.

(** ** What the checks establish *)

Lemma succs_insert_eq g k l : succs (<[k := l]> g) k = l.
Proof. unfold succs. by rewrite lookup_insert_eq. Qed.
Lemma succs_insert_ne g k k' l : k ≠ k' → succs (<[k := l]> g) k' = succs g k'.
Proof. intros Hne. unfold succs. by rewrite lookup_insert_ne. Qed.

Lemma add_edges_succs key ds (m : graph) k :
  succs (foldl (λ m d, <[key := succs m key ++ [dep_key d]]> m) m ds) k =
  succs m k ++ (if bool_decide (k = key) then dep_key <$> ds else []).
Proof.
  revert m. induction ds as [|d ds IH]; intros m; simpl.
  - by case_bool_decide; rewrite app_nil_r.
  - rewrite IH. case_bool_decide as Hk.
    + subst. by rewrite succs_insert_eq, <- app_assoc.
    + by rewrite succs_insert_ne.
Qed.

(** The cycle check works on the dependency relation of the list. *)
Lemma dependency_graph_edge services a b :
  edge (dependency_graph services) a b ↔ depends_on services a b.
Proof.
  unfold edge, dependency_graph. induction services as [|s l IH] using rev_ind.
  - split; [by intros ?%elem_of_nil|]. intros (s & Hs & _). by apply elem_of_nil in Hs.
  - rewrite foldl_app. simpl. rewrite add_edges_succs, elem_of_app, IH. split.
    + intros [(s' & Hs' & ?)|Hb]; [exists s'; set_solver|].
      case_bool_decide as Hk; [|by apply elem_of_nil in Hb]. exists s. set_solver.
    + intros (s' & [Hs'| ->%list_elem_of_singleton]%elem_of_app & Hk & Hb).
      * left. by exists s'.
      * right. by rewrite bool_decide_eq_true_2.
Qed.

(** A loop that collects an error for every key missing from a map. *)
Lemma fold_missing_None {A} (g : graph) (key : A → ObjectKey) (missing : A → gerror) l err :
  foldl (λ err x, match g !! key x with Some _ => err | None => join_err err (missing x) end) err l = None ↔
  err = None ∧ ∀ x, x ∈ l → is_Some (g !! key x).
Proof.
  revert err. induction l as [|x l IH]; intros err; simpl.
  - split; [|tauto]. intros ->. split; [done|]. intros x Hx. by apply elem_of_nil in Hx.
  - rewrite IH. destruct (g !! key x) eqn:E.
    + split; intros [-> Hall]; (split; [done|]); intros y Hy; [|apply Hall; by right].
      apply elem_of_cons in Hy as [->|]; [by eexists|auto].
    + split; [by intros [?%join_err_ne _]|]. intros [_ Hall].
      destruct (Hall x ltac:(left)) as [? Hs]. congruence.
Qed.

Section service_dependencies.
Context `{!MapRange ObjectKey}.

Lemma validateServiceDependency_fold (m : graph) ks err :
  foldl (λ err svc, foldl (λ err d,
      match m !! d with
      | Some _ => err
      | None => join_err err (undefined_dependency d svc)
      end) err (succs m svc)) err ks = None ↔
  err = None ∧ ∀ k d, k ∈ ks → d ∈ succs m k → is_Some (m !! d).
Proof.
  revert err. induction ks as [|k ks IH]; intros err; simpl.
  - split; [|tauto]. intros ->. split; [done|]. intros k d Hk. by apply elem_of_nil in Hk.
  - rewrite IH, (fold_missing_None m id (λ d, undefined_dependency d k)). split.
    + intros [[-> H1] H2]. split; [done|]. intros k' d [->|Hk']%elem_of_cons Hd; eauto.
    + intros [-> Hall]. split_and!; [done| |]; intros; eapply Hall; try done; by (left || right).
Qed.

Lemma validateServiceDependency_None services :
  NoDup (svc_key <$> services) →
  validateServiceDependency services = None ↔ deps_present services.
Proof.
  intros Hnd. unfold validateServiceDependency.
  rewrite validateServiceDependency_fold. unfold deps_present. split.
  - intros [_ Hall] svc d Hsvc Hd.
    assert (dependsOnMap services !! svc_key svc = Some (dep_key <$> svc_dependsOn svc)) as Hl
      by by apply (index_by_lookup svc_key (λ s, dep_key <$> svc_dependsOn s)).
    apply (proj1 (index_by_is_Some svc_key (λ s, dep_key <$> svc_dependsOn s) services (dep_key d))).
    apply (Hall (svc_key svc)).
    + apply range_seq_elem, elem_of_dom. by eexists.
    + unfold succs. rewrite Hl. by apply list_elem_of_fmap_2.
  - intros Hp. split; [done|]. intros k d _ Hd. unfold succs in Hd.
    destruct (dependsOnMap services !! k) as [ds|] eqn:E; [|by apply elem_of_nil in Hd].
    apply index_by_Some in E as (svc & Hsvc & <- & <-). simpl in Hd.
    apply list_elem_of_fmap in Hd as (x & -> & Hx).
    apply index_by_is_Some. by eapply Hp.
Qed.

Lemma validateServiceDependencyCycle_None services :
  deps_present services →
  validateServiceDependencyCycle services = None ↔ acyclic_deps services.
Proof.
  intros Hp. assert (validateServiceDependencyCycle services = hasCycle (dependency_graph services)) as ->.
  { unfold validateServiceDependencyCycle. destruct services; [|done].
    unfold hasCycle, dependency_graph. simpl.
    assert (range_seq (K:=ObjectKey) 0 (dom (∅ : graph)) = []) as ->; [|done].
    apply Permutation_nil_r. rewrite range_seq_perm, dom_empty_L. by rewrite elements_empty. }
  split.
  - intros (rank & Hr)%hasCycle_ranked. exists rank. intros k k' Hd _.
    by apply Hr, dependency_graph_edge.
  - intros (rank & Hr).
    assert (∀ a b, edge (dependency_graph services) a b → rank b < rank a) as Hdec.
    { intros a b Hab%dependency_graph_edge. apply Hr; [done|].
      destruct Hab as (s & Hs & _ & (d & -> & Hd)%list_elem_of_fmap). by eapply Hp. }
    pose proof (hasCycle_spec (dependency_graph services)) as Hc.
    destruct (hasCycle (dependency_graph services)) as [e|]; [|done].
    destruct Hc as (k & Hk & _). exfalso.
    assert (∀ a b, tc (edge (dependency_graph services)) a b → rank b < rank a) as Htc.
    { induction 1 as [a b Hab|a b c Hab _ IH]; [by apply Hdec|]. apply Hdec in Hab. lia. }
    specialize (Htc k k Hk). lia.
Qed.

Lemma ValidateServiceDependencyOverall_None services :
  NoDup (svc_key <$> services) →
  ValidateServiceDependencyOverall services = None ↔
  deps_present services ∧ acyclic_deps services.
Proof.
  intros Hnd. unfold ValidateServiceDependencyOverall.
  pose proof (validateServiceDependency_None services Hnd) as Hdep.
  pose proof (validateServiceDependencyCycle_None services) as Hcyc.
  destruct (validateServiceDependency services) as [e|]; [split; [done|]; naive_solver|].
  destruct (validateServiceDependencyCycle services) as [e|]; [|naive_solver].
  split; [done|]. intros [Hp Ha]. by apply Hcyc in Ha.
Qed.

(** C24: a list of services passes validation exactly when every dependency
    names a service of the list and no dependency cycle runs through it,
    whatever order the maps are ranged over in. *)
Theorem ValidateServiceDependencyOverall_correct services :
  NoDup (svc_key <$> services) →
  ValidateServiceDependencyOverall services = None ↔
  deps_present services ∧ acyclic_deps services.
Proof. apply ValidateServiceDependencyOverall_None. Qed.

(** For services that passed validation the ServiceSet spec is ordered by
    dependency without further assumptions: a service comes after every
    listed one it depends on, and filtering them reports no missing one. *)
Lemma validated_services_ordered stored filtered desired i j a b :
  NoDup (svc_key <$> desired) →
  ValidateServiceDependencyOverall desired = None →
  (∀ s, s ∈ filtered → sv_key s ∈ svc_key <$> desired) →
  BuildServicesList stored filtered desired !! i = Some a →
  BuildServicesList stored filtered desired !! j = Some b →
  depends_on desired (sv_key b) (sv_key a) →
  missing_dependency desired = None ∧ i < j.
Proof.
  intros Hnd Hv Hf Ha Hb Hd. apply ValidateServiceDependencyOverall_None in Hv as [Hp Hac]; [|done].
  split; [by apply missing_dependency_None|].
  by eapply dependency_ordered.
Qed.
End service_dependencies.

(** ** MultiClusterServices *)

Lemma add_dependents_succs m ds g k :
  succs (foldl (add_dependent m) g ds) k =
  succs g k ++ ((λ _, mcs_key m) <$> filter (λ d, mkKey "" d = k) ds).
Proof.
  revert g. induction ds as [|d ds IH]; intros g; simpl; [by rewrite app_nil_r|].
  rewrite IH. unfold add_dependent. rewrite filter_cons. case_decide as Hd.
  - subst. rewrite succs_insert_eq. simpl. by rewrite <- app_assoc.
  - by rewrite succs_insert_ne.
Qed.

(** The dependents of a name: one entry per listed dependency on it. *)
Lemma reverse_graph_succs l n :
  succs (generateReverseMCSDependencyGraph l) (mkKey "" n) =
  (m ← l; (λ _, mcs_key m) <$> filter (λ d, mkKey "" d = mkKey "" n) (mcs_deps m)).
Proof.
  unfold generateReverseMCSDependencyGraph. induction l as [|m l IH] using rev_ind; [done|].
  rewrite foldl_app, bind_app. simpl. rewrite add_dependents_succs, app_nil_r, <- IH.
  f_equal. destruct (_ !! mcs_key m) eqn:E; [done|].
  destruct (decide (mcs_key m = mkKey "" n)) as [Hk|Hk].
  - rewrite Hk in *. rewrite succs_insert_eq. unfold succs. by rewrite E.
  - by rewrite succs_insert_ne.
Qed.

Lemma generateMCSDependencyGraph_is_Some l k :
  is_Some (generateMCSDependencyGraph l !! k) ↔ ∃ m, m ∈ l ∧ mcs_key m = k.
Proof. apply index_by_is_Some. Qed.

Section mcs_properties.
Context {C : Type} `{!Lister C MultiClusterService} (c : C).

(** Deleting a MultiClusterService is refused exactly when some existing
    one names it among its dependencies (or the list cannot be read). *)
Lemma ValidateMCSDelete_correct mcs mcsList :
  c_list c "" (λ _, true) = Ok mcsList →
  ValidateMCSDelete c mcs = None ↔ ∀ m, m ∈ mcsList → mcs_name mcs ∉ mcs_deps m.
Proof.
  intros Hl. unfold ValidateMCSDelete. rewrite Hl. cbn zeta.
  change (mcs_key mcs) with (mkKey "" (mcs_name mcs)).
  rewrite (reverse_graph_succs mcsList (mcs_name mcs)).
  assert (∀ m d, m ∈ mcsList → d ∈ filter (λ d, mkKey "" d = mkKey "" (mcs_name mcs)) (mcs_deps m) ↔
    (m ∈ mcsList ∧ d = mcs_name mcs ∧ mcs_name mcs ∈ mcs_deps m)) as Hdep.
  { intros m d Hm. rewrite list_elem_of_filter. split.
    - intros [[= ->] Hd]. done.
    - by intros (_ & -> & ?). }
  case_bool_decide as Hlen.
  - split; [done|]. intros Hno. exfalso.
    apply length_pos_elem in Hlen as (k & (m & Hk & Hm)%list_elem_of_bind).
    apply list_elem_of_fmap in Hk as (d & _ & Hd).
    apply Hdep in Hd as (_ & _ & Hin); [|done]. by apply (Hno m Hm).
  - split; [|done]. intros _ m Hm Hin. apply Hlen, length_pos_elem.
    exists (mcs_key m). apply list_elem_of_bind. exists m. split; [|done].
    apply list_elem_of_fmap. exists (mcs_name mcs). split; [done|]. by apply Hdep.
Qed.

(** A MultiClusterService passes the dependency check exactly when every
    MultiClusterService it depends on exists and no dependency cycle can be
    reached from it; a cycle elsewhere does not block it. *)
Lemma ValidateMCSDependencyOverall_correct mcs mcsList :
  c_list c "" (λ _, true) = Ok mcsList →
  ValidateMCSDependencyOverall c mcs = None ↔
  (∀ d, d ∈ mcs_deps mcs → ∃ m, m ∈ mcsList ∧ mcs_key m = mkKey "" d) ∧
  (mcs_deps mcs ≠ [] →
   ∀ k, rtc (edge (generateMCSDependencyGraph (mcsList ++ [mcs]))) (mcs_key mcs) k →
        ¬ on_cycle (generateMCSDependencyGraph (mcsList ++ [mcs])) k).
Proof.
  intros Hl. unfold ValidateMCSDependencyOverall. rewrite Hl.
  assert (validateMCSDependency mcs mcsList = None ↔
    ∀ d, d ∈ mcs_deps mcs → ∃ m, m ∈ mcsList ∧ mcs_key m = mkKey "" d) as Hdep.
  { unfold validateMCSDependency. rewrite (fold_missing_None _ (mkKey "")).
    setoid_rewrite generateMCSDependencyGraph_is_Some. naive_solver. }
  destruct (validateMCSDependency mcs mcsList) as [e|]; [split; [done|]; intros [Hd _]; by apply Hdep in Hd|].
  unfold validateMCSDependencyCycle.
  pose proof (hasCycleFrom_spec (generateMCSDependencyGraph (mcsList ++ [mcs])) (mcs_key mcs)) as Hc.
  destruct (mcs_deps mcs) as [|d ds] eqn:Eds; [split; [|done]; intros _; split; [by apply Hdep|done]|].
  destruct (hasCycleFrom _ _) as [e|].
  - split; [done|]. intros [_ Hno]. destruct Hc as (k & Hr & Hk & _). by destruct (Hno ltac:(done) k Hr).
  - split; [|done]. intros _. split; [by apply Hdep|done].
Qed.
End mcs_properties.

(** ** Witnesses *)

Lemma ValidateServiceDependencyOverall_correct_witness :
  ValidateServiceDependencyOverall unsorted_example = None ↔
  deps_present unsorted_example ∧ acyclic_deps unsorted_example.
Proof.
  apply ValidateServiceDependencyOverall_correct. apply (bool_decide_unpack _). vm_compute. exact I.
Defined.

Lemma validated_services_ordered_witness :
  ValidateServiceDependencyOverall unsorted_example = None ∧
  missing_dependency unsorted_example = None ∧ 1 < 2.
Proof.
  split; [vm_compute; reflexivity|].
  apply (validated_services_ordered merge_stored merge_filtered unsorted_example 1 2
    (simple_stored "cache" "cache-1" "1") (simple_stored "web" "web-1" "1")).
  - apply (bool_decide_unpack _). vm_compute. exact I.
  - vm_compute. reflexivity.
  - intros s ->%list_elem_of_singleton. apply (bool_decide_unpack _). vm_compute. exact I.
  - vm_compute. reflexivity.
  - vm_compute. reflexivity.
  - exists (simple_service "web" "web-1" "1" ["db"; "cache"]).
    split_and!; [left|reflexivity|apply (bool_decide_unpack _); vm_compute; exact I].
Defined.

Definition simple_mcs (name : string) (deps : list string) : MultiClusterService :=
  mkMCS (named_meta "" name)
    (mkMCSSpec (mkSelector ∅ []) deps (empty_service_spec []) false) (mkMCSStatus [] [] [] [] 0).

(** MultiClusterServices as the only content of a cluster. *)
#[export] Instance list_of_mcs : Lister (list MultiClusterService) MultiClusterService :=
  λ c _ p, Ok (filterb p c).

(** [b] and [c] depend on each other, [b] also on [a]; [a] on [d]. *)
Definition mcs_example : list MultiClusterService :=
  [simple_mcs "a" ["d"]; simple_mcs "b" ["a"; "c"]; simple_mcs "c" ["b"]; simple_mcs "d" []].

Lemma ValidateMCSDelete_correct_witness :
  is_Some (ValidateMCSDelete mcs_example (simple_mcs "a" ["d"])) ∧
  (ValidateMCSDelete mcs_example (simple_mcs "a" ["d"]) = None ↔
   ∀ m, m ∈ mcs_example → "a" ∉ mcs_deps m).
Proof.
  split; [vm_compute; eauto|].
  apply (ValidateMCSDelete_correct mcs_example (simple_mcs "a" ["d"]) mcs_example). reflexivity.
Defined.

Lemma ValidateMCSDependencyOverall_correct_witness :
  ValidateMCSDependencyOverall mcs_example (simple_mcs "a" ["d"]) = None ∧
  is_Some (ValidateMCSDependencyOverall mcs_example (simple_mcs "b" ["a"; "c"])) ∧
  (ValidateMCSDependencyOverall mcs_example (simple_mcs "a" ["d"]) = None ↔
   (∀ d, d ∈ ["d"] → ∃ m, m ∈ mcs_example ∧ mcs_key m = mkKey "" d) ∧
   (["d"] ≠ [] →
    ∀ k, rtc (edge (generateMCSDependencyGraph (mcs_example ++ [simple_mcs "a" ["d"]]))) (mkKey "" "a") k →
         ¬ on_cycle (generateMCSDependencyGraph (mcs_example ++ [simple_mcs "a" ["d"]])) k)).
Proof.
  split; [vm_compute; reflexivity|]. split; [vm_compute; eauto|].
  apply (ValidateMCSDependencyOverall_correct mcs_example (simple_mcs "a" ["d"]) mcs_example). reflexivity.
Defined.

(** The chain supports the template, which is invalid: the message about the
    chain carries the template's key. *)
Definition simple_template (name version : string) (valid : bool) : ServiceTemplate :=
  mkServiceTemplate (named_meta "ns" name)
    (mkServiceTemplateSpec None None None None version "")
    (mkServiceTemplateStatus "" None None (mkTemplateValidation (if valid then "" else "bad chart") valid)).

Example unsupported_message_names_template :
  let c := mkStore {[ mkKey "ns" "a-1" := simple_template "a-1" "1" false ]}
             {[ mkKey "ns" "chain" := mkChain (named_meta "ns" "chain")
                  (mkChainSpec [mkSupported "a-1" []]) (mkChainStatus "" true) ]} ∅ ∅ in
  Error <$> validateServiceTemplateChain c (service_ref "a" "" "a-1" "chain") "ns" =
  Some ("the ServiceTemplate ns/a-1 is invalid with the error: bad chart" +:+ newline +:+
        "the ServiceTemplateChain ns/a-1 does not support ServiceTemplate a-1").
Proof. vm_compute. reflexivity. Qed.
