(* ===== verification/Cluster.v ===== *)
(** * A cluster held in memory.

    The objects of a management cluster in finite maps, with the API calls the
    controllers make, for running the definitions on concrete inputs: a create
    fails on an existing key, an update and a delete on a missing one. *)

From S2P Require Import Prelude Api Kube ApiManagement ServiceBasics.

Record Cluster := mkCluster {
  cl_store : Store;
  cl_mcs : gmap ObjectKey MultiClusterService;
  cl_cds : gmap ObjectKey ClusterDeployment;
  cl_credentials : gmap ObjectKey Credential;
  cl_management : gmap ObjectKey Management;
  cl_regions : gmap ObjectKey Region;
  cl_clusterTemplates : gmap ObjectKey ClusterTemplate;
  cl_providerTemplates : gmap ObjectKey ProviderTemplate;
  cl_releases : gmap ObjectKey Release;
  cl_secrets : gmap ObjectKey Secret;
  cl_providerInterfaces : gmap ObjectKey ProviderInterface }.

Definition empty_cluster : Cluster := mkCluster empty_store ∅ ∅ ∅ ∅ ∅ ∅ ∅ ∅ ∅ ∅.

(** ** Reading *)

#[export] Instance cluster_get_template : Getter Cluster ServiceTemplate := λ c, c_get (cl_store c).
#[export] Instance cluster_get_chain : Getter Cluster ServiceTemplateChain := λ c, c_get (cl_store c).
#[export] Instance cluster_get_serviceSet : Getter Cluster ServiceSet := λ c, c_get (cl_store c).
#[export] Instance cluster_get_provider : Getter Cluster StateManagementProvider := λ c, c_get (cl_store c).
#[export] Instance cluster_get_mcs : Getter Cluster MultiClusterService :=
  λ c, store_get "MultiClusterService" (cl_mcs c).
#[export] Instance cluster_get_cd : Getter Cluster ClusterDeployment :=
  λ c, store_get "ClusterDeployment" (cl_cds c).
#[export] Instance cluster_get_credential : Getter Cluster Credential :=
  λ c, store_get "Credential" (cl_credentials c).
#[export] Instance cluster_get_management : Getter Cluster Management :=
  λ c, store_get "Management" (cl_management c).
#[export] Instance cluster_get_region : Getter Cluster Region := λ c, store_get "Region" (cl_regions c).
#[export] Instance cluster_get_clusterTemplate : Getter Cluster ClusterTemplate :=
  λ c, store_get "ClusterTemplate" (cl_clusterTemplates c).
#[export] Instance cluster_get_providerTemplate : Getter Cluster ProviderTemplate :=
  λ c, store_get "ProviderTemplate" (cl_providerTemplates c).

#[export] Instance cluster_get_release : Getter Cluster Release := λ c, store_get "Release" (cl_releases c).
#[export] Instance cluster_get_secret : Getter Cluster Secret := λ c, store_get "Secret" (cl_secrets c).

Definition map_list {T} (meta : T → ObjectMeta) (m : gmap ObjectKey T) (ns : string) (p : T → bool)
  : result (list T) :=
  Ok (filterb (λ x, in_namespace ns (meta x) && p x) ((map_to_list m).*2)).

#[export] Instance cluster_list_serviceSets : Lister Cluster ServiceSet := λ c, c_list (cl_store c).
#[export] Instance cluster_list_mcs : Lister Cluster MultiClusterService :=
  λ c, map_list mcs_meta (cl_mcs c).
#[export] Instance cluster_list_cds : Lister Cluster ClusterDeployment := λ c, map_list cd_meta (cl_cds c).
#[export] Instance cluster_list_credentials : Lister Cluster Credential :=
  λ c, map_list cred_meta (cl_credentials c).
#[export] Instance cluster_list_regions : Lister Cluster Region := λ c, map_list rgn_meta (cl_regions c).
#[export] Instance cluster_list_management : Lister Cluster Management := λ c, map_list mgmt_meta (cl_management c).
#[export] Instance cluster_list_clusterTemplates : Lister Cluster ClusterTemplate :=
  λ c, map_list ct_meta (cl_clusterTemplates c).

#[export] Instance cluster_list_providerInterfaces : Lister Cluster ProviderInterface :=
  λ c, map_list pi_meta (cl_providerInterfaces c).

(** ** Writing ServiceSets and the status of a MultiClusterService *)

Definition with_serviceSets (f : gmap ObjectKey ServiceSet → gmap ObjectKey ServiceSet) (c : Cluster)
  : Cluster :=
  let s := cl_store c in
  mkCluster (mkStore (store_templates s) (store_chains s) (f (store_serviceSets s)) (store_providers s))
    (cl_mcs c) (cl_cds c) (cl_credentials c) (cl_management c) (cl_regions c)
    (cl_clusterTemplates c) (cl_providerTemplates c) (cl_releases c) (cl_secrets c) (cl_providerInterfaces c).

Definition has_serviceSet (c : Cluster) (s : ServiceSet) : bool :=
  bool_decide (is_Some (store_serviceSets (cl_store c) !! meta_key (sset_meta s))).

Definition already_exists : gerror := ErrApi ReasonAlreadyExists "already exists".

#[export] Instance cluster_write_serviceSet : Writer Cluster ServiceSet := {|
  c_create c s := if has_serviceSet c s then (c, Some already_exists)
                  else (with_serviceSets (<[meta_key (sset_meta s) := s]>) c, None);
  c_update c s := if has_serviceSet c s
                  then (with_serviceSets (<[meta_key (sset_meta s) := s]>) c, None)
                  else (c, Some (not_found_err "ServiceSet" (meta_key (sset_meta s))))
|}.

(** Every ServiceSet is stored under its own key. *)
Definition keyed (c : Cluster) : Prop :=
  ∀ k s, store_serviceSets (cl_store c) !! k = Some s → meta_key (sset_meta s) = k.

Lemma keyed_insert c s : keyed c → keyed (with_serviceSets (<[meta_key (sset_meta s) := s]>) c).
Proof. intros Hk k s' Hs. simpl in Hs. apply lookup_insert_Some in Hs as [[<- <-]|[_ ?]]; auto. Qed.

Lemma get_insert_ne c s k :
  k ≠ meta_key (sset_meta s) →
  c_get (T:=ServiceSet) (with_serviceSets (<[meta_key (sset_meta s) := s]>) c) k = c_get c k.
Proof.
  intros Hne. unfold c_get, cluster_get_serviceSet, c_get, store_get_serviceSet, store_get. simpl.
  by rewrite lookup_insert_ne.
Qed.

#[export] Program Instance cluster_serviceSets : ObjectStore Cluster ServiceSet sset_meta :=
  {| store_ok := keyed |}.
Next Obligation.
  intros c s Hk. cbn [c_create cluster_write_serviceSet]. destruct (has_serviceSet c s); [done|by apply keyed_insert].
Qed.
Next Obligation.
  intros c s Hk. cbn [c_update cluster_write_serviceSet]. destruct (has_serviceSet c s); [by apply keyed_insert|done].
Qed.
Next Obligation.
  intros c k s Hk. unfold c_get, cluster_get_serviceSet, c_get, store_get_serviceSet, store_get.
  destruct (_ !! k) as [s'|] eqn:E; [|done]. intros <-%Ok_inj. by apply Hk.
Qed.
Next Obligation.
  intros c s k Hne. cbn [c_create cluster_write_serviceSet]. destruct (has_serviceSet c s); [done|by apply get_insert_ne].
Qed.
Next Obligation.
  intros c s k Hne. cbn [c_update cluster_write_serviceSet]. destruct (has_serviceSet c s); [by apply get_insert_ne|done].
Qed.

#[export] Instance cluster_delete_serviceSet : Deleter Cluster ServiceSet := λ c s,
  if has_serviceSet c s then (with_serviceSets (delete (meta_key (sset_meta s))) c, None)
  else (c, Some (not_found_err "ServiceSet" (meta_key (sset_meta s)))).

Definition put_mcs (c : Cluster) (m : MultiClusterService) : Cluster :=
  mkCluster (cl_store c) (<[meta_key (mcs_meta m) := m]> (cl_mcs c)) (cl_cds c) (cl_credentials c)
    (cl_management c) (cl_regions c) (cl_clusterTemplates c) (cl_providerTemplates c)
    (cl_releases c) (cl_secrets c) (cl_providerInterfaces c).

Definition set_label (k v : string) (m : ObjectMeta) : ObjectMeta :=
  mkMeta (om_name m) (om_namespace m) (om_uid m) (om_generation m)
    (Some (<[k := v]> (labels_of m))) (om_annotations m) (om_ownerReferences m) (om_finalizers m)
    (om_deletionTimestamp m).

#[export] Instance cluster_refresh_mcs : Refresher Cluster MultiClusterService := {|
  c_update_refresh c m := (put_mcs c m, m, None);
  c_patch_label c m k v :=
    let m := mkMCS (set_label k v (mcs_meta m)) (mcs_spec m) (mcs_status m) in (put_mcs c m, m, None);
  c_status_update c m := (put_mcs c m, m, None)
|}.
