(* ===== verification/Compatibility.v ===== *)
(** * Compatibility of templates, providers and the cluster they run on
    ([src/internal/util/validation]: [util.go], [cluster_template.go],
    [provider_template.go], [mgmt.go]).

    What a ClusterTemplate requires has to be exposed by the Management object
    or Region it is deployed in; a ServiceTemplate may constrain the Kubernetes
    version; and a provider may be changed only to a template that still
    supports the contracts in use. *)

From S2P Require Import Prelude GoStrings Api ApiManagement Kube ServiceBasics ServiceUpgrades ContractVersions Cluster.

#[local] Arguments String.append !_ _ / : simpl nomatch.

(** ** The parent of a deployment *)

Section parent.
Context {C : Type} `{!Getter C Region} `{!Getter C Management} (mgmtClient : C).

Definition getParent (cred : Credential) : result ClusterParent :=
  if negb (bool_decide (crs_region (cred_spec cred) = "")) then
    rgn ← wrap_err ("failed to get " +:+ crs_region (cred_spec cred) +:+ " Region: ")
            (c_get mgmtClient (mkKey "" (crs_region (cred_spec cred))));
    Ok (ParentRegion rgn)
  else
    mgmt ← wrap_err "failed to get Management: " (c_get mgmtClient (mkKey "" ManagementName));
    Ok (ParentManagement mgmt).
End parent.

(** ** Providers and contracts a ClusterTemplate requires *)

Section attributes.
Context `{!MapRange string}.

(** The contracts a provider exposes, over all the versions of the core it
    supports; [t] numbers the range statement. *)
Definition exposed_contracts (t : nat) (contracts : CompatibilityContracts) : list string :=
  concat ((λ capiVersion, Split (default "" (contracts !! capiVersion)) byte_underscore) <$>
    range_seq t (dom contracts)).

(** The body of the loop over the contracts required, for the [i]-th of them. *)
Definition unsatisfied (status : ComponentsCommonStatus) (required : CompatibilityContracts)
    (i : nat) (providerName : string) : list string :=
  let requiredContract := default "" (required !! providerName) in
  match ccst_capiContracts status !! providerName with
  | None => []
  | Some providerCAPIContracts =>
      if bool_decide (requiredContract ∈ exposed_contracts (S i) providerCAPIContracts) then []
      else ["provider " +:+ providerName +:+ " does not support " +:+ requiredContract]
  end.

Definition validateCompatibilityAttrs (clusterTemplate : ClusterTemplate) (parent : ClusterParent)
  : option gerror :=
  let status := GetComponentsStatus parent in
  let exposedProviders := ccst_availableProviders status in
  let required := ctst_providerContracts (ct_status clusterTemplate) in
  let missing := filterb (λ v, negb (bool_decide (v ∈ exposedProviders)))
                   (ctst_providers (ct_status clusterTemplate)) in
  let nonSatisfying := concat (imap (unsatisfied status required) (range_seq 0 (dom required))) in
  let merr := if bool_decide (0 < length missing)
              then join_err None (ErrNew ("one or more required providers are not deployed yet: " +:+
                     show_slice (sort_strings missing)))
              else None in
  if bool_decide (0 < length nonSatisfying)
  then join_err merr (ErrNew ("one or more required provider contract versions does not satisfy deployed: " +:+
         show_slice (sort_strings nonSatisfying)))
  else merr.

Context {C : Type} `{!Getter C Region} `{!Getter C Management} `{!Getter C Credential} (mgmtClient : C).

Definition ClusterTemplateProviders (clusterTemplate : ClusterTemplate) (cd : ClusterDeployment)
  : option gerror :=
  let credKey := mkKey (om_namespace (cd_meta cd)) (cds_credential (cd_spec cd)) in
  match c_get mgmtClient credKey with
  | Err e => Some (ErrWrap ("failed to get " +:+ key_string credKey +:+ " Credential: ") e)
  | Ok cred =>
      match getParent mgmtClient cred with
      | Err e => Some (ErrWrap ("failed to get parent object for " +:+ key_string (meta_key (cd_meta cd)) +:+
                   " ClusterDeployment: ") e)
      | Ok parent =>
          match validateCompatibilityAttrs clusterTemplate parent with
          | Some e => Some (ErrWrap ("incompatible providers in " +:+ parent_kind parent +:+ " " +:+
                        parent_name parent +:+ ": ") e)
          | None => None
          end
      end
  end.
End attributes.

(** ** Kubernetes versions *)

(** Constraints of the semantic-version library. *)
Class SemverConstraints `{Semver} := {
  Constraints : Type;
  NewConstraint : string → result Constraints;
  Constraints_Check : Constraints → semver → bool
}.

Definition ErrK8sConstraintViolated := "k8s constraint violated".
Definition constraintViolationError (e : gerror) : gerror := ErrMark ErrK8sConstraintViolated e.

Record K8sCompatibilityInput := mkK8sInput {
  K8sVersion : string; VersionSource : string; k8s_Namespace : string; Referrer : string;
  k8s_Templates : list string }.

Section kubernetes.
Context `{Semver} `{!SemverConstraints} {C : Type} `{!Getter C ServiceTemplate} (cl : C).

(** The body of the loop: an error ends it. *)
Definition template_k8s_error (input : K8sCompatibilityInput) (kubeVersion : semver) (template : string)
  : option gerror :=
  match c_get (T:=ServiceTemplate) cl (mkKey (k8s_Namespace input) template) with
  | Err e => Some (ErrWrap ("failed to get ServiceTemplate " +:+ k8s_Namespace input +:+ "/" +:+
               template +:+ ": ") e)
  | Ok svcTpl =>
      let constraint := stst_kubernetesConstraint (stpl_status svcTpl) in
      let key := key_string (meta_key (stpl_meta svcTpl)) in
      if bool_decide (constraint = "") then None
      else
        match NewConstraint constraint with
        | Err e => Some (ErrWrap ("failed to parse k8s constrained version " +:+ constraint +:+
                     " of the ServiceTemplate " +:+ key +:+ ": ") e)
        | Ok tplConstraint =>
            if negb (Constraints_Check tplConstraint kubeVersion)
            then Some (constraintViolationError (ErrNew ("k8s version " +:+ K8sVersion input +:+ " of " +:+
                   VersionSource input +:+ " does not satisfy k8s constraint " +:+ constraint +:+
                   " from the ServiceTemplate " +:+ key +:+ " referred in " +:+ Referrer input)))
            else None
        end
  end.

Fixpoint templates_k8s_error (input : K8sCompatibilityInput) (kubeVersion : semver)
    (templates : list string) : option gerror :=
  match templates with
  | [] => None
  | template :: templates =>
      match template_k8s_error input kubeVersion template with
      | Some e => Some e
      | None => templates_k8s_error input kubeVersion templates
      end
  end.

Definition ServiceTemplatesK8sCompatibility (input : K8sCompatibilityInput) : option gerror :=
  if bool_decide (length (k8s_Templates input) = 0) || bool_decide (K8sVersion input = "") then None
  else
    match NewVersion (K8sVersion input) with
    | None => Some (ErrWrap ("failed to parse k8s version " +:+ K8sVersion input +:+ " of " +:+
                VersionSource input +:+ ": ") (NewVersion_error (K8sVersion input)))
    | Some kubeVersion => templates_k8s_error input kubeVersion (k8s_Templates input)
    end.

Definition ClusterTemplateK8sCompatibility (clusterTemplate : ClusterTemplate) (cd : ClusterDeployment)
  : option gerror :=
  let templates := svc_template <$> filterb (λ svc, negb (svc_disable svc))
                     (ss_services (cds_serviceSpec (cd_spec cd))) in
  ServiceTemplatesK8sCompatibility (mkK8sInput
    (ctst_kubernetesVersion (ct_status clusterTemplate))
    ("the ClusterTemplate " +:+ key_string (meta_key (ct_meta clusterTemplate)))
    (om_namespace (cd_meta cd))
    ("the ClusterDeployment " +:+ key_string (meta_key (cd_meta cd)))
    templates).
End kubernetes.

(** ** Providers in use *)

(** [Regions] maps to [true] the regions it lists. *)
Record InUseProviderParams := mkInUse { iup_regions : gset string; iup_providerContracts : list string }.

Section in_use.
Context {C : Type} `{!Lister C ClusterTemplate} `{!Lister C ClusterDeployment} (cl : C).

(** The body of the inner loop, over the ClusterTemplates that list the provider. *)
Definition in_use_template (providerName : string) (acc : gset string * list string)
    (cltpl : ClusterTemplate) : result (gset string * list string) :=
  let '(regions, providerContracts) := acc in
  clds ← wrap_err "failed to list ClusterDeployments: "
    (Limit 1 (c_list cl (om_namespace (ct_meta cltpl))
      (MatchingField ExtractTemplateNameFromClusterDeployment (om_name (ct_meta cltpl)))));
  if bool_decide (length clds = 0) then Ok (regions, providerContracts)
  else Ok (foldl (λ regions cld, {[ cdst_region (cd_status cld) ]} ∪ regions) regions clds,
           providerContracts ++ [default "" (ctst_providerContracts (ct_status cltpl) !! providerName)]).

Definition in_use_provider (inUseProviders : gmap string InUseProviderParams) (providerName : string)
  : result (gmap string InUseProviderParams) :=
  clusterTemplates ← wrap_err "failed to list ClusterTemplates: "
    (c_list cl "" (MatchingField ExtractProvidersFromClusterTemplate providerName));
  if bool_decide (length clusterTemplates = 0) then Ok inUseProviders
  else
    '(regions, providerContracts) ← foldM_result (in_use_template providerName) (∅, []) clusterTemplates;
    Ok (<[providerName := mkInUse regions providerContracts]> inUseProviders).

Definition getInUseProvidersWithContracts (pTpl : ProviderTemplate)
  : result (gmap string InUseProviderParams) :=
  foldM_result in_use_provider ∅ (ptst_providers (pt_status pTpl)).

(** What [GetObjectKind] reports of an object: its type metadata, which a
    client need not fill in. *)
Variable object_kind : ClusterParent → string.

Definition in_use_in (regionName : string) (inUseProviders : gmap string InUseProviderParams)
  : gmap string (list string) :=
  omap (λ providerParams, if bool_decide (regionName ∈ iup_regions providerParams)
                          then Some (iup_providerContracts providerParams) else None) inUseProviders.

Definition ProvidersInUseFor (pTpl : ProviderTemplate) (obj : ClusterParent)
  : result (gmap string (list string)) :=
  let kind := object_kind obj in
  (regionName ←
    (if bool_decide (kind = "Management") then Ok ""
     else if bool_decide (kind = "Region") then Ok (parent_name obj)
     else Err (ErrNew ("unsupported object kind " +:+ kind +:+ "; supported kinds are Management and Region")));
  inUseProviders ← getInUseProvidersWithContracts pTpl;
  Ok (in_use_in regionName inUseProviders)) : result (gmap string (list string)).
End in_use.

(** ** Changing providers *)

Definition ErrProviderIsNotReady : gerror :=
  ErrMark "provider is not yet ready" (ErrNew "provider is not yet ready").

Definition findCAPITemplateName (release : Release) (obj : ClusterParent) : string :=
  let from_release := rls_capi (rel_spec release) in
  match ccs_core (Components obj) with
  | Some core => if negb (bool_decide (cmp_template (core_capi core) = ""))
                 then cmp_template (core_capi core) else from_release
  | None => from_release
  end.

Definition findProviderTemplateName (release : Release) (p : Provider) : string :=
  if negb (bool_decide (cmp_template (prv_component p) = "")) then cmp_template (prv_component p)
  else ProviderTemplate_of release (prv_name p).

Section contracts.
Context `{!MapRange string} {C : Type} `{!Getter C ProviderTemplate}.
Context `{!Lister C ClusterTemplate} `{!Lister C ClusterDeployment} (cl : C).
Variable object_kind : ClusterParent → string.

Definition core_message (capiVersion : string) (pTpl : ProviderTemplate) : string :=
  "core CAPI contract versions does not support " +:+ capiVersion +:+ " version in the ProviderTemplate " +:+
  om_name (pt_meta pTpl) +:+ ", ".
Definition missing_message (contract provider : string) : string :=
  "missing contract version " +:+ contract +:+ " for " +:+ provider +:+
  " provider that is required by one or more ClusterDeployment, ".

(** What the loop over the core versions a template supports writes. *)
Definition core_messages (t : nat) (capiTpl pTpl : ProviderTemplate) : list string :=
  let contracts := ptst_capiContracts (pt_status pTpl) in
  let core := ptst_capiContracts (pt_status capiTpl) in
  concat ((λ capiVersion,
    if bool_decide (0 < size core) && negb (bool_decide (is_Some (core !! capiVersion)))
    then [core_message capiVersion pTpl] else []) <$> range_seq t (dom contracts)).

(** What the loop over the providers in use writes; [exposed] are the keys of
    the map the loop before it filled. *)
Definition missing_messages (t : nat) (exposed : list string) (inUseProviders : gmap string (list string))
  : list string :=
  concat ((λ provider,
    concat ((λ contract, if bool_decide (contract ∈ exposed) then [] else [missing_message contract provider])
      <$> default [] (inUseProviders !! provider))) <$> range_seq t (dom inUseProviders)).

(** The body of the loop over the templates, for the [i]-th of them: what it
    writes to the builder. *)
Definition template_messages (obj : ClusterParent) (capiTpl : ProviderTemplate) (i : nat) (tplName : string)
  : result (list string) :=
  pTpl ← wrap_err ("failed to get ProviderTemplate " +:+ tplName +:+ ": ") (c_get cl (mkKey "" tplName));
  let contracts := ptst_capiContracts (pt_status pTpl) in
  if bool_decide (size contracts = 0) then Ok []
  else if negb (pt_valid pTpl) then
    Err (ErrWrap ("not valid ProviderTemplate " +:+ tplName +:+ ": ") ErrProviderIsNotReady)
  else
    inUseProviders ← wrap_err ("failed to get in-use providers for the template " +:+
                       om_name (pt_meta pTpl) +:+ ": ") (ProvidersInUseFor cl object_kind pTpl obj);
    Ok (core_messages (2 * i) capiTpl pTpl ++
        missing_messages (S (2 * i)) (exposed_contracts (2 * i) contracts) inUseProviders).

Fixpoint templates_messages (obj : ClusterParent) (capiTpl : ProviderTemplate) (i : nat)
    (templateNames : list string) : result (list string) :=
  match templateNames with
  | [] => Ok []
  | tplName :: templateNames =>
      messages ← template_messages obj capiTpl i tplName;
      rest ← templates_messages obj capiTpl (S i) templateNames;
      Ok (messages ++ rest)
  end.

Definition getIncompatibleContractsForProviderTemplates (obj : ClusterParent) (capiTpl : ProviderTemplate)
    (templateNames : list string) : result string :=
  messages ← templates_messages obj capiTpl 0 templateNames;
  Ok (TrimSuffix (Join messages "") ", ").

Definition ValidateProviderContracts (release : Release) (obj : ClusterParent) : result string :=
  let capiTplName := findCAPITemplateName release obj in
  capiTpl ← wrap_err ("failed to get ProviderTemplate " +:+ capiTplName +:+ ": ")
              (c_get cl (mkKey "" capiTplName));
  if bool_decide (0 < size (ptst_capiContracts (pt_status capiTpl))) && negb (pt_valid capiTpl)
  then Err (ErrWrap ("not valid ProviderTemplate " +:+ om_name (pt_meta capiTpl) +:+ ": ") ErrProviderIsNotReady)
  else
    let templates := filterb (λ tplName, negb (bool_decide (tplName = "") ||
                                               bool_decide (tplName = om_name (pt_meta capiTpl))))
                       (findProviderTemplateName release <$> ccs_providers (Components obj)) in
    getIncompatibleContractsForProviderTemplates obj capiTpl templates.

Definition ValidateChangedProviderContracts (release : Release) (oldObj newObj : ClusterParent)
  : result string :=
  let oldCAPITplName := findCAPITemplateName release oldObj in
  let newCAPITplName := findCAPITemplateName release newObj in
  capiTpl ← wrap_err ("failed to get ProviderTemplate " +:+ newCAPITplName +:+ ": ")
              (c_get cl (mkKey "" newCAPITplName));
  if negb (bool_decide (oldCAPITplName = newCAPITplName)) && negb (pt_valid capiTpl)
  then Err (ErrWrap ("not valid ProviderTemplate " +:+ om_name (pt_meta capiTpl) +:+ ": ") ErrProviderIsNotReady)
  else
    let oldProviderTpls := index_by prv_name (findProviderTemplateName release)
                             (ccs_providers (Components oldObj)) in
    let tplsToValidate := findProviderTemplateName release <$>
      filterb (λ p,
        let newTpl := findProviderTemplateName release p in
        negb (bool_decide (newTpl = "") || bool_decide (newTpl = newCAPITplName)) &&
        negb (bool_decide (oldProviderTpls !! prv_name p = Some newTpl)))
        (ccs_providers (Components newObj)) in
    getIncompatibleContractsForProviderTemplates newObj capiTpl tplsToValidate.
End contracts.

(** ** Properties: what a template requires *)

Section attribute_properties.
Context `{!MapRange string}.

Lemma exposed_contracts_elem t (contracts : gmap string string) c :
  c ∈ exposed_contracts t contracts ↔
  ∃ version supported, contracts !! version = Some supported ∧ c ∈ Split supported byte_underscore.
Proof.
  unfold exposed_contracts. rewrite list_elem_of_In, in_concat. setoid_rewrite <- list_elem_of_In.
  setoid_rewrite list_elem_of_fmap. setoid_rewrite range_seq_elem. setoid_rewrite elem_of_dom. split.
  - intros (l & (v & -> & [s Hs]) & Hc). exists v, s. by rewrite Hs in Hc.
  - intros (v & s & Hs & Hc). exists (Split s byte_underscore). split; [|done].
    exists v. rewrite Hs. split; [done|by eexists].
Qed.

(** The contract required of a provider is among those it exposes. *)
Definition contract_satisfied (status : ComponentsCommonStatus) (p c : string) : Prop :=
  ∀ m : gmap string string, ccst_capiContracts status !! p = Some m →
    ∃ version supported, m !! version = Some supported ∧ c ∈ Split supported byte_underscore.

Lemma unsatisfied_nil status (required : gmap string string) i p :
  unsatisfied status required i p = [] ↔ contract_satisfied status p (default "" (required !! p)).
Proof.
  unfold unsatisfied, contract_satisfied. destruct (ccst_capiContracts status !! p) as [m|]; [|naive_solver].
  case_bool_decide as Hin; rewrite exposed_contracts_elem in Hin.
  - split; [|done]. by intros _ ? [= <-].
  - split; [done|]. intros Hs. by destruct Hin; apply Hs.
Qed.

Lemma concat_fmap_nil {A B} (f : A → list B) l : concat (f <$> l) = [] ↔ ∀ x, x ∈ l → f x = [].
Proof. by rewrite concat_nil_Forall, Forall_fmap, Forall_forall. Qed.
Lemma concat_imap_nil {A B} (f : nat → A → list B) l :
  concat (imap f l) = [] ↔ ∀ i x, l !! i = Some x → f i x = [].
Proof.
  rewrite concat_nil_Forall, Forall_forall. setoid_rewrite elem_of_lookup_imap. naive_solver.
Qed.
Lemma filterb_nil {A} (p : A → bool) l : filterb p l = [] ↔ ∀ x, x ∈ l → p x = false.
Proof.
  split.
  - intros Hf x Hx. destruct (p x) eqn:E; [|done]. assert (x ∈ filterb p l) as Hin by by apply filterb_elem_of.
    rewrite Hf in Hin. by apply elem_of_nil in Hin.
  - intros Hp. destruct (filterb p l) as [|x k] eqn:E; [done|].
    assert (x ∈ filterb p l) as [Hx Ht]%filterb_elem_of by (rewrite E; left). rewrite Hp in Ht; done.
Qed.

(** Two error lists joined if they are not empty: nil exactly when both are. *)
Lemma join_lists_None (l k : list string) (e1 e2 : gerror) :
  (let merr := if bool_decide (0 < length l) then join_err None e1 else None in
   if bool_decide (0 < length k) then join_err merr e2 else merr) = None ↔ l = [] ∧ k = [].
Proof.
  cbn zeta. destruct k as [|x k]; simpl.
  - destruct l as [|y l]; simpl; [done|]. split; [done|]. by intros [? _].
  - split; [|by intros [_ ?]]. by intros ?%join_err_ne.
Qed.

Lemma validateCompatibilityAttrs_None tpl parent :
  validateCompatibilityAttrs tpl parent = None ↔
  (∀ p, p ∈ ctst_providers (ct_status tpl) → p ∈ ccst_availableProviders (GetComponentsStatus parent)) ∧
  (∀ p c, (ctst_providerContracts (ct_status tpl) : gmap string string) !! p = Some c →
     contract_satisfied (GetComponentsStatus parent) p c).
Proof.
  unfold validateCompatibilityAttrs. cbn zeta. rewrite join_lists_None, filterb_nil, concat_imap_nil.
  setoid_rewrite negb_false_iff. setoid_rewrite bool_decide_eq_true. setoid_rewrite unsatisfied_nil.
  apply and_iff_compat_l. split.
  - intros Hall p c Hc. assert (p ∈ range_seq 0 (dom (ctst_providerContracts (ct_status tpl)))) as Hp
      by (apply range_seq_elem, elem_of_dom; by eexists).
    apply list_elem_of_lookup_1 in Hp as [i Hi]. specialize (Hall i p Hi). by rewrite Hc in Hall.
  - intros Hall i p Hi. apply list_elem_of_lookup_2, range_seq_elem, elem_of_dom in Hi as [c Hc].
    rewrite Hc. by apply Hall.
Qed.
(** A ClusterTemplate fits the Management object or Region exactly when
    every provider it requires is exposed there and every contract it requires
    of a provider whose contracts are known is one of them; in particular the
    verdict does not depend on the order maps are visited in. *)
Lemma validateCompatibilityAttrs_correct tpl parent :
  validateCompatibilityAttrs tpl parent = None ↔
  (∀ p, p ∈ ctst_providers (ct_status tpl) → p ∈ ccst_availableProviders (GetComponentsStatus parent)) ∧
  (∀ p c, (ctst_providerContracts (ct_status tpl) : gmap string string) !! p = Some c →
     contract_satisfied (GetComponentsStatus parent) p c).
Proof. apply validateCompatibilityAttrs_None. Qed.
End attribute_properties.

(** ** Properties: Kubernetes versions *)

Section k8s_properties.
Context `{Semver} `{!SemverConstraints} {C : Type} `{!Getter C ServiceTemplate} (cl : C).

(** The constraint of a template: none, one it can be checked against, or a
    template that cannot be read. *)
Definition constraint_of (ns template : string) : result (option Constraints) :=
  tpl ← c_get (T:=ServiceTemplate) cl (mkKey ns template);
  if bool_decide (stst_kubernetesConstraint (stpl_status tpl) = "") then Ok None
  else Some <$> NewConstraint (stst_kubernetesConstraint (stpl_status tpl)).

Definition allows (v : semver) (r : option Constraints) : Prop :=
  match r with Some k => Constraints_Check k v = true | None => True end.

Definition template_allows (ns : string) (v : semver) (template : string) : Prop :=
  ∃ r, constraint_of ns template = Ok r ∧ allows v r.
Definition template_violates (ns : string) (v : semver) (template : string) : Prop :=
  ∃ k, constraint_of ns template = Ok (Some k) ∧ Constraints_Check k v = false.

Lemma template_k8s_error_None input v template :
  template_k8s_error cl input v template = None ↔ template_allows (k8s_Namespace input) v template.
Proof.
  unfold template_k8s_error, template_allows, constraint_of. destruct (c_get _ _) as [tpl|e]; simpl.
  - case_bool_decide; [split; [|done]; intros _; by exists None|].
    destruct (NewConstraint _) as [k|e]; simpl; [|naive_solver].
    destruct (Constraints_Check k v) eqn:E; simpl.
    + split; [|done]. intros _. by exists (Some k).
    + split; [done|]. intros (r & [= <-] & Ha). simpl in Ha. congruence.
  - split; [done|]. naive_solver.
Qed.

(** The mark is only put on a version that does not match, provided it does not
    come from what the check calls. *)
Lemma template_k8s_error_mark input v template :
  (∀ k e, c_get (T:=ServiceTemplate) cl k = Err e → errors_Is ErrK8sConstraintViolated e = false) →
  (∀ s e, NewConstraint s = Err e → errors_Is ErrK8sConstraintViolated e = false) →
  (∃ e, template_k8s_error cl input v template = Some e ∧ errors_Is ErrK8sConstraintViolated e = true) ↔
  template_violates (k8s_Namespace input) v template.
Proof.
  intros Hget Hnew. unfold template_k8s_error, template_violates, constraint_of.
  destruct (c_get _ _) as [tpl|e] eqn:Eg; simpl.
  - case_bool_decide; [naive_solver|].
    destruct (NewConstraint _) as [k|e] eqn:En; simpl.
    + destruct (Constraints_Check k v) eqn:E; simpl; [naive_solver congruence|].
      split; [naive_solver|]. intros _. eexists. split; [done|]. by apply bool_decide_eq_true.
    + apply Hnew in En. split; [|naive_solver]. intros (? & [= <-] & He). simpl in He. congruence.
  - apply Hget in Eg. split; [|naive_solver]. intros (? & [= <-] & He). simpl in He. congruence.
Qed.

Lemma templates_k8s_error_None input v l :
  templates_k8s_error cl input v l = None ↔ ∀ t, t ∈ l → template_allows (k8s_Namespace input) v t.
Proof.
  rewrite <- Forall_forall. induction l as [|t l IH]; simpl; [done|].
  rewrite Forall_cons, <- template_k8s_error_None, <- IH. destruct (template_k8s_error _ _ _ _); naive_solver.
Qed.

Lemma templates_k8s_error_Some input v l e :
  templates_k8s_error cl input v l = Some e ↔
  ∃ pre t post, l = pre ++ t :: post ∧ (∀ t, t ∈ pre → template_allows (k8s_Namespace input) v t) ∧
    template_k8s_error cl input v t = Some e.
Proof.
  induction l as [|t l IH]; simpl.
  - split; [done|]. intros ([|? ?] & ? & ? & ? & _); done.
  - destruct (template_k8s_error cl input v t) as [e'|] eqn:Et.
    + split.
      * intros [= <-]. exists [], t, l. split; [done|]. split; [|done]. intros ? Hx. by apply elem_of_nil in Hx.
      * intros ([|t' pre] & t'' & post & Heq & Hpre & He); simplify_list_eq; [congruence|].
        assert (template_k8s_error cl input v t' = None) by (apply template_k8s_error_None, Hpre; left). congruence.
    + rewrite IH. split.
      * intros (pre & t' & post & -> & Hpre & He). exists (t :: pre), t', post. split; [done|]. split; [|done].
        intros x [->|Hx]%elem_of_cons; [by apply template_k8s_error_None|by apply Hpre].
      * intros ([|t' pre] & t'' & post & Heq & Hpre & He); simplify_list_eq.
        exists pre, t'', post. split; [done|]. split; [|done]. intros; apply Hpre; by right.
Qed.

(** Where there is something to check, the services fit the Kubernetes
    version exactly when it parses and every template can be read and allows
    it; and the failure carries the mark of a violated constraint, the one
    callers do not retry, exactly when the first template that is not fine is
    readable and does not allow the version. *)
Lemma ServiceTemplatesK8sCompatibility_spec input v :
  (∀ k e, c_get (T:=ServiceTemplate) cl k = Err e → errors_Is ErrK8sConstraintViolated e = false) →
  (∀ s e, NewConstraint s = Err e → errors_Is ErrK8sConstraintViolated e = false) →
  K8sVersion input ≠ "" → NewVersion (K8sVersion input) = Some v →
  let allowed := template_allows (k8s_Namespace input) v in
  (ServiceTemplatesK8sCompatibility cl input = None ↔ ∀ t, t ∈ k8s_Templates input → allowed t) ∧
  ((∃ e, ServiceTemplatesK8sCompatibility cl input = Some e ∧ errors_Is ErrK8sConstraintViolated e = true) ↔
   ∃ pre t post, k8s_Templates input = pre ++ t :: post ∧ (∀ t, t ∈ pre → allowed t) ∧
     template_violates (k8s_Namespace input) v t).
Proof.
  intros Hget Hnew Hv Hp. cbn zeta.
  assert (ServiceTemplatesK8sCompatibility cl input = templates_k8s_error cl input v (k8s_Templates input)) as ->.
  { unfold ServiceTemplatesK8sCompatibility. rewrite (bool_decide_eq_false_2 (K8sVersion input = "")), Hp by done.
    destruct (k8s_Templates input); done. }
  split; [apply templates_k8s_error_None|]. setoid_rewrite templates_k8s_error_Some.
  setoid_rewrite <- (template_k8s_error_mark input v) at 1; [|done..]. naive_solver.
Qed.
End k8s_properties.

(** Constraints [">= v"] over dotted versions. *)
Definition at_least_constraints : @SemverConstraints dotted_semver :=
  @Build_SemverConstraints dotted_semver (list N)
    (λ s, match dotted s None with
          | Some v => Ok v
          | None => Err (ErrNew "improper constraint")
          end)
    (λ k v, negb (numbers_lt v k)).

Definition constrained_template (name constraint : string) : ServiceTemplate :=
  mkServiceTemplate (named_meta "ns" name) (mkServiceTemplateSpec None None None None "" constraint)
    (mkServiceTemplateStatus constraint None None (mkTemplateValidation "" true)).
Definition k8s_cluster : Cluster :=
  mkCluster (mkStore {[ mkKey "ns" "redis" := constrained_template "redis" "1.30";
                        mkKey "ns" "mesh" := constrained_template "mesh" "1.33" ]} ∅ ∅ ∅) ∅ ∅ ∅ ∅ ∅ ∅ ∅ ∅ ∅ ∅.
Definition k8s_input : K8sCompatibilityInput := mkK8sInput "1.32" "the cluster" "ns" "a test" ["redis"; "mesh"].

Lemma cluster_get_unmarked (c : Cluster) k e :
  c_get (T:=ServiceTemplate) c k = Err e → errors_Is ErrK8sConstraintViolated e = false.
Proof.
  unfold c_get, cluster_get_template, c_get, store_get_template, store_get.
  destruct (_ !! k); [done|]. by intros [= <-].
Qed.

Lemma at_least_unmarked s e :
  NewConstraint (SemverConstraints:=at_least_constraints) s = Err e →
  errors_Is ErrK8sConstraintViolated e = false.
Proof. simpl. destruct (dotted s None); [done|]. by intros [= <-]. Qed.

Lemma ServiceTemplatesK8sCompatibility_spec_witness :
  match ServiceTemplatesK8sCompatibility (H0:=at_least_constraints) k8s_cluster k8s_input with
  | Some e => errors_Is ErrK8sConstraintViolated e
  | None => false
  end = true ∧
  ((∃ e, ServiceTemplatesK8sCompatibility (H0:=at_least_constraints) k8s_cluster k8s_input = Some e ∧
     errors_Is ErrK8sConstraintViolated e = true) ↔
   ∃ pre t post, ["redis"; "mesh"] = pre ++ t :: post ∧
     (∀ t, t ∈ pre → template_allows (H0:=at_least_constraints) k8s_cluster "ns" [1; 32]%N t) ∧
     template_violates (H0:=at_least_constraints) k8s_cluster "ns" [1; 32]%N t).
Proof.
  split; [reflexivity|].
  apply (ServiceTemplatesK8sCompatibility_spec (H0:=at_least_constraints) k8s_cluster k8s_input [1; 32]%N);
    [apply cluster_get_unmarked|apply at_least_unmarked|done|reflexivity].
Defined.

(** ** Properties: changing providers *)

Section contract_properties.
Context `{!MapRange string} {C : Type} `{!Getter C ProviderTemplate}.
Context `{!Lister C ClusterTemplate} `{!Lister C ClusterDeployment} (cl : C).
Variable object_kind : ClusterParent → string.

(** Nothing is left of the builder exactly when nothing was written. *)
Lemma no_message_written l :
  (∀ x, x ∈ l → 2 < String.length x) → TrimSuffix (Join l "") ", " = "" ↔ l = [].
Proof.
  intros Hl. split; [|by intros ->]. destruct l as [|x l]; [done|]. intros Heq.
  pose proof (TrimSuffix_length (Join (x :: l) "") ", ") as Ht. rewrite Heq in Ht. cbn [String.length] in Ht.
  pose proof (Join_length_elem x (x :: l) "" ltac:(left)). specialize (Hl x ltac:(left)). lia.
Qed.

(** A contract among those the versions of a template list. *)
Definition supports (contracts : gmap string string) (c : string) : Prop :=
  ∃ version supported, contracts !! version = Some supported ∧ c ∈ Split supported byte_underscore.

Definition core_supports (core contracts : gmap string string) : Prop := core = ∅ ∨ dom contracts ⊆ dom core.

(** The template can replace the one in use. *)
Definition template_fits (obj : ClusterParent) (capiTpl : ProviderTemplate) (tplName : string) : Prop :=
  ∃ pTpl, c_get cl (mkKey "" tplName) = Ok pTpl ∧
    let contracts := ptst_capiContracts (pt_status pTpl) in
    contracts = ∅ ∨
    pt_valid pTpl = true ∧ core_supports (ptst_capiContracts (pt_status capiTpl)) contracts ∧
    ∃ inUse, ProvidersInUseFor cl object_kind pTpl obj = Ok inUse ∧
      ∀ p cs c, inUse !! p = Some cs → c ∈ cs → supports contracts c.

Lemma core_messages_nil t capiTpl pTpl :
  core_messages t capiTpl pTpl = [] ↔
  core_supports (ptst_capiContracts (pt_status capiTpl)) (ptst_capiContracts (pt_status pTpl)).
Proof.
  unfold core_messages, core_supports. rewrite concat_fmap_nil. setoid_rewrite range_seq_elem.
  set (core := ptst_capiContracts (pt_status capiTpl)). set (contracts := ptst_capiContracts (pt_status pTpl)).
  split.
  - intros Hall. destruct (decide (core = ∅)) as [|Hne]; [by left|right]. intros v Hv. specialize (Hall v Hv).
    rewrite (bool_decide_eq_true_2 (0 < size core)) in Hall
      by (apply Nat.neq_0_lt_0; by intros ?%map_size_empty_inv).
    simpl in Hall. apply elem_of_dom. by case_bool_decide.
  - intros [Hcore|Hsub] v Hv; [by rewrite Hcore, map_size_empty|]. apply Hsub, elem_of_dom in Hv.
    rewrite (bool_decide_eq_true_2 (is_Some _)) by done. by rewrite andb_false_r.
Qed.

Lemma missing_messages_nil t t' (contracts : gmap string string) (inUse : gmap string (list string)) :
  missing_messages t (exposed_contracts t' contracts) inUse = [] ↔
  ∀ p cs c, inUse !! p = Some cs → c ∈ cs → supports contracts c.
Proof.
  unfold missing_messages. rewrite concat_fmap_nil. setoid_rewrite concat_fmap_nil. setoid_rewrite range_seq_elem.
  split.
  - intros Hall p cs c Hp Hc. specialize (Hall p ltac:(apply elem_of_dom; by eexists) c). rewrite Hp in Hall.
    specialize (Hall Hc). case_bool_decide as Hin; [|done]. by apply exposed_contracts_elem in Hin.
  - intros Hall p [cs Hp]%elem_of_dom c. rewrite Hp. intros Hc. case_bool_decide as Hin; [done|].
    destruct Hin. apply exposed_contracts_elem. by eapply Hall.
Qed.

Lemma string_suffix_long s : s ≠ "" → 2 < String.length (s +:+ ", ").
Proof. intros Hs. rewrite string_length_app. destruct s; [done|]. cbn [String.length]. lia. Qed.

Lemma messages_long obj capiTpl i name l :
  template_messages cl object_kind obj capiTpl i name = Ok l → ∀ x, x ∈ l → 2 < String.length x.
Proof.
  unfold template_messages. intros Hm. apply bind_Ok in Hm as (pTpl & _ & Hm).
  destruct (bool_decide _); [injection Hm as <-; intros ? Hx; by apply elem_of_nil in Hx|].
  destruct (negb _); [done|]. apply bind_Ok in Hm as (inUse & _ & [= <-]). intros x.
  rewrite elem_of_app. unfold core_messages, missing_messages. rewrite !list_elem_of_In, !in_concat.
  setoid_rewrite <- list_elem_of_In. setoid_rewrite list_elem_of_fmap.
  intros [(m & (v & -> & _) & Hx)|(m & (p & -> & _) & Hx)].
  - destruct (_ && _); [|by apply elem_of_nil in Hx]. apply list_elem_of_singleton in Hx as ->.
    unfold core_message. rewrite !string_length_app. cbn [String.length]. lia.
  - apply list_elem_of_In, in_concat in Hx as (m & Hm & Hx). apply list_elem_of_In, list_elem_of_fmap in Hm as (c & -> & _).
    apply list_elem_of_In in Hx. case_bool_decide; [by apply elem_of_nil in Hx|].
    apply list_elem_of_singleton in Hx as ->. unfold missing_message. rewrite !string_length_app. cbn [String.length]. lia.
Qed.

Lemma template_messages_nil obj capiTpl i name :
  template_messages cl object_kind obj capiTpl i name = Ok [] ↔ template_fits obj capiTpl name.
Proof.
  unfold template_messages, template_fits. rewrite bind_Ok. setoid_rewrite wrap_err_Ok.
  apply exist_proper. intros pTpl. apply and_iff_compat_l. cbn zeta.
  set (contracts := ptst_capiContracts (pt_status pTpl)).
  case_bool_decide as Hs; [apply map_size_empty_inv in Hs; naive_solver|].
  assert (contracts ≠ ∅) as Hne by (intros Heq; by rewrite Heq, map_size_empty in Hs).
  destruct (pt_valid pTpl); cbn [negb]; [|naive_solver].
  rewrite bind_Ok. setoid_rewrite wrap_err_Ok. split.
  - intros (inUse & Hin & Heq%Ok_inj). apply app_nil in Heq as [Hc Hm].
    apply core_messages_nil in Hc. rewrite missing_messages_nil in Hm.
    right. split; [done|]. split; [done|]. by exists inUse.
  - intros [?|(_ & Hc & inUse & Hin & Hm)]; [done|]. exists inUse. split; [done|].
    rewrite (proj2 (core_messages_nil (2 * i) capiTpl pTpl) Hc). simpl. f_equal. by apply missing_messages_nil.
Qed.

Lemma templates_messages_nil obj capiTpl i names :
  (∃ l, templates_messages cl object_kind obj capiTpl i names = Ok l ∧ TrimSuffix (Join l "") ", " = "") ↔
  ∀ n, n ∈ names → template_fits obj capiTpl n.
Proof.
  assert (∀ l, templates_messages cl object_kind obj capiTpl i names = Ok l → ∀ x, x ∈ l → 2 < String.length x) as Hlong.
  { revert i. induction names as [|n names IH]; intros i l; simpl.
    - intros [= <-] x Hx. by apply elem_of_nil in Hx.
    - intros (m & Hm & (rest & Hrest & [= <-])%bind_Ok)%bind_Ok x [Hx|Hx]%elem_of_app;
        [by eapply messages_long|by eapply IH]. }
  transitivity (templates_messages cl object_kind obj capiTpl i names = Ok []).
  { split; [|by eexists]. intros (l & Hl & Ht). rewrite no_message_written in Ht by by apply Hlong. by subst. }
  clear Hlong. rewrite <- Forall_forall. revert i. induction names as [|n names IH]; intros i; simpl; [done|].
  rewrite Forall_cons, <- (template_messages_nil _ _ i), <- (IH (S i)), bind_Ok. setoid_rewrite bind_Ok. split.
  - intros (m & Hm & rest & Hrest & Heq%Ok_inj). apply app_nil in Heq as [-> ->]. done.
  - intros [Hm Hrest]. exists []. split; [done|]. by exists [].
Qed.

Lemma getIncompatible_nil obj capiTpl names :
  getIncompatibleContractsForProviderTemplates cl object_kind obj capiTpl names = Ok "" ↔
  ∀ n, n ∈ names → template_fits obj capiTpl n.
Proof.
  rewrite <- (templates_messages_nil _ _ 0). unfold getIncompatibleContractsForProviderTemplates.
  rewrite bind_Ok. apply exist_proper. intros l. apply and_iff_compat_l. split; [by intros ?%Ok_inj|by intros ->].
Qed.

Lemma ValidateProviderContracts_iff release obj :
  ValidateProviderContracts cl object_kind release obj = Ok "" ↔
  ∃ capiTpl, c_get cl (mkKey "" (findCAPITemplateName release obj)) = Ok capiTpl ∧
    (ptst_capiContracts (pt_status capiTpl) = ∅ ∨ pt_valid capiTpl = true) ∧
    ∀ p, p ∈ ccs_providers (Components obj) →
      let n := findProviderTemplateName release p in
      n = "" ∨ n = om_name (pt_meta capiTpl) ∨ template_fits obj capiTpl n.
Proof.
  unfold ValidateProviderContracts. rewrite bind_Ok. setoid_rewrite wrap_err_Ok.
  apply exist_proper. intros capiTpl. apply and_iff_compat_l.
  set (contracts := ptst_capiContracts (pt_status capiTpl)).
  assert (bool_decide (0 < size contracts) = negb (bool_decide (contracts = ∅))) as ->.
  { rewrite <- bool_decide_not. apply bool_decide_ext. rewrite <- map_size_empty_iff. lia. }
  destruct (negb _ && negb _) eqn:E.
  - bool_simpl. split; [done|]. intros [[?|?] _]; congruence.
  - rewrite getIncompatible_nil. setoid_rewrite filterb_elem_of. setoid_rewrite negb_true_iff.
    setoid_rewrite orb_false_iff. setoid_rewrite bool_decide_eq_false. setoid_rewrite list_elem_of_fmap.
    apply andb_false_iff in E. rewrite !negb_false_iff, bool_decide_eq_true in E. split.
    + intros Hall. split; [done|]. intros p Hp. cbn zeta.
      destruct (decide (findProviderTemplateName release p = "")); [by left|].
      destruct (decide (findProviderTemplateName release p = om_name (pt_meta capiTpl))); [by right; left|].
      right; right. apply Hall. eauto.
    + intros [_ Hall] n [(p & -> & Hp) [Hn1 Hn2]]. destruct (Hall p Hp) as [?|[?|?]]; done.
Qed.

(** The providers of a Management object or Region are reported compatible
    exactly when the template of the core can be read and, if it states
    contracts, is valid, and the template of every other provider named states
    no contract or is valid, asks nothing of the core it does not support and
    supports every contract in use in that parent, in any map order. *)
Lemma ValidateProviderContracts_correct release obj :
  ValidateProviderContracts cl object_kind release obj = Ok "" ↔
  ∃ capiTpl, c_get cl (mkKey "" (findCAPITemplateName release obj)) = Ok capiTpl ∧
    (ptst_capiContracts (pt_status capiTpl) = ∅ ∨ pt_valid capiTpl = true) ∧
    ∀ p, p ∈ ccs_providers (Components obj) →
      let n := findProviderTemplateName release p in
      n = "" ∨ n = om_name (pt_meta capiTpl) ∨ template_fits obj capiTpl n.
Proof. apply ValidateProviderContracts_iff. Qed.

(** What is in use depends on the parent only by its kind and name. *)
Lemma template_fits_same obj obj' capiTpl n :
  object_kind obj = object_kind obj' → parent_name obj = parent_name obj' →
  template_fits obj capiTpl n → template_fits obj' capiTpl n.
Proof. intros Hk Hn. unfold template_fits, ProvidersInUseFor. by rewrite Hk, Hn. Qed.

(** C25: checking only what an update changes is enough: if the object was
    compatible before the update, and the update keeps the template of the
    core and passes the check of its changed providers, the updated object is
    compatible. *)
Theorem changed_contracts_sound release oldObj newObj :
  (∀ n t, c_get cl (mkKey "" n) = Ok t → om_name (pt_meta t) = n) →
  object_kind oldObj = object_kind newObj → parent_name oldObj = parent_name newObj →
  findCAPITemplateName release oldObj = findCAPITemplateName release newObj →
  ValidateProviderContracts cl object_kind release oldObj = Ok "" →
  ValidateChangedProviderContracts cl object_kind release oldObj newObj = Ok "" →
  ValidateProviderContracts cl object_kind release newObj = Ok "".
Proof.
  intros Hname Hk Hn Hcapi Hold Hchanged. apply ValidateProviderContracts_iff in Hold as (capiTpl & Hget & Hv & Hold).
  apply ValidateProviderContracts_iff. rewrite Hcapi in Hget. exists capiTpl. split; [done|]. split; [done|].
  intros p Hp. cbn zeta. set (n := findProviderTemplateName release p).
  pose proof (Hname _ _ Hget) as Hcn. unfold ValidateChangedProviderContracts in Hchanged.
  rewrite Hget, Hcapi in Hchanged. cbn [wrap_err mbind result_bind] in Hchanged.
  rewrite bool_decide_eq_true_2 in Hchanged by done. cbn [negb andb] in Hchanged.
  destruct (decide (n = "")); [by left|]. destruct (decide (n = om_name (pt_meta capiTpl))); [by right; left|].
  right; right. rewrite getIncompatible_nil in Hchanged.
  destruct (decide (index_by prv_name (findProviderTemplateName release) (ccs_providers (Components oldObj))
                      !! prv_name p = Some n)) as [Hsame|Hdiff].
  - apply index_by_Some in Hsame as (q & Hq & _ & Hqn). destruct (Hold q Hq) as [?|[?|Hfits]]; [congruence..|].
    rewrite Hqn in Hfits. by eapply template_fits_same.
  - apply Hchanged. apply list_elem_of_fmap. exists p. split; [done|]. apply filterb_elem_of. split; [done|].
    fold n. rewrite Hcn in *. by rewrite !bool_decide_eq_false_2.
Qed.
End contract_properties.

(** ** Running the checks *)

Definition helm_none : HelmSpec := mkHelmSpec None None None.
Definition status_common (valid : bool) : TemplateStatusCommon :=
  mkTemplateStatus None None "" "" "" (mkTemplateValidation "" valid) 1.
Definition provider_template (name : string) (contracts : gmap string string) (providers : list string)
  : ProviderTemplate :=
  mkProviderTemplate (named_meta "" name) (mkProviderTemplateSpec helm_none contracts providers)
    (mkProviderTemplateStatus contracts providers (status_common true)).
Definition cluster_template (name : string) (contracts : gmap string string) (providers : list string)
  : ClusterTemplate :=
  mkClusterTemplate (named_meta "ns" name) (mkClusterTemplateSpec helm_none contracts "" providers)
    (mkClusterTemplateStatus contracts "" providers (status_common true)).
Definition deployment_of (name template region : string) : ClusterDeployment :=
  mkCD (named_meta "ns" name)
    (mkCDSpec None None no_ipamClaim template "" "" "" "" "" (empty_service_spec []) false false)
    (mkCDStatus [] [] "" "" region [] [] 0).

(** A core template and an AWS provider, with deployments of one ClusterTemplate. *)
Definition contracts_cluster (required : gmap string string) (deployments : list ClusterDeployment) : Cluster :=
  mkCluster empty_store ∅ (index_by (λ d, meta_key (cd_meta d)) id deployments) ∅ ∅ ∅
    {[ mkKey "ns" "aws" := cluster_template "aws" required ["infrastructure-aws"] ]}
    {[ mkKey "" "capi" := provider_template "capi" {[ "v1beta1" := "" ]} [];
       mkKey "" "capi-2" := provider_template "capi-2" {[ "v1beta2" := "" ]} [];
       mkKey "" "aws-1" := provider_template "aws-1" {[ "v1beta1" := "v1beta1_v1beta2" ]} ["infrastructure-aws"];
       mkKey "" "aws-2" := provider_template "aws-2" {[ "v1beta1" := "v1beta2" ]} ["infrastructure-aws"] ]}
    ∅ ∅ ∅.

Definition contracts_release : Release :=
  mkRelease (named_meta "" "rel") (mkReleaseSpec "1.0" "kcm" "" "capi" []) (mkReleaseStatus [] 0 true).
Definition components_of (core : option Core) (aws : string) : ComponentsCommonSpec :=
  mkComponentsSpec core None [mkProvider (mkComponent None aws) "aws"; mkProvider (mkComponent None "") "capi"].
Definition no_components : ComponentsCommonStatus := mkComponentsStatus ∅ ∅ [].
Definition management_on (core : option Core) (aws : string) : ClusterParent :=
  ParentManagement (mkManagement (named_meta "" "kcm")
    (mkManagementSpec "rel" (components_of core aws) (mkManagementCleanup false false))
    (mkManagementStatus [] "" "" no_components 0)).
Definition management_with : string → ClusterParent := management_on None.
Definition region_with (name aws : string) : ClusterParent :=
  ParentRegion (mkRegion (named_meta "" name) (mkRegionSpec None None (components_of None aws))
    (mkRegionStatus no_components [] 0)).

Definition aws_cluster : Cluster :=
  contracts_cluster {[ "infrastructure-aws" := "v1beta2" ]} [deployment_of "d" "aws" ""].

Lemma providerTemplate_named n t : c_get aws_cluster (mkKey "" n) = Ok t → om_name (pt_meta t) = n.
Proof.
  unfold c_get, cluster_get_providerTemplate, store_get. destruct (_ !! _) as [t'|] eqn:E; [|done].
  intros [= <-].
  cbn [cl_providerTemplates aws_cluster contracts_cluster] in E.
  repeat apply lookup_insert_Some in E as [[[= <-] <-]|[_ E]]; [done..|].
  by apply lookup_singleton_Some in E as [[= <-] <-].
Qed.

Lemma changed_contracts_sound_witness :
  ValidateProviderContracts aws_cluster parent_kind contracts_release (management_with "aws-2") = Ok "".
Proof.
  apply (changed_contracts_sound aws_cluster parent_kind contracts_release (management_with "aws-1")
           (management_with "aws-2")); [apply providerTemplate_named|reflexivity..].
Defined.

(** A ClusterTemplate in use that states no contract is reported to require the
    empty one, although the check of a ClusterTemplate against its parent
    requires nothing of it. *)
Example undeclared_contract_reported :
  ValidateProviderContracts (contracts_cluster ∅ [deployment_of "d" "aws" ""]) parent_kind contracts_release
    (management_with "aws-2") =
  Ok "missing contract version  for infrastructure-aws provider that is required by one or more ClusterDeployment".
Proof. reflexivity. Qed.

(** Of the deployments of a ClusterTemplate only one is looked at: in the
    region of the other the template in use counts as unused, and a provider
    that does not support its contract is accepted there. *)
Example one_region_seen :
  let c := contracts_cluster {[ "infrastructure-aws" := "v1beta1" ]}
             [deployment_of "d" "aws" "east"; deployment_of "e" "aws" "west"] in
  let check r := ValidateProviderContracts c parent_kind contracts_release (region_with r "aws-2") in
  check "east" = Ok "" ∧ check "west" =
  Ok "missing contract version v1beta1 for infrastructure-aws provider that is required by one or more ClusterDeployment".
Proof. split; reflexivity. Qed.

(** The update that replaces the template of the core is what the premise on it
    excludes: the providers it leaves alone are not checked against the new
    core. *)
Example core_change_unchecked :
  let new := management_on (Some (mkCore (mkComponent None "") (mkComponent None "capi-2"))) "aws-1" in
  ValidateChangedProviderContracts aws_cluster parent_kind contracts_release (management_with "aws-1") new = Ok "" ∧
  ValidateProviderContracts aws_cluster parent_kind contracts_release new =
  Ok "core CAPI contract versions does not support v1beta1 version in the ProviderTemplate aws-1".
Proof. split; reflexivity. Qed.
