(* ===== verification/SveltosProfile.v ===== *)
(** * The Sveltos profile of a ServiceSet
    ([src/internal/controller/adapters/sveltos/serviceset_controller.go], from
    [profileSpec] to [projectPolicyRefs]).

    Helm charts, kustomizations and policies are read off the ServiceTemplates
    of the services; the configuration of the provider and the credentials of
    the cluster are added. *)

From S2P Require Import Prelude GoStrings Api ApiManagement Kube ServiceBasics SveltosTypes ServiceUpgrades.

#[local] Arguments String.append !_ _ / : simpl nomatch.

(** A Go call may also end in a run-time panic. *)
Inductive outcome (A : Type) := Ret (r : result A) | Panic.
Arguments Ret {A} _.
Arguments Panic {A}.

(** ** Helm options *)

(** A field of the source that is set replaces the destination's. *)
Definition override {A} (src dst : option A) : option A := match src with Some _ => src | None => dst end.

(** [mergeHelmOptions], field by field as reflection walks them; the labels are
    merged key by key. *)
Definition mergeHelmOptions (src dst : ServiceHelmOptions) : ServiceHelmOptions :=
  mkHelmOptions
    (override (EnableClientCache src) (EnableClientCache dst)) (override (DependencyUpdate src) (DependencyUpdate dst))
    (override (Wait src) (Wait dst)) (override (WaitForJobs src) (WaitForJobs dst))
    (override (CreateNamespace src) (CreateNamespace dst)) (override (SkipCRDs src) (SkipCRDs dst))
    (override (Atomic src) (Atomic dst)) (override (DisableHooks src) (DisableHooks dst))
    (override (DisableOpenAPIValidation src) (DisableOpenAPIValidation dst)) (override (Timeout src) (Timeout dst))
    (override (SkipSchemaValidation src) (SkipSchemaValidation dst)) (override (Replace src) (Replace dst))
    (match Labels src with Some m => Some (m ∪ default ∅ (Labels dst)) | None => Labels dst end)
    (override (UninstallOptions src) (UninstallOptions dst)) (override (UpgradeOptions src) (UpgradeOptions dst))
    (override (InstallOptions src) (InstallOptions dst))
    (if bool_decide (Description src = "") then Description dst else Description src).

(** The options of the template, into which those of the service are merged;
    without them those of the service, merged into themselves. *)
Definition service_helm_options (svc : ServiceWithValues) (template : ServiceTemplate) : option ServiceHelmOptions :=
  let helmOptions := match sts_helmOptions (stpl_spec template) with
                     | Some o => Some o
                     | None => sv_helmOptions svc
                     end in
  match sv_helmOptions svc, helmOptions with
  | Some src, Some dst => Some (mergeHelmOptions src dst)
  | _, _ => helmOptions
  end.

Definition deref {A} (p : option A) (d : A) : A := default d p.

Definition convertHelmOptions (options : option ServiceHelmOptions) : option HelmOptions :=
  (λ o,
    let install := deref (InstallOptions o) (mkInstallOptions None None false "") in
    let install := mkInstallOptions (override (CreateNamespace o) (hio_createNamespace install))
                     (override (Replace o) (hio_replace install))
                     (deref (DisableHooks o) (hio_disableHooks install)) (hio_rest install) in
    mkSveltosOptions (Timeout o) install (deref (SkipCRDs o) false) (deref (SkipSchemaValidation o) false)
      (deref (Wait o) false) (deref (WaitForJobs o) false) (deref (DisableHooks o) false)
      (deref (DisableOpenAPIValidation o) false) (deref (Atomic o) false) (deref (DependencyUpdate o) false)
      (deref (Labels o) ∅) (deref (EnableClientCache o) false) (Description o)
      (deref (UpgradeOptions o) "") (deref (UninstallOptions o) "")) <$> options.

Definition convertValuesFrom (src : list ValuesFrom) (namespace : string) : list ValueFrom :=
  (λ item, mkValueFrom (vf_kind item) (vf_name item) namespace) <$> src.

(** ** Helm charts *)

(** [secretRef] and [certSecretRef] are names. *)
Definition generateRegistryCredentialsConfig (namespace : string) (insecure : bool)
    (secretRef certSecretRef : option string) : RegistryCredentialsConfig :=
  mkRegistryCredentials insecure false ((λ n, mkKey namespace n) <$> secretRef) ((λ n, mkKey namespace n) <$> certSecretRef).

Definition HelmRepositoryKind := "HelmRepository".
Definition GitRepositoryKind := "GitRepository".
Definition RegistryTypeOCI := "oci".

Definition TrimPrefix (s prefix : string) : string :=
  if HasPrefix s prefix then str_drop (String.length prefix) s else s.

Definition template_key (template : ServiceTemplate) : string :=
  om_namespace (stpl_meta template) +:+ "/" +:+ om_name (stpl_meta template).
Definition status_missing (template : ServiceTemplate) : gerror :=
  ErrNew ("status for ServiceTemplate " +:+ template_key template +:+ " has not been updated yet").

Definition helmChartFromFluxSource (svc : ServiceWithValues) (template : ServiceTemplate) (path namespace : string)
  : result SveltosHelmChart :=
  match stst_sourceStatus (stpl_status template) with
  | None => Err (status_missing template)
  | Some status =>
      let sanitizedPath := TrimPrefix (TrimPrefix path ".") "/" in
      let url := srs_kind status +:+ "://" +:+ srs_namespace status +:+ "/" +:+ srs_name status +:+ "/" +:+ sanitizedPath in
      Ok (mkSveltosChart (sv_values svc) (convertValuesFrom (sv_valuesFrom svc) namespace) url "" "" "" (sv_name svc)
            (sv_namespace svc) None (convertHelmOptions (service_helm_options svc template)) "")
  end.

Section charts.
Context {C : Type} `{Semver} `{!Getter C FluxHelmChart} `{!Getter C HelmRepository} `{!Getter C GitRepository}
  `{!Getter C ServiceTemplate} (c : C).

(** The version of the artifact when it is one, else that of the spec. *)
Definition flux_chart_version (chart : FluxHelmChart) : string :=
  match fhc_revision chart with
  | Some revision => if negb (bool_decide (revision = "")) && bool_decide (is_Some (NewVersion revision))
                     then revision else fhc_version chart
  | None => fhc_version chart
  end.

(** The repository of a chart: its URL, the name of the chart in it, and the
    credentials to use. *)
Definition chart_repository (namespace : string) (chart : FluxHelmChart)
  : result (string * string * option RegistryCredentialsConfig) :=
  let repoRef := mkKey (om_namespace (fhc_meta chart)) (fhc_sourceName chart) in
  let chartName := fhc_chart chart in
  if bool_decide (fhc_sourceKind chart = HelmRepositoryKind) then
    repo ← wrap_err ("failed to get " +:+ key_string repoRef +:+ ": ") (c_get (T:=HelmRepository) c repoRef);
    let repoChartName := if bool_decide (hr_type repo = RegistryTypeOCI) then chartName
                         else chartName +:+ "/" +:+ chartName in
    let credentials :=
      if hr_insecure repo || bool_decide (is_Some (hr_secretRef repo)) || bool_decide (is_Some (hr_certSecretRef repo))
      then Some (generateRegistryCredentialsConfig namespace (hr_insecure repo) (hr_secretRef repo) (hr_certSecretRef repo))
      else None in
    Ok (hr_url repo, repoChartName, credentials)
  else if bool_decide (fhc_sourceKind chart = GitRepositoryKind) then
    repo ← wrap_err ("failed to get " +:+ key_string repoRef +:+ ": ") (c_get (T:=GitRepository) c repoRef);
    Ok ("gitrepository://" +:+ om_namespace (fhc_meta chart) +:+ "/" +:+ fhc_sourceName chart +:+ "/" +:+ chartName,
        chartName, Some (generateRegistryCredentialsConfig namespace false (gr_secretRef repo) None))
  else Err (ErrNew ("unsupported HelmChart source kind " +:+ key_string repoRef)).

Definition helmChartFromSpecOrRef (namespace : string) (svc : ServiceWithValues) (template : ServiceTemplate)
  : result SveltosHelmChart :=
  match stst_chartRef (stpl_status template) with
  | None => Err (status_missing template)
  | Some ref =>
      let chartRef := mkKey (cr_namespace ref) (cr_name ref) in
      chart ← wrap_err ("failed to get HelmChart " +:+ key_string chartRef +:+ " referenced by ServiceTemplate " +:+
                 template_key template +:+ ": ") (c_get (T:=FluxHelmChart) c chartRef);
      let chartVersion := flux_chart_version chart in
      match NewVersion chartVersion with
      | None => Err (ErrWrap ("failed to determine version " +:+ chartVersion +:+ " of HelmChart " +:+
                  key_string chartRef +:+ " referenced by ServiceTemplate " +:+ template_key template +:+ ": ")
                  (NewVersion_error chartVersion))
      | Some _ =>
          repository ← chart_repository namespace chart;
          let '(repoURL, repoChartName, credentials) := repository in
          Ok (mkSveltosChart (sv_values svc) (convertValuesFrom (sv_valuesFrom svc) namespace) repoURL
                (fhc_chart chart) repoChartName chartVersion (sv_name svc)
                (if negb (bool_decide (sv_namespace svc = "")) then sv_namespace svc else sv_name svc)
                credentials (convertHelmOptions (service_helm_options svc template)) "")
      end
  end.

Definition set_chart_action (action : string) (chart : SveltosHelmChart) : SveltosHelmChart :=
  mkSveltosChart (shc_values chart) (shc_valuesFrom chart) (shc_repositoryURL chart) (shc_repositoryName chart)
    (shc_chartName chart) (shc_chartVersion chart) (shc_releaseName chart) (shc_releaseNamespace chart)
    (shc_credentials chart) (shc_options chart) action.

Definition helm_chart (namespace : string) (svc : ServiceWithValues) (tmpl : ServiceTemplate) (helm : HelmSpec)
  : result SveltosHelmChart :=
  helmChart ←
    (if bool_decide (is_Some (hs_chartRef helm)) || bool_decide (is_Some (hs_chartSpec helm))
     then helmChartFromSpecOrRef namespace svc tmpl
     else match hs_chartSource helm with
          | Some chartSource => helmChartFromFluxSource svc tmpl (src_path chartSource) namespace
          | None => Err (ErrNew ("ServiceTemplate " +:+ template_key tmpl +:+ " has no Helm chart defined"))
          end);
  Ok (if negb (bool_decide (sv_helmAction svc = "")) then set_chart_action (sv_helmAction svc) helmChart else helmChart).

Definition serviceTemplateObjectFromService (svc : ServiceWithValues) (namespace : string) : result ServiceTemplate :=
  let key := mkKey namespace (sv_template svc) in
  wrap_err ("failed to get ServiceTemplate " +:+ key_string key +:+ ": ") (c_get (T:=ServiceTemplate) c key).

(** ** What the three kinds of services share *)

Variable now : Z.

(** The state a service starts with. *)
Definition seed_state (type : ServiceType) (version : string) (svc : ServiceWithValues) (services : list ServiceState)
  : list ServiceState :=
  if existsb (λ s, bool_decide (st_name s = sv_name svc) && bool_decide (st_namespace s = sv_namespace svc)) services
  then services
  else services ++ [mkServiceState (Some now) version type (sv_name svc) (sv_namespace svc) (sv_template svc)
                      ServiceStateProvisioning "" "" []].

Section refs.
Context {A : Type} (type : ServiceType) (version : ServiceWithValues → string).
(** [None] for a template of another kind. *)
Variable build : ServiceWithValues → ServiceTemplate → option (outcome A).

(** The loop over the services; the states in the status grow on the way. *)
Fixpoint refs_loop (namespace : string) (svcs : list ServiceWithValues) (items : list A)
    (templateInvalidErrors : option gerror) (services : list ServiceState) : list ServiceState * outcome (list A) :=
  match svcs with
  | [] => (services, Ret (match templateInvalidErrors with Some e => Err e | None => Ok items end))
  | svc :: svcs =>
      match serviceTemplateObjectFromService svc namespace with
      | Err e => (services, Ret (Err e))
      | Ok tmpl =>
          match build svc tmpl with
          | None => refs_loop namespace svcs items templateInvalidErrors services
          | Some built =>
              let templateInvalidErrors :=
                if negb (tv_valid (stst_validation (stpl_status tmpl)))
                then join_err templateInvalidErrors (ErrNew ("ServiceTemplate " +:+ template_key tmpl +:+ " is invalid"))
                else templateInvalidErrors in
              match built with
              | Panic => (services, Panic)
              | Ret (Err e) => (services, Ret (Err e))
              | Ret (Ok item) =>
                  refs_loop namespace svcs (items ++ [item]) templateInvalidErrors
                    (seed_state type (version svc) svc services)
              end
          end
      end
  end.

Definition refs (serviceSet : ServiceSet) : list ServiceState * outcome (list A) :=
  refs_loop (om_namespace (sset_meta serviceSet)) (sss_services (sset_spec serviceSet)) [] None
    (ssst_services (sset_status serviceSet)).
End refs.

Definition build_chart (serviceSet : ServiceSet) (svc : ServiceWithValues) (tmpl : ServiceTemplate)
  : option (outcome SveltosHelmChart) :=
  (λ helm, Ret (helm_chart (om_namespace (sset_meta serviceSet)) svc tmpl helm)) <$> sts_helm (stpl_spec tmpl).
Definition getHelmCharts (serviceSet : ServiceSet) : list ServiceState * outcome (list SveltosHelmChart) :=
  refs ServiceTypeHelm (λ _, "") (build_chart serviceSet) serviceSet.

(** The status of the source is read without a check. *)
Definition build_kustomization (serviceSet : ServiceSet) (svc : ServiceWithValues) (tmpl : ServiceTemplate)
  : option (outcome KustomizationRef) :=
  (λ k, match stst_sourceStatus (stpl_status tmpl) with
        | None => Panic
        | Some s => Ret (Ok (mkKustomizationRef (srs_namespace s) (srs_name s) (srs_kind s) (src_path k) (sv_namespace svc)
                      (src_deploymentType k) (convertValuesFrom (sv_valuesFrom svc) (om_namespace (sset_meta serviceSet)))))
        end) <$> sts_kustomize (stpl_spec tmpl).
Definition getKustomizationRefs (serviceSet : ServiceSet) : list ServiceState * outcome (list KustomizationRef) :=
  refs ServiceTypeKustomize sv_version (build_kustomization serviceSet) serviceSet.

Definition build_policy (svc : ServiceWithValues) (tmpl : ServiceTemplate) : option (outcome PolicyRef) :=
  (λ r, match stst_sourceStatus (stpl_status tmpl) with
        | None => Panic
        | Some s => Ret (Ok (mkPolicyRef (srs_namespace s) (srs_name s) (srs_kind s) (src_path r) (src_deploymentType r) ""))
        end) <$> sts_resources (stpl_spec tmpl).
Definition getPolicyRefs (serviceSet : ServiceSet) : list ServiceState * outcome (list PolicyRef) :=
  refs ServiceTypeResource sv_version build_policy serviceSet.
End charts.

(** ** The configuration of the provider *)

Definition defaultTier : Z := 100.
Definition MaxInt32 : Z := 2 ^ 31 - 1.
Definition sveltosDriftIgnorePatch : string :=
  "- op: add" +:+ newline +:+ "  path: /metadata/annotations/projectsveltos.io~1driftDetectionIgnore" +:+ newline +:+
  "  value: ok".
Definition WithdrawPolicies := "WithdrawPolicies".
Definition LeavePolicies := "LeavePolicies".
Definition SyncModeContinuous := "Continuous".
Definition DeploymentTypeRemote := "Remote".
Definition HelmChartActionInstall := "Install".

Record profileConfig := mkProfileConfig {
  pcf_priority : option Z; pcf_maxConsecutiveFailures : option N; pcf_driftIgnore : list string;
  pcf_stopMatchingBehavior : string; pcf_syncMode : string; pcf_templateResourceRefs : list TemplateResourceRef;
  pcf_policyRefs : list PolicyRef; pcf_driftExclusions : list string; pcf_patches : list Patch;
  pcf_patchesFrom : list ValueFrom; pcf_continueOnError : bool; pcf_reloader : bool; pcf_stopOnConflict : bool }.

Definition errEmptyConfig := sentinel "empty config".
Definition errBuildProfileFromConfigFailed := sentinel "failed to build profile from config".
Definition errBuildHelmChartsFailed := sentinel "failed to build helm charts".
Definition errBuildKustomizationRefsFailed := sentinel "failed to build kustomization refs".
Definition errBuildPolicyRefsFailed := sentinel "failed to build policy refs".

(** An [int32] in, an [int32] out. *)
Definition priorityToTier (priority : Z) : result Z :=
  let mini := 1%Z in
  let maxi := (MaxInt32 - mini)%Z in
  if bool_decide (mini ≤ priority)%Z && bool_decide (priority ≤ maxi)%Z then Ok (MaxInt32 - priority)%Z
  else Err (ErrNew ("invalid value " +:+ pretty priority +:+ ", priority has to be between " +:+ pretty mini +:+
              " and " +:+ pretty maxi)).

Definition empty_spec : ProfileSpec :=
  mkProfileSpec (mkSelector ∅ []) [] 0 "" "" false false false [] [] [] [] [] [] [] None "".

Section config.
(** [json.Unmarshal] to a [profileConfig]. *)
Variable json_profileConfig : string → result profileConfig.

(** The specification, nil after an error other than the empty configuration,
    and the error. *)
Definition buildProfileSpec (config : option string) : option ProfileSpec * option gerror :=
  match config with
  | None => (Some empty_spec, Some errEmptyConfig)
  | Some raw =>
      match json_profileConfig raw with
      | Err e => (None, Some (ErrWrap "failed to unmarshal raw config to profile configuration: " e))
      | Ok params =>
          match priorityToTier (deref (pcf_priority params) defaultTier) with
          | Err e => (None, Some (ErrWrap "failed to convert priority to tier: " e))
          | Ok tier =>
              let stopMatchingBehavior :=
                if bool_decide (pcf_stopMatchingBehavior params = LeavePolicies) then LeavePolicies else WithdrawPolicies in
              (Some (mkProfileSpec (mkSelector ∅ []) [] tier stopMatchingBehavior (pcf_syncMode params)
                       (negb (pcf_stopOnConflict params)) (pcf_continueOnError params) (pcf_reloader params)
                       (pcf_templateResourceRefs params) (pcf_policyRefs params) [] []
                       (pcf_patches params ++ ((λ target, mkPatch (Some target) sveltosDriftIgnorePatch) <$> pcf_driftIgnore params))
                       (pcf_patchesFrom params) (pcf_driftExclusions params) (pcf_maxConsecutiveFailures params) ""), None)
          end
      end
  end.
End config.

Definition or_default (d s : string) : string := if bool_decide (s = "") then d else s.

Definition applyProfileSpecDefaults (spec : ProfileSpec) : ProfileSpec :=
  mkProfileSpec (prs_clusterSelector spec) (prs_clusterRefs spec)
    (if bool_decide (prs_tier spec = 0%Z) then defaultTier else prs_tier spec)
    (or_default WithdrawPolicies (prs_stopMatchingBehavior spec)) (or_default SyncModeContinuous (prs_syncMode spec))
    (prs_continueOnConflict spec) (prs_continueOnError spec) (prs_reloader spec) (prs_templateResourceRefs spec)
    ((λ p, mkPolicyRef (plr_namespace p) (plr_name p) (plr_kind p) (plr_path p)
             (or_default DeploymentTypeRemote (plr_deploymentType p)) (plr_rest p)) <$> prs_policyRefs spec)
    ((λ h, set_chart_action (or_default HelmChartActionInstall (shc_action h)) h) <$> prs_helmCharts spec)
    ((λ k, mkKustomizationRef (kr_namespace k) (kr_name k) (kr_kind k) (kr_path k) (kr_targetNamespace k)
             (or_default DeploymentTypeRemote (kr_deploymentType k)) (kr_valuesFrom k)) <$> prs_kustomizationRefs spec)
    (prs_patches spec) (prs_patchesFrom spec) (prs_driftExclusions spec) (prs_maxConsecutiveFailures spec) (prs_rest spec).

(** ** The credentials of the cluster *)

Section credentials.
(** [strings.EqualFold]. *)
Variable EqualFold : string → string → bool.

Definition propagated (cd : ClusterDeployment) (cred : Credential) : option ObjectReference :=
  match cds_propagateCredentials (cd_spec cd), crs_identityRef (cred_spec cred) with
  | Some true, Some ref => Some ref
  | _, _ => None
  end.

Definition projectTemplateResourceRefs (cd : ClusterDeployment) (cred : Credential) : list TemplateResourceRef :=
  match propagated cd cred with
  | None => []
  | Some ref =>
      [mkTemplateResourceRef ref "InfrastructureProviderIdentity"] ++
      (if negb (EqualFold (ref_kind ref) "Secret")
       then [mkTemplateResourceRef (mkRef "Secret" (ref_namespace ref) (ref_name ref +:+ "-secret") "v1")
               "InfrastructureProviderIdentitySecret"]
       else [])
  end.

Definition projectPolicyRefs (cd : ClusterDeployment) (cred : Credential) : list PolicyRef :=
  match propagated cd cred with
  | None => []
  | Some ref => [mkPolicyRef (ref_namespace ref) (ref_name ref +:+ "-resource-template") "ConfigMap" "" DeploymentTypeRemote ""]
  end.
End credentials.

(** ** Properties: Helm options *)

Definition no_options : ServiceHelmOptions :=
  mkHelmOptions None None None None None None None None None None None None None None None None "".

Lemma override_assoc {A} (a b c : option A) : override a (override b c) = override (override a b) c.
Proof. by destruct a. Qed.
Lemma override_idem {A} (a : option A) : override a a = a.
Proof. by destruct a. Qed.
Lemma override_None {A} (a : option A) : override a None = a.
Proof. by destruct a. Qed.

(** Layers of Helm options compose: however three of them are grouped the
    outcome is the same, a layer without settings changes nothing on either
    side, and merging options into themselves, as is done when the template has
    none, leaves them as they are. Each setting is that of the upper layer when
    it has one, and of the lower one otherwise; labels are decided one by one. *)
Lemma mergeHelmOptions_layers a b c :
  mergeHelmOptions a (mergeHelmOptions b c) = mergeHelmOptions (mergeHelmOptions a b) c ∧
  mergeHelmOptions a a = a ∧ mergeHelmOptions no_options a = a ∧ mergeHelmOptions a no_options = a ∧
  (∀ k, (Labels (mergeHelmOptions a b) ≫= lookup k) =
        match Labels a ≫= lookup k with Some v => Some v | None => Labels b ≫= lookup k end).
Proof.
  split_and!.
  - unfold mergeHelmOptions; cbn. f_equal; try apply override_assoc.
    + destruct (Labels a) as [ma|], (Labels b) as [mb|], (Labels c) as [mc|]; cbn; try done;
        rewrite ?(assoc_L (∪)), ?(right_id_L ∅ (∪)); done.
    + by destruct (bool_decide (Description a = "")) eqn:Ha; rewrite ?Ha.
  - destruct a as [? ? ? ? ? ? ? ? ? ? ? ? [m|] ? ? ? ?]; unfold mergeHelmOptions; cbn; f_equal; try apply override_idem; try by case_bool_decide.
    f_equal. apply map_eq. intros k. rewrite lookup_union.
    by destruct (m !! k).
  - by destruct a.
  - destruct a as [? ? ? ? ? ? ? ? ? ? ? ? [m|] ? ? ? ?]; unfold mergeHelmOptions; cbn; f_equal; try apply override_None; try by case_bool_decide.
    by rewrite (right_id_L ∅ (∪)).
  - intros k. unfold mergeHelmOptions; cbn. destruct (Labels a) as [ma|]; [|done]. cbn. rewrite lookup_union.
    destruct (ma !! k), (Labels b) as [mb|]; cbn; rewrite ?lookup_empty; try done; by destruct (mb !! k).
Qed.

(** ** Properties: priorities *)

(** Exactly the priorities from 1 to MaxInt32-1 are accepted; their tiers
    fill the same range, so an int32 never overflows; a higher priority gets a
    lower tier, and the tier determines the priority. *)
Lemma priorityToTier_spec p :
  match priorityToTier p with
  | Ok t => (1 ≤ p < MaxInt32)%Z ∧ (1 ≤ t < MaxInt32)%Z ∧ priorityToTier t = Ok p ∧
            ∀ p' t', priorityToTier p' = Ok t' → ((p < p')%Z ↔ (t' < t)%Z)
  | Err _ => ¬ (1 ≤ p < MaxInt32)%Z
  end.
Proof.
  assert (∀ q, (1 ≤ q < MaxInt32)%Z → priorityToTier q = Ok (MaxInt32 - q)%Z) as Hok.
  { intros q Hq. unfold priorityToTier. cbn zeta. by rewrite !bool_decide_eq_true_2 by lia. }
  assert (∀ q t, priorityToTier q = Ok t → (1 ≤ q < MaxInt32)%Z ∧ t = (MaxInt32 - q)%Z) as Hinv.
  { intros q t. unfold priorityToTier. cbn zeta. case_bool_decide; [|done]. case_bool_decide; [|done].
    intros [= <-]. lia. }
  destruct (priorityToTier p) as [t|e] eqn:E.
  - apply Hinv in E as [Hp ->]. split_and!; try lia.
    + rewrite Hok by lia. f_equal. lia.
    + intros p' t' [Hp' ->]%Hinv. lia.
  - intros Hp%Hok. congruence.
Qed.

(** A configuration without a priority gets the tier a priority of [defaultTier]
    has, almost the lowest; without a configuration the tier is [defaultTier]. *)
Lemma default_tiers json raw params :
  json raw = Ok params → pcf_priority params = None →
  (prs_tier ∘ applyProfileSpecDefaults <$> (buildProfileSpec json (Some raw)).1) = Some (MaxInt32 - defaultTier)%Z ∧
  (prs_tier ∘ applyProfileSpecDefaults <$> (buildProfileSpec json None).1) = Some defaultTier.
Proof. intros Hj Hp. unfold buildProfileSpec. by rewrite Hj, Hp. Qed.

(** ** Properties: the services of a profile *)

(** States are only added, each once, for services it is about, Provisioning. *)
Record grows (svcs : list ServiceWithValues) (a b : list ServiceState) : Prop := {
  gr_prefix : a `prefix_of` b;
  gr_nodup : NoDup (st_raw_key <$> a) → NoDup (st_raw_key <$> b);
  gr_fresh s : s ∈ b → s ∈ a ∨ st_state s = ServiceStateProvisioning ∧ ∃ svc, svc ∈ svcs ∧ st_raw_key s = sv_raw_key svc }.

Lemma grows_refl svcs a : grows svcs a a.
Proof. split; [done|done|by left]. Qed.
Lemma grows_trans svcs a b c : grows svcs a b → grows svcs b c → grows svcs a c.
Proof.
  intros [P1 N1 F1] [P2 N2 F2]. split; [by etrans|auto|]. intros s Hs. destruct (F2 s Hs) as [Hb|]; [by apply F1|by right].
Qed.
Lemma grows_keys svcs a b k : grows svcs a b → k ∈ st_raw_key <$> a → k ∈ st_raw_key <$> b.
Proof. intros [[l ->] _ _] Hk. rewrite fmap_app. set_solver. Qed.

Section seeding.
Variables (now : Z) (type : ServiceType).

Lemma seed_state_unfold v svc services :
  seed_state now type v svc services =
  if bool_decide (sv_raw_key svc ∈ st_raw_key <$> services) then services
  else services ++ [mkServiceState (Some now) v type (sv_name svc) (sv_namespace svc) (sv_template svc)
                      ServiceStateProvisioning "" "" []].
Proof.
  unfold seed_state. replace (existsb _ services) with (bool_decide (sv_raw_key svc ∈ st_raw_key <$> services)); [done|].
  apply Bool.eq_iff_eq_true. rewrite bool_decide_eq_true, list_elem_of_fmap, existsb_elem_of. unfold st_raw_key, sv_raw_key.
  split; intros (s & Hs).
  - destruct Hs as [[= Hns Hn] Hs]. exists s. by rewrite !bool_decide_eq_true_2.
  - destruct Hs as [Hs Hk]. apply andb_true_iff in Hk as [Hn%bool_decide_eq_true Hns%bool_decide_eq_true].
    exists s. by rewrite Hn, Hns.
Qed.

Lemma seed_state_grows v svc services svcs :
  svc ∈ svcs → grows svcs services (seed_state now type v svc services) ∧
  sv_raw_key svc ∈ st_raw_key <$> seed_state now type v svc services.
Proof.
  intros Hin. rewrite seed_state_unfold. case_bool_decide as Hk; [split; [apply grows_refl|done]|]. split.
  - split; [by eexists| |].
    + intros Hnd. rewrite fmap_app. apply NoDup_app. split_and!; [done| |by apply NoDup_singleton].
      intros k Hk1 ->%list_elem_of_singleton. by apply Hk.
    + intros s [Hs| ->%list_elem_of_singleton]%elem_of_app; [by left|]. right. split; [done|]. by exists svc.
  - rewrite fmap_app. set_solver.
Qed.
End seeding.

Section refs_properties.
Context {C : Type} `{!Getter C ServiceTemplate} (c : C) (now : Z) {A : Type} (type : ServiceType)
  (version : ServiceWithValues → string) (build : ServiceWithValues → ServiceTemplate → option (outcome A)).
Notation refs_loop := (refs_loop c now type version build).
Notation template_of ns := (λ svc, serviceTemplateObjectFromService c svc ns).

Lemma refs_loop_grows ns all svcs items err services :
  svcs ⊆ all → grows all services (refs_loop ns svcs items err services).1.
Proof.
  revert items err services. induction svcs as [|svc svcs IH]; intros items err services Hsub; cbn [SveltosProfile.refs_loop];
    [apply grows_refl|]. assert (svc ∈ all ∧ svcs ⊆ all) as [Hin Hsub'] by set_solver.
  destruct (serviceTemplateObjectFromService c svc ns) as [t|e]; [|apply grows_refl].
  destruct (build svc t) as [[[i|e]|]|]; try apply grows_refl; [|by apply IH].
  eapply grows_trans; [by eapply (seed_state_grows now type (version svc))|by apply IH].
Qed.

(** What a loop over the services that succeeds has seen. *)
Record collected (ns : string) (svcs : list ServiceWithValues) (tmpls : list ServiceTemplate) (items : list A) : Prop := {
  co_templates : mapM_result (template_of ns) svcs = Ok tmpls;
  co_items : omap (λ p, build p.1 p.2) (zip svcs tmpls) = (λ i, Ret (Ok i)) <$> items;
  co_valid svc t : (svc, t) ∈ zip svcs tmpls → is_Some (build svc t) → tv_valid (stst_validation (stpl_status t)) = true }.

Lemma collected_cons ns svc svcs t tmpls items' :
  serviceTemplateObjectFromService c svc ns = Ok t →
  collected ns (svc :: svcs) (t :: tmpls) items' ↔
  match build svc t with
  | None => collected ns svcs tmpls items'
  | Some o => tv_valid (stst_validation (stpl_status t)) = true ∧
              ∃ i items, o = Ret (Ok i) ∧ items' = i :: items ∧ collected ns svcs tmpls items
  end.
Proof.
  intros Ht. split.
  - intros [Hm Hi Hv]. simpl in Hm. rewrite Ht in Hm. apply bind_Ok in Hm as (t' & [= <-] & (ts & Hm & Hts)%bind_Ok).
    injection Hts as ->.
    csimpl in Hi. assert (∀ svc' t', (svc', t') ∈ zip svcs tmpls → is_Some (build svc' t') →
      tv_valid (stst_validation (stpl_status t')) = true) as Hv' by (intros ????; eapply Hv; [right|]; done).
    destruct (build svc t) as [o|] eqn:E; [|by split]. split; [eapply Hv; [left|by rewrite E]|].
    destruct items' as [|i items]; [done|]. simpl in Hi. injection Hi as -> Hi. by exists i, items.
  - destruct (build svc t) as [o|] eqn:E.
    + intros (Hval & i & items & -> & -> & [Hm Hi Hv]). split; [by simpl; rewrite Ht; simpl; rewrite Hm|by csimpl; rewrite E, Hi|].
      intros svc' t' [[= -> ->]|Hin]%elem_of_cons; [done|by apply Hv].
    + intros [Hm Hi Hv]. split; [by simpl; rewrite Ht; simpl; rewrite Hm|by csimpl; rewrite E|].
      intros svc' t' [[= -> ->]|Hin]%elem_of_cons; [by rewrite E; intros []|by apply Hv].
Qed.

Lemma refs_loop_Ok ns svcs items err services items' :
  (refs_loop ns svcs items err services).2 = Ret (Ok items') ↔
  err = None ∧ ∃ tmpls new, items' = items ++ new ∧ collected ns svcs tmpls new.
Proof.
  revert items err services items'. induction svcs as [|svc svcs IH]; intros items err services items'; cbn [SveltosProfile.refs_loop].
  { cbn. destruct err as [e|]; [split; [done|by intros []]|]. split.
    - intros [= <-]. split; [done|]. exists [], []. split; [by rewrite app_nil_r|]. split; [done..|].
      by intros ?? ?%elem_of_nil.
    - intros (_ & tmpls & new & -> & [[= <-] Hi _]). destruct new; [by rewrite app_nil_r|done]. }
  assert (∀ tmpls new, collected ns (svc :: svcs) tmpls new →
    ∃ t tmpls', serviceTemplateObjectFromService c svc ns = Ok t ∧ tmpls = t :: tmpls') as Hc.
  { intros tmpls new [Hm _ _]. simpl in Hm. apply bind_Ok in Hm as (t & Ht & (ts & _ & [= <-])%bind_Ok). by exists t, ts. }
  destruct (serviceTemplateObjectFromService c svc ns) as [t|e] eqn:Ht.
  2:{ split; [done|]. intros (_ & tmpls & new & _ & (t & ts & ? & _)%Hc). done. }
  assert ((∃ tmpls new, items' = items ++ new ∧ collected ns (svc :: svcs) tmpls new) ↔
    ∃ tmpls new, items' = items ++ new ∧
      match build svc t with
      | None => collected ns svcs tmpls new
      | Some o => tv_valid (stst_validation (stpl_status t)) = true ∧
                  ∃ i items, o = Ret (Ok i) ∧ new = i :: items ∧ collected ns svcs tmpls items
      end) as ->.
  { split.
    - intros (tmpls & new & Hi & Hcol). destruct (Hc tmpls new Hcol) as (t' & ts & [= <-] & ->).
      exists ts, new. split; [done|]. by apply collected_cons.
    - intros (tmpls & new & Hi & Hcol). exists (t :: tmpls), new. split; [done|]. by apply collected_cons. }
  clear Hc. destruct (build svc t) as [[[i|e]|]|]; [| | |by rewrite IH].
  - rewrite IH. destruct (tv_valid _); cbn [negb].
    + split.
      * intros (-> & tmpls & new & -> & Hcol). split; [done|]. exists tmpls, (i :: new). rewrite <- app_assoc. naive_solver.
      * intros (-> & tmpls & new & -> & _ & i' & new' & [= <-] & -> & Hcol). split; [done|]. exists tmpls, new'.
        by rewrite <- app_assoc.
    + split; [by intros [?%join_err_ne _]|by intros (_ & ? & ? & _ & ? & _)].
  - split; [done|]. by intros (_ & ? & ? & _ & _ & ? & ? & ? & _).
  - split; [done|]. by intros (_ & ? & ? & _ & _ & ? & ? & ? & _).
Qed.

Lemma refs_loop_seeds ns svcs items err services items' tmpls svc t :
  (refs_loop ns svcs items err services).2 = Ret (Ok items') → mapM_result (template_of ns) svcs = Ok tmpls →
  (svc, t) ∈ zip svcs tmpls → is_Some (build svc t) →
  sv_raw_key svc ∈ st_raw_key <$> (refs_loop ns svcs items err services).1.
Proof.
  revert items err services tmpls. induction svcs as [|svc' svcs IH]; intros items err services tmpls; cbn [SveltosProfile.refs_loop].
  { intros _ _ Hin. simpl in Hin. by apply elem_of_nil in Hin. }
  cbn [mapM_result]. destruct (serviceTemplateObjectFromService c svc' ns) as [t'|e]; [|done].
  intros Hr (? & [= <-] & (ts & Hts & [= <-])%bind_Ok)%bind_Ok [[= -> ->]|Hin]%elem_of_cons Hb.
  - destruct (build svc' t') as [[[i|e]|]|]; try done.
    eapply grows_keys; [by eapply (refs_loop_grows ns svcs svcs)|].
    by apply (seed_state_grows now type (version svc') svc' services [svc']), list_elem_of_singleton.
  - destruct (build svc' t') as [[[i|e]|]|]; try done; by eapply IH.
Qed.

(** The loop that builds the charts, kustomizations or policies of a profile
    is a filter and a map over the services, in their order: it succeeds
    exactly when every template is found and, for the services whose template is
    of the kind asked for, is valid and can be built, and yields one item for
    each of those. Each then has a state; the states listed before keep their
    places and values, and no service gets a second one, however it ends. *)
Lemma refs_correct serviceSet :
  let svcs := sss_services (sset_spec serviceSet) in
  let ns := om_namespace (sset_meta serviceSet) in
  let '(states, r) := refs c now type version build serviceSet in
  grows svcs (ssst_services (sset_status serviceSet)) states ∧
  (∀ items, r = Ret (Ok items) ↔ ∃ tmpls, collected ns svcs tmpls items) ∧
  (∀ items tmpls svc t, r = Ret (Ok items) → mapM_result (template_of ns) svcs = Ok tmpls →
     (svc, t) ∈ zip svcs tmpls → is_Some (build svc t) → sv_raw_key svc ∈ st_raw_key <$> states).
Proof.
  cbn zeta. unfold refs. set (svcs := sss_services _). set (ns := om_namespace _).
  pose proof (refs_loop_grows ns svcs svcs [] None (ssst_services (sset_status serviceSet)) (reflexivity _)) as Hg.
  pose proof (refs_loop_Ok ns svcs [] None (ssst_services (sset_status serviceSet))) as Ho.
  pose proof (refs_loop_seeds ns svcs [] None (ssst_services (sset_status serviceSet))) as Hs.
  destruct (refs_loop ns svcs [] None _) as [states r]. cbn [fst snd] in *. split_and!; [done| |naive_solver].
  intros items. rewrite Ho. split; [intros (_ & tmpls & new & -> & ?); by exists tmpls|].
  intros (tmpls & ?). split; [done|]. by exists tmpls, items.
Qed.
End refs_properties.

(** A kustomization or resource template that has not been reconciled yet makes
    the adapter panic, where a Helm one gives an error. *)
Lemma unreconciled_template_panics {C} `{!Getter C ServiceTemplate} (c : C) now serviceSet svc rest tmpl :
  sss_services (sset_spec serviceSet) = svc :: rest →
  serviceTemplateObjectFromService c svc (om_namespace (sset_meta serviceSet)) = Ok tmpl →
  stst_sourceStatus (stpl_status tmpl) = None →
  (is_Some (sts_kustomize (stpl_spec tmpl)) → (getKustomizationRefs c now serviceSet).2 = Panic) ∧
  (is_Some (sts_resources (stpl_spec tmpl)) → (getPolicyRefs c now serviceSet).2 = Panic) ∧
  (∀ path ns, ∃ e, helmChartFromFluxSource svc tmpl path ns = Err e).
Proof.
  intros Hs Ht Hn. unfold getKustomizationRefs, getPolicyRefs, refs. rewrite Hs. cbn [refs_loop]. rewrite Ht.
  unfold build_kustomization, build_policy, helmChartFromFluxSource. rewrite Hn.
  split_and!; [by intros [k ->]|by intros [k ->]|]. intros path ns. by eexists.
Qed.

(** ** Properties: defaults *)

Lemma or_default_idem d x : or_default d (or_default d x) = or_default d x.
Proof.
  unfold or_default. destruct (decide (x = "")) as [->|Hx]; [|by rewrite !(bool_decide_eq_false_2 _ Hx)].
  rewrite (bool_decide_eq_true_2 ("" = "")) by done. by destruct (bool_decide (d = "")).
Qed.

Lemma applyProfileSpecDefaults_idem spec : applyProfileSpecDefaults (applyProfileSpecDefaults spec) = applyProfileSpecDefaults spec.
Proof.
  unfold applyProfileSpecDefaults at 1. cbn. rewrite !or_default_idem, <- !list_fmap_compose.
  unfold applyProfileSpecDefaults. f_equal.
  - destruct (decide (prs_tier spec = 0%Z)) as [E|E].
    + by rewrite (bool_decide_eq_true_2 _ E).
    + by rewrite !(bool_decide_eq_false_2 _ E).
  - apply list_fmap_ext. intros _ p _. cbn. by rewrite or_default_idem.
  - apply list_fmap_ext. intros _ h _. unfold set_chart_action. cbn. by rewrite or_default_idem.
  - apply list_fmap_ext. intros _ k _. cbn. by rewrite or_default_idem.
Qed.
