(* ===== verification/AdmissionChecks.v ===== *)
(** * Checks on credentials, policies and deletions
    ([src/internal/util/validation]: [cd.go], [region.go], [deletion.go],
    [rbacpolicy.go], the deletion half of [mgmt.go], and the deletion half of
    [clusterauthentication.go] and [clusterauditpolicy.go];
    [src/internal/providerinterface/util.go]; the clients of regional clusters
    in [src/internal/util/kube/client.go]).

    Whether a Credential is ready and of a kind the infrastructure providers
    of a template support, whether an RBACPolicy is consistent, and whether an
    object may be deleted: nothing that refers to it is left. *)

From S2P Require Import Prelude GoStrings Api ApiManagement Kube ServiceBasics Cluster Compatibility.

#[local] Arguments String.append !_ _ / : simpl nomatch.

(** ** Deleting what ClusterDeployments refer to *)

Section references.
Context {C : Type} `{!Lister C ClusterDeployment} (mgmtClient : C).

(** [obj] by its metadata, [index] the index function of [indexKey]. *)
Definition deletionAllowedIfUnreferenced (obj : ObjectMeta) (index : ClusterDeployment → list string)
    (kind : string) : option gerror :=
  let key := key_string (meta_key obj) in
  match Limit 1 (c_list mgmtClient (om_namespace obj) (MatchingField index (om_name obj))) with
  | Err e => Some (ErrWrap ("failed to list ClusterDeployments referencing " +:+ kind +:+ " " +:+ key +:+ ": ") e)
  | Ok clds =>
      if bool_decide (0 < length clds)
      then Some (ErrNew ("cannot delete " +:+ kind +:+ " " +:+ key +:+
             ": it is still referenced by one or more ClusterDeployments"))
      else None
  end.

Definition ClusterAuthenticationDeletionAllowed (clAuth : ObjectMeta) : option gerror :=
  deletionAllowedIfUnreferenced clAuth ExtractClusterAuthenticationNameFromClusterDeployment "ClusterAuthentication".
Definition ClusterAuditPolicyDeletionAllowed (clPolicy : ObjectMeta) : option gerror :=
  deletionAllowedIfUnreferenced clPolicy ExtractClusterAuditPolicyNameFromClusterDeployment "ClusterAuditPolicy".
Definition RBACPolicyDeletionAllowed (policy : RBACPolicy) : option gerror :=
  deletionAllowedIfUnreferenced (rbac_meta policy) ExtractRBACPolicyNameFromClusterDeployment "RBACPolicy".

Context `{!Lister C Region}.

Definition ManagementDeletionAllowed : option gerror :=
  match Limit 1 (c_list (T:=Region) mgmtClient "" (λ _, true)) with
  | Err e => Some e
  | Ok regions =>
      if bool_decide (0 < length regions)
      then Some (ErrNew "the Management object can't be removed if Region objects still exist")
      else
        match Limit 1 (c_list (T:=ClusterDeployment) mgmtClient "" (λ _, true)) with
        | Err e => Some (ErrWrap "failed to list ClusterDeployments: " e)
        | Ok clusterDeployments =>
            if bool_decide (0 < length clusterDeployments)
            then Some (ErrNew "the Management object can't be removed if ClusterDeployment objects still exist")
            else None
        end
  end.

Definition ClusterDeploymentDeletionAllowed (cld : ClusterDeployment) : option gerror :=
  match c_list (T:=Region) mgmtClient "" (λ _, true) with
  | Err e => Some (ErrWrap "failed to list Regions: " e)
  | Ok regions =>
      match filterb (λ region, match rgs_clusterDeployment (rgn_spec region) with
                               | None => false
                               | Some r => bool_decide (cdr_namespace r = om_namespace (cd_meta cld)) &&
                                           bool_decide (cdr_name r = om_name (cd_meta cld))
                               end) regions with
      | region :: _ => Some (ErrNew ("ClusterDeployment cannot be deleted: referenced by Region " +:+
                         quote (om_name (rgn_meta region))))
      | [] => None
      end
  end.

Context `{!Lister C Credential}.

(** The loop over the Credentials of a Region. *)
Fixpoint credentials_unused (creds : list Credential) : option gerror :=
  match creds with
  | [] => None
  | cred :: creds =>
      match Limit 1 (c_list mgmtClient (om_namespace (cred_meta cred))
              (MatchingField ExtractCredentialNameFromClusterDeployment (om_name (cred_meta cred)))) with
      | Err e => Some (ErrWrap ("failed to list ClusterDeployments in " +:+ om_namespace (cred_meta cred) +:+
                   " namespace with " +:+ om_name (cred_meta cred) +:+ " Credential: ") e)
      | Ok clusterDeployments =>
          if bool_decide (0 < length clusterDeployments)
          then Some (ErrNew ("the Region object can't be removed while any ClusterDeployment objects " +:+
                 "deployed in that Region still exist"))
          else credentials_unused creds
      end
  end.

Definition RegionDeletionAllowed (rgn : Region) : option gerror :=
  match c_list mgmtClient "" (MatchingField ExtractCredentialRegion (om_name (rgn_meta rgn))) with
  | Err e => Some (ErrWrap ("failed to list Credential for " +:+ om_name (rgn_meta rgn) +:+ " region: ") e)
  | Ok creds => credentials_unused creds
  end.
End references.

Section region_reference.
Context {C : Type} `{!Getter C Secret} `{!Getter C ClusterDeployment} (mgmtClient : C).

Definition RegionClusterReference (systemNamespace : string) (rgn : Region) : option gerror :=
  let from_secret :=
    match rgs_kubeConfig (rgn_spec rgn) with
    | None => None
    | Some kubeConfig =>
        let secretKey := mkKey systemNamespace (skr_name kubeConfig) in
        match c_get (T:=Secret) mgmtClient secretKey with
        | Err e => Some (ErrWrap ("failed to get Secret " +:+ key_string secretKey +:+ ": ") e)
        | Ok kubeConfSecret =>
            if bool_decide (is_Some (sec_data kubeConfSecret !! skr_key kubeConfig)) then None
            else Some (ErrNew ("kubeConfig Secret does not have " +:+ skr_key kubeConfig +:+ " key defined"))
        end
    end in
  match from_secret with
  | Some e => Some e
  | None =>
      match rgs_clusterDeployment (rgn_spec rgn) with
      | None => None
      | Some r =>
          let cldKey := mkKey (cdr_namespace r) (cdr_name r) in
          match c_get (T:=ClusterDeployment) mgmtClient cldKey with
          | Err e => Some (ErrWrap ("failed to get ClusterDeployment " +:+ key_string cldKey +:+ ": ") e)
          | Ok _ => None
          end
      end
  end.
End region_reference.

(** ** Clients of regional clusters *)

Definition GetKubeconfigSecretKey (clusterKey : ObjectKey) : ObjectKey :=
  mkKey (key_ns clusterKey) (key_name clusterKey +:+ "-kubeconfig").

Section clients.
Context {C X Scheme : Type} `{!Getter C Secret}.
(** [client.New] over the parsed kubeconfig: a client of the cluster it names. *)
Variable clientFactory : string → Scheme → result X.
Variable getSchemeFunc : result Scheme.

Definition GetChildClient (mgmtCl : C) (kubeconfigSecretRef : ObjectKey) (kubeconfigSecretKey : string)
    (scheme : Scheme) : result X :=
  secret ← wrap_err "failed to get Secret with kubeconfig: " (c_get (T:=Secret) mgmtCl kubeconfigSecretRef);
  match sec_data secret !! kubeconfigSecretKey with
  | None => Err (ErrNew ("kubeconfig from Secret " +:+ key_string kubeconfigSecretRef +:+ " is empty"))
  | Some kubeconfigBytes =>
      wrap_err ("failed to create client config from " +:+ key_string kubeconfigSecretRef +:+ " Secret: ")
        (clientFactory kubeconfigBytes scheme)
  end.

Definition GetRegionalKubeconfigSecretRef (region : Region) : result SecretKeyReference :=
  match rgs_kubeConfig (rgn_spec region), rgs_clusterDeployment (rgn_spec region) with
  | None, None => Err (ErrNew "either spec.kubeConfig or spec.clusterDeployment must be set")
  | Some _, Some _ => Err (ErrNew "only one of spec.kubeConfig and spec.clusterDeployment is allowed")
  | Some kubeConfig, None => Ok kubeConfig
  | None, Some r => Ok (mkSecretKey (key_name (GetKubeconfigSecretKey (mkKey "" (cdr_name r)))) "value")
  end.

Definition GetRegionalClient (mgmtClient : C) (systemNamespace : string) (region : Region) : result X :=
  let name := om_name (rgn_meta region) in
  scheme ← wrap_err ("failed to get regional scheme for the " +:+ name +:+ " region: ") getSchemeFunc;
  kubeConfigSecretRef ← wrap_err "failed to get kubeconfig secret reference: "
                          (GetRegionalKubeconfigSecretRef region);
  let namespace := match rgs_clusterDeployment (rgn_spec region) with
                   | Some r => if negb (bool_decide (cdr_namespace r = "")) then cdr_namespace r
                               else systemNamespace
                   | None => systemNamespace
                   end in
  wrap_err ("failed to get rest config for the " +:+ name +:+ " region: ")
    (GetChildClient mgmtClient (mkKey namespace (skr_name kubeConfigSecretRef)) (skr_key kubeConfigSecretRef) scheme).

End clients.

Section regional_client.
Context {C Scheme : Type} `{!Getter C Secret} `{!Getter C Region}.
Variable clientFactory : string → Scheme → result C.
Variable getSchemeFunc : result Scheme.

Definition GetRegionalClientByRegionName (mgmtClient : C) (systemNamespace region : string) : result C :=
  if bool_decide (region = "") then Ok mgmtClient
  else
    rgn ← wrap_err ("failed to get " +:+ region +:+ " region: ") (c_get (T:=Region) mgmtClient (mkKey "" region));
    wrap_err ("failed to get client for " +:+ region +:+ " region: ")
      (GetRegionalClient clientFactory getSchemeFunc mgmtClient systemNamespace rgn).
End regional_client.

(** ** Provider interfaces *)

Definition ProviderNameLabel := "cluster.x-k8s.io/provider".
Definition FluxHelmChartNameKey := "helm.toolkit.fluxcd.io/name".

(** [helm.ReleaseName]. *)
Definition ReleaseName (prefix name : string) : string :=
  if negb (bool_decide (prefix = "")) then prefix +:+ "-" +:+ name else name.

(** [schema.GroupVersion.String]. *)
Definition GroupVersion_String (group version : string) : string :=
  if negb (bool_decide (group = "")) then group +:+ "/" +:+ version else version.

(** [client.MatchingLabels{key: value}]. *)
Definition has_label (k v : string) (m : ObjectMeta) : bool := bool_decide (labels_of m !! k = Some v).

Definition ErrMissingClusterIdentityRef : gerror :=
  ErrMark "cluster identity reference is not found" (ErrNew "cluster identity reference is not found").

Section interfaces.
Context `{!MapRange string} {C : Type} `{!Lister C ProviderInterface} (rgnClient : C).

Definition FindClusterIdentity (ref : ObjectReference) : result ClusterIdentity :=
  providerInterfaces ← c_list (T:=ProviderInterface) rgnClient "" (λ _, true);
  match filterb (λ ci, bool_decide (GroupVersion_String (cid_group ci) (cid_version ci) = ref_apiVersion ref) &&
                       bool_decide (cid_kind ci = ref_kind ref))
          (concat ((λ pi, pis_clusterIdentities (pi_spec pi)) <$> providerInterfaces)) with
  | ci :: _ => Ok ci
  | [] => Err ErrMissingClusterIdentityRef
  end.

Definition findComponentForInfra (exposedComponents : gmap string ComponentStatus) (infra : string) : string :=
  match filterb (λ name, match exposedComponents !! name with
                         | Some components => bool_decide (infra ∈ cst_exposedProviders components)
                         | None => false
                         end) (range_seq 0 (dom exposedComponents)) with
  | name :: _ => name
  | [] => ""
  end.

(** The first item of a list call that neither fails nor comes back empty. *)
Definition first_item {T} (r : result (list T)) : option T :=
  match r with Ok (x :: _) => Some x | _ => None end.

Definition FindProviderInterfaceForInfra (parent : ClusterParent) (infra : string) : option ProviderInterface :=
  match first_item (Limit 1 (c_list rgnClient "" (λ pi, has_label ProviderNameLabel infra (pi_meta pi)))) with
  | Some pi => Some pi
  | None =>
      let componentName := findComponentForInfra (ccst_components (GetComponentsStatus parent)) infra in
      if bool_decide (componentName = "") then None
      else first_item (Limit 1 (c_list rgnClient ""
             (λ pi, has_label FluxHelmChartNameKey (ReleaseName (HelmReleasePrefix parent) componentName) (pi_meta pi))))
  end.

Definition getProviderClusterIdentityKinds (parent : ClusterParent) (infraProviderName : string) : list string :=
  match FindProviderInterfaceForInfra parent infraProviderName with
  | None => []
  | Some pi =>
      if bool_decide (0 < length (pis_clusterIdentities (pi_spec pi)))
      then foldl (λ result ci, result ++ [cid_kind ci]) [] (pis_clusterIdentities (pi_spec pi))
      else pis_clusterIdentityKinds (pi_spec pi)
  end.
End interfaces.

(** ** Credentials *)

Section credentials.
Context `{!MapRange string} {C Scheme : Type}.
Context `{!Getter C Secret} `{!Getter C Region} `{!Getter C Management} `{!Getter C Credential}.
Context `{!Lister C ProviderInterface}.
Variable clientFactory : string → Scheme → result C.
Variable getSchemeFunc : result Scheme.
Variable systemNamespace : string.

(** The body of the loop over the providers of the template. *)
Definition provider_supports_identity (rgnClient : C) (parent : ClusterParent) (cred : Credential)
    (idtyKind providerName : string) : option gerror :=
  let errMsg := ErrNew ("provider " +:+ providerName +:+ " does not support ClusterIdentity Kind " +:+ idtyKind +:+
                  " from the Credential " +:+ key_string (meta_key (cred_meta cred))) in
  if negb (HasPrefix providerName InfrastructureProviderPrefix) then None
  else if bool_decide (providerName = InfrastructureProviderPrefix +:+ "internal") then
    if negb (bool_decide (idtyKind = "Secret")) then Some errMsg else None
  else
    let idtys := getProviderClusterIdentityKinds rgnClient parent providerName in
    if bool_decide (length idtys = 0)
    then Some (ErrNew ("unsupported infrastructure provider " +:+ providerName))
    else if negb (bool_decide (idtyKind ∈ idtys)) then Some errMsg else None.

(** A loop that returns the first error. *)
Definition first_error {A} (f : A → option gerror) (l : list A) : option gerror := head (omap f l).

(** [idty] is the identity reference, which the caller has checked is set. *)
Definition isCredIdentitySupportsClusterTemplate (mgmtClient : C) (cred : Credential) (idty : ObjectReference)
    (clusterTemplate : ClusterTemplate) : option gerror :=
  match GetRegionalClientByRegionName clientFactory getSchemeFunc mgmtClient systemNamespace
          (crs_region (cred_spec cred)) with
  | Err e => Some (ErrWrap ("failed to get client for " +:+ crs_region (cred_spec cred) +:+ " region: ") e)
  | Ok rgnClient =>
      match getParent mgmtClient cred with
      | Err e => Some (ErrWrap ("failed to get parent cluster for " +:+ key_string (meta_key (cred_meta cred)) +:+
                   " credential: ") e)
      | Ok parent => first_error (provider_supports_identity rgnClient parent cred (ref_kind idty))
                       (ctst_providers (ct_status clusterTemplate))
      end
  end.

Definition ClusterDeployCredential (cl : C) (cd : ClusterDeployment) (clusterTemplate : ClusterTemplate)
  : option gerror :=
  let providers := ctst_providers (ct_status clusterTemplate) in
  let tpl := key_string (meta_key (ct_meta clusterTemplate)) in
  if bool_decide (length providers = 0)
  then Some (ErrNew ("no providers have been found in the ClusterTemplate " +:+ tpl))
  else
    let hasInfra := existsb (λ v, HasPrefix v InfrastructureProviderPrefix) providers in
    if negb hasInfra
    then Some (ErrNew ("no infrastructure providers have been found in the ClusterTemplate " +:+ tpl))
    else
      let credKey := mkKey (om_namespace (cd_meta cd)) (cds_credential (cd_spec cd)) in
      match c_get (T:=Credential) cl credKey with
      | Err e => Some (ErrWrap ("failed to get Credential " +:+ key_string credKey +:+
                   " referred in the ClusterDeployment " +:+ key_string (meta_key (cd_meta cd)) +:+ ": ") e)
      | Ok cred =>
          if negb (crst_ready (cred_status cred))
          then Some (ErrNew ("the Credential " +:+ key_string credKey +:+ " is not Ready"))
          else
            match crs_identityRef (cred_spec cred) with
            | None => Some (ErrNew ("the Credential " +:+ key_string credKey +:+ " does not have identityRef"))
            | Some idty => isCredIdentitySupportsClusterTemplate cl cred idty clusterTemplate
            end
      end.
End credentials.

(** ** RBAC policies *)

Section rbac.
(** [apivalidation.IsDNS1123Subdomain]: what is wrong with the name. *)
Variable IsDNS1123Subdomain : string → list string.

(** The loop over the subjects, with the set of those seen. *)
Fixpoint duplicate_subject (seen : gset RBACPolicySubject) (subjects : list RBACPolicySubject)
  : option RBACPolicySubject :=
  match subjects with
  | [] => None
  | subject :: subjects =>
      if bool_decide (subject ∈ seen) then Some subject
      else duplicate_subject ({[ subject ]} ∪ seen) subjects
  end.

(** The loop over the bindings, with the two sets. *)
Fixpoint bindings_error (names rolesWithRules : gset string) (bindings : list RBACPolicyBinding)
  : option gerror :=
  match bindings with
  | [] => None
  | binding :: bindings =>
      let name := rbb_name binding in
      let objectName := ClusterRoleBindingNamePrefix +:+ name in
      let role := rbb_clusterRole binding in
      if bool_decide (name ∈ names) then Some (ErrNew ("duplicate binding name " +:+ quote name))
      else if bool_decide (0 < length (IsDNS1123Subdomain objectName)) then
        Some (ErrNew ("binding name " +:+ quote name +:+ " produces an invalid ClusterRoleBinding name " +:+
          quote objectName +:+ ": " +:+ Join (IsDNS1123Subdomain objectName) "; "))
      else
        match duplicate_subject ∅ (rbb_subjects binding) with
        | Some subject => Some (ErrNew ("binding " +:+ quote name +:+ ": duplicate subject " +:+
                            rsub_kind subject +:+ " " +:+ quote (rsub_name subject)))
        | None =>
            if bool_decide (length (rbb_rules binding) = 0)
            then bindings_error ({[ name ]} ∪ names) rolesWithRules bindings
            else if bool_decide (0 < length (IsDNS1123Subdomain role)) then
              Some (ErrNew ("binding " +:+ quote name +:+ ": clusterRole " +:+ quote role +:+
                " is not a valid ClusterRole name: " +:+ Join (IsDNS1123Subdomain role) "; "))
            else if bool_decide (role ∈ rolesWithRules)
            then Some (ErrNew ("clusterRole " +:+ quote role +:+ " has rules defined in more than one binding"))
            else bindings_error ({[ name ]} ∪ names) ({[ role ]} ∪ rolesWithRules) bindings
        end
  end.

Definition ValidateRBACPolicy (policy : RBACPolicy) : option gerror :=
  bindings_error ∅ ∅ (rbac_bindings policy).
End rbac.

(** ** Properties: RBAC policies *)

Section rbac_properties.
Variable IsDNS1123Subdomain : string → list string.

Lemma duplicate_subject_None seen l :
  duplicate_subject seen l = None ↔ NoDup l ∧ ∀ x, x ∈ l → x ∉ seen.
Proof.
  revert seen. induction l as [|x l IH]; intros seen; simpl.
  - split; [|done]. intros _. split; [constructor|]. intros x Hx. by apply elem_of_nil in Hx.
  - case_bool_decide as Hx.
    + split; [done|]. intros [_ Hl]. destruct (Hl x); [left|done].
    + rewrite IH, NoDup_cons. set_solver.
Qed.

(** The bindings that define rules for their role. *)
Definition roles_with_rules (l : list RBACPolicyBinding) : list string :=
  rbb_clusterRole <$> filterb (λ b, negb (bool_decide (length (rbb_rules b) = 0))) l.

Definition binding_ok (b : RBACPolicyBinding) : Prop :=
  IsDNS1123Subdomain (ClusterRoleBindingNamePrefix +:+ rbb_name b) = [] ∧ NoDup (rbb_subjects b) ∧
  (rbb_rules b ≠ [] → IsDNS1123Subdomain (rbb_clusterRole b) = []).

Lemma length_pos_iff {A} (l : list A) : ¬ 0 < length l ↔ l = [].
Proof. destruct l; simpl; split; try done; lia. Qed.
Lemma length_zero_iff {A} (l : list A) : length l = 0 ↔ l = [].
Proof. by destruct l. Qed.

(** A check that returns its error early. *)
Lemma early_None (P : Prop) `{Decision P} (e : gerror) (r : option gerror) :
  (if bool_decide P then Some e else r) = None ↔ ¬ P ∧ r = None.
Proof. case_bool_decide; naive_solver. Qed.

Lemma bindings_error_cons names roles b l :
  bindings_error IsDNS1123Subdomain names roles (b :: l) = None ↔
  rbb_name b ∉ names ∧ binding_ok b ∧
  if bool_decide (rbb_rules b = []) then bindings_error IsDNS1123Subdomain ({[ rbb_name b ]} ∪ names) roles l = None
  else rbb_clusterRole b ∉ roles ∧
       bindings_error IsDNS1123Subdomain ({[ rbb_name b ]} ∪ names) ({[ rbb_clusterRole b ]} ∪ roles) l = None.
Proof.
  cbn [bindings_error]. cbn zeta. rewrite !early_None, length_pos_iff. unfold binding_ok.
  assert (duplicate_subject ∅ (rbb_subjects b) = None ↔ NoDup (rbb_subjects b)) as Hd
    by (rewrite duplicate_subject_None; set_solver).
  destruct (duplicate_subject ∅ _) as [x|]; [naive_solver|].
  rewrite (bool_decide_ext (length (rbb_rules b) = 0) (rbb_rules b = [])) by apply length_zero_iff.
  case_bool_decide; [naive_solver|]. rewrite !early_None, length_pos_iff. naive_solver.
Qed.

Lemma roles_with_rules_cons b l :
  roles_with_rules (b :: l) =
  if bool_decide (rbb_rules b = []) then roles_with_rules l else rbb_clusterRole b :: roles_with_rules l.
Proof.
  unfold roles_with_rules, filterb. rewrite filter_cons.
  rewrite (bool_decide_ext (length (rbb_rules b) = 0) (rbb_rules b = [])) by apply length_zero_iff.
  by case_bool_decide.
Qed.

Lemma bindings_error_None names roles l :
  bindings_error IsDNS1123Subdomain names roles l = None ↔
  (NoDup (rbb_name <$> l) ∧ ∀ n, n ∈ rbb_name <$> l → n ∉ names) ∧
  (NoDup (roles_with_rules l) ∧ ∀ r, r ∈ roles_with_rules l → r ∉ roles) ∧
  ∀ b, b ∈ l → binding_ok b.
Proof.
  revert names roles. induction l as [|b l IH]; intros names roles.
  - change (roles_with_rules []) with (@nil string). split; [|done]. intros _. cbn. rewrite !NoDup_nil. set_solver.
  - rewrite bindings_error_cons, roles_with_rules_cons, fmap_cons, NoDup_cons.
    case_bool_decide; rewrite IH; [|rewrite NoDup_cons]; set_solver.
Qed.

(** A policy is accepted exactly when binding names are distinct and give
    valid object names, the subjects of each binding are distinct, and the
    roles defined by rules are valid names, each defined by one binding. *)
Lemma ValidateRBACPolicy_correct policy :
  ValidateRBACPolicy IsDNS1123Subdomain policy = None ↔
  NoDup (rbb_name <$> rbac_bindings policy) ∧ NoDup (roles_with_rules (rbac_bindings policy)) ∧
  ∀ b, b ∈ rbac_bindings policy → binding_ok b.
Proof. unfold ValidateRBACPolicy. rewrite bindings_error_None. set_solver. Qed.
End rbac_properties.

(** ** Properties: deletions *)

(** What a list call promises of the objects the cluster holds: those of the
    namespace that match, and nothing else. *)
Definition lists {C T} `{!Lister C T} (meta : T → ObjectMeta) (c : C) (all : list T) : Prop :=
  ∀ ns p, c_list c ns p = Ok (filterb (λ x, in_namespace ns (meta x) && p x) all).

Section deletion_properties.
Context {C : Type} `{!Lister C ClusterDeployment} `{!Lister C Region} `{!Lister C Credential} (c : C).
Variables (cds : list ClusterDeployment) (regions : list Region) (creds : list Credential).

(** The one-item list is empty exactly when nothing matches. *)
Lemma listed_none {T} `{!Lister C T} (meta : T → ObjectMeta) (all : list T) ns p (f : gerror → gerror) (e : gerror)
    (rest : option gerror) :
  lists meta c all →
  match Limit 1 (c_list c ns p) with
  | Err err => Some (f err)
  | Ok l => if bool_decide (0 < length l) then Some e else rest
  end = None ↔ (∀ x, x ∈ all → in_namespace ns (meta x) = true → p x = false) ∧ rest = None.
Proof.
  intros Hl. rewrite Hl. simpl. rewrite early_None. apply and_iff_compat_r.
  rewrite length_take. destruct (filterb _ all) as [|x l] eqn:E; simpl.
  - split; [|lia]. intros _ x Hx Hns. apply not_true_iff_false. intros Hp.
    assert (x ∈ filterb (λ x, in_namespace ns (meta x) && p x) all) as Hin
      by (apply filterb_elem_of; by rewrite Hns, Hp).
    rewrite E in Hin. by apply elem_of_nil in Hin.
  - split; [lia|]. intros Hall. exfalso.
    assert (x ∈ filterb (λ x, in_namespace ns (meta x) && p x) all) as [Hx Hp]%filterb_elem_of by (rewrite E; left).
    bool_simpl. rewrite Hall in *; done.
Qed.

(** [cd] refers to an object of that key through the index. *)
Definition refers (index : ClusterDeployment → list string) (m : ObjectMeta) (cd : ClusterDeployment) : Prop :=
  in_namespace (om_namespace m) (cd_meta cd) = true ∧ om_name m ∈ index cd.

Lemma unreferenced_None index kind m :
  lists cd_meta c cds →
  deletionAllowedIfUnreferenced c m index kind = None ↔ ∀ cd, cd ∈ cds → ¬ refers index m cd.
Proof.
  intros Hl. unfold deletionAllowedIfUnreferenced. rewrite (listed_none cd_meta cds _ _ (ErrWrap _)) by done.
  unfold refers, MatchingField. setoid_rewrite bool_decide_eq_false. naive_solver.
Qed.

Definition cred_in_use (cred : Credential) (cd : ClusterDeployment) : Prop :=
  refers ExtractCredentialNameFromClusterDeployment (cred_meta cred) cd.

Lemma credentials_unused_None l :
  lists cd_meta c cds →
  credentials_unused c l = None ↔ ∀ cred cd, cred ∈ l → cd ∈ cds → ¬ cred_in_use cred cd.
Proof.
  intros Hl. induction l as [|cred l IH]; cbn [credentials_unused].
  - split; [|done]. intros _ cred cd Hx. by apply elem_of_nil in Hx.
  - rewrite (listed_none cd_meta cds _ _ (ErrWrap _)), IH by done. unfold cred_in_use, refers, MatchingField.
    setoid_rewrite bool_decide_eq_false. setoid_rewrite elem_of_cons. naive_solver.
Qed.

(** Deletions are let through exactly when nothing is left that depends on
    the object: for a policy or authentication object, no ClusterDeployment of
    its namespace naming it; for a Region, none using a Credential of that
    Region; for the Management object, no Region and no ClusterDeployment; for
    a ClusterDeployment, no Region built on it. *)
Lemma deletions_allowed_exactly :
  lists cd_meta c cds → lists rgn_meta c regions → lists cred_meta c creds →
  (∀ index kind m, deletionAllowedIfUnreferenced c m index kind = None ↔ ∀ cd, cd ∈ cds → ¬ refers index m cd) ∧
  (∀ rgn, RegionDeletionAllowed c rgn = None ↔
     ∀ cred cd, cred ∈ creds → cd ∈ cds → crs_region (cred_spec cred) = om_name (rgn_meta rgn) →
       ¬ cred_in_use cred cd) ∧
  (ManagementDeletionAllowed c = None ↔ regions = [] ∧ cds = []) ∧
  (∀ cd, ClusterDeploymentDeletionAllowed c cd = None ↔
     ∀ rgn, rgn ∈ regions →
       rgs_clusterDeployment (rgn_spec rgn) ≠ Some (mkCDRef (om_namespace (cd_meta cd)) (om_name (cd_meta cd)))).
Proof.
  intros Hcds Hrgns Hcreds. split; [|split; [|split]].
  - intros. by apply unreferenced_None.
  - intros rgn. unfold RegionDeletionAllowed. rewrite Hcreds, credentials_unused_None by done.
    setoid_rewrite filterb_elem_of. unfold MatchingField, ExtractCredentialRegion.
    setoid_rewrite andb_true_iff. setoid_rewrite bool_decide_eq_true. setoid_rewrite list_elem_of_singleton.
    split; intros Hall cred cd; [intros Hcr Hcd Hr; apply Hall; done|intros (Hcr & _ & Hr) Hcd; by apply Hall].
  - unfold ManagementDeletionAllowed.
    rewrite (listed_none rgn_meta regions _ _ id), (listed_none cd_meta cds _ _ (ErrWrap _)) by done.
    assert (∀ {T} (l : list T) (f : T → ObjectMeta), (∀ x, x ∈ l → in_namespace "" (f x) = true → true = false) ↔ l = [])
      as Hnil.
    { intros T l f. destruct l as [|x l]; [split; [done|]; intros _ x Hx; by apply elem_of_nil in Hx|].
      split; [|done]. intros Hall. discriminate (Hall x ltac:(left) eq_refl). }
    rewrite !Hnil. tauto.
  - intros cd. unfold ClusterDeploymentDeletionAllowed. rewrite Hrgns.
    match goal with |- context [filterb ?p (filterb ?q regions)] => set (l := filterb p (filterb q regions)) end.
    transitivity (l = []); [by destruct l|]. subst l. rewrite filterb_nil. setoid_rewrite filterb_elem_of.
    apply forall_proper. intros rgn. destruct (rgs_clusterDeployment (rgn_spec rgn)) as [[ns n]|]; simpl; [|naive_solver].
    rewrite andb_false_iff, !bool_decide_eq_false. split.
    + intros Hr Hin [= -> ->]. destruct Hr; done.
    + intros Hr [Hin _]. specialize (Hr Hin). destruct (decide (ns = om_namespace (cd_meta cd))) as [->|]; [|by left].
      right. intros ->. done.
Qed.
End deletion_properties.

(** A deployment of a Credential of region east, and the Region built on it. *)
Definition east : Region :=
  mkRegion (named_meta "" "east") (mkRegionSpec None (Some (mkCDRef "ns" "d")) (mkComponentsSpec None None []))
    (mkRegionStatus (mkComponentsStatus ∅ ∅ []) [] 0).
Definition east_credential : Credential :=
  mkCredential (named_meta "ns" "") (mkCredentialSpec (Some (mkRef "Secret" "ns" "s" "v1")) "east" "")
    (mkCredentialStatus [] true).
Definition east_cluster : Cluster :=
  mkCluster empty_store ∅ {[ mkKey "ns" "d" := deployment_of "d" "aws" "east" ]}
    {[ mkKey "ns" "" := east_credential ]} ∅ {[ mkKey "" "east" := east ]} ∅ ∅ ∅ ∅ ∅.

Definition refused (err : option gerror) : bool := match err with Some _ => true | None => false end.

Lemma deletions_allowed_exactly_witness :
  forallb refused [RegionDeletionAllowed east_cluster east; ManagementDeletionAllowed east_cluster;
    ClusterDeploymentDeletionAllowed east_cluster (deployment_of "d" "aws" "east")] = true ∧
  (ManagementDeletionAllowed east_cluster = None ↔
   ([east] : list Region) = [] ∧ [deployment_of "d" "aws" "east"] = []).
Proof.
  split; [reflexivity|].
  apply (deletions_allowed_exactly east_cluster [deployment_of "d" "aws" "east"] [east] [east_credential]);
    intros ns p; reflexivity.
Defined.

(** ** Properties: credentials *)

Section credential_properties.
Context `{!MapRange string} {C Scheme : Type}.
Context `{!Getter C Secret} `{!Getter C Region} `{!Getter C Management} `{!Getter C Credential}.
Context `{!Lister C ProviderInterface}.
Variable clientFactory : string → Scheme → result C.
Variable getSchemeFunc : result Scheme.
Variable systemNamespace : string.

Lemma first_error_None {A} (f : A → option gerror) l : first_error f l = None ↔ ∀ x, x ∈ l → f x = None.
Proof.
  unfold first_error. induction l as [|x l IH]; csimpl.
  - split; [|done]. intros _ x Hx. by apply elem_of_nil in Hx.
  - setoid_rewrite elem_of_cons. destruct (f x) eqn:E; simpl; [|rewrite IH; naive_solver].
    split; [done|]. intros Hall. rewrite Hall in E; auto.
Qed.

(** An infrastructure provider takes identities of that kind. *)
Definition supports_identity (rgnClient : C) (parent : ClusterParent) (kind p : string) : Prop :=
  if bool_decide (p = InfrastructureProviderPrefix +:+ "internal") then kind = "Secret"
  else kind ∈ getProviderClusterIdentityKinds rgnClient parent p.

Lemma provider_supports_identity_None rgnClient parent cred kind p :
  provider_supports_identity rgnClient parent cred kind p = None ↔
  (HasPrefix p InfrastructureProviderPrefix = true → supports_identity rgnClient parent kind p).
Proof.
  unfold provider_supports_identity, supports_identity. destruct (HasPrefix p _); cbn [negb]; [|naive_solver].
  case_bool_decide.
  - case_bool_decide; simpl; naive_solver.
  - cbn zeta. rewrite early_None. set (l := getProviderClusterIdentityKinds _ _ _).
    case_bool_decide as Hin; simpl; [|naive_solver].
    split; [done|]. intros _. split; [|done]. destruct l; [by apply elem_of_nil in Hin|done].
Qed.

(** What an accepted deployment's Credential is. *)
Record credential_ok (cl : C) (cd : ClusterDeployment) (tpl : ClusterTemplate) : Prop := {
  co_infra : ∃ p, p ∈ ctst_providers (ct_status tpl) ∧ HasPrefix p InfrastructureProviderPrefix = true;
  co_cred : ∃ cred idty rgnClient parent,
    c_get cl (mkKey (om_namespace (cd_meta cd)) (cds_credential (cd_spec cd))) = Ok cred ∧
    crst_ready (cred_status cred) = true ∧ crs_identityRef (cred_spec cred) = Some idty ∧
    GetRegionalClientByRegionName clientFactory getSchemeFunc cl systemNamespace (crs_region (cred_spec cred)) = Ok rgnClient ∧
    getParent cl cred = Ok parent ∧
    ∀ p, p ∈ ctst_providers (ct_status tpl) → HasPrefix p InfrastructureProviderPrefix = true →
      supports_identity rgnClient parent (ref_kind idty) p }.

Lemma ClusterDeployCredential_None cl cd tpl :
  ClusterDeployCredential clientFactory getSchemeFunc systemNamespace cl cd tpl = None ↔ credential_ok cl cd tpl.
Proof.
  unfold ClusterDeployCredential. cbn zeta. rewrite early_None, length_zero_iff.
  set (l := ctst_providers (ct_status tpl)). destruct (existsb _ l) eqn:Hi; cbn [negb].
  2:{ split; [naive_solver|]. intros [(p & Hp & Ht) _].
      assert (existsb (λ v, HasPrefix v InfrastructureProviderPrefix) l = true) by (apply existsb_elem_of; eauto). congruence. }
  apply existsb_elem_of in Hi. split.
  - intros [_ H]. destruct (c_get _ _) as [cred|] eqn:Hc; [|done]. destruct (crst_ready _) eqn:Hr; [|done].
    cbn [negb] in H. destruct (crs_identityRef _) as [idty|] eqn:Hid; [|done].
    unfold isCredIdentitySupportsClusterTemplate in H.
    destruct (GetRegionalClientByRegionName _ _ _ _ _) as [rc|] eqn:Hrc; [|done].
    destruct (getParent _ _) as [parent|] eqn:Hp; [|done]. rewrite first_error_None in H.
    setoid_rewrite provider_supports_identity_None in H. split; [done|]. by exists cred, idty, rc, parent.
  - intros [_ (cred & idty & rc & parent & -> & -> & Hid & Hrc & Hp & Hall)]. cbn [negb]. rewrite Hid.
    split; [destruct Hi as (p & Hin & _); intros ->; by apply elem_of_nil in Hin|].
    unfold isCredIdentitySupportsClusterTemplate. rewrite Hrc, Hp, first_error_None. intros p Hin.
    apply provider_supports_identity_None. by apply Hall.
Qed.
End credential_properties.
