(* ===== verification/Secrets.v ===== *)
(** * Secrets between clusters and namespaces
    ([src/internal/util/kube/secrets.go]).

    Copying a Secret to a namespace of another cluster, and whether the Secrets
    somebody names are there. *)

From S2P Require Import Prelude GoStrings Api Kube Conditions ApiManagement Effects.

(** [client.IgnoreAlreadyExists(err) != nil] ends the caller, with a prefix. *)
Definition ignore_already_exists {S} (prefix : string) (m : M S unit) : M S unit := λ s,
  let '(s, r) := m s in
  (s, match r with Ok _ => Ok tt | Err e => if IsAlreadyExists e then Ok tt else Err (ErrWrap prefix e) end).

Section secrets.
Context {S C : Type} `{!Getter C Namespace} `{!Writer C Namespace} `{!Getter C Secret} `{!Writer C Secret}.

Definition EnsureNamespace (cl : client S C) (namespace : string) : M S unit :=
  got ← try (Get Namespace cl (mkKey "" namespace));
  match got with
  | Ok _ => mret tt
  | Err err =>
      if negb (IsNotFound err) then fail (ErrWrap ("failed to get Namespace " +:+ namespace +:+ ": ") err)
      else wrapM ("failed to create Namespace " +:+ namespace +:+ ": ") (Create cl (mkNamespace (named_meta "" namespace)))
  end.

(** The copy: of the metadata the labels and annotations stay. *)
Definition copied_meta (toNamespace nameOverride : string) (refs : list OwnerReference) (extraLabels : gmap string string)
    (m : ObjectMeta) : ObjectMeta :=
  mkMeta (if negb (bool_decide (nameOverride = "")) then nameOverride else om_name m) toNamespace "" (om_generation m)
    (if bool_decide (0 < size extraLabels) then Some (extraLabels ∪ labels_of m) else om_labels m)
    (om_annotations m) refs [] (om_deletionTimestamp m).

(** The owner by what [controllerutil.SetOwnerReference] makes of references. *)
Definition CopySecret (sourceClient targetClient : client S C) (key : ObjectKey) (toNamespace nameOverride : string)
    (owner : option (list OwnerReference → result (list OwnerReference))) (extraLabels : gmap string string) : M S unit :=
  if bool_decide (key_name key = "") then mret tt
  else
    _ ← wrapM ("failed to ensure target namespace " +:+ toNamespace +:+ ": ") (EnsureNamespace targetClient toNamespace);
    secret ← wrapM ("failed to get Secret " +:+ key_string key +:+ ": ") (Get Secret sourceClient key);
    refs ← lift (match owner with
                 | Some own => wrap_err "failed to set owner reference on Secret: " (own [])
                 | None => Ok []
                 end);
    let newSecret := mkSecret (copied_meta toNamespace nameOverride refs extraLabels (sec_meta secret)) (sec_data secret) in
    ignore_already_exists ("failed to create Secret " +:+ toNamespace +:+ "/" +:+ om_name (sec_meta newSecret) +:+ ": ")
      (Create targetClient newSecret).
End secrets.

(** ** Secrets that have to be there *)

Definition PredeclaredSecretsExistCondition := "PredeclaredSecretsExist".

Section predeclared.
Context {C : Type} `{!Getter C Secret} `{!StatusConditions}.

Definition checkSecretExistsInNamespace (namespace : string) (cl : C) (name : string) : bool * option gerror :=
  if bool_decide (String.length name = 0) then (true, None)
  else
    match c_get (T:=Secret) cl (mkKey namespace name) with
    | Ok _ => (true, None)
    | Err err => (false, IgnoreNotFound (Some err))
    end.

(** The loop over the names, with those found missing so far. *)
Fixpoint missing_secrets (cl : C) (namespace : string) (missingSecrets names : list string) : result (list string) :=
  match names with
  | [] => Ok missingSecrets
  | name :: names =>
      match checkSecretExistsInNamespace namespace cl name with
      | (_, Some err) => Err (ErrWrap "failed to fetch Secret: " err)
      | (exists_, None) => missing_secrets cl namespace (if exists_ then missingSecrets else missingSecrets ++ [name]) names
      end
  end.
Definition CheckAllSecretsExistInNamespace (cl : C) (namespace : string) (names : list string) : bool * list string * option gerror :=
  match missing_secrets cl namespace [] names with
  | Err err => (false, [], Some err)
  | Ok missingSecrets => (bool_decide (length missingSecrets = 0), missingSecrets, None)
  end.

Definition getPredeclaredSecretsExistCondition (generation : Z) (failedMsg : string) : Condition :=
  if negb (bool_decide (failedMsg = ""))
  then mkCondition PredeclaredSecretsExistCondition CondFalse FailedReason failedMsg generation 0
  else mkCondition PredeclaredSecretsExistCondition CondTrue SucceededReason "All predeclared Secrets exist" generation 0.

(** The conditions of the object, and the error. *)
Definition SetPredeclaredSecretsCondition (cl : C) (conditions : list Condition) (generation : Z) (namespace : string)
    (names : list string) : list Condition * bool * option gerror :=
  if forallb (λ v, bool_decide (v = "")) names then (conditions, false, None)
  else
    match CheckAllSecretsExistInNamespace cl namespace names with
    | (_, _, Some err) => (conditions, false, Some (ErrWrap ("failed to check if Secrets " +:+ show_slice names +:+ " exists: ") err))
    | (true, _, None) =>
        let '(conditions, changed) := SetStatusCondition conditions (getPredeclaredSecretsExistCondition generation "") in
        (conditions, changed, None)
    | (false, missingSecrets, None) =>
        let missingMsg := "Some of the predeclared Secrets (" +:+ show_slice names +:+ ") are missing (" +:+ show_slice missingSecrets +:+
                          ") in the " +:+ namespace +:+ " namespace" in
        let '(conditions, changed) := SetStatusCondition conditions (getPredeclaredSecretsExistCondition generation missingMsg) in
        (conditions, changed, Some (ErrNew ("missing secret names: " +:+ show_slice missingSecrets)))
    end.
End predeclared.
