(* ===== verification/ChildCleanup.v ===== *)
(** * Removing what would outlive a child cluster ([src/internal/util/kube/delete.go]).

    Load balancers and volumes are cloud resources: before a cluster is torn
    down, its Services of that type, its PersistentVolumeClaims and the workloads
    that hold those are deleted, and their release is waited for. *)

From S2P Require Import Prelude GoStrings Api Kube ApiManagement Effects.

(** The fields read of [corev1.Service], [PersistentVolumeClaim],
    [PersistentVolume] and [Pod]; of a pod's volumes, the claims they name. *)
Record CoreService := mkCoreService { csv_meta : ObjectMeta; csv_type : string }.
Record PersistentVolumeClaim := mkPVC { pvc_meta : ObjectMeta }.
Record PersistentVolume := mkPV {
  pv_meta : ObjectMeta; pv_claimRef : option ObjectKey; pv_reclaimPolicy : string; pv_phase : string }.
Record Pod := mkPod { pod_meta : ObjectMeta; pod_volumes : list (option string) }.

(** Objects read by group, version and kind. *)
Record GVK := mkGVK { gvk_group : string; gvk_version : string; gvk_kind : string }.
#[export] Instance GVK_eq_dec : EqDecision GVK.
Proof. solve_decision. Defined.
Record ControllerObject := mkController { ctl_gvk : GVK; ctl_meta : ObjectMeta }.
Class ControllerGetter (C : Type) := c_get_gvk : C → GVK → ObjectKey → result ControllerObject.
Class AllDeleter (C T : Type) := c_delete_all_of : C → string → C * option gerror.

(** An object whose finalizers are cleared. *)
Class Finalized (T : Type) := { fin_meta : T → ObjectMeta; fin_clear : T → T }.
#[export] Instance Pod_finalized : Finalized Pod :=
  {| fin_meta := pod_meta; fin_clear p := mkPod (set_finalizers [] (pod_meta p)) (pod_volumes p) |}.
#[export] Instance ControllerObject_finalized : Finalized ControllerObject :=
  {| fin_meta := ctl_meta; fin_clear o := mkController (ctl_gvk o) (set_finalizers [] (ctl_meta o)) |}.

(** ** Waiting *)

Definition DeadlineExceeded := "context deadline exceeded".

(** What may happen between two looks of a wait. *)
Inductive tick {S X : Type} (elapse : S → S → Prop) (cond : X → M S (X * bool)) : X * S → X * S → Prop :=
  | tick_elapse x s s' : elapse s s' → tick elapse cond (x, s) (x, s')
  | tick_look x s x' b s' : cond x s = (s', Ok (x', b)) → tick elapse cond (x, s) (x', s').

(** [wait.PollUntilContextTimeout]: looks again and again, while time passes for
    the cluster too, until it is satisfied or fails or time is up. What the
    condition keeps in variables outside it is passed along. *)
Class Poller (S : Type) := {
  elapse : S → S → Prop;
  PollUntilContextTimeout {X} : (X → M S (X * bool)) → X → M S unit;
  poll_ends {X} (cond : X → M S (X * bool)) x s s' r :
    PollUntilContextTimeout cond x s = (s', r) →
    ∃ x1 s1, rtc (tick elapse cond) (x, s) (x1, s1) ∧
      match r with
      | Ok _ => ∃ x2, cond x1 s1 = (s', Ok (x2, true))
      | Err e => cond x1 s1 = (s', Err e) ∨ (s' = s1 ∧ errors_Is DeadlineExceeded e = true)
      end
}.

(** ** Deleting all objects of a kind *)

Definition all_objects {T} : T → bool := λ _, true.

Section all.
Context {S C T : Type} `{!Lister C Namespace} `{!Lister C T} `{!Deleter C T} `{!AllDeleter C T} `{!Poller S}.
Variable cl : client S C.
Variable meta : T → ObjectMeta.
(** [GroupVersionKind().String()], for messages. *)
Variable gvk : string.

(** A list into a variable, which keeps its value when the kind is not found. *)
Definition list_into {U} `{!Lister C U} (before : list U) (prefix ns : string) : M S (list U) :=
  got ← try (ListObjects U cl ns all_objects);
  match got with
  | Ok items => mret items
  | Err e => if IsNotFound e then mret before else fail (ErrWrap prefix e)
  end.

Definition excluded (exclude : option (T → bool)) (o : T) : bool :=
  match exclude with Some f => f o | None => false end.

Definition delete_in_namespace (exclude : option (T → bool)) (list : list T) (ns : Namespace) : M S (Datatypes.list T) :=
  let name := om_name (nsp_meta ns) in
  match exclude with
  | None =>
      ignore_not_found "failed to delete collection: " (call cl (effect (λ c, c_delete_all_of (T:=T) c name))) ≫= λ _, mret list
  | Some _ =>
      items ← list_into list ("failed to list in " +:+ quote name +:+ ": ") name;
      _ ← iterM (λ o, if excluded exclude o then mret tt
                      else ignore_not_found ("failed to delete " +:+ gvk +:+ " " +:+ key_string (meta_key (meta o)) +:+ ": ") (Delete cl o)) items;
      mret items
  end.

Definition none_left (exclude : option (T → bool)) (list : list T) : M S (Datatypes.list T * bool) :=
  items ← list_into list "failed to list during wait: " "";
  mret (items, forallb (excluded exclude) items).

Definition DeleteAllExceptAndWait (exclude : option (T → bool)) : M S unit :=
  namespaces ← list_into (U:=Namespace) [] "failed to list namespaces: " "";
  items ← foldM (delete_in_namespace exclude) [] namespaces;
  PollUntilContextTimeout (none_left exclude) items.
End all.

(** ** Owners of pods *)

Definition groupFromAPIVersion (apiVersion : string) : string :=
  match Cut apiVersion "/" with Some (group, _) => group | None => "" end.
Definition versionFromAPIVersion (apiVersion : string) : string :=
  match Cut apiVersion "/" with Some (_, version) => version | None => apiVersion end.

Definition allowedOwnerKinds : list string :=
  ["apps/Deployment"; "apps/StatefulSet"; "apps/ReplicaSet"; "apps/DaemonSet"; "batch/Job"; "batch/CronJob"].
Definition owner_gvk (ref : OwnerReference) : GVK :=
  mkGVK (groupFromAPIVersion (own_apiVersion ref)) (versionFromAPIVersion (own_apiVersion ref)) (own_kind ref).
Definition allowed_owner (g : GVK) : bool := bool_decide (gvk_group g +:+ "/" +:+ gvk_kind g ∈ allowedOwnerKinds).

(** The first controller reference. *)
Definition controller_ref (m : ObjectMeta) : option OwnerReference := find own_controller (om_ownerReferences m).
Definition maxDepth := 10.

Definition IsForbidden : gerror → bool := has_reason (ReasonOther "Forbidden").
Definition IsUnauthorized : gerror → bool := has_reason (ReasonOther "Unauthorized").

Section owners.
Context {C : Type} `{!ControllerGetter C}.
Variable c : C.

(** The loop; [depth] counts down from the maximal depth. *)
Fixpoint walk (depth : nat) (whose : string) (namespace : string) (lastAllowed : option ControllerObject) (currentRef : OwnerReference)
  : result (option ControllerObject) :=
  match depth with
  | 0 => Err (ErrNew ("ownerRef chain too deep (> " +:+ pretty maxDepth +:+ ") for " +:+ whose))
  | Datatypes.S depth =>
      if negb (allowed_owner (owner_gvk currentRef)) then Ok lastAllowed
      else
        match c_get_gvk c (owner_gvk currentRef) (mkKey namespace (own_name currentRef)) with
        | Err e =>
            if IsNotFound e then Ok lastAllowed
            else if IsForbidden e || IsUnauthorized e then Ok lastAllowed
            else Err (ErrWrap ("failed to get owner " +:+ namespace +:+ "/" +:+ own_name currentRef +:+ " (apiVersion=" +:+
                        own_apiVersion currentRef +:+ " kind=" +:+ own_kind currentRef +:+ "): ") e)
        | Ok u =>
            match controller_ref (ctl_meta u) with
            | None => Ok (Some u)
            | Some next => walk depth whose namespace (Some u) next
            end
        end
  end.
Definition findTopLevelAllowedController (metaObj : ObjectMeta) : result (option ControllerObject) :=
  match controller_ref metaObj with
  | None => Ok None
  | Some ref => walk maxDepth (om_namespace metaObj +:+ "/" +:+ om_name metaObj) (om_namespace metaObj) None ref
  end.
End owners.

(** ** Volumes *)

Section volumes.
Context {S C : Type} `{!Lister C Namespace} `{!Poller S}.
Context `{!Lister C PersistentVolumeClaim} `{!Getter C PersistentVolumeClaim} `{!Deleter C PersistentVolumeClaim}.
Context `{!Lister C PersistentVolume} `{!Getter C PersistentVolume}.
Context `{!Lister C Pod} `{!Getter C Pod} `{!Writer C Pod} `{!Deleter C Pod}.
Context `{!ControllerGetter C} `{!Writer C ControllerObject} `{!Deleter C ControllerObject}.
Variable cl : client S C.
(** The order in which a Go map is gone through. *)
Variable range : gmap string string → list (string * string).

Definition excluded_pvc (exclude : option (PersistentVolumeClaim → bool)) (pvc : PersistentVolumeClaim) : bool :=
  match exclude with Some f => f pvc | None => false end.

Definition collect_pv (exclude : option (PersistentVolumeClaim → bool)) (pvWaitList : gmap string string) (pv : PersistentVolume)
  : M S (gmap string string) :=
  match pv_claimRef pv with
  | None => mret pvWaitList
  | Some claim =>
      got ← try (Get PersistentVolumeClaim cl claim);
      match got with
      | Err e => if IsNotFound e then mret (<[om_name (pv_meta pv) := pv_reclaimPolicy pv]> pvWaitList)
                 else fail (ErrWrap ("failed to get PVC " +:+ key_ns claim +:+ "/" +:+ key_name claim +:+ " for PV " +:+
                              om_name (pv_meta pv) +:+ ": ") e)
      | Ok pvc => if excluded_pvc exclude pvc then mret pvWaitList
                  else mret (<[om_name (pv_meta pv) := pv_reclaimPolicy pv]> pvWaitList)
      end
  end.
Definition collectPersistentVolumeNames (exclude : option (PersistentVolumeClaim → bool)) : M S (gmap string string) :=
  pvs ← wrapM "failed to list PVs: " (ListObjects PersistentVolume cl "" all_objects);
  foldM (collect_pv exclude) ∅ pvs.

Definition mounts (claimName : string) (p : Pod) : bool := bool_decide (Some claimName ∈ pod_volumes p).
Definition findPodsUsingPVC (namespace claimName : string) : M S (list Pod) :=
  pods ← list_into (U:=Pod) cl [] "failed to list pods: " namespace;
  mret (filterb (mounts claimName) pods).

(** Failing to get the object leaves the variable as it was. *)
Definition removeFinalizers {T} `{!Finalized T} `{!Writer C T} (get : C → ObjectKey → result T) (kind : string) (obj : T) : M S unit :=
  let m := fin_meta obj in
  let target := kind +:+ " " +:+ om_namespace m +:+ "/" +:+ om_name m +:+ " to remove finalizers: " in
  if bool_decide (length (om_finalizers m) = 0) then mret tt
  else
    got ← gets (λ s, get (view cl s) (meta_key m));
    match got with
    | Err e => if IsNotFound e then ignore_not_found ("failed to update " +:+ target) (Update cl (fin_clear obj))
               else fail (ErrWrap ("failed to get " +:+ target) e)
    | Ok obj => ignore_not_found ("failed to update " +:+ target) (Update cl (fin_clear obj))
    end.

(** The body of the loop over the pods; failing to strip finalizers is only logged. *)
Definition release_pod (pod : Pod) : M S unit :=
  let name := om_namespace (pod_meta pod) +:+ "/" +:+ om_name (pod_meta pod) in
  topOwner ← gets (λ s, wrap_err ("failed to resolve owners for pod " +:+ name +:+ ": ")
                          (findTopLevelAllowedController (view cl s) (pod_meta pod))) ≫= lift;
  match topOwner with
  | None =>
      _ ← ignore_not_found ("failed to delete pod " +:+ name +:+ ": ") (Delete cl pod);
      _ ← try (removeFinalizers (c_get (T:=Pod)) "Pod" pod); mret tt
  | Some owner =>
      let m := ctl_meta owner in
      _ ← ignore_not_found ("failed to delete owner " +:+ om_namespace m +:+ "/" +:+ om_name m +:+ " (kind=" +:+
             gvk_kind (ctl_gvk owner) +:+ "): ") (Delete cl owner);
      _ ← try (removeFinalizers (λ c, c_get_gvk c (ctl_gvk owner)) (gvk_kind (ctl_gvk owner)) owner); mret tt
  end.

Definition release_pvc (exclude : option (PersistentVolumeClaim → bool)) (ns : string) (pvc : PersistentVolumeClaim) : M S unit :=
  if excluded_pvc exclude pvc then mret tt
  else
    let name := om_namespace (pvc_meta pvc) +:+ "/" +:+ om_name (pvc_meta pvc) in
    pods ← wrapM ("failed to find pods using pvc " +:+ name +:+ ": ") (findPodsUsingPVC ns (om_name (pvc_meta pvc)));
    _ ← iterM release_pod pods;
    ignore_not_found ("failed to delete pvc " +:+ name +:+ ": ") (Delete cl pvc).
Definition release_namespace (exclude : option (PersistentVolumeClaim → bool)) (ns : Namespace) : M S unit :=
  let name := om_name (nsp_meta ns) in
  pvcs ← list_into (U:=PersistentVolumeClaim) cl [] ("failed to list PVCs in " +:+ quote name +:+ ": ") name;
  iterM (release_pvc exclude name) pvcs.

(** Whether the volume is released, by its reclaim policy. *)
Definition pv_released (pvName reclaim : string) : M S bool :=
  if bool_decide (reclaim = "Recycle") then mret true
  else
    got ← try (Get PersistentVolume cl (mkKey "" pvName));
    match got with
    | Err e => if IsNotFound e then mret true else fail (ErrWrap ("failed to get PV " +:+ pvName +:+ ": ") e)
    | Ok pv => if bool_decide (reclaim = "Delete") then mret false
               else mret (bool_decide (pv_phase pv = "Released") || bool_decide (pv_claimRef pv = None))
    end.
Definition wait_pv (p : string * string) : M S unit :=
  wrapM ("failed to wait for PV " +:+ p.1 +:+ " cleanup with reclaimPolicy " +:+ p.2 +:+ ": ")
    (PollUntilContextTimeout (λ _ : unit, released ← pv_released p.1 p.2; mret (tt, released)) tt).

Definition DeletePVCsAndOwnersAndWait (exclude : option (PersistentVolumeClaim → bool)) : M S unit :=
  namespaces ← list_into (U:=Namespace) cl [] "failed to list namespaces: " "";
  pvWaitList ← wrapM "failed to collect PVs: " (collectPersistentVolumeNames exclude);
  _ ← iterM (release_namespace exclude) namespaces;
  iterM wait_pv (range pvWaitList).
End volumes.

(** ** The owner found *)

Section owner_found.
Context {C : Type} `{!ControllerGetter C}.
Variables (c : C) (namespace : string).
Notation get ref := (c_get_gvk c (owner_gvk ref) (mkKey namespace (own_name ref))).

(** Nothing more above: not a kind that may be deleted, or not to be had. *)
Definition climb_ends (ref : OwnerReference) : Prop :=
  allowed_owner (owner_gvk ref) = false ∨
  (allowed_owner (owner_gvk ref) = true ∧ ∃ e, get ref = Err e ∧ (IsNotFound e || (IsForbidden e || IsUnauthorized e)) = true).
(** The controllers from a reference upwards, found in so many looks. *)
Inductive climbs : nat → OwnerReference → list ControllerObject → Prop :=
  | climb_end ref : climb_ends ref → climbs 1 ref []
  | climb_top ref u : allowed_owner (owner_gvk ref) = true → get ref = Ok u → controller_ref (ctl_meta u) = None → climbs 1 ref [u]
  | climb_up n ref u next us : allowed_owner (owner_gvk ref) = true → get ref = Ok u → controller_ref (ctl_meta u) = Some next →
      climbs n next us → climbs (S n) ref (u :: us).

Definition top_of (before : option ControllerObject) (us : list ControllerObject) : option ControllerObject :=
  match last us with Some u => Some u | None => before end.

Lemma walk_climbs whose depth before ref o :
  walk c depth whose namespace before ref = Ok o ↔ ∃ n us, climbs n ref us ∧ n ≤ depth ∧ o = top_of before us.
Proof.
  revert before ref. induction depth as [|depth IH]; intros before ref; cbn [walk].
  { split; [done|]. intros (n & us & Hc & Hn & _). destruct Hc; lia. }
  destruct (allowed_owner (owner_gvk ref)) eqn:Ha; cbn [negb].
  2: { split; [intros [= <-]; exists 1, []; split_and!; [constructor; by left|lia|done]|].
       intros (n & us & Hc & _ & ->). destruct Hc; [done|congruence..]. }
  destruct (get ref) as [u|e] eqn:Hg.
  - destruct (controller_ref (ctl_meta u)) as [next|] eqn:Hn.
    + rewrite IH. split.
      * intros (n & us & Hc & Hle & ->). exists (S n), (u :: us). split_and!; [by eapply climb_up|lia|].
        unfold top_of. destruct us as [|v us]; [done|]. cbn [last]. destruct (last (v :: us)) eqn:E; [done|by apply last_None in E].
      * intros (n & us & Hc & Hle & ->). destruct Hc as [ref He|ref v Hv Hgv Hno|n ref v next' us Hv Hgv Hn' Hc].
        -- destruct He as [He|(_ & e & He & _)]; congruence.
        -- congruence.
        -- assert (v = u) as -> by congruence. assert (next' = next) as -> by congruence. exists n, us. split_and!; [done|lia|].
           unfold top_of. destruct us as [|w us]; [done|]. cbn [last]. destruct (last (w :: us)) eqn:E; [done|by apply last_None in E].
    + split; [intros [= <-]; exists 1, [u]; split_and!; [by apply climb_top|lia|done]|].
      intros (n & us & Hc & _ & ->). destruct Hc as [ref He|ref v Hv Hgv Hno|n ref v next' us Hv Hgv Hn' Hc].
      * destruct He as [He|(_ & e & He & _)]; congruence.
      * unfold top_of. cbn. congruence.
      * congruence.
  - assert ((if IsNotFound e then Ok before else if IsForbidden e || IsUnauthorized e then Ok before
      else Err (ErrWrap ("failed to get owner " +:+ namespace +:+ "/" +:+ own_name ref +:+ " (apiVersion=" +:+
             own_apiVersion ref +:+ " kind=" +:+ own_kind ref +:+ "): ") e)) = Ok o ↔
      (IsNotFound e || (IsForbidden e || IsUnauthorized e)) = true ∧ o = before) as ->.
    { destruct (IsNotFound e), (IsForbidden e || IsUnauthorized e); cbn; split; try (intros [= <-]; done); try (intros [? ?]; congruence). }
    split.
    + intros [He ->]. exists 1, []. split_and!; [constructor; right; split; [done|by exists e]|lia|done].
    + intros (n & us & Hc & _ & ->). destruct Hc as [ref He|ref v Hv Hgv Hno|n ref v next' us Hv Hgv Hn' Hc]; [|congruence..].
      destruct He as [He|(_ & e' & He & Hr)]; [congruence|]. assert (e' = e) as -> by congruence. done.
Qed.

Lemma climbs_allowed n ref us u : climbs n ref us → last us = Some u →
  ∃ ref', allowed_owner (owner_gvk ref') = true ∧ get ref' = Ok u.
Proof.
  induction 1 as [|ref v Ha Hg|n ref v next us Ha Hg Hn Hc IH]; [done|intros [= <-]; eauto|].
  destruct us as [|w us]; [intros [= <-]; eauto|]. intros Hl. apply IH. exact Hl.
Qed.
End owner_found.

(** The object deleted for a pod is found by following controller references
    from it, through existing objects of the kinds that may be deleted only, up
    to where there is no further one, or the next is of another kind, missing or
    not to be read: the last one found, if any. More than ten of them is an
    error. *)
Lemma findTopLevelAllowedController_climbs {C} `{!ControllerGetter C} (c : C) m o :
  findTopLevelAllowedController c m = Ok o ↔
  match controller_ref m with
  | None => o = None
  | Some ref => ∃ n us, climbs c (om_namespace m) n ref us ∧ n ≤ maxDepth ∧ o = last us
  end.
Proof.
  unfold findTopLevelAllowedController. destruct (controller_ref m) as [ref|]; [|split; [by intros [= <-]|by intros ->]].
  rewrite walk_climbs. unfold top_of. split; intros (n & us & Hc & Hn & ->); exists n, us; split_and!; try done; by destruct (last us).
Qed.

(** ** Waiting, without writing *)

Section waits.
Context {S : Type} `{!Poller S}.

Lemma poll_looks {X} (cond : X → M S (X * bool)) x s s' r :
  (∀ x s, (cond x s).1 = s) → PollUntilContextTimeout cond x s = (s', r) →
  rtc elapse s s' ∧ (r = Ok tt → ∃ x1 x2, cond x1 s' = (s', Ok (x2, true))).
Proof.
  intros Hpure Hrun. apply poll_ends in Hrun as (x1 & s1 & Hsteps & Hr).
  assert (rtc elapse s s1) as Hel.
  { clear Hr. remember (x, s) as p eqn:Ep. remember (x1, s1) as q eqn:Eq. revert x s Ep.
    induction Hsteps as [p|p y q Hs _ IH]; intros x s ->; [by injection Eq as -> ->|].
    inversion Hs as [x0 s0 s2 He|x0 s0 x2 b s2 He]; subst.
    - eapply rtc_l; [exact He|]. by eapply IH.
    - pose proof (Hpure x s) as Hp. rewrite He in Hp. cbn in Hp. subst s2. by eapply IH. }
  destruct r as [[]|e].
  - destruct Hr as (x2 & Hc). assert (s1 = s') as -> by (pose proof (Hpure x1 s1) as Hp; rewrite Hc in Hp; by rewrite <- Hp).
    split; [done|]. intros _. by exists x1, x2.
  - split; [|done]. destruct Hr as [Hc|[-> _]]; [|done].
    pose proof (Hpure x1 s1) as Hp. rewrite Hc in Hp. cbn in Hp. by subst.
Qed.
Lemma keeps_poll {X} (I : S → Prop) (cond : X → M S (X * bool)) x :
  (∀ s s', elapse s s' → I s → I s') → (∀ x s, (cond x s).1 = s) → keeps I (PollUntilContextTimeout cond x).
Proof.
  intros Hel Hpure s Hs. destruct (PollUntilContextTimeout cond x s) as [s' r] eqn:E.
  apply poll_looks in E as [Hr _]; [|done]. cbn. clear r. induction Hr; [done|]. eauto.
Qed.
End waits.

Lemma list_into_eq {S C U} `{!Lister C U} (cl : client S C) (before : list U) prefix ns s :
  list_into cl before prefix ns s =
  (s, match c_list (view cl s) ns all_objects with
      | Ok items => Ok items
      | Err e => if IsNotFound e then Ok before else Err (ErrWrap prefix e)
      end).
Proof.
  unfold list_into. rewrite bind_eq, try_eq, List_eq. cbn [fst snd]. destruct (c_list _ _ _) as [l|e]; [done|]. by destruct (IsNotFound e).
Qed.
Lemma keeps_list_into {S C U} `{!Lister C U} (cl : client S C) (I : S → Prop) (before : list U) prefix ns :
  keeps I (list_into cl before prefix ns).
Proof. intros s Hs. by rewrite list_into_eq. Qed.
#[export] Hint Resolve keeps_list_into : keeps.

(** ** What deleting a kind does *)

Section all_writes.
Context {S C T : Type} `{!Lister C Namespace} `{!Lister C T} `{!Deleter C T} `{!AllDeleter C T} `{!Poller S}.
Variable cl : client S C.
Variable meta : T → ObjectMeta.
Variable gvk : string.

(** A step of the deletion with an exclusion. *)
Inductive delete_step (keep_it : T → bool) (s : S) : S → Prop :=
  | ds_elapse s' : elapse s s' → delete_step keep_it s s'
  | ds_delete x : keep_it x = false → delete_step keep_it s (put cl (c_delete (view cl s) x).1 s).

(** With an exclusion, only objects that it does not spare are deleted, and
    success means that, in the end, all that is left is spared (or the kind is
    not found). *)
Lemma DeleteAllExceptAndWait_spec keep_it s s' r :
  DeleteAllExceptAndWait cl meta gvk (Some keep_it) s = (s', r) →
  rtc (delete_step keep_it) s s' ∧
  (r = Ok tt →
     (∃ items, c_list (T:=T) (view cl s') "" all_objects = Ok items ∧ ∀ x, x ∈ items → keep_it x = true) ∨
     (∃ e, c_list (T:=T) (view cl s') "" all_objects = Err e ∧ IsNotFound e = true)).
Proof.
  assert (∀ x s, (none_left cl (Some keep_it) x s).1 = s) as Hpure.
  { intros x s1. unfold none_left. rewrite bind_eq, list_into_eq.
    destruct (c_list _ _ _) as [l|e]; [done|]. by destruct (IsNotFound e). }
  intros Hrun. split.
  - assert (keeps (rtc (delete_step keep_it) s) (DeleteAllExceptAndWait cl meta gvk (Some keep_it))) as Hk.
    { unfold DeleteAllExceptAndWait. apply keeps_bind; [apply keeps_list_into|]. intros nss. apply keeps_bind.
      - apply keeps_foldM. intros l ns _. cbn [delete_in_namespace]. apply keeps_bind; [apply keeps_list_into|]. intros items.
        apply keeps_bind; [|intros _; apply keeps_ret]. apply keeps_iterM. intros x _. cbn [excluded].
        destruct (keep_it x) eqn:Hx; [apply keeps_ret|]. apply keeps_ignore. apply keeps_effect. intros s1 Hs.
        eapply rtc_r; [exact Hs|]. by apply ds_delete.
      - intros items. apply keeps_poll; [|done]. intros s1 s2 He Hs. eapply rtc_r; [exact Hs|]. by apply ds_elapse. }
    specialize (Hk s (rtc_refl _ _)). by rewrite Hrun in Hk.
  - intros ->. unfold DeleteAllExceptAndWait in Hrun. apply bind_inv in Hrun as (s1 & nss & _ & Hrun).
    apply bind_inv in Hrun as (s2 & items & _ & Hrun). apply poll_looks in Hrun as [_ Hlook]; [|done].
    destruct (Hlook eq_refl) as (x1 & x2 & Hc). unfold none_left in Hc. rewrite bind_eq, list_into_eq in Hc.
    destruct (c_list _ _ _) as [l|e] eqn:Hl; [left|right].
    + injection Hc as <- Hall. exists l. split; [done|]. intros x Hx. rewrite forallb_forall in Hall. by apply Hall, list_elem_of_In.
    + exists e. split; [done|]. by destruct (IsNotFound e).
Qed.
End all_writes.

(** ** What releasing the volumes does *)

Section volume_writes.
Context {S C : Type} `{!Lister C Namespace} `{!Poller S}.
Context `{!Lister C PersistentVolumeClaim} `{!Getter C PersistentVolumeClaim} `{!Deleter C PersistentVolumeClaim}.
Context `{!Lister C PersistentVolume} `{!Getter C PersistentVolume}.
Context `{!Lister C Pod} `{!Getter C Pod} `{!Writer C Pod} `{!Deleter C Pod}.
Context `{!ControllerGetter C} `{!Writer C ControllerObject} `{!Deleter C ControllerObject}.
Variable cl : client S C.
Variable range : gmap string string → list (string * string).
Variable exclude : option (PersistentVolumeClaim → bool).
Notation cleanup := (DeletePVCsAndOwnersAndWait cl range exclude).

(** Listed in a namespace, in one of the states seen. *)
Definition listed {T} `{!Lister C T} (seen : list S) (ns : string) (x : T) : Prop :=
  ∃ s l, s ∈ seen ∧ c_list (view cl s) ns all_objects = Ok l ∧ x ∈ l.
(** A claim to be deleted, in one of the namespaces there are. *)
Definition doomed (seen : list S) (ns : string) (pvc : PersistentVolumeClaim) : Prop :=
  (∃ n : Namespace, listed seen "" n ∧ om_name (nsp_meta n) = ns) ∧ listed seen ns pvc ∧ excluded_pvc exclude pvc = false.
(** A pod that mounts such a claim of its own namespace. *)
Definition in_the_way (seen : list S) (pod : Pod) : Prop :=
  ∃ ns pvc, doomed seen ns pvc ∧ listed seen ns pod ∧ Some (om_name (pvc_meta pvc)) ∈ pod_volumes pod.
(** What is deleted in the place of the pod, if anything is. *)
Definition top_controller (s : S) (pod : Pod) (o : option ControllerObject) : Prop :=
  match controller_ref (pod_meta pod) with
  | None => o = None
  | Some ref => ∃ n us, climbs (view cl s) (om_namespace (pod_meta pod)) n ref us ∧ n ≤ maxDepth ∧ o = last us
  end.
(** An object stripped of its finalizers: as it is found, or as it was if it is not. *)
Definition stripped {T} `{!Finalized T} (get : C → ObjectKey → result T) (s : S) (x y : T) : Prop :=
  om_finalizers (fin_meta x) ≠ [] ∧
  match get (view cl s) (meta_key (fin_meta x)) with
  | Ok z => y = fin_clear z
  | Err e => IsNotFound e = true ∧ y = fin_clear x
  end.

(** A step from the state [s], the last of those seen. *)
Inductive cleanup_step (seen : list S) (s : S) : S → Prop :=
  | cs_elapse s' : elapse s s' → cleanup_step seen s s'
  | cs_pod pod : in_the_way seen pod → top_controller s pod None →
      cleanup_step seen s (put cl (c_delete (view cl s) pod).1 s)
  | cs_strip_pod s1 pod x : in_the_way seen pod → s1 ∈ seen → top_controller s1 pod None → stripped (c_get (T:=Pod)) s pod x →
      cleanup_step seen s (put cl (c_update (view cl s) x).1 s)
  | cs_owner pod owner : in_the_way seen pod → top_controller s pod (Some owner) →
      cleanup_step seen s (put cl (c_delete (view cl s) owner).1 s)
  | cs_strip_owner s1 pod owner x : in_the_way seen pod → s1 ∈ seen → top_controller s1 pod (Some owner) →
      stripped (λ c, c_get_gvk c (ctl_gvk owner)) s owner x →
      cleanup_step seen s (put cl (c_update (view cl s) x).1 s)
  | cs_pvc ns pvc : doomed seen ns pvc → cleanup_step seen s (put cl (c_delete (view cl s) pvc).1 s).

(** The states gone through, latest first. *)
Inductive history (s0 : S) : list S → Prop :=
  | h_start : history s0 [s0]
  | h_step s past s' : history s0 (s :: past) → cleanup_step (s :: past) s s' → history s0 (s' :: s :: past).

(** The claim was deleted, or was gone already. *)
Definition deleted (seen : list S) (pvc : PersistentVolumeClaim) : Prop :=
  ∃ s c err, s ∈ seen ∧ put cl c s ∈ seen ∧ c_delete (view cl s) pvc = (c, err) ∧
    match err with Some e => IsNotFound e = true | None => True end.
(** A namespace was listed, and each claim in it that is not spared was deleted. *)
Definition namespace_done (seen : list S) (ns : string) : Prop :=
  ∃ s, s ∈ seen ∧
    match c_list (T:=PersistentVolumeClaim) (view cl s) ns all_objects with
    | Ok pvcs => ∀ pvc, pvc ∈ pvcs → excluded_pvc exclude pvc = false → deleted seen pvc
    | Err e => IsNotFound e = true
    end.

Lemma listed_mono {T} `{!Lister C T} seen seen' ns (x : T) : seen ⊆ seen' → listed seen ns x → listed seen' ns x.
Proof. intros Hsub (s & l & Hs & Hl). exists s, l. auto. Qed.
Lemma doomed_mono seen seen' ns pvc : seen ⊆ seen' → doomed seen ns pvc → doomed seen' ns pvc.
Proof. intros Hsub ((n & Hn & Hns) & Hl & Hx). split; [exists n|]; eauto using listed_mono. Qed.
Lemma in_the_way_mono seen seen' pod : seen ⊆ seen' → in_the_way seen pod → in_the_way seen' pod.
Proof. intros Hsub (ns & pvc & Hd & Hl & Hm). exists ns, pvc. eauto using listed_mono, doomed_mono. Qed.
Lemma deleted_mono seen seen' pvc : seen ⊆ seen' → deleted seen pvc → deleted seen' pvc.
Proof. intros Hsub (s & c & err & ? & ? & ?). exists s, c, err. auto. Qed.
Lemma namespace_done_mono seen seen' ns : seen ⊆ seen' → namespace_done seen ns → namespace_done seen' ns.
Proof.
  intros Hsub (s & Hs & Hl). exists s. split; [auto|]. destruct (c_list _ _ _); [|done]. intros pvc Hin Hx. eauto using deleted_mono.
Qed.

(** *** Following the states seen *)

Section from.
Variable s0 : S.

(** A history that has been through [base] leads to this state. *)
Definition seeing (base : list S) (s : S) : Prop := ∃ past, history s0 (s :: past) ∧ base ⊆ s :: past.
(** From [s], [m] follows a history, and when it succeeds, what has been seen is as [Q] says. *)
Definition follows {A} (base : list S) (s : S) (m : M S A) (Q : list S → A → Prop) : Prop :=
  seeing base s → ∃ base', base ⊆ base' ∧ seeing base' (m s).1 ∧ ∀ a, (m s).2 = Ok a → Q base' a.

Lemma seeing_self base s : seeing base s → seeing (s :: base) s.
Proof. intros (past & Hh & Hsub). exists past. split; [done|]. set_solver. Qed.
Lemma seeing_step base s s' : seeing base s → (∀ seen, base ⊆ seen → s ∈ seen → cleanup_step seen s s') → seeing (s' :: s :: base) s'.
Proof.
  intros (past & Hh & Hsub) Hstep. exists (s :: past). split; [|set_solver]. apply h_step; [done|]. apply Hstep; [done|left].
Qed.

Lemma follows_ret {A} base s (a : A) (Q : list S → A → Prop) : Q base a → follows base s (mret a) Q.
Proof. intros Hq Hs. exists base. split_and!; [done|done|]. by intros ? [= <-]. Qed.
Lemma follows_bind {A B} base s (m : M S A) (k : A → M S B) Q R :
  follows base s m Q → (∀ base' s' a, base ⊆ base' → Q base' a → follows base' s' (k a) R) → follows base s (m ≫= k) R.
Proof.
  intros Hm Hk Hs. destruct (Hm Hs) as (b1 & Hsub & H1 & Hq). rewrite bind_eq. destruct (m s) as [s1 [a|e]]; cbn [fst snd] in *.
  - destruct (Hk b1 s1 a Hsub (Hq _ eq_refl) H1) as (b2 & Hsub2 & H2 & Hr). exists b2. split_and!; [by etrans|done..].
  - exists b1. by split_and!.
Qed.
Lemma follows_try {A} base s (m : M S A) Q : follows base s m Q → follows base s (try m) (λ _ _, True).
Proof. intros Hm Hs. destruct (Hm Hs) as (b1 & Hsub & H1 & _). rewrite try_eq. by exists b1. Qed.
Lemma follows_wrap {A} base s prefix (m : M S A) Q : follows base s m Q → follows base s (wrapM prefix m) Q.
Proof.
  intros Hm Hs. destruct (Hm Hs) as (b1 & Hsub & H1 & Hq). rewrite wrap_eq. exists b1. split_and!; [done|done|]. cbn [snd].
  destruct (m s).2; [exact Hq|done].
Qed.
Lemma follows_iterM {A} base s (f : A → M S unit) (l : list A) (Q : list S → A → Prop) :
  (∀ b b' x, b ⊆ b' → Q b x → Q b' x) →
  (∀ base' s' x, base ⊆ base' → x ∈ l → follows base' s' (f x) (λ b _, Q b x)) →
  follows base s (iterM f l) (λ b _, ∀ x, x ∈ l → Q b x).
Proof.
  intros Hmono. revert base s. induction l as [|x l IH]; intros base s Hf; [apply follows_ret; set_solver|].
  cbn [iterM]. eapply (follows_bind _ _ _ _ (λ b _, Q b x)); [apply Hf; [done|left]|]. intros b1 s1 [] Hsub Hx Hs1.
  destruct (IH b1 s1) with (2 := Hs1) as (b2 & Hsub2 & H2 & Hq).
  { intros b2 s2 y Hb2 Hy. apply Hf; [by etrans|by right]. }
  exists b2. split_and!; [done|done|]. intros [] Hok y [->|Hy]%elem_of_cons; [by eapply Hmono|by eapply (Hq tt)].
Qed.
(** A call that only looks. *)
Lemma follows_look {A} base s (m : M S A) (Q : list S → A → Prop) : (m s).1 = s →
  (∀ a, (m s).2 = Ok a → Q (s :: base) a) → follows base s m Q.
Proof. intros Hp Hq Hs. exists (s :: base). rewrite Hp. split_and!; [set_solver|by apply seeing_self|done]. Qed.
(** A write that may find nothing to write. *)
Lemma follows_write base s prefix (f : C → C * option gerror) (Q : list S → unit → Prop) :
  (∀ seen, base ⊆ seen → s ∈ seen → cleanup_step seen s (put cl (f (view cl s)).1 s)) →
  (match (f (view cl s)).2 with Some e => IsNotFound e = true | None => True end →
     Q (put cl (f (view cl s)).1 s :: s :: base) tt) →
  follows base s (ignore_not_found prefix (call cl (effect f))) Q.
Proof.
  intros Hstep Hq Hs. exists (put cl (f (view cl s)).1 s :: s :: base). unfold ignore_not_found. rewrite call_effect_eq. cbn [fst snd].
  split_and!; [set_solver|by apply seeing_step|]. intros [] Hok. apply Hq. destruct (f (view cl s)).2 as [e|]; [|done].
  cbn in Hok. by destruct (IsNotFound e).
Qed.
Lemma follows_weaken {A} base s (m : M S A) (Q R : list S → A → Prop) :
  follows base s m Q → (∀ b a, base ⊆ b → Q b a → R b a) → follows base s m R.
Proof. intros Hm HQR Hs. destruct (Hm Hs) as (b & ? & ? & ?). exists b. eauto 6. Qed.
(** What was seen just before may be relied on. *)
Lemma follows_see {A} base s (m : M S A) Q : follows (s :: base) s m Q → follows base s m Q.
Proof. intros Hm Hs. destruct (Hm (seeing_self _ _ Hs)) as (b & Hsub & ?). exists b. split; [set_solver|done]. Qed.

(** A read, and what comes after it in the state read. *)
Lemma follows_read {A B} base s (f : S → result A) (k : A → M S B) Q :
  (∀ a, f s = Ok a → follows base s (k a) Q) → follows base s ((gets f ≫= lift) ≫= k) Q.
Proof.
  intros Hk Hs. rewrite bind_eq, gets_lift_eq. destruct (f s) as [a|e]; [by apply Hk|]. exists base. by split_and!.
Qed.

Notation any := (λ _ _, True).

Lemma follows_removeFinalizers {T} `{!Finalized T} `{!Writer C T} (get : C → ObjectKey → result T) kind (x : T) base s :
  (∀ y seen, stripped get s x y → base ⊆ seen → s ∈ seen → cleanup_step seen s (put cl (c_update (view cl s) y).1 s)) →
  follows base s (removeFinalizers cl get kind x) any.
Proof.
  intros Hstep. unfold removeFinalizers. case_bool_decide as Hf; [by apply follows_ret|].
  assert (om_finalizers (fin_meta x) ≠ []) as Hne by by intros E; rewrite E in Hf.
  change (follows base s (gets ?g ≫= ?k) any) with (follows base s (k (g s)) any). cbv beta.
  unfold stripped in Hstep. destruct (get (view cl s) (meta_key (fin_meta x))) as [y|e].
  - apply follows_write; [|done]. intros seen. by apply Hstep.
  - destruct (IsNotFound e) eqn:He; [apply follows_write; [|done]; intros seen; by apply Hstep|].
    intros Hs. exists base. by split_and!.
Qed.

Lemma follows_release_pod base s pod : in_the_way base pod → follows base s (release_pod cl pod) any.
Proof.
  intros Hp. apply follows_see. unfold release_pod. apply follows_read. intros o Ho.
  assert (findTopLevelAllowedController (view cl s) (pod_meta pod) = Ok o) as Htop by (by destruct (findTopLevelAllowedController _ _)).
  apply findTopLevelAllowedController_climbs in Htop. change (top_controller s pod o) in Htop.
  assert (∀ seen, s :: base ⊆ seen → in_the_way seen pod ∧ s ∈ seen) as Hsee.
  { intros seen Hsub. split; [|set_solver]. eapply in_the_way_mono; [|exact Hp]. set_solver. }
  destruct o as [owner|].
  - apply (follows_bind _ _ _ _ any).
    { apply follows_write; [|done]. intros seen Hsub _. apply (cs_owner _ _ pod); [by apply Hsee|done]. }
    intros b1 s1 _ Hsub _. apply (follows_bind _ _ _ _ any); [|intros ? ? ? _ _; by apply follows_ret].
    eapply follows_try, follows_removeFinalizers. intros y seen Hy Hsub1 _.
    destruct (Hsee seen) as [Hw Hin]; [by etrans|]. by apply (cs_strip_owner _ _ s pod owner).
  - apply (follows_bind _ _ _ _ any).
    { apply follows_write; [|done]. intros seen Hsub _. apply cs_pod; [by apply Hsee|done]. }
    intros b1 s1 _ Hsub _. apply (follows_bind _ _ _ _ any); [|intros ? ? ? _ _; by apply follows_ret].
    eapply follows_try, follows_removeFinalizers. intros y seen Hy Hsub1 _.
    destruct (Hsee seen) as [Hw Hin]; [by etrans|]. by apply (cs_strip_pod _ _ s pod).
Qed.

(** Listing a namespace. *)
Lemma follows_list_into {U} `{!Lister C U} base s prefix ns :
  follows base s (list_into (U:=U) cl [] prefix ns)
    (λ b items, s ∈ b ∧ match c_list (view cl s) ns all_objects with Ok l => items = l | Err e => IsNotFound e = true ∧ items = [] end).
Proof.
  apply follows_look; rewrite list_into_eq; [done|]. cbn [snd]. intros items. split; [left|].
  destruct (c_list _ _ _) as [l|e]; [by injection H as ->|]. destruct (IsNotFound e); [by injection H as <-|done].
Qed.
Lemma list_into_listed {U} `{!Lister C U} b s ns (items : list U) :
  s ∈ b ∧ match c_list (view cl s) ns all_objects with Ok l => items = l | Err e => IsNotFound e = true ∧ items = [] end →
  ∀ x, x ∈ items → listed b ns x.
Proof.
  intros [Hs Hl] x Hx. destruct (c_list _ _ _) as [l|e] eqn:E; [subst; by exists s, l|]. destruct Hl as [_ ->]. by apply elem_of_nil in Hx.
Qed.

Lemma follows_release_pvc base s ns pvc : (excluded_pvc exclude pvc = false → doomed base ns pvc) →
  follows base s (release_pvc cl exclude ns pvc) (λ b _, excluded_pvc exclude pvc = false → deleted b pvc).
Proof.
  intros Hd. unfold release_pvc. destruct (excluded_pvc exclude pvc) eqn:Hx; [by apply follows_ret|]. specialize (Hd eq_refl).
  apply (follows_bind _ _ _ _ (λ b pods, ∀ pod, pod ∈ pods → listed b ns pod ∧ mounts (om_name (pvc_meta pvc)) pod = true)).
  { apply follows_wrap. unfold findPodsUsingPVC. eapply follows_bind; [apply follows_list_into|]. intros b1 s1 pods _ Hl. apply follows_ret.
    intros pod [Hin Hm]%filterb_elem_of. split; [|done]. eapply list_into_listed; [exact Hl|exact Hin]. }
  intros b1 s1 pods Hsub1 Hpods. apply (follows_bind _ _ _ _ any).
  { eapply follows_weaken; [apply (follows_iterM _ _ _ _ (λ _ _, True)); [done|]|done]. intros b2 s2 pod Hsub2 Hin. apply follows_release_pod.
    destruct (Hpods _ Hin) as [Hl Hm]. unfold mounts in Hm. apply bool_decide_eq_true in Hm. exists ns, pvc. split_and!; [|by eapply listed_mono|done].
    eapply doomed_mono; [|exact Hd]. by etrans. }
  intros b2 s2 [] Hsub2 _. apply follows_write.
  - intros seen Hsub3 _. apply (cs_pvc _ _ ns). eapply doomed_mono; [|exact Hd]. by do 2 (etrans; [eassumption|]).
  - intros Herr _. exists s2, (c_delete (view cl s2) pvc).1, (c_delete (view cl s2) pvc).2.
    split_and!; [set_solver|set_solver|by destruct (c_delete _ _)|exact Herr].
Qed.

Lemma follows_release_namespace base s ns : listed base "" ns →
  follows base s (release_namespace cl exclude ns) (λ b _, namespace_done b (om_name (nsp_meta ns))).
Proof.
  intros Hns. unfold release_namespace. eapply follows_bind; [apply follows_list_into|]. intros b1 s1 pvcs Hsub1 Hl.
  eapply follows_weaken.
  - apply (follows_iterM _ _ _ _ (λ b pvc, excluded_pvc exclude pvc = false → deleted b pvc)).
    { intros b b' pvc Hsub Hd Hx. eapply deleted_mono; eauto. }
    intros b2 s2 pvc Hsub2 Hin. apply follows_release_pvc. intros Hx.
    split_and!; [|eapply listed_mono; [exact Hsub2|]; eapply list_into_listed; [exact Hl|done]|done].
    exists ns. split; [|done]. eapply listed_mono; [|exact Hns]. by etrans.
  - intros b u Hsub Hall. destruct Hl as [Hs Hl]. exists s. split; [by apply Hsub|].
    destruct (c_list _ _ _) as [l|e]; [|apply Hl]. subst l. exact Hall.
Qed.

Lemma pv_released_pure name reclaim s : (pv_released cl name reclaim s).1 = s.
Proof.
  unfold pv_released. case_bool_decide; [done|]. rewrite bind_eq, try_eq, Get_eq. cbn [fst snd].
  destruct (c_get _ _) as [pv|e]; [by case_bool_decide|by destruct (IsNotFound e)].
Qed.
Definition pv_look (p : string * string) : unit → M S (unit * bool) :=
  λ _, released ← pv_released cl p.1 p.2; mret (tt, released).
Lemma pv_look_pure p x s : (pv_look p x s).1 = s.
Proof.
  unfold pv_look. rewrite bind_eq. pose proof (pv_released_pure p.1 p.2 s) as Hp.
  destruct (pv_released cl p.1 p.2 s) as [s1 [b|e]]; exact Hp.
Qed.
Lemma seeing_elapse base s s' : rtc elapse s s' → seeing base s → seeing base s'.
Proof.
  intros Hel. revert base. induction Hel as [|x y z He _ IH]; intros base Hs; [done|]. apply IH.
  destruct (seeing_step _ _ y Hs) as (past & Hh & Hsub); [intros; by apply cs_elapse|]. exists past. split; [done|]. set_solver.
Qed.
Lemma follows_wait_pv base s p : follows base s (wait_pv cl p) any.
Proof.
  eapply follows_wrap. intros Hs. exists base. change (λ _ : unit, released ← pv_released cl p.1 p.2; mret (tt, released)) with (pv_look p).
  destruct (PollUntilContextTimeout (pv_look p) tt s) as [s' r] eqn:E. apply poll_looks in E as [Hel _]; [|intros; apply pv_look_pure].
  split_and!; [done|by eapply seeing_elapse|done].
Qed.

Lemma collect_pv_pure m pv s : (collect_pv cl exclude m pv s).1 = s.
Proof.
  unfold collect_pv. destruct (pv_claimRef pv) as [claim|]; [|done]. rewrite bind_eq, try_eq, Get_eq. cbn [fst snd].
  destruct (c_get _ _) as [pvc|e]; [by destruct (excluded_pvc _ _)|by destruct (IsNotFound e)].
Qed.
Lemma collect_pure s : (collectPersistentVolumeNames cl exclude s).1 = s.
Proof.
  unfold collectPersistentVolumeNames. rewrite bind_eq, wrap_eq, List_eq. cbn [fst snd]. destruct (c_list _ _ _) as [pvs|e]; [|done]. cbn [wrap_err].
  generalize (∅ : gmap string string) as m. induction pvs as [|pv pvs IH]; intros m; [done|]. cbn [foldM]. rewrite bind_eq.
  pose proof (collect_pv_pure m pv s) as Hp. destruct (collect_pv cl exclude m pv s) as [s1 [m1|e]]; cbn in Hp; subst; [apply IH|done].
Qed.

Lemma follows_cleanup : follows [] s0 cleanup any.
Proof.
  unfold DeletePVCsAndOwnersAndWait. eapply follows_bind; [apply follows_list_into|]. intros b1 s1 nss Hsub1 Hl.
  apply (follows_bind _ _ _ _ any).
  { eapply follows_wrap, (follows_look _ _ _ any); [apply collect_pure|done]. }
  intros b2 s2 m Hsub2 _. eapply follows_bind.
  { apply (follows_iterM _ _ _ _ (λ b ns, namespace_done b (om_name (nsp_meta ns)))); [by eauto using namespace_done_mono|].
    intros b3 s3 ns Hsub3 Hns. apply follows_release_namespace. eapply listed_mono; [|eapply list_into_listed; [exact Hl|done]]. by etrans. }
  intros b3 s3 [] _ _. eapply follows_weaken; [apply (follows_iterM _ _ _ _ (λ _ _, True)); [done|]|done].
  intros b4 s4 p _ _. apply follows_wait_pv.
Qed.
Lemma seeing_start : seeing [] s0.
Proof. exists []. split; [constructor|set_solver]. Qed.
End from.

(** Every state of the cleanup follows from a history. *)
Lemma cleanup_history s : ∃ past, history s ((cleanup s).1 :: past).
Proof. destruct (follows_cleanup s (seeing_start s)) as (b & _ & (past & Hh & _) & _). by exists past. Qed.
Lemma history_keeps (I : S → Prop) s past s' : (∀ x y, elapse x y → I x → I y) → (∀ c x, I x → I (put cl c x)) →
  history s (s' :: past) → I s → I s'.
Proof.
  intros Hel Hput Hh Hs. remember (s' :: past) as l eqn:El. revert s' past El.
  induction Hh as [|x past' y Hh IH Hstep]; intros s' past [= <- <-]; [done|]. specialize (IH _ _ eq_refl).
  destruct Hstep; eauto.
Qed.

(** C9: of a child cluster, only these are deleted: persistent volume claims that
    are not spared, found listing one of the cluster's namespaces; pods that were
    found listing that same namespace and mount such a claim by its name, and that
    no controller of an allowed kind stands above of in the state they are deleted
    in; and the topmost such controller above such a pod, as found in the very
    state it is deleted in. Only what stands there for such a pod loses its
    finalizers. Every state the cleanup goes through follows from the ones before
    by such a step or by time passing, whatever fails. *)
Theorem cleanup_deletes_only s : ∃ past, history s ((cleanup s).1 :: past).
Proof. apply cleanup_history. Qed.

(** A volume whose claim is gone or to be deleted. *)
Definition to_be_released (s : S) (pv : PersistentVolume) : bool :=
  match pv_claimRef pv with
  | None => false
  | Some claim => match c_get (T:=PersistentVolumeClaim) (view cl s) claim with
                  | Ok pvc => negb (excluded_pvc exclude pvc)
                  | Err e => IsNotFound e
                  end
  end.

Lemma collect_pv_spec m pv s s' m' : collect_pv cl exclude m pv s = (s', Ok m') →
  s' = s ∧ m' = if to_be_released s pv then <[om_name (pv_meta pv) := pv_reclaimPolicy pv]> m else m.
Proof.
  unfold collect_pv, to_be_released. destruct (pv_claimRef pv) as [claim|]; [|by intros [= <- <-]].
  rewrite bind_eq, try_eq, Get_eq. cbn [fst snd]. destruct (c_get _ _) as [pvc|e].
  - destruct (excluded_pvc exclude pvc); by intros [= <- <-].
  - destruct (IsNotFound e); [by intros [= <- <-]|done].
Qed.
Lemma collect_all_spec pvs m s s' m' : NoDup (om_name ∘ pv_meta <$> pvs) →
  foldM (collect_pv cl exclude) m pvs s = (s', Ok m') → s' = s ∧
  (∀ pv, pv ∈ pvs → to_be_released s pv = true → m' !! om_name (pv_meta pv) = Some (pv_reclaimPolicy pv)) ∧
  (∀ n, n ∉ (om_name ∘ pv_meta <$> pvs) → m' !! n = m !! n).
Proof.
  revert m. induction pvs as [|pv pvs IH]; intros m Hnd Hrun.
  { injection Hrun as <- <-. split_and!; [done| |done]. intros pv Hpv. by apply elem_of_nil in Hpv. }
  rewrite fmap_cons in Hnd. apply NoDup_cons in Hnd as [Hin Hnd]. apply bind_inv in Hrun as (s1 & m1 & Hc & Hrun).
  apply collect_pv_spec in Hc as [-> ->]. apply IH in Hrun as (-> & Hin' & Hout); [|done]. split_and!; [done| |].
  - intros x [->|Hx]%elem_of_cons Hr; [|by apply Hin']. rewrite Hout by done. rewrite Hr. apply lookup_insert_eq.
  - intros n Hn. rewrite fmap_cons, not_elem_of_cons in Hn. destruct Hn as [Hne Hn]. rewrite Hout by done.
    destruct (to_be_released s pv); [|done]. by apply lookup_insert_ne.
Qed.

(** A volume is released: one that is recycled at once; one that is deleted with
    its claim once it is gone; any other also when it says so or no longer names
    a claim. *)
Definition volume_released (s : S) (name reclaim : string) : Prop :=
  reclaim = "Recycle" ∨
  match c_get (T:=PersistentVolume) (view cl s) (mkKey "" name) with
  | Err e => IsNotFound e = true
  | Ok pv => reclaim ≠ "Delete" ∧ (pv_phase pv = "Released" ∨ pv_claimRef pv = None)
  end.
Lemma pv_released_true name reclaim s s' : pv_released cl name reclaim s = (s', Ok true) → volume_released s name reclaim.
Proof.
  unfold pv_released, volume_released. case_bool_decide as Hr; [by left|]. rewrite bind_eq, try_eq, Get_eq. cbn [fst snd].
  destruct (c_get _ _) as [pv|e]; [|destruct (IsNotFound e); [by right|done]].
  case_bool_decide as Hd; [done|]. intros [= _ Hb]. right. split; [done|].
  apply orb_true_iff in Hb as [Hb|Hb]; bool_simpl; auto.
Qed.

Lemma iter_waits l s s' : iterM (wait_pv cl) l s = (s', Ok tt) →
  rtc elapse s s' ∧ ∀ p, p ∈ l → ∃ s1, rtc elapse s s1 ∧ rtc elapse s1 s' ∧ volume_released s1 p.1 p.2.
Proof.
  revert s. induction l as [|q l IH]; intros s Hrun; [injection Hrun as <-; split; [done|]; intros p Hp; by apply elem_of_nil in Hp|].
  apply bind_inv in Hrun as (s1 & [] & Hw & Hrun). unfold wait_pv in Hw. rewrite wrap_eq in Hw.
  destruct (PollUntilContextTimeout (λ _ : unit, released ← pv_released cl q.1 q.2; mret (tt, released)) tt s) as [s1' r] eqn:E.
  injection Hw as <- Hr. destruct r as [[]|e]; [|done]. apply (poll_looks (pv_look q)) in E as [Hel Hlook]; [|intros; apply pv_look_pure].
  destruct (IH _ Hrun) as [Hel' Hall]. split; [by etrans|]. intros p [->|Hp]%elem_of_cons.
  - destruct (Hlook eq_refl) as (x1 & x2 & Hc). unfold pv_look in Hc. rewrite bind_eq in Hc.
    exists s1'. split_and!; [done|done|]. destruct (pv_released cl q.1 q.2 s1') as [s2 [b|e]] eqn:Eb; [|done]. injection Hc as -> _ ->.
    by eapply pv_released_true.
  - destruct (Hall p Hp) as (s2 & H2 & H2' & ?). exists s2. split_and!; [by etrans|done..].
Qed.

(** C21: when the cleanup succeeds, it first listed each namespace of the cluster
    and deleted (or found gone) every claim there that is not spared; then, with
    nothing but time passing until it returns, each volume that was bound, when it
    started, to a claim that is gone or not spared was seen released: at once under
    the policy Recycle, gone under Delete, and otherwise gone, in the phase
    Released or without a claim. *)
Theorem volumes_seen_released s s' nss pvs pv :
  (∀ m, range m ≡ₚ map_to_list m) → cleanup s = (s', Ok tt) →
  c_list (T:=Namespace) (view cl s) "" all_objects = Ok nss →
  c_list (T:=PersistentVolume) (view cl s) "" all_objects = Ok pvs → NoDup (om_name ∘ pv_meta <$> pvs) →
  pv ∈ pvs → to_be_released s pv = true →
  ∃ past s1 s2, history s (s1 :: past) ∧ (∀ ns, ns ∈ nss → namespace_done (s1 :: past) (om_name (nsp_meta ns))) ∧
    rtc elapse s1 s2 ∧ volume_released s2 (om_name (pv_meta pv)) (pv_reclaimPolicy pv) ∧ rtc elapse s2 s'.
Proof.
  intros Hrange Hrun Hlns Hl Hnd Hpv Hr. unfold DeletePVCsAndOwnersAndWait in Hrun.
  apply bind_inv in Hrun as (s1 & nss' & Hns & Hrun). rewrite list_into_eq, Hlns in Hns. injection Hns as <- <-.
  apply bind_inv in Hrun as (s1 & m & Hm & Hrun). rewrite wrap_eq in Hm. unfold collectPersistentVolumeNames in Hm.
  rewrite bind_eq, wrap_eq, List_eq, Hl in Hm. cbn [fst snd wrap_err] in Hm.
  destruct (foldM (collect_pv cl exclude) ∅ pvs s) as [s2 r] eqn:E. destruct r as [m2|]; [|done]. injection Hm as <- ->.
  apply collect_all_spec in E as (-> & Hin & _); [|done]. specialize (Hin pv Hpv Hr).
  apply bind_inv in Hrun as (s1 & [] & Hdel & Hwait).
  destruct (follows_iterM s [s] s (release_namespace cl exclude) nss (λ b ns, namespace_done b (om_name (nsp_meta ns))))
    as (b & _ & (past & Hh & Hsub) & Hq).
  { eauto using namespace_done_mono. }
  { intros b1 s3 ns Hsub1 Hns. apply follows_release_namespace. exists s, nss. split_and!; [apply Hsub1; left|done|done]. }
  { exists []. split; [constructor|set_solver]. }
  rewrite Hdel in Hh, Hsub, Hq. cbn [fst snd] in *.
  apply iter_waits in Hwait as [_ Hall]. destruct (Hall (om_name (pv_meta pv), pv_reclaimPolicy pv)) as (s2 & Hel & Hel' & Hseen).
  { rewrite Hrange. by apply elem_of_map_to_list. }
  exists past, s1, s2. split_and!; [done| |done|exact Hseen|done]. intros ns Hns. eapply namespace_done_mono; [exact Hsub|]. by apply (Hq tt).
Qed.
End volume_writes.
