(* ===== verification/HelmReleases.v ===== *)
(** * Helm releases ([src/internal/helm/release.go]).

    A HelmRelease is created, or brought to what is asked of it, and deleted. *)

From S2P Require Import Prelude GoStrings Api Kube Conditions ApiManagement Effects SveltosTypes ServiceBasics ClusterTypes.

(** Durations are nanoseconds. *)
Definition DefaultReconcileInterval : Z := 600000000000.

Record ReconcileHelmReleaseOpts := mkReleaseOpts {
  opt_values : option string; opt_ownerReference : option OwnerReference;
  opt_chartRef : option CrossNamespaceSourceReference; opt_reconcileInterval : option Z;
  opt_install : option string; opt_upgrade : option string; opt_kubeConfigRef : option SecretKeyReference;
  opt_labels : gmap string string; opt_releaseName : string; opt_targetNamespace : string;
  opt_dependsOn : option (list string); opt_timeout : Z }.

Definition set_owner_references (refs : list OwnerReference) (m : ObjectMeta) : ObjectMeta :=
  mkMeta (om_name m) (om_namespace m) (om_uid m) (om_generation m) (om_labels m) (om_annotations m)
    refs (om_finalizers m) (om_deletionTimestamp m).
Definition put_labels (l : gmap string string) (m : ObjectMeta) : ObjectMeta :=
  mkMeta (om_name m) (om_namespace m) (om_uid m) (om_generation m) (Some l) (om_annotations m)
    (om_ownerReferences m) (om_finalizers m) (om_deletionTimestamp m).

(** What is asked of a release; what is not said is left as it is. *)
Definition or_else {A} (new old : option A) : option A := match new with Some a => Some a | None => old end.
Definition asked_spec (name : string) (opts : ReconcileHelmReleaseOpts) (sp : HelmReleaseSpec) : HelmReleaseSpec :=
  mkHelmReleaseSpec (opt_chartRef opts) (default DefaultReconcileInterval (opt_reconcileInterval opts))
    (if negb (bool_decide (opt_releaseName opts = "")) then opt_releaseName opts else name)
    (or_else (opt_values opts) (hrs_values sp)) (or_else (opt_dependsOn opts) (hrs_dependsOn sp))
    (if negb (bool_decide (opt_targetNamespace opts = "")) then opt_targetNamespace opts else hrs_targetNamespace sp)
    (if negb (bool_decide (opt_timeout opts = 0%Z)) then Some (opt_timeout opts) else hrs_timeout sp)
    (or_else (opt_install opts) (hrs_install sp)) (or_else (opt_upgrade opts) (hrs_upgrade sp))
    (or_else (opt_kubeConfigRef opts) (hrs_kubeConfig sp)).
Definition asked_meta (opts : ReconcileHelmReleaseOpts) (m : ObjectMeta) : ObjectMeta :=
  let m := put_labels (opt_labels opts ∪ <[KCMManagedLabelKey := KCMManagedLabelValue]> (labels_of m)) m in
  match opt_ownerReference opts with Some o => set_owner_references [o] m | None => m end.
Definition asked_release (name : string) (opts : ReconcileHelmReleaseOpts) (hr : HelmRelease) : HelmRelease :=
  mkHelmRelease (asked_meta opts (hrl_meta hr)) (asked_spec name opts (hrl_spec hr)) (hrl_conditions hr).
Definition new_release (name namespace : string) : HelmRelease :=
  mkHelmRelease (named_meta namespace name) (mkHelmReleaseSpec None 0 "" None None "" None None None None) [].

Lemma or_else_twice {A} (new old : option A) : or_else new (or_else new old) = or_else new old.
Proof. by destruct new. Qed.
Lemma if_twice {A} (b : bool) (x y : A) : (if b then x else if b then x else y) = if b then x else y.
Proof. by destruct b. Qed.

Section releases.
Context {S C : Type} `{!Getter C HelmRelease} `{!Writer C HelmRelease} `{!CreateOrUpdater C HelmRelease hrl_meta} `{!Deleter C HelmRelease}.
Variable cl : client S C.

Definition ReconcileHelmRelease (name namespace : string) (opts : ReconcileHelmReleaseOpts) : M S (HelmRelease * OperationResult) :=
  CreateOrUpdate cl (new_release name namespace) (λ hr, mret (asked_release name opts hr)).

Definition DeleteHelmRelease (name namespace : string) : M S unit :=
  deleted ← try (Delete cl (new_release name namespace));
  match deleted with
  | Err err => if IsNotFound err then mret tt else fail err
  | Ok _ => mret tt
  end.

(** Asking twice is asking once. *)
Lemma asked_twice name opts hr : asked_release name opts (asked_release name opts hr) = asked_release name opts hr.
Proof.
  assert (∀ l : gmap string string, opt_labels opts ∪ <[KCMManagedLabelKey:=KCMManagedLabelValue]>
    (opt_labels opts ∪ <[KCMManagedLabelKey:=KCMManagedLabelValue]> l) = opt_labels opts ∪ <[KCMManagedLabelKey:=KCMManagedLabelValue]> l) as Hl.
  { intros l. apply map_eq. intros k. rewrite !lookup_union. destruct (opt_labels opts !! k) eqn:E; [by rewrite !union_Some_l|].
    rewrite !(left_id_L None _). destruct (decide (k = KCMManagedLabelKey)) as [->|Hne]; [by rewrite !lookup_insert_eq|].
    rewrite !lookup_insert_ne by done. rewrite lookup_union, E, (left_id_L None _). by rewrite lookup_insert_ne. }
  unfold asked_release, asked_meta. cbn [hrl_meta hrl_spec hrl_conditions]. f_equal.
  - unfold labels_of. destruct (opt_ownerReference opts); cbn; by rewrite Hl.
  - unfold asked_spec. cbn [hrs_values hrs_dependsOn hrs_targetNamespace hrs_timeout hrs_install hrs_upgrade hrs_kubeConfig].
    rewrite !or_else_twice. by rewrite !if_twice.
Qed.

(** A release that is as asked is left alone. *)
Lemma ReconcileHelmRelease_settled name namespace opts hr s s' r :
  c_get (view cl s) (mkKey namespace name) = Ok (asked_release name opts hr) →
  ReconcileHelmRelease name namespace opts s = (s', r) →
  s' = s ∧ r = Ok (asked_release name opts hr, OperationResultNone).
Proof.
  intros Hg Hrun. apply create_or_update_does in Hrun. change (meta_key _) with (mkKey namespace name) in Hrun.
  destruct Hrun as [e He|base s' e Hb He|e y s1 c err z He|base s1 [Hb _] Hm|base y s1 c err z [Hb _] Hm Hne];
    try change (meta_key _) with (mkKey namespace name) in Hb; try change (meta_key _) with (mkKey namespace name) in He.
  - congruence.
  - done.
  - congruence.
  - assert (base = asked_release name opts hr) as -> by congruence. by injection Hm as <-.
  - assert (base = asked_release name opts hr) as -> by congruence. rewrite asked_twice in Hm. by injection Hm as _ <-.
Qed.
End releases.
