(* ===== verification/ClusterStatus.v ===== *)
(** * The status of a ClusterDeployment
    ([src/internal/controller/clusterdeployment_controller.go]:
    [initClusterConditions], [updateStatus], [handleClusterDeploymentFailedConditions],
    [setAvailableUpgrades], [setStatusRegion]). *)

From S2P Require Import Prelude GoStrings Api Kube Conditions ApiManagement Effects SveltosTypes ServiceBasics ClusterTypes ContractVersions.

#[export] Instance UpgradePath_eq_dec : EqDecision UpgradePath.
Proof. solve_decision. Defined.
#[export] Instance ServiceUpgradePaths_eq_dec : EqDecision ServiceUpgradePaths.
Proof. solve_decision. Defined.
#[export] Instance ClusterDeploymentStatus_eq_dec : EqDecision ClusterDeploymentStatus.
Proof. solve_decision. Defined.

Definition handleClusterDeploymentFailedConditions (cond : Condition) : string * string :=
  let t := cond_type cond in
  if bool_decide (t ∈ [CredentialReadyCondition; HelmReleaseReadyCondition; HelmChartReadyCondition;
       TemplateReadyCondition; DataSourceReadyCondition; ClusterDataSourceReadyCondition;
       ClusterAuthenticationReadyCondition; ClusterAuditPolicyReadyCondition; RBACPolicyReadyCondition])
  then (cond_message cond, "")
  else if bool_decide (t = CAPIClusterSummaryCondition) then ("", cond_message cond)
  else if bool_decide (t = ServicesInReadyStateCondition) then ("", cond_message cond +:+ " Services are ready.")
  else (cond_message cond, "").

(** The list behind [TemplateChainSupportedTemplatesIndexKey]. *)
Definition chain_supports (name : string) (chain : ClusterTemplateChain) : bool :=
  bool_decide (name ∈ (spt_name <$> tc_supportedTemplates (ctch_spec chain))).

(** The inner loops of [setAvailableUpgrades]: what a chain offers from a template. *)
Definition chain_upgrades (name : string) (m : gmap string AvailableUpgrade) (chain : ClusterTemplateChain)
  : gmap string AvailableUpgrade :=
  foldl (λ m supportedTemplate,
    if bool_decide (spt_name supportedTemplate = name)
    then foldl (λ m availableUpgrade, <[au_name availableUpgrade := availableUpgrade]> m) m (spt_availableUpgrades supportedTemplate)
    else m) m (tc_supportedTemplates (ctch_spec chain)).
Definition available_upgrades (name : string) (chains : list ClusterTemplateChain) : list string :=
  sort_strings ((λ x : string * AvailableUpgrade, au_name x.2) <$> map_to_list (foldl (chain_upgrades name) ∅ chains)).

Section status.
Context {Handle C : Type} `{EqDecision Handle} `{!StatusConditions}.
Context `{!Lister C ClusterTemplateChain} `{!Refresher C ClusterDeployment}.
Variable MgmtClient : Handle.
Notation St := (rstate Handle C).

(** The new conditions; whether they changed is not used. *)
Definition initial_condition (cd : ClusterDeployment) (typ : string) : ClusterDeployment :=
  if bool_decide (is_Some (cd_condition typ cd)) then cd
  else if bool_decide (typ = HelmReleaseReadyCondition) && cds_dryRun (cd_spec cd) then cd
  else put_condition (mkCondition typ CondUnknown ProgressingReason "" (cd_generation cd) 0) cd.
Definition initClusterConditions (cd : ClusterDeployment) : ClusterDeployment :=
  foldl initial_condition cd
    [CredentialReadyCondition; HelmReleaseReadyCondition; HelmChartReadyCondition; TemplateReadyCondition; ReadyCondition].

Definition setStatusRegion : M St unit :=
  modify (λ s, match sc_region (rs_scope s) with
               | Some rgn => set_cd (set_cd_region (om_name (rgn_meta rgn)) (cd_of s)) s
               | None => if negb (bool_decide (cdst_region (cd_status (cd_of s)) = "")) then set_cd (set_cd_region "" (cd_of s)) s else s
               end).

Definition setAvailableUpgrades (clusterTpl : option ClusterTemplate) : M St unit :=
  match clusterTpl with
  | None => mret tt
  | Some clusterTpl =>
      chains ← wrapM "failed to list ClusterTemplateChains: "
        (ListObjects ClusterTemplateChain (client_of MgmtClient) (om_namespace (ct_meta clusterTpl))
           (chain_supports (om_name (ct_meta clusterTpl))));
      upd_cd (set_cd_availableUpgrades (available_upgrades (om_name (ct_meta clusterTpl)) chains))
  end.

Definition updateStatus (oldObj : ClusterDeployment) (template : option ClusterTemplate) : M St unit :=
  _ ← upd_cd (λ cd, set_cd_conditions
        (UpdateReadyCondition handleClusterDeploymentFailedConditions (cd_conditions cd) (cd_generation cd))
        (set_cd_observedGeneration (cd_generation cd) cd));
  _ ← wrapM "failed to set available upgrades: " (setAvailableUpgrades template);
  cd ← the_cd;
  if bool_decide (cd_status oldObj = cd_status cd) then mret tt
  else wrapM ("failed to update status for clusterDeployment " +:+ om_namespace (cd_meta cd) +:+ "/" +:+ om_name (cd_meta cd) +:+ ": ")
         (refresh_cd MgmtClient c_status_update).

(** ** Properties *)

Lemma upgrades_fold (l : list AvailableUpgrade) (m : gmap string AvailableUpgrade) :
  let m' := foldl (λ (m : gmap string AvailableUpgrade) u, <[au_name u := u]> m) m l in
  (∀ n u, m !! n = Some u → au_name u = n) →
  (∀ n u, m' !! n = Some u → au_name u = n) ∧
  (∀ n, is_Some (m' !! n) ↔ is_Some (m !! n) ∨ n ∈ au_name <$> l).
Proof.
  cbn zeta. revert m. induction l as [|u l IH]; intros m Hm; cbn [foldl].
  - split; [done|]. intros n. cbn. split; [by left|]. intros [?|Hn]; [done|]. by apply elem_of_nil in Hn.
  - destruct (IH (<[au_name u := u]> m)) as [Hk Hd].
    { intros n u' Hu. destruct (decide (n = au_name u)) as [->|Hne]; [rewrite lookup_insert_eq in Hu; congruence|].
      rewrite lookup_insert_ne in Hu by done. by apply Hm. }
    split; [done|]. intros n. rewrite Hd, fmap_cons, elem_of_cons.
    destruct (decide (n = au_name u)) as [->|Hne].
    + rewrite lookup_insert_eq. split; [by right; left|]. intros _. left. by eexists.
    + rewrite lookup_insert_ne by done. tauto.
Qed.

(** The upgrade [u] is offered from the template [name] by one of the chains. *)
Definition offers (name : string) (chain : ClusterTemplateChain) (u : string) : Prop :=
  ∃ t, t ∈ tc_supportedTemplates (ctch_spec chain) ∧ spt_name t = name ∧ u ∈ au_name <$> spt_availableUpgrades t.

Lemma chain_upgrades_spec name chain m :
  (∀ n u, m !! n = Some u → au_name u = n) →
  (∀ n u, chain_upgrades name m chain !! n = Some u → au_name u = n) ∧
  (∀ n, is_Some (chain_upgrades name m chain !! n) ↔ is_Some (m !! n) ∨ offers name chain n).
Proof.
  unfold chain_upgrades, offers. generalize (tc_supportedTemplates (ctch_spec chain)) as ts. intros ts. revert m.
  induction ts as [|t ts IH]; intros m Hm; cbn [foldl].
  - split; [done|]. intros n. split; [by left|]. intros [?|(t & Ht & _)]; [done|]. by apply elem_of_nil in Ht.
  - case_bool_decide as Hn.
    + destruct (upgrades_fold (spt_availableUpgrades t) m Hm) as [Hk Hd].
      destruct (IH _ Hk) as [Hk' Hd']. split; [done|]. intros n. rewrite Hd', Hd. setoid_rewrite elem_of_cons. naive_solver.
    + destruct (IH _ Hm) as [Hk' Hd']. split; [done|]. intros n. rewrite Hd'. setoid_rewrite elem_of_cons. naive_solver.
Qed.
Lemma chains_upgrades_spec name chains m :
  (∀ n u, m !! n = Some u → au_name u = n) →
  (∀ n u, foldl (chain_upgrades name) m chains !! n = Some u → au_name u = n) ∧
  (∀ n, is_Some (foldl (chain_upgrades name) m chains !! n) ↔ is_Some (m !! n) ∨ ∃ c, c ∈ chains ∧ offers name c n).
Proof.
  revert m. induction chains as [|c cs IH]; intros m Hm; cbn [foldl].
  - split; [done|]. intros n. split; [by left|]. intros [?|(t & Ht & _)]; [done|]. by apply elem_of_nil in Ht.
  - destruct (chain_upgrades_spec name c m Hm) as [Hk Hd]. destruct (IH _ Hk) as [Hk' Hd']. split; [done|].
    intros n. rewrite Hd', Hd. setoid_rewrite elem_of_cons. naive_solver.
Qed.

Lemma available_upgrades_spec name chains :
  StronglySorted string_lt (available_upgrades name chains) ∧
  ∀ u, u ∈ available_upgrades name chains ↔ ∃ c, c ∈ chains ∧ offers name c u.
Proof.
  destruct (chains_upgrades_spec name chains ∅) as [Hk Hd]; [intros n u; by rewrite lookup_empty|].
  unfold available_upgrades. set (m := foldl (chain_upgrades name) ∅ chains) in *.
  assert ((λ x : string * AvailableUpgrade, au_name x.2) <$> map_to_list m = fst <$> map_to_list m) as ->.
  { apply list_fmap_ext. intros i [n u] Hi. cbn. apply list_elem_of_lookup_2, elem_of_map_to_list in Hi. by apply Hk. }
  split.
  - assert (StronglySorted (Rle string_leb) (sort_strings (fst <$> map_to_list m))) as Hs
      by (apply isort_sorted; [apply string_leb_total|apply string_leb_trans]).
    assert (NoDup (sort_strings (fst <$> map_to_list m))) as Hnd
      by (unfold sort_strings; rewrite isort_perm; apply NoDup_fst_map_to_list).
    induction Hs as [|a l Hs IH Ha]; [constructor|]. apply NoDup_cons in Hnd as [Hin Hnd]. constructor; [by apply IH|].
    rewrite Forall_forall in Ha |- *. intros x Hx. split; [by apply Ha|]. by intros ->.
  - intros u. unfold sort_strings. rewrite isort_elem_of, list_elem_of_fmap. specialize (Hd u). rewrite lookup_empty in Hd.
    assert (is_Some (m !! u) ↔ ∃ c, c ∈ chains ∧ offers name c u) as <- by (rewrite Hd; split; [intros [[? [=]]|?]; done|by right]).
    cbn. split.
    + intros ([n v] & -> & Hv). apply elem_of_map_to_list in Hv. by eexists.
    + intros [v Hv]. exists (u, v). split; [done|]. by apply elem_of_map_to_list.
Qed.

Definition summarised_cd (cd : ClusterDeployment) : ClusterDeployment :=
  set_cd_conditions (UpdateReadyCondition handleClusterDeploymentFailedConditions (cd_conditions cd) (cd_generation cd))
    (set_cd_observedGeneration (cd_generation cd) cd).
Definition upgraded_cd (s : St) (template : option ClusterTemplate) (cd : ClusterDeployment) : result ClusterDeployment :=
  match template with
  | None => Ok cd
  | Some tpl => chains ← c_list (T:=ClusterTemplateChain) (at_ (rs_fleet s) MgmtClient) (om_namespace (ct_meta tpl))
                           (chain_supports (om_name (ct_meta tpl)));
                Ok (set_cd_availableUpgrades (available_upgrades (om_name (ct_meta tpl)) chains) cd)
  end.

Lemma updateStatus_eq oldObj template s :
  updateStatus oldObj template s =
  match upgraded_cd s template (summarised_cd (cd_of s)) with
  | Err e => (set_cd (summarised_cd (cd_of s)) s, Err (ErrWrap "failed to set available upgrades: " (ErrWrap "failed to list ClusterTemplateChains: " e)))
  | Ok cd' =>
      if bool_decide (cd_status oldObj = cd_status cd') then (set_cd cd' s, Ok tt)
      else (set_cd (c_status_update (at_ (rs_fleet s) MgmtClient) cd').1.2
              (put_fleet MgmtClient (c_status_update (at_ (rs_fleet s) MgmtClient) cd').1.1 s),
            wrap_err ("failed to update status for clusterDeployment " +:+ om_namespace (cd_meta cd') +:+ "/" +:+ om_name (cd_meta cd') +:+ ": ")
              (err_result (c_status_update (at_ (rs_fleet s) MgmtClient) cd').2))
  end.
Proof.
  unfold updateStatus. rewrite bind_eq. cbn [upd_cd modify]. fold (summarised_cd (cd_of s)). rewrite bind_eq, wrap_eq.
  assert (∀ cd', ((cd ← the_cd; if bool_decide (cd_status oldObj = cd_status cd) then mret tt
      else wrapM ("failed to update status for clusterDeployment " +:+ om_namespace (cd_meta cd) +:+ "/" +:+ om_name (cd_meta cd) +:+ ": ")
         (refresh_cd MgmtClient c_status_update)) : M St unit) (set_cd cd' s) =
      if bool_decide (cd_status oldObj = cd_status cd') then (set_cd cd' s, Ok tt)
      else (set_cd (c_status_update (at_ (rs_fleet s) MgmtClient) cd').1.2
              (put_fleet MgmtClient (c_status_update (at_ (rs_fleet s) MgmtClient) cd').1.1 s),
            wrap_err ("failed to update status for clusterDeployment " +:+ om_namespace (cd_meta cd') +:+ "/" +:+ om_name (cd_meta cd') +:+ ": ")
              (err_result (c_status_update (at_ (rs_fleet s) MgmtClient) cd').2))) as Hrest.
  { intros cd'. rewrite bind_eq. cbn [the_cd gets]. change (cd_of (set_cd cd' s)) with cd'. case_bool_decide; [done|].
    rewrite wrap_eq. unfold refresh_cd. change (cd_of (set_cd cd' s)) with cd'. change (rs_fleet (set_cd cd' s)) with (rs_fleet s).
    by destruct (c_status_update _ cd') as [[c y] err]. }
  destruct template as [tpl|]; cbn [setAvailableUpgrades upgraded_cd].
  - rewrite bind_eq, wrap_eq, List_eq. cbn [fst snd]. change (view _ _) with (at_ (rs_fleet s) MgmtClient).
    destruct (c_list _ _ _) as [chains|e]; cbn [wrap_err fst snd mbind result_bind]; [|done]. apply Hrest.
  - apply Hrest.
Qed.

(** C38: the status written says what the object and the cluster say: the
    generation seen, a Ready condition summarising the others, and as available
    upgrades, in strict alphabetical order, exactly the templates that a chain of
    the template's namespace offers from the template. It is written once, and
    only when it differs from the status the reconcile started with. *)
Theorem updateStatus_reports oldObj template s s' :
  updateStatus oldObj template s = (s', Ok tt) →
  ∃ cd', cd_meta cd' = cd_meta (cd_of s) ∧ cd_spec cd' = cd_spec (cd_of s) ∧
    cdst_observedGeneration (cd_status cd') = cd_generation (cd_of s) ∧
    (∃ c, cd_condition ReadyCondition cd' = Some c ∧
       ready_as handleClusterDeploymentFailedConditions (cd_conditions (cd_of s)) (cond_status c) (cond_reason c)) ∧
    (∀ tpl, template = Some tpl →
       ∃ chains, c_list (T:=ClusterTemplateChain) (at_ (rs_fleet s) MgmtClient) (om_namespace (ct_meta tpl))
           (chain_supports (om_name (ct_meta tpl))) = Ok chains ∧
         StronglySorted string_lt (cdst_availableUpgrades (cd_status cd')) ∧
         ∀ u, u ∈ cdst_availableUpgrades (cd_status cd') ↔ ∃ c, c ∈ chains ∧ offers (om_name (ct_meta tpl)) c u) ∧
    if bool_decide (cd_status oldObj = cd_status cd') then rs_fleet s' = rs_fleet s ∧ cd_of s' = cd'
    else ∃ c' y, c_status_update (at_ (rs_fleet s) MgmtClient) cd' = (c', y, None) ∧
           rs_fleet s' = fleet_put MgmtClient c' (rs_fleet s) ∧ cd_of s' = y.
Proof.
  rewrite updateStatus_eq. destruct (upgraded_cd s template (summarised_cd (cd_of s))) as [cd'|e] eqn:Hup; [|done].
  intros Hrun. exists cd'.
  assert (cd_meta cd' = cd_meta (cd_of s) ∧ cd_spec cd' = cd_spec (cd_of s) ∧
    cdst_observedGeneration (cd_status cd') = cd_generation (cd_of s) ∧
    cd_conditions cd' = UpdateReadyCondition handleClusterDeploymentFailedConditions (cd_conditions (cd_of s)) (cd_generation (cd_of s)) ∧
    (∀ tpl, template = Some tpl →
       ∃ chains, c_list (T:=ClusterTemplateChain) (at_ (rs_fleet s) MgmtClient) (om_namespace (ct_meta tpl))
           (chain_supports (om_name (ct_meta tpl))) = Ok chains ∧
         cdst_availableUpgrades (cd_status cd') = available_upgrades (om_name (ct_meta tpl)) chains)) as (Hm & Hsp & Hg & Hc & Ha).
  { destruct template as [tpl|]; cbn [upgraded_cd] in Hup.
    - apply bind_Ok in Hup as (chains & Hl & [= <-]). split_and!; [done..|]. intros ? [= <-]. by exists chains.
    - injection Hup as <-. by split_and!. }
  split_and!; [done|done|done| | |].
  - unfold cd_condition. rewrite Hc.
    destruct (UpdateReadyCondition_ready handleClusterDeploymentFailedConditions (cd_conditions (cd_of s)) (cd_generation (cd_of s))) as (c & ? & _ & ?).
    by exists c.
  - intros tpl Ht. destruct (Ha tpl Ht) as (chains & Hl & ->). exists chains. split; [done|].
    apply (available_upgrades_spec (om_name (ct_meta tpl)) chains).
  - destruct (bool_decide _); [by injection Hrun as <-|].
    destruct (c_status_update _ cd') as [[c' y] [e|]]; [done|]. injection Hrun as <-. by exists c', y.
Qed.
End status.
