(* ===== verification/CapiConditions.v ===== *)
(** * The state of the CAPI cluster in the status of a ClusterDeployment
    ([src/internal/util/conditions/capi.go] and [aggregateCapiConditions]
    of [src/internal/controller/clusterdeployment_controller.go]). *)

From S2P Require Import Prelude GoStrings Api Kube Conditions ApiManagement Effects SveltosTypes ServiceBasics ClusterTypes AdmissionChecks.

(** The condition library of Cluster API: its default merge of conditions, given
    the types that are bad news when true, and the summary of the conditions of
    some types of an object, made with a merge. *)
Definition merge : Type := list Condition → list string → (ConditionStatus * string * string) * option gerror.
Class CapiSummaries := {
  DefaultMerge : list string → merge;
  NewSummaryCondition : CapiCluster → string → list string → list string → merge → result Condition;
  summary_type cluster typ types negative m c : NewSummaryCondition cluster typ types negative m = Ok c → cond_type c = typ;
  ClusterInfrastructureReadyCondition : string;
  ClusterControlPlaneInitializedCondition : string;
  ClusterControlPlaneAvailableCondition : string;
  ClusterControlPlaneMachinesReadyCondition : string;
  ClusterWorkersAvailableCondition : string;
  ClusterWorkerMachinesReadyCondition : string;
  ClusterRemoteConnectionProbeCondition : string;
  ClusterDeletingCondition : string
}.

Section summary.
Context `{!CapiSummaries}.

Definition Merge (negativePolarityConditionTypes : list string) : merge := λ conditions conditionTypes,
  let '(status, reason, message, err) := DefaultMerge negativePolarityConditionTypes conditions conditionTypes in
  (status, if existsb (λ c, bool_decide (cond_type c = ClusterDeletingCondition)) conditions then "Deleting" else reason, message, err).

Definition capiConditionTypes (deleting : bool) : list string :=
  if negb deleting then
    [ClusterInfrastructureReadyCondition; ClusterControlPlaneInitializedCondition; ClusterControlPlaneAvailableCondition;
     ClusterControlPlaneMachinesReadyCondition; ClusterWorkersAvailableCondition; ClusterWorkerMachinesReadyCondition;
     ClusterRemoteConnectionProbeCondition]
  else [ClusterDeletingCondition].

Definition deleting_cd (cd : ClusterDeployment) : bool := bool_decide (is_Some (om_deletionTimestamp (cd_meta cd))).

Definition GetCAPIClusterSummaryCondition (cd : ClusterDeployment) (cluster : CapiCluster) : result Condition :=
  let negativePolarityConditionTypes := if deleting_cd cd then [ClusterDeletingCondition] else [] in
  capiCondition ← wrap_err ("failed to get condition summary from Cluster " +:+ key_string (meta_key (capi_meta cluster)) +:+ ": ")
    (NewSummaryCondition cluster CAPIClusterSummaryCondition (capiConditionTypes (deleting_cd cd)) negativePolarityConditionTypes
       (Merge negativePolarityConditionTypes));
  Ok (mkCondition (cond_type capiCondition) (cond_status capiCondition) (cond_reason capiCondition) (cond_message capiCondition)
        (cd_generation cd) (cond_lastTransitionTime capiCondition)).
End summary.

(** The event for an update of the condition, if its status or reason changed. *)
Definition capiClusterEvent (previous : option Condition) (current : Condition) (deleting : bool) : option (string * string) :=
  if match previous with
     | Some p => bool_decide (cond_status p = cond_status current) && bool_decide (cond_reason p = cond_reason current)
     | None => false
     end then None
  else if bool_decide (cond_status current = CondTrue) then Some ("CAPIClusterIsReady", "Cluster has been provisioned")
  else if deleting then Some ("CAPIClusterIsDeleting", "Cluster is deleting")
  else Some ("CAPIClusterIsProvisioning", "Cluster is provisioning").

Section aggregate.
Context {Handle C : Type} `{EqDecision Handle} `{!StatusConditions} `{!CapiSummaries} `{!Lister C CapiCluster}.
Notation St := (rstate Handle C).

Definition capi_summary (cd : ClusterDeployment) (status : ConditionStatus) (reason message : string) : Condition :=
  mkCondition CAPIClusterSummaryCondition status reason message (cd_generation cd) 0.

(** No cluster: the condition a former one turns into. *)
Definition without_cluster (cd : ClusterDeployment) : ClusterDeployment :=
  match cd_condition CAPIClusterSummaryCondition cd with
  | None => cd
  | Some cond =>
      if bool_decide (cond_reason cond = DeletingReason)
      then put_condition (capi_summary cd CondTrue DeletionCompletedReason "Cluster was deleted") cd
      else if bool_decide (cond_reason cond ∈ [CAPIClusterMissingReason; DeletionCompletedReason]) then cd
      else put_condition (capi_summary cd CondFalse CAPIClusterMissingReason "Underlying CAPI Cluster object is missing") cd
  end.

Definition set_capiClusterDeleted (d : clusterDeletionState) : clusterDeletionState :=
  mkDeletionState true (cloudResourcesDeleted d) (helmReleaseDeleted d) (serviceSetsDeleted d) (clusterDataSourceDeleted d).

Definition aggregateCapiConditions : M St bool :=
  sc ← the_scope;
  let cd := sc_cd sc in
  clusters ← try (gets (λ s, Limit 1 (c_list (T:=CapiCluster) (at_ (rs_fleet s) (sc_rgnClient sc)) (om_namespace (cd_meta cd))
                    (λ x, bool_decide (labels_of (capi_meta x) !! FluxHelmChartNameKey = Some (om_name (cd_meta cd)))))) ≫= lift);
  match clusters with
  | Err err =>
      _ ← upd_cd (put_condition (capi_summary cd CondFalse FailedReason (Error err)));
      fail (ErrWrap ("failed to list clusters for ClusterDeployment " +:+ key_string (cd_key cd) +:+ ": ") err)
  | Ok [] =>
      _ ← upd_cd without_cluster;
      _ ← upd_deletion set_capiClusterDeleted;
      mret false
  | Ok (cluster :: _) =>
      match GetCAPIClusterSummaryCondition cd cluster with
      | Err err =>
          _ ← upd_cd (put_condition (capi_summary cd CondFalse FailedReason (Error err)));
          fail err
      | Ok capiCondition =>
          _ ← upd_cd (put_condition capiCondition);
          mret (negb (bool_decide (cond_status capiCondition = CondTrue)))
      end
  end.

(** ** What it leaves *)

(** It reads the regional cluster, writes nothing, and touches only that
    condition, and in a deletion whether the cluster is gone. *)
Definition capi_look (s s' : St) : Prop :=
  rs_fleet s' = rs_fleet s ∧ rs_synced s' = rs_synced s ∧
  cd_meta (cd_of s') = cd_meta (cd_of s) ∧ cd_spec (cd_of s') = cd_spec (cd_of s) ∧
  sc_rgnClient (rs_scope s') = sc_rgnClient (rs_scope s) ∧ sc_kine (rs_scope s') = sc_kine (rs_scope s) ∧
  ∀ t, t ≠ CAPIClusterSummaryCondition → cd_condition t (cd_of s') = cd_condition t (cd_of s).

Lemma put_look (s : St) c : cond_type c = CAPIClusterSummaryCondition → capi_look s (set_cd (put_condition c (cd_of s)) s).
Proof. intros Hc. split_and!; try done. intros t Ht. apply cd_condition_other. by rewrite Hc. Qed.
Lemma without_look (s : St) : capi_look s (set_cd (without_cluster (cd_of s)) s).
Proof.
  unfold without_cluster. destruct (cd_condition _ _); [|by split_and!]. repeat case_bool_decide; try (by apply put_look); by split_and!.
Qed.

Lemma aggregate_look s : capi_look s (aggregateCapiConditions s).1.
Proof.
  unfold aggregateCapiConditions. rewrite bind_eq. cbn [the_scope gets]. rewrite bind_eq, try_eq, gets_lift_eq. cbn [fst snd].
  destruct (Limit 1 _) as [[|cluster l]|e].
  - rewrite bind_eq. cbn [upd_cd modify]. rewrite bind_eq. cbn [upd_deletion modify]. exact (without_look s).
  - destruct (GetCAPIClusterSummaryCondition (sc_cd (rs_scope s)) cluster) as [c|e] eqn:Hc; rewrite bind_eq; cbn [upd_cd modify].
    + apply put_look. apply bind_Ok in Hc as (c0 & Hc0 & [= <-]). apply wrap_err_Ok, summary_type in Hc0. exact Hc0.
    + by apply put_look.
  - rewrite bind_eq. cbn [upd_cd modify]. by apply put_look.
Qed.
End aggregate.
