(* ===== verification/RbacSync.v ===== *)
(** * RBAC objects in a child cluster ([src/internal/controller/rbac/rbacpolicy.go]).

    The ClusterRoles and ClusterRoleBindings of an RBACPolicy, created and kept
    up to date through the client of the child cluster, and removed once they
    are no longer in its catalog. *)

From S2P Require Import Prelude GoStrings Api Kube ApiManagement Effects AdmissionChecks.

Definition rbac_GroupName := "rbac.authorization.k8s.io".
Definition rbacSubjectAPIGroup := rbac_GroupName.
Definition ManagedByLabelKey := "k0rdent.mirantis.com/managed-by".
Definition ManagedByLabelValue := "rbac-operator".

Definition terminal := "terminal error".

(** An error holding a failure worth retrying. [ErrMark terminal] is
    [fmt.Errorf("%w: ...", ErrTerminal)]. *)
Fixpoint Retriable (err : gerror) : bool :=
  match err with
  | ErrJoin es => existsb Retriable es
  | ErrWrap _ wrapped => Retriable wrapped
  | _ => negb (errors_Is terminal err)
  end.

(** [toSubjects] and the labels. *)
Definition toSubjects (subjects : list RBACPolicySubject) : list Subject :=
  (λ s, mkRbacSubject (rsub_kind s) rbacSubjectAPIGroup (rsub_name s) "") <$> subjects.

Definition mergeManagedLabels (existing : option (gmap string string)) : option (gmap string string) :=
  Some (<[ManagedByLabelKey := ManagedByLabelValue]> (<[KCMManagedLabelKey := KCMManagedLabelValue]> (default ∅ existing))).

Definition is_managed (m : ObjectMeta) : bool :=
  bool_decide (labels_of m !! ManagedByLabelKey = Some ManagedByLabelValue).

Definition set_meta_labels (l : option (gmap string string)) (m : ObjectMeta) : ObjectMeta :=
  mkMeta (om_name m) (om_namespace m) (om_uid m) (om_generation m) l (om_annotations m)
    (om_ownerReferences m) (om_finalizers m) (om_deletionTimestamp m).

Definition bindingName_of (binding : RBACPolicyBinding) : string := ClusterRoleBindingNamePrefix +:+ rbb_name binding.
Definition role_ref (clusterRoleName : string) : RoleRef := mkRoleRef rbac_GroupName "ClusterRole" clusterRoleName.

Section child.
Context {S C : Type}.
Context `{!Getter C ClusterRole} `{!Writer C ClusterRole} `{!Deleter C ClusterRole} `{!Patcher C ClusterRole} `{!Lister C ClusterRole}.
Context `{!Getter C ClusterRoleBinding} `{!Writer C ClusterRoleBinding} `{!Deleter C ClusterRoleBinding} `{!Patcher C ClusterRoleBinding} `{!Lister C ClusterRoleBinding}.
Variable childCl : client S C.

Definition patchIfChanged {T} `{!Patcher C T} (base obj : T) : M S bool :=
  data ← lift (patch_Data obj base);
  if bool_decide (data = "{}") then mret false
  else Patch childCl obj base ≫= λ _, mret true.

Definition new_cluster_role (name : string) (rules : list PolicyRule) : ClusterRole :=
  mkClusterRole (set_meta_labels (mergeManagedLabels None) (named_meta "" name)) rules.

Definition applyClusterRole (name : string) (rules : list PolicyRule) : M S bool :=
  got ← try (Get ClusterRole childCl (mkKey "" name));
  match got with
  | Err err =>
      if IsNotFound err then Create childCl (new_cluster_role name rules) ≫= λ _, mret true
      else fail err
  | Ok role =>
      if negb (is_managed (cr_meta role)) then
        fail (ErrMark terminal (ErrNew ("terminal error: ClusterRole " +:+ name +:+
          " already exists and was not created by this RBACPolicy; refusing to overwrite it")))
      else
        patchIfChanged role (mkClusterRole (set_meta_labels (mergeManagedLabels (om_labels (cr_meta role))) (cr_meta role)) rules)
  end.

Definition new_binding (name clusterRoleName : string) (subjects : list Subject) : ClusterRoleBinding :=
  mkClusterRoleBinding (set_meta_labels (mergeManagedLabels None) (named_meta "" name)) (role_ref clusterRoleName) subjects.

Definition applyClusterRoleBinding (name clusterRoleName : string) (subjects : list Subject) : M S bool :=
  got ← try (Get ClusterRoleBinding childCl (mkKey "" name));
  match got with
  | Err err =>
      if IsNotFound err then Create childCl (new_binding name clusterRoleName subjects) ≫= λ _, mret true
      else fail err
  | Ok binding =>
      if negb (bool_decide (crb_roleRef binding = role_ref clusterRoleName)) then
        wrapM "deleting outdated ClusterRoleBinding to change roleRef: " (Delete childCl binding) ≫= λ _,
        wrapM "creating ClusterRoleBinding after deleting the outdated one: "
          (Create childCl (new_binding name clusterRoleName subjects)) ≫= λ _,
        mret true
      else
        patchIfChanged binding (mkClusterRoleBinding
          (set_meta_labels (mergeManagedLabels (om_labels (crb_meta binding))) (crb_meta binding)) (crb_roleRef binding) subjects)
  end.

(** The body of the second loop of [Sync]. *)
Definition apply_binding (changed : bool) (errs : list gerror) (binding : RBACPolicyBinding) : M S (bool * list gerror) :=
  roleChanged ← (if bool_decide (0 < length (rbb_rules binding))
                 then try (applyClusterRole (rbb_clusterRole binding) (rbb_rules binding)) else mret (Ok false));
  match roleChanged with
  | Err err => mret (changed, errs ++ [ErrWrap ("applying ClusterRole " +:+ rbb_clusterRole binding +:+ ": ") err])
  | Ok roleChanged =>
      let changed := changed || roleChanged in
      bindingChanged ← try (applyClusterRoleBinding (bindingName_of binding) (rbb_clusterRole binding) (toSubjects (rbb_subjects binding)));
      match bindingChanged with
      | Err err => mret (changed, errs ++ [ErrWrap ("applying ClusterRoleBinding " +:+ bindingName_of binding +:+ ": ") err])
      | Ok bindingChanged => mret (changed || bindingChanged, errs)
      end
  end.
Fixpoint apply_bindings (changed : bool) (errs : list gerror) (bindings : list RBACPolicyBinding) : M S (bool * list gerror) :=
  match bindings with
  | [] => mret (changed, errs)
  | binding :: bindings => acc ← apply_binding changed errs binding; apply_bindings acc.1 acc.2 bindings
  end.

Definition desired_roles (bindings : list RBACPolicyBinding) : gset string := list_to_set (rbb_clusterRole <$> bindings).
Definition desired_bindings (bindings : list RBACPolicyBinding) : gset string := list_to_set (bindingName_of <$> bindings).

(** The desired names, whether anything changed, and the joined errors. *)
Definition Sync (policy : option RBACPolicy) : M S (gset string * gset string * bool * option gerror) :=
  match policy with
  | None => mret (∅, ∅, false, None)
  | Some policy =>
      let bindings := rbac_bindings policy in
      acc ← apply_bindings false [] bindings;
      mret (desired_roles bindings, desired_bindings bindings, acc.1, errors_Join (Some <$> acc.2))
  end.

(** ** Pruning *)

Section prune.
Context {T : Type} `{!Deleter C T} `{!Lister C T}.
Variable (meta : T → ObjectMeta) (kind : string).

Fixpoint prune_loop (desired : gset string) (changed : bool) (items : list T) : M S (bool * option gerror) :=
  match items with
  | [] => mret (changed, None)
  | obj :: items =>
      if bool_decide (om_name (meta obj) ∈ desired) then prune_loop desired changed items
      else
        deleted ← try (Delete childCl obj);
        match deleted with
        | Err err => if IsNotFound err then prune_loop desired true items
                     else mret (changed, Some (ErrWrap ("deleting stale " +:+ kind +:+ " " +:+ om_name (meta obj) +:+ ": ") err))
        | Ok _ => prune_loop desired true items
        end
  end.

Definition pruneManaged (desired : gset string) : M S (bool * option gerror) :=
  listed ← try (ListObjects T childCl "" (λ x, is_managed (meta x)));
  match listed with
  | Err err => mret (false, Some (ErrWrap ("listing " +:+ kind +:+ "s: ") err))
  | Ok items => prune_loop desired false items
  end.
End prune.

Definition Prune (desiredRoles desiredBindings : gset string) : M S (bool * option gerror) :=
  roles ← pruneManaged cr_meta "ClusterRole" desiredRoles;
  match roles.2 with
  | Some err => mret (roles.1, Some err)
  | None =>
      bindings ← pruneManaged crb_meta "ClusterRoleBinding" desiredBindings;
      mret (roles.1 || bindings.1, bindings.2)
  end.
End child.

(** ** What is written *)

Section properties.
Context {S C : Type}.
Context `{!Getter C ClusterRole} `{!Writer C ClusterRole} `{!Deleter C ClusterRole} `{!Patcher C ClusterRole} `{!Lister C ClusterRole}.
Context `{!Getter C ClusterRoleBinding} `{!Writer C ClusterRoleBinding} `{!Deleter C ClusterRoleBinding} `{!Patcher C ClusterRoleBinding} `{!Lister C ClusterRoleBinding}.
Context `{!Kind C ClusterRole cr_meta cr_rules}.
Context `{!Kind C ClusterRoleBinding crb_meta (λ b, (crb_roleRef b, crb_subjects b))}.
Variable cl : client S C.

(** One write: a role that is new or managed, or any binding. *)
Definition role_free (s : S) (k : ObjectKey) : Prop :=
  ∀ r, c_get (T:=ClusterRole) (view cl s) k = Ok r → is_managed (cr_meta r) = true.

Inductive rbac_step (s : S) : S → Prop :=
  | create_role x : role_free s (meta_key (cr_meta x)) → rbac_step s (put cl (c_create (view cl s) x).1 s)
  | patch_role (x base : ClusterRole) : role_free s (meta_key (cr_meta x)) → rbac_step s (put cl (c_patch (view cl s) x base).1 s)
  | delete_role (x : ClusterRole) : role_free s (meta_key (cr_meta x)) → rbac_step s (put cl (c_delete (view cl s) x).1 s)
  | create_crb (x : ClusterRoleBinding) : rbac_step s (put cl (c_create (view cl s) x).1 s)
  | patch_crb (x base : ClusterRoleBinding) : rbac_step s (put cl (c_patch (view cl s) x base).1 s)
  | delete_crb (x : ClusterRoleBinding) : rbac_step s (put cl (c_delete (view cl s) x).1 s).

Lemma applyClusterRole_eq name rules s :
  applyClusterRole cl name rules s =
  match c_get (T:=ClusterRole) (view cl s) (mkKey "" name) with
  | Err err => if IsNotFound err then (Create cl (new_cluster_role name rules) ≫= λ _, mret true) s else (s, Err err)
  | Ok role =>
      if negb (is_managed (cr_meta role)) then
        (s, Err (ErrMark terminal (ErrNew ("terminal error: ClusterRole " +:+ name +:+
          " already exists and was not created by this RBACPolicy; refusing to overwrite it"))))
      else patchIfChanged cl role (mkClusterRole (set_meta_labels (mergeManagedLabels (om_labels (cr_meta role))) (cr_meta role)) rules) s
  end.
Proof.
  unfold applyClusterRole. rewrite bind_eq, try_eq, Get_eq. cbn [fst snd].
  destruct (c_get _ _); [by destruct (negb _)|by destruct (IsNotFound e)].
Qed.

Lemma applyClusterRoleBinding_eq name role subjects s :
  applyClusterRoleBinding cl name role subjects s =
  match c_get (T:=ClusterRoleBinding) (view cl s) (mkKey "" name) with
  | Err err => if IsNotFound err then (Create cl (new_binding name role subjects) ≫= λ _, mret true) s else (s, Err err)
  | Ok binding =>
      if negb (bool_decide (crb_roleRef binding = role_ref role)) then
        (wrapM "deleting outdated ClusterRoleBinding to change roleRef: " (Delete cl binding) ≫= λ _,
         wrapM "creating ClusterRoleBinding after deleting the outdated one: " (Create cl (new_binding name role subjects)) ≫= λ _,
         mret true) s
      else
        patchIfChanged cl binding (mkClusterRoleBinding
          (set_meta_labels (mergeManagedLabels (om_labels (crb_meta binding))) (crb_meta binding)) (crb_roleRef binding) subjects) s
  end.
Proof.
  unfold applyClusterRoleBinding. rewrite bind_eq, try_eq, Get_eq. cbn [fst snd].
  destruct (c_get _ _); [by destruct (negb _)|by destruct (IsNotFound e)].
Qed.

Definition changed_result (err : option gerror) : result bool := match err with Some e => Err e | None => Ok true end.

Lemma patchIfChanged_eq {T} `{!Patcher C T} (base obj : T) s :
  patchIfChanged cl base obj s =
  match patch_Data obj base with
  | Err e => (s, Err e)
  | Ok data =>
      if bool_decide (data = "{}") then (s, Ok false)
      else (put cl (c_patch (view cl s) obj base).1 s, changed_result (c_patch (view cl s) obj base).2)
  end.
Proof.
  unfold patchIfChanged. rewrite bind_eq. unfold lift. destruct (patch_Data obj base) as [data|e]; [|done].
  case_bool_decide; [done|]. rewrite bind_eq, Patch_eq. by destruct (c_patch _ _ _) as [c [e|]].
Qed.

Lemma create_eq {T} `{!Writer C T} (x : T) s :
  (Create cl x ≫= λ _, mret true) s =
  (put cl (c_create (view cl s) x).1 s, changed_result (c_create (view cl s) x).2).
Proof. rewrite bind_eq, Create_eq. by destruct (c_create _ _) as [c [e|]]. Qed.

(** Replacing a binding: the delete, and the create if that worked. *)
Lemma recreate_eq {T} `{!Writer C T} `{!Deleter C T} p q (old new : T) s :
  (wrapM p (Delete cl old) ≫= λ _, wrapM q (Create cl new) ≫= λ _, mret true) s =
  let s1 := put cl (c_delete (view cl s) old).1 s in
  match (c_delete (view cl s) old).2 with
  | Some e => (s1, Err (ErrWrap p e))
  | None => (put cl (c_create (view cl s1) new).1 s1,
             match (c_create (view cl s1) new).2 with Some e => Err (ErrWrap q e) | None => Ok true end)
  end.
Proof.
  rewrite bind_eq, wrap_eq, Delete_eq. destruct (c_delete _ _) as [c [e|]]; [done|]. cbn [fst snd err_result wrap_err].
  rewrite bind_eq, wrap_eq, Create_eq. by destruct (c_create _ _) as [c' [e|]].
Qed.

Lemma applyClusterRole_steps name rules s : rtc rbac_step s (applyClusterRole cl name rules s).1.
Proof.
  rewrite applyClusterRole_eq. destruct (c_get _ _) as [role|e] eqn:Hg.
  - destruct (is_managed (cr_meta role)) eqn:Hm; [|done]. cbn [negb]. rewrite patchIfChanged_eq.
    destruct (patch_Data _ _) as [data|]; [|done]. case_bool_decide; [done|]. cbn [fst].
    apply rtc_once, patch_role. intros r. change (meta_key _) with (meta_key (cr_meta role)).
    pose proof (kind_key _ _ _ Hg) as Hk. rewrite Hk, Hg. by intros [= <-].
  - destruct (IsNotFound e); [|done]. rewrite create_eq. apply rtc_once, create_role. intros r.
    change (meta_key _) with (mkKey "" name). by rewrite Hg.
Qed.

Lemma applyClusterRoleBinding_steps name role subjects s : rtc rbac_step s (applyClusterRoleBinding cl name role subjects s).1.
Proof.
  rewrite applyClusterRoleBinding_eq. destruct (c_get _ _) as [binding|e] eqn:Hg.
  - destruct (negb _).
    + rewrite recreate_eq. cbn zeta. eapply rtc_l; [apply (delete_crb _ binding)|].
      destruct (c_delete _ _).2; [done|]. apply rtc_once, create_crb.
    + rewrite patchIfChanged_eq. destruct (patch_Data _ _); [|done]. case_bool_decide; [done|]. apply rtc_once, patch_crb.
  - destruct (IsNotFound e); [|done]. rewrite create_eq. apply rtc_once, create_crb.
Qed.

Lemma try_steps {A} (m : M S A) s : rtc rbac_step s (m s).1 → rtc rbac_step s (try m s).1.
Proof. by rewrite try_eq. Qed.
Lemma bind_steps {A B} (m : M S A) (k : A → M S B) s :
  rtc rbac_step s (m s).1 → (∀ s' a, rtc rbac_step s' (k a s').1) → rtc rbac_step s ((m ≫= k) s).1.
Proof.
  intros Hm Hk. rewrite bind_eq. destruct (m s) as [s' [a|e]]; cbn [fst] in *; [|done]. by etrans; [|apply Hk].
Qed.

Lemma apply_binding_steps changed errs b s : rtc rbac_step s (apply_binding cl changed errs b s).1.
Proof.
  unfold apply_binding. apply bind_steps.
  - case_bool_decide; [|done]. apply try_steps, applyClusterRole_steps.
  - intros s' [|]; [|done]. apply bind_steps; [apply try_steps, applyClusterRoleBinding_steps|]. by intros s'' [].
Qed.
Lemma apply_bindings_steps changed errs bs s : rtc rbac_step s (apply_bindings cl changed errs bs s).1.
Proof.
  revert changed errs s. induction bs as [|b bs IH]; intros changed errs s; [done|].
  apply bind_steps; [apply apply_binding_steps|]. intros s' a. apply IH.
Qed.
Lemma Sync_steps policy s : rtc rbac_step s (Sync cl policy s).1.
Proof. destruct policy as [p|]; [|done]. apply bind_steps; [apply apply_bindings_steps|done]. Qed.

(** What every single write keeps, [Sync] keeps. *)
Lemma rtc_keeps (I : S → Prop) s s' : (∀ s s', rbac_step s s' → I s → I s') → rtc rbac_step s s' → I s → I s'.
Proof. intros Hstep. induction 1; [done|]. eauto. Qed.

(** ** Pruning one kind *)

Section prune_one.
Context {T D : Type} (meta : T → ObjectMeta) (data : T → D) (kind : string).
Context `{!Getter C T} `{!Writer C T} `{!Deleter C T} `{!Patcher C T} `{!Lister C T} `{!Kind C T meta data}.
Notation key x := (meta_key (meta x)).
Notation get s k := (c_get (T:=T) (view cl s) k).

Lemma prune_loop_cons desired changed (obj : T) items s :
  prune_loop cl meta kind desired changed (obj :: items) s =
  if bool_decide (om_name (meta obj) ∈ desired) then prune_loop cl meta kind desired changed items s
  else
    let s' := put cl (c_delete (view cl s) obj).1 s in
    match (c_delete (view cl s) obj).2 with
    | Some e => if IsNotFound e then prune_loop cl meta kind desired true items s'
                else (s', Ok (changed, Some (ErrWrap ("deleting stale " +:+ kind +:+ " " +:+ om_name (meta obj) +:+ ": ") e)))
    | None => prune_loop cl meta kind desired true items s'
    end.
Proof.
  cbn [prune_loop]. case_bool_decide; [done|]. rewrite bind_eq, try_eq, Delete_eq. cbn zeta.
  destruct (c_delete (view cl s) obj) as [c [e|]]; cbn [fst snd err_result]; [by destruct (IsNotFound e)|done].
Qed.

(** A delete leaves at most what a finalizer holds, and touches no other object. *)
Lemma delete_leaves_held (obj : T) s y :
  match (c_delete (view cl s) obj).2 with Some e => IsNotFound e = true | None => True end →
  get (put cl (c_delete (view cl s) obj).1 s) (key obj) = Ok y → om_finalizers (meta y) ≠ [].
Proof. rewrite view_put. destruct (c_delete (view cl s) obj) as [c err] eqn:Hd. intros Hok. by eapply kind_delete. Qed.
Lemma delete_frame (obj : T) s k : k ≠ key obj → get (put cl (c_delete (view cl s) obj).1 s) k = get s k.
Proof. intros Hk. rewrite view_put. by apply kind_delete_frame. Qed.

(** What pruning a list of objects does to those of its kind. *)
Lemma prune_loop_spec desired items : ∀ changed s s' ch err,
  NoDup ((λ x, key x) <$> items) → prune_loop cl meta kind desired changed items s = (s', Ok (ch, err)) →
  (∀ k, (∀ x, x ∈ items → om_name (meta x) ∉ desired → key x ≠ k) → get s' k = get s k) ∧
  (err = None → ∀ x y, x ∈ items → om_name (meta x) ∉ desired → get s' (key x) = Ok y → om_finalizers (meta y) ≠ []).
Proof.
  induction items as [|obj items IH]; intros changed s s' ch err Hnd Hrun.
  { injection Hrun as <- <- <-. split; [done|]. intros _ x y Hx. by apply elem_of_nil in Hx. }
  apply NoDup_cons in Hnd as [Hobj Hnd]. rewrite prune_loop_cons in Hrun. revert Hrun. case_bool_decide as Hd; intros Hrun.
  - apply IH in Hrun as (Hf & Hg); [|done]. split.
    + intros k Hk. apply Hf. intros x Hx. apply Hk. by right.
    + intros He x y [->|Hx]%elem_of_cons Hn; [done|]. by apply Hg.
  - cbn zeta in Hrun. set (s1 := put cl (c_delete (view cl s) obj).1 s) in *.
    destruct (match (c_delete (view cl s) obj).2 with Some e => IsNotFound e | None => true end) eqn:Hok.
    + assert (prune_loop cl meta kind desired true items s1 = (s', Ok (ch, err))) as Hrun'
        by (destruct (c_delete (view cl s) obj).2; [by rewrite Hok in Hrun|done]).
      apply IH in Hrun' as (Hf & Hg); [|done]. split.
      * intros k Hk. rewrite Hf; [|intros x Hx; apply Hk; by right]. apply delete_frame.
        intros ->. apply (Hk obj); [left|done|done].
      * intros He x y [->|Hx]%elem_of_cons Hn; [|by apply Hg].
        rewrite Hf; [|intros x' Hx _ E; apply Hobj; rewrite <- E; apply list_elem_of_fmap; eauto].
        apply delete_leaves_held. by destruct (c_delete (view cl s) obj).2.
    + destruct (c_delete (view cl s) obj).2 as [e|] eqn:Hdel; [|done]. rewrite Hok in Hrun. injection Hrun as <- <- <-.
      split; [|done]. intros k Hk. apply delete_frame. intros ->. apply (Hk obj); [left|done|done].
Qed.

Lemma prune_loop_idle desired items changed s :
  (∀ x, x ∈ items → om_name (meta x) ∈ desired) → prune_loop cl meta kind desired changed items s = (s, Ok (changed, None)).
Proof.
  induction items as [|obj items IH]; intros Hd; [done|]. rewrite prune_loop_cons, bool_decide_eq_true_2 by (apply Hd; left).
  apply IH. intros x Hx. apply Hd. by right.
Qed.

Lemma prune_loop_steps (R : S → S → Prop) desired items :
  (∀ s x, (∀ y, get s (key x) = Ok y → is_managed (meta y) = true) → R s (put cl (c_delete (view cl s) x).1 s)) →
  ∀ changed s, NoDup ((λ x, key x) <$> items) →
  (∀ x, x ∈ items → ∀ y, get s (key x) = Ok y → is_managed (meta y) = true) →
  rtc R s (prune_loop cl meta kind desired changed items s).1.
Proof.
  intros Hstep. induction items as [|obj items IH]; intros changed s Hnd Hm; [done|].
  apply NoDup_cons in Hnd as [Hobj Hnd]. rewrite prune_loop_cons. case_bool_decide.
  { apply IH; [done|]. intros x Hx. apply Hm. by right. }
  cbn zeta. eapply rtc_l; [apply (Hstep _ obj), Hm; left|].
  set (s1 := put cl (c_delete (view cl s) obj).1 s).
  assert (∀ x, x ∈ items → ∀ y, get s1 (key x) = Ok y → is_managed (meta y) = true) as Hm1.
  { intros x Hx y. unfold s1. rewrite delete_frame; [apply Hm; by right|].
    intros E. apply Hobj. rewrite <- E. apply list_elem_of_fmap; eauto. }
  destruct (c_delete (view cl s) obj).2 as [e|]; [destruct (IsNotFound e); [|done]|]; by apply IH.
Qed.

Lemma pruneManaged_eq desired s :
  pruneManaged cl meta kind desired s =
  match c_list (T:=T) (view cl s) "" (λ x, is_managed (meta x)) with
  | Err e => (s, Ok (false, Some (ErrWrap ("listing " +:+ kind +:+ "s: ") e)))
  | Ok items => prune_loop cl meta kind desired false items s
  end.
Proof. unfold pruneManaged. rewrite bind_eq, try_eq, List_eq. cbn [fst snd]. by destruct (c_list _ _ _). Qed.

Lemma listed_managed s items x :
  c_list (T:=T) (view cl s) "" (λ x, is_managed (meta x)) = Ok items →
  x ∈ items ↔ get s (key x) = Ok x ∧ is_managed (meta x) = true.
Proof. intros Hl. rewrite (kind_list _ _ _ _ Hl x). unfold in_namespace. cbn. tauto. Qed.

Lemma pruneManaged_steps (R : S → S → Prop) desired s :
  (∀ s x, (∀ y, get s (key x) = Ok y → is_managed (meta y) = true) → R s (put cl (c_delete (view cl s) x).1 s)) →
  rtc R s (pruneManaged cl meta kind desired s).1.
Proof.
  intros Hstep. rewrite pruneManaged_eq. destruct (c_list _ _ _) as [items|] eqn:Hl; [|done].
  apply prune_loop_steps; [done|by eapply kind_list_NoDup|].
  intros x Hx y. apply (listed_managed _ _ _ Hl) in Hx as [-> Hm]. by intros [= <-].
Qed.

(** A prune removes the managed objects that are not wanted, and nothing else. *)
Lemma pruneManaged_spec desired s s' ch err :
  pruneManaged cl meta kind desired s = (s', Ok (ch, err)) →
  (∀ k x, get s k = Ok x → is_managed (meta x) = false ∨ om_name (meta x) ∈ desired → get s' k = Ok x) ∧
  (∀ k e, get s k = Err e → get s' k = Err e) ∧
  (err = None → ∀ k y, get s' k = Ok y → is_managed (meta y) = true → om_finalizers (meta y) = [] → om_name (meta y) ∈ desired).
Proof.
  rewrite pruneManaged_eq. destruct (c_list _ _ _) as [items|e] eqn:Hl.
  2: { intros [= <- <- <-]. by split_and!. }
  intros Hrun. apply prune_loop_spec in Hrun as (Hf & Hg); [|by eapply kind_list_NoDup]. split_and!.
  - intros k x Hx Hkeep. rewrite Hf; [done|]. intros y Hy Hn E.
    apply (listed_managed _ _ _ Hl) in Hy as [Hy Hm]. rewrite E, Hx in Hy. injection Hy as <-.
    destruct Hkeep as [Hu|Hin]; [congruence|done].
  - intros k e He. rewrite Hf; [done|]. intros y Hy _ E. apply (listed_managed _ _ _ Hl) in Hy as [Hy _]. congruence.
  - intros He k y Hy Hm Hfin.
    destruct (decide (Exists (λ x, key x = k ∧ om_name (meta x) ∉ desired) items)) as [(x & Hx & <- & Hn)%Exists_exists|Hn].
    { by destruct (Hg He x y Hx Hn Hy). }
    rewrite Hf in Hy; [|intros x Hx Hd E; apply Hn, Exists_exists; eauto].
    destruct (decide (om_name (meta y) ∈ desired)) as [|Hd]; [done|]. pose proof (kind_key _ _ _ Hy) as Hk.
    destruct Hn. apply Exists_exists. exists y. split; [|done]. apply (listed_managed _ _ _ Hl). by rewrite Hk.
Qed.

Lemma pruneManaged_apart {B} `{!Getter C B} `{!Apart C T B} desired s k :
  c_get (T:=B) (view cl (pruneManaged cl meta kind desired s).1) k = c_get (view cl s) k.
Proof.
  rewrite pruneManaged_eq. destruct (c_list _ _ _) as [items|]; [|done]. generalize false as changed.
  revert s. induction items as [|obj items IH]; intros s changed; [done|]. rewrite prune_loop_cons.
  case_bool_decide; [apply IH|]. cbn zeta.
  assert (c_get (T:=B) (view cl (put cl (c_delete (view cl s) obj).1 s)) k = c_get (view cl s) k) as Hd
    by (rewrite view_put; apply apart_delete).
  destruct (c_delete (view cl s) obj).2 as [e|]; [destruct (IsNotFound e); [|done]|]; by rewrite IH.
Qed.

Lemma pruneManaged_total desired s : ∃ s' ch err, pruneManaged cl meta kind desired s = (s', Ok (ch, err)).
Proof.
  rewrite pruneManaged_eq. destruct (c_list _ _ _) as [items|]; [|eauto]. generalize false as changed.
  revert s. induction items as [|obj items IH]; intros s changed; [eauto|]. rewrite prune_loop_cons.
  case_bool_decide; [apply IH|]. cbn zeta. destruct (c_delete (view cl s) obj).2 as [e|]; [destruct (IsNotFound e)|]; eauto.
Qed.
End prune_one.

Inductive prune_step (s : S) : S → Prop :=
  | prune_role (x : ClusterRole) : role_free s (meta_key (cr_meta x)) → prune_step s (put cl (c_delete (view cl s) x).1 s)
  | prune_crb (x : ClusterRoleBinding) : prune_step s (put cl (c_delete (view cl s) x).1 s).

Lemma Prune_deletes roles bindings s : rtc prune_step s (Prune cl roles bindings s).1.
Proof.
  unfold Prune. rewrite bind_eq.
  pose proof (pruneManaged_steps cr_meta cr_rules "ClusterRole" prune_step roles s (λ s x, prune_role s x)) as Hr.
  destruct (pruneManaged cl cr_meta _ roles s) as [s1 [[ch [e|]]|e]]; cbn [fst snd] in *; [done| |done]. etrans; [exact Hr|].
  rewrite bind_eq.
  pose proof (pruneManaged_steps crb_meta (λ b, (crb_roleRef b, crb_subjects b)) "ClusterRoleBinding" prune_step bindings s1
    (λ s x _, prune_crb s x)) as Hb.
  by destruct (pruneManaged cl crb_meta _ bindings s1) as [s2 [[ch' e']|e]].
Qed.
Lemma Prune_steps roles bindings s : rtc rbac_step s (Prune cl roles bindings s).1.
Proof.
  apply (rtc_subrel prune_step); [|apply Prune_deletes]. intros x y [z Hz|z]; [by apply delete_role|apply delete_crb].
Qed.

(** ** What is granted *)

Context `{!Apart C ClusterRole ClusterRoleBinding} `{!Apart C ClusterRoleBinding ClusterRole}.
Notation get_role s k := (c_get (T:=ClusterRole) (view cl s) k).
Notation get_crb s k := (c_get (T:=ClusterRoleBinding) (view cl s) k).

Definition labelled (m : ObjectMeta) : Prop := mergeManagedLabels (om_labels m) = om_labels m.

Definition role_ready (s : S) (name : string) (rules : list PolicyRule) : Prop :=
  ∃ r, get_role s (mkKey "" name) = Ok r ∧ labelled (cr_meta r) ∧ cr_rules r = rules.
Definition binding_ready (s : S) (name clusterRoleName : string) (subjects : list Subject) : Prop :=
  ∃ b, get_crb s (mkKey "" name) = Ok b ∧ labelled (crb_meta b) ∧ crb_roleRef b = role_ref clusterRoleName ∧ crb_subjects b = subjects.
(** The cluster gives the subjects of the binding what it says. *)
Definition granted (s : S) (b : RBACPolicyBinding) : Prop :=
  binding_ready s (bindingName_of b) (rbb_clusterRole b) (toSubjects (rbb_subjects b)) ∧
  (rbb_rules b ≠ [] → role_ready s (rbb_clusterRole b) (rbb_rules b)).

Lemma merge_merged l : mergeManagedLabels (mergeManagedLabels l) = mergeManagedLabels l.
Proof.
  unfold mergeManagedLabels. cbn [from_option id]. f_equal. rewrite (insert_insert_ne _ KCMManagedLabelKey ManagedByLabelKey) by done.
  by rewrite insert_insert_eq, insert_insert_eq.
Qed.
Lemma labelled_managed m : labelled m → is_managed m = true.
Proof.
  unfold labelled, is_managed, labels_of. intros <-. apply bool_decide_eq_true. cbn [mergeManagedLabels from_option id]. apply lookup_insert_eq.
Qed.

(** Roles under other names, and all bindings, are as they were. *)
Definition role_frame (name : string) (s s' : S) : Prop :=
  (∀ k, k ≠ mkKey "" name → get_role s' k = get_role s k) ∧ (∀ k, get_crb s' k = get_crb s k).
Definition crb_frame (name : string) (s s' : S) : Prop :=
  (∀ k, k ≠ mkKey "" name → get_crb s' k = get_crb s k) ∧ (∀ k, get_role s' k = get_role s k).

Lemma applyClusterRole_spec name rules s s' r : applyClusterRole cl name rules s = (s', r) →
  role_frame name s s' ∧ (is_ok r = true → role_ready s' name rules).
Proof.
  rewrite applyClusterRole_eq. destruct (get_role s (mkKey "" name)) as [role|e] eqn:Hg.
  - pose proof (kind_key _ _ _ Hg) as Hk. destruct (is_managed (cr_meta role)); cbn [negb]; [|by intros [= <- <-]].
    rewrite patchIfChanged_eq. set (new := mkClusterRole _ rules). assert (meta_key (cr_meta new) = mkKey "" name) as Hkn by done.
    destruct (patch_Data new role) as [data|e] eqn:Hd; [|by intros [= <- <-]]. case_bool_decide as E; intros [= <- <-].
    + subst data. apply patch_Data_empty in Hd as [Hl Hr]. split; [done|]. intros _. exists role. by repeat split.
    + split.
      { split; intros k; rewrite view_put; [intros Hne; apply kind_patch_frame; by rewrite Hkn|apply apart_patch]. }
      destruct (c_patch (view cl s) new role) as [c [e|]] eqn:Hp; [done|]. intros _. apply kind_patch in Hp as (y & Hy & Hl & Hr); [|by rewrite Hkn].
      rewrite Hkn in Hy. exists y. rewrite view_put. split; [done|]. split; [|done]. unfold labelled. rewrite Hl. apply merge_merged.
  - destruct (IsNotFound e); [|by intros [= <- <-]]. rewrite create_eq. intros [= <- <-].
    set (new := new_cluster_role name rules). assert (meta_key (cr_meta new) = mkKey "" name) as Hkn by done. split.
    { split; intros k; rewrite view_put; [intros Hne; apply kind_create_frame; by rewrite Hkn|apply apart_create]. }
    destruct (c_create (view cl s) new) as [c [e'|]] eqn:Hp; [done|]. intros _. apply kind_create in Hp as (y & Hy & Hl & Hr).
    rewrite Hkn in Hy. exists y. rewrite view_put. split; [done|]. split; [|done]. unfold labelled. rewrite Hl. apply merge_merged.
Qed.

Lemma create_binding_spec name role subjects s :
  let new := new_binding name role subjects in
  crb_frame name s (put cl (c_create (view cl s) new).1 s) ∧
  ((c_create (view cl s) new).2 = None → binding_ready (put cl (c_create (view cl s) new).1 s) name role subjects).
Proof.
  intros new. assert (meta_key (crb_meta new) = mkKey "" name) as Hkn by done. split.
  { split; intros k; rewrite view_put; [intros Hne; apply kind_create_frame; by rewrite Hkn|apply apart_create]. }
  destruct (c_create (view cl s) new) as [c [e'|]] eqn:Hp; [done|]. intros _. apply kind_create in Hp as (y & Hy & Hl & Hr).
  rewrite Hkn in Hy. injection Hr as Hr Hs. exists y. rewrite view_put. split; [done|]. split; [|done].
  unfold labelled. rewrite Hl. apply merge_merged.
Qed.

Lemma applyClusterRoleBinding_spec name role subjects s s' r : applyClusterRoleBinding cl name role subjects s = (s', r) →
  crb_frame name s s' ∧ (is_ok r = true → binding_ready s' name role subjects).
Proof.
  rewrite applyClusterRoleBinding_eq. destruct (get_crb s (mkKey "" name)) as [binding|e] eqn:Hg.
  - pose proof (kind_key _ _ _ Hg) as Hk. destruct (bool_decide _) eqn:Hrr; cbn [negb].
    + apply bool_decide_eq_true in Hrr. rewrite patchIfChanged_eq. set (new := mkClusterRoleBinding _ _ subjects).
      assert (meta_key (crb_meta new) = mkKey "" name) as Hkn by done.
      destruct (patch_Data new binding) as [data|e] eqn:Hd; [|by intros [= <- <-]]. case_bool_decide as E; intros [= <- <-].
      * subst data. apply patch_Data_empty in Hd as [Hl Hr]. injection Hr as Hr. split; [done|]. intros _. exists binding. by repeat split.
      * split.
        { split; intros k; rewrite view_put; [intros Hne; apply kind_patch_frame; by rewrite Hkn|apply apart_patch]. }
        destruct (c_patch (view cl s) new binding) as [c [e|]] eqn:Hp; [done|]. intros _. apply kind_patch in Hp as (y & Hy & Hl & Hr); [|by rewrite Hkn].
        rewrite Hkn in Hy. injection Hr as Hr Hs. exists y. rewrite view_put. split; [done|].
        split; [unfold labelled; rewrite Hl; apply merge_merged|]. by rewrite Hr.
    + rewrite recreate_eq. cbn zeta. set (s1 := put cl (c_delete (view cl s) binding).1 s).
      assert (crb_frame name s s1) as [Hf1 Hf1'].
      { split; intros k; unfold s1; rewrite view_put; [intros Hne; apply kind_delete_frame; by rewrite Hk|apply apart_delete]. }
      destruct (c_delete (view cl s) binding).2; [by intros [= <- <-]|]. intros [= <- <-].
      destruct (create_binding_spec name role subjects s1) as [[Hf2 Hf2'] Hok]. split.
      * split; intros k; [intros Hne; rewrite Hf2 by done; by apply Hf1|by rewrite Hf2', Hf1'].
      * destruct (c_create (view cl s1) _).2; [done|]. intros _. by apply Hok.
  - destruct (IsNotFound e); [|by intros [= <- <-]]. rewrite create_eq. intros [= <- <-].
    destruct (create_binding_spec name role subjects s) as [Hf Hok]. split; [done|].
    destruct (c_create (view cl s) _).2; [done|]. intros _. by apply Hok.
Qed.

(** The error reported for a binding that could not be applied. *)
Definition reports (b : RBACPolicyBinding) (e : gerror) : Prop :=
  ∃ e', e = ErrWrap ("applying ClusterRole " +:+ rbb_clusterRole b +:+ ": ") e' ∨
        e = ErrWrap ("applying ClusterRoleBinding " +:+ bindingName_of b +:+ ": ") e'.

(** Two bindings that do not write the same object. *)
Definition disjoint (b b' : RBACPolicyBinding) : Prop :=
  rbb_name b' ≠ rbb_name b ∧ (rbb_rules b' ≠ [] → rbb_rules b ≠ [] → rbb_clusterRole b' ≠ rbb_clusterRole b).

Lemma role_frame_granted s s' b b' :
  rbb_rules b ≠ [] → disjoint b b' → role_frame (rbb_clusterRole b) s s' → granted s b' → granted s' b'.
Proof.
  intros Hr [_ Hd] [Hf Hf'] [Hb Hrole]. split.
  - destruct Hb as (x & Hx & ?). exists x. by rewrite Hf'.
  - intros Hr'. destruct (Hrole Hr') as (x & Hx & ?). exists x. rewrite Hf; [done|]. intros [= E]. by apply (Hd Hr' Hr).
Qed.
Lemma crb_frame_granted s s' b b' :
  disjoint b b' → crb_frame (bindingName_of b) s s' → granted s b' → granted s' b'.
Proof.
  intros [Hn _] [Hf Hf'] [Hb Hrole]. split.
  - destruct Hb as (x & Hx & ?). exists x. rewrite Hf; [done|]. intros [= E%(inj (String.append _))]. by apply Hn.
  - intros Hr'. destruct (Hrole Hr') as (x & Hx & ?). exists x. by rewrite Hf'.
Qed.

Lemma apply_role_spec b s :
  let m := if bool_decide (0 < length (rbb_rules b))
           then try (applyClusterRole cl (rbb_clusterRole b) (rbb_rules b)) else mret (Ok false) in
  ∃ s' r, m s = (s', Ok r) ∧ (∀ b', disjoint b b' → granted s b' → granted s' b') ∧
    (is_ok r = true → rbb_rules b ≠ [] → role_ready s' (rbb_clusterRole b) (rbb_rules b)).
Proof.
  cbn zeta. case_bool_decide as Hr.
  - rewrite try_eq. destruct (applyClusterRole cl _ _ s) as [s' r] eqn:E. apply applyClusterRole_spec in E as [Hf Hok].
    exists s', r. split; [done|]. split; [|intros; by apply Hok]. intros b' Hd. apply (role_frame_granted _ _ b); try done.
    intros E. rewrite E in Hr. simpl in Hr. lia.
  - exists s, (Ok false). split_and!; [done|done|]. intros _ Hne. destruct (rbb_rules b); simpl in Hr; [done|lia].
Qed.

Lemma apply_binding_spec changed errs b s : ∃ s' ch' errs', apply_binding cl changed errs b s = (s', Ok (ch', errs')) ∧
  (∀ b', disjoint b b' → granted s b' → granted s' b') ∧
  ((granted s' b ∧ errs' = errs) ∨ ∃ e, errs' = errs ++ [e] ∧ reports b e).
Proof.
  unfold apply_binding. rewrite bind_eq. destruct (apply_role_spec b s) as (s1 & r & -> & Hkeep & Hrole).
  destruct r as [roleChanged|e].
  2: { eexists _, _, _. split; [done|]. split; [done|]. right. eexists. split; [done|]. exists e. by left. }
  rewrite bind_eq, try_eq. destruct (applyClusterRoleBinding cl _ _ _ s1) as [s2 rb] eqn:E. cbn [fst snd].
  apply applyClusterRoleBinding_spec in E as [Hf Hb].
  assert (∀ b', disjoint b b' → granted s b' → granted s2 b') as Hkeep2.
  { intros b' Hd Hg. apply (crb_frame_granted s1 _ b); auto. }
  destruct rb as [bindingChanged|e].
  - eexists _, _, _. split; [done|]. split; [done|]. left. split; [|done]. split; [by apply Hb|].
    intros Hr. destruct (Hrole eq_refl Hr) as (x & Hx & ?). exists x. by rewrite (proj2 Hf).
  - eexists _, _, _. split; [done|]. split; [done|]. right. eexists. split; [done|]. exists e. by right.
Qed.

Lemma apply_bindings_spec bs : ∀ changed errs s,
  (∀ i j b b', bs !! i = Some b → bs !! j = Some b' → i ≠ j → disjoint b b') →
  ∃ s' ch' new, apply_bindings cl changed errs bs s = (s', Ok (ch', errs ++ new)) ∧
    (∀ b', (∀ b, b ∈ bs → disjoint b b') → granted s b' → granted s' b') ∧
    ∀ b, b ∈ bs → granted s' b ∨ ∃ e, e ∈ new ∧ reports b e.
Proof.
  induction bs as [|b bs IH]; intros changed errs s Hd.
  { exists s, changed, []. rewrite app_nil_r. split_and!; [done|done|]. intros b Hb. by apply elem_of_nil in Hb. }
  cbn [apply_bindings]. rewrite bind_eq. destruct (apply_binding_spec changed errs b s) as (s1 & ch1 & errs1 & -> & Hk1 & Hb).
  cbn [fst snd]. destruct (IH ch1 errs1 s1) as (s2 & ch2 & new & -> & Hk2 & Hbs).
  { intros i j x x' Hx Hx' Hne. apply (Hd (Datatypes.S i) (Datatypes.S j) x x' Hx Hx'). lia. }
  assert (∀ x, x ∈ bs → disjoint x b) as Hdb.
  { intros x [j Hj]%list_elem_of_lookup. by apply (Hd (Datatypes.S j) 0 x b). }
  destruct Hb as [[Hg ->]|(e & -> & Hrep)].
  - exists s2, ch2, new. split_and!; [done| |].
    + intros b' Hb' Hg'. apply Hk2; [intros x Hx; apply Hb'; by right|]. apply Hk1; [|done]. apply Hb'. left.
    + intros x [->|Hx]%elem_of_cons; [left; by apply Hk2|]. by apply Hbs.
  - exists s2, ch2, (e :: new). rewrite <- app_assoc. split_and!; [done| |].
    + intros b' Hb' Hg'. apply Hk2; [intros x Hx; apply Hb'; by right|]. apply Hk1; [|done]. apply Hb'. left.
    + intros x [->|Hx]%elem_of_cons; [right; exists e; split; [left|done]|].
      destruct (Hbs x Hx) as [?|(e' & He' & ?)]; [by left|]. right. exists e'. split; [by right|done].
Qed.

(** A catalog that passed validation has no two bindings for one object. *)
Lemma valid_disjoint IsDNS1123Subdomain policy :
  ValidateRBACPolicy IsDNS1123Subdomain policy = None →
  ∀ i j b b', rbac_bindings policy !! i = Some b → rbac_bindings policy !! j = Some b' → i ≠ j → disjoint b b'.
Proof.
  intros (Hn & Hr & _)%ValidateRBACPolicy_correct i j b b' Hb Hb' Hij. split.
  - intros E. apply Hij. apply (NoDup_lookup _ i j (rbb_name b) Hn); rewrite list_lookup_fmap.
    + by rewrite Hb.
    + by rewrite Hb', <- E.
  - intros Hr' Hrb E. apply Hij. clear Hn Hij. revert i j Hb Hb'.
    induction (rbac_bindings policy) as [|x l IH]; intros i j Hb Hb'; [done|].
    unfold roles_with_rules, filterb in *. rewrite filter_cons in Hr.
    assert (∀ y k, l !! k = Some y → rbb_rules y ≠ [] → rbb_clusterRole y ∈ roles_with_rules l) as Hin.
    { intros y k Hy Hne. apply list_elem_of_fmap. exists y. split; [done|]. apply list_elem_of_filter.
      split; [|by eapply list_elem_of_lookup_2]. rewrite negb_true_iff, bool_decide_eq_false. by destruct (rbb_rules y). }
    destruct i as [|i], j as [|j]; simpl in Hb, Hb'; [done| | |].
    + injection Hb as ->. rewrite decide_True in Hr by (rewrite negb_true_iff, bool_decide_eq_false; by destruct (rbb_rules b)).
      apply NoDup_cons in Hr as [Hnin _]. destruct Hnin. rewrite <- E. by eapply Hin.
    + injection Hb' as ->. rewrite decide_True in Hr by (rewrite negb_true_iff, bool_decide_eq_false; by destruct (rbb_rules b')).
      apply NoDup_cons in Hr as [Hnin _]. destruct Hnin. rewrite E. by eapply Hin.
    + f_equal. apply IH; try done. case_decide; [by apply NoDup_cons in Hr as [_ Hr]|done].
Qed.

(** ** The claims *)

Definition in_catalog (s : S) (roles bindings : gset string) : Prop :=
  (∀ k r, get_role s k = Ok r → is_managed (cr_meta r) = true → om_finalizers (cr_meta r) = [] → om_name (cr_meta r) ∈ roles) ∧
  (∀ k b, get_crb s k = Ok b → is_managed (crb_meta b) = true → om_finalizers (crb_meta b) = [] → om_name (crb_meta b) ∈ bindings).

(** Nothing a catalog names goes, and nothing else managed stays. *)
Lemma Prune_spec roles bindings s s' ch :
  Prune cl roles bindings s = (s', Ok (ch, None)) → in_catalog s' roles bindings ∧
  (∀ k r, get_role s k = Ok r → om_name (cr_meta r) ∈ roles → get_role s' k = Ok r) ∧
  (∀ k b, get_crb s k = Ok b → om_name (crb_meta b) ∈ bindings → get_crb s' k = Ok b).
Proof.
  unfold Prune. rewrite bind_eq. destruct (pruneManaged_total cr_meta "ClusterRole" roles s) as (s1 & ch1 & err1 & E1).
  pose proof (λ k, pruneManaged_apart (B:=ClusterRoleBinding) cr_meta "ClusterRole" roles s k) as Ha1.
  rewrite E1 in Ha1 |- *. cbn [fst snd] in *. destruct err1 as [|]; [done|]. rewrite bind_eq.
  pose proof (λ k, pruneManaged_apart (B:=ClusterRole) crb_meta "ClusterRoleBinding" bindings s1 k) as Ha2.
  destruct (pruneManaged_total crb_meta "ClusterRoleBinding" bindings s1) as (s2 & ch2 & err2 & E2).
  rewrite E2 in Ha2 |- *. cbn [fst snd] in *. intros [= <- <- ->].
  eapply pruneManaged_spec in E1 as (Hk1 & He1 & Hg1); [|apply _]. eapply pruneManaged_spec in E2 as (Hk2 & He2 & Hg2); [|apply _].
  split_and!.
  - split; [|by apply Hg2]. intros k r. rewrite Ha2. by apply Hg1.
  - intros k r Hr Hn. rewrite Ha2. apply Hk1; [done|by right].
  - intros k b Hb Hn. apply Hk2; [by rewrite Ha1|by right].
Qed.

(** A cluster that grants everything already is left exactly as it is. *)
Lemma patch_in_place {T} `{!Patcher C T} (x y : T) s : y = x → patchIfChanged cl x y s = (s, Ok false).
Proof. intros ->. rewrite patchIfChanged_eq, patch_Data_same. done. Qed.

Lemma apply_binding_settled changed errs b s : granted s b → apply_binding cl changed errs b s = (s, Ok (changed, errs)).
Proof.
  intros [(x & Hx & Hl & Hr & Hs) Hrole]. unfold apply_binding. rewrite bind_eq.
  assert ((if bool_decide (0 < length (rbb_rules b)) then try (applyClusterRole cl (rbb_clusterRole b) (rbb_rules b)) else mret (Ok false)) s
    = (s, Ok (Ok false))) as ->.
  { case_bool_decide as Hne; [|done]. destruct Hrole as (r & Hg & Hlr & Hrules); [by intros E; rewrite E in Hne; simpl in Hne; lia|].
    rewrite try_eq, applyClusterRole_eq, Hg, (labelled_managed _ Hlr). cbn [negb].
    rewrite patch_in_place; [done|]. rewrite Hlr, <- Hrules. by destruct r as [[]]. }
  rewrite bind_eq, try_eq, applyClusterRoleBinding_eq, Hx, bool_decide_eq_true_2 by done. cbn [negb].
  rewrite patch_in_place; [cbn; by rewrite !orb_false_r|]. rewrite Hl, <- Hs. by destruct x as [[]].
Qed.
Lemma apply_bindings_settled changed errs bs s :
  (∀ b, b ∈ bs → granted s b) → apply_bindings cl changed errs bs s = (s, Ok (changed, errs)).
Proof.
  induction bs as [|b bs IH]; intros Hg; [done|]. cbn [apply_bindings]. rewrite bind_eq, apply_binding_settled by (apply Hg; left).
  apply IH. intros x Hx. apply Hg. by right.
Qed.

(** C7: whatever fails on the way, a ClusterRole that these functions did not
    create, a built-in one for instance, is neither changed nor deleted: not by
    applying a policy, and not by pruning. *)
Theorem foreign_roles_untouched policy roles bindings s k r :
  get_role s k = Ok r → is_managed (cr_meta r) = false →
  get_role (Sync cl policy s).1 k = Ok r ∧ get_role (Prune cl roles bindings s).1 k = Ok r.
Proof.
  intros Hr Hm. assert (∀ s s', rbac_step s s' → get_role s k = Ok r → get_role s' k = Ok r) as Hstep.
  { intros s1 s2 Hs Hk. assert (∀ x : ObjectMeta, role_free s1 (meta_key x) → k ≠ meta_key x) as Hne.
    { intros x Hf ->. specialize (Hf _ Hk). congruence. }
    destruct Hs; rewrite view_put.
    - rewrite kind_create_frame; auto.
    - rewrite kind_patch_frame; auto.
    - rewrite kind_delete_frame; auto.
    - by rewrite apart_create.
    - by rewrite apart_patch.
    - by rewrite apart_delete. }
  split; [apply (rtc_keeps _ _ _ Hstep (Sync_steps policy s) Hr)|apply (rtc_keeps _ _ _ Hstep (Prune_steps roles bindings s) Hr)].
Qed.

(** What a policy applied, and a cluster pruned after it, leave there. *)
Lemma Sync_Prune_granted IsDNS1123Subdomain policy s s1 roles bindings changed s2 pruned :
  ValidateRBACPolicy IsDNS1123Subdomain policy = None →
  Sync cl (Some policy) s = (s1, Ok (roles, bindings, changed, None)) →
  Prune cl roles bindings s1 = (s2, Ok (pruned, None)) →
  roles = desired_roles (rbac_bindings policy) ∧ bindings = desired_bindings (rbac_bindings policy) ∧
  (∀ b, b ∈ rbac_bindings policy → granted s2 b) ∧ in_catalog s2 roles bindings.
Proof.
  intros Hv Hs Hp. unfold Sync in Hs. rewrite bind_eq in Hs.
  destruct (apply_bindings_spec (rbac_bindings policy) false [] s (valid_disjoint _ _ Hv)) as (s1' & ch & new & E & _ & Hg).
  rewrite E in Hs. cbn [fst snd] in Hs. injection Hs as <- <- <- <- Herr.
  assert (new = []) as -> by (destruct new; done).
  apply Prune_spec in Hp as (Hcat & Hkr & Hkb). split_and!; [done|done| |done].
  intros b Hb. destruct (Hg b Hb) as [[(x & Hx & Hl & Hrest) Hrole]|(e & He & _)]; [|by apply elem_of_nil in He]. split.
  - exists x. split; [|done]. apply Hkb; [done|]. apply kind_key in Hx. injection Hx as _ ->.
    apply elem_of_list_to_set, list_elem_of_fmap. eauto.
  - intros Hne. destruct (Hrole Hne) as (r & Hr & ?). exists r. split; [|done]. apply Hkr; [done|].
    apply kind_key in Hr. injection Hr as _ ->. apply elem_of_list_to_set, list_elem_of_fmap. eauto.
Qed.

(** C8: once a valid policy has been applied and the cluster pruned, both
    without an error, every binding of the catalog is granted with exactly its
    subjects and rules, nothing else that is managed is left except what a
    finalizer holds, and applying the policy again writes nothing. *)
Theorem sync_converges IsDNS1123Subdomain policy s s1 roles bindings changed s2 pruned :
  ValidateRBACPolicy IsDNS1123Subdomain policy = None →
  Sync cl (Some policy) s = (s1, Ok (roles, bindings, changed, None)) →
  Prune cl roles bindings s1 = (s2, Ok (pruned, None)) →
  (∀ b, b ∈ rbac_bindings policy → granted s2 b) ∧
  in_catalog s2 (desired_roles (rbac_bindings policy)) (desired_bindings (rbac_bindings policy)) ∧
  Sync cl (Some policy) s2 = (s2, Ok (roles, bindings, false, None)).
Proof.
  intros Hv Hs Hp. destruct (Sync_Prune_granted _ _ _ _ _ _ _ _ _ Hv Hs Hp) as (-> & -> & Hg & Hcat).
  split_and!; [done|done|]. unfold Sync. rewrite bind_eq, apply_bindings_settled by done. done.
Qed.

(** A failing binding does not stop the others. *)
Lemma Sync_applies_the_rest IsDNS1123Subdomain policy s :
  ValidateRBACPolicy IsDNS1123Subdomain policy = None →
  ∃ s' changed errs, Sync cl (Some policy) s =
    (s', Ok (desired_roles (rbac_bindings policy), desired_bindings (rbac_bindings policy), changed, errors_Join (Some <$> errs))) ∧
    ∀ b, b ∈ rbac_bindings policy → granted s' b ∨ ∃ e, e ∈ errs ∧ reports b e.
Proof.
  intros Hv. destruct (apply_bindings_spec (rbac_bindings policy) false [] s (valid_disjoint _ _ Hv)) as (s' & ch & new & E & _ & Hg).
  exists s', ch, new. split; [|done]. unfold Sync. rewrite bind_eq, E. done.
Qed.
End properties.
