(* ===== verification/ClusterRbac.v ===== *)
(** * RBAC policies of a ClusterDeployment
    ([src/internal/controller/clusterdeployment_controller.go], from
    [jitteredRBACResync] to [childClientFor]).

    Granting in the child cluster what the RBACPolicy says, the durable record
    that something may have been granted there, and revoking it. *)

From Stdlib Require Import QArith.
From S2P Require Import Prelude GoStrings Api Kube Conditions ApiManagement Effects SveltosTypes ServiceBasics ClusterTypes AdmissionChecks RbacSync.
#[local] Open Scope nat_scope.

(** Durations are nanoseconds; [ctrl.Result] is its [RequeueAfter], zero for no
    requeue. *)
Definition minute : Z := 60000000000.
Definition rbacResyncInterval : Z := 5 * minute.
Definition childKubeconfigSecretKey := "value".

Section rbac.
Context {Handle C Scheme : Type} `{EqDecision Handle} `{!StatusConditions}.
Context `{!Getter C Secret} `{!Getter C CapiCluster} `{!Lister C ClusterDeployment} `{!StatusPatcher C ClusterDeployment}.
Context `{!Getter C ClusterRole} `{!Writer C ClusterRole} `{!Deleter C ClusterRole} `{!Patcher C ClusterRole} `{!Lister C ClusterRole}.
Context `{!Getter C ClusterRoleBinding} `{!Writer C ClusterRoleBinding} `{!Deleter C ClusterRoleBinding} `{!Patcher C ClusterRoleBinding} `{!Lister C ClusterRoleBinding}.
(** The clients: of the management cluster, built from a kubeconfig, and the
    scheme of one. *)
Variable MgmtClient : Handle.
Variable clientFactory : string → Scheme → result Handle.
Variable client_scheme : Handle → Scheme.
(** [wait.Jitter], and the time when freshness is checked and when a sync ends. *)
Variable wait_Jitter : Z → Q → Z.
Variables now synced_at : Z.
Variable defaultRequeueTime : Z.
Notation St := (rstate Handle C).

Definition jitteredRBACResync : Z := wait_Jitter (rbacResyncInterval * 9 / 10) (1 # 5).

(** ** The child cluster *)

Definition getPartialCapiCluster (cl : Handle) (cd : ClusterDeployment) : M St (option CapiCluster) :=
  got ← try (Get CapiCluster (client_of cl) (cd_key cd));
  match got with
  | Ok cluster => mret (Some cluster)
  | Err e => if IsNotFound e then mret None
             else fail (ErrWrap ("failed to get Cluster object " +:+ key_string (cd_key cd) +:+ ": ") e)
  end.

Definition capiControlPlaneInitialized (cl : Handle) (cd : ClusterDeployment) : M St bool :=
  got ← try (Get CapiCluster (client_of cl) (cd_key cd));
  match got with
  | Ok cluster => mret (default false (capi_controlPlaneInitialized cluster))
  | Err e => if IsNotFound e then mret true
             else fail (ErrWrap ("failed to get CAPI Cluster " +:+ key_string (cd_key cd) +:+ ": ") e)
  end.

(** The key of the Secret is only logged. *)
Definition childClientFor (rgnClient : Handle) (cd : ClusterDeployment) : M St (option Handle) :=
  got ← gets (λ s, GetChildClient clientFactory (at_ (rs_fleet s) rgnClient) (GetKubeconfigSecretKey (cd_key cd))
                     childKubeconfigSecretKey (client_scheme rgnClient));
  match got with
  | Ok cl => mret (Some cl)
  | Err e => if IsNotFound e then mret None else fail e
  end.

(** ** The record and the cache *)

Definition rbacSyncFresh (synced : gmap string rbacSyncState) (cd : ClusterDeployment) (policy : RBACPolicy) : Z * bool :=
  match synced !! om_uid (cd_meta cd) with
  | None => (0%Z, false)
  | Some state =>
      if negb (bool_decide (rss_uid state = om_uid (rbac_meta policy))) ||
         negb (bool_decide (rss_generation state = om_generation (rbac_meta policy))) then (0%Z, false)
      else let left := (rss_nextSyncAt state - now)%Z in (left, bool_decide (0 < left)%Z)
  end.

Definition forget_sync : M St unit :=
  modify (λ s, set_synced (delete (om_uid (cd_meta (cd_of s))) (rs_synced s)) s).

Definition sweepRBACSynced : M St unit :=
  cds ← wrapM "failed to list ClusterDeployments: " (ListObjects ClusterDeployment (client_of MgmtClient) "" (λ _, true));
  let live : gset string := list_to_set ((λ cd, om_uid (cd_meta cd)) <$> cds) in
  modify (λ s, set_synced (filter (λ p, p.1 ∈ live) (rs_synced s)) s).

Definition applied_message (policy : RBACPolicy) : string :=
  "RBACPolicy " +:+ om_name (rbac_meta policy) +:+ " generation " +:+ pretty (om_generation (rbac_meta policy)) +:+ " applied".
Definition setRBACPolicyApplied (policy : RBACPolicy) : M St unit :=
  upd_cd (λ cd, put_condition (mkCondition RBACPolicyReadyCondition CondTrue SucceededReason (applied_message policy)
                                (cd_generation cd) 0) cd).

Definition is_granted (cd : ClusterDeployment) : bool :=
  bool_decide (cdst_rbacPolicyGrant (cd_status cd) = RBACPolicyGrantedState).

Definition markRBACGranted : M St unit :=
  cd ← the_cd;
  if is_granted cd then mret tt
  else
    _ ← upd_cd (set_cd_grant RBACPolicyGrantedState);
    patched ← try (refresh_cd MgmtClient (λ c granted, c_status_patch c granted cd));
    match patched with
    | Ok _ => mret tt
    | Err e =>
        _ ← upd_cd (set_cd_grant "");
        let err := ErrWrap ("failed to record the RBAC grant on ClusterDeployment " +:+ key_string (cd_key cd) +:+ ": ") e in
        _ ← setCondition RBACPolicyReadyCondition FailedReason CondFalse (Some err);
        fail err
    end.

(** ** Revoking *)

Definition policy_not_found (cd : ClusterDeployment) : gerror :=
  ErrNew ("RBACPolicy " +:+ om_namespace (cd_meta cd) +:+ "/" +:+ cds_rbacPolicy (cd_spec cd) +:+ " not found").
Definition report_not_found (cd : ClusterDeployment) : M St unit :=
  setCondition RBACPolicyReadyCondition RBACPolicyNotFoundReason CondFalse (Some (policy_not_found cd)).

(** The last part: nothing of ours is left in the child cluster. *)
Definition clear_grant (cd : ClusterDeployment) : M St unit :=
  _ ← upd_cd (set_cd_grant "");
  _ ← forget_sync;
  if bool_decide (cds_rbacPolicy (cd_spec cd) = "") then upd_cd (remove_condition RBACPolicyReadyCondition)
  else report_not_found cd.

Definition revokeRBACPolicy : M St unit :=
  cd ← the_cd;
  rgnClient ← gets (λ s, sc_rgnClient (rs_scope s));
  let granted := is_granted cd in
  if negb (bool_decide (cds_rbacPolicy (cd_spec cd) = "")) && negb granted then report_not_found cd
  else if negb granted && negb (bool_decide (is_Some (cd_condition RBACPolicyReadyCondition cd))) then mret tt
  else
    childCl ← wrapM "failed to get child cluster client for RBAC cleanup: " (childClientFor rgnClient cd);
    match childCl with
    | None =>
        capiCluster ← wrapM "failed to check for CAPI Cluster: " (getPartialCapiCluster rgnClient cd);
        if granted && bool_decide (is_Some capiCluster)
        then fail (ErrNew "child cluster kubeconfig not available, cannot revoke RBAC objects yet")
        else clear_grant cd
    | Some childCl =>
        pruned ← Prune (client_of childCl) ∅ ∅;
        match pruned.2 with
        | Some e => fail (ErrWrap "failed to revoke RBAC objects: " e)
        | None => clear_grant cd
        end
    end.

(** ** Granting *)

(** From the record to the cache: the child cluster is reachable. *)
Definition sync_child (childCl : Handle) (policy : RBACPolicy) : M St Z :=
  _ ← markRBACGranted;
  synced ← Sync (client_of childCl) (Some policy);
  let '(desiredRoles, desiredBindings, _, syncErr) := synced in
  pruned ← Prune (client_of childCl) desiredRoles desiredBindings;
  match errors_Join [syncErr; pruned.2] with
  | Some joined =>
      let err := ErrWrap "failed to sync RBAC objects: " joined in
      _ ← setCondition RBACPolicyReadyCondition RBACPolicyPartiallyAppliedReason CondFalse (Some err);
      _ ← forget_sync;
      if negb (Retriable joined) then mret jitteredRBACResync else fail err
  | None =>
      _ ← setRBACPolicyApplied policy;
      let resyncIn := jitteredRBACResync in
      _ ← modify (λ s : St, set_synced (<[om_uid (cd_meta (cd_of s)) :=
              mkSyncState (synced_at + resyncIn) (om_uid (rbac_meta policy)) (om_generation (rbac_meta policy))]> (rs_synced s)) s);
      mret resyncIn
  end.

Definition ensureRBACPolicy : M St Z :=
  sc ← the_scope;
  match sc_rbacPolicy sc with
  | None => _ ← revokeRBACPolicy; mret 0%Z
  | Some policy =>
      cd ← the_cd;
      fresh ← gets (λ s : St, rbacSyncFresh (rs_synced s) cd policy);
      if (fresh.2 : bool) then _ ← setRBACPolicyApplied policy; mret fresh.1
      else
        childCl ← try (childClientFor (sc_rgnClient sc) cd);
        match childCl with
        | Err e =>
            let err := ErrWrap "failed to get child cluster client: " e in
            _ ← setCondition RBACPolicyReadyCondition FailedReason CondFalse (Some err);
            fail err
        | Ok None =>
            capiCluster ← wrapM "failed to check for CAPI Cluster: " (getPartialCapiCluster (sc_rgnClient sc) cd);
            match capiCluster with
            | None => mret 0%Z
            | Some _ =>
                _ ← setCondition RBACPolicyReadyCondition ProgressingReason CondUnknown
                      (Some (ErrNew "child cluster kubeconfig not ready yet"));
                mret defaultRequeueTime
            end
        | Ok (Some childCl) =>
            initialized ← capiControlPlaneInitialized (sc_rgnClient sc) cd;
            if negb (initialized : bool) then
              _ ← setCondition RBACPolicyReadyCondition ProgressingReason CondUnknown
                    (Some (ErrNew "child cluster control plane not initialized yet"));
              mret defaultRequeueTime
            else sync_child childCl policy
        end
  end.
End rbac.
