(* ===== verification/ClusterRbacSafe.v ===== *)
(** * Nothing granted is forgotten

    What [ClusterRbac] promises: at every moment of a reconcile, whatever fails
    and wherever it is interrupted, RBAC objects that may be live in the child
    cluster are on record in the stored status of the ClusterDeployment; and a
    ClusterDeployment that reports its policy applied has it applied. *)

From Stdlib Require Import QArith.
From S2P Require Import Prelude GoStrings Api Kube Conditions ApiManagement Effects SveltosTypes ServiceBasics ClusterTypes AdmissionChecks RbacSync ClusterRbac.
#[local] Open Scope nat_scope.

(** A status patch that succeeds stores the grant it carries, comes back as
    stored, and has nothing to do with RBAC objects. *)
Class GrantServer (C : Type) `{!Getter C ClusterDeployment} `{!StatusPatcher C ClusterDeployment}
    `{!Getter C ClusterRole} `{!Getter C ClusterRoleBinding} := {
  grant_patch (c : C) x base c' y : c_status_patch c x base = (c', y, None) →
    cd_key y = cd_key x ∧ c_get c' (cd_key x) = Ok y ∧ (is_granted x ≠ is_granted base → is_granted y = is_granted x);
  grant_patch_failed (c : C) x base c' y e : c_status_patch c x base = (c', y, Some e) → y = x;
  grant_patch_roles (c : C) x base k : c_get (T:=ClusterRole) (c_status_patch c x base).1.1 k = c_get c k;
  grant_patch_crbs (c : C) x base k : c_get (T:=ClusterRoleBinding) (c_status_patch c x base).1.1 k = c_get c k
}.

Ltac branch := match goal with |- context [(if ?b then _ else _) _] => destruct b end.

Section safe.
Context {Handle C Scheme : Type} `{EqDecision Handle} `{!StatusConditions}.
Context `{!Getter C Secret} `{!Getter C CapiCluster} `{!Getter C ClusterDeployment} `{!Lister C ClusterDeployment} `{!StatusPatcher C ClusterDeployment}.
Context `{!Getter C ClusterRole} `{!Writer C ClusterRole} `{!Deleter C ClusterRole} `{!Patcher C ClusterRole} `{!Lister C ClusterRole}.
Context `{!Getter C ClusterRoleBinding} `{!Writer C ClusterRoleBinding} `{!Deleter C ClusterRoleBinding} `{!Patcher C ClusterRoleBinding} `{!Lister C ClusterRoleBinding}.
Context `{!Kind C ClusterRole cr_meta cr_rules} `{!Kind C ClusterRoleBinding crb_meta (λ b, (crb_roleRef b, crb_subjects b))}.
Context `{!Apart C ClusterRole ClusterRoleBinding} `{!Apart C ClusterRoleBinding ClusterRole}.
Context `{!Apart C ClusterRole ClusterDeployment} `{!Apart C ClusterRoleBinding ClusterDeployment} `{!GrantServer C}.
Variable MgmtClient : Handle.
Variable clientFactory : string → Scheme → result Handle.
Variable client_scheme : Handle → Scheme.
Variable wait_Jitter : Z → Q → Z.
Variables now synced_at defaultRequeueTime : Z.
Notation St := (rstate Handle C).
Notation childClientFor := (childClientFor clientFactory client_scheme).
Notation markRBACGranted := (markRBACGranted MgmtClient).
Notation revokeRBACPolicy := (revokeRBACPolicy clientFactory client_scheme).
Notation sync_child := (sync_child MgmtClient wait_Jitter synced_at).
Notation ensureRBACPolicy := (ensureRBACPolicy MgmtClient clientFactory client_scheme wait_Jitter now synced_at defaultRequeueTime).

(** ** The invariant *)

(** No object of ours is left, except what a finalizer holds. *)
Definition clean (c : C) : Prop :=
  (∀ k r, c_get (T:=ClusterRole) c k = Ok r → is_managed (cr_meta r) = true → om_finalizers (cr_meta r) ≠ []) ∧
  (∀ k b, c_get (T:=ClusterRoleBinding) c k = Ok b → is_managed (crb_meta b) = true → om_finalizers (crb_meta b) ≠ []).
(** The grant is on record. *)
Definition marked (c : C) (k : ObjectKey) : Prop := ∃ cd, c_get (T:=ClusterDeployment) c k = Ok cd ∧ is_granted cd = true.
Definition safe (k : ObjectKey) (child : Handle) (at_ : Handle → C) : Prop := marked (at_ MgmtClient) k ∨ clean (at_ child).

Section one.
Variables (k : ObjectKey) (child : Handle).
Definition recorded (s : St) : Prop := always (safe k child) (rs_fleet s).
Definition marked_in (s : St) : Prop := marked (at_ (rs_fleet s) MgmtClient) k.
Definition clean_in (s : St) : Prop := clean (at_ (rs_fleet s) child).

(** Writing to one cluster. *)
Lemma marked_put h c (s : St) :
  (h = MgmtClient → marked (at_ (rs_fleet s) MgmtClient) k → marked c k) → marked_in s → marked_in (put_fleet h c s).
Proof.
  unfold marked_in. intros Hc Hm. cbn [put_fleet rs_fleet]. destruct (decide (MgmtClient = h)) as [E|E].
  - rewrite E, fleet_put_at. by apply Hc.
  - by rewrite fleet_put_other.
Qed.
Lemma recorded_put h c (s : St) : recorded s → safe k child (at_ (fleet_put h c (rs_fleet s))) → recorded (put_fleet h c s).
Proof. apply always_put. Qed.

(** What a write to the child keeps. *)
Definition upkeep (s s' : St) : Prop :=
  (marked_in s → marked_in s') ∧ rs_scope s' = rs_scope s ∧ rs_synced s' = rs_synced s.
Lemma put_upkeep c s : (marked (at_ (rs_fleet s) child) k → marked c k) → upkeep s (put_fleet child c s).
Proof. intros Hc. split; [|done]. apply marked_put. by intros ->. Qed.

Lemma rbac_step_upkeep s s' : rbac_step (client_of child) s s' → upkeep s s' ∧ (recorded s → marked_in s → recorded s').
Proof.
  intros Hstep.
  assert (∀ c, (marked (at_ (rs_fleet s) child) k → marked c k) →
    upkeep s (put_fleet child c s) ∧ (recorded s → marked_in s → recorded (put_fleet child c s))) as Hput.
  { intros c Hc. pose proof (put_upkeep c s Hc) as Hu. split; [done|]. intros Hr Hm. apply recorded_put; [done|].
    left. by apply Hu. }
  destruct Hstep; apply Hput; intros (cd' & Hg & ?); exists cd'; split; try done; cbn [view client_of].
  - by rewrite apart_create.
  - by rewrite apart_patch.
  - by rewrite apart_delete.
  - by rewrite apart_create.
  - by rewrite apart_patch.
  - by rewrite apart_delete.
Qed.

(** Deleting what is ours keeps a clean cluster clean. *)
Lemma delete_role_clean c (x : ClusterRole) : clean c → clean (c_delete c x).1.
Proof.
  intros [Hr Hb]. split.
  - intros k' r Hg. destruct (decide (k' = meta_key (cr_meta x))) as [->|Hne].
    + destruct (kind_delete_left (data:=cr_rules) _ _ _ Hg) as [?|Hg']; [done|by eapply Hr].
    + rewrite kind_delete_frame in Hg by done. by eapply Hr.
  - intros k' b. rewrite apart_delete. apply Hb.
Qed.
Lemma delete_crb_clean c (x : ClusterRoleBinding) : clean c → clean (c_delete c x).1.
Proof.
  intros [Hr Hb]. split.
  - intros k' r. rewrite apart_delete. apply Hr.
  - intros k' b Hg. destruct (decide (k' = meta_key (crb_meta x))) as [->|Hne].
    + destruct (kind_delete_left (data:=λ b, (crb_roleRef b, crb_subjects b)) _ _ _ Hg) as [?|Hg']; [done|by eapply Hb].
    + rewrite kind_delete_frame in Hg by done. by eapply Hb.
Qed.

Lemma prune_step_upkeep s s' : prune_step (client_of child) s s' →
  upkeep s s' ∧ (clean_in s → clean_in s') ∧ (recorded s → recorded s').
Proof.
  intros Hstep.
  assert (∀ c, (marked (at_ (rs_fleet s) child) k → marked c k) → (clean_in s → clean c) →
    upkeep s (put_fleet child c s) ∧ (clean_in s → clean_in (put_fleet child c s)) ∧
    (recorded s → recorded (put_fleet child c s))) as Hput.
  { intros c Hm Hc. pose proof (put_upkeep c s Hm) as Hu.
    assert (clean_in s → clean_in (put_fleet child c s)) as Hc'.
    { intros Hs. unfold clean_in. cbn [put_fleet rs_fleet]. rewrite fleet_put_at. by apply Hc. }
    split_and!; [done|done|]. intros Hr. apply recorded_put; [done|]. destruct Hr as [[Hs|Hs] _]; [left; by apply Hu|right; by apply Hc']. }
  destruct Hstep; apply Hput; cbn [view client_of].
  - intros (cd' & Hg & ?). exists cd'. by rewrite apart_delete.
  - apply delete_role_clean.
  - intros (cd' & Hg & ?). exists cd'. by rewrite apart_delete.
  - apply delete_crb_clean.
Qed.

Lemma upkeep_refl s : upkeep s s.
Proof. done. Qed.
Lemma upkeep_trans s1 s2 s3 : upkeep s1 s2 → upkeep s2 s3 → upkeep s1 s3.
Proof. intros (Hm1 & Hs1 & Hy1) (Hm2 & Hs2 & Hy2). split; [auto|]. split; congruence. Qed.

Lemma Sync_upkeep policy s : upkeep s (Sync (client_of child) policy s).1 ∧
  (recorded s → marked_in s → recorded (Sync (client_of child) policy s).1).
Proof.
  pose proof (Sync_steps (client_of child) policy s) as Hs. revert Hs.
  induction 1 as [|s1 s2 s3 Hstep _ [IHu IHr]]; [done|]. apply rbac_step_upkeep in Hstep as [Hu Hr]. split.
  - by eapply upkeep_trans.
  - intros Hrec Hm. apply IHr; [by apply Hr|by apply Hu].
Qed.
Lemma Prune_upkeep roles bindings s : upkeep s (Prune (client_of child) roles bindings s).1 ∧
  (clean_in s → clean_in (Prune (client_of child) roles bindings s).1) ∧
  (recorded s → recorded (Prune (client_of child) roles bindings s).1).
Proof.
  pose proof (Prune_deletes (client_of child) roles bindings s) as Hs. revert Hs.
  induction 1 as [|s1 s2 s3 Hstep _ (IHu & IHc & IHr)]; [done|]. apply prune_step_upkeep in Hstep as (Hu & Hc & Hr). split_and!.
  - by eapply upkeep_trans.
  - auto.
  - auto.
Qed.

Lemma Prune_total roles bindings s : ∃ s' ch err, Prune (client_of child) roles bindings s = (s', Ok (ch, err)).
Proof.
  unfold Prune. rewrite bind_eq. destruct (pruneManaged_total (client_of child) cr_meta "ClusterRole" roles s) as (s1 & ch1 & err1 & ->).
  cbn [fst snd]. destruct err1; [by eexists _, _, _|]. rewrite bind_eq.
  destruct (pruneManaged_total (client_of child) crb_meta "ClusterRoleBinding" bindings s1) as (s2 & ch2 & err2 & ->).
  by eexists _, _, _.
Qed.
Lemma Prune_all s s' ch : Prune (client_of child) ∅ ∅ s = (s', Ok (ch, None)) → clean_in s'.
Proof.
  intros Hp. destruct (Prune_spec (client_of child) ∅ ∅ s s' ch Hp) as ((Hr & Hb) & _). split.
  - intros k' r Hg Hm Hf. specialize (Hr k' r Hg Hm Hf). set_solver.
  - intros k' b Hg Hm Hf. specialize (Hb k' b Hg Hm Hf). set_solver.
Qed.

(** ** Through one reconcile *)

(** On record whatever came before, and what the ClusterDeployment in memory
    says of the grant is true: nothing granted means nothing left in the child,
    unless [gone] (the cluster itself is no more). *)
Definition settled (gone : Prop) (s : St) : Prop :=
  recorded s ∧ cd_key (cd_of s) = k ∧ if is_granted (cd_of s) then marked_in s else clean_in s ∨ gone.

Lemma settled_weaken (P Q : Prop) s : (P → Q) → settled P s → settled Q s.
Proof. intros Hpq (Hr & Hk & Hs). split_and!; [done|done|]. destruct (is_granted _); [done|]. destruct Hs; auto. Qed.

(** Changes of the ClusterDeployment that leave the grant alone. *)
Lemma settled_set_cd gone s cd :
  cd_key cd = cd_key (cd_of s) → is_granted cd = is_granted (cd_of s) → settled gone s → settled gone (set_cd cd s).
Proof. intros Hk Hg (Hr & Hk' & Hs). split_and!; [done| |]; cbn; [by rewrite Hk|by rewrite Hg]. Qed.
Lemma keeps_setCondition gone typ reason status err : keeps (settled gone) (setCondition typ reason status err).
Proof. apply keeps_modify. intros s. by apply settled_set_cd. Qed.
Lemma keeps_applied gone policy : keeps (settled gone) (setRBACPolicyApplied policy).
Proof. apply keeps_modify. intros s. by apply settled_set_cd. Qed.
Lemma keeps_forget gone : keeps (settled gone) forget_sync.
Proof. by apply keeps_modify. Qed.
Lemma settled_upkeep gone s s' : upkeep s s' → recorded s' → is_granted (cd_of s) = true → settled gone s → settled gone s'.
Proof.
  intros (Hm & Hs & _) Hr Hg (_ & Hk & Hsafe). unfold settled, cd_of in *. rewrite Hs, Hg in *.
  split_and!; [done|done|by apply Hm].
Qed.
Lemma not_granted_cleared cd : is_granted (set_cd_grant "" cd) = false.
Proof. done. Qed.

(** A write to the management cluster that leaves RBAC objects alone. *)
Lemma clean_mgmt c' s :
  (∀ k', c_get (T:=ClusterRole) c' k' = c_get (at_ (rs_fleet s) MgmtClient) k') →
  (∀ k', c_get (T:=ClusterRoleBinding) c' k' = c_get (at_ (rs_fleet s) MgmtClient) k') →
  clean_in s → clean_in (put_fleet MgmtClient c' s).
Proof.
  intros Hroles Hcrbs [Hr Hb]. unfold clean_in. cbn [put_fleet rs_fleet]. destruct (decide (child = MgmtClient)) as [E|E].
  - rewrite E in *. rewrite fleet_put_at. split; intros k' x; [rewrite Hroles; apply Hr|rewrite Hcrbs; apply Hb].
  - by rewrite fleet_put_other.
Qed.

(** The marker reaches the server before the call succeeds; when it does not,
    nothing is granted. *)
Lemma markRBACGranted_spec :
  triple (settled False) markRBACGranted (λ s r, settled False s ∧ (is_ok r = true → is_granted (cd_of s) = true)).
Proof.
  intros s Hs. unfold markRBACGranted. rewrite bind_eq. cbn [the_cd gets]. destruct (is_granted (cd_of s)) eqn:Hg; [done|].
  pose proof Hs as (Hr & Hk & Hsafe). rewrite Hg in Hsafe. destruct Hsafe as [Hclean|[]].
  rewrite bind_eq. cbn [upd_cd modify]. rewrite bind_eq, try_eq. unfold refresh_cd.
  set (cd1 := set_cd_grant RBACPolicyGrantedState (cd_of s)). set (c := at_ (rs_fleet s) MgmtClient).
  change (cd_of (set_cd cd1 s)) with cd1. change (at_ (rs_fleet (set_cd cd1 s)) MgmtClient) with c.
  pose proof (grant_patch_roles c cd1 (cd_of s)) as Hroles. pose proof (grant_patch_crbs c cd1 (cd_of s)) as Hcrbs.
  destruct (c_status_patch c cd1 (cd_of s)) as [[c' y] err] eqn:E. cbn [fst snd] in *.
  pose proof (clean_mgmt c' s Hroles Hcrbs Hclean) as Hclean'.
  assert (recorded (put_fleet MgmtClient c' s)) as Hrec by (apply recorded_put; [done|]; by right).
  destruct err as [e|]; cbn [err_result].
  - apply grant_patch_failed in E as ->. split; [|done]. split_and!; [exact Hrec|exact Hk|].
    left. exact Hclean'.
  - apply grant_patch in E as (Hky & Hy & Hgy). assert (is_granted y = true) as Hyg by (rewrite Hgy; [done|by rewrite Hg]).
    split; [|by intros _]. split_and!; [exact Hrec|exact (eq_trans Hky Hk)|]. cbn [mret M_ret cd_of set_cd set_scope rs_scope scope_put_cd sc_cd fst].
    rewrite Hyg. exists y. split; [|done]. change (rs_fleet _) with (rs_fleet (put_fleet MgmtClient c' s)).
    cbn [put_fleet rs_fleet]. rewrite fleet_put_at, <- Hk. exact Hy.
Qed.

Lemma sync_child_spec policy : triple (settled False) (sync_child child policy) (λ s _, settled False s).
Proof.
  unfold sync_child. eapply triple_bind; [apply markRBACGranted_spec| |by intros s e [? _]]. intros [].
  eapply (triple_bind _ _ _ (λ s _, settled False s ∧ is_granted (cd_of s) = true)).
  - intros s [Hs Hg]. specialize (Hg eq_refl). destruct (Sync_upkeep (Some policy) s) as [Hu Hr].
    pose proof Hs as (Hrec & _ & Hm). rewrite Hg in Hm. split; [apply (settled_upkeep _ s); auto|].
    destruct Hu as (_ & Hsc & _). unfold cd_of in *. by rewrite Hsc.
  - intros [[[roles bindings] ch] err]. eapply (triple_bind _ _ _ (λ s _, settled False s ∧ is_granted (cd_of s) = true)).
    + intros s [Hs Hg]. destruct (Prune_upkeep roles bindings s) as (Hu & _ & Hr).
      pose proof Hs as (Hrec & _ & _). split; [apply (settled_upkeep _ s); auto|].
      destruct Hu as (_ & Hsc & _). unfold cd_of in *. by rewrite Hsc.
    + intros pruned. eapply triple_weaken; [by intros s [Hs _]; exact Hs| |by intros s r Hs; exact Hs].
      destruct (errors_Join _) as [joined|].
      * apply keeps_bind; [apply keeps_setCondition|]. intros _. apply keeps_bind; [apply keeps_forget|]. intros _.
        destruct (negb _); [apply keeps_ret|apply keeps_fail].
      * apply keeps_bind; [apply keeps_applied|]. intros _. apply keeps_bind; [by apply keeps_modify|]. intros _. apply keeps_ret.
    + by intros s e [? _].
  - by intros s e [? _].
Qed.

(** The cache is none of the marker's business. *)
Lemma markRBACGranted_synced s : rs_synced (markRBACGranted s).1 = rs_synced s.
Proof.
  assert (keeps (λ s', rs_synced s' = rs_synced s) markRBACGranted) as Hk; [|by apply Hk].
  unfold ClusterRbac.markRBACGranted. apply keeps_bind; [apply keeps_gets|]. intros cd. destruct (is_granted cd); [apply keeps_ret|].
  apply keeps_bind; [by apply keeps_modify|]. intros _. apply keeps_bind.
  - apply keeps_try. intros s' Hs. unfold refresh_cd. by destruct (c_status_patch _ _ _) as [[c' y] err].
  - intros [[]|e]; [apply keeps_ret|]. apply keeps_bind; [by apply keeps_modify|]. intros _.
    apply keeps_bind; [by apply keeps_modify|]. intros _. apply keeps_fail.
Qed.

(** ** Looking only *)

Lemma childClientFor_pure rgn cd s : childClientFor rgn cd s = (s, (childClientFor rgn cd s).2).
Proof.
  unfold ClusterRbac.childClientFor. rewrite bind_eq. cbn [gets]. destruct (GetChildClient _ _ _ _ _) as [cl|e]; [done|].
  by destruct (IsNotFound e).
Qed.
Lemma getPartialCapiCluster_pure (rgn : Handle) cd (s : St) : getPartialCapiCluster rgn cd s = (s, (getPartialCapiCluster rgn cd s).2).
Proof.
  unfold getPartialCapiCluster. rewrite bind_eq, try_eq, Get_eq. cbn [fst snd].
  destruct (c_get _ _) as [x|e]; [done|]. by destruct (IsNotFound e).
Qed.
Lemma keeps_initialized (I : St → Prop) (rgn : Handle) cd : keeps I (capiControlPlaneInitialized rgn cd).
Proof. unfold capiControlPlaneInitialized. keep. Qed.
Lemma keeps_report gone cd : keeps (settled gone) (report_not_found cd).
Proof. apply keeps_setCondition. Qed.

(** The child cluster is no more: no kubeconfig and no CAPI cluster. *)
Definition gone (s : St) : Prop :=
  (childClientFor (sc_rgnClient (rs_scope s)) (cd_of s) s).2 = Ok None ∧
  (getPartialCapiCluster (sc_rgnClient (rs_scope s)) (cd_of s) s).2 = Ok None.
(** The client of the child cluster, if there is one, is [child]. *)
Definition reaches (s : St) : Prop :=
  ∀ h, (childClientFor (sc_rgnClient (rs_scope s)) (cd_of s) s).2 = Ok (Some h) → h = child.

(** Nothing is left there, or the cluster is gone: the grant can be dropped. *)
Lemma clear_grant_spec G cd :
  triple (λ s, recorded s ∧ cd_key (cd_of s) = k ∧ (clean_in s ∨ G)) (clear_grant cd) (λ s _, settled G s).
Proof.
  intros s (Hr & Hk & Hc). unfold clear_grant. rewrite bind_eq. cbn [upd_cd modify]. rewrite bind_eq. cbn [forget_sync modify].
  case_bool_decide.
  - by split_and!.
  - apply (keeps_report G cd). by split_and!.
Qed.

Lemma revoke_spec s0 : reaches s0 →
  triple (λ s, s = s0 ∧ settled False s) revokeRBACPolicy (λ s _, settled (gone s0) s).
Proof.
  intros Hreach s [-> Hs]. pose proof Hs as (Hr & Hk & Hsafe). unfold ClusterRbac.revokeRBACPolicy. rewrite bind_eq. cbn [the_cd gets].
  rewrite bind_eq. cbn [gets]. assert (settled (gone s0) s0) as Hs' by by eapply settled_weaken; [|exact Hs].
  branch; [by apply keeps_report|]. branch; [done|].
  rewrite bind_eq, wrap_eq, childClientFor_pure. cbn [fst snd].
  destruct (childClientFor _ _ s0).2 as [[h|]|e] eqn:Hcl; cbn [wrap_err].
  - apply Hreach in Hcl as ->. destruct (Prune_total ∅ ∅ s0) as (s1 & ch & err & E). rewrite bind_eq, E. cbn [snd].
    destruct (Prune_upkeep ∅ ∅ s0) as (Hu & Hc & Hrec). rewrite E in Hu, Hc, Hrec. cbn [fst] in *.
    assert (cd_of s1 = cd_of s0) as Hcd by (unfold cd_of; by rewrite (proj1 (proj2 Hu))).
    destruct err as [e|].
    + unfold settled. cbn. rewrite Hcd. split_and!; [by apply Hrec|done|]. destruct (is_granted (cd_of s0)); [by apply Hu|]. left. apply Hc. by destruct Hsafe.
    + apply clear_grant_spec. rewrite Hcd. split_and!; [by apply Hrec|done|]. left. by apply (Prune_all s0 _ ch).
  - rewrite bind_eq, wrap_eq, getPartialCapiCluster_pure. cbn [fst snd].
    destruct (getPartialCapiCluster _ _ s0).2 as [capi|e] eqn:Hcapi; [|done]. cbn [wrap_err].
    destruct (is_granted (cd_of s0) && bool_decide (is_Some capi)) eqn:Hb; [done|]. apply clear_grant_spec. split_and!; [done|done|].
    destruct (is_granted (cd_of s0)) eqn:Hg; [|by destruct Hsafe as [|[]]; left]. right. split; [done|].
    destruct capi; [by apply bool_decide_eq_false in Hb; destruct Hb|done].
  - done.
Qed.

(** C6: whatever fails on the way and wherever the reconcile is cut short, RBAC
    objects that may be live in the child cluster are on record: in every state
    the clusters go through, the stored ClusterDeployment carries the marker or
    nothing of ours is left in the child. At the end the ClusterDeployment in
    memory says no grant only if nothing is left there, or the cluster itself is
    gone. *)
Theorem rbac_grant_recorded s :
  reaches s → settled False s → settled (gone s) (ensureRBACPolicy s).1.
Proof.
  intros Hreach Hs. assert (settled (gone s) s) as Hs' by by eapply settled_weaken; [|exact Hs].
  unfold ClusterRbac.ensureRBACPolicy. rewrite bind_eq. cbn [the_scope gets]. destruct (sc_rbacPolicy (rs_scope s)) as [policy|].
  2: { rewrite bind_eq. pose proof (revoke_spec s Hreach s (conj eq_refl Hs)) as Hrev. destruct (revokeRBACPolicy s) as [s' [[]|e]]; exact Hrev. }
  rewrite bind_eq. cbn [the_cd gets]. rewrite bind_eq. cbn [gets]. branch.
  { rewrite bind_eq. by apply keeps_applied. }
  rewrite bind_eq, try_eq, childClientFor_pure. cbn [fst snd].
  destruct (childClientFor _ _ s).2 as [[h|]|e] eqn:Hcl.
  - apply Hreach in Hcl as ->. rewrite bind_eq. pose proof (keeps_initialized (λ s', s' = s) (sc_rgnClient (rs_scope s)) (cd_of s) s eq_refl) as Hi.
    destruct (capiControlPlaneInitialized _ _ s) as [s1 [b|e]]; cbn [fst] in Hi; subst s1; [|done]. destruct (negb b).
    + rewrite bind_eq. by apply keeps_setCondition.
    + eapply settled_weaken; [|by apply sync_child_spec]. done.
  - rewrite bind_eq, wrap_eq, getPartialCapiCluster_pure. cbn [fst snd].
    destruct (getPartialCapiCluster _ _ s).2 as [[capi|]|e]; cbn [wrap_err]; [|done..]. rewrite bind_eq. by apply keeps_setCondition.
  - rewrite bind_eq. by apply keeps_setCondition.
Qed.

(** ** What the condition says *)

Definition reports_ready (s : St) : Prop :=
  ∃ c, cd_condition RBACPolicyReadyCondition (cd_of s) = Some c ∧ cond_status c = CondTrue.

Lemma setCondition_not_ready reason status err s :
  status ≠ CondTrue → ¬ reports_ready (setCondition RBACPolicyReadyCondition reason status err s).1.
Proof.
  intros Hne (c & Hc & Ht). cbn [setCondition upd_cd modify fst] in Hc.
  change (cd_of _) with (cd_setCondition RBACPolicyReadyCondition reason status err (cd_of s)) in Hc.
  destruct (cd_condition_set (new_condition RBACPolicyReadyCondition reason status err (cd_of s)) (cd_of s)) as (c' & Hc' & Hs).
  change (cond_type _) with RBACPolicyReadyCondition in Hc'. unfold cd_setCondition in Hc. rewrite Hc in Hc'. injection Hc' as <-.
  destruct Hs as (_ & Hst & _). apply Hne. by rewrite <- Ht, Hst.
Qed.

End one.

(** What the cache then answers for. *)
Definition synced_state (policy : RBACPolicy) (resyncIn : Z) : rbacSyncState :=
  mkSyncState (synced_at + resyncIn) (om_uid (rbac_meta policy)) (om_generation (rbac_meta policy)).

(** C16: when a reconcile that reaches the child cluster, and is not within the
    interval a former one answers for, ends without an error and leaves the
    condition RBACPolicyReady true, then every binding of the policy is granted
    in the child with exactly its subjects and rules, nothing else of ours is left
    there except what a finalizer holds, and the cache answers for this policy and
    generation until the returned interval after the sync is over. In any other
    case nothing is put in the cache: it may only lose entries. *)
Theorem rbac_ready_means_granted child IsDNS1123Subdomain policy s s' r :
  sc_rbacPolicy (rs_scope s) = Some policy → ValidateRBACPolicy IsDNS1123Subdomain policy = None →
  (rbacSyncFresh now (rs_synced s) (cd_of s) policy).2 = false →
  (childClientFor (sc_rgnClient (rs_scope s)) (cd_of s) s).2 = Ok (Some child) →
  ensureRBACPolicy s = (s', r) →
  (∃ resyncIn, r = Ok resyncIn ∧ reports_ready s' ∧
     (∀ b, b ∈ rbac_bindings policy → granted (client_of child) s' b) ∧
     in_catalog (client_of child) s' (desired_roles (rbac_bindings policy)) (desired_bindings (rbac_bindings policy)) ∧
     rs_synced s' = <[om_uid (cd_meta (cd_of s')) := synced_state policy resyncIn]> (rs_synced s)) ∨
  ((∀ resyncIn, r = Ok resyncIn → ¬ reports_ready s') ∧ rs_synced s' ⊆ rs_synced s).
Proof.
  intros Hp Hv Hf Hcl. unfold ClusterRbac.ensureRBACPolicy. rewrite bind_eq. cbn [the_scope gets]. rewrite Hp, bind_eq.
  cbn [the_cd gets]. rewrite bind_eq. cbn [gets]. rewrite Hf, bind_eq, try_eq, childClientFor_pure. cbn [fst snd]. rewrite Hcl, bind_eq.
  pose proof (keeps_initialized (λ s', s' = s) (sc_rgnClient (rs_scope s)) (cd_of s) s eq_refl) as Hi.
  destruct (capiControlPlaneInitialized _ _ s) as [s1 [b|e]]; cbn [fst] in Hi; subst s1; [|intros [= <- <-]; by right]. branch.
  { rewrite bind_eq. intros [= <- <-]. right. split; [|done]. intros z _ Hready.
    by eapply (setCondition_not_ready ProgressingReason CondUnknown _ s) in Hready. }
  unfold ClusterRbac.sync_child. rewrite bind_eq. pose proof (markRBACGranted_synced s) as Hy1.
  destruct (markRBACGranted s) as [s1 [[]|e]]; cbn [fst] in Hy1; [|intros [= <- <-]; right; by rewrite Hy1].
  rewrite bind_eq. destruct (Sync_upkeep (mkKey "" "") child (Some policy) s1) as ((_ & _ & Hy2) & _).
  destruct (Sync (client_of child) (Some policy) s1) as [s2 [[[[roles bindings] ch] syncErr]|e]] eqn:Hsync; cbn [fst] in Hy2.
  2: { intros [= <- <-]. right. by rewrite Hy2, Hy1. }
  rewrite bind_eq. destruct (Prune_upkeep (mkKey "" "") child roles bindings s2) as ((_ & _ & Hy3) & _).
  destruct (Prune_total child roles bindings s2) as (s3 & ch3 & err & Hprune). rewrite Hprune in Hy3 |- *. cbn [fst snd] in *.
  rewrite Hy2, Hy1 in Hy3. destruct (errors_Join [syncErr; err]) as [joined|] eqn:Hj.
  - rewrite bind_eq. cbn [setCondition upd_cd modify]. rewrite bind_eq. cbn [forget_sync modify]. intros Hrun. right.
    assert (rs_synced s' ⊆ rs_synced s) as Hsub.
    { revert Hrun. branch; intros [= <- <-]; cbn; rewrite Hy3; apply delete_subseteq. }
    split; [|exact Hsub]. intros z -> Hready. revert Hrun. branch; [|done]. intros [= <- _].
    by eapply (setCondition_not_ready RBACPolicyPartiallyAppliedReason CondFalse _ s3) in Hready.
  - assert (syncErr = None ∧ err = None) as [-> ->] by (by destruct syncErr, err). intros Hrun. left.
    destruct (Sync_Prune_granted (client_of child) _ _ _ _ _ _ _ _ _ Hv Hsync Hprune) as (-> & -> & Hg & Hcat).
    revert Hrun. rewrite bind_eq. cbn [setRBACPolicyApplied upd_cd modify]. rewrite bind_eq. cbn [modify].
    intros [= <- <-]. eexists. split_and!; [reflexivity| |exact Hg|exact Hcat|cbn; by rewrite Hy3].
    destruct (cd_condition_set (mkCondition RBACPolicyReadyCondition CondTrue SucceededReason (applied_message policy) (cd_generation (cd_of s3)) 0) (cd_of s3))
      as (c & Hc & _ & Hst & _). exists c. by split.
Qed.
End safe.
