(* ===== verification/ClusterDelete.v ===== *)
(** * Deleting a ClusterDeployment
    ([src/internal/controller/clusterdeployment_controller.go], from
    [reconcileDelete] to [clusterCAPIMachinesExist]).

    What a ClusterDeployment brought about goes in an order, and its finalizer
    goes last. *)

From Stdlib Require Import QArith.
From S2P Require Import Prelude GoStrings Api Kube Conditions ApiManagement Effects SveltosTypes ServiceBasics ClusterTypes ContractVersions AdmissionChecks ChildCleanup HelmReleases ClusterStatus CapiConditions ClusterRbac.
#[local] Open Scope nat_scope.

Section delete.
Context {Handle C Scheme : Type} `{EqDecision Handle} `{!StatusConditions} `{!Finalizers} `{!CapiSummaries}.
Notation St := (rstate Handle C).
Context `{!Poller St}.
Context `{!Lister C Region} `{!Getter C Secret} `{!Lister C ClusterTemplateChain} `{!Refresher C ClusterDeployment}.
Context `{!Getter C CapiCluster} `{!Lister C CapiCluster} `{!Lister C Machine} `{!Patcher C InfraCluster}.
Context `{!Lister C ServiceSet} `{!Deleter C ServiceSet} `{!Getter C HelmRelease} `{!Deleter C HelmRelease}.
Context `{!Getter C ClusterDataSource} `{!Deleter C ClusterDataSource}.
(** The kinds of a child cluster. *)
Context `{!Lister C Namespace} `{!Lister C CoreService} `{!Deleter C CoreService} `{!AllDeleter C CoreService}.
Context `{!Lister C PersistentVolumeClaim} `{!Getter C PersistentVolumeClaim} `{!Deleter C PersistentVolumeClaim}.
Context `{!Lister C PersistentVolume} `{!Getter C PersistentVolume}.
Context `{!Lister C Pod} `{!Getter C Pod} `{!Writer C Pod} `{!Deleter C Pod}.
Context `{!ControllerGetter C} `{!Writer C ControllerObject} `{!Deleter C ControllerObject}.
Variable MgmtClient : Handle.
Variable clientFactory : string → Scheme → result Handle.
Variable client_scheme : Handle → Scheme.
(** [external.GetObjectFromContractVersionedRef] and [meta.IsNoMatchError]. *)
Variable GetObjectFromContractVersionedRef : C → string * string → string → result InfraCluster.
Variable IsNoMatchError : gerror → bool.
(** The label of Cluster API for the cluster of a machine. *)
Variable ClusterNameLabel : string.
Variable range : gmap string string → list (string * string).
(** Which of the two goroutines of the cleanup goes first. *)
Variable services_first : bool.
Variable IsDisabledValidationWH : bool.
Variable defaultRequeueTime : Z.
Notation childClientFor := (childClientFor clientFactory client_scheme).

(** ** The phases *)

Definition initial_deletion (cd : ClusterDeployment) : clusterDeletionState :=
  mkDeletionState false (negb (cds_cleanupOnDeletion (cd_spec cd))) false false (bool_decide (cds_dataSource (cd_spec cd) = "")).
Definition set_cloudResourcesDeleted (d : clusterDeletionState) : clusterDeletionState :=
  mkDeletionState (capiClusterDeleted d) true (helmReleaseDeleted d) (serviceSetsDeleted d) (clusterDataSourceDeleted d).
Definition set_helmReleaseDeleted (d : clusterDeletionState) : clusterDeletionState :=
  mkDeletionState (capiClusterDeleted d) (cloudResourcesDeleted d) true (serviceSetsDeleted d) (clusterDataSourceDeleted d).
Definition set_serviceSetsDeleted (d : clusterDeletionState) : clusterDeletionState :=
  mkDeletionState (capiClusterDeleted d) (cloudResourcesDeleted d) (helmReleaseDeleted d) true (clusterDataSourceDeleted d).
Definition set_clusterDataSourceDeleted (d : clusterDeletionState) : clusterDeletionState :=
  mkDeletionState (capiClusterDeleted d) (cloudResourcesDeleted d) (helmReleaseDeleted d) (serviceSetsDeleted d) true.

Definition clusterCAPIMachinesExist (rgnClient : Handle) (namespace clusterName : string) : M St bool :=
  machines ← gets (λ s, Limit 1 (c_list (T:=Machine) (at_ (rs_fleet s) rgnClient) namespace
                      (λ m, bool_decide (labels_of (mch_meta m) !! ClusterNameLabel = Some clusterName)))) ≫= lift;
  mret (negb (bool_decide (length machines = 0))).

Definition set_infra_finalizers (fs : list string) (i : InfraCluster) : InfraCluster :=
  mkInfra (inf_kind i) (set_finalizers fs (inf_meta i)).
Definition removeInfraRefFinalizer (rgnClient : Handle) (infraRef : InfraCluster) : M St bool :=
  let '(fs, finalizersUpdated) := RemoveFinalizer (om_finalizers (inf_meta infraRef)) BlockingFinalizer in
  if finalizersUpdated then
    _ ← wrapM ("failed to patch infrastructure reference " +:+ key_string (meta_key (inf_meta infraRef)) +:+ " (" +:+
               inf_kind infraRef +:+ "): ") (Effects.Patch (client_of rgnClient) (set_infra_finalizers fs infraRef) infraRef);
    mret true
  else mret false.

Definition releaseProviderCluster : M St unit :=
  sc ← the_scope;
  let cd := sc_cd sc in
  got ← try (Get CapiCluster (client_of (sc_rgnClient sc)) (cd_key cd));
  match got with
  | Err err => if IsNotFound err then mret tt
               else fail (ErrWrap ("failed to get CAPI Cluster " +:+ key_string (cd_key cd) +:+ ": ") err)
  | Ok capiCluster =>
      match capi_infrastructureRef capiCluster with
      | None => mret tt
      | Some ref =>
          infra ← gets (λ s, GetObjectFromContractVersionedRef (at_ (rs_fleet s) (sc_rgnClient sc)) ref (om_namespace (capi_meta capiCluster)));
          match infra with
          | Err err =>
              if IsNotFound err || IsNoMatchError err then mret tt
              else fail (ErrWrap ("failed to get infrastructure Cluster " +:+ om_namespace (capi_meta capiCluster) +:+ "/" +:+ ref.2 +:+
                           " (" +:+ ref.1 +:+ ") for ClusterDeployment " +:+ key_string (cd_key cd) +:+ ": ") err)
          | Ok infraRef =>
              found ← wrapM "checking if Machines still exist: "
                (clusterCAPIMachinesExist (sc_rgnClient sc) (om_namespace (cd_meta cd)) (om_name (capi_meta capiCluster)));
              if (found : bool) then mret tt
              else
                wrapM ("failed to remove finalizer from " +:+ key_string (meta_key (inf_meta infraRef)) +:+ " (" +:+ inf_kind infraRef +:+ "): ")
                  (removeInfraRefFinalizer (sc_rgnClient sc) infraRef) ≫= λ _, mret tt
          end
      end
  end.

(** The index function behind [OwnerRefIndexKey]. *)
Definition extractOwnerReferences (m : ObjectMeta) : list string := own_name <$> om_ownerReferences m.
Definition owned_sets (cd : ClusterDeployment) (c : C) : result (list ServiceSet) :=
  c_list (T:=ServiceSet) c (om_namespace (cd_meta cd)) (λ ss, bool_decide (om_name (cd_meta cd) ∈ extractOwnerReferences (sset_meta ss))).
Definition deleteServiceSets (cd : ClusterDeployment) : M St bool :=
  serviceSets ← gets (λ s, owned_sets cd (at_ (rs_fleet s) MgmtClient)) ≫= lift;
  if bool_decide (length serviceSets = 0) then mret false
  else iterM (Delete (client_of MgmtClient)) serviceSets ≫= λ _, mret true.

Definition remove_services (childCl : Handle) : M St unit :=
  wrapM "failed to deletecollection of Services: "
    (DeleteAllExceptAndWait (client_of childCl) csv_meta "/v1, Kind=Service" (Some (λ s, negb (bool_decide (csv_type s = "LoadBalancer"))))).
Definition remove_volumes (childCl : Handle) : M St unit :=
  wrapM "failed to delete PVCs: " (DeletePVCsAndOwnersAndWait (client_of childCl) range None).
(** The two goroutines, one after the other; an error of one cancels what the
    other has not begun. *)
Definition cleanup_group (childCl : Handle) : M St unit :=
  if services_first then remove_services childCl ≫= λ _, remove_volumes childCl
  else remove_volumes childCl ≫= λ _, remove_services childCl.

Definition deleteChildResources : M St bool :=
  sc ← the_scope;
  childCl ← wrapM ("failed to get child cluster of ClusterDeployment " +:+ key_string (cd_key (sc_cd sc)) +:+ ": ")
              (childClientFor (sc_rgnClient sc) (sc_cd sc));
  match childCl with
  | None => mret false
  | Some childCl =>
      waited ← try (cleanup_group childCl);
      match waited with
      | Ok _ => mret false
      | Err err => if errors_Is DeadlineExceeded err then mret true else fail err
      end
  end.

Definition deleteClusterDataSource : M St bool :=
  sc ← the_scope;
  let cd := sc_cd sc in
  if negb (bool_decide (is_Some (sc_kine sc))) || bool_decide (cds_dataSource (cd_spec cd) = "") then mret false
  else
    got ← try (Get ClusterDataSource (client_of MgmtClient) (cd_key cd));
    match got with
    | Ok cds =>
        _ ← ignore_not_found ("failed to delete ClusterDataSource " +:+ key_string (cd_key cd) +:+ ": ") (Delete (client_of MgmtClient) cds);
        mret true
    | Err err => if IsNotFound err then upd_deletion set_clusterDataSourceDeleted ≫= λ _, mret false
                 else fail (ErrWrap ("failed to get ClusterDataSource " +:+ key_string (cd_key cd) +:+ ": ") err)
    end.

(** [kcmv1.CloudResourcesDeletedCondition] is true already, or made so. *)
Definition cloud_cleanup (cd : ClusterDeployment) : M St bool :=
  if negb (cds_cleanupOnDeletion (cd_spec cd)) then mret false
  else
    cd ← the_cd;
    if match cd_condition CloudResourcesDeletedCondition cd with
       | Some c => bool_decide (cond_status c = CondTrue) | None => false end
    then upd_deletion set_cloudResourcesDeleted ≫= λ _, mret false
    else
      cleaned ← try deleteChildResources;
      match cleaned with
      | Err err => _ ← setCondition CloudResourcesDeletedCondition FailedReason CondFalse (Some err); fail err
      | Ok true =>
          _ ← setCondition CloudResourcesDeletedCondition ProgressingReason CondFalse (Some (ErrNew "waiting for cloud resources to be deleted"));
          mret true
      | Ok false => _ ← setCondition CloudResourcesDeletedCondition SucceededReason CondTrue None; mret false
      end.

(** The last part: nothing is left that the ClusterDeployment brought about. *)
Definition release_deployment (cd : ClusterDeployment) : M St Z :=
  let '(fs, removed) := RemoveFinalizer (om_finalizers (cd_meta cd)) ClusterDeploymentFinalizer in
  _ ← when removed (_ ← upd_cd (λ cd, set_cd_meta (set_finalizers fs (cd_meta cd)) cd);
                    wrapM ("failed to update clusterDeployment " +:+ key_string (cd_key cd) +:+ ": ") (refresh_cd MgmtClient c_update_refresh));
  _ ← forget_sync;
  mret 0%Z.

(** From the HelmRelease on. *)
Definition delete_rest (cd : ClusterDeployment) (ssExists : bool) : M St Z :=
  got ← try (Get HelmRelease (client_of MgmtClient) (cd_key cd));
  match got with
  | Ok _ => _ ← DeleteHelmRelease (client_of MgmtClient) (om_name (cd_meta cd)) (om_namespace (cd_meta cd)); mret defaultRequeueTime
  | Err err =>
      if negb (IsNotFound err) then fail err
      else
        _ ← upd_deletion set_helmReleaseDeleted;
        if ssExists then mret defaultRequeueTime
        else
          _ ← upd_deletion set_serviceSetsDeleted;
          cdsRequeue ← deleteClusterDataSource;
          if (cdsRequeue : bool) then mret defaultRequeueTime
          else
            sc ← the_scope;
            cluster ← getPartialCapiCluster (sc_rgnClient sc) cd;
            match cluster with
            | Some _ => mret defaultRequeueTime
            | None => the_cd ≫= release_deployment
            end
  end.

(** The body of [reconcileDelete], before what it defers. *)
Definition delete_phases : M St Z :=
  cd ← the_cd;
  _ ← (if IsDisabledValidationWH
       then gets (λ s, ClusterDeploymentDeletionAllowed (at_ (rs_fleet s) MgmtClient) cd) ≫= fail_if else mret tt);
  _ ← wrapM ("failed to aggregate conditions from CAPI Cluster for ClusterDeployment " +:+ key_string (cd_key cd) +:+ ": ") aggregateCapiConditions;
  _ ← releaseProviderCluster;
  ssExists ← wrapM ("failed to delete ServiceSets for cluster " +:+ key_string (cd_key cd) +:+ ": ") (deleteServiceSets cd);
  requeue ← cloud_cleanup cd;
  if (requeue : bool) then mret defaultRequeueTime else delete_rest cd ssExists.

(** ** What is reported *)

Definition deleting_phase (d : clusterDeletionState) (cd : ClusterDeployment) : string * string :=
  if negb (cloudResourcesDeleted d) then (WaitingForCloudResourcesDeletionReason, "Waiting for cloud resources to be deleted")
  else if negb (capiClusterDeleted d) then
    (WaitingForClusterDeletionReason, default "Waiting for CAPI Cluster to be deleted" (cond_message <$> cd_condition CAPIClusterSummaryCondition cd))
  else if negb (helmReleaseDeleted d) then (WaitingForHelmReleaseDeletionReason, "Waiting for HelmRelease to be deleted")
  else if negb (serviceSetsDeleted d) then (WaitingForServiceSetsDeletionReason, "Waiting for ServiceSets to be deleted")
  else if negb (clusterDataSourceDeleted d) then (WaitingForClusterDataSourceDeletionReason, "Waiting for ClusterDataSource to be deleted")
  else (DeletionCompletedReason, "Deletion has been completed").
Definition ensureDeletingCondition (err : option gerror) : M St unit :=
  _ ← upd_cd (λ cd, if bool_decide (is_Some (cd_condition DeletingCondition cd)) then cd
                    else cd_setCondition DeletingCondition DeletingReason CondTrue (Some (ErrNew "deletion has been requested")) cd);
  match err with
  | Some err => setCondition DeletingCondition FailedReason CondTrue (Some err)
  | None =>
      sc ← the_scope;
      let '(reason, msg) := deleting_phase (sc_deletion sc) (sc_cd sc) in
      upd_cd (λ cd, put_condition (mkCondition DeletingCondition CondTrue reason msg (cd_generation cd) 0) cd)
  end.

Definition result_err {A} (r : result A) : option gerror := match r with Ok _ => None | Err e => Some e end.

(** With an error the result is not looked at. *)
Definition reconcileDelete : M St Z :=
  oldCD ← the_cd;
  _ ← upd_deletion (λ _, initial_deletion oldCD);
  result ← try delete_phases;
  _ ← ensureDeletingCondition (result_err result);
  cd ← the_cd;
  err ← (if bool_decide (ClusterDeploymentFinalizer ∈ om_finalizers (cd_meta cd))
         then updated ← try (updateStatus MgmtClient oldCD None); mret (errors_Join [result_err result; result_err updated])
         else mret (result_err result));
  match err with
  | Some err => fail err
  | None => lift result
  end.
End delete.

(** ** Nothing is forgotten, and the finalizer goes last *)

Section order.
Context {Handle C Scheme : Type} `{EqDecision Handle} `{!StatusConditions} `{!Finalizers} `{!CapiSummaries}.
Notation St := (rstate Handle C).
Context `{!Poller St}.
Context `{!Lister C Region} `{!Getter C Secret} `{!Lister C ClusterTemplateChain} `{!Refresher C ClusterDeployment}.
Context `{!Getter C CapiCluster} `{!Lister C CapiCluster} `{!Lister C Machine} `{!Patcher C InfraCluster}.
Context `{!Lister C ServiceSet} `{!Deleter C ServiceSet} `{!Getter C HelmRelease} `{!Deleter C HelmRelease}.
Context `{!Getter C ClusterDataSource} `{!Deleter C ClusterDataSource}.
Context `{!Lister C Namespace} `{!Lister C CoreService} `{!Deleter C CoreService} `{!AllDeleter C CoreService}.
Context `{!Lister C PersistentVolumeClaim} `{!Getter C PersistentVolumeClaim} `{!Deleter C PersistentVolumeClaim}.
Context `{!Lister C PersistentVolume} `{!Getter C PersistentVolume}.
Context `{!Lister C Pod} `{!Getter C Pod} `{!Writer C Pod} `{!Deleter C Pod}.
Context `{!ControllerGetter C} `{!Writer C ControllerObject} `{!Deleter C ControllerObject}.
Variable MgmtClient : Handle.
Variable clientFactory : string → Scheme → result Handle.
Variable client_scheme : Handle → Scheme.
Variable GetObjectFromContractVersionedRef : C → string * string → string → result InfraCluster.
Variable IsNoMatchError : gerror → bool.
Variable ClusterNameLabel : string.
Variable range : gmap string string → list (string * string).
Variables services_first IsDisabledValidationWH : bool.
Variable defaultRequeueTime : Z.
(** While a call waits, the clusters change, not what the reconcile holds. *)
Hypothesis elapse_clusters : ∀ s s' : St, elapse s s' → rs_scope s' = rs_scope s.
Notation releaseProviderCluster := (releaseProviderCluster GetObjectFromContractVersionedRef IsNoMatchError ClusterNameLabel).
Notation deleteServiceSets := (deleteServiceSets MgmtClient).
Notation deleteChildResources := (deleteChildResources clientFactory client_scheme range services_first).
Notation deleteClusterDataSource := (deleteClusterDataSource MgmtClient).
Notation cloud_cleanup := (cloud_cleanup clientFactory client_scheme range services_first).
Notation delete_rest := (delete_rest MgmtClient defaultRequeueTime).
Notation reconcileDelete := (reconcileDelete MgmtClient clientFactory client_scheme GetObjectFromContractVersionedRef IsNoMatchError
  ClusterNameLabel range services_first IsDisabledValidationWH defaultRequeueTime).
Notation delete_phases := (delete_phases MgmtClient clientFactory client_scheme GetObjectFromContractVersionedRef IsNoMatchError
  ClusterNameLabel range services_first IsDisabledValidationWH defaultRequeueTime).

(** What no phase changes but the last. *)
Definition same_subject (s0 s : St) : Prop :=
  cd_meta (cd_of s) = cd_meta (cd_of s0) ∧ cd_spec (cd_of s) = cd_spec (cd_of s0) ∧
  sc_rgnClient (rs_scope s) = sc_rgnClient (rs_scope s0) ∧ sc_kine (rs_scope s) = sc_kine (rs_scope s0).
Lemma same_subject_scope s0 s s' : rs_scope s' = rs_scope s → same_subject s0 s → same_subject s0 s'.
Proof. unfold same_subject, cd_of. by intros ->. Qed.

Section from.
Variable s0 : St.
Notation I := (same_subject s0).

Lemma subject_write h (f : C → C * option gerror) : keeps I (call (client_of h) (effect f)).
Proof. by apply keeps_effect. Qed.
Lemma subject_cd f : (∀ cd, cd_meta (f cd) = cd_meta cd ∧ cd_spec (f cd) = cd_spec cd) → keeps I (upd_cd f).
Proof.
  intros Hf. apply keeps_modify. intros s (Hm & Hsp & Hrest). destruct (Hf (cd_of s)) as [Hm' Hsp'].
  split_and!; [by rewrite <- Hm, <- Hm'|by rewrite <- Hsp, <- Hsp'|apply Hrest..].
Qed.
Lemma subject_condition typ reason status err : keeps I (setCondition typ reason status err).
Proof. by apply subject_cd. Qed.
Lemma subject_deletion f : keeps I (upd_deletion f).
Proof. by apply keeps_modify. Qed.
Lemma subject_aggregate : keeps I aggregateCapiConditions.
Proof.
  intros s (Hm & Hsp & Hr & Hk). destruct (aggregate_look s) as (_ & _ & Hm' & Hsp' & Hr' & Hk' & _).
  unfold same_subject. by rewrite Hm', Hsp', Hr', Hk'.
Qed.
Lemma subject_release : keeps I releaseProviderCluster.
Proof.
  unfold ClusterDelete.releaseProviderCluster, clusterCAPIMachinesExist, removeInfraRefFinalizer. keep. apply subject_write.
Qed.
Lemma subject_sets cd : keeps I (deleteServiceSets cd).
Proof.
  unfold ClusterDelete.deleteServiceSets. keep. apply keeps_iterM. intros ss _. apply subject_write.
Qed.
Lemma subject_cleanup h : keeps I (cleanup_group range services_first h).
Proof.
  assert (keeps I (remove_services h)) as Hs.
  { apply keeps_wrap. intros s Hs. destruct (DeleteAllExceptAndWait _ _ _ _ s) as [s' r] eqn:E.
    apply DeleteAllExceptAndWait_spec in E as [Hsteps _]. cbn [fst]. clear r. induction Hsteps as [|x y z Hstep _ IH]; [done|]. apply IH.
    destruct Hstep as [s2 He|o Ho]; [|exact Hs]. eapply same_subject_scope; [by apply elapse_clusters|done]. }
  assert (keeps I (remove_volumes range h)) as Hv.
  { apply keeps_wrap. intros s Hi. destruct (cleanup_history (client_of h) range None s) as [past Hh].
    eapply history_keeps; [| |exact Hh|exact Hi]; [|by intros c x]. intros x y He Hx.
    eapply same_subject_scope; [by apply elapse_clusters|done]. }
  unfold cleanup_group. destruct services_first; keep.
Qed.
Lemma subject_child : keeps I deleteChildResources.
Proof.
  unfold ClusterDelete.deleteChildResources. apply keeps_bind; [apply keeps_gets|]. intros sc. apply keeps_bind.
  - apply keeps_wrap. unfold childClientFor. keep.
  - intros [h|]; [|apply keeps_ret]. apply keeps_bind; [apply keeps_try, subject_cleanup|]. intros [[]|e]; [apply keeps_ret|].
    destruct (errors_Is _ _); [apply keeps_ret|apply keeps_fail].
Qed.
Lemma subject_cloud cd : keeps I (cloud_cleanup cd).
Proof.
  unfold ClusterDelete.cloud_cleanup. destruct (negb _); [apply keeps_ret|]. apply keeps_bind; [apply keeps_gets|]. intros cd'.
  match goal with |- keeps _ (if ?b then _ else _) => destruct b end.
  - apply keeps_bind; [apply subject_deletion|]. intros _. apply keeps_ret.
  - apply keeps_bind; [apply keeps_try, subject_child|].
    intros [[|]|e]; (apply keeps_bind; [apply subject_condition|]; intros _; first [apply keeps_ret|apply keeps_fail]).
Qed.

(** ** What is gone when the finalizer goes *)

Notation cd0 := (cd_of s0).
Definition missing {T} (r : result T) : Prop := ∃ e, r = Err e ∧ IsNotFound e = true.
(** In this state nothing is left of the release, the data source and the cluster. *)
Definition parts_gone (s : St) : Prop :=
  missing (c_get (T:=HelmRelease) (at_ (rs_fleet s) MgmtClient) (cd_key cd0)) ∧
  (sc_kine (rs_scope s0) = None ∨ cds_dataSource (cd_spec cd0) = "" ∨
   missing (c_get (T:=ClusterDataSource) (at_ (rs_fleet s) MgmtClient) (cd_key cd0))) ∧
  missing (c_get (T:=CapiCluster) (at_ (rs_fleet s) (sc_rgnClient (rs_scope s0))) (cd_key cd0)).
(** Cloud resources need no cleanup, or were cleaned up, from one state to another. *)
Definition cloud_done (s1 s2 : St) : Prop :=
  (rs_fleet s2 = rs_fleet s1 ∧ (cds_cleanupOnDeletion (cd_spec cd0) = false ∨
     ∃ c, cd_condition CloudResourcesDeletedCondition (cd_of s1) = Some c ∧ cond_status c = CondTrue)) ∨
  (∃ s3, deleteChildResources s1 = (s3, Ok false) ∧ rs_fleet s2 = rs_fleet s3).

(** More is to be done: nothing is released, and the pass fails or comes back. *)
Definition comes_back (s' : St) (r : result Z) : Prop := I s' ∧ (r = Ok defaultRequeueTime ∨ ∃ e, r = Err e).
Lemma back_error s' e : I s' → comes_back s' (Err e).
Proof. split; eauto. Qed.
Lemma back_requeue s' : I s' → comes_back s' (Ok defaultRequeueTime).
Proof. split; eauto. Qed.

(** The data source: waited for, or gone. *)
Lemma data_source_outcome s : I s →
  (∃ e, (deleteClusterDataSource s).2 = Err e) ∨ (deleteClusterDataSource s).2 = Ok true ∨
  (∃ s', deleteClusterDataSource s = (s', Ok false) ∧ rs_fleet s' = rs_fleet s ∧
     (sc_kine (rs_scope s0) = None ∨ cds_dataSource (cd_spec cd0) = "" ∨
      missing (c_get (T:=ClusterDataSource) (at_ (rs_fleet s) MgmtClient) (cd_key cd0)))).
Proof.
  intros (Hm & Hsp & _ & Hk). unfold ClusterDelete.deleteClusterDataSource. rewrite bind_eq. cbn [the_scope gets].
  change (sc_cd (rs_scope s)) with (cd_of s).
  assert (cd_key cd0 = cd_key (cd_of s)) as -> by (unfold cd_key; by rewrite Hm). rewrite <- Hk, <- Hsp.
  destruct (negb (bool_decide (is_Some (sc_kine (rs_scope s)))) || bool_decide (cds_dataSource (cd_spec (cd_of s)) = "")) eqn:Hskip.
  { right; right. exists s. split_and!; [done|done|]. apply orb_true_iff in Hskip as [Hn|Hd]; bool_simpl; [left|right; left; done].
    by apply eq_None_not_Some. }
  rewrite bind_eq, try_eq, Get_eq. cbn [fst snd]. change (view (client_of MgmtClient) s) with (at_ (rs_fleet s) MgmtClient).
  destruct (c_get _ _) as [cds|e].
  - rewrite bind_eq. destruct (ignore_not_found _ _ s) as [s1 [[]|e]]; [by right; left|left; eauto].
  - destruct (IsNotFound e) eqn:He; [|left; eauto]. right; right. eexists. split_and!; [done|done|]. right; right. by exists e.
Qed.

Lemma subject_data_source : keeps I deleteClusterDataSource.
Proof.
  unfold ClusterDelete.deleteClusterDataSource. apply keeps_bind; [apply keeps_gets|]. intros sc.
  match goal with |- keeps _ (if ?b then _ else _) => destruct b end; [apply keeps_ret|].
  apply keeps_bind; [eauto with keeps|]. intros [cds|e].
  - apply keeps_bind; [apply keeps_ignore, subject_write|]. intros _. apply keeps_ret.
  - destruct (IsNotFound e); [|apply keeps_fail]. apply keeps_bind; [apply subject_deletion|]. intros _. apply keeps_ret.
Qed.

(** What releases the ClusterDeployment: everything of the last part is gone. *)
Definition released (s1 s' : St) (r : result Z) : Prop :=
  parts_gone s1 ∧ ∃ s2, rs_fleet s2 = rs_fleet s1 ∧ I s2 ∧ release_deployment MgmtClient (cd_of s2) s2 = (s', r).

Lemma getPartial_eq (rgn : Handle) cd (s : St) :
  getPartialCapiCluster rgn cd s =
  (s, match c_get (T:=CapiCluster) (at_ (rs_fleet s) rgn) (cd_key cd) with
      | Ok x => Ok (Some x)
      | Err e => if IsNotFound e then Ok None else Err (ErrWrap ("failed to get Cluster object " +:+ key_string (cd_key cd) +:+ ": ") e)
      end).
Proof.
  unfold getPartialCapiCluster. rewrite bind_eq, try_eq, Get_eq. cbn [fst snd]. change (view _ _) with (at_ (rs_fleet s) rgn).
  destruct (c_get _ _) as [x|e]; [done|]. by destruct (IsNotFound e).
Qed.

Lemma delete_rest_outcome ssExists s s' r : I s → delete_rest cd0 ssExists s = (s', r) →
  comes_back s' r ∨ (ssExists = false ∧ released s s' r).
Proof.
  intros Hs. unfold ClusterDelete.delete_rest. rewrite bind_eq, try_eq, Get_eq. cbn [fst snd].
  change (view (client_of MgmtClient) s) with (at_ (rs_fleet s) MgmtClient).
  destruct (c_get (T:=HelmRelease) _ _) as [hr|e] eqn:Hhr.
  { rewrite bind_eq. assert (keeps I (DeleteHelmRelease (client_of MgmtClient) (om_name (cd_meta cd0)) (om_namespace (cd_meta cd0)))) as Hk.
    { unfold DeleteHelmRelease. keep. apply subject_write. }
    specialize (Hk s Hs). destruct (DeleteHelmRelease _ _ _ s) as [s1 [[]|e]]; intros [= <- <-]; left; [by apply back_requeue|by apply back_error]. }
  destruct (IsNotFound e) eqn:He; cbn [negb]; [|intros [= <- <-]; left; by apply back_error].
  rewrite bind_eq. cbn [upd_deletion modify]. destruct ssExists; [intros [= <- <-]; left; by apply back_requeue|].
  rewrite bind_eq. cbn [upd_deletion modify]. rewrite bind_eq.
  match goal with |- context [ClusterDelete.deleteClusterDataSource _ ?st] => set (s1 := st) end.
  assert (I s1) as Hs1 by exact Hs. pose proof (subject_data_source s1 Hs1) as Hk.
  destruct (data_source_outcome s1 Hs1) as [(e' & Hd)|[Hd|(s2 & Hd & Hf & Hgone)]].
  - destruct (ClusterDelete.deleteClusterDataSource MgmtClient s1) as [s2 r2]. cbn [fst snd] in *. subst r2. intros [= <- <-]. left. by apply back_error.
  - destruct (ClusterDelete.deleteClusterDataSource MgmtClient s1) as [s2 r2]. cbn [fst snd] in *. subst r2. intros [= <- <-]. left. by apply back_requeue.
  - rewrite Hd in Hk |- *. cbn [fst] in Hk. rewrite bind_eq. cbn [the_scope gets]. rewrite bind_eq, getPartial_eq.
    assert (sc_rgnClient (rs_scope s2) = sc_rgnClient (rs_scope s0)) as -> by apply Hk. rewrite Hf.
    destruct (c_get (T:=CapiCluster) _ _) as [x|e2] eqn:Hc; [intros [= <- <-]; left; by apply back_requeue|].
    destruct (IsNotFound e2) eqn:He2; [|intros [= <- <-]; left; by apply back_error].
    rewrite bind_eq. cbn [the_cd gets]. intros Hrun. right. split; [done|]. split; [|by exists s2].
    split_and!; [by exists e|exact Hgone|by exists e2].
Qed.

Lemma cloud_outcome s : I s →
  (I (cloud_cleanup cd0 s).1 ∧ ((cloud_cleanup cd0 s).2 = Ok true ∨ ∃ e, (cloud_cleanup cd0 s).2 = Err e)) ∨
  (∃ s', cloud_cleanup cd0 s = (s', Ok false) ∧ I s' ∧ cloud_done s s').
Proof.
  intros Hs. pose proof (subject_cloud cd0 s Hs) as Hk. destruct (cloud_cleanup cd0 s) as [s' [[|]|e]] eqn:E; cbn [fst snd] in *.
  - left. split; [done|by left].
  - right. exists s'. split_and!; [done|done|]. unfold ClusterDelete.cloud_cleanup in E. destruct (cds_cleanupOnDeletion (cd_spec cd0)) eqn:Hc; cbn [negb] in E.
    2: { injection E as <-. left. split; [done|]. by left. }
    rewrite bind_eq in E. cbn [the_cd gets] in E.
    match type of E with (if ?b then _ else _) _ = _ => destruct b eqn:Hb end.
    + rewrite bind_eq in E. cbn [upd_deletion modify] in E. injection E as <-. left. split; [done|]. right.
      destruct (cd_condition _ _) as [c|]; [|done]. exists c. split; [done|]. by apply bool_decide_eq_true in Hb.
    + rewrite bind_eq, try_eq in E. destruct (deleteChildResources s) as [s3 [[|]|e]] eqn:Hd; cbn [fst snd] in E;
        rewrite bind_eq in E; cbn [setCondition upd_cd modify] in E; [done| |done].
      injection E as <-. right. by exists s3.
  - left. split; [done|]. right. by exists e.
Qed.
End from.

(** C5: a pass over a deletion that does not end it changes neither the metadata,
    so the finalizer stays, nor the spec, and fails or comes back after the usual
    time. One that does has found, in this order and in one and the same pass, no
    ServiceSet owned by that name; nothing to clean up in the cloud, or cleaned
    it up; and then, in the very state in which the finalizer is taken off, no
    HelmRelease, no ClusterDataSource and no CAPI cluster. *)
Theorem finalizer_goes_last s s' r : delete_phases s = (s', r) →
  comes_back s s' r ∨
  ∃ s1 s2, same_subject s s1 ∧ owned_sets (cd_of s) (at_ (rs_fleet s1) MgmtClient) = Ok [] ∧
    cloud_done s s1 s2 ∧ released s s2 s' r.
Proof.
  assert (same_subject s s) as Hs by by split_and!.
  unfold ClusterDelete.delete_phases. rewrite bind_eq. cbn [the_cd gets].
  match goal with |- (?m ≫= _) s = _ → _ => set (check := m) end. rewrite bind_eq.
  assert (check s = (s, (check s).2)) as ->.
  { unfold check. destruct IsDisabledValidationWH; [|done]. rewrite bind_eq. cbn [gets]. by destruct (ClusterDeploymentDeletionAllowed _ _). }
  destruct (check s).2 as [[]|e]; [|intros [= <- <-]; left; by apply back_error].
  rewrite bind_eq, wrap_eq. pose proof (subject_aggregate s s Hs) as Hs1. destruct (aggregateCapiConditions s) as [s1 [b|e]]; cbn [fst snd wrap_err] in *.
  2: { intros [= <- <-]. left. by apply back_error. }
  rewrite bind_eq. pose proof (subject_release s s1 Hs1) as Hs2. destruct (releaseProviderCluster s1) as [s2 [[]|e]]; cbn [fst] in *.
  2: { intros [= <- <-]. left. by apply back_error. }
  rewrite bind_eq, wrap_eq. pose proof (subject_sets s (cd_of s) s2 Hs2) as Hs3.
  assert (∀ s3, deleteServiceSets (cd_of s) s2 = (s3, Ok false) → s3 = s2 ∧ owned_sets (cd_of s) (at_ (rs_fleet s2) MgmtClient) = Ok []) as Hnone.
  { intros s3. unfold ClusterDelete.deleteServiceSets. rewrite bind_eq, gets_lift_eq. destruct (owned_sets _ _) as [[|ss l]|e]; [by intros [= <-]| |done].
    cbn [length]. rewrite bool_decide_eq_false_2 by done. rewrite bind_eq. by destruct (iterM _ _ s2) as [s4 [[]|e]]. }
  destruct (deleteServiceSets (cd_of s) s2) as [s3 [ssExists|e]]; cbn [fst snd wrap_err] in *.
  2: { intros [= <- <-]. left. by apply back_error. }
  rewrite bind_eq. destruct (cloud_outcome s s3 Hs3) as [Hback|(s4 & E & Hs4 & Hdone)].
  - destruct (cloud_cleanup (cd_of s) s3) as [s4 r4]; cbn [fst snd] in *.
    destruct Hback as [Hs4 [->|[e ->]]]; intros [= <- <-]; left; [by apply back_requeue|by apply back_error].
  - rewrite E. intros Hrun. apply (delete_rest_outcome s) in Hrun as [?|(-> & Hrel)]; [by left| |done].
    destruct (Hnone s3 eq_refl) as [-> Hnil]. right. by exists s2, s4.
Qed.

(** ** A deletion with nothing left ends *)

(** Nothing stands in the way of the deletion, in the clusters as they are. *)
Record nothing_left (s : St) : Prop := {
  nl_allowed : IsDisabledValidationWH = true → ClusterDeploymentDeletionAllowed (at_ (rs_fleet s) MgmtClient) (cd_of s) = None;
  nl_clusters : c_list (T:=CapiCluster) (at_ (rs_fleet s) (sc_rgnClient (rs_scope s))) (om_namespace (cd_meta (cd_of s)))
    (λ x, bool_decide (labels_of (capi_meta x) !! FluxHelmChartNameKey = Some (om_name (cd_meta (cd_of s))))) = Ok [];
  nl_sets : owned_sets (cd_of s) (at_ (rs_fleet s) MgmtClient) = Ok [];
  nl_cloud : cds_cleanupOnDeletion (cd_spec (cd_of s)) = false ∨
    ∃ c, cd_condition CloudResourcesDeletedCondition (cd_of s) = Some c ∧ cond_status c = CondTrue;
  nl_parts : parts_gone s s
}.

Lemma aggregate_none (s : St) : nothing_left s →
  ∃ s1, aggregateCapiConditions s = (s1, Ok false) ∧ rs_fleet s1 = rs_fleet s.
Proof.
  intros Hn. unfold aggregateCapiConditions. rewrite bind_eq. cbn [the_scope gets]. rewrite bind_eq, try_eq, gets_lift_eq. cbn [fst snd].
  unfold Limit. change (sc_cd (rs_scope s)) with (cd_of s). rewrite (nl_clusters _ Hn). cbn. eexists. split; [reflexivity|done].
Qed.

Lemma cloud_nothing (s s1 : St) : cds_cleanupOnDeletion (cd_spec (cd_of s)) = false ∨
    (∃ c, cd_condition CloudResourcesDeletedCondition (cd_of s1) = Some c ∧ cond_status c = CondTrue) →
  ∃ s2, cloud_cleanup (cd_of s) s1 = (s2, Ok false) ∧ rs_fleet s2 = rs_fleet s1 ∧ rs_synced s2 = rs_synced s1.
Proof.
  intros Hc. unfold ClusterDelete.cloud_cleanup. destruct (cds_cleanupOnDeletion (cd_spec (cd_of s))); [|by exists s1].
  destruct Hc as [|(c & Hc & Ht)]; [done|]. cbn [negb]. rewrite bind_eq. cbn [the_cd gets]. rewrite Hc, Ht, bool_decide_eq_true_2 by done.
  by eexists.
Qed.

Lemma data_source_gone (s0 s : St) : same_subject s0 s → rs_fleet s = rs_fleet s0 → parts_gone s0 s0 →
  ∃ s', deleteClusterDataSource s = (s', Ok false) ∧ rs_fleet s' = rs_fleet s ∧ rs_synced s' = rs_synced s.
Proof.
  intros (Hm & Hsp & _ & Hk) Hf (_ & Hd & _). unfold ClusterDelete.deleteClusterDataSource. rewrite bind_eq. cbn [the_scope gets].
  change (sc_cd (rs_scope s)) with (cd_of s). rewrite Hsp, Hk.
  destruct Hd as [Hn|[He|(e & He & Hnf)]].
  - rewrite Hn, bool_decide_eq_false_2 by (by intros []). by exists s.
  - rewrite He, (bool_decide_eq_true_2 ("" = "")), orb_true_r by done. by exists s.
  - destruct (_ || _); [by exists s|]. rewrite bind_eq, try_eq, Get_eq. cbn [fst snd].
    change (view (client_of MgmtClient) s) with (at_ (rs_fleet s) MgmtClient).
    unfold cd_key in He |- *. rewrite Hf, Hm, He, Hnf. by eexists.
Qed.

(** The API server answers an update with what was sent, as far as the deletion
    looks at it. *)
Definition answers_update (c : C) (key : ObjectKey) : Prop :=
  ∀ cd, cd_key cd = key → ∃ c' y, c_update_refresh c cd = (c', y, None) ∧
    om_finalizers (cd_meta y) = om_finalizers (cd_meta cd) ∧ om_uid (cd_meta y) = om_uid (cd_meta cd).
(** The ClusterDeployment without its finalizer. *)
Definition without_finalizer (m : ObjectMeta) : ObjectMeta :=
  set_finalizers (RemoveFinalizer (om_finalizers m) ClusterDeploymentFinalizer).1 m.

(** What the last part does: it sends that, forgets the cluster and is done. *)
Definition let_go (s0 : St) (s' : St) : Prop := ∃ cd c y,
  cd_meta cd = without_finalizer (cd_meta (cd_of s0)) ∧ cd_spec cd = cd_spec (cd_of s0) ∧
  c_update_refresh (at_ (rs_fleet s0) MgmtClient) cd = (c, y, None) ∧ rs_fleet s' = fleet_put MgmtClient c (rs_fleet s0) ∧
  cd_meta (cd_of s') = cd_meta y ∧ rs_synced s' = delete (om_uid (cd_meta (cd_of s0))) (rs_synced s0).

Lemma release_sends (s0 s : St) : same_subject s0 s → rs_fleet s = rs_fleet s0 → rs_synced s = rs_synced s0 →
  ClusterDeploymentFinalizer ∈ om_finalizers (cd_meta (cd_of s0)) →
  answers_update (at_ (rs_fleet s0) MgmtClient) (cd_key (cd_of s0)) →
  ∃ s', release_deployment MgmtClient (cd_of s) s = (s', Ok 0%Z) ∧ let_go s0 s' ∧
    ClusterDeploymentFinalizer ∉ om_finalizers (cd_meta (cd_of s')).
Proof.
  intros (Hm & Hsp & _) Hf Hy Hfin Hup. unfold release_deployment, let_go, without_finalizer. rewrite Hm.
  pose proof (remove_finalizer_gone (om_finalizers (cd_meta (cd_of s0))) ClusterDeploymentFinalizer) as Hgone.
  destruct (RemoveFinalizer _ _) as [fs removed] eqn:Hrm.
  assert (removed = true) as -> by (by apply remove_finalizer_changed in Hfin; rewrite Hrm in Hfin).
  rewrite bind_eq. cbn [when]. rewrite bind_eq. cbn [upd_cd modify]. rewrite wrap_eq. unfold refresh_cd.
  set (cd := set_cd_meta (set_finalizers fs (cd_meta (cd_of s))) (cd_of s)). change (cd_of (set_cd cd s)) with cd.
  change (rs_fleet (set_cd cd s)) with (rs_fleet s).
  destruct (Hup cd) as (c & y & Eu & Hyf & Hyu); [unfold cd, cd_key; cbn; by rewrite Hm|]. rewrite Hf, Eu. cbn [fst snd err_result wrap_err].
  rewrite bind_eq. cbn [forget_sync modify]. eexists. split; [reflexivity|]. split.
  - exists cd, c, y. split_and!; [cbn; by rewrite Hm|exact Hsp|exact Eu|cbn; by rewrite Hf|done|].
    cbn. rewrite Hy, <- Hm. f_equal. exact Hyu.
  - cbn. rewrite Hyf. exact Hgone.
Qed.

Lemma phases_complete (s : St) : nothing_left s → ClusterDeploymentFinalizer ∈ om_finalizers (cd_meta (cd_of s)) →
  answers_update (at_ (rs_fleet s) MgmtClient) (cd_key (cd_of s)) →
  ∃ s', delete_phases s = (s', Ok 0%Z) ∧ let_go s s' ∧ ClusterDeploymentFinalizer ∉ om_finalizers (cd_meta (cd_of s')).
Proof.
  intros Hn Hfin Hup. assert (same_subject s s) as Hs by by split_and!.
  unfold ClusterDelete.delete_phases. rewrite bind_eq. cbn [the_cd gets].
  match goal with |- context [(?m ≫= _) s] => set (check := m) end. rewrite bind_eq.
  assert (check s = (s, Ok tt)) as ->.
  { unfold check. destruct IsDisabledValidationWH eqn:E; [|done]. rewrite bind_eq. cbn [gets]. by rewrite (nl_allowed _ Hn E). }
  rewrite bind_eq, wrap_eq. destruct (aggregate_none s Hn) as (s1 & E1 & Hf1).
  pose proof (subject_aggregate s s Hs) as Hs1. destruct (aggregate_look s) as (_ & Hy1 & _ & _ & _ & _ & Hcond). rewrite E1 in Hs1, Hy1, Hcond |- *.
  cbn [fst snd wrap_err] in *. destruct (nl_parts _ Hn) as (Hhr & Hds & (ec & Hcapi & Hcnf)).
  assert (releaseProviderCluster s1 = (s1, Ok tt)) as Hrel.
  { unfold ClusterDelete.releaseProviderCluster. rewrite bind_eq. cbn [the_scope gets]. rewrite bind_eq, try_eq, Get_eq. cbn [fst snd].
    destruct Hs1 as (Hm & _ & Hr & _). change (sc_cd (rs_scope s1)) with (cd_of s1).
    change (view (client_of ?h) s1) with (at_ (rs_fleet s1) h). unfold cd_key in Hcapi |- *. by rewrite Hf1, Hr, Hm, Hcapi, Hcnf. }
  rewrite bind_eq, Hrel, bind_eq, wrap_eq.
  assert (deleteServiceSets (cd_of s) s1 = (s1, Ok false)) as ->.
  { unfold ClusterDelete.deleteServiceSets. by rewrite bind_eq, gets_lift_eq, Hf1, (nl_sets _ Hn). }
  cbn [fst snd wrap_err]. rewrite bind_eq. destruct (cloud_nothing s s1) as (s2 & E2 & Hf2 & Hy2).
  { destruct (nl_cloud _ Hn) as [?|(c & Hc & ?)]; [by left|]. right. exists c. by rewrite Hcond. }
  pose proof (subject_cloud s (cd_of s) s1 Hs1) as Hs2. rewrite E2 in Hs2 |- *. cbn [fst] in Hs2.
  unfold ClusterDelete.delete_rest. rewrite bind_eq, try_eq, Get_eq. cbn [fst snd].
  change (view (client_of MgmtClient) s2) with (at_ (rs_fleet s2) MgmtClient). destruct Hhr as (eh & Hhr & Hhnf).
  rewrite Hf2, Hf1, Hhr, Hhnf. cbn [negb]. rewrite bind_eq. cbn [upd_deletion modify]. rewrite bind_eq. cbn [upd_deletion modify]. rewrite bind_eq.
  match goal with |- context [ClusterDelete.deleteClusterDataSource _ ?st] => set (s3 := st) end.
  assert (same_subject s s3) as Hs3 by exact Hs2. pose proof (subject_data_source s s3 Hs3) as Hs4.
  assert (rs_fleet s3 = rs_fleet s) as Hf3 by (rewrite <- Hf1; exact Hf2).
  destruct (data_source_gone s s3 Hs3 Hf3 (nl_parts _ Hn)) as (s4 & E4 & Hf4 & Hy4). rewrite E4 in Hs4 |- *. cbn [fst] in Hs4.
  rewrite bind_eq. cbn [the_scope gets]. rewrite bind_eq, getPartial_eq.
  assert (sc_rgnClient (rs_scope s4) = sc_rgnClient (rs_scope s)) as -> by apply Hs4.
  rewrite Hf4, Hf3, Hcapi, Hcnf, bind_eq. cbn [the_cd gets].
  apply (release_sends s s4); [done|by rewrite Hf4| |done|done].
  rewrite Hy4. change (rs_synced s3) with (rs_synced s2). by rewrite Hy2, Hy1.
Qed.
Lemma deleting_told (s : St) : ∃ s', ensureDeletingCondition None s = (s', Ok tt) ∧
  rs_fleet s' = rs_fleet s ∧ rs_synced s' = rs_synced s ∧ cd_meta (cd_of s') = cd_meta (cd_of s).
Proof.
  unfold ensureDeletingCondition. rewrite bind_eq. cbn [upd_cd modify]. rewrite bind_eq. cbn [the_scope gets].
  match goal with |- context [sc_deletion ?sc] => destruct (deleting_phase (sc_deletion sc) (sc_cd sc)) as [reason msg] end.
  eexists. split_and!; [reflexivity|done|done|]. cbn. by destruct (cd_condition _ _).
Qed.

(** C17: when nothing of it is left, one reconcile of the deletion ends it: it
    does not fail, asks for no requeue, sends the ClusterDeployment without the
    finalizer and otherwise as it is, writes nothing else, and forgets what the
    cache knows of the cluster. *)
Theorem deletion_completes (s : St) : nothing_left s →
  ClusterDeploymentFinalizer ∈ om_finalizers (cd_meta (cd_of s)) →
  answers_update (at_ (rs_fleet s) MgmtClient) (cd_key (cd_of s)) →
  ∃ s' cd c y, reconcileDelete s = (s', Ok 0%Z) ∧
    cd_meta cd = without_finalizer (cd_meta (cd_of s)) ∧ cd_spec cd = cd_spec (cd_of s) ∧
    c_update_refresh (at_ (rs_fleet s) MgmtClient) cd = (c, y, None) ∧ rs_fleet s' = fleet_put MgmtClient c (rs_fleet s) ∧
    rs_synced s' = delete (om_uid (cd_meta (cd_of s))) (rs_synced s).
Proof.
  intros Hn Hfin Hup. unfold ClusterDelete.reconcileDelete. rewrite bind_eq. cbn [the_cd gets]. rewrite bind_eq. cbn [upd_deletion modify].
  rewrite bind_eq, try_eq. match goal with |- context [ClusterDelete.delete_phases _ _ _ _ _ _ _ _ _ _ ?st] => set (s1 := st) end.
  destruct (phases_complete s1) as (s2 & E & (cd & c & y & Hm & Hsp & Hc & Hf & Hy & Hsy) & Hgone); [by destruct Hn|done|done|].
  rewrite E. cbn [fst snd result_err]. destruct (deleting_told s2) as (s3 & E3 & Hf3 & Hsy3 & Hm3). rewrite bind_eq, E3, bind_eq. cbn [the_cd gets].
  rewrite Hm3, bool_decide_eq_false_2 by done. rewrite bind_eq. exists s3, cd, c, y.
  split_and!; [done|done|done|done|by rewrite Hf3|by rewrite Hsy3].
Qed.
End order.
