(* ===== verification/ClusterValues.v ===== *)
(** * Helm values of a ClusterDeployment
    ([src/api/v1beta1/clusterdeployment_types.go]: [HelmValues], [SetHelmValues],
    [AddHelmValues]; [src/internal/controller/clusterdeployment_controller.go]:
    [fillHelmValues] and the parts it is made of).

    The configuration of a cluster is a JSON object; the controller adds what
    the chart needs to know of the objects the ClusterDeployment refers to. *)

From S2P Require Import Prelude GoStrings Api Kube Conditions ApiManagement Effects SveltosTypes ServiceBasics ClusterTypes.

(** ** JSON *)

(** A value of [encoding/json] as an [any]; numbers as their text. *)
Inductive json :=
  | JNull | JBool (b : bool) | JNumber (n : string) | JString (s : string)
  | JArray (l : list json) | JObject (m : gmap string json).
Abbreviation values := (gmap string json).

(** [json.Marshal] of a map, the value a raw message stands for, and decoding a
    map: [null] gives none. *)
Class Json := {
  json_Marshal_map : values → result string;
  json_RawMessage : string → json;
  json_Unmarshal_map : string → result (option values);
  yaml_Unmarshal_map : string → result (option values)
}.

(** ** The values in the configuration *)

Definition bytes_null := "null".

Section helm_values.
Context `{!Json}.

Definition HelmValues (cd : ClusterDeployment) : result values :=
  match cds_config (cd_spec cd) with
  | None => Ok ∅
  | Some raw =>
      let raw := TrimSpace raw in
      if bool_decide (String.length raw = 0) || bool_decide (raw = bytes_null) then Ok ∅
      else
        values ← wrap_err ("error unmarshalling helm values for ClusterDeployment " +:+ om_namespace (cd_meta cd) +:+ "/" +:+ om_name (cd_meta cd) +:+ ": ")
          (yaml_Unmarshal_map raw);
        Ok (default ∅ values)
  end.

(** The callers never pass a nil map. *)
Definition SetHelmValues (values : values) (cd : ClusterDeployment) : result ClusterDeployment :=
  b ← wrap_err ("error marshalling helm values for ClusterDeployment " +:+ om_namespace (cd_meta cd) +:+ "/" +:+ om_name (cd_meta cd) +:+
                " with ClusterTemplate " +:+ cds_template (cd_spec cd) +:+ ": ") (json_Marshal_map values);
  Ok (set_cd_spec (set_cds_config (Some b) (cd_spec cd)) cd).

Definition AddHelmValues (fn : values → result values) (cd : ClusterDeployment) : result ClusterDeployment :=
  values ← wrap_err "failed to get helm values: " (HelmValues cd);
  values ← wrap_err "failed to mutate helm values: " (fn values);
  wrap_err "failed to set helm values: " (SetHelmValues values cd).
End helm_values.

(** ** What the chart is told *)

Definition authConfigSecretKey := "config".
Definition auditPolicyConfigKey := "policy".
Definition getAuthConfigSecretName (cdName : string) : string := cdName +:+ "-auth-config".
Definition getAuditPolicyConfigMapName (cdName : string) : string := cdName +:+ "-audit-policy".

Definition configured_auth {Handle} (scope : clusterScope Handle) : option authConfig :=
  match sc_auth scope with
  | Some auth => if HasAuthenticationConfiguration (auth_clAuth auth) then Some auth else None
  | None => None
  end.

Definition jobject (l : list (string * json)) : json := JObject (list_to_map l).

Section fill.
Context {Handle : Type}.
Variables GlobalRegistry GlobalK0sURL K0sURLCertSecretName RegistryCertSecretName CldRegistryCredSecretName : string.

Definition auth_value (scope : clusterScope Handle) (auth : authConfig) : json :=
  let val := {[ "configSecret" := jobject [("name", JString (getAuthConfigSecretName (om_name (cd_meta (sc_cd scope)))));
                                           ("key", JString authConfigSecretKey); ("hash", JString (auth_hash auth))] ]} : values in
  JObject (match ca_anonymous (auth_clAuth auth) with Some _ => <["configWithAnon" := JBool true]> val | None => val end).
Definition fillClusterAuthenticationValues (scope : clusterScope Handle) (values : values) : ClusterValues.values :=
  match configured_auth scope with
  | None => values
  | Some auth => <["auth" := auth_value scope auth]> values
  end.

Definition policy_ref (scope : clusterScope Handle) (audit : auditConfig) : json :=
  jobject [("name", JString (getAuditPolicyConfigMapName (om_name (cd_meta (sc_cd scope)))));
           ("key", JString auditPolicyConfigKey); ("hash", JString (audit_hash audit))].
Definition fillClusterAuditPolicyValues (scope : clusterScope Handle) (values : values) : ClusterValues.values :=
  match sc_audit scope with
  | None =>
      match values !! "audit" with
      | Some (JObject auditValues) => <["audit" := JObject (delete "policyRef" auditValues)]> values
      | _ => values
      end
  | Some audit =>
      let policyRef := policy_ref scope audit in
      match values !! "audit" with
      | Some (JObject auditValues) => <["audit" := JObject (<["policyRef" := policyRef]> auditValues)]> values
      | _ => <["audit" := jobject [("policyRef", policyRef)]]> values
      end
  end.

Definition source_value (dataSource : DataSource) (clusterDataSource : ClusterDataSource) : json :=
  let val := {[ "kineDataSourceSecretName" := JString (cdss_kineDataSourceSecret (cdso_status clusterDataSource)) ]} : values in
  let ca := skr_key (ds_certificateAuthority dataSource) in
  JObject (if negb (bool_decide (ca = ""))
           then <["caSecret" := jobject [("name", JString (cdss_caSecret (cdso_status clusterDataSource))); ("key", JString ca)]]> val
           else val).
Definition fillDataSourceValues (scope : clusterScope Handle) (values : values) : ClusterValues.values :=
  match sc_kine scope with
  | Some (mkKineConfig dataSource (Some clusterDataSource)) =>
      if bool_decide (cds_dataSource (cd_spec (sc_cd scope)) = "") then values
      else <["dataSource" := source_value dataSource clusterDataSource]> values
  | _ => values
  end.

Definition global_values : list (string * string) :=
  [("registry", GlobalRegistry); ("k0sURL", GlobalK0sURL); ("registryCertSecret", RegistryCertSecretName); ("k0sURLCertSecret", K0sURLCertSecretName)] ++
  (if negb (bool_decide (CldRegistryCredSecretName = "")) then [("registryCredentialSecret", CldRegistryCredSecretName)] else []).
Definition jstrings (l : list (string * string)) : json := jobject ((λ kv, (kv.1, JString kv.2)) <$> l).
Definition labels_value (labels : option (gmap string string)) : json :=
  match labels with Some l => JObject (JString <$> l) | None => JNull end.

Definition identity_value (identity : ObjectReference) : json :=
  jstrings [("apiVersion", ref_apiVersion identity); ("kind", ref_kind identity); ("name", ref_name identity); ("namespace", ref_namespace identity)].
Definition add_global (values : values) : ClusterValues.values :=
  if existsb (λ kv, negb (bool_decide (kv.2 = ""))) global_values then <["global" := jstrings global_values]> values else values.
Definition add_labels (scope : clusterScope Handle) (values : values) : ClusterValues.values :=
  match values !! "clusterLabels" with
  | Some _ => values
  | None => <["clusterLabels" := labels_value (om_labels (cd_meta (sc_cd scope)))]> values
  end.

(** The function [fillHelmValues] passes to [AddHelmValues]; a Credential has an
    identity, the API requires it, and without one the program would panic. *)
Definition fill (identity : ObjectReference) (scope : clusterScope Handle) (values : values) : ClusterValues.values :=
  let values := fillDataSourceValues scope (fillClusterAuditPolicyValues scope (fillClusterAuthenticationValues scope values)) in
  add_labels scope (add_global (<["clusterIdentity" := identity_value identity]> values)).

Definition fillHelmValues `{!Json} (scope : clusterScope Handle) : result ClusterDeployment :=
  wrap_err ("failed to add helm values for the ClusterDeployment " +:+ om_namespace (cd_meta (sc_cd scope)) +:+ "/" +:+
            om_name (cd_meta (sc_cd scope)) +:+ ": ") (AddHelmValues (λ values,
    match crs_identityRef (cred_spec (sc_cred scope)) with
    | Some identity => Ok (fill identity scope values)
    | None => Err nil_dereference
    end) (sc_cd scope)).
End fill.

(** ** What the user asked for stays *)

(** The keys that are the controller's. *)
Definition reserved : list string := ["auth"; "audit"; "dataSource"; "clusterIdentity"; "global"; "clusterLabels"].
Definition audit_values (m : values) : values := match m !! "audit" with Some (JObject auditValues) => auditValues | _ => ∅ end.

(** A step that rewrites the value of one key. *)
Definition touches (key : string) (f : values → values) (g : option json → option json) : Prop :=
  ∀ m k, f m !! k = if bool_decide (k = key) then g (m !! key) else m !! k.
Lemma touches_insert key f g : (∀ m, f m = match g (m !! key) with Some v => <[key := v]> m | None => m end) →
  (∀ x, g x = None → x = None) → touches key f g.
Proof.
  intros Hf Hg m k. rewrite Hf. case_bool_decide as Hk.
  - subst. destruct (g _) as [v|] eqn:E; [apply lookup_insert_eq|]. by apply Hg in E.
  - destruct (g _); [by rewrite lookup_insert_ne|done].
Qed.
Lemma touches_keep key f : (∀ m, f m = m) → touches key f id.
Proof. intros Hf m k. rewrite Hf. by case_bool_decide; subst. Qed.

Section fill_properties.
Context {Handle : Type}.
Variables GlobalRegistry GlobalK0sURL K0sURLCertSecretName RegistryCertSecretName CldRegistryCredSecretName : string.
Implicit Types (scope : clusterScope Handle) (m : values).
Notation fill := (fill GlobalRegistry GlobalK0sURL K0sURLCertSecretName RegistryCertSecretName CldRegistryCredSecretName).
Notation global_values := (global_values GlobalRegistry GlobalK0sURL K0sURLCertSecretName RegistryCertSecretName CldRegistryCredSecretName).

Definition audit_value scope (x : option json) : option json :=
  match sc_audit scope, x with
  | None, Some (JObject auditValues) => Some (JObject (delete "policyRef" auditValues))
  | None, x => x
  | Some audit, Some (JObject auditValues) => Some (JObject (<["policyRef" := policy_ref scope audit]> auditValues))
  | Some audit, _ => Some (jobject [("policyRef", policy_ref scope audit)])
  end.
Lemma audit_touches scope : touches "audit" (fillClusterAuditPolicyValues scope) (audit_value scope).
Proof.
  apply touches_insert; unfold fillClusterAuditPolicyValues, audit_value.
  - intros m. destruct (sc_audit scope); destruct (m !! "audit") as [[]|] eqn:E; try done; symmetry; by apply insert_id.
  - by intros [[]|]; destruct (sc_audit scope).
Qed.
Definition auth_of scope (x : option json) : option json :=
  match configured_auth scope with Some auth => Some (auth_value scope auth) | None => x end.
Lemma auth_touches scope : touches "auth" (fillClusterAuthenticationValues scope) (auth_of scope).
Proof.
  unfold fillClusterAuthenticationValues, auth_of. destruct (configured_auth scope) as [auth|]; [by apply touches_insert|by apply touches_keep].
Qed.
Definition source_of scope (x : option json) : option json :=
  match sc_kine scope with
  | Some (mkKineConfig dataSource (Some clusterDataSource)) =>
      if bool_decide (cds_dataSource (cd_spec (sc_cd scope)) = "") then x else Some (source_value dataSource clusterDataSource)
  | _ => x
  end.
Lemma source_touches scope : touches "dataSource" (fillDataSourceValues scope) (source_of scope).
Proof.
  unfold fillDataSourceValues, source_of. destruct (sc_kine scope) as [[ds [cds|]]|]; try by apply touches_keep.
  case_bool_decide; [by apply touches_keep|by apply touches_insert].
Qed.

Definition global_of (x : option json) : option json :=
  if existsb (λ kv, negb (bool_decide (kv.2 = ""))) global_values then Some (jstrings global_values) else x.
Definition labels_of_values scope (x : option json) : option json :=
  Some (default (labels_value (om_labels (cd_meta (sc_cd scope)))) x).

Notation add_global := (add_global GlobalRegistry GlobalK0sURL K0sURLCertSecretName RegistryCertSecretName CldRegistryCredSecretName).
Lemma global_touches : touches "global" add_global global_of.
Proof. unfold ClusterValues.add_global, global_of. destruct (existsb _ _); [by apply touches_insert|by apply touches_keep]. Qed.
Lemma labels_touches scope : touches "clusterLabels" (add_labels scope) (labels_of_values scope).
Proof.
  apply touches_insert; [|done]. intros m. unfold add_labels, labels_of_values. destruct (m !! "clusterLabels") eqn:E; [|done].
  cbn. symmetry. by apply insert_id.
Qed.
Lemma identity_touches identity : touches "clusterIdentity" <["clusterIdentity" := identity_value identity]> (λ _, Some (identity_value identity)).
Proof. by apply touches_insert. Qed.

(** Every value of the result, by its key. *)
Definition filled (identity : ObjectReference) scope (k : string) (x : option json) : option json :=
  if bool_decide (k = "clusterLabels") then labels_of_values scope x
  else if bool_decide (k = "global") then global_of x
  else if bool_decide (k = "clusterIdentity") then Some (identity_value identity)
  else if bool_decide (k = "dataSource") then source_of scope x
  else if bool_decide (k = "audit") then audit_value scope x
  else if bool_decide (k = "auth") then auth_of scope x
  else x.
Lemma fill_lookup identity scope m k : fill identity scope m !! k = filled identity scope k (m !! k).
Proof.
  unfold ClusterValues.fill, filled. cbn zeta.
  rewrite !labels_touches, !global_touches, !identity_touches, !source_touches, !audit_touches, !auth_touches.
  repeat case_bool_decide; subst; done.
Qed.
Lemma filled_twice identity scope k x : filled identity scope k (filled identity scope k x) = filled identity scope k x.
Proof.
  unfold filled. repeat case_bool_decide; try done.
  - unfold global_of. by destruct (existsb _ _).
  - unfold source_of. destruct (sc_kine scope) as [[? []]|]; try done. by case_bool_decide.
  - unfold audit_value. destruct (sc_audit scope); destruct x as [[]|]; try done; cbn; do 2 f_equal; first [apply insert_insert_eq|apply delete_delete_eq].
  - unfold auth_of. by destruct (configured_auth scope).
Qed.

Lemma lookup_source ds cds o : source_value ds cds = JObject o →
  o !! "kineDataSourceSecretName" = Some (JString (cdss_kineDataSourceSecret (cdso_status cds))) ∧
  o !! "caSecret" = (if bool_decide (skr_key (ds_certificateAuthority ds) = "") then None
    else Some (jobject [("name", JString (cdss_caSecret (cdso_status cds))); ("key", JString (skr_key (ds_certificateAuthority ds)))])) ∧
  ∀ k, k ≠ "kineDataSourceSecretName" → k ≠ "caSecret" → o !! k = None.
Proof.
  unfold source_value. intros [= <-]. case_bool_decide; cbn [negb].
  - split; [apply lookup_insert_eq|]. split; [done|]. intros k Hk _. by rewrite lookup_singleton_ne.
  - split; [done|]. split; [apply lookup_insert_eq|]. intros k Hk Hc. by rewrite lookup_insert_ne, lookup_singleton_ne.
Qed.
Lemma lookup_global : ∃ o, jstrings global_values = JObject o ∧
  o !! "registry" = Some (JString GlobalRegistry) ∧ o !! "k0sURL" = Some (JString GlobalK0sURL) ∧
  o !! "registryCertSecret" = Some (JString RegistryCertSecretName) ∧ o !! "k0sURLCertSecret" = Some (JString K0sURLCertSecretName) ∧
  o !! "registryCredentialSecret" = (if bool_decide (CldRegistryCredSecretName = "") then None else Some (JString CldRegistryCredSecretName)).
Proof. eexists. split; [reflexivity|]. unfold ClusterValues.global_values. case_bool_decide; by cbn. Qed.
Lemma lookup_auth scope auth o : auth_value scope auth = JObject o →
  o !! "configSecret" = Some (jobject [("name", JString (om_name (cd_meta (sc_cd scope)) +:+ "-auth-config")); ("key", JString "config");
                                       ("hash", JString (auth_hash auth))]) ∧
  o !! "configWithAnon" = (if ca_anonymous (auth_clAuth auth) then Some (JBool true) else None) ∧
  ∀ k, k ≠ "configSecret" → k ≠ "configWithAnon" → o !! k = None.
Proof.
  unfold auth_value. intros [= <-]. destruct (ca_anonymous _).
  - split; [done|]. split; [apply lookup_insert_eq|]. intros k Hk Ha. by rewrite lookup_insert_ne, lookup_singleton_ne.
  - split; [apply lookup_singleton_eq|]. split; [done|]. intros k Hk _. by rewrite lookup_singleton_ne.
Qed.
(** Any setting of the management cluster that clusters are told. *)
Definition global_set : Prop :=
  GlobalRegistry ≠ "" ∨ GlobalK0sURL ≠ "" ∨ RegistryCertSecretName ≠ "" ∨ K0sURLCertSecretName ≠ "" ∨ CldRegistryCredSecretName ≠ "".
Lemma global_of_spec x :
  (global_set → global_of x = Some (jstrings global_values)) ∧ (¬ global_set → global_of x = x).
Proof.
  unfold global_of, global_set, ClusterValues.global_values. cbn [existsb app].
  destruct (decide (CldRegistryCredSecretName = "")) as [Hc|Hc]; [rewrite (bool_decide_eq_true_2 _ Hc)|rewrite (bool_decide_eq_false_2 _ Hc)];
    cbn [negb app existsb snd]; repeat case_bool_decide; cbn [negb orb]; tauto.
Qed.

(** C20: Filling in the values of a cluster leaves what the user asked for: every
    key but the six that are the controller's, every entry of the audit settings
    but the reference to the policy, labels if there are any. The reference to the
    policy, the secret of the authentication configuration and the identity are
    those of this reconcile, and no reference is left of a policy that is gone.
    With a data source the secrets of its ClusterDataSource are named, and nothing
    else is said of it; the settings of the management cluster are passed on when
    there are any. Without those, and without an authentication configuration, the
    keys are as they were. Filling twice is filling once. *)
Theorem fill_keeps_user_values identity scope m :
  let m' := fill identity scope m in
  let cd := sc_cd scope in
  (filter (λ kv : string * json, kv.1 ∉ reserved) m' = filter (λ kv : string * json, kv.1 ∉ reserved) m ∧
   delete "policyRef" (audit_values m') = delete "policyRef" (audit_values m) ∧
   audit_values m' !! "policyRef" = (λ audit, jobject [("name", JString (om_name (cd_meta cd) +:+ "-audit-policy")); ("key", JString "policy");
                                                       ("hash", JString (audit_hash audit))]) <$> sc_audit scope ∧
   m' !! "clusterIdentity" = Some (jobject [("apiVersion", JString (ref_apiVersion identity)); ("kind", JString (ref_kind identity));
                                            ("name", JString (ref_name identity)); ("namespace", JString (ref_namespace identity))]) ∧
   m' !! "clusterLabels" = Some (match m !! "clusterLabels", om_labels (cd_meta cd) with
                                 | Some own, _ => own
                                 | None, Some labels => JObject (JString <$> labels)
                                 | None, None => JNull
                                 end) ∧
   fill identity scope m' = m') ∧
  (∀ auth, sc_auth scope = Some auth → HasAuthenticationConfiguration (auth_clAuth auth) = true →
     ∃ o, m' !! "auth" = Some (JObject o) ∧
       o !! "configSecret" = Some (jobject [("name", JString (om_name (cd_meta cd) +:+ "-auth-config")); ("key", JString "config");
                                            ("hash", JString (auth_hash auth))]) ∧
       o !! "configWithAnon" = (if ca_anonymous (auth_clAuth auth) then Some (JBool true) else None) ∧
       ∀ k, k ≠ "configSecret" → k ≠ "configWithAnon" → o !! k = None) ∧
  ((∀ auth, sc_auth scope = Some auth → HasAuthenticationConfiguration (auth_clAuth auth) = false) → m' !! "auth" = m !! "auth") ∧
  (∀ ds cds, sc_kine scope = Some (mkKineConfig ds (Some cds)) → cds_dataSource (cd_spec cd) ≠ "" →
     ∃ o, m' !! "dataSource" = Some (JObject o) ∧
       o !! "kineDataSourceSecretName" = Some (JString (cdss_kineDataSourceSecret (cdso_status cds))) ∧
       o !! "caSecret" = (if bool_decide (skr_key (ds_certificateAuthority ds) = "") then None
         else Some (jobject [("name", JString (cdss_caSecret (cdso_status cds))); ("key", JString (skr_key (ds_certificateAuthority ds)))])) ∧
       ∀ k, k ≠ "kineDataSourceSecretName" → k ≠ "caSecret" → o !! k = None) ∧
  ((∀ ds cds, sc_kine scope ≠ Some (mkKineConfig ds (Some cds))) ∨ cds_dataSource (cd_spec cd) = "" → m' !! "dataSource" = m !! "dataSource") ∧
  (global_set → ∃ o, m' !! "global" = Some (JObject o) ∧
     o !! "registry" = Some (JString GlobalRegistry) ∧ o !! "k0sURL" = Some (JString GlobalK0sURL) ∧
     o !! "registryCertSecret" = Some (JString RegistryCertSecretName) ∧ o !! "k0sURLCertSecret" = Some (JString K0sURLCertSecretName) ∧
     o !! "registryCredentialSecret" = (if bool_decide (CldRegistryCredSecretName = "") then None else Some (JString CldRegistryCredSecretName))) ∧
  (¬ global_set → m' !! "global" = m !! "global").
Proof.
  cbn zeta. split.
  { split.
    { apply map_eq. intros k. apply option_eq. intros v. rewrite !map_lookup_filter_Some, fill_lookup. cbn [fst].
      split; intros [Hk Hr]; (split; [|done]); revert Hk; unfold filled;
        repeat (rewrite bool_decide_eq_false_2; [|intros ->; apply Hr; unfold reserved; set_solver]); done. }
    assert (fill identity scope m !! "audit" = audit_value scope (m !! "audit")) as Ha by apply fill_lookup.
    unfold audit_values. rewrite Ha, !fill_lookup. unfold audit_value.
    split; [destruct (sc_audit scope); destruct (m !! "audit") as [[]|]; cbn; rewrite ?delete_insert_eq, ?delete_delete_eq; done|].
    split; [destruct (sc_audit scope); destruct (m !! "audit") as [[]|]; cbn; rewrite ?lookup_insert_eq, ?lookup_delete_eq; done|].
    split; [done|]. split; [unfold filled, labels_of_values; cbn; destruct (m !! "clusterLabels"); [done|by destruct (om_labels _)]|].
    apply map_eq. intros k. by rewrite !fill_lookup, filled_twice. }
  assert (fill identity scope m !! "auth" = auth_of scope (m !! "auth")) as -> by apply fill_lookup. unfold auth_of, configured_auth.
  split.
  { intros auth -> ->. destruct (auth_value scope auth) as [| | | | |o] eqn:Eo; try done. exists o. split; [done|by apply lookup_auth]. }
  split; [intros Hno; destruct (sc_auth scope) as [auth|]; [by rewrite (Hno auth eq_refl)|done]|].
  assert (fill identity scope m !! "dataSource" = source_of scope (m !! "dataSource")) as -> by apply fill_lookup.
  assert (fill identity scope m !! "global" = global_of (m !! "global")) as -> by apply fill_lookup.
  destruct (global_of_spec (m !! "global")) as [Hset Hunset]. split; [|split; [|split; [|done]]].
  - intros ds cds Hk Hds. unfold source_of. rewrite Hk, bool_decide_eq_false_2 by done. destruct (source_value ds cds) as [| | | | |o] eqn:Eo; try done.
    exists o. split; [done|by apply lookup_source].
  - intros Hno. unfold source_of. destruct (sc_kine scope) as [[ds [cds|]]|] eqn:Ek; try done. case_bool_decide; [done|].
    destruct Hno as [Hno|]; [by destruct (Hno ds cds)|done].
  - intros Hg. rewrite (Hset Hg). destruct lookup_global as (o & -> & Ho). eauto.
Qed.
End fill_properties.
