(* ===== verification/ClusterResources.v ===== *)
(** * What a cluster is created with
    ([src/internal/controller/clusterdeployment_controller.go]:
    [ensureClusterResources] and what it calls; the authentication
    configuration of [src/internal/util/auth/util.go]).

    Secrets, a ConfigMap and the data source, in the region the cluster is
    created in, before its Helm release is written. *)

From S2P Require Import Prelude GoStrings Api Kube Conditions ApiManagement Effects SveltosTypes ServiceBasics ContractVersions ClusterTypes AdmissionChecks Secrets HelmReleases RbacSync ClusterRbac ClusterValues.

(** ** The authentication configuration *)

Record AuthenticationConfiguration := mkAuthConfiguration {
  ac_apiVersion : string; ac_kind : string; ac_jwt : option (list JWTAuthenticator); ac_anonymous : option string }.
Definition authConfigAPIVersion := "apiserver.config.k8s.io/v1".
Definition authConfigKind := "AuthenticationConfiguration".
Definition no_authentication : AuthenticationConfiguration := mkAuthConfiguration "" "" None None.
Definition GetAuthConfig (clAuth : ClusterAuthentication) : AuthenticationConfiguration :=
  if negb (HasAuthenticationConfiguration clAuth) then no_authentication
  else mkAuthConfiguration authConfigAPIVersion authConfigKind (ca_jwt clAuth) (ca_anonymous clAuth).
Definition HasCASecret (clAuth : ClusterAuthentication) : bool := negb (bool_decide (skr_key (ca_caSecret clAuth) = "")).

Definition trust (caCert : string) (jwt : JWTAuthenticator) : JWTAuthenticator := mkJWT caCert (jwt_rest jwt).
Definition caSecretObjKey (clAuth : ClusterAuthentication) : ObjectKey :=
  mkKey (if negb (bool_decide (ca_caSecretNamespace clAuth = "")) then ca_caSecretNamespace clAuth else om_namespace (ca_meta clAuth))
    (skr_name (ca_caSecret clAuth)).

(** The authenticators are shared with the ClusterAuthentication passed, which
    nobody reads again but to fill in the same certificate. *)
Definition GetAuthenticationConfiguration {C} `{!Getter C Secret} (mgmtClient : C) (clAuth : ClusterAuthentication)
  : result AuthenticationConfiguration :=
  if negb (HasAuthenticationConfiguration clAuth) then Ok no_authentication
  else
    let conf := GetAuthConfig clAuth in
    if negb (HasCASecret clAuth) then Ok conf
    else
      caSecret ← wrap_err ("failed to get ClusterAuthentication CA secret " +:+ key_string (caSecretObjKey clAuth) +:+ ": ")
                   (c_get (T:=Secret) mgmtClient (caSecretObjKey clAuth));
      match sec_data caSecret !! skr_key (ca_caSecret clAuth) with
      | None => Err (ErrNew ("secret " +:+ key_string (caSecretObjKey clAuth) +:+ " does not contain " +:+ skr_key (ca_caSecret clAuth) +:+ " key"))
      | Some caCert =>
          Ok (if bool_decide (0 < String.length caCert)
              then mkAuthConfiguration (ac_apiVersion conf) (ac_kind conf) (map (trust caCert) <$> ac_jwt conf) (ac_anonymous conf)
              else conf)
      end.

(** ** Other people's libraries *)

(** Encodings of the configurations of the API server. *)
Class ApiServerFiles := {
  yaml_Marshal_auth : AuthenticationConfiguration → result string;
  yaml_Marshal_audit : string → result string
}.
(** [controllerutil.SetOwnerReference] and [SetControllerReference], on the
    references of an object. *)
Class OwnerSetters := {
  own_with_cluster : CapiCluster → list OwnerReference → result (list OwnerReference);
  own_with_deployment : ClusterDeployment → list OwnerReference → result (list OwnerReference);
  control_with_deployment : ClusterDeployment → list OwnerReference → result (list OwnerReference)
}.

(** ** The scope *)

Section scope_steps.
Context {Handle : Type}.
Implicit Types sc : clusterScope Handle.

Definition set_auth_hash (hash : string) sc : clusterScope Handle :=
  mkScope (sc_cd sc) (sc_cred sc) (sc_region sc) (sc_kine sc) ((λ a, mkAuthConfig (auth_clAuth a) hash) <$> sc_auth sc)
    (sc_rbacPolicy sc) (sc_audit sc) (sc_rgnClient sc) (sc_deletion sc).
Definition set_audit_hash (hash : string) sc : clusterScope Handle :=
  mkScope (sc_cd sc) (sc_cred sc) (sc_region sc) (sc_kine sc) (sc_auth sc)
    (sc_rbacPolicy sc) ((λ a, mkAuditConfig (audit_policy a) hash) <$> sc_audit sc) (sc_rgnClient sc) (sc_deletion sc).
Definition set_clusterDataSource (cds : ClusterDataSource) sc : clusterScope Handle :=
  mkScope (sc_cd sc) (sc_cred sc) (sc_region sc) ((λ k, mkKineConfig (kine_dataSource k) (Some cds)) <$> sc_kine sc) (sc_auth sc)
    (sc_rbacPolicy sc) (sc_audit sc) (sc_rgnClient sc) (sc_deletion sc).
End scope_steps.
Definition upd_scope {Handle C} (f : clusterScope Handle → clusterScope Handle) : M (rstate Handle C) unit :=
  modify (λ s, set_scope (f (rs_scope s)) s).

Section resources.
Context `{!Json} `{!ApiServerFiles} `{!OwnerSetters} {Handle C : Type} `{EqDecision Handle} `{!StatusConditions}.
Context `{!Getter C Secret} `{!Writer C Secret} `{!Deleter C Secret} `{!CreateOrUpdater C Secret sec_meta}.
Context `{!Getter C PlainConfigMap} `{!Writer C PlainConfigMap} `{!Deleter C PlainConfigMap} `{!CreateOrUpdater C PlainConfigMap pcm_meta}.
Context `{!Getter C Namespace} `{!Writer C Namespace} `{!Getter C CapiCluster} `{!Getter C ClusterDataSource} `{!Writer C ClusterDataSource}.
Variable MgmtClient : Handle.
Variables SystemNamespace GlobalRegistry GlobalK0sURL K0sURLCertSecretName RegistryCertSecretName CldRegistryCredSecretName : string.
(** [hex.EncodeToString] of the first four bytes of [sha256.Sum256], and
    [utilrand.String(5)]. *)
Variable sha256_4 : string → string.
Variable randStr : string.
Notation St := (rstate Handle C).

(** ** Certificates of the registry *)

Definition handleCertificateSecrets (rgnClient : Handle) (cd : ClusterDeployment) : M St unit :=
  let secretsToHandle := [K0sURLCertSecretName; RegistryCertSecretName; CldRegistryCredSecretName] in
  if bool_decide (om_namespace (cd_meta cd) = SystemNamespace) then mret tt
  else iterM (λ secretName, CopySecret (client_of MgmtClient) (client_of rgnClient) (mkKey SystemNamespace secretName)
                              (om_namespace (cd_meta cd)) "" None ∅) secretsToHandle.

(** ** The authentication configuration and the audit policy *)

(** The owner, if there is one, is put on the references. *)
Definition own_as (owner : option CapiCluster) (kind : string) (m : ObjectMeta) : result ObjectMeta :=
  match owner with
  | Some owner =>
      refs ← wrap_err ("failed to add OwnerReference on " +:+ kind +:+ " " +:+ key_string (meta_key m) +:+ ": ")
               (own_with_cluster owner (om_ownerReferences m));
      Ok (set_owner_references refs m)
  | None => Ok m
  end.

Definition ensureAuthConfigSecret : M St unit :=
  scope ← the_scope;
  let cd := sc_cd scope in
  let rgnClient := sc_rgnClient scope in
  let ns := om_namespace (cd_meta cd) in
  let secretName := getAuthConfigSecretName (om_name (cd_meta cd)) in
  let authConfigSecret := mkSecret (named_meta ns secretName) ∅ in
  match configured_auth scope with
  | None =>
      if negb (bool_decide (is_Some (cd_condition ClusterAuthenticationReadyCondition cd))) then mret tt
      else
        _ ← ignore_not_found ("failed to delete AuthenticationConfiguration Secret " +:+ ns +:+ "/" +:+ secretName +:+ ": ")
              (Delete (client_of rgnClient) authConfigSecret);
        upd_cd (remove_condition ClusterAuthenticationReadyCondition)
  | Some auth =>
      authConf ← wrapM "failed to get AuthenticationConfiguration: "
        (gets (λ s, GetAuthenticationConfiguration (at_ (rs_fleet s) MgmtClient) (auth_clAuth auth)) ≫= lift);
      data ← lift (wrap_err "failed to marshal AuthenticationConfiguration from ClusterAuthentication: " (yaml_Marshal_auth authConf));
      _ ← upd_scope (set_auth_hash (sha256_4 data));
      owner ← wrapM "failed to retrieve the owner: " (getPartialCapiCluster rgnClient cd);
      _ ← wrapM "failed to create or update Secret with the AuthenticationConfiguration: "
        (CreateOrUpdate (client_of rgnClient) authConfigSecret (λ secret,
           m ← lift (own_as owner "Secret" (sec_meta secret)); mret (mkSecret m {[authConfigSecretKey := data]})));
      setCondition ClusterAuthenticationReadyCondition SucceededReason CondTrue None
  end.

Definition ensureAuditPolicyConfigMap : M St unit :=
  scope ← the_scope;
  let cd := sc_cd scope in
  let rgnClient := sc_rgnClient scope in
  let ns := om_namespace (cd_meta cd) in
  let cmName := getAuditPolicyConfigMapName (om_name (cd_meta cd)) in
  let configMap := mkPlainConfigMap (named_meta ns cmName) ∅ in
  match sc_audit scope with
  | None =>
      if negb (bool_decide (is_Some (cd_condition ClusterAuditPolicyReadyCondition cd))) then mret tt
      else
        _ ← ignore_not_found ("failed to delete AuditPolicy ConfigMap " +:+ ns +:+ "/" +:+ cmName +:+ ": ")
              (Delete (client_of rgnClient) configMap);
        upd_cd (remove_condition ClusterAuditPolicyReadyCondition)
  | Some audit =>
      data ← lift (wrap_err "failed to marshal audit Policy: " (yaml_Marshal_audit (audit_policy audit)));
      _ ← upd_scope (set_audit_hash (sha256_4 data));
      owner ← wrapM "failed to retrieve the owner: " (getPartialCapiCluster rgnClient cd);
      _ ← wrapM "failed to create or update ConfigMap with the audit Policy: "
        (CreateOrUpdate (client_of rgnClient) configMap (λ configMap,
           m ← lift (own_as owner "ConfigMap" (pcm_meta configMap)); mret (mkPlainConfigMap m {[auditPolicyConfigKey := data]})));
      setCondition ClusterAuditPolicyReadyCondition SucceededReason CondTrue None
  end.

(** ** The data source *)

Definition source_ready (cds : ClusterDataSource) : bool :=
  let st := cdso_status cds in
  cdss_ready st && bool_decide (cdss_error st = "") && bool_decide (cdss_observedGeneration st = om_generation (cdso_meta cds)).

(** The body of the loop over the Secrets of the data source. *)
Definition copy_source_secret (scope : clusterScope Handle) (owner : option CapiCluster) (secretName : string) : M St unit :=
  if bool_decide (secretName = "") then mret tt
  else
    let secretKey := mkKey (om_namespace (cd_meta (sc_cd scope))) secretName in
    wrapM ("failed to create or update Secret " +:+ key_string secretKey +:+ " in the region " +:+ crs_region (cred_spec (sc_cred scope)) +:+ ": ")
      (CreateOrUpdate (client_of (sc_rgnClient scope)) (mkSecret (named_meta (key_ns secretKey) secretName) ∅) (λ regionalSecret,
         mgmtSecret ← wrapM ("failed to get Secret " +:+ key_string secretKey +:+ " on the mgmt cluster: ")
           (Get Secret (client_of MgmtClient) secretKey);
         m ← lift (own_as owner "Secret" (sec_meta regionalSecret));
         mret (mkSecret m (sec_data mgmtSecret)))) ≫= λ _, mret tt.
Definition ensureClusterDataSourceRegionalSecrets (cds : ClusterDataSource) : M St bool :=
  scope ← the_scope;
  if negb (source_ready cds) then mret true
  else if bool_decide (crs_region (cred_spec (sc_cred scope)) = "") || negb (bool_decide (is_Some (sc_region scope))) then mret false
  else
    let cd := sc_cd scope in
    let ns := om_namespace (cd_meta cd) in
    _ ← wrapM ("failed to ensure namespace " +:+ ns +:+ ": ") (EnsureNamespace (client_of (sc_rgnClient scope)) ns);
    owner ← wrapM "failed to retrieve the owner: " (getPartialCapiCluster (sc_rgnClient scope) cd);
    _ ← iterM (copy_source_secret scope owner) [cdss_caSecret (cdso_status cds); cdss_kineDataSourceSecret (cdso_status cds)];
    mret false.

Definition set_cds_source (dataSource : string) (cds : ClusterDataSource) : ClusterDataSource :=
  mkCDSource (cdso_meta cds) (cdso_schema cds) dataSource (cdso_status cds).
Definition new_data_source (cd : ClusterDeployment) (refs : list OwnerReference) : ClusterDataSource :=
  let ns := om_namespace (cd_meta cd) in
  let name := om_name (cd_meta cd) in
  mkCDSource
    (mkMeta name ns "" 0 (Some (<[KCMManagedLabelKey := KCMManagedLabelValue]> {[GenericComponentNameLabel := GenericComponentLabelValueKCM]})) ∅
       refs [ClusterDataSourceFinalizer] None)
    (replace_byte minus_byte byte_underscore (ns +:+ "_" +:+ name +:+ "_" +:+ randStr)) (cds_dataSource (cd_spec cd))
    (mkCDSourceStatus "" "" "" 0 false).
(** From the look for the ClusterDataSource on; [true] asks to come back. *)
Definition ensure_data_source (cd : ClusterDeployment) : M St bool :=
  let cdsKey := cd_key cd in
  got ← try (Get ClusterDataSource (client_of MgmtClient) cdsKey);
  match got with
  | Ok clusterdatasource =>
      if negb (bool_decide (cdso_dataSource clusterdatasource = cds_dataSource (cd_spec cd))) then
        _ ← wrapM ("failed to update ClusterDataSource " +:+ key_string cdsKey +:+ " spec: ")
              (Update (client_of MgmtClient) (set_cds_source (cds_dataSource (cd_spec cd)) clusterdatasource));
        mret true
      else
        _ ← upd_scope (set_clusterDataSource clusterdatasource);
        ensureClusterDataSourceRegionalSecrets clusterdatasource
  | Err err =>
      if negb (IsNotFound err) then fail (ErrWrap ("failed to get ClusterDataSource " +:+ key_string cdsKey +:+ ": ") err)
      else
        refs ← lift (wrap_err ("failed to set owner references onto the ClusterDataSource " +:+ key_string cdsKey +:+ ": ")
                       (control_with_deployment cd []));
        _ ← ignore_already_exists ("failed to create ClusterDataSource " +:+ key_string cdsKey +:+ ": ")
              (Create (client_of MgmtClient) (new_data_source cd refs));
        mret true
  end.
Definition ensureDataSourceReferences : M St bool :=
  scope ← the_scope;
  if negb (bool_decide (is_Some (sc_kine scope))) || bool_decide (cds_dataSource (cd_spec (sc_cd scope)) = "") then mret false
  else
    requeue ← ensure_data_source (sc_cd scope);
    _ ← when (negb requeue) (setCondition ClusterDataSourceReadyCondition SucceededReason CondTrue None);
    mret requeue.

(** ** The kubeconfig of the region *)

Definition copyRegionalKubeConfigSecret : M St unit :=
  scope ← the_scope;
  let cd := sc_cd scope in
  match sc_region scope with
  | None => mret tt
  | Some region =>
      if bool_decide (crs_region (cred_spec (sc_cred scope)) = "") || bool_decide (om_namespace (cd_meta cd) = SystemNamespace) then mret tt
      else
        kubeconfigRef ← lift (wrap_err "failed to get kubeconfig secret reference: " (GetRegionalKubeconfigSecretRef region));
        let '(name, nameOverride) :=
          match rgs_clusterDeployment (rgn_spec region) with
          | Some cldRef => (cdr_namespace cldRef +:+ "." +:+ skr_name kubeconfigRef, skr_name kubeconfigRef)
          | None => (skr_name kubeconfigRef, "")
          end in
        CopySecret (client_of MgmtClient) (client_of MgmtClient) (mkKey SystemNamespace name) (om_namespace (cd_meta cd)) nameOverride
          (Some (own_with_deployment cd)) ∅
  end.

(** ** All of it *)

(** [if err := m; err != nil] with a condition and the error. *)
Definition or_report (typ : string) (m : M St unit) : M St unit :=
  done ← try m;
  match done with
  | Ok _ => mret tt
  | Err err => _ ← setCondition typ FailedReason CondFalse (Some err); fail err
  end.

Definition ensureClusterResources : M St bool :=
  _ ← or_report ClusterAuthenticationReadyCondition ensureAuthConfigSecret;
  _ ← or_report ClusterAuditPolicyReadyCondition ensureAuditPolicyConfigMap;
  requeueDataSource ← try ensureDataSourceReferences;
  cd ← the_cd;
  match requeueDataSource with
  | Err err =>
      let err := ErrWrap ("failed to ensure DataSource " +:+ cds_dataSource (cd_spec cd) +:+ " references: ") err in
      _ ← setCondition ClusterDataSourceReadyCondition FailedReason CondFalse (Some err); fail err
  | Ok true =>
      let err := ErrNew ("cross-referenced ClusterDataSource " +:+ key_string (cd_key cd) +:+ " is not yet ready") in
      _ ← setCondition ClusterDataSourceReadyCondition ProgressingReason CondFalse (Some err); mret true
  | Ok false =>
      filled ← wrapM "failed to fill helm values: " (gets (λ s, fillHelmValues GlobalRegistry GlobalK0sURL K0sURLCertSecretName
                 RegistryCertSecretName CldRegistryCredSecretName (rs_scope s)) ≫= lift);
      _ ← upd_cd (λ _, filled);
      _ ← wrapM "failed to copy regional KubeConfig secret: " copyRegionalKubeConfigSecret;
      mret false
  end.
End resources.
