(* ===== verification/ClusterIpam.v ===== *)
(** * Addresses of a ClusterDeployment
    ([src/internal/controller/clusterdeployment_controller.go]:
    [processClusterIPAM], [configNeedsUpdate]).

    A cluster that asks for addresses is not created before its claim is bound
    and the addresses are in its configuration. *)

From S2P Require Import Prelude GoStrings Api Kube Conditions ApiManagement Effects SveltosTypes ServiceBasics ClusterTypes ClusterValues.

Definition errClusterDeploymentSpecUpdated := "cluster deployment spec updated".
Definition errIPAMNotReady := "IPAM not ready".
Definition errInvalidIPAMClaimRef := "invalid IPAM claim ref".

Section config.
Context `{!Json}.

(** What is there: switched on, and a value under the name of every network. *)
Definition ipam_values_present (currentValues : values) (providerData : list ClusterIPAMProviderData) : bool :=
  match currentValues !! "ipamEnabled" with Some (JBool true) => true | _ => false end &&
  forallb (λ v, bool_decide (is_Some (currentValues !! ipd_name v))) providerData.
Definition configNeedsUpdate (config : option string) (providerData : list ClusterIPAMProviderData) : result bool :=
  currentValues ← match config with
                  | Some raw => wrap_err "failed to unmarshal current config values: " (json_Unmarshal_map raw)
                  | None => Ok (Some ∅)
                  end;
  Ok (negb (ipam_values_present (default ∅ currentValues) providerData)).

(** The JSON of [ClusterIPAMProviderData]; empty fields are left out. *)
Definition provider_value (v : ClusterIPAMProviderData) : json :=
  jobject (match ipd_data v with Some raw => [("config", json_RawMessage raw)] | None => [] end ++
           (if negb (bool_decide (ipd_name v = "")) then [("name", JString (ipd_name v))] else []) ++
           (if ipd_ready v then [("ready", JBool true)] else [])).
Definition add_ipam_values (providerData : list ClusterIPAMProviderData) (values : values) : ClusterValues.values :=
  foldl (λ values v, <[ipd_name v := provider_value v]> values) (<["ipamEnabled" := JBool true]> values) providerData.
End config.

(** [kubeutil.AddOwnerReference]; of an object the type is what [GetObjectKind]
    reports. *)
Definition AddOwnerReference (dependent : ObjectMeta) (ownerType : string * string) (owner : ObjectMeta) : ObjectMeta :=
  if existsb (λ ref, bool_decide (own_uid ref = om_uid owner)) (om_ownerReferences dependent) then dependent
  else mkMeta (om_name dependent) (om_namespace dependent) (om_uid dependent) (om_generation dependent) (om_labels dependent)
         (om_annotations dependent)
         (om_ownerReferences dependent ++ [mkOwner ownerType.1 ownerType.2 (om_name owner) (om_uid owner) false false])
         (om_finalizers dependent) (om_deletionTimestamp dependent).

Section ipam.
Context `{!Json} {Handle C : Type} `{EqDecision Handle} `{!StatusConditions}.
Context `{!Getter C ClusterIPAMClaim} `{!Writer C ClusterIPAMClaim} `{!CreateOrUpdater C ClusterIPAMClaim ipc_meta}.
Context `{!Getter C ClusterIPAM} `{!Refresher C ClusterDeployment}.
Variable MgmtClient : Handle.
(** The API version and kind [GetObjectKind] reports of the ClusterDeployment. *)
Variable cd_type : ClusterDeployment → string * string.
Notation St := (rstate Handle C).

Definition claim_name (cd : ClusterDeployment) : string := om_name (cd_meta cd) +:+ "-ipam".
Definition set_claim_ref (ref : string) (sp : ClusterIPAMClaimSpec) : ClusterIPAMClaimSpec :=
  mkIPAMClaimSpec (icl_provider sp) (icl_cluster sp) ref (icl_nodeNetwork sp) (icl_clusterNetwork sp) (icl_externalNetwork sp).
Definition new_claim (cd : ClusterDeployment) : ClusterIPAMClaim :=
  mkIPAMClaim (AddOwnerReference (named_meta (om_namespace (cd_meta cd)) (claim_name cd)) (cd_type cd) (cd_meta cd))
    (mkIPAMClaimSpec "" "" "" "" "" "") false.

(** [r.MgmtClient.Update(ctx, cd)] and the way out after it. *)
Definition update_and_leave : M St unit :=
  _ ← wrapM "failed to update ClusterDeployment: " (refresh_cd MgmtClient c_update_refresh);
  fail (sentinel errClusterDeploymentSpecUpdated).

Definition own_claim (cd : ClusterDeployment) (spec : ClusterIPAMClaimSpec) : M St ClusterIPAMClaim :=
  written ← wrapM "failed to create or update ClusterIPAMClaim: "
    (CreateOrUpdate (client_of MgmtClient) (new_claim cd)
       (λ claim, mret (mkIPAMClaim (ipc_meta claim) (set_claim_ref (claim_name cd) spec) (ipc_bound claim))));
  let clusterIpamClaim := written.1 in
  if negb (bool_decide (ict_ref (cds_ipamClaim (cd_spec cd)) = om_name (ipc_meta clusterIpamClaim))) then
    _ ← upd_cd (λ cd, set_cd_spec (set_cds_ipamRef (claim_name cd) (cd_spec cd)) cd);
    _ ← update_and_leave; mret clusterIpamClaim
  else mret clusterIpamClaim.

Definition referenced_claim (cd : ClusterDeployment) : M St ClusterIPAMClaim :=
  clusterIpamClaim ← wrapM "failed to fetch ClusterIPAMClaim: "
    (Get ClusterIPAMClaim (client_of MgmtClient) (mkKey (om_namespace (cd_meta cd)) (ict_ref (cds_ipamClaim (cd_spec cd)))));
  let cluster := icl_cluster (ipc_spec clusterIpamClaim) in
  if negb (bool_decide (cluster = om_name (cd_meta cd))) then
    fail (ErrJoin [sentinel errInvalidIPAMClaimRef;
      ErrNew ("ClusterIPAMClaim.Spec.Cluster " +:+ cluster +:+ " does not match ClusterDeployment.Name " +:+ om_name (cd_meta cd))])
  else mret clusterIpamClaim.

(** From the claim on: it is bound, and the configuration has the addresses. *)
Definition use_claim (clusterIpamClaim : ClusterIPAMClaim) : M St unit :=
  cd ← the_cd;
  if negb (ipc_bound clusterIpamClaim) then fail (sentinel errIPAMNotReady)
  else
    clusterIpam ← wrapM "failed to fetch ClusterIPAM: "
      (Get ClusterIPAM (client_of MgmtClient) (mkKey (om_namespace (cd_meta cd)) (icl_clusterIPAMRef (ipc_spec clusterIpamClaim))));
    needsUpdate ← lift (wrap_err "failed to determine whether config needs update: "
      (configNeedsUpdate (cds_config (cd_spec cd)) (ipam_providerData clusterIpam)));
    if (needsUpdate : bool) then
      cd ← lift (wrap_err "failed to add IPAM Helm values: "
        (AddHelmValues (λ values, Ok (add_ipam_values (ipam_providerData clusterIpam) values)) cd));
      _ ← upd_cd (λ _, cd);
      update_and_leave
    else mret tt.

Definition processClusterIPAM : M St unit :=
  cd ← the_cd;
  match ict_spec (cds_ipamClaim (cd_spec cd)) with
  | Some spec => own_claim cd spec ≫= use_claim
  | None => if bool_decide (ict_ref (cds_ipamClaim (cd_spec cd)) = "") then mret tt
            else referenced_claim cd ≫= use_claim
  end.
End ipam.

(** ** Addresses come first *)

Lemma ipam_values_present_spec m pd : ipam_values_present m pd = true ↔
  m !! "ipamEnabled" = Some (JBool true) ∧ ∀ v, v ∈ pd → is_Some (m !! ipd_name v).
Proof.
  unfold ipam_values_present. rewrite andb_true_iff, forallb_forall. split.
  - intros [He Hf]. split; [by destruct (m !! _) as [[|[]| | | |]|]|]. intros v Hv%list_elem_of_In. by apply Hf, bool_decide_eq_true in Hv.
  - intros [-> Hf]. split; [done|]. intros v Hv%list_elem_of_In. by apply bool_decide_eq_true, Hf.
Qed.

Lemma add_ipam_values_lookup `{!Json} pd m k :
  (k ∉ ipd_name <$> pd → add_ipam_values pd m !! k = if bool_decide (k = "ipamEnabled") then Some (JBool true) else m !! k) ∧
  (k ∈ ipd_name <$> pd → is_Some (add_ipam_values pd m !! k)).
Proof.
  unfold add_ipam_values. induction pd as [|v pd IH] using rev_ind.
  - split; [|by intros ?%elem_of_nil]. intros _. cbn. case_bool_decide; subst; [apply lookup_insert_eq|by rewrite lookup_insert_ne].
  - rewrite foldl_app, fmap_app. cbn. destruct (decide (k = ipd_name v)) as [->|Hne].
    + rewrite lookup_insert_eq. split; [|eauto]. intros Hn. destruct Hn. apply elem_of_app. right. left.
    + rewrite lookup_insert_ne by done. split; [intros Hn; apply IH; set_solver|]. intros [?|?%list_elem_of_singleton]%elem_of_app; [by apply IH|done].
Qed.

(** Once the values have been written, and are read back as written, nothing is
    left to update; values of other names are as they were. *)
Lemma ipam_values_settle `{!Json} pd cd cd' m :
  HelmValues cd = Ok m → AddHelmValues (λ values, Ok (add_ipam_values pd values)) cd = Ok cd' →
  (∀ b, json_Marshal_map (add_ipam_values pd m) = Ok b → json_Unmarshal_map b = Ok (Some (add_ipam_values pd m))) →
  (∀ v, v ∈ pd → ipd_name v ≠ "ipamEnabled") →
  configNeedsUpdate (cds_config (cd_spec cd')) pd = Ok false.
Proof.
  unfold AddHelmValues, SetHelmValues. intros -> Hadd Hback Hname. cbn in Hadd.
  destruct (json_Marshal_map _) as [b|] eqn:Eb; [|done]. cbn in Hadd. simplify_eq. cbn. rewrite (Hback b) by done. cbn. f_equal.
  apply negb_false_iff, ipam_values_present_spec. split.
  - destruct (add_ipam_values_lookup pd m "ipamEnabled") as [He _]. rewrite He; [done|].
    intros (v & Hv & Hin)%list_elem_of_fmap. by destruct (Hname v).
  - intros v Hv. apply add_ipam_values_lookup. by apply list_elem_of_fmap_2.
Qed.

Section first.
Context `{!Json} {Handle C : Type} `{EqDecision Handle} `{!StatusConditions}.
Context `{!Getter C ClusterIPAMClaim} `{!Writer C ClusterIPAMClaim} `{!CreateOrUpdater C ClusterIPAMClaim ipc_meta}.
Context `{!Getter C ClusterIPAM} `{!Refresher C ClusterDeployment}.
Variable MgmtClient : Handle.
Variable cd_type : ClusterDeployment → string * string.
Notation St := (rstate Handle C).
Notation mgmt s := (at_ (rs_fleet s) MgmtClient).
Implicit Types s : St.

Lemma update_and_leave_fails s s' : update_and_leave MgmtClient s ≠ (s', Ok tt).
Proof. unfold update_and_leave. rewrite bind_eq. destruct (wrapM _ _ s) as [s1 [u|e]]; unfold fail; intros [=]. Qed.

(** The addresses of a claim are in the configuration. *)
Definition addressed s (claim : ClusterIPAMClaim) : Prop :=
  let cd := cd_of s in
  ipc_bound claim = true ∧
  ∃ ipam raw m, c_get (mgmt s) (mkKey (om_namespace (cd_meta cd)) (icl_clusterIPAMRef (ipc_spec claim))) = Ok ipam ∧
    cds_config (cd_spec cd) = Some raw ∧ json_Unmarshal_map raw = Ok (Some m) ∧
    m !! "ipamEnabled" = Some (JBool true) ∧ ∀ v, v ∈ ipam_providerData ipam → is_Some (m !! ipd_name v).

Lemma config_written_fails prefix (r : result ClusterDeployment) s s' :
  (cd ← lift (wrap_err prefix r); _ ← upd_cd (λ _, cd); update_and_leave MgmtClient) s ≠ (s', Ok tt).
Proof. intros (? & cd & _ & (? & [] & _ & Hl)%bind_inv)%bind_inv. by apply update_and_leave_fails in Hl. Qed.
Lemma needs_no_update config pd : configNeedsUpdate config pd = Ok false →
  ∃ raw m, config = Some raw ∧ json_Unmarshal_map raw = Ok (Some m) ∧ ipam_values_present m pd = true.
Proof.
  unfold configNeedsUpdate. destruct config as [raw|]; [|by vm_compute]. destruct (json_Unmarshal_map raw) as [[m|]|] eqn:Em; [| |done].
  - intros [= Hp%negb_false_iff]. eauto.
  - by vm_compute.
Qed.

Lemma use_claim_Ok claim s s' : use_claim MgmtClient claim s = (s', Ok tt) → s' = s ∧ addressed s claim.
Proof.
  unfold use_claim. intros (s1 & cd & [= <- <-] & Hrun)%bind_inv. destruct (ipc_bound claim) eqn:Eb; [|done]. cbn [negb] in Hrun.
  apply bind_inv in Hrun as (s1 & ipam & Hget & Hrun). rewrite wrap_eq, Get_eq in Hget. cbn [fst snd] in Hget.
  destruct (c_get _ _) as [ipam'|] eqn:Ei; [|done]. cbn [wrap_err] in Hget. simplify_eq.
  apply bind_inv in Hrun as (s2 & needs & Hn & Hrun). unfold lift in Hn. injection Hn as <- Hn.
  destruct needs; [by apply config_written_fails in Hrun|]. injection Hrun as <-.
  destruct (configNeedsUpdate _ _) as [[]|] eqn:En; try done. apply needs_no_update in En as (raw & m & Hraw & Hm & [He Hf]%ipam_values_present_spec).
  split; [done|]. split; [done|]. exists ipam, raw, m. done.
Qed.

(** The claim as [own_claim] writes it. *)
Definition written_claim (cd : ClusterDeployment) (spec : ClusterIPAMClaimSpec) : M St (ClusterIPAMClaim * OperationResult) :=
  CreateOrUpdate (client_of MgmtClient) (new_claim cd_type cd)
    (λ claim, mret (mkIPAMClaim (ipc_meta claim) (set_claim_ref (claim_name cd) spec) (ipc_bound claim))).

(** It comes back as the server then has it. *)
Lemma new_claim_key cd : meta_key (ipc_meta (new_claim cd_type cd)) = mkKey (om_namespace (cd_meta cd)) (claim_name cd).
Proof. unfold new_claim, AddOwnerReference. cbn [ipc_meta]. match goal with |- context [if ?b then _ else _] => by destruct b end. Qed.
Lemma written_claim_stored cd spec s s' claim op : written_claim cd spec s = (s', Ok (claim, op)) →
  stored_as ipc_meta (mgmt s') (mkKey (om_namespace (cd_meta cd)) (claim_name cd)) claim.
Proof.
  unfold written_claim. intros Hrun%create_or_update_does.
  remember (Ok (claim, op)) as r eqn:Er. destruct Hrun as [e|base s1 e|e y s1 c' [e1|] z _ _ Hm Hc Hz|base s1 Hb Hm|base y s1 c' [e1|] z [_ Hb] Hm _ Hc Hz];
    try done; injection Er as <- <-; unfold mret, M_ret in Hm.
  - specialize (Hz eq_refl). injection Hm as <- <-. cbn [view client_of put put_fleet rs_fleet]. rewrite fleet_put_at, <- new_claim_key. exact Hz.
  - injection Hm as <- _. rewrite <- new_claim_key. exact Hb.
  - specialize (Hz eq_refl). injection Hm as <- <-. cbn [view client_of put put_fleet rs_fleet]. rewrite fleet_put_at, <- new_claim_key, <- Hb. exact Hz.
Qed.

(** What is written does not touch the cluster the reconcile holds. *)
Lemma own_claim_Ok spec s s' claim : own_claim MgmtClient cd_type (cd_of s) spec s = (s', Ok claim) →
  cd_of s' = cd_of s ∧ (∃ op, written_claim (cd_of s) spec s = (s', Ok (claim, op))) ∧
  c_get (mgmt s') (mkKey (om_namespace (cd_meta (cd_of s))) (ict_ref (cds_ipamClaim (cd_spec (cd_of s))))) = Ok claim.
Proof.
  unfold own_claim. intros Hrun. apply bind_inv in Hrun as (s1 & [claim1 op] & Hcou & Hrest).
  rewrite wrap_eq in Hcou. fold (written_claim (cd_of s) spec) in Hcou. destruct (written_claim _ _ s) as [s1' r] eqn:Ecou. cbn in Hcou. destruct r as [z|]; [|done]. cbn in Hcou. simplify_eq.
  cbn [fst] in Hrest. assert (cd_of s1 = cd_of s) as Hcd.
  { unfold written_claim in Ecou. apply create_or_update_does in Ecou. by destruct (created_or_updated_pure _ _ _ _ _ _ _ _ (λ _, eq_refl) Ecou) as [->|[c ->]]. }
  apply written_claim_stored in Ecou as Hst.
  case_bool_decide as Href; cbn [negb] in Hrest.
  - injection Hrest as <- <-. split; [done|]. split; [eauto|]. destruct Hst as [Hg Hk]. rewrite Href.
    injection Hk as _ ->. exact Hg.
  - apply bind_inv in Hrest as (s2 & [] & _ & Hrest). apply bind_inv in Hrest as (s3 & [] & Hup & _). by apply update_and_leave_fails in Hup.
Qed.

Definition asks_addresses (cd : ClusterDeployment) : Prop :=
  ict_spec (cds_ipamClaim (cd_spec cd)) ≠ None ∨ ict_ref (cds_ipamClaim (cd_spec cd)) ≠ "".
(** The claim is the cluster's: the one stored under the recorded name, and, when
    the cluster only refers to it, one that names the cluster. *)
Definition claim_of s (claim : ClusterIPAMClaim) : Prop :=
  let cd := cd_of s in
  c_get (mgmt s) (mkKey (om_namespace (cd_meta cd)) (ict_ref (cds_ipamClaim (cd_spec cd)))) = Ok claim ∧
  (ict_spec (cds_ipamClaim (cd_spec cd)) = None → icl_cluster (ipc_spec claim) = om_name (cd_meta cd)).

(** From a call that went through. *)
Lemma processClusterIPAM_Ok s s' : processClusterIPAM MgmtClient cd_type s = (s', Ok tt) →
  match ict_spec (cds_ipamClaim (cd_spec (cd_of s))) with
  | Some spec => cd_of s' = cd_of s ∧ ∃ claim op,
                   written_claim (cd_of s) spec s = (s', Ok (claim, op)) ∧ claim_of s' claim ∧ addressed s' claim
  | None => s' = s ∧ (ict_ref (cds_ipamClaim (cd_spec (cd_of s))) ≠ "" → ∃ claim, claim_of s claim ∧ addressed s claim)
  end.
Proof.
  unfold processClusterIPAM, claim_of. intros (s1 & cd & [= <- <-] & Hrun)%bind_inv. destruct (ict_spec _) as [spec|] eqn:Espec.
  - apply bind_inv in Hrun as (s2 & claim & (Hcd & (op & Hw) & Hst)%own_claim_Ok & [-> Ha]%use_claim_Ok).
    split; [done|]. exists claim, op. split; [done|]. split; [|done]. rewrite Hcd. split; [exact Hst|]. by rewrite Espec.
  - case_bool_decide as Href; [injection Hrun as <-; naive_solver|].
    apply bind_inv in Hrun as (s2 & claim & Hclaim & [-> Ha]%use_claim_Ok).
    apply bind_inv in Hclaim as (s3 & claim' & Hget & Hclaim). rewrite wrap_eq, Get_eq in Hget. cbn [fst snd] in Hget.
    destruct (c_get _ _) as [claim2|] eqn:Eg; [|done]. cbn [wrap_err] in Hget. simplify_eq.
    cbn beta zeta in Hclaim. case_bool_decide; cbn [negb] in Hclaim; [|done]. injection Hclaim as <- <-. split; [done|]. eauto.
Qed.

Lemma ipam_before_addressed s s' : processClusterIPAM MgmtClient cd_type s = (s', Ok tt) → asks_addresses (cd_of s) →
  ∃ claim, claim_of s' claim ∧ addressed s' claim.
Proof.
  intros Hrun%processClusterIPAM_Ok. unfold asks_addresses. destruct (ict_spec _) as [spec|].
  - destruct Hrun as (_ & claim & op & _ & Hc & Ha). eauto.
  - destruct Hrun as [-> Ha]. intros [?|Href]; [done|by apply Ha].
Qed.

(** C19: A cluster goes on to be created only with its addresses: when the step
    for addresses succeeds, the ClusterDeployment is as it was, and if it asked
    for addresses, the claim stored under the recorded name in the state the step
    ends in, read or just made from the spec, is bound, and the configuration has
    addresses switched on and holds a value for every network of the ClusterIPAM
    that claim refers to. If it asked for none, nothing at all was done. *)
Theorem ipam_before_cluster s s' : processClusterIPAM MgmtClient cd_type s = (s', Ok tt) →
  cd_of s' = cd_of s ∧
  (asks_addresses (cd_of s) → ∃ claim, claim_of s' claim ∧ addressed s' claim) ∧
  (¬ asks_addresses (cd_of s) → s' = s).
Proof.
  intros Hrun%processClusterIPAM_Ok. unfold asks_addresses in *. destruct (ict_spec _) as [spec|].
  - destruct Hrun as (Hcd & claim & op & _ & Hc & Ha). split; [done|]. split; [eauto|naive_solver].
  - destruct Hrun as [-> Ha]. split; [done|]. split; [|done]. intros [?|Href]; [done|by apply Ha].
Qed.
End first.

(** ** A cluster with one network *)

#[local] Instance ClusterIPAMClaimSpec_eq_dec : EqDecision ClusterIPAMClaimSpec.
Proof. solve_decision. Defined.
#[local] Instance ObjectMeta_eq_dec : EqDecision ObjectMeta.
Proof. solve_decision. Defined.
#[local] Instance ClusterIPAMClaim_eq_dec : EqDecision ClusterIPAMClaim.
Proof. solve_decision. Defined.
Record IpamServer := mkIpamServer { is_claims : gmap ObjectKey ClusterIPAMClaim; is_ipams : gmap ObjectKey ClusterIPAM; is_cd : option ClusterDeployment }.

Section demo.
#[local] Instance ipam_claim_getter : Getter IpamServer ClusterIPAMClaim := λ v k, mem_get ipc_meta "ClusterIPAMClaim" (is_claims v) k.
#[local] Instance ipam_claim_writer : Writer IpamServer ClusterIPAMClaim :=
  {| c_create v x := let '(m, err) := mem_create ipc_meta "ClusterIPAMClaim" (is_claims v) x in (mkIpamServer m (is_ipams v) (is_cd v), err);
     c_update v x := let '(m, err) := mem_update ipc_meta "ClusterIPAMClaim" (is_claims v) x in (mkIpamServer m (is_ipams v) (is_cd v), err) |}.
#[local] Instance ipam_getter : Getter IpamServer ClusterIPAM := λ v k, mem_get ipam_meta "ClusterIPAM" (is_ipams v) k.
#[local] Instance ipam_cd_refresher : Refresher IpamServer ClusterDeployment :=
  {| c_update_refresh v x := (mkIpamServer (is_claims v) (is_ipams v) (Some x), x, None);
     c_patch_label v x _ _ := (v, x, None);
     c_status_update v x := (v, x, None) |}.
#[local] Instance ipam_claim_storing : Storing (C:=IpamServer) ipc_meta.
Proof.
  split.
  - intros c k x Hx. by apply mem_get_Ok in Hx as [_ ?].
  - intros c x c' Hc. unfold c_create in Hc. simpl in Hc. destruct (mem_create _ _ _ _) as [m err] eqn:E. injection Hc as <- ->.
    exact (mem_create_stored _ _ _ _ _ E).
  - intros c x c' Hc. unfold c_update in Hc. simpl in Hc. destruct (mem_update _ _ _ _) as [m err] eqn:E. injection Hc as <- ->.
    exact (mem_update_stored _ _ _ _ _ E).
Qed.
#[local] Instance ipam_claim_updater : CreateOrUpdater IpamServer ClusterIPAMClaim ipc_meta :=
  {| CreateOrUpdate S := mem_create_or_update (S:=S) ipc_meta; create_or_update_does S := mem_create_or_update_does (S:=S) ipc_meta |}.


(** An encoding that knows one object. *)
Definition with_addresses : values := <["net" := JNull]> {["ipamEnabled" := JBool true]}.
#[local] Instance one_object : Json :=
  {| json_Marshal_map m := Ok (if bool_decide (is_Some (m !! "ipamEnabled")) then "with addresses" else "{}");
     json_RawMessage _ := JNull;
     json_Unmarshal_map raw := Ok (Some (if bool_decide (raw = "with addresses") then with_addresses else ∅));
     yaml_Unmarshal_map raw := Ok (Some ∅) |}.
#[local] Existing Instance simple_conditions.

Definition ipam_cd (ref : string) (config : option string) : ClusterDeployment :=
  mkCD (named_meta "prod" "c1")
    (mkCDSpec config None (mkIPAMClaimType (Some (mkIPAMClaimSpec "in-cluster" "c1" "" "10.0.0.0/24" "" "")) ref) "tpl" "" "" "" "" ""
       (empty_service_spec []) false false)
    (mkCDStatus [] [] "" "" "" [] [] 0).
Definition ipam_state (v : IpamServer) (cd : ClusterDeployment) : rstate unit IpamServer :=
  mkRState (mkFleet (λ _, v) [])
    (mkScope cd (mkCredential (named_meta "prod" "") (mkCredentialSpec None "" "") (mkCredentialStatus [] false)) None None None None None
       () (mkDeletionState false false false false false)) ∅.
Definition cd_kind (_ : ClusterDeployment) : string * string := ("k0rdent.mirantis.com/v1beta1", "ClusterDeployment").
Notation pass v cd := (processClusterIPAM () cd_kind (ipam_state v cd)).
Notation server s := (at_ (rs_fleet s) ()).

(** The claim is made and its name recorded; while it is not bound nothing more
    happens; then the values are written; then the cluster may be created. *)
Definition first_pass := pass (mkIpamServer ∅ ∅ None) (ipam_cd "" None).
Definition second_pass := pass (server first_pass.1) (cd_of first_pass.1).
(** The IPAM provider binds the claim. *)
Definition bind_claim (v : IpamServer) : IpamServer :=
  mkIpamServer ((λ c, mkIPAMClaim (ipc_meta c) (mkIPAMClaimSpec "in-cluster" "c1" "c1-ipam" "10.0.0.0/24" "" "") true) <$> is_claims v)
    {[mkKey "prod" "c1-ipam" := mkIPAM (named_meta "prod" "c1-ipam") [mkProviderData (Some "{}") "net" true]]} (is_cd v).
Definition third_pass := pass (bind_claim (server second_pass.1)) (cd_of second_pass.1).
Definition fourth_pass := pass (server third_pass.1) (cd_of third_pass.1).
Definition fails_with (message : string) (r : result unit) : bool :=
  match r with Ok _ => false | Err e => errors_Is message e end.
Example ipam_passes :
  fails_with errClusterDeploymentSpecUpdated first_pass.2 = true ∧
  ict_ref (cds_ipamClaim (cd_spec (cd_of first_pass.1))) = "c1-ipam" ∧
  fails_with errIPAMNotReady second_pass.2 = true ∧
  fails_with errClusterDeploymentSpecUpdated third_pass.2 = true ∧ is_ok fourth_pass.2 = true.
Proof. by vm_compute. Qed.

Lemma ipam_before_cluster_witness :
  ∃ claim, claim_of () fourth_pass.1 claim ∧ addressed () fourth_pass.1 claim.
Proof.
  assert (fourth_pass = (fourth_pass.1, Ok tt)) as Hrun by (vm_compute; reflexivity).
  apply (ipam_before_cluster () cd_kind _ _ Hrun). left. by vm_compute.
Defined.
End demo.
