(* ===== verification/ClusterServices.v ===== *)
(** * The services of a ClusterDeployment
    ([src/internal/controller/clusterdeployment_controller.go]: [updateServices],
    [setServicesCondition], [collectServicesStatuses], [createOrUpdateServiceSet],
    [validateServiceSetK8sCompatibility]).

    The ServiceSet of the cluster itself is built and written by the pipeline of
    [ServiceSetPipeline], behind a check of the Kubernetes version; the status
    sums up every ServiceSet of the cluster. *)

From S2P Require Import Prelude GoStrings Api Kube Conditions ApiManagement Effects TemplateChain ServiceBasics ServiceDeps ServiceOrder ServiceUpgrades ServiceSetPipeline DependencyGraph ServiceValidation Cluster Compatibility SveltosTypes ClusterTypes.

(** ** States of services *)

Definition type_string (t : ServiceType) : string :=
  match t with
  | ServiceTypeHelm => "Helm" | ServiceTypeKustomize => "Kustomize"
  | ServiceTypeResource => "Resource" | ServiceTypeUnset => ""
  end.

(** The comparison of the sort, [cmp(a, b) <= 0]. *)
Definition state_leb (a b : ServiceState) : bool :=
  if negb (bool_decide (type_string (st_type a) = type_string (st_type b)))
  then string_leb (type_string (st_type a)) (type_string (st_type b))
  else if negb (bool_decide (st_namespace a = st_namespace b)) then string_leb (st_namespace a) (st_namespace b)
  else string_leb (st_name a) (st_name b).

Definition sset_states (serviceSet : ServiceSet) : list ServiceState := ssst_services (sset_status serviceSet).
Definition collectServicesStatuses (serviceSets : list ServiceSet) : list ServiceState :=
  isort state_leb (foldl (λ states serviceSet, states ++ sset_states serviceSet) [] serviceSets).

(** The states by service; sets that go away and services that do are left out. *)
Definition add_state (m : gmap ObjectKey (list ServiceState)) (svc : ServiceState) : gmap ObjectKey (list ServiceState) :=
  if bool_decide (st_state svc = ServiceStateDeleting) then m
  else <[st_key svc := default [] (m !! st_key svc) ++ [svc]]> m.
Definition add_set (m : gmap ObjectKey (list ServiceState)) (serviceSet : ServiceSet) : gmap ObjectKey (list ServiceState) :=
  if being_deleted (sset_meta serviceSet) then m else foldl add_state m (sset_states serviceSet).
Definition serviceStateMap (serviceSets : list ServiceSet) : gmap ObjectKey (list ServiceState) := foldl add_set ∅ serviceSets.

Definition deployed_state (s : ServiceState) : bool := bool_decide (st_state s = ServiceStateDeployed).
Definition totalServices (serviceSets : list ServiceSet) : nat := size (serviceStateMap serviceSets).
(** The order in which the map is gone through does not matter to a count. *)
Definition readyServices (serviceSets : list ServiceSet) : nat :=
  length (filterb (λ svc : ObjectKey * list ServiceState, existsb deployed_state svc.2) (map_to_list (serviceStateMap serviceSets))).
Definition services_condition (serviceSets : list ServiceSet) : Condition :=
  let total := totalServices serviceSets in
  let ready := readyServices serviceSets in
  let message := pretty ready +:+ "/" +:+ pretty total in
  if bool_decide (ready < total) then mkCondition ServicesInReadyStateCondition CondFalse FailedReason message 0 0
  else mkCondition ServicesInReadyStateCondition CondTrue SucceededReason message 0 0.
Definition setServicesCondition `{!StatusConditions} (serviceSets : list ServiceSet) (cd : ClusterDeployment) : ClusterDeployment :=
  put_condition (services_condition serviceSets) cd.

(** ** Writing the ServiceSet *)

Definition errK8sCompatibilityCheck := "failed to check the k8s constraints of the resolved services".

Section services.
Context `{!MapRange ObjectKey} `{!MapRange string} `{Semver} `{!SemverConstraints}.
Context {Handle C : Type} `{EqDecision Handle} `{!StatusConditions}.
Context `{!Getter C ServiceTemplate} `{!Getter C ServiceTemplateChain} `{!Getter C ServiceSet}.
Context `{!Getter C StateManagementProvider} `{!Lister C ServiceSet} `{!Writer C ServiceSet}.
Variable MgmtClient : Handle.
Variable json_Marshal : legacy_config → result string.
Variable selector_requirements : LabelSelector → result (list SelRequirement).
Variable SystemNamespace : string.
Variable IsDisabledValidationWH : bool.
Notation St := (rstate Handle C).

Definition cd_desired (cd : ClusterDeployment) : list Service := ss_services (cds_serviceSpec (cd_spec cd)).

Definition disabled (cd : ClusterDeployment) : gset ObjectKey :=
  list_to_set (svc_key <$> filterb svc_disable (cd_desired cd)).
Definition resolved_input (cd : ClusterDeployment) (serviceSet : ServiceSet) : K8sCompatibilityInput :=
  mkK8sInput (cdst_kubernetesVersion (cd_status cd))
    ("the ClusterDeployment " +:+ key_string (cd_key cd))
    (om_namespace (sset_meta serviceSet))
    ("the ServiceSet " +:+ key_string (meta_key (sset_meta serviceSet)))
    (sv_template <$> filterb (λ svc, negb (bool_decide (sv_key svc ∈ disabled cd))) (sss_services (sset_spec serviceSet))).
Definition validateServiceSetK8sCompatibility (c : C) (cd : ClusterDeployment) (serviceSet : ServiceSet) : option gerror :=
  match ServiceTemplatesK8sCompatibility c (resolved_input cd serviceSet) with
  | Some err =>
      if errors_Is ErrK8sConstraintViolated err then Some err
      else Some (ErrMark errK8sCompatibilityCheck (ErrWrap (errK8sCompatibilityCheck +:+ ": ") err))
  | None => None
  end.

Definition requisites (cd : ClusterDeployment) : OperationRequisites := mkRequisites (cd_key cd) None (Some cd) SystemNamespace.
Definition createOrUpdateServiceSet (cd : ClusterDeployment) : M St unit :=
  found ← gets (λ s, wrap_err ("failed to get ServiceSet " +:+ key_string (cd_key cd) +:+ ": ")
                       (GetServiceSetWithOperation (at_ (rs_fleet s) MgmtClient) json_Marshal selector_requirements (requisites cd))) ≫= lift;
  let '(serviceSet, op) := found in
  _ ← gets (λ s, validateServiceSetK8sCompatibility (at_ (rs_fleet s) MgmtClient) cd serviceSet) ≫= fail_if;
  if bool_decide (op = ServiceSetOperationNone) then mret tt
  else call (client_of MgmtClient) (effect (λ c, CreateOrUpdateServiceSet c op serviceSet)).

(** ** The services of a reconcile *)

Definition k8s_incompatible (err : gerror) : M St unit := setCondition ServicesK8sCompatibleCondition FailedReason CondFalse (Some err).
Definition k8s_unknown (err : gerror) : M St unit := setCondition ServicesK8sCompatibleCondition ProgressingReason CondUnknown (Some err).

(** Without the webhook the dependencies are checked here. *)
Definition dependencies_valid (cd : ClusterDeployment) : M St bool :=
  if IsDisabledValidationWH then
    match ValidateServiceDependencyOverall (cd_desired cd) with
    | Some err => _ ← setCondition ServicesDependencyValidationCondition FailedReason CondFalse (Some err); mret false
    | None => _ ← setCondition ServicesDependencyValidationCondition SucceededReason CondTrue None; mret true
    end
  else mret true.

(** From the list of the ServiceSets on: the status. *)
Definition report_services (cd : ClusterDeployment) : M St unit :=
  serviceSetList ← wrapM ("failed to list ServiceSets matching " +:+ om_namespace (cd_meta cd) +:+ "/" +:+ om_name (cd_meta cd) +:+ " ClusterDeployment: ")
    (ListObjects ServiceSet (client_of MgmtClient) (om_namespace (cd_meta cd)) (MatchingField ExtractServiceSetCluster (om_name (cd_meta cd))));
  _ ← upd_cd (λ cd, set_cd_services (collectServicesStatuses serviceSetList) (cdst_servicesUpgradePaths (cd_status cd)) cd);
  upgrades ← gets (λ s, ServicesUpgradePaths (at_ (rs_fleet s) MgmtClient) (cd_desired cd) (om_namespace (cd_meta cd)));
  _ ← upd_cd (λ cd, set_cd_services (cdst_services (cd_status cd)) upgrades.1 cd);
  _ ← upd_cd (setServicesCondition serviceSetList);
  fail_if upgrades.2.

Definition refuse_services (cd : ClusterDeployment) (err : gerror) : M St unit :=
  if errors_Is ErrK8sConstraintViolated err then k8s_incompatible err
  else
    _ ← when (errors_Is errK8sCompatibilityCheck err) (k8s_unknown err);
    fail (ErrWrap ("failed to create or update ServiceSet for ClusterDeployment " +:+ key_string (cd_key cd) +:+ ": ") err).
(** The ServiceSet, and what there is to say about it. *)
Definition deploy_services (cd : ClusterDeployment) : M St unit :=
  written ← try (the_cd ≫= createOrUpdateServiceSet);
  match written with
  | Err err => refuse_services cd err
  | Ok _ =>
      _ ← setCondition ServicesK8sCompatibleCondition SucceededReason CondTrue None;
      the_cd ≫= report_services
  end.

Definition updateServices (clusterTpl : ClusterTemplate) : M St unit :=
  cd ← the_cd;
  compatible ← gets (λ s, ClusterTemplateK8sCompatibility (at_ (rs_fleet s) MgmtClient) clusterTpl cd);
  match compatible with
  | Some err =>
      if negb (errors_Is ErrK8sConstraintViolated err)
      then _ ← k8s_unknown err; fail (ErrWrap "failed to check the k8s constraints of the services: " err)
      else k8s_incompatible err
  | None =>
      valid ← dependencies_valid cd;
      if negb valid then mret tt
      else
        deploy_services cd
  end.
End services.

(** ** Counting services *)

Lemma service_order_total a b : state_leb a b = true ∨ state_leb b a = true.
Proof. unfold state_leb. repeat case_bool_decide; simpl; try congruence; apply string_leb_total. Qed.
Lemma service_order_trans a b c : state_leb a b = true → state_leb b c = true → state_leb a c = true.
Proof.
  unfold state_leb. repeat case_bool_decide; simpl; intros Hab Hbc; try congruence;
    repeat match goal with H : ?x = _, H' : ?x = _ |- _ => rewrite H in H' end;
    try (eapply string_leb_trans; [|eassumption]; congruence);
    try (eapply string_leb_trans; eassumption);
    try (exfalso; match goal with H : ¬ _ |- _ => apply H; apply string_leb_antisym; congruence end).
Qed.

(** What is counted: of the sets that stay, the services that do. *)
Definition counted (serviceSets : list ServiceSet) : list ServiceState :=
  filterb (λ s, negb (bool_decide (st_state s = ServiceStateDeleting)))
    (filterb (λ ss, negb (being_deleted (sset_meta ss))) serviceSets ≫= sset_states).
Definition of_key (k : ObjectKey) (l : list ServiceState) : list ServiceState := filterb (λ s, bool_decide (st_key s = k)) l.
Definition keys_of (l : list ServiceState) : gset ObjectKey := list_to_set (st_key <$> l).

Lemma filterb_cons {A} (p : A → bool) x l : filterb p (x :: l) = if p x then x :: filterb p l else filterb p l.
Proof. unfold filterb. rewrite filter_cons. by destruct (p x). Qed.
Lemma filterb_app {A} (p : A → bool) l k : filterb p (l ++ k) = filterb p l ++ filterb p k.
Proof. apply filter_app. Qed.

Definition group (m : gmap ObjectKey (list ServiceState)) (svc : ServiceState) : gmap ObjectKey (list ServiceState) :=
  <[st_key svc := default [] (m !! st_key svc) ++ [svc]]> m.
Lemma serviceStateMap_counted serviceSets : serviceStateMap serviceSets = foldl group ∅ (counted serviceSets).
Proof.
  unfold serviceStateMap, counted. generalize (∅ : gmap ObjectKey (list ServiceState)).
  induction serviceSets as [|ss l IH]; intros m; [done|]. cbn [foldl]. rewrite IH. clear IH.
  rewrite filterb_cons. unfold add_set. destruct (being_deleted _); cbn [negb]; [done|].
  rewrite bind_cons, filterb_app, foldl_app.
  assert (∀ states m, foldl add_state m states =
    foldl group m (filterb (λ s, negb (bool_decide (st_state s = ServiceStateDeleting))) states)) as ->; [|done].
  clear. induction states as [|s states IH]; intros m; [done|]. cbn [foldl]. rewrite IH, filterb_cons.
  unfold add_state. by case_bool_decide.
Qed.

Lemma group_lookup l : ∀ (m : gmap ObjectKey (list ServiceState)) k,
  foldl group m l !! k = match of_key k l with [] => m !! k | states => Some (default [] (m !! k) ++ states) end.
Proof.
  induction l as [|s l IH]; intros m k; [done|]. cbn [foldl]. rewrite IH. unfold of_key. rewrite filterb_cons. unfold group.
  case_bool_decide as Ek; [subst; rewrite lookup_insert_eq|by rewrite lookup_insert_ne].
  destruct (filterb _ l); [done|]. f_equal. simpl. by rewrite <- (assoc_L (++)).
Qed.
Lemma serviceStateMap_lookup serviceSets k :
  serviceStateMap serviceSets !! k = match of_key k (counted serviceSets) with [] => None | states => Some states end.
Proof. rewrite serviceStateMap_counted, group_lookup. by destruct (of_key _ _). Qed.

Lemma keys_of_elem k l : k ∈ keys_of l ↔ ∃ s, s ∈ l ∧ st_key s = k.
Proof. unfold keys_of. rewrite elem_of_list_to_set, list_elem_of_fmap. naive_solver. Qed.
Lemma of_key_elem k l s : s ∈ of_key k l ↔ s ∈ l ∧ st_key s = k.
Proof. unfold of_key. rewrite filterb_elem_of. by rewrite bool_decide_eq_true. Qed.

Lemma totalServices_keys serviceSets : totalServices serviceSets = size (keys_of (counted serviceSets)).
Proof.
  unfold totalServices. rewrite <- size_dom. f_equal. apply set_eq. intros k. rewrite elem_of_dom, serviceStateMap_lookup, keys_of_elem.
  destruct (of_key k _) as [|s l] eqn:E.
  - split; [by intros []|]. intros (s & Hs). apply of_key_elem in Hs. rewrite E in Hs. by apply elem_of_nil in Hs.
  - split; [|done]. intros _. exists s. apply of_key_elem. rewrite E. left.
Qed.
Lemma readyServices_keys serviceSets :
  readyServices serviceSets = size (keys_of (filterb deployed_state (counted serviceSets))).
Proof.
  unfold readyServices. set (p := λ svc : ObjectKey * list ServiceState, existsb deployed_state svc.2). set (m := serviceStateMap serviceSets).
  assert (NoDup ((filterb p (map_to_list m)).*1)) as Hn.
  { eapply sublist_NoDup; [apply (NoDup_fst_map_to_list m)|]. apply sublist_fmap, filterb_sublist. }
  assert (keys_of (filterb deployed_state (counted serviceSets)) = list_to_set (filterb p (map_to_list m)).*1) as ->.
  { apply set_eq. intros k. rewrite keys_of_elem, elem_of_list_to_set, list_elem_of_fmap. split.
    - intros (s & [Hs Hd]%filterb_elem_of & Hk). exists (k, of_key k (counted serviceSets)). split; [done|].
      assert (s ∈ of_key k (counted serviceSets)) as Hin by (by apply of_key_elem).
      apply filterb_elem_of. split.
      + apply elem_of_map_to_list. unfold m. rewrite serviceStateMap_lookup. destruct (of_key k _); [by apply elem_of_nil in Hin|done].
      + unfold p. apply existsb_exists. exists s. split; [by apply list_elem_of_In|done].
    - intros ([k' l] & -> & [Hl Hp]%filterb_elem_of). apply elem_of_map_to_list in Hl. unfold m in Hl. rewrite serviceStateMap_lookup in Hl.
      apply existsb_exists in Hp as (s & Hs%list_elem_of_In & Hd). cbn [fst snd] in *. exists s.
      assert (s ∈ of_key k' (counted serviceSets)) as [? ?]%of_key_elem by (destruct (of_key k' _); [done|]; congruence).
      split; [|done]. by apply filterb_elem_of. }
  rewrite size_list_to_set by done. by rewrite length_fmap.
Qed.

(** C39: The condition on the services counts each service once, however many
    ServiceSets deploy it: the total is the number of services that are not
    being deleted in sets that are not either, the first number, never larger,
    is how many of them some set has deployed, and the condition is true
    exactly when all are. *)
Theorem services_condition_counts `{!StatusConditions} serviceSets cd :
  let total := keys_of (counted serviceSets) in
  let ready := keys_of (filterb deployed_state (counted serviceSets)) in
  ready ⊆ total ∧ size ready ≤ size total ∧
  ∃ c, cd_condition ServicesInReadyStateCondition (setServicesCondition serviceSets cd) = Some c ∧
    cond_message c = pretty (size ready) +:+ "/" +:+ pretty (size total) ∧
    (cond_status c = CondTrue ↔ ready = total) ∧ (cond_status c ≠ CondTrue ↔ cond_status c = CondFalse).
Proof.
  cbn zeta. set (total := keys_of (counted serviceSets)). set (ready := keys_of (filterb _ _)).
  assert (ready ⊆ total) as Hsub.
  { intros k. unfold ready, total. rewrite !keys_of_elem. intros (s & [Hs _]%filterb_elem_of & Hk). eauto. }
  split; [done|]. assert (size ready ≤ size total) as Hle; [by apply subseteq_size|]. split; [done|].
  unfold setServicesCondition. destruct (cd_condition_set (services_condition serviceSets) cd) as (c & Hc & Hst).
  exists c. revert Hc Hst. unfold services_condition. rewrite totalServices_keys, readyServices_keys. fold total ready.
  case_bool_decide as Hlt; intros Hc (? & -> & ? & -> & ?); cbn; (split; [exact Hc|]).
  - split; [done|]. split; [|done]. split; [done|]. intros Heq. rewrite Heq in Hlt. lia.
  - split; [done|]. split; [|done]. split; [|done]. intros _. apply set_subseteq_size_eq; [done|lia].
Qed.

(** Every state of every set is listed, in order of type, namespace and name;
    states of one service stay in the order of their sets. *)
Lemma collectServicesStatuses_sorted serviceSets t ns n :
  let all := serviceSets ≫= sset_states in
  let same := λ s, st_type s = t ∧ st_namespace s = ns ∧ st_name s = n in
  collectServicesStatuses serviceSets ≡ₚ all ∧
  StronglySorted (Rle state_leb) (collectServicesStatuses serviceSets) ∧
  filter same (collectServicesStatuses serviceSets) = filter same all.
Proof.
  cbn zeta. unfold collectServicesStatuses.
  assert (∀ acc, foldl (λ states serviceSet, states ++ sset_states serviceSet) acc serviceSets = acc ++ (serviceSets ≫= sset_states)) as ->.
  { induction serviceSets as [|ss l IH]; intros acc; [by rewrite app_nil_r|]. cbn [foldl]. rewrite IH, bind_cons. by rewrite (assoc_L (++)). }
  split; [apply isort_perm|]. split; [apply isort_sorted; [apply service_order_total|apply service_order_trans]|].
  apply isort_stable. intros a b (Ha & Ha' & Ha'') (Hb & Hb' & Hb''). unfold state_leb. rewrite Ha, Ha', Ha'', Hb, Hb', Hb'', !bool_decide_eq_true_2 by done.
  cbn. by destruct (string_leb_total n n).
Qed.

(** ** Nothing is deployed that the cluster does not fit *)

Section fit.
Context `{!MapRange ObjectKey} `{!MapRange string} `{Semver} `{!SemverConstraints}.
Context {Handle C : Type} `{EqDecision Handle} `{!StatusConditions}.
Context `{!Getter C ServiceTemplate} `{!Getter C ServiceTemplateChain} `{!Getter C ServiceSet}.
Context `{!Getter C StateManagementProvider} `{!Lister C ServiceSet} `{!Writer C ServiceSet}.
Variable MgmtClient : Handle.
Variable json_Marshal : legacy_config → result string.
Variable selector_requirements : LabelSelector → result (list SelRequirement).
Variable SystemNamespace : string.
Variable IsDisabledValidationWH : bool.
Notation St := (rstate Handle C).
Notation mgmt s := (at_ (rs_fleet s) MgmtClient).
Notation get_set c cd := (GetServiceSetWithOperation c json_Marshal selector_requirements (requisites SystemNamespace cd)).
Notation create_or_update := (createOrUpdateServiceSet MgmtClient json_Marshal selector_requirements SystemNamespace).
Notation update := (updateServices MgmtClient json_Marshal selector_requirements SystemNamespace IsDisabledValidationWH).

(** Templates that can all run on a version; without one nothing is checked. *)
Definition fits (c : C) (ns version : string) (templates : list string) : Prop :=
  templates = [] ∨ version = "" ∨ ∃ v, NewVersion version = Some v ∧ ∀ t, t ∈ templates → template_allows c ns v t.

Lemma compatible_fits (c : C) input :
  ServiceTemplatesK8sCompatibility c input = None ↔ fits c (k8s_Namespace input) (K8sVersion input) (k8s_Templates input).
Proof.
  unfold ServiceTemplatesK8sCompatibility, fits. destruct (k8s_Templates input) as [|t l] eqn:El; [by cbn; naive_solver|].
  rewrite (bool_decide_eq_false_2 (length _ = 0)) by done. case_bool_decide; [by cbn; naive_solver|]. cbn [orb].
  destruct (NewVersion _) as [v|]; [|naive_solver]. rewrite templates_k8s_error_None. naive_solver.
Qed.

(** The enabled services asked for, and those of the ServiceSet to be. *)
Definition requested_fit (c : C) (clusterTpl : ClusterTemplate) (cd : ClusterDeployment) : Prop :=
  fits c (om_namespace (cd_meta cd)) (ctst_kubernetesVersion (ct_status clusterTpl))
    (svc_template <$> filterb (λ svc, negb (svc_disable svc)) (cd_desired cd)).
Definition resolved_fit (c : C) (cd : ClusterDeployment) (serviceSet : ServiceSet) : Prop :=
  fits c (om_namespace (sset_meta serviceSet)) (cdst_kubernetesVersion (cd_status cd))
    (sv_template <$> filterb (λ svc, negb (bool_decide (sv_key svc ∈ disabled cd))) (sss_services (sset_spec serviceSet))).

Lemma validate_fits c cd serviceSet : validateServiceSetK8sCompatibility c cd serviceSet = None ↔ resolved_fit c cd serviceSet.
Proof.
  unfold validateServiceSetK8sCompatibility, resolved_fit. rewrite <- (compatible_fits c (resolved_input cd serviceSet)).
  destruct (ServiceTemplatesK8sCompatibility _ _); [|done]. by destruct (errors_Is _ _).
Qed.

(** The ClusterDeployment once its dependencies have been found valid. *)
Definition checked_cd (cd : ClusterDeployment) : ClusterDeployment :=
  if IsDisabledValidationWH then cd_setCondition ServicesDependencyValidationCondition SucceededReason CondTrue None cd else cd.

Lemma createOrUpdate_outcome cd (s : St) :
  let c := mgmt s in
  create_or_update cd s =
  match get_set c cd with
  | Err e => (s, Err (ErrWrap ("failed to get ServiceSet " +:+ key_string (cd_key cd) +:+ ": ") e))
  | Ok (serviceSet, op) =>
      match validateServiceSetK8sCompatibility c cd serviceSet with
      | Some err => (s, Err err)
      | None => if bool_decide (op = ServiceSetOperationNone) then (s, Ok tt)
                else (put_fleet MgmtClient (CreateOrUpdateServiceSet c op serviceSet).1 s,
                      err_result (CreateOrUpdateServiceSet c op serviceSet).2)
      end
  end.
Proof.
  cbn zeta. unfold createOrUpdateServiceSet. rewrite bind_eq, gets_lift_eq. destruct (get_set _ cd) as [[serviceSet op]|e]; [|done]. cbn [wrap_err].
  rewrite bind_eq, bind_eq. cbn [gets]. destruct (validateServiceSetK8sCompatibility _ _ _); [done|]. cbn.
  case_bool_decide; [done|]. by rewrite (call_effect_eq (client_of MgmtClient) (λ c, CreateOrUpdateServiceSet c op serviceSet)).
Qed.

Lemma services_condition_type serviceSets : cond_type (services_condition serviceSets) = ServicesInReadyStateCondition.
Proof. unfold services_condition. by case_bool_decide. Qed.

(** Reporting writes to no cluster and leaves the verdict on the version alone. *)
Definition reported (s s' : St) : Prop :=
  rs_fleet s' = rs_fleet s ∧ cd_condition ServicesK8sCompatibleCondition (cd_of s') = cd_condition ServicesK8sCompatibleCondition (cd_of s).
Lemma reported_upd s f : (∀ cd, cd_condition ServicesK8sCompatibleCondition (f cd) = cd_condition ServicesK8sCompatibleCondition cd) →
  keeps (reported s) (upd_cd f).
Proof. intros Hf. apply keeps_modify. intros s' [Hfl Hc]. split; [done|]. cbn. by rewrite Hf. Qed.
Lemma report_services_reported cd s : reported s (report_services MgmtClient cd s).1.
Proof.
  assert (keeps (reported s) (report_services MgmtClient cd)) as Hk; [|exact (Hk s (conj eq_refl eq_refl))].
  unfold report_services. keep; apply reported_upd; intros cd'; try done.
  apply cd_condition_other. by rewrite services_condition_type.
Qed.

(** The set to be exists and fits. *)
Definition set_fits (c : C) (cd : ClusterDeployment) : Prop :=
  ∃ serviceSet op, get_set c cd = Ok (serviceSet, op) ∧ resolved_fit c cd serviceSet.

Lemma requested_compatible c clusterTpl cd : ClusterTemplateK8sCompatibility c clusterTpl cd = None ↔ requested_fit c clusterTpl cd.
Proof. apply compatible_fits. Qed.

Lemma dependencies_outcome (s : St) :
  let cd := cd_of s in
  (dependencies_valid IsDisabledValidationWH cd s = (set_cd (checked_cd cd) s, Ok true)) ∨
  (IsDisabledValidationWH = true ∧ ValidateServiceDependencyOverall (cd_desired cd) ≠ None) ∧
  ∃ err, dependencies_valid IsDisabledValidationWH cd s =
    (set_cd (cd_setCondition ServicesDependencyValidationCondition FailedReason CondFalse (Some err) cd) s, Ok false).
Proof.
  cbn zeta. unfold dependencies_valid, checked_cd. destruct IsDisabledValidationWH; [|left; by destruct s as [? [] ?]].
  destruct (ValidateServiceDependencyOverall _) as [err|] eqn:E; [right|by left]. split; [done|]. by exists err.
Qed.

(** Setting the verdict. *)
Lemma verdict_set reason status err (s : St) :
  ∃ v, cd_condition ServicesK8sCompatibleCondition (cd_of (set_cd (cd_setCondition ServicesK8sCompatibleCondition reason status err (cd_of s)) s)) = Some v ∧
    cond_status v = status.
Proof.
  destruct (cd_condition_set (new_condition ServicesK8sCompatibleCondition reason status err (cd_of s)) (cd_of s)) as (v & Hv & _ & Hs & _).
  exists v. split; [exact Hv|exact Hs].
Qed.

Definition verdict_is (status : ConditionStatus) (s : St) : Prop :=
  ∃ v, cd_condition ServicesK8sCompatibleCondition (cd_of s) = Some v ∧ cond_status v = status.
Lemma refuse_outcome cd err (s : St) :
  rs_fleet (refuse_services cd err s).1 = rs_fleet s ∧
  ((refuse_services cd err s).2 = Ok tt → errors_Is ErrK8sConstraintViolated err = true ∧ verdict_is CondFalse (refuse_services cd err s).1).
Proof.
  unfold refuse_services. destruct (errors_Is ErrK8sConstraintViolated err).
  - split; [done|]. intros _. split; [done|]. apply verdict_set.
  - by destruct (errors_Is errK8sCompatibilityCheck err).
Qed.
Lemma report_outcome (s : St) (m := setCondition ServicesK8sCompatibleCondition SucceededReason CondTrue None ≫= λ _, the_cd ≫= report_services MgmtClient) :
  rs_fleet (m s).1 = rs_fleet s ∧ verdict_is CondTrue (m s).1.
Proof.
  set (s1 := set_cd (cd_setCondition ServicesK8sCompatibleCondition SucceededReason CondTrue None (cd_of s)) s).
  change (m s) with (report_services MgmtClient (cd_of s1) s1).
  destruct (report_services_reported (cd_of s1) s1) as [Hf Hc]. split; [by rewrite Hf|]. unfold verdict_is. rewrite Hc. apply verdict_set.
Qed.

Lemma deploy_outcome cd0 (s : St) :
  (∀ op ss e, (CreateOrUpdateServiceSet (mgmt s) op ss).2 = Some e → errors_Is ErrK8sConstraintViolated e = false) →
  let '(s', r) := deploy_services MgmtClient json_Marshal selector_requirements SystemNamespace cd0 s in
  let fine := set_fits (mgmt s) (cd_of s) in
  (rs_fleet s' = rs_fleet s ∨ fine ∧ ∃ serviceSet op, get_set (mgmt s) (cd_of s) = Ok (serviceSet, op) ∧
     rs_fleet s' = fleet_put MgmtClient (CreateOrUpdateServiceSet (mgmt s) op serviceSet).1 (rs_fleet s)) ∧
  (r = Ok tt → fine ∧ verdict_is CondTrue s' ∨ ¬ fine ∧ verdict_is CondFalse s').
Proof.
  intros Hw. unfold deploy_services. rewrite bind_eq, try_eq, bind_eq. cbn [the_cd gets].
  rewrite createOrUpdate_outcome. unfold set_fits. destruct (get_set _ _) as [[serviceSet op]|e] eqn:Eg.
  - destruct (validateServiceSetK8sCompatibility _ _ _) as [err|] eqn:Ev.
    + assert (¬ ∃ ss op', Ok (serviceSet, op) = Ok (ss, op') ∧ resolved_fit (mgmt s) (cd_of s) ss) as Hn.
      { intros (? & ? & [= <- <-] & Hf%validate_fits). congruence. }
      cbn [fst snd]. pose proof (refuse_outcome cd0 err s) as [Hf Ho]. destruct (refuse_services _ _ _) as [s' r].
      split; [by left|]. intros Hr. right. split; [done|]. by apply Ho.
    + apply validate_fits in Ev. assert (∃ ss op', Ok (serviceSet, op) = Ok (ss, op') ∧ resolved_fit (mgmt s) (cd_of s) ss) as Hfine by eauto.
      set (s1 := if bool_decide (op = ServiceSetOperationNone) then s else put_fleet MgmtClient (CreateOrUpdateServiceSet (mgmt s) op serviceSet).1 s).
      assert (rs_fleet s1 = rs_fleet s ∨ rs_fleet s1 = fleet_put MgmtClient (CreateOrUpdateServiceSet (mgmt s) op serviceSet).1 (rs_fleet s)) as Hs1.
      { subst s1. case_bool_decide; [by left|by right]. }
      assert (∃ err, (if bool_decide (op = ServiceSetOperationNone) then (s, Ok tt)
          else (put_fleet MgmtClient (CreateOrUpdateServiceSet (mgmt s) op serviceSet).1 s, err_result (CreateOrUpdateServiceSet (mgmt s) op serviceSet).2))
          = (s1, err_result err) ∧ ∀ e, err = Some e → errors_Is ErrK8sConstraintViolated e = false) as (err & -> & Herr).
      { subst s1. case_bool_decide; [by exists None|]. eexists. split; [done|]. eauto. }
      cbn [fst snd]. destruct err as [e|]; cbn [err_result].
      * pose proof (refuse_outcome cd0 e s1) as [Hf Ho]. destruct (refuse_services _ _ _) as [s' r]. cbn [fst snd] in *. rewrite Hf.
        split; [destruct Hs1; eauto 8|]. intros Hr. apply Ho in Hr as [Hr _]. by rewrite Herr in Hr.
      * pose proof (report_outcome s1) as [Hf Ho]. match goal with |- let '(_, _) := ?m s1 in _ => destruct (m s1) as [s' r] end. cbn [fst snd] in *. rewrite Hf.
        split; [destruct Hs1; eauto 8|]. intros _. left. done.
  - assert (¬ ∃ (ss : ServiceSet) (op' : ServiceSetOperation), Err e = Ok (ss, op') ∧ resolved_fit (mgmt s) (cd_of s) ss) as Hn; [by intros (? & ? & [=] & _)|].
    cbn [fst snd]. match goal with |- context [refuse_services cd0 ?err s] => pose proof (refuse_outcome cd0 err s) as [Hf Ho] end.
    destruct (refuse_services _ _ _) as [s' r]. split; [by left|]. intros Hr. right. split; [done|]. by apply Ho.
Qed.

(** C18: The ServiceSet of a cluster is only written when every enabled service
    asked for can run on the Kubernetes version of the template and every one
    the set is to carry, hops of an upgrade included, on the version of the
    cluster; nothing else is written. And a reconcile of the services that goes
    through, their dependencies being in order, says so: the verdict is true
    exactly when both hold, false otherwise. *)
Theorem services_fit_cluster clusterTpl (s s' : St) r :
  (∀ op ss e, (CreateOrUpdateServiceSet (mgmt s) op ss).2 = Some e → errors_Is ErrK8sConstraintViolated e = false) →
  update clusterTpl s = (s', r) →
  let c := mgmt s in
  let cd := checked_cd (cd_of s) in
  let fine := requested_fit c clusterTpl (cd_of s) ∧ set_fits c cd in
  (rs_fleet s' = rs_fleet s ∨
   fine ∧ ∃ serviceSet op, get_set c cd = Ok (serviceSet, op) ∧
     rs_fleet s' = fleet_put MgmtClient (CreateOrUpdateServiceSet c op serviceSet).1 (rs_fleet s)) ∧
  (r = Ok tt → (IsDisabledValidationWH = true → ValidateServiceDependencyOverall (cd_desired (cd_of s)) = None) →
   ∃ verdict, cd_condition ServicesK8sCompatibleCondition (cd_of s') = Some verdict ∧
     (cond_status verdict = CondTrue ↔ fine) ∧ (cond_status verdict = CondFalse ↔ ¬ fine)).
Proof.
  intros Hw. cbn zeta. unfold updateServices. rewrite bind_eq. cbn -[cd_setCondition]. rewrite bind_eq. cbn -[cd_setCondition].
  destruct (ClusterTemplateK8sCompatibility _ _ _) as [err|] eqn:Ec.
  - assert (¬ requested_fit (mgmt s) clusterTpl (cd_of s)) as Hn by (rewrite <- requested_compatible, Ec; done).
    destruct (errors_Is _ err); cbn -[cd_setCondition]; intros [= <- <-]; (split; [by left|]); intros [=]. intros _.
    destruct (verdict_set FailedReason CondFalse (Some err) s) as (v & Hv & Hst). exists v. split; [exact Hv|]. rewrite Hst. split; [split; [done|tauto]|split; [tauto|done]].
  - apply requested_compatible in Ec. rewrite bind_eq.
    destruct (dependencies_outcome s) as [->|([Hwh Hne] & err & ->)]; cbn -[cd_setCondition createOrUpdateServiceSet report_services].
    2:{ intros [= <- <-]. split; [by left|]. intros _ Hok. by rewrite Hok in Hne. }
    intros Hd. pose proof (deploy_outcome (cd_of s) (set_cd (checked_cd (cd_of s)) s) Hw) as Ho. rewrite Hd in Ho. destruct Ho as [Hf Hok]. split.
    + destruct Hf as [Hf|(? & Hf)]; [by left|right]. split; [done|exact Hf].
    + intros Hr _. destruct (Hok Hr) as [[Hfine (v & Hv & Hs)]|[Hfine (v & Hv & Hs)]]; exists v; rewrite Hs; (split; [exact Hv|]).
      * split; [|split; [done|tauto]]. done.
      * split; [split; [done|tauto]|split; [tauto|done]].
Qed.
End fit.

(** ** A cluster at Kubernetes 1.32 *)

Section demo.
#[local] Existing Instance simple_conditions.
#[local] Existing Instance dotted_semver.
#[local] Existing Instance at_least_constraints.

Definition services_store : Cluster :=
  mkCluster (mkStore {[ mkKey "ns" "redis" := constrained_template "redis" "1.30"; mkKey "ns" "mesh" := constrained_template "mesh" "1.33" ]} ∅ ∅
    (store_providers pipeline_store)) ∅ ∅ ∅ ∅ ∅ ∅ ∅ ∅ ∅ ∅.
Definition services_cd (services : list Service) : ClusterDeployment :=
  mkCD (named_meta "ns" "cluster")
    (mkCDSpec None None no_ipamClaim "tpl" "" "" "" "" "" (empty_service_spec services) false false)
    (mkCDStatus [] [] "" "1.32" "" [] [] 0).
Definition services_tpl : ClusterTemplate :=
  mkClusterTemplate (named_meta "ns" "tpl") (mkClusterTemplateSpec (mkHelmSpec None None None) ∅ "" [])
    (mkClusterTemplateStatus ∅ "1.32" [] (mkTemplateStatus None None "" "" "" (mkTemplateValidation "" true) 0)).
Definition services_state (services : list Service) : rstate unit Cluster :=
  mkRState (mkFleet (λ _, services_store) [])
    (mkScope (services_cd services) (mkCredential (named_meta "ns" "") (mkCredentialSpec None "" "") (mkCredentialStatus [] false)) None None None None None
       () (mkDeletionState false false false false false)) ∅.
Notation run services := (updateServices () simple_marshal simple_requirements "sys" true services_tpl (services_state services)).

(** One service fits and is deployed; with another that does not, nothing is. *)
Definition redis := simple_service "redis" "redis" "7.0.0" [].
Definition mesh := simple_service "mesh" "mesh" "1.0.0" [].

Example redis_deployed :
  let s := (run [redis]).1 in
  (run [redis]).2 = Ok tt ∧
  map_to_list ((λ ss : ServiceSet, sv_template <$> sss_services (sset_spec ss)) <$> store_serviceSets (cl_store (at_ (rs_fleet s) ()))) =
    [(mkKey "ns" "cluster", ["redis"])].
Proof. split; vm_compute; reflexivity. Qed.

Lemma demo_writes_unmarked (c : Cluster) op ss e :
  (CreateOrUpdateServiceSet c op ss).2 = Some e → errors_Is ErrK8sConstraintViolated e = false.
Proof.
  unfold CreateOrUpdateServiceSet, c_create, c_update, cluster_write_serviceSet. destruct op; [| |done];
    destruct (has_serviceSet c ss); cbn -[not_found_err key_string]; try done; by intros [= <-].
Qed.

Definition verdict_of (s : rstate unit Cluster) : option ConditionStatus :=
  cond_status <$> cd_condition ServicesK8sCompatibleCondition (cd_of s).
Lemma services_fit_cluster_witness :
  let fine services := requested_fit services_store services_tpl (services_cd services) ∧
    set_fits simple_marshal simple_requirements "sys" services_store (checked_cd true (services_cd services)) in
  verdict_of (run [redis]).1 = Some CondTrue ∧ fine [redis] ∧
  verdict_of (run [redis; mesh]).1 = Some CondFalse ∧ ¬ fine [redis; mesh].
Proof.
  assert (∀ services status, (run services).2 = Ok tt → verdict_of (run services).1 = Some status →
    ValidateServiceDependencyOverall services = None →
    let fine := requested_fit services_store services_tpl (services_cd services) ∧
      set_fits simple_marshal simple_requirements "sys" services_store (checked_cd true (services_cd services)) in
    (status = CondTrue ↔ fine) ∧ (status = CondFalse ↔ ¬ fine)) as Hrun.
  { intros services status Hok Hst Hv.
    destruct (services_fit_cluster () simple_marshal simple_requirements "sys" true services_tpl (services_state services)
      (run services).1 (run services).2) as [_ Hs]; [intros op ss e; apply demo_writes_unmarked|by destruct (run services)|].
    destruct (Hs Hok (λ _, Hv)) as (v & Hc & Hiff). unfold verdict_of in Hst. rewrite Hc in Hst. cbn in Hst. by simplify_eq. }
  assert (verdict_of (run [redis]).1 = Some CondTrue) as H1 by (vm_compute; reflexivity).
  assert (verdict_of (run [redis; mesh]).1 = Some CondFalse) as H2 by (vm_compute; reflexivity).
  split; [done|]. split; [|split; [done|]].
  - by apply (Hrun [redis] CondTrue).
  - by apply (Hrun [redis; mesh] CondFalse).
Defined.
End demo.
