(* ===== verification/ClusterUpdate.v ===== *)
(** * The update of a cluster
    ([src/internal/controller/clusterdeployment_controller.go]:
    [reconcileUpdate] and what it calls; [src/internal/helm/actor.go]).

    The finalizer and the label first, then certificates, template, addresses,
    validation, resources, and only then the Helm release that creates the
    cluster; RBAC and services follow. *)

From Stdlib Require Import QArith.
From S2P Require Import Prelude GoStrings Api Kube Conditions ApiManagement Effects TemplateChain SveltosTypes ServiceBasics ServiceDeps ServiceOrder ServiceUpgrades ServiceSetPipeline DependencyGraph ServiceValidation Cluster Compatibility ContractVersions ClusterTypes AdmissionChecks Secrets HelmReleases ClusterStatus CapiConditions RbacSync ClusterRbac ClusterDelete ClusterValues ClusterResources ClusterIpam ClusterServices.
#[local] Open Scope nat_scope.

Definition errNoRetrigger := "validation failed with webhooks disabled, will not retrigger".
Definition kcm_group_version := "k0rdent.mirantis.com/v1beta1".

(** ** Other people's libraries *)

(** Helm: downloading a chart, setting up, and an installation that is not
    carried out. *)
Class HelmLibrary := {
  Chart : Type;
  DownloadChart : string → string → result Chart;
  Configuration_Init : string → option gerror;
  Install_DryRun : Chart → string → string → values → option gerror
}.
(** The conditions package of Flux: the Ready condition, and whether it is one. *)
Class FluxConditions := {
  Ready_of : HelmRelease → option Condition;
  IsReady : HelmRelease → bool
}.

(** ** Trying a chart ([actor.go]) *)

Section actor.
Context `{!Json} `{!HelmLibrary}.
Definition DownloadChartFromArtifact (artifact : option Artifact) : result Chart :=
  match artifact with
  | None => Err (ErrNew "helm chart artifact is not ready yet")
  | Some artifact => DownloadChart (art_url artifact) (art_digest artifact)
  end.
Definition InitializeConfiguration (cd : ClusterDeployment) : option gerror := Configuration_Init (om_namespace (cd_meta cd)).
Definition EnsureReleaseWithValues (hcChart : Chart) (cd : ClusterDeployment) : option gerror :=
  match HelmValues cd with
  | Err err => Some err
  | Ok vals => Install_DryRun hcChart (om_name (cd_meta cd)) (om_namespace (cd_meta cd)) vals
  end.
End actor.

(** [soonerResult]: of two times to come back after, the earlier; 0 is none. *)
Definition soonerResult (a b : Z) : Z :=
  if bool_decide (a = 0)%Z then b else if bool_decide (b = 0)%Z then a else Z.min a b.

Definition chart_ref (clusterTpl : ClusterTemplate) : option CrossNamespaceSourceReference :=
  tsc_chartRef (ctst_common (ct_status clusterTpl)).
Definition template_valid (clusterTpl : ClusterTemplate) : bool := tv_valid (tsc_validation (ctst_common (ct_status clusterTpl))).

Section update.
Context `{!MapRange ObjectKey} `{!MapRange string} `{Semver} `{!SemverConstraints}.
Context `{!Json} `{!ApiServerFiles} `{!OwnerSetters} `{!HelmLibrary} `{!FluxConditions} `{!CapiSummaries}.
Context {Handle C Scheme : Type} `{EqDecision Handle} `{!StatusConditions} `{!Finalizers}.
Context `{!Getter C Secret} `{!Writer C Secret} `{!Deleter C Secret} `{!CreateOrUpdater C Secret sec_meta}.
Context `{!Getter C PlainConfigMap} `{!Writer C PlainConfigMap} `{!Deleter C PlainConfigMap} `{!CreateOrUpdater C PlainConfigMap pcm_meta}.
Context `{!Getter C Namespace} `{!Writer C Namespace} `{!Getter C CapiCluster} `{!Lister C CapiCluster}.
Context `{!Getter C ClusterDataSource} `{!Writer C ClusterDataSource} `{!Getter C FluxHelmChart} `{!Getter C ClusterTemplate}.
Context `{!Getter C HelmRelease} `{!Writer C HelmRelease} `{!CreateOrUpdater C HelmRelease hrl_meta}.
Context `{!Getter C ClusterIPAMClaim} `{!Writer C ClusterIPAMClaim} `{!CreateOrUpdater C ClusterIPAMClaim ipc_meta} `{!Getter C ClusterIPAM}.
Context `{!Getter C Region} `{!Getter C Management} `{!Getter C Credential} `{!Lister C ProviderInterface}.
Context `{!Getter C ServiceTemplate} `{!Getter C ServiceTemplateChain} `{!Getter C ServiceSet} `{!Getter C StateManagementProvider}.
Context `{!Lister C ServiceSet} `{!Writer C ServiceSet} `{!Lister C ClusterTemplateChain}.
Context `{!Lister C ClusterDeployment} `{!StatusPatcher C ClusterDeployment} `{!Refresher C ClusterDeployment}.
Context `{!Getter C ClusterRole} `{!Writer C ClusterRole} `{!Deleter C ClusterRole} `{!Patcher C ClusterRole} `{!Lister C ClusterRole}.
Context `{!Getter C ClusterRoleBinding} `{!Writer C ClusterRoleBinding} `{!Deleter C ClusterRoleBinding} `{!Patcher C ClusterRoleBinding} `{!Lister C ClusterRoleBinding}.
Variable MgmtClient : Handle.
Variable clientFactory : string → Scheme → result Handle.
Variable client_scheme : Handle → Scheme.
Variable getSchemeFunc : result Scheme.
Variables SystemNamespace GlobalRegistry GlobalK0sURL K0sURLCertSecretName RegistryCertSecretName CldRegistryCredSecretName : string.
Variable sha256_4 : string → string.
Variable randStr : string.
Variable cd_type : ClusterDeployment → string * string.
Variable json_Marshal : legacy_config → result string.
Variable selector_requirements : LabelSelector → result (list SelRequirement).
Variable wait_Jitter : Z → Q → Z.
Variables now synced_at defaultRequeueTime DefaultHelmTimeout : Z.
Variable IsDisabledValidationWH : bool.
Notation St := (rstate Handle C).
Notation client s := (at_ (rs_fleet s) MgmtClient).

(** ** Validation *)

Definition getSourceArtifact (ref : option CrossNamespaceSourceReference) : M St (option Artifact) :=
  match ref with
  | None => fail (ErrNew "helm chart source is not provided")
  | Some ref =>
      let key := mkKey (cr_namespace ref) (cr_name ref) in
      hc ← wrapM ("failed to get HelmChart " +:+ key_string key +:+ ": ") (Get FluxHelmChart (client_of MgmtClient) key);
      mret (fhc_artifact hc)
  end.

(** The chart is not there: the code asks the artifact, which may be nil, where
    it was to come from. *)
Definition download_failed (helmChartArtifact : option Artifact) (err : gerror) : gerror :=
  match helmChartArtifact with
  | None => nil_dereference
  | Some artifact => ErrWrap ("failed to download HelmChart from Artifact " +:+ art_url artifact +:+ ": ") err
  end.
Definition chart_failed (err : gerror) : M St unit := _ ← setCondition HelmChartReadyCondition FailedReason CondFalse (Some err); fail err.
Definition validateConfig (cd : ClusterDeployment) (clusterTpl : ClusterTemplate) : M St unit :=
  got ← try (getSourceArtifact (chart_ref clusterTpl));
  match got with
  | Err err => chart_failed (ErrWrap "failed to get HelmChart Artifact: " err)
  | Ok helmChartArtifact =>
      match DownloadChartFromArtifact helmChartArtifact with
      | Err err =>
          let err := download_failed helmChartArtifact err in
          if panicking err then fail err else chart_failed err
      | Ok hcChart =>
          _ ← fail_if (InitializeConfiguration cd);
          match EnsureReleaseWithValues hcChart cd with
          | Some err => chart_failed (ErrWrap "failed to validate template with provided configuration: " err)
          | None => setCondition HelmChartReadyCondition SucceededReason CondTrue None
          end
      end
  end.

(** Clients built from a kubeconfig, looked through at a state. *)
Definition clients_at (s : St) (kubeconfig : string) (scheme : Scheme) : result C :=
  h ← clientFactory kubeconfig scheme; Ok (at_ (rs_fleet s) h).
Definition validateDeployOnce (clusterTpl : ClusterTemplate) (cd : ClusterDeployment) : M St unit :=
  ctErr ← gets (λ s, ErrWrap "failed to validate ClusterTemplate required providers: " <$> ClusterTemplateProviders (client s) clusterTpl cd);
  compErr ← gets (λ s, ClusterTemplateK8sCompatibility (client s) clusterTpl cd);
  let ctErr := match compErr with
               | Some compErr => errors_Join [ctErr; Some (ErrWrap "failed to validate ClusterTemplate K8s compatibility: " compErr)]
               | None => ctErr
               end in
  credErr ← gets (λ s, ClusterDeployCredential (clients_at s) getSchemeFunc SystemNamespace (client s) cd clusterTpl);
  _ ← match credErr with
      | Some err => setCondition CredentialReadyCondition FailedReason CondFalse (Some err)
      | None => setCondition CredentialReadyCondition SucceededReason CondTrue None
      end;
  fail_if (errors_Join [ctErr; ErrWrap "failed to validate Credential: " <$> credErr]).

Definition report_credential : M St unit :=
  cred ← gets (λ s, sc_cred (rs_scope s));
  if negb (crst_ready (cred_status cred))
  then setCondition CredentialReadyCondition FailedReason CondFalse
         (Some (ErrNew ("the Credential " +:+ key_string (meta_key (cred_meta cred)) +:+ " is not ready")))
  else setCondition CredentialReadyCondition SucceededReason CondTrue None.
Definition validateAndPrepareCluster (clusterTpl : ClusterTemplate) : M St unit :=
  cd ← the_cd;
  once ← (if IsDisabledValidationWH then try (validateDeployOnce clusterTpl cd) else mret (Ok tt));
  match once with
  | Err _ => fail (sentinel errNoRetrigger)
  | Ok _ =>
      cd ← the_cd;
      _ ← wrapM "failed to validate ClusterDeployment configuration: " (validateConfig cd clusterTpl);
      when (negb IsDisabledValidationWH) report_credential
  end.

Definition setInvalidTemplateCondition (clusterTpl : ClusterTemplate) : M St Z :=
  let validationError := tv_validationError (tsc_validation (ctst_common (ct_status clusterTpl))) in
  let err := ErrNew ("ClusterTemplate " +:+ key_string (meta_key (ct_meta clusterTpl)) +:+ " is not marked as valid" +:+
                     (if negb (bool_decide (validationError = "")) then ": " +:+ validationError else "")) in
  _ ← setCondition TemplateReadyCondition FailedReason CondFalse (Some err);
  if IsDisabledValidationWH then mret 0%Z else fail err.

(** ** A dry run *)

Definition chart_renamed (old new : string) : gerror :=
  ErrNew ("Helm chart name changed from " +:+ quote old +:+ " to " +:+ quote new +:+
    ": Flux will uninstall the existing release and reinstall it as a new release, which may cause service disruption or resource recreation").
Definition detectHelmChartNameChange (cd : ClusterDeployment) (clusterTpl : ClusterTemplate) : M St unit :=
  match chart_ref clusterTpl with
  | None => mret tt
  | Some ref =>
      got ← try (Get HelmRelease (client_of MgmtClient) (cd_key cd));
      match got with
      | Err err =>
          if IsNotFound err then upd_cd (remove_condition HelmChartNameChangedCondition)
          else fail (ErrWrap ("getting existing HelmRelease " +:+ key_string (cd_key cd) +:+ ": ") err)
      | Ok existingHR =>
          match hrs_chartRef (hrl_spec existingHR) with
          | None => upd_cd (remove_condition HelmChartNameChangedCondition)
          | Some existing =>
              if negb (bool_decide (cr_name existing = cr_name ref))
              then setCondition HelmChartNameChangedCondition HelmChartNameChangedReason CondTrue
                     (Some (chart_renamed (cr_name existing) (cr_name ref)))
              else upd_cd (remove_condition HelmChartNameChangedCondition)
          end
      end
  end.
Definition handleDryRun (clusterTpl : ClusterTemplate) : M St Z :=
  cd ← the_cd;
  _ ← wrapM "detecting Helm chart name change: " (detectHelmChartNameChange cd clusterTpl);
  mret 0%Z.

(** ** The Helm release *)

Definition release_owner (cd : ClusterDeployment) : OwnerReference :=
  mkOwner kcm_group_version ClusterDeploymentKind (om_name (cd_meta cd)) (om_uid (cd_meta cd)) false false.
Definition getHelmReleaseReconcileOpts (clusterTpl : ClusterTemplate) (scope : clusterScope Handle) : result ReconcileHelmReleaseOpts :=
  let cd := sc_cd scope in
  kubeconfigRef ← match sc_region scope with
                  | Some region =>
                      ref ← wrap_err ("failed to get kubeconfig secret reference for " +:+ om_name (rgn_meta region) +:+ " region: ")
                              (GetRegionalKubeconfigSecretRef region);
                      Ok (Some ref)
                  | None => Ok None
                  end;
  Ok (mkReleaseOpts (cds_config (cd_spec cd)) (Some (release_owner cd)) (chart_ref clusterTpl)
        (hc_interval <$> hs_chartSpec (cts_helm (ct_spec clusterTpl))) None None kubeconfigRef ∅ "" "" None DefaultHelmTimeout).

Definition release_ready (cd : ClusterDeployment) (ready : Condition) : Condition :=
  mkCondition HelmReleaseReadyCondition (cond_status ready) (cond_reason ready) (cond_message ready) (cd_generation cd) 0.
Definition reconcileHelmRelease (clusterTpl : ClusterTemplate) : M St Z :=
  cd ← the_cd;
  opts ← wrapM "failed to get HelmRelease reconcile opts: " (gets (λ s, getHelmReleaseReconcileOpts clusterTpl (rs_scope s)) ≫= lift);
  written ← try (ReconcileHelmRelease (client_of MgmtClient) (om_name (cd_meta cd)) (om_namespace (cd_meta cd)) opts);
  match written with
  | Err err =>
      let err := ErrWrap "failed to reconcile HelmRelease: " err in
      _ ← setCondition HelmReleaseReadyCondition FailedReason CondFalse (Some err); fail err
  | Ok (hr, _) =>
      _ ← match Ready_of hr with
          | Some hrReadyCondition => upd_cd (λ cd, put_condition (release_ready cd hrReadyCondition) cd)
          | None => mret tt
          end;
      requeue ← aggregateCapiConditions;
      mret (if (requeue : bool) || negb (IsReady hr) then defaultRequeueTime else 0%Z)
  end.

(** ** The cluster *)

Notation ensureClusterResources := (ensureClusterResources MgmtClient SystemNamespace GlobalRegistry GlobalK0sURL K0sURLCertSecretName
  RegistryCertSecretName CldRegistryCredSecretName sha256_4 randStr).
Notation ensureRBACPolicy := (ensureRBACPolicy MgmtClient clientFactory client_scheme wait_Jitter now synced_at defaultRequeueTime).

(** The release and the policies; the latter whatever becomes of the former. *)
Definition release_and_policies (clusterTpl : ClusterTemplate) : M St Z :=
  helmResult ← attempt (reconcileHelmRelease clusterTpl);
  rbacResult ← attempt ensureRBACPolicy;
  match helmResult, rbacResult with
  | Ok helmResult, Ok rbacResult => mret (soonerResult helmResult rbacResult)
  | _, _ => fail_if (errors_Join [result_err helmResult; result_err rbacResult]) ≫= λ _, mret 0%Z
  end.

(** What comes before: the result when the cluster is not to be written, or else
    [None]. *)
Definition prepare_cluster (clusterTpl : ClusterTemplate) : M St (option Z) :=
  _ ← upd_cd initClusterConditions;
  if negb (template_valid clusterTpl) then setInvalidTemplateCondition clusterTpl ≫= λ r, mret (Some r)
  else
    _ ← setCondition TemplateReadyCondition SucceededReason CondTrue None;
    _ ← setStatusRegion;
    prepared ← attempt (validateAndPrepareCluster clusterTpl);
    match prepared with
    | Err err => if errors_Is errNoRetrigger err then mret (Some 0%Z) else fail err
    | Ok _ =>
        _ ← upd_cd (set_cd_kubernetesVersion (ctst_kubernetesVersion (ct_status clusterTpl)));
        cd ← the_cd;
        if cds_dryRun (cd_spec cd) then handleDryRun clusterTpl ≫= λ r, mret (Some r)
        else
          requeue ← ensureClusterResources;
          mret (if (requeue : bool) then Some defaultRequeueTime else None)
    end.
Definition updateCluster (clusterTpl : ClusterTemplate) : M St Z :=
  early ← prepare_cluster clusterTpl;
  match early with
  | Some result => mret result
  | None => release_and_policies clusterTpl
  end.

(** ** The whole update *)

(** [labelsutil.AddKCMComponentLabel]; the kind is what [GetObjectKind] reports. *)
Definition add_component_label : M St bool :=
  cd ← the_cd;
  if bool_decide (labels_of (cd_meta cd) !! GenericComponentNameLabel = Some GenericComponentLabelValueKCM) then mret false
  else
    _ ← wrapM ("failed to update " +:+ (cd_type cd).2 +:+ " " +:+ key_string (cd_key cd) +:+ " labels: ")
          (refresh_cd MgmtClient (λ c cd, c_patch_label c cd GenericComponentNameLabel GenericComponentLabelValueKCM));
    mret true.

Definition region_paused (region : Region) : bool := bool_decide (is_Some (om_annotations (rgn_meta region) !! RegionPauseAnnotation)).
Definition paused_condition (region : Region) (cd : ClusterDeployment) : Condition :=
  if region_paused region
  then mkCondition PausedCondition CondTrue PausedReason ("Related Region " +:+ om_name (rgn_meta region) +:+ " is paused") (cd_generation cd) 0
  else mkCondition PausedCondition CondFalse NotPausedReason "" (cd_generation cd) 0.
Definition report_paused : M St bool :=
  region ← gets (λ s, sc_region (rs_scope s));
  match region with
  | None => mret false
  | Some region => _ ← upd_cd (λ cd, put_condition (paused_condition region cd) cd); mret (region_paused region)
  end.

(** As far as the template; [None] ends the update without an error. *)
Definition find_template : M St (option ClusterTemplate) :=
  paused ← report_paused;
  if (paused : bool) then mret None
  else
    sc ← the_scope;
    _ ← handleCertificateSecrets MgmtClient SystemNamespace K0sURLCertSecretName RegistryCertSecretName CldRegistryCredSecretName
          (sc_rgnClient sc) (sc_cd sc);
    cd ← the_cd;
    got ← try (Get ClusterTemplate (client_of MgmtClient) (mkKey (om_namespace (cd_meta cd)) (cds_template (cd_spec cd))));
    match got with
    | Ok clusterTpl => mret (Some clusterTpl)
    | Err err =>
        let err := ErrWrap ("failed to get ClusterTemplate " +:+ om_namespace (cd_meta cd) +:+ "/" +:+ cds_template (cd_spec cd) +:+ ": ") err in
        _ ← setCondition TemplateReadyCondition FailedReason CondFalse (Some err);
        if IsDisabledValidationWH then mret None else fail err
    end.

(** The errors of [processClusterIPAM] that only ask to wait. *)
Definition await_addresses (err : gerror) : M St Z :=
  if errors_Is errIPAMNotReady err then mret defaultRequeueTime
  else if errors_Is errClusterDeploymentSpecUpdated err then mret 0%Z
  else if errors_Is errInvalidIPAMClaimRef err then mret 0%Z
  else fail (ErrWrap "failed to process cluster IPAM: " err).
Definition cluster_and_services (clusterTpl : ClusterTemplate) : M St Z :=
  clusterRes ← attempt (updateCluster clusterTpl);
  services ← attempt (updateServices MgmtClient json_Marshal selector_requirements SystemNamespace IsDisabledValidationWH clusterTpl);
  match errors_Join [result_err clusterRes; result_err services] with
  | Some err => fail err
  | None => lift clusterRes
  end.
Definition update_with (clusterTpl : ClusterTemplate) : M St Z :=
  claim ← gets (λ s, cds_ipamClaim (cd_spec (cd_of s)));
  let ipamEnabled := negb (bool_decide (ict_ref claim = "")) || bool_decide (is_Some (ict_spec claim)) in
  addresses ← (if ipamEnabled then try (processClusterIPAM MgmtClient cd_type) else mret (Ok tt));
  match addresses with
  | Err err => await_addresses err
  | Ok _ => cluster_and_services clusterTpl
  end.

Definition no_template : ClusterTemplate :=
  mkClusterTemplate (named_meta "" "") (mkClusterTemplateSpec (mkHelmSpec None None None) ∅ "" [])
    (mkClusterTemplateStatus ∅ "" [] (mkTemplateStatus None None "" "" "" (mkTemplateValidation "" false) 0)).
(** The deferred update of the status, with the template as far as it was read. *)
Definition with_status (oldCD : ClusterDeployment) (clusterTpl : ClusterTemplate) (m : M St Z) : M St Z :=
  result ← try m;
  updated ← try (updateStatus MgmtClient oldCD (Some clusterTpl));
  match errors_Join [result_err result; result_err updated] with
  | Some err => fail err
  | None => lift result
  end.
Definition update_labelled : M St Z :=
  oldCD ← the_cd;
  found ← try find_template;
  with_status oldCD (match found with Ok (Some clusterTpl) => clusterTpl | _ => no_template end)
    (match found with
     | Err err => fail err
     | Ok None => mret 0%Z
     | Ok (Some clusterTpl) => update_with clusterTpl
     end).
Definition reconcileUpdate : M St Z :=
  cd ← the_cd;
  let '(fs, added) := AddFinalizer (om_finalizers (cd_meta cd)) ClusterDeploymentFinalizer in
  if added then
    _ ← upd_cd (λ cd, set_cd_meta (set_finalizers fs (cd_meta cd)) cd);
    _ ← wrapM ("failed to update clusterDeployment " +:+ om_namespace (cd_meta cd) +:+ "/" +:+ om_name (cd_meta cd) +:+ ": ")
          (refresh_cd MgmtClient c_update_refresh);
    mret 0%Z
  else
    labelled ← add_component_label;
    if (labelled : bool) then mret 0%Z else update_labelled.
End update.
