(* ===== verification/ClusterUpdateSafe.v ===== *)
(** * When a cluster is created

    An update writes the Helm release of a cluster, which is what creates it or
    changes it, only when everything the cluster needs is in place. *)

From Stdlib Require Import QArith.
From S2P Require Import Prelude GoStrings Api Kube Conditions ApiManagement Effects TemplateChain SveltosTypes ServiceBasics ServiceDeps ServiceOrder ServiceUpgrades ServiceSetPipeline DependencyGraph ServiceValidation Cluster Compatibility ContractVersions ClusterTypes AdmissionChecks Secrets HelmReleases ClusterStatus CapiConditions RbacSync ClusterRbac ClusterDelete ClusterValues ClusterResources ClusterIpam ClusterServices ClusterUpdate.
#[local] Open Scope nat_scope.

(** ** What writing one kind leaves of others *)

Section bystanders.
Context {C : Type} `{!Getter C HelmRelease} `{!Getter C ClusterTemplate} `{!Getter C FluxHelmChart} `{!Getter C ClusterIPAM}.
Context `{!Getter C ClusterDataSource} `{!Getter C ClusterIPAMClaim}.

Definition leaves (T : Type) `{!Getter C T} (f : C → C) : Prop := ∀ c k, c_get (T:=T) (f c) k = c_get c k.
(** Not the claims. *)
Definition leaves_inputs (f : C → C) : Prop :=
  leaves HelmRelease f ∧ leaves ClusterTemplate f ∧ leaves FluxHelmChart f ∧ leaves ClusterIPAM f ∧ leaves ClusterDataSource f.
Definition leaves_all (f : C → C) : Prop := leaves_inputs f ∧ leaves ClusterIPAMClaim f.

(** An API server keeps kinds apart. *)
Class KindsApart `{!Writer C Secret} `{!Deleter C Secret} `{!Writer C Namespace} `{!Writer C PlainConfigMap} `{!Deleter C PlainConfigMap}
    `{!Writer C ClusterIPAMClaim} `{!Writer C ClusterDataSource} `{!Writer C ServiceSet} `{!Refresher C ClusterDeployment} := {
  secret_create_apart (x : Secret) : leaves_all (λ c, (c_create c x).1);
  secret_update_apart (x : Secret) : leaves_all (λ c, (c_update c x).1);
  secret_delete_apart (x : Secret) : leaves_all (λ c, (c_delete c x).1);
  namespace_create_apart (x : Namespace) : leaves_all (λ c, (c_create c x).1);
  config_create_apart (x : PlainConfigMap) : leaves_all (λ c, (c_create c x).1);
  config_update_apart (x : PlainConfigMap) : leaves_all (λ c, (c_update c x).1);
  config_delete_apart (x : PlainConfigMap) : leaves_all (λ c, (c_delete c x).1);
  claim_create_apart (x : ClusterIPAMClaim) : leaves_inputs (λ c, (c_create c x).1);
  claim_update_apart (x : ClusterIPAMClaim) : leaves_inputs (λ c, (c_update c x).1);
  source_create_apart (x : ClusterDataSource) : leaves HelmRelease (λ c, (c_create c x).1);
  source_update_apart (x : ClusterDataSource) : leaves HelmRelease (λ c, (c_update c x).1);
  set_create_apart (x : ServiceSet) : leaves HelmRelease (λ c, (c_create c x).1);
  set_update_apart (x : ServiceSet) : leaves HelmRelease (λ c, (c_update c x).1);
  cd_refresh_apart (x : ClusterDeployment) : leaves HelmRelease (λ c, (c_update_refresh c x).1.1);
  cd_label_apart (x : ClusterDeployment) k v : leaves HelmRelease (λ c, (c_patch_label c x k v).1.1);
  cd_status_apart (x : ClusterDeployment) : leaves HelmRelease (λ c, (c_status_update c x).1.1)
}.
End bystanders.

(** ** Quiet and on track *)

Section track.
Context {Handle C : Type} `{EqDecision Handle} `{!StatusConditions}.
Context `{!Getter C HelmRelease} `{!Getter C ClusterTemplate} `{!Getter C FluxHelmChart} `{!Getter C ClusterIPAM}.
Context `{!Getter C ClusterDataSource} `{!Getter C ClusterIPAMClaim}.
Variable MgmtClient : Handle.
Notation St := (rstate Handle C).
Notation mgmt s := (at_ (rs_fleet s) MgmtClient).
Implicit Types s : St.

(** The reconcile still means the same cluster. *)
Definition same_scope s s' : Prop :=
  cd_meta (cd_of s') = cd_meta (cd_of s) ∧ cd_spec (cd_of s') = cd_spec (cd_of s) ∧
  bool_decide (is_Some (sc_kine (rs_scope s'))) = bool_decide (is_Some (sc_kine (rs_scope s))).
(** Invariants that a write of another kind keeps, and what is noted about the
    cluster. *)
Class Tolerant (I : St → Prop) : Prop := {
  tolerant_put h f s : leaves_all f → I s → I (put_fleet h (f (at_ (rs_fleet s) h)) s);
  tolerant_scope s s' : rs_fleet s' = rs_fleet s → same_scope s s' → I s → I s'
}.

Variable s0 : St.

(** No Helm release has been touched since [s0], not even for a while. *)
Definition releases_as_before (at_ : Handle → C) : Prop := ∀ k, c_get (T:=HelmRelease) (at_ MgmtClient) k = c_get (mgmt s0) k.
Definition quiet s : Prop :=
  ∃ new, past (rs_fleet s) = new ++ past (rs_fleet s0) ∧ Forall releases_as_before (at_ (rs_fleet s) :: new).

Definition same_reads (T : Type) `{!Getter C T} s : Prop := ∀ k, c_get (T:=T) (mgmt s) k = c_get (mgmt s0) k.
(** Besides, what decides about the cluster is as it was. *)
Definition on_track s : Prop :=
  quiet s ∧ same_scope s0 s ∧ same_reads ClusterTemplate s ∧ same_reads FluxHelmChart s ∧ same_reads ClusterIPAM s ∧ same_reads ClusterDataSource s.
Definition on_track_claims s : Prop := on_track s ∧ same_reads ClusterIPAMClaim s.

Lemma quiet_start : quiet s0.
Proof. exists []. split; [done|]. by constructor. Qed.
Lemma track_start : on_track_claims s0.
Proof. split; [|done]. split; [apply quiet_start|]. done. Qed.

Lemma quiet_fleet s s' : rs_fleet s' = rs_fleet s → quiet s → quiet s'.
Proof. unfold quiet. by intros ->. Qed.
Lemma quiet_put h f s : leaves HelmRelease f → quiet s → quiet (put_fleet h (f (at_ (rs_fleet s) h)) s).
Proof.
  intros Hf (new & Hpast & Hall). exists (at_ (rs_fleet s) :: new). split; [cbn; by rewrite Hpast|]. constructor; [|done].
  apply Forall_cons in Hall as [Hnow _]. intros k. cbn. case_bool_decide; [subst; rewrite Hf|]; apply Hnow.
Qed.
Lemma reads_put `{!Getter C T} h f s : leaves T f → same_reads T s → same_reads T (put_fleet h (f (at_ (rs_fleet s) h)) s).
Proof. intros Hf Hs k. cbn. case_bool_decide; [subst; rewrite Hf|]; apply Hs. Qed.
Lemma track_put h f s : leaves_inputs f → on_track s → on_track (put_fleet h (f (at_ (rs_fleet s) h)) s).
Proof.
  intros (Hr & Ht & Hc & Hi & Hd) (Hq & Hs & Hst & Hsc & Hsi & Hsd). split; [by apply quiet_put|]. split; [done|].
  split; [by apply reads_put|]. split; [by apply reads_put|]. split; by apply reads_put.
Qed.
Lemma same_scope_trans s1 s2 s3 : same_scope s1 s2 → same_scope s2 s3 → same_scope s1 s3.
Proof. unfold same_scope. intros (? & ? & ?) (? & ? & ?). split_and!; congruence. Qed.

#[export] Instance quiet_tolerant : Tolerant quiet.
Proof. split; [intros h f s [(Hr & _) _]; by apply quiet_put|]. intros s s' Hf _. by apply quiet_fleet. Qed.
#[export] Instance track_tolerant : Tolerant on_track.
Proof.
  split; [intros h f s [Hi _]; by apply track_put|]. intros s s' Hf Hs (Hq & Hsc & Hr). unfold on_track, same_reads in *. split; [by eapply quiet_fleet|].
  rewrite Hf. split; [by eapply same_scope_trans|done].
Qed.
#[export] Instance claims_tolerant : Tolerant on_track_claims.
Proof.
  split.
  - intros h f s [Hi Hc] [Ht Hr]. split; [by apply track_put|by apply reads_put].
  - intros s s' Hf Hs [Ht Hr]. split; [by eapply tolerant_scope|]. unfold same_reads in *. by rewrite Hf.
Qed.
End track.

(** ** What a tolerant invariant survives *)

Section tolerant.
Context `{!Json} `{!ApiServerFiles} `{!OwnerSetters} `{!HelmLibrary}.
Context {Handle C Scheme : Type} `{EqDecision Handle} `{!StatusConditions}.
Context `{!Getter C Secret} `{!Writer C Secret} `{!Deleter C Secret} `{!CreateOrUpdater C Secret sec_meta}.
Context `{!Getter C PlainConfigMap} `{!Writer C PlainConfigMap} `{!Deleter C PlainConfigMap} `{!CreateOrUpdater C PlainConfigMap pcm_meta}.
Context `{!Getter C Namespace} `{!Writer C Namespace} `{!Getter C CapiCluster}.
Context `{!Getter C HelmRelease} `{!Getter C ClusterTemplate} `{!Getter C FluxHelmChart} `{!Getter C ClusterIPAM}.
Context `{!Getter C ClusterDataSource} `{!Getter C ClusterIPAMClaim} `{!Writer C ClusterDataSource} `{!Writer C ClusterIPAMClaim}.
Context `{!Writer C ServiceSet} `{!Refresher C ClusterDeployment} `{!KindsApart}.
Variable MgmtClient : Handle.
Notation St := (rstate Handle C).
Variable I : St → Prop.
Context `{HI : !Tolerant I}.

Lemma keeps_the_cd' : keeps I the_cd.
Proof. by intros s. Qed.
Lemma keeps_the_scope' : keeps I the_scope.
Proof. by intros s. Qed.
Lemma tolerant_upd f : (∀ cd, cd_meta (f cd) = cd_meta cd ∧ cd_spec (f cd) = cd_spec cd) → keeps I (upd_cd f).
Proof. intros Hf. apply keeps_modify. intros s. apply tolerant_scope; [done|]. destruct (Hf (cd_of s)). by split_and!. Qed.
Lemma tolerant_condition typ reason status err : keeps I (setCondition typ reason status err).
Proof. by apply tolerant_upd. Qed.
Lemma tolerant_remove typ : keeps I (upd_cd (remove_condition typ)).
Proof. by apply tolerant_upd. Qed.
Lemma tolerant_scope_upd f : (∀ sc : clusterScope Handle, sc_cd (f sc) = sc_cd sc ∧
    bool_decide (is_Some (sc_kine (f sc))) = bool_decide (is_Some (sc_kine sc))) → keeps I (upd_scope f).
Proof.
  intros Hf. apply keeps_modify. intros s. apply tolerant_scope; [done|]. destruct (Hf (rs_scope s)) as [Hc Hk]. unfold same_scope, cd_of. cbn. by rewrite Hc, Hk.
Qed.
Lemma tolerant_write h (f : C → C * option gerror) : leaves_all (λ c, (f c).1) → keeps I (call (client_of h) (effect f)).
Proof. intros Hf. apply keeps_effect. intros s. by apply (tolerant_put h (λ c, (f c).1)). Qed.
Lemma tolerant_secret h (x : Secret) : keeps I (Create (client_of h) x).
Proof. apply tolerant_write, secret_create_apart. Qed.
Lemma tolerant_secret_delete h (x : Secret) : keeps I (Delete (client_of h) x).
Proof. apply tolerant_write, secret_delete_apart. Qed.
Lemma tolerant_config_delete h (x : PlainConfigMap) : keeps I (Delete (client_of h) x).
Proof. apply tolerant_write, config_delete_apart. Qed.
Lemma tolerant_namespace h (x : Namespace) : keeps I (Create (client_of h) x).
Proof. apply tolerant_write, namespace_create_apart. Qed.

Lemma keeps_create_or_update `{!Getter C T} `{!Writer C T} (meta : T → ObjectMeta) `{!CreateOrUpdater C T meta} h x mutate :
  (∀ y, leaves_all (λ c, (c_create c (y : T)).1)) → (∀ y, leaves_all (λ c, (c_update c (y : T)).1)) →
  (∀ y, keeps I (mutate y)) → keeps I (CreateOrUpdate (client_of h) x mutate).
Proof.
  intros Hc Hu Hm s Hs. destruct (CreateOrUpdate _ _ _ s) as [s' r] eqn:E. apply create_or_update_does in E. cbn.
  assert (∀ y s1 r1, mutate y s = (s1, r1) → I s1) as Hm1 by (intros y s1 r1 Hr; specialize (Hm y s Hs); by rewrite Hr in Hm).
  destruct E as [|base s1 e _ Hr|e y s1 c' err z _ _ Hr Hw _|base s1 _ Hr|base y s1 c' err z _ Hr _ Hw _]; [done|by eapply Hm1| |by eapply Hm1|];
    apply Hm1 in Hr; cbn in Hw.
  - pose proof (tolerant_put h (λ c, (c_create c y).1) s1 (Hc y) Hr) as Hp. cbn in Hp. by rewrite Hw in Hp.
  - pose proof (tolerant_put h (λ c, (c_update c y).1) s1 (Hu y) Hr) as Hp. cbn in Hp. by rewrite Hw in Hp.
Qed.
Lemma keeps_secret h x mutate : (∀ y, keeps I (mutate y)) → keeps I (CreateOrUpdate (client_of h) (x : Secret) mutate).
Proof. apply (keeps_create_or_update sec_meta); intros y; [apply secret_create_apart|apply secret_update_apart]. Qed.
Lemma keeps_config h x mutate : (∀ y, keeps I (mutate y)) → keeps I (CreateOrUpdate (client_of h) (x : PlainConfigMap) mutate).
Proof. apply (keeps_create_or_update pcm_meta); intros y; [apply config_create_apart|apply config_update_apart]. Qed.
Lemma keeps_already_exists prefix (m : M St unit) : keeps I m → keeps I (ignore_already_exists prefix m).
Proof. intros Hm s Hs. specialize (Hm s Hs). unfold ignore_already_exists. by destruct (m s). Qed.
Hint Resolve keeps_the_cd' keeps_the_scope' tolerant_condition tolerant_remove tolerant_secret tolerant_secret_delete tolerant_config_delete
  tolerant_namespace keeps_already_exists : keeps.

Lemma keeps_EnsureNamespace h ns : keeps I (EnsureNamespace (client_of h) ns).
Proof. unfold EnsureNamespace. keep. Qed.
Lemma keeps_CopySecret h h' key ns name owner labels : keeps I (CopySecret (client_of h) (client_of h') key ns name owner labels).
Proof. pose proof keeps_EnsureNamespace. unfold CopySecret. keep. Qed.
Lemma keeps_certificates sys n1 n2 n3 h cd : keeps I (handleCertificateSecrets MgmtClient sys n1 n2 n3 h cd).
Proof. pose proof keeps_CopySecret. unfold handleCertificateSecrets. case_bool_decide; [keep|]. by apply keeps_iterM. Qed.
Lemma keeps_capi h cd : keeps I (getPartialCapiCluster h cd).
Proof. unfold getPartialCapiCluster. keep. Qed.
Hint Resolve keeps_EnsureNamespace keeps_CopySecret keeps_certificates keeps_capi : keeps.
Lemma keeps_auth sha : keeps I (ensureAuthConfigSecret MgmtClient sha).
Proof.
  unfold ensureAuthConfigSecret. apply keeps_bind; [keep|]. intros sc. destruct (configured_auth sc) as [auth|]; [|keep].
  apply keeps_bind; [keep|]. intros conf. apply keeps_bind; [keep|]. intros data. apply keeps_bind.
  { apply tolerant_scope_upd. intros sc'. cbn. by destruct (sc_kine sc'). }
  intros _. apply keeps_bind; [keep|]. intros owner. apply keeps_bind; [apply keeps_wrap, keeps_secret; intros y; keep|]. intros _. keep.
Qed.
Lemma keeps_audit sha : keeps I (ensureAuditPolicyConfigMap sha).
Proof.
  unfold ensureAuditPolicyConfigMap. apply keeps_bind; [keep|]. intros sc. destruct (sc_audit sc) as [audit|]; [|keep].
  apply keeps_bind; [keep|]. intros data. apply keeps_bind.
  { apply tolerant_scope_upd. intros sc'. cbn. by destruct (sc_kine sc'). }
  intros _. apply keeps_bind; [keep|]. intros owner. apply keeps_bind; [apply keeps_wrap, keeps_config; intros y; keep|]. intros _. keep.
Qed.
Lemma keeps_regional_secrets cds : keeps I (ensureClusterDataSourceRegionalSecrets MgmtClient cds).
Proof.
  unfold ensureClusterDataSourceRegionalSecrets. apply keeps_bind; [keep|]. intros sc. destruct (negb _); [keep|]. destruct (_ || _); [keep|].
  apply keeps_bind; [keep|]. intros _. apply keeps_bind; [keep|]. intros owner. apply keeps_bind; [|keep].
  apply keeps_iterM. intros n _. unfold copy_source_secret. case_bool_decide; [keep|]. apply keeps_bind; [|keep].
  apply keeps_wrap, keeps_secret. intros y. keep.
Qed.
Lemma keeps_or_report typ (m : M St unit) : keeps I m → keeps I (or_report typ m).
Proof. intros Hm. unfold or_report. keep. Qed.
Lemma keeps_regional_kubeconfig sys : keeps I (copyRegionalKubeConfigSecret MgmtClient sys).
Proof.
  unfold copyRegionalKubeConfigSecret. apply keeps_bind; [keep|]. intros sc. destruct (sc_region sc) as [region|]; [|keep].
  destruct (_ || _); [keep|]. apply keeps_bind; [keep|]. intros ref. destruct (rgs_clusterDeployment _); keep.
Qed.
End tolerant.

(** ** The phases of an update *)

Section phases.
Context `{!MapRange ObjectKey} `{!MapRange string} `{Semver} `{!SemverConstraints}.
Context `{!Json} `{!ApiServerFiles} `{!OwnerSetters} `{!HelmLibrary} `{!FluxConditions} `{!CapiSummaries}.
Context {Handle C Scheme : Type} `{EqDecision Handle} `{!StatusConditions} `{!Finalizers}.
Context `{!Getter C Secret} `{!Writer C Secret} `{!Deleter C Secret} `{!CreateOrUpdater C Secret sec_meta}.
Context `{!Getter C PlainConfigMap} `{!Writer C PlainConfigMap} `{!Deleter C PlainConfigMap} `{!CreateOrUpdater C PlainConfigMap pcm_meta}.
Context `{!Getter C Namespace} `{!Writer C Namespace} `{!Getter C CapiCluster} `{!Lister C CapiCluster}.
Context `{!Getter C ClusterDataSource} `{!Writer C ClusterDataSource} `{!Getter C FluxHelmChart} `{!Getter C ClusterTemplate}.
Context `{!Getter C HelmRelease} `{!Writer C HelmRelease} `{!CreateOrUpdater C HelmRelease hrl_meta}.
Context `{!Getter C ClusterIPAMClaim} `{!Writer C ClusterIPAMClaim} `{!CreateOrUpdater C ClusterIPAMClaim ipc_meta} `{!Getter C ClusterIPAM}.
Context `{!Getter C Region} `{!Getter C Management} `{!Getter C Credential} `{!Lister C ProviderInterface}.
Context `{!Getter C ServiceTemplate} `{!Getter C ServiceTemplateChain} `{!Getter C ServiceSet} `{!Getter C StateManagementProvider}.
Context `{!Lister C ServiceSet} `{!Writer C ServiceSet} `{!Lister C ClusterTemplateChain}.
Context `{!Lister C ClusterDeployment} `{!StatusPatcher C ClusterDeployment} `{!Refresher C ClusterDeployment}.
Context `{!Getter C ClusterRole} `{!Writer C ClusterRole} `{!Deleter C ClusterRole} `{!Patcher C ClusterRole} `{!Lister C ClusterRole}.
Context `{!Getter C ClusterRoleBinding} `{!Writer C ClusterRoleBinding} `{!Deleter C ClusterRoleBinding} `{!Patcher C ClusterRoleBinding} `{!Lister C ClusterRoleBinding}.
Context `{!KindsApart (C:=C)}.
Variable MgmtClient : Handle.
Variable clientFactory : string → Scheme → result Handle.
Variable client_scheme : Handle → Scheme.
Variable getSchemeFunc : result Scheme.
Variables SystemNamespace GlobalRegistry GlobalK0sURL K0sURLCertSecretName RegistryCertSecretName CldRegistryCredSecretName : string.
Variable sha256_4 : string → string.
Variable randStr : string.
Variable cd_type : ClusterDeployment → string * string.
Variable json_Marshal : legacy_config → result string.
Variable selector_requirements : LabelSelector → result (list SelRequirement).
Variable wait_Jitter : Z → Q → Z.
Variables now synced_at defaultRequeueTime DefaultHelmTimeout : Z.
Variable IsDisabledValidationWH : bool.
Notation St := (rstate Handle C).
Notation mgmt s := (at_ (rs_fleet s) MgmtClient).
Notation quiet := (quiet MgmtClient).
Notation on_track := (on_track MgmtClient).
Notation on_track_claims := (on_track_claims MgmtClient).
Implicit Types s : St.
Notation prepare_cluster := (prepare_cluster MgmtClient clientFactory getSchemeFunc SystemNamespace GlobalRegistry GlobalK0sURL
  K0sURLCertSecretName RegistryCertSecretName CldRegistryCredSecretName sha256_4 randStr defaultRequeueTime IsDisabledValidationWH).
Notation find_template := (find_template MgmtClient SystemNamespace K0sURLCertSecretName RegistryCertSecretName CldRegistryCredSecretName IsDisabledValidationWH).
Notation ensureClusterResources := (ensureClusterResources MgmtClient SystemNamespace GlobalRegistry GlobalK0sURL K0sURLCertSecretName
  RegistryCertSecretName CldRegistryCredSecretName sha256_4 randStr).
Notation validateAndPrepareCluster := (validateAndPrepareCluster MgmtClient clientFactory getSchemeFunc SystemNamespace IsDisabledValidationWH).
Notation reconcileUpdate := (reconcileUpdate MgmtClient clientFactory client_scheme getSchemeFunc SystemNamespace GlobalRegistry GlobalK0sURL
  K0sURLCertSecretName RegistryCertSecretName CldRegistryCredSecretName sha256_4 randStr cd_type json_Marshal selector_requirements
  wait_Jitter now synced_at defaultRequeueTime DefaultHelmTimeout IsDisabledValidationWH).
#[local] Hint Resolve keeps_the_cd' keeps_the_scope' tolerant_condition tolerant_remove keeps_certificates : keeps.

Section tolerated.
Variable I : St → Prop.
Context `{HI : !Tolerant I}.

Lemma keeps_validateConfig cd clusterTpl : keeps I (validateConfig MgmtClient cd clusterTpl).
Proof.
  assert (∀ ref, keeps I (getSourceArtifact MgmtClient ref)) as Hs by (intros [ref|]; unfold getSourceArtifact; keep).
  assert (∀ e, keeps I (chart_failed (Handle:=Handle) (C:=C) e)) as Hf by (intros e; unfold chart_failed; keep).
  unfold validateConfig. apply keeps_bind; [by apply keeps_try|]. intros [artifact|e]; [|done]. cbv zeta.
  destruct (DownloadChartFromArtifact _) as [chart|e]; [|destruct (panicking _); keep]. apply keeps_bind; [keep|]. intros _.
  destruct (EnsureReleaseWithValues _ _); keep.
Qed.
Lemma keeps_deploy_once clusterTpl cd :
  keeps I (validateDeployOnce MgmtClient clientFactory getSchemeFunc SystemNamespace clusterTpl cd).
Proof. unfold validateDeployOnce. do 3 (apply keeps_bind; [keep|intros ?]). apply keeps_bind; [|keep]. match goal with |- keeps _ (match ?x with _ => _ end) => destruct x end; keep. Qed.
Lemma keeps_validate clusterTpl : keeps I (validateAndPrepareCluster clusterTpl).
Proof.
  pose proof keeps_validateConfig. pose proof keeps_deploy_once. unfold validateAndPrepareCluster, report_credential.
  apply keeps_bind; [keep|]. intros cd. apply keeps_bind; [destruct IsDisabledValidationWH; keep|]. intros [_|e]; [|keep].
  apply keeps_bind; [keep|]. intros cd'. apply keeps_bind; [keep|]. intros _. apply keeps_when. keep.
Qed.
Lemma keeps_attempt {A} (m : M St A) : keeps I m → keeps I (attempt m).
Proof. intros Hm s Hs. specialize (Hm s Hs). unfold attempt. destruct (m s) as [s' [a|e]]; [done|]. by destruct (panicking e). Qed.
Lemma keeps_region : keeps I setStatusRegion.
Proof.
  apply keeps_modify. intros s. destruct (sc_region _); [by apply tolerant_scope|]. destruct (negb _); [by apply tolerant_scope|done].
Qed.
Lemma keeps_report_paused : keeps I (report_paused (Handle:=Handle) (C:=C)).
Proof.
  unfold report_paused. apply keeps_bind; [keep|]. intros [region|]; [|keep]. apply keeps_bind; [|keep]. by apply tolerant_upd.
Qed.
Lemma keeps_find_template : keeps I find_template.
Proof.
  pose proof keeps_report_paused. unfold ClusterUpdate.find_template. apply keeps_bind; [done|]. intros paused. destruct paused; [keep|].
  apply keeps_bind; [keep|]. intros sc. apply keeps_bind; [keep|]. intros _. apply keeps_bind; [keep|]. intros cd. apply keeps_bind; [keep|].
  intros [tpl|e]; [keep|]. cbv zeta. keep.
Qed.
Lemma keeps_init : keeps I (upd_cd initClusterConditions).
Proof.
  apply tolerant_upd; [done|]. intros cd. unfold initClusterConditions. generalize [CredentialReadyCondition; HelmReleaseReadyCondition; HelmChartReadyCondition; TemplateReadyCondition; ReadyCondition] as l.
  intros l. revert cd. induction l as [|t l IH]; intros cd; [done|]. cbn. destruct (IH (initial_condition cd t)) as [-> ->].
  unfold initial_condition. case_bool_decide; [done|]. by destruct (_ && _).
Qed.
End tolerated.

Section from.
Variable s0 : St.
Notation cd0 := (cd_of s0).

(** ** Writes that leave the releases alone *)

Lemma quiet_any (f : St → St) : (∀ s, rs_fleet (f s) = rs_fleet s) → keeps (quiet s0) (modify f).
Proof. intros Hf. apply keeps_modify. intros s. by apply quiet_fleet. Qed.
Lemma quiet_upd f : keeps (quiet s0) (upd_cd f).
Proof. by apply quiet_any. Qed.
Lemma quiet_condition typ reason status err : keeps (quiet s0) (setCondition typ reason status err).
Proof. apply quiet_upd. Qed.
Lemma quiet_write h (f : C → C * option gerror) : leaves HelmRelease (λ c, (f c).1) → keeps (quiet s0) (call (client_of h) (effect f)).
Proof. intros Hf. apply keeps_effect. intros s. by apply (quiet_put MgmtClient s0 h (λ c, (f c).1)). Qed.
Lemma quiet_refresh h (f : C → ClusterDeployment → C * ClusterDeployment * option gerror) :
  (∀ x, leaves HelmRelease (λ c, (f c x).1.1)) → keeps (quiet s0) (refresh_cd h f).
Proof.
  intros Hf s Hs. unfold refresh_cd. destruct (f _ (cd_of s)) as [[c cd] err] eqn:E. cbn. apply (quiet_fleet MgmtClient s0 (put_fleet h c s)); [done|].
  pose proof (quiet_put MgmtClient s0 h (λ c, (f c (cd_of s)).1.1) s (Hf _) Hs) as Hp. cbn in Hp. by rewrite E in Hp.
Qed.
Lemma quiet_update_cd : keeps (quiet s0) (refresh_cd MgmtClient c_update_refresh).
Proof. apply quiet_refresh, cd_refresh_apart. Qed.
Lemma quiet_create_source h (x : ClusterDataSource) : keeps (quiet s0) (Create (client_of h) x).
Proof. apply quiet_write, source_create_apart. Qed.
Lemma quiet_update_source h (x : ClusterDataSource) : keeps (quiet s0) (Update (client_of h) x).
Proof. apply quiet_write, source_update_apart. Qed.
#[local] Hint Resolve quiet_upd quiet_condition quiet_update_cd quiet_create_source quiet_update_source : keeps.

(** ** The claim *)

Lemma written_claim_keeps (I : St → Prop) cd spec :
  (∀ h f s, leaves_inputs f → I s → I (put_fleet h (f (at_ (rs_fleet s) h)) s)) → keeps I (written_claim MgmtClient cd_type cd spec).
Proof.
  intros Hput s Hs. destruct (written_claim _ _ _ _ s) as [s' r] eqn:E. cbn. apply create_or_update_does in E.
  destruct E as [|base s1 e _ Hr|e y s1 c' err z _ _ Hr Hw _|base s1 _ Hr|base y s1 c' err z _ Hr _ Hw _]; try (injection Hr as <-); try done; cbn in Hw.
  - pose proof (Hput MgmtClient (λ c, (c_create c y).1) s (claim_create_apart y) Hs) as Hp. cbn in Hp. by rewrite Hw in Hp.
  - pose proof (Hput MgmtClient (λ c, (c_update c y).1) s (claim_update_apart y) Hs) as Hp. cbn in Hp. by rewrite Hw in Hp.
Qed.
Lemma quiet_addresses : keeps (quiet s0) (processClusterIPAM MgmtClient cd_type).
Proof.
  assert (∀ cd spec, keeps (quiet s0) (written_claim MgmtClient cd_type cd spec)) as Hw
    by (intros cd spec; apply written_claim_keeps; intros h f s [Hf _]; by apply quiet_put).
  assert (keeps (quiet s0) (update_and_leave MgmtClient)) as Hu by (unfold update_and_leave; keep).
  assert (∀ claim, keeps (quiet s0) (use_claim MgmtClient claim)) as Hc.
  { intros claim. unfold use_claim. apply keeps_bind; [keep|]. intros cd. destruct (negb _); [keep|]. apply keeps_bind; [keep|]. intros ipam.
    apply keeps_bind; [keep|]. intros [|]; [|keep]. apply keeps_bind; [keep|]. intros cd'. keep. }
  unfold processClusterIPAM. apply keeps_bind; [keep|]. intros cd. destruct (ict_spec _) as [spec|].
  - apply keeps_bind; [|done]. unfold own_claim. apply keeps_bind; [apply keeps_wrap, Hw|]. intros [claim op]. cbv zeta. destruct (negb _); keep.
  - case_bool_decide; [keep|]. apply keeps_bind; [|done]. unfold referenced_claim. apply keeps_bind; [keep|]. intros claim. cbv zeta. destruct (negb _); keep.
Qed.

(** The addresses a cluster asks for are there once the update has been through
    the step for them. *)
Definition has_addresses s : Prop := asks_addresses (cd_of s) → ∃ s1 claim,
  processClusterIPAM MgmtClient cd_type (find_template s).1 = (s1, Ok tt) ∧ same_scope s s1 ∧
  claim_of MgmtClient s1 claim ∧ addressed MgmtClient s1 claim.
Lemma addresses_found s' : processClusterIPAM MgmtClient cd_type (find_template s0).1 = (s', Ok tt) → on_track s0 s' ∧ has_addresses s0.
Proof.
  pose proof (keeps_find_template (on_track_claims s0) s0 (track_start MgmtClient s0)) as [Ht _]. intros Hrun.
  assert (on_track s0 s') as Ht'.
  { apply processClusterIPAM_Ok in Hrun. destruct (ict_spec _) as [spec|]; [|by destruct Hrun as [-> _]].
    destruct Hrun as (_ & claim & op & Hw & _).
    pose proof (written_claim_keeps (on_track s0) (cd_of (find_template s0).1) spec (track_put MgmtClient s0) _ Ht) as Hk. by rewrite Hw in Hk. }
  split; [done|]. intros Hasks. pose proof Ht as (_ & (Hm & Hsp & _) & _). destruct (ipam_before_addressed _ _ _ _ Hrun) as (claim & Hc & Ha).
  { unfold asks_addresses in *. by rewrite Hsp. }
  exists s', claim. split; [done|]. split; [apply Ht'|done].
Qed.

(** ** The template and the chart *)

Definition template_key : ObjectKey := mkKey (om_namespace (cd_meta cd0)) (cds_template (cd_spec cd0)).
Lemma template_found s' clusterTpl : find_template s0 = (s', Ok (Some clusterTpl)) →
  (∀ region, sc_region (rs_scope s0) = Some region → region_paused region = false) ∧ c_get (mgmt s0) template_key = Ok clusterTpl.
Proof.
  unfold ClusterUpdate.find_template. intros (s1 & paused & Hp & Hrun)%bind_inv.
  assert (on_track_claims s0 s1) as Ht1.
  { pose proof (keeps_report_paused (on_track_claims s0) s0 (track_start MgmtClient s0)) as Hk. by rewrite Hp in Hk. }
  destruct paused; [done|]. split.
  { intros region Hr. unfold report_paused in Hp. apply bind_inv in Hp as (s2 & r & [= <- <-] & Hp). rewrite Hr in Hp.
    by apply bind_inv in Hp as (s3 & [] & _ & [= _ Hp]). }
  apply bind_inv in Hrun as (s2 & sc & [= <- <-] & Hrun). apply bind_inv in Hrun as (s3 & [] & Hc & Hrun).
  assert (on_track_claims s0 s3) as Ht3.
  { pose proof (keeps_certificates MgmtClient (on_track_claims s0) SystemNamespace K0sURLCertSecretName RegistryCertSecretName CldRegistryCredSecretName
      (sc_rgnClient (rs_scope s1)) (sc_cd (rs_scope s1)) s1 Ht1) as Hk. by rewrite Hc in Hk. }
  destruct Ht3 as [(_ & (Hm & Hsp & _) & Htpl & _) _]. apply bind_inv in Hrun as (s4 & cd & [= <- <-] & Hrun).
  apply bind_inv in Hrun as (s5 & got & Hgot & Hrun). rewrite try_eq, Get_eq in Hgot. cbn [fst snd] in Hgot. injection Hgot as <- <-.
  unfold template_key. rewrite Htpl, Hm, Hsp in Hrun. destruct (c_get _ _) as [tpl|e]; [by injection Hrun as _ <-|].
  apply bind_inv in Hrun as (s6 & [] & _ & Hrun). by destruct IsDisabledValidationWH.
Qed.

(** The chart of the template takes the values of the cluster. *)
Definition chart_accepts (clusterTpl : ClusterTemplate) : Prop :=
  ∃ ref hc artifact chart vals, chart_ref clusterTpl = Some ref ∧
    c_get (T:=FluxHelmChart) (mgmt s0) (mkKey (cr_namespace ref) (cr_name ref)) = Ok hc ∧ fhc_artifact hc = Some artifact ∧
    DownloadChart (art_url artifact) (art_digest artifact) = Ok chart ∧ HelmValues cd0 = Ok vals ∧
    Install_DryRun chart (om_name (cd_meta cd0)) (om_namespace (cd_meta cd0)) vals = None.
Lemma HelmValues_same cd cd' : cd_meta cd = cd_meta cd' → cd_spec cd = cd_spec cd' → HelmValues cd = HelmValues cd'.
Proof. unfold HelmValues. by intros -> ->. Qed.
Lemma chart_failed_not e s s' : chart_failed (Handle:=Handle) (C:=C) e s ≠ (s', Ok tt).
Proof. unfold chart_failed. intros (? & [] & _ & [=])%bind_inv. Qed.
Lemma chart_found clusterTpl s s' : on_track s0 s → validateConfig MgmtClient (cd_of s) clusterTpl s = (s', Ok tt) → chart_accepts clusterTpl.
Proof.
  intros (_ & (Hm & Hsp & _) & _ & Hcharts & _) Hrun. unfold validateConfig in Hrun. apply bind_inv in Hrun as (s1 & got & Hgot & Hrun).
  rewrite try_eq in Hgot. injection Hgot as <- <-. unfold getSourceArtifact in Hrun.
  destruct (chart_ref clusterTpl) as [ref|] eqn:Eref; [|by apply chart_failed_not in Hrun].
  cbv zeta in Hrun. rewrite (bind_eq (wrapM _ _)), wrap_eq, Get_eq, Hcharts in Hrun. cbn [fst snd] in Hrun.
  destruct (c_get (mgmt s0) _) as [hc|] eqn:Ehc; [|by apply chart_failed_not in Hrun]. cbn in Hrun.
  destruct (fhc_artifact hc) as [artifact|] eqn:Eart; [|by cbn in Hrun]. cbn [DownloadChartFromArtifact] in Hrun.
  destruct (DownloadChart _ _) as [chart|e] eqn:Ech.
  - apply bind_inv in Hrun as (s2 & [] & _ & Hrun). unfold EnsureReleaseWithValues in Hrun.
    destruct (HelmValues (cd_of s)) as [vals|] eqn:Ev; [|by apply chart_failed_not in Hrun].
    destruct (Install_DryRun _ _ _ _) eqn:Ei; [by apply chart_failed_not in Hrun|].
    exists ref, hc, artifact, chart, vals. rewrite Hm in Ei. rewrite (HelmValues_same _ _ Hm Hsp) in Ev. done.
  - destruct (panicking _); [done|]. by apply chart_failed_not in Hrun.
Qed.
Lemma validated clusterTpl s s' : on_track s0 s → validateAndPrepareCluster clusterTpl s = (s', Ok tt) → chart_accepts clusterTpl.
Proof.
  intros Ht. unfold ClusterUpdate.validateAndPrepareCluster. intros (s1 & cd & [= <- <-] & Hrun)%bind_inv.
  apply bind_inv in Hrun as (s2 & once & Honce & Hrun).
  assert (on_track s0 s2) as Ht2.
  { destruct IsDisabledValidationWH; [|by injection Honce as <- _]. rewrite try_eq in Honce. injection Honce as <- _. by apply (keeps_deploy_once (on_track s0) clusterTpl (cd_of s)). }
  destruct once as [[]|]; [|done]. apply bind_inv in Hrun as (s3 & cd & [= <- <-] & Hrun). apply bind_inv in Hrun as (s4 & [] & Hv & _).
  rewrite wrap_eq in Hv. destruct (validateConfig _ _ _ s2) as [s5 [[]|]] eqn:Ev; [|done]. by eapply chart_found.
Qed.

(** ** The data source and the resources *)

Definition uses_source : Prop := is_Some (sc_kine (rs_scope s0)) ∧ cds_dataSource (cd_spec cd0) ≠ "".
Definition has_source : Prop :=
  uses_source → ∃ cds, c_get (mgmt s0) (cd_key cd0) = Ok cds ∧ cdso_dataSource cds = cds_dataSource (cd_spec cd0) ∧ source_ready cds = true.
Lemma regional_secrets_ready cds s s' : ensureClusterDataSourceRegionalSecrets MgmtClient cds s = (s', Ok false) → source_ready cds = true.
Proof.
  unfold ensureClusterDataSourceRegionalSecrets. intros (s1 & sc & _ & Hrun)%bind_inv. by destruct (source_ready cds).
Qed.
Lemma source_found s s' : on_track s0 s → ensureDataSourceReferences MgmtClient randStr s = (s', Ok false) → has_source.
Proof.
  intros (_ & (Hm & Hsp & Hk) & _ & _ & _ & Hcds) Hrun [Hkine Hds]. unfold ensureDataSourceReferences in Hrun.
  apply bind_inv in Hrun as (s1 & sc & [= <- <-] & Hrun). rewrite Hk, bool_decide_eq_true_2 in Hrun by done. fold (cd_of s) in Hrun.
  rewrite Hsp, bool_decide_eq_false_2 in Hrun by done. cbn [negb orb] in Hrun. apply bind_inv in Hrun as (s2 & requeue & Hens & Hrun).
  apply bind_inv in Hrun as (s3 & [] & _ & [= _ ->]). unfold ensure_data_source in Hens. cbv zeta in Hens.
  apply bind_inv in Hens as (s4 & got & Hgot & Hens). rewrite try_eq, Get_eq in Hgot. cbn [fst snd] in Hgot. injection Hgot as <- <-.
  unfold cd_key at 1 in Hens. rewrite Hcds, Hm, Hsp in Hens. fold (cd_key cd0) in Hens. destruct (c_get (mgmt s0) (cd_key cd0)) as [cds|e] eqn:Eg.
  - case_bool_decide as Hsrc; cbn [negb] in Hens.
    + apply bind_inv in Hens as (s5 & [] & _ & Hready%regional_secrets_ready). eauto.
    + by apply bind_inv in Hens as (s5 & [] & _ & [=]).
  - destruct (IsNotFound e); [|done]. cbn in Hens. apply bind_inv in Hens as (s5 & refs & _ & Hens). by apply bind_inv in Hens as (s6 & [] & _ & [=]).
Qed.
Lemma quiet_source : keeps (quiet s0) (ensureDataSourceReferences MgmtClient randStr).
Proof.
  pose proof (λ cds, keeps_regional_secrets MgmtClient (quiet s0) cds) as Hsec.
  assert (∀ cds, keeps (quiet s0) (upd_scope (Handle:=Handle) (C:=C) (set_clusterDataSource cds))) as Hup by (intros cds; by apply quiet_any).
  pose proof (λ prefix h x, keeps_already_exists (quiet s0) prefix _ (quiet_create_source h x)) as Hcr.
  assert (∀ cd, keeps (quiet s0) (ensure_data_source MgmtClient randStr cd)) as Hens.
  { intros cd. unfold ensure_data_source. cbv zeta. apply keeps_bind; [keep|]. intros [cds|e].
    - destruct (negb _); [keep|]. apply keeps_bind; [done|]. intros _. done.
    - destruct (negb _); [keep|]. apply keeps_bind; [keep|]. intros refs. apply keeps_bind; [done|]. intros _. keep. }
  unfold ensureDataSourceReferences. apply keeps_bind; [keep|]. intros sc. destruct (_ || _); [keep|]. apply keeps_bind; [done|]. intros requeue. keep.
Qed.
Lemma quiet_resources : keeps (quiet s0) ensureClusterResources.
Proof.
  pose proof quiet_source as Hs. pose proof (keeps_regional_kubeconfig MgmtClient (quiet s0) SystemNamespace) as Hk.
  unfold ClusterResources.ensureClusterResources. apply keeps_bind; [apply keeps_or_report; [apply _|apply keeps_auth; apply _]|]. intros _.
  apply keeps_bind; [apply keeps_or_report; [apply _|apply keeps_audit; apply _]|]. intros _. apply keeps_bind; [keep|]. intros requeue.
  apply keeps_bind; [keep|]. intros cd. destruct requeue as [[|]|e]; cbv zeta; keep.
Qed.
Lemma resources_found s s' : on_track s0 s → ensureClusterResources s = (s', Ok false) → has_source.
Proof.
  intros Ht Hrun. unfold ClusterResources.ensureClusterResources in Hrun. apply bind_inv in Hrun as (s1 & [] & Hauth & Hrun).
  apply bind_inv in Hrun as (s2 & [] & Haudit & Hrun).
  assert (on_track s0 s1) as Ht1.
  { pose proof (keeps_or_report (on_track s0) ClusterAuthenticationReadyCondition _ (keeps_auth MgmtClient (on_track s0) sha256_4) s Ht) as Hk. by rewrite Hauth in Hk. }
  assert (on_track s0 s2) as Ht2.
  { pose proof (keeps_or_report (on_track s0) ClusterAuditPolicyReadyCondition _ (keeps_audit (on_track s0) sha256_4) s1 Ht1) as Hk. by rewrite Haudit in Hk. }
  apply bind_inv in Hrun as (s3 & got & Hgot & Hrun). rewrite try_eq in Hgot. destruct (ensureDataSourceReferences _ _ s2) as [s4 r] eqn:Er.
  injection Hgot as <- <-. apply bind_inv in Hrun as (s5 & cd & _ & Hrun). destruct r as [[|]|e]; cbv zeta in Hrun.
  - by apply bind_inv in Hrun as (s6 & [] & _ & [=]).
  - by eapply source_found.
  - by apply bind_inv in Hrun as (s6 & [] & _ & [=]).
Qed.

(** ** The cluster *)

Lemma quiet_dry_run clusterTpl : keeps (quiet s0) (handleDryRun MgmtClient clusterTpl).
Proof.
  assert (∀ cd, keeps (quiet s0) (detectHelmChartNameChange MgmtClient cd clusterTpl)) as Hd.
  { intros cd. unfold detectHelmChartNameChange. destruct (chart_ref clusterTpl); [|keep]. apply keeps_bind; [keep|]. intros [hr|e]; [|keep].
    destruct (hrs_chartRef _); [|keep]. destruct (negb _); keep. }
  unfold handleDryRun. apply keeps_bind; [keep|]. intros cd. apply keeps_bind; [by apply keeps_wrap|]. intros _. keep.
Qed.
Lemma quiet_prepare clusterTpl : keeps (quiet s0) (prepare_cluster clusterTpl).
Proof.
  pose proof quiet_dry_run as Hd. pose proof quiet_resources as Hr. pose proof (keeps_validate (quiet s0) clusterTpl) as Hv.
  unfold ClusterUpdate.prepare_cluster. apply keeps_bind; [keep|]. intros _. destruct (negb _).
  { unfold setInvalidTemplateCondition. cbv zeta. apply keeps_bind; [|keep]. apply keeps_bind; [keep|]. intros _. destruct IsDisabledValidationWH; keep. }
  apply keeps_bind; [keep|]. intros _. apply keeps_bind; [apply (keeps_region (quiet s0))|]. intros _. apply keeps_bind; [by apply keeps_attempt|].
  intros [_|e]; [|keep]. apply keeps_bind; [keep|]. intros _. apply keeps_bind; [keep|]. intros cd. destruct (cds_dryRun _).
  - apply keeps_bind; [apply Hd|]. intros r. keep.
  - apply keeps_bind; [done|]. intros requeue. keep.
Qed.
Lemma prepared_found clusterTpl s s' : on_track s0 s → prepare_cluster clusterTpl s = (s', Ok None) →
  template_valid clusterTpl = true ∧ cds_dryRun (cd_spec cd0) = false ∧ chart_accepts clusterTpl ∧ has_source.
Proof.
  intros Ht Hrun. unfold ClusterUpdate.prepare_cluster in Hrun. apply bind_inv in Hrun as (s1 & [] & Hinit & Hrun).
  assert (on_track s0 s1) as Ht1 by (pose proof (keeps_init (on_track s0) s Ht) as Hk; by rewrite Hinit in Hk).
  destruct (template_valid clusterTpl) eqn:Ev; cbn [negb] in Hrun; [|by apply bind_inv in Hrun as (s2 & r & _ & [=])].
  apply bind_inv in Hrun as (s2 & [] & Hcond & Hrun).
  assert (on_track s0 s2) as Ht2.
  { pose proof (tolerant_condition (on_track s0) TemplateReadyCondition SucceededReason CondTrue None s1 Ht1) as Hk. by rewrite Hcond in Hk. }
  apply bind_inv in Hrun as (s3 & [] & Hreg & Hrun).
  assert (on_track s0 s3) as Ht3 by (pose proof (keeps_region (on_track s0) s2 Ht2) as Hk; by rewrite Hreg in Hk).
  apply bind_inv in Hrun as (s4 & prepared & Hprep & Hrun). unfold attempt in Hprep.
  destruct (validateAndPrepareCluster clusterTpl s3) as [s5 [[]|e]] eqn:Eval.
  2:{ destruct (panicking e); [done|]. injection Hprep as _ <-. by destruct (errors_Is _ _). }
  injection Hprep as <- <-. pose proof (validated _ _ _ Ht3 Eval) as Hchart.
  assert (on_track s0 s5) as Ht5 by (pose proof (keeps_validate (on_track s0) clusterTpl s3 Ht3) as Hk; by rewrite Eval in Hk).
  apply bind_inv in Hrun as (s6 & [] & Hver & Hrun).
  assert (on_track s0 s6) as Ht6.
  { pose proof (tolerant_upd (on_track s0) (set_cd_kubernetesVersion (ctst_kubernetesVersion (ct_status clusterTpl))) (λ _, conj eq_refl eq_refl) s5 Ht5) as Hk.
    by rewrite Hver in Hk. }
  apply bind_inv in Hrun as (s7 & cd & [= <- <-] & Hrun). pose proof Ht6 as (_ & (_ & Hsp & _) & _). rewrite Hsp in Hrun.
  destruct (cds_dryRun _); [by apply bind_inv in Hrun as (s8 & r & _ & [=])|].
  apply bind_inv in Hrun as (s8 & requeue & Hres & Hrun). destruct requeue; [done|]. split_and!; try done. by eapply resources_found.
Qed.

(** ** Services and status *)

Lemma quiet_services clusterTpl :
  keeps (quiet s0) (updateServices MgmtClient json_Marshal selector_requirements SystemNamespace IsDisabledValidationWH clusterTpl).
Proof.
  assert (∀ op x, leaves HelmRelease (λ c : C, (CreateOrUpdateServiceSet c op x).1)) as Hset.
  { intros op x c k. rewrite (proj2 (CreateOrUpdateServiceSet_errors c op x)). destruct op; [apply set_create_apart|apply set_update_apart|done]. }
  assert (∀ cd, keeps (quiet s0) (createOrUpdateServiceSet MgmtClient json_Marshal selector_requirements SystemNamespace cd)) as Hcr.
  { intros cd. unfold createOrUpdateServiceSet. apply keeps_bind; [keep|]. intros [serviceSet op]. apply keeps_bind; [keep|]. intros _.
    case_bool_decide; [keep|]. apply quiet_write, Hset. }
  assert (∀ cd, keeps (quiet s0) (report_services MgmtClient cd)) as Hrep by (intros cd; unfold report_services; keep).
  assert (∀ cd err, keeps (quiet s0) (refuse_services (Handle:=Handle) (C:=C) cd err)) as Href.
  { intros cd err. unfold refuse_services, k8s_incompatible, k8s_unknown. destruct (errors_Is _ _); keep. }
  unfold updateServices. apply keeps_bind; [keep|]. intros cd. apply keeps_bind; [keep|]. intros [err|].
  { unfold k8s_incompatible, k8s_unknown. destruct (negb _); keep. }
  apply keeps_bind; [unfold dependencies_valid; destruct IsDisabledValidationWH; [destruct (ValidateServiceDependencyOverall _)|]; keep|].
  intros valid. destruct (negb valid); [keep|]. unfold deploy_services. apply keeps_bind; [apply keeps_try; keep|]. intros [_|err]; [|done].
  apply keeps_bind; [keep|]. intros _. apply keeps_bind; [keep|done].
Qed.
Lemma quiet_status oldCD tpl : keeps (quiet s0) (updateStatus MgmtClient oldCD tpl).
Proof.
  assert (keeps (quiet s0) (refresh_cd MgmtClient c_status_update)) as Hr by apply quiet_refresh, cd_status_apart.
  unfold updateStatus. apply keeps_bind; [keep|]. intros _. apply keeps_bind; [unfold setAvailableUpgrades; destruct tpl; keep|]. intros _.
  apply keeps_bind; [keep|]. intros cd. case_bool_decide; keep.
Qed.

(** ** The update *)

Notation updateCluster := (updateCluster MgmtClient clientFactory client_scheme getSchemeFunc SystemNamespace GlobalRegistry GlobalK0sURL
  K0sURLCertSecretName RegistryCertSecretName CldRegistryCredSecretName sha256_4 randStr wait_Jitter now synced_at defaultRequeueTime
  DefaultHelmTimeout IsDisabledValidationWH).
Notation update_with := (update_with MgmtClient clientFactory client_scheme getSchemeFunc SystemNamespace GlobalRegistry GlobalK0sURL
  K0sURLCertSecretName RegistryCertSecretName CldRegistryCredSecretName sha256_4 randStr cd_type json_Marshal selector_requirements wait_Jitter now
  synced_at defaultRequeueTime DefaultHelmTimeout IsDisabledValidationWH).

(** What [prepared_found] says of a template. *)
Definition cluster_ready (clusterTpl : ClusterTemplate) : Prop :=
  template_valid clusterTpl = true ∧ cds_dryRun (cd_spec cd0) = false ∧ chart_accepts clusterTpl ∧ has_source.
Lemma cluster_gate clusterTpl s : on_track s0 s → quiet s0 (updateCluster clusterTpl s).1 ∨ cluster_ready clusterTpl.
Proof.
  intros Ht. unfold ClusterUpdate.updateCluster. rewrite bind_eq. pose proof (quiet_prepare clusterTpl s (proj1 Ht)) as Hq.
  destruct (prepare_cluster clusterTpl s) as [s1 [[r|]|e]] eqn:E; [by left| |by left]. right. by eapply prepared_found.
Qed.
Lemma attempt_state {A} (m : M St A) s : (attempt m s).1 = (m s).1.
Proof. unfold attempt. destruct (m s) as [s' [a|e]]; [done|]. by destruct (panicking e). Qed.
Lemma bind_state {A B} (P : St → Prop) (m : M St A) (k : A → M St B) s : P (m s).1 → (∀ a, keeps P (k a)) → P ((m ≫= k) s).1.
Proof. intros Hm Hk. rewrite bind_eq. destruct (m s) as [s' [a|e]]; [by apply Hk|done]. Qed.
Lemma update_gate clusterTpl (s := (find_template s0).1) :
  quiet s0 (update_with clusterTpl s).1 ∨ has_addresses s0 ∧ cluster_ready clusterTpl.
Proof.
  pose proof (keeps_find_template (on_track_claims s0) s0 (track_start MgmtClient s0)) as Ht. fold s in Ht. pose proof Ht as [[Hq [(Hm & Hsp & _) _]] _]. unfold ClusterUpdate.update_with. rewrite bind_eq. cbn -[cluster_and_services]. rewrite bind_eq. rewrite Hsp.
  assert (∀ s1, on_track s0 s1 → quiet s0 (cluster_and_services MgmtClient clientFactory client_scheme getSchemeFunc SystemNamespace GlobalRegistry
    GlobalK0sURL K0sURLCertSecretName RegistryCertSecretName CldRegistryCredSecretName sha256_4 randStr json_Marshal selector_requirements wait_Jitter
    now synced_at defaultRequeueTime DefaultHelmTimeout IsDisabledValidationWH clusterTpl s1).1 ∨ cluster_ready clusterTpl) as Hgo.
  { intros s1 Ht1. destruct (cluster_gate clusterTpl s1 Ht1) as [Hc|]; [left|by right]. unfold cluster_and_services.
    apply bind_state; [by rewrite attempt_state|]. intros r. apply keeps_bind; [apply keeps_attempt, quiet_services|]. intros r'.
    destruct (errors_Join _); keep. }
  destruct (_ || _) eqn:Easks.
  - rewrite try_eq. destruct (processClusterIPAM _ _ s) as [s1 [[]|err]] eqn:Eip; cbn [fst snd].
    + destruct (addresses_found s1 Eip) as [Ht1 Ha]. destruct (Hgo s1 Ht1); [by left|by right].
    + left. pose proof (quiet_addresses s Hq) as Hq1. rewrite Eip in Hq1. cbn in Hq1. unfold await_addresses.
      by repeat match goal with |- context [if ?b then _ else _] => destruct b end.
  - cbn -[cluster_and_services]. destruct (Hgo s (proj1 Ht)); [by left|]. right. split; [|done]. intros Hasks. exfalso.
    apply orb_false_iff in Easks as [Href%negb_false_iff%bool_decide_eq_true Hspec%bool_decide_eq_false]. destruct Hasks as [Hne|Hne]; [|done].
    apply Hspec. by destruct (ict_spec _); [eexists|].
Qed.
End from.

(** Everything a cluster needs is there. *)
Record ready_for_release s : Prop := {
  release_finalizer : ClusterDeploymentFinalizer ∈ om_finalizers (cd_meta (cd_of s));
  release_region region : sc_region (rs_scope s) = Some region → region_paused region = false;
  release_dry_run : cds_dryRun (cd_spec (cd_of s)) = false;
  release_template : ∃ clusterTpl, c_get (mgmt s) (template_key s) = Ok clusterTpl ∧ template_valid clusterTpl = true ∧ chart_accepts s clusterTpl;
  release_addresses : has_addresses s;
  release_source : has_source s
}.

(** C35: An update of a cluster touches its Helm release, at the end or at any
    moment on the way, only when everything is ready at its start: the finalizer
    that will clean up after it is stored, the region is not paused, it is not
    a dry run, the template is there, is valid and its chart accepts the
    values, the addresses asked for are bound and in the values, and the data
    source asked for is ready. *)
Theorem release_only_when_ready s s' r : reconcileUpdate s = (s', r) → quiet s s' ∨ ready_for_release s.
Proof.
  unfold ClusterUpdate.reconcileUpdate. rewrite bind_eq. cbn -[update_labelled add_component_label].
  destruct (AddFinalizer _ _) as [fs added] eqn:Efin. destruct added.
  { intros Hrun. left. assert (keeps (quiet s) (upd_cd (λ cd, set_cd_meta (set_finalizers fs (cd_meta cd)) cd))) as Hu by apply quiet_upd.
    match type of Hrun with ?m _ = _ => assert (keeps (quiet s) m) as Hk end.
    { apply keeps_bind; [done|]. intros _. apply keeps_bind; [apply keeps_wrap, quiet_update_cd|]. intros _. apply keeps_ret. }
    specialize (Hk s (quiet_start MgmtClient s)). by rewrite Hrun in Hk. }
  assert (ClusterDeploymentFinalizer ∈ om_finalizers (cd_meta (cd_of s))) as Hfin.
  { destruct (decide (ClusterDeploymentFinalizer ∈ om_finalizers (cd_meta (cd_of s)))) as [|Hn]; [done|].
    apply add_finalizer_changed in Hn. by rewrite Efin in Hn. }
  rewrite bind_eq. unfold add_component_label. rewrite bind_eq. cbn -[update_labelled].
  case_bool_decide; cbn -[update_labelled].
  2:{ rewrite bind_eq, wrap_eq. pose proof (quiet_refresh s MgmtClient _ (λ x, cd_label_apart x GenericComponentNameLabel GenericComponentLabelValueKCM) s (quiet_start MgmtClient s)) as Hk.
      destruct (refresh_cd _ _ s) as [s1 [[]|e]]; cbn in *; intros [= <- <-]; by left. }
  unfold update_labelled. rewrite bind_eq. cbn -[with_status ClusterUpdate.find_template]. rewrite bind_eq, try_eq.
  pose proof (keeps_find_template (on_track_claims s) s (track_start MgmtClient s)) as Ht. pose proof (quiet_status s) as Hstatus.
  destruct (find_template s) as [s1 found] eqn:Ef. cbn [fst snd] in *.
  assert (∀ tpl m, quiet s (m s1).1 → quiet s (with_status MgmtClient (cd_of s) tpl m s1).1) as Hws.
  { intros tpl m Hm. unfold with_status. apply bind_state; [by rewrite try_eq|]. intros result. apply keeps_bind; [apply keeps_try, Hstatus|].
    intros updated. destruct (errors_Join _); keep. }
  intros Hrun. match type of Hrun with ?x = _ => assert (x.1 = s') as Hs' by (by rewrite Hrun) end. rewrite <- Hs'. clear Hrun Hs'.
  destruct found as [[tpl|]|e]; [|left; apply Hws, Ht|left; apply Hws, Ht].
  destruct (template_found s s1 tpl Ef) as [Hregion Htpl].
  pose proof (update_gate s tpl) as Hgate. rewrite Ef in Hgate. destruct Hgate as [Hq|(Ha & Hv & Hdry & Hchart & Hsource)]; [left; by apply Hws|]. right. split; try done. eauto.
Qed.
End phases.
