(* ===== verification/ClusterReconcile.v ===== *)
(** * Reconciling a ClusterDeployment
    ([src/internal/controller/clusterdeployment_controller.go]: [Reconcile],
    [getClusterScope]; [ValidateClusterAuthentication] and
    [ValidateClusterAuditPolicy] of [src/internal/util/validation]).

    What the ClusterDeployment refers to is collected and checked, and the
    reconcile goes on with the deletion or the update. *)

From Stdlib Require Import QArith.
From S2P Require Import Prelude GoStrings Api Kube Conditions ApiManagement Effects TemplateChain SveltosTypes ServiceBasics ServiceDeps ServiceOrder ServiceUpgrades ServiceSetPipeline DependencyGraph ServiceValidation Cluster Compatibility ContractVersions ClusterTypes AdmissionChecks Secrets ChildCleanup HelmReleases ClusterStatus CapiConditions RbacSync ClusterRbac ClusterDelete ClusterValues ClusterResources ClusterIpam ClusterServices ClusterUpdate.
#[local] Open Scope nat_scope.

(** ** Validating policies *)

(** The API server's own types and their validation, and the encodings between
    them and the versioned ones. *)
Class ApiServerValidation := {
  internal_auth : Type;
  auth_json_Marshal : AuthenticationConfiguration → result string;
  auth_json_Unmarshal : string → result internal_auth;
  empty_internal_auth : internal_auth;
  ValidateAuthenticationConfiguration : internal_auth → option gerror;
  internal_audit : Type;
  audit_json_Marshal : string → result string;
  audit_json_Unmarshal : string → result internal_audit;
  ValidatePolicy : internal_audit → option gerror
}.

Section policies.
Context `{!ApiServerValidation} {C : Type} `{!Getter C Secret}.

(** It is never passed a nil configuration. *)
Definition toAPIServerAuthConfig (authConf : AuthenticationConfiguration) : result internal_auth :=
  outBytes ← wrap_err "error marshaling auth config to JSON: " (auth_json_Marshal authConf);
  wrap_err "error unmarshalling auth config JSON to apiserver auth config: " (auth_json_Unmarshal outBytes).
Definition ValidateClusterAuthentication (mgmtClient : C) (clAuth : ClusterAuthentication) : option gerror :=
  match wrap_err "failed to get AuthenticationConfiguration: " (GetAuthenticationConfiguration mgmtClient clAuth) with
  | Err err => Some err
  | Ok authConf =>
      match wrap_err "failed to convert auth config: " (toAPIServerAuthConfig authConf) with
      | Err err => Some err
      | Ok apiServerAuthConf => ErrWrap "invalid AuthenticationConfiguration provided: " <$> ValidateAuthenticationConfiguration apiServerAuthConf
      end
  end.

(** The text of a policy is that of [GetPolicy]. *)
Definition ToAuditPolicy (policy : string) : result internal_audit :=
  outBytes ← wrap_err "error marshaling audit policy to JSON: " (audit_json_Marshal policy);
  wrap_err "error unmarshalling audit v1.Policy JSON to audit.Policy: " (audit_json_Unmarshal outBytes).
Definition ValidateClusterAuditPolicy (clPolicy : ClusterAuditPolicy) : option gerror :=
  match ToAuditPolicy (cap_policy clPolicy) with
  | Err err => Some err
  | Ok policy => ErrWrap "invalid audit policy provided: " <$> ValidatePolicy policy
  end.
End policies.

(** ** The scope *)

Section scope.
Context `{!ApiServerValidation}.
Context {Handle C Scheme : Type} `{EqDecision Handle} `{!StatusConditions}.
Context `{!Getter C Credential} `{!Getter C DataSource} `{!Getter C ClusterAuthentication} `{!Getter C RBACPolicy}.
Context `{!Getter C ClusterAuditPolicy} `{!Getter C Region} `{!Getter C Secret}.
Variable MgmtClient : Handle.
Variable clientFactory : string → Scheme → result Handle.
Variable getSchemeFunc : result Scheme.
Variable IsDNS1123Subdomain : string → list string.
Variable SystemNamespace : string.
Variable IsDisabledValidationWH : bool.
Notation St := (rstate Handle C).
Implicit Types sc : clusterScope Handle.

(** The scope as the program has it before anything is read. *)
Definition no_credential : Credential := mkCredential (named_meta "" "") (mkCredentialSpec None "" "") (mkCredentialStatus [] false).
Definition new_scope (cd : ClusterDeployment) : clusterScope Handle :=
  mkScope cd no_credential None None None None None MgmtClient (mkDeletionState false false false false false).
Definition set_cred (cred : Credential) sc : clusterScope Handle :=
  mkScope (sc_cd sc) cred (sc_region sc) (sc_kine sc) (sc_auth sc) (sc_rbacPolicy sc) (sc_audit sc) (sc_rgnClient sc) (sc_deletion sc).
Definition set_kine (ds : DataSource) sc : clusterScope Handle :=
  mkScope (sc_cd sc) (sc_cred sc) (sc_region sc) (Some (mkKineConfig ds None)) (sc_auth sc) (sc_rbacPolicy sc) (sc_audit sc) (sc_rgnClient sc) (sc_deletion sc).
Definition set_auth (clAuth : ClusterAuthentication) sc : clusterScope Handle :=
  mkScope (sc_cd sc) (sc_cred sc) (sc_region sc) (sc_kine sc) (Some (mkAuthConfig clAuth "")) (sc_rbacPolicy sc) (sc_audit sc) (sc_rgnClient sc) (sc_deletion sc).
Definition set_rbac (policy : RBACPolicy) sc : clusterScope Handle :=
  mkScope (sc_cd sc) (sc_cred sc) (sc_region sc) (sc_kine sc) (sc_auth sc) (Some policy) (sc_audit sc) (sc_rgnClient sc) (sc_deletion sc).
Definition set_audit (clPolicy : ClusterAuditPolicy) sc : clusterScope Handle :=
  mkScope (sc_cd sc) (sc_cred sc) (sc_region sc) (sc_kine sc) (sc_auth sc) (sc_rbacPolicy sc) (Some (mkAuditConfig (cap_policy clPolicy) ""))
    (sc_rgnClient sc) (sc_deletion sc).
Definition set_region (rgn : Region) (rgnClient : Handle) sc : clusterScope Handle :=
  mkScope (sc_cd sc) (sc_cred sc) (Some rgn) (sc_kine sc) (sc_auth sc) (sc_rbacPolicy sc) (sc_audit sc) rgnClient (sc_deletion sc).

(** Reads what the name refers to; without it the condition tells why. *)
Definition refer (T : Type) `{!Getter C T} (kind typ : string) (key : ObjectKey) : M St T :=
  got ← try (Get T (client_of MgmtClient) key);
  match got with
  | Ok x => mret x
  | Err err =>
      let err := ErrWrap ("failed to get " +:+ kind +:+ " " +:+ key_string key +:+ ": ") err in
      _ ← setCondition typ FailedReason CondFalse (Some err); fail err
  end.
(** Without the webhook what is referred to is validated here. *)
Definition revalidate (typ : string) (invalid : option gerror) : M St unit :=
  if IsDisabledValidationWH then
    match invalid with
    | Some err => _ ← setCondition typ FailedReason CondFalse (Some err); fail (sentinel errNoRetrigger)
    | None => mret tt
    end
  else mret tt.

Definition scope_credential (cd : ClusterDeployment) : M St unit :=
  cred ← refer Credential "Credential" CredentialReadyCondition (mkKey (om_namespace (cd_meta cd)) (cds_credential (cd_spec cd)));
  upd_scope (set_cred cred).
Definition scope_dataSource (cd : ClusterDeployment) : M St unit :=
  if bool_decide (cds_dataSource (cd_spec cd) = "") then mret tt
  else
    ds ← refer DataSource "DataSource" DataSourceReadyCondition (mkKey (om_namespace (cd_meta cd)) (cds_dataSource (cd_spec cd)));
    _ ← setCondition DataSourceReadyCondition SucceededReason CondTrue None;
    upd_scope (set_kine ds).
Definition scope_auth (cd : ClusterDeployment) : M St unit :=
  if bool_decide (cds_clusterAuth (cd_spec cd) = "") then mret tt
  else
    clAuth ← refer ClusterAuthentication "ClusterAuthentication" ClusterAuthenticationReadyCondition
               (mkKey (om_namespace (cd_meta cd)) (cds_clusterAuth (cd_spec cd)));
    invalid ← gets (λ s, ValidateClusterAuthentication (at_ (rs_fleet s) MgmtClient) clAuth);
    _ ← revalidate ClusterAuthenticationReadyCondition invalid;
    _ ← setCondition ClusterAuthenticationReadyCondition SucceededReason CondTrue None;
    upd_scope (set_auth clAuth).
(** A policy that is not there grants nothing; that is left to the revocation. *)
Definition scope_rbac (cd : ClusterDeployment) : M St unit :=
  if bool_decide (cds_rbacPolicy (cd_spec cd) = "") then mret tt
  else
    let rbacPolicyKey := mkKey (om_namespace (cd_meta cd)) (cds_rbacPolicy (cd_spec cd)) in
    got ← try (Get RBACPolicy (client_of MgmtClient) rbacPolicyKey);
    match got with
    | Err err =>
        if IsNotFound err then mret tt
        else
          let err := ErrWrap ("failed to get RBACPolicy " +:+ key_string rbacPolicyKey +:+ ": ") err in
          _ ← setCondition RBACPolicyReadyCondition FailedReason CondFalse (Some err); fail err
    | Ok rbacPolicy =>
        _ ← revalidate RBACPolicyReadyCondition (ValidateRBACPolicy IsDNS1123Subdomain rbacPolicy);
        upd_scope (set_rbac rbacPolicy)
    end.
Definition scope_audit (cd : ClusterDeployment) : M St unit :=
  if bool_decide (cds_auditPolicy (cd_spec cd) = "") then mret tt
  else
    clAuditPolicy ← refer ClusterAuditPolicy "ClusterAuditPolicy" ClusterAuditPolicyReadyCondition
                      (mkKey (om_namespace (cd_meta cd)) (cds_auditPolicy (cd_spec cd)));
    _ ← revalidate ClusterAuditPolicyReadyCondition (ValidateClusterAuditPolicy clAuditPolicy);
    _ ← setCondition ClusterAuditPolicyReadyCondition SucceededReason CondTrue None;
    upd_scope (set_audit clAuditPolicy).
Definition scope_region : M St unit :=
  region ← gets (λ s, crs_region (cred_spec (sc_cred (rs_scope s))));
  if bool_decide (region = "") then mret tt
  else
    rgn ← wrapM ("failed to get " +:+ region +:+ " region: ") (Get Region (client_of MgmtClient) (mkKey "" region));
    rgnClient ← wrapM ("failed to get client for " +:+ region +:+ " region: ")
      (gets (λ s, GetRegionalClient clientFactory getSchemeFunc (at_ (rs_fleet s) MgmtClient) SystemNamespace rgn) ≫= lift);
    upd_scope (set_region rgn rgnClient).

(** It fills in the scope of the state, which starts as [new_scope]. *)
Definition getClusterScope : M St unit :=
  cd ← the_cd;
  _ ← scope_credential cd;
  _ ← scope_dataSource cd;
  _ ← scope_auth cd;
  _ ← scope_rbac cd;
  _ ← scope_audit cd;
  scope_region.
End scope.

(** ** The handler *)

Section reconcile.
Context `{!MapRange ObjectKey} `{!MapRange string} `{Semver} `{!SemverConstraints}.
Context `{!Json} `{!ApiServerFiles} `{!ApiServerValidation} `{!OwnerSetters} `{!HelmLibrary} `{!FluxConditions} `{!CapiSummaries}.
Context {Handle C Scheme : Type} `{EqDecision Handle} `{!StatusConditions} `{!Finalizers}.
Notation St := (rstate Handle C).
Context `{!Poller St}.
(** The kinds of the scope and of the update. *)
Context `{!Getter C DataSource} `{!Getter C ClusterAuthentication} `{!Getter C RBACPolicy} `{!Getter C ClusterAuditPolicy} `{!Getter C ClusterDeployment}.
Context `{!Getter C Secret} `{!Writer C Secret} `{!Deleter C Secret} `{!CreateOrUpdater C Secret sec_meta}.
Context `{!Getter C PlainConfigMap} `{!Writer C PlainConfigMap} `{!Deleter C PlainConfigMap} `{!CreateOrUpdater C PlainConfigMap pcm_meta}.
Context `{!Getter C Namespace} `{!Writer C Namespace} `{!Getter C CapiCluster} `{!Lister C CapiCluster}.
Context `{!Getter C ClusterDataSource} `{!Writer C ClusterDataSource} `{!Getter C FluxHelmChart} `{!Getter C ClusterTemplate}.
Context `{!Getter C HelmRelease} `{!Writer C HelmRelease} `{!CreateOrUpdater C HelmRelease hrl_meta}.
Context `{!Getter C ClusterIPAMClaim} `{!Writer C ClusterIPAMClaim} `{!CreateOrUpdater C ClusterIPAMClaim ipc_meta} `{!Getter C ClusterIPAM}.
Context `{!Getter C Region} `{!Getter C Management} `{!Getter C Credential} `{!Lister C ProviderInterface}.
Context `{!Getter C ServiceTemplate} `{!Getter C ServiceTemplateChain} `{!Getter C ServiceSet} `{!Getter C StateManagementProvider}.
Context `{!Lister C ServiceSet} `{!Writer C ServiceSet} `{!Lister C ClusterTemplateChain}.
Context `{!Lister C ClusterDeployment} `{!StatusPatcher C ClusterDeployment} `{!Refresher C ClusterDeployment}.
Context `{!Getter C ClusterRole} `{!Writer C ClusterRole} `{!Deleter C ClusterRole} `{!Patcher C ClusterRole} `{!Lister C ClusterRole}.
Context `{!Getter C ClusterRoleBinding} `{!Writer C ClusterRoleBinding} `{!Deleter C ClusterRoleBinding} `{!Patcher C ClusterRoleBinding} `{!Lister C ClusterRoleBinding}.
(** The kinds of the deletion. *)
Context `{!Lister C Region} `{!Lister C Machine} `{!Patcher C InfraCluster} `{!Deleter C ServiceSet} `{!Deleter C HelmRelease} `{!Deleter C ClusterDataSource}.
Context `{!Lister C Namespace} `{!Lister C CoreService} `{!Deleter C CoreService} `{!AllDeleter C CoreService}.
Context `{!Lister C PersistentVolumeClaim} `{!Getter C PersistentVolumeClaim} `{!Deleter C PersistentVolumeClaim}.
Context `{!Lister C PersistentVolume} `{!Getter C PersistentVolume}.
Context `{!Lister C Pod} `{!Getter C Pod} `{!Writer C Pod} `{!Deleter C Pod}.
Context `{!ControllerGetter C} `{!Writer C ControllerObject} `{!Deleter C ControllerObject}.
Variable MgmtClient : Handle.
Variable clientFactory : string → Scheme → result Handle.
Variable client_scheme : Handle → Scheme.
Variable getSchemeFunc : result Scheme.
Variable IsDNS1123Subdomain : string → list string.
Variables SystemNamespace GlobalRegistry GlobalK0sURL K0sURLCertSecretName RegistryCertSecretName CldRegistryCredSecretName : string.
Variable sha256_4 : string → string.
Variable randStr : string.
Variable cd_type : ClusterDeployment → string * string.
Variable json_Marshal : legacy_config → result string.
Variable selector_requirements : LabelSelector → result (list SelRequirement).
Variable wait_Jitter : Z → Q → Z.
Variables now synced_at defaultRequeueTime DefaultHelmTimeout : Z.
Variable IsDisabledValidationWH : bool.
Variable GetObjectFromContractVersionedRef : C → string * string → string → result InfraCluster.
Variable IsNoMatchError : gerror → bool.
Variable ClusterNameLabel : string.
Variable range : gmap string string → list (string * string).
Variable services_first : bool.

(** Once the scope is there. *)
Definition reconcile_scoped (management : Management) : M St Z :=
  clusterDeployment ← the_cd;
  if being_deleted (cd_meta clusterDeployment) then
    reconcileDelete MgmtClient clientFactory client_scheme GetObjectFromContractVersionedRef IsNoMatchError ClusterNameLabel range services_first
      IsDisabledValidationWH defaultRequeueTime
  else if being_deleted (mgmt_meta management) then mret 0%Z
  else
    reconcileUpdate MgmtClient clientFactory client_scheme getSchemeFunc SystemNamespace GlobalRegistry GlobalK0sURL K0sURLCertSecretName
      RegistryCertSecretName CldRegistryCredSecretName sha256_4 randStr cd_type json_Marshal selector_requirements wait_Jitter now synced_at
      defaultRequeueTime DefaultHelmTimeout IsDisabledValidationWH.
(** The scope could not be collected. *)
Definition scope_failed (oldCD : ClusterDeployment) (err : gerror) : M St Z :=
  statusErr ← try (updateStatus MgmtClient oldCD None);
  if errors_Is errNoRetrigger err then fail_if (result_err statusErr) ≫= λ _, mret 0%Z
  else fail_if (errors_Join [Some (ErrWrap "failed to get cluster scope: " err); result_err statusErr]) ≫= λ _, mret 0%Z.
Definition Reconcile (req : ObjectKey) : M St Z :=
  got ← try (Get ClusterDeployment (client_of MgmtClient) req);
  match got with
  | Err err => if IsNotFound err then mret 0%Z else fail err
  | Ok clusterDeployment =>
      management ← wrapM "failed to get Management: " (Get Management (client_of MgmtClient) (mkKey "" ManagementName));
      _ ← upd_scope (λ _, new_scope MgmtClient clusterDeployment);
      scope ← try (getClusterScope MgmtClient clientFactory getSchemeFunc IsDNS1123Subdomain SystemNamespace IsDisabledValidationWH);
      match scope with
      | Err err => scope_failed clusterDeployment err
      | Ok _ => reconcile_scoped management
      end
  end.
End reconcile.

(** ** What the scope then holds *)

Section collected.
Context `{!ApiServerValidation}.
Context {Handle C Scheme : Type} `{EqDecision Handle} `{!StatusConditions}.
Context `{!Getter C Credential} `{!Getter C DataSource} `{!Getter C ClusterAuthentication} `{!Getter C RBACPolicy}.
Context `{!Getter C ClusterAuditPolicy} `{!Getter C Region} `{!Getter C Secret}.
Variable MgmtClient : Handle.
Variable clientFactory : string → Scheme → result Handle.
Variable getSchemeFunc : result Scheme.
Variable IsDNS1123Subdomain : string → list string.
Variable SystemNamespace : string.
Variable IsDisabledValidationWH : bool.
Notation St := (rstate Handle C).
Notation mgmt s := (at_ (rs_fleet s) MgmtClient).
Implicit Types s : St.
Implicit Types sc : clusterScope Handle.

(** Nothing is written, and the ClusterDeployment changes in its status only. *)
Definition only_looked s s' : Prop :=
  rs_fleet s' = rs_fleet s ∧ rs_synced s' = rs_synced s ∧ cd_meta (cd_of s') = cd_meta (cd_of s) ∧ cd_spec (cd_of s') = cd_spec (cd_of s).
Lemma only_looked_trans s1 s2 s3 : only_looked s1 s2 → only_looked s2 s3 → only_looked s1 s3.
Proof. unfold only_looked. intuition congruence. Qed.

Section looking.
Variable s0 : St.
Notation I := (only_looked s0).
Lemma looking_condition typ reason status err : keeps I (setCondition typ reason status err).
Proof. apply keeps_modify. intros s Hs. by eapply only_looked_trans. Qed.
Lemma looking_scope f : (∀ sc, sc_cd (f sc) = sc_cd sc) → keeps I (upd_scope f).
Proof. intros Hf. apply keeps_modify. intros s Hs. eapply only_looked_trans; [exact Hs|]. unfold only_looked, cd_of. cbn. by rewrite Hf. Qed.
Lemma looking_cred x : keeps I (upd_scope (set_cred x)).
Proof. by apply looking_scope. Qed.
Lemma looking_kine x : keeps I (upd_scope (set_kine x)).
Proof. by apply looking_scope. Qed.
Lemma looking_auth x : keeps I (upd_scope (set_auth x)).
Proof. by apply looking_scope. Qed.
Lemma looking_rbac x : keeps I (upd_scope (set_rbac x)).
Proof. by apply looking_scope. Qed.
Lemma looking_audit x : keeps I (upd_scope (set_audit x)).
Proof. by apply looking_scope. Qed.
Lemma looking_region x h : keeps I (upd_scope (set_region x h)).
Proof. by apply looking_scope. Qed.
Hint Resolve looking_condition looking_cred looking_kine looking_auth looking_rbac looking_audit looking_region : keeps.
Lemma looking_refer `{!Getter C T} kind typ key : keeps I (refer MgmtClient T kind typ key).
Proof. unfold refer. keep. Qed.
Lemma looking_revalidate typ invalid : keeps I (revalidate IsDisabledValidationWH typ invalid).
Proof. unfold revalidate. destruct IsDisabledValidationWH; [destruct invalid|]; keep. Qed.
Hint Resolve looking_refer looking_revalidate : keeps.
Lemma looking_steps cd :
  keeps I (scope_credential MgmtClient cd) ∧ keeps I (scope_dataSource MgmtClient cd) ∧
  keeps I (scope_auth MgmtClient IsDisabledValidationWH cd) ∧ keeps I (scope_rbac MgmtClient IsDNS1123Subdomain IsDisabledValidationWH cd) ∧
  keeps I (scope_audit MgmtClient IsDisabledValidationWH cd) ∧ keeps I (scope_region MgmtClient clientFactory getSchemeFunc SystemNamespace).
Proof.
  unfold scope_credential, scope_dataSource, scope_auth, scope_rbac, scope_audit, scope_region. split_and!; try (case_bool_decide; [keep|]); try keep.
Qed.
Lemma looking_all : keeps I (getClusterScope MgmtClient clientFactory getSchemeFunc IsDNS1123Subdomain SystemNamespace IsDisabledValidationWH).
Proof.
  unfold getClusterScope. apply keeps_bind; [by intros s|]. intros cd. destruct (looking_steps cd) as (? & ? & ? & ? & ? & ?).
  do 5 (apply keeps_bind; [done|intros _]). done.
Qed.
End looking.

(** The scope after [s], with another status of the ClusterDeployment. *)
Definition rescoped (g : clusterScope Handle → clusterScope Handle) s s' : Prop :=
  only_looked s s' ∧ ∃ cd, rs_scope s' = g (scope_put_cd cd (rs_scope s)).
Lemma rescoped_here s : rescoped id s s.
Proof. split; [done|]. exists (cd_of s). by destruct s as [? []]. Qed.
Lemma rescoped_trans g h s s1 s2 : (∀ cd sc, scope_put_cd cd (g sc) = g (scope_put_cd cd sc)) →
  rescoped g s s1 → rescoped h s1 s2 → rescoped (λ sc, h (g sc)) s s2.
Proof.
  intros Hg [L1 (c1 & E1)] [L2 (c2 & E2)]. split; [by eapply only_looked_trans|]. exists c2. rewrite E2, E1, Hg. by destruct (rs_scope s).
Qed.
Lemma refer_Ok `{!Getter C T} kind typ key s s' x : refer MgmtClient T kind typ key s = (s', Ok x) → s' = s ∧ c_get (mgmt s) key = Ok x.
Proof.
  unfold refer. intros (s1 & got & Hg & Hrun)%bind_inv. rewrite try_eq, Get_eq in Hg. cbn [fst snd] in Hg. injection Hg as <- <-.
  change (view (client_of MgmtClient) s) with (mgmt s) in Hrun. destruct (c_get _ _) as [y|e]; [by injection Hrun as <- <-|].
  by apply bind_inv in Hrun as (s2 & [] & _ & [=]).
Qed.
Lemma revalidate_Ok typ invalid s s' : revalidate IsDisabledValidationWH typ invalid s = (s', Ok tt) →
  s' = s ∧ (IsDisabledValidationWH = true → invalid = None).
Proof.
  unfold revalidate. destruct IsDisabledValidationWH; [|by intros [= <-]]. destruct invalid; [|by intros [= <-]].
  by intros (s1 & [] & _ & [=])%bind_inv.
Qed.

Notation key_of cd name := (mkKey (om_namespace (cd_meta cd)) name).
Lemma credential_Ok cd s s' : scope_credential MgmtClient cd s = (s', Ok tt) →
  ∃ cred, rescoped (set_cred cred) s s' ∧ c_get (mgmt s) (key_of cd (cds_credential (cd_spec cd))) = Ok cred.
Proof.
  unfold scope_credential. intros (s1 & cred & [-> Hg]%refer_Ok & [= <-])%bind_inv. exists cred. split; [|done]. split; [done|].
  exists (cd_of s). by destruct s as [? []].
Qed.
Lemma dataSource_Ok cd s s' : scope_dataSource MgmtClient cd s = (s', Ok tt) →
  (cds_dataSource (cd_spec cd) = "" ∧ rescoped id s s') ∨
  ∃ ds, cds_dataSource (cd_spec cd) ≠ "" ∧ rescoped (set_kine ds) s s' ∧ c_get (mgmt s) (key_of cd (cds_dataSource (cd_spec cd))) = Ok ds.
Proof.
  unfold scope_dataSource. case_bool_decide as Hn; [intros [= <-]; left; split; [done|apply rescoped_here]|].
  intros (s1 & ds & [-> Hg]%refer_Ok & Hrun)%bind_inv. injection Hrun as <-. right. exists ds. split; [done|]. split; [|done]. split; [done|]. by eexists.
Qed.
Lemma auth_Ok cd s s' : scope_auth MgmtClient IsDisabledValidationWH cd s = (s', Ok tt) →
  (cds_clusterAuth (cd_spec cd) = "" ∧ rescoped id s s') ∨
  ∃ clAuth, cds_clusterAuth (cd_spec cd) ≠ "" ∧ rescoped (set_auth clAuth) s s' ∧
    c_get (mgmt s) (key_of cd (cds_clusterAuth (cd_spec cd))) = Ok clAuth ∧
    (IsDisabledValidationWH = true → ValidateClusterAuthentication (mgmt s) clAuth = None).
Proof.
  unfold scope_auth. case_bool_decide as Hn; [intros [= <-]; left; split; [done|apply rescoped_here]|].
  intros (s1 & clAuth & [-> Hg]%refer_Ok & Hrun)%bind_inv. apply bind_inv in Hrun as (s2 & invalid & [= <- <-] & Hrun).
  apply bind_inv in Hrun as (s3 & [] & [-> Hv]%revalidate_Ok & Hrun). injection Hrun as <-. right. exists clAuth.
  split; [done|]. split; [|done]. split; [done|]. by eexists.
Qed.
Lemma rbac_Ok cd s s' : scope_rbac MgmtClient IsDNS1123Subdomain IsDisabledValidationWH cd s = (s', Ok tt) →
  (rescoped id s s' ∧ (cds_rbacPolicy (cd_spec cd) = "" ∨ ∃ e, c_get (T:=RBACPolicy) (mgmt s) (key_of cd (cds_rbacPolicy (cd_spec cd))) = Err e ∧ IsNotFound e = true)) ∨
  ∃ policy, cds_rbacPolicy (cd_spec cd) ≠ "" ∧ rescoped (set_rbac policy) s s' ∧
    c_get (mgmt s) (key_of cd (cds_rbacPolicy (cd_spec cd))) = Ok policy ∧
    (IsDisabledValidationWH = true → ValidateRBACPolicy IsDNS1123Subdomain policy = None).
Proof.
  unfold scope_rbac. case_bool_decide as Hn; [intros [= <-]; left; split; [apply rescoped_here|by left]|].
  cbv zeta. intros (s1 & got & Hg & Hrun)%bind_inv. rewrite try_eq, Get_eq in Hg. cbn [fst snd] in Hg. injection Hg as <- <-.
  change (view (client_of MgmtClient) s) with (mgmt s) in Hrun. destruct (c_get _ _) as [policy|e].
  - apply bind_inv in Hrun as (s3 & [] & [-> Hv]%revalidate_Ok & Hrun). injection Hrun as <-. right. exists policy.
    split; [done|]. split; [|done]. split; [done|]. exists (cd_of s). by destruct s as [? []].
  - destruct (IsNotFound e) eqn:He; [|by apply bind_inv in Hrun as (s2 & [] & _ & [=])]. injection Hrun as <-. left. split; [apply rescoped_here|]. right. eauto.
Qed.
Lemma audit_Ok cd s s' : scope_audit MgmtClient IsDisabledValidationWH cd s = (s', Ok tt) →
  (cds_auditPolicy (cd_spec cd) = "" ∧ rescoped id s s') ∨
  ∃ clPolicy, cds_auditPolicy (cd_spec cd) ≠ "" ∧ rescoped (set_audit clPolicy) s s' ∧
    c_get (mgmt s) (key_of cd (cds_auditPolicy (cd_spec cd))) = Ok clPolicy ∧
    (IsDisabledValidationWH = true → ValidateClusterAuditPolicy clPolicy = None).
Proof.
  unfold scope_audit. case_bool_decide as Hn; [intros [= <-]; left; split; [done|apply rescoped_here]|].
  intros (s1 & clPolicy & [-> Hg]%refer_Ok & Hrun)%bind_inv.
  apply bind_inv in Hrun as (s3 & [] & [-> Hv]%revalidate_Ok & Hrun). injection Hrun as <-. right. exists clPolicy.
  split; [done|]. split; [|done]. split; [done|]. by eexists.
Qed.
Lemma region_Ok s s' : scope_region MgmtClient clientFactory getSchemeFunc SystemNamespace s = (s', Ok tt) →
  (crs_region (cred_spec (sc_cred (rs_scope s))) = "" ∧ rescoped id s s') ∨
  ∃ rgn h, crs_region (cred_spec (sc_cred (rs_scope s))) ≠ "" ∧ rescoped (set_region rgn h) s s' ∧
    c_get (mgmt s) (mkKey "" (crs_region (cred_spec (sc_cred (rs_scope s))))) = Ok rgn ∧
    GetRegionalClient clientFactory getSchemeFunc (mgmt s) SystemNamespace rgn = Ok h.
Proof.
  unfold scope_region. intros (s1 & region & [= <- <-] & Hrun)%bind_inv. case_bool_decide as Hn.
  { injection Hrun as <-. left. split; [done|apply rescoped_here]. }
  apply bind_inv in Hrun as (s2 & rgn & Hr & Hrun). rewrite wrap_eq, Get_eq in Hr. cbn [fst snd] in Hr.
  change (view (client_of MgmtClient) s) with (mgmt s) in Hr. destruct (c_get _ _) as [rgn'|] eqn:Eg; [|done]. injection Hr as <- <-.
  apply bind_inv in Hrun as (s3 & h & Hh & Hrun). rewrite wrap_eq, gets_lift_eq in Hh. cbn [fst snd] in Hh.
  destruct (GetRegionalClient _ _ _ _ _) as [h'|] eqn:Eh; [|done]. injection Hh as <- <-. injection Hrun as <-.
  right. exists rgn', h'. split; [done|]. split; [|done]. split; [done|]. exists (cd_of s). by destruct s as [? []].
Qed.

(** Exactly what the ClusterDeployment refers to. *)
Record scope_exact (c : C) sc : Prop := {
  exact_cred : c_get c (key_of (sc_cd sc) (cds_credential (cd_spec (sc_cd sc)))) = Ok (sc_cred sc);
  exact_kine : match sc_kine sc with
    | None => cds_dataSource (cd_spec (sc_cd sc)) = ""
    | Some kine => cds_dataSource (cd_spec (sc_cd sc)) ≠ "" ∧ kine_clusterDataSource kine = None ∧
        c_get c (key_of (sc_cd sc) (cds_dataSource (cd_spec (sc_cd sc)))) = Ok (kine_dataSource kine)
    end;
  exact_auth : match sc_auth sc with
    | None => cds_clusterAuth (cd_spec (sc_cd sc)) = ""
    | Some auth => cds_clusterAuth (cd_spec (sc_cd sc)) ≠ "" ∧
        c_get c (key_of (sc_cd sc) (cds_clusterAuth (cd_spec (sc_cd sc)))) = Ok (auth_clAuth auth) ∧
        (IsDisabledValidationWH = true → ValidateClusterAuthentication c (auth_clAuth auth) = None)
    end;
  exact_rbac : match sc_rbacPolicy sc with
    | None => cds_rbacPolicy (cd_spec (sc_cd sc)) = "" ∨
        ∃ e, c_get (T:=RBACPolicy) c (key_of (sc_cd sc) (cds_rbacPolicy (cd_spec (sc_cd sc)))) = Err e ∧ IsNotFound e = true
    | Some policy => cds_rbacPolicy (cd_spec (sc_cd sc)) ≠ "" ∧
        c_get c (key_of (sc_cd sc) (cds_rbacPolicy (cd_spec (sc_cd sc)))) = Ok policy ∧
        (IsDisabledValidationWH = true → ValidateRBACPolicy IsDNS1123Subdomain policy = None)
    end;
  exact_audit : match sc_audit sc with
    | None => cds_auditPolicy (cd_spec (sc_cd sc)) = ""
    | Some audit => cds_auditPolicy (cd_spec (sc_cd sc)) ≠ "" ∧
        ∃ clPolicy, c_get c (key_of (sc_cd sc) (cds_auditPolicy (cd_spec (sc_cd sc)))) = Ok clPolicy ∧ audit_policy audit = cap_policy clPolicy ∧
          (IsDisabledValidationWH = true → ValidateClusterAuditPolicy clPolicy = None)
    end;
  exact_region : match sc_region sc with
    | None => crs_region (cred_spec (sc_cred sc)) = "" ∧ sc_rgnClient sc = MgmtClient
    | Some rgn => crs_region (cred_spec (sc_cred sc)) ≠ "" ∧ c_get c (mkKey "" (crs_region (cred_spec (sc_cred sc)))) = Ok rgn ∧
        GetRegionalClient clientFactory getSchemeFunc c SystemNamespace rgn = Ok (sc_rgnClient sc)
    end
}.

(** Collecting the scope writes nothing and changes the ClusterDeployment in
    its status only, and when it succeeds the scope holds exactly the objects
    the ClusterDeployment refers to, valid where the webhook does not see to
    that, and the client of the region of its credential; of what it does not
    refer to, and of an RBACPolicy that is not there, it holds nothing. *)
Lemma getClusterScope_exact cd s s' r : rs_scope s = new_scope MgmtClient cd →
  getClusterScope MgmtClient clientFactory getSchemeFunc IsDNS1123Subdomain SystemNamespace IsDisabledValidationWH s = (s', r) →
  only_looked s s' ∧ (r = Ok tt → scope_exact (mgmt s) (rs_scope s')).
Proof.
  intros Hnew Hrun. split.
  { pose proof (looking_all s s (conj eq_refl (conj eq_refl (conj eq_refl eq_refl)))) as Hk. by rewrite Hrun in Hk. }
  intros ->. unfold getClusterScope in Hrun. apply bind_inv in Hrun as (s0 & cd0 & [= <- <-] & Hrun).
  apply bind_inv in Hrun as (s1 & [] & Hs1 & Hrun). apply bind_inv in Hrun as (s2 & [] & Hs2 & Hrun). apply bind_inv in Hrun as (s3 & [] & Hs3 & Hrun).
  apply bind_inv in Hrun as (s4 & [] & Hs4 & Hrun). apply bind_inv in Hrun as (s5 & [] & Hs5 & Hrun).
  assert (∀ t, only_looked s t → mgmt t = mgmt s) as Hf by (intros t (Hf & _); by rewrite Hf).
  apply credential_Ok in Hs1 as (cred & R1 & G1). pose proof (Hf _ (proj1 R1)) as F1.
  apply dataSource_Ok in Hs2. rewrite F1 in Hs2. destruct Hs2 as [[N2 R2]|(ds & N2 & R2 & G2)]; pose proof (rescoped_trans _ _ _ _ _ (λ _ _, eq_refl) R1 R2) as Ra;
    apply auth_Ok in Hs3; rewrite (Hf _ (proj1 Ra)) in Hs3;
    (destruct Hs3 as [[N3 R3]|(clAuth & N3 & R3 & G3)]; pose proof (rescoped_trans _ _ _ _ _ (λ _ _, eq_refl) Ra R3) as Rb;
     apply rbac_Ok in Hs4; rewrite (Hf _ (proj1 Rb)) in Hs4;
     (destruct Hs4 as [[R4 N4]|(policy & N4 & R4 & G4)]; pose proof (rescoped_trans _ _ _ _ _ (λ _ _, eq_refl) Rb R4) as Rc;
      apply audit_Ok in Hs5; rewrite (Hf _ (proj1 Rc)) in Hs5;
      (destruct Hs5 as [[N5 R5]|(clPolicy & N5 & R5 & G5 & V5)]; pose proof (rescoped_trans _ _ _ _ _ (λ _ _, eq_refl) Rc R5) as Rd;
       apply region_Ok in Hrun; rewrite (Hf _ (proj1 Rd)) in Hrun;
       (destruct Hrun as [[N6 R6]|(rgn & h & N6 & R6 & G6)]; pose proof (rescoped_trans _ _ _ _ _ (λ _ _, eq_refl) Rd R6) as Re;
        destruct Rd as [_ (cd5 & E5)]; rewrite E5 in N6; try rewrite E5 in G6; destruct Re as [(_ & _ & Hm & Hsp) (c & E)];
        unfold cd_of in *; rewrite Hnew in *; rewrite E in Hm, Hsp; cbn in *; rewrite E; split; cbn; rewrite ?Hm, ?Hsp; eauto 8)))).
Qed.
End collected.
