(* ===== verification/ClusterServer.v ===== *)
(** * A server for the demonstrations on ClusterDeployments

    Every kind in a map of its own; it keeps the laws the theorems ask for. *)

From Stdlib Require Import QArith.
From S2P Require Import Prelude GoStrings Api Kube Conditions ApiManagement Effects SveltosTypes ServiceBasics ClusterTypes AdmissionChecks ChildCleanup HelmReleases CapiConditions RbacSync ClusterRbac ClusterRbacSafe.
#[local] Open Scope nat_scope.

Notation store T := (gmap ObjectKey T).
Record Server := mkServer {
  sv_secrets_of : store Secret;
  sv_regions_of : store Region;
  sv_capi_of : store CapiCluster;
  sv_cds_of : store ClusterDeployment;
  sv_chains_of : store ClusterTemplateChain;
  sv_roles_of : store ClusterRole;
  sv_crbs_of : store ClusterRoleBinding;
  sv_releases_of : store HelmRelease;
  sv_sets_of : store ServiceSet;
  sv_sources_of : store ClusterDataSource;
  sv_machines_of : store Machine;
  sv_infra_of : store InfraCluster;
  sv_namespaces_of : store Namespace;
  sv_services_of : store CoreService;
  sv_pvcs_of : store PersistentVolumeClaim;
  sv_pvs_of : store PersistentVolume;
  sv_pods_of : store Pod;
  sv_workloads_of : store ControllerObject;
  sv_configmaps_of : store PlainConfigMap;
  sv_charts_of : store FluxHelmChart;
  sv_templates_of : store ClusterTemplate;
  sv_claims_of : store ClusterIPAMClaim;
  sv_ipams_of : store ClusterIPAM;
  sv_managements_of : store Management;
  sv_credentials_of : store Credential;
  sv_interfaces_of : store ProviderInterface;
  sv_stemplates_of : store ServiceTemplate;
  sv_schains_of : store ServiceTemplateChain;
  sv_providers_of : store StateManagementProvider;
  sv_dataSources_of : store DataSource;
  sv_authentications_of : store ClusterAuthentication;
  sv_policies_of : store RBACPolicy;
  sv_auditPolicies_of : store ClusterAuditPolicy }.
Definition set_secrets (m : store Secret) (v : Server) : Server :=
  mkServer m (sv_regions_of v) (sv_capi_of v) (sv_cds_of v) (sv_chains_of v) (sv_roles_of v) (sv_crbs_of v) (sv_releases_of v) (sv_sets_of v) (sv_sources_of v) (sv_machines_of v) (sv_infra_of v) (sv_namespaces_of v) (sv_services_of v) (sv_pvcs_of v) (sv_pvs_of v) (sv_pods_of v) (sv_workloads_of v) (sv_configmaps_of v) (sv_charts_of v) (sv_templates_of v) (sv_claims_of v) (sv_ipams_of v) (sv_managements_of v) (sv_credentials_of v) (sv_interfaces_of v) (sv_stemplates_of v) (sv_schains_of v) (sv_providers_of v) (sv_dataSources_of v) (sv_authentications_of v) (sv_policies_of v) (sv_auditPolicies_of v).
Definition set_regions (m : store Region) (v : Server) : Server :=
  mkServer (sv_secrets_of v) m (sv_capi_of v) (sv_cds_of v) (sv_chains_of v) (sv_roles_of v) (sv_crbs_of v) (sv_releases_of v) (sv_sets_of v) (sv_sources_of v) (sv_machines_of v) (sv_infra_of v) (sv_namespaces_of v) (sv_services_of v) (sv_pvcs_of v) (sv_pvs_of v) (sv_pods_of v) (sv_workloads_of v) (sv_configmaps_of v) (sv_charts_of v) (sv_templates_of v) (sv_claims_of v) (sv_ipams_of v) (sv_managements_of v) (sv_credentials_of v) (sv_interfaces_of v) (sv_stemplates_of v) (sv_schains_of v) (sv_providers_of v) (sv_dataSources_of v) (sv_authentications_of v) (sv_policies_of v) (sv_auditPolicies_of v).
Definition set_capi (m : store CapiCluster) (v : Server) : Server :=
  mkServer (sv_secrets_of v) (sv_regions_of v) m (sv_cds_of v) (sv_chains_of v) (sv_roles_of v) (sv_crbs_of v) (sv_releases_of v) (sv_sets_of v) (sv_sources_of v) (sv_machines_of v) (sv_infra_of v) (sv_namespaces_of v) (sv_services_of v) (sv_pvcs_of v) (sv_pvs_of v) (sv_pods_of v) (sv_workloads_of v) (sv_configmaps_of v) (sv_charts_of v) (sv_templates_of v) (sv_claims_of v) (sv_ipams_of v) (sv_managements_of v) (sv_credentials_of v) (sv_interfaces_of v) (sv_stemplates_of v) (sv_schains_of v) (sv_providers_of v) (sv_dataSources_of v) (sv_authentications_of v) (sv_policies_of v) (sv_auditPolicies_of v).
Definition set_cds (m : store ClusterDeployment) (v : Server) : Server :=
  mkServer (sv_secrets_of v) (sv_regions_of v) (sv_capi_of v) m (sv_chains_of v) (sv_roles_of v) (sv_crbs_of v) (sv_releases_of v) (sv_sets_of v) (sv_sources_of v) (sv_machines_of v) (sv_infra_of v) (sv_namespaces_of v) (sv_services_of v) (sv_pvcs_of v) (sv_pvs_of v) (sv_pods_of v) (sv_workloads_of v) (sv_configmaps_of v) (sv_charts_of v) (sv_templates_of v) (sv_claims_of v) (sv_ipams_of v) (sv_managements_of v) (sv_credentials_of v) (sv_interfaces_of v) (sv_stemplates_of v) (sv_schains_of v) (sv_providers_of v) (sv_dataSources_of v) (sv_authentications_of v) (sv_policies_of v) (sv_auditPolicies_of v).
Definition set_chains (m : store ClusterTemplateChain) (v : Server) : Server :=
  mkServer (sv_secrets_of v) (sv_regions_of v) (sv_capi_of v) (sv_cds_of v) m (sv_roles_of v) (sv_crbs_of v) (sv_releases_of v) (sv_sets_of v) (sv_sources_of v) (sv_machines_of v) (sv_infra_of v) (sv_namespaces_of v) (sv_services_of v) (sv_pvcs_of v) (sv_pvs_of v) (sv_pods_of v) (sv_workloads_of v) (sv_configmaps_of v) (sv_charts_of v) (sv_templates_of v) (sv_claims_of v) (sv_ipams_of v) (sv_managements_of v) (sv_credentials_of v) (sv_interfaces_of v) (sv_stemplates_of v) (sv_schains_of v) (sv_providers_of v) (sv_dataSources_of v) (sv_authentications_of v) (sv_policies_of v) (sv_auditPolicies_of v).
Definition set_roles (m : store ClusterRole) (v : Server) : Server :=
  mkServer (sv_secrets_of v) (sv_regions_of v) (sv_capi_of v) (sv_cds_of v) (sv_chains_of v) m (sv_crbs_of v) (sv_releases_of v) (sv_sets_of v) (sv_sources_of v) (sv_machines_of v) (sv_infra_of v) (sv_namespaces_of v) (sv_services_of v) (sv_pvcs_of v) (sv_pvs_of v) (sv_pods_of v) (sv_workloads_of v) (sv_configmaps_of v) (sv_charts_of v) (sv_templates_of v) (sv_claims_of v) (sv_ipams_of v) (sv_managements_of v) (sv_credentials_of v) (sv_interfaces_of v) (sv_stemplates_of v) (sv_schains_of v) (sv_providers_of v) (sv_dataSources_of v) (sv_authentications_of v) (sv_policies_of v) (sv_auditPolicies_of v).
Definition set_crbs (m : store ClusterRoleBinding) (v : Server) : Server :=
  mkServer (sv_secrets_of v) (sv_regions_of v) (sv_capi_of v) (sv_cds_of v) (sv_chains_of v) (sv_roles_of v) m (sv_releases_of v) (sv_sets_of v) (sv_sources_of v) (sv_machines_of v) (sv_infra_of v) (sv_namespaces_of v) (sv_services_of v) (sv_pvcs_of v) (sv_pvs_of v) (sv_pods_of v) (sv_workloads_of v) (sv_configmaps_of v) (sv_charts_of v) (sv_templates_of v) (sv_claims_of v) (sv_ipams_of v) (sv_managements_of v) (sv_credentials_of v) (sv_interfaces_of v) (sv_stemplates_of v) (sv_schains_of v) (sv_providers_of v) (sv_dataSources_of v) (sv_authentications_of v) (sv_policies_of v) (sv_auditPolicies_of v).
Definition set_releases (m : store HelmRelease) (v : Server) : Server :=
  mkServer (sv_secrets_of v) (sv_regions_of v) (sv_capi_of v) (sv_cds_of v) (sv_chains_of v) (sv_roles_of v) (sv_crbs_of v) m (sv_sets_of v) (sv_sources_of v) (sv_machines_of v) (sv_infra_of v) (sv_namespaces_of v) (sv_services_of v) (sv_pvcs_of v) (sv_pvs_of v) (sv_pods_of v) (sv_workloads_of v) (sv_configmaps_of v) (sv_charts_of v) (sv_templates_of v) (sv_claims_of v) (sv_ipams_of v) (sv_managements_of v) (sv_credentials_of v) (sv_interfaces_of v) (sv_stemplates_of v) (sv_schains_of v) (sv_providers_of v) (sv_dataSources_of v) (sv_authentications_of v) (sv_policies_of v) (sv_auditPolicies_of v).
Definition set_sets (m : store ServiceSet) (v : Server) : Server :=
  mkServer (sv_secrets_of v) (sv_regions_of v) (sv_capi_of v) (sv_cds_of v) (sv_chains_of v) (sv_roles_of v) (sv_crbs_of v) (sv_releases_of v) m (sv_sources_of v) (sv_machines_of v) (sv_infra_of v) (sv_namespaces_of v) (sv_services_of v) (sv_pvcs_of v) (sv_pvs_of v) (sv_pods_of v) (sv_workloads_of v) (sv_configmaps_of v) (sv_charts_of v) (sv_templates_of v) (sv_claims_of v) (sv_ipams_of v) (sv_managements_of v) (sv_credentials_of v) (sv_interfaces_of v) (sv_stemplates_of v) (sv_schains_of v) (sv_providers_of v) (sv_dataSources_of v) (sv_authentications_of v) (sv_policies_of v) (sv_auditPolicies_of v).
Definition set_sources (m : store ClusterDataSource) (v : Server) : Server :=
  mkServer (sv_secrets_of v) (sv_regions_of v) (sv_capi_of v) (sv_cds_of v) (sv_chains_of v) (sv_roles_of v) (sv_crbs_of v) (sv_releases_of v) (sv_sets_of v) m (sv_machines_of v) (sv_infra_of v) (sv_namespaces_of v) (sv_services_of v) (sv_pvcs_of v) (sv_pvs_of v) (sv_pods_of v) (sv_workloads_of v) (sv_configmaps_of v) (sv_charts_of v) (sv_templates_of v) (sv_claims_of v) (sv_ipams_of v) (sv_managements_of v) (sv_credentials_of v) (sv_interfaces_of v) (sv_stemplates_of v) (sv_schains_of v) (sv_providers_of v) (sv_dataSources_of v) (sv_authentications_of v) (sv_policies_of v) (sv_auditPolicies_of v).
Definition set_machines (m : store Machine) (v : Server) : Server :=
  mkServer (sv_secrets_of v) (sv_regions_of v) (sv_capi_of v) (sv_cds_of v) (sv_chains_of v) (sv_roles_of v) (sv_crbs_of v) (sv_releases_of v) (sv_sets_of v) (sv_sources_of v) m (sv_infra_of v) (sv_namespaces_of v) (sv_services_of v) (sv_pvcs_of v) (sv_pvs_of v) (sv_pods_of v) (sv_workloads_of v) (sv_configmaps_of v) (sv_charts_of v) (sv_templates_of v) (sv_claims_of v) (sv_ipams_of v) (sv_managements_of v) (sv_credentials_of v) (sv_interfaces_of v) (sv_stemplates_of v) (sv_schains_of v) (sv_providers_of v) (sv_dataSources_of v) (sv_authentications_of v) (sv_policies_of v) (sv_auditPolicies_of v).
Definition set_infra (m : store InfraCluster) (v : Server) : Server :=
  mkServer (sv_secrets_of v) (sv_regions_of v) (sv_capi_of v) (sv_cds_of v) (sv_chains_of v) (sv_roles_of v) (sv_crbs_of v) (sv_releases_of v) (sv_sets_of v) (sv_sources_of v) (sv_machines_of v) m (sv_namespaces_of v) (sv_services_of v) (sv_pvcs_of v) (sv_pvs_of v) (sv_pods_of v) (sv_workloads_of v) (sv_configmaps_of v) (sv_charts_of v) (sv_templates_of v) (sv_claims_of v) (sv_ipams_of v) (sv_managements_of v) (sv_credentials_of v) (sv_interfaces_of v) (sv_stemplates_of v) (sv_schains_of v) (sv_providers_of v) (sv_dataSources_of v) (sv_authentications_of v) (sv_policies_of v) (sv_auditPolicies_of v).
Definition set_namespaces (m : store Namespace) (v : Server) : Server :=
  mkServer (sv_secrets_of v) (sv_regions_of v) (sv_capi_of v) (sv_cds_of v) (sv_chains_of v) (sv_roles_of v) (sv_crbs_of v) (sv_releases_of v) (sv_sets_of v) (sv_sources_of v) (sv_machines_of v) (sv_infra_of v) m (sv_services_of v) (sv_pvcs_of v) (sv_pvs_of v) (sv_pods_of v) (sv_workloads_of v) (sv_configmaps_of v) (sv_charts_of v) (sv_templates_of v) (sv_claims_of v) (sv_ipams_of v) (sv_managements_of v) (sv_credentials_of v) (sv_interfaces_of v) (sv_stemplates_of v) (sv_schains_of v) (sv_providers_of v) (sv_dataSources_of v) (sv_authentications_of v) (sv_policies_of v) (sv_auditPolicies_of v).
Definition set_services (m : store CoreService) (v : Server) : Server :=
  mkServer (sv_secrets_of v) (sv_regions_of v) (sv_capi_of v) (sv_cds_of v) (sv_chains_of v) (sv_roles_of v) (sv_crbs_of v) (sv_releases_of v) (sv_sets_of v) (sv_sources_of v) (sv_machines_of v) (sv_infra_of v) (sv_namespaces_of v) m (sv_pvcs_of v) (sv_pvs_of v) (sv_pods_of v) (sv_workloads_of v) (sv_configmaps_of v) (sv_charts_of v) (sv_templates_of v) (sv_claims_of v) (sv_ipams_of v) (sv_managements_of v) (sv_credentials_of v) (sv_interfaces_of v) (sv_stemplates_of v) (sv_schains_of v) (sv_providers_of v) (sv_dataSources_of v) (sv_authentications_of v) (sv_policies_of v) (sv_auditPolicies_of v).
Definition set_pvcs (m : store PersistentVolumeClaim) (v : Server) : Server :=
  mkServer (sv_secrets_of v) (sv_regions_of v) (sv_capi_of v) (sv_cds_of v) (sv_chains_of v) (sv_roles_of v) (sv_crbs_of v) (sv_releases_of v) (sv_sets_of v) (sv_sources_of v) (sv_machines_of v) (sv_infra_of v) (sv_namespaces_of v) (sv_services_of v) m (sv_pvs_of v) (sv_pods_of v) (sv_workloads_of v) (sv_configmaps_of v) (sv_charts_of v) (sv_templates_of v) (sv_claims_of v) (sv_ipams_of v) (sv_managements_of v) (sv_credentials_of v) (sv_interfaces_of v) (sv_stemplates_of v) (sv_schains_of v) (sv_providers_of v) (sv_dataSources_of v) (sv_authentications_of v) (sv_policies_of v) (sv_auditPolicies_of v).
Definition set_pvs (m : store PersistentVolume) (v : Server) : Server :=
  mkServer (sv_secrets_of v) (sv_regions_of v) (sv_capi_of v) (sv_cds_of v) (sv_chains_of v) (sv_roles_of v) (sv_crbs_of v) (sv_releases_of v) (sv_sets_of v) (sv_sources_of v) (sv_machines_of v) (sv_infra_of v) (sv_namespaces_of v) (sv_services_of v) (sv_pvcs_of v) m (sv_pods_of v) (sv_workloads_of v) (sv_configmaps_of v) (sv_charts_of v) (sv_templates_of v) (sv_claims_of v) (sv_ipams_of v) (sv_managements_of v) (sv_credentials_of v) (sv_interfaces_of v) (sv_stemplates_of v) (sv_schains_of v) (sv_providers_of v) (sv_dataSources_of v) (sv_authentications_of v) (sv_policies_of v) (sv_auditPolicies_of v).
Definition set_pods (m : store Pod) (v : Server) : Server :=
  mkServer (sv_secrets_of v) (sv_regions_of v) (sv_capi_of v) (sv_cds_of v) (sv_chains_of v) (sv_roles_of v) (sv_crbs_of v) (sv_releases_of v) (sv_sets_of v) (sv_sources_of v) (sv_machines_of v) (sv_infra_of v) (sv_namespaces_of v) (sv_services_of v) (sv_pvcs_of v) (sv_pvs_of v) m (sv_workloads_of v) (sv_configmaps_of v) (sv_charts_of v) (sv_templates_of v) (sv_claims_of v) (sv_ipams_of v) (sv_managements_of v) (sv_credentials_of v) (sv_interfaces_of v) (sv_stemplates_of v) (sv_schains_of v) (sv_providers_of v) (sv_dataSources_of v) (sv_authentications_of v) (sv_policies_of v) (sv_auditPolicies_of v).
Definition set_workloads (m : store ControllerObject) (v : Server) : Server :=
  mkServer (sv_secrets_of v) (sv_regions_of v) (sv_capi_of v) (sv_cds_of v) (sv_chains_of v) (sv_roles_of v) (sv_crbs_of v) (sv_releases_of v) (sv_sets_of v) (sv_sources_of v) (sv_machines_of v) (sv_infra_of v) (sv_namespaces_of v) (sv_services_of v) (sv_pvcs_of v) (sv_pvs_of v) (sv_pods_of v) m (sv_configmaps_of v) (sv_charts_of v) (sv_templates_of v) (sv_claims_of v) (sv_ipams_of v) (sv_managements_of v) (sv_credentials_of v) (sv_interfaces_of v) (sv_stemplates_of v) (sv_schains_of v) (sv_providers_of v) (sv_dataSources_of v) (sv_authentications_of v) (sv_policies_of v) (sv_auditPolicies_of v).
Definition set_configmaps (m : store PlainConfigMap) (v : Server) : Server :=
  mkServer (sv_secrets_of v) (sv_regions_of v) (sv_capi_of v) (sv_cds_of v) (sv_chains_of v) (sv_roles_of v) (sv_crbs_of v) (sv_releases_of v) (sv_sets_of v) (sv_sources_of v) (sv_machines_of v) (sv_infra_of v) (sv_namespaces_of v) (sv_services_of v) (sv_pvcs_of v) (sv_pvs_of v) (sv_pods_of v) (sv_workloads_of v) m (sv_charts_of v) (sv_templates_of v) (sv_claims_of v) (sv_ipams_of v) (sv_managements_of v) (sv_credentials_of v) (sv_interfaces_of v) (sv_stemplates_of v) (sv_schains_of v) (sv_providers_of v) (sv_dataSources_of v) (sv_authentications_of v) (sv_policies_of v) (sv_auditPolicies_of v).
Definition set_charts (m : store FluxHelmChart) (v : Server) : Server :=
  mkServer (sv_secrets_of v) (sv_regions_of v) (sv_capi_of v) (sv_cds_of v) (sv_chains_of v) (sv_roles_of v) (sv_crbs_of v) (sv_releases_of v) (sv_sets_of v) (sv_sources_of v) (sv_machines_of v) (sv_infra_of v) (sv_namespaces_of v) (sv_services_of v) (sv_pvcs_of v) (sv_pvs_of v) (sv_pods_of v) (sv_workloads_of v) (sv_configmaps_of v) m (sv_templates_of v) (sv_claims_of v) (sv_ipams_of v) (sv_managements_of v) (sv_credentials_of v) (sv_interfaces_of v) (sv_stemplates_of v) (sv_schains_of v) (sv_providers_of v) (sv_dataSources_of v) (sv_authentications_of v) (sv_policies_of v) (sv_auditPolicies_of v).
Definition set_templates (m : store ClusterTemplate) (v : Server) : Server :=
  mkServer (sv_secrets_of v) (sv_regions_of v) (sv_capi_of v) (sv_cds_of v) (sv_chains_of v) (sv_roles_of v) (sv_crbs_of v) (sv_releases_of v) (sv_sets_of v) (sv_sources_of v) (sv_machines_of v) (sv_infra_of v) (sv_namespaces_of v) (sv_services_of v) (sv_pvcs_of v) (sv_pvs_of v) (sv_pods_of v) (sv_workloads_of v) (sv_configmaps_of v) (sv_charts_of v) m (sv_claims_of v) (sv_ipams_of v) (sv_managements_of v) (sv_credentials_of v) (sv_interfaces_of v) (sv_stemplates_of v) (sv_schains_of v) (sv_providers_of v) (sv_dataSources_of v) (sv_authentications_of v) (sv_policies_of v) (sv_auditPolicies_of v).
Definition set_claims (m : store ClusterIPAMClaim) (v : Server) : Server :=
  mkServer (sv_secrets_of v) (sv_regions_of v) (sv_capi_of v) (sv_cds_of v) (sv_chains_of v) (sv_roles_of v) (sv_crbs_of v) (sv_releases_of v) (sv_sets_of v) (sv_sources_of v) (sv_machines_of v) (sv_infra_of v) (sv_namespaces_of v) (sv_services_of v) (sv_pvcs_of v) (sv_pvs_of v) (sv_pods_of v) (sv_workloads_of v) (sv_configmaps_of v) (sv_charts_of v) (sv_templates_of v) m (sv_ipams_of v) (sv_managements_of v) (sv_credentials_of v) (sv_interfaces_of v) (sv_stemplates_of v) (sv_schains_of v) (sv_providers_of v) (sv_dataSources_of v) (sv_authentications_of v) (sv_policies_of v) (sv_auditPolicies_of v).
Definition set_ipams (m : store ClusterIPAM) (v : Server) : Server :=
  mkServer (sv_secrets_of v) (sv_regions_of v) (sv_capi_of v) (sv_cds_of v) (sv_chains_of v) (sv_roles_of v) (sv_crbs_of v) (sv_releases_of v) (sv_sets_of v) (sv_sources_of v) (sv_machines_of v) (sv_infra_of v) (sv_namespaces_of v) (sv_services_of v) (sv_pvcs_of v) (sv_pvs_of v) (sv_pods_of v) (sv_workloads_of v) (sv_configmaps_of v) (sv_charts_of v) (sv_templates_of v) (sv_claims_of v) m (sv_managements_of v) (sv_credentials_of v) (sv_interfaces_of v) (sv_stemplates_of v) (sv_schains_of v) (sv_providers_of v) (sv_dataSources_of v) (sv_authentications_of v) (sv_policies_of v) (sv_auditPolicies_of v).
Definition set_managements (m : store Management) (v : Server) : Server :=
  mkServer (sv_secrets_of v) (sv_regions_of v) (sv_capi_of v) (sv_cds_of v) (sv_chains_of v) (sv_roles_of v) (sv_crbs_of v) (sv_releases_of v) (sv_sets_of v) (sv_sources_of v) (sv_machines_of v) (sv_infra_of v) (sv_namespaces_of v) (sv_services_of v) (sv_pvcs_of v) (sv_pvs_of v) (sv_pods_of v) (sv_workloads_of v) (sv_configmaps_of v) (sv_charts_of v) (sv_templates_of v) (sv_claims_of v) (sv_ipams_of v) m (sv_credentials_of v) (sv_interfaces_of v) (sv_stemplates_of v) (sv_schains_of v) (sv_providers_of v) (sv_dataSources_of v) (sv_authentications_of v) (sv_policies_of v) (sv_auditPolicies_of v).
Definition set_credentials (m : store Credential) (v : Server) : Server :=
  mkServer (sv_secrets_of v) (sv_regions_of v) (sv_capi_of v) (sv_cds_of v) (sv_chains_of v) (sv_roles_of v) (sv_crbs_of v) (sv_releases_of v) (sv_sets_of v) (sv_sources_of v) (sv_machines_of v) (sv_infra_of v) (sv_namespaces_of v) (sv_services_of v) (sv_pvcs_of v) (sv_pvs_of v) (sv_pods_of v) (sv_workloads_of v) (sv_configmaps_of v) (sv_charts_of v) (sv_templates_of v) (sv_claims_of v) (sv_ipams_of v) (sv_managements_of v) m (sv_interfaces_of v) (sv_stemplates_of v) (sv_schains_of v) (sv_providers_of v) (sv_dataSources_of v) (sv_authentications_of v) (sv_policies_of v) (sv_auditPolicies_of v).
Definition set_interfaces (m : store ProviderInterface) (v : Server) : Server :=
  mkServer (sv_secrets_of v) (sv_regions_of v) (sv_capi_of v) (sv_cds_of v) (sv_chains_of v) (sv_roles_of v) (sv_crbs_of v) (sv_releases_of v) (sv_sets_of v) (sv_sources_of v) (sv_machines_of v) (sv_infra_of v) (sv_namespaces_of v) (sv_services_of v) (sv_pvcs_of v) (sv_pvs_of v) (sv_pods_of v) (sv_workloads_of v) (sv_configmaps_of v) (sv_charts_of v) (sv_templates_of v) (sv_claims_of v) (sv_ipams_of v) (sv_managements_of v) (sv_credentials_of v) m (sv_stemplates_of v) (sv_schains_of v) (sv_providers_of v) (sv_dataSources_of v) (sv_authentications_of v) (sv_policies_of v) (sv_auditPolicies_of v).
Definition set_stemplates (m : store ServiceTemplate) (v : Server) : Server :=
  mkServer (sv_secrets_of v) (sv_regions_of v) (sv_capi_of v) (sv_cds_of v) (sv_chains_of v) (sv_roles_of v) (sv_crbs_of v) (sv_releases_of v) (sv_sets_of v) (sv_sources_of v) (sv_machines_of v) (sv_infra_of v) (sv_namespaces_of v) (sv_services_of v) (sv_pvcs_of v) (sv_pvs_of v) (sv_pods_of v) (sv_workloads_of v) (sv_configmaps_of v) (sv_charts_of v) (sv_templates_of v) (sv_claims_of v) (sv_ipams_of v) (sv_managements_of v) (sv_credentials_of v) (sv_interfaces_of v) m (sv_schains_of v) (sv_providers_of v) (sv_dataSources_of v) (sv_authentications_of v) (sv_policies_of v) (sv_auditPolicies_of v).
Definition set_schains (m : store ServiceTemplateChain) (v : Server) : Server :=
  mkServer (sv_secrets_of v) (sv_regions_of v) (sv_capi_of v) (sv_cds_of v) (sv_chains_of v) (sv_roles_of v) (sv_crbs_of v) (sv_releases_of v) (sv_sets_of v) (sv_sources_of v) (sv_machines_of v) (sv_infra_of v) (sv_namespaces_of v) (sv_services_of v) (sv_pvcs_of v) (sv_pvs_of v) (sv_pods_of v) (sv_workloads_of v) (sv_configmaps_of v) (sv_charts_of v) (sv_templates_of v) (sv_claims_of v) (sv_ipams_of v) (sv_managements_of v) (sv_credentials_of v) (sv_interfaces_of v) (sv_stemplates_of v) m (sv_providers_of v) (sv_dataSources_of v) (sv_authentications_of v) (sv_policies_of v) (sv_auditPolicies_of v).
Definition set_providers (m : store StateManagementProvider) (v : Server) : Server :=
  mkServer (sv_secrets_of v) (sv_regions_of v) (sv_capi_of v) (sv_cds_of v) (sv_chains_of v) (sv_roles_of v) (sv_crbs_of v) (sv_releases_of v) (sv_sets_of v) (sv_sources_of v) (sv_machines_of v) (sv_infra_of v) (sv_namespaces_of v) (sv_services_of v) (sv_pvcs_of v) (sv_pvs_of v) (sv_pods_of v) (sv_workloads_of v) (sv_configmaps_of v) (sv_charts_of v) (sv_templates_of v) (sv_claims_of v) (sv_ipams_of v) (sv_managements_of v) (sv_credentials_of v) (sv_interfaces_of v) (sv_stemplates_of v) (sv_schains_of v) m (sv_dataSources_of v) (sv_authentications_of v) (sv_policies_of v) (sv_auditPolicies_of v).
Definition set_dataSources (m : store DataSource) (v : Server) : Server :=
  mkServer (sv_secrets_of v) (sv_regions_of v) (sv_capi_of v) (sv_cds_of v) (sv_chains_of v) (sv_roles_of v) (sv_crbs_of v) (sv_releases_of v) (sv_sets_of v) (sv_sources_of v) (sv_machines_of v) (sv_infra_of v) (sv_namespaces_of v) (sv_services_of v) (sv_pvcs_of v) (sv_pvs_of v) (sv_pods_of v) (sv_workloads_of v) (sv_configmaps_of v) (sv_charts_of v) (sv_templates_of v) (sv_claims_of v) (sv_ipams_of v) (sv_managements_of v) (sv_credentials_of v) (sv_interfaces_of v) (sv_stemplates_of v) (sv_schains_of v) (sv_providers_of v) m (sv_authentications_of v) (sv_policies_of v) (sv_auditPolicies_of v).
Definition set_authentications (m : store ClusterAuthentication) (v : Server) : Server :=
  mkServer (sv_secrets_of v) (sv_regions_of v) (sv_capi_of v) (sv_cds_of v) (sv_chains_of v) (sv_roles_of v) (sv_crbs_of v) (sv_releases_of v) (sv_sets_of v) (sv_sources_of v) (sv_machines_of v) (sv_infra_of v) (sv_namespaces_of v) (sv_services_of v) (sv_pvcs_of v) (sv_pvs_of v) (sv_pods_of v) (sv_workloads_of v) (sv_configmaps_of v) (sv_charts_of v) (sv_templates_of v) (sv_claims_of v) (sv_ipams_of v) (sv_managements_of v) (sv_credentials_of v) (sv_interfaces_of v) (sv_stemplates_of v) (sv_schains_of v) (sv_providers_of v) (sv_dataSources_of v) m (sv_policies_of v) (sv_auditPolicies_of v).
Definition set_policies (m : store RBACPolicy) (v : Server) : Server :=
  mkServer (sv_secrets_of v) (sv_regions_of v) (sv_capi_of v) (sv_cds_of v) (sv_chains_of v) (sv_roles_of v) (sv_crbs_of v) (sv_releases_of v) (sv_sets_of v) (sv_sources_of v) (sv_machines_of v) (sv_infra_of v) (sv_namespaces_of v) (sv_services_of v) (sv_pvcs_of v) (sv_pvs_of v) (sv_pods_of v) (sv_workloads_of v) (sv_configmaps_of v) (sv_charts_of v) (sv_templates_of v) (sv_claims_of v) (sv_ipams_of v) (sv_managements_of v) (sv_credentials_of v) (sv_interfaces_of v) (sv_stemplates_of v) (sv_schains_of v) (sv_providers_of v) (sv_dataSources_of v) (sv_authentications_of v) m (sv_auditPolicies_of v).
Definition set_auditPolicies (m : store ClusterAuditPolicy) (v : Server) : Server :=
  mkServer (sv_secrets_of v) (sv_regions_of v) (sv_capi_of v) (sv_cds_of v) (sv_chains_of v) (sv_roles_of v) (sv_crbs_of v) (sv_releases_of v) (sv_sets_of v) (sv_sources_of v) (sv_machines_of v) (sv_infra_of v) (sv_namespaces_of v) (sv_services_of v) (sv_pvcs_of v) (sv_pvs_of v) (sv_pods_of v) (sv_workloads_of v) (sv_configmaps_of v) (sv_charts_of v) (sv_templates_of v) (sv_claims_of v) (sv_ipams_of v) (sv_managements_of v) (sv_credentials_of v) (sv_interfaces_of v) (sv_stemplates_of v) (sv_schains_of v) (sv_providers_of v) (sv_dataSources_of v) (sv_authentications_of v) (sv_policies_of v) m.
Definition empty_server : Server := mkServer ∅ ∅ ∅ ∅ ∅ ∅ ∅ ∅ ∅ ∅ ∅ ∅ ∅ ∅ ∅ ∅ ∅ ∅ ∅ ∅ ∅ ∅ ∅ ∅ ∅ ∅ ∅ ∅ ∅ ∅ ∅ ∅ ∅.

#[export] Instance secrets_getter : Getter Server Secret := λ v k, mem_get sec_meta "Secret" (sv_secrets_of v) k.
#[export] Instance secrets_writer : Writer Server Secret :=
  {| c_create v x := let '(m, err) := mem_create sec_meta "Secret" (sv_secrets_of v) x in (set_secrets m v, err);
     c_update v x := let '(m, err) := mem_update sec_meta "Secret" (sv_secrets_of v) x in (set_secrets m v, err) |}.
#[export] Instance secrets_deleter : Deleter Server Secret :=
  λ v x, let '(m, err) := mem_delete sec_meta "Secret" (sv_secrets_of v) x in (set_secrets m v, err).
#[export] Instance regions_getter : Getter Server Region := λ v k, mem_get rgn_meta "Region" (sv_regions_of v) k.
#[export] Instance regions_lister : Lister Server Region := λ v ns p, mem_list rgn_meta (sv_regions_of v) ns p.
#[export] Instance capi_getter : Getter Server CapiCluster := λ v k, mem_get capi_meta "Cluster" (sv_capi_of v) k.
#[export] Instance capi_lister : Lister Server CapiCluster := λ v ns p, mem_list capi_meta (sv_capi_of v) ns p.
#[export] Instance cds_getter : Getter Server ClusterDeployment := λ v k, mem_get cd_meta "ClusterDeployment" (sv_cds_of v) k.
#[export] Instance cds_lister : Lister Server ClusterDeployment := λ v ns p, mem_list cd_meta (sv_cds_of v) ns p.
#[export] Instance cds_writer : Writer Server ClusterDeployment :=
  {| c_create v x := let '(m, err) := mem_create cd_meta "ClusterDeployment" (sv_cds_of v) x in (set_cds m v, err);
     c_update v x := let '(m, err) := mem_update cd_meta "ClusterDeployment" (sv_cds_of v) x in (set_cds m v, err) |}.
#[export] Instance chains_lister : Lister Server ClusterTemplateChain := λ v ns p, mem_list ctch_meta (sv_chains_of v) ns p.
#[export] Instance roles_getter : Getter Server ClusterRole := λ v k, mem_get cr_meta "ClusterRole" (sv_roles_of v) k.
#[export] Instance roles_lister : Lister Server ClusterRole := λ v ns p, mem_list cr_meta (sv_roles_of v) ns p.
#[export] Instance roles_writer : Writer Server ClusterRole :=
  {| c_create v x := let '(m, err) := mem_create cr_meta "ClusterRole" (sv_roles_of v) x in (set_roles m v, err);
     c_update v x := let '(m, err) := mem_update cr_meta "ClusterRole" (sv_roles_of v) x in (set_roles m v, err) |}.
#[export] Instance roles_deleter : Deleter Server ClusterRole :=
  λ v x, let '(m, err) := mem_delete cr_meta "ClusterRole" (sv_roles_of v) x in (set_roles m v, err).
#[export] Instance crbs_getter : Getter Server ClusterRoleBinding := λ v k, mem_get crb_meta "ClusterRoleBinding" (sv_crbs_of v) k.
#[export] Instance crbs_lister : Lister Server ClusterRoleBinding := λ v ns p, mem_list crb_meta (sv_crbs_of v) ns p.
#[export] Instance crbs_writer : Writer Server ClusterRoleBinding :=
  {| c_create v x := let '(m, err) := mem_create crb_meta "ClusterRoleBinding" (sv_crbs_of v) x in (set_crbs m v, err);
     c_update v x := let '(m, err) := mem_update crb_meta "ClusterRoleBinding" (sv_crbs_of v) x in (set_crbs m v, err) |}.
#[export] Instance crbs_deleter : Deleter Server ClusterRoleBinding :=
  λ v x, let '(m, err) := mem_delete crb_meta "ClusterRoleBinding" (sv_crbs_of v) x in (set_crbs m v, err).
#[export] Instance releases_getter : Getter Server HelmRelease := λ v k, mem_get hrl_meta "HelmRelease" (sv_releases_of v) k.
#[export] Instance releases_writer : Writer Server HelmRelease :=
  {| c_create v x := let '(m, err) := mem_create hrl_meta "HelmRelease" (sv_releases_of v) x in (set_releases m v, err);
     c_update v x := let '(m, err) := mem_update hrl_meta "HelmRelease" (sv_releases_of v) x in (set_releases m v, err) |}.
#[export] Instance releases_deleter : Deleter Server HelmRelease :=
  λ v x, let '(m, err) := mem_delete hrl_meta "HelmRelease" (sv_releases_of v) x in (set_releases m v, err).
#[export] Instance sets_getter : Getter Server ServiceSet := λ v k, mem_get sset_meta "ServiceSet" (sv_sets_of v) k.
#[export] Instance sets_lister : Lister Server ServiceSet := λ v ns p, mem_list sset_meta (sv_sets_of v) ns p.
#[export] Instance sets_writer : Writer Server ServiceSet :=
  {| c_create v x := let '(m, err) := mem_create sset_meta "ServiceSet" (sv_sets_of v) x in (set_sets m v, err);
     c_update v x := let '(m, err) := mem_update sset_meta "ServiceSet" (sv_sets_of v) x in (set_sets m v, err) |}.
#[export] Instance sets_deleter : Deleter Server ServiceSet :=
  λ v x, let '(m, err) := mem_delete sset_meta "ServiceSet" (sv_sets_of v) x in (set_sets m v, err).
#[export] Instance sources_getter : Getter Server ClusterDataSource := λ v k, mem_get cdso_meta "ClusterDataSource" (sv_sources_of v) k.
#[export] Instance sources_writer : Writer Server ClusterDataSource :=
  {| c_create v x := let '(m, err) := mem_create cdso_meta "ClusterDataSource" (sv_sources_of v) x in (set_sources m v, err);
     c_update v x := let '(m, err) := mem_update cdso_meta "ClusterDataSource" (sv_sources_of v) x in (set_sources m v, err) |}.
#[export] Instance sources_deleter : Deleter Server ClusterDataSource :=
  λ v x, let '(m, err) := mem_delete cdso_meta "ClusterDataSource" (sv_sources_of v) x in (set_sources m v, err).
#[export] Instance machines_lister : Lister Server Machine := λ v ns p, mem_list mch_meta (sv_machines_of v) ns p.
#[export] Instance infra_getter : Getter Server InfraCluster := λ v k, mem_get inf_meta "InfraCluster" (sv_infra_of v) k.
#[export] Instance namespaces_getter : Getter Server Namespace := λ v k, mem_get nsp_meta "Namespace" (sv_namespaces_of v) k.
#[export] Instance namespaces_lister : Lister Server Namespace := λ v ns p, mem_list nsp_meta (sv_namespaces_of v) ns p.
#[export] Instance namespaces_writer : Writer Server Namespace :=
  {| c_create v x := let '(m, err) := mem_create nsp_meta "Namespace" (sv_namespaces_of v) x in (set_namespaces m v, err);
     c_update v x := let '(m, err) := mem_update nsp_meta "Namespace" (sv_namespaces_of v) x in (set_namespaces m v, err) |}.
#[export] Instance services_lister : Lister Server CoreService := λ v ns p, mem_list csv_meta (sv_services_of v) ns p.
#[export] Instance services_deleter : Deleter Server CoreService :=
  λ v x, let '(m, err) := mem_delete csv_meta "Service" (sv_services_of v) x in (set_services m v, err).
#[export] Instance pvcs_getter : Getter Server PersistentVolumeClaim := λ v k, mem_get pvc_meta "PersistentVolumeClaim" (sv_pvcs_of v) k.
#[export] Instance pvcs_lister : Lister Server PersistentVolumeClaim := λ v ns p, mem_list pvc_meta (sv_pvcs_of v) ns p.
#[export] Instance pvcs_deleter : Deleter Server PersistentVolumeClaim :=
  λ v x, let '(m, err) := mem_delete pvc_meta "PersistentVolumeClaim" (sv_pvcs_of v) x in (set_pvcs m v, err).
#[export] Instance pvs_getter : Getter Server PersistentVolume := λ v k, mem_get pv_meta "PersistentVolume" (sv_pvs_of v) k.
#[export] Instance pvs_lister : Lister Server PersistentVolume := λ v ns p, mem_list pv_meta (sv_pvs_of v) ns p.
#[export] Instance pods_getter : Getter Server Pod := λ v k, mem_get pod_meta "Pod" (sv_pods_of v) k.
#[export] Instance pods_lister : Lister Server Pod := λ v ns p, mem_list pod_meta (sv_pods_of v) ns p.
#[export] Instance pods_writer : Writer Server Pod :=
  {| c_create v x := let '(m, err) := mem_create pod_meta "Pod" (sv_pods_of v) x in (set_pods m v, err);
     c_update v x := let '(m, err) := mem_update pod_meta "Pod" (sv_pods_of v) x in (set_pods m v, err) |}.
#[export] Instance pods_deleter : Deleter Server Pod :=
  λ v x, let '(m, err) := mem_delete pod_meta "Pod" (sv_pods_of v) x in (set_pods m v, err).
#[export] Instance workloads_getter : Getter Server ControllerObject := λ v k, mem_get ctl_meta "Workload" (sv_workloads_of v) k.
#[export] Instance workloads_writer : Writer Server ControllerObject :=
  {| c_create v x := let '(m, err) := mem_create ctl_meta "Workload" (sv_workloads_of v) x in (set_workloads m v, err);
     c_update v x := let '(m, err) := mem_update ctl_meta "Workload" (sv_workloads_of v) x in (set_workloads m v, err) |}.
#[export] Instance workloads_deleter : Deleter Server ControllerObject :=
  λ v x, let '(m, err) := mem_delete ctl_meta "Workload" (sv_workloads_of v) x in (set_workloads m v, err).
#[export] Instance configmaps_getter : Getter Server PlainConfigMap := λ v k, mem_get pcm_meta "ConfigMap" (sv_configmaps_of v) k.
#[export] Instance configmaps_writer : Writer Server PlainConfigMap :=
  {| c_create v x := let '(m, err) := mem_create pcm_meta "ConfigMap" (sv_configmaps_of v) x in (set_configmaps m v, err);
     c_update v x := let '(m, err) := mem_update pcm_meta "ConfigMap" (sv_configmaps_of v) x in (set_configmaps m v, err) |}.
#[export] Instance configmaps_deleter : Deleter Server PlainConfigMap :=
  λ v x, let '(m, err) := mem_delete pcm_meta "ConfigMap" (sv_configmaps_of v) x in (set_configmaps m v, err).
#[export] Instance charts_getter : Getter Server FluxHelmChart := λ v k, mem_get fhc_meta "HelmChart" (sv_charts_of v) k.
#[export] Instance templates_getter : Getter Server ClusterTemplate := λ v k, mem_get ct_meta "ClusterTemplate" (sv_templates_of v) k.
#[export] Instance claims_getter : Getter Server ClusterIPAMClaim := λ v k, mem_get ipc_meta "ClusterIPAMClaim" (sv_claims_of v) k.
#[export] Instance claims_writer : Writer Server ClusterIPAMClaim :=
  {| c_create v x := let '(m, err) := mem_create ipc_meta "ClusterIPAMClaim" (sv_claims_of v) x in (set_claims m v, err);
     c_update v x := let '(m, err) := mem_update ipc_meta "ClusterIPAMClaim" (sv_claims_of v) x in (set_claims m v, err) |}.
#[export] Instance ipams_getter : Getter Server ClusterIPAM := λ v k, mem_get ipam_meta "ClusterIPAM" (sv_ipams_of v) k.
#[export] Instance managements_getter : Getter Server Management := λ v k, mem_get mgmt_meta "Management" (sv_managements_of v) k.
#[export] Instance credentials_getter : Getter Server Credential := λ v k, mem_get cred_meta "Credential" (sv_credentials_of v) k.
#[export] Instance interfaces_lister : Lister Server ProviderInterface := λ v ns p, mem_list pi_meta (sv_interfaces_of v) ns p.
#[export] Instance stemplates_getter : Getter Server ServiceTemplate := λ v k, mem_get stpl_meta "ServiceTemplate" (sv_stemplates_of v) k.
#[export] Instance schains_getter : Getter Server ServiceTemplateChain := λ v k, mem_get tc_meta "ServiceTemplateChain" (sv_schains_of v) k.
#[export] Instance providers_getter : Getter Server StateManagementProvider := λ v k, mem_get smp_meta "StateManagementProvider" (sv_providers_of v) k.
#[export] Instance dataSources_getter : Getter Server DataSource := λ v k, mem_get ds_meta "DataSource" (sv_dataSources_of v) k.
#[export] Instance authentications_getter : Getter Server ClusterAuthentication := λ v k, mem_get ca_meta "ClusterAuthentication" (sv_authentications_of v) k.
#[export] Instance policies_getter : Getter Server RBACPolicy := λ v k, mem_get rbac_meta "RBACPolicy" (sv_policies_of v) k.
#[export] Instance auditPolicies_getter : Getter Server ClusterAuditPolicy := λ v k, mem_get cap_meta "ClusterAuditPolicy" (sv_auditPolicies_of v) k.
#[export] Instance services_all_deleter : AllDeleter Server CoreService :=
  λ v ns, (set_services (filter (λ p, key_ns p.1 ≠ ns) (sv_services_of v)) v, None).
#[export] Instance workload_getter : ControllerGetter Server := λ v g k,
  match mem_get ctl_meta "Workload" (sv_workloads_of v) k with
  | Ok x => if bool_decide (ctl_gvk x = g) then Ok x else Err (not_found_err (gvk_kind g) k)
  | Err e => Err e
  end.

(** A patch is sent when it changes anything. *)
Section patcher.
Context {T D : Type} `{EqDecision D} (meta : T → ObjectMeta) (data : T → D).
Definition differs (x base : T) : bool :=
  negb (bool_decide (om_labels (meta x) = om_labels (meta base)) && bool_decide (data x = data base)).
Definition diff_data (x base : T) : result string := Ok (if differs x base then "{changed}" else "{}").
Lemma diff_same x : diff_data x x = Ok "{}".
Proof. unfold diff_data, differs. by rewrite !bool_decide_eq_true_2. Qed.
Lemma diff_empty x base : diff_data x base = Ok "{}" → om_labels (meta x) = om_labels (meta base) ∧ data x = data base.
Proof.
  unfold diff_data, differs. do 2 case_bool_decide; done.
Qed.
End patcher.
Definition crb_data (b : ClusterRoleBinding) : RoleRef * list Subject := (crb_roleRef b, crb_subjects b).
#[export] Instance roles_patcher : Patcher Server ClusterRole :=
  {| patch_Data := diff_data cr_meta cr_rules; c_patch v x _ := c_update v x; patch_Data_same := diff_same cr_meta cr_rules |}.
#[export] Instance crbs_patcher : Patcher Server ClusterRoleBinding :=
  {| patch_Data := diff_data crb_meta crb_data; c_patch v x _ := c_update v x; patch_Data_same := diff_same crb_meta crb_data |}.
#[export] Instance infra_patcher : Patcher Server InfraCluster :=
  {| patch_Data := diff_data inf_meta (λ i, om_finalizers (inf_meta i));
     c_patch v x _ := let '(m, err) := mem_update inf_meta "InfraCluster" (sv_infra_of v) x in (set_infra m v, err);
     patch_Data_same := diff_same inf_meta (λ i, om_finalizers (inf_meta i)) |}.

(** The status patch of a ClusterDeployment: the grant, onto what is stored. *)
Definition granted_on (x base y : ClusterDeployment) : ClusterDeployment :=
  if bool_decide (cdst_rbacPolicyGrant (cd_status x) = cdst_rbacPolicyGrant (cd_status base)) then y
  else set_cd_grant (cdst_rbacPolicyGrant (cd_status x)) y.
#[export] Instance cds_status_patcher : StatusPatcher Server ClusterDeployment := λ v x base,
  match c_get (T:=ClusterDeployment) v (cd_key x) with
  | Ok y => (set_cds (<[cd_key x := granted_on x base y]> (sv_cds_of v)) v, granted_on x base y, None)
  | Err e => (v, x, Some e)
  end.
Definition with_label (k l : string) (m : ObjectMeta) : ObjectMeta :=
  mkMeta (om_name m) (om_namespace m) (om_uid m) (om_generation m) (Some (<[k := l]> (labels_of m))) (om_annotations m)
    (om_ownerReferences m) (om_finalizers m) (om_deletionTimestamp m).
#[export] Instance cds_refresher : Refresher Server ClusterDeployment :=
  {| c_update_refresh v x :=
       let '(m, err) := mem_update cd_meta "ClusterDeployment" (sv_cds_of v) x in
       (set_cds (if bool_decide (om_finalizers (cd_meta x) = []) && bool_decide (is_Some (om_deletionTimestamp (cd_meta x)))
                 then delete (cd_key x) m else m) v, x, err);
     c_patch_label v x k l :=
       let y := set_cd_meta (with_label k l (cd_meta x)) x in
       let '(m, err) := mem_update cd_meta "ClusterDeployment" (sv_cds_of v) y in (set_cds m v, y, err);
     c_status_update v x := let '(m, err) := mem_update cd_meta "ClusterDeployment" (sv_cds_of v) x in (set_cds m v, x, err) |}.

#[export] Instance roles_kind : Kind Server ClusterRole cr_meta cr_rules.
Proof.
  split.
  - intros v k x Hx. by apply mem_get_Ok in Hx as [_ ?].
  - intros v x v' Hc. unfold c_create in Hc. simpl in Hc. destruct (mem_create _ _ _ _) as [m err] eqn:E. injection Hc as <- ->.
    exists x. split; [exact (mem_create_stored _ _ _ _ _ E)|done].
  - intros v x base v' _ Hc. unfold c_patch in Hc. simpl in Hc. destruct (mem_update _ _ _ _) as [m err] eqn:E. injection Hc as <- ->.
    exists x. split; [exact (mem_update_stored _ _ _ _ _ E)|done].
  - intros v x v' err Hc _ y. unfold c_delete, roles_deleter in Hc. destruct (mem_delete _ _ _ _) as [m err'] eqn:E. injection Hc as <- <-.
    exact (mem_delete_gone _ _ _ _ _ _ y E).
  - intros v x y. unfold c_delete, roles_deleter. destruct (mem_delete _ _ _ _) as [m err'] eqn:E. cbn [fst]. intros Hy. left.
    exact (mem_delete_gone _ _ _ _ _ _ y E Hy).
  - intros v x k Hk. unfold c_create. simpl. pose proof (mem_create_frame cr_meta "ClusterRole" (sv_roles_of v) x k Hk) as Hf.
    by destruct (mem_create _ _ _ _).
  - intros v x base k Hk. unfold c_patch. simpl. pose proof (mem_update_frame cr_meta "ClusterRole" (sv_roles_of v) x k Hk) as Hf.
    by destruct (mem_update _ _ _ _).
  - intros v x k Hk. unfold c_delete, roles_deleter. pose proof (mem_delete_frame cr_meta "ClusterRole" (sv_roles_of v) x k Hk) as Hf.
    by destruct (mem_delete _ _ _ _).
  - intros v ns p l Hl. exact (proj1 (mem_list_spec _ "ClusterRole" _ _ _ _ Hl)).
  - intros v ns p l Hl. exact (proj2 (mem_list_spec _ "ClusterRole" _ _ _ _ Hl)).
  - apply diff_empty.
Qed.
#[export] Instance crbs_kind : Kind Server ClusterRoleBinding crb_meta (λ b, (crb_roleRef b, crb_subjects b)).
Proof.
  split.
  - intros v k x Hx. by apply mem_get_Ok in Hx as [_ ?].
  - intros v x v' Hc. unfold c_create in Hc. simpl in Hc. destruct (mem_create _ _ _ _) as [m err] eqn:E. injection Hc as <- ->.
    exists x. split; [exact (mem_create_stored _ _ _ _ _ E)|done].
  - intros v x base v' _ Hc. unfold c_patch in Hc. simpl in Hc. destruct (mem_update _ _ _ _) as [m err] eqn:E. injection Hc as <- ->.
    exists x. split; [exact (mem_update_stored _ _ _ _ _ E)|done].
  - intros v x v' err Hc _ y. unfold c_delete, crbs_deleter in Hc. destruct (mem_delete _ _ _ _) as [m err'] eqn:E. injection Hc as <- <-.
    exact (mem_delete_gone _ _ _ _ _ _ y E).
  - intros v x y. unfold c_delete, crbs_deleter. destruct (mem_delete _ _ _ _) as [m err'] eqn:E. cbn [fst]. intros Hy. left.
    exact (mem_delete_gone _ _ _ _ _ _ y E Hy).
  - intros v x k Hk. unfold c_create. simpl. pose proof (mem_create_frame crb_meta "ClusterRoleBinding" (sv_crbs_of v) x k Hk) as Hf.
    by destruct (mem_create _ _ _ _).
  - intros v x base k Hk. unfold c_patch. simpl. pose proof (mem_update_frame crb_meta "ClusterRoleBinding" (sv_crbs_of v) x k Hk) as Hf.
    by destruct (mem_update _ _ _ _).
  - intros v x k Hk. unfold c_delete, crbs_deleter. pose proof (mem_delete_frame crb_meta "ClusterRoleBinding" (sv_crbs_of v) x k Hk) as Hf.
    by destruct (mem_delete _ _ _ _).
  - intros v ns p l Hl. exact (proj1 (mem_list_spec _ "ClusterRoleBinding" _ _ _ _ Hl)).
  - intros v ns p l Hl. exact (proj2 (mem_list_spec _ "ClusterRoleBinding" _ _ _ _ Hl)).
  - apply (diff_empty crb_meta crb_data).
Qed.
#[export] Instance roles_apart_crbs : Apart Server ClusterRole ClusterRoleBinding.
Proof.
  split; intros v x *.
  - unfold c_create. simpl. by destruct (mem_create _ _ _ _).
  - unfold c_patch. simpl. by destruct (mem_update _ _ _ _).
  - unfold c_delete, roles_deleter. by destruct (mem_delete _ _ _ _).
Qed.
#[export] Instance crbs_apart_roles : Apart Server ClusterRoleBinding ClusterRole.
Proof.
  split; intros v x *.
  - unfold c_create. simpl. by destruct (mem_create _ _ _ _).
  - unfold c_patch. simpl. by destruct (mem_update _ _ _ _).
  - unfold c_delete, crbs_deleter. by destruct (mem_delete _ _ _ _).
Qed.
#[export] Instance roles_apart_cds : Apart Server ClusterRole ClusterDeployment.
Proof.
  split; intros v x *.
  - unfold c_create. simpl. by destruct (mem_create _ _ _ _).
  - unfold c_patch. simpl. by destruct (mem_update _ _ _ _).
  - unfold c_delete, roles_deleter. by destruct (mem_delete _ _ _ _).
Qed.
#[export] Instance crbs_apart_cds : Apart Server ClusterRoleBinding ClusterDeployment.
Proof.
  split; intros v x *.
  - unfold c_create. simpl. by destruct (mem_create _ _ _ _).
  - unfold c_patch. simpl. by destruct (mem_update _ _ _ _).
  - unfold c_delete, crbs_deleter. by destruct (mem_delete _ _ _ _).
Qed.

(** [CreateOrUpdate], for what the update of a cluster writes. *)
#[export] Instance ObjectMeta_eq_dec : EqDecision ObjectMeta.
Proof. solve_decision. Defined.
#[export] Instance Secret_eq_dec : EqDecision Secret.
Proof. solve_decision. Defined.
#[export] Instance PlainConfigMap_eq_dec : EqDecision PlainConfigMap.
Proof. solve_decision. Defined.
#[export] Instance ClusterIPAMClaimSpec_eq_dec : EqDecision ClusterIPAMClaimSpec.
Proof. solve_decision. Defined.
#[export] Instance ClusterIPAMClaim_eq_dec : EqDecision ClusterIPAMClaim.
Proof. solve_decision. Defined.
#[export] Instance SourceReference_eq_dec : EqDecision CrossNamespaceSourceReference.
Proof. solve_decision. Defined.
#[export] Instance SecretKeyReference_eq_dec : EqDecision SecretKeyReference.
Proof. solve_decision. Defined.
#[export] Instance HelmReleaseSpec_eq_dec : EqDecision HelmReleaseSpec.
Proof. solve_decision. Defined.
#[export] Instance HelmRelease_eq_dec : EqDecision HelmRelease.
Proof. solve_decision. Defined.
Lemma mem_storing {T} (meta : T → ObjectMeta) kind (proj : Server → store T) (set : store T → Server → Server)
    `{!Getter Server T} `{!Writer Server T} :
  (∀ m v, proj (set m v) = m) → (∀ v k, c_get v k = mem_get meta kind (proj v) k) →
  (∀ v x, c_create v x = (set (mem_create meta kind (proj v) x).1 v, (mem_create meta kind (proj v) x).2)) →
  (∀ v x, c_update v x = (set (mem_update meta kind (proj v) x).1 v, (mem_update meta kind (proj v) x).2)) →
  Storing (C:=Server) meta.
Proof.
  intros Hps Hg Hcr Hup. split.
  - intros v k x. rewrite Hg. by intros [_ Hk]%(mem_get_Ok meta kind).
  - intros v x v'. rewrite Hcr. intros [= <- He]. rewrite Hg, Hps. apply (mem_create_stored meta kind (proj v)). by apply injective_projections.
  - intros v x v'. rewrite Hup. intros [= <- He]. rewrite Hg, Hps. apply (mem_update_stored meta kind (proj v)). by apply injective_projections.
Qed.
#[export] Instance secrets_storing : Storing (C:=Server) sec_meta.
Proof.
  apply (mem_storing sec_meta "Secret" sv_secrets_of set_secrets); try done; intros v x; unfold c_create, c_update; simpl;
    [by destruct (mem_create _ _ _ _)|by destruct (mem_update _ _ _ _)].
Qed.
#[export] Instance secrets_updater : CreateOrUpdater Server _ sec_meta :=
  {| CreateOrUpdate S := mem_create_or_update (S:=S) sec_meta; create_or_update_does S := mem_create_or_update_does (S:=S) sec_meta |}.
#[export] Instance configmaps_storing : Storing (C:=Server) pcm_meta.
Proof.
  apply (mem_storing pcm_meta "ConfigMap" sv_configmaps_of set_configmaps); try done; intros v x; unfold c_create, c_update; simpl;
    [by destruct (mem_create _ _ _ _)|by destruct (mem_update _ _ _ _)].
Qed.
#[export] Instance configmaps_updater : CreateOrUpdater Server _ pcm_meta :=
  {| CreateOrUpdate S := mem_create_or_update (S:=S) pcm_meta; create_or_update_does S := mem_create_or_update_does (S:=S) pcm_meta |}.
#[export] Instance claims_storing : Storing (C:=Server) ipc_meta.
Proof.
  apply (mem_storing ipc_meta "ClusterIPAMClaim" sv_claims_of set_claims); try done; intros v x; unfold c_create, c_update; simpl;
    [by destruct (mem_create _ _ _ _)|by destruct (mem_update _ _ _ _)].
Qed.
#[export] Instance claims_updater : CreateOrUpdater Server _ ipc_meta :=
  {| CreateOrUpdate S := mem_create_or_update (S:=S) ipc_meta; create_or_update_does S := mem_create_or_update_does (S:=S) ipc_meta |}.
#[export] Instance releases_storing : Storing (C:=Server) hrl_meta.
Proof.
  apply (mem_storing hrl_meta "HelmRelease" sv_releases_of set_releases); try done; intros v x; unfold c_create, c_update; simpl;
    [by destruct (mem_create _ _ _ _)|by destruct (mem_update _ _ _ _)].
Qed.
#[export] Instance releases_updater : CreateOrUpdater Server _ hrl_meta :=
  {| CreateOrUpdate S := mem_create_or_update (S:=S) hrl_meta; create_or_update_does S := mem_create_or_update_does (S:=S) hrl_meta |}.
#[export] Instance server_grants : GrantServer Server.
Proof.
  split.
  - intros v x base v' y Hp. unfold c_status_patch, cds_status_patcher in Hp. destruct (c_get v (cd_key x)) as [z|e] eqn:Hz; [|done].
    injection Hp as <- <-. apply mem_get_Ok in Hz as [_ Hk].
    assert (cd_key (granted_on x base z) = cd_key x) as Hy by (unfold granted_on; case_bool_decide; exact Hk).
    split; [done|]. split.
    + apply mem_get_Ok. split; [apply lookup_insert_eq|exact Hy].
    + intros Hne. unfold granted_on. rewrite bool_decide_eq_false_2; [done|]. intros E. apply Hne. unfold is_granted. by rewrite E.
  - intros v x base v' y e Hp. unfold c_status_patch, cds_status_patcher in Hp. destruct (c_get v (cd_key x)); [done|]. by injection Hp.
  - intros v x base k. unfold c_status_patch, cds_status_patcher. by destruct (c_get v (cd_key x)).
  - intros v x base k. unfold c_status_patch, cds_status_patcher. by destruct (c_get v (cd_key x)).
Qed.

(** ** The clusters, and time *)

Inductive Place := Mgmt | Regional | Child.
#[export] Instance Place_eq_dec : EqDecision Place.
Proof. solve_decision. Defined.

(** A volume to be deleted with its claim goes once the claim is gone. *)
Definition reclaim (v : Server) : Server :=
  set_pvs (filter (λ p, (negb (bool_decide (pv_reclaimPolicy p.2 = "Delete")) ||
                          match pv_claimRef p.2 with Some k => bool_decide (is_Some (sv_pvcs_of v !! k)) | None => true end) = true)
             (sv_pvs_of v)) v.
Definition reclaim_all (s : rstate Place Server) : rstate Place Server :=
  mkRState (mkFleet (λ h, reclaim (at_ (rs_fleet s) h)) (past (rs_fleet s))) (rs_scope s) (rs_synced s).

(** A wait looks twice. *)
Definition timed_out : gerror := ErrMark DeadlineExceeded (ErrNew DeadlineExceeded).
Definition poll_twice {S X} (pass : S → S) (cond : X → M S (X * bool)) (x : X) : M S unit := λ s,
  match cond x s with
  | (s1, Err e) => (s1, Err e)
  | (s1, Ok (x1, true)) => (s1, Ok tt)
  | (s1, Ok (x1, false)) =>
      match cond x1 (pass s1) with
      | (s2, Err e) => (s2, Err e)
      | (s2, Ok (_, true)) => (s2, Ok tt)
      | (s2, Ok (_, false)) => (s2, Err timed_out)
      end
  end.
#[export] Program Instance patient : Poller (rstate Place Server) :=
  {| elapse s s' := s' = reclaim_all s; PollUntilContextTimeout X := poll_twice reclaim_all |}.
Next Obligation.
  intros X cond x s s' r. unfold poll_twice. destruct (cond x s) as [s1 [[x1 b1]|e]] eqn:E1.
  - destruct b1; [intros [= <- <-]; by exists x, s; split; [|exists x1]|].
    destruct (cond x1 (reclaim_all s1)) as [s2 [[x2 b2]|e]] eqn:E2.
    + assert (rtc (tick (λ s s', s' = reclaim_all s) cond) (x, s) (x1, reclaim_all s1)) as Hs.
      { eapply rtc_l; [by eapply tick_look|]. eapply rtc_once. by apply tick_elapse. }
      destruct b2; intros [= <- <-].
      * exists x1, (reclaim_all s1). split; [done|by exists x2].
      * exists x2, s2. split; [eapply rtc_r; [exact Hs|by eapply tick_look]|by right].
    + intros [= <- <-]. exists x1, (reclaim_all s1). split; [|by left].
      eapply rtc_l; [by eapply tick_look|]. eapply rtc_once. by apply tick_elapse.
  - intros [= <- <-]. exists x, s. split; [done|by left].
Qed.

(** A summary that says what the first condition of the cluster says. *)
Definition first_merge (negative : list string) : merge := λ conditions _,
  match conditions with
  | c :: _ => (cond_status c, cond_reason c, cond_message c, None)
  | [] => (CondUnknown, "NotYetReported", "", None)
  end.
#[export] Program Instance simple_summaries : CapiSummaries := {|
  DefaultMerge := first_merge;
  NewSummaryCondition cluster typ types negative m :=
    let '(status, reason, message, err) := m (capi_conditions cluster) types in
    match err with Some e => Err e | None => Ok (mkCondition typ status reason message 0 0) end;
  ClusterInfrastructureReadyCondition := "InfrastructureReady";
  ClusterControlPlaneInitializedCondition := "ControlPlaneInitialized";
  ClusterControlPlaneAvailableCondition := "ControlPlaneAvailable";
  ClusterControlPlaneMachinesReadyCondition := "ControlPlaneMachinesReady";
  ClusterWorkersAvailableCondition := "WorkersAvailable";
  ClusterWorkerMachinesReadyCondition := "WorkerMachinesReady";
  ClusterRemoteConnectionProbeCondition := "RemoteConnectionProbe";
  ClusterDeletingCondition := "Deleting" |}.
Next Obligation.
  intros cluster typ types negative m c. simpl. destruct (m _ _) as [[[status reason] message] [e|]]; [done|]. by intros [= <-].
Qed.
