(* ===== verification/ClusterDemo.v ===== *)
(** * ClusterDeployments at work

    Instances of the theorems, computed on the server of [ClusterServer], and
    runs that show the behaviours noted in the header. *)

From Stdlib Require Import QArith.
From S2P Require Import Prelude GoStrings Api Kube Conditions ApiManagement Effects SveltosTypes ServiceBasics ClusterTypes ContractVersions AdmissionChecks ChildCleanup HelmReleases ClusterStatus CapiConditions RbacSync ClusterRbac ClusterRbacSafe ClusterDelete ClusterServer.
#[local] Open Scope nat_scope.
#[local] Existing Instance simple_conditions.
#[local] Existing Instance simple_finalizers.

(** ** A management cluster, a child, a ClusterDeployment *)

Definition labelled_meta (ns n : string) (l : gmap string string) (fs : list string) : ObjectMeta :=
  mkMeta n ns (n +:+ "-uid") 1 (Some l) ∅ [] fs None.
Definition demo_spec (policy : string) (cleanup : bool) : ClusterDeploymentSpec :=
  mkCDSpec None None no_ipamClaim "tpl" "cred" "" "" "" policy (empty_service_spec []) false cleanup.
Definition demo_status (grant : string) (cs : list Condition) : ClusterDeploymentStatus := mkCDStatus [] [] grant "" "" cs [] 0.
Definition demo_cd (policy : string) (cleanup : bool) (grant : string) (cs : list Condition) : ClusterDeployment :=
  mkCD (labelled_meta "prod" "c1" ∅ [ClusterDeploymentFinalizer]) (demo_spec policy cleanup) (demo_status grant cs).
Definition demo_key := mkKey "prod" "c1".

Definition view_rules : list PolicyRule := [mkPolicyRule ["get"; "list"] [""] ["pods"] [] []].
Definition demo_policy : RBACPolicy :=
  mkRBACPolicy (labelled_meta "prod" "team" ∅ []) [mkBinding "devs" "pod-viewer" view_rules [mkSubject "Group" "devs"];
                                                   mkBinding "ops" "cluster-admin" [] [mkSubject "User" "eve"]].
Definition managed_labels : gmap string string := <[ManagedByLabelKey := ManagedByLabelValue]> {[KCMManagedLabelKey := KCMManagedLabelValue]}.

Definition builtin_role : ClusterRole := mkClusterRole (named_meta "" "cluster-admin") [].
Definition stale_role : ClusterRole := mkClusterRole (labelled_meta "" "old" managed_labels []) [].
Definition child_with (roles : list ClusterRole) : Server :=
  set_roles (list_to_map ((λ r, (meta_key (cr_meta r), r)) <$> roles)) empty_server.
Definition mgmt_with (cd : ClusterDeployment) : Server :=
  set_cds {[demo_key := cd]}
    (set_secrets {[mkKey "prod" "c1-kubeconfig" := mkSecret (named_meta "prod" "c1-kubeconfig") {[childKubeconfigSecretKey := "child"]}]}
    (set_capi {[demo_key := mkCapiCluster (labelled_meta "prod" "c1" {[FluxHelmChartNameKey := "c1"]} []) None (Some true) []]} empty_server)).

Definition demo_factory (kubeconfig : string) (_ : unit) : result Place :=
  if bool_decide (kubeconfig = "child") then Ok Child else Err (ErrNew "unknown cluster").
Definition demo_scheme (_ : Place) : unit := tt.
Definition no_jitter (d : Z) (_ : Q) : Z := d.
Definition demo_cred : Credential := mkCredential (named_meta "prod" "cred") (mkCredentialSpec None "" "") (mkCredentialStatus [] true).
Definition no_deletion : clusterDeletionState := mkDeletionState false false false false false.
Definition demo_state (mgmt child : Server) (cd : ClusterDeployment) (policy : option RBACPolicy) : rstate Place Server :=
  mkRState (mkFleet (λ h, match h with Mgmt => mgmt | Regional => empty_server | Child => child end) [])
    (mkScope cd demo_cred None None None policy None Mgmt no_deletion) ∅.

(** ** RBAC *)

Lemma pair_result {A B} (p : A * B) b : p.2 = b → p = (p.1, b).
Proof. destruct p. by intros <-. Qed.

Definition no_dns_errors (_ : string) : list string := [].
Definition stale_child : Server := child_with [builtin_role; stale_role].
Definition fresh_state : rstate Place Server :=
  let cd := demo_cd "team" false "" [] in demo_state (mgmt_with cd) (child_with [builtin_role]) cd (Some demo_policy).
Definition stale_state : rstate Place Server :=
  let cd := demo_cd "team" false RBACPolicyGrantedState [] in demo_state (mgmt_with cd) stale_child cd (Some demo_policy).
Notation child_client := (client_of (C:=Server) Child).
Notation demo_ensure := (ensureRBACPolicy (C:=Server) Mgmt demo_factory demo_scheme no_jitter 0 0 60).

Definition synced : rstate Place Server := (Sync child_client (Some demo_policy) stale_state).1.
Definition pruned : rstate Place Server :=
  (Prune child_client (desired_roles (rbac_bindings demo_policy)) (desired_bindings (rbac_bindings demo_policy)) synced).1.

Lemma foreign_roles_untouched_witness :
  c_get (T:=ClusterRole) (at_ (rs_fleet synced) Child) (mkKey "" "cluster-admin") = Ok builtin_role ∧
  c_get (T:=ClusterRole) (at_ (rs_fleet (Prune child_client ∅ ∅ stale_state).1) Child) (mkKey "" "cluster-admin") = Ok builtin_role.
Proof. apply (foreign_roles_untouched child_client (Some demo_policy) ∅ ∅ stale_state); by vm_compute. Defined.

Lemma sync_converges_witness :
  (∀ b, b ∈ rbac_bindings demo_policy → granted child_client pruned b) ∧
  in_catalog child_client pruned (desired_roles (rbac_bindings demo_policy)) (desired_bindings (rbac_bindings demo_policy)) ∧
  Sync child_client (Some demo_policy) pruned =
    (pruned, Ok (desired_roles (rbac_bindings demo_policy), desired_bindings (rbac_bindings demo_policy), false, None)).
Proof.
  apply (sync_converges child_client no_dns_errors demo_policy stale_state synced _ _ true pruned true).
  - reflexivity.
  - unfold synced. apply pair_result. vm_compute. reflexivity.
  - unfold pruned. apply pair_result. vm_compute. reflexivity.
Defined.

Lemma clean_builtin : clean (child_with [builtin_role]).
Proof.
  split.
  - intros k r Hr Hm. apply mem_get_Ok in Hr as [Hr _]. cbn in Hr.
    apply lookup_insert_Some in Hr as [[_ <-]|[_ Hr]]; [by vm_compute in Hm|]. by rewrite lookup_empty in Hr.
  - intros k b Hb. apply mem_get_Ok in Hb as [Hb _]. cbn in Hb. by rewrite lookup_empty in Hb.
Qed.

Definition applied : rstate Place Server := (demo_ensure fresh_state).1.
Lemma rbac_grant_recorded_witness :
  settled Mgmt demo_key Child (gone demo_factory demo_scheme fresh_state) applied ∧
  is_granted (cd_of applied) = true.
Proof.
  split; [|by vm_compute].
  apply (rbac_grant_recorded Mgmt demo_factory demo_scheme no_jitter 0 0 60 demo_key Child fresh_state).
  - intros h Hh. vm_compute in Hh. by injection Hh as <-.
  - split_and!; [split; [right; apply clean_builtin|constructor]|done|left; apply clean_builtin].
Defined.

Lemma applied_ready : reports_ready applied.
Proof.
  exists (mkCondition RBACPolicyReadyCondition CondTrue SucceededReason "RBACPolicy team generation 1 applied" 1 0). by vm_compute.
Qed.
Lemma rbac_ready_means_granted_witness :
  ∃ resyncIn, (demo_ensure fresh_state).2 = Ok resyncIn ∧
    (∀ b, b ∈ rbac_bindings demo_policy → granted child_client applied b) ∧
    in_catalog child_client applied (desired_roles (rbac_bindings demo_policy)) (desired_bindings (rbac_bindings demo_policy)) ∧
    rs_synced applied = <[om_uid (cd_meta (cd_of applied)) := synced_state 0 demo_policy resyncIn]> (rs_synced fresh_state).
Proof.
  destruct (rbac_ready_means_granted Mgmt demo_factory demo_scheme no_jitter 0 0 60 Child no_dns_errors demo_policy
              fresh_state applied (demo_ensure fresh_state).2) as [(z & Hz & _ & Hg & Hcat & Hy)|[Hn _]].
  - reflexivity.
  - reflexivity.
  - vm_compute. reflexivity.
  - vm_compute. reflexivity.
  - apply surjective_pairing.
  - exists z. split; [exact Hz|]. split; [exact Hg|]. split; [exact Hcat|exact Hy].
  - exfalso. refine (Hn (rbacResyncInterval * 9 / 10)%Z _ applied_ready). vm_compute. reflexivity.
Defined.

(** ** Status *)

Definition demo_chain : ClusterTemplateChain :=
  mkClusterChain (named_meta "prod" "chain")
    (mkChainSpec [mkSupported "tpl" [mkUpgrade "tpl-3" "3"; mkUpgrade "tpl-2" "2"]; mkSupported "tpl-2" [mkUpgrade "tpl-4" "4"]]).
Definition demo_tpl : ClusterTemplate :=
  mkClusterTemplate (named_meta "prod" "tpl") (mkClusterTemplateSpec (mkHelmSpec None None None) ∅ "" [])
    (mkClusterTemplateStatus ∅ "" [] (mkTemplateStatus None None "" "" "" (mkTemplateValidation "" true) 0)).
Definition chained (s : rstate Place Server) : rstate Place Server :=
  put_fleet Mgmt (set_chains {[mkKey "prod" "chain" := demo_chain]} (at_ (rs_fleet s) Mgmt)) s.
Definition reported : rstate Place Server := (updateStatus Mgmt (cd_of fresh_state) (Some demo_tpl) (chained fresh_state)).1.

Lemma updateStatus_reports_witness :
  cdst_availableUpgrades (cd_status (cd_of reported)) = ["tpl-2"; "tpl-3"] ∧
  ∃ cd', cd_meta cd' = cd_meta (cd_of (chained fresh_state)) ∧ cd_spec cd' = cd_spec (cd_of (chained fresh_state)) ∧
    cdst_observedGeneration (cd_status cd') = 1%Z.
Proof.
  split; [by vm_compute|].
  destruct (updateStatus_reports Mgmt (cd_of fresh_state) (Some demo_tpl) (chained fresh_state) reported) as (cd' & Hm & Hs & Hg & _).
  - unfold reported. apply pair_result. vm_compute. reflexivity.
  - exists cd'. split; [exact Hm|]. split; [exact Hs|exact Hg].
Defined.

(** ** Cleaning up a child *)

Definition child_service (n typ : string) : CoreService := mkCoreService (named_meta "app" n) typ.
Definition busy_child : Server :=
  set_namespaces {[mkKey "" "app" := mkNamespace (named_meta "" "app")]}
  (set_services (<[mkKey "app" "lb" := child_service "lb" "LoadBalancer"]> {[mkKey "app" "web" := child_service "web" "ClusterIP"]})
  (set_pvcs {[mkKey "app" "data" := mkPVC (named_meta "app" "data")]}
  (set_pvs {[mkKey "" "vol" := mkPV (named_meta "" "vol") (Some (mkKey "app" "data")) "Delete" "Bound"]}
  (set_pods {[mkKey "app" "db-0" := mkPod (mkMeta "db-0" "app" "" 0 None ∅ [mkOwner "apps/v1" "StatefulSet" "db" "u" true true] [] None) [Some "data"]]}
  (set_workloads {[mkKey "app" "db" := mkController (mkGVK "apps" "v1" "StatefulSet") (labelled_meta "app" "db" ∅ ["hold"])]}
     empty_server))))).
Definition cleanup_cd : ClusterDeployment := demo_cd "" true "" [].
Definition busy_state : rstate Place Server := demo_state (mgmt_with cleanup_cd) busy_child cleanup_cd None.
Definition spare_plain (s : CoreService) : bool := negb (bool_decide (csv_type s = "LoadBalancer")).
Definition services_cleaned : rstate Place Server :=
  (DeleteAllExceptAndWait child_client csv_meta "/v1, Kind=Service" (Some spare_plain) busy_state).1.

Lemma DeleteAllExceptAndWait_spec_witness :
  rtc (delete_step child_client spare_plain) busy_state services_cleaned ∧
  ((∃ items, c_list (T:=CoreService) (view child_client services_cleaned) "" all_objects = Ok items ∧ ∀ x, x ∈ items → spare_plain x = true) ∨
   (∃ e, c_list (T:=CoreService) (view child_client services_cleaned) "" all_objects = Err e ∧ IsNotFound e = true)).
Proof.
  destruct (DeleteAllExceptAndWait_spec child_client csv_meta "/v1, Kind=Service" spare_plain busy_state services_cleaned (Ok tt)) as [Hs Hl].
  - unfold services_cleaned. apply pair_result. vm_compute. reflexivity.
  - split; [exact Hs|]. by apply Hl.
Defined.

Definition sorted_range : gmap string string → list (string * string) := map_to_list.
Definition volumes_cleaned : rstate Place Server := (DeletePVCsAndOwnersAndWait child_client sorted_range None busy_state).1.
Lemma cleanup_deletes_only_witness :
  (c_get (T:=PersistentVolumeClaim) (at_ (rs_fleet volumes_cleaned) Child) (mkKey "app" "data") =
     Err (not_found_err "PersistentVolumeClaim" (mkKey "app" "data")) ∧
   om_finalizers ∘ ctl_meta <$> (sv_workloads_of (at_ (rs_fleet volumes_cleaned) Child) !! mkKey "app" "db") = Some [] ∧
   is_ok (c_get (T:=Pod) (at_ (rs_fleet volumes_cleaned) Child) (mkKey "app" "db-0")) = true) ∧
  ∃ past, history child_client None busy_state (volumes_cleaned :: past).
Proof.
  split; [split_and!; by vm_compute|]. apply (cleanup_deletes_only child_client sorted_range None busy_state).
Defined.

Definition busy_volume : PersistentVolume := mkPV (named_meta "" "vol") (Some (mkKey "app" "data")) "Delete" "Bound".
Lemma volumes_seen_released_witness :
  ∃ past s1 s2, history child_client None busy_state (s1 :: past) ∧
    (∀ ns, ns ∈ [mkNamespace (named_meta "" "app")] → namespace_done child_client None (s1 :: past) (om_name (nsp_meta ns))) ∧
    rtc elapse s1 s2 ∧ volume_released child_client s2 "vol" "Delete" ∧ rtc elapse s2 volumes_cleaned.
Proof.
  apply (volumes_seen_released child_client sorted_range None busy_state volumes_cleaned
    [mkNamespace (named_meta "" "app")] [busy_volume] busy_volume).
  - done.
  - unfold volumes_cleaned. apply pair_result. vm_compute. reflexivity.
  - vm_compute. reflexivity.
  - vm_compute. reflexivity.
  - apply NoDup_singleton.
  - left.
  - vm_compute. reflexivity.
Defined.

(** ** Deletion *)

Lemma demo_elapse (s s' : rstate Place Server) : elapse s s' → rs_scope s' = rs_scope s.
Proof. by intros ->. Qed.

Definition no_infra (_ : Server) (ref : string * string) (ns : string) : result InfraCluster :=
  Err (not_found_err ref.1 (mkKey ns ref.2)).
Definition never (_ : gerror) : bool := false.
Notation demo_phases := (delete_phases (C:=Server) Mgmt demo_factory demo_scheme no_infra never "cluster.x-k8s.io/cluster-name"
  sorted_range true false 60).
Notation demo_delete := (reconcileDelete (C:=Server) Mgmt demo_factory demo_scheme no_infra never "cluster.x-k8s.io/cluster-name"
  sorted_range true false 60).

Definition last_state : rstate Place Server :=
  let cd := demo_cd "" false "" [] in demo_state (set_cds {[demo_key := cd]} empty_server) empty_server cd None.
Definition released_state : rstate Place Server := (demo_phases last_state).1.

Lemma finalizer_goes_last_witness :
  om_finalizers (cd_meta (cd_of released_state)) = [] ∧
  ∃ s1 s2, same_subject last_state s1 ∧ owned_sets (cd_of last_state) (at_ (rs_fleet s1) Mgmt) = Ok [] ∧
    parts_gone Mgmt last_state s2.
Proof.
  split; [by vm_compute|].
  destruct (finalizer_goes_last Mgmt demo_factory demo_scheme no_infra never "cluster.x-k8s.io/cluster-name" sorted_range true false 60
    demo_elapse last_state released_state (Ok 0%Z)) as [[(Hm & _) _]|(s1 & s2 & H1 & H2 & _ & H3 & _)].
  - unfold released_state. apply pair_result. vm_compute. reflexivity.
  - exfalso. assert (om_finalizers (cd_meta (cd_of released_state)) = []) as Hf by by vm_compute. by rewrite Hm in Hf.
  - exists s1, s2. split; [exact H1|]. split; [exact H2|exact H3].
Defined.

Lemma nothing_left_last : nothing_left Mgmt false last_state.
Proof.
  split.
  - done.
  - by vm_compute.
  - by vm_compute.
  - by left.
  - split; [|split; [by left|]]; eexists; (split; [vm_compute; reflexivity|done]).
Qed.
Definition cached_state : rstate Place Server :=
  mkRState (rs_fleet last_state) (rs_scope last_state) {["c1-uid" := mkSyncState 100 "p" 1]}.
Lemma cached_nothing_left : nothing_left Mgmt false cached_state.
Proof. destruct nothing_left_last. by split. Qed.
Lemma deletion_completes_witness :
  ∃ s' cd c y, demo_delete cached_state = (s', Ok 0%Z) ∧ om_finalizers (cd_meta cd) = [] ∧
    c_update_refresh (at_ (rs_fleet cached_state) Mgmt) cd = (c, y, None) ∧ rs_synced s' = ∅.
Proof.
  destruct (deletion_completes Mgmt demo_factory demo_scheme no_infra never "cluster.x-k8s.io/cluster-name" sorted_range true false 60
    demo_elapse cached_state cached_nothing_left) as (s' & cd & c & y & Hrun & Hm & _ & Hup & _ & Hy).
  - left.
  - intros cd Hk. unfold c_update_refresh, cds_refresher, mem_update. change (meta_key (cd_meta cd)) with (cd_key cd). rewrite Hk.
    eexists _, _. split; [reflexivity|done].
  - exists s', cd, c, y. split; [exact Hrun|]. split; [by rewrite Hm|]. split; [exact Hup|by rewrite Hy].
Defined.

(** ** Noted in the header *)

(** The patch that records the grant brings back what is stored: a condition set
    earlier in the same reconcile is lost. *)
Definition ready_tpl (status : ConditionStatus) : Condition := mkCondition TemplateReadyCondition status "R" "" 1 0.
Definition half_way : rstate Place Server :=
  demo_state (mgmt_with (demo_cd "team" false "" [ready_tpl CondFalse])) (child_with [builtin_role])
    (demo_cd "team" false "" [ready_tpl CondTrue]) (Some demo_policy).
Example grant_refresh_drops_conditions :
  cond_status <$> cd_condition TemplateReadyCondition (cd_of half_way) = Some CondTrue ∧
  cond_status <$> cd_condition TemplateReadyCondition (cd_of (demo_ensure half_way).1) = Some CondFalse.
Proof. by vm_compute. Qed.

(** The pass that ends the cleanup of the cloud still says it waits for it. *)
Definition cleaned_up : rstate Place Server :=
  let cd := demo_cd "" true "" [] in
  demo_state (set_releases {[demo_key := new_release "c1" "prod"]} (set_cds {[demo_key := cd]} empty_server)) empty_server cd None.
Example cleanup_done_not_told :
  cond_status <$> cd_condition CloudResourcesDeletedCondition (cd_of (demo_delete cleaned_up).1) = Some CondTrue ∧
  cond_reason <$> cd_condition DeletingCondition (cd_of (demo_delete cleaned_up).1) = Some WaitingForCloudResourcesDeletionReason.
Proof. by vm_compute. Qed.

(** A ServiceSet of a MultiClusterService of that name is taken for one's own. *)
Definition namesake : ServiceSet :=
  mkServiceSet (mkMeta "c1-self" "prod" "" 1 None ∅ [mkOwner "k0rdent.mirantis.com/v1beta1" "MultiClusterService" "c1" "u" true true] [] None)
    (sset_spec empty_ServiceSet) (sset_status empty_ServiceSet).
Definition with_namesake : rstate Place Server :=
  put_fleet Mgmt (set_sets {[mkKey "prod" "c1-self" := namesake]} (at_ (rs_fleet last_state) Mgmt)) last_state.
Example namesake_deleted :
  is_ok (demo_delete with_namesake).2 = true ∧ sv_sets_of (at_ (rs_fleet (demo_delete with_namesake).1) Mgmt) = ∅.
Proof. by vm_compute. Qed.
