(* ===== verification/UpdateDemo.v ===== *)
(** * The update of a cluster at work

    On the server of [ClusterServer]: a cluster whose needs are met gets its
    Helm release, and what happens when they are not. *)

From Stdlib Require Import QArith.
From S2P Require Import Prelude GoStrings Api Kube Conditions ApiManagement Effects TemplateChain SveltosTypes ServiceBasics ServiceDeps ServiceOrder ServiceUpgrades ServiceSetPipeline Cluster Compatibility ContractVersions ClusterTypes AdmissionChecks Secrets HelmReleases ClusterStatus CapiConditions RbacSync ClusterRbac ClusterDelete ClusterValues ClusterResources ClusterIpam ClusterServices ClusterUpdate ClusterUpdateSafe ClusterServer ClusterDemo.
#[local] Open Scope nat_scope.
#[local] Existing Instance simple_conditions.
#[local] Existing Instance simple_finalizers.
#[local] Existing Instance dotted_semver.
#[local] Existing Instance at_least_constraints.

(** ** The server keeps kinds apart *)

#[local] Instance server_kinds_apart : KindsApart (C:=Server).
Proof.
  split; repeat intros ?; repeat split; repeat intros ?;
    unfold c_create, c_update, c_delete, c_update_refresh, c_patch_label, c_status_update; simpl;
    unfold secrets_deleter, configmaps_deleter; try (by destruct (mem_create _ _ _ _)); try (by destruct (mem_update _ _ _ _));
    by destruct (mem_delete _ _ _ _).
Qed.

(** ** Stand-ins for libraries *)

(** An encoding that knows one object, and a chart that takes its values. *)
#[local] Instance one_object : Json :=
  {| json_Marshal_map m := Ok (if bool_decide (m = ∅) then "{}" else "values");
     json_RawMessage _ := JNull;
     json_Unmarshal_map raw := Ok (Some ∅);
     yaml_Unmarshal_map raw := Ok (Some ∅) |}.
#[local] Instance plain_files : ApiServerFiles := {| yaml_Marshal_auth _ := Ok "auth"; yaml_Marshal_audit p := Ok p |}.
#[local] Instance no_owners : OwnerSetters :=
  {| own_with_cluster _ l := Ok l; own_with_deployment _ l := Ok l; control_with_deployment _ l := Ok l |}.
(** A chart is known by its digest; chart [picky] takes no values at all. *)
#[local] Instance toy_helm : HelmLibrary :=
  {| Chart := string;
     DownloadChart url digest := Ok digest;
     Configuration_Init _ := None;
     Install_DryRun chart _ _ _ := if bool_decide (chart = "picky") then Some (ErrNew "values don't meet the schema") else None |}.
#[local] Instance no_flux : FluxConditions := {| Ready_of _ := None; IsReady _ := true |}.

(** ** A cluster that asks for nothing special *)

Definition ready_tpl (valid : bool) : ClusterTemplate :=
  mkClusterTemplate (named_meta "prod" "tpl") (mkClusterTemplateSpec (mkHelmSpec None None None) ∅ "" [])
    (mkClusterTemplateStatus ∅ "1.32.0" []
       (mkTemplateStatus None (Some (mkChartRef "HelmChart" "tpl-chart" "prod")) "" "" "" (mkTemplateValidation "" valid) 0)).
Definition tpl_chart (digest : string) (fetched : bool) : FluxHelmChart :=
  mkFluxHelmChart (named_meta "prod" "tpl-chart") "1.0.0" "tpl" "HelmRepository" "charts"
    (if fetched then Some (mkArtifact "http://charts/tpl.tgz" "1.0.0" digest) else None).
Definition new_cd : ClusterDeployment :=
  mkCD (labelled_meta "prod" "c1" {[GenericComponentNameLabel := GenericComponentLabelValueKCM]} [ClusterDeploymentFinalizer])
    (demo_spec "" false) (demo_status "" []).
Definition hub (valid : bool) (digest : string) (fetched : bool) : Server :=
  set_templates {[mkKey "prod" "tpl" := ready_tpl valid]}
    (set_charts {[mkKey "prod" "tpl-chart" := tpl_chart digest fetched]}
    (set_providers {[mkKey "" "ksm-projectsveltos" := mkSMP (named_meta "" "ksm-projectsveltos") (Some (mkSelector ∅ [])) false true]} (mgmt_with new_cd))).
Definition aws_cred : Credential :=
  mkCredential (named_meta "prod" "cred")
    (mkCredentialSpec (Some (mkRef "AWSClusterStaticIdentity" "prod" "identity" "infrastructure.cluster.x-k8s.io/v1beta2")) "" "")
    (mkCredentialStatus [] true).
Definition hub_state (v : Server) : rstate Place Server :=
  mkRState (mkFleet (λ h, match h with Mgmt => v | _ => empty_server end) [])
    (mkScope new_cd aws_cred None None None None None Mgmt no_deletion) ∅.
Notation demo_update := (reconcileUpdate (C:=Server) Mgmt demo_factory demo_scheme (Ok ()) "kcm-system" "" "" "" "" "" (λ s, s) "rnd"
  (λ _, ("k0rdent.mirantis.com/v1beta1", "ClusterDeployment")) (λ _, Ok "{}") (λ _, Ok []) no_jitter 0 0 10 600 false).
Definition releases_after (v : Server) : list ObjectKey * result Z :=
  let '(s, r) := demo_update (hub_state v) in ((map_to_list (sv_releases_of (at_ (rs_fleet s) Mgmt))).*1, r).

(** With its needs met the cluster gets its release, and is looked at again
    until Cluster API reports on it. *)
Example release_written : releases_after (hub true "good" true) = ([demo_key], Ok 10%Z).
Proof. vm_compute. reflexivity. Qed.

(** Neither with a template that is not valid nor with a chart that refuses the
    values. *)
Example release_withheld :
  (releases_after (hub false "good" true)).1 = [] ∧ (releases_after (hub true "picky" true)).1 = [].
Proof. by vm_compute. Qed.

Lemma release_only_when_ready_witness :
  let s := hub_state (hub true "good" true) in
  ∃ clusterTpl, c_get (T:=ClusterTemplate) (at_ (rs_fleet s) Mgmt) (mkKey "prod" "tpl") = Ok clusterTpl ∧
    template_valid clusterTpl = true ∧ chart_accepts Mgmt s clusterTpl.
Proof.
  cbn zeta. set (s := hub_state (hub true "good" true)).
  destruct (release_only_when_ready Mgmt demo_factory demo_scheme (Ok ()) "kcm-system" "" "" "" "" "" (λ s, s) "rnd"
              (λ _, ("k0rdent.mirantis.com/v1beta1", "ClusterDeployment")) (λ _, Ok "{}") (λ _, Ok []) no_jitter 0 0 10 600 false
              s (demo_update s).1 (demo_update s).2 (surjective_pairing _)) as [(new & _ & Hnow)|Hready].
  - exfalso. apply Forall_cons in Hnow as [Hnow _]. specialize (Hnow demo_key).
    assert (is_ok (c_get (T:=HelmRelease) (at_ (rs_fleet (demo_update s).1) Mgmt) demo_key) = true) as Hok by (vm_compute; reflexivity).
    rewrite Hnow in Hok. vm_compute in Hok. discriminate Hok.
  - exact (release_template _ _ _ _ _ _ _ _ Hready).
Defined.

(** While the chart of the template has not been fetched, what is to be the
    error asks the missing artifact for its URL: the reconcile breaks down. *)
Example missing_artifact_panics :
  match (releases_after (hub true "good" false)).2 with Err e => panicking e | Ok _ => false end = true.
Proof. vm_compute. reflexivity. Qed.

(** A pause of the region is noted in the status; the upgrades that were noted
    there go, as if the template had none. *)
Definition paused_region : Region :=
  mkRegion (mkMeta "eu" "" "" 1 None {[RegionPauseAnnotation := "true"]} [] [] None)
    (mkRegionSpec None None (mkComponentsSpec None None [])) (mkRegionStatus (mkComponentsStatus ∅ ∅ []) [] 1).
Definition upgradable_cd : ClusterDeployment :=
  mkCD (cd_meta new_cd) (cd_spec new_cd) (mkCDStatus [] [] "" "" "" [] ["tpl-2"; "tpl-3"] 1).
Definition upgrades_in (v : Server) (region : option Region) : option (list string) :=
  let v := set_cds {[demo_key := upgradable_cd]} (set_chains {[mkKey "prod" "chain" := demo_chain]} v) in
  let s := mkRState (mkFleet (λ h, match h with Mgmt => v | _ => empty_server end) [])
             (mkScope upgradable_cd aws_cred region None None None None Mgmt no_deletion) ∅ in
  (λ cd, cdst_availableUpgrades (cd_status cd)) <$> (sv_cds_of (at_ (rs_fleet (demo_update s).1) Mgmt) !! demo_key).
Example pause_drops_upgrades :
  upgrades_in (hub true "good" true) None = Some ["tpl-2"; "tpl-3"] ∧
  upgrades_in (hub true "good" true) (Some paused_region) = Some [].
Proof. vm_compute. split; reflexivity. Qed.
