(* ===== verification/Webhooks.v ===== *)
(** * Admission of ClusterDeployments
    ([src/internal/webhook/clusterdeployment_webhook.go]).

    What the API server asks before it stores or deletes a ClusterDeployment,
    and the configuration a new one starts from. A webhook returns warnings and
    an error; no error lets the request through. *)

From S2P Require Import Prelude GoStrings Api ApiManagement Kube TemplateChain ServiceBasics ServiceUpgrades ServiceDeps ServiceOrder DependencyGraph.
From S2P Require Import ServiceValidation Cluster Compatibility AdmissionChecks.

#[local] Arguments String.append !_ _ / : simpl nomatch.

(** [admission.Warnings] and the error. *)
Definition Response := (list string * option gerror)%type.
Definition admitted (r : Response) : Prop := r.2 = None.
Definition prefixed (msg : string) (e : gerror) : gerror := ErrWrap (msg +:+ ": ") e.

(** Metadata of an object of a kind ([metav1.PartialObjectMetadata]). *)
Class MetadataGetter (C : Type) := get_metadata : C → string → ObjectKey → result ObjectMeta.

(** [apierrors.NewInvalid] with one forbidden field. *)
Class NewInvalid := new_invalid : ∀ kind name path detail : string, gerror.

(** ** ClusterDeployments *)

Definition invalidClusterDeploymentMsg := "the ClusterDeployment is invalid".
Definition errClusterUpgradeForbidden : gerror :=
  ErrMark "cluster upgrade is forbidden" (ErrNew "cluster upgrade is forbidden").

Definition isClusterTemplateValid (ct : ClusterTemplate) : option gerror :=
  let validation := tsc_validation (ctst_common (ct_status ct)) in
  if negb (tv_valid validation)
  then Some (ErrNew ("the ClusterTemplate " +:+ key_string (meta_key (ct_meta ct)) +:+
         " is invalid with the error: " +:+ tv_validationError validation))
  else None.

Section cluster_deployments.
Context `{!MapRange string} `{!MapRange ObjectKey} `{Semver} `{!SemverConstraints} {C Scheme : Type}.
Context `{!Getter C ServiceTemplate} `{!Getter C ServiceTemplateChain} `{!Getter C ClusterTemplate}.
Context `{!Getter C Secret} `{!Getter C Region} `{!Getter C Management} `{!Getter C Credential}.
Context `{!Lister C ProviderInterface} `{!Lister C Region}.
Variable clientFactory : string → Scheme → result C.
Variable getSchemeFunc : result Scheme.
Variable invalid_name : string → string → list gerror.

(** The validator: the client and its two settings. *)
Variable v : C.
Variable SystemNamespace : string.
Variable ValidateClusterUpgradePath : bool.

Definition getClusterDeploymentTemplate (templateNamespace templateName : string) : result ClusterTemplate :=
  c_get v (mkKey templateNamespace templateName).

Definition invalid_cd (e : gerror) : gerror := prefixed invalidClusterDeploymentMsg e.
Definition cd_services (cd : ClusterDeployment) : list Service := ss_services (cds_serviceSpec (cd_spec cd)).

Definition ClusterDeployment_ValidateCreate (clusterDeployment : ClusterDeployment) : Response :=
  let ns := om_namespace (cd_meta clusterDeployment) in
  match getClusterDeploymentTemplate ns (cds_template (cd_spec clusterDeployment)) with
  | Err err => ([], Some (invalid_cd err))
  | Ok template =>
  match isClusterTemplateValid template with
  | Some err => ([], Some (invalid_cd err))
  | None =>
  match ClusterTemplateProviders v template clusterDeployment with
  | Some err => (["Failed to validate required providers"], Some (prefixed "failed to validate required providers" err))
  | None =>
  match ClusterTemplateK8sCompatibility v template clusterDeployment with
  | Some err => (["Failed to validate k8s version compatibility with ServiceTemplates"],
                 Some (prefixed "failed to validate k8s compatibility" err))
  | None =>
  match ClusterDeployCredential clientFactory getSchemeFunc SystemNamespace v clusterDeployment template with
  | Some err => ([], Some (invalid_cd err))
  | None =>
  match ServicesHaveValidTemplates v invalid_name (cd_services clusterDeployment) ns with
  | Some err => ([], Some (invalid_cd err))
  | None =>
  match ValidateServiceDependencyOverall (cd_services clusterDeployment) with
  | Some err => ([], Some (invalid_cd err))
  | None => ([], None)
  end end end end end end end.

Definition detectHelmChartNameChange (namespace oldTemplateName : string) (newTemplate : ClusterTemplate)
  : list string :=
  match getClusterDeploymentTemplate namespace oldTemplateName with
  | Err _ => []
  | Ok oldTemplate =>
      match tsc_chartRef (ctst_common (ct_status oldTemplate)), tsc_chartRef (ctst_common (ct_status newTemplate)) with
      | Some o, Some n =>
          if negb (bool_decide (cr_name o = cr_name n))
          then ["Helm chart name changed from " +:+ quote (cr_name o) +:+ " to " +:+ quote (cr_name n) +:+
                ": Flux will uninstall the existing release and reinstall it as a new release, " +:+
                "which may cause service disruption or resource recreation"]
          else []
      | _, _ => []
      end
  end.

(** What an update that changes the template is checked for. *)
Definition template_change (old new : ClusterDeployment) (template : ClusterTemplate) : Response :=
  let oldTemplate := cds_template (cd_spec old) in
  let newTemplate := cds_template (cd_spec new) in
  if ValidateClusterUpgradePath && negb (bool_decide (newTemplate ∈ cdst_availableUpgrades (cd_status old)))
  then (["Cluster can't be upgraded from " +:+ oldTemplate +:+ " to " +:+ newTemplate +:+
         ". This upgrade sequence is not allowed"], Some errClusterUpgradeForbidden)
  else
  match isClusterTemplateValid template with
  | Some err => ([], Some (invalid_cd err))
  | None =>
  match ClusterTemplateProviders v template new with
  | Some err => (["Failed to validate required providers"], Some (prefixed "failed to validate required providers" err))
  | None =>
  match ClusterTemplateK8sCompatibility v template new with
  | Some err => (["Failed to validate k8s version compatibility with ServiceTemplates"],
                 Some (prefixed "failed to validate k8s compatibility" err))
  | None => (if cds_dryRun (cd_spec new)
             then detectHelmChartNameChange (om_namespace (cd_meta old)) oldTemplate template else [], None)
  end end end.

Definition ClusterDeployment_ValidateUpdate (old new : ClusterDeployment) : Response :=
  let newTemplate := cds_template (cd_spec new) in
  match getClusterDeploymentTemplate (om_namespace (cd_meta new)) newTemplate with
  | Err err => ([], Some (invalid_cd err))
  | Ok template =>
      let '(warnings, err) := if negb (bool_decide (cds_template (cd_spec old) = newTemplate))
                              then template_change old new template else ([], None) in
      match err with
      | Some err => (warnings, Some err)
      | None =>
      match (if negb (bool_decide (cds_credential (cd_spec old) = cds_credential (cd_spec new)))
             then ClusterDeployCredential clientFactory getSchemeFunc SystemNamespace v new template else None) with
      | Some err => ([], Some (invalid_cd err))
      | None =>
      let oldHasDataSource := negb (bool_decide (cds_dataSource (cd_spec old) = "")) in
      let newHasDataSource := negb (bool_decide (cds_dataSource (cd_spec new) = "")) in
      if negb (eqb oldHasDataSource newHasDataSource)
      then ([], Some (ErrNew (invalidClusterDeploymentMsg +:+
             ": spec.dataSource cannot be added or removed after creation")))
      else if negb (bool_decide (cd_services old = cd_services new)) then
        match ServicesHaveValidTemplates v invalid_name (cd_services new) (om_namespace (cd_meta new)) with
        | Some err => ([], Some (invalid_cd err))
        | None =>
        match ValidateServiceDependencyOverall (cd_services new) with
        | Some err => ([], Some (invalid_cd err))
        | None => (warnings, None)
        end end
      else (warnings, None)
      end end
  end.

Definition ClusterDeployment_ValidateDelete (clusterDeployment : ClusterDeployment) : Response :=
  ([], ClusterDeploymentDeletionAllowed v clusterDeployment).

Definition set_config (config : string) (cd : ClusterDeployment) : ClusterDeployment :=
  let s := cd_spec cd in
  mkCD (cd_meta cd)
    (mkCDSpec (Some config) (cds_propagateCredentials s) (cds_ipamClaim s) (cds_template s) (cds_credential s)
       (cds_clusterAuth s) (cds_dataSource s) (cds_auditPolicy s) (cds_rbacPolicy s) (cds_serviceSpec s)
       true (cds_cleanupOnDeletion s)) (cd_status cd).

(** The object as it is stored. *)
Definition ClusterDeployment_Default (clusterDeployment : ClusterDeployment) : ClusterDeployment * option gerror :=
  let spec := cd_spec clusterDeployment in
  if bool_decide (is_Some (cds_config spec)) || bool_decide (cds_template spec = "") then (clusterDeployment, None)
  else
    match getClusterDeploymentTemplate (om_namespace (cd_meta clusterDeployment)) (cds_template spec) with
    | Err err => (clusterDeployment, Some (ErrWrap ("failed to get ClusterTemplate for the ClusterDeployment " +:+
                    key_string (meta_key (cd_meta clusterDeployment)) +:+ ": ") err))
    | Ok template =>
        match isClusterTemplateValid template with
        | Some err => (clusterDeployment, Some err)
        | None =>
            match tsc_config (ctst_common (ct_status template)) with
            | None => (clusterDeployment, None)
            | Some raw => (set_config raw clusterDeployment, None)
            end
        end
    end.
End cluster_deployments.

(** ** Properties: an admitted ClusterDeployment *)

Section admitted_deployments.
Context `{!MapRange string} `{!MapRange ObjectKey} `{Semver} `{!SemverConstraints} {C Scheme : Type}.
Context `{!Getter C ServiceTemplate} `{!Getter C ServiceTemplateChain} `{!Getter C ClusterTemplate}.
Context `{!Getter C Secret} `{!Getter C Region} `{!Getter C Management} `{!Getter C Credential}.
Context `{!Lister C ProviderInterface} `{!Lister C Region}.
Variable clientFactory : string → Scheme → result C.
Variable getSchemeFunc : result Scheme.
Variable invalid_name : string → string → list gerror.
Variable v : C.
Variable SystemNamespace : string.

Local Abbreviation Create := (ClusterDeployment_ValidateCreate clientFactory getSchemeFunc invalid_name v SystemNamespace).

(** The parent the Credential of a deployment names has what the template needs. *)
Definition parent_provides (cd : ClusterDeployment) (tpl : ClusterTemplate) : Prop :=
  ∃ cred parent,
    c_get v (mkKey (om_namespace (cd_meta cd)) (cds_credential (cd_spec cd))) = Ok cred ∧
    getParent v cred = Ok parent ∧
    (∀ p, p ∈ ctst_providers (ct_status tpl) → p ∈ ccst_availableProviders (GetComponentsStatus parent)) ∧
    (∀ p c, (ctst_providerContracts (ct_status tpl) : gmap string string) !! p = Some c →
       contract_satisfied (GetComponentsStatus parent) p c).

Lemma ClusterTemplateProviders_None tpl cd :
  ClusterTemplateProviders v tpl cd = None ↔ parent_provides cd tpl.
Proof.
  unfold ClusterTemplateProviders, parent_provides. cbn zeta. split.
  - destruct (c_get _ _) as [cred|] eqn:Hc; [|done]. destruct (getParent v cred) as [parent|] eqn:Hp; [|done].
    destruct (validateCompatibilityAttrs tpl parent) eqn:Hv; [done|]. intros _. exists cred, parent.
    by apply validateCompatibilityAttrs_None in Hv.
  - intros (cred & parent & -> & -> & Hv%validateCompatibilityAttrs_None). by rewrite Hv.
Qed.

Lemma isClusterTemplateValid_None tpl :
  isClusterTemplateValid tpl = None ↔ tv_valid (tsc_validation (ctst_common (ct_status tpl))) = true.
Proof. unfold isClusterTemplateValid. by destruct (tv_valid _). Qed.

(** The Kubernetes version of the template suits every service that is not
    disabled. *)
Definition kubernetes_suits (cd : ClusterDeployment) (tpl : ClusterTemplate) : Prop :=
  ctst_kubernetesVersion (ct_status tpl) = "" ∨
  ∀ svc, svc ∈ cd_services cd → svc_disable svc = false →
    ∃ kv, NewVersion (ctst_kubernetesVersion (ct_status tpl)) = Some kv ∧
      template_allows v (om_namespace (cd_meta cd)) kv (svc_template svc).

Lemma ClusterTemplateK8sCompatibility_None tpl cd :
  ClusterTemplateK8sCompatibility v tpl cd = None ↔ kubernetes_suits cd tpl.
Proof.
  unfold ClusterTemplateK8sCompatibility, ServiceTemplatesK8sCompatibility, kubernetes_suits. cbn zeta.
  cbn [k8s_Templates K8sVersion VersionSource k8s_Namespace].
  set (l := filterb _ _).
  assert (∀ svc, svc ∈ l ↔ svc ∈ cd_services cd ∧ svc_disable svc = false) as Hl
    by (intros svc; unfold l; by rewrite filterb_elem_of, negb_true_iff).
  case_bool_decide as Hn; [simpl|rewrite orb_false_l; case_bool_decide as Hv].
  - split; [|done]. intros _. right. intros svc Hs Hd. exfalso. assert (svc ∈ l) as Hin by by apply Hl.
    destruct l; [by apply elem_of_nil in Hin|done].
  - split; [by left|done].
  - destruct (NewVersion _) as [kv|].
    + rewrite templates_k8s_error_None. cbn [k8s_Namespace]. setoid_rewrite list_elem_of_fmap. split.
      * intros Hall. right. intros svc Hs Hd. exists kv. split; [done|]. apply Hall. exists svc. by rewrite Hl.
      * intros [?|Hall]; [done|]. intros t (svc & -> & [Hs Hd]%Hl).
        by destruct (Hall svc Hs Hd) as (kv' & [= <-] & ?).
    + split; [done|]. intros [?|Hall]; [done|]. exfalso.
      destruct l as [|svc l']; [done|]. destruct (proj1 (Hl svc) ltac:(left)) as [Hs Hd].
      by destruct (Hall svc Hs Hd) as (? & ? & _).
Qed.

(** C10: a ClusterDeployment is admitted exactly when its template is valid, the
    Management object or Region of its Credential exposes every provider and
    contract the template requires, the Kubernetes version suits the services,
    the Credential is ready and of a kind the infrastructure providers take,
    every service refers to valid templates, every dependency is listed and no
    dependency cycle runs through the services. *)
Theorem deployment_admitted_exactly cd :
  NoDup (svc_key <$> cd_services cd) →
  admitted (Create cd) ↔
  ∃ tpl, c_get v (mkKey (om_namespace (cd_meta cd)) (cds_template (cd_spec cd))) = Ok tpl ∧
    tv_valid (tsc_validation (ctst_common (ct_status tpl))) = true ∧
    parent_provides cd tpl ∧ kubernetes_suits cd tpl ∧
    credential_ok clientFactory getSchemeFunc SystemNamespace v cd tpl ∧
    (∀ svc, svc ∈ cd_services cd → service_templates_ok v invalid_name (om_namespace (cd_meta cd)) svc) ∧
    deps_present (cd_services cd) ∧ acyclic_deps (cd_services cd).
Proof.
  intros Hnd. unfold admitted, ClusterDeployment_ValidateCreate, getClusterDeploymentTemplate. cbn zeta.
  setoid_rewrite <- (ValidateServiceDependencyOverall_None (cd_services cd) Hnd).
  setoid_rewrite <- ServicesHaveValidTemplates_None.
  setoid_rewrite <- ClusterDeployCredential_None. setoid_rewrite <- ClusterTemplateK8sCompatibility_None.
  setoid_rewrite <- ClusterTemplateProviders_None. setoid_rewrite <- isClusterTemplateValid_None. split.
  - destruct (c_get _ _) as [tpl|] eqn:Ht; [|done]. intros Ha. exists tpl.
    repeat match type of Ha with context [match ?x with Some _ => _ | None => _ end] => destruct x eqn:?; [done|] end.
    done.
  - by intros (tpl & -> & -> & -> & -> & -> & -> & ->).
Qed.

Variable ValidateClusterUpgradePath : bool.
Local Abbreviation Update :=
  (ClusterDeployment_ValidateUpdate clientFactory getSchemeFunc invalid_name v SystemNamespace ValidateClusterUpgradePath).

Lemma template_change_admitted old new tpl :
  (template_change v ValidateClusterUpgradePath old new tpl).2 = None ↔
  (ValidateClusterUpgradePath = true → cds_template (cd_spec new) ∈ cdst_availableUpgrades (cd_status old)) ∧
  tv_valid (tsc_validation (ctst_common (ct_status tpl))) = true ∧ parent_provides new tpl ∧ kubernetes_suits new tpl.
Proof.
  rewrite <- ClusterTemplateK8sCompatibility_None, <- ClusterTemplateProviders_None, <- isClusterTemplateValid_None.
  unfold template_change. cbn zeta. destruct ValidateClusterUpgradePath; cbn [andb].
  - case_bool_decide as Hin; cbn [negb]; [|naive_solver].
    destruct (isClusterTemplateValid tpl), (ClusterTemplateProviders v tpl new),
      (ClusterTemplateK8sCompatibility v tpl new); simpl; naive_solver.
  - destruct (isClusterTemplateValid tpl), (ClusterTemplateProviders v tpl new),
      (ClusterTemplateK8sCompatibility v tpl new); simpl; naive_solver.
Qed.

(** The checks of an update, each made only when what it is about changes. *)
Lemma update_checks old new tpl :
  c_get v (mkKey (om_namespace (cd_meta new)) (cds_template (cd_spec new))) = Ok tpl →
  admitted (Update old new) ↔
  (cds_template (cd_spec old) ≠ cds_template (cd_spec new) →
     (template_change v ValidateClusterUpgradePath old new tpl).2 = None) ∧
  (cds_credential (cd_spec old) ≠ cds_credential (cd_spec new) →
     ClusterDeployCredential clientFactory getSchemeFunc SystemNamespace v new tpl = None) ∧
  (cds_dataSource (cd_spec old) = "" ↔ cds_dataSource (cd_spec new) = "") ∧
  (cd_services old ≠ cd_services new →
     ServicesHaveValidTemplates v invalid_name (cd_services new) (om_namespace (cd_meta new)) = None ∧
     ValidateServiceDependencyOverall (cd_services new) = None).
Proof.
  intros Ht. unfold admitted, ClusterDeployment_ValidateUpdate, getClusterDeploymentTemplate. cbn zeta. rewrite Ht.
  set (checks := ServicesHaveValidTemplates _ _ _ _). set (deps := ValidateServiceDependencyOverall _).
  set (cred := ClusterDeployCredential _ _ _ _ _ _). set (change := template_change _ _ _ _ _).
  assert (∀ a b : string, eqb (negb (bool_decide (a = ""))) (negb (bool_decide (b = ""))) = true ↔ (a = "" ↔ b = "")) as Hds.
  { intros a b. rewrite eqb_true_iff. do 2 case_bool_decide; naive_solver. }
  rewrite <- Hds. clear Hds. destruct (eqb _ _); cbn [negb].
  - case_bool_decide as Htpl; cbn [negb]; [|destruct change as [w [e|]]; [simpl; naive_solver|]];
      (case_bool_decide as Hcred; cbn [negb]; [|destruct cred; [simpl; naive_solver|]]);
      (case_bool_decide as Hsvc; cbn [negb]; [|destruct checks, deps; simpl]); naive_solver.
  - split; [|naive_solver]. destruct (if negb _ then _ else _) as [w [e|]]; [done|]. by destruct (if negb _ then _ else _).
Qed.

(** An update of a ClusterDeployment is admitted exactly when its template
    can be read; if it changes the template, the upgrade is one the status
    offers (where upgrade paths are enforced) and the new template is valid and
    suits the parent and the services; if it changes the Credential, that
    Credential fits; a data source is neither added nor removed; and changed
    services refer to valid templates, with every dependency listed and no
    cycle. *)
Lemma update_admitted_exactly old new :
  NoDup (svc_key <$> cd_services new) →
  admitted (Update old new) ↔
  ∃ tpl, c_get v (mkKey (om_namespace (cd_meta new)) (cds_template (cd_spec new))) = Ok tpl ∧
    (cds_template (cd_spec old) ≠ cds_template (cd_spec new) →
       (ValidateClusterUpgradePath = true → cds_template (cd_spec new) ∈ cdst_availableUpgrades (cd_status old)) ∧
       tv_valid (tsc_validation (ctst_common (ct_status tpl))) = true ∧ parent_provides new tpl ∧
       kubernetes_suits new tpl) ∧
    (cds_credential (cd_spec old) ≠ cds_credential (cd_spec new) →
       credential_ok clientFactory getSchemeFunc SystemNamespace v new tpl) ∧
    (cds_dataSource (cd_spec old) = "" ↔ cds_dataSource (cd_spec new) = "") ∧
    (cd_services old ≠ cd_services new →
       (∀ svc, svc ∈ cd_services new → service_templates_ok v invalid_name (om_namespace (cd_meta new)) svc) ∧
       deps_present (cd_services new) ∧ acyclic_deps (cd_services new)).
Proof.
  intros Hnd. setoid_rewrite <- (ValidateServiceDependencyOverall_None (cd_services new) Hnd).
  setoid_rewrite <- ServicesHaveValidTemplates_None. setoid_rewrite <- ClusterDeployCredential_None.
  setoid_rewrite <- template_change_admitted. split.
  - intros Ha. destruct (c_get v (mkKey (om_namespace (cd_meta new)) (cds_template (cd_spec new)))) as [tpl|] eqn:Ht.
    + exists tpl. split; [done|]. by apply update_checks.
    + exfalso. revert Ha. unfold admitted, ClusterDeployment_ValidateUpdate, getClusterDeploymentTemplate. by rewrite Ht.
  - intros (tpl & Ht & Hall). by apply (update_checks old new tpl).
Qed.
End admitted_deployments.

(** ** Running the webhook *)

(** Management exposing the internal infrastructure provider, a template that
    asks for it at Kubernetes 1.32, a Secret as identity, and the services of
    [k8s_cluster]: [redis] from 1.30 on, [mesh] from 1.33 on. *)
Definition internal_template : ClusterTemplate :=
  mkClusterTemplate (named_meta "ns" "internal")
    (mkClusterTemplateSpec helm_none ∅ "1.32" ["infrastructure-internal"])
    (mkClusterTemplateStatus ∅ "1.32" ["infrastructure-internal"] (status_common true)).
Definition internal_management : Management :=
  mkManagement (named_meta "" "kcm") (mkManagementSpec "rel" (mkComponentsSpec None None []) (mkManagementCleanup false false))
    (mkManagementStatus [] "" "" (mkComponentsStatus ∅ ∅ ["infrastructure-internal"]) 0).
Definition secret_credential : Credential :=
  mkCredential (named_meta "ns" "cred") (mkCredentialSpec (Some (mkRef "Secret" "ns" "s" "v1")) "" "")
    (mkCredentialStatus [] true).
Definition admission_cluster : Cluster :=
  mkCluster (cl_store k8s_cluster) ∅ ∅ {[ mkKey "ns" "cred" := secret_credential ]}
    {[ mkKey "" "kcm" := internal_management ]} ∅ {[ mkKey "ns" "internal" := internal_template ]} ∅ ∅ ∅ ∅.

Definition deployment_with (services : list Service) : ClusterDeployment :=
  mkCD (named_meta "ns" "d")
    (mkCDSpec None None no_ipamClaim "internal" "cred" "" "" "" "" (empty_service_spec services) false false)
    (mkCDStatus [] [] "" "" "" [] [] 0).
Definition redis_service : Service := simple_service "redis" "redis" "1" [].
Definition mesh_service : Service := simple_service "mesh" "mesh" "1" ["redis"].

Definition no_factory (kubeconfig : string) (scheme : unit) : result Cluster := Err (ErrNew "unreachable").
Definition any_name (field value : string) : list gerror := [].

Local Abbreviation create cd :=
  (ClusterDeployment_ValidateCreate (H0:=at_least_constraints) no_factory (Ok ()) any_name admission_cluster "kcm-system" cd).
Local Abbreviation update old new :=
  (ClusterDeployment_ValidateUpdate (H0:=at_least_constraints) no_factory (Ok ()) any_name admission_cluster "kcm-system"
     true old new).

Lemma deployment_admitted_exactly_witness :
  admitted (create (deployment_with [redis_service])) ∧ acyclic_deps [redis_service].
Proof.
  assert (admitted (create (deployment_with [redis_service]))) as Ha by reflexivity. split; [exact Ha|].
  assert (NoDup (svc_key <$> cd_services (deployment_with [redis_service]))) as Hnd
    by (apply (bool_decide_unpack _); vm_compute; exact I).
  destruct (proj1 (deployment_admitted_exactly (H0:=at_least_constraints) no_factory (Ok ()) any_name
    admission_cluster "kcm-system" (deployment_with [redis_service]) Hnd) Ha)
    as (tpl & _ & _ & _ & _ & _ & _ & _ & Hac).
  exact Hac.
Defined.

(** The services of an update are not checked against the Kubernetes version:
    the service the version is too old for is refused in a new deployment, and
    let through when it is added to an existing one. *)
Example services_update_skips_kubernetes :
  (create (deployment_with [redis_service; mesh_service])).1 =
    ["Failed to validate k8s version compatibility with ServiceTemplates"] ∧
  update (deployment_with [redis_service]) (deployment_with [redis_service; mesh_service]) = ([], None).
Proof. split; reflexivity. Qed.

Lemma update_admitted_exactly_witness :
  admitted (update (deployment_with [redis_service]) (deployment_with [redis_service; mesh_service])) ∧
  ∃ tpl : ClusterTemplate, c_get admission_cluster (mkKey "ns" "internal") = Ok tpl ∧
    ([redis_service] ≠ [redis_service; mesh_service] → deps_present [redis_service; mesh_service]).
Proof.
  assert (admitted (update (deployment_with [redis_service]) (deployment_with [redis_service; mesh_service])))
    as Ha by reflexivity. split; [exact Ha|].
  assert (NoDup (svc_key <$> cd_services (deployment_with [redis_service; mesh_service]))) as Hnd
    by (apply (bool_decide_unpack _); vm_compute; exact I).
  destruct (proj1 (update_admitted_exactly (H0:=at_least_constraints) no_factory (Ok ()) any_name
    admission_cluster "kcm-system" true (deployment_with [redis_service])
    (deployment_with [redis_service; mesh_service]) Hnd) Ha) as (tpl & Ht & _ & _ & _ & Hs).
  exists tpl. split; [exact Ht|]. intros Hne. exact (proj1 (proj2 (Hs Hne))).
Defined.
