(* ===== verification/ObjectWebhooks.v ===== *)
(** * Admission of the other objects ([src/internal/webhook]: the webhooks of
    Management, Region, Release, templates, template chains and RBACPolicies).

    A provider is not removed while a deployment needs it, and nothing is
    deleted that something else still uses. *)

From S2P Require Import Prelude GoStrings Api ApiManagement Kube TemplateChain ServiceBasics ServiceValidation.
From S2P Require Import Cluster Compatibility AdmissionChecks Webhooks.

#[local] Arguments String.append !_ _ / : simpl nomatch.

(** A chain of checks: the first error, with its warnings, is the answer. *)
Definition Allowed : Response := ([], None).

(** ** Management and Regions *)

Definition errManagementDeletionForbidden : gerror :=
  ErrMark "management deletion is forbidden" (ErrNew "management deletion is forbidden").
Definition errRegionDeletionForbidden : gerror :=
  ErrMark "region deletion is forbidden" (ErrNew "region deletion is forbidden").

Definition in_quotes (s : string) : string :=
  let q := String (Ascii.ascii_of_nat 34) "" in q +:+ (s +:+ q).

(** [strings.ToUpper(s[:1]) + s[1:]]; the messages here start with an ASCII
    letter. *)
Definition ascii_upper (a : Ascii.ascii) : Ascii.ascii :=
  if byte_in 97 122 a then Ascii.ascii_of_nat (Ascii.nat_of_ascii a - 32) else a.
Definition capitalised (s : string) : string :=
  match s with EmptyString => "" | String a s => String (ascii_upper a) s end.

Section parents.
Context `{!MapRange string} `{!NewInvalid} {C : Type}.
Context `{!Getter C Release} `{!Getter C ProviderTemplate} `{!Getter C Management}.
Context `{!Getter C Secret} `{!Getter C ClusterDeployment}.
Context `{!Lister C ClusterTemplate} `{!Lister C ClusterDeployment} `{!Lister C Region} `{!Lister C Credential}.
Variable object_kind : ClusterParent → string.
Variable v : C.

Definition validateRelease (releaseName : string) : option gerror :=
  match c_get (T:=Release) v (mkKey "" releaseName) with
  | Err err => Some err
  | Ok release =>
      if negb (rlst_ready (rel_status release))
      then Some (ErrNew ("release " +:+ in_quotes releaseName +:+ " status is not ready")) else None
  end.

(** The body of the loop over the removed components: the providers of theirs
    that are in use. *)
Definition removed_in_use (release : Release) (newObj : ClusterParent) (inUseProviders : gset string) (m : Provider)
  : result (gset string) :=
  let tplRef := if bool_decide (cmp_template (prv_component m) = "") then ProviderTemplate_of release (prv_name m)
                else cmp_template (prv_component m) in
  if bool_decide (tplRef = "") then Ok inUseProviders
  else
    match c_get (T:=ProviderTemplate) v (mkKey "" tplRef) with
    | Err err => if IsNotFound err then Ok inUseProviders
                 else Err (ErrWrap ("failed to get ProviderTemplate " +:+ tplRef +:+ ": ") err)
    | Ok prTpl =>
        providers ← wrap_err ("failed to get in-use providers for the template " +:+ om_name (pt_meta prTpl) +:+ ": ")
                      (ProvidersInUseFor v object_kind prTpl newObj);
        Ok (dom providers ∪ inUseProviders)
    end.

Definition removed_components (oldObj newObj : ClusterParent) : list Provider :=
  filterb (λ oldComp, negb (existsb (λ newComp, bool_decide (prv_name oldComp = prv_name newComp))
                               (ccs_providers (Components newObj))))
    (ccs_providers (Components oldObj)).

Definition checkComponentsRemoval (release : Release) (oldObj newObj : ClusterParent) : option gerror :=
  let removedComponents := removed_components oldObj newObj in
  if bool_decide (length removedComponents = 0) then None
  else
    match foldM_result (removed_in_use release newObj) ∅ removedComponents with
    | Err err => Some err
    | Ok inUseProviders =>
        let parent := object_kind newObj +:+ " " +:+ parent_name newObj in
        match range_seq 0 inUseProviders with
        | [] => None
        | [name] => Some (ErrNew ("provider " +:+ name +:+
            " is required by at least one ClusterDeployment and cannot be removed from the " +:+ parent))
        | names => Some (ErrNew ("providers " +:+ Join names "," +:+
            " are required by at least one ClusterDeployment and cannot be removed from the " +:+ parent))
        end
    end.

Definition Management_ValidateCreate (obj : Management) : Response :=
  match validateRelease (ms_release (mgmt_spec obj)) with
  | Some err => ([], Some (new_invalid "Management" (om_name (mgmt_meta obj)) "spec.release" (Error err)))
  | None => Allowed
  end.

(** What both parents check of an update once their Release is known. *)
Definition components_update (release : Release) (kind invalidMsg : string) (oldObj newObj : ClusterParent) : Response :=
  match checkComponentsRemoval release oldObj newObj with
  | Some err => (["Some of the providers cannot be removed"],
                 Some (new_invalid kind (parent_name newObj) "spec.providers" (Error err)))
  | None =>
      match ValidateChangedProviderContracts v object_kind release oldObj newObj with
      | Err err => ([], Some (prefixed invalidMsg err))
      | Ok incompatibleContracts =>
          if negb (bool_decide (incompatibleContracts = ""))
          then (["The " +:+ kind +:+ " object has incompatible CAPI contract versions in ProviderTemplates"],
                Some (ErrNew (invalidMsg +:+ ": " +:+ incompatibleContracts)))
          else Allowed
      end
  end.

Definition Management_ValidateUpdate (oldObj newObj : Management) : Response :=
  if bool_decide (is_Some (om_deletionTimestamp (mgmt_meta newObj))) then Allowed
  else
    let newRelease := ms_release (mgmt_spec newObj) in
    match (if negb (bool_decide (ms_release (mgmt_spec oldObj) = newRelease)) then validateRelease newRelease else None) with
    | Some err => ([], Some (new_invalid "Management" (om_name (mgmt_meta newObj)) "spec.release" (Error err)))
    | None =>
        match c_get (T:=Release) v (mkKey "" newRelease) with
        | Err err => ([], Some (ErrWrap ("failed to get Release " +:+ newRelease +:+ ": ") err))
        | Ok release => components_update release "Management" "the Management is invalid"
                          (ParentManagement oldObj) (ParentManagement newObj)
        end
    end.

Definition Management_ValidateDelete : Response :=
  match ManagementDeletionAllowed v with
  | Some err => ([capitalised (Error err)], Some errManagementDeletionForbidden)
  | None => Allowed
  end.

Definition Region_ValidateCreate (SystemNamespace : string) (obj : Region) : Response :=
  ([], RegionClusterReference v SystemNamespace obj).

Definition Region_ValidateUpdate (oldObj newObj : Region) : Response :=
  if bool_decide (is_Some (om_deletionTimestamp (rgn_meta newObj))) then Allowed
  else
    match c_get (T:=Management) v (mkKey "" ManagementName) with
    | Err err => ([], Some (ErrWrap "failed to get Management: " err))
    | Ok mgmt =>
        let name := ms_release (mgmt_spec mgmt) in
        match c_get (T:=Release) v (mkKey "" name) with
        | Err err => ([], Some (ErrWrap ("failed to get Release " +:+ name +:+ ": ") err))
        | Ok release => components_update release "Region"
                          ("the Region " +:+ om_name (rgn_meta newObj) +:+ " is invalid")
                          (ParentRegion oldObj) (ParentRegion newObj)
        end
    end.

Definition Region_ValidateDelete (obj : Region) : Response :=
  match RegionDeletionAllowed v obj with
  | Some err => ([capitalised (Error err)], Some errRegionDeletionForbidden)
  | None => Allowed
  end.
End parents.

(** ** Releases *)

Definition errManagementIsNotFound := "no Management object found".

Section releases.
Context {C : Type} `{!Lister C Management} (v : C).

Definition getManagement : result Management :=
  mgmts ← c_list (T:=Management) v "" (λ _, true);
  match mgmts with
  | [] => Err (ErrMark errManagementIsNotFound (ErrNew errManagementIsNotFound))
  | [mgmt] => Ok mgmt
  | _ => Err (ErrNew ("expected 1 Management object, got " +:+ pretty (length mgmts)))
  end.

Definition Release_ValidateDelete (obj : Release) : Response :=
  match getManagement with
  | Err err => if errors_Is errManagementIsNotFound err then Allowed else ([], Some err)
  | Ok mgmt =>
      if bool_decide (ms_release (mgmt_spec mgmt) = om_name (rel_meta obj))
      then ([], Some (ErrNew ("release " +:+ om_name (rel_meta obj) +:+ " is still in use")))
      else
        let templatesInUse := filterb (λ t, bool_decide (t ∈ Release_Templates obj)) (Management_Templates mgmt) in
        if bool_decide (0 < length templatesInUse)
        then ([], Some (ErrNew ("the following ProviderTemplates associated with the Release are still in use: " +:+
               Join templatesInUse ", ")))
        else Allowed
  end.
End releases.

(** ** Templates *)

Definition errTemplateDeletionForbidden : gerror :=
  ErrMark "template deletion is forbidden" (ErrNew "template deletion is forbidden").
Definition ClusterTemplateKind := "ClusterTemplate".
Definition ServiceTemplateKind := "ServiceTemplate".
Definition ClusterTemplateChainKind := "ClusterTemplateChain".
Definition ServiceTemplateChainKind := "ServiceTemplateChain".
Definition ReleaseKind := "Release".

Section templates.
Context {C : Type} `{!MetadataGetter C} `{!Lister C ClusterDeployment} `{!Lister C ClusterTemplate}.
Context `{!Lister C MultiClusterService} `{!Lister C Management} (v : C).
Variable SystemNamespace : string.

Definition ownerExists (ownerRef : OwnerReference) (namespace : string) : result bool :=
  match get_metadata v (own_kind ownerRef) (mkKey namespace (own_name ownerRef)) with
  | Ok _ => Ok true
  | Err err => if IsNotFound err then Ok false else Err err
  end.

(** The owners found and the errors joined. *)
Definition getOwnersWithKind (template : ObjectMeta) (kind : string) : list string * option gerror :=
  foldl (λ '(owners, errs) ownerRef,
    if bool_decide (own_kind ownerRef = kind) then
      match ownerExists ownerRef (om_namespace template) with
      | Err err => (owners, join_err errs err)
      | Ok true => (owners ++ [own_name ownerRef], errs)
      | Ok false => (owners, errs)
      end
    else (owners, errs)) ([], None) (om_ownerReferences template).

Definition templateIsInUseByCluster (templateKind : string) (template : ObjectMeta) : result bool :=
  index ← (if bool_decide (templateKind = ClusterTemplateKind) then Ok ExtractTemplateNameFromClusterDeployment
           else if bool_decide (templateKind = ServiceTemplateKind)
           then Ok ExtractServiceTemplateNamesFromClusterDeployment
           else Err (ErrNew ("invalid Template kind " +:+ templateKind +:+
                  ". Supported values are: ClusterTemplate and ServiceTemplate")));
  clusterDeployments ← Limit 1 (c_list v (om_namespace template) (MatchingField index (om_name template)));
  Ok (bool_decide (0 < length clusterDeployments)).

Definition in_use_warning (kind : string) : string :=
  "The " +:+ kind +:+ " object can't be removed if ClusterDeployment objects referencing it still exist".
Definition managed_warning (kind chainKind : string) (owners : list string) : string :=
  "The " +:+ kind +:+ " object can't be removed if it is managed by " +:+ chainKind +:+ ": " +:+ Join owners ", ".

Definition hasDistributedCopies (obj : ClusterTemplate) : result bool :=
  let meta := ct_meta obj in
  if negb (bool_decide (om_namespace meta = SystemNamespace)) ||
     negb (bool_decide (is_Some (hs_chartSpec (cts_helm (ct_spec obj))))) then Ok false
  else
    referencing ← wrap_err ("failed to list ClusterTemplate objects referencing the HelmChart " +:+
                    om_namespace meta +:+ "/" +:+ om_name meta +:+ ": ")
      (Limit 1 (c_list (T:=ClusterTemplate) v ""
        (MatchingField ExtractChartRefFromClusterTemplate (HelmChartIndexValue (om_namespace meta) (om_name meta)))));
    Ok (bool_decide (0 < length referencing)).

Definition ClusterTemplate_ValidateDelete (obj : ClusterTemplate) : Response :=
  let meta := ct_meta obj in
  match templateIsInUseByCluster ClusterTemplateKind meta with
  | Err err => ([], Some err)
  | Ok true => ([in_use_warning ClusterTemplateKind], Some errTemplateDeletionForbidden)
  | Ok false =>
      let '(owners, err) := getOwnersWithKind meta ClusterTemplateChainKind in
      match err with
      | Some err => ([], Some (ErrWrap "failed to get owners with kind ClusterTemplateChain: " err))
      | None =>
          if bool_decide (0 < length owners)
          then ([managed_warning ClusterTemplateKind ClusterTemplateChainKind owners], Some errTemplateDeletionForbidden)
          else
            match hasDistributedCopies obj with
            | Err err => ([], Some (ErrWrap ("failed to check for distributed copies of the ClusterTemplate " +:+
                           om_namespace meta +:+ "/" +:+ om_name meta +:+ ": ") err))
            | Ok true => (["The ClusterTemplate object can't be removed while its distributed copies reference its HelmChart"],
                          Some errTemplateDeletionForbidden)
            | Ok false => Allowed
            end
      end
  end.

Definition ServiceTemplate_ValidateDelete (obj : ServiceTemplate) : Response :=
  let meta := stpl_meta obj in
  match templateIsInUseByCluster ServiceTemplateKind meta with
  | Err err => ([], Some (ErrWrap ("failed to check if the ServiceTemplate " +:+ om_namespace meta +:+ "/" +:+
                  om_name meta +:+ " is in use: ") err))
  | Ok true => ([in_use_warning ServiceTemplateKind], Some errTemplateDeletionForbidden)
  | Ok false =>
      let '(owners, err) := getOwnersWithKind meta ServiceTemplateChainKind in
      match err with
      | Some err => ([], Some (ErrWrap "failed to get owners with kind ServiceTemplateChain: " err))
      | None =>
          if bool_decide (0 < length owners)
          then ([managed_warning ServiceTemplateKind ServiceTemplateChainKind owners], Some errTemplateDeletionForbidden)
          else if bool_decide (om_namespace meta = SystemNamespace) then
            match Limit 1 (c_list v "" (MatchingField ExtractServiceTemplateNamesFromMultiClusterService (om_name meta))) with
            | Err err => ([], Some err)
            | Ok multiSvcClusters =>
                let mcsNames := (λ msc, om_name (mcs_meta msc)) <$>
                  filterb (λ msc, negb (bool_decide (is_Some (om_deletionTimestamp (mcs_meta msc))))) multiSvcClusters in
                if bool_decide (0 < length mcsNames)
                then (["The " +:+ om_name meta +:+ " ServiceTemplate object can't be removed if MultiClusterService objects [" +:+
                       Join mcsNames "," +:+ "] referencing it still exist"], Some errTemplateDeletionForbidden)
                else Allowed
            end
          else Allowed
      end
  end.

Definition ProviderTemplate_ValidateDelete (obj : ProviderTemplate) : Response :=
  let name := om_name (pt_meta obj) in
  let '(owners, err) := getOwnersWithKind (pt_meta obj) ReleaseKind in
  match err with
  | Some err => ([], Some (ErrWrap "failed to get owners with kind Release: " err))
  | None =>
      if bool_decide (0 < length owners)
      then (["The ProviderTemplate " +:+ name +:+ " cannot be removed while it is part of existing Releases: " +:+
             Join owners ", "], Some errTemplateDeletionForbidden)
      else
        match getManagement v with
        | Err err => if errors_Is errManagementIsNotFound err then Allowed else ([], Some err)
        | Ok mgmt =>
            if bool_decide (om_deletionTimestamp (mgmt_meta mgmt) = None) &&
               bool_decide (name ∈ Management_Templates mgmt)
            then (["The ProviderTemplate " +:+ name +:+ " cannot be removed while it is used in the Management spec"],
                  Some errTemplateDeletionForbidden)
            else Allowed
        end
  end.
End templates.

(** ** Template chains and RBAC policies *)

Definition errInvalidTemplateChainSpec : gerror :=
  ErrMark "the template chain spec is invalid" (ErrNew "the template chain spec is invalid").

(** What is wrong with the [i]-th supported template. *)
Inductive field_error :=
  | FieldNotFound (i : nat) (name : string)
  | FieldInternalError (i : nat) (err : gerror).

Section chains.
Context {C : Type} `{!MetadataGetter C} (v : C).
Variable SystemNamespace : string.
(** [apierrors.NewInvalid] over a field error list. *)
Variable chain_invalid : string → string → list field_error → gerror.

Definition validateChainsTemplates (namespace : string) (chainSpec : TemplateChainSpec) (templatesKind : string)
  : list field_error :=
  concat (imap (λ i st,
    match get_metadata v templatesKind (mkKey namespace (spt_name st)) with
    | Ok _ => []
    | Err err => [if IsNotFound err then FieldNotFound i (spt_name st) else FieldInternalError i err]
    end) (tc_supportedTemplates chainSpec)).

(** Both kinds of chain, by kind, metadata and spec. *)
Definition TemplateChain_ValidateCreate (kind templatesKind : string) (meta : ObjectMeta) (spec : TemplateChainSpec)
  : Response :=
  let '(warnings, ok) := IsValid spec in
  if negb ok then (warnings, Some errInvalidTemplateChainSpec)
  else if negb (bool_decide (labels_of meta !! KCMManagedLabelKey = Some KCMManagedLabelValue)) ||
          bool_decide (om_namespace meta = SystemNamespace)
  then
    let errs := validateChainsTemplates (om_namespace meta) spec templatesKind in
    if bool_decide (0 < length errs) then ([], Some (chain_invalid kind (om_name meta) errs)) else Allowed
  else Allowed.

Definition ClusterTemplateChain_ValidateCreate : ObjectMeta → TemplateChainSpec → Response :=
  TemplateChain_ValidateCreate ClusterTemplateChainKind ClusterTemplateKind.
Definition ServiceTemplateChain_ValidateCreate (obj : ServiceTemplateChain) : Response :=
  TemplateChain_ValidateCreate ServiceTemplateChainKind ServiceTemplateKind (tc_meta obj) (tc_spec obj).
End chains.

Section rbac.
Variable IsDNS1123Subdomain : string → list string.
Definition invalidRBACPolicyMsg := "the RBACPolicy is invalid".

Definition RBACPolicy_ValidateCreate (obj : RBACPolicy) : Response :=
  match ValidateRBACPolicy IsDNS1123Subdomain obj with
  | Some err => ([], Some (prefixed invalidRBACPolicyMsg err))
  | None => Allowed
  end.
Definition RBACPolicy_ValidateUpdate (newObj : RBACPolicy) : Response := RBACPolicy_ValidateCreate newObj.
Definition RBACPolicy_ValidateDelete {C} `{!Lister C ClusterDeployment} (v : C) (obj : RBACPolicy) : Response :=
  ([], RBACPolicyDeletionAllowed v obj).
End rbac.

(** ** Properties: components in use stay *)

Section removal_properties.
Context `{!MapRange string} {C : Type} `{!Getter C ProviderTemplate}.
Context `{!Lister C ClusterTemplate} `{!Lister C ClusterDeployment}.
Variable object_kind : ClusterParent → string.
Variable v : C.

Definition component_template (release : Release) (m : Provider) : string := findProviderTemplateName release m.

(** Nothing the template of the component provides is in use in the parent: it
    has none, it is gone, or it is read and no provider of it is in use. *)
Definition component_unused (release : Release) (obj : ClusterParent) (m : Provider) : Prop :=
  component_template release m = "" ∨
  (∃ err, c_get (T:=ProviderTemplate) v (mkKey "" (component_template release m)) = Err err ∧ IsNotFound err = true) ∨
  ∃ tpl, c_get v (mkKey "" (component_template release m)) = Ok tpl ∧ ProvidersInUseFor v object_kind tpl obj = Ok ∅.

Lemma removed_in_use_empty release obj s m :
  removed_in_use object_kind v release obj s m = Ok ∅ ↔ s = ∅ ∧ component_unused release obj m.
Proof.
  unfold removed_in_use, component_unused.
  assert ((if bool_decide (cmp_template (prv_component m) = "") then ProviderTemplate_of release (prv_name m)
           else cmp_template (prv_component m)) = component_template release m) as ->
    by (unfold component_template, findProviderTemplateName; by case_bool_decide).
  set (n := component_template release m). cbn zeta. case_bool_decide as Hn.
  { split; [intros [= ->]; by split; [|left]|by intros [-> _]]. }
  destruct (c_get v (mkKey "" n)) as [tpl|err].
  - destruct (ProvidersInUseFor v object_kind tpl obj) as [m'|e] eqn:Hp; simpl.
    2:{ split; [done|]. intros (-> & [?|[(? & ? & ?)|(t & [= <-] & ?)]]); congruence. }
    split.
    + intros [= Heq]. apply empty_union_L in Heq as [Hd ->]. apply dom_empty_inv_L in Hd as ->.
      split; [done|]. right; right. by exists tpl.
    + intros (-> & [?|[(? & ? & ?)|(t & [= <-] & Hp')]]); [done..|].
      rewrite Hp in Hp'. injection Hp' as ->. by rewrite dom_empty_L, (left_id_L ∅ _).
  - destruct (IsNotFound err) eqn:E; split.
    + intros [= ->]. split; [done|]. right; left. eauto.
    + by intros [-> _].
    + done.
    + intros (-> & [?|[(? & [= <-] & ?)|(t & ? & ?)]]); [done|congruence|done].
Qed.

(** The accumulator only grows. *)
Lemma removed_in_use_grows release obj s m s' :
  removed_in_use object_kind v release obj s m = Ok s' → s ⊆ s'.
Proof.
  unfold removed_in_use. cbn zeta. case_bool_decide; [by intros [= <-]|].
  destruct (c_get v _) as [tpl|err]; [|destruct (IsNotFound err); [by intros [= <-]|done]].
  intros (d & _ & [= <-])%bind_Ok. set_solver.
Qed.

Lemma removed_fold_empty release obj s l :
  foldM_result (removed_in_use object_kind v release obj) s l = Ok ∅ ↔
  s = ∅ ∧ ∀ m, m ∈ l → component_unused release obj m.
Proof.
  assert (∀ l s s', foldM_result (removed_in_use object_kind v release obj) s l = Ok s' → s ⊆ s') as Hgrow.
  { clear. induction l as [|m l IH]; intros s s'; simpl; [by intros [= <-]|].
    intros (s1 & H1%removed_in_use_grows & H2%IH)%bind_Ok. set_solver. }
  revert s. induction l as [|m l IH]; intros s; simpl.
  - split; [|by intros [-> _]]. intros [= ->]. split; [done|]. intros m Hm. by apply elem_of_nil in Hm.
  - rewrite bind_Ok. setoid_rewrite elem_of_cons. split.
    + intros (s1 & H1 & H2). pose proof (Hgrow _ _ _ H2) as Hs1. assert (s1 = ∅) as -> by set_solver.
      apply removed_in_use_empty in H1 as [-> Hm]. apply IH in H2 as [_ Hl]. naive_solver.
    + intros [-> Hall]. exists ∅. rewrite removed_in_use_empty, IH. naive_solver.
Qed.

(** Components may be taken out of a Management object or Region exactly
    when none of them has a template with a provider in use there: a component
    whose template is not named or gone does not count. *)
Lemma components_removed_only_unused release oldObj newObj :
  checkComponentsRemoval object_kind v release oldObj newObj = None ↔
  ∀ m, m ∈ ccs_providers (Components oldObj) → prv_name m ∉ prv_name <$> ccs_providers (Components newObj) →
    component_unused release newObj m.
Proof.
  assert (∀ m, m ∈ removed_components oldObj newObj ↔
    m ∈ ccs_providers (Components oldObj) ∧ prv_name m ∉ prv_name <$> ccs_providers (Components newObj)) as Hrem.
  { intros m. unfold removed_components. rewrite filterb_elem_of, negb_true_iff, <- not_true_iff_false, existsb_elem_of.
    rewrite list_elem_of_fmap. setoid_rewrite bool_decide_eq_true. naive_solver. }
  transitivity (∀ m, m ∈ removed_components oldObj newObj → component_unused release newObj m);
    [|setoid_rewrite Hrem; naive_solver].
  unfold checkComponentsRemoval. cbn zeta. case_bool_decide as Hl.
  - apply length_zero_iff in Hl as ->. split; [|done]. intros _ m Hm. by apply elem_of_nil in Hm.
  - transitivity (foldM_result (removed_in_use object_kind v release newObj) ∅ (removed_components oldObj newObj) = Ok ∅);
      [|rewrite removed_fold_empty; naive_solver].
    destruct (foldM_result _ _ _) as [s|e]; [|done].
    transitivity (range_seq 0 s = []); [by destruct (range_seq 0 s) as [|? [|]]|].
    split; [|intros [= ->]; by apply elem_of_nil_inv; intros x Hx%range_seq_elem; set_solver].
    intros Heq. f_equal. apply set_eq. intros x. rewrite <- (range_seq_elem 0), Heq. set_solver.
Qed.
End removal_properties.

(** ** Properties: templates in use stay *)

Section template_properties.
Context {C : Type} `{!MetadataGetter C} `{!Lister C ClusterDeployment} `{!Lister C ClusterTemplate}.
Context `{!Lister C MultiClusterService} `{!Lister C Management} (v : C).
Variable SystemNamespace : string.
Variables (cds : list ClusterDeployment) (cts : list ClusterTemplate) (mcss : list MultiClusterService).

(** A page of one item is empty exactly when nothing matches. *)
Lemma one_item_page {T} `{!Lister C T} (meta : T → ObjectMeta) (all : list T) ns p :
  lists meta v all →
  ∃ l, Limit 1 (c_list v ns p) = Ok l ∧ (∀ x, x ∈ l → x ∈ all ∧ in_namespace ns (meta x) = true ∧ p x = true) ∧
    (l = [] ↔ ∀ x, x ∈ all → in_namespace ns (meta x) = true → p x = false).
Proof.
  intros Hl. rewrite Hl. simpl. set (f := filterb _ all). exists (take 1 f).
  assert (∀ x, x ∈ f ↔ x ∈ all ∧ in_namespace ns (meta x) = true ∧ p x = true) as Hf
    by (intros x; subst f; by rewrite filterb_elem_of, andb_true_iff).
  split; [done|]. split.
  - intros x Hx. apply Hf. by eapply elem_of_take in Hx as (? & ?%list_elem_of_lookup_2 & _).
  - transitivity (f = []); [by destruct f|]. split.
    + intros Hnil x Hx Hns. apply not_true_iff_false. intros Hp. assert (x ∈ f) as Hin by by apply Hf.
      rewrite Hnil in Hin. by apply elem_of_nil in Hin.
    + intros Hall. destruct f as [|x f']; [done|]. destruct (proj1 (Hf x) ltac:(left)) as (Hx & Hns & Hp).
      by rewrite (Hall x Hx Hns) in Hp.
Qed.

(** No owner of that kind is left. *)
Definition no_owner (kind : string) (m : ObjectMeta) : Prop :=
  ∀ o, o ∈ om_ownerReferences m → own_kind o = kind →
    ∃ err, get_metadata v (own_kind o) (mkKey (om_namespace m) (own_name o)) = Err err ∧ IsNotFound err = true.

Lemma ownerExists_false o ns :
  ownerExists v o ns = Ok false ↔
  ∃ err, get_metadata v (own_kind o) (mkKey ns (own_name o)) = Err err ∧ IsNotFound err = true.
Proof.
  unfold ownerExists. destruct (get_metadata _ _ _) as [m|err]; [split; [done|]; by intros (? & ? & _)|].
  destruct (IsNotFound err) eqn:E; split; [by exists err|done|done|]. intros (? & [= <-] & ?). congruence.
Qed.

Lemma no_owners_found kind m : getOwnersWithKind v m kind = ([], None) ↔ no_owner kind m.
Proof.
  unfold getOwnersWithKind, no_owner. induction (om_ownerReferences m) as [|o l IH] using rev_ind.
  - split; [|done]. intros _ o Ho. by apply elem_of_nil in Ho.
  - rewrite foldl_app. cbn [foldl]. setoid_rewrite elem_of_app. setoid_rewrite list_elem_of_singleton.
    destruct (foldl _ _ l) as [owners errs]. case_bool_decide as Hk; [|rewrite IH; naive_solver].
    pose proof (ownerExists_false o (om_namespace m)) as Ho. destruct (ownerExists v o (om_namespace m)) as [[|]|e].
    + split; [intros [=]; by destruct owners|]. intros Hall. apply Ho in Hall; naive_solver.
    + rewrite IH. destruct Ho as [Ho _]. specialize (Ho eq_refl). split; [|naive_solver].
      intros Hall o' [?| ->]; auto.
    + split; [intros [= _ Hj]; by destruct (join_err_ne errs e)|]. intros Hall. assert (Ok false = Err e); [|done].
      symmetry. apply Ho. auto.
Qed.

Lemma templateIsInUse_spec kind index m :
  lists cd_meta v cds →
  kind = ClusterTemplateKind ∧ index = ExtractTemplateNameFromClusterDeployment ∨
  kind = ServiceTemplateKind ∧ index = ExtractServiceTemplateNamesFromClusterDeployment →
  ∃ b, templateIsInUseByCluster v kind m = Ok b ∧ (b = false ↔ ∀ cd, cd ∈ cds → ¬ refers index m cd).
Proof.
  intros Hl Hk. destruct (one_item_page cd_meta cds (om_namespace m) (MatchingField index (om_name m)) Hl) as (l & Hpage & _ & Hnil).
  exists (bool_decide (0 < length l)). split.
  - unfold templateIsInUseByCluster. destruct Hk as [[-> ->]|[-> ->]]; simpl; by rewrite Hpage.
  - rewrite bool_decide_eq_false, length_pos_iff, Hnil. unfold refers, MatchingField.
    setoid_rewrite bool_decide_eq_false. naive_solver.
Qed.

(** A ClusterTemplate may be deleted exactly when no ClusterDeployment of
    its namespace uses it, no chain that owns it is left, and, where it is a
    template of the system namespace with a chart of its own, no ClusterTemplate
    anywhere was distributed from that chart. *)
Lemma ClusterTemplate_deleted_only_unused obj :
  lists cd_meta v cds → lists ct_meta v cts →
  admitted (ClusterTemplate_ValidateDelete v SystemNamespace obj) ↔
  (∀ cd, cd ∈ cds → ¬ refers ExtractTemplateNameFromClusterDeployment (ct_meta obj) cd) ∧
  no_owner ClusterTemplateChainKind (ct_meta obj) ∧
  (om_namespace (ct_meta obj) = SystemNamespace → is_Some (hs_chartSpec (cts_helm (ct_spec obj))) →
   ∀ ct, ct ∈ cts →
     HelmChartIndexValue (om_namespace (ct_meta obj)) (om_name (ct_meta obj)) ∉ ExtractChartRefFromClusterTemplate ct).
Proof.
  intros Hcds Hcts. unfold admitted, ClusterTemplate_ValidateDelete. cbn zeta.
  destruct (templateIsInUse_spec ClusterTemplateKind _ (ct_meta obj) Hcds (or_introl (conj eq_refl eq_refl))) as (b & -> & <-).
  destruct b; [split; [done|]; by intros [? _]|].
  pose proof (no_owners_found ClusterTemplateChainKind (ct_meta obj)) as Ho.
  destruct (getOwnersWithKind _ _ _) as [owners [err|]]; [split; [done|]; intros (_ & Hno & _); by apply Ho in Hno|].
  rewrite <- Ho. destruct owners as [|o owners]; [|split; [done|]; by intros (_ & [=] & _)]. simpl.
  unfold hasDistributedCopies. cbn zeta. case_bool_decide as Hns; cbn [negb orb]; [|naive_solver].
  case_bool_decide as Hchart; cbn [negb]; [|naive_solver].
  destruct (one_item_page ct_meta cts "" (MatchingField ExtractChartRefFromClusterTemplate
    (HelmChartIndexValue (om_namespace (ct_meta obj)) (om_name (ct_meta obj)))) Hcts) as (l & -> & _ & Hnil). simpl.
  transitivity (l = []); [by destruct l|]. rewrite Hnil. unfold MatchingField, in_namespace.
  setoid_rewrite bool_decide_eq_false. naive_solver.
Qed.

(** A ServiceTemplate may be deleted exactly when no ClusterDeployment of
    its namespace uses it, no chain that owns it is left, and, in the system
    namespace, no MultiClusterService uses it, as long as no MultiClusterService
    that does is being deleted. *)
Lemma ServiceTemplate_deleted_only_unused obj :
  lists cd_meta v cds → lists mcs_meta v mcss →
  (∀ m, m ∈ mcss → om_name (stpl_meta obj) ∈ ExtractServiceTemplateNamesFromMultiClusterService m →
     om_deletionTimestamp (mcs_meta m) = None) →
  admitted (ServiceTemplate_ValidateDelete v SystemNamespace obj) ↔
  (∀ cd, cd ∈ cds → ¬ refers ExtractServiceTemplateNamesFromClusterDeployment (stpl_meta obj) cd) ∧
  no_owner ServiceTemplateChainKind (stpl_meta obj) ∧
  (om_namespace (stpl_meta obj) = SystemNamespace →
   ∀ m, m ∈ mcss → om_name (stpl_meta obj) ∉ ExtractServiceTemplateNamesFromMultiClusterService m).
Proof.
  intros Hcds Hmcs Halive. unfold admitted, ServiceTemplate_ValidateDelete. cbn zeta.
  destruct (templateIsInUse_spec ServiceTemplateKind _ (stpl_meta obj) Hcds (or_intror (conj eq_refl eq_refl))) as (b & -> & <-).
  destruct b; [split; [done|]; by intros [? _]|].
  pose proof (no_owners_found ServiceTemplateChainKind (stpl_meta obj)) as Ho.
  destruct (getOwnersWithKind _ _ _) as [owners [err|]]; [split; [done|]; intros (_ & Hno & _); by apply Ho in Hno|].
  rewrite <- Ho. destruct owners as [|o owners]; [|split; [done|]; by intros (_ & [=] & _)]. simpl.
  case_bool_decide as Hns; [|naive_solver].
  destruct (one_item_page mcs_meta mcss "" (MatchingField ExtractServiceTemplateNamesFromMultiClusterService
    (om_name (stpl_meta obj))) Hmcs) as (l & -> & Hl & Hnil).
  assert (filterb (λ msc, negb (bool_decide (is_Some (om_deletionTimestamp (mcs_meta msc))))) l = l) as ->.
  { apply filter_all. intros m (Hm & _ & Hp)%Hl. apply bool_decide_eq_true in Hp.
    apply negb_true_iff, bool_decide_eq_false. by rewrite (Halive m Hm Hp); intros []. }
  transitivity (l = []); [by destruct l|]. rewrite Hnil. unfold MatchingField, in_namespace.
  setoid_rewrite bool_decide_eq_false. naive_solver.
Qed.
End template_properties.

(** ** Running the deletions *)

#[export] Instance cluster_metadata : MetadataGetter Cluster := λ c kind k,
  if bool_decide (kind = ClusterTemplateKind) then ct_meta <$> c_get (T:=ClusterTemplate) c k
  else if bool_decide (kind = ServiceTemplateKind) then stpl_meta <$> c_get (T:=ServiceTemplate) c k
  else if bool_decide (kind = ServiceTemplateChainKind) then tc_meta <$> c_get (T:=ServiceTemplateChain) c k
  else if bool_decide (kind = ReleaseKind) then rel_meta <$> c_get (T:=Release) c k
  else Err (not_found_err kind k).

Definition system_template : ServiceTemplate := constrained_template "redis" "".
Definition mcs_using (name : string) (deletion : option Z) : MultiClusterService :=
  mkMCS (mkMeta name "" "" 0 None ∅ [] [] deletion)
    (mkMCSSpec (mkSelector ∅ []) [] (empty_service_spec [redis_service]) false) (mkMCSStatus [] [] [] [] 0).
Definition cluster_using (l : list MultiClusterService) : Cluster :=
  mkCluster empty_store (index_by (λ m, meta_key (mcs_meta m)) id l) ∅ ∅ ∅ ∅ ∅ ∅ ∅ ∅ ∅.

Lemma ServiceTemplate_deleted_only_unused_witness :
  refused (ServiceTemplate_ValidateDelete (cluster_using [mcs_using "b" None]) "ns" system_template).2 = true ∧
  (admitted (ServiceTemplate_ValidateDelete (cluster_using [mcs_using "b" None]) "ns" system_template) ↔
   (∀ cd, cd ∈ [] → ¬ refers ExtractServiceTemplateNamesFromClusterDeployment (stpl_meta system_template) cd) ∧
   no_owner (cluster_using [mcs_using "b" None]) ServiceTemplateChainKind (stpl_meta system_template) ∧
   ("ns" = "ns" → ∀ m, m ∈ [mcs_using "b" None] →
      "redis" ∉ ExtractServiceTemplateNamesFromMultiClusterService m)).
Proof.
  split; [reflexivity|].
  apply (ServiceTemplate_deleted_only_unused (cluster_using [mcs_using "b" None]) "ns" [] [mcs_using "b" None]
           system_template); [intros ns p; reflexivity..|].
  intros m ->%list_elem_of_singleton _. reflexivity.
Defined.

Lemma ClusterTemplate_deleted_only_unused_witness :
  refused (ClusterTemplate_ValidateDelete aws_cluster "kcm-system" (cluster_template "aws" ∅ [])).2 = true ∧
  (admitted (ClusterTemplate_ValidateDelete aws_cluster "kcm-system" (cluster_template "aws" ∅ [])) →
   ∀ cd, cd ∈ [deployment_of "d" "aws" ""] →
     ¬ refers ExtractTemplateNameFromClusterDeployment (named_meta "ns" "aws") cd).
Proof.
  split; [reflexivity|]. intros Ha.
  set (ct := cluster_template "aws" {[ "infrastructure-aws" := "v1beta2" ]} ["infrastructure-aws"]).
  assert (lists cd_meta aws_cluster [deployment_of "d" "aws" ""]) as Hcds by (intros ns p; reflexivity).
  assert (lists ct_meta aws_cluster [ct]) as Hcts by (intros ns p; reflexivity).
  exact (proj1 (proj1 (ClusterTemplate_deleted_only_unused aws_cluster "kcm-system" [deployment_of "d" "aws" ""] [ct]
    (cluster_template "aws" ∅ []) Hcds Hcts) Ha)).
Defined.

(** One MultiClusterService is looked at, and one that is being deleted does
    not count: the template another one uses may be deleted. *)
Example deleting_user_hides_another :
  let c := cluster_using [mcs_using "a" (Some 1%Z); mcs_using "b" None] in
  ServiceTemplate_ValidateDelete c "ns" system_template = Allowed ∧
  "redis" ∈ ExtractServiceTemplateNamesFromMultiClusterService (mcs_using "b" None).
Proof. split; [reflexivity|]. left. Qed.
