(* ===== verification/AccessManagement.v ===== *)
(** * Access management: the rules and the plan
    ([src/api/v1beta1/accessmanagement_types.go] and its index functions,
    [src/internal/util/accessmanagement/accessmanagement.go],
    [src/internal/webhook/accessmanagement_webhook.go]).

    The AccessManagement distributes objects of the system namespace into other
    namespaces. Its rules are resolved against the cluster to the copies they
    want; what they no longer want is removed or released. The controller
    ([AccessController]) acts on the plan, admission checks it. *)

From S2P Require Import Prelude GoStrings Api ApiManagement Kube ServiceBasics Cluster Webhooks ObjectWebhooks.

#[local] Arguments String.append !_ _ / : simpl nomatch.

(** ** The resource *)

Definition AccessManagementKind := "AccessManagement".
Definition AccessManagementName := "kcm".
(** [kcmv1.GroupVersion]. *)
Definition Group := "k0rdent.mirantis.com".
Definition CredentialKind := "Credential".
Definition ClusterAuthenticationKind := "ClusterAuthentication".
Definition DataSourceKind := "DataSource".
Definition ClusterAuditPolicyKind := "ClusterAuditPolicy".
Definition RBACPolicyKind := "RBACPolicy".

(** [schema.GroupKind] and its [String]. *)
Record GroupKind := mkGK { gk_group : string; gk_kind : string }.
#[export] Instance GroupKind_eq_dec : EqDecision GroupKind.
Proof. solve_decision. Defined.
#[export] Program Instance GroupKind_countable : Countable GroupKind :=
  inj_countable' (λ k, (gk_group k, gk_kind k)) (λ p, mkGK p.1 p.2) _.
Next Obligation. by intros []. Qed.
Definition gk_string (gk : GroupKind) : string :=
  if bool_decide (gk_group gk = "") then gk_kind gk else gk_kind gk +:+ "." +:+ gk_group gk.

(** [TargetNamespaces] is an alias of it. *)
Record ResourceSelector := mkResourceSelector {
  rs_selector : option LabelSelector; rs_stringSelector : string; rs_list : list string }.
#[export] Instance ResourceSelector_eq_dec : EqDecision ResourceSelector.
Proof. solve_decision. Defined.

(** Nil names, unlike an empty list of them, leave the choice to the selectors. *)
Record ResourceRule := mkResourceRule {
  rr_selector : option LabelSelector; rr_apiGroup : string; rr_kind : string;
  rr_stringSelector : string; rr_names : option (list string) }.
#[export] Instance ResourceRule_eq_dec : EqDecision ResourceRule.
Proof. solve_decision. Defined.

Record AccessRule := mkAccessRule {
  ar_targetNamespaces : ResourceSelector;
  ar_resources : list ResourceRule;
  ar_clusterTemplateChains : list string;
  ar_serviceTemplateChains : list string;
  ar_credentials : list string;
  ar_clusterAuthentications : list string;
  ar_dataSources : list string;
  ar_clusterAuditPolicies : list string }.
#[export] Instance AccessRule_eq_dec : EqDecision AccessRule.
Proof. solve_decision. Defined.

Record ResourceKindStatus := mkKindStatus { rks_apiGroup : string; rks_kind : string; rks_error : string }.
Record AccessManagementStatus := mkAMStatus {
  ams_error : string; ams_current : list AccessRule; ams_resources : list ResourceKindStatus;
  ams_observedGeneration : Z }.
Record AccessManagement := mkAM {
  am_meta : ObjectMeta; am_accessRules : list AccessRule; am_status : AccessManagementStatus }.

(** ** Deprecated selectors *)

Definition HasDeprecatedFields (r : AccessRule) : bool :=
  bool_decide (0 < length (ar_clusterTemplateChains r)) ||
  bool_decide (0 < length (ar_serviceTemplateChains r)) ||
  bool_decide (0 < length (ar_credentials r)) ||
  bool_decide (0 < length (ar_clusterAuthentications r)) ||
  bool_decide (0 < length (ar_dataSources r)) ||
  bool_decide (0 < length (ar_clusterAuditPolicies r)).

Definition appendResourceRule (kind : string) (names : list string) (resources : list ResourceRule)
  : list ResourceRule :=
  if bool_decide (length names = 0) then resources
  else resources ++ [mkResourceRule None Group kind "" (Some names)].

Definition synthesizeResourceRules (rule : AccessRule) : list ResourceRule :=
  let resources := [] in
  let resources := appendResourceRule ClusterTemplateChainKind (ar_clusterTemplateChains rule) resources in
  let resources := appendResourceRule ServiceTemplateChainKind (ar_serviceTemplateChains rule) resources in
  let resources := appendResourceRule CredentialKind (ar_credentials rule) resources in
  let resources := appendResourceRule ClusterAuthenticationKind (ar_clusterAuthentications rule) resources in
  let resources := appendResourceRule DataSourceKind (ar_dataSources rule) resources in
  appendResourceRule ClusterAuditPolicyKind (ar_clusterAuditPolicies rule) resources.

Definition EffectiveResources (r : AccessRule) : list ResourceRule :=
  if bool_decide (0 < length (ar_resources r)) then ar_resources r else synthesizeResourceRules r.

Definition isBuiltinResourceKind (kind : string) : bool :=
  bool_decide (kind ∈ [ClusterTemplateKind; ClusterTemplateChainKind; ServiceTemplateChainKind; CredentialKind;
                       ClusterAuthenticationKind; DataSourceKind; ClusterAuditPolicyKind; RBACPolicyKind]).

Definition ResourceRule_GroupKind (r : ResourceRule) : GroupKind :=
  mkGK (if bool_decide (rr_apiGroup r = "") && isBuiltinResourceKind (rr_kind r) then Group else rr_apiGroup r)
    (rr_kind r).

Definition set_resources (l : list ResourceRule) (r : AccessRule) : AccessRule :=
  mkAccessRule (ar_targetNamespaces r) l (ar_clusterTemplateChains r) (ar_serviceTemplateChains r)
    (ar_credentials r) (ar_clusterAuthentications r) (ar_dataSources r) (ar_clusterAuditPolicies r).
Definition clear_deprecated (r : AccessRule) : AccessRule :=
  mkAccessRule (ar_targetNamespaces r) (ar_resources r) [] [] [] [] [] [].

Definition lacks_group (res : ResourceRule) : bool :=
  bool_decide (rr_apiGroup res = "") && isBuiltinResourceKind (rr_kind res).
Definition default_group (res : ResourceRule) : ResourceRule :=
  if lacks_group res
  then mkResourceRule (rr_selector res) Group (rr_kind res) (rr_stringSelector res) (rr_names res)
  else res.

Definition migrateAccessRule (rule : AccessRule) : AccessRule * bool :=
  let synthesized := synthesizeResourceRules rule in
  let '(rule, changed) :=
    if bool_decide (0 < length synthesized)
    then (set_resources (ar_resources rule ++ synthesized) rule, true) else (rule, false) in
  let rule := if HasDeprecatedFields rule then clear_deprecated rule else rule in
  (set_resources (default_group <$> ar_resources rule) rule, changed || existsb lacks_group (ar_resources rule)).

Definition set_accessRules (l : list AccessRule) (am : AccessManagement) : AccessManagement :=
  mkAM (am_meta am) l (am_status am).

Definition MigrateAccessRules (am : AccessManagement) : AccessManagement * bool :=
  if bool_decide (length (am_accessRules am) = 0) then (am, false)
  else
    let migrated := migrateAccessRule <$> am_accessRules am in
    let changed := existsb snd migrated in
    if changed then (set_accessRules migrated.*1 am, true) else (am, false).

(** ** Index functions *)

Definition ExtractAccessManagementTargetNamespaceLists (am : AccessManagement) : list string :=
  let targetNamespaces : gset string :=
    list_to_set (rule ← am_accessRules am; rs_list (ar_targetNamespaces rule)) in
  isort string_leb (elements targetNamespaces).

Definition targetNamespacesHasNonEmptySelector (targetNamespaces : ResourceSelector) : bool :=
  if negb (bool_decide (rs_stringSelector targetNamespaces = "")) then true
  else
    match rs_selector targetNamespaces with
    | None => false
    | Some selector => negb (bool_decide (ls_matchLabels selector = ∅)) ||
                       bool_decide (0 < length (ls_matchExpressions selector))
    end.
Definition targetNamespacesSelectAllNamespaces (targetNamespaces : ResourceSelector) : bool :=
  bool_decide (length (rs_list targetNamespaces) = 0) &&
  negb (targetNamespacesHasNonEmptySelector targetNamespaces).

Definition ExtractAccessManagementUsesSelector (am : AccessManagement) : list string :=
  if existsb (λ rule, targetNamespacesHasNonEmptySelector (ar_targetNamespaces rule)) (am_accessRules am)
  then ["true"] else [].
Definition ExtractAccessManagementTargetsAllNamespaces (am : AccessManagement) : list string :=
  if existsb (λ rule, targetNamespacesSelectAllNamespaces (ar_targetNamespaces rule)) (am_accessRules am)
  then ["true"] else [].

(** ** Resolving the rules *)

(** [labels.Parse]. *)
Class LabelParser `{!LabelSelectors} := labels_Parse : string → result Selector.

Definition byte_slash : Ascii.ascii := Ascii.ascii_of_nat 47.

(** [schema.ParseGroupVersion]: the group of an apiVersion of the form
    [group/version]. *)
Class GroupVersions := {
  ParseGroup : string → result string;
  ParseGroup_spec g v : byte_slash ∉ bytes g → byte_slash ∉ bytes v → g ≠ "" → ParseGroup (g +:+ "/" +:+ v) = Ok g
}.

Record Rule := mkRule { rule_namespaces : list string; rule_resources : list ResourceRule }.
Record Target := mkTarget { tgt_namespace : string; tgt_name : string }.
#[export] Instance Target_eq_dec : EqDecision Target.
Proof. solve_decision. Defined.
#[export] Program Instance Target_countable : Countable Target :=
  inj_countable' (λ k, (tgt_namespace k, tgt_name k)) (λ p, mkTarget p.1 p.2) _.
Next Obligation. by intros []. Qed.
Record Plan (M : Type) := mkPlan { Desired : list Target; Remove : list M; Release : list M }.
Arguments mkPlan {M} _ _ _.
Arguments Desired {M} _.
Arguments Remove {M} _.
Arguments Release {M} _.

Definition NamespacedName (namespace name : string) : string := namespace +:+ "/" +:+ name.

Definition target_key (t : Target) : string := NamespacedName (tgt_namespace t) (tgt_name t).

Section rules.
Context `{!LabelSelectors} `{!LabelParser} `{!MapRange string}.

(** The selector, and whether it is non-empty. *)
Definition LabelSelector_of (selector : option LabelSelector) (stringSelector : string)
  : result (option (Selector) * bool) :=
  if negb (bool_decide (stringSelector = "")) then
    sel ← wrap_err ("failed to parse string selector " +:+ quote stringSelector +:+ ": ") (labels_Parse stringSelector);
    Ok (Some sel, negb (Selector_Empty sel))
  else
    match selector with
    | None => Ok (None, false)
    | Some selector =>
        sel ← wrap_err "failed to convert selector: " (LabelSelectorAsSelector selector);
        Ok (Some sel, negb (Selector_Empty sel))
    end.

(** [!selectorNonEmpty || selector.Matches(labels)]; a selector is only called
    non-empty when there is one. *)
Definition selects (sel : option Selector * bool) (labels : gmap string string) : bool :=
  negb sel.2 || match sel.1 with Some s => Selector_Matches s labels | None => true end.

Section names.
Context {T : Type} (GetLabels : T → gmap string string).

Definition ResolveNames (rule : ResourceRule) (system : gmap string T) : result (list string) :=
  match rr_names rule with
  | Some names => Ok names
  | None =>
      sel ← wrap_err "failed to construct selector: " (LabelSelector_of (rr_selector rule) (rr_stringSelector rule));
      let names := filterb (λ name, match system !! name with
                                    | Some obj => selects sel (GetLabels obj)
                                    | None => false
                                    end) (range_seq 0 (dom system)) in
      Ok (isort string_leb names)
  end.

(** What [seen] holds is [desired]. *)
Definition add_target (desired : list Target) (target : Target) : list Target :=
  if bool_decide (target ∈ desired) then desired else desired ++ [target].
Definition add_targets (namespaces names : list string) (desired : list Target) : list Target :=
  foldl (λ desired namespace, foldl (λ desired name, add_target desired (mkTarget namespace name)) desired names)
    desired namespaces.

Definition desired_step (gk : GroupKind) (system : gmap string T) (namespaces : list string) (desired : list Target)
    (res : ResourceRule) : result (list Target) :=
  if negb (bool_decide (ResourceRule_GroupKind res = gk)) then Ok desired
  else
    names ← wrap_err ("failed to resolve names for " +:+ gk_string gk +:+ ": ") (ResolveNames res system);
    Ok (add_targets namespaces names desired).

Definition desiredTargets (rules : list Rule) (gk : GroupKind) (system : gmap string T) : result (list Target) :=
  foldM_result (λ desired rule,
    foldM_result (desired_step gk system (rule_namespaces rule)) desired (rule_resources rule)) [] rules.
End names.

(** ** Owners *)

Context `{!GroupVersions}.

Definition IsAccessManagementOwnerReference (ref : OwnerReference) (accessMgmt : AccessManagement) : bool :=
  match ParseGroup (own_apiVersion ref) with
  | Ok group => bool_decide (group = Group) && bool_decide (own_kind ref = AccessManagementKind) &&
                bool_decide (own_name ref = om_name (am_meta accessMgmt))
  | Err _ => false
  end.
Definition HasForeignOwnerReference (refs : list OwnerReference) (accessMgmt : AccessManagement) : bool :=
  existsb (λ ref, negb (IsAccessManagementOwnerReference ref accessMgmt)) refs.

(** ** The plan for one kind *)

Section plan.
Context {T M : Type} (GetLabels : T → gmap string string) (GetMeta : M → ObjectMeta).

Definition target_of (obj : M) : string := NamespacedName (om_namespace (GetMeta obj)) (om_name (GetMeta obj)).

Definition plan_step (keep : gset string) (accessMgmt : AccessManagement) (plan : Plan M) (obj : M) : Plan M :=
  if bool_decide (target_of obj ∈ keep) then plan
  else if HasForeignOwnerReference (om_ownerReferences (GetMeta obj)) accessMgmt
  then mkPlan (Desired plan) (Remove plan) (Release plan ++ [obj])
  else mkPlan (Desired plan) (Remove plan ++ [obj]) (Release plan).

Definition PlanGroupKind (rules : list Rule) (gk : GroupKind) (system : gmap string T) (managed : list M)
    (accessMgmt : AccessManagement) : result (Plan M) :=
  desired ← desiredTargets GetLabels rules gk system;
  let keep : gset string := list_to_set (target_key <$> desired) in
  Ok (foldl (plan_step keep accessMgmt) (mkPlan desired [] []) managed).
End plan.

(** ** The kinds handled *)

Definition add_gk (gks : list GroupKind) (gk : GroupKind) : list GroupKind :=
  if bool_decide (gk ∈ gks) then gks else gks ++ [gk].
Definition ReferencedGroupKinds (accessMgmt : AccessManagement) : list GroupKind :=
  foldl (λ gks rule, foldl (λ gks res, add_gk gks (ResourceRule_GroupKind res)) gks (EffectiveResources rule))
    [] (am_accessRules accessMgmt).
Definition status_gk (s : ResourceKindStatus) : GroupKind := mkGK (rks_apiGroup s) (rks_kind s).
Definition TracksGroupKind (accessMgmt : AccessManagement) (gk : GroupKind) : bool :=
  bool_decide (gk ∈ ReferencedGroupKinds accessMgmt) ||
  existsb (λ status, bool_decide (status_gk status = gk)) (ams_resources (am_status accessMgmt)).

(** ** Against the cluster *)

Context {C : Type} `{!Lister C Namespace} (cl : C).
Variable systemNamespace : string.

(** The loop after the first match keeps all but the system namespace, so
    filtering from the start is the same. *)
Definition TargetNamespaces (targetNamespaces : ResourceSelector) : result (list string) :=
  if bool_decide (0 < length (rs_list targetNamespaces)) then
    match IndexFunc (λ ns, bool_decide (ns = systemNamespace)) (rs_list targetNamespaces) with
    | None => Ok (rs_list targetNamespaces)
    | Some i => Ok (take i (rs_list targetNamespaces) ++
                    filterb (λ ns, negb (bool_decide (ns = systemNamespace))) (drop (S i) (rs_list targetNamespaces)))
    end
  else
    sel ← wrap_err "failed to construct selector from target namespaces: "
      (LabelSelector_of (rs_selector targetNamespaces) (rs_stringSelector targetNamespaces));
    namespaces ← wrap_err "failed to list namespaces: "
      (c_list cl "" (λ ns, selects sel (labels_of (nsp_meta ns))));
    Ok ((λ ns, om_name (nsp_meta ns)) <$>
          filterb (λ ns, negb (bool_decide (om_name (nsp_meta ns) = systemNamespace))) namespaces).

Definition ResolveRules (accessRules : list AccessRule) : result (list Rule) :=
  mapM_result (λ rule,
    namespaces ← wrap_err "failed to collect target namespaces: " (TargetNamespaces (ar_targetNamespaces rule));
    Ok (mkRule namespaces (EffectiveResources rule))) accessRules.

Context `{!Lister C ClusterTemplate}.

Definition ct_labels (t : ClusterTemplate) : gmap string string := labels_of (ct_meta t).
Definition has_managed_label (m : ObjectMeta) : bool :=
  bool_decide (labels_of m !! KCMManagedLabelKey = Some KCMManagedLabelValue).
Definition ClusterTemplateGK : GroupKind := mkGK Group ClusterTemplateKind.

Definition ClusterTemplatesToRemove (accessMgmt : AccessManagement) : result (list ClusterTemplate) :=
  let gk := ClusterTemplateGK in
  if negb (TracksGroupKind accessMgmt gk) then Ok []
  else
    rules ← ResolveRules (am_accessRules accessMgmt);
    systemTemplates ← wrap_err ("failed to list " +:+ gk_string gk +:+ " in namespace " +:+ systemNamespace +:+ ": ")
      (c_list (T:=ClusterTemplate) cl systemNamespace (λ _, true));
    let system := index_by (λ t, om_name (ct_meta t)) id systemTemplates in
    managedTemplates ← wrap_err ("failed to list managed " +:+ gk_string gk +:+ ": ")
      (c_list cl "" (λ t, has_managed_label (ct_meta t)));
    let managed := filterb (λ t, negb (bool_decide (om_namespace (ct_meta t) = systemNamespace)) &&
                                 bool_decide (om_deletionTimestamp (ct_meta t) = None)) managedTemplates in
    plan ← PlanGroupKind ct_labels ct_meta rules gk system managed accessMgmt;
    Ok (Remove plan).
End rules.

(** ** Admission *)

(** [schema.GroupVersionResource] and [meta.RESTMapping]: the resource a kind is
    served as and whether its scope is the namespace. *)
Record GVR := mkGVR { gvr_group : string; gvr_version : string; gvr_resource : string }.
#[export] Instance GVR_eq_dec : EqDecision GVR.
Proof. solve_decision. Defined.
Record RESTMapping := mkMapping { map_resource : GVR; map_namespaced : bool }.

Section webhook.
Context `{!LabelSelectors} `{!LabelParser} `{!MapRange string} `{!GroupVersions}.
Context {C : Type} `{!MetadataGetter C} `{!Lister C ClusterDeployment} `{!Lister C ClusterTemplate}.
Context `{!Lister C Management} `{!Lister C AccessManagement} `{!Lister C Namespace} (v : C).
Variable RESTMapper : option (GroupKind → result RESTMapping).
Variable SystemNamespace : string.

Definition cluster_scoped_error (gk : GroupKind) : gerror :=
  ErrNew (gk_string gk +:+ " is cluster-scoped and cannot be distributed into target namespaces by AccessManagement").

Definition validateResourceRule (res : ResourceRule) : option gerror :=
  let gk := ResourceRule_GroupKind res in
  match RESTMapper with
  | None => None
  | Some mapper =>
      match mapper gk with
      | Err err => Some (ErrWrap ("failed to resolve " +:+ gk_string gk +:+ " (ensure the CRD is installed): ") err)
      | Ok mapping => if negb (map_namespaced mapping) then Some (cluster_scoped_error gk) else None
      end
  end.

Definition skipped_warning (i : nat) : string :=
  "accessRules[" +:+ pretty i +:+ "].targetNamespaces.list: " +:+ SystemNamespace +:+
  " is the KCM system namespace and will be skipped; objects are never distributed into the namespace they are read from".

Definition validate_rule (acc : Response) (i : nat) (rule : AccessRule) : Response :=
  let '(warnings, errs) := acc in
  let warnings :=
    if negb (bool_decide (SystemNamespace = "")) && bool_decide (SystemNamespace ∈ rs_list (ar_targetNamespaces rule))
    then warnings ++ [skipped_warning i] else warnings in
  (warnings,
   foldl (λ errs '(j, res),
     match validateResourceRule res with
     | Some err => join_err errs (ErrWrap ("accessRules[" +:+ pretty i +:+ "].resources[" +:+ pretty j +:+ "]: ") err)
     | None => errs
     end) errs (imap pair (ar_resources rule))).

Definition validateAccessRules (rules : list AccessRule) : Response :=
  foldl (λ acc '(i, rule), validate_rule acc i rule) ([], None) (imap pair rules).

(** [equality.Semantic.DeepEqual]: a nil slice equals an empty one. *)
Definition semantic_resource (r : ResourceRule) : ResourceRule :=
  mkResourceRule (rr_selector r) (rr_apiGroup r) (rr_kind r) (rr_stringSelector r) (Some (default [] (rr_names r))).
Definition semantic_rule (r : AccessRule) : AccessRule := set_resources (semantic_resource <$> ar_resources r) r.

Definition accessRulesUnchanged (oldAM newAM : AccessManagement) : bool :=
  let oldMigrated := (MigrateAccessRules oldAM).1 in
  let newMigrated := (MigrateAccessRules newAM).1 in
  bool_decide (semantic_rule <$> am_accessRules oldMigrated = semantic_rule <$> am_accessRules newMigrated).

Definition toRemove_of (am : AccessManagement) : result (list ClusterTemplate) :=
  ClusterTemplatesToRemove v SystemNamespace am.
Definition ct_key (t : ClusterTemplate) : ObjectKey := meta_key (ct_meta t).

(** What [old] had pending already is left out. *)
Definition new_removals (old : option AccessManagement) (toRemove : list ClusterTemplate) : list ClusterTemplate :=
  match old with
  | None => toRemove
  | Some old =>
      if bool_decide (0 < length toRemove) then
        match toRemove_of old with
        | Err _ => toRemove
        | Ok pending => filterb (λ t, negb (bool_decide (ct_key t ∈ ct_key <$> pending))) toRemove
        end
      else toRemove
  end.

Definition check_removal (acc : Response) (template : ClusterTemplate) : Response :=
  let '(warnings, errs) := acc in
  let name := NamespacedName (om_namespace (ct_meta template)) (om_name (ct_meta template)) in
  match ClusterTemplate_ValidateDelete v SystemNamespace template with
  | (_, None) => (warnings, errs)
  | (templateWarnings, Some err) =>
      if errors_Is "template deletion is forbidden" err
      then (warnings ++ ((λ warning, name +:+ ": " +:+ warning) <$> templateWarnings),
            join_err errs (ErrWrap ("the update would remove the ClusterTemplate " +:+ name +:+ ": ") err))
      else (warnings, join_err errs (ErrWrap ("failed to check whether the ClusterTemplate " +:+ name +:+
                        " can be removed: ") err))
  end.

Definition validateClusterTemplateRemovals (old : option AccessManagement) (am : AccessManagement) : Response :=
  match toRemove_of am with
  | Err err => ([], Some (ErrWrap "failed to find the ClusterTemplates the AccessManagement would remove: " err))
  | Ok toRemove => foldl check_removal ([], None) (new_removals old toRemove)
  end.

Definition AccessManagement_ValidateCreate (am : AccessManagement) : Response :=
  match Limit 1 (c_list (T:=AccessManagement) v "" (λ _, true)) with
  | Err err => ([], Some err)
  | Ok items =>
      if bool_decide (0 < length items) then ([], Some (ErrNew "AccessManagement object already exists"))
      else
        match validateAccessRules (am_accessRules am) with
        | (warnings, Some err) => (warnings, Some err)
        | (warnings, None) =>
            let '(removalWarnings, err) := validateClusterTemplateRemovals None am in (warnings ++ removalWarnings, err)
        end
  end.

Definition set_am_status (s : AccessManagementStatus) (am : AccessManagement) : AccessManagement :=
  mkAM (am_meta am) (am_accessRules am) s.

Definition AccessManagement_ValidateUpdate (oldAM newAM : AccessManagement) : Response :=
  match validateAccessRules (am_accessRules newAM) with
  | (warnings, Some err) => (warnings, Some err)
  | (warnings, None) =>
      if accessRulesUnchanged oldAM newAM then (warnings, None)
      else
        let updated := set_am_status (am_status oldAM) newAM in
        let '(removalWarnings, err) := validateClusterTemplateRemovals (Some oldAM) updated in
        (warnings ++ removalWarnings, err)
  end.

Definition AccessManagement_ValidateDelete : Response :=
  match Limit 1 (c_list (T:=Management) v "" (λ _, true)) with
  | Err err => ([], Some (ErrWrap "failed to list Management objects: " err))
  | Ok [] => Allowed
  | Ok (mgmt :: _) =>
      if bool_decide (om_deletionTimestamp (mgmt_meta mgmt) = None)
      then ([], Some (ErrNew "AccessManagement deletion is forbidden")) else Allowed
  end.

Definition AccessManagement_Default (am : AccessManagement) : AccessManagement := (MigrateAccessRules am).1.
End webhook.

(** ** Properties: migration *)

Lemma appendResourceRule_nil kind names l : appendResourceRule kind names l = [] ↔ names = [] ∧ l = [].
Proof.
  unfold appendResourceRule. case_bool_decide as E.
  - apply nil_length_inv in E as ->. naive_solver.
  - split; [by intros [_ ?]%app_nil|]. by intros [-> _].
Qed.

Lemma synthesize_nil r : synthesizeResourceRules r = [] ↔ HasDeprecatedFields r = false.
Proof.
  unfold synthesizeResourceRules, HasDeprecatedFields. cbn zeta. rewrite !appendResourceRule_nil, !orb_false_iff.
  rewrite !bool_decide_eq_false, !Nat.nlt_ge, !Nat.le_0_r, !length_zero_iff_nil. tauto.
Qed.

Lemma default_group_idem r : lacks_group (default_group r) = false.
Proof. unfold default_group. destruct (lacks_group r) eqn:E; done. Qed.
Lemma default_group_id r : lacks_group r = false → default_group r = r.
Proof. intros E. unfold default_group. by rewrite E. Qed.

Lemma default_groups_id l : existsb lacks_group l = false → default_group <$> l = l.
Proof.
  induction l as [|x l IH]; [done|]. cbn [existsb]. intros [Hx Hl]%orb_false_iff.
  by rewrite fmap_cons, default_group_id, IH.
Qed.

(** What a rule selects: the kind, and how the objects are chosen. *)
Definition selection (r : ResourceRule) : GroupKind * option LabelSelector * string * option (list string) :=
  (ResourceRule_GroupKind r, rr_selector r, rr_stringSelector r, rr_names r).

Lemma default_group_selection r : selection (default_group r) = selection r.
Proof.
  unfold default_group. destruct (lacks_group r) eqn:E; [|done]. unfold selection, ResourceRule_GroupKind.
  unfold lacks_group in E. by rewrite E.
Qed.

(** Whether a rule selects by deprecated fields next to resources. *)
Definition mixes (r : AccessRule) : bool := HasDeprecatedFields r && bool_decide (0 < length (ar_resources r)).

Lemma migrate_fields r :
  let r' := (migrateAccessRule r).1 in
  HasDeprecatedFields r' = false ∧ ar_targetNamespaces r' = ar_targetNamespaces r ∧
  ar_resources r' = default_group <$> (ar_resources r ++ synthesizeResourceRules r).
Proof.
  unfold migrateAccessRule. destruct (synthesizeResourceRules r) as [|s l] eqn:E.
  - rewrite app_nil_r. apply synthesize_nil in E as Hd. simpl. by rewrite Hd.
  - assert (HasDeprecatedFields r = true) as Hd.
    { apply not_false_is_true. rewrite <- synthesize_nil, E. done. }
    simpl. unfold HasDeprecatedFields, set_resources in *. simpl in *. by rewrite Hd.
Qed.

Lemma migrate_id r : (migrateAccessRule r).2 = false → (migrateAccessRule r).1 = r.
Proof.
  unfold migrateAccessRule. destruct (synthesizeResourceRules r) as [|s l] eqn:E; [|done]. apply synthesize_nil in E.
  simpl. rewrite E. simpl. intros Hl. rewrite (default_groups_id _ Hl). by destruct r.
Qed.

Lemma migrate_again r : migrateAccessRule (migrateAccessRule r).1 = ((migrateAccessRule r).1, false).
Proof.
  destruct (migrate_fields r) as (Hd & _ & Hr). set (r' := (migrateAccessRule r).1) in *.
  assert ((migrateAccessRule r').2 = false) as H2.
  { apply synthesize_nil in Hd as Hs. unfold migrateAccessRule. rewrite Hs. simpl. rewrite Hd, Hr. simpl.
    apply not_true_is_false. intros (x & Hx & Hl)%existsb_elem_of. apply list_elem_of_fmap in Hx as (y & -> & _).
    by rewrite default_group_idem in Hl. }
  rewrite (surjective_pairing (migrateAccessRule r')), H2. by rewrite (migrate_id r').
Qed.

Lemma migrate_effective r :
  selection <$> EffectiveResources (migrateAccessRule r).1 =
  selection <$> ar_resources r ++ synthesizeResourceRules r.
Proof.
  destruct (migrate_fields r) as (Hd & _ & Hr). unfold EffectiveResources. rewrite Hr. case_bool_decide as E.
  - rewrite <- list_fmap_compose. apply list_fmap_ext. intros; apply default_group_selection.
  - apply synthesize_nil in Hd as ->. rewrite length_fmap in E. destruct (_ ++ _); [done|simpl in E; lia].
Qed.

Lemma effective_unmixed r : mixes r = false → EffectiveResources r = ar_resources r ++ synthesizeResourceRules r.
Proof.
  unfold mixes, EffectiveResources. rewrite andb_false_iff. case_bool_decide as E; intros [Hd|Hd]; try done.
  - apply synthesize_nil in Hd as ->. by rewrite app_nil_r.
  - destruct (ar_resources r); [done|simpl in E; lia].
  - destruct (ar_resources r); [done|simpl in E; lia].
Qed.

Lemma migrated_rules am :
  am_accessRules (MigrateAccessRules am).1 = (fst ∘ migrateAccessRule) <$> am_accessRules am.
Proof.
  unfold MigrateAccessRules. case_bool_decide as E.
  { simpl. by destruct (am_accessRules am). }
  destruct (existsb snd _) eqn:Ex; simpl; [by rewrite <- list_fmap_compose|]. clear E.
  induction (am_accessRules am) as [|r l IH]; [done|]. rewrite fmap_cons in *. cbn [existsb] in Ex.
  apply orb_false_iff in Ex as [Hr Hl]. unfold compose at 1. by rewrite <- (IH Hl), migrate_id.
Qed.

(** Migrating the rules leaves no deprecated selector, keeps the target
    namespaces and selects, rule by rule, what the resources and the
    deprecated selectors selected together; a rule that did not mix the two
    selects what the controller already distributed for it. Migrating again
    changes nothing, and nothing is reported changed only when nothing is. *)
Lemma MigrateAccessRules_spec am :
  let am' := (MigrateAccessRules am).1 in
  MigrateAccessRules am' = (am', false) ∧
  ((MigrateAccessRules am).2 = false → am' = am) ∧
  Forall2 (λ r r', HasDeprecatedFields r' = false ∧ ar_targetNamespaces r' = ar_targetNamespaces r ∧
      selection <$> EffectiveResources r' = selection <$> ar_resources r ++ synthesizeResourceRules r ∧
      (mixes r = false → selection <$> EffectiveResources r' = selection <$> EffectiveResources r))
    (am_accessRules am) (am_accessRules am').
Proof.
  cbn zeta. split_and!.
  - pose proof (migrated_rules am) as Hm. set (am' := (MigrateAccessRules am).1) in *.
    unfold MigrateAccessRules at 1. case_bool_decide; [done|]. rewrite Hm.
    destruct (existsb _ _) eqn:Ex; [|done]. exfalso.
    apply existsb_elem_of in Ex as (p & Hp & Hs). rewrite <- list_fmap_compose in Hp.
    apply list_elem_of_fmap in Hp as (r & -> & _). simpl in Hs. by rewrite migrate_again in Hs.
  - unfold MigrateAccessRules. case_bool_decide; [done|]. by destruct (existsb _ _).
  - rewrite migrated_rules. apply Forall2_fmap_r, Forall_Forall2_diag, Forall_forall. intros r _. simpl.
    destruct (migrate_fields r) as (Hd & Ht & _). pose proof (migrate_effective r) as He.
    split_and!; [done..|]. intros Hmix. by rewrite He, effective_unmixed.
Qed.

(** ** Properties: the plan *)

Lemma NamespacedName_inj ns n ns' n' :
  byte_slash ∉ bytes ns → byte_slash ∉ bytes ns' → NamespacedName ns n = NamespacedName ns' n' → ns = ns' ∧ n = n'.
Proof.
  intros H1 H2 Heq. apply (f_equal (λ s, Split s byte_slash)) in Heq. unfold NamespacedName in Heq.
  change ("/" +:+ ?x) with (String byte_slash x) in Heq. rewrite !Split_app in Heq by done.
  injection Heq as <- Hs. split; [done|]. by rewrite <- (Join_Split n byte_slash), Hs, Join_Split.
Qed.

Section plan_facts.
Context `{!LabelSelectors} `{!LabelParser} `{!MapRange string}.
Context `{!GroupVersions} {T M : Type} (GetLabels : T → gmap string string) (GetMeta : M → ObjectMeta).

Lemma add_target_spec desired t :
  NoDup desired → NoDup (add_target desired t) ∧ (∀ x, x ∈ add_target desired t ↔ x ∈ desired ∨ x = t).
Proof.
  intros Hnd. unfold add_target. case_bool_decide as E.
  { split; [done|]. intros x. split; [by left|]. by intros [?| ->]. }
  split.
  - apply NoDup_app. split_and!; [done| |apply NoDup_singleton]. intros x Hx ->%list_elem_of_singleton. done.
  - intros x. by rewrite elem_of_app, list_elem_of_singleton.
Qed.

Lemma add_targets_spec namespaces names desired :
  NoDup desired →
  NoDup (add_targets namespaces names desired) ∧
  (∀ x, x ∈ add_targets namespaces names desired ↔
        x ∈ desired ∨ (tgt_namespace x ∈ namespaces ∧ tgt_name x ∈ names)).
Proof.
  assert (∀ ns l d, NoDup d →
    NoDup (foldl (λ desired name, add_target desired (mkTarget ns name)) d l) ∧
    ∀ x, x ∈ foldl (λ desired name, add_target desired (mkTarget ns name)) d l ↔
         x ∈ d ∨ tgt_namespace x = ns ∧ tgt_name x ∈ l) as Hinner.
  { intros ns l. induction l as [|n l IH]; intros d Hd; simpl.
    { split; [done|]. intros x. rewrite elem_of_nil. tauto. }
    destruct (add_target_spec d (mkTarget ns n) Hd) as [Hd' He].
    destruct (IH _ Hd') as [Hn Hx]. split; [done|]. intros x. rewrite Hx, He, elem_of_cons.
    destruct x as [xn xm]; simpl. split; [intros [[?|[= -> ->]]|[? ?]]; auto|intros [?|[-> [->|?]]]; auto]. }
  unfold add_targets. revert desired. induction namespaces as [|ns l IH]; intros d Hd; simpl.
  { split; [done|]. intros x. rewrite elem_of_nil. tauto. }
  destruct (Hinner ns names d Hd) as [Hd' He]. destruct (IH _ Hd') as [Hn Hx]. split; [done|].
  intros x. rewrite Hx, He, elem_of_cons. tauto.
Qed.

(** A copy some rule distributes. *)
Definition rule_distributes (gk : GroupKind) (system : gmap string T) (namespaces : list string) (res : ResourceRule)
    (t : Target) : Prop :=
  ResourceRule_GroupKind res = gk ∧ tgt_namespace t ∈ namespaces ∧
  ∃ names, ResolveNames GetLabels res system = Ok names ∧ tgt_name t ∈ names.
Definition distributed (rules : list Rule) (gk : GroupKind) (system : gmap string T) (t : Target) : Prop :=
  ∃ rule, rule ∈ rules ∧ ∃ res, res ∈ rule_resources rule ∧ rule_distributes gk system (rule_namespaces rule) res t.

Lemma exists_cons {A} (P : A → Prop) x l : (∃ y, y ∈ x :: l ∧ P y) ↔ P x ∨ ∃ y, y ∈ l ∧ P y.
Proof. setoid_rewrite elem_of_cons. naive_solver. Qed.
Lemma exists_nil {A} (P : A → Prop) : (∃ y, y ∈ [] ∧ P y) ↔ False.
Proof. setoid_rewrite elem_of_nil. naive_solver. Qed.

Lemma desired_step_spec gk system namespaces res d d' :
  NoDup d → desired_step GetLabels gk system namespaces d res = Ok d' →
  NoDup d' ∧ (∀ t, t ∈ d' ↔ t ∈ d ∨ rule_distributes gk system namespaces res t).
Proof.
  intros Hd. unfold desired_step, rule_distributes. destruct (decide (ResourceRule_GroupKind res = gk)) as [Hg|Hg].
  - rewrite bool_decide_true by done. cbn [negb]. intros (names & Hn%wrap_err_Ok & [= <-])%bind_Ok.
    destruct (add_targets_spec namespaces names d Hd) as [Hd1 He]. split; [done|]. intros t. rewrite He. split.
    + intros [?|[? ?]]; [by left|]. right. split_and!; [done..|]. by exists names.
    + intros [?|(_ & ? & names' & ? & ?)]; [by left|]. right. ok_eq. done.
  - rewrite bool_decide_false by done. cbn [negb]. intros [= <-]. split; [done|]. intros t. split; [by left|].
    intros [?|(? & _)]; done.
Qed.

(** A loop that accumulates without repetition what each element adds. *)
Lemma foldM_accumulates {A B} (f : list B → A → result (list B)) (P : A → B → Prop) l :
  (∀ x d d', x ∈ l → NoDup d → f d x = Ok d' → NoDup d' ∧ (∀ t, t ∈ d' ↔ t ∈ d ∨ P x t)) →
  ∀ d d', NoDup d → foldM_result f d l = Ok d' → NoDup d' ∧ (∀ t, t ∈ d' ↔ t ∈ d ∨ ∃ x, x ∈ l ∧ P x t).
Proof.
  intros Hf. induction l as [|x l IH]; intros d d' Hd; cbn [foldM_result].
  - intros [= <-]. split; [done|]. intros t. rewrite (exists_nil (λ x, P x t)). tauto.
  - intros (d1 & Hx1 & Hrest)%bind_Ok. destruct (Hf x d d1) as [Hd1 He]; [left|done..|].
    destruct (IH (λ y d d' Hy, Hf y d d' (list_elem_of_further _ _ _ Hy)) d1 d' Hd1 Hrest) as [Hd2 He2]. split; [done|].
    intros t. rewrite He2, He, (exists_cons (λ x, P x t)). tauto.
Qed.

Lemma desiredTargets_spec rules gk system d :
  desiredTargets GetLabels rules gk system = Ok d →
  NoDup d ∧ (∀ t, t ∈ d ↔ distributed rules gk system t).
Proof.
  intros Hd.
  eapply (foldM_accumulates _ (λ rule t, ∃ res, res ∈ rule_resources rule ∧
            rule_distributes gk system (rule_namespaces rule) res t)) in Hd as [Hn He].
  - split; [done|]. intros t. rewrite He. split; [|by right]. intros [?%elem_of_nil|?]; done.
  - intros rule l l' _ Hl. apply foldM_accumulates; [|done]. intros res k k' _. apply desired_step_spec.
  - constructor.
Qed.

Lemma plan_fold keep accessMgmt managed plan :
  foldl (plan_step GetMeta keep accessMgmt) plan managed =
  let dropped m := negb (bool_decide (target_of GetMeta m ∈ keep)) in
  let foreign m := HasForeignOwnerReference (om_ownerReferences (GetMeta m)) accessMgmt in
  mkPlan (Desired plan) (Remove plan ++ filterb (λ m, dropped m && negb (foreign m)) managed)
    (Release plan ++ filterb (λ m, dropped m && foreign m) managed).
Proof.
  cbn zeta. revert plan. induction managed as [|m l IH]; intros plan; [by destruct plan; simpl; rewrite !app_nil_r|].
  cbn [foldl]. rewrite IH. unfold plan_step, filterb. rewrite !filter_cons. clear IH.
  case_bool_decide; simpl; [done|]. destruct (HasForeignOwnerReference _ _); simpl; by rewrite <- app_assoc.
Qed.
End plan_facts.

Definition no_slash (s : string) : Prop := byte_slash ∉ bytes s.

Section plan_theorems.
Context `{!LabelSelectors} `{!LabelParser} `{!MapRange string} `{!GroupVersions}.

Lemma not_foreign refs am :
  HasForeignOwnerReference refs am = false ↔ ∀ ref, ref ∈ refs → IsAccessManagementOwnerReference ref am = true.
Proof.
  unfold HasForeignOwnerReference. rewrite <- not_true_iff_false, existsb_elem_of. split.
  - intros Hno ref Hr. destruct (IsAccessManagementOwnerReference ref am) eqn:E; [done|].
    destruct Hno. exists ref. by rewrite E.
  - intros Hall (ref & Hr & Hn). by rewrite Hall in Hn.
Qed.
Lemma foreign_owner refs am :
  HasForeignOwnerReference refs am = true ↔ ∃ ref, ref ∈ refs ∧ IsAccessManagementOwnerReference ref am = false.
Proof. unfold HasForeignOwnerReference. rewrite existsb_elem_of. by setoid_rewrite negb_true_iff. Qed.

Context {T M : Type} (GetLabels : T → gmap string string) (GetMeta : M → ObjectMeta).

Definition copy_of (m : M) : Target := mkTarget (om_namespace (GetMeta m)) (om_name (GetMeta m)).

(** What is kept is kept by its name as a string, so a copy that is wanted is
    never given up; where no namespace has a slash only those are kept. *)
Lemma PlanGroupKind_Ok rules gk system managed am plan :
  PlanGroupKind GetLabels GetMeta rules gk system managed am = Ok plan →
  desiredTargets GetLabels rules gk system = Ok (Desired plan) ∧
  let kept m := bool_decide (target_of GetMeta m ∈ target_key <$> Desired plan) in
  let foreign m := HasForeignOwnerReference (om_ownerReferences (GetMeta m)) am in
  Remove plan = filterb (λ m, negb (kept m) && negb (foreign m)) managed ∧
  Release plan = filterb (λ m, negb (kept m) && foreign m) managed.
Proof.
  unfold PlanGroupKind. intros (d & Hd & [= <-])%bind_Ok. rewrite plan_fold. cbn [Desired Remove Release app].
  split; [done|]. cbn zeta.
  assert (∀ m, bool_decide (target_of GetMeta m ∈ (list_to_set (target_key <$> d) : gset string)) =
    bool_decide (target_of GetMeta m ∈ target_key <$> d)) as Hk.
  { intros m. apply bool_decide_ext. by rewrite elem_of_list_to_set. }
  split; apply filterb_ext; intros m _; by rewrite Hk.
Qed.

(** The plan for a kind wants each copy the rules distribute once, and, when
    no namespace has a slash in its name, divides the managed copies exactly:
    wanted ones stay; of the others those owned by the AccessManagement alone
    are removed and those something else owns too are released. *)
Lemma PlanGroupKind_exact rules gk system managed am plan :
  PlanGroupKind GetLabels GetMeta rules gk system managed am = Ok plan →
  (∀ rule ns, rule ∈ rules → ns ∈ rule_namespaces rule → no_slash ns) →
  (∀ m, m ∈ managed → no_slash (om_namespace (GetMeta m))) →
  let wanted := distributed GetLabels rules gk system in
  let mine ref := IsAccessManagementOwnerReference ref am = true in
  NoDup (Desired plan) ∧ (∀ t, t ∈ Desired plan ↔ wanted t) ∧
  (∀ m, m ∈ Remove plan ↔ m ∈ managed ∧ ¬ wanted (copy_of m) ∧ ∀ ref, ref ∈ om_ownerReferences (GetMeta m) → mine ref) ∧
  (∀ m, m ∈ Release plan ↔ m ∈ managed ∧ ¬ wanted (copy_of m) ∧ ∃ ref, ref ∈ om_ownerReferences (GetMeta m) ∧ ¬ mine ref).
Proof.
  intros (Hd & Hrem & Hrel)%PlanGroupKind_Ok Hr Hm. cbn zeta. apply desiredTargets_spec in Hd as [Hnd He].
  assert (∀ m, m ∈ managed → target_of GetMeta m ∈ target_key <$> Desired plan ↔
            distributed GetLabels rules gk system (copy_of m)) as Hkept.
  { intros m Hin. rewrite <- He, list_elem_of_fmap. split; [|intros ?; by exists (copy_of m)].
    intros (t & Heq & Ht). apply He in Ht as Hdis. destruct Hdis as (rule & Hrule & res & Hres & _ & Hns & _).
    apply NamespacedName_inj in Heq as [Ha Hb]; [|by apply Hm|by eapply Hr].
    unfold copy_of. rewrite Ha, Hb. by destruct t. }
  split_and!; [done|done| |]; intros m; [rewrite Hrem|rewrite Hrel]; rewrite filterb_elem_of, andb_true_iff, !negb_true_iff,
    bool_decide_eq_false; [rewrite not_foreign|rewrite foreign_owner; setoid_rewrite not_true_iff_false];
    (split; [intros (Hin & Hk & ?)|intros (Hin & Hk & ?)]; rewrite (Hkept m Hin) in *; done).
Qed.
End plan_theorems.

(** ** Properties: resolving the rules *)

Section resolve_facts.
Context `{!LabelSelectors} `{!LabelParser} `{!MapRange string} {C : Type} `{!Lister C Namespace} (cl : C).
Variable systemNamespace : string.

Lemma TargetNamespaces_list tn :
  rs_list tn ≠ [] →
  TargetNamespaces cl systemNamespace tn = Ok (filterb (λ ns, negb (bool_decide (ns = systemNamespace))) (rs_list tn)).
Proof.
  intros Hl. unfold TargetNamespaces. rewrite bool_decide_true by (destruct (rs_list tn); [done|simpl; lia]).
  destruct (IndexFunc _ _) as [i|] eqn:E.
  - apply IndexFunc_Some in E as [(x & Hx & Hs) Hbefore]. rewrite <- (take_drop_middle _ _ _ Hx) at 3.
    unfold filterb. rewrite filter_app, filter_cons, decide_False by (by rewrite Hs).
    f_equal. f_equal. symmetry. apply filter_all. intros y (j & Hy)%list_elem_of_lookup.
    apply lookup_take_Some in Hy as [Hy Hj]. by rewrite (Hbefore j).
  - f_equal. symmetry. apply filter_all. intros x Hx. by rewrite (proj1 (IndexFunc_None _ _) E).
Qed.

Lemma TargetNamespaces_system tn nss : TargetNamespaces cl systemNamespace tn = Ok nss → systemNamespace ∉ nss.
Proof.
  destruct (decide (rs_list tn = [])) as [Hl|Hl].
  - unfold TargetNamespaces. rewrite Hl. simpl. intros (sel & _ & (l & _ & [= <-])%bind_Ok)%bind_Ok.
    intros (x & Heq & Hx%filterb_elem_of)%list_elem_of_fmap. destruct Hx as [_ Hx]. rewrite <- Heq in Hx.
    by rewrite bool_decide_true in Hx.
  - rewrite TargetNamespaces_list by done. intros [= <-] [_ Hs]%filterb_elem_of. by rewrite bool_decide_true in Hs.
Qed.

Lemma ResolveRules_system accessRules rules rule :
  ResolveRules cl systemNamespace accessRules = Ok rules → rule ∈ rules → systemNamespace ∉ rule_namespaces rule.
Proof.
  intros Hr%mapM_result_Ok Hin. apply list_elem_of_lookup in Hin as [i Hi].
  eapply Forall2_lookup_r in Hr as (x & _ & (nss & Hn & [= <-])%bind_Ok); [|done].
  apply wrap_err_Ok in Hn. exact (TargetNamespaces_system _ _ Hn).
Qed.

Context {T : Type} (GetLabels : T → gmap string string).

Lemma desired_step_selection gk system ns d res res' :
  selection res = selection res' →
  desired_step GetLabels gk system ns d res = desired_step GetLabels gk system ns d res'.
Proof.
  unfold selection. intros Heq. injection Heq as Hg Hk Hs Hss Hn. unfold desired_step, ResolveNames.
  unfold ResourceRule_GroupKind. by rewrite Hg, Hk, Hs, Hss, Hn.
Qed.

(** Rules that select the same resources in the same namespaces. *)
Definition same_rule (a b : Rule) : Prop :=
  rule_namespaces a = rule_namespaces b ∧ selection <$> rule_resources a = selection <$> rule_resources b.

Lemma desired_resources_selection gk system ns l l' d :
  selection <$> l = selection <$> l' →
  foldM_result (desired_step GetLabels gk system ns) d l = foldM_result (desired_step GetLabels gk system ns) d l'.
Proof.
  revert l' d. induction l as [|x l IH]; intros [|y l'] d Heq; try done. rewrite !fmap_cons in Heq.
  pose proof (f_equal tail Heq) as Hl. apply (f_equal head), (inj Some) in Heq. cbn [foldM_result].
  rewrite (desired_step_selection gk system ns d x y Heq).
  destruct (desired_step _ _ _ _ _ y); simpl; [by apply IH|done].
Qed.

Lemma desiredTargets_selection gk system rules rules' :
  Forall2 same_rule rules rules' → desiredTargets GetLabels rules gk system = desiredTargets GetLabels rules' gk system.
Proof.
  unfold desiredTargets. generalize (@nil Target). intros d Hr. revert d.
  induction Hr as [|a b l l' [Hn Hs] _ IH]; intros d; [done|]. cbn [foldM_result].
  rewrite Hn, (desired_resources_selection _ _ _ _ _ d Hs).
  destruct (foldM_result _ d (rule_resources b)); simpl; [apply IH|done].
Qed.

Lemma ResolveRules_migrated l :
  (∀ r, r ∈ l → mixes r = false) →
  match ResolveRules cl systemNamespace ((fst ∘ migrateAccessRule) <$> l), ResolveRules cl systemNamespace l with
  | Ok rules', Ok rules => Forall2 same_rule rules' rules
  | Err e', Err e => e' = e
  | _, _ => False
  end.
Proof.
  unfold ResolveRules. induction l as [|r l IH]; intros Hm; [constructor|]. rewrite fmap_cons.
  cbn [mapM_result]. destruct (migrate_fields r) as (_ & Ht & _). unfold compose at 1 3. rewrite Ht.
  destruct (wrap_err _ (TargetNamespaces _ _ _)) as [ns|e]; [|done]. simpl.
  assert (∀ x, x ∈ l → mixes x = false) as Hm' by (intros; apply Hm; by right). specialize (IH Hm').
  destruct (mapM_result _ _), (mapM_result _ l); simpl; try done.
  constructor; [|done]. split; [done|]. simpl. by rewrite migrate_effective, effective_unmixed by (apply Hm; left).
Qed.

(** Migration does not change what is distributed: for rules that do not mix
    the two kinds of selectors, resolving and expanding the migrated rules
    gives the same copies, or the same error, as the rules before. *)
Lemma migration_keeps_targets am gk system :
  (∀ r, r ∈ am_accessRules am → mixes r = false) →
  let targets am := rules ← ResolveRules cl systemNamespace (am_accessRules am); desiredTargets GetLabels rules gk system in
  targets (MigrateAccessRules am).1 = targets am.
Proof.
  intros Hm. cbv beta zeta. rewrite migrated_rules. pose proof (ResolveRules_migrated _ Hm) as Hr.
  destruct (ResolveRules _ _ (_ <$> _)), (ResolveRules _ _ (am_accessRules am)); try done; [|by subst].
  simpl. by apply desiredTargets_selection.
Qed.
End resolve_facts.

(** ** Properties: admission *)

Section webhook_properties.
Context `{!LabelSelectors} `{!LabelParser} `{!MapRange string} `{!GroupVersions}.
Context {C : Type} `{!MetadataGetter C} `{!Lister C ClusterDeployment} `{!Lister C ClusterTemplate}.
Context `{!Lister C Management} `{!Lister C AccessManagement} `{!Lister C Namespace} (v : C).
Variable RESTMapper : option (GroupKind → result RESTMapping).
Variable SystemNamespace : string.

Lemma check_removals_None l acc :
  (foldl (check_removal v SystemNamespace) acc l).2 = None ↔
  acc.2 = None ∧ ∀ t, t ∈ l → (ClusterTemplate_ValidateDelete v SystemNamespace t).2 = None.
Proof.
  revert acc. induction l as [|t l IH]; intros [w e]; cbn [foldl].
  - split; [intros ?; split; [done|]|by intros [? _]]. by intros t ?%elem_of_nil.
  - rewrite IH. clear IH. unfold check_removal at 1. setoid_rewrite elem_of_cons.
    destruct (ClusterTemplate_ValidateDelete v SystemNamespace t) as [ws [err|]] eqn:E.
    + split.
      * intros [Hn _]. destruct (errors_Is _ err); by apply join_err_ne in Hn.
      * intros [_ Hall]. specialize (Hall t (or_introl eq_refl)). by rewrite E in Hall.
    + split; intros [? Hall]; (split; [done|]); [|by auto]. intros x [->|?]; [by rewrite E|auto].
Qed.

(** The resources of a rule are distributable: known and namespaced. *)
Definition distributable (res : ResourceRule) : Prop :=
  match RESTMapper with
  | None => True
  | Some mapper => ∃ mapping, mapper (ResourceRule_GroupKind res) = Ok mapping ∧ map_namespaced mapping = true
  end.
Lemma validateResourceRule_None res : validateResourceRule RESTMapper res = None ↔ distributable res.
Proof.
  unfold validateResourceRule, distributable. destruct RESTMapper as [mapper|]; [|done].
  destruct (mapper _) as [m|e]; [|split; [done|by intros (? & ? & _)]].
  destruct (map_namespaced m) eqn:E; simpl; split; try done.
  - intros _. by exists m.
  - intros (m' & [= <-] & Hm). congruence.
Qed.

Lemma fold_errors_None {A} (f : A → option gerror) (w : A → gerror → gerror) l errs :
  foldl (λ errs x, match f x with Some err => join_err errs (w x err) | None => errs end) errs l = None ↔
  errs = None ∧ ∀ x, x ∈ l → f x = None.
Proof.
  revert errs. induction l as [|x l IH]; intros errs; cbn [foldl].
  - split; [intros ->; split; [done|]|by intros [? _]]. by intros x ?%elem_of_nil.
  - rewrite IH. setoid_rewrite elem_of_cons. destruct (f x) eqn:E.
    + split; [by intros [?%join_err_ne _]|]. intros [_ Hall]. specialize (Hall x (or_introl eq_refl)). congruence.
    + split; intros [? Hall]; (split; [done|]); [|by auto]. intros y [->|?]; auto.
Qed.

Lemma imap_pair_elem {A} (l : list A) (P : A → Prop) : (∀ p, p ∈ imap pair l → P p.2) ↔ ∀ x, x ∈ l → P x.
Proof.
  split.
  - intros Hp x [i Hx]%list_elem_of_lookup. apply (Hp (i, x)). apply elem_of_lookup_imap. by exists i, x.
  - intros Hx [i x] (j & y & [= -> ->] & Hy)%elem_of_lookup_imap. apply Hx. by eapply list_elem_of_lookup_2.
Qed.

Lemma validate_rule_None acc i rule :
  (validate_rule RESTMapper SystemNamespace acc i rule).2 = None ↔
  acc.2 = None ∧ ∀ res, res ∈ ar_resources rule → distributable res.
Proof.
  destruct acc as [w e]. unfold validate_rule. cbn [snd].
  rewrite <- (imap_pair_elem (ar_resources rule) distributable).
  setoid_rewrite <- validateResourceRule_None.
  rewrite <- (fold_errors_None (λ p : nat * ResourceRule, validateResourceRule RESTMapper p.2)
    (λ p err, ErrWrap ("accessRules[" +:+ pretty i +:+ "].resources[" +:+ pretty p.1 +:+ "]: ") err)).
  f_equiv. revert e. induction (imap pair (ar_resources rule)) as [|[j r] l IH]; intros e; [done|]. apply IH.
Qed.

Lemma validateAccessRules_None rules :
  (validateAccessRules RESTMapper SystemNamespace rules).2 = None ↔
  ∀ rule, rule ∈ rules → ∀ res, res ∈ ar_resources rule → distributable res.
Proof.
  unfold validateAccessRules.
  rewrite <- (imap_pair_elem rules (λ rule, ∀ res, res ∈ ar_resources rule → distributable res)).
  transitivity (([] : list string, None : option gerror).2 = None ∧
    ∀ p, p ∈ imap pair rules → ∀ res, res ∈ ar_resources p.2 → distributable res); [|tauto].
  generalize ([] : list string, None : option gerror). generalize (imap pair rules). intros l. clear rules.
  induction l as [|[i rule] l IH]; intros acc; cbn [foldl].
  - split; [intros ?; split; [done|]|by intros [? _]]. by intros p ?%elem_of_nil.
  - rewrite IH, validate_rule_None. setoid_rewrite elem_of_cons. split.
    + intros [[? Hr] Hl]. split; [done|]. intros p [->|Hp]; [done|by apply Hl].
    + intros [? Hall]. split; [split; [done|]|]; [apply (Hall (i, rule)); by left|]. intros p Hp. apply Hall. by right.
Qed.

Lemma ReferencedGroupKinds_flat am :
  ReferencedGroupKinds am =
  foldl add_gk [] (concat ((λ r, ResourceRule_GroupKind <$> EffectiveResources r) <$> am_accessRules am)).
Proof.
  unfold ReferencedGroupKinds. generalize (@nil GroupKind).
  induction (am_accessRules am) as [|r l IH]; intros gks; [done|].
  rewrite fmap_cons. cbn [foldl concat]. rewrite foldl_app, IH. f_equal.
  revert gks. induction (EffectiveResources r) as [|x k IHk]; intros g; [done|]. apply IHk.
Qed.

(** *** What the controller would remove *)

(** The AccessManagement has to do with ClusterTemplates: a rule selects some, or
    its status says that it distributed some. *)
Definition distributes_templates (am : AccessManagement) : Prop :=
  (∃ rule res, rule ∈ am_accessRules am ∧ res ∈ EffectiveResources rule ∧ ResourceRule_GroupKind res = ClusterTemplateGK) ∨
  (∃ status, status ∈ ams_resources (am_status am) ∧ status_gk status = ClusterTemplateGK).
(** A ClusterTemplate that is to go: a managed copy outside the system namespace,
    not yet on its way out, which no rule distributes and nothing else owns. *)
Definition to_go (am : AccessManagement) (t : ClusterTemplate) : Prop :=
  distributes_templates am ∧ ∃ rules sources copies,
    ResolveRules v SystemNamespace (am_accessRules am) = Ok rules ∧
    c_list (T:=ClusterTemplate) v SystemNamespace (λ _, true) = Ok sources ∧
    c_list (T:=ClusterTemplate) v "" (λ t, has_managed_label (ct_meta t)) = Ok copies ∧
    t ∈ copies ∧ om_namespace (ct_meta t) ≠ SystemNamespace ∧ om_deletionTimestamp (ct_meta t) = None ∧
    ¬ distributed ct_labels rules ClusterTemplateGK (index_by (λ t, om_name (ct_meta t)) id sources)
        (mkTarget (om_namespace (ct_meta t)) (om_name (ct_meta t))) ∧
    (∀ ref, ref ∈ om_ownerReferences (ct_meta t) → IsAccessManagementOwnerReference ref am = true).
(** No namespace has a slash in its name. *)
Definition slash_free (am : AccessManagement) : Prop :=
  (∀ rules rule ns, ResolveRules v SystemNamespace (am_accessRules am) = Ok rules → rule ∈ rules → ns ∈ rule_namespaces rule → no_slash ns) ∧
  (∀ copies t, c_list (T:=ClusterTemplate) v "" (λ t, has_managed_label (ct_meta t)) = Ok copies → t ∈ copies → no_slash (om_namespace (ct_meta t))).

Lemma add_gks_elem l gks gk : gk ∈ foldl add_gk gks l ↔ gk ∈ gks ∨ gk ∈ l.
Proof.
  revert gks. induction l as [|x l IH]; intros gks; cbn [foldl]; [rewrite elem_of_nil; tauto|]. rewrite IH, elem_of_cons.
  unfold add_gk. case_bool_decide; [|rewrite elem_of_app, list_elem_of_singleton; tauto]. split; [tauto|]. intros [?|[->|?]]; auto.
Qed.
Lemma Tracks_spec am : TracksGroupKind am ClusterTemplateGK = true ↔ distributes_templates am.
Proof.
  unfold TracksGroupKind, distributes_templates. rewrite orb_true_iff, bool_decide_eq_true, ReferencedGroupKinds_flat, add_gks_elem, existsb_elem_of.
  setoid_rewrite bool_decide_eq_true. f_equiv. split.
  - intros [?%elem_of_nil|Hin]; [done|]. apply list_elem_of_In, in_concat in Hin as (l & Hl & Hin).
    apply list_elem_of_In, list_elem_of_fmap in Hl as (rule & -> & Hr).
    apply list_elem_of_In, list_elem_of_fmap in Hin as (res & Heq & Hres). by exists rule, res.
  - intros (rule & res & Hr & Hres & <-). right. apply list_elem_of_In, in_concat. exists (ResourceRule_GroupKind <$> EffectiveResources rule).
    split; apply list_elem_of_In; [by apply (list_elem_of_fmap_2 (λ r, ResourceRule_GroupKind <$> EffectiveResources r))|by apply list_elem_of_fmap_2].
Qed.
Lemma toRemove_spec am l : slash_free am → toRemove_of v SystemNamespace am = Ok l → ∀ t, t ∈ l ↔ to_go am t.
Proof.
  intros [Hrules Hcopies] Hrun t. unfold toRemove_of, ClusterTemplatesToRemove, to_go in *. rewrite <- Tracks_spec. cbn zeta in Hrun.
  destruct (TracksGroupKind _ _); cbn [negb] in Hrun; [|injection Hrun as <-; split; [by intros ?%elem_of_nil|by intros [? _]]].
  apply bind_Ok in Hrun as (rules & Hr & Hrun). apply bind_Ok in Hrun as (sources & Hs%wrap_err_Ok & Hrun).
  apply bind_Ok in Hrun as (copies & Hc%wrap_err_Ok & Hrun). apply bind_Ok in Hrun as (plan & Hplan & [= <-]).
  pose proof (PlanGroupKind_exact ct_labels ct_meta rules ClusterTemplateGK _ _ am plan Hplan) as (_ & _ & Hrem & _).
  { intros rule ns. by apply Hrules. }
  { intros m [Hm _]%filterb_elem_of. by eapply Hcopies. }
  rewrite Hrem, filterb_elem_of, andb_true_iff, negb_true_iff, bool_decide_eq_false, bool_decide_eq_true. split.
  - intros ((Hin & Hns & Hdel) & Hnot & Hmine). split; [done|]. by exists rules, sources, copies.
  - intros (_ & rules' & sources' & copies' & Hr' & Hs' & Hc' & Hin & Hns & Hdel & Hnot & Hmine). ok_eq. done.
Qed.

(** The removal was due before the update as well. *)
Definition already_pending (old : AccessManagement) (t : ClusterTemplate) : Prop :=
  is_ok (toRemove_of v SystemNamespace old) = true ∧ ∃ t', to_go old t' ∧ ct_key t' = ct_key t.

Lemma new_removals_elem old l t : slash_free old →
  t ∈ new_removals v SystemNamespace (Some old) l ↔ t ∈ l ∧ ¬ already_pending old t.
Proof.
  intros Hold. unfold new_removals, already_pending. case_bool_decide as Hl.
  - destruct (toRemove_of v SystemNamespace old) as [p|e] eqn:E; cbn [is_ok].
    + rewrite filterb_elem_of, negb_true_iff, bool_decide_eq_false, list_elem_of_fmap. setoid_rewrite <- (toRemove_spec _ _ Hold E).
      split; intros [? Hn]; (split; [done|]).
      * intros (_ & t' & Hin & Hk). apply Hn. by exists t'.
      * intros (t' & Hk & Hin). apply Hn. split; [done|]. by exists t'.
    + split; [intros ?; split; [done|]|by intros [? _]]. by intros [? _].
  - destruct l; [|simpl in Hl; lia]. split; [by intros ?%elem_of_nil|by intros [?%elem_of_nil _]].
Qed.

(** Rule by rule the same, once the deprecated selectors are migrated, an empty
    list of names counting as none. *)
Definition rules_left (oldAM newAM : AccessManagement) : Prop :=
  Forall2 (λ r r', semantic_rule (migrateAccessRule r).1 = semantic_rule (migrateAccessRule r').1) (am_accessRules oldAM) (am_accessRules newAM).
Lemma unchanged_spec oldAM newAM : accessRulesUnchanged oldAM newAM = true ↔ rules_left oldAM newAM.
Proof.
  unfold accessRulesUnchanged, rules_left. cbn zeta. rewrite bool_decide_eq_true, !migrated_rules, <- !list_fmap_compose.
  generalize (am_accessRules oldAM) as l, (am_accessRules newAM) as l'. induction l as [|r l IH]; intros [|r' l']; cbn [fmap list_fmap].
  - split; [constructor|done].
  - split; [done|by intros ?%Forall2_nil_cons_inv].
  - split; [done|by intros ?%Forall2_cons_nil_inv].
  - rewrite Forall2_cons, <- IH. split; [|intros [Hr Hl]; f_equal; done].
    intros Heq. pose proof (f_equal tail Heq) as Ht. apply (f_equal head), (inj Some) in Heq. done.
Qed.

(** C30: an update of the AccessManagement is admitted exactly when every kind it
    distributes is known and namespaced and one of these holds. Its rules are, but
    for migration, the rules it had: then nothing is looked at. Or it can be told
    what the controller would remove, and each ClusterTemplate that the new rules
    leave to go (a managed copy no rule distributes and nothing else owns) was
    already to go under the old ones or may be deleted: nothing in use is taken
    away. *)
Theorem access_update_admitted oldAM newAM (updated := set_am_status (am_status oldAM) newAM) :
  slash_free oldAM → slash_free updated →
  admitted (AccessManagement_ValidateUpdate v RESTMapper SystemNamespace oldAM newAM) ↔
  (∀ rule, rule ∈ am_accessRules newAM → ∀ res, res ∈ ar_resources rule → distributable res) ∧
  (rules_left oldAM newAM ∨
   is_ok (toRemove_of v SystemNamespace updated) = true ∧
   ∀ t, to_go updated t → ¬ already_pending oldAM t → admitted (ClusterTemplate_ValidateDelete v SystemNamespace t)).
Proof.
  intros Hold Hnew. unfold AccessManagement_ValidateUpdate, admitted. rewrite <- validateAccessRules_None, <- unchanged_spec.
  destruct (validateAccessRules _ _ _) as [w [e|]]; simpl; [split; [done|by intros [? _]]|].
  destruct (accessRulesUnchanged oldAM newAM); [by split; auto|]. fold updated.
  unfold validateClusterTemplateRemovals. destruct (toRemove_of v SystemNamespace updated) as [l|e] eqn:E.
  - pose proof (check_removals_None (new_removals v SystemNamespace (Some oldAM) l) ([], None)) as Hc.
    destruct (foldl _ _ _) as [w' e']. simpl in *. rewrite Hc. setoid_rewrite (λ t, new_removals_elem oldAM l t Hold).
    setoid_rewrite (toRemove_spec _ _ Hnew E). split.
    + intros [_ Hall]. split; [done|]. right. split; [done|]. by intros t Ht Hn; apply Hall.
    + intros [_ [?|(_ & Hall)]]; [done|]. split; [done|]. intros t [Ht Hn]. by apply Hall.
  - simpl. split; [done|]. by intros [_ [?|(? & _)]].
Qed.

(** Rules the API server stores: one way of selecting, no empty list of names. *)
Definition plain (r : AccessRule) : Prop :=
  mixes r = false ∧ ∀ res, res ∈ ar_resources r → rr_names res ≠ Some [].

Lemma appendResourceRule_named kind names l :
  (∀ res, res ∈ l → rr_names res ≠ Some []) →
  ∀ res, res ∈ appendResourceRule kind names l → rr_names res ≠ Some [].
Proof.
  intros Hl res. unfold appendResourceRule. case_bool_decide as E; [by apply Hl|].
  intros [?| ->%list_elem_of_singleton]%elem_of_app; [by apply Hl|]. simpl. intros [= Hn]. by rewrite Hn in E.
Qed.

Lemma synthesized_named r res : res ∈ synthesizeResourceRules r → rr_names res ≠ Some [].
Proof.
  revert res. unfold synthesizeResourceRules. cbn zeta. do 6 apply appendResourceRule_named.
  by intros res ?%elem_of_nil.
Qed.

Lemma default_group_names res : rr_names (default_group res) = rr_names res.
Proof. unfold default_group. by destruct (lacks_group res). Qed.

Lemma migrated_named r res :
  plain r → res ∈ ar_resources (migrateAccessRule r).1 → rr_names res ≠ Some [].
Proof.
  intros [_ Hp]. destruct (migrate_fields r) as (_ & _ & ->).
  intros (x & -> & [Hx|Hx]%elem_of_app)%list_elem_of_fmap; rewrite default_group_names; [by apply Hp|].
  by eapply synthesized_named.
Qed.

Lemma semantic_resource_inj x y :
  rr_names x ≠ Some [] → rr_names y ≠ Some [] → semantic_resource x = semantic_resource y → x = y.
Proof.
  destruct x as [a b c d e], y as [a' b' c' d' e']. unfold semantic_resource. simpl. intros Hx Hy [= -> -> -> -> He].
  f_equal. destruct e as [[|]|], e' as [[|]|]; simplify_eq/=; done.
Qed.

Lemma semantic_resources_inj (l l' : list ResourceRule) :
  (∀ x, x ∈ l → rr_names x ≠ Some []) → (∀ x, x ∈ l' → rr_names x ≠ Some []) →
  semantic_resource <$> l = semantic_resource <$> l' → l = l'.
Proof.
  revert l'. induction l as [|x l IH]; intros [|y l'] Hl Hl' Heq; try done. rewrite !fmap_cons in Heq.
  pose proof (f_equal tail Heq) as Ht. apply (f_equal head), (inj Some) in Heq.
  f_equal; [apply semantic_resource_inj; [apply Hl; left|apply Hl'; left|done]|].
  apply IH; [| |done]; intros; [apply Hl|apply Hl']; by right.
Qed.

Lemma semantic_rule_inj r r' :
  plain r → plain r' → semantic_rule (migrateAccessRule r).1 = semantic_rule (migrateAccessRule r').1 →
  ar_targetNamespaces r = ar_targetNamespaces r' ∧
  selection <$> EffectiveResources r = selection <$> EffectiveResources r'.
Proof.
  intros Hp Hp' Heq. destruct (migrate_fields r) as (_ & Ht & _), (migrate_fields r') as (_ & Ht' & _).
  pose proof (f_equal ar_targetNamespaces Heq) as Htn. pose proof (f_equal ar_resources Heq) as Hres.
  unfold semantic_rule, set_resources in Htn, Hres. simpl in *. split; [congruence|].
  rewrite (effective_unmixed r (proj1 Hp)), (effective_unmixed r' (proj1 Hp')).
  rewrite <- !migrate_effective. f_equal. unfold EffectiveResources.
  assert (ar_resources (migrateAccessRule r).1 = ar_resources (migrateAccessRule r').1) as Hr.
  { apply semantic_resources_inj; [intros x Hx; exact (migrated_named _ _ Hp Hx)|intros x Hx; exact (migrated_named _ _ Hp' Hx)|done]. }
  rewrite Hr. case_bool_decide; [done|].
  destruct (migrate_fields r) as (Hd%synthesize_nil & _), (migrate_fields r') as (Hd'%synthesize_nil & _).
  by rewrite Hd, Hd'.
Qed.

(** The same rules, up to migration. *)
Definition same_access_rule (r r' : AccessRule) : Prop :=
  ar_targetNamespaces r = ar_targetNamespaces r' ∧
  selection <$> EffectiveResources r = selection <$> EffectiveResources r'.

Lemma same_migrated_rules (l l' : list AccessRule) :
  (∀ r, r ∈ l → plain r) → (∀ r, r ∈ l' → plain r) →
  semantic_rule ∘ (fst ∘ migrateAccessRule) <$> l' = semantic_rule ∘ (fst ∘ migrateAccessRule) <$> l →
  Forall2 same_access_rule l l'.
Proof.
  revert l'. induction l as [|x l IH]; intros [|y l'] Hl Hl' Heq; try done.
  rewrite !fmap_cons in Heq. pose proof (f_equal tail Heq) as Ht. apply (f_equal head), (inj Some) in Heq. constructor.
  - apply semantic_rule_inj; [apply Hl; left|apply Hl'; left|done].
  - apply IH; [| |done]; intros; [apply Hl|apply Hl']; by right.
Qed.

Lemma same_rules_group_kinds l l' :
  Forall2 same_access_rule l l' →
  (λ r, ResourceRule_GroupKind <$> EffectiveResources r) <$> l = (λ r, ResourceRule_GroupKind <$> EffectiveResources r) <$> l'.
Proof.
  induction 1 as [|r r' l l' [_ Hs] _ IH]; [done|]. rewrite !fmap_cons, IH. f_equal.
  apply (f_equal (fmap (λ s, s.1.1.1))) in Hs. by rewrite <- !list_fmap_compose in Hs.
Qed.

Lemma same_rules_resolve l l' :
  Forall2 same_access_rule l l' →
  match ResolveRules v SystemNamespace l, ResolveRules v SystemNamespace l' with
  | Ok rules, Ok rules' => Forall2 same_rule rules rules'
  | Err e, Err e' => e = e'
  | _, _ => False
  end.
Proof.
  unfold ResolveRules. induction 1 as [|r r' l l' [Ht Hs] _ IH]; [constructor|]. cbn [mapM_result]. rewrite Ht.
  destruct (wrap_err _ (TargetNamespaces _ _ _)); [|done]. simpl.
  destruct (mapM_result _ l), (mapM_result _ l'); simpl; try done. by constructor.
Qed.

(** What is skipped when an update leaves the rules as they are: the
    controller would remove exactly the ClusterTemplates it would have removed
    before, so no new removal goes unchecked. *)
Lemma unchanged_rules_remove_the_same oldAM newAM :
  om_name (am_meta oldAM) = om_name (am_meta newAM) →
  (∀ r, r ∈ am_accessRules oldAM ∨ r ∈ am_accessRules newAM → plain r) →
  accessRulesUnchanged oldAM newAM = true →
  toRemove_of v SystemNamespace (set_am_status (am_status oldAM) newAM) = toRemove_of v SystemNamespace oldAM.
Proof.
  intros Hname Hplain Hu%bool_decide_eq_true. rewrite !migrated_rules, <- !list_fmap_compose in Hu.
  assert (Forall2 same_access_rule (am_accessRules newAM) (am_accessRules oldAM)) as Hs.
  { apply same_migrated_rules; [| |done]; intros r Hr; apply Hplain; auto. }
  unfold toRemove_of, ClusterTemplatesToRemove, TracksGroupKind. rewrite !ReferencedGroupKinds_flat.
  cbn [set_am_status am_accessRules am_status]. rewrite (same_rules_group_kinds _ _ Hs).
  destruct (negb _); [done|]. pose proof (same_rules_resolve _ _ Hs) as Hr.
  destruct (ResolveRules _ _ (am_accessRules newAM)), (ResolveRules _ _ (am_accessRules oldAM)); try done; [|by subst].
  simpl. destruct (wrap_err _ (c_list v SystemNamespace _)); [|done]. simpl.
  destruct (wrap_err _ (c_list v "" _)); [|done]. simpl. unfold PlanGroupKind.
  rewrite (desiredTargets_selection _ _ _ _ _ Hr). destruct (desiredTargets _ _ _ _); [|done]. simpl.
  rewrite !plan_fold. simpl. unfold HasForeignOwnerReference, IsAccessManagementOwnerReference. simpl. by rewrite Hname.
Qed.
End webhook_properties.

(** ** Concrete inputs *)

(** Only [key=value] strings are understood. *)
#[local] Instance simple_sel : LabelSelectors := simple_selectors.
Definition equality_parser : LabelParser := λ s,
  match Cut s "=" with
  | Some (k, v) => Ok (mkSelector {[ k := v ]} [])
  | None => Err (ErrNew ("cannot parse " +:+ s))
  end.
#[local] Existing Instance equality_parser.

Definition split_group (s : string) : result string :=
  match Split s byte_slash with
  | [g; _] => Ok g
  | [_] => Ok ""
  | _ => Err (ErrNew ("unexpected GroupVersion string: " +:+ s))
  end.
Program Definition split_versions : GroupVersions := {| ParseGroup := split_group |}.
Next Obligation.
  intros g v Hg Hv _. unfold split_group. change ("/" +:+ v) with (String byte_slash v).
  by rewrite Split_app, Split_no_sep.
Qed.
#[local] Existing Instance split_versions.

(** A cluster with its namespaces and AccessManagement objects. *)
Record AccessCluster := mkAccessCluster {
  ac_cluster : Cluster; ac_namespaces : list Namespace; ac_ams : list AccessManagement }.
#[export] Instance ac_list_namespaces : Lister AccessCluster Namespace := λ c ns p,
  Ok (filterb (λ x, in_namespace ns (nsp_meta x) && p x) (ac_namespaces c)).
#[export] Instance ac_list_ams : Lister AccessCluster AccessManagement := λ c ns p,
  Ok (filterb (λ x, in_namespace ns (am_meta x) && p x) (ac_ams c)).
#[export] Instance ac_list_clusterTemplates : Lister AccessCluster ClusterTemplate := λ c, c_list (ac_cluster c).
#[export] Instance ac_list_cds : Lister AccessCluster ClusterDeployment := λ c, c_list (ac_cluster c).
#[export] Instance ac_list_management : Lister AccessCluster Management := λ c, c_list (ac_cluster c).
#[export] Instance ac_metadata : MetadataGetter AccessCluster := λ c, get_metadata (ac_cluster c).

Definition named_resources (kind : string) (names : list string) : ResourceRule :=
  mkResourceRule None "" kind "" (Some names).
Definition to_namespaces (l : list string) (resources : list ResourceRule) : AccessRule :=
  mkAccessRule (mkResourceSelector None "" l) resources [] [] [] [] [] [].
Definition am_of (rules : list AccessRule) : AccessManagement :=
  mkAM (named_meta "" AccessManagementName) rules (mkAMStatus "" [] [] 0).

(** A rule that mixes the two ways of selecting: the controller distributes the
    resources alone, and after migration the deprecated selection as well. *)
Definition mixed_rule : AccessRule :=
  mkAccessRule (mkResourceSelector None "" ["team"]) [named_resources CredentialKind ["a"]] [] [] ["b"] [] [] [].
Example mixed_rule_widened :
  (rr_names <$> EffectiveResources mixed_rule) = [Some ["a"]] ∧
  (rr_names <$> EffectiveResources (migrateAccessRule mixed_rule).1) = [Some ["a"]; Some ["b"]].
Proof. split; reflexivity. Qed.

(** An old rule distributing two credentials to the team. *)
Definition old_rule : AccessRule :=
  mkAccessRule (mkResourceSelector None "" ["kcm-system"; "team"]) [] [] [] ["a"; "b"] [] [] [].
Definition team_cluster : AccessCluster := mkAccessCluster empty_cluster [mkNamespace (named_meta "" "team")] [].
Definition credential_gk : GroupKind := mkGK Group CredentialKind.

Lemma migration_keeps_targets_witness :
  let targets am := rules ← ResolveRules team_cluster "kcm-system" (am_accessRules am);
                    desiredTargets labels_of rules credential_gk ∅ in
  targets (am_of [old_rule]) = Ok [mkTarget "team" "a"; mkTarget "team" "b"] ∧
  targets (MigrateAccessRules (am_of [old_rule])).1 = targets (am_of [old_rule]).
Proof.
  split; [reflexivity|].
  apply (migration_keeps_targets team_cluster "kcm-system" labels_of (am_of [old_rule]) credential_gk ∅).
  intros r ->%list_elem_of_singleton. reflexivity.
Defined.

Definition am_owner : OwnerReference := mkOwner "k0rdent.mirantis.com/v1beta1" AccessManagementKind "kcm" "u1" false false.
Definition chain_owner : OwnerReference :=
  mkOwner "k0rdent.mirantis.com/v1beta1" ClusterTemplateChainKind "chain" "u2" false false.
Definition owned (ns n : string) (owners : list OwnerReference) : ObjectMeta :=
  mkMeta n ns "" 0 (Some {[ KCMManagedLabelKey := KCMManagedLabelValue ]}) ∅ owners [] None.
Definition team_rules : list Rule := [mkRule ["team"] [named_resources CredentialKind ["a"]]].
Definition team_copies : list ObjectMeta :=
  [owned "team" "a" [am_owner]; owned "team" "b" [am_owner]; owned "team" "c" [am_owner; chain_owner]].

Lemma PlanGroupKind_exact_witness :
  let plan := mkPlan [mkTarget "team" "a"] [owned "team" "b" [am_owner]] [owned "team" "c" [am_owner; chain_owner]] in
  PlanGroupKind labels_of id team_rules credential_gk ∅ team_copies (am_of []) = Ok plan ∧
  ¬ distributed labels_of team_rules credential_gk ∅ (mkTarget "team" "b").
Proof.
  assert (PlanGroupKind labels_of id team_rules credential_gk ∅ team_copies (am_of []) =
    Ok (mkPlan [mkTarget "team" "a"] [owned "team" "b" [am_owner]] [owned "team" "c" [am_owner; chain_owner]])) as Hp
    by (vm_compute; reflexivity).
  split; [exact Hp|]. destruct (PlanGroupKind_exact labels_of id _ _ _ _ _ _ Hp) as (_ & _ & Hrem & _).
  - intros rule ns ->%list_elem_of_singleton ->%list_elem_of_singleton. apply (bool_decide_unpack _). vm_compute. exact I.
  - intros m Hm. assert (om_namespace (id m) = "team") as ->.
    { unfold team_copies in Hm. repeat (apply elem_of_cons in Hm as [->|Hm]; [reflexivity|]). by apply elem_of_nil in Hm. }
    apply (bool_decide_unpack _). vm_compute. exact I.
  - apply (Hrem (owned "team" "b" [am_owner])). left.
Defined.

Lemma unchanged_rules_remove_the_same_witness :
  let am := am_of [old_rule] in
  let migrated := (MigrateAccessRules am).1 in
  am_accessRules migrated ≠ am_accessRules am ∧
  toRemove_of team_cluster "kcm-system" (set_am_status (am_status am) migrated) = toRemove_of team_cluster "kcm-system" am.
Proof.
  split; [by vm_compute|].
  apply (unchanged_rules_remove_the_same team_cluster "kcm-system" (am_of [old_rule]) (MigrateAccessRules (am_of [old_rule])).1).
  - reflexivity.
  - intros r [->%list_elem_of_singleton| ->%list_elem_of_singleton]; (split; [reflexivity|]).
    + by intros ? ?%elem_of_nil.
    + by intros ? ->%list_elem_of_singleton.
  - apply bool_decide_eq_true_2. reflexivity.
Defined.

(** A template distributed to the team is not distributed any more. *)
Definition template_of (m : ObjectMeta) : ClusterTemplate :=
  mkClusterTemplate m (mkClusterTemplateSpec (mkHelmSpec None None None) ∅ "" [])
    (mkClusterTemplateStatus ∅ "" [] (mkTemplateStatus None None "" "" "" (mkTemplateValidation "" true) 0)).
Definition template_copy : ClusterTemplate := template_of (owned "team" "tpl" [am_owner]).
Definition template_cluster : AccessCluster :=
  mkAccessCluster
    (mkCluster empty_store ∅ ∅ ∅ ∅ ∅
       (<[mkKey "team" "tpl" := template_copy]> {[mkKey "kcm-system" "tpl" := template_of (named_meta "kcm-system" "tpl")]}) ∅ ∅ ∅ ∅)
    [mkNamespace (named_meta "" "team")] [].
Definition template_rule : AccessRule := to_namespaces ["team"] [named_resources ClusterTemplateKind ["tpl"]].
Definition dropped_rules : AccessManagement := mkAM (named_meta "" AccessManagementName) [] (mkAMStatus "" [] [mkKindStatus Group ClusterTemplateKind ""] 0).
Definition had_rules : AccessManagement := mkAM (named_meta "" AccessManagementName) [template_rule] (am_status dropped_rules).

Lemma template_slash_free am : (∀ rule, rule ∈ am_accessRules am → rule = template_rule) → slash_free template_cluster "kcm-system" am.
Proof.
  intros Hr. split.
  - intros rules rule ns. unfold ResolveRules. revert rules. induction (am_accessRules am) as [|r l IH]; intros rules.
    { intros [= <-] ?%elem_of_nil. done. }
    rewrite (Hr r) in * by left. cbn [mapM_result]. intros (x & Hx & Hrest)%bind_Ok. apply bind_Ok in Hrest as (xs & Hxs & [= <-]).
    intros [->|Hin]%elem_of_cons; [|by eapply IH; [intros; apply Hr; right|..]]. vm_compute in Hx. injection Hx as <-.
    intros ->%list_elem_of_singleton. apply (bool_decide_unpack _). vm_compute. exact I.
  - intros copies t Hc Ht. vm_compute in Hc. injection Hc as <-. apply list_elem_of_singleton in Ht as ->. apply (bool_decide_unpack _). vm_compute. exact I.
Qed.
Lemma access_update_admitted_witness :
  admitted (AccessManagement_ValidateUpdate template_cluster None "kcm-system" had_rules dropped_rules) ∧
  ∀ t, to_go template_cluster "kcm-system" dropped_rules t → ¬ already_pending template_cluster "kcm-system" had_rules t →
    admitted (ClusterTemplate_ValidateDelete template_cluster "kcm-system" t).
Proof.
  assert (admitted (AccessManagement_ValidateUpdate template_cluster None "kcm-system" had_rules dropped_rules)) as Hadm by (vm_compute; reflexivity).
  split; [exact Hadm|]. destruct (access_update_admitted template_cluster None "kcm-system" had_rules dropped_rules) as [Hto _].
  - apply template_slash_free. intros rule Hin. exact (proj1 (list_elem_of_singleton _ _) Hin).
  - apply template_slash_free. intros rule Hin. exfalso. exact (proj1 (elem_of_nil _) Hin).
  - destruct (Hto Hadm) as [_ [Hleft|[_ Hall]]]; [inversion Hleft|exact Hall].
Defined.
