(* ===== verification/AccessController.v ===== *)
(** * Access management: the controller
    ([src/internal/controller/accessmanagement_controller.go]; the namespace
    helper of [src/internal/util/kube/secrets.go]).

    One reconciliation distributes the objects of every kind the rules refer
    to, lets go of the copies no rule wants, and records per kind how it went.
    Objects are generic: any kind the API server knows can be distributed. *)

From S2P Require Import Prelude GoStrings Api ApiManagement Kube ServiceBasics Cluster AdmissionChecks Webhooks ObjectWebhooks AccessManagement.

#[local] Arguments String.append !_ _ / : simpl nomatch.

(** ** Generic objects and their client *)

(** [unstructured.Unstructured]: the metadata, and every other field. *)
Record Unstructured := mkUnstructured {
  u_meta : ObjectMeta; u_resourceVersion : string; u_creationTimestamp : option Z;
  u_managedFields : list string; u_content : gmap string value }.

(** The nested-field helpers of [unstructured]; a field found is what was set. *)
Class NestedFields := {
  NestedString : gmap string value → list string → result (option string);
  NestedMap_found : gmap string value → list string → result bool;
  SetNestedField : gmap string value → string → list string → result (gmap string value);
  Nested_set obj v fields obj' : SetNestedField obj v fields = Ok obj' → NestedString obj' fields = Ok (Some v)
}.

(** [runtime.DefaultUnstructuredConverter] for a ClusterTemplate and its spec. *)
Class Converter := {
  FromUnstructured : Unstructured → result ClusterTemplate;
  ToUnstructured : ClusterTemplateSpec → result (gmap string value)
}.

(** [controllerutil.SetOwnerReference], given the reference it derives from the
    owner, and [SetControllerReference] on a list of references: the new one
    replaces what names the same owner. *)
Class OwnerHelpers := {
  SetOwnerReference : OwnerReference → list OwnerReference → result (list OwnerReference);
  SetControllerReference : AccessManagement → list OwnerReference → result (list OwnerReference);
  SetOwnerReference_sets o refs refs' : SetOwnerReference o refs = Ok refs' → o ∈ refs'
}.

(** [retry.RetryOnConflict]: a call that ends in a conflict is made again from
    where it left, a bounded number of times. *)
Inductive retried {S} (f : S → S * option gerror) : S → S * option gerror → Prop :=
  | retried_last s : retried f s (f s)
  | retried_again s s' e r : f s = (s', Some e) → IsConflict e = true → retried f s' r → retried f s r.
Class Retrier := {
  RetryOnConflict {S} : (S → S * option gerror) → S → S * option gerror;
  retry_retried {S} (f : S → S * option gerror) s : retried f s (RetryOnConflict f s)
}.

(** The dynamic and the metadata client: [d_list] of a namespace,
    [d_list_managed] of the objects with the managed label anywhere. *)
Class DynamicClient (C : Type) := {
  d_list : C → GVR → string → result (list Unstructured);
  d_list_managed : C → GVR → result (list ObjectMeta);
  d_get : C → GVR → ObjectKey → result Unstructured;
  d_create : C → GVR → string → Unstructured → C * option gerror;
  d_delete : C → GVR → ObjectKey → C * option gerror;
  d_patch : C → GVR → ObjectKey → string * list OwnerReference → C * option gerror
}.

Definition accessManagementDynamicClusterRoleSuffix := "-resources".
Definition aggregateToManagerLabelKey := "k0rdent.mirantis.com/aggregate-to-manager".
Definition aggregateToManagerLabelValue := "true".
Definition cluster_scoped_skipped := "cluster-scoped kind skipped".
Definition errClusterScopedKindSkipped : gerror := ErrMark cluster_scoped_skipped (ErrNew cluster_scoped_skipped).

(** ** Metadata *)

Definition set_owners (refs : list OwnerReference) (m : ObjectMeta) : ObjectMeta :=
  mkMeta (om_name m) (om_namespace m) (om_uid m) (om_generation m) (om_labels m) (om_annotations m) refs
    (om_finalizers m) (om_deletionTimestamp m).

Definition partialMetadata (m : ObjectMeta) : ObjectMeta :=
  mkMeta (om_name m) (om_namespace m) "" 0 (om_labels m) ∅ (om_ownerReferences m) [] None.

Definition hasOwnerReference (refs : list OwnerReference) (ownerRef : OwnerReference) : bool :=
  existsb (λ ref, bool_decide (own_apiVersion ref = own_apiVersion ownerRef) &&
                  bool_decide (own_kind ref = own_kind ownerRef) &&
                  bool_decide (own_name ref = own_name ownerRef) &&
                  bool_decide (own_uid ref = own_uid ownerRef)) refs.

Definition settled (existing : ObjectMeta) (ownerRef : OwnerReference) : bool :=
  if negb (has_managed_label existing) then true else hasOwnerReference (om_ownerReferences existing) ownerRef.

(** The copy before the rewrites: nothing of the metadata but the name stays. *)
Definition scrubbed_meta (name targetNamespace : string) (ownerRef : OwnerReference) (deletion : option Z) : ObjectMeta :=
  mkMeta name targetNamespace "" 0 (Some {[ KCMManagedLabelKey := KCMManagedLabelValue ]}) ∅ [ownerRef] [] deletion.
Definition scrubbed (sourceObj : Unstructured) (targetNamespace : string) (ownerRef : OwnerReference) : Unstructured :=
  mkUnstructured (scrubbed_meta (om_name (u_meta sourceObj)) targetNamespace ownerRef (om_deletionTimestamp (u_meta sourceObj)))
    "" None [] (delete "status" (u_content sourceObj)).
Definition set_content (m : gmap string value) (o : Unstructured) : Unstructured :=
  mkUnstructured (u_meta o) (u_resourceVersion o) (u_creationTimestamp o) (u_managedFields o) m.

(** ** Rewrites for the built-in kinds *)

Section rewrites.
Context `{!NestedFields} `{!Converter}.

Definition fields_string (fields : list string) : string := "[" +:+ Join fields " " +:+ "]".

Definition rewriteNamespaceIfSet (obj : gmap string value) (newNamespace : string) (fields : list string)
  : result (gmap string value) :=
  current ← wrap_err ("failed to read " +:+ fields_string fields +:+ ": ") (NestedString obj fields);
  if bool_decide (default "" current = "") then Ok obj
  else wrap_err ("failed to set " +:+ fields_string fields +:+ ": ") (SetNestedField obj newNamespace fields).

Definition rewriteNamespaceIfEmpty (obj : gmap string value) (sourceNamespace : string) (fields : list string)
  : result (gmap string value) :=
  let parent := take (length fields - 1) fields in
  parentFound ← wrap_err ("failed to read " +:+ fields_string parent +:+ ": ") (NestedMap_found obj parent);
  if negb parentFound then Ok obj
  else
    current ← wrap_err ("failed to read " +:+ fields_string fields +:+ ": ") (NestedString obj fields);
    if negb (bool_decide (default "" current = "")) then Ok obj
    else wrap_err ("failed to set " +:+ fields_string fields +:+ ": ") (SetNestedField obj sourceNamespace fields).

Definition chart_ref_spec (spec : ClusterTemplateSpec) (chartRef : option CrossNamespaceSourceReference)
  : ClusterTemplateSpec :=
  mkClusterTemplateSpec (mkHelmSpec None chartRef None) (cts_providerContracts spec) (cts_kubernetesVersion spec)
    (cts_providers spec).

Definition rewriteClusterTemplateChartRef (obj : gmap string value) (sourceObj : Unstructured)
  : result (gmap string value) :=
  let name := ClusterTemplateKind +:+ " " +:+ key_string (meta_key (u_meta sourceObj)) in
  clusterTemplate ← wrap_err ("failed to convert " +:+ name +:+ ": ") (FromUnstructured sourceObj);
  let status := ctst_common (ct_status clusterTemplate) in
  if negb (tv_valid (tsc_validation status)) || bool_decide (tsc_chartRef status = None)
  then Err (ErrNew ("source " +:+ ClusterTemplateKind +:+ " " +:+ key_string (meta_key (ct_meta clusterTemplate)) +:+
              " does not have chart reference yet"))
  else
    specObj ← wrap_err ("failed to convert the spec of " +:+ ClusterTemplateKind +:+ " " +:+
                key_string (meta_key (ct_meta clusterTemplate)) +:+ ": ")
                (ToUnstructured (chart_ref_spec (ct_spec clusterTemplate) (tsc_chartRef status)));
    Ok (<["spec" := VMap specObj]> obj).

Definition applyBuiltinRewrite (gk : GroupKind) (targetNamespace : string) (obj : gmap string value)
    (sourceObj : Unstructured) : result (gmap string value) :=
  let sourceNamespace := om_namespace (u_meta sourceObj) in
  if bool_decide (gk = mkGK Group ClusterTemplateKind) then rewriteClusterTemplateChartRef obj sourceObj
  else if bool_decide (gk = mkGK Group CredentialKind)
  then rewriteNamespaceIfSet obj targetNamespace ["spec"; "identityRef"; "namespace"]
  else if bool_decide (gk = mkGK Group ClusterAuthenticationKind)
  then rewriteNamespaceIfEmpty obj sourceNamespace ["spec"; "caSecret"; "namespace"]
  else if bool_decide (gk = mkGK Group DataSourceKind)
  then rewriteNamespaceIfEmpty obj sourceNamespace ["spec"; "certificateAuthority"; "namespace"]
  else Ok obj.
End rewrites.

(** ** Copies *)

(** [groupKindResources]; the map is threaded through distribution. *)
Record groupKindResources := mkGKResources {
  gkr_ownerRef : OwnerReference;
  gkr_system : gmap string Unstructured;
  gkr_managedByNamespacedName : gmap string ObjectMeta;
  gkr_managed : list ObjectMeta }.

Section controller.
Context `{!LabelSelectors} `{!LabelParser} `{!MapRange string} `{!GroupVersions} `{!NestedFields} `{!Converter}.
Context `{!OwnerHelpers} `{!Retrier} {C : Type} `{!DynamicClient C}.
Context `{!Getter C Namespace} `{!Writer C Namespace} `{!Lister C Namespace}.
Variable RESTMapper : GroupKind → result RESTMapping.
Variable SystemNamespace : string.

(** [kubeutil.EnsureNamespace]. *)
Definition EnsureNamespace (c : C) (namespace : string) : C * option gerror :=
  match c_get (T:=Namespace) c (mkKey "" namespace) with
  | Ok _ => (c, None)
  | Err err =>
      if negb (IsNotFound err) then (c, Some (ErrWrap ("failed to get Namespace " +:+ namespace +:+ ": ") err))
      else
        let '(c, err) := c_create c (mkNamespace (named_meta "" namespace)) in
        (c, ErrWrap ("failed to create Namespace " +:+ namespace +:+ ": ") <$> err)
  end.

Definition resource_name (gvr : GVR) (k : ObjectKey) : string := gvr_resource gvr +:+ " " +:+ key_string k.
Definition ownerReferencesPatch (o : Unstructured) (refs : list OwnerReference) : string * list OwnerReference :=
  (u_resourceVersion o, refs).

(** The function that is retried; what it adopts survives an attempt. *)
Definition adopt_attempt (gvr : GVR) (k : ObjectKey) (ownerRef : OwnerReference) (s : C * option ObjectMeta)
  : C * option ObjectMeta * option gerror :=
  let '(c, adopted) := s in
  match d_get c gvr k with
  | Err err => if IsNotFound err then (c, None, None)
               else (c, adopted, Some (ErrWrap ("failed to get " +:+ resource_name gvr k +:+ ": ") err))
  | Ok existing =>
      let adopted := Some (partialMetadata (u_meta existing)) in
      if negb (has_managed_label (u_meta existing)) then (c, adopted, None)
      else if hasOwnerReference (om_ownerReferences (u_meta existing)) ownerRef then (c, adopted, None)
      else
        match SetOwnerReference ownerRef (om_ownerReferences (u_meta existing)) with
        | Err err => (c, adopted, Some (ErrWrap ("failed to set owner reference on " +:+ resource_name gvr k +:+ ": ") err))
        | Ok refs =>
            let '(c, err) := d_patch c gvr k (ownerReferencesPatch existing refs) in
            match err with
            | Some err => (c, adopted, Some (ErrWrap ("failed to patch the owner references of " +:+ resource_name gvr k +:+ ": ") err))
            | None => (c, Some (partialMetadata (set_owners refs (u_meta existing))), None)
            end
        end
  end.

Definition adoptManagedObject (c : C) (gvr : GVR) (k : ObjectKey) (ownerRef : OwnerReference)
  : C * result (option ObjectMeta) :=
  let '(c, adopted, err) := RetryOnConflict (adopt_attempt gvr k ownerRef) (c, None) in
  (c, match err with Some err => Err err | None => Ok adopted end).

(** What is created, the copy with its rewrites. *)
Definition managed_copy (gk : GroupKind) (sourceObj : Unstructured) (targetNamespace : string) (ownerRef : OwnerReference)
  : result Unstructured :=
  let target := scrubbed sourceObj targetNamespace ownerRef in
  content ← wrap_err ("failed to rewrite fields for " +:+ gk_string gk +:+ ": ")
    (applyBuiltinRewrite gk targetNamespace (u_content target) sourceObj);
  Ok (set_content content target).

(** The last part of [createManagedObject]: the create itself. *)
Definition create_copy (c : C) (gvr : GVR) (target : Unstructured) (k : ObjectKey) (namespacedName : string)
    (ownerRef : OwnerReference) (managed : gmap string ObjectMeta) : C * gmap string ObjectMeta * result bool :=
  let '(c, err) := d_create c gvr (key_ns k) target in
  match err with
  | None => (c, <[namespacedName := partialMetadata (u_meta target)]> managed, Ok true)
  | Some err =>
      if IsAlreadyExists err then
        let '(c, adopted) := adoptManagedObject c gvr k ownerRef in
        match adopted with
        | Err err => (c, managed, Err err)
        | Ok (Some m) => (c, <[namespacedName := m]> managed, Ok false)
        | Ok None => (c, managed, Ok false)
        end
      else (c, managed, Err err)
  end.

Definition createManagedObject (c : C) (gk : GroupKind) (sourceObj : Unstructured) (targetNamespace : string)
    (ownerRef : OwnerReference) (managed : gmap string ObjectMeta) : C * gmap string ObjectMeta * result bool :=
  let k := mkKey targetNamespace (om_name (u_meta sourceObj)) in
  if bool_decide (targetNamespace = om_namespace (u_meta sourceObj)) then (c, managed, Ok false)
  else
    let namespacedName := NamespacedName targetNamespace (om_name (u_meta sourceObj)) in
    if match managed !! namespacedName with Some existing => settled existing ownerRef | None => false end
    then (c, managed, Ok false)
    else
      let '(c, err) := EnsureNamespace c targetNamespace in
      match err with
      | Some err => (c, managed, Err (ErrWrap ("failed to ensure namespace " +:+ targetNamespace +:+ ": ") err))
      | None =>
          match managed_copy gk sourceObj targetNamespace ownerRef with
          | Err err => (c, managed, Err err)
          | Ok target =>
              match wrap_err ("failed to resolve " +:+ gk_string gk +:+ ": ") (RESTMapper gk) with
              | Err err => (c, managed, Err err)
              | Ok mapping => create_copy c (map_resource mapping) target k namespacedName ownerRef managed
              end
          end
      end.

Definition distribute_step (gk : GroupKind) (res : groupKindResources) (acc : C * gmap string ObjectMeta * option gerror)
    (target : Target) : C * gmap string ObjectMeta * option gerror :=
  let '(c, managed, errs) := acc in
  match gkr_system res !! tgt_name target with
  | None => (c, managed, join_err errs (ErrNew (gk_kind gk +:+ " " +:+ SystemNamespace +:+ "/" +:+
                           tgt_name target +:+ " is not found")))
  | Some sourceObj =>
      let '(c, managed, created) :=
        createManagedObject c gk sourceObj (tgt_namespace target) (gkr_ownerRef res) managed in
      match created with
      | Err err => (c, managed, join_err errs err)
      | Ok _ => (c, managed, errs)
      end
  end.
Definition distribute (c : C) (gk : GroupKind) (desired : list Target) (res : groupKindResources) : C * option gerror :=
  let '(c, _, errs) := foldl (distribute_step gk res) (c, gkr_managedByNamespacedName res, None) desired in (c, errs).

(** ** Cleaning up *)

Definition deleteManagedObject (c : C) (gk : GroupKind) (obj : ObjectMeta) : C * result bool :=
  match wrap_err ("failed to resolve " +:+ gk_string gk +:+ ": ") (RESTMapper gk) with
  | Err err => (c, Err err)
  | Ok mapping =>
      let '(c, err) := d_delete c (map_resource mapping) (meta_key obj) in
      (c, match err with
          | Some err => if IsNotFound err then Ok false else Err err
          | None => Ok true
          end)
  end.

Definition release_attempt (gvr : GVR) (k : ObjectKey) (accessMgmt : AccessManagement) (s : C * bool)
  : C * bool * option gerror :=
  let '(c, released) := s in
  match d_get c gvr k with
  | Err err => if IsNotFound err then (c, false, None)
               else (c, released, Some (ErrWrap ("failed to get " +:+ resource_name gvr k +:+ ": ") err))
  | Ok existing =>
      let refs := om_ownerReferences (u_meta existing) in
      if negb (existsb (λ ref, IsAccessManagementOwnerReference ref accessMgmt) refs) then (c, false, None)
      else
        let '(c, err) := d_patch c gvr k (ownerReferencesPatch existing
                           (filterb (λ ref, negb (IsAccessManagementOwnerReference ref accessMgmt)) refs)) in
        match err with
        | Some err => (c, released, Some (ErrWrap ("failed to patch the owner references of " +:+ resource_name gvr k +:+ ": ") err))
        | None => (c, true, None)
        end
  end.

Definition releaseManagedObject (c : C) (gk : GroupKind) (obj : ObjectMeta) (accessMgmt : AccessManagement)
  : C * result bool :=
  if negb (existsb (λ ref, IsAccessManagementOwnerReference ref accessMgmt) (om_ownerReferences obj)) then (c, Ok false)
  else
    match wrap_err ("failed to resolve " +:+ gk_string gk +:+ ": ") (RESTMapper gk) with
    | Err err => (c, Err err)
    | Ok mapping =>
        let '(c, released, err) :=
          RetryOnConflict (release_attempt (map_resource mapping) (meta_key obj) accessMgmt) (c, false) in
        (c, match err with Some err => Err err | None => Ok released end)
    end.

(** Runs [op] on every object, joining the errors. *)
Definition for_each (op : C → ObjectMeta → C * result bool) (acc : C * option gerror) (l : list ObjectMeta)
  : C * option gerror :=
  foldl (λ '(c, errs) obj,
    let '(c, done) := op c obj in
    (c, match done with Err err => join_err errs err | Ok _ => errs end)) acc l.

Definition cleanupManagedResources (c : C) (accessMgmt : AccessManagement) (gk : GroupKind)
    (remove release : list ObjectMeta) : C * option gerror :=
  let acc := for_each (λ c obj, releaseManagedObject c gk obj accessMgmt) (c, None) release in
  for_each (λ c obj, deleteManagedObject c gk obj) acc remove.

(** ** One kind *)

Definition collectGroupKindResources (c : C) (gk : GroupKind) (ownerRef : OwnerReference) : result groupKindResources :=
  mapping ← wrap_err ("failed to resolve " +:+ gk_string gk +:+ " (ensure the CRD is installed): ") (RESTMapper gk);
  if negb (map_namespaced mapping) then Err errClusterScopedKindSkipped
  else
    let gvr := map_resource mapping in
    systemList ← wrap_err ("failed to list " +:+ gk_string gk +:+ " in namespace " +:+ SystemNamespace +:+ ": ")
      (d_list c gvr SystemNamespace);
    managedList ← wrap_err ("failed to list managed " +:+ gk_string gk +:+ ": ") (d_list_managed c gvr);
    let managed := filterb (λ m, negb (bool_decide (om_namespace m = SystemNamespace))) managedList in
    Ok (mkGKResources ownerRef (index_by (λ o, om_name (u_meta o)) id systemList)
          (index_by (λ m, NamespacedName (om_namespace m) (om_name m)) id managed) managed).

(** [recordFirstError]. *)
Definition recordFirstError (status : string) (err : option gerror) : string :=
  match err with
  | Some err => if bool_decide (status = "") then Error err else status
  | None => status
  end.
Definition add_err (errs err : option gerror) : option gerror :=
  match err with Some err => join_err errs err | None => errs end.

Definition u_labels (o : Unstructured) : gmap string string := labels_of (u_meta o).

(** The body of the loop over the kinds: the error its status reports, and the
    errors joined. *)
Definition reconcile_kind (accessMgmt : AccessManagement) (ownerRef : OwnerReference) (rules : list Rule)
    (c : C) (errs : option gerror) (gk : GroupKind) : C * string * option gerror :=
  match collectGroupKindResources c gk ownerRef with
  | Err err =>
      if errors_Is cluster_scoped_skipped err
      then (c, "skipped: " +:+ gk_string gk +:+ " is cluster-scoped and cannot be distributed by AccessManagement", errs)
      else (c, Error err, join_err errs (ErrWrap ("failed to collect resources for " +:+ gk_string gk +:+ ": ") err))
  | Ok res =>
      match PlanGroupKind u_labels id rules gk (gkr_system res) (gkr_managed res) accessMgmt with
      | Err err => (c, Error err, join_err errs err)
      | Ok plan =>
          let '(c, err) := distribute c gk (Desired plan) res in
          let errs := add_err errs err in
          let status := recordFirstError "" err in
          let '(c, err) := cleanupManagedResources c accessMgmt gk (Remove plan) (Release plan) in
          (c, recordFirstError status err, add_err errs err)
      end
  end.

(** ** Permissions *)

Definition resource_verbs : list string := ["get"; "list"; "watch"; "create"; "update"; "delete"].

Definition rbac_step (groupToResources : gmap string (gset string)) (gk : GroupKind) : gmap string (gset string) :=
  match RESTMapper gk with
  | Err _ => groupToResources
  | Ok mapping =>
      if negb (map_namespaced mapping) then groupToResources
      else
        let gvr := map_resource mapping in
        <[gvr_group gvr := {[ gvr_resource gvr ]} ∪ default ∅ (groupToResources !! gvr_group gvr)]> groupToResources
  end.

Definition buildResourceRBACRules (gks : list GroupKind) : list PolicyRule :=
  let groupToResources := foldl rbac_step ∅ gks in
  let groups := isort string_leb (range_seq 0 (dom groupToResources)) in
  (λ group, mkPolicyRule resource_verbs [group] (isort string_leb (range_seq 1 (default ∅ (groupToResources !! group)))) [] [])
    <$> groups.

Context `{!Getter C ClusterRole} `{!Writer C ClusterRole} `{!Deleter C ClusterRole}.

Definition role_labelled (m : ObjectMeta) : bool :=
  bool_decide (labels_of m !! aggregateToManagerLabelKey = Some aggregateToManagerLabelValue).
Definition set_labels (l : gmap string string) (m : ObjectMeta) : ObjectMeta :=
  mkMeta (om_name m) (om_namespace m) (om_uid m) (om_generation m) (Some l) (om_annotations m) (om_ownerReferences m)
    (om_finalizers m) (om_deletionTimestamp m).
Definition new_role (name : string) (owners : list OwnerReference) (rules : list PolicyRule) : ClusterRole :=
  mkClusterRole (set_labels {[ aggregateToManagerLabelKey := aggregateToManagerLabelValue ]}
    (set_owners owners (named_meta "" name))) rules.

Definition ensureDynamicRBAC (c : C) (accessMgmt : AccessManagement) (gks : list GroupKind) : C * option gerror :=
  let rules := buildResourceRBACRules gks in
  let name := om_name (am_meta accessMgmt) +:+ accessManagementDynamicClusterRoleSuffix in
  match c_get (T:=ClusterRole) c (mkKey "" name) with
  | Err err =>
      if IsNotFound err then
        if bool_decide (length rules = 0) then (c, None)
        else
          match SetControllerReference accessMgmt [] with
          | Err err => (c, Some (ErrWrap ("failed to set owner reference on ClusterRole " +:+ name +:+ ": ") err))
          | Ok owners => c_create c (new_role name owners rules)
          end
      else (c, Some (ErrWrap ("failed to get ClusterRole " +:+ name +:+ ": ") err))
  | Ok clusterRole =>
      if bool_decide (length rules = 0) then
        let '(c, err) := c_delete c clusterRole in (c, IgnoreNotFound err)
      else if role_labelled (cr_meta clusterRole) && bool_decide (cr_rules clusterRole = rules) then (c, None)
      else c_update c (mkClusterRole (set_labels (<[aggregateToManagerLabelKey := aggregateToManagerLabelValue]>
                         (labels_of (cr_meta clusterRole))) (cr_meta clusterRole)) rules)
  end.

(** ** The reconciliation *)

Context `{!Getter C Management} `{!Getter C AccessManagement} `{!Refresher C AccessManagement}.
(** [apiutil.GVKForObject] of an AccessManagement: its apiVersion and kind. *)
Variable GVKForObject : result (string * string).

Definition accessManagementOwnerReference (accessMgmt : AccessManagement) : result OwnerReference :=
  gvk ← wrap_err ("failed to resolve the GroupVersionKind of AccessManagement " +:+ om_name (am_meta accessMgmt) +:+ ": ")
    GVKForObject;
  Ok (mkOwner gvk.1 gvk.2 (om_name (am_meta accessMgmt)) (om_uid (am_meta accessMgmt)) false false).

Definition staleManagedGroupKinds (accessMgmt : AccessManagement) (currentGKs : list GroupKind) : list GroupKind :=
  foldl (λ stale status,
    let gk := status_gk status in
    if bool_decide (gk ∈ currentGKs) then stale else add_gk stale gk) [] (ams_resources (am_status accessMgmt)).

Definition gk_leb (a b : GroupKind) : bool :=
  if bool_decide (gk_group a = gk_group b) then string_leb (gk_kind a) (gk_kind b)
  else string_leb (gk_group a) (gk_group b).

Definition sortedResourceStatuses (statuses : gmap GroupKind string) : list ResourceKindStatus :=
  (λ gk, mkKindStatus (gk_group gk) (gk_kind gk) (default "" (statuses !! gk)))
    <$> isort gk_leb (elements (dom statuses)).

Definition set_am_resources (l : list ResourceKindStatus) (am : AccessManagement) : AccessManagement :=
  set_am_status (mkAMStatus (ams_error (am_status am)) (ams_current (am_status am)) l
    (ams_observedGeneration (am_status am))) am.
Definition set_am_current (l : list AccessRule) (am : AccessManagement) : AccessManagement :=
  set_am_status (mkAMStatus (ams_error (am_status am)) l (ams_resources (am_status am))
    (ams_observedGeneration (am_status am))) am.
Definition set_am_outcome (err : string) (am : AccessManagement) : AccessManagement :=
  set_am_status (mkAMStatus err (ams_current (am_status am)) (ams_resources (am_status am))
    (om_generation (am_meta am))) am.

Definition reconcile_kinds (accessMgmt : AccessManagement) (ownerRef : OwnerReference) (rules : list Rule)
    (acc : C * gmap GroupKind string * option gerror) (gks : list GroupKind)
  : C * gmap GroupKind string * option gerror :=
  foldl (λ '(c, statuses, errs) gk,
    let '(c, status, errs) := reconcile_kind accessMgmt ownerRef rules c errs gk in
    (c, <[gk := status]> statuses, errs)) acc gks.

Definition reconcileObj (c : C) (accessMgmt : AccessManagement) : C * AccessManagement * option gerror :=
  let currentGKs := ReferencedGroupKinds accessMgmt in
  let staleGKs := staleManagedGroupKinds accessMgmt currentGKs in
  let '(c, err) := ensureDynamicRBAC c accessMgmt (currentGKs ++ staleGKs) in
  match err with
  | Some err => (c, accessMgmt, Some (ErrWrap "failed to ensure RBAC for referenced resources: " err))
  | None =>
      match accessManagementOwnerReference accessMgmt with
      | Err err => (c, accessMgmt, Some err)
      | Ok ownerRef =>
          match ResolveRules c SystemNamespace (am_accessRules accessMgmt) with
          | Err err => (c, accessMgmt, Some err)
          | Ok rules =>
              let '(c, statuses, errs) := reconcile_kinds accessMgmt ownerRef rules (c, ∅, None) (currentGKs ++ staleGKs) in
              let finalStatuses := filter (λ p, p.1 ∈ currentGKs ∨ p.2 ≠ "") statuses in
              let accessMgmt := set_am_resources (sortedResourceStatuses finalStatuses) accessMgmt in
              match errs with
              | Some errs => (c, accessMgmt, Some errs)
              | None => (c, set_am_current (am_accessRules accessMgmt) accessMgmt, None)
              end
          end
      end
  end.

(** The component label of [labelsutil.AddKCMComponentLabel], and whether it
    was set now. *)
Definition add_component_label (c : C) (am : AccessManagement) : C * AccessManagement * (bool * option gerror) :=
  if bool_decide (labels_of (am_meta am) !! GenericComponentNameLabel = Some GenericComponentLabelValueKCM)
  then (c, am, (false, None))
  else
    let '(c, am', err) := c_patch_label c am GenericComponentNameLabel GenericComponentLabelValueKCM in
    match err with
    | Some e => (c, am', (false, Some (ErrWrap ("failed to update " +:+ AccessManagementKind +:+ " " +:+
                            key_string (meta_key (am_meta am)) +:+ " labels: ") e)))
    | None => (c, am', (true, None))
    end.

Definition Reconcile (c : C) (req : ObjectKey) : C * option gerror :=
  match c_get (T:=Management) c (mkKey "" ManagementName) with
  | Err err => (c, Some (ErrWrap "failed to get Management: " err))
  | Ok management =>
      if negb (bool_decide (om_deletionTimestamp (mgmt_meta management) = None)) then (c, None)
      else
        match c_get (T:=AccessManagement) c req with
        | Err err => (c, IgnoreNotFound (Some err))
        | Ok accessMgmt =>
            let '(c, accessMgmt, (updated, err)) := add_component_label c accessMgmt in
            if updated || bool_decide (is_Some err) then (c, err)
            else
              let '(c, accessMgmt, err) := reconcileObj c accessMgmt in
              let errMsg := match err with Some err => Error err | None => "" end in
              let '(c, _, statusErr) := c_status_update c (set_am_outcome errMsg accessMgmt) in
              match statusErr with
              | Some statusErr =>
                  (c, errors_Join [err; Some (ErrWrap ("failed to update status for AccessManagement " +:+
                                     om_name (am_meta accessMgmt) +:+ ": ") statusErr)])
              | None => (c, err)
              end
        end
  end.

(** ** Namespace events *)

Context `{!Lister C AccessManagement}.

Definition ruleTargetsNamespace (rule : AccessRule) (namespace : Namespace) : result bool :=
  let tn := ar_targetNamespaces rule in
  if bool_decide (0 < length (rs_list tn)) then Ok (bool_decide (om_name (nsp_meta namespace) ∈ rs_list tn))
  else
    sel ← wrap_err "failed to get target namespaces selector: " (LabelSelector_of (rs_selector tn) (rs_stringSelector tn));
    Ok (selects sel (labels_of (nsp_meta namespace))).

(** The first rule that fails or holds decides. *)
Fixpoint any_rule (f : AccessRule → result bool) (rules : list AccessRule) : result bool :=
  match rules with
  | [] => Ok false
  | rule :: rules => matches ← f rule; if (matches : bool) then Ok true else any_rule f rules
  end.
Definition accessManagementTargetsNamespace (accessMgmt : AccessManagement) (namespace : Namespace) : result bool :=
  any_rule (λ rule, ruleTargetsNamespace rule namespace) (am_accessRules accessMgmt).

Definition ruleAffectedByNamespaceLabelUpdate (rule : AccessRule) (oldNamespace newNamespace : Namespace) : result bool :=
  let tn := ar_targetNamespaces rule in
  if bool_decide (0 < length (rs_list tn)) then Ok false
  else
    sel ← wrap_err "failed to get target namespaces selector: " (LabelSelector_of (rs_selector tn) (rs_stringSelector tn));
    Ok (sel.2 && xorb (selects sel (labels_of (nsp_meta oldNamespace))) (selects sel (labels_of (nsp_meta newNamespace)))).
Definition accessManagementAffectedByNamespaceLabelUpdate (accessMgmt : AccessManagement)
    (oldNamespace newNamespace : Namespace) : result bool :=
  any_rule (λ rule, ruleAffectedByNamespaceLabelUpdate rule oldNamespace newNamespace) (am_accessRules accessMgmt).

Definition am_key (am : AccessManagement) : ObjectKey := meta_key (am_meta am).
Definition holds (r : result bool) : bool := match r with Ok b => b | Err _ => false end.

Definition collectAccessManagementRequests (c : C) (shouldEnqueueFn : AccessManagement → result bool) : list ObjectKey :=
  match c_list (T:=AccessManagement) c "" (λ _, true) with
  | Err _ => []
  | Ok l => am_key <$> filterb (λ am, holds (shouldEnqueueFn am)) l
  end.

Definition listAccessManagementByField (c : C) (extract : AccessManagement → list string) (value : string)
  : result (list AccessManagement) := c_list c "" (MatchingField extract value).

(** [enqueueRequest]: one request per name. *)
Definition enqueueRequest (requests : list ObjectKey) (am : AccessManagement) : list ObjectKey :=
  if bool_decide (om_name (am_meta am) ∈ key_name <$> requests) then requests else requests ++ [am_key am].

Definition mapNamespaceToRequests (c : C) (namespace : Namespace) : list ObjectKey :=
  let fallback := collectAccessManagementRequests c (λ am, accessManagementTargetsNamespace am namespace) in
  match listAccessManagementByField c ExtractAccessManagementTargetNamespaceLists (om_name (nsp_meta namespace)),
        listAccessManagementByField c ExtractAccessManagementTargetsAllNamespaces "true",
        listAccessManagementByField c ExtractAccessManagementUsesSelector "true" with
  | Ok listTargeted, Ok allNamespace, Ok selector =>
      let requests := foldl enqueueRequest [] listTargeted in
      let requests := foldl enqueueRequest requests allNamespace in
      foldl enqueueRequest requests (filterb (λ am, holds (accessManagementTargetsNamespace am namespace)) selector)
  | _, _, _ => fallback
  end.

Definition mapNamespaceLabelUpdateToRequests (c : C) (oldNamespace newNamespace : Namespace) : list ObjectKey :=
  let affected am := accessManagementAffectedByNamespaceLabelUpdate am oldNamespace newNamespace in
  match listAccessManagementByField c ExtractAccessManagementUsesSelector "true" with
  | Err _ => collectAccessManagementRequests c affected
  | Ok selector => am_key <$> filterb (λ am, holds (affected am)) selector
  end.

(** [accessManagementPollEnqueue]. *)
Definition accessManagementPollEnqueue (c : C) : result (list AccessManagement) :=
  match c_get (T:=AccessManagement) c (mkKey "" AccessManagementName) with
  | Ok am => Ok [am]
  | Err err => if IsNotFound err then Ok [] else Err (ErrWrap "failed to get AccessManagement: " err)
  end.
End controller.

(** ** What the API server promises of generic objects *)

(** A write that fails changes nothing, and none touches another object. A copy
    is stored with the labels, the owners and the content it was created with; an
    object that is deleted is gone or, held by finalizers, marked; a patch of the
    owners changes neither labels nor content. Lists show what is there. *)
Class DynamicStore (C : Type) `{!DynamicClient C} := {
  d_get_key (c : C) gvr k o : d_get c gvr k = Ok o → meta_key (u_meta o) = k;
  d_create_frame (c : C) gvr ns o g k :
    (g, k) ≠ (gvr, mkKey ns (om_name (u_meta o))) → d_get (d_create c gvr ns o).1 g k = d_get c g k;
  d_create_result (c : C) gvr ns o :
    let k := mkKey ns (om_name (u_meta o)) in
    match (d_create c gvr ns o).2 with
    | None => is_ok (d_get c gvr k) = false ∧
              ∃ o', d_get (d_create c gvr ns o).1 gvr k = Ok o' ∧ om_labels (u_meta o') = om_labels (u_meta o) ∧
                om_ownerReferences (u_meta o') = om_ownerReferences (u_meta o) ∧ u_content o' = u_content o
    | Some e => d_get (d_create c gvr ns o).1 gvr k = d_get c gvr k ∧
                (IsAlreadyExists e = true → is_ok (d_get c gvr k) = true)
    end;
  d_delete_frame (c : C) gvr k g k' : (g, k') ≠ (gvr, k) → d_get (d_delete c gvr k).1 g k' = d_get c g k';
  d_delete_result (c : C) gvr k :
    match (d_delete c gvr k).2 with
    | None => ∀ o', d_get (d_delete c gvr k).1 gvr k = Ok o' →
                om_deletionTimestamp (u_meta o') ≠ None ∧
                ∃ o, d_get c gvr k = Ok o ∧ om_labels (u_meta o') = om_labels (u_meta o)
    | Some e => d_get (d_delete c gvr k).1 gvr k = d_get c gvr k ∧
                (IsNotFound e = true → is_ok (d_get c gvr k) = false)
    end;
  d_patch_frame (c : C) gvr k p g k' : (g, k') ≠ (gvr, k) → d_get (d_patch c gvr k p).1 g k' = d_get c g k';
  d_patch_result (c : C) gvr k p :
    match (d_patch c gvr k p).2 with
    | None => ∃ o o', d_get c gvr k = Ok o ∧ d_get (d_patch c gvr k p).1 gvr k = Ok o' ∧
                om_labels (u_meta o') = om_labels (u_meta o) ∧ om_ownerReferences (u_meta o') = p.2 ∧ u_content o' = u_content o
    | Some _ => d_get (d_patch c gvr k p).1 gvr k = d_get c gvr k
    end;
  d_list_elem (c : C) gvr ns l o :
    ns ≠ "" → d_list c gvr ns = Ok l → o ∈ l ↔ ∃ k, key_ns k = ns ∧ d_get c gvr k = Ok o;
  d_list_managed_elem (c : C) gvr l m :
    d_list_managed c gvr = Ok l →
    m ∈ l ↔ ∃ k o, d_get c gvr k = Ok o ∧ u_meta o = m ∧ has_managed_label m = true
}.

(** ** Properties: what a reconciliation leaves alone *)

Lemma retried_invariant {S} (f : S → S * option gerror) (P : S → Prop) s r :
  retried f s r → (∀ s, P s → P (f s).1) → P s → P r.1.
Proof.
  intros Hr Hf. induction Hr as [s|s s' e r Hs _ _ IH]; [apply Hf|]. intros HP. apply IH. specialize (Hf s HP).
  by rewrite Hs in Hf.
Qed.

(** The last attempt is made from a state the invariant holds of. *)
Lemma retried_last_attempt {S} (f : S → S * option gerror) (P : S → Prop) s r :
  retried f s r → (∀ s, P s → P (f s).1) → P s → ∃ s', P s' ∧ r = f s'.
Proof.
  intros Hr Hf. induction Hr as [s|s s' e r Hs _ _ IH]; [by eauto|]. intros HP. apply IH. specialize (Hf s HP).
  by rewrite Hs in Hf.
Qed.

(** The last attempt is made from a state that failed ones leave. *)
Lemma retried_ends {S} (f : S → S * option gerror) (P : S → Prop) s r :
  retried f s r → (∀ s s' e, P s → f s = (s', Some e) → P s') → P s → ∃ s', P s' ∧ r = f s'.
Proof. intros Hr Hf. induction Hr as [s|s s' e r Hs _ _ IH]; [by eauto|]. intros HP. by eapply IH, Hf. Qed.

Section protection.
Context `{!LabelSelectors} `{!LabelParser} `{!MapRange string} `{!GroupVersions} `{!NestedFields} `{!Converter}.
Context `{!OwnerHelpers} `{!Retrier} {C : Type} `{!DynamicClient C} `{!DynamicStore C}.
Context `{!Getter C Namespace} `{!Writer C Namespace} `{!Lister C Namespace}.
Variable RESTMapper : GroupKind → result RESTMapping.
Variable SystemNamespace : string.

(** Objects that are nobody's copies: without the managed label, or in the
    system namespace. *)
Definition protected (k : ObjectKey) (o : Unstructured) : Prop :=
  has_managed_label (u_meta o) = false ∨ key_ns k = SystemNamespace.

(** The protected objects of the namespaces are the same before and after. *)
Definition frame (c c' : C) : Prop :=
  ∀ gvr k o, key_ns k ≠ "" → protected k o → d_get c gvr k = Ok o ↔ d_get c' gvr k = Ok o.

#[export] Instance frame_equivalence : Equivalence frame.
Proof.
  split.
  - by intros c gvr k o.
  - intros c c' Hf gvr k o Hk Ho. by rewrite (Hf gvr k o Hk Ho).
  - intros c1 c2 c3 H12 H23 gvr k o Hk Ho. by rewrite (H12 gvr k o Hk Ho), (H23 gvr k o Hk Ho).
Qed.

(** No protected object is at the key. *)
Definition copy_at (c : C) (gvr : GVR) (k : ObjectKey) : Prop :=
  key_ns k ≠ SystemNamespace ∧ ∀ o, d_get c gvr k = Ok o → has_managed_label (u_meta o) = true.

Lemma copy_not_protected c gvr k o : copy_at c gvr k → d_get c gvr k = Ok o → ¬ protected k o.
Proof. intros [Hk Ho] Hg [Hp|Hp]; [|done]. apply Ho in Hg. congruence. Qed.

(** A change of one object that is and stays a copy. *)
Lemma frame_one c c' gvr k :
  (∀ g k', (g, k') ≠ (gvr, k) → d_get c' g k' = d_get c g k') → copy_at c gvr k → copy_at c' gvr k → frame c c'.
Proof.
  intros Hf Hc Hc' g k' o _ Ho. destruct (decide ((g, k') = (gvr, k))) as [[= -> ->]|Hne].
  - split; intros Hg; exfalso; [exact (copy_not_protected _ _ _ _ Hc Hg Ho)|exact (copy_not_protected _ _ _ _ Hc' Hg Ho)].
  - by rewrite Hf.
Qed.

Lemma copy_at_frame c c' gvr k : frame c c' → key_ns k ≠ "" → copy_at c gvr k → copy_at c' gvr k.
Proof.
  intros Hf Hns [Hk Ho]. split; [done|]. intros o Hg. destruct (has_managed_label (u_meta o)) eqn:E; [done|].
  rewrite <- (Hf gvr k o Hns) in Hg by (by left). apply Ho in Hg. congruence.
Qed.

Lemma managed_labels m m' : om_labels m' = om_labels m → has_managed_label m' = has_managed_label m.
Proof. unfold has_managed_label, labels_of. by intros ->. Qed.

Lemma frame_create c gvr ns o :
  ns ≠ SystemNamespace → has_managed_label (u_meta o) = true → frame c (d_create c gvr ns o).1.
Proof.
  intros Hns Hl g k o' _ Ho'. pose proof (d_create_result c gvr ns o) as Hr. cbn zeta in Hr.
  destruct (decide ((g, k) = (gvr, mkKey ns (om_name (u_meta o))))) as [[= -> ->]|Hne]; [|by rewrite d_create_frame].
  destruct (d_create c gvr ns o).2 as [e|]; [by destruct Hr as [-> _]|]. destruct Hr as [Hno (o2 & Hg2 & Hl2 & _)].
  split; intros Hg; exfalso.
  - by rewrite Hg in Hno.
  - rewrite Hg in Hg2. injection Hg2 as <-. apply managed_labels in Hl2. destruct Ho' as [Hp|Hp]; [congruence|done].
Qed.

Lemma frame_delete c gvr k : copy_at c gvr k → frame c (d_delete c gvr k).1.
Proof.
  intros Hc. apply (frame_one _ _ gvr k); [intros; by apply d_delete_frame|done|]. split; [apply Hc|]. intros o Hg.
  pose proof (d_delete_result c gvr k) as Hr. destruct (d_delete c gvr k).2 as [e|].
  - destruct Hr as [Hr _]. rewrite Hr in Hg. by apply Hc in Hg.
  - destruct (Hr o Hg) as (_ & o0 & Hg0 & Hl). apply Hc in Hg0. by rewrite (managed_labels _ _ Hl).
Qed.

Lemma frame_patch c gvr k p : copy_at c gvr k → frame c (d_patch c gvr k p).1.
Proof.
  intros Hc. apply (frame_one _ _ gvr k); [intros; by apply d_patch_frame|done|]. split; [apply Hc|]. intros o Hg.
  pose proof (d_patch_result c gvr k p) as Hr. destruct (d_patch c gvr k p).2 as [e|].
  - rewrite Hr in Hg. by apply Hc in Hg.
  - destruct Hr as (o0 & o' & Hg0 & Hg' & Hl & _). apply Hc in Hg0. rewrite Hg' in Hg. injection Hg as <-.
    by rewrite (managed_labels _ _ Hl).
Qed.

(** Creating a namespace touches no object inside one. *)
Hypothesis namespace_create : ∀ (c : C) (x : Namespace) gvr k,
  key_ns k ≠ "" → d_get (c_create c x).1 gvr k = d_get c gvr k.

Lemma EnsureNamespace_get c ns gvr k : key_ns k ≠ "" → d_get (EnsureNamespace c ns).1 gvr k = d_get c gvr k.
Proof.
  intros Hk. unfold EnsureNamespace. destruct (c_get c _); [done|]. destruct (negb _); [done|].
  pose proof (namespace_create c (mkNamespace (named_meta "" ns)) gvr k Hk) as Hn. by destruct (c_create c _).
Qed.
Lemma EnsureNamespace_frame c ns : frame c (EnsureNamespace c ns).1.
Proof. intros gvr k o Hk _. by rewrite EnsureNamespace_get. Qed.

Lemma adopt_attempt_frame gvr k ownerRef s :
  key_ns k ≠ SystemNamespace → frame s.1 (adopt_attempt gvr k ownerRef s).1.1.
Proof.
  destruct s as [c a]. intros Hk. unfold adopt_attempt. cbn [fst]. destruct (d_get c gvr k) as [o|e] eqn:Hg.
  - destruct (has_managed_label (u_meta o)) eqn:Hm; [|done]. cbn [negb]. destruct (hasOwnerReference _ _); [done|].
    destruct (SetOwnerReference _ _) as [refs|]; [|done].
    assert (frame c (d_patch c gvr k (ownerReferencesPatch o refs)).1) as Hf.
    { apply frame_patch. split; [done|]. intros o' Hg'. rewrite Hg in Hg'. by injection Hg' as <-. }
    destruct (d_patch _ _ _ _) as [c' [e|]]; done.
  - by destruct (IsNotFound e).
Qed.

Lemma adopt_frame c gvr k ownerRef : key_ns k ≠ SystemNamespace → frame c (adoptManagedObject c gvr k ownerRef).1.
Proof.
  intros Hk. unfold adoptManagedObject.
  pose proof (retried_invariant _ (λ s, frame c s.1) _ _ (retry_retried (adopt_attempt gvr k ownerRef) (c, None))) as Hi.
  destruct (RetryOnConflict _ _) as [[c' a] err]. apply Hi; [|done].
  intros s Hs. etransitivity; [exact Hs|]. by apply adopt_attempt_frame.
Qed.

Lemma managed_copy_meta gk src ns ownerRef t :
  managed_copy gk src ns ownerRef = Ok t →
  om_name (u_meta t) = om_name (u_meta src) ∧ om_namespace (u_meta t) = ns ∧
  om_ownerReferences (u_meta t) = [ownerRef] ∧ has_managed_label (u_meta t) = true.
Proof.
  unfold managed_copy. cbn zeta. intros (content & _ & [= <-])%bind_Ok. split_and!; [done..|].
  unfold has_managed_label, labels_of. simpl. rewrite lookup_singleton_eq. by rewrite bool_decide_true.
Qed.

Lemma create_copy_frame c gvr t k nn ownerRef managed :
  key_ns k ≠ SystemNamespace → has_managed_label (u_meta t) = true →
  frame c (create_copy c gvr t k nn ownerRef managed).1.1.
Proof.
  intros Hk Hl. unfold create_copy. pose proof (frame_create c gvr (key_ns k) t Hk Hl) as Hf.
  destruct (d_create _ _ _ _) as [c' [e|]]; [|done]. simpl in Hf. destruct (IsAlreadyExists e); [|done].
  pose proof (adopt_frame c' gvr k ownerRef Hk) as Ha. destruct (adoptManagedObject _ _ _ _) as [c2 [[m|]|]];
    simpl in *; by etransitivity.
Qed.

Lemma createManagedObject_frame c gk src ns ownerRef managed :
  om_namespace (u_meta src) = SystemNamespace →
  frame c (createManagedObject RESTMapper c gk src ns ownerRef managed).1.1.
Proof.
  intros Hsrc. unfold createManagedObject. case_bool_decide as Hns; [done|]. destruct (match _ with Some _ => _ | None => _ end); [done|].
  pose proof (EnsureNamespace_frame c ns) as He. destruct (EnsureNamespace c ns) as [c1 [e|]]; [done|]. simpl in He.
  destruct (managed_copy _ _ _ _) as [t|] eqn:Ht; [|done]. destruct (wrap_err _ _) as [mapping|]; [|done].
  apply managed_copy_meta in Ht as (_ & _ & _ & Hl). etransitivity; [exact He|]. apply create_copy_frame; [|done].
  simpl. by rewrite <- Hsrc.
Qed.

Definition from_system (res : groupKindResources) : Prop :=
  ∀ name o, gkr_system res !! name = Some o → om_namespace (u_meta o) = SystemNamespace.

Lemma distribute_frame c gk desired res :
  from_system res → frame c (distribute RESTMapper SystemNamespace c gk desired res).1.
Proof.
  intros Hsys. unfold distribute.
  assert (∀ acc, frame acc.1.1 (foldl (distribute_step RESTMapper SystemNamespace gk res) acc desired).1.1) as Hfold.
  { induction desired as [|t l IH]; intros acc; [done|]. cbn [foldl]. etransitivity; [|apply IH]. clear IH.
    destruct acc as [[c1 m1] e1]. unfold distribute_step. cbn [fst]. destruct (gkr_system res !! _) as [src|] eqn:Hs; [|done].
    pose proof (createManagedObject_frame c1 gk src (tgt_namespace t) (gkr_ownerRef res) m1 (Hsys _ _ Hs)) as Hf.
    by destruct (createManagedObject _ _ _ _ _ _ _) as [[c2 m2] [b|e]]. }
  specialize (Hfold (c, gkr_managedByNamespacedName res, None)). by destruct (foldl _ _ _) as [[c' m'] e'].
Qed.

(** ** Properties: cleaning up *)

Lemma release_attempt_frame gvr k am s :
  copy_at s.1 gvr k → frame s.1 (release_attempt gvr k am s).1.1.
Proof.
  destruct s as [c b]. intros Hc. unfold release_attempt. cbn [fst] in *. destruct (d_get c gvr k) as [o|e] eqn:Hg.
  - destruct (negb _); [done|]. cbn zeta.
    match goal with |- context [d_patch c gvr k ?p] => pose proof (frame_patch c gvr k p Hc) as Hf end.
    destruct (d_patch _ _ _ _) as [c' [e|]]; done.
  - by destruct (IsNotFound e).
Qed.

Lemma release_frame c gk m am :
  (∀ gvr, map_resource <$> RESTMapper gk = Ok gvr → copy_at c gvr (meta_key m)) → om_namespace m ≠ "" →
  frame c (releaseManagedObject RESTMapper c gk m am).1.
Proof.
  intros Hc Hns. unfold releaseManagedObject. destruct (negb _); [done|].
  destruct (RESTMapper gk) as [mapping|]; simpl; [|done]. specialize (Hc _ eq_refl).
  pose proof (retried_invariant _ (λ s, frame c s.1) _ _
    (retry_retried (release_attempt (map_resource mapping) (meta_key m) am) (c, false))) as Hi.
  destruct (RetryOnConflict _ _) as [[c' b] err]. apply Hi; [|done].
  intros s Hs. etransitivity; [exact Hs|]. apply release_attempt_frame. by eapply copy_at_frame.
Qed.

Lemma deleteManagedObject_frame c gk m :
  (∀ gvr, map_resource <$> RESTMapper gk = Ok gvr → copy_at c gvr (meta_key m)) →
  frame c (deleteManagedObject RESTMapper c gk m).1.
Proof.
  intros Hc. unfold deleteManagedObject. destruct (RESTMapper gk) as [mapping|]; simpl; [|done].
  pose proof (frame_delete c _ _ (Hc _ eq_refl)) as Hf. by destruct (d_delete _ _ _).
Qed.

Lemma for_each_frame op acc l :
  (∀ c m, m ∈ l → frame acc.1 c → frame c (op c m).1) → frame acc.1 (for_each op acc l).1.
Proof.
  revert acc. induction l as [|m l IH]; intros acc Hop; [done|]. cbn [for_each foldl]. destruct acc as [c e].
  pose proof (Hop c m (list_elem_of_here _ _) ltac:(done)) as Hm. simpl in *.
  destruct (op c m) as [c' done'] eqn:E. simpl in Hm. etransitivity; [exact Hm|].
  apply (IH (c', _)). intros c2 m2 Hin Hf. apply Hop; [by right|]. by etransitivity.
Qed.

Lemma cleanup_frame c am gk remove release :
  (∀ m, m ∈ remove ++ release → om_namespace m ≠ "" ∧
     ∀ gvr, map_resource <$> RESTMapper gk = Ok gvr → copy_at c gvr (meta_key m)) →
  frame c (cleanupManagedResources RESTMapper c am gk remove release).1.
Proof.
  intros Hm. unfold cleanupManagedResources.
  assert (frame c (for_each (λ c obj, releaseManagedObject RESTMapper c gk obj am) (c, None) release).1) as Hr.
  { apply (for_each_frame _ (c, None)). intros c1 m Hin Hf. destruct (Hm m) as [Hns Hc]; [apply elem_of_app; by right|].
    apply release_frame; [|done]. intros gvr Hg. eapply copy_at_frame; [exact Hf|done|by apply Hc]. }
  etransitivity; [exact Hr|]. eapply for_each_frame. intros c1 m Hin Hf. apply deleteManagedObject_frame. intros gvr Hg.
  destruct (Hm m) as [Hns Hc]; [apply elem_of_app; by left|].
  eapply copy_at_frame; [etransitivity; [exact Hr|exact Hf]|done|by apply Hc].
Qed.

(** ** Properties: one kind *)

Hypothesis system_named : SystemNamespace ≠ "".
(** The objects of a namespaced kind are in a namespace, which has no slash. *)
Hypothesis namespaced_objects : ∀ gk mapping (c : C) k o,
  RESTMapper gk = Ok mapping → map_namespaced mapping = true → d_get c (map_resource mapping) k = Ok o →
  key_ns k ≠ "" ∧ no_slash (key_ns k).

Lemma collect_Ok c gk ownerRef res :
  collectGroupKindResources RESTMapper SystemNamespace c gk ownerRef = Ok res →
  ∃ mapping, RESTMapper gk = Ok mapping ∧ map_namespaced mapping = true ∧ from_system res ∧ gkr_ownerRef res = ownerRef ∧
    (∀ name o, gkr_system res !! name = Some o →
       om_name (u_meta o) = name ∧ ∃ k, key_ns k = SystemNamespace ∧ d_get c (map_resource mapping) k = Ok o) ∧
    gkr_managedByNamespacedName res = index_by (λ m, NamespacedName (om_namespace m) (om_name m)) id (gkr_managed res) ∧
    (∀ m, m ∈ gkr_managed res ↔ om_namespace m ≠ SystemNamespace ∧ has_managed_label m = true ∧
       ∃ o, d_get c (map_resource mapping) (meta_key m) = Ok o ∧ u_meta o = m).
Proof.
  unfold collectGroupKindResources. intros (mapping & Hmap & Hrest)%bind_Ok. apply wrap_err_Ok in Hmap.
  destruct (map_namespaced mapping) eqn:Hn; [|done]. cbn [negb] in Hrest. cbn zeta in Hrest.
  apply bind_Ok in Hrest as (systemList & Hs & Hrest). apply wrap_err_Ok in Hs.
  apply bind_Ok in Hrest as (managedList & Hm & [= <-]). apply wrap_err_Ok in Hm. simpl.
  assert (∀ name o, index_by (λ o : Unstructured, om_name (u_meta o)) id systemList !! name = Some o →
    om_name (u_meta o) = name ∧ ∃ k, key_ns k = SystemNamespace ∧ d_get c (map_resource mapping) k = Ok o) as Hsys.
  { intros name o (x & Hx & Hname & Heq)%index_by_Some. simpl in Heq. subst x. split; [done|].
    by apply (d_list_elem _ _ _ _ o system_named Hs) in Hx. }
  exists mapping. split_and!; [done..| |done|done|done|].
  - intros name o Ho. destruct (Hsys name o Ho) as (_ & k & Hk & Hg). apply d_get_key in Hg. by rewrite <- Hg in Hk.
  - intros m. rewrite filterb_elem_of, negb_true_iff, bool_decide_eq_false, (d_list_managed_elem _ _ _ m Hm). split.
    + intros [(k & o & Hg & Ho & Hl) Hns]. split_and!; [done|done|]. exists o. split; [|done].
      apply d_get_key in Hg as Hk. by rewrite <- Ho, Hk.
    + intros (Hns & Hl & o & Hg & Ho). split; [|done]. by exists (meta_key m), o.
Qed.

Lemma collect_copies c gk ownerRef res m :
  collectGroupKindResources RESTMapper SystemNamespace c gk ownerRef = Ok res → m ∈ gkr_managed res →
  om_namespace m ≠ "" ∧ no_slash (om_namespace m) ∧ ∀ gvr, map_resource <$> RESTMapper gk = Ok gvr → copy_at c gvr (meta_key m).
Proof.
  intros (mapping & Hmap & Hn & _ & _ & _ & _ & Hman)%collect_Ok (Hns & Hl & o & Hg & Ho)%Hman.
  destruct (namespaced_objects _ _ _ _ _ Hmap Hn Hg) as [Hne Hsl]. split_and!; [done..|].
  intros gvr Hgvr. rewrite Hmap in Hgvr. injection Hgvr as <-. split; [done|].
  intros o' Hg'. rewrite Hg in Hg'. injection Hg' as <-. by rewrite Ho.
Qed.

Lemma plan_managed {M} (meta : M → ObjectMeta) rules gk system (managed : list M) am plan m :
  PlanGroupKind u_labels meta rules gk system managed am = Ok plan → m ∈ Remove plan ++ Release plan → m ∈ managed.
Proof.
  intros (_ & -> & ->)%PlanGroupKind_Ok. intros [[? _]%filterb_elem_of|[? _]%filterb_elem_of]%elem_of_app; done.
Qed.

Lemma reconcile_kind_frame am ownerRef rules c errs gk :
  frame c (reconcile_kind RESTMapper SystemNamespace am ownerRef rules c errs gk).1.1.
Proof.
  unfold reconcile_kind. destruct (collectGroupKindResources _ _ _ _ _) as [res|e] eqn:Hc; [|by destruct (errors_Is _ _)].
  destruct (PlanGroupKind _ _ _ _ _ _ _) as [plan|e] eqn:Hp; [|done].
  assert (from_system res) as Hsys by (by apply collect_Ok in Hc as (? & _ & _ & ? & _)).
  pose proof (distribute_frame c gk (Desired plan) res Hsys) as Hd. destruct (distribute _ _ _ _ _) as [c1 e1]. simpl in Hd.
  assert (frame c1 (cleanupManagedResources RESTMapper c1 am gk (Remove plan) (Release plan)).1) as Hcl.
  { apply cleanup_frame. intros m Hm. apply (plan_managed _ _ _ _ _ _ _ _ Hp) in Hm.
    destruct (collect_copies _ _ _ _ _ Hc Hm) as (Hns & _ & Hcopy). split; [done|].
    intros gvr Hg. eapply copy_at_frame; [exact Hd|done|by apply Hcopy]. }
  destruct (cleanupManagedResources _ _ _ _ _ _) as [c2 e2]. by etransitivity.
Qed.

Lemma reconcile_kinds_frame am ownerRef rules acc gks :
  frame acc.1.1 (reconcile_kinds RESTMapper SystemNamespace am ownerRef rules acc gks).1.1.
Proof.
  revert acc. induction gks as [|gk l IH]; intros [[c st] errs]; [done|]. cbn [reconcile_kinds foldl].
  pose proof (reconcile_kind_frame am ownerRef rules c errs gk) as Hk.
  destruct (reconcile_kind _ _ _ _ _ _ _ _) as [[c1 s1] e1]. simpl in Hk. etransitivity; [exact Hk|]. apply (IH (c1, _, e1)).
Qed.

(** ** Properties: a kind that is reconciled without an error *)

Definition good_namespace (ns : string) : Prop := ns ≠ "" ∧ no_slash ns ∧ ns ≠ SystemNamespace.
Lemma EnsureNamespace_same c ns gvr k : key_ns k ≠ "" → d_get (EnsureNamespace c ns).1 gvr k = d_get c gvr k.
Proof. apply EnsureNamespace_get. Qed.

Section copies.
(** The state a kind is reconciled in, and what distribution works with. *)
Variables (c0 : C) (gk : GroupKind) (gvr : GVR) (res : groupKindResources).
Notation ownerRef := (gkr_ownerRef res).
Hypothesis resolved : ∀ mapping, RESTMapper gk = Ok mapping → map_resource mapping = gvr.
Hypothesis sources_in_system : from_system res.
Hypothesis sources_named : ∀ name o, gkr_system res !! name = Some o → om_name (u_meta o) = name.

Definition owned_by (m : ObjectMeta) : Prop := hasOwnerReference (om_ownerReferences m) ownerRef = true.

(** What is at the place of a copy in the end. Where there was nothing, a copy of
    the source, but for its status, with the rewrites of its kind, with nothing
    but the managed label and the owner. Where there was a managed copy, that one,
    with the owner. An object that is not managed is in the way: it is left. *)
Definition copy_ready (c : C) (k : ObjectKey) : Prop :=
  ∃ o, d_get c gvr k = Ok o ∧
  match d_get c0 gvr k with
  | Err _ => om_labels (u_meta o) = Some {[KCMManagedLabelKey := KCMManagedLabelValue]} ∧ om_ownerReferences (u_meta o) = [ownerRef] ∧
      ∃ src, gkr_system res !! key_name k = Some src ∧
        applyBuiltinRewrite gk (key_ns k) (delete "status" (u_content src)) src = Ok (u_content o)
  | Ok o0 =>
      if has_managed_label (u_meta o0)
      then has_managed_label (u_meta o) = true ∧ owned_by (u_meta o) ∧ u_content o = u_content o0
      else o = o0
  end.
(** Each object of the kind is as it was, or as it is to be. *)
Definition on_the_way (c : C) : Prop := ∀ k, key_ns k ≠ "" → d_get c gvr k = d_get c0 gvr k ∨ copy_ready c k.
(** What the map of managed copies counts as settled is in place. *)
Definition known (c : C) (managed : gmap string ObjectMeta) : Prop :=
  ∀ ns n m, good_namespace ns → managed !! NamespacedName ns n = Some m → settled m ownerRef = true → copy_ready c (mkKey ns n).

Lemma ready_same c c' k : d_get c' gvr k = d_get c gvr k → copy_ready c k → copy_ready c' k.
Proof. unfold copy_ready. by intros ->. Qed.
Lemma managed_or_not m : has_managed_label m = true ∨ has_managed_label m = false.
Proof. destruct (has_managed_label m); auto. Qed.

(** An object that needs no change, or only the owner, is or becomes ready. *)
Lemma ready_settled c k o : (d_get c gvr k = d_get c0 gvr k ∨ copy_ready c k) → d_get c gvr k = Ok o →
  has_managed_label (u_meta o) = false ∨ owned_by (u_meta o) → copy_ready c k.
Proof.
  intros [Hsame|Hr] Hg Ho; [|done]. exists o. split; [done|]. rewrite <- Hsame, Hg.
  destruct (has_managed_label (u_meta o)) eqn:E; [|done]. by destruct Ho.
Qed.
Lemma ready_adopted c c' k o o' : (d_get c gvr k = d_get c0 gvr k ∨ copy_ready c k) → d_get c gvr k = Ok o →
  has_managed_label (u_meta o) = true → ¬ owned_by (u_meta o) → d_get c' gvr k = Ok o' →
  om_labels (u_meta o') = om_labels (u_meta o) → owned_by (u_meta o') → u_content o' = u_content o → copy_ready c' k.
Proof.
  intros Hor Hg Hm Hno Hg' Hl Ho Hcont. exists o'. split; [done|]. pose proof (managed_labels _ _ Hl) as Hm'. destruct Hor as [Hsame|(o1 & Hg1 & Hr)].
  - rewrite <- Hsame, Hg, Hm. by rewrite Hm'.
  - rewrite Hg in Hg1. injection Hg1 as <-. destruct (d_get c0 gvr k) as [o0|e].
    + destruct (has_managed_label (u_meta o0)) eqn:E; [|by subst; congruence]. destruct Hr as (_ & Ho1 & _). by destruct Hno.
    + destruct Hr as (_ & Ho1 & _). destruct Hno. unfold owned_by, hasOwnerReference. rewrite Ho1. cbn. by rewrite !bool_decide_eq_true_2.
Qed.
Lemma owner_listed refs : ownerRef ∈ refs → hasOwnerReference refs ownerRef = true.
Proof.
  intros Hin. unfold hasOwnerReference. rewrite existsb_exists. exists ownerRef. split; [by apply list_elem_of_In|]. by rewrite !bool_decide_eq_true_2.
Qed.

Lemma adopt_attempt_ready c1 a1 k :
  let '(c', a', err) := adopt_attempt gvr k ownerRef (c1, a1) in
  (∀ k', k' ≠ k → d_get c' gvr k' = d_get c1 gvr k') ∧
  match err with
  | Some _ => d_get c' gvr k = d_get c1 gvr k
  | None =>
      match d_get c1 gvr k with
      | Err _ => d_get c' gvr k = d_get c1 gvr k ∧ a' = None
      | Ok o =>
          (d_get c' gvr k = Ok o ∧ (has_managed_label (u_meta o) = false ∨ owned_by (u_meta o))) ∨
          (has_managed_label (u_meta o) = true ∧ ¬ owned_by (u_meta o) ∧ ∃ o', d_get c' gvr k = Ok o' ∧
             om_labels (u_meta o') = om_labels (u_meta o) ∧ owned_by (u_meta o') ∧ u_content o' = u_content o)
      end
  end.
Proof.
  unfold adopt_attempt. destruct (d_get c1 gvr k) as [o|e] eqn:Hg.
  2:{ destruct (IsNotFound e); split; try done; by rewrite Hg. }
  destruct (has_managed_label (u_meta o)) eqn:Hm; cbn [negb]; [|split; [done|left; auto]].
  destruct (hasOwnerReference _ ownerRef) eqn:Ho; [split; [done|left; auto]|].
  destruct (SetOwnerReference _ _) as [refs|e] eqn:Hs; [|done]. apply SetOwnerReference_sets in Hs.
  pose proof (d_patch_result c1 gvr k (ownerReferencesPatch o refs)) as Hr.
  pose proof (λ k' (Hne : k' ≠ k), d_patch_frame c1 gvr k (ownerReferencesPatch o refs) gvr k' ltac:(congruence)) as Hf.
  destruct (d_patch _ _ _ _) as [c' [e|]]; cbn [fst snd] in *.
  - split; [done|]. by rewrite Hr.
  - split; [done|]. right. split; [done|]. split; [by unfold owned_by; rewrite Ho|].
    destruct Hr as (o1 & o' & Hg1 & Hg' & Hl & Hrefs & Hc). rewrite Hg in Hg1. injection Hg1 as <-. exists o'.
    split_and!; [done|done| |done]. unfold owned_by. rewrite Hrefs. by apply owner_listed.
Qed.

(** Only the object at [k] changes, and when it does it ends up ready. *)
Definition readies (c c' : C) (k : ObjectKey) : Prop :=
  (∀ k', k' ≠ k → d_get c' gvr k' = d_get c gvr k') ∧ (d_get c' gvr k = d_get c gvr k ∨ copy_ready c' k).
Lemma readies_way c c' k : readies c c' k → on_the_way c → on_the_way c'.
Proof.
  intros [Hf Hk] Hway k' Hns. destruct (decide (k' = k)) as [->|Hne].
  - destruct Hk as [Hsame|Hr]; [|by right]. destruct (Hway k Hns) as [Hw|Hw]; [left; congruence|right; by eapply ready_same].
  - destruct (Hway k' Hns) as [Hw|Hw]; [left; rewrite Hf by done; congruence|right; eapply ready_same; [by apply Hf|done]].
Qed.
Lemma readies_keep c c' k k' : readies c c' k → copy_ready c k' → copy_ready c' k'.
Proof.
  intros [Hf Hk] Hr. destruct (decide (k' = k)) as [->|Hne]; [|eapply ready_same; [by apply Hf|done]].
  destruct Hk as [Hsame|?]; [by eapply ready_same|done].
Qed.
Lemma readies_refl c k : readies c c k.
Proof. split; [done|by left]. Qed.

(** Adopting: if the call succeeds and there is an object, it is ready. *)
Lemma adopt_ready c k : key_ns k ≠ "" → on_the_way c →
  let '(c', r) := adoptManagedObject c gvr k ownerRef in
  readies c c' k ∧ (is_ok r = true → is_ok (d_get c gvr k) = true → copy_ready c' k).
Proof.
  intros Hk Hway. unfold adoptManagedObject.
  destruct (retried_ends _ (λ s : C * option ObjectMeta, ∀ k', d_get s.1 gvr k' = d_get c gvr k') _ _
    (retry_retried (adopt_attempt gvr k ownerRef) (c, None))) as ([c1 a1] & Hsame & ->); [|done|].
  { intros [c1 a1] [c2 a2] e Hs Ha k'. pose proof (adopt_attempt_ready c1 a1 k) as Hat. rewrite Ha in Hat. destruct Hat as [Hf He].
    cbn [fst] in *. destruct (decide (k' = k)) as [->|Hne]; [by rewrite He|by rewrite Hf]. }
  pose proof (adopt_attempt_ready c1 a1 k) as Hat. cbn [fst] in Hsame. destruct (adopt_attempt gvr k ownerRef (c1, a1)) as [[c' a'] err].
  destruct Hat as [Hf Hres]. assert (∀ k', k' ≠ k → d_get c' gvr k' = d_get c gvr k') as Hf' by (intros k' Hne; by rewrite Hf).
  destruct err as [e|]; [split; [split; [done|left; by rewrite Hres]|done]|]. rewrite Hsame in Hres.
  destruct (d_get c gvr k) as [o|e] eqn:Hg; [|split; [split; [done|left; by rewrite (proj1 Hres)]|done]].
  assert (copy_ready c' k) as Hr.
  { destruct Hres as [[Hg' Ho]|(Hm & Hno & o' & Hg' & Hl & Ho & Hc)].
    - eapply (ready_same c); [by rewrite Hg'|]. by eapply ready_settled; [apply Hway|..].
    - by eapply (ready_adopted c c'); [apply Hway|..]. }
  split; [split; [done|by right]|done].
Qed.

Lemma create_ready c k src t managed :
  key_ns k ≠ "" → on_the_way c → gkr_system res !! key_name k = Some src → managed_copy gk src (key_ns k) ownerRef = Ok t →
  let '(c', managed', r) := create_copy c gvr t k (NamespacedName (key_ns k) (key_name k)) ownerRef managed in
  readies c c' k ∧ (managed' = managed ∨ ∃ m, managed' = <[NamespacedName (key_ns k) (key_name k) := m]> managed ∧ copy_ready c' k) ∧
  (is_ok r = true → copy_ready c' k).
Proof.
  intros Hk Hway Hsrc Ht. pose proof (managed_copy_meta _ _ _ _ _ Ht) as (Hname & _ & Howner & _).
  rewrite (sources_named _ _ Hsrc) in Hname. unfold create_copy.
  pose proof (d_create_result c gvr (key_ns k) t) as Hr. pose proof (λ k' H, d_create_frame c gvr (key_ns k) t gvr k' H) as Hf. cbn zeta in Hr.
  assert (mkKey (key_ns k) (om_name (u_meta t)) = k) as Heq by (rewrite Hname; by destruct k). rewrite Heq in Hr, Hf.
  assert (∀ k', k' ≠ k → d_get (d_create c gvr (key_ns k) t).1 gvr k' = d_get c gvr k') as Hf' by (intros k' Hne; apply Hf; congruence).
  destruct (d_create c gvr (key_ns k) t) as [c1 [e|]]; cbn [fst snd] in *.
  - destruct Hr as [Hsame Hex]. assert (readies c c1 k) as Hre1 by (split; [done|by left]).
    destruct (IsAlreadyExists e); [|split_and!; [done|by left|done]].
    pose proof (adopt_ready c1 k Hk (readies_way _ _ _ Hre1 Hway)) as Ha. destruct (adoptManagedObject c1 gvr k ownerRef) as [c2 r].
    destruct Ha as [Hre2 Ha]. rewrite Hsame in Ha.
    assert (readies c c2 k) as H12.
    { destruct Hre1 as [Ha1 Hb1], Hre2 as [Ha2 Hb2]. split; [intros k' Hne; by rewrite Ha2, Ha1|]. destruct Hb2; [left; congruence|by right]. }
    destruct r as [[m|]|e2]; split_and!; try done; try (by left); [right; exists m; split; [done|]| |]; intros; by apply Ha; [|apply Hex].
  - destruct Hr as (Hno & o' & Hg' & Hl & Ho & Hc). assert (copy_ready c1 k) as Hr.
    { exists o'. split; [done|]. destruct (Hway k Hk) as [Hsame|(o & Hg & _)]; [|by rewrite Hg in Hno].
      rewrite <- Hsame. destruct (d_get c gvr k) as [|e] eqn:Eg; [done|]. unfold managed_copy in Ht. cbn zeta in Ht.
      apply bind_Ok in Ht as (content & Hcont%wrap_err_Ok & [= <-]). split; [done|]. split; [by rewrite Ho|]. exists src. split; [done|]. by rewrite Hc. }
    split_and!; [split; [done|by right]|right; eexists; split; [reflexivity|done]|done].
Qed.

Lemma createManagedObject_ready c src ns name managed :
  good_namespace ns → on_the_way c → known c managed → gkr_system res !! name = Some src →
  let '(c', managed', r) := createManagedObject RESTMapper c gk src ns ownerRef managed in
  on_the_way c' ∧ known c' managed' ∧ (∀ k, copy_ready c k → key_ns k ≠ "" → copy_ready c' k) ∧ (is_ok r = true → copy_ready c' (mkKey ns name)).
Proof.
  intros Hns Hway Hm Hsrc. unfold createManagedObject. rewrite (sources_named _ _ Hsrc). cbn zeta.
  rewrite bool_decide_eq_false_2 by (rewrite (sources_in_system _ _ Hsrc); apply Hns).
  assert (∀ c1, (∀ k, key_ns k ≠ "" → d_get c1 gvr k = d_get c gvr k) →
    on_the_way c1 ∧ known c1 managed ∧ (∀ k, copy_ready c k → key_ns k ≠ "" → copy_ready c1 k)) as Hsame.
  { intros c1 Hs. split_and!.
    - intros k Hk. destruct (Hway k Hk) as [Hw|Hw]; [left; rewrite Hs by done; congruence|right; eapply ready_same; [by apply Hs|done]].
    - intros ns' n m Hns' Hl Hset. eapply ready_same; [apply Hs, Hns'|by eapply Hm].
    - intros k Hr Hk. eapply ready_same; [by apply Hs|done]. }
  destruct (match managed !! _ with Some _ => _ | None => _ end) eqn:Hset.
  { destruct (managed !! NamespacedName ns name) as [m|] eqn:El; [|done]. split_and!; [done..|]. intros _. by eapply Hm. }
  pose proof (EnsureNamespace_same c ns gvr) as He. destruct (EnsureNamespace c ns) as [c1 e1]. cbn [fst] in He. destruct (Hsame c1 He) as (Hw1 & Hm1 & Hr1).
  destruct e1 as [e|]; [by split_and!|]. destruct (managed_copy _ _ _ _) as [t|] eqn:Ht; [|by split_and!].
  destruct (RESTMapper gk) as [mapping|e] eqn:Hmap; cbn [wrap_err]; [|by split_and!]. rewrite (resolved _ eq_refl).
  pose proof (create_ready c1 (mkKey ns name) src t managed (proj1 Hns) Hw1 Hsrc Ht) as Hc. cbn [key_ns key_name] in Hc.
  destruct (create_copy _ _ _ _ _ _ _) as [[c2 m2] r]. destruct Hc as (Hre & Hm2 & Hr).
  assert (known c2 managed) as Hk2 by (intros ns' n m Hns' Hl Hs'; eapply readies_keep; [exact Hre|by eapply Hm1]).
  split_and!; [by eapply readies_way| |intros k Hk Hkns; eapply readies_keep; [exact Hre|by apply Hr1]|exact Hr].
  destruct Hm2 as [->|(m & -> & Hready)]; [done|]. intros ns' n m' Hns' [[Heq _]|[_ Hl]]%lookup_insert_Some Hs'; [|by eapply Hk2].
  apply NamespacedName_inj in Heq as [-> ->]; [done|apply Hns|apply Hns'].
Qed.

Definition target_at (t : Target) : ObjectKey := mkKey (tgt_namespace t) (tgt_name t).

Lemma distribute_step_ready c managed t : good_namespace (tgt_namespace t) → on_the_way c → known c managed →
  let '(c', managed', e) := distribute_step RESTMapper SystemNamespace gk res (c, managed, None) t in
  on_the_way c' ∧ known c' managed' ∧ (∀ k, copy_ready c k → key_ns k ≠ "" → copy_ready c' k) ∧ (e = None → copy_ready c' (target_at t)).
Proof.
  intros Hns Hway Hm. unfold distribute_step. destruct (gkr_system res !! tgt_name t) as [src|] eqn:Hs; [|by split_and!].
  pose proof (createManagedObject_ready c src (tgt_namespace t) (tgt_name t) managed Hns Hway Hm Hs) as Hc.
  destruct (createManagedObject _ _ _ _ _ _ _) as [[c' m'] [b|e]]; destruct Hc as (? & ? & ? & Hp); split_and!; try done. intros _. by apply Hp.
Qed.

Lemma distribute_step_errs c managed errs t :
  let '(c', managed', e) := distribute_step RESTMapper SystemNamespace gk res (c, managed, None) t in
  ∃ e', distribute_step RESTMapper SystemNamespace gk res (c, managed, errs) t = (c', managed', e') ∧
        (e' = None → errs = None ∧ e = None).
Proof.
  unfold distribute_step. destruct (gkr_system res !! _) as [src|].
  - destruct (createManagedObject _ _ _ _ _ _ _) as [[c' m'] [b|e]]; eexists; (split; [done|]); [done|].
    by intros ?%join_err_ne.
  - eexists. split; [done|]. by intros ?%join_err_ne.
Qed.

Lemma distribute_ready desired : (∀ t, t ∈ desired → good_namespace (tgt_namespace t)) → known c0 (gkr_managedByNamespacedName res) →
  (distribute RESTMapper SystemNamespace c0 gk desired res).2 = None →
  ∀ t, t ∈ desired → copy_ready (distribute RESTMapper SystemNamespace c0 gk desired res).1 (target_at t).
Proof.
  intros Hns Hm. unfold distribute.
  enough (∀ managed c errs, on_the_way c → known c managed →
    let '(c', _, e) := foldl (distribute_step RESTMapper SystemNamespace gk res) (c, managed, errs) desired in
    (∀ k, copy_ready c k → key_ns k ≠ "" → copy_ready c' k) ∧ (e = None → errs = None ∧ ∀ t, t ∈ desired → copy_ready c' (target_at t))) as Hall.
  { specialize (Hall (gkr_managedByNamespacedName res) c0 None). destruct (foldl _ _ _) as [[c' m'] e]. simpl.
    intros ->. apply Hall; [by left|done|done]. }
  clear Hm. induction desired as [|t l IH]; intros managed c errs Hway Hm.
  { simpl. split; [done|]. intros ->. split; [done|]. by intros t ?%elem_of_nil. }
  cbn [foldl]. pose proof (distribute_step_ready c managed t (Hns t (list_elem_of_here _ _)) Hway Hm) as Hp.
  pose proof (distribute_step_errs c managed errs t) as He.
  destruct (distribute_step _ _ _ _ (c, managed, None) t) as [[c1 m1] e1]. destruct He as (e2 & -> & He2).
  destruct Hp as (Hw1 & Hm1 & Hk & Hp). specialize (IH (λ x Hx, Hns x (list_elem_of_further _ _ _ Hx)) m1 c1 e2 Hw1 Hm1).
  destruct (foldl _ _ l) as [[c' m'] e]. destruct IH as [Hk' He']. split; [intros k Hready Hkns; apply Hk'; [by apply Hk|done]|].
  intros Hnone. destruct (He' Hnone) as [He2n Hl]. destruct (He2 He2n) as [-> He1]. split; [done|].
  intros x [->|Hx]%elem_of_cons; [|by apply Hl]. apply Hk'; [by apply Hp|]. apply (Hns t). left.
Qed.
End copies.

(** Gone, or marked for deletion and held by its finalizers. *)
Definition gone (c : C) (gvr : GVR) (k : ObjectKey) : Prop :=
  ∀ o, d_get c gvr k = Ok o → om_deletionTimestamp (u_meta o) ≠ None.

Lemma delete_gone c gk mapping m :
  RESTMapper gk = Ok mapping → is_ok (deleteManagedObject RESTMapper c gk m).2 = true →
  gone (deleteManagedObject RESTMapper c gk m).1 (map_resource mapping) (meta_key m).
Proof.
  intros Hmap. unfold deleteManagedObject. rewrite Hmap. cbn [wrap_err].
  pose proof (d_delete_result c (map_resource mapping) (meta_key m)) as Hr.
  destruct (d_delete _ _ _) as [c' [e|]]; cbn [fst snd] in *.
  - destruct (IsNotFound e); [|done]. destruct Hr as [Hg Hno]. intros _ o Ho. rewrite Hg in Ho. specialize (Hno eq_refl).
    by rewrite Ho in Hno.
  - intros _ o Ho. by apply Hr in Ho as [? _].
Qed.

Lemma delete_keeps_gone c gk m gvr k : gone c gvr k → gone (deleteManagedObject RESTMapper c gk m).1 gvr k.
Proof.
  intros Hgone. unfold deleteManagedObject. destruct (wrap_err _ _) as [mapping|]; [|done].
  pose proof (d_delete_result c (map_resource mapping) (meta_key m)) as Hr.
  pose proof (d_delete_frame c (map_resource mapping) (meta_key m) gvr k) as Hf.
  destruct (d_delete _ _ _) as [c' e]; cbn [fst snd] in *. intros o Ho.
  destruct (decide ((gvr, k) = (map_resource mapping, meta_key m))) as [Heq|Hne].
  - injection Heq as -> ->. destruct e as [e|]; [|by apply Hr in Ho as [? _]]. destruct Hr as [Hg _]. rewrite Hg in Ho.
    by apply Hgone.
  - rewrite Hf in Ho by done. by apply Hgone.
Qed.

Lemma delete_elsewhere c gk m gvr k : k ≠ meta_key m → d_get (deleteManagedObject RESTMapper c gk m).1 gvr k = d_get c gvr k.
Proof.
  intros Hne. unfold deleteManagedObject. destruct (wrap_err _ _) as [mapping|]; [|done].
  pose proof (d_delete_frame c (map_resource mapping) (meta_key m) gvr k) as Hf.
  destruct (d_delete _ _ _) as [c' e]; cbn [fst snd] in *. apply Hf. congruence.
Qed.
Lemma release_elsewhere c gk m am gvr k : k ≠ meta_key m → d_get (releaseManagedObject RESTMapper c gk m am).1 gvr k = d_get c gvr k.
Proof.
  intros Hne. unfold releaseManagedObject. destruct (negb _); [done|]. destruct (wrap_err _ _) as [mapping|]; [|done].
  pose proof (retried_invariant _ (λ s, d_get s.1 gvr k = d_get c gvr k) _ _
    (retry_retried (release_attempt (map_resource mapping) (meta_key m) am) (c, false))) as Hi.
  destruct (RetryOnConflict _ _) as [[c' b] err]. apply Hi; [|done]. clear Hi.
  intros [c1 b1] Hs. rewrite <- Hs. clear Hs. unfold release_attempt. cbn [fst].
  destruct (d_get c1 _ (meta_key m)) as [o|e]; [|by destruct (IsNotFound e)]. destruct (negb _); [done|]. cbn zeta.
  match goal with |- context [d_patch ?a ?b ?d ?p] => pose proof (d_patch_frame a b d p gvr k ltac:(congruence)) as Hf end.
  by destruct (d_patch _ _ _ _) as [c2 [e|]].
Qed.

(** A loop over objects that ends without an error: no step had one; what no
    step destroys is there at the end, and so is what each step brings about. *)
Lemma for_each_invariant (op : C → ObjectMeta → C * result bool) (P : C → Prop) l acc :
  (∀ c m, m ∈ l → P c → P (op c m).1) → P acc.1 → P (for_each op acc l).1.
Proof.
  revert acc. induction l as [|m l IH]; intros [c e] Hop HP; [done|]. cbn [for_each foldl].
  pose proof (Hop c m (list_elem_of_here _ _) HP) as Hm. destruct (op c m) as [c' r]. apply (IH (c', _)); [|done].
  intros; apply Hop; [by right|done].
Qed.
Lemma for_each_errs (op : C → ObjectMeta → C * result bool) l acc : (for_each op acc l).2 = None → acc.2 = None.
Proof.
  revert acc. induction l as [|m l IH]; intros [c e]; [done|]. cbn [for_each foldl]. destruct (op c m) as [c' [b|e']].
  - apply (IH (c', _)).
  - intros Hn. apply (IH (c', _)) in Hn. by apply join_err_ne in Hn.
Qed.
Lemma for_each_all (op : C → ObjectMeta → C * result bool) (Q : C → ObjectMeta → Prop) l acc :
  (∀ c m, m ∈ l → is_ok (op c m).2 = true → Q (op c m).1 m) →
  (∀ c m x, m ∈ l → Q c x → Q (op c m).1 x) →
  (for_each op acc l).2 = None → ∀ m, m ∈ l → Q (for_each op acc l).1 m.
Proof.
  intros Hq Hkeep. revert acc. induction l as [|y l IH]; intros [c e] Hn m Hm; [by apply elem_of_nil in Hm|].
  cbn [for_each foldl] in *. pose proof (Hq c y (list_elem_of_here _ _)) as Hy. destruct (op c y) as [c' r] eqn:E.
  simpl in Hy. apply elem_of_cons in Hm as [->|Hm].
  - apply (for_each_invariant op (λ c, Q c y) l (c', _)); [intros; apply Hkeep; [by right|done]|].
    apply (for_each_errs op l (c', _)) in Hn. destruct r; [by apply Hy|by apply join_err_ne in Hn].
  - apply (IH (λ c m Hin, Hq c m (list_elem_of_further _ _ _ Hin)) (λ c m x Hin, Hkeep c m x (list_elem_of_further _ _ _ Hin)) (c', _)); done.
Qed.

Lemma collect_known c gk ownerRef res mapping :
  collectGroupKindResources RESTMapper SystemNamespace c gk ownerRef = Ok res → RESTMapper gk = Ok mapping →
  known c gk (map_resource mapping) res c (gkr_managedByNamespacedName res).
Proof.
  intros Hc Hmap ns n m Hns Hl Hset. pose proof (collect_Ok _ _ _ _ Hc) as (mapping' & Hmap' & _ & _ & _ & _ & Hby & Hman).
  rewrite Hmap in Hmap'. injection Hmap' as <-. rewrite Hby in Hl. apply index_by_Some in Hl as (x & Hx & Hk & Hv).
  simpl in Hv. subst x. destruct (collect_copies _ _ _ _ _ Hc Hx) as (_ & Hsl & _).
  apply NamespacedName_inj in Hk as [<- <-]; [|done|apply Hns].
  apply Hman in Hx as (_ & Hl & o & Hg & Ho). eapply ready_settled; [by left|exact Hg|]. rewrite Ho. right.
  unfold settled in Hset. by rewrite Hl in Hset.
Qed.

Lemma cleanup_errs c am gk remove release :
  let mid := for_each (λ c obj, releaseManagedObject RESTMapper c gk obj am) (c, None) release in
  (cleanupManagedResources RESTMapper c am gk remove release).2 = None → mid.2 = None.
Proof. intros mid Hn. by apply for_each_errs in Hn. Qed.

Lemma cleanup_gone c am gk mapping remove release m :
  RESTMapper gk = Ok mapping → (cleanupManagedResources RESTMapper c am gk remove release).2 = None → m ∈ remove →
  gone (cleanupManagedResources RESTMapper c am gk remove release).1 (map_resource mapping) (meta_key m).
Proof.
  intros Hmap Hn Hm. unfold cleanupManagedResources in *.
  apply (for_each_all _ (λ c m, gone c (map_resource mapping) (meta_key m))); [| |done|done].
  - intros c' x _. by apply delete_gone.
  - intros c' y x _. apply delete_keeps_gone.
Qed.

Lemma cleanup_elsewhere c am gk gvr k remove release : (∀ m, m ∈ remove ++ release → meta_key m ≠ k) →
  d_get (cleanupManagedResources RESTMapper c am gk remove release).1 gvr k = d_get c gvr k.
Proof.
  intros Hm. unfold cleanupManagedResources. apply (for_each_invariant _ (λ c', d_get c' gvr k = d_get c gvr k)).
  - intros c' m Hin <-. apply delete_elsewhere, not_eq_sym, Hm, elem_of_app. by left.
  - apply (for_each_invariant _ (λ c', d_get c' gvr k = d_get c gvr k)); [|done]. intros c' m Hin <-.
    apply release_elsewhere, not_eq_sym, Hm, elem_of_app. by right.
Qed.

(** C29: a kind that is reconciled without an error has converged. Where a rule
    wants a copy and there was nothing, there is one: the source of that name in
    the system namespace without its status, with the rewrites of its kind, with
    the managed label and the AccessManagement as its only owner. Where there was
    a managed copy it has that owner too, with its label and content as they were.
    Where an object that is not managed is in the way, it is untouched, and the
    copy is not made. Every managed copy outside the system namespace that the
    rules do not want, owned by the AccessManagement alone, is gone or marked for
    deletion. *)
Theorem reconcile_kind_converges am ownerRef rules c gk c' status res :
  (∀ rule ns, rule ∈ rules → ns ∈ rule_namespaces rule → good_namespace ns) →
  collectGroupKindResources RESTMapper SystemNamespace c gk ownerRef = Ok res →
  reconcile_kind RESTMapper SystemNamespace am ownerRef rules c None gk = (c', status, None) →
  let wanted := distributed u_labels rules gk (gkr_system res) in
  status = "" ∧ gkr_ownerRef res = ownerRef ∧ ∃ mapping, RESTMapper gk = Ok mapping ∧
    (∀ name src, gkr_system res !! name = Some src → d_get c (map_resource mapping) (mkKey SystemNamespace name) = Ok src) ∧
    (∀ t, wanted t → copy_ready c gk (map_resource mapping) res c' (target_at t)) ∧
    (∀ m, m ∈ gkr_managed res → ¬ wanted (copy_of id m) →
       (∀ ref, ref ∈ om_ownerReferences m → IsAccessManagementOwnerReference ref am = true) →
       gone c' (map_resource mapping) (meta_key m)).
Proof.
  intros Hns Hc Hk. cbn zeta. pose proof (collect_Ok _ _ _ _ Hc) as (mapping & Hmap & Hnsd & Hsys & Href & Hname & _ & _).
  unfold reconcile_kind in Hk. rewrite Hc in Hk. destruct (PlanGroupKind _ _ _ _ _ _ _) as [plan|e] eqn:Hp;
    [|injection Hk as _ _ Hk; by apply join_err_ne in Hk].
  pose proof (PlanGroupKind_exact u_labels id rules gk _ _ am plan Hp (λ r ns Hr Hn, proj1 (proj2 (Hns r ns Hr Hn)))
    (λ m Hm, proj1 (proj2 (collect_copies _ _ _ _ m Hc Hm)))) as (_ & Hdes & Hrem & Hrel).
  assert (∀ t, t ∈ Desired plan → good_namespace (tgt_namespace t)) as Hgood.
  { intros t Ht. apply Hdes in Ht as (rule & Hr & res' & _ & _ & Hn & _). by eapply Hns. }
  pose proof (distribute_ready c gk (map_resource mapping) res (λ m H, ltac:(congruence)) Hsys (λ n o Ho, proj1 (Hname n o Ho)) (Desired plan) Hgood
    (collect_known _ _ _ _ _ Hc Hmap)) as Hdist.
  destruct (distribute _ _ _ _ _) as [c1 e1]. cbn [fst snd] in Hdist.
  pose proof (cleanup_gone c1 am gk mapping (Remove plan) (Release plan)) as Hgone.
  pose proof (λ k, cleanup_elsewhere c1 am gk (map_resource mapping) k (Remove plan) (Release plan)) as Hother.
  destruct (cleanupManagedResources _ _ _ _ _ _) as [c2 e2]. cbn [fst snd] in *. injection Hk as <- <- He.
  destruct e1 as [e1|]; [exfalso; destruct e2; by apply join_err_ne in He|].
  destruct e2 as [e2|]; [exfalso; by apply join_err_ne in He|].
  split; [done|]. split; [done|]. exists mapping. split; [done|]. split; [|split].
  - intros name src Hs. destruct (Hname _ _ Hs) as (Hn & k & Hkns & Hg). apply d_get_key in Hg as Hkey.
    assert (k = mkKey SystemNamespace name) as ->; [|done]. destruct k as [ns n]. cbn in *. subst. unfold meta_key in Hkey. by injection Hkey as _ <-.
  - intros t Ht. apply Hdes in Ht as Hin. eapply ready_same; [|by apply Hdist]. apply Hother.
    intros m [Hm|Hm]%elem_of_app Heq; [apply Hrem in Hm as (_ & Hnot & _)|apply Hrel in Hm as (_ & Hnot & _)];
      apply Hnot; unfold copy_of, target_at, meta_key in *; simpl; injection Heq as -> ->; by destruct t.
  - intros m Hm Hnot Hmine. apply Hgone; [done|done|]. by apply Hrem.
Qed.
Context `{!Getter C ClusterRole} `{!Writer C ClusterRole} `{!Deleter C ClusterRole}.
(** Neither does writing the cluster role. *)
Hypothesis role_writes : ∀ (c : C) (x : ClusterRole) gvr k, key_ns k ≠ "" →
  d_get (c_create c x).1 gvr k = d_get c gvr k ∧ d_get (c_update c x).1 gvr k = d_get c gvr k ∧
  d_get (c_delete c x).1 gvr k = d_get c gvr k.

Lemma ensureDynamicRBAC_get c am gks gvr k :
  key_ns k ≠ "" → d_get (ensureDynamicRBAC RESTMapper c am gks).1 gvr k = d_get c gvr k.
Proof.
  intros Hk. unfold ensureDynamicRBAC. destruct (c_get c _) as [role|err].
  - case_bool_decide.
    + destruct (role_writes c role gvr k Hk) as (_ & _ & Hd). by destruct (c_delete c role).
    + destruct (_ && _); [done|]. by apply role_writes.
  - destruct (IsNotFound err); [|done]. case_bool_decide; [done|]. destruct (SetControllerReference _ _); [|done].
    by apply role_writes.
Qed.

(** C28: whatever a reconciliation does, and however it ends, every object of the
    system namespace and every object without the managed label, of any kind
    and in any namespace, is afterwards exactly what it was, and none appears:
    sources are never written and nothing foreign is overwritten, adopted,
    patched or deleted. *)
Theorem reconcile_protects GVKForObject c am gvr k o :
  key_ns k ≠ "" → has_managed_label (u_meta o) = false ∨ key_ns k = SystemNamespace →
  d_get c gvr k = Ok o ↔ d_get (reconcileObj RESTMapper SystemNamespace GVKForObject c am).1.1 gvr k = Ok o.
Proof.
  intros Hk Ho.
  enough (frame c (reconcileObj RESTMapper SystemNamespace GVKForObject c am).1.1) as Hf by exact (Hf gvr k o Hk Ho).
  unfold reconcileObj. cbn zeta.
  match goal with |- context [ensureDynamicRBAC _ _ _ ?gks] =>
    assert (frame c (ensureDynamicRBAC RESTMapper c am gks).1) as Hr by (intros g k' o' Hk' _; by rewrite ensureDynamicRBAC_get)
  end.
  destruct (ensureDynamicRBAC _ _ _ _) as [c1 [e|]]; [done|]. simpl in Hr.
  destruct (accessManagementOwnerReference _ _) as [ownerRef|]; [|done]. destruct (ResolveRules _ _ _) as [rules|]; [|done].
  match goal with |- context [reconcile_kinds _ _ _ _ _ ?acc ?gks] =>
    pose proof (reconcile_kinds_frame am ownerRef rules acc gks) as Hks end.
  destruct (reconcile_kinds _ _ _ _ _ _ _) as [[c2 st] [e|]]; simpl in *; by etransitivity.
Qed.
End protection.

(** ** Properties: namespace events *)

Section events.
Context `{!LabelSelectors} `{!LabelParser} {C : Type} `{!Lister C Namespace} `{!Lister C AccessManagement}.
Variable SystemNamespace : string.
(** A selector without requirements is empty. *)
Hypothesis empty_selector : ∃ sel, LabelSelectorAsSelector (mkSelector ∅ []) = Ok sel ∧ Selector_Empty sel = true.

Lemma selects_all_targets rule ns :
  targetNamespacesSelectAllNamespaces (ar_targetNamespaces rule) = true → ruleTargetsNamespace rule ns = Ok true.
Proof.
  unfold targetNamespacesSelectAllNamespaces, targetNamespacesHasNonEmptySelector, ruleTargetsNamespace, LabelSelector_of.
  intros [Hl Hs]%andb_true_iff. apply bool_decide_eq_true in Hl. rewrite Hl. cbn [bool_decide negb].
  destruct (bool_decide (rs_stringSelector _ = "")) eqn:Estr; [|done]. cbn [negb] in *.
  destruct (rs_selector (ar_targetNamespaces rule)) as [[ml me]|]; [|done]. simpl in Hs.
  apply negb_true_iff, orb_false_iff in Hs as [Hml Hme]. apply negb_false_iff, bool_decide_eq_true in Hml as ->.
  destruct me; [|done]. destruct empty_selector as (sel & -> & He). simpl. unfold selects. simpl. by rewrite He.
Qed.

Lemma any_rule_true f rules :
  (∀ rule, rule ∈ rules → is_ok (f rule) = true) →
  any_rule f rules = Ok (existsb (λ rule, holds (f rule)) rules).
Proof.
  induction rules as [|rule l IH]; intros Hok; [done|]. cbn [any_rule existsb].
  pose proof (Hok rule (list_elem_of_here _ _)) as Hr. destruct (f rule) as [[|]|]; [done| |done]. simpl.
  apply IH. intros; apply Hok; by right.
Qed.

(** Membership of a namespace that exists, by the rule and by the list of
    targets the rule is resolved to. *)
Lemma rule_targets_listed c nss ns rule l :
  AdmissionChecks.lists nsp_meta c nss → ns ∈ nss → (∀ ns', ns' ∈ nss → om_name (nsp_meta ns') = om_name (nsp_meta ns) → ns' = ns) →
  om_name (nsp_meta ns) ≠ SystemNamespace →
  TargetNamespaces c SystemNamespace (ar_targetNamespaces rule) = Ok l →
  ruleTargetsNamespace rule ns = Ok (bool_decide (om_name (nsp_meta ns) ∈ l)).
Proof.
  intros Hlists Hin Huniq Hsys. destruct (decide (rs_list (ar_targetNamespaces rule) = [])) as [Hl|Hl].
  - unfold TargetNamespaces, ruleTargetsNamespace. rewrite Hl. cbn [length bool_decide].
    rewrite !bool_decide_eq_false_2 by (simpl; lia). destruct (LabelSelector_of _ _) as [sel|]; [|done]. simpl.
    rewrite (Hlists "" _). simpl. intros [= <-]. f_equal.
    match goal with |- ?b = _ => destruct b eqn:E end; symmetry.
    + apply bool_decide_eq_true_2, list_elem_of_fmap. exists ns. split; [done|].
      by rewrite !filterb_elem_of, E, bool_decide_false.
    + apply bool_decide_eq_false_2. intros (ns' & Hn & Hf)%list_elem_of_fmap. rewrite !filterb_elem_of in Hf.
      destruct Hf as [[Hin' Hs] _]. rewrite (Huniq ns' Hin') in Hs by done. simpl in Hs. congruence.
  - rewrite (TargetNamespaces_list c SystemNamespace _ Hl). intros [= <-]. unfold ruleTargetsNamespace.
    rewrite bool_decide_true by (destruct (rs_list _); [done|simpl; lia]). f_equal. apply bool_decide_ext.
    rewrite filterb_elem_of, bool_decide_false by done. tauto.
Qed.

(** AccessManagement objects are cluster-scoped. *)
Lemma am_key_cluster am : om_namespace (am_meta am) = "" → am_key am = mkKey "" (om_name (am_meta am)).
Proof. unfold am_key, meta_key. by intros ->. Qed.

Lemma enqueue_elem l requests :
  (∀ am, am ∈ l → om_namespace (am_meta am) = "") → (∀ k, k ∈ requests → key_ns k = "") →
  (∀ k, k ∈ foldl enqueueRequest requests l → key_ns k = "") ∧
  ∀ k, k ∈ foldl enqueueRequest requests l ↔ k ∈ requests ∨ k ∈ am_key <$> l.
Proof.
  revert requests. induction l as [|am l IH]; intros requests Hl Hr; cbn [foldl].
  { split; [done|]. intros k. rewrite elem_of_nil. tauto. }
  pose proof (am_key_cluster am (Hl am (list_elem_of_here _ _))) as Hkey.
  assert (∀ k, k ∈ enqueueRequest requests am ↔ k ∈ requests ∨ k = am_key am) as He.
  { intros k. unfold enqueueRequest. case_bool_decide as E; [|by rewrite elem_of_app, list_elem_of_singleton].
    split; [by left|]. intros [?| ->]; [done|]. apply list_elem_of_fmap in E as (k' & Hn & Hk').
    rewrite Hkey, Hn. pose proof (Hr k' Hk') as Hns. destruct k'; simpl in *. by subst. }
  destruct (IH (enqueueRequest requests am)) as [Hc Hx].
  - intros; apply Hl; by right.
  - intros k [?| ->]%He; [by apply Hr|by rewrite Hkey].
  - split; [done|]. intros k. rewrite Hx, He, fmap_cons, elem_of_cons. tauto.
Qed.

(** A label update wakes by a rule exactly when it changes what the rule says of
    the namespace. *)
Lemma label_update_affects rule old new x y :
  om_name (nsp_meta old) = om_name (nsp_meta new) →
  ruleTargetsNamespace rule old = Ok x → ruleTargetsNamespace rule new = Ok y →
  ruleAffectedByNamespaceLabelUpdate rule old new = Ok (xorb x y).
Proof.
  unfold ruleTargetsNamespace, ruleAffectedByNamespaceLabelUpdate. intros Hn. case_bool_decide.
  - intros [= <-] [= <-]. by rewrite Hn, xorb_nilpotent.
  - destruct (LabelSelector_of _ _) as [sel|]; [|done]. simpl. intros [= <-] [= <-]. f_equal.
    unfold selects. by destruct sel.2.
Qed.

Lemma by_field_elem c all extract value :
  AdmissionChecks.lists am_meta c all →
  ∃ l, listAccessManagementByField c extract value = Ok l ∧ ∀ am, am ∈ l ↔ am ∈ all ∧ value ∈ extract am.
Proof.
  intros Hl. eexists. split; [apply Hl|]. intros am. rewrite filterb_elem_of. unfold MatchingField. simpl.
  by rewrite bool_decide_eq_true.
Qed.

Lemma true_if (b : bool) : "true" ∈ (if b then ["true"] else []) ↔ b = true.
Proof. destruct b; rewrite ?list_elem_of_singleton, ?elem_of_nil; done. Qed.

Lemma target_lists_elem am name :
  name ∈ ExtractAccessManagementTargetNamespaceLists am ↔
  ∃ rule, rule ∈ am_accessRules am ∧ name ∈ rs_list (ar_targetNamespaces rule).
Proof.
  unfold ExtractAccessManagementTargetNamespaceLists. rewrite isort_elem_of, elem_of_elements, elem_of_list_to_set.
  rewrite list_elem_of_bind. split; intros (rule & ? & ?); by exists rule.
Qed.

(** Which requests the indexes lead to. *)
Lemma requests_elem c all ns :
  AdmissionChecks.lists am_meta c all → (∀ am, am ∈ all → om_namespace (am_meta am) = "") →
  ∀ k, k ∈ mapNamespaceToRequests c ns ↔
    ∃ am, am ∈ all ∧ am_key am = k ∧
      ((∃ rule, rule ∈ am_accessRules am ∧ om_name (nsp_meta ns) ∈ rs_list (ar_targetNamespaces rule)) ∨
       (∃ rule, rule ∈ am_accessRules am ∧ targetNamespacesSelectAllNamespaces (ar_targetNamespaces rule) = true) ∨
       (∃ rule, rule ∈ am_accessRules am ∧ targetNamespacesHasNonEmptySelector (ar_targetNamespaces rule) = true) ∧
       holds (accessManagementTargetsNamespace am ns) = true).
Proof.
  intros Hams Hcl k. unfold mapNamespaceToRequests. cbn zeta.
  destruct (by_field_elem c all ExtractAccessManagementTargetNamespaceLists (om_name (nsp_meta ns)) Hams) as (l1 & -> & H1').
  destruct (by_field_elem c all ExtractAccessManagementTargetsAllNamespaces "true" Hams) as (l2 & -> & H2').
  destruct (by_field_elem c all ExtractAccessManagementUsesSelector "true" Hams) as (l3 & -> & H3').
  destruct (enqueue_elem l1 []) as [Hc1 E1]; [intros am Ha; apply Hcl, (H1' am), Ha|by intros k' ?%elem_of_nil|].
  destruct (enqueue_elem l2 (foldl enqueueRequest [] l1)) as [Hc2 E2]; [intros am Ha; apply Hcl, (H2' am), Ha|done|].
  match goal with |- _ ∈ foldl _ _ ?l ↔ _ => destruct (enqueue_elem l (foldl enqueueRequest (foldl enqueueRequest [] l1) l2)) as [_ E3] end.
  { intros am Ha. apply filterb_elem_of in Ha as [Ha _]. apply Hcl, (H3' am), Ha. } { done. }
  rewrite E3, E2, E1, elem_of_nil, !list_elem_of_fmap. setoid_rewrite filterb_elem_of.
  setoid_rewrite H1'. setoid_rewrite H2'. setoid_rewrite H3'. setoid_rewrite target_lists_elem.
  unfold ExtractAccessManagementTargetsAllNamespaces, ExtractAccessManagementUsesSelector.
  setoid_rewrite true_if. setoid_rewrite existsb_elem_of. split.
  - intros [[[[]|(am & -> & Ha & Hp)]|(am & -> & Ha & Hp)]|(am & -> & [Ha Hp] & Hh)]; exists am; eauto 8.
  - intros (am & Ha & <- & [Hp|[Hp|[Hp Hh]]]); [left; left; right|left; right|right]; exists am; auto.
Qed.

(** A namespace that appears or is relabelled wakes an AccessManagement
    exactly when one of its rules distributes into it: the lookup by index
    finds what resolving every rule would. *)
Lemma namespace_wakes_its_rules c all nss ns :
  AdmissionChecks.lists am_meta c all → AdmissionChecks.lists nsp_meta c nss →
  (∀ am, am ∈ all → om_namespace (am_meta am) = "") →
  ns ∈ nss → (∀ ns', ns' ∈ nss → om_name (nsp_meta ns') = om_name (nsp_meta ns) → ns' = ns) →
  om_name (nsp_meta ns) ≠ SystemNamespace →
  (∀ am rule, am ∈ all → rule ∈ am_accessRules am → is_ok (TargetNamespaces c SystemNamespace (ar_targetNamespaces rule)) = true) →
  ∀ k, k ∈ mapNamespaceToRequests c ns ↔
       ∃ am, am ∈ all ∧ am_key am = k ∧ ∃ rule l, rule ∈ am_accessRules am ∧
         TargetNamespaces c SystemNamespace (ar_targetNamespaces rule) = Ok l ∧ om_name (nsp_meta ns) ∈ l.
Proof.
  intros Hams Hnss Hcl Hin Huniq Hsys Hok k.
  assert (∀ am rule, am ∈ all → rule ∈ am_accessRules am →
    ∃ l, TargetNamespaces c SystemNamespace (ar_targetNamespaces rule) = Ok l ∧
         ruleTargetsNamespace rule ns = Ok (bool_decide (om_name (nsp_meta ns) ∈ l))) as Hrule.
  { intros am rule Ha Hr. specialize (Hok am rule Ha Hr). destruct (TargetNamespaces _ _ _) as [l|] eqn:E; [|done].
    exists l. split; [done|]. by eapply rule_targets_listed. }
  assert (∀ am, am ∈ all → (∃ rule l, rule ∈ am_accessRules am ∧
      TargetNamespaces c SystemNamespace (ar_targetNamespaces rule) = Ok l ∧ om_name (nsp_meta ns) ∈ l) ↔
    ∃ rule, rule ∈ am_accessRules am ∧ ruleTargetsNamespace rule ns = Ok true) as Htargets.
  { intros am Ha. split.
    - intros (rule & l & Hr & Hl & Hn). exists rule. split; [done|]. destruct (Hrule am rule Ha Hr) as (l' & Hl' & ->).
      ok_eq. by rewrite bool_decide_true.
    - intros (rule & Hr & Ht). destruct (Hrule am rule Ha Hr) as (l & Hl & Hb). rewrite Ht in Hb. injection Hb as Hb.
      exists rule, l. split_and!; [done..|]. symmetry in Hb. by apply bool_decide_eq_true in Hb. }
  rewrite (requests_elem c all ns Hams Hcl k). split.
  - intros (am & Ha & Hk & Hm). exists am. split_and!; [done..|]. apply Htargets; [done|].
    destruct Hm as [(rule & Hr & Hn)|[(rule & Hr & Hs)|[_ Hh]]].
    + exists rule. split; [done|]. unfold ruleTargetsNamespace. rewrite !bool_decide_true; [done|done|].
      destruct (rs_list _); [by apply elem_of_nil in Hn|simpl; lia].
    + exists rule. split; [done|]. by apply selects_all_targets.
    + unfold accessManagementTargetsNamespace in Hh. rewrite any_rule_true in Hh.
      * simpl in Hh. apply existsb_elem_of in Hh as (rule & Hr & Ht). exists rule. split; [done|].
        by destruct (ruleTargetsNamespace rule ns) as [[|]|].
      * intros rule Hr. by destruct (Hrule am rule Ha Hr) as (l & _ & ->).
  - intros (am & Ha & Hk & Hm). exists am. split_and!; [done..|]. apply (Htargets am Ha) in Hm as (rule & Hr & Ht).
    destruct (decide (om_name (nsp_meta ns) ∈ rs_list (ar_targetNamespaces rule))) as [Hl|Hl]; [left; by exists rule|].
    right. destruct (targetNamespacesHasNonEmptySelector (ar_targetNamespaces rule)) eqn:Hsel.
    + right. split; [by exists rule|]. unfold accessManagementTargetsNamespace. rewrite any_rule_true.
      * simpl. apply existsb_elem_of. exists rule. by rewrite Ht.
      * intros rule' Hr'. by destruct (Hrule am rule' Ha Hr') as (l & _ & ->).
    + left. exists rule. split; [done|]. unfold targetNamespacesSelectAllNamespaces. rewrite Hsel, andb_true_r.
      apply bool_decide_eq_true_2, length_zero_iff_nil. revert Ht. unfold ruleTargetsNamespace. case_bool_decide as E.
      * by rewrite bool_decide_false.
      * intros _. destruct (rs_list _); [done|simpl in E; lia].
Qed.
End events.

(** ** Properties: permissions *)

Section permissions.
Context `{!MapRange string}.
Variable RESTMapper : GroupKind → result RESTMapping.

(** The resource is one a namespaced kind of the list is served as. *)
Definition needs (gks : list GroupKind) (group resource : string) : Prop :=
  ∃ gk mapping, gk ∈ gks ∧ RESTMapper gk = Ok mapping ∧ map_namespaced mapping = true ∧
    gvr_group (map_resource mapping) = group ∧ gvr_resource (map_resource mapping) = resource.

Lemma rbac_fold gks group resource :
  resource ∈ default ∅ (foldl (rbac_step RESTMapper) ∅ gks !! group) ↔ needs gks group resource.
Proof.
  induction gks as [|gk l IH] using rev_ind.
  { simpl. rewrite lookup_empty. simpl. split; [set_solver|]. by intros (? & ? & ?%elem_of_nil & _). }
  rewrite foldl_app. cbn [foldl]. unfold rbac_step at 1.
  assert (needs (l ++ [gk]) group resource ↔ needs l group resource ∨ needs [gk] group resource) as ->.
  { unfold needs. setoid_rewrite elem_of_app. split; [|by intros [(a & b & ? & ?)|(a & b & ? & ?)]; exists a, b; auto].
    intros (a & b & [?|?] & ?); [left|right]; by exists a, b. }
  assert (needs [gk] group resource ↔ ∃ mapping, RESTMapper gk = Ok mapping ∧ map_namespaced mapping = true ∧
    gvr_group (map_resource mapping) = group ∧ gvr_resource (map_resource mapping) = resource) as ->.
  { unfold needs. split; [intros (a & b & ->%list_elem_of_singleton & ?); by exists b|intros (b & ?); exists gk, b].
    by rewrite list_elem_of_singleton. }
  rewrite <- IH. destruct (RESTMapper gk) as [mapping|].
  2: { split; [by left|]. intros [?|(? & ? & _)]; done. }
  destruct (map_namespaced mapping) eqn:En; cbn [negb].
  2: { split; [by left|]. intros [?|(m & [= <-] & Hm & _)]; [done|congruence]. }
  destruct (decide (gvr_group (map_resource mapping) = group)) as [<-|Hg].
  - rewrite lookup_insert_eq. simpl. rewrite elem_of_union, elem_of_singleton. split.
    + intros [->|?]; [right; by exists mapping|by left].
    + intros [?|(m & [= <-] & _ & _ & <-)]; [by right|by left].
  - rewrite lookup_insert_ne by done. split; [by left|]. intros [?|(m & [= <-] & _ & ? & _)]; done.
Qed.

(** The permissions granted are exactly those on the namespaced kinds handled
    that resolve: nothing cluster-scoped, nothing that no rule refers to, and no
    wildcard. *)
Lemma rbac_rules_exact gks group resource :
  (∃ rule, rule ∈ buildResourceRBACRules RESTMapper gks ∧ group ∈ pr_apiGroups rule ∧ resource ∈ pr_resources rule) ↔
  needs gks group resource.
Proof.
  rewrite <- rbac_fold. unfold buildResourceRBACRules. cbn zeta. set (m := foldl _ _ gks). split.
  - intros (rule & Hr & Hg & Hres). apply list_elem_of_fmap in Hr as (g & -> & _). simpl in *.
    apply list_elem_of_singleton in Hg as ->. by rewrite isort_elem_of, range_seq_elem in Hres.
  - intros Hres. destruct (m !! group) as [rs|] eqn:E; [|simpl in Hres; set_solver].
    eexists. split; [apply list_elem_of_fmap; exists group; split; [done|]|].
    + rewrite isort_elem_of, range_seq_elem, elem_of_dom. by exists rs.
    + simpl. split; [left|]. rewrite isort_elem_of, range_seq_elem, E. done.
Qed.

(** Adopting and releasing copies patches them. *)
Example patch_not_granted gks rule : rule ∈ buildResourceRBACRules RESTMapper gks → "patch" ∉ pr_verbs rule.
Proof. intros (g & -> & _)%list_elem_of_fmap. simpl. apply (bool_decide_unpack _). by vm_compute. Qed.
End permissions.
