(* ===== verification/AccessServer.v ===== *)
(** * Access management on a server held in memory.

    Generic objects in a finite map, with the calls of the access management
    controller, satisfying what [DynamicStore] promises; the library helpers the
    controller calls, for running it; and concrete inputs of its theorems. *)

From S2P Require Import Prelude GoStrings Api ApiManagement Kube ServiceBasics Cluster AdmissionChecks Webhooks ObjectWebhooks AccessManagement AccessController.

#[local] Existing Instance simple_sel.
#[local] Existing Instance equality_parser.
#[local] Existing Instance split_versions.

(** ** Library helpers *)

Fixpoint nested_value (v : value) (fields : list string) : result (option value) :=
  match fields with
  | [] => Ok (Some v)
  | f :: fields =>
      match v with
      | VMap m => match m !! f with None => Ok None | Some v => nested_value v fields end
      | _ => Err (ErrNew ("accessor error: not a map at " +:+ f))
      end
  end.
Definition nested_string (obj : gmap string value) (fields : list string) : result (option string) :=
  v ← nested_value (VMap obj) fields;
  match v with
  | None => Ok None
  | Some (VString s) => Ok (Some s)
  | Some _ => Err (ErrNew "accessor error: not a string")
  end.
Definition nested_map (obj : gmap string value) (fields : list string) : result bool :=
  v ← nested_value (VMap obj) fields;
  match v with None => Ok false | Some (VMap _) => Ok true | Some _ => Err (ErrNew "accessor error: not a map") end.
Fixpoint set_nested (obj : gmap string value) (s : string) (fields : list string) : result (gmap string value) :=
  match fields with
  | [] => Err (ErrNew "no field")
  | f :: fields =>
      match fields with
      | [] => Ok (<[f := VString s]> obj)
      | _ => match obj !! f with
             | None => m ← set_nested ∅ s fields; Ok (<[f := VMap m]> obj)
             | Some (VMap m) => m ← set_nested m s fields; Ok (<[f := VMap m]> obj)
             | Some _ => Err (ErrNew "value cannot be set")
             end
      end
  end.

Lemma set_nested_spec obj s fields obj' : set_nested obj s fields = Ok obj' → nested_string obj' fields = Ok (Some s).
Proof.
  revert obj obj'. induction fields as [|f fields IH]; intros obj obj'; [done|]. destruct fields as [|g fields].
  - intros [= <-]. unfold nested_string. cbn [nested_value]. by rewrite lookup_insert_eq.
  - cbn [set_nested]. intros Hs. assert (∃ m m', set_nested m s (g :: fields) = Ok m' ∧ obj' = <[f := VMap m']> obj) as (m & m' & Hm & ->).
    { destruct (obj !! f) as [[|m|]|]; try done; apply bind_Ok in Hs as (m' & Hm & [= <-]); [by exists m, m'|by exists ∅, m']. }
    unfold nested_string. cbn [nested_value]. rewrite lookup_insert_eq. exact (IH _ _ Hm).
Qed.
#[export] Instance map_fields : NestedFields :=
  {| NestedString := nested_string; NestedMap_found := nested_map; SetNestedField := set_nested;
     Nested_set := set_nested_spec |}.

(** No ClusterTemplate is converted in the inputs below. *)
#[export] Instance no_converter : Converter :=
  {| FromUnstructured _ := Err (ErrNew "not convertible"); ToUnstructured _ := Err (ErrNew "not convertible") |}.

Definition same_owner (a b : OwnerReference) : bool :=
  bool_decide (own_kind a = own_kind b) && bool_decide (own_name a = own_name b).
Definition upsert_owner (o : OwnerReference) (refs : list OwnerReference) : list OwnerReference :=
  filterb (λ r, negb (same_owner r o)) refs ++ [o].
#[export] Program Instance upsert_owners : OwnerHelpers := {|
  SetOwnerReference o refs := Ok (upsert_owner o refs);
  SetControllerReference am refs :=
    Ok (upsert_owner (mkOwner "k0rdent.mirantis.com/v1beta1" AccessManagementKind (om_name (am_meta am))
                        (om_uid (am_meta am)) true true) refs)
|}.
Next Obligation. intros o refs refs' [= <-]. apply elem_of_app. right. left. Qed.

(** At most [n] more attempts. *)
Fixpoint retry_times {S} (n : nat) (f : S → S * option gerror) (s : S) : S * option gerror :=
  match n with
  | 0 => f s
  | S n => match f s with
           | (s', Some e) => if IsConflict e then retry_times n f s' else (s', Some e)
           | r => r
           end
  end.
Lemma retry_times_retried {S} n (f : S → S * option gerror) s : retried f s (retry_times n f s).
Proof.
  revert s. induction n as [|n IH]; intros s; [constructor|]. cbn [retry_times].
  destruct (f s) as [s' [e|]] eqn:E; [|rewrite <- E; constructor].
  destruct (IsConflict e) eqn:Ec; [by eapply retried_again|rewrite <- E; constructor].
Qed.
#[export] Instance five_attempts : Retrier :=
  {| RetryOnConflict S := retry_times 4; retry_retried S := retry_times_retried 4 |}.

(** ** The server *)

#[export] Program Instance GVR_countable : Countable GVR :=
  inj_countable' (λ g, (gvr_group g, gvr_version g, gvr_resource g)) (λ p, mkGVR p.1.1 p.1.2 p.2) _.
Next Obligation. by intros []. Qed.

Record Server := mkServer {
  sv_objects : gmap (GVR * ObjectKey) Unstructured;
  sv_namespaces : gset string;
  sv_role : option ClusterRole }.
Definition with_objects (f : gmap (GVR * ObjectKey) Unstructured → gmap (GVR * ObjectKey) Unstructured) (c : Server) : Server :=
  mkServer (f (sv_objects c)) (sv_namespaces c) (sv_role c).

(** Objects are in a namespace whose name has no slash, under their own key. *)
Definition valid_key (k : ObjectKey) : bool :=
  negb (bool_decide (key_ns k = "")) && negb (bool_decide (byte_slash ∈ bytes (key_ns k))).
Definition set_key (k : ObjectKey) (m : ObjectMeta) : ObjectMeta :=
  mkMeta (key_name k) (key_ns k) (om_uid m) (om_generation m) (om_labels m) (om_annotations m)
    (om_ownerReferences m) (om_finalizers m) (om_deletionTimestamp m).
Definition stored (k : ObjectKey) (o : Unstructured) : Unstructured :=
  mkUnstructured (set_key k (u_meta o)) (u_resourceVersion o) (u_creationTimestamp o) (u_managedFields o) (u_content o).

Definition server_get (c : Server) (gvr : GVR) (k : ObjectKey) : result Unstructured :=
  if valid_key k then
    match sv_objects c !! (gvr, k) with
    | Some o => Ok (stored k o)
    | None => Err (not_found_err (gvr_resource gvr) k)
    end
  else Err (not_found_err (gvr_resource gvr) k).
Definition server_create (c : Server) (gvr : GVR) (ns : string) (o : Unstructured) : Server * option gerror :=
  let k := mkKey ns (om_name (u_meta o)) in
  if negb (valid_key k) then (c, Some (ErrNew "invalid namespace"))
  else if is_ok (server_get c gvr k) then (c, Some already_exists)
  else (with_objects (<[(gvr, k) := o]>) c, None).
Definition server_delete (c : Server) (gvr : GVR) (k : ObjectKey) : Server * option gerror :=
  if is_ok (server_get c gvr k) then (with_objects (delete (gvr, k)) c, None)
  else (c, Some (not_found_err (gvr_resource gvr) k)).
Definition server_patch (c : Server) (gvr : GVR) (k : ObjectKey) (p : string * list OwnerReference) : Server * option gerror :=
  match server_get c gvr k with
  | Err e => (c, Some e)
  | Ok o =>
      if bool_decide (u_resourceVersion o = p.1)
      then (with_objects (<[(gvr, k) := mkUnstructured (set_owners p.2 (u_meta o)) (u_resourceVersion o)
              (u_creationTimestamp o) (u_managedFields o) (u_content o)]>) c, None)
      else (c, Some (ErrApi ReasonConflict "the object has been modified"))
  end.
(** The objects of a resource that satisfy [p], in key order. *)
Definition server_objects (c : Server) (gvr : GVR) (p : ObjectKey → ObjectMeta → bool) : list Unstructured :=
  omap (λ q, match server_get c gvr q.1.2 with
             | Ok o => if bool_decide (q.1.1 = gvr) && p q.1.2 (u_meta o) then Some o else None
             | Err _ => None
             end) (map_to_list (sv_objects c)).

#[export] Instance server_dynamic : DynamicClient Server := {|
  d_get := server_get; d_create := server_create; d_delete := server_delete; d_patch := server_patch;
  d_list c gvr ns := Ok (server_objects c gvr (λ k _, bool_decide (key_ns k = ns)));
  d_list_managed c gvr := Ok (u_meta <$> server_objects c gvr (λ _ m, has_managed_label m)) |}.

Lemma server_objects_elem c gvr p o :
  o ∈ server_objects c gvr p ↔ ∃ k, server_get c gvr k = Ok o ∧ p k (u_meta o) = true.
Proof.
  unfold server_objects. rewrite list_elem_of_omap. split.
  - intros ([[g k] x] & Hx & Hp). simpl in Hp. exists k. destruct (server_get c gvr k) as [o'|]; [|done].
    destruct (bool_decide (g = gvr)); [|done]. simpl in Hp. destruct (p k (u_meta o')) eqn:E; [|done]. by injection Hp as <-.
  - intros (k & Hg & Hp). assert (∃ x, sv_objects c !! (gvr, k) = Some x) as [x Hx].
    { unfold server_get in Hg. destruct (valid_key k); [|done]. destruct (sv_objects c !! _) as [x|]; [by exists x|done]. }
    exists ((gvr, k), x). split; [by apply elem_of_map_to_list|]. simpl. by rewrite Hg, bool_decide_true, Hp.
Qed.

(** A write of one object. *)
Lemma server_get_frame c f gvr k g k' :
  (g, k') ≠ (gvr, k) → (∀ i, i ≠ (gvr, k) → f (sv_objects c) !! i = sv_objects c !! i) →
  server_get (with_objects f c) g k' = server_get c g k'.
Proof. intros Hne Hf. unfold server_get. simpl. by rewrite Hf. Qed.

#[export] Program Instance server_store : DynamicStore Server.
Next Obligation.
  intros c gvr k o. cbn [d_get server_dynamic]. unfold server_get. destruct (valid_key k); [|done].
  destruct (sv_objects c !! _); [|done]. intros [= <-]. by destruct k.
Qed.
Next Obligation.
  intros c gvr ns o g k Hne. cbn [d_get d_create server_dynamic]. unfold server_create. cbn zeta.
  destruct (valid_key _); [|done]. cbn [negb]. destruct (is_ok _); [done|]. cbn [fst].
  eapply server_get_frame; [exact Hne|]. intros i Hi. by apply lookup_insert_ne, not_eq_sym.
Qed.
Next Obligation.
  intros c gvr ns o. cbn zeta. cbn [d_get d_create server_dynamic]. unfold server_create. cbn zeta.
  destruct (valid_key _) eqn:Hv; cbn [negb fst snd]; [|by split].
  destruct (is_ok _) eqn:Hok; cbn [fst snd]; [by split|]. split; [done|]. eexists. split.
  - unfold server_get. rewrite Hv. simpl. rewrite lookup_insert_eq. done.
  - done.
Qed.
Next Obligation.
  intros c gvr k g k' Hne. cbn [d_get d_delete server_dynamic]. unfold server_delete. destruct (is_ok _); [|done].
  cbn [fst]. eapply server_get_frame; [exact Hne|]. intros i Hi. by apply lookup_delete_ne, not_eq_sym.
Qed.
Next Obligation.
  intros c gvr k. cbn [d_get d_delete server_dynamic]. unfold server_delete. destruct (is_ok _) eqn:E; cbn [fst snd].
  - intros o'. unfold server_get. simpl. rewrite lookup_delete_eq. by destruct (valid_key k).
  - by split.
Qed.
Next Obligation.
  intros c gvr k p g k' Hne. cbn [d_get d_patch server_dynamic]. unfold server_patch. destruct (server_get c gvr k); [|done].
  destruct (bool_decide _); [|done]. cbn [fst]. eapply server_get_frame; [exact Hne|]. intros i Hi. by apply lookup_insert_ne, not_eq_sym.
Qed.
Next Obligation.
  intros c gvr k p. cbn [d_get d_patch server_dynamic]. unfold server_patch. destruct (server_get c gvr k) as [o|e] eqn:E; [|done].
  destruct (bool_decide _); cbn [fst snd]; [|done].
  exists o, (stored k (mkUnstructured (set_owners p.2 (u_meta o)) (u_resourceVersion o) (u_creationTimestamp o)
               (u_managedFields o) (u_content o))).
  split_and!; [done| |done|done|done]. unfold server_get in *. destruct (valid_key k); [|done].
  cbn [sv_objects with_objects]. by rewrite lookup_insert_eq.
Qed.
Next Obligation.
  intros c gvr ns l o _ [= <-]. rewrite server_objects_elem. setoid_rewrite bool_decide_eq_true.
  split; intros (k & ? & ?); by exists k.
Qed.
Next Obligation.
  intros c gvr l m [= <-]. rewrite list_elem_of_fmap. setoid_rewrite server_objects_elem. split.
  - intros (o & -> & k & Hg & Hp). by exists k, o.
  - intros (k & o & Hg & <- & Hp). exists o. split; [done|]. by exists k.
Qed.

#[export] Instance server_get_namespace : Getter Server Namespace := λ c k,
  if bool_decide (key_name k ∈ sv_namespaces c) then Ok (mkNamespace (named_meta "" (key_name k)))
  else Err (not_found_err "Namespace" k).
#[export] Instance server_write_namespace : Writer Server Namespace := {|
  c_create c x := (mkServer (sv_objects c) ({[ om_name (nsp_meta x) ]} ∪ sv_namespaces c) (sv_role c), None);
  c_update c x := (c, None) |}.
#[export] Instance server_list_namespaces : Lister Server Namespace := λ c ns p,
  Ok (filterb p ((λ n, mkNamespace (named_meta "" n)) <$> elements (sv_namespaces c))).
#[export] Instance server_get_role : Getter Server ClusterRole := λ c k,
  match sv_role c with
  | Some r => if bool_decide (meta_key (cr_meta r) = k) then Ok r else Err (not_found_err "ClusterRole" k)
  | None => Err (not_found_err "ClusterRole" k)
  end.
Definition set_role (r : option ClusterRole) (c : Server) : Server := mkServer (sv_objects c) (sv_namespaces c) r.
#[export] Instance server_write_role : Writer Server ClusterRole := {|
  c_create c r := (set_role (Some r) c, None); c_update c r := (set_role (Some r) c, None) |}.
#[export] Instance server_delete_role : Deleter Server ClusterRole := λ c _, (set_role None c, None).

Lemma server_namespace_create (c : Server) (x : Namespace) gvr k :
  key_ns k ≠ "" → d_get (c_create c x).1 gvr k = d_get c gvr k.
Proof. done. Qed.
Lemma server_role_writes (c : Server) (x : ClusterRole) gvr k : key_ns k ≠ "" →
  d_get (c_create c x).1 gvr k = d_get c gvr k ∧ d_get (c_update c x).1 gvr k = d_get c gvr k ∧
  d_get (c_delete c x).1 gvr k = d_get c gvr k.
Proof. done. Qed.
Lemma server_namespaced (mapper : GroupKind → result RESTMapping) gk mapping (c : Server) k o :
  mapper gk = Ok mapping → map_namespaced mapping = true → d_get c (map_resource mapping) k = Ok o →
  key_ns k ≠ "" ∧ no_slash (key_ns k).
Proof.
  intros _ _. cbn [d_get server_dynamic]. unfold server_get. destruct (valid_key k) eqn:E; [|done]. intros _.
  unfold valid_key in E. by bool_simpl.
Qed.

(** ** Concrete inputs *)

Definition kinds_gvr (resource : string) : GVR := mkGVR Group "v1beta1" resource.
Definition credentials_gvr : GVR := kinds_gvr "credentials".
Definition kcm_mapper (gk : GroupKind) : result RESTMapping :=
  if bool_decide (gk = credential_gk) then Ok (mkMapping credentials_gvr true)
  else if bool_decide (gk = mkGK Group "Region") then Ok (mkMapping (kinds_gvr "regions") false)
  else Err (ErrNew ("no matches for kind " +:+ gk_kind gk)).
Definition kcm_gvk : result (string * string) := Ok ("k0rdent.mirantis.com/v1beta1", AccessManagementKind).

Definition credential (m : ObjectMeta) : Unstructured := mkUnstructured m "1" None [] ∅.
Definition put_credentials (l : list ObjectMeta) : gmap (GVR * ObjectKey) Unstructured :=
  list_to_map ((λ m, ((credentials_gvr, meta_key m), credential m)) <$> l).
(** A source, a copy no rule wants any more, and an object of the team that is
    in the way of a copy. *)
Definition team_server : Server := mkServer
  (put_credentials [named_meta "kcm-system" "a"; named_meta "kcm-system" "c"; owned "team" "b" [am_owner]; named_meta "team" "c"])
  {[ "team" ]} None.
Definition team_am : AccessManagement := am_of [to_namespaces ["team"] [named_resources CredentialKind ["a"; "c"]]].

Lemma reconcile_protects_witness :
  let c' := (reconcileObj kcm_mapper "kcm-system" kcm_gvk team_server team_am).1.1 in
  server_get c' credentials_gvr (mkKey "team" "c") = Ok (credential (named_meta "team" "c")) ∧
  is_ok (server_get c' credentials_gvr (mkKey "team" "a")) = true ∧
  is_ok (server_get c' credentials_gvr (mkKey "team" "b")) = false.
Proof.
  split; [|split; vm_compute; reflexivity].
  apply (reconcile_protects kcm_mapper "kcm-system" server_namespace_create ltac:(done) (server_namespaced kcm_mapper)
    server_role_writes kcm_gvk team_server team_am credentials_gvr (mkKey "team" "c") (credential (named_meta "team" "c")));
    [done|by left|reflexivity].
Defined.

Definition team_kind_run : Server * string * option gerror :=
  reconcile_kind kcm_mapper "kcm-system" team_am am_owner [mkRule ["team"] [named_resources CredentialKind ["a"; "c"]]]
    team_server None credential_gk.
(** The copy is made, the one in the way of another is left. *)
Lemma reconcile_kind_converges_witness :
  team_kind_run.2 = None ∧
  (∃ o, d_get team_kind_run.1.1 credentials_gvr (mkKey "team" "a") = Ok o ∧ om_ownerReferences (u_meta o) = [am_owner] ∧
     om_labels (u_meta o) = Some {[KCMManagedLabelKey := KCMManagedLabelValue]}) ∧
  d_get team_kind_run.1.1 credentials_gvr (mkKey "team" "c") = Ok (credential (named_meta "team" "c")).
Proof.
  assert (team_kind_run.2 = None) as He by (vm_compute; reflexivity). split; [exact He|].
  destruct (collectGroupKindResources kcm_mapper "kcm-system" team_server credential_gk am_owner) as [res|e] eqn:Hc;
    [|discriminate Hc].
  destruct (reconcile_kind_converges kcm_mapper "kcm-system" server_namespace_create ltac:(done) (server_namespaced kcm_mapper)
    team_am am_owner [mkRule ["team"] [named_resources CredentialKind ["a"; "c"]]] team_server credential_gk
    team_kind_run.1.1 team_kind_run.1.2 res) as (_ & Href & mapping & Hmap & _ & Hp & _).
  - intros rule ns ->%list_elem_of_singleton ->%list_elem_of_singleton.
    split_and!; [done|apply (bool_decide_unpack _); vm_compute; exact I|done].
  - exact Hc.
  - etransitivity; [apply (surjective_pairing team_kind_run)|]. rewrite He.
    exact (f_equal (λ p, (p, None)) (surjective_pairing team_kind_run.1)).
  - assert (credentials_gvr = map_resource mapping) as -> by (by injection Hmap as <-).
    split.
    + destruct (Hp (mkTarget "team" "a")) as (o & Hg & Hready).
      * eexists. split; [left|]. eexists. split; [left|]. split; [done|]. split; [left|]. exists ["a"; "c"]. split; [done|left].
      * injection Hmap as <-. assert (is_ok (d_get team_server credentials_gvr (mkKey "team" "a")) = false) as Habs by (vm_compute; reflexivity).
        change (target_at (mkTarget "team" "a")) with (mkKey "team" "a") in *.
        change (map_resource (mkMapping credentials_gvr true)) with credentials_gvr in *.
        destruct (d_get team_server credentials_gvr (mkKey "team" "a")) as [o0|e0]; [discriminate Habs|].
        destruct Hready as (Hl & Ho & _). exists o. split; [exact Hg|]. split; [rewrite <- Href; exact Ho|exact Hl].
    + destruct (Hp (mkTarget "team" "c")) as (o & Hg & Ho).
      * eexists. split; [left|]. eexists. split; [left|]. split; [done|]. split; [left|]. exists ["a"; "c"]. split; [done|right; left].
      * injection Hmap as <-. change (o = credential (named_meta "team" "c")) in Ho. rewrite <- Ho. exact Hg.
Defined.

(** A cluster-scoped kind that is dropped from the rules stays in the status:
    skipping it counts as a cleanup that failed, every time. *)
Definition stale_am : AccessManagement :=
  set_am_resources [mkKindStatus Group "Region" "skipped"] (am_of []).
Example stale_cluster_scoped_stays :
  let '(_, am, err) := reconcileObj kcm_mapper "kcm-system" kcm_gvk team_server stale_am in
  err = None ∧ (status_gk <$> ams_resources (am_status am)) = [mkGK Group "Region"].
Proof. by vm_compute. Qed.

Definition team_namespaces : list Namespace := [mkNamespace (named_meta "" "team"); mkNamespace (named_meta "" "other")].
Lemma namespace_wakes_its_rules_witness :
  let c := mkAccessCluster empty_cluster team_namespaces [team_am] in
  mkKey "" "kcm" ∈ mapNamespaceToRequests c (mkNamespace (named_meta "" "team")) ∧
  mkKey "" "kcm" ∉ mapNamespaceToRequests c (mkNamespace (named_meta "" "other")).
Proof.
  set (c := mkAccessCluster empty_cluster team_namespaces [team_am]).
  assert (∀ ns, ns ∈ team_namespaces → ∀ k, k ∈ mapNamespaceToRequests c ns ↔
       ∃ am, am ∈ [team_am] ∧ am_key am = k ∧ ∃ rule l, rule ∈ am_accessRules am ∧
         TargetNamespaces c "kcm-system" (ar_targetNamespaces rule) = Ok l ∧ om_name (nsp_meta ns) ∈ l) as Hall.
  { intros ns Hns. apply (namespace_wakes_its_rules "kcm-system") with (nss := team_namespaces); [|done|done| |done| | |].
    - exists (mkSelector ∅ []). done.
    - by intros am ->%list_elem_of_singleton.
    - intros ns' Hns'. unfold team_namespaces in *. set_solver.
    - unfold team_namespaces in *. set_solver.
    - by intros am rule ->%list_elem_of_singleton ->%list_elem_of_singleton. }
  split.
  - apply Hall; [left|]. exists team_am. split; [left|]. split; [done|]. eexists _, ["team"]. split; [left|]. split; [done|left].
  - intros (am & ->%list_elem_of_singleton & _ & rule & l & ->%list_elem_of_singleton & Hl & Hn)%Hall; [|right; left].
    injection Hl as <-. by apply list_elem_of_singleton in Hn.
Defined.
