(* ===== verification/HealthRules.v ===== *)
(** * Health rules
    (first part of [src/internal/controller/adapters/sveltos/verify.go]).

    Rules in ConfigMaps say when an object of some kind is healthy, as CEL
    expressions. This file parses and compiles them, through a cache keyed by
    ConfigMap and resource version, collects those that apply to a ServiceSet,
    and reports the ones that do not compile. *)

From S2P Require Import Prelude GoStrings Api ApiManagement Kube ServiceBasics AccessManagement AdmissionChecks.

#[local] Arguments String.append !_ _ / : simpl nomatch.

(** ** Rules *)

Definition healthRuleTargetLabel := "k0rdent.mirantis.com/health-rule-target".
Definition healthRuleTargetGlobal := "global".
Definition healthRuleConfigMapDataKey := "rules".
Definition maxRuleLoadErrorsInCondition : nat := 10.
Definition maxRuleLoadErrorConditionMessageBytes : nat := 20 * 1024.
Definition scopeNamespaced := "Namespaced".
Definition scopeCluster := "Cluster".
Definition celObjectVar := "obj".

(** [schema.GroupVersionKind]. *)
Record GroupVersionKind := mkGVK { gvk_group : string; gvk_version : string; gvk_kind : string }.
#[export] Instance GroupVersionKind_eq_dec : EqDecision GroupVersionKind.
Proof. solve_decision. Defined.

Record ruleDoc := mkRuleDoc {
  rd_group : string; rd_version : string; rd_kind : string;
  rd_scope : string; rd_healthy : string; rd_message : string }.
Record sourcedRuleDoc := mkSourced { srd_doc : ruleDoc; srd_source : string }.

Record ruleLoadError := mkLoadError { rle_err : gerror; rle_source : string }.
Definition ruleLoadError_Error (e : ruleLoadError) : string := rle_source e +:+ ": " +:+ Error (rle_err e).

(** [corev1.ConfigMap]. *)
Record ConfigMap := mkConfigMap {
  cm_meta : ObjectMeta; cm_resourceVersion : string; cm_data : gmap string string }.

(** What a CEL program returns: [Value] with its Go type. *)
Inductive cel_value := CelBool (b : bool) | CelString (s : string) | CelOther (type : string).
Definition cel_type (v : cel_value) : string :=
  match v with CelBool _ => "bool" | CelString _ => "string" | CelOther type => type end.

(** The CEL environment of the verifier: [Compile] with the error of its
    issues, [Program], and [Eval] on the variables an activation resolves. *)
Class CEL (Obj : Type) := {
  cel_Ast : Type;
  cel_Program : Type;
  cel_Compile : string → cel_Ast * option gerror;
  cel_Program_of : cel_Ast → result cel_Program;
  cel_Eval : cel_Program → (string → option Obj) → result cel_value
}.

Section rules.
Context {Obj : Type} `{CEL Obj}.

Definition objActivation_ResolveName (obj : Obj) (name : string) : option Obj :=
  if bool_decide (name = celObjectVar) then Some obj else None.

Definition compileExpr (src : string) : result cel_Program :=
  match cel_Compile src with
  | (_, Some iss) => Err (ErrWrap "compile: " iss)
  | (ast, None) => wrap_err "program: " (cel_Program_of ast)
  end.

Record resourceRule := mkRule {
  rule_healthy : cel_Program; rule_message : cel_Program;
  rule_GVK : GroupVersionKind; rule_Scope : string; rule_Source : string }.

Definition rule_gk (r : resourceRule) : GroupKind := mkGK (gvk_group (rule_GVK r)) (gvk_kind (rule_GVK r)).

(** The body of the loop over the documents: a rule or an error. *)
Definition rule_from_doc (sd : sourcedRuleDoc) : resourceRule + ruleLoadError :=
  let doc := srd_doc sd in
  let failed e := inr (mkLoadError e (srd_source sd)) in
  if bool_decide (rd_kind doc = "") || bool_decide (rd_version doc = "")
  then failed (ErrNew "kind and version are required")
  else if negb (bool_decide (rd_scope doc = scopeNamespaced)) && negb (bool_decide (rd_scope doc = scopeCluster))
  then failed (ErrNew ("scope must be " +:+ quote scopeNamespaced +:+ " or " +:+ quote scopeCluster +:+
         ", got " +:+ quote (rd_scope doc)))
  else match compileExpr (rd_healthy doc) with
       | Err e => failed (ErrWrap "healthy: " e)
       | Ok healthyPrg =>
           match compileExpr (rd_message doc) with
           | Err e => failed (ErrWrap "message: " e)
           | Ok messagePrg =>
               inl (mkRule healthyPrg messagePrg (mkGVK (rd_group doc) (rd_version doc) (rd_kind doc))
                      (rd_scope doc) (srd_source sd))
           end
       end.

Definition rulesFromDocs (docs : list sourcedRuleDoc) : list resourceRule * list ruleLoadError :=
  foldl (λ acc sd,
    match rule_from_doc sd with
    | inl rule => (acc.1 ++ [rule], acc.2)
    | inr e => (acc.1, acc.2 ++ [e])
    end) ([], []) docs.

(** ** One ConfigMap, through the cache *)

Record ruleCacheEntry := mkCacheEntry {
  rce_lastAccess : Z; rce_resourceVersion : string;
  rce_rules : list resourceRule; rce_loadErrs : list ruleLoadError }.

(** In nanoseconds, like every time here. *)
Definition ruleCacheTTL : Z := 5 * 60 * 1000000000.

(** [yaml.Unmarshal] to a list of documents. *)
Variable yaml_Unmarshal : string → result (list ruleDoc).

Definition cm_key (cm : ConfigMap) : ObjectKey := meta_key (cm_meta cm).

(** The three ways a cache miss ends: no rules, an unreadable list, or the
    documents compiled. *)
Definition parse_rules (key : ObjectKey) (data : gmap string string) : list resourceRule * list ruleLoadError :=
  let cm_source := key_ns key +:+ "/" +:+ key_name key in
  match data !! healthRuleConfigMapDataKey with
  | None => ([], [])
  | Some rawRules =>
      if bool_decide (TrimSpace rawRules = "") then ([], [])
      else match yaml_Unmarshal rawRules with
           | Err e => ([], [mkLoadError (ErrWrap ("parse " +:+ quote healthRuleConfigMapDataKey +:+ ": ") e) cm_source])
           | Ok docs =>
               rulesFromDocs (imap (λ i d, mkSourced d (cm_source +:+ "#" +:+ pretty i)) docs)
           end
  end.

Definition rulesFromConfigMap (now : Z) (cache : gmap ObjectKey ruleCacheEntry) (cm : ConfigMap)
  : gmap ObjectKey ruleCacheEntry * (list resourceRule * list ruleLoadError) :=
  let key := cm_key cm in
  let miss :=
    let '(rules, loadErrs) := parse_rules key (cm_data cm) in
    (<[key := mkCacheEntry now (cm_resourceVersion cm) rules loadErrs]> cache, (rules, loadErrs)) in
  match cache !! key with
  | Some cached =>
      if bool_decide (rce_resourceVersion cached = cm_resourceVersion cm) then
        (<[key := mkCacheEntry now (rce_resourceVersion cached) (rce_rules cached) (rce_loadErrs cached)]> cache,
         (rce_rules cached, rce_loadErrs cached))
      else miss
  | None => miss
  end.

Definition sweepRuleCache (now : Z) (cache : gmap ObjectKey ruleCacheEntry) : gmap ObjectKey ruleCacheEntry :=
  let cutoff := (now - ruleCacheTTL)%Z in
  filter (λ p, ¬ (rce_lastAccess p.2 < cutoff)%Z) cache.

(** ** The rules of a ServiceSet *)

(** Its owner that is a MultiClusterService or a ClusterDeployment. *)
Definition serviceSetOwnerName (serviceSet : ServiceSet) : string :=
  match filterb (λ o, bool_decide (own_kind o = MultiClusterServiceKind) ||
                      bool_decide (own_kind o = ClusterDeploymentKind))
          (om_ownerReferences (sset_meta serviceSet)) with
  | o :: _ => own_name o
  | [] => ""
  end.

Record loadState := mkLoad {
  ld_cache : gmap ObjectKey ruleCacheEntry; ld_seen : gset ObjectKey;
  ld_rules : list resourceRule; ld_errs : list ruleLoadError }.

Section load.
(** When the ConfigMap of a key is looked up: at most once per load. *)
Variable now : ObjectKey → Z.

(** The body of the loop over the ConfigMaps listed. *)
Definition load_step (s : loadState) (cm : ConfigMap) : loadState :=
  let key := cm_key cm in
  if bool_decide (key ∈ ld_seen s) then s
  else
    let '(cache, (rules, errs)) := rulesFromConfigMap (now key) (ld_cache s) cm in
    mkLoad cache ({[ key ]} ∪ ld_seen s) (ld_rules s ++ rules) (ld_errs s ++ errs).

Context {C : Type} `{!Lister C ConfigMap} (mgmtClient : C).

(** The ConfigMaps of a tier. *)
Definition listRuleConfigMaps (namespace targetValue : string) : result (list ConfigMap) :=
  wrap_err ("list ConfigMaps in " +:+ namespace +:+ " with " +:+ healthRuleTargetLabel +:+ "=" +:+ targetValue +:+ ": ")
    (c_list mgmtClient namespace (λ cm, has_label healthRuleTargetLabel targetValue (cm_meta cm))).

(** What one call returns is appended by the caller to what it has. *)
Definition listAndLoad (namespace targetValue : string) (s : loadState) : result loadState :=
  foldl load_step s <$> listRuleConfigMaps namespace targetValue.

Definition rule_tiers (systemNamespace : string) (serviceSet : ServiceSet) : list (string * string * string) :=
  let namespace := om_namespace (sset_meta serviceSet) in
  let ownerName := serviceSetOwnerName serviceSet in
  [(systemNamespace, healthRuleTargetGlobal, "list tier 1 rules: ")] ++
  (if negb (bool_decide (namespace = systemNamespace))
   then [(namespace, healthRuleTargetGlobal, "list tier 2 rules: ")] else []) ++
  (if negb (bool_decide (ownerName = "")) then [(namespace, ownerName, "list tier 3 rules: ")] else []).

(** The tiers in turn, up to the first that cannot be listed. The cache keeps
    what was loaded. *)
Fixpoint load_tiers (tiers : list (string * string * string)) (s : loadState) : loadState * option gerror :=
  match tiers with
  | [] => (s, None)
  | (namespace, target, prefix) :: tiers =>
      match listAndLoad namespace target s with
      | Err e => (s, Some (ErrWrap prefix e))
      | Ok s => load_tiers tiers s
      end
  end.

Definition group_rules (rules : list resourceRule) : gmap GroupKind (list resourceRule) := group_by rule_gk rules.

Definition rulesFromConfigMaps (sweep : Z) (cache : gmap ObjectKey ruleCacheEntry) (systemNamespace : string) (serviceSet : ServiceSet)
  : gmap ObjectKey ruleCacheEntry * result (gmap GroupKind (list resourceRule) * list ruleLoadError) :=
  match load_tiers (rule_tiers systemNamespace serviceSet) (mkLoad cache ∅ [] []) with
  | (s, Some e) => (ld_cache s, Err e)
  | (s, None) => (sweepRuleCache sweep (ld_cache s), Ok (group_rules (ld_rules s), ld_errs s))
  end.
End load.
End rules.

(** ** The condition on the ServiceSet *)

Definition serviceSetHealthRulesCondition := "ServiceSetHealthRules".

Definition set_sset_conditions (cs : list Condition) (s : ServiceSet) : ServiceSet :=
  let st := sset_status s in
  mkServiceSet (sset_meta s) (sset_spec s)
    (mkServiceSetStatus (ssst_cluster st) cs (ssst_services st) (ssst_providerReady st) (ssst_providerSuspended st)
       (ssst_deployed st)).

(** [s[:n]], ending in an ellipsis when something is cut off. *)
Definition truncate (n : nat) (s : string) : string :=
  if bool_decide (n < String.length s) then str_take n s +:+ "…" else s.

Definition rule_errors_message (loadErrs : list ruleLoadError) : string :=
  let shown := if bool_decide (maxRuleLoadErrorsInCondition < length loadErrs)
               then take maxRuleLoadErrorsInCondition loadErrs else loadErrs in
  let truncated := length loadErrs - length shown in
  let msg := Join (ruleLoadError_Error <$> shown) "; " in
  let msg := if bool_decide (0 < truncated) then msg +:+ "; …and " +:+ pretty truncated +:+ " more" else msg in
  truncate maxRuleLoadErrorConditionMessageBytes msg.

Definition ruleLoadErrorCondition (generation : Z) (loadErrs : list ruleLoadError) : Condition :=
  if bool_decide (length loadErrs = 0)
  then mkCondition serviceSetHealthRulesCondition CondTrue "AllRulesValid" "All health rules loaded successfully"
         generation 0
  else mkCondition serviceSetHealthRulesCondition CondFalse "HealthRuleInvalid" (rule_errors_message loadErrs)
         generation 0.

Definition applyRuleLoadErrorCondition `{StatusConditions} (serviceSet : ServiceSet) (loadErrs : list ruleLoadError)
  : ServiceSet :=
  set_sset_conditions
    (SetStatusCondition (ssst_conditions (sset_status serviceSet))
       (ruleLoadErrorCondition (om_generation (sset_meta serviceSet)) loadErrs)).1 serviceSet.

(** ** Properties: rules *)

Lemma truncate_length n s : String.length (truncate n s) ≤ n + 3.
Proof.
  unfold truncate. case_bool_decide; [|lia].
  rewrite string_length_app, str_take_length by lia. simpl. lia.
Qed.

Section rule_properties.
Context {Obj : Type} `{CEL Obj}.

Lemma rulesFromDocs_app l k :
  rulesFromDocs (l ++ k) = ((rulesFromDocs l).1 ++ (rulesFromDocs k).1, (rulesFromDocs l).2 ++ (rulesFromDocs k).2).
Proof.
  induction k as [|sd k IH] using rev_ind.
  - simpl. rewrite !app_nil_r. by destruct (rulesFromDocs l).
  - rewrite (app_assoc l k [sd]). unfold rulesFromDocs in *. rewrite !(foldl_app _ _ [sd]), IH. simpl.
    destruct (rule_from_doc sd); simpl; by rewrite app_assoc.
Qed.

(** Every document yields a rule or an error, in order, and one bad document
    does not affect the others. *)
Lemma rulesFromDocs_spec docs :
  rulesFromDocs docs =
    (omap (λ sd, match rule_from_doc sd with inl r => Some r | inr _ => None end) docs,
     omap (λ sd, match rule_from_doc sd with inl _ => None | inr e => Some e end) docs).
Proof.
  induction docs as [|sd docs IH]; [done|].
  change (sd :: docs) with ([sd] ++ docs). rewrite rulesFromDocs_app, IH, !omap_app. simpl.
  unfold rulesFromDocs. simpl. destruct (rule_from_doc sd); reflexivity.
Qed.

(** ** Properties: the cache *)

Variable yaml_Unmarshal : string → result (list ruleDoc).
(** What a ConfigMap holds at a resource version. *)
Variable content : ObjectKey → string → gmap string string.

Definition cm_ok (cm : ConfigMap) : Prop := cm_data cm = content (cm_key cm) (cm_resourceVersion cm).

Definition cache_ok (cache : gmap ObjectKey ruleCacheEntry) : Prop :=
  ∀ k e, cache !! k = Some e →
    (rce_rules e, rce_loadErrs e) = parse_rules yaml_Unmarshal k (content k (rce_resourceVersion e)).

Definition cm_rules (cm : ConfigMap) : list resourceRule * list ruleLoadError :=
  parse_rules yaml_Unmarshal (cm_key cm) (cm_data cm).

Lemma cache_ok_insert cache k e :
  cache_ok cache → (rce_rules e, rce_loadErrs e) = parse_rules yaml_Unmarshal k (content k (rce_resourceVersion e)) →
  cache_ok (<[k := e]> cache).
Proof.
  intros Hc He k' e' [[<- <-]|[_ Hk]]%lookup_insert_Some; [done|by apply Hc].
Qed.

Lemma rulesFromConfigMap_spec now cache cm :
  cache_ok cache → cm_ok cm →
  ∃ cache', rulesFromConfigMap yaml_Unmarshal now cache cm = (cache', cm_rules cm) ∧ cache_ok cache'.
Proof.
  intros Hc Hcm. unfold rulesFromConfigMap. fold (cm_rules cm).
  assert (∃ cache', (let '(rules, loadErrs) := cm_rules cm in
    (<[cm_key cm := mkCacheEntry now (cm_resourceVersion cm) rules loadErrs]> cache, (rules, loadErrs))) =
    (cache', cm_rules cm) ∧ cache_ok cache') as Hmiss.
  { destruct (cm_rules cm) as [rules errs] eqn:E. eexists; split; [done|].
    apply cache_ok_insert; [done|]. simpl. rewrite <- E. unfold cm_rules. by rewrite Hcm. }
  destruct (cache !! cm_key cm) as [e|] eqn:E; [|done]. case_bool_decide as Hrv; [|done].
  pose proof (Hc _ _ E) as He. rewrite Hrv, <- Hcm in He. fold (cm_rules cm) in He.
  eexists; split; [by rewrite <- He|]. apply cache_ok_insert; [done|]. simpl. by rewrite He, Hrv, <- Hcm.
Qed.

Lemma sweepRuleCache_lookup now (cache : gmap ObjectKey ruleCacheEntry) k e :
  sweepRuleCache now cache !! k = Some e ↔ cache !! k = Some e ∧ (now - ruleCacheTTL ≤ rce_lastAccess e)%Z.
Proof.
  unfold sweepRuleCache. rewrite map_lookup_filter_Some. simpl. split; intros [? ?]; split; try done; lia.
Qed.

Definition cms_rules (cms : list ConfigMap) : list resourceRule := cms ≫= (λ cm, (cm_rules cm).1).
Definition cms_errs (cms : list ConfigMap) : list ruleLoadError := cms ≫= (λ cm, (cm_rules cm).2).

Lemma load_steps now cms s :
  cache_ok (ld_cache s) → (∀ cm, cm ∈ cms → cm_ok cm) →
  ∃ cache, foldl (load_step yaml_Unmarshal now) s cms =
    mkLoad cache (list_to_set (cm_key <$> cms) ∪ ld_seen s) (ld_rules s ++ cms_rules (unseen cm_key (ld_seen s) cms))
      (ld_errs s ++ cms_errs (unseen cm_key (ld_seen s) cms)) ∧ cache_ok cache.
Proof.
  revert s. induction cms as [|cm cms IH]; intros s Hs Hcms; cbn [foldl].
  - exists (ld_cache s). split; [|done]. unfold cms_rules, cms_errs. cbn [unseen].
    rewrite fmap_nil, list_to_set_nil, (left_id_L ∅ (∪)). cbn. rewrite !app_nil_r. by destruct s.
  - rewrite fmap_cons, list_to_set_cons. cbn [unseen]. unfold load_step at 2. case_bool_decide as Hin.
    + destruct (IH s) as (cache & -> & Hc); [done|intros; apply Hcms; by right|].
      exists cache. split; [|done].
      by replace ({[cm_key cm]} ∪ list_to_set (cm_key <$> cms) ∪ ld_seen s)
        with (list_to_set (cm_key <$> cms) ∪ ld_seen s) by set_solver.
    + destruct (rulesFromConfigMap_spec (now (cm_key cm)) (ld_cache s) cm) as (cache1 & -> & Hc1);
        [done|apply Hcms; by left|].
      destruct (cm_rules cm) as [rules errs] eqn:E.
      destruct (IH (mkLoad cache1 ({[ cm_key cm ]} ∪ ld_seen s) (ld_rules s ++ rules) (ld_errs s ++ errs)))
        as (cache & -> & Hc); [done|intros; apply Hcms; by right|].
      exists cache. split; [|done]. cbn [ld_seen ld_rules ld_errs].
      rewrite <- !app_assoc. unfold cms_rules, cms_errs. rewrite !bind_cons, E. cbn [fst snd].
      by replace (list_to_set (cm_key <$> cms) ∪ ({[cm_key cm]} ∪ ld_seen s))
        with ({[cm_key cm]} ∪ list_to_set (cm_key <$> cms) ∪ ld_seen s) by set_solver.
Qed.

Context {C : Type} `{!Lister C ConfigMap} (mgmtClient : C).

(** The ConfigMaps of all tiers, as they are listed. *)
Definition tier_configMaps (tiers : list (string * string * string)) : result (list ConfigMap) :=
  (λ l, concat l) <$> mapM_result (λ '(namespace, target, prefix),
    wrap_err prefix (listRuleConfigMaps mgmtClient namespace target)) tiers.

Hypothesis listed_ok : ∀ ns p cms cm, c_list mgmtClient ns p = Ok cms → cm ∈ cms → cm_ok cm.

Lemma load_tiers_spec now tiers s :
  cache_ok (ld_cache s) →
  let '(s', e) := load_tiers yaml_Unmarshal now mgmtClient tiers s in
  cache_ok (ld_cache s') ∧
  match tier_configMaps tiers with
  | Err e' => e = Some e'
  | Ok cms => e = None ∧ ld_rules s' = ld_rules s ++ cms_rules (unseen cm_key (ld_seen s) cms) ∧
              ld_errs s' = ld_errs s ++ cms_errs (unseen cm_key (ld_seen s) cms)
  end.
Proof.
  unfold tier_configMaps. revert s. induction tiers as [|[[ns target] prefix] tiers IH]; intros s Hs; simpl.
  { by rewrite !app_nil_r. }
  unfold listAndLoad. destruct (listRuleConfigMaps mgmtClient ns target) as [cms|e] eqn:E; simpl; [|done].
  destruct (load_steps now cms s Hs) as (cache & -> & Hc).
  { unfold listRuleConfigMaps in E. apply wrap_err_Ok in E. intros cm. by eapply listed_ok. }
  match goal with |- context [load_tiers _ _ _ _ ?s1] => specialize (IH s1 Hc) end.
  destruct (load_tiers _ _ _ _ _) as [s' e]. destruct IH as [Hc' Hr]. split; [done|].
  destruct (mapM_result _ tiers) as [l|e'] eqn:El; simpl in *; [|done].
  destruct Hr as (-> & -> & ->). split; [done|].
  rewrite unseen_app. unfold cms_rules, cms_errs. by rewrite !bind_app, <- !app_assoc.
Qed.

(** Going through the cache changes nothing. The rules and errors loaded
    for a ServiceSet are those parsed and compiled afresh from the ConfigMaps
    of its tiers, each taken once, whatever the cache holds from earlier loads;
    and what the cache keeps is as good for the next one and was used within
    the last five minutes. *)
Lemma rulesFromConfigMaps_uncached now sweep cache systemNamespace serviceSet :
  cache_ok cache →
  let '(cache', r) := rulesFromConfigMaps yaml_Unmarshal now mgmtClient sweep cache systemNamespace serviceSet in
  cache_ok cache' ∧
  r = (λ cms, (group_rules (cms_rules (unseen cm_key ∅ cms)), cms_errs (unseen cm_key ∅ cms))) <$>
        tier_configMaps (rule_tiers systemNamespace serviceSet) ∧
  (is_ok r = true → ∀ k e, cache' !! k = Some e → (sweep - ruleCacheTTL ≤ rce_lastAccess e)%Z).
Proof.
  intros Hc. unfold rulesFromConfigMaps.
  pose proof (load_tiers_spec now (rule_tiers systemNamespace serviceSet) (mkLoad cache ∅ [] []) Hc) as Hl.
  destruct (load_tiers _ _ _ _ _) as [s [e|]]; destruct Hl as [Hs Hr];
    destruct (tier_configMaps _) as [cms|e'] eqn:E; simpl in *; try done.
  - by destruct Hr.
  - split_and!; [done|congruence|done].
  - destruct Hr as (_ & -> & ->). split_and!; [|done|].
    + intros k e [Hk _]%sweepRuleCache_lookup. by apply Hs.
    + intros _ k e Hk. by apply sweepRuleCache_lookup in Hk as [_ ?].
Qed.
End rule_properties.

(** ** Properties: the condition *)

Lemma maxRuleLoadErrorConditionMessageBytes_Z : Z.of_nat maxRuleLoadErrorConditionMessageBytes = (20 * 1024)%Z.
Proof. unfold maxRuleLoadErrorConditionMessageBytes. rewrite Nat2Z.inj_mul. reflexivity. Qed.

Lemma ruleLoadErrorCondition_bounded generation loadErrs :
  (Z.of_nat (String.length (cond_message (ruleLoadErrorCondition generation loadErrs))) < 32 * 1024)%Z.
Proof.
  unfold ruleLoadErrorCondition. case_bool_decide as E; [reflexivity|].
  cbn [cond_message]. unfold rule_errors_message. cbn zeta.
  pose proof (truncate_length maxRuleLoadErrorConditionMessageBytes) as Ht.
  match goal with |- context [truncate _ ?m] => specialize (Ht m) end.
  pose proof maxRuleLoadErrorConditionMessageBytes_Z. lia.
Qed.

(** The ServiceSet says whether its health rules loaded: the condition is
    True exactly when every document parsed and compiled, its message stays
    under the 32 KiB the schema allows however many and however long the errors
    are, it is of the current generation, and neither another condition nor
    anything else of the ServiceSet changes. *)
Lemma applyRuleLoadErrorCondition_reports `{StatusConditions} serviceSet loadErrs :
  let serviceSet' := applyRuleLoadErrorCondition serviceSet loadErrs in
  (∃ c, find_condition serviceSetHealthRulesCondition (ssst_conditions (sset_status serviceSet')) = Some c ∧
     (cond_status c = CondTrue ↔ loadErrs = []) ∧
     (cond_status c = CondFalse ↔ loadErrs ≠ []) ∧
     (Z.of_nat (String.length (cond_message c)) < 32 * 1024)%Z ∧
     cond_observedGeneration c = om_generation (sset_meta serviceSet)) ∧
  (∀ t, t ≠ serviceSetHealthRulesCondition →
     find_condition t (ssst_conditions (sset_status serviceSet')) =
     find_condition t (ssst_conditions (sset_status serviceSet))) ∧
  set_sset_conditions (ssst_conditions (sset_status serviceSet)) serviceSet' = serviceSet.
Proof.
  intros serviceSet'. subst serviceSet'. unfold applyRuleLoadErrorCondition.
  set (new := ruleLoadErrorCondition _ loadErrs). set (cs := ssst_conditions (sset_status serviceSet)).
  assert (cond_type new = serviceSetHealthRulesCondition) as Ht by (subst new; unfold ruleLoadErrorCondition; by case_match).
  split; [|split].
  - destruct (set_condition_found cs new) as (c & Hc & (_ & Hs & _ & Hm & Hg)). rewrite Ht in Hc.
    exists c. simpl. split; [done|]. rewrite Hs, Hm, Hg. subst new. split_and!.
    + unfold ruleLoadErrorCondition. case_bool_decide as E; [by apply nil_length_inv in E as ->|].
      split; [done|]. by intros ->.
    + unfold ruleLoadErrorCondition. case_bool_decide as E; [by apply nil_length_inv in E as ->|].
      split; [|done]. by intros _ ->.
    + apply ruleLoadErrorCondition_bounded.
    + unfold ruleLoadErrorCondition. by case_match.
  - intros t Hne. simpl. apply find_condition_other. by rewrite Ht.
  - by destruct serviceSet as [? ? []].
Qed.

(** ** Running it *)

(** A toy CEL: an expression names an annotation of the object, which holds its
    value; the empty expression does not compile. *)
Definition simple_cel : CEL ObjectMeta :=
  {| cel_Ast := string;
     cel_Program := string;
     cel_Compile src := (src, if bool_decide (src = "") then Some (ErrNew "unexpected end of input") else None);
     cel_Program_of ast := Ok ast;
     cel_Eval prg vars :=
       match vars celObjectVar with
       | None => Err (ErrNew "no such variable")
       | Some m => match om_annotations m !! prg with
                   | Some "true" => Ok (CelBool true)
                   | Some "false" => Ok (CelBool false)
                   | Some s => Ok (CelString s)
                   | None => Err (ErrNew ("no such key: " +:+ prg))
                   end
       end |}.

(** A toy YAML: a rule a line, its fields between spaces. *)
Definition space : Ascii.ascii := Ascii.ascii_of_nat 32.
Definition parse_line (line : string) : result ruleDoc :=
  match Split line space with
  | [group; version; kind; scope; healthy; message] => Ok (mkRuleDoc group version kind scope healthy message)
  | _ => Err (ErrNew ("cannot unmarshal " +:+ line))
  end.
Definition simple_yaml (s : string) : result (list ruleDoc) :=
  mapM_result parse_line (Split s (Ascii.ascii_of_nat 10)).

Definition rule_cm (ns name target rv rules : string) : ConfigMap :=
  mkConfigMap (mkMeta name ns "" 0 (Some {[ healthRuleTargetLabel := target ]}) ∅ [] [] None) rv
    {[ healthRuleConfigMapDataKey := rules ]}.

Definition default_rules : ConfigMap :=
  rule_cm "kcm-system" "defaults" "global" "7"
    ("apps v1 Deployment Namespaced available reason" +:+ newline +:+ " v1 Pod Namespaced ready reason").
Definition broken_rules : ConfigMap := rule_cm "team" "broken" "global" "9" "apps v1 StatefulSet Everywhere ready reason".
Definition owner_rules : ConfigMap := rule_cm "team" "prod-rules" "prod" "4" "apps v1 Deployment Namespaced progressing reason".

#[local] Instance configMap_lister : Lister (list ConfigMap) ConfigMap :=
  λ c ns p, Ok (filterb (λ cm, in_namespace ns (cm_meta cm) && p cm) c).

Definition rule_cluster : list ConfigMap := [broken_rules; default_rules; owner_rules].
Definition rule_content (k : ObjectKey) (rv : string) : gmap string string :=
  match filterb (λ cm, bool_decide (cm_key cm = k) && bool_decide (cm_resourceVersion cm = rv)) rule_cluster with
  | cm :: _ => cm_data cm
  | [] => ∅
  end.
Definition prod_serviceSet : ServiceSet :=
  mkServiceSet (mkMeta "set" "team" "" 3 None ∅ [mkOwner kcm_GroupVersion ClusterDeploymentKind "prod" "u" true true] [] None)
    (mkServiceSetSpec "prod" "" (mkProviderConfig None "" false) []) (mkServiceSetStatus None [] [] true false false).

(** What [default_rules] held a version ago: one rule. *)
Definition old_cache : gmap ObjectKey (@ruleCacheEntry _ simple_cel) :=
  {[ mkKey "kcm-system" "defaults" := mkCacheEntry 5 "6" [] [] ]}.

#[local] Existing Instance simple_cel.

Lemma rulesFromConfigMaps_uncached_witness :
  let '(cache', r) := rulesFromConfigMaps simple_yaml (λ _, 10%Z) rule_cluster 11 old_cache "kcm-system" prod_serviceSet in
  cache_ok simple_yaml rule_content cache' ∧
  (λ p : gmap GroupKind (list resourceRule) * list ruleLoadError, ((λ l, length l) <$> (p.1 !! mkGK "apps" "Deployment"), rle_source <$> p.2)) <$> r =
    Ok (Some 2, ["team/broken#0"]) ∧
  (is_ok r = true → ∀ k e, cache' !! k = Some e → (11 - ruleCacheTTL ≤ rce_lastAccess e)%Z).
Proof.
  assert (cache_ok simple_yaml rule_content old_cache) as Hc.
  { intros k e Hk. unfold old_cache in Hk. apply lookup_singleton_Some in Hk as [<- <-]. vm_compute. reflexivity. }
  assert (∀ ns p cms cm, c_list rule_cluster ns p = Ok cms → cm ∈ cms → cm_ok rule_content cm) as Hl.
  { intros ns p cms cm [= <-] [Hcm _]%filterb_elem_of. unfold rule_cluster in Hcm.
    repeat (apply elem_of_cons in Hcm as [->|Hcm]; [vm_compute; reflexivity|]). by apply elem_of_nil in Hcm. }
  pose proof (rulesFromConfigMaps_uncached simple_yaml rule_content rule_cluster Hl (λ _, 10%Z) 11 old_cache
    "kcm-system" prod_serviceSet Hc) as Hu.
  destruct (rulesFromConfigMaps _ _ _ _ _ _ _) as [cache' r] eqn:E. destruct Hu as (H1 & H2 & H3).
  split; [exact H1|]. split; [|exact H3]. rewrite H2. vm_compute. reflexivity.
Defined.
