(* ===== verification/Verdicts.v ===== *)
(** * The health of a service on its cluster
    (second part of [src/internal/controller/adapters/sveltos/verify.go]).

    The verifier lists the objects that carry the name of a Helm release under
    one of the customary labels, evaluates every rule on each of them, and turns
    what is unhealthy into one condition per kind on the state of the service. *)

From S2P Require Import Prelude GoStrings Api Kube ServiceBasics AccessManagement HealthRules.

#[local] Arguments String.append !_ _ / : simpl nomatch.

Definition serviceHealthConditionPrefix := "ServiceHealth".
Definition maxUnhealthyRefsPerCondition : nat := 3.
Definition maxVerdictReasonBytes : nat := 500.
Definition discoveryLabels : list string :=
  ["release"; "app"; "app.kubernetes.io/instance"; "app.kubernetes.io/name"].

(** An error of a Go type that [errors.As] looks for is marked with its name. *)
Definition isNoMatchError (err : gerror) : bool :=
  errors_Is "NoKindMatchError" err || errors_Is "NoResourceMatchError" err.

(** [meta.RESTMapping], as far as it is read: a version the cluster serves, and
    the name of its scope. *)
Record VersionMapping := mkVersionMapping { vm_version : string; vm_scope : option string }.
Definition RESTScopeNameNamespace := "namespace".

(** The client of a child cluster: what its discovery reports of a kind, and
    listing objects by a label, in one namespace or in all. *)
Class ChildClient (C Obj : Type) := {
  cc_RESTMappings : C → GroupKind → result (list VersionMapping);
  cc_List : C → GroupVersionKind → option string → string → string → result (list Obj)
}.

Record resourceVerdict := mkVerdict {
  vd_GVK : GroupVersionKind; vd_Name : string; vd_Namespace : string;
  vd_Reason : string; vd_RuleSrc : string; vd_Healthy : bool }.
Definition vd_kind (v : resourceVerdict) : string := gvk_kind (vd_GVK v).

(** The keys of a list, each once, in the order they are first met. *)
Definition distinct_by {A} (key : A → string) (l : list A) : list string :=
  foldl (λ out x, if bool_decide (key x ∈ out) then out else out ++ [key x]) [] l.

Definition restScopeToResourceScope (s : option string) : string :=
  if bool_decide (s = Some RESTScopeNameNamespace) then scopeNamespaced else scopeCluster.

Section verdicts.
Context {Obj : Type} `{CEL Obj} (obj_meta : Obj → ObjectMeta).
Definition obj_key (obj : Obj) : ObjectKey := meta_key (obj_meta obj).

Definition evaluate (r : resourceRule) (input : string → option Obj) : result (bool * string) :=
  match cel_Eval (rule_healthy r) input with
  | Err e => Err (ErrWrap "evaluate healthy: " e)
  | Ok (CelBool true) => Ok (true, "")
  | Ok (CelBool false) =>
      Ok (false, match cel_Eval (rule_message r) input with Ok (CelString s) => s | _ => "" end)
  | Ok v => Err (ErrNew ("healthy expression returned " +:+ cel_type v +:+ ", want bool"))
  end.

Definition distinctVersions (gkRules : list resourceRule) : list string :=
  distinct_by (λ r, gvk_version (rule_GVK r)) gkRules.

(** [meta.IsNoMatchError]. *)
Variable meta_IsNoMatchError : gerror → bool.

Section cluster.
Context {C : Type} `{!ChildClient C Obj} (childClient : C).

Definition resolveServedVersion (gk : GroupKind) (authoredVersions : list string)
  : result (option (GroupVersionKind * string)) :=
  match cc_RESTMappings childClient gk with
  | Err e => if meta_IsNoMatchError e then Ok None
             else Err (ErrWrap ("discover versions for " +:+ gk_string gk +:+ ": ") e)
  | Ok mappings =>
      let served := index_by vm_version (λ m, m) mappings in
      Ok (head (omap (λ v, (λ m, (mkGVK (gk_group gk) v (gk_kind gk +:+ "List"),
                                  restScopeToResourceScope (vm_scope m))) <$> served !! v) authoredVersions))
  end.

(** The loop over the rules: the first that fails decides; one that cannot be
    evaluated is reported and passed over. *)
Fixpoint evaluate_rules (gk : GroupKind) (obj : Obj) (gkRules : list resourceRule)
    (verdict : resourceVerdict) (listErrs : option gerror) : resourceVerdict * option gerror :=
  match gkRules with
  | [] => (verdict, listErrs)
  | rule :: gkRules =>
      match evaluate rule (objActivation_ResolveName obj) with
      | Err e =>
          evaluate_rules gk obj gkRules verdict
            (join_err listErrs (ErrWrap ("evaluate " +:+ gk_string gk +:+ " " +:+ key_string (obj_key obj) +:+
               " (rule " +:+ rule_Source rule +:+ "): ") e))
      | Ok (true, _) => evaluate_rules gk obj gkRules verdict listErrs
      | Ok (false, reason) =>
          (mkVerdict (vd_GVK verdict) (vd_Name verdict) (vd_Namespace verdict) reason (rule_Source rule) false, listErrs)
      end
  end.

Record collected := mkCollected {
  col_seen : gset ObjectKey; col_verdicts : list resourceVerdict; col_errs : option gerror }.

(** The body of the loop over the objects listed. *)
Definition collect_object (gk : GroupKind) (gkRules : list resourceRule) (listGVK : GroupVersionKind)
    (acc : collected) (obj : Obj) : collected :=
  let key := obj_key obj in
  if bool_decide (key ∈ col_seen acc) then acc
  else
    let seen := {[ key ]} ∪ col_seen acc in
    let verdict := mkVerdict (mkGVK (gvk_group listGVK) (gvk_version listGVK) (gk_kind gk))
                     (key_name key) (key_ns key) "" "" true in
    match om_deletionTimestamp (obj_meta obj) with
    | Some _ => mkCollected seen (col_verdicts acc ++ [verdict]) (col_errs acc)
    | None =>
        let '(verdict, listErrs) := evaluate_rules gk obj gkRules verdict (col_errs acc) in
        mkCollected seen (col_verdicts acc ++ [verdict]) listErrs
    end.

(** The loop over the labels, left when the cluster no longer has the kind. *)
Fixpoint collect_labels (gk : GroupKind) (gkRules : list resourceRule) (listGVK : GroupVersionKind)
    (actualScope serviceName serviceNamespace : string) (labelKeys : list string) (acc : collected) : collected :=
  match labelKeys with
  | [] => acc
  | labelKey :: labelKeys =>
      let namespace := if bool_decide (actualScope = scopeNamespaced) then Some serviceNamespace else None in
      match cc_List childClient listGVK namespace labelKey serviceName with
      | Err e =>
          if isNoMatchError e then acc
          else collect_labels gk gkRules listGVK actualScope serviceName serviceNamespace labelKeys
                 (mkCollected (col_seen acc) (col_verdicts acc)
                    (join_err (col_errs acc) (ErrWrap ("list " +:+ gk_string gk +:+ " by " +:+ labelKey +:+ ": ") e)))
      | Ok items =>
          collect_labels gk gkRules listGVK actualScope serviceName serviceNamespace labelKeys
            (foldl (collect_object gk gkRules listGVK) acc items)
      end
  end.

(** The verdict on a rule whose scope is not the one the cluster reports. *)
Definition scope_mismatch (gk : GroupKind) (listGVK : GroupVersionKind) (rule : resourceRule) : resourceVerdict :=
  mkVerdict (mkGVK (gvk_group listGVK) (gvk_version listGVK) (gk_kind gk)) "" "" "HealthRuleScopeMismatch"
    (rule_Source rule) false.

(** The body of the loop over the rule set. *)
Definition collect_kind (serviceName serviceNamespace : string) (gk : GroupKind) (gkRules : list resourceRule)
    (acc : list resourceVerdict * option gerror) : list resourceVerdict * option gerror :=
  let '(verdicts, listErrs) := acc in
  if bool_decide (length gkRules = 0) then acc
  else
    match resolveServedVersion gk (distinctVersions gkRules) with
    | Err e => (verdicts, join_err listErrs e)
    | Ok None => acc
    | Ok (Some (listGVK, actualScope)) =>
        let misscoped := filterb (λ rule, negb (bool_decide (rule_Scope rule = actualScope))) gkRules in
        let verdicts := verdicts ++ (scope_mismatch gk listGVK <$> misscoped) in
        if negb (bool_decide (length misscoped = 0)) then (verdicts, listErrs)
        else
          let s := collect_labels gk gkRules listGVK actualScope serviceName serviceNamespace discoveryLabels
                     (mkCollected ∅ verdicts listErrs) in
          (col_verdicts s, col_errs s)
    end.

(** [t] numbers the range over the rule set. *)
Definition collectVerdicts `{!MapRange GroupKind} (t : nat) (rules : gmap GroupKind (list resourceRule))
    (serviceName serviceNamespace : string) : list resourceVerdict * option gerror :=
  foldl (λ acc gk, collect_kind serviceName serviceNamespace gk (default [] (rules !! gk)) acc) ([], None)
    (range_seq t (dom rules)).
End cluster.
End verdicts.

(** ** Conditions *)

Definition truncateReason (reason : string) : string := truncate maxVerdictReasonBytes (TrimSpace reason).

(** [sort.Slice] compares namespaces, then names. Which of two verdicts on the
    same name comes first is Go's choice; this is the order they were found in,
    as it is for the short lists Go sorts by insertion. *)
Definition verdict_leb (a b : resourceVerdict) : bool :=
  if negb (bool_decide (vd_Namespace a = vd_Namespace b))
  then string_leb (vd_Namespace a) (vd_Namespace b) else string_leb (vd_Name a) (vd_Name b).

Definition verdict_ref (v : resourceVerdict) : string :=
  if negb (bool_decide (vd_Namespace v = "")) then vd_Namespace v +:+ "/" +:+ vd_Name v else vd_Name v.
Definition verdict_part (v : resourceVerdict) : string :=
  verdict_ref v +:+ " (" +:+ truncateReason (vd_Reason v) +:+ ", rule " +:+ vd_RuleSrc v +:+ ")".

Definition kind_message (kind : string) (items : list resourceVerdict) : string :=
  let shown := if bool_decide (maxUnhealthyRefsPerCondition < length items)
               then take maxUnhealthyRefsPerCondition items else items in
  let truncated := length items - length shown in
  let msg := pretty (length items) +:+ " " +:+ kind +:+ " unhealthy: " +:+ Join (verdict_part <$> shown) "; " in
  if bool_decide (0 < truncated) then msg +:+ "; …and " +:+ pretty truncated +:+ " more" else msg.

Definition kind_condition (byKind : gmap string (list resourceVerdict)) (kind : string) : Condition :=
  mkCondition (serviceHealthConditionPrefix +:+ kind) CondFalse (kind +:+ "Unhealthy")
    (kind_message kind (isort verdict_leb (default [] (byKind !! kind)))) 0 0.

(** What is concluded from the verdicts. *)
Definition summarize_verdicts (verdicts : list resourceVerdict) : string * list Condition :=
  let unhealthy := filterb (λ v, negb (vd_Healthy v)) verdicts in
  let byKind := group_by vd_kind unhealthy in
  let kindOrder := isort string_leb (distinct_by vd_kind unhealthy) in
  if bool_decide (length kindOrder = 0) then (ServiceStateDeployed, [])
  else (ServiceStateProvisioning, kind_condition byKind <$> kindOrder).

Section verify.
Context {Obj : Type} `{CEL Obj} (obj_meta : Obj → ObjectMeta) (meta_IsNoMatchError : gerror → bool).
Context {C : Type} `{!ChildClient C Obj} (childClient : C) `{!MapRange GroupKind}.

Definition verifyHelmServiceOnCluster (t : nat) (rules : gmap GroupKind (list resourceRule))
    (serviceName serviceNamespace : string) : result (string * list Condition) :=
  match collectVerdicts obj_meta meta_IsNoMatchError childClient t rules serviceName serviceNamespace with
  | (_, Some e) => Err e
  | (verdicts, None) => Ok (summarize_verdicts verdicts)
  end.
End verify.

Definition set_st_conditions (cs : list Condition) (s : ServiceState) : ServiceState :=
  mkServiceState (st_lastStateTransitionTime s) (st_version s) (st_type s) (st_name s) (st_namespace s)
    (st_template s) (st_state s) (st_failureMessage s) (st_lastDeployedHash s) cs.

Definition verifier_owned (c : Condition) : bool := HasPrefix (cond_type c) serviceHealthConditionPrefix.

Definition applyVerifyConditions `{StatusConditions} (s : ServiceState) (newConds : list Condition) : ServiceState :=
  let emitted : gset string := list_to_set (cond_type <$> newConds) in
  let kept := filterb (λ c, negb (verifier_owned c) || bool_decide (cond_type c ∈ emitted)) (st_conditions s) in
  set_st_conditions (foldl (λ cs c, (SetStatusCondition cs c).1) kept newConds) s.

(** ** Properties: verdicts *)

Lemma distinct_by_elem_of {A} (key : A → string) l k : k ∈ distinct_by key l ↔ k ∈ key <$> l.
Proof.
  induction l as [|x l IH] using rev_ind; [done|].
  unfold distinct_by in *. rewrite foldl_app, fmap_app. simpl. case_bool_decide as E; set_solver.
Qed.

Lemma distinct_by_NoDup {A} (key : A → string) l : NoDup (distinct_by key l).
Proof.
  induction l as [|x l IH] using rev_ind; [constructor|].
  unfold distinct_by in *. rewrite foldl_app. simpl. case_bool_decide as E; [done|].
  apply NoDup_app. split_and!; [done|set_solver|apply NoDup_singleton].
Qed.

Section verdict_properties.
Context {Obj : Type} `{CEL Obj} (obj_meta : Obj → ObjectMeta) (meta_IsNoMatchError : gerror → bool).
Context {C : Type} `{!ChildClient C Obj} (childClient : C).

(** Everything listed under one of the labels, up to a list the cluster answers
    with not having the kind. *)
Fixpoint labelled (listGVK : GroupVersionKind) (namespace : option string) (serviceName : string)
    (labelKeys : list string) : list Obj :=
  match labelKeys with
  | [] => []
  | labelKey :: labelKeys =>
      match cc_List childClient listGVK namespace labelKey serviceName with
      | Err e => if isNoMatchError e then [] else labelled listGVK namespace serviceName labelKeys
      | Ok items => items ++ labelled listGVK namespace serviceName labelKeys
      end
  end.

(** The objects inspected for a service: those, each name once. *)
Definition inspected (listGVK : GroupVersionKind) (actualScope serviceName serviceNamespace : string) : list Obj :=
  unseen (obj_key obj_meta) ∅
    (labelled listGVK (if bool_decide (actualScope = scopeNamespaced) then Some serviceNamespace else None)
       serviceName discoveryLabels).

(** An object on its way out is healthy; any other is when every rule says so. *)
Definition healthy_object (gkRules : list resourceRule) (obj : Obj) : Prop :=
  is_Some (om_deletionTimestamp (obj_meta obj)) ∨
  ∀ r, r ∈ gkRules → ∃ reason, evaluate r (objActivation_ResolveName obj) = Ok (true, reason).

(** A kind is healthy when the cluster does not serve it in a version some rule
    is written for, or its rules have the right scope and every object
    inspected is. *)
Definition kind_healthy (serviceName serviceNamespace : string) (gk : GroupKind) (gkRules : list resourceRule) : Prop :=
  ∀ listGVK actualScope, gkRules ≠ [] →
    resolveServedVersion meta_IsNoMatchError childClient gk (distinctVersions gkRules) = Ok (Some (listGVK, actualScope)) →
    (∀ r, r ∈ gkRules → rule_Scope r = actualScope) ∧
    ∀ obj, obj ∈ inspected listGVK actualScope serviceName serviceNamespace → healthy_object gkRules obj.

(** The verdict on an object: it names the object, and when it is unhealthy, the
    first rule that failed and what it said. *)
Record judged (gk : GroupKind) (gkRules : list resourceRule) (listGVK : GroupVersionKind) (obj : Obj)
    (v : resourceVerdict) : Prop := {
  ju_kind : vd_kind v = gk_kind gk;
  ju_key : mkKey (vd_Namespace v) (vd_Name v) = obj_key obj_meta obj;
  ju_healthy : vd_Healthy v = true ↔ healthy_object gkRules obj;
  ju_rule : vd_Healthy v = false → ∃ r, r ∈ gkRules ∧ vd_RuleSrc v = rule_Source r ∧
              evaluate r (objActivation_ResolveName obj) = Ok (false, vd_Reason v) }.

Lemma evaluate_rules_spec gk obj gkRules v errs v' :
  evaluate_rules obj_meta gk obj gkRules v errs = (v', None) →
  errs = None ∧
  ((v' = v ∧ ∀ r, r ∈ gkRules → ∃ reason, evaluate r (objActivation_ResolveName obj) = Ok (true, reason)) ∨
   (∃ r reason, r ∈ gkRules ∧ evaluate r (objActivation_ResolveName obj) = Ok (false, reason) ∧
      v' = mkVerdict (vd_GVK v) (vd_Name v) (vd_Namespace v) reason (rule_Source r) false)).
Proof.
  revert errs. induction gkRules as [|r rules IH]; intros errs; simpl.
  - intros [= <- ->]. split; [done|]. left. split; [done|]. by intros r ?%elem_of_nil.
  - destruct (evaluate r _) as [[[] reason]|e] eqn:E.
    + intros [-> [[-> Hall]|(r' & reason' & Hr & He & ->)]]%IH; split; try done.
      * left. split; [done|]. intros r' [->|Hr']%elem_of_cons; [by eexists|by apply Hall].
      * right. exists r', reason'. split; [by right|done].
    + intros [= <- ->]. split; [done|]. right. exists r, reason. split; [by left|done].
    + intros [Hj _]%IH. by apply join_err_ne in Hj.
Qed.

Lemma collect_object_spec gk gkRules listGVK acc obj :
  let acc' := collect_object obj_meta gk gkRules listGVK acc obj in
  col_errs acc' = None →
  col_errs acc = None ∧ col_seen acc' = {[ obj_key obj_meta obj ]} ∪ col_seen acc ∧
  ∃ vs, col_verdicts acc' = col_verdicts acc ++ vs ∧
    Forall2 (judged gk gkRules listGVK) (unseen (obj_key obj_meta) (col_seen acc) [obj]) vs.
Proof.
  cbn zeta. unfold collect_object. cbn [unseen]. case_bool_decide as Hin.
  { intros ->. split_and!; [done|set_solver|]. exists []. by rewrite app_nil_r. }
  destruct (om_deletionTimestamp (obj_meta obj)) as [t|] eqn:Hd.
  - cbn [col_errs]. intros ->. split_and!; [done..|]. eexists [_]. split; [done|]. apply Forall2_cons_2; [|constructor].
    split; simpl; [done|done| |done].
    split; [|done]. intros _. left. by rewrite Hd.
  - destruct (evaluate_rules obj_meta gk obj gkRules _ (col_errs acc)) as [v errs] eqn:E. cbn [col_errs].
    intros ->. apply evaluate_rules_spec in E as [-> Hv]. split_and!; [done..|].
    exists [v]. split; [done|]. apply Forall2_cons_2; [|constructor].
    assert (¬ is_Some (om_deletionTimestamp (obj_meta obj))) as Hnd by (rewrite Hd; by intros []).
    destruct Hv as [[-> Hall]|(r & reason & Hr & He & ->)]; split; simpl; try done.
    + split; [|done]. intros _. by right.
    + split; [done|]. intros [?|Hall]; [done|]. destruct (Hall r Hr) as [? ?]. congruence.
    + intros _. by exists r.
Qed.

Lemma collect_objects_spec gk gkRules listGVK objs acc :
  let acc' := foldl (collect_object obj_meta gk gkRules listGVK) acc objs in
  col_errs acc' = None →
  col_errs acc = None ∧ col_seen acc' = list_to_set (obj_key obj_meta <$> objs) ∪ col_seen acc ∧
  ∃ vs, col_verdicts acc' = col_verdicts acc ++ vs ∧
    Forall2 (judged gk gkRules listGVK) (unseen (obj_key obj_meta) (col_seen acc) objs) vs.
Proof.
  cbn zeta. induction objs as [|obj objs IH] using rev_ind.
  - cbn. intros ->. split_and!; [done|set_solver|]. exists []. by rewrite app_nil_r.
  - rewrite foldl_app. cbn [foldl].
    intros (He & Hs & vs & Hvs & Hj)%collect_object_spec. destruct (IH He) as (Hacc & Hs1 & vs1 & Hvs1 & Hj1).
    rewrite Hs, Hs1, Hvs, Hvs1, fmap_app, list_to_set_app_L. split_and!; [done|set_solver|].
    exists (vs1 ++ vs). rewrite app_assoc, unseen_app. split; [done|]. apply Forall2_app; [done|].
    by rewrite <- Hs1.
Qed.

Lemma collect_labels_spec gk gkRules listGVK actualScope serviceName serviceNamespace labelKeys acc :
  let namespace := if bool_decide (actualScope = scopeNamespaced) then Some serviceNamespace else None in
  let acc' := collect_labels obj_meta childClient gk gkRules listGVK actualScope serviceName serviceNamespace labelKeys acc in
  col_errs acc' = None →
  col_errs acc = None ∧
  ∃ vs, col_verdicts acc' = col_verdicts acc ++ vs ∧
    Forall2 (judged gk gkRules listGVK)
      (unseen (obj_key obj_meta) (col_seen acc) (labelled listGVK namespace serviceName labelKeys)) vs.
Proof.
  cbn zeta. revert acc. induction labelKeys as [|labelKey labelKeys IH]; intros acc; cbn [collect_labels labelled].
  { intros ->. split; [done|]. exists []. by rewrite app_nil_r. }
  destruct (cc_List childClient _ _ labelKey serviceName) as [items|e].
  - intros (He & vs & Hvs & Hj)%IH. apply collect_objects_spec in He as (Hacc & Hs & vs1 & Hvs1 & Hj1).
    split; [done|]. exists (vs1 ++ vs). rewrite Hvs, Hvs1, app_assoc, unseen_app. split; [done|].
    apply Forall2_app; [done|]. by rewrite <- Hs.
  - destruct (isNoMatchError e).
    + intros ->. split; [done|]. exists []. by rewrite app_nil_r.
    + intros [Hj _]%IH. by apply join_err_ne in Hj.
Qed.

Lemma exists_unhealthy (vs : list resourceVerdict) (P : Prop) :
  ((∀ v, v ∈ vs → vd_Healthy v = true) ↔ P) → (∃ v, v ∈ vs ∧ vd_Healthy v = false) ↔ ¬ P.
Proof.
  intros <-. split.
  - intros (v & Hv & Hf) Hall. apply Hall in Hv. congruence.
  - intros Hn. destruct (filterb (λ v, negb (vd_Healthy v)) vs) as [|v l] eqn:E.
    + destruct Hn. intros v Hv. destruct (vd_Healthy v) eqn:Hh; [done|].
      assert (v ∈ filterb (λ v, negb (vd_Healthy v)) vs) as Hin by by apply filterb_elem_of; rewrite Hh.
      rewrite E in Hin. by apply elem_of_nil in Hin.
    + exists v. assert (v ∈ filterb (λ v, negb (vd_Healthy v)) vs) as [? ?]%filterb_elem_of by (rewrite E; left).
      split; [done|]. by apply negb_true_iff.
Qed.

Lemma collect_kind_spec serviceName serviceNamespace gk gkRules verdicts errs verdicts' :
  collect_kind obj_meta meta_IsNoMatchError childClient serviceName serviceNamespace gk gkRules (verdicts, errs) =
    (verdicts', None) →
  errs = None ∧ ∃ vs, verdicts' = verdicts ++ vs ∧ (∀ v, v ∈ vs → vd_kind v = gk_kind gk) ∧
    ((∀ v, v ∈ vs → vd_Healthy v = true) ↔ kind_healthy serviceName serviceNamespace gk gkRules).
Proof.
  unfold collect_kind.
  assert ((verdicts, errs) = (verdicts', None) → kind_healthy serviceName serviceNamespace gk gkRules →
    errs = None ∧ ∃ vs, verdicts' = verdicts ++ vs ∧ (∀ v, v ∈ vs → vd_kind v = gk_kind gk) ∧
    ((∀ v, v ∈ vs → vd_Healthy v = true) ↔ kind_healthy serviceName serviceNamespace gk gkRules)) as Hnone.
  { intros [= <- ->] Hk. split; [done|]. exists []. rewrite app_nil_r.
    split_and!; [done|by intros ? ?%elem_of_nil|]. split; [done|]. by intros _ ? ?%elem_of_nil. }
  case_bool_decide as El.
  { intros Hr. apply Hnone; [done|]. apply nil_length_inv in El as ->. by intros ???. }
  destruct (resolveServedVersion _ _ _ _) as [[[listGVK actualScope]|]|e] eqn:E.
  2:{ intros Hr. apply Hnone; [done|]. intros ????. congruence. }
  2:{ intros [= _ Hj]. by apply join_err_ne in Hj. }
  clear Hnone. assert (gkRules ≠ []) as Hne by by intros ->.
  set (misscoped := filterb _ gkRules). case_bool_decide as Em; cbn [negb].
  - apply nil_length_inv in Em. rewrite Em, fmap_nil, app_nil_r. intros Hr.
    destruct (collect_labels obj_meta childClient gk gkRules listGVK actualScope serviceName serviceNamespace
      discoveryLabels (mkCollected ∅ verdicts errs)) as [seen vs' errs'] eqn:Ec. simpl in Hr. injection Hr as <- ->.
    pose proof (collect_labels_spec gk gkRules listGVK actualScope serviceName serviceNamespace discoveryLabels
      (mkCollected ∅ verdicts errs)) as Hspec. cbn zeta in Hspec. rewrite Ec in Hspec.
    cbn [col_errs col_verdicts col_seen] in Hspec.
    destruct (Hspec eq_refl) as (-> & vs & -> & Hj). simpl in *. split; [done|]. exists vs. split; [done|]. split.
    + intros v (i & Hv)%list_elem_of_lookup_1. by destruct (Forall2_lookup_r _ _ _ _ _ Hj Hv) as (? & _ & []).
    + split.
      * intros Hall listGVK' scope' _ Hr. rewrite E in Hr. injection Hr as <- <-. split.
        -- intros r Hr. destruct (decide (rule_Scope r = actualScope)) as [|Hns]; [done|].
           assert (r ∈ misscoped) as Hin by by apply filterb_elem_of; rewrite bool_decide_eq_false_2.
           rewrite Em in Hin. by apply elem_of_nil in Hin.
        -- intros obj (i & Ho)%list_elem_of_lookup_1. destruct (Forall2_lookup_l _ _ _ _ _ Hj Ho) as (v & Hv & Hju).
           apply (ju_healthy _ _ _ _ _ Hju), Hall. by eapply list_elem_of_lookup_2.
      * intros Hk v (i & Hv)%list_elem_of_lookup_1. destruct (Forall2_lookup_r _ _ _ _ _ Hj Hv) as (obj & Ho & Hju).
        apply (ju_healthy _ _ _ _ _ Hju). apply (Hk _ _ Hne E). by eapply list_elem_of_lookup_2.
  - intros [= <- ->]. split; [done|]. eexists. split; [done|]. split.
    + intros v (r & -> & _)%list_elem_of_fmap. done.
    + assert (0 < length misscoped) as (r & Hr)%length_pos_elem by lia. split.
      * intros Hall. assert (scope_mismatch gk listGVK r ∈ scope_mismatch gk listGVK <$> misscoped) as Hin
          by by apply list_elem_of_fmap_2. by apply Hall in Hin.
      * intros Hk. apply filterb_elem_of in Hr as [Hr Hs]. destruct (Hk _ _ Hne E) as [Hsc _].
        rewrite (Hsc r Hr), bool_decide_eq_true_2 in Hs; done.
Qed.

Lemma collect_kinds_spec serviceName serviceNamespace (rules : gmap GroupKind (list resourceRule)) gks verdicts :
  foldl (λ acc gk, collect_kind obj_meta meta_IsNoMatchError childClient serviceName serviceNamespace gk
    (default [] (rules !! gk)) acc) ([], None) gks = (verdicts, None) →
  ((∀ v, v ∈ verdicts → vd_Healthy v = true) ↔
     ∀ gk, gk ∈ gks → kind_healthy serviceName serviceNamespace gk (default [] (rules !! gk))) ∧
  ∀ kind, (∃ v, v ∈ verdicts ∧ vd_Healthy v = false ∧ vd_kind v = kind) ↔
    ∃ gk, gk ∈ gks ∧ gk_kind gk = kind ∧ ¬ kind_healthy serviceName serviceNamespace gk (default [] (rules !! gk)).
Proof.
  revert verdicts. induction gks as [|gk gks IH] using rev_ind; intros verdicts.
  - intros [= <-]. split; [split; [by intros _ ? ?%elem_of_nil|by intros _ ? ?%elem_of_nil]|].
    intros kind. split; [by intros (? & ?%elem_of_nil & _)|by intros (? & ?%elem_of_nil & _)].
  - rewrite foldl_app. cbn [foldl]. destruct (foldl _ _ gks) as [verdicts1 errs1].
    intros (-> & vs & -> & Hkind & Hall)%collect_kind_spec. pose proof (exists_unhealthy _ _ Hall) as Hh.
    destruct (IH _ eq_refl) as [IH1 IH2]. split.
    + setoid_rewrite elem_of_app. split.
      * intros Hv gk' [Hin|Hin]; [apply IH1; auto|]. apply list_elem_of_singleton in Hin as ->. apply Hall. auto.
      * intros Hg v [Hv|Hv]; [apply IH1; auto|]. apply Hall; [|done]. apply Hg. right. left.
    + intros kind. specialize (IH2 kind). setoid_rewrite elem_of_app. split.
      * intros (v & [Hv|Hv] & Hf & Hk).
        -- destruct (proj1 IH2) as (gk' & ? & ?); [by exists v|]. exists gk'. split; [by left|done].
        -- exists gk. split; [by right; left|]. rewrite <- (Hkind v Hv). split; [done|]. apply Hh. by exists v.
      * intros (gk' & [Hin|Hin] & Hk & Hn).
        -- destruct (proj2 IH2) as (v & ? & ?); [by exists gk'|]. exists v. split; [by left|done].
        -- apply list_elem_of_singleton in Hin as ->. apply Hh in Hn as (v & Hv & Hf).
           exists v. split; [by right|]. split; [done|]. by rewrite (Hkind v Hv).
Qed.

Lemma condition_types (byKind : gmap string (list resourceVerdict)) (kinds : list string) :
  cond_type <$> (kind_condition byKind <$> kinds) = (λ kind, serviceHealthConditionPrefix +:+ kind) <$> kinds.
Proof. rewrite <- list_fmap_compose. apply list_fmap_ext. done. Qed.

Lemma summarize_verdicts_spec verdicts state conds :
  summarize_verdicts verdicts = (state, conds) →
  (state = ServiceStateDeployed ∧ conds = [] ∨ state = ServiceStateProvisioning ∧ conds ≠ []) ∧
  (state = ServiceStateDeployed ↔ ∀ v, v ∈ verdicts → vd_Healthy v = true) ∧
  NoDup (cond_type <$> conds) ∧
  (∀ kind, serviceHealthConditionPrefix +:+ kind ∈ cond_type <$> conds ↔
     ∃ v, v ∈ verdicts ∧ vd_Healthy v = false ∧ vd_kind v = kind) ∧
  (∀ c, c ∈ conds → verifier_owned c = true ∧ cond_status c = CondFalse ∧ cond_lastTransitionTime c = 0%Z).
Proof.
  unfold summarize_verdicts. set (unhealthy := filterb _ verdicts). set (byKind := group_by vd_kind unhealthy).
  set (kinds := isort string_leb (distinct_by vd_kind unhealthy)). intros Hs.
  assert (∀ kind, kind ∈ kinds ↔ ∃ v, v ∈ verdicts ∧ vd_Healthy v = false ∧ vd_kind v = kind) as Hkinds.
  { intros kind. subst kinds. rewrite isort_elem_of, distinct_by_elem_of, list_elem_of_fmap.
    split; intros (v & Hv); exists v; [destruct Hv as [-> Hv]|destruct Hv as (Hv & Hf & <-)].
    - apply filterb_elem_of in Hv as [? ?]. split_and!; [done|by apply negb_true_iff|done].
    - split; [done|]. apply filterb_elem_of. by rewrite Hf. }
  assert (conds = kind_condition byKind <$> kinds) as Hc.
  { case_bool_decide as E; [apply nil_length_inv in E; rewrite E|]; by injection Hs as <- <-. }
  split_and!.
  - subst conds. case_bool_decide as E.
    + left. injection Hs as <- Hs. apply nil_length_inv in E. by rewrite E.
    + right. injection Hs as <-. split; [done|]. by intros ->%fmap_nil_iff.
  - case_bool_decide as E; injection Hs as <-; [apply nil_length_inv in E|].
    + split; [|done]. intros _ v Hv. destruct (vd_Healthy v) eqn:Hf; [done|].
      assert (vd_kind v ∈ kinds) as Hin by (apply Hkinds; by exists v). rewrite E in Hin. by apply elem_of_nil in Hin.
    + split; [done|]. intros Hall. assert (0 < length kinds) as (kind & Hk)%length_pos_elem by lia.
      apply Hkinds in Hk as (v & Hv & Hf & _). apply Hall in Hv. congruence.
  - rewrite Hc, condition_types. apply NoDup_fmap_2; [apply _|]. subst kinds.
    rewrite (isort_perm _ _). apply distinct_by_NoDup.
  - intros kind. rewrite Hc, condition_types, <- Hkinds. apply list_elem_of_fmap_inj, _.
  - rewrite Hc. intros c (kind & -> & _)%list_elem_of_fmap. split; [|done]. apply HasPrefix_true. by eexists.
Qed.

(** C15: when nothing fails on the way, a service is found Deployed exactly when
    every kind with rules is healthy on its cluster: the rules have the scope
    the cluster reports, and every object listed under one of the labels is
    being deleted or satisfies every rule of its kind. Otherwise it is
    Provisioning, with one False condition, and only one, for each unhealthy
    kind. The order the rule set is visited in has no bearing on it. Rules of one
    kind that disagree on its scope make the kind unhealthy, whichever of them
    comes first: the comment on [collectVerdicts] says instead that the scope of
    the first rule is used. *)
Theorem verifyHelmServiceOnCluster_spec `{!MapRange GroupKind} t (rules : gmap GroupKind (list resourceRule))
    serviceName serviceNamespace state conds :
  verifyHelmServiceOnCluster obj_meta meta_IsNoMatchError childClient t rules serviceName serviceNamespace =
    Ok (state, conds) →
  (state = ServiceStateDeployed ↔
     ∀ gk gkRules, rules !! gk = Some gkRules → kind_healthy serviceName serviceNamespace gk gkRules) ∧
  (state = ServiceStateDeployed ∧ conds = [] ∨ state = ServiceStateProvisioning ∧ conds ≠ []) ∧
  NoDup (cond_type <$> conds) ∧
  (∀ kind, serviceHealthConditionPrefix +:+ kind ∈ cond_type <$> conds ↔
     ∃ gk gkRules, rules !! gk = Some gkRules ∧ gk_kind gk = kind ∧
       ¬ kind_healthy serviceName serviceNamespace gk gkRules) ∧
  (∀ c, c ∈ conds → verifier_owned c = true ∧ cond_status c = CondFalse).
Proof.
  unfold verifyHelmServiceOnCluster, collectVerdicts. destruct (foldl _ _ _) as [verdicts [e|]] eqn:E; [done|].
  intros Hs. apply Ok_inj in Hs. apply summarize_verdicts_spec in Hs as (Hst & Hd & Hnd & Hkinds & Hc).
  apply collect_kinds_spec in E as [Hall Hk]. split_and!; [|done|done| |naive_solver].
  - rewrite Hd, Hall. split.
    + intros Hg gk gkRules Hr. specialize (Hg gk). rewrite Hr, range_seq_elem in Hg.
      apply Hg. by apply elem_of_dom_2 in Hr.
    + intros Hg gk [gkRules Hr]%range_seq_elem%elem_of_dom. rewrite Hr. by apply Hg.
  - intros kind. rewrite Hkinds, Hk. setoid_rewrite range_seq_elem. split.
    + intros (gk & [gkRules Hr]%elem_of_dom & Hg & Hn). rewrite Hr in Hn. by exists gk, gkRules.
    + intros (gk & gkRules & Hr & Hg & Hn). exists gk. rewrite Hr. split; [|done]. by apply elem_of_dom_2 in Hr.
Qed.
End verdict_properties.

(** ** Properties: the conditions of a service *)

Section applied.
Context `{StatusConditions}.

Definition set_all (cs newConds : list Condition) : list Condition :=
  foldl (λ cs c, (SetStatusCondition cs c).1) cs newConds.

Lemma set_all_other newConds cs t :
  t ∉ cond_type <$> newConds → find_condition t (set_all cs newConds) = find_condition t cs.
Proof.
  revert cs. induction newConds as [|c newConds IH]; intros cs Ht; [done|].
  rewrite fmap_cons in Ht. apply not_elem_of_cons in Ht as [Hne Ht]. cbn [set_all foldl].
  fold (set_all (SetStatusCondition cs c).1 newConds). rewrite IH by done. by apply find_condition_other.
Qed.

Lemma set_all_found newConds cs c :
  NoDup (cond_type <$> newConds) → c ∈ newConds →
  ∃ c', find_condition (cond_type c) (set_all cs newConds) = Some c' ∧ same_content c' c.
Proof.
  revert cs. induction newConds as [|d newConds IH]; intros cs Hnd Hc; [by apply elem_of_nil in Hc|].
  rewrite fmap_cons in Hnd. apply NoDup_cons in Hnd as [Hd Hnd]. cbn [set_all foldl].
  fold (set_all (SetStatusCondition cs d).1 newConds). apply elem_of_cons in Hc as [->|Hc]; [|by apply IH].
  rewrite set_all_other by done. apply set_condition_found.
Qed.

Lemma set_all_filter (p : Condition → bool) newConds cs :
  (∀ c d, c ∈ newConds → cond_type d = cond_type c → p d = false) →
  filterb p (set_all cs newConds) = filterb p cs.
Proof.
  revert cs. induction newConds as [|c newConds IH]; intros cs Hp; [done|]. cbn [set_all foldl].
  fold (set_all (SetStatusCondition cs c).1 newConds). rewrite IH by (intros; eapply Hp; [by right|done]).
  assert (∀ l, filterb p l = filterb p (filterb (λ x, negb (bool_decide (cond_type x = cond_type c))) l)) as Hf.
  { intros l. unfold filterb. rewrite list_filter_filter_l; [done|]. intros x Hx.
    apply negb_true_iff, bool_decide_eq_false. intros Ht. rewrite (Hp c x) in Hx; [done|by left|done]. }
  by rewrite Hf, set_condition_others, <- Hf.
Qed.

Lemma verifier_owned_type c d : cond_type c = cond_type d → verifier_owned c = verifier_owned d.
Proof. unfold verifier_owned. by intros ->. Qed.

Lemma applyVerifyConditions_unfold s newConds :
  st_conditions (applyVerifyConditions s newConds) =
  set_all (filterb (λ c, negb (verifier_owned c) || bool_decide (cond_type c ∈ cond_type <$> newConds)) (st_conditions s))
    newConds.
Proof.
  unfold applyVerifyConditions, set_all. cbn [st_conditions set_st_conditions]. f_equal.
  apply filterb_ext. intros c _. f_equal. apply bool_decide_ext. by rewrite elem_of_list_to_set.
Qed.

(** The conditions the verifier owns are those of this round, and nothing else
    changes. *)
Lemma applyVerifyConditions_spec s newConds :
  NoDup (cond_type <$> newConds) → (∀ c, c ∈ newConds → verifier_owned c = true) →
  let s' := applyVerifyConditions s newConds in
  (∀ c, c ∈ newConds → ∃ c', find_condition (cond_type c) (st_conditions s') = Some c' ∧ same_content c' c) ∧
  (∀ c, c ∈ st_conditions s' → verifier_owned c = true → cond_type c ∈ cond_type <$> newConds) ∧
  filterb (λ c, negb (verifier_owned c)) (st_conditions s') =
    filterb (λ c, negb (verifier_owned c)) (st_conditions s) ∧
  set_st_conditions (st_conditions s) s' = s.
Proof.
  intros Hnd Hv s'. subst s'. rewrite applyVerifyConditions_unfold. set (kept := filterb _ (st_conditions s)). split_and!.
  - intros c Hc. by apply set_all_found.
  - intros c Hc Ho. destruct (decide (cond_type c ∈ cond_type <$> newConds)) as [|Hn]; [done|].
    assert (c ∈ filterb (λ x, bool_decide (cond_type x = cond_type c)) (set_all kept newConds)) as Hin
      by by apply filterb_elem_of; rewrite bool_decide_eq_true.
    rewrite set_all_filter in Hin.
    2:{ intros d x Hd Hx. apply bool_decide_eq_false. intros He. apply Hn. rewrite <- He, Hx.
        by apply list_elem_of_fmap_2. }
    apply filterb_elem_of in Hin as [Hin _]. subst kept. apply filterb_elem_of in Hin as [_ Hk].
    rewrite Ho in Hk. by apply bool_decide_eq_true in Hk.
  - rewrite set_all_filter.
    2:{ intros c d Hc Hd. by rewrite (verifier_owned_type _ _ Hd), (Hv c Hc). }
    subst kept. unfold filterb. rewrite list_filter_filter_l; [done|]. intros c Hc. by rewrite Hc.
  - unfold applyVerifyConditions. by destruct s.
Qed.

(** Setting a condition to what it already says changes nothing. *)
Class StableConditions := set_condition_same cs c c' :
  find_condition (cond_type c) cs = Some c' → same_content c' c → (SetStatusCondition cs c).1 = cs.
Context `{!StableConditions}.

Lemma set_all_same newConds cs :
  (∀ c, c ∈ newConds → ∃ c', find_condition (cond_type c) cs = Some c' ∧ same_content c' c) → set_all cs newConds = cs.
Proof.
  induction newConds as [|c newConds IH]; intros Hall; [done|]. cbn [set_all foldl].
  destruct (Hall c) as (c' & Hf & Hs); [by left|]. rewrite (set_condition_same _ _ _ Hf Hs).
  apply IH. intros; apply Hall; by right.
Qed.

Lemma applyVerifyConditions_idempotent s newConds :
  NoDup (cond_type <$> newConds) → (∀ c, c ∈ newConds → verifier_owned c = true) →
  applyVerifyConditions (applyVerifyConditions s newConds) newConds = applyVerifyConditions s newConds.
Proof.
  intros Hnd Hv. destruct (applyVerifyConditions_spec s newConds Hnd Hv) as (Hfound & Howned & _ & _).
  set (s1 := applyVerifyConditions s newConds) in *.
  enough (st_conditions (applyVerifyConditions s1 newConds) = st_conditions s1) as He
    by (unfold applyVerifyConditions in *; cbn [set_st_conditions st_conditions] in He; by rewrite He; subst s1).
  rewrite applyVerifyConditions_unfold. unfold filterb. rewrite filter_all; [by apply set_all_same|].
  intros c Hc. destruct (verifier_owned c) eqn:Ho; [|done]. simpl. apply bool_decide_eq_true. by apply Howned.
Qed.

(** The conditions of a service owned by the verifier are afterwards those
    of this round, each as it was just found; a kind that has recovered loses
    its condition; those of anyone else stay, in order, and so does everything
    else about the service. A service that stays unhealthy in the same way
    keeps the very same conditions, transition times included, so its status is
    not written over and over. *)
Lemma applyVerifyConditions_merges s newConds :
  NoDup (cond_type <$> newConds) → (∀ c, c ∈ newConds → verifier_owned c = true) →
  let s' := applyVerifyConditions s newConds in
  (∀ c, c ∈ newConds → ∃ c', find_condition (cond_type c) (st_conditions s') = Some c' ∧ same_content c' c) ∧
  (∀ c, c ∈ st_conditions s' → verifier_owned c = true → cond_type c ∈ cond_type <$> newConds) ∧
  filterb (λ c, negb (verifier_owned c)) (st_conditions s') =
    filterb (λ c, negb (verifier_owned c)) (st_conditions s) ∧
  set_st_conditions (st_conditions s) s' = s ∧
  applyVerifyConditions s' newConds = s'.
Proof.
  intros Hnd Hv. cbn zeta. destruct (applyVerifyConditions_spec s newConds Hnd Hv) as (? & ? & ? & ?).
  split_and!; try done. by apply applyVerifyConditions_idempotent.
Qed.
End applied.

(** ** Running it *)

#[local] Existing Instance simple_cel.
#[local] Existing Instance simple_conditions.

#[export] Instance simple_stable : StableConditions (H := simple_conditions).
Proof.
  intros cs c c'. cbn [SetStatusCondition simple_conditions fst]. unfold find_condition, filterb.
  induction cs as [|x cs IH]; [done|]. cbn [set_condition]. rewrite filter_cons.
  destruct (decide (cond_type x = cond_type c)) as [E|E].
  - rewrite !(bool_decide_eq_true_2 _ E), decide_True by done. intros Hh (Ht & Hs & Hr & Hm & Hg). simpl in Hh.
    injection Hh as ->. rewrite (bool_decide_eq_true_2 _ Hs). f_equal. destruct c'; simpl in *. by subst.
  - rewrite !(bool_decide_eq_false_2 _ E), decide_False by done. intros Hf Hs. f_equal. by apply IH.
Qed.

(** A cluster that serves Deployments and Pods: the objects, with their kind. *)
Definition SmallCluster := list (string * ObjectMeta).
#[local] Instance small_child : ChildClient SmallCluster ObjectMeta :=
  {| cc_RESTMappings _ gk :=
       if bool_decide (gk_kind gk ∈ ["Deployment"; "Pod"]) then Ok [mkVersionMapping "v1" (Some "namespace")]
       else Err (ErrMark "NoKindMatchError" (ErrNew ("no matches for kind " +:+ quote (gk_kind gk))));
     cc_List c gvk ns label value :=
       Ok (snd <$> filterb (λ p, bool_decide (p.1 +:+ "List" = gvk_kind gvk) && in_namespace (default "" ns) p.2 &&
                                 bool_decide (labels_of p.2 !! label = Some value)) c) |}.

Definition released (name : string) (annotations : gmap string string) : ObjectMeta :=
  mkMeta name "prod" "" 0 (Some {[ "release" := "web"; "app" := "web" ]}) annotations [] [] None.
Definition small_cluster (ready : string) : SmallCluster :=
  [("Deployment", released "web" {[ "available" := "true" ]});
   ("Pod", released "web-1" {[ "ready" := ready; "reason" := "CrashLoopBackOff" ]})].
Definition small_rules : gmap GroupKind (list resourceRule) :=
  group_rules (parse_rules simple_yaml (cm_key default_rules) (cm_data default_rules)).1.

Lemma verifyHelmServiceOnCluster_spec_witness :
  let conds := [mkCondition "ServiceHealthPod" CondFalse "PodUnhealthy"
    "1 Pod unhealthy: prod/web-1 (CrashLoopBackOff, rule kcm-system/defaults#1)" 0 0] in
  verifyHelmServiceOnCluster id (errors_Is "NoKindMatchError") (small_cluster "false") 0 small_rules "web" "prod" =
    Ok (ServiceStateProvisioning, conds) ∧
  verifyHelmServiceOnCluster id (errors_Is "NoKindMatchError") (small_cluster "true") 0 small_rules "web" "prod" =
    Ok (ServiceStateDeployed, []) ∧
  ∃ gk gkRules, small_rules !! gk = Some gkRules ∧ gk_kind gk = "Pod" ∧
    ¬ kind_healthy id (errors_Is "NoKindMatchError") (small_cluster "false") "web" "prod" gk gkRules.
Proof.
  cbn zeta.
  assert (verifyHelmServiceOnCluster id (errors_Is "NoKindMatchError") (small_cluster "false") 0 small_rules "web" "prod" =
    Ok (ServiceStateProvisioning, [mkCondition "ServiceHealthPod" CondFalse "PodUnhealthy"
    "1 Pod unhealthy: prod/web-1 (CrashLoopBackOff, rule kcm-system/defaults#1)" 0 0])) as Hr
    by (vm_compute; reflexivity).
  split; [exact Hr|]. split; [vm_compute; reflexivity|].
  destruct (verifyHelmServiceOnCluster_spec _ _ _ _ _ _ _ _ _ Hr) as (_ & _ & _ & Hk & _).
  apply Hk. left.
Defined.

Lemma applyVerifyConditions_merges_witness :
  let s := set_st_conditions [mkCondition "ServiceHealthPod" CondFalse "PodUnhealthy" "old" 0 7;
                              mkCondition "ServiceHealthJob" CondFalse "JobUnhealthy" "old" 0 7;
                              mkCondition "Other" CondTrue "Fine" "" 0 5]
             (simple_state "web" "web-1" "1" ServiceStateDeployed) in
  let newConds := [mkCondition "ServiceHealthPod" CondFalse "PodUnhealthy" "new" 0 0] in
  let s' := applyVerifyConditions s newConds in
  (λ c, (cond_type c, cond_message c, cond_lastTransitionTime c)) <$> st_conditions s' =
    [("ServiceHealthPod", "new", 7%Z); ("Other", "", 5%Z)] ∧
  applyVerifyConditions s' newConds = s'.
Proof.
  cbn zeta. split; [vm_compute; reflexivity|].
  refine (proj2 (proj2 (proj2 (proj2 (applyVerifyConditions_merges _ _ _ _))))).
  - apply NoDup_singleton.
  - intros c Hc. apply list_elem_of_singleton in Hc as ->. reflexivity.
Defined.
