(* ===== verification/VerifyStates.v ===== *)
(** * Verifying the services Sveltos has deployed
    (last part of [src/internal/controller/adapters/sveltos/verify.go], and
    [verifyServiceStates] with its helpers in [serviceset_controller.go] there).

    Sveltos may report a release as deployed before it works, or as in progress
    because of another one. The verifier fingerprints every release, looks at
    its objects, and decides with both. *)

From S2P Require Import Prelude GoStrings Api ApiManagement Kube Conditions ServiceBasics SveltosTypes SveltosState AccessManagement AdmissionChecks HealthRules Verdicts.

#[local] Arguments String.append !_ _ / : simpl nomatch.

(** ** What Sveltos records: the fields read *)

Record Chart := mkChart {
  ch_repoURL : string; ch_releaseName : string; ch_namespace : string;
  ch_chartVersion : string; ch_appVersion : string }.
Record Feature := mkFeature { feat_ID : FeatureID; feat_charts : list Chart }.
(** The features of a section are all that is read of it. *)
Record ClusterConfiguration := mkClusterConfiguration {
  ccf_meta : ObjectMeta; ccf_clusterProfileResources : list (list Feature);
  ccf_profileResources : list (list Feature) }.

(** ** The ClusterConfiguration of a profile, through a cache *)

Definition clusterConfigCacheTTL : Z := 30 * 1000000000.

Record ccCacheKey := mkCcKey { cck_namespace : string; cck_profileUID : string }.
#[export] Instance ccCacheKey_eq_dec : EqDecision ccCacheKey.
Proof. solve_decision. Defined.
#[export] Program Instance ccCacheKey_countable : Countable ccCacheKey :=
  inj_countable' (λ k, (cck_namespace k, cck_profileUID k)) (λ p, mkCcKey p.1 p.2) _.
Next Obligation. by intros []. Qed.
Record ccCacheEntry := mkCcEntry { cce_writtenAt : Z; cce_cc : option ClusterConfiguration }.

Definition sweepClusterConfigCache (now : Z) (cache : gmap ccCacheKey ccCacheEntry) : gmap ccCacheKey ccCacheEntry :=
  let cutoff := (now - clusterConfigCacheTTL)%Z in
  filter (λ p, ¬ (cce_writtenAt p.2 < cutoff)%Z) cache.

Definition owned_by_uid (uid : string) (cc : ClusterConfiguration) : bool :=
  existsb (λ owner, bool_decide (own_uid owner = uid)) (om_ownerReferences (ccf_meta cc)).

Section artifacts.
Context {C : Type} `{!Lister C ClusterConfiguration} `{!Getter C Profile} `{!Getter C ClusterProfile}
  `{!Getter C ClusterSummary} (rgnClient : C).
(** [clusterops.GetClusterSummaryName]. *)
Variable GetClusterSummaryName : string → string → string → bool → string.

Definition findOwnedClusterConfiguration (now : Z) (cache : gmap ccCacheKey ccCacheEntry) (namespace profileUID : string)
  : gmap ccCacheKey ccCacheEntry * result (option ClusterConfiguration) :=
  let key := mkCcKey namespace profileUID in
  match cache !! key with
  | Some cached => (cache, Ok (cce_cc cached))
  | None =>
      match c_list rgnClient namespace (λ _, true) with
      | Err e => (cache, Err (ErrWrap ("list ClusterConfigurations in " +:+ namespace +:+ ": ") e))
      | Ok items =>
          let found := head (filterb (owned_by_uid profileUID) items) in
          (<[key := mkCcEntry now found]> cache, Ok found)
      end
  end.

(** What the verifier needs of Sveltos, as far as it is there. *)
Record artifacts := mkArtifacts {
  art_summary : option ClusterSummary; art_cc : option ClusterConfiguration;
  art_profileKind : string; art_profileName : string }.
Definition no_artifacts : artifacts := mkArtifacts None None "" "".

(** The profile of the ServiceSet: its kind, metadata and clusters. *)
Definition get_profile (serviceSet : ServiceSet) : result (string * ObjectMeta * list ObjectReference) :=
  let key := meta_key (sset_meta serviceSet) in
  if pc_selfManagement (sss_provider (sset_spec serviceSet))
  then (λ p, (ClusterProfileKind, cprf_meta p, cprf_matchingClusterRefs p)) <$> c_get (T:=ClusterProfile) rgnClient key
  else (λ p, (ProfileKind, prf_meta p, prf_matchingClusterRefs p)) <$> c_get (T:=Profile) rgnClient key.

(** [sweep] and [now] are when the cache is swept, then looked up. *)
Definition fetchHelmArtifactsForVerifier (sweep now : Z) (cache : gmap ccCacheKey ccCacheEntry) (serviceSet : ServiceSet)
  : gmap ccCacheKey ccCacheEntry * result artifacts :=
  match get_profile serviceSet with
  | Err e => (cache, if IsNotFound e then Ok no_artifacts
                     else Err (ErrWrap ("get sveltos profile " +:+ key_string (meta_key (sset_meta serviceSet)) +:+ ": ") e))
  | Ok (profileKind, profile, matchingRefs) =>
      match matchingRefs with
      | [] => (cache, Ok no_artifacts)
      | cluster :: _ =>
          let isSveltos := bool_decide (ref_apiVersion cluster = SveltosGroupVersion) in
          let summaryName := GetClusterSummaryName profileKind (om_name profile) (ref_name cluster) isSveltos in
          let summaryKey := mkKey (ref_namespace cluster) summaryName in
          let summary := match c_get (T:=ClusterSummary) rgnClient summaryKey with
                         | Ok summary => Ok (Some summary)
                         | Err e => if IsNotFound e then Ok None
                                    else Err (ErrWrap ("get ClusterSummary " +:+ key_string summaryKey +:+ ": ") e)
                         end in
          match summary with
          | Err e => (cache, Err e)
          | Ok summary =>
              let '(cache, cc) := findOwnedClusterConfiguration now (sweepClusterConfigCache sweep cache)
                                    (ref_namespace cluster) (om_uid profile) in
              (cache, (λ cc, mkArtifacts summary cc profileKind (om_name profile)) <$> cc)
          end
      end
  end.
End artifacts.

(** ** Fingerprints *)

Section hashes.
(** The 32 bytes of the sum. *)
Variable sha256 : string → string.
(** [GetClusterConfigurationSectionIndex]. *)
Variable GetClusterConfigurationSectionIndex : ClusterConfiguration → string → string → result nat.

(** [hex.EncodeToString]. *)
Definition hex_encode (s : string) : string :=
  of_bytes (bytes s ≫= (λ a, [hex_digit (Ascii.nat_of_ascii a / 16); hex_digit (Ascii.nat_of_ascii a mod 16)])).

Definition release_input (chart : Chart) : string :=
  Join ["appVersion=" +:+ ch_appVersion chart; "chartVersion=" +:+ ch_chartVersion chart;
        "namespace=" +:+ ch_namespace chart; "releaseName=" +:+ ch_releaseName chart;
        "repoURL=" +:+ ch_repoURL chart] "|".

Definition computeServiceHash (release : option HelmChartSummary) (chart : option Chart) : string :=
  match release, chart with
  | Some release, Some chart =>
      hex_encode (sha256 (sha256 (release_input chart) +:+ hcs_valuesHash release +:+ hcs_patchesHash release))
  | _, _ => ""
  end.

Definition chart_key (chart : Chart) : ObjectKey := mkKey (ch_namespace chart) (ch_releaseName chart).
Definition release_key (r : HelmChartSummary) : ObjectKey := mkKey (hcs_releaseNamespace r) (hcs_releaseName r).

(** The section of a ClusterConfiguration that belongs to a profile; the index
    found is one of a section. *)
Definition profile_features (cc : ClusterConfiguration) (profileKind profileName : string) : list Feature :=
  match GetClusterConfigurationSectionIndex cc profileKind profileName with
  | Err _ => []
  | Ok idx => default [] ((if bool_decide (profileKind = ClusterProfileKind) then ccf_clusterProfileResources cc
                           else ccf_profileResources cc) !! idx)
  end.

Definition serviceHashesFromArtifacts (a : artifacts) : gmap ObjectKey string :=
  match art_summary a, art_cc a with
  | Some summary, Some cc =>
      let charts := match filterb (λ f, bool_decide (feat_ID f = FeatureHelm))
                            (profile_features cc (art_profileKind a) (art_profileName a)) with
                    | f :: _ => feat_charts f
                    | [] => []
                    end in
      let chartByKey := index_by chart_key (λ c, c) charts in
      foldl (λ hashes rs,
        match chartByKey !! release_key rs with
        | None => hashes
        | Some chart =>
            let h := computeServiceHash (Some rs) (Some chart) in
            if negb (bool_decide (h = "")) then <[release_key rs := h]> hashes else hashes
        end) ∅ (cs_helmReleaseSummaries summary)
  | _, _ => ∅
  end.
End hashes.

(** ** The client of the cluster a ServiceSet runs on *)

Section clients.
Context {C Scheme : Type} `{!Getter C Secret} `{!Getter C SveltosCluster} `{!MapRange string}.
Variable clientFactory : string → Scheme → result C.
(** [client.Scheme()]. *)
Variable client_scheme : C → Scheme.

Definition resolveSveltosClusterIdentityRef (cl : C) (serviceSet : ServiceSet) : result (ObjectKey * string) :=
  let namespace := om_namespace (sset_meta serviceSet) in
  let sveltosClusterKey := mkKey namespace (sss_cluster (sset_spec serviceSet)) in
  sveltosCluster ← wrap_err ("failed to get Sveltos cluster " +:+ key_string sveltosClusterKey +:+ ": ")
                     (c_get (T:=SveltosCluster) cl sveltosClusterKey);
  let secretRef :=
    if negb (bool_decide (svc_kubeconfigName sveltosCluster = ""))
    then mkKey namespace (svc_kubeconfigName sveltosCluster)
    else mkKey namespace (om_name (svc_meta sveltosCluster) +:+ "-sveltos-kubeconfig") in
  if negb (bool_decide (svc_kubeconfigKeyName sveltosCluster = "")) then Ok (secretRef, svc_kubeconfigKeyName sveltosCluster)
  else
    secret ← wrap_err ("failed to get secret " +:+ key_string secretRef +:+ ": ") (c_get (T:=Secret) cl secretRef);
    match range_seq 0 (dom (sec_data secret)) with
    | [] => Err (ErrNew ("secret " +:+ key_string secretRef +:+ " has no data"))
    | [k] => Ok (secretRef, k)
    | _ => Err (ErrNew ("secret " +:+ key_string secretRef +:+ " has more than one key"))
    end.

Definition resolveChildClient (cl rgnClient : C) (serviceSet : ServiceSet) : result C :=
  if pc_selfManagement (sss_provider (sset_spec serviceSet)) then Ok cl
  else
    let clusterKey := mkKey (om_namespace (sset_meta serviceSet)) (sss_cluster (sset_spec serviceSet)) in
    match GetChildClient clientFactory rgnClient (GetKubeconfigSecretKey clusterKey) "value" (client_scheme rgnClient) with
    | Ok childCl => Ok childCl
    | Err e =>
        if negb (IsNotFound e) then Err e
        else
          sveltosSecret ← resolveSveltosClusterIdentityRef rgnClient serviceSet;
          GetChildClient clientFactory rgnClient sveltosSecret.1 sveltosSecret.2 (client_scheme rgnClient)
    end.
Definition getChildClient := resolveChildClient.
End clients.

(** ** Conditions of a ServiceSet *)

Section conditions.
Context `{StatusConditions}.

Definition findCondition (serviceSet : ServiceSet) (conditionType : string) : Condition :=
  match find_condition conditionType (ssst_conditions (sset_status serviceSet)) with
  | Some c => c
  | None => mkCondition conditionType CondFalse "" "" (om_generation (sset_meta serviceSet)) 0
  end.

Definition updateCondition (serviceSet : ServiceSet) (condition : Condition) (status : ConditionStatus)
    (reason message : string) (transitionTime : Z) : ServiceSet * bool :=
  let time := if negb (bool_decide (cond_status condition = status)) || negb (bool_decide (cond_reason condition = reason))
                 || negb (bool_decide (cond_message condition = message))
              then transitionTime else cond_lastTransitionTime condition in
  let '(cs, changed) := SetStatusCondition (ssst_conditions (sset_status serviceSet))
    (mkCondition (cond_type condition) status reason message (om_generation (sset_meta serviceSet)) time) in
  (set_sset_conditions cs serviceSet, changed).

Definition is_deployed (s : ServiceState) : bool := bool_decide (st_state s = ServiceStateDeployed).

Definition updateServicesInReadyStateCondition (now : Z) (serviceSet : ServiceSet) : ServiceSet :=
  let deployedCount := length (filterb is_deployed (ssst_services (sset_status serviceSet))) in
  let totalCount := length (sss_services (sset_spec serviceSet)) in
  let svcReadyCond := findCondition serviceSet ServicesInReadyStateCondition in
  let svcReadyStatus := if bool_decide (deployedCount = totalCount) then CondTrue else CondFalse in
  if bool_decide (deployedCount ≤ totalCount)
  then (updateCondition serviceSet svcReadyCond svcReadyStatus ServicesInReadyStateCondition
          (pretty deployedCount +:+ "/" +:+ pretty totalCount) now).1
  else serviceSet.
End conditions.

(** ** The services of a ServiceSet *)

Definition set_sset_services (services : list ServiceState) (s : ServiceSet) : ServiceSet :=
  let st := sset_status s in
  mkServiceSet (sset_meta s) (sset_spec s)
    (mkServiceSetStatus (ssst_cluster st) (ssst_conditions st) services (ssst_providerReady st) (ssst_providerSuspended st)
       (ssst_deployed st)).
Definition set_sset_deployed (deployed : bool) (s : ServiceSet) : ServiceSet :=
  let st := sset_status s in
  mkServiceSet (sset_meta s) (sset_spec s)
    (mkServiceSetStatus (ssst_cluster st) (ssst_conditions st) (ssst_services st) (ssst_providerReady st)
       (ssst_providerSuspended st) deployed).

(** The next state of a service, and whether its fingerprint is still missing. *)
Definition decide_state (state verifierState currentHash lastDeployedHash : string) : string * bool :=
  let newState :=
    if negb (bool_decide (verifierState = ServiceStateDeployed)) then ServiceStateProvisioning
    else if bool_decide (state = ServiceStateProvisioning) && negb (bool_decide (currentHash = "")) &&
            bool_decide (currentHash = lastDeployedHash)
    then ServiceStateDeployed
    else state in
  if bool_decide (newState = ServiceStateDeployed) && bool_decide (currentHash = "")
  then (ServiceStateProvisioning, true) else (newState, false).

Section services.
Context `{StatusConditions} (now : Z) (serviceHashes specVersions : gmap ObjectKey string).

(** The end of the loop body: what the verifier found is put into the state. *)
Definition apply_verdict (s : ServiceState) (verifierState : string) (conds : list Condition) : ServiceState * bool :=
  let currentHash := get_string serviceHashes (st_raw_key s) in
  let newConds := if negb (bool_decide (verifierState = ServiceStateDeployed)) then conds else [] in
  let '(newState, pending) := decide_state (st_state s) verifierState currentHash (st_lastDeployedHash s) in
  let s1 := if negb (bool_decide (newState = st_state s))
            then mkServiceState (Some now) (st_version s) (st_type s) (st_name s) (st_namespace s) (st_template s)
                   newState (st_failureMessage s) (st_lastDeployedHash s) (st_conditions s)
            else s in
  let s2 := applyVerifyConditions s1 newConds in
  (if bool_decide (newState = ServiceStateDeployed) && negb (bool_decide (currentHash = "")) &&
      negb (bool_decide (currentHash = st_lastDeployedHash s))
   then mkServiceState (st_lastStateTransitionTime s2) (get_string specVersions (st_raw_key s)) (st_type s2) (st_name s2)
          (st_namespace s2) (st_template s2) (st_state s2) (st_failureMessage s2) currentHash (st_conditions s2)
   else s2, pending).

(** Only Helm services Sveltos is done with, or at work on, are verified. *)
Definition to_verify (s : ServiceState) : bool :=
  bool_decide (st_type s = ServiceTypeHelm) &&
  (bool_decide (st_state s = ServiceStateDeployed) || bool_decide (st_state s = ServiceStateProvisioning)).

(** [verify] is [verifyHelmServiceOnCluster] for the [i]-th service. *)
Variable verify : nat → string → string → result (string * list Condition).

Record verified := mkVerified {
  vf_services : list ServiceState; vf_stateChanged : bool; vf_pendingStamp : bool; vf_errs : option gerror }.

(** The body of the loop. *)
Definition verify_step (acc : verified) (i : nat) (s : ServiceState) : verified :=
  if negb (to_verify s) then
    mkVerified (vf_services acc ++ [s]) (vf_stateChanged acc) (vf_pendingStamp acc) (vf_errs acc)
  else
    match verify i (st_name s) (st_namespace s) with
    | Err e =>
        mkVerified (vf_services acc ++ [s]) (vf_stateChanged acc) (vf_pendingStamp acc)
          (join_err (vf_errs acc) (ErrWrap ("verify service " +:+ key_string (st_raw_key s) +:+ ": ") e))
    | Ok (verifierState, conds) =>
        let '(s', pending) := apply_verdict s verifierState conds in
        mkVerified (vf_services acc ++ [s']) (vf_stateChanged acc || negb (bool_decide (st_state s' = st_state s)))
          (vf_pendingStamp acc || pending) (vf_errs acc)
    end.

Definition verify_services (services : list ServiceState) : verified :=
  foldl (λ acc p, verify_step acc p.1 p.2) (mkVerified [] false false None) (imap pair services).
End services.

Section verifyServiceStates.
Context {Obj C Scheme : Type} `{CEL Obj} (obj_meta : Obj → ObjectMeta) `{StatusConditions}.
Context `{!MapRange GroupKind} `{!MapRange string} `{!ChildClient C Obj} `{!Lister C ConfigMap} `{!Lister C ClusterConfiguration}.
Context `{!Getter C Profile} `{!Getter C ClusterProfile} `{!Getter C ClusterSummary} `{!Getter C Secret} `{!Getter C SveltosCluster}.
Variable meta_IsNoMatchError : gerror → bool.
Variable yaml_Unmarshal : string → result (list ruleDoc).
Variable GetClusterSummaryName : string → string → string → bool → string.
Variable sha256 : string → string.
Variable GetClusterConfigurationSectionIndex : ClusterConfiguration → string → string → result nat.
Variable clientFactory : string → Scheme → result C.
Variable client_scheme : C → Scheme.
(** The clocks read on the way. *)
Variables (now sweep : Z) (cm_now : ObjectKey → Z).

(** The two caches of the process. *)
Record caches := mkCaches {
  ca_rules : gmap ObjectKey ruleCacheEntry; ca_configs : gmap ccCacheKey ccCacheEntry }.

Record verifyOutcome := mkOutcome {
  vo_caches : caches; vo_serviceSet : ServiceSet; vo_pendingStamp : bool; vo_err : option gerror }.

Definition specVersions_of (serviceSet : ServiceSet) : gmap ObjectKey string :=
  index_by sv_raw_key sv_version (sss_services (sset_spec serviceSet)).

(** What is left once rules, fingerprints and client are there. *)
Definition verify_with (rules : gmap GroupKind (list resourceRule)) (serviceHashes : gmap ObjectKey string)
    (childClient : C) (serviceSet : ServiceSet) : ServiceSet * bool * option gerror :=
  let r := verify_services now serviceHashes (specVersions_of serviceSet)
             (λ i name namespace, verifyHelmServiceOnCluster obj_meta meta_IsNoMatchError childClient i rules name namespace)
             (ssst_services (sset_status serviceSet)) in
  let serviceSet := set_sset_services (vf_services r) serviceSet in
  let serviceSet := if vf_stateChanged r
                    then set_sset_deployed (negb (existsb (λ s, negb (is_deployed s)) (vf_services r))) serviceSet
                    else serviceSet in
  (updateServicesInReadyStateCondition now serviceSet, vf_pendingStamp r, vf_errs r).

Definition verifyServiceStates (mgmtClient : C) (systemNamespace : string) (ca : caches) (rgnClient : option C)
    (serviceSet : ServiceSet) : verifyOutcome :=
  match rgnClient with
  | None => mkOutcome ca serviceSet false None
  | Some rgnClient =>
      if bool_decide (length (ssst_services (sset_status serviceSet)) = 0) then mkOutcome ca serviceSet false None
      else
        let '(rule_cache, loaded) := rulesFromConfigMaps yaml_Unmarshal cm_now mgmtClient sweep (ca_rules ca)
                                       systemNamespace serviceSet in
        let ca := mkCaches rule_cache (ca_configs ca) in
        match loaded with
        | Err e => mkOutcome ca serviceSet false (Some (ErrWrap "load health rules: " e))
        | Ok (rules, loadErrs) =>
            let serviceSet := applyRuleLoadErrorCondition serviceSet loadErrs in
            if bool_decide (size rules = 0) then mkOutcome ca serviceSet false None
            else
              let '(cc_cache, fetched) := fetchHelmArtifactsForVerifier rgnClient GetClusterSummaryName sweep now
                                            (ca_configs ca) serviceSet in
              let ca := mkCaches (ca_rules ca) cc_cache in
              match fetched with
              | Err e => mkOutcome ca serviceSet false (Some (ErrWrap "fetch sveltos artifacts: " e))
              | Ok a =>
                  let serviceHashes := serviceHashesFromArtifacts sha256 GetClusterConfigurationSectionIndex a in
                  match getChildClient clientFactory client_scheme mgmtClient rgnClient serviceSet with
                  | Err e => mkOutcome ca serviceSet false (Some (ErrWrap "get child cluster client: " e))
                  | Ok childClient =>
                      let '(serviceSet, pendingStamp, errs) := verify_with rules serviceHashes childClient serviceSet in
                      mkOutcome ca serviceSet pendingStamp errs
                  end
              end
        end
  end.
End verifyServiceStates.

(** ** Properties: fingerprints *)

Section fresh.
Context {C : Type} `{!Lister C ClusterConfiguration} `{!Getter C Profile} `{!Getter C ClusterProfile} `{!Getter C ClusterSummary}.
Variable GetClusterSummaryName : string → string → string → bool → string.
(** What each namespace held when. *)
Variable world : Z → string → list ClusterConfiguration.

Definition owned_at (t : Z) (k : ccCacheKey) : option ClusterConfiguration :=
  head (filterb (owned_by_uid (cck_profileUID k)) (world t (cck_namespace k))).
(** Each entry is what the cluster held when the entry was written, which has
    been by now. *)
Definition cc_cache_ok (now : Z) (cache : gmap ccCacheKey ccCacheEntry) : Prop :=
  ∀ k e, cache !! k = Some e → (cce_writtenAt e ≤ now)%Z ∧ cce_cc e = owned_at (cce_writtenAt e) k.

Lemma sweepClusterConfigCache_lookup now cache k e :
  sweepClusterConfigCache now cache !! k = Some e ↔
  cache !! k = Some e ∧ (now - clusterConfigCacheTTL ≤ cce_writtenAt e)%Z.
Proof.
  unfold sweepClusterConfigCache. rewrite map_lookup_filter_Some. simpl. split; intros [? ?]; split; try done; lia.
Qed.

Lemma findOwnedClusterConfiguration_fresh (rgnClient : C) sweep now cache namespace profileUID cache' cc :
  (∀ items, c_list rgnClient namespace (λ _, true) = Ok items → items = world now namespace) →
  (sweep ≤ now)%Z → cc_cache_ok sweep cache →
  findOwnedClusterConfiguration rgnClient now (sweepClusterConfigCache sweep cache) namespace profileUID = (cache', Ok cc) →
  (∃ t, (sweep - clusterConfigCacheTTL ≤ t ≤ now)%Z ∧ cc = owned_at t (mkCcKey namespace profileUID)) ∧
  cc_cache_ok now cache'.
Proof.
  intros Hl Hle Hc. unfold findOwnedClusterConfiguration. set (k := mkCcKey namespace profileUID).
  assert (cc_cache_ok now (sweepClusterConfigCache sweep cache)) as Hs.
  { intros k' e [Hk _]%sweepClusterConfigCache_lookup. destruct (Hc k' e Hk). split; [lia|done]. }
  destruct (sweepClusterConfigCache sweep cache !! k) as [e|] eqn:E.
  - intros [= <- <-]. apply sweepClusterConfigCache_lookup in E as [Hk Ht]. split; [|done].
    destruct (Hc k e Hk). exists (cce_writtenAt e). split; [lia|done].
  - destruct (c_list rgnClient namespace _) as [items|e] eqn:El; [|done]. rewrite (Hl items eq_refl) in *.
    intros [= <- <-]. split.
    + exists now. split; [|done]. unfold clusterConfigCacheTTL. lia.
    + intros k' e [[<- <-]|[_ Hk]]%lookup_insert_Some; [split; [cbn; lia|done]|by apply Hs].
Qed.

(** C40: how old the ClusterConfiguration is that fingerprints are computed from.
    When the artifacts of a ServiceSet are fetched and its profile matches a
    cluster, the ClusterConfiguration returned is the one the profile owned in
    the namespace of that cluster at some time at most thirty seconds, and what
    passes between the sweep and the lookup, ago; otherwise nothing is returned.
    Entries that were right and not from the future stay so, however often the
    cache is used: none is renewed without reading the cluster again. *)
Theorem cluster_configuration_fresh (rgnClient : C) sweep now delay cache serviceSet cache' a :
  (∀ namespace items, c_list rgnClient namespace (λ _, true) = Ok items → items = world now namespace) →
  (sweep ≤ now ≤ sweep + delay)%Z → cc_cache_ok sweep cache →
  fetchHelmArtifactsForVerifier rgnClient GetClusterSummaryName sweep now cache serviceSet = (cache', Ok a) →
  match get_profile rgnClient serviceSet with
  | Ok (_, profile, cluster :: _) =>
      ∃ t, (now - (clusterConfigCacheTTL + delay) ≤ t ≤ now)%Z ∧
        art_cc a = owned_at t (mkCcKey (ref_namespace cluster) (om_uid profile))
  | _ => a = no_artifacts
  end ∧ cc_cache_ok now cache'.
Proof.
  intros Hl Hle Hc. assert (cc_cache_ok now cache) as Hn by (intros k e Hk; destruct (Hc k e Hk); split; [lia|done]).
  unfold fetchHelmArtifactsForVerifier. destruct (get_profile rgnClient serviceSet) as [[[kind profile] [|cluster refs]]|e].
  - by intros [= <- <-].
  - cbn zeta. destruct (match c_get (T:=ClusterSummary) rgnClient _ with Ok _ => _ | Err _ => _ end) as [summary|e]; [|done].
    destruct (findOwnedClusterConfiguration _ _ _ _ _) as [cache1 [cc|e]] eqn:Hf; [|done].
    intros [= <- <-]. destruct (findOwnedClusterConfiguration_fresh _ _ _ _ _ _ _ _ (Hl _) (proj1 Hle) Hc Hf) as [(t & Ht & ->) Hok].
    split; [|done]. exists t. split; [lia|done].
  - destruct (IsNotFound e); [|done]. by intros [= <- <-].
Qed.
End fresh.

Section hash_properties.
Variable sha256 : string → string.
Variable GetClusterConfigurationSectionIndex : ClusterConfiguration → string → string → result nat.

(** A fingerprint is only given to a release Sveltos both summarises and has
    recorded a chart for. *)
Lemma serviceHashesFromArtifacts_Some a k h :
  serviceHashesFromArtifacts sha256 GetClusterConfigurationSectionIndex a !! k = Some h →
  h ≠ "" ∧ ∃ summary cc rs chart, art_summary a = Some summary ∧ art_cc a = Some cc ∧
    rs ∈ cs_helmReleaseSummaries summary ∧ release_key rs = k ∧ chart_key chart = k ∧
    h = computeServiceHash sha256 (Some rs) (Some chart).
Proof.
  unfold serviceHashesFromArtifacts.
  destruct (art_summary a) as [summary|]; [|by rewrite lookup_empty].
  destruct (art_cc a) as [cc|]; [|by rewrite lookup_empty].
  set (charts := match filterb _ _ with f :: _ => feat_charts f | [] => [] end). clearbody charts.
  assert (∀ l (m : gmap ObjectKey string), foldl (λ hashes rs,
    match index_by chart_key (λ c, c) charts !! release_key rs with
    | None => hashes
    | Some chart => let h := computeServiceHash sha256 (Some rs) (Some chart) in
        if negb (bool_decide (h = "")) then <[release_key rs := h]> hashes else hashes
    end) m l !! k = Some h → m !! k = Some h ∨
    h ≠ "" ∧ ∃ rs chart, rs ∈ l ∧ release_key rs = k ∧ chart_key chart = k ∧
      h = computeServiceHash sha256 (Some rs) (Some chart)) as Hf.
  { induction l as [|rs l IH]; intros m Hm; [by left|]. apply IH in Hm as [Hm|(Hne & rs' & chart & Hin & Hrest)].
    2:{ right. split; [done|]. exists rs', chart. split; [by right|done]. }
    destruct (index_by _ _ _ !! _) as [chart|] eqn:E; [|by left].
    cbn zeta in Hm. destruct (bool_decide (computeServiceHash sha256 (Some rs) (Some chart) = "")) eqn:Hh;
      cbn [negb] in Hm; [by left|]. apply bool_decide_eq_false in Hh.
    apply lookup_insert_Some in Hm as [[Hk <-]|[_ Hm]]; [|by left]. right. split; [done|].
    exists rs, chart. apply index_by_Some in E as (c & _ & Hc & <-). split_and!; [left|done|congruence|done]. }
  intros [Hm|(Hne & rs & chart & ?)]%Hf; [by rewrite lookup_empty in Hm|]. split; [done|].
  exists summary, cc, rs, chart. naive_solver.
Qed.
End hash_properties.

(** ** Properties: one service *)

Section service_properties.
Context `{StatusConditions} (now : Z) (serviceHashes specVersions : gmap ObjectKey string).

(** What the verifier makes of a service it could look at. *)
Record verified_as (s : ServiceState) (verifierState : string) (conds : list Condition) (s' : ServiceState) : Prop := {
  va_states : st_state s' = ServiceStateDeployed ∨ st_state s' = ServiceStateProvisioning;
  va_deployed : st_state s' = ServiceStateDeployed ↔
    verifierState = ServiceStateDeployed ∧ get_string serviceHashes (st_raw_key s) ≠ "" ∧
    (st_state s = ServiceStateDeployed ∨ st_lastDeployedHash s = get_string serviceHashes (st_raw_key s));
  va_stamp : st_state s' = ServiceStateDeployed →
    st_lastDeployedHash s' = get_string serviceHashes (st_raw_key s) ∧
    (st_lastDeployedHash s ≠ get_string serviceHashes (st_raw_key s) →
     st_state s = ServiceStateDeployed ∧ st_version s' = get_string specVersions (st_raw_key s));
  va_kept : st_state s' ≠ ServiceStateDeployed ∨ st_lastDeployedHash s = get_string serviceHashes (st_raw_key s) →
    st_version s' = st_version s ∧ st_lastDeployedHash s' = st_lastDeployedHash s;
  va_conditions : st_conditions s' =
    st_conditions (applyVerifyConditions s (if bool_decide (verifierState = ServiceStateDeployed) then [] else conds));
  va_time : st_lastStateTransitionTime s' =
    if bool_decide (st_state s' = st_state s) then st_lastStateTransitionTime s else Some now;
  va_rest : st_type s' = st_type s ∧ st_raw_key s' = st_raw_key s ∧ st_template s' = st_template s ∧
    st_failureMessage s' = st_failureMessage s }.

Lemma decide_state_spec state v hash last :
  state = ServiceStateDeployed ∨ state = ServiceStateProvisioning →
  let '(newState, pending) := decide_state state v hash last in
  (newState = ServiceStateDeployed ∨ newState = ServiceStateProvisioning) ∧
  (newState = ServiceStateDeployed ↔
     v = ServiceStateDeployed ∧ hash ≠ "" ∧ (state = ServiceStateDeployed ∨ last = hash)) ∧
  (pending = true ↔ v = ServiceStateDeployed ∧ hash = "" ∧ state = ServiceStateDeployed).
Proof.
  assert (ServiceStateDeployed ≠ ServiceStateProvisioning) as Hne by done.
  intros Hst. unfold decide_state. destruct (decide (v = ServiceStateDeployed)) as [->|Hv].
  2:{ rewrite (bool_decide_eq_false_2 _ Hv). cbn [negb]; cbv match. rewrite bool_decide_eq_false_2 by done. naive_solver. }
  rewrite (bool_decide_eq_true_2 (ServiceStateDeployed = ServiceStateDeployed)) by done. cbn [negb]; cbv match. destruct (decide (hash = "")) as [->|Hh].
  - rewrite !(bool_decide_eq_true_2 ("" = "")), andb_false_r by done. cbn [negb andb]; cbv match.
    destruct Hst as [-> | ->]; rewrite ?bool_decide_eq_true_2, ?bool_decide_eq_false_2 by done; naive_solver.
  - rewrite !(bool_decide_eq_false_2 _ Hh), !andb_true_r, andb_false_r.
    destruct Hst as [-> | ->].
    + rewrite bool_decide_eq_false_2 by done. naive_solver.
    + rewrite bool_decide_eq_true_2 by done. cbn [andb]; cbv match. case_bool_decide; naive_solver.
Qed.

(** The fields of the state that results. *)
Lemma apply_verdict_fields s v conds :
  let hash := get_string serviceHashes (st_raw_key s) in
  let '(newState, pending) := decide_state (st_state s) v hash (st_lastDeployedHash s) in
  let stamp := bool_decide (newState = ServiceStateDeployed) && negb (bool_decide (hash = "")) &&
               negb (bool_decide (hash = st_lastDeployedHash s)) in
  apply_verdict now serviceHashes specVersions s v conds =
    (mkServiceState (if bool_decide (newState = st_state s) then st_lastStateTransitionTime s else Some now)
       (if stamp then get_string specVersions (st_raw_key s) else st_version s) (st_type s) (st_name s) (st_namespace s)
       (st_template s) newState (st_failureMessage s) (if stamp then hash else st_lastDeployedHash s)
       (st_conditions (applyVerifyConditions s (if bool_decide (v = ServiceStateDeployed) then [] else conds))),
     pending).
Proof.
  cbn zeta. unfold apply_verdict. cbn zeta. destruct (decide_state _ v _ _) as [newState pending].
  replace (if negb (bool_decide (v = ServiceStateDeployed)) then conds else [])
    with (if bool_decide (v = ServiceStateDeployed) then [] else conds) by by destruct (bool_decide _).
  f_equal. destruct (_ && _ && _); case_bool_decide as E; cbn [negb]; unfold applyVerifyConditions; cbn; try done.
  all: destruct s; cbn in *; by subst.
Qed.

(** What is verified: the Helm services Sveltos calls deployed or is at work on. *)
Definition verifiable (s : ServiceState) : Prop :=
  st_type s = ServiceTypeHelm ∧ (st_state s = ServiceStateDeployed ∨ st_state s = ServiceStateProvisioning).

Lemma to_verify_spec s : if to_verify s then verifiable s else ¬ verifiable s.
Proof.
  unfold verifiable. destruct (to_verify s) eqn:Hv; unfold to_verify in Hv.
  - apply andb_true_iff in Hv as [Ht%bool_decide_eq_true Hst%orb_true_iff]. rewrite !bool_decide_eq_true in Hst. by split.
  - apply andb_false_iff in Hv as [Hv|Hv]; [by apply bool_decide_eq_false in Hv; intros [? _]|].
    apply orb_false_iff in Hv as [H1%bool_decide_eq_false H2%bool_decide_eq_false]. by intros [_ [?|?]].
Qed.
Lemma to_verify_true s : to_verify s = true ↔ verifiable s.
Proof. pose proof (to_verify_spec s). by destruct (to_verify s). Qed.

Lemma apply_verdict_spec s v conds :
  verifiable s →
  let '(s', pending) := apply_verdict now serviceHashes specVersions s v conds in
  verified_as s v conds s' ∧
  (pending = true ↔ v = ServiceStateDeployed ∧ get_string serviceHashes (st_raw_key s) = "" ∧ st_state s = ServiceStateDeployed).
Proof.
  intros [_ Hst].
  pose proof (apply_verdict_fields s v conds) as Hf. cbn zeta in Hf.
  set (hash := get_string serviceHashes (st_raw_key s)) in *.
  pose proof (decide_state_spec (st_state s) v hash (st_lastDeployedHash s) Hst) as Hd.
  destruct (decide_state _ v hash _) as [newState pending]. destruct Hd as (Hns & Hiff & Hp). rewrite Hf. clear Hf.
  split; [|exact Hp]. split; cbn; fold hash; try done.
  - intros Hdep. rewrite (bool_decide_eq_true_2 _ Hdep). apply Hiff in Hdep as (_ & Hh & Hs).
    rewrite (bool_decide_eq_false_2 _ Hh). cbn [negb andb].
    destruct (decide (hash = st_lastDeployedHash s)) as [He|He].
    + rewrite (bool_decide_eq_true_2 _ He). cbn [negb]. split; [done|]. intros Hne. by destruct Hne.
    + rewrite (bool_decide_eq_false_2 _ He). cbn [negb]. split; [done|]. intros _. split; [|done].
      destruct Hs as [Hs|Hs]; [done|]. by destruct He.
  - intros [Hn|He].
    + by rewrite (bool_decide_eq_false_2 _ Hn).
    + rewrite (bool_decide_eq_true_2 (hash = st_lastDeployedHash s)) by done. by rewrite andb_false_r.
Qed.

Variable verify : nat → string → string → result (string * list Condition).

(** What happens to the service at [i]: it is passed over, left alone because it
    could not be looked at, or verified. *)
Inductive service_outcome (i : nat) (s s' : ServiceState) : Prop :=
  | outcome_skipped : ¬ verifiable s → s' = s → service_outcome i s s'
  | outcome_failed e : verifiable s → verify i (st_name s) (st_namespace s) = Err e → s' = s →
      service_outcome i s s'
  | outcome_verified v conds : verifiable s → verify i (st_name s) (st_namespace s) = Ok (v, conds) →
      verified_as s v conds s' → service_outcome i s s'.

Definition next_service (i : nat) (s : ServiceState) : ServiceState :=
  if to_verify s then
    match verify i (st_name s) (st_namespace s) with
    | Ok (v, conds) => (apply_verdict now serviceHashes specVersions s v conds).1
    | Err _ => s
    end
  else s.
Definition unstamped (i : nat) (s : ServiceState) : bool :=
  to_verify s && match verify i (st_name s) (st_namespace s) with
                 | Ok (v, conds) => (apply_verdict now serviceHashes specVersions s v conds).2
                 | Err _ => false
                 end.
Definition looked_at (i : nat) (s : ServiceState) : bool :=
  negb (to_verify s) || is_ok (verify i (st_name s) (st_namespace s)).

Lemma next_service_outcome i s : service_outcome i s (next_service i s).
Proof.
  unfold next_service. pose proof (to_verify_spec s) as Hv. destruct (to_verify s); [|by apply outcome_skipped].
  destruct (verify i _ _) as [[v conds]|e] eqn:E; [|by eapply outcome_failed].
  eapply outcome_verified; [done|done|]. pose proof (apply_verdict_spec s v conds Hv) as Ha.
  by destruct (apply_verdict _ _ _ _ _ _) as [s' p]; destruct Ha.
Qed.

Lemma verify_step_spec acc i s :
  verify_step now serviceHashes specVersions verify acc i s =
    mkVerified (vf_services acc ++ [next_service i s])
      (vf_stateChanged acc || negb (bool_decide (st_state (next_service i s) = st_state s)))
      (vf_pendingStamp acc || unstamped i s)
      (vf_errs (verify_step now serviceHashes specVersions verify acc i s)) ∧
  (vf_errs (verify_step now serviceHashes specVersions verify acc i s) = None ↔ vf_errs acc = None ∧ looked_at i s = true).
Proof.
  unfold verify_step, next_service, unstamped, looked_at. destruct (to_verify s); cbn [negb andb orb].
  - destruct (verify i _ _) as [[v conds]|e]; cbn.
    + destruct (apply_verdict _ _ _ _ _ _) as [s' p]. cbn. tauto.
    + rewrite bool_decide_eq_true_2 by done. cbn. rewrite !orb_false_r. split; [done|].
      split; [by intros ?%join_err_ne|by intros []].
  - rewrite bool_decide_eq_true_2 by done. cbn. rewrite !orb_false_r. tauto.
Qed.

Lemma verify_services_fold (l : list (nat * ServiceState)) acc :
  let r := foldl (λ acc p, verify_step now serviceHashes specVersions verify acc p.1 p.2) acc l in
  vf_services r = vf_services acc ++ ((λ p, next_service p.1 p.2) <$> l) ∧
  vf_stateChanged r = vf_stateChanged acc || existsb (λ p, negb (bool_decide (st_state (next_service p.1 p.2) = st_state p.2))) l ∧
  vf_pendingStamp r = vf_pendingStamp acc || existsb (λ p, unstamped p.1 p.2) l ∧
  (vf_errs r = None ↔ vf_errs acc = None ∧ ∀ p, p ∈ l → looked_at p.1 p.2 = true).
Proof.
  cbn zeta. revert acc. induction l as [|[i s] l IH]; intros acc; cbn [foldl fst snd].
  - rewrite app_nil_r. cbn. rewrite !orb_false_r. split_and!; try done. split; [|by intros []].
    intros ->. split; [done|]. by intros p ?%elem_of_nil.
  - destruct (verify_step_spec acc i s) as [Hs He].
    destruct (IH (verify_step now serviceHashes specVersions verify acc i s)) as (-> & -> & -> & ->).
    rewrite He, Hs. cbn. rewrite <- app_assoc, <- !orb_assoc. split_and!; try done. split.
    + intros [[? ?] Hall]. split; [done|]. intros p [->|Hp]%elem_of_cons; [done|by apply Hall].
    + intros [? Hall]. split_and!; [done|by apply (Hall (i, s)); left|]. intros p Hp. apply Hall. by right.
Qed.

Lemma imap_pair_lookup (l : list ServiceState) i s : (i, s) ∈ imap pair l ↔ l !! i = Some s.
Proof.
  rewrite list_elem_of_lookup. setoid_rewrite list_lookup_imap. split.
  - intros (j & Hj). destruct (l !! j) eqn:E; [|done]. simpl in Hj. by injection Hj as -> ->.
  - intros Hi. exists i. by rewrite Hi.
Qed.

Lemma verify_services_spec services :
  let r := verify_services now serviceHashes specVersions verify services in
  vf_services r = imap next_service services ∧
  (vf_stateChanged r = true ↔ ∃ i s, services !! i = Some s ∧ st_state (next_service i s) ≠ st_state s) ∧
  (vf_pendingStamp r = true ↔ ∃ i s, services !! i = Some s ∧ unstamped i s = true) ∧
  (vf_errs r = None ↔ ∀ i s, services !! i = Some s → looked_at i s = true).
Proof.
  cbn zeta. unfold verify_services.
  destruct (verify_services_fold (imap pair services) (mkVerified [] false false None)) as (-> & -> & -> & ->). cbn [app orb vf_services vf_stateChanged vf_pendingStamp vf_errs].
  split_and!.
  - by rewrite fmap_imap.
  - rewrite existsb_elem_of. split.
    + intros ([i s] & Hp & Hn). apply imap_pair_lookup in Hp. exists i, s. split; [done|]. by bool_simpl.
    + intros (i & s & Hs & Hn). exists (i, s). rewrite imap_pair_lookup. split; [done|]. simpl. by rewrite bool_decide_eq_false_2.
  - rewrite existsb_elem_of. split.
    + intros ([i s] & Hp & Hn). apply imap_pair_lookup in Hp. by exists i, s.
    + intros (i & s & Hs & Hn). exists (i, s). by rewrite imap_pair_lookup.
  - split.
    + intros [_ Hall] i s Hs. apply (Hall (i, s)). by apply imap_pair_lookup.
    + intros Hall. split; [done|]. intros [i s] Hp. apply imap_pair_lookup in Hp. by apply Hall.
Qed.

Lemma next_service_frame i s :
  st_raw_key (next_service i s) = st_raw_key s ∧ st_type (next_service i s) = st_type s.
Proof. by destruct (next_service_outcome i s) as [_ ->|e _ _ ->|v conds _ _ [_ _ _ _ _ _ (? & ? & _)]]. Qed.

Lemma unstamped_spec i s :
  unstamped i s = true ↔ verifiable s ∧ st_state s = ServiceStateDeployed ∧ get_string serviceHashes (st_raw_key s) = "" ∧
    ∃ conds, verify i (st_name s) (st_namespace s) = Ok (ServiceStateDeployed, conds).
Proof.
  unfold unstamped. pose proof (to_verify_spec s) as Hv. destruct (to_verify s); cbn [andb]; [|split; [done|by intros []]].
  destruct (verify i _ _) as [[v conds]|e]; [|split; [done|by intros (_ & _ & _ & ? & ?)]].
  pose proof (apply_verdict_spec s v conds Hv) as Ha.
  destruct (apply_verdict _ _ _ _ _ _) as [s' p]. cbn [fst snd]. destruct Ha as [_ ->]. split.
  - intros (-> & Hh & Hs). split_and!; [apply Hv..|done|done|by eexists].
  - by intros (_ & Hs & Hh & ? & [= -> _]).
Qed.
End service_properties.

(** C12: what verification does to the services of a ServiceSet. Each keeps its
    place and identity. One that is not a Helm release, or is neither Deployed
    nor Provisioning, is not touched, nor is one whose objects cannot be
    inspected; these, and only these, are reported. Any other ends up Deployed
    exactly when its objects are healthy, its fingerprint is known, and Sveltos
    calls it Deployed or the fingerprint is that of the last confirmed
    deployment, and Provisioning otherwise; its version and fingerprint advance
    exactly when Sveltos and the verifier agree and the fingerprint has moved. A
    stamp is outstanding exactly when both call some service Deployed whose
    fingerprint is not known yet; that service is left Provisioning. In this
    last point the code is stricter than the comments on it: its decision table
    has such a service Deployed, and [pendingStamp] is said to be set for
    services that ended up Deployed. *)
Theorem verify_services_correct `{StatusConditions} now serviceHashes specVersions verify services :
  let r := verify_services now serviceHashes specVersions verify services in
  st_raw_key <$> vf_services r = st_raw_key <$> services ∧
  (∀ i s, services !! i = Some s → ∃ s', vf_services r !! i = Some s' ∧
     service_outcome now serviceHashes specVersions verify i s s') ∧
  (vf_errs r = None ↔ ∀ i s, services !! i = Some s → verifiable s →
     is_ok (verify i (st_name s) (st_namespace s)) = true) ∧
  (vf_pendingStamp r = true ↔ ∃ i s, services !! i = Some s ∧ st_type s = ServiceTypeHelm ∧ st_state s = ServiceStateDeployed ∧
     get_string serviceHashes (st_raw_key s) = "" ∧
     ∃ conds, verify i (st_name s) (st_namespace s) = Ok (ServiceStateDeployed, conds)) ∧
  (∀ i s s', services !! i = Some s → verifiable s → vf_services r !! i = Some s' → vf_errs r = None →
     st_state s' = ServiceStateDeployed →
     st_lastDeployedHash s' = get_string serviceHashes (st_raw_key s') ∧ st_lastDeployedHash s' ≠ "").
Proof.
  cbn zeta. destruct (verify_services_spec now serviceHashes specVersions verify services) as (-> & _ & Hp & He).
  assert (∀ i s, services !! i = Some s → imap (next_service now serviceHashes specVersions verify) services !! i =
    Some (next_service now serviceHashes specVersions verify i s)) as Hl by (intros i s Hs; by rewrite list_lookup_imap, Hs).
  split_and!.
  - rewrite fmap_imap. apply list_eq. intros i. rewrite list_lookup_imap, list_lookup_fmap.
    destruct (services !! i) as [s|]; [|done]. simpl. f_equal. apply next_service_frame.
  - intros i s Hs. eexists. split; [by apply Hl|]. apply next_service_outcome.
  - rewrite He. unfold looked_at. setoid_rewrite <- to_verify_true. split; intros Hall i s Hs.
    + intros Hv. specialize (Hall i s Hs). by rewrite Hv in Hall.
    + destruct (to_verify s) eqn:Hv; [by apply Hall|done].
  - rewrite Hp. setoid_rewrite unstamped_spec. unfold verifiable. naive_solver.
  - intros i s s' Hs Hv Hs' Hnone Hd. rewrite (Hl i s Hs) in Hs'. injection Hs' as <-.
    destruct (next_service_frame now serviceHashes specVersions verify i s) as [Hk _]. rewrite Hk.
    destruct (next_service_outcome now serviceHashes specVersions verify i s) as [Hn _|e _ Hn _|v conds _ _ Hva]; [by destruct Hn| |].
    + apply He in Hs as Hla; [|done]. unfold looked_at in Hla. by rewrite (proj2 (to_verify_true s) Hv), Hn in Hla.
    + destruct (va_stamp _ _ _ _ _ _ _ Hva Hd) as [-> _]. split; [done|].
      by apply (va_deployed _ _ _ _ _ _ _ Hva) in Hd as (_ & ? & _).
Qed.

(** ** Properties: a ServiceSet *)

(** The flag of a ServiceSet agrees with the states it lists. *)
Definition consistent (s : ServiceSet) : Prop :=
  ssst_deployed (sset_status s) = forallb is_deployed (ssst_services (sset_status s)).

Lemma existsb_not_deployed l : negb (existsb (λ s, negb (is_deployed s)) l) = forallb is_deployed l.
Proof. induction l as [|s l IH]; [done|]. simpl. rewrite negb_orb, negb_involutive. by rewrite IH. Qed.

Section sset_properties.
Context `{StatusConditions}.

(** Neither the conditions nor anything else differs. *)
Definition same_but_conditions (s s' : ServiceSet) : Prop :=
  set_sset_conditions (ssst_conditions (sset_status s)) s' = s.

Lemma same_but_conditions_services s s' :
  same_but_conditions s s' →
  sset_meta s' = sset_meta s ∧ sset_spec s' = sset_spec s ∧
  ssst_services (sset_status s') = ssst_services (sset_status s) ∧
  ssst_deployed (sset_status s') = ssst_deployed (sset_status s).
Proof. unfold same_but_conditions. destruct s, s'. by intros [= -> -> <-]. Qed.

Lemma set_sset_conditions_same cs s : same_but_conditions s (set_sset_conditions cs s).
Proof. unfold same_but_conditions. by destruct s as [? ? []]. Qed.

Lemma updateCondition_same s c status reason message t : same_but_conditions s (updateCondition s c status reason message t).1.
Proof.
  unfold updateCondition. destruct (SetStatusCondition _ _) as [cs ch]. apply set_sset_conditions_same.
Qed.

Lemma updateServicesInReadyStateCondition_same now s : same_but_conditions s (updateServicesInReadyStateCondition now s).
Proof.
  unfold updateServicesInReadyStateCondition. case_bool_decide; [apply updateCondition_same|].
  unfold same_but_conditions. by destruct s as [? ? []].
Qed.

Lemma findCondition_type s t : cond_type (findCondition s t) = t.
Proof. unfold findCondition. destruct (find_condition t _) as [c|] eqn:E; [by apply find_condition_Some in E as [_ ?]|done]. Qed.

Lemma updateCondition_found s t status reason message time :
  ∃ c, find_condition t (ssst_conditions (sset_status (updateCondition s (findCondition s t) status reason message time).1)) = Some c ∧
    cond_status c = status ∧ cond_reason c = reason ∧ cond_message c = message ∧
    cond_observedGeneration c = om_generation (sset_meta s).
Proof.
  unfold updateCondition. set (new := mkCondition _ _ _ _ _ _).
  destruct (set_condition_found (ssst_conditions (sset_status s)) new) as (c & Hc & (_ & Hs & Hr & Hm & Hg)).
  destruct (SetStatusCondition _ new) as [cs ch]. exists c. subst new. cbn in *.
  rewrite findCondition_type in Hc. by rewrite Hs, Hr, Hm, Hg.
Qed.

(** The condition counts the services deployed among those of the spec; while
    the status still lists more of them than the spec it is left alone. *)
Lemma updateServicesInReadyStateCondition_counts now s :
  let deployed := length (filterb is_deployed (ssst_services (sset_status s))) in
  let total := length (sss_services (sset_spec s)) in
  (total < deployed → updateServicesInReadyStateCondition now s = s) ∧
  (deployed ≤ total →
   ∃ c, find_condition ServicesInReadyStateCondition
          (ssst_conditions (sset_status (updateServicesInReadyStateCondition now s))) = Some c ∧
     (cond_status c = CondTrue ↔ deployed = total) ∧ cond_message c = pretty deployed +:+ "/" +:+ pretty total).
Proof.
  cbn zeta. unfold updateServicesInReadyStateCondition. set (d := length (filterb _ _)). set (n := length (sss_services _)).
  split; intros Hd; [by rewrite bool_decide_eq_false_2 by lia|]. rewrite bool_decide_eq_true_2 by lia.
  destruct (updateCondition_found s ServicesInReadyStateCondition (if bool_decide (d = n) then CondTrue else CondFalse)
    ServicesInReadyStateCondition (pretty d +:+ "/" +:+ pretty n) now) as (c & Hc & Hs & _ & Hm & _).
  exists c. split; [done|]. rewrite Hs. split; [|done]. by case_bool_decide.
Qed.
End sset_properties.

Section verify_properties.
Context {Obj C Scheme : Type} `{CEL Obj} (obj_meta : Obj → ObjectMeta) `{StatusConditions}.
Context `{!MapRange GroupKind} `{!MapRange string} `{!ChildClient C Obj} `{!Lister C ConfigMap} `{!Lister C ClusterConfiguration}.
Context `{!Getter C Profile} `{!Getter C ClusterProfile} `{!Getter C ClusterSummary} `{!Getter C Secret} `{!Getter C SveltosCluster}.
Variables (meta_IsNoMatchError : gerror → bool) (yaml_Unmarshal : string → result (list ruleDoc)).
Variables (GetClusterSummaryName : string → string → string → bool → string) (sha256 : string → string).
Variable GetClusterConfigurationSectionIndex : ClusterConfiguration → string → string → result nat.
Variables (clientFactory : string → Scheme → result C) (client_scheme : C → Scheme).
Variables (now sweep : Z) (cm_now : ObjectKey → Z) (mgmtClient : C) (systemNamespace : string).

Notation verify_with := (verify_with obj_meta meta_IsNoMatchError now).
Notation verifyServiceStates := (verifyServiceStates obj_meta meta_IsNoMatchError yaml_Unmarshal GetClusterSummaryName
  sha256 GetClusterConfigurationSectionIndex clientFactory client_scheme now sweep cm_now mgmtClient systemNamespace).

(** What a verification leaves as it was, and what it keeps in step. *)
Record verification_frame (s s' : ServiceSet) : Prop := {
  vfr_meta : sset_meta s' = sset_meta s;
  vfr_spec : sset_spec s' = sset_spec s;
  vfr_keys : st_raw_key <$> ssst_services (sset_status s') = st_raw_key <$> ssst_services (sset_status s);
  vfr_flag : consistent s' ∨ ssst_deployed (sset_status s') = ssst_deployed (sset_status s) ∧
             st_state <$> ssst_services (sset_status s') = st_state <$> ssst_services (sset_status s) }.

Lemma forallb_is_deployed l : forallb is_deployed l = forallb (λ x, bool_decide (x = ServiceStateDeployed)) (st_state <$> l).
Proof. induction l as [|x l IH]; [done|]. simpl. by rewrite IH. Qed.

Lemma verification_frame_consistent s s' : verification_frame s s' → consistent s → consistent s'.
Proof.
  intros [_ _ _ [?|[Hd Hs]]]; [done|]. unfold consistent. by rewrite Hd, !forallb_is_deployed, Hs.
Qed.

Lemma verification_frame_conditions s1 s2 s3 :
  same_but_conditions s2 s3 → verification_frame s1 s2 → verification_frame s1 s3.
Proof.
  intros (Hm & Hsp & Hse & Hd)%same_but_conditions_services [].
  split; unfold consistent in *; by rewrite ?Hm, ?Hsp, ?Hse, ?Hd.
Qed.

Lemma verify_with_frame rules hashes childClient s : verification_frame s (verify_with rules hashes childClient s).1.1.
Proof.
  unfold VerifyStates.verify_with.
  set (verify := λ i name ns, verifyHelmServiceOnCluster obj_meta meta_IsNoMatchError childClient i rules name ns).
  destruct (verify_services_spec now hashes (specVersions_of s) verify (ssst_services (sset_status s))) as (Hs & Hc & _ & _).
  destruct (verify_services _ _ _ _ _) as [services changed pending errs]. cbn in Hs, Hc |- *.
  assert (st_raw_key <$> services = st_raw_key <$> ssst_services (sset_status s)) as Hkeys.
  { rewrite Hs, fmap_imap. apply list_eq. intros i. rewrite list_lookup_imap, list_lookup_fmap.
    destruct (ssst_services (sset_status s) !! i) as [x|]; [|done]. simpl. f_equal. apply next_service_frame. }
  eapply verification_frame_conditions; [apply updateServicesInReadyStateCondition_same|].
  destruct changed; split; try done; [left; unfold consistent; cbn; apply existsb_not_deployed|right]. cbn.
  split; [done|]. rewrite Hs. clear -Hc. assert (∀ i x, ssst_services (sset_status s) !! i = Some x →
    st_state (next_service now hashes (specVersions_of s) verify i x) = st_state x) as Hst.
  { intros i x Hx. destruct (decide (st_state (next_service now hashes (specVersions_of s) verify i x) = st_state x))
      as [|Hne]; [done|]. assert (false = true) by (apply Hc; by exists i, x). done. }
  rewrite fmap_imap. apply list_eq. intros i. rewrite list_lookup_imap, list_lookup_fmap.
  destruct (ssst_services (sset_status s) !! i) as [x|] eqn:Hx; [|done]. simpl. f_equal. by apply Hst.
Qed.

Lemma verifyServiceStates_frame ca rgnClient s : verification_frame s (vo_serviceSet (verifyServiceStates ca rgnClient s)).
Proof.
  assert (verification_frame s s) as Hid by by (split; [done..|by right]).
  unfold VerifyStates.verifyServiceStates. destruct rgnClient as [rgnClient|]; [|done]. case_bool_decide; [done|].
  destruct (rulesFromConfigMaps _ _ _ _ _ _ _) as [rc [[rules loadErrs]|e]]; [|done].
  set (s1 := applyRuleLoadErrorCondition s loadErrs).
  assert (verification_frame s s1) as Hf1 by (eapply verification_frame_conditions; [apply set_sset_conditions_same|done]).
  case_bool_decide; [done|].
  destruct (fetchHelmArtifactsForVerifier _ _ _ _ _ _) as [cc [a|e]]; [|done].
  destruct (getChildClient _ _ _ _ _) as [childClient|e]; [|done].
  pose proof (verify_with_frame rules (serviceHashesFromArtifacts sha256 GetClusterConfigurationSectionIndex a) childClient s1) as Hf2.
  destruct (verify_with _ _ _ _) as [[s2 pending] errs]. cbn in *.
  destruct Hf1 as [A1 A2 A3 A4], Hf2 as [B1 B2 B3 B4]. split; [congruence..|].
  destruct B4 as [?|[-> ->]]; [by left|]. right. split; done.
Qed.

(** However far a verification gets, it touches neither metadata nor spec,
    loses and adds no service, and the Deployed flag of the ServiceSet keeps
    agreeing with the states it lists. *)
Lemma verifyServiceStates_consistent ca rgnClient s :
  consistent s →
  let s' := vo_serviceSet (verifyServiceStates ca rgnClient s) in
  sset_meta s' = sset_meta s ∧ sset_spec s' = sset_spec s ∧
  st_raw_key <$> ssst_services (sset_status s') = st_raw_key <$> ssst_services (sset_status s) ∧ consistent s'.
Proof.
  intros Hcons. pose proof (verifyServiceStates_frame ca rgnClient s) as Hf. cbn zeta.
  split_and!; [apply Hf..|]. by eapply verification_frame_consistent.
Qed.

(** A verification that goes through leaves a Helm service Deployed only when
    its fingerprint is known and its objects are healthy. *)
Lemma verifyServiceStates_confirmed ca rgnClient s rule_cache rules loadErrs st :
  rulesFromConfigMaps yaml_Unmarshal cm_now mgmtClient sweep (ca_rules ca) systemNamespace s = (rule_cache, Ok (rules, loadErrs)) →
  rules ≠ ∅ →
  let o := verifyServiceStates ca (Some rgnClient) s in
  vo_err o = None → st ∈ ssst_services (sset_status (vo_serviceSet o)) →
  st_type st = ServiceTypeHelm → st_state st = ServiceStateDeployed →
  st_lastDeployedHash st ≠ "" ∧ ∃ childClient i conds,
    getChildClient clientFactory client_scheme mgmtClient rgnClient s = Ok childClient ∧
    verifyHelmServiceOnCluster obj_meta meta_IsNoMatchError childClient i rules (st_name st) (st_namespace st) =
      Ok (ServiceStateDeployed, conds).
Proof.
  intros Hr Hne. cbn zeta. unfold VerifyStates.verifyServiceStates. case_bool_decide as Hl.
  { cbn. intros _ Hst. destruct (ssst_services (sset_status s)); [by apply elem_of_nil in Hst|done]. }
  rewrite Hr. rewrite bool_decide_eq_false_2 by by rewrite map_size_empty_iff.
  destruct (fetchHelmArtifactsForVerifier _ _ _ _ _ _) as [cc [a|e]]; [|done].
  assert (getChildClient clientFactory client_scheme mgmtClient rgnClient (applyRuleLoadErrorCondition s loadErrs) =
          getChildClient clientFactory client_scheme mgmtClient rgnClient s) as -> by done.
  destruct (getChildClient _ _ _ _ _) as [childClient|e]; [|done].
  set (s1 := applyRuleLoadErrorCondition s loadErrs). set (hashes := serviceHashesFromArtifacts _ _ _).
  unfold VerifyStates.verify_with.
  set (verify := λ i name ns, verifyHelmServiceOnCluster obj_meta meta_IsNoMatchError childClient i rules name ns).
  destruct (verify_services_spec now hashes (specVersions_of s1) verify (ssst_services (sset_status s1))) as (Hs & _ & _ & He).
  destruct (verify_services _ _ _ _ _) as [services changed pending errs]. cbn in Hs, He |- *. intros ->.
  set (s2 := if changed then _ else _). assert (ssst_services (sset_status s2) = services) as Hs2 by by subst s2; destruct changed.
  destruct (same_but_conditions_services _ _ (updateServicesInReadyStateCondition_same now s2)) as (_ & _ & -> & _). rewrite Hs2.
  rewrite Hs. intros (i & Hi)%list_elem_of_lookup Ht Hd. rewrite list_lookup_imap in Hi.
  destruct (ssst_services (sset_status s) !! i) as [x|] eqn:Hx; [|done]. simpl in Hi. injection Hi as <-.
  destruct (next_service_frame now hashes (specVersions_of s1) verify i x) as [Hk Hty].
  assert (st_name (next_service now hashes (specVersions_of s1) verify i x) = st_name x ∧
          st_namespace (next_service now hashes (specVersions_of s1) verify i x) = st_namespace x) as [-> ->] by by injection Hk.
  destruct (next_service_outcome now hashes (specVersions_of s1) verify i x) as [Hn Heq|e Hv Hn _|v conds _ Hn Hva].
  - rewrite Heq in Ht, Hd. destruct Hn. by split; [|left].
  - specialize (proj1 He eq_refl i x Hx) as Hla. unfold looked_at in Hla. by rewrite (proj2 (to_verify_true x) Hv), Hn in Hla.
  - apply (va_stamp _ _ _ _ _ _ _ Hva) in Hd as Hst. apply (va_deployed _ _ _ _ _ _ _ Hva) in Hd as (-> & Hh & _).
    destruct Hst as [-> _]. split; [done|]. by exists childClient, i, conds.
Qed.

(** Without any rule that loads, the services are left as Sveltos reports them:
    the version and fingerprint of a Helm service are never set, and
    conditions of an earlier verification stay. *)
Lemma verifyServiceStates_no_rules ca rgnClient s rule_cache loadErrs :
  rulesFromConfigMaps yaml_Unmarshal cm_now mgmtClient sweep (ca_rules ca) systemNamespace s = (rule_cache, Ok (∅, loadErrs)) →
  ssst_services (sset_status (vo_serviceSet (verifyServiceStates ca rgnClient s))) = ssst_services (sset_status s).
Proof.
  intros Hr. unfold VerifyStates.verifyServiceStates. destruct rgnClient as [rgnClient|]; [|done]. case_bool_decide; [done|].
  by rewrite Hr.
Qed.
End verify_properties.

(** ** Running it *)

#[local] Existing Instance simple_cel.
#[local] Existing Instance simple_conditions.

(** A cluster as the adapter sees it; the child cluster is one whose kubeconfig
    says so. *)
Record Site := mkSite {
  site_configMaps : list ConfigMap; site_configurations : list ClusterConfiguration;
  site_profiles : list Profile; site_summaries : list (ObjectKey * ClusterSummary);
  site_secrets : list Secret; site_objects : SmallCluster }.

Definition by_key {T} (kind : string) (key : T → ObjectKey) (l : list T) (k : ObjectKey) : result T :=
  match filterb (λ x, bool_decide (key x = k)) l with x :: _ => Ok x | [] => Err (not_found_err kind k) end.
#[local] Instance site_cms : Lister Site ConfigMap :=
  λ c ns p, Ok (filterb (λ cm, in_namespace ns (cm_meta cm) && p cm) (site_configMaps c)).
#[local] Instance site_ccs : Lister Site ClusterConfiguration :=
  λ c ns p, Ok (filterb (λ cc, in_namespace ns (ccf_meta cc) && p cc) (site_configurations c)).
#[local] Instance site_prf : Getter Site Profile := λ c, by_key "Profile" (λ p, meta_key (prf_meta p)) (site_profiles c).
#[local] Instance site_cprf : Getter Site ClusterProfile := λ c k, Err (not_found_err "ClusterProfile" k).
#[local] Instance site_cs : Getter Site ClusterSummary :=
  λ c k, snd <$> by_key "ClusterSummary" fst (site_summaries c) k.
#[local] Instance site_sec : Getter Site Secret := λ c, by_key "Secret" (λ s, meta_key (sec_meta s)) (site_secrets c).
#[local] Instance site_sc : Getter Site SveltosCluster := λ c k, Err (not_found_err "SveltosCluster" k).
#[local] Instance site_child : ChildClient Site ObjectMeta :=
  {| cc_RESTMappings c := @cc_RESTMappings _ _ small_child (site_objects c);
     cc_List c := @cc_List _ _ small_child (site_objects c) |}.

Definition site_factory (objects : SmallCluster) (kubeconfig : string) (_ : unit) : result Site :=
  if bool_decide (kubeconfig = "child") then Ok (mkSite [] [] [] [] [] objects) else Err (ErrNew "no such cluster").

Definition web_release : HelmChartSummary := mkHelmChartSummary "web" "prod" false "" "v" "" None.
Definition web_chart : Chart := mkChart "oci://charts" "web" "prod" "2.0.0" "1.2".
Definition web_configuration : ClusterConfiguration :=
  mkClusterConfiguration (mkMeta "cc" "team" "" 0 None ∅ [mkOwner "" ProfileKind "set" "u1" false false] [] None) []
    [[mkFeature FeatureHelm [web_chart]]].
Definition mgmt_site : Site :=
  mkSite [default_rules] [web_configuration]
    [mkProfile (mkMeta "set" "team" "u1" 0 None ∅ [] [] None)
       (mkProfileSpec (mkSelector ∅ []) [] 100 "" "" false false false [] [] [] [] [] [] [] None "") [mkRef "Cluster" "team" "prod" "cluster.x-k8s.io/v1beta1"]]
    [(mkKey "team" "Profile-set-prod", mkClusterSummary [] [] [mkFeatureSummary FeatureHelm FeatureStatusProvisioned None] [web_release])]
    [mkSecret (named_meta "team" "prod-kubeconfig") {[ "value" := "child" ]}] [].

Definition summary_name (kind profile cluster : string) (_ : bool) : string := kind +:+ "-" +:+ profile +:+ "-" +:+ cluster.
(** A toy hash. *)
Definition toy_hash (s : string) : string := str_drop (String.length s - 2) s.

Definition web_state (ns state : string) : ServiceState :=
  mkServiceState (Some 1%Z) "1.0.0" ServiceTypeHelm "web" ns "web-2" state "" "" [].
Definition web_serviceSet (ns state : string) : ServiceSet :=
  mkServiceSet (named_meta "team" "set")
    (mkServiceSetSpec "prod" "" (mkProviderConfig None "" false)
       [mkServiceWithValues None "2.0.0" "" "web" ns "web-2" "" []])
    (mkServiceSetStatus None [] [web_state ns state] true false (bool_decide (state = ServiceStateDeployed))).

Definition run_verification (objects : SmallCluster) (s : ServiceSet) : verifyOutcome :=
  verifyServiceStates id (errors_Is "NoKindMatchError") simple_yaml summary_name toy_hash (λ _ _ _, Ok 0)
    (site_factory objects) (λ _, ()) 9 9 (λ _, 9%Z) mgmt_site "kcm-system" (mkCaches ∅ ∅) (Some mgmt_site) s.

(** Sveltos and the objects agree: the version of the spec is confirmed. An
    unhealthy pod takes the service back. *)
Example web_confirmed :
  (λ s, (st_version s, st_state s, st_lastDeployedHash s)) <$>
    ssst_services (sset_status (vo_serviceSet (run_verification (small_cluster "true") (web_serviceSet "prod" ServiceStateDeployed)))) =
    [("2.0.0", ServiceStateDeployed, "7376")].
Proof. vm_compute. reflexivity. Qed.

Lemma verifyServiceStates_consistent_witness :
  let s := web_serviceSet "prod" ServiceStateDeployed in
  let s' := vo_serviceSet (run_verification (small_cluster "false") s) in
  consistent s ∧ ssst_deployed (sset_status s) = true ∧
  (λ s, (st_version s, st_state s, cond_type <$> st_conditions s)) <$> ssst_services (sset_status s') =
    [("1.0.0", ServiceStateProvisioning, ["ServiceHealthPod"])] ∧
  consistent s'.
Proof.
  cbn zeta. assert (consistent (web_serviceSet "prod" ServiceStateDeployed)) as Hc by (vm_compute; reflexivity).
  split; [exact Hc|]. split; [reflexivity|]. split; [vm_compute; reflexivity|].
  apply (verifyServiceStates_consistent id (errors_Is "NoKindMatchError") simple_yaml summary_name toy_hash (λ _ _ _, Ok 0)
    (site_factory (small_cluster "false")) (λ _, ()) 9 9 (λ _, 9%Z) mgmt_site "kcm-system" (mkCaches ∅ ∅) (Some mgmt_site)).
  exact Hc.
Defined.

(** What was cached five time units ago is used; what was cached a minute ago is
    read again. *)
Lemma cluster_configuration_fresh_witness :
  let second := 1000000000%Z in let now := (60 * second)%Z in
  let fetch written := fetchHelmArtifactsForVerifier mgmt_site summary_name now now
    {[ mkCcKey "team" "u1" := mkCcEntry written None ]} (web_serviceSet "prod" ServiceStateDeployed) in
  let world (t : Z) (ns : string) := if bool_decide (t < now)%Z then [] else filterb (λ cc, in_namespace ns (ccf_meta cc) && true) [web_configuration] in
  (art_cc <$> (fetch (now - 5 * second)%Z).2) = Ok None ∧ (art_cc <$> (fetch 0%Z).2) = Ok (Some web_configuration) ∧
  ∃ t, (now - clusterConfigCacheTTL ≤ t ≤ now)%Z ∧ None = owned_at world t (mkCcKey "team" "u1").
Proof.
  cbn zeta. set (now := (60 * 1000000000)%Z). split; [vm_compute; reflexivity|]. split; [vm_compute; reflexivity|].
  set (cache := {[ mkCcKey "team" "u1" := mkCcEntry (now - 5 * 1000000000)%Z None ]} : gmap ccCacheKey ccCacheEntry).
  set (world := λ (t : Z) (ns : string), if bool_decide (t < now)%Z then [] else filterb (λ cc, in_namespace ns (ccf_meta cc) && true) [web_configuration]).
  set (s := web_serviceSet "prod" ServiceStateDeployed).
  set (a := mkArtifacts (Some (mkClusterSummary [] [] [mkFeatureSummary FeatureHelm FeatureStatusProvisioned None] [web_release]))
              None ProfileKind "set").
  assert (fetchHelmArtifactsForVerifier mgmt_site summary_name now now cache s = (cache, Ok a)) as Hf by (vm_compute; reflexivity).
  destruct (cluster_configuration_fresh summary_name world mgmt_site now now 0 cache s cache a) as [(t & Ht & Hcc) _].
  - intros namespace items [= <-]. unfold world. by rewrite bool_decide_eq_false_2 by lia.
  - lia.
  - intros k e Hk. unfold cache in Hk. apply lookup_singleton_Some in Hk as [<- <-]. split; [cbn; lia|vm_compute; reflexivity].
  - exact Hf.
  - exists t. split; [lia|exact Hcc].
Defined.

(** A service in the default namespace, written as the empty one, is never
    confirmed: its release, and so its fingerprint, is in a namespace of its
    own name, and a stamp is outstanding for good. *)
Example default_namespace_never_confirmed :
  let o := run_verification (small_cluster "true") (web_serviceSet "" ServiceStateDeployed) in
  (λ s, (st_version s, st_state s, st_lastDeployedHash s)) <$> ssst_services (sset_status (vo_serviceSet o)) =
    [("1.0.0", ServiceStateProvisioning, "")] ∧ vo_pendingStamp o = true.
Proof. vm_compute. split; reflexivity. Qed.
