(* ===== verification/SveltosReconcile.v ===== *)
(** * The reconciliation of a ServiceSet by the Sveltos adapter
    ([src/internal/controller/adapters/sveltos/serviceset_controller.go]).

    The profile is built and written to the cluster that hosts the target, the
    states are read back and verified, and whatever was found is put into the
    status, errors included. Deletion waits for the profile to go. *)

From S2P Require Import Prelude GoStrings Api ApiManagement Kube Conditions ServiceBasics SveltosTypes ServiceUpgrades SveltosState AdmissionChecks ObjectWebhooks AccessManagement SveltosProfile HealthRules Verdicts VerifyStates.

#[local] Arguments String.append !_ _ / : simpl nomatch.

Definition ServiceSetFinalizer := "k0rdent.mirantis.com/service-set".
Definition ServiceSetKind := "ServiceSet".
Definition ServiceSetPausedAnnotation := "k0rdent.mirantis.com/service-set-paused".
Definition ServiceSetProfileCondition := "ServiceSetProfile".
Definition ServiceSetProfileNotReadyReason := "ServiceSetProfileNotReady".
Definition ServiceSetProfileReadyReason := "ServiceSetProfileReady".
Definition ServiceSetProfileBuildFailedReason := "ServiceSetProfileBuildFailed".
Definition ServiceSetHelmChartsBuildFailedReason := "ServiceSetHelmChartsBuildFailed".
Definition ServiceSetKustomizationRefsBuildFailedReason := "ServiceSetKustomizationRefsBuildFailed".
Definition ServiceSetPolicyRefsBuildFailedReason := "ServiceSetPolicyRefsBuildFailed".
Definition ServiceSetStatusesCollectedCondition := "ServiceSetStatusesCollected".
Definition ServiceSetStatusesCollectedReason := "ServiceSetStatusesCollected".
Definition ServiceSetStatusesNotCollectedReason := "ServiceSetStatusesNotCollected".
Definition managementSveltosCluster := "mgmt".
Definition errNoMatchingClusters := sentinel "no matching clusters for ServiceSet".

(** How a reconcile ends: [Done] with or without a requeue. *)
Inductive rec_result := Done (requeue : bool) | Failed (e : gerror) | Panicked.

Definition set_sset_meta (m : ObjectMeta) (s : ServiceSet) : ServiceSet := mkServiceSet m (sset_spec s) (sset_status s).
Definition set_sset_status (st : ServiceSetStatus) (s : ServiceSet) : ServiceSet :=
  mkServiceSet (sset_meta s) (sset_spec s) st.
Definition set_sset_provider (cluster : option ObjectReference) (ready suspended : bool) (s : ServiceSet) : ServiceSet :=
  let st := sset_status s in
  set_sset_status (mkServiceSetStatus cluster (ssst_conditions st) (ssst_services st) ready suspended (ssst_deployed st)) s.
Definition set_annotations (a : gmap string string) (m : ObjectMeta) : ObjectMeta :=
  mkMeta (om_name m) (om_namespace m) (om_uid m) (om_generation m) (om_labels m) a (om_ownerReferences m)
    (om_finalizers m) (om_deletionTimestamp m).
Definition set_owners (l : list OwnerReference) (m : ObjectMeta) : ObjectMeta :=
  mkMeta (om_name m) (om_namespace m) (om_uid m) (om_generation m) (om_labels m) (om_annotations m) l
    (om_finalizers m) (om_deletionTimestamp m).

Definition self_managed (s : ServiceSet) : bool := pc_selfManagement (sss_provider (sset_spec s)).

Definition clusterReference (serviceSet : ServiceSet) : ObjectReference :=
  if self_managed serviceSet then SelfManagementClusterReference
  else mkRef ClusterDeploymentKind (om_namespace (sset_meta serviceSet)) (sss_cluster (sset_spec serviceSet)) kcm_GroupVersion.

Definition fillNotDeployedServices (now : Z) (serviceSet : ServiceSet) : ServiceSet :=
  let deployedServicesMap : gset ObjectKey := list_to_set (st_raw_key <$> ssst_services (sset_status serviceSet)) in
  let missing := filterb (λ service, negb (bool_decide (sv_raw_key service ∈ deployedServicesMap)))
                   (sss_services (sset_spec serviceSet)) in
  set_sset_services (ssst_services (sset_status serviceSet) ++
    ((λ service, mkServiceState (Some now) "" ServiceTypeUnset (sv_name service) (sv_namespace service)
        (sv_template service) ServiceStateNotDeployed "" "" []) <$> missing)) serviceSet.

Definition labelsMatchSelector `{LabelSelectors} (serviceSetLabels : gmap string string) (selector : option LabelSelector)
  : result bool :=
  match selector with
  | None => Ok true
  | Some selector =>
      labelSelector ← wrap_err "failed to convert LabelSelector to Selector: " (LabelSelectorAsSelector selector);
      Ok (Selector_Matches labelSelector serviceSetLabels)
  end.

(** ** Whether to report a condition *)

Definition conditionStatusChangedToFalse (conditionOldState conditionNewState : option Condition) : bool :=
  match conditionOldState, conditionNewState with
  | None, None => false
  | None, Some new => bool_decide (cond_status new = CondFalse)
  | Some old, Some new => negb (bool_decide (cond_status old = cond_status new)) && bool_decide (cond_status new = CondFalse)
  | Some _, None => false
  end.

Definition conditionReasonChanged (conditionOldState conditionNewState : option Condition) : bool :=
  match conditionOldState, conditionNewState with
  | _, None => false
  | None, Some _ => true
  | Some old, Some new => negb (bool_decide (cond_reason old = cond_reason new))
  end.

Section pause.
(** [addoncontrollerv1beta1.ProfilePausedAnnotation]. *)
Variable ProfilePausedAnnotation : string.

Definition handlePauseAnnotations (profile : ObjectMeta) (serviceSet : ServiceSet) : ObjectMeta * bool :=
  let internalPaused := bool_decide (is_Some (om_annotations (sset_meta serviceSet) !! ServiceSetPausedAnnotation)) in
  let externalPaused := bool_decide (is_Some (om_annotations profile !! ProfilePausedAnnotation)) in
  if bool_decide (internalPaused = externalPaused) then (profile, false)
  else (set_annotations (if internalPaused then <[ProfilePausedAnnotation := "true"]> (om_annotations profile)
                         else delete ProfilePausedAnnotation (om_annotations profile)) profile, true).
End pause.

(** The cluster of the ServiceSets, and the one that hosts the target when it is
    another. *)
Record world (C : Type) := mkWorld { w_mgmt : C; w_rgn : option C }.
Arguments mkWorld {C} _ _.
Arguments w_mgmt {C} _.
Arguments w_rgn {C} _.

Section world.
Context {C : Type}.
Definition rgn (w : world C) : C := default (w_mgmt w) (w_rgn w).
Definition set_rgn (c : C) (w : world C) : world C :=
  match w_rgn w with Some _ => mkWorld (w_mgmt w) (Some c) | None => mkWorld c None end.
(** [rgnClient == r.Client]. *)
Definition inMgmtCluster (w : world C) : bool := match w_rgn w with None => true | Some _ => false end.
End world.

Section controller.
Context {Obj C Scheme : Type} `{CEL Obj} (obj_meta : Obj → ObjectMeta) `{!StatusConditions} `{!LabelSelectors} `{!Finalizers} `{Semver}.
Context `{!MapRange GroupKind} `{!MapRange string} `{!ChildClient C Obj}.
Context `{!Lister C ConfigMap} `{!Lister C ClusterConfiguration}.
Context `{!Getter C ServiceSet} `{!Getter C StateManagementProvider} `{!Getter C ClusterDeployment} `{!Getter C Credential} `{!Getter C Region}.
Context `{!Getter C ServiceTemplate} `{!Getter C FluxHelmChart} `{!Getter C HelmRepository} `{!Getter C GitRepository}.
Context `{!Getter C Profile} `{!Getter C ClusterProfile} `{!Getter C ClusterSummary} `{!Getter C Secret}.
Context `{!Getter C SveltosCluster} `{!Getter C CapiCluster}.
Context `{!Writer C Profile} `{!Writer C ClusterProfile} `{!Deleter C Profile} `{!Deleter C ClusterProfile} `{!Refresher C ServiceSet}.
Variable meta_IsNoMatchError : gerror → bool.
Variable yaml_Unmarshal : string → result (list ruleDoc).
Variable json_profileConfig : string → result profileConfig.
Variable GetClusterSummaryName : string → string → string → bool → string.
Variable sha256 : string → string.
Variable GetClusterConfigurationSectionIndex : ClusterConfiguration → string → string → result nat.
Variable clientFactory : string → Scheme → result C.
Variable client_scheme : C → Scheme.
Variable getSchemeFunc : result Scheme.
Variable EqualFold : string → string → bool.
Variable ProfilePausedAnnotation : string.
(** The clocks read on the way. *)
Variables (now sweep : Z) (cm_now : ObjectKey → Z).
Variable systemNamespace : string.

(** ** Clients *)

(** [None] is the client passed. With a cache, what was found goes into it. *)
Definition resolveRegionalClient (cl : C) (serviceSet : ServiceSet) (cache : option (gmap ObjectKey (option C)))
  : option (gmap ObjectKey (option C)) * result (option C) :=
  if bool_decide (sss_cluster (sset_spec serviceSet) = "") then (cache, Ok None)
  else
    let clusterKey := mkKey (om_namespace (sset_meta serviceSet)) (sss_cluster (sset_spec serviceSet)) in
    match cache ≫= (λ m, m !! clusterKey) with
    | Some c => (cache, Ok c)
    | None =>
        let found :=
          cd ← wrap_err ("failed to get ClusterDeployment " +:+ key_string clusterKey +:+ ": ")
                 (c_get (T:=ClusterDeployment) cl clusterKey);
          let credKey := mkKey (om_namespace (cd_meta cd)) (cds_credential (cd_spec cd)) in
          cred ← wrap_err ("failed to get Credential " +:+ key_string credKey +:+ ": ") (c_get (T:=Credential) cl credKey);
          let region := crs_region (cred_spec cred) in
          if negb (bool_decide (region = "")) then
            Some <$> wrap_err ("failed to get regional client for region " +:+ region +:+ ": ")
                       (GetRegionalClientByRegionName clientFactory getSchemeFunc cl systemNamespace region)
          else Ok None in
        match found with
        | Err e => (cache, Err e)
        | Ok c => ((λ m, <[clusterKey := c]> m) <$> cache, Ok c)
        end
    end.

Definition getRegionalClient (cl : C) (serviceSet : ServiceSet) : result (option C) :=
  (resolveRegionalClient cl serviceSet None).2.

Definition getClusterReference (rgnClient : C) (key : ObjectKey) : result ObjectReference :=
  match c_get (T:=CapiCluster) rgnClient key with
  | Ok _ => Ok (mkRef CapiClusterKind (key_ns key) (key_name key) CapiGroupVersion)
  | Err e =>
      if negb (IsNotFound e) then Err e
      else
        _ ← c_get (T:=SveltosCluster) rgnClient key;
        Ok (mkRef SveltosClusterKind (key_ns key) (key_name key) SveltosGroupVersion)
  end.

(** ** The profile *)

(** What depends on the cluster: its reference and, for the ServiceSet of a
    ClusterDeployment itself, its credentials. *)
Definition cluster_part (w : world C) (serviceSet : ServiceSet)
  : result (ObjectReference * list TemplateResourceRef * list PolicyRef) :=
  if self_managed serviceSet
  then Ok (mkRef SveltosClusterKind managementSveltosCluster managementSveltosCluster SveltosGroupVersion, [], [])
  else
    cd ← wrap_err "failed to get ClusterDeployment: " (c_get (T:=ClusterDeployment) (w_mgmt w)
           (mkKey (om_namespace (sset_meta serviceSet)) (sss_cluster (sset_spec serviceSet))));
    cred ← wrap_err "failed to get Credential: " (c_get (T:=Credential) (w_mgmt w)
             (mkKey (om_namespace (cd_meta cd)) (cds_credential (cd_spec cd))));
    ref ← wrap_err ("failed to get ClusterReference for ClusterDeployment " +:+ key_string (meta_key (cd_meta cd)) +:+ ": ")
            (getClusterReference (rgn w) (meta_key (cd_meta cd)));
    Ok (if bool_decide (sss_multiClusterService (sset_spec serviceSet) = "")
        then (ref, projectTemplateResourceRefs EqualFold cd cred, projectPolicyRefs cd cred)
        else (ref, [], [])).

(** A build step: it grows the states in the status, and its error is marked. *)
Definition build_step {A} (mark : gerror) (r : list ServiceState * outcome (list A)) (serviceSet : ServiceSet)
  : ServiceSet * outcome (list A) :=
  (set_sset_services r.1 serviceSet,
   match r.2 with
   | Ret (Err e) => Ret (Err (ErrJoin [mark; e]))
   | r => r
   end).

(** The specification from the configuration of the provider, which may be empty. *)
Definition config_spec (serviceSet : ServiceSet) : outcome ProfileSpec :=
  match buildProfileSpec json_profileConfig (pc_config (sss_provider (sset_spec serviceSet))) with
  | (spec, err) =>
      match err with
      | Some e => if negb (errors_Is "empty config" e) then Ret (Err (ErrJoin [errBuildProfileFromConfigFailed; e]))
                  else match spec with Some spec => Ret (Ok spec) | None => Panic end
      | None => match spec with Some spec => Ret (Ok spec) | None => Panic end
      end
  end.

(** Goes on with the value, unless there is none. *)
Definition and_then {A B} (r : ServiceSet * outcome A) (k : ServiceSet → A → ServiceSet * outcome B) : ServiceSet * outcome B :=
  match r with
  | (s, Ret (Ok a)) => k s a
  | (s, Ret (Err e)) => (s, Ret (Err e))
  | (s, Panic) => (s, Panic)
  end.

Definition profileSpec (w : world C) (serviceSet : ServiceSet) : ServiceSet * outcome ProfileSpec :=
  and_then (serviceSet, Ret (cluster_part w serviceSet)) (λ serviceSet cluster,
  let '(clusterRef, clusterTemplateResourceRefs, clusterPolicyRefs) := cluster in
  and_then (serviceSet, config_spec serviceSet) (λ serviceSet spec,
  and_then (build_step errBuildHelmChartsFailed (getHelmCharts (w_mgmt w) now serviceSet) serviceSet) (λ serviceSet helmCharts,
  and_then (build_step errBuildKustomizationRefsFailed (getKustomizationRefs (w_mgmt w) now serviceSet) serviceSet)
    (λ serviceSet kustomizationRefs,
  and_then (build_step errBuildPolicyRefsFailed (getPolicyRefs (w_mgmt w) now serviceSet) serviceSet) (λ serviceSet policyRefs,
  (serviceSet, Ret (Ok (applyProfileSpecDefaults
     (mkProfileSpec (mkSelector ∅ []) [clusterRef] (prs_tier spec) (prs_stopMatchingBehavior spec) (prs_syncMode spec)
        (prs_continueOnConflict spec) (prs_continueOnError spec) (prs_reloader spec)
        (prs_templateResourceRefs spec ++ clusterTemplateResourceRefs)
        (prs_policyRefs spec ++ (policyRefs ++ clusterPolicyRefs)) helmCharts kustomizationRefs (prs_patches spec)
        (prs_patchesFrom spec) (prs_driftExclusions spec) (prs_maxConsecutiveFailures spec) (prs_rest spec)))))))))).

(** [metav1.NewControllerRef]. *)
Definition controller_ref (serviceSet : ServiceSet) : OwnerReference :=
  mkOwner kcm_GroupVersion ServiceSetKind (om_name (sset_meta serviceSet)) (om_uid (sset_meta serviceSet)) true true.

Definition profile_labels : option (gmap string string) := Some {[ KCMManagedLabelKey := KCMManagedLabelValue ]}.
Definition new_meta (name namespace : string) (annotations : gmap string string) (owners : list OwnerReference) : ObjectMeta :=
  mkMeta name namespace "" 0 profile_labels annotations owners [] None.

Definition createOrUpdateProfile (w : world C) (serviceSet : ServiceSet) (spec : ProfileSpec) : world C * option gerror :=
  let ownerReference := controller_ref serviceSet in
  let owners := if inMgmtCluster w then [ownerReference] else [] in
  let name := om_name (sset_meta serviceSet) in
  match c_get (T:=Profile) (rgn w) (meta_key (sset_meta serviceSet)) with
  | Err e =>
      if negb (IsNotFound e) then (w, Some (ErrWrap "failed to get Profile: " e))
      else
        let '(m, _) := handlePauseAnnotations ProfilePausedAnnotation empty_meta serviceSet in
        let profile := mkProfile (new_meta name (om_namespace (sset_meta serviceSet)) (om_annotations m) owners) spec [] in
        let '(c, err) := c_create (rgn w) profile in
        (set_rgn c w, ErrWrap ("failed to create Profile for ServiceSet " +:+ name +:+ ": ") <$> err)
  | Ok profile =>
      let '(m, annotationsUpdated) := handlePauseAnnotations ProfilePausedAnnotation (prf_meta profile) serviceSet in
      let staleOwnerRefs := negb (inMgmtCluster w) && bool_decide (0 < length (om_ownerReferences m)) in
      if annotationsUpdated || staleOwnerRefs || negb (bool_decide (prf_spec profile = spec)) then
        let '(c, err) := c_update (rgn w) (mkProfile (set_owners owners m) spec (prf_matchingClusterRefs profile)) in
        (set_rgn c w, ErrWrap ("failed to update Profile for ServiceSet " +:+ name +:+ ": ") <$> err)
      else (w, None)
  end.

Definition createOrUpdateClusterProfile (w : world C) (serviceSet : ServiceSet) (spec : ProfileSpec) : world C * option gerror :=
  let owners := [controller_ref serviceSet] in
  let name := om_name (sset_meta serviceSet) in
  match c_get (T:=ClusterProfile) (rgn w) (meta_key (sset_meta serviceSet)) with
  | Err e =>
      if negb (IsNotFound e) then (w, Some (ErrWrap "failed to get Profile: " e))
      else
        let '(m, _) := handlePauseAnnotations ProfilePausedAnnotation empty_meta serviceSet in
        let profile := mkClusterProfile (new_meta name "" (om_annotations m) owners) spec [] in
        let '(c, err) := c_create (rgn w) profile in
        (set_rgn c w, ErrWrap ("failed to create ClusterProfile for ServiceSet " +:+ name +:+ ": ") <$> err)
  | Ok profile =>
      let '(m, annotationsUpdated) := handlePauseAnnotations ProfilePausedAnnotation (cprf_meta profile) serviceSet in
      if annotationsUpdated || negb (bool_decide (cprf_spec profile = spec)) then
        let '(c, err) := c_update (rgn w) (mkClusterProfile (set_owners owners m) spec (cprf_matchingClusterRefs profile)) in
        (set_rgn c w, ErrWrap ("failed to update ClusterProfile for ServiceSet " +:+ name +:+ ": ") <$> err)
      else (w, None)
  end.

Definition createOrUpdate (w : world C) (serviceSet : ServiceSet) (spec : ProfileSpec) : world C * option gerror :=
  if self_managed serviceSet then createOrUpdateClusterProfile w serviceSet spec else createOrUpdateProfile w serviceSet spec.

(** The reason and message an error of [profileSpec] is reported with. *)
Definition build_failure (name : string) (e : gerror) : string * string :=
  let failed what := "Failed to build " +:+ what +:+ " from ServiceSet " +:+ name +:+ " configuration: " +:+ Error e in
  let r := (ServiceSetProfileNotReadyReason, "Profile is not ready") in
  let r := if errors_Is "failed to build profile from config" e then (ServiceSetProfileBuildFailedReason, failed "Profile") else r in
  let r := if errors_Is "failed to build helm charts" e then (ServiceSetHelmChartsBuildFailedReason, failed "Helm Charts") else r in
  let r := if errors_Is "failed to build kustomization refs" e
           then (ServiceSetKustomizationRefsBuildFailedReason, failed "KustomizationRefs") else r in
  if errors_Is "failed to build policy refs" e then (ServiceSetPolicyRefsBuildFailedReason, failed "PolicyRefs") else r.

(** The condition is set whichever way the function is left. *)
Definition ensureProfile (w : world C) (serviceSet : ServiceSet) : world C * ServiceSet * outcome unit :=
  let profileCondition := findCondition serviceSet ServiceSetProfileCondition in
  let leave w serviceSet status reason message r :=
    (w, (updateCondition serviceSet profileCondition status reason message now).1, r) in
  match profileSpec w serviceSet with
  | (serviceSet, Panic) => leave w serviceSet CondFalse ServiceSetProfileNotReadyReason "Profile is not ready" Panic
  | (serviceSet, Ret (Err e)) =>
      let '(reason, message) := build_failure (om_name (sset_meta serviceSet)) e in
      leave w serviceSet CondFalse reason message (Ret (Err (ErrWrap "failed to build Profile: " e)))
  | (serviceSet, Ret (Ok spec)) =>
      let '(w, err) := createOrUpdate w serviceSet spec in
      match err with
      | Some e =>
          leave w serviceSet CondFalse ServiceSetProfileNotReadyReason "Profile is not ready"
            (Ret (Err (ErrWrap (if self_managed serviceSet then "failed to create or update ClusterProfile: "
                                else "failed to create or update Profile: ") e)))
      | None => leave w serviceSet CondTrue ServiceSetProfileReadyReason "Profile is ready" (Ret (Ok tt))
      end
  end.

(** ** The states of the services *)

Definition getClusterSummaryForServiceSet (rgnClient : C) (serviceSet : ServiceSet)
    (profile : string * ObjectMeta * list ObjectReference) : ServiceSet * result ClusterSummary :=
  let '(profileKind, profileMeta, matchingRefs) := profile in
  match matchingRefs with
  | [] => (set_sset_deployed false serviceSet, Err errNoMatchingClusters)
  | obj :: _ =>
      let isSveltosCluster := bool_decide (ref_apiVersion obj = SveltosGroupVersion) in
      let summaryName := GetClusterSummaryName profileKind (om_name profileMeta) (ref_name obj) isSveltosCluster in
      let summaryRef := mkKey (ref_namespace obj) summaryName in
      (serviceSet, wrap_err ("failed to get ClusterSummary " +:+ key_string summaryRef +:+ " to fetch status: ")
                     (c_get (T:=ClusterSummary) rgnClient summaryRef))
  end.

Definition collectServiceStatusesFromProfileOrClusterProfile (rgnClient : C) (serviceSet : ServiceSet)
    (profile : string * ObjectMeta * list ObjectReference) : ServiceSet * option gerror :=
  match getClusterSummaryForServiceSet rgnClient serviceSet profile with
  | (serviceSet, Err e) => (serviceSet, if errors_Is "no matching clusters for ServiceSet" e then None else Some e)
  | (serviceSet, Ok summary) =>
      let services := servicesStateFromSummary now (Some summary) (Some serviceSet) in
      (set_sset_deployed (negb (existsb (λ s, negb (is_deployed s)) services)) (set_sset_services services serviceSet), None)
  end.

Definition collectServiceStatuses (rgnClient : C) (serviceSet : ServiceSet) : ServiceSet * option gerror :=
  let statusesCollectedCondition := findCondition serviceSet ServiceSetStatusesCollectedCondition in
  let leave serviceSet status reason message err :=
    ((updateCondition serviceSet statusesCollectedCondition status reason message now).1, err) in
  let failed serviceSet e :=
    leave serviceSet CondFalse ServiceSetStatusesNotCollectedReason "Statuses not collected" (Some e) in
  match get_profile rgnClient serviceSet with
  | Err e => failed serviceSet (ErrWrap (if self_managed serviceSet then "failed to get ClusterProfile: "
                                         else "failed to get Profile: ") e)
  | Ok profile =>
      match collectServiceStatusesFromProfileOrClusterProfile rgnClient serviceSet profile with
      | (serviceSet, Some e) => failed serviceSet (ErrWrap "failed to collect service statuses: " e)
      | (serviceSet, None) =>
          leave (updateServicesInReadyStateCondition now serviceSet) CondTrue ServiceSetStatusesCollectedReason
            "Statuses collected" None
      end
  end.

(** ** Deletion *)

(** The metadata of the profile, and how to delete it. *)
Definition profile_for_deletion (c : C) (serviceSet : ServiceSet) : result (ObjectMeta * (C * option gerror)) :=
  let key := meta_key (sset_meta serviceSet) in
  if self_managed serviceSet
  then (λ p, (cprf_meta p, c_delete c p)) <$> c_get (T:=ClusterProfile) c key
  else (λ p, (prf_meta p, c_delete c p)) <$> c_get (T:=Profile) c key.

Definition is_deleting_state (s : ServiceState) : bool := bool_decide (st_state s = ServiceStateDeleting).

Definition reconcileDelete (w : world C) (serviceSet : ServiceSet) : world C * rec_result :=
  let services := ssst_services (sset_status serviceSet) in
  if existsb (λ s, negb (is_deleting_state s)) services then
    let serviceStates :=
      (λ s, mkServiceState (Some now) (st_version s) (st_type s) (st_name s) (st_namespace s) (st_template s)
              ServiceStateDeleting (st_failureMessage s) (st_lastDeployedHash s) (st_conditions s)) <$>
        filterb (λ s, negb (is_deleting_state s)) services in
    let '(c, _, err) := c_status_update (w_mgmt w) (set_sset_services serviceStates serviceSet) in
    (mkWorld c (w_rgn w), match err with Some e => Failed e | None => Done false end)
  else
    match profile_for_deletion (rgn w) serviceSet with
    | Err e =>
        if negb (IsNotFound e) then (w, Failed (ErrWrap "failed to get Profile: " e))
        else
          let '(finalizers, removed) := RemoveFinalizer (om_finalizers (sset_meta serviceSet)) ServiceSetFinalizer in
          if removed then
            let '(c, _, err) := c_update_refresh (w_mgmt w)
                                  (set_sset_meta (set_finalizers finalizers (sset_meta serviceSet)) serviceSet) in
            (mkWorld c (w_rgn w), match err with Some e => Failed (ErrWrap "failed to remove finalizer: " e) | None => Done false end)
          else (w, Done false)
    | Ok (profile, (c, err)) =>
        match om_deletionTimestamp profile with
        | Some _ => (w, Done true)
        | None => (set_rgn c w, match err with
                                | Some e => Failed (ErrWrap "failed to delete Profile: " e)
                                | None => Done true
                                end)
        end
    end.

(** ** The reconciliation *)

(** From the reference to the cluster on: the status found is written later,
    whatever happens here. *)
Definition reconcile_services (w : world C) (ca : caches) (smp : StateManagementProvider) (serviceSet : ServiceSet)
  : world C * caches * ServiceSet * rec_result :=
  let serviceSet := set_sset_provider (Some (clusterReference serviceSet)) (smp_ready smp) (smp_suspend smp) serviceSet in
  if negb (smp_ready smp) then (w, ca, serviceSet, Done false)
  else if smp_suspend smp then (w, ca, serviceSet, Done false)
  else
    match ensureProfile w serviceSet with
    | (w, serviceSet, Panic) => (w, ca, serviceSet, Panicked)
    | (w, serviceSet, Ret (Err e)) => (w, ca, serviceSet, Failed e)
    | (w, serviceSet, Ret (Ok _)) =>
        match collectServiceStatuses (rgn w) serviceSet with
        | (serviceSet, Some e) => (w, ca, serviceSet, Failed e)
        | (serviceSet, None) =>
            let o := verifyServiceStates obj_meta meta_IsNoMatchError yaml_Unmarshal GetClusterSummaryName sha256
                       GetClusterConfigurationSectionIndex clientFactory client_scheme now sweep cm_now (w_mgmt w)
                       systemNamespace ca (Some (rgn w)) serviceSet in
            (w, vo_caches o, vo_serviceSet o, Done (vo_pendingStamp o))
        end
    end.

(** What runs when the reconcile is left: unless it failed, services without a
    state get one; the status is written if it has changed. *)
Definition leave_reconcile (clone : ServiceSet) (w : world C) (serviceSet : ServiceSet) (r : rec_result)
  : world C * rec_result :=
  let serviceSet := match r with Failed _ => serviceSet | _ => fillNotDeployedServices now serviceSet end in
  if bool_decide (sset_status clone = sset_status serviceSet) then (w, r)
  else
    let '(c, _, updateErr) := c_status_update (w_mgmt w) serviceSet in
    (mkWorld c (w_rgn w),
     match updateErr with
     | None => r
     | Some updateErr =>
         match r with
         | Done _ => Failed (ErrJoin [updateErr])
         | Failed e => Failed (ErrJoin [e; updateErr])
         | Panicked => Panicked
         end
     end).

Definition Reconcile (c : C) (ca : caches) (req : ObjectKey) : world C * caches * rec_result :=
  let w := mkWorld c None in
  match c_get (T:=ServiceSet) c req with
  | Err e => (w, ca, if IsNotFound e then Done false else Failed e)
  | Ok serviceSet =>
      match getRegionalClient c serviceSet with
      | Err e => (w, ca, Failed e)
      | Ok rgnClient =>
          let w := mkWorld c rgnClient in
          if bool_decide (is_Some (om_deletionTimestamp (sset_meta serviceSet)))
          then let '(w, r) := reconcileDelete w serviceSet in (w, ca, r)
          else
            let '(finalizers, added) := AddFinalizer (om_finalizers (sset_meta serviceSet)) ServiceSetFinalizer in
            if added then
              let '(c, _, err) := c_update_refresh c (set_sset_meta (set_finalizers finalizers (sset_meta serviceSet)) serviceSet) in
              (mkWorld c rgnClient, ca, match err with Some e => Failed e | None => Done false end)
            else
              match c_get (T:=StateManagementProvider) c (mkKey "" (pc_name (sss_provider (sset_spec serviceSet)))) with
              | Err e => (w, ca, Failed e)
              | Ok smp =>
                  match labelsMatchSelector (labels_of (sset_meta serviceSet)) (smp_selector smp) with
                  | Err e => (w, ca, Failed (ErrWrap "failed to check ServiceSet labels: " e))
                  | Ok false => (w, ca, Done false)
                  | Ok true =>
                      let '(w, ca, serviceSet', r) := reconcile_services w ca smp serviceSet in
                      let '(w, r) := leave_reconcile serviceSet w serviceSet' r in
                      (w, ca, r)
                  end
              end
      end
  end.

(** ** Properties: what a reconcile leaves alone *)

Lemma set_sset_services_twice a b s : set_sset_services a (set_sset_services b s) = set_sset_services a s.
Proof. done. Qed.
Lemma set_sset_services_same s : set_sset_services (ssst_services (sset_status s)) s = s.
Proof. by destruct s as [? ? []]. Qed.

(** Only the states of services have grown. *)
Definition seeded (s s' : ServiceSet) : Prop :=
  ∃ states, s' = set_sset_services states s ∧
    grows (sss_services (sset_spec s)) (ssst_services (sset_status s)) states.

Lemma seeded_refl s : seeded s s.
Proof. exists (ssst_services (sset_status s)). rewrite set_sset_services_same. split; [done|apply grows_refl]. Qed.
Lemma seeded_trans s1 s2 s3 : seeded s1 s2 → seeded s2 s3 → seeded s1 s3.
Proof.
  intros (a & -> & Ha) (b & -> & Hb). exists b. rewrite set_sset_services_twice. split; [done|]. cbn in Hb. by eapply grows_trans.
Qed.

Lemma build_step_seeded {A} mark type version (build : ServiceWithValues → ServiceTemplate → option (outcome A)) w s :
  seeded s (build_step mark (refs (w_mgmt w) now type version build s) s).1.
Proof.
  unfold build_step. cbn. eexists. split; [done|]. unfold refs. by apply refs_loop_grows.
Qed.

(** Which part of the profile could not be built, and why. *)
Inductive build_stage := StageCluster | StageConfig | StageCharts | StageKustomizations | StagePolicies.
Definition stage_error (stage : build_stage) (e : gerror) : gerror :=
  match stage with
  | StageCluster => e
  | StageConfig => ErrJoin [errBuildProfileFromConfigFailed; e]
  | StageCharts => ErrJoin [errBuildHelmChartsFailed; e]
  | StageKustomizations => ErrJoin [errBuildKustomizationRefsFailed; e]
  | StagePolicies => ErrJoin [errBuildPolicyRefsFailed; e]
  end.
Definition stage_reason (stage : build_stage) : string :=
  match stage with
  | StageCluster => ServiceSetProfileNotReadyReason
  | StageConfig => ServiceSetProfileBuildFailedReason
  | StageCharts => ServiceSetHelmChartsBuildFailedReason
  | StageKustomizations => ServiceSetKustomizationRefsBuildFailedReason
  | StagePolicies => ServiceSetPolicyRefsBuildFailedReason
  end.
(** [s'] is what the stage was given. *)
Definition stage_fails (w : world C) (s' : ServiceSet) (stage : build_stage) (e : gerror) : Prop :=
  match stage with
  | StageCluster => cluster_part w s' = Err e
  | StageConfig => (buildProfileSpec json_profileConfig (pc_config (sss_provider (sset_spec s')))).2 = Some e ∧
                   errors_Is "empty config" e = false
  | StageCharts => (getHelmCharts (w_mgmt w) now s').2 = Ret (Err e)
  | StageKustomizations => (getKustomizationRefs (w_mgmt w) now s').2 = Ret (Err e)
  | StagePolicies => (getPolicyRefs (w_mgmt w) now s').2 = Ret (Err e)
  end.

Lemma build_step_Err {A} mark (r : list ServiceState * outcome (list A)) s e :
  (build_step mark r s).2 = Ret (Err e) → ∃ e', r.2 = Ret (Err e') ∧ e = ErrJoin [mark; e'].
Proof. unfold build_step. cbn. destruct r.2 as [[l|e']|]; try done. intros [= <-]. by exists e'. Qed.

Lemma config_spec_cases s :
  match config_spec s with
  | Ret (Ok spec) => (buildProfileSpec json_profileConfig (pc_config (sss_provider (sset_spec s)))).1 = Some spec
  | Ret (Err e) => ∃ e', ((buildProfileSpec json_profileConfig (pc_config (sss_provider (sset_spec s)))).2 = Some e' ∧
                     errors_Is "empty config" e' = false) ∧ e = stage_error StageConfig e'
  | Panic => True
  end.
Proof.
  unfold config_spec. destruct (buildProfileSpec _ _) as [[spec|] [e|]]; cbn; try done;
    destruct (errors_Is "empty config" e) eqn:E; cbn; try done; by exists e.
Qed.

Definition build_ok (w : world C) (s : ServiceSet) (s' : ServiceSet) (r : outcome ProfileSpec) : Prop :=
  seeded s s' ∧
  match r with
  | Ret (Ok spec) => applyProfileSpecDefaults spec = spec
  | Ret (Err e) => ∃ s1 stage e', seeded s s1 ∧ stage_fails w s1 stage e' ∧ e = stage_error stage e'
  | Panic => True
  end.

(** One step of the build, and what follows it. *)
Lemma and_then_ok {A} w s s1 (r1 : outcome A) k :
  seeded s s1 →
  (∀ e, r1 = Ret (Err e) → ∃ s1 stage e', seeded s s1 ∧ stage_fails w s1 stage e' ∧ e = stage_error stage e') →
  (∀ a, r1 = Ret (Ok a) → build_ok w s (k s1 a).1 (k s1 a).2) →
  build_ok w s (and_then (s1, r1) k).1 (and_then (s1, r1) k).2.
Proof. intros Hs He Hk. destruct r1 as [[a|e]|]; cbn; [by apply Hk|split; [done|by apply He]|by split]. Qed.

Lemma build_step_ok {A} stage mark type version (build : ServiceWithValues → ServiceTemplate → option (outcome A)) w s s0 k :
  (∀ e, (refs (w_mgmt w) now type version build s0).2 = Ret (Err e) → stage_fails w s0 stage e) →
  (∀ e, stage_error stage e = ErrJoin [mark; e]) → seeded s s0 →
  (∀ s1 a, seeded s s1 → build_ok w s (k s1 a).1 (k s1 a).2) →
  let r := build_step mark (refs (w_mgmt w) now type version build s0) s0 in
  build_ok w s (and_then r k).1 (and_then r k).2.
Proof.
  intros Hf Hm Hs Hk r. pose proof (build_step_seeded mark type version build w s0) as Hg. fold r in Hg.
  pose proof (build_step_Err mark (refs (w_mgmt w) now type version build s0) s0) as He. fold r in He.
  destruct r as [s1 r1]. cbn in Hg, He. apply and_then_ok; [by eapply seeded_trans| |].
  - intros e (e' & Hr & ->)%He. exists s0, stage, e'. split_and!; [done|by apply Hf|by rewrite Hm].
  - intros a _. apply Hk. by eapply seeded_trans.
Qed.

(** What a build comes to: a defaulted specification, a panic, or the error of one stage. *)
Lemma profileSpec_spec w s : build_ok w s (profileSpec w s).1 (profileSpec w s).2.
Proof.
  unfold profileSpec. apply and_then_ok; [apply seeded_refl| |].
  { intros e [= He]. exists s, StageCluster, e. split_and!; [apply seeded_refl|done..]. }
  intros [[clusterRef trrs] prs] _. apply and_then_ok; [apply seeded_refl| |].
  { intros e He. pose proof (config_spec_cases s) as Hc. rewrite He in Hc. destruct Hc as (e' & Hc & ->).
    exists s, StageConfig, e'. split_and!; [apply seeded_refl|done..]. }
  intros spec _. apply (build_step_ok StageCharts); [done..|apply seeded_refl|]. intros s1 charts Hs1.
  apply (build_step_ok StageKustomizations); [done..|]. intros s2 kustomizations Hs2.
  apply (build_step_ok StagePolicies); [done..|]. intros s3 policies Hs3.
  split; [done|]. apply applyProfileSpecDefaults_idem.
Qed.
End controller.
