(* ===== verification/SveltosConverge.v ===== *)
(** * Where the reconciliation of a ServiceSet leads

    Against an API server that stores what it is given, the profile in the
    cluster comes to agree with the ServiceSet and is then left alone; the
    condition says how far that got; deletion ends; and what the status finally
    says of the services holds. *)

From S2P Require Import Prelude GoStrings Api ApiManagement Kube Conditions ServiceBasics SveltosTypes SveltosState AccessManagement AdmissionChecks ServiceUpgrades SveltosProfile HealthRules Verdicts VerifyStates SveltosReconcile.

#[local] Arguments String.append !_ _ / : simpl nomatch.

(** ** The server *)

(** What the server makes of a specification: a setting that is given is stored
    as given; one that is left out gets a default of the server's own, which is
    not known here. *)
Definition honours {A} (unset sent got : A) : Prop := sent ≠ unset → got = sent.
Definition accepted (sent got : ProfileSpec) : Prop :=
  honours 0%Z (prs_tier sent) (prs_tier got) ∧
  honours "" (prs_stopMatchingBehavior sent) (prs_stopMatchingBehavior got) ∧
  honours "" (prs_syncMode sent) (prs_syncMode got) ∧
  ∃ policies charts kustomizations,
    got = mkProfileSpec (prs_clusterSelector sent) (prs_clusterRefs sent) (prs_tier got) (prs_stopMatchingBehavior got)
      (prs_syncMode got) (prs_continueOnConflict sent) (prs_continueOnError sent) (prs_reloader sent) (prs_templateResourceRefs sent)
      policies charts kustomizations (prs_patches sent) (prs_patchesFrom sent) (prs_driftExclusions sent)
      (prs_maxConsecutiveFailures sent) (prs_rest sent) ∧
    Forall2 (λ p q, ∃ type, honours "" (plr_deploymentType p) type ∧
      q = mkPolicyRef (plr_namespace p) (plr_name p) (plr_kind p) (plr_path p) type (plr_rest p)) (prs_policyRefs sent) policies ∧
    Forall2 (λ h i, ∃ action, honours "" (shc_action h) action ∧ i = set_chart_action action h) (prs_helmCharts sent) charts ∧
    Forall2 (λ k l, ∃ type, honours "" (kr_deploymentType k) type ∧
      l = mkKustomizationRef (kr_namespace k) (kr_name k) (kr_kind k) (kr_path k) (kr_targetNamespace k) type (kr_valuesFrom k))
      (prs_kustomizationRefs sent) kustomizations.

(** What is read after a successful write: the specification as the server
    accepts it, the annotations and owners given. A ClusterProfile has no
    namespace. *)
Class ProfileServer (C : Type) `{!Getter C Profile} `{!Writer C Profile} `{!Getter C ClusterProfile} `{!Writer C ClusterProfile} := {
  create_profile c p c' : c_create c p = (c', None) → ∃ q, c_get c' (meta_key (prf_meta p)) = Ok q ∧
    accepted (prf_spec p) (prf_spec q) ∧
    om_annotations (prf_meta q) = om_annotations (prf_meta p) ∧ om_ownerReferences (prf_meta q) = om_ownerReferences (prf_meta p);
  update_profile c p c' : c_update c p = (c', None) → ∃ q, c_get c' (meta_key (prf_meta p)) = Ok q ∧
    accepted (prf_spec p) (prf_spec q) ∧
    om_annotations (prf_meta q) = om_annotations (prf_meta p) ∧ om_ownerReferences (prf_meta q) = om_ownerReferences (prf_meta p);
  get_profile_key c k p : c_get c k = Ok p → meta_key (prf_meta p) = k;
  create_clusterProfile c p c' ns : c_create c p = (c', None) → ∃ q, c_get c' (mkKey ns (om_name (cprf_meta p))) = Ok q ∧
    accepted (cprf_spec p) (cprf_spec q) ∧
    om_annotations (cprf_meta q) = om_annotations (cprf_meta p) ∧ om_ownerReferences (cprf_meta q) = om_ownerReferences (cprf_meta p);
  update_clusterProfile c p c' ns : c_update c p = (c', None) → ∃ q, c_get c' (mkKey ns (om_name (cprf_meta p))) = Ok q ∧
    accepted (cprf_spec p) (cprf_spec q) ∧
    om_annotations (cprf_meta q) = om_annotations (cprf_meta p) ∧ om_ownerReferences (cprf_meta q) = om_ownerReferences (cprf_meta p);
  get_clusterProfile_name c k p : c_get c k = Ok p → om_name (cprf_meta p) = key_name k
}.

(** The settings the server has a default for are all given once
    [applyProfileSpecDefaults] has been applied. *)
Lemma or_default_given d x : d ≠ "" → or_default d x ≠ "".
Proof. intros Hd. unfold or_default. by case_bool_decide. Qed.

Lemma fmap_given {A} (f : A → A) (R : A → A → Prop) (l l' : list A) :
  (∀ x y, f x = x → R x y → y = x) → f <$> l = l → Forall2 R l l' → l' = l.
Proof.
  intros HR Hf Hl. revert Hf. induction Hl as [|x y l l' Hx Hl IH]; [done|]. cbn. intros [= Hx' Hl'].
  f_equal; [by apply HR|by apply IH].
Qed.

Lemma accepted_defaulted spec got : applyProfileSpecDefaults spec = spec → accepted spec got → got = spec.
Proof.
  intros Hd (Ht & Hst & Hsy & policies & charts & kustomizations & -> & Hp & Hc & Hk).
  destruct spec as [sel refs tier stop sync conflict error reloader trrs prs hcs krs patches from excl maxf rest]; cbn in *.
  injection Hd as Ht' Hst' Hsy' Hp' Hc' Hk'.
  rewrite Ht by (rewrite <- Ht'; by case_bool_decide). rewrite Hst by (rewrite <- Hst'; by apply or_default_given).
  rewrite Hsy by (rewrite <- Hsy'; by apply or_default_given).
  f_equal; eapply fmap_given; [|exact Hp'|exact Hp| |exact Hc'|exact Hc| |exact Hk'|exact Hk].
  - intros [] q [= Hx] (type & Hh & ->). cbn in *. by rewrite Hh by (rewrite <- Hx; by apply or_default_given).
  - intros h q Hx (action & Hh & ->). assert (shc_action h ≠ "") as Hg.
    { rewrite <- Hx. unfold set_chart_action; cbn. by apply or_default_given. }
    rewrite (Hh Hg). by destruct h.
  - intros [] q [= Hx] (type & Hh & ->). cbn in *. by rewrite Hh by (rewrite <- Hx; by apply or_default_given).
Qed.

(** ** The profile *)

Section pause.
Variable ProfilePausedAnnotation : string.

(** The profile is paused exactly when the ServiceSet is. *)
Definition paused_alike (annotations : gmap string string) (s : ServiceSet) : Prop :=
  is_Some (annotations !! ProfilePausedAnnotation) ↔ is_Some (om_annotations (sset_meta s) !! ServiceSetPausedAnnotation).

Lemma handlePauseAnnotations_spec m s :
  let '(m', updated) := handlePauseAnnotations ProfilePausedAnnotation m s in
  paused_alike (om_annotations m') s ∧ (updated = true ↔ ¬ paused_alike (om_annotations m) s) ∧
  (updated = false → m' = m) ∧
  (∀ k, k ≠ ProfilePausedAnnotation → om_annotations m' !! k = om_annotations m !! k) ∧
  meta_key m' = meta_key m ∧ om_ownerReferences m' = om_ownerReferences m.
Proof.
  unfold handlePauseAnnotations, paused_alike. cbn zeta.
  destruct (decide (is_Some (om_annotations (sset_meta s) !! ServiceSetPausedAnnotation))) as [Hi|Hi];
    destruct (decide (is_Some (om_annotations m !! ProfilePausedAnnotation))) as [He|He];
    rewrite ?(bool_decide_eq_true_2 _ Hi), ?(bool_decide_eq_false_2 _ Hi), ?(bool_decide_eq_true_2 _ He), ?(bool_decide_eq_false_2 _ He);
    change (bool_decide (true = false)) with false; change (bool_decide (false = true)) with false;
    change (bool_decide (true = true)) with true; change (bool_decide (false = false)) with true; cbv match;
    cbn -[insert delete lookup].
  - assert (false ≠ true) by done. split_and!; try done; tauto.
  - assert (¬ (is_Some (om_annotations m !! ProfilePausedAnnotation) ↔
               is_Some (om_annotations (sset_meta s) !! ServiceSetPausedAnnotation))) as Hne by tauto.
    rewrite lookup_insert_eq. split_and!; try done. intros k Hk. by rewrite lookup_insert_ne.
  - assert (¬ (is_Some (om_annotations m !! ProfilePausedAnnotation) ↔
               is_Some (om_annotations (sset_meta s) !! ServiceSetPausedAnnotation))) as Hne by tauto.
    rewrite lookup_delete_eq. split_and!; try done. intros k Hk. by rewrite lookup_delete_ne.
  - assert (false ≠ true) by done. split_and!; try done; tauto.
Qed.
End pause.

Section world_lemmas.
Context {C : Type}.
Lemma rgn_set_rgn (c : C) w : rgn (set_rgn c w) = c.
Proof. by destruct w as [? []]. Qed.
Lemma inMgmtCluster_set_rgn (c : C) w : inMgmtCluster (set_rgn c w) = inMgmtCluster w.
Proof. by destruct w as [? []]. Qed.
End world_lemmas.

Section in_sync.
Context {C : Type} `{!Getter C Profile} `{!Writer C Profile} `{!Getter C ClusterProfile} `{!Writer C ClusterProfile}.
Variable ProfilePausedAnnotation : string.
Notation paused_alike := (paused_alike ProfilePausedAnnotation).
Notation createOrUpdate := (createOrUpdate ProfilePausedAnnotation).
Notation createOrUpdateProfile := (createOrUpdateProfile ProfilePausedAnnotation).
Notation createOrUpdateClusterProfile := (createOrUpdateClusterProfile ProfilePausedAnnotation).

(** The cluster that hosts the target holds a profile with the specification,
    paused as the ServiceSet is; away from the management cluster no owner,
    which would not exist there, is left on it. *)
Definition in_sync (w : world C) (s : ServiceSet) (spec : ProfileSpec) : Prop :=
  let key := meta_key (sset_meta s) in
  if self_managed s
  then ∃ p, c_get (T:=ClusterProfile) (rgn w) key = Ok p ∧ cprf_spec p = spec ∧ paused_alike (om_annotations (cprf_meta p)) s
  else ∃ p, c_get (T:=Profile) (rgn w) key = Ok p ∧ prf_spec p = spec ∧ paused_alike (om_annotations (prf_meta p)) s ∧
         (inMgmtCluster w = false → om_ownerReferences (prf_meta p) = []).

(** The owners a profile is written with: the ServiceSet, unless it lives in
    another cluster than the profile. *)
Definition owned (w : world C) (s : ServiceSet) : Prop :=
  let key := meta_key (sset_meta s) in
  if self_managed s
  then ∃ p, c_get (T:=ClusterProfile) (rgn w) key = Ok p ∧ om_ownerReferences (cprf_meta p) = [controller_ref s]
  else ∃ p, c_get (T:=Profile) (rgn w) key = Ok p ∧
         om_ownerReferences (prf_meta p) = (if inMgmtCluster w then [controller_ref s] else []).

Lemma handlePauseAnnotations_alike m s :
  paused_alike (om_annotations m) s → handlePauseAnnotations ProfilePausedAnnotation m s = (m, false).
Proof.
  intros Hp. pose proof (handlePauseAnnotations_spec ProfilePausedAnnotation m s) as Hh.
  destruct (handlePauseAnnotations _ m s) as [m' [|]]; destruct Hh as (_ & Hu & Hs & _); [by apply Hu in Hp|by rewrite Hs].
Qed.

Lemma createOrUpdate_idle w s spec : in_sync w s spec → createOrUpdate w s spec = (w, None).
Proof.
  unfold in_sync, SveltosReconcile.createOrUpdate. cbn zeta. destruct (self_managed s).
  - intros (p & Hg & <- & Hp). unfold SveltosReconcile.createOrUpdateClusterProfile. cbn zeta. rewrite Hg, handlePauseAnnotations_alike by done.
    by rewrite bool_decide_eq_true_2.
  - intros (p & Hg & <- & Hp & Ho). unfold SveltosReconcile.createOrUpdateProfile. cbn zeta. rewrite Hg, handlePauseAnnotations_alike by done.
    rewrite (bool_decide_eq_true_2 (prf_spec p = prf_spec p)) by done. cbn [negb orb]. destruct (inMgmtCluster w); [done|].
    by rewrite Ho.
Qed.
Context `{!ProfileServer C}.

(** A write that succeeds leaves the profile in agreement; it was already, or
    it has been written with its owners. *)
Definition settled (w w' : world C) (s : ServiceSet) (spec : ProfileSpec) : Prop :=
  in_sync w' s spec ∧ (w' = w ∨ owned w' s).

Lemma createOrUpdateProfile_in_sync w s spec w' :
  applyProfileSpecDefaults spec = spec → self_managed s = false → createOrUpdateProfile w s spec = (w', None) → settled w w' s spec.
Proof.
  intros Hd Hself. unfold SveltosReconcile.createOrUpdateProfile, settled, in_sync, owned. rewrite Hself. cbn zeta.
  assert (inMgmtCluster w = false → (if inMgmtCluster w then [controller_ref s] else []) = []) as Howners by by intros ->.
  destruct (c_get (T:=Profile) (rgn w) _) as [p|e] eqn:Hg.
  - pose proof (handlePauseAnnotations_spec ProfilePausedAnnotation (prf_meta p) s) as Hp.
    destruct (handlePauseAnnotations _ _ s) as [m updated]. destruct Hp as (Hpa & _ & Hsame & _ & Hk & Ho).
    destruct (updated || _ || _) eqn:E.
    + destruct (c_update (rgn w) _) as [c [e|]] eqn:Hu; [done|]. intros [= <-]. rewrite rgn_set_rgn, inMgmtCluster_set_rgn.
      apply update_profile in Hu as (q & Hq & Hs%accepted_defaulted & Ha & Hq'); [|done].
      apply get_profile_key in Hg. cbn in Hq, Hs, Ha, Hq'. rewrite <- Hg, <- Hk.
      split; [|right]; exists q; rewrite ?Hs, ?Ha, ?Hq'; by split_and!.
    + intros [= <-]. split; [|by left]. apply orb_false_iff in E as [[Hu Hst]%orb_false_iff Hsp].
      apply negb_false_iff, bool_decide_eq_true in Hsp.
      rewrite (Hsame Hu) in *. exists p. split_and!; try done. intros Hm. rewrite Hm in Hst. cbn in Hst.
      apply bool_decide_eq_false in Hst. destruct (om_ownerReferences (prf_meta p)); [done|simpl in Hst; lia].
  - destruct (IsNotFound e); [|done]. cbn [negb].
    pose proof (handlePauseAnnotations_spec ProfilePausedAnnotation empty_meta s) as Hp.
    destruct (handlePauseAnnotations _ empty_meta s) as [m updated]. destruct Hp as (Hpa & _).
    destruct (c_create (rgn w) _) as [c [e'|]] eqn:Hc; [done|]. intros [= <-]. rewrite rgn_set_rgn, inMgmtCluster_set_rgn.
    apply create_profile in Hc as (q & Hq & Hs%accepted_defaulted & Ha & Hq'); [|done]. cbn in Hq, Hs, Ha, Hq'.
    split; [|right]; exists q; rewrite ?Hs, ?Ha, ?Hq'; by split_and!.
Qed.

Lemma createOrUpdateClusterProfile_in_sync w s spec w' :
  applyProfileSpecDefaults spec = spec → self_managed s = true → createOrUpdateClusterProfile w s spec = (w', None) →
  settled w w' s spec.
Proof.
  intros Hd Hself. unfold SveltosReconcile.createOrUpdateClusterProfile, settled, in_sync, owned. rewrite Hself. cbn zeta.
  destruct (c_get (T:=ClusterProfile) (rgn w) _) as [p|e] eqn:Hg.
  - pose proof (handlePauseAnnotations_spec ProfilePausedAnnotation (cprf_meta p) s) as Hp.
    destruct (handlePauseAnnotations _ _ s) as [m updated]. destruct Hp as (Hpa & _ & Hsame & _ & Hk & _).
    destruct (updated || _) eqn:E.
    + destruct (c_update (rgn w) _) as [c [e|]] eqn:Hu; [done|]. intros [= <-]. rewrite rgn_set_rgn.
      apply (update_clusterProfile _ _ _ (om_namespace (sset_meta s))) in Hu as (q & Hq & Hs%accepted_defaulted & Ha & Hq'); [|done].
      apply get_clusterProfile_name in Hg. cbn in Hq, Hs, Ha, Hg, Hq'. injection Hk as _ Hk. rewrite Hk, Hg in Hq.
      split; [|right]; exists q; rewrite ?Hs, ?Ha, ?Hq'; by split_and!.
    + intros [= <-]. split; [|by left]. apply orb_false_iff in E as [Hu Hsp]. apply negb_false_iff, bool_decide_eq_true in Hsp.
      rewrite (Hsame Hu) in *. exists p. split_and!; done.
  - destruct (IsNotFound e); [|done]. cbn [negb].
    pose proof (handlePauseAnnotations_spec ProfilePausedAnnotation empty_meta s) as Hp.
    destruct (handlePauseAnnotations _ empty_meta s) as [m updated]. destruct Hp as (Hpa & _).
    destruct (c_create (rgn w) _) as [c [e'|]] eqn:Hc; [done|]. intros [= <-]. rewrite rgn_set_rgn.
    apply (create_clusterProfile _ _ _ (om_namespace (sset_meta s))) in Hc as (q & Hq & Hs%accepted_defaulted & Ha & Hq'); [|done].
    cbn in Hq, Hs, Ha, Hq'. split; [|right]; exists q; rewrite ?Hs, ?Ha, ?Hq'; by split_and!.
Qed.

Lemma createOrUpdate_in_sync w s spec w' :
  applyProfileSpecDefaults spec = spec → createOrUpdate w s spec = (w', None) → settled w w' s spec.
Proof.
  intros Hd. unfold SveltosReconcile.createOrUpdate. destruct (self_managed s) eqn:E;
    [by apply createOrUpdateClusterProfile_in_sync|by apply createOrUpdateProfile_in_sync].
Qed.
End in_sync.

(** ** The condition on the profile *)

Section ensure.
Context {C : Type} `{!StatusConditions} `{Semver}.
Context `{!Getter C ClusterDeployment} `{!Getter C Credential} `{!Getter C ServiceTemplate} `{!Getter C FluxHelmChart}
  `{!Getter C HelmRepository} `{!Getter C GitRepository} `{!Getter C SveltosCluster} `{!Getter C CapiCluster}.
Context `{!Getter C Profile} `{!Getter C ClusterProfile} `{!Writer C Profile} `{!Writer C ClusterProfile}.
Variable json_profileConfig : string → result profileConfig.
Variable EqualFold : string → string → bool.
Variable ProfilePausedAnnotation : string.
Variable now : Z.
Notation profileSpec := (profileSpec json_profileConfig EqualFold now).
Notation stage_fails := (stage_fails json_profileConfig EqualFold now).
Notation createOrUpdate := (createOrUpdate ProfilePausedAnnotation).
Notation ensureProfile := (ensureProfile json_profileConfig EqualFold ProfilePausedAnnotation now).
Notation profile_condition s := (find_condition ServiceSetProfileCondition (ssst_conditions (sset_status s))).

(** An error that does not carry the mark of a stage itself. *)
Definition unmarked (e : gerror) : Prop :=
  ∀ m, m ∈ ["failed to build profile from config"; "failed to build helm charts"; "failed to build kustomization refs";
            "failed to build policy refs"] → errors_Is m e = false.

Lemma build_failure_stage name stage e :
  unmarked e → (build_failure name (stage_error stage e)).1 = stage_reason stage.
Proof.
  intros Hu. assert (errors_Is "failed to build profile from config" e = false) as H1 by (apply Hu; set_solver).
  assert (errors_Is "failed to build helm charts" e = false) as H2 by (apply Hu; set_solver).
  assert (errors_Is "failed to build kustomization refs" e = false) as H3 by (apply Hu; set_solver).
  assert (errors_Is "failed to build policy refs" e = false) as H4 by (apply Hu; set_solver).
  unfold build_failure. destruct stage; cbn [stage_error errors_Is existsb errBuildProfileFromConfigFailed errBuildHelmChartsFailed
    errBuildKustomizationRefsFailed errBuildPolicyRefsFailed sentinel]; rewrite ?H1, ?H2, ?H3, ?H4; reflexivity.
Qed.

(** How [ensureProfile] ends. *)
Inductive ensured (w : world C) (s : ServiceSet) : world C → string → outcome unit → Prop :=
  | ensured_panic : (profileSpec w s).2 = Panic → ensured w s w ServiceSetProfileNotReadyReason Panic
  | ensured_build s1 stage e reason : (profileSpec w s).2 = Ret (Err (stage_error stage e)) → seeded s s1 → stage_fails w s1 stage e → (unmarked e → reason = stage_reason stage) →
      ensured w s w reason (Ret (Err (ErrWrap "failed to build Profile: " (stage_error stage e))))
  | ensured_write spec w' e e' : (profileSpec w s).2 = Ret (Ok spec) → createOrUpdate w (profileSpec w s).1 spec = (w', Some e) →
      ensured w s w' ServiceSetProfileNotReadyReason (Ret (Err e'))
  | ensured_ok spec w' : (profileSpec w s).2 = Ret (Ok spec) → createOrUpdate w (profileSpec w s).1 spec = (w', None) →
      ensured w s w' ServiceSetProfileReadyReason (Ret (Ok tt)).

Definition reported (s0 s : ServiceSet) (ok : bool) (reason : string) : Prop :=
  ∃ c, profile_condition s = Some c ∧ cond_status c = (if ok then CondTrue else CondFalse) ∧ cond_reason c = reason ∧
       cond_observedGeneration c = om_generation (sset_meta s0).

(** What is left of the ServiceSet: states seeded, conditions set. *)
Definition ensured_frame (s s' : ServiceSet) : Prop :=
  sset_meta s' = sset_meta s ∧ sset_spec s' = sset_spec s ∧ ssst_deployed (sset_status s') = ssst_deployed (sset_status s) ∧
  grows (sss_services (sset_spec s)) (ssst_services (sset_status s)) (ssst_services (sset_status s')).

Lemma seeded_frame s s1 s2 : seeded s s1 → same_but_conditions s1 s2 → ensured_frame s s2.
Proof.
  intros (states & -> & Hg) (Hm & Hsp & Hse & Hd)%same_but_conditions_services.
  unfold ensured_frame. rewrite Hm, Hsp, Hse, Hd. by split_and!.
Qed.

Lemma findCondition_seeded s s1 t : seeded s s1 → findCondition s t = findCondition s1 t.
Proof. by intros (states & -> & _). Qed.

Lemma leave_reported s s1 status reason message :
  seeded s s1 →
  let s2 := (updateCondition s1 (findCondition s ServiceSetProfileCondition) status reason message now).1 in
  ensured_frame s s2 ∧ ∃ c, profile_condition s2 = Some c ∧ cond_status c = status ∧ cond_reason c = reason ∧
    cond_observedGeneration c = om_generation (sset_meta s).
Proof.
  intros Hs. cbn zeta. rewrite (findCondition_seeded s s1) by done. split.
  - eapply seeded_frame; [done|]. apply updateCondition_same.
  - destruct (updateCondition_found s1 ServiceSetProfileCondition status reason message now) as (c & Hc & Hst & Hr & _ & Hg).
    destruct Hs as (states & -> & _). by exists c.
Qed.

Lemma ensureProfile_cases w s :
  let '(w', s', r) := ensureProfile w s in
  ∃ reason, ensured w s w' reason r ∧ ensured_frame s s' ∧
    reported s s' (match r with Ret (Ok _) => true | _ => false end) reason.
Proof.
  unfold SveltosReconcile.ensureProfile. pose proof (profileSpec_spec json_profileConfig EqualFold now w s) as [Hseed Hr].
  pose proof (ensured_panic w s) as Hpanic. pose proof (ensured_build w s) as Hbuild. pose proof (ensured_write w s) as Hwrite. pose proof (ensured_ok w s) as Hok.
  destruct (profileSpec w s) as [s1 [[spec|e]|]]; cbn [fst snd] in *.
  - destruct (createOrUpdate w s1 spec) as [w' [e|]] eqn:E; cbv beta iota zeta.
    + exists ServiceSetProfileNotReadyReason. split; [by eapply Hwrite|]. apply (leave_reported s s1 CondFalse); done.
    + exists ServiceSetProfileReadyReason. split; [by eapply Hok|]. apply (leave_reported s s1 CondTrue); done.
  - destruct Hr as (s0 & stage & e' & Hs0 & Hf & ->). cbv zeta.
    pose proof (build_failure_stage (om_name (sset_meta s1)) stage e') as Hb.
    destruct (build_failure _ _) as [reason message]. cbn [fst] in Hb. exists reason. split; [by eapply Hbuild|].
    apply (leave_reported s s1 CondFalse); done.
  - exists ServiceSetProfileNotReadyReason. split; [by apply Hpanic|]. apply (leave_reported s s1 CondFalse); done.
Qed.

(** The states are those the build has left. *)
Lemma ensureProfile_services w s :
  ssst_services (sset_status (ensureProfile w s).1.2) = ssst_services (sset_status (profileSpec w s).1).
Proof.
  assert (∀ s1 c status reason message, ssst_services (sset_status (updateCondition s1 c status reason message now).1) =
    ssst_services (sset_status s1)) as Hu.
  { intros s1 c status reason message.
    by destruct (same_but_conditions_services _ _ (updateCondition_same s1 c status reason message now)) as (_ & _ & -> & _). }
  unfold SveltosReconcile.ensureProfile. destruct (profileSpec w s) as [s1 [[spec|e]|]]; cbv zeta beta.
  - destruct (createOrUpdate w s1 spec) as [w' [e|]]; apply Hu.
  - destruct (build_failure _ _) as [reason message]. apply Hu.
  - apply Hu.
Qed.

(** C33: after [ensureProfile] the condition on the profile tells what happened,
    for the generation reconciled. It is true exactly when the specification
    could be built and the write of it reported no error, and then the state
    left is that of the write. Otherwise it is false: when building failed
    nothing has been written and its reason is that of the stage that failed,
    the stages being tried in order, each on what the ones before left; when
    the write failed, or the build broke down, its reason is the general one.
    Whatever happens, metadata and spec stay, and states of services are only
    added. *)
Theorem ensureProfile_reports w s :
  let '(w', s', r) := ensureProfile w s in
  let build := profileSpec w s in
  let write spec := createOrUpdate w build.1 spec in
  ensured_frame s s' ∧
  ∃ c, profile_condition s' = Some c ∧ cond_observedGeneration c = om_generation (sset_meta s) ∧
    (cond_status c = CondTrue ↔ ∃ spec, build.2 = Ret (Ok spec) ∧ (write spec).2 = None) ∧
    match build.2 with
    | Ret (Ok spec) =>
        w' = (write spec).1 ∧
        match (write spec).2 with
        | None => r = Ret (Ok tt) ∧ cond_status c = CondTrue ∧ cond_reason c = ServiceSetProfileReadyReason
        | Some _ => (∃ e, r = Ret (Err e)) ∧ cond_status c = CondFalse ∧ cond_reason c = ServiceSetProfileNotReadyReason
        end
    | Ret (Err e) =>
        w' = w ∧ (∃ e', r = Ret (Err e')) ∧ cond_status c = CondFalse ∧
        ∃ s1 stage e1, seeded s s1 ∧ stage_fails w s1 stage e1 ∧ e = stage_error stage e1 ∧
          (unmarked e1 → cond_reason c = stage_reason stage)
    | Panic => w' = w ∧ r = Panic ∧ cond_status c = CondFalse ∧ cond_reason c = ServiceSetProfileNotReadyReason
    end.
Proof.
  pose proof (ensureProfile_cases w s) as He. destruct (ensureProfile w s) as [[w' s'] r]. cbn zeta.
  destruct He as (reason & He & Hf & c & Hc & Hst & Hr & Hg). split; [done|]. exists c. split; [done|]. split; [done|].
  assert (CondFalse ≠ CondTrue) as Hne by done.
  destruct He as [Hb|s1 stage e ? Hb Hs1 Hfail Hm|spec ? e e' Hb Hw|spec ? Hb Hw]; rewrite Hb, Hst, ?Hr; cbv beta iota.
  - split_and!; try done. split; [done|]. by intros (? & [=] & _).
  - split_and!; try done; [|by eexists|by exists s1, stage, e]. split; [done|]. by intros (? & [=] & _).
  - split; [|rewrite Hw; split; [done|]; split; [by eexists|done]].
    split; [done|]. intros (? & [= <-] & H'). by rewrite Hw in H'.
  - split; [|by rewrite Hw]. split; [|done]. intros _. exists spec. by rewrite Hw.
Qed.

Section converges.
Context `{!ProfileServer C}.

(** What success means, for what comes after. *)
Lemma ensureProfile_in_sync w s w' s' :
  ensureProfile w s = (w', s', Ret (Ok tt)) →
  ∃ spec, (profileSpec w s).2 = Ret (Ok spec) ∧ settled ProfilePausedAnnotation w w' s' spec ∧
          createOrUpdate w' s' spec = (w', None).
Proof.
  intros He. pose proof (ensureProfile_cases w s) as Hc. rewrite He in Hc. destruct Hc as (reason & Hen & Hf & _).
  inversion Hen as [| | |spec w1 Hspec Hw]; subst. exists spec.
  pose proof (profileSpec_spec json_profileConfig EqualFold now w s) as [Hseed Hd]. rewrite Hspec in Hd.
  destruct (profileSpec w s) as [s1 r1]. cbn in *. apply (createOrUpdate_in_sync ProfilePausedAnnotation) in Hw; [|done].
  assert (settled ProfilePausedAnnotation w w' s' spec) as Hin.
  { destruct Hf as (Hm & Hsp & _). destruct Hseed as (states & -> & _).
    unfold settled, in_sync, owned, controller_ref, self_managed, paused_alike in *. cbn in Hw. by rewrite Hm, Hsp. }
  split_and!; [done|done|]. apply createOrUpdate_idle, Hin.
Qed.
End converges.
End ensure.


(** ** Deletion *)

(** The server, as far as deletion relies on it: a ServiceSet that has been
    written is read back, or is gone with its last finalizer; a profile that has
    been deleted is gone or marked; the kinds are stored apart. *)
Class DeletionServer (C : Type) `{!Getter C ServiceSet} `{!Refresher C ServiceSet} `{!Getter C Profile} `{!Getter C ClusterProfile}
    `{!Deleter C Profile} `{!Deleter C ClusterProfile} := {
  status_update_read c s c' s2 : c_status_update c s = (c', s2, None) → ∃ s3, c_get c' (meta_key (sset_meta s)) = Ok s3 ∧
    sset_meta s3 = sset_meta s ∧ sset_spec s3 = sset_spec s ∧ sset_status s3 = sset_status s;
  update_read c s c' s2 : c_update_refresh c s = (c', s2, None) →
    match c_get (T:=ServiceSet) c' (meta_key (sset_meta s)) with
    | Ok s3 => om_finalizers (sset_meta s3) = om_finalizers (sset_meta s)
    | Err e => IsNotFound e = true
    end;
  delete_profile c k (p : Profile) c' : c_get c k = Ok p → c_delete c p = (c', None) →
    (∀ k', c_get (T:=ServiceSet) c' k' = c_get c k') ∧
    match c_get (T:=Profile) c' k with
    | Ok q => is_Some (om_deletionTimestamp (prf_meta q))
    | Err e => IsNotFound e = true
    end;
  delete_clusterProfile c k (p : ClusterProfile) c' : c_get c k = Ok p → c_delete c p = (c', None) →
    (∀ k', c_get (T:=ServiceSet) c' k' = c_get c k') ∧
    match c_get (T:=ClusterProfile) c' k with
    | Ok q => is_Some (om_deletionTimestamp (cprf_meta q))
    | Err e => IsNotFound e = true
    end
}.

Section deletion.
Context {C : Type} `{Finalizers} `{DeletionServer C}.
Variable now : Z.
Notation reconcileDelete := (reconcileDelete now).
Notation key s := (meta_key (sset_meta s)).

(** What is left to do: 3, services to be marked; 2, the profile to be deleted;
    1, its end to be awaited; 0, the finalizer to be removed. *)
Definition deletion_phase (w : world C) (s : ServiceSet) : nat :=
  if existsb (λ s, negb (is_deleting_state s)) (ssst_services (sset_status s)) then 3
  else match profile_for_deletion (rgn w) s with
       | Ok (m, _) => match om_deletionTimestamp m with None => 2 | Some _ => 1 end
       | Err _ => 0
       end.

(** The deletion of the profile that is there takes it out of phase 2. *)
Lemma profile_for_deletion_ok w s m c :
  profile_for_deletion (rgn w) s = Ok (m, (c, None)) →
  (∀ k, c_get (T:=ServiceSet) (w_mgmt (set_rgn c w)) k = c_get (w_mgmt w) k) ∧
  match profile_for_deletion c s with
  | Ok (m', _) => is_Some (om_deletionTimestamp m')
  | Err e => IsNotFound e = true
  end.
Proof.
  intros Hp. assert (∀ P : Prop, (∀ k, c_get (T:=ServiceSet) c k = c_get (rgn w) k) → P →
    (∀ k, c_get (T:=ServiceSet) (w_mgmt (set_rgn c w)) k = c_get (w_mgmt w) k) ∧ P) as Hw
    by (intros P Hk HP; by destruct w as [? []]).
  unfold profile_for_deletion in *. cbn zeta in *. destruct (self_managed s).
  - destruct (c_get (T:=ClusterProfile) (rgn w) _) as [p|] eqn:E; [|done]. injection Hp as <- Hd.
    destruct (delete_clusterProfile _ _ _ _ E Hd) as [Hk Hd']. apply Hw; [done|]. by destruct (c_get (T:=ClusterProfile) c _).
  - destruct (c_get (T:=Profile) (rgn w) _) as [p|] eqn:E; [|done]. injection Hp as <- Hd.
    destruct (delete_profile _ _ _ _ E Hd) as [Hk Hd']. apply Hw; [done|]. by destruct (c_get (T:=Profile) c _).
Qed.

Lemma deletion_phase_lt3 w s :
  existsb (λ s, negb (is_deleting_state s)) (ssst_services (sset_status s)) = false → deletion_phase w s < 3.
Proof.
  intros Hd. unfold deletion_phase. rewrite Hd. destruct (profile_for_deletion _ _) as [[m ?]|]; [destruct (om_deletionTimestamp m)|]; lia.
Qed.

(** C31: a ServiceSet that is deleted goes one way. A reconcile that does not
    fail marks the services left, then deletes the profile, then waits, being
    called again, until the profile is gone, and only then takes its finalizer
    off. Until that last phase the ServiceSet stays stored with its finalizers,
    so it outlives the profile. *)
Theorem reconcileDelete_progress w s w' requeue :
  c_get (w_mgmt w) (key s) = Ok s → reconcileDelete w s = (w', Done requeue) →
  match deletion_phase w s with
  | 0 => requeue = false ∧
         match c_get (T:=ServiceSet) (w_mgmt w') (key s) with
         | Ok s' => ServiceSetFinalizer ∈ om_finalizers (sset_meta s) →
                    om_finalizers (sset_meta s') = (RemoveFinalizer (om_finalizers (sset_meta s)) ServiceSetFinalizer).1
         | Err e => IsNotFound e = true
         end
  | 1 => requeue = true ∧ w' = w
  | phase => ∃ s', c_get (w_mgmt w') (key s) = Ok s' ∧ sset_meta s' = sset_meta s ∧ sset_spec s' = sset_spec s ∧
               deletion_phase w' s' < phase ∧ (phase = 2 → requeue = true)
  end.
Proof.
  intros Hg. unfold SveltosReconcile.reconcileDelete, deletion_phase at 1. cbn zeta.
  destruct (existsb _ (ssst_services (sset_status s))) eqn:Hd.
  - destruct (c_status_update (w_mgmt w) _) as [[c s2] [e|]] eqn:Hu; [done|]. intros [= <- <-].
    apply status_update_read in Hu as (s3 & Hs3 & Hm & Hsp & Hst). exists s3. split_and!; [done..| |done].
    apply deletion_phase_lt3. rewrite Hst. cbn. apply not_true_is_false. rewrite existsb_elem_of.
    intros (x & (y & -> & _)%list_elem_of_fmap & Hx). unfold is_deleting_state in Hx. by rewrite bool_decide_eq_true_2 in Hx.
  - destruct (profile_for_deletion (rgn w) s) as [[m [c [e|]]]|e] eqn:Hp.
    + by destruct (om_deletionTimestamp m); [intros [= <- <-]|].
    + destruct (om_deletionTimestamp m); [by intros [= <- <-]|]. intros [= <- <-].
      destruct (profile_for_deletion_ok w s m c Hp) as [Hk Hd']. exists s. rewrite Hk. split_and!; [done..| |done].
      unfold deletion_phase. rewrite Hd, rgn_set_rgn. destruct (profile_for_deletion c s) as [[m' ?]|]; [|lia].
      destruct Hd' as [t ->]. lia.
    + destruct (IsNotFound e); [|done]. cbn [negb]. destruct (RemoveFinalizer _ _) as [fs removed] eqn:Hr. destruct removed.
      * destruct (c_update_refresh (w_mgmt w) _) as [[c s2] [e'|]] eqn:Hu; [done|]. intros [= <- <-]. split; [done|].
        apply update_read in Hu. cbn in Hu |- *. destruct (c_get c _) as [s'|]; [|done]. by rewrite Hu.
      * intros [= <- <-]. split; [done|]. rewrite Hg. intros Hin. apply remove_finalizer_changed in Hin. by rewrite Hr in Hin.
Qed.
End deletion.
