(* ===== verification/SveltosStatus.v ===== *)
(** * What a ServiceSet says of its services

    The status is put together from the states seeded by the build, the summary
    of Sveltos, the verification and the services still missing. This file
    follows it through a reconcile: no service gets a second state, each gets
    one, and what is called deployed is. *)

From S2P Require Import Prelude GoStrings Api ApiManagement Kube Conditions ServiceBasics SveltosTypes SveltosState AccessManagement AdmissionChecks ServiceUpgrades SveltosProfile HealthRules Verdicts VerifyStates SveltosReconcile SveltosConverge.

#[local] Arguments String.append !_ _ / : simpl nomatch.

(** ** One state each *)

Definition effective_key (k : ObjectKey) : ObjectKey := ServiceKey (key_ns k) (key_name k).

(** No key twice, and each spelled as the service it stands for. *)
Definition tidy_keys (keys : list ObjectKey) (spec : list ServiceWithValues) : Prop :=
  NoDup keys ∧ ∀ k svc, k ∈ keys → svc ∈ spec → effective_key k = sv_key svc → k = sv_raw_key svc.

Definition state_keys (s : ServiceSet) : list ObjectKey := st_raw_key <$> ssst_services (sset_status s).
Definition tidy (s : ServiceSet) : Prop := tidy_keys (state_keys s) (sss_services (sset_spec s)).

Section tidy.
Variable spec : list ServiceWithValues.
Hypothesis spec_nodup : NoDup (sv_key <$> spec).

Lemma effective_raw svc : effective_key (sv_raw_key svc) = sv_key svc.
Proof. done. Qed.

Lemma spec_raw_nodup : NoDup (sv_raw_key <$> spec).
Proof.
  apply (NoDup_fmap_1 effective_key). rewrite <- list_fmap_compose.
  exact spec_nodup.
Qed.

Lemma tidy_keys_app keys new :
  tidy_keys keys spec → NoDup new → (∀ k, k ∈ new → k ∉ keys ∧ ∃ svc, svc ∈ spec ∧ k = sv_raw_key svc) → tidy_keys (keys ++ new) spec.
Proof.
  intros [Hnd Hsp] Hn Hnew. split.
  - apply NoDup_app. split_and!; [done| |done]. intros k Hk Hin. by destruct (Hnew k Hin).
  - intros k svc [Hk|Hk]%elem_of_app Hs He; [by apply Hsp|]. destruct (Hnew k Hk) as (_ & svc' & Hs' & ->).
    by rewrite (NoDup_fmap_eq sv_key spec svc' svc).
Qed.

Lemma tidy_grows a b : grows spec a b → tidy_keys (st_raw_key <$> a) spec → tidy_keys (st_raw_key <$> b) spec.
Proof.
  intros [[l ->] Hg Hf] Ht. pose proof (Hg (proj1 Ht)) as Hnd. rewrite fmap_app in *. apply NoDup_app in Hnd as (_ & Hd & Hn).
  apply tidy_keys_app; [done..|]. intros k Hk. split; [intros Hin; by eapply Hd|].
  apply list_elem_of_fmap in Hk as (s & -> & Hs). destruct (Hf s) as [Ha|(_ & svc & ? & ?)]; [set_solver| |by exists svc].
  exfalso. apply (Hd (st_raw_key s)); by apply list_elem_of_fmap_2.
Qed.

(** The keys after the summary of Sveltos: those of services the spec has. *)
Lemma tidy_summary now summary s :
  sss_services (sset_spec s) = spec → tidy s →
  tidy_keys (st_raw_key <$> servicesStateFromSummary now (Some summary) (Some s)) spec.
Proof.
  intros Hspec [Hnd Hsp]. unfold state_keys in *. rewrite Hspec in Hsp.
  destruct (servicesStateFromSummary_spec now summary s) as (_ & Hk & Hall); [by rewrite Hspec|]. rewrite Hspec in Hk, Hall. split.
  - apply (NoDup_fmap_1 effective_key). rewrite <- list_fmap_compose.
    change (NoDup (st_key <$> servicesStateFromSummary now (Some summary) (Some s))). rewrite Hk.
    set (status := ssst_services (sset_status s)) in *. clearbody status. clear -Hnd Hsp. induction status as [|x l IH]; [apply NoDup_nil_2|].
    cbn [fmap list_fmap]. unfold filterb. rewrite filter_cons. apply NoDup_cons in Hnd as [Hx Hnd].
    specialize (IH Hnd). assert (NoDup (filterb (λ k, bool_decide (k ∈ sv_key <$> spec)) (st_key <$> l))) as IH'.
    { apply IH. intros k svc Hkl. apply Hsp. by right. }
    case_decide as Hin; [|done]. apply NoDup_cons. split; [|done]. intros Hx2. apply filterb_elem_of in Hx2 as [Hx2 _].
    apply bool_decide_eq_true, list_elem_of_fmap in Hin as (svc & Hks & Hsvc). apply list_elem_of_fmap in Hx2 as (y & Hy & Hyl).
    apply Hx. rewrite (Hsp (st_raw_key x) svc) by (done || left). rewrite <- (Hsp (st_raw_key y) svc).
    + by apply list_elem_of_fmap_2.
    + right. by apply list_elem_of_fmap_2.
    + done.
    + change (effective_key (st_raw_key y)) with (st_key y). congruence.
  - intros k svc (st & -> & (old & svc' & Hold & Hsvc' & Hk1 & Hk2 & [(Hn & Hns & _) _ _ _ _])%Hall)%list_elem_of_fmap Hsvc He.
    assert (svc' = svc) as <-.
    { apply (NoDup_fmap_eq sv_key spec); [done..|]. change (effective_key (st_raw_key st)) with (st_key st) in He. congruence. }
    unfold st_raw_key, sv_raw_key. congruence.
Qed.

Lemma tidy_fill now s :
  sss_services (sset_spec s) = spec → tidy s →
  tidy_keys (state_keys (fillNotDeployedServices now s)) spec ∧
  ∀ svc, svc ∈ spec → sv_raw_key svc ∈ state_keys (fillNotDeployedServices now s).
Proof.
  intros Hspec Ht. unfold tidy, fillNotDeployedServices, state_keys in *. cbn. rewrite Hspec in *.
  rewrite fmap_app, <- list_fmap_compose. set (missing := filterb _ spec).
  change (st_raw_key ∘ _) with sv_raw_key.
  assert (∀ svc, svc ∈ missing ↔ svc ∈ spec ∧ sv_raw_key svc ∉ st_raw_key <$> ssst_services (sset_status s)) as Hm.
  { intros svc. unfold missing. rewrite filterb_elem_of, negb_true_iff, bool_decide_eq_false.
    by rewrite elem_of_list_to_set. }
  split.
  - apply tidy_keys_app; [done| |].
    + eapply sublist_NoDup; [apply spec_raw_nodup|]. apply sublist_fmap, filterb_sublist.
    + intros k (svc & -> & [Hs Hn]%Hm)%list_elem_of_fmap. split; [done|]. by exists svc.
  - intros svc Hs. apply elem_of_app. destruct (decide (sv_raw_key svc ∈ st_raw_key <$> ssst_services (sset_status s))); [by left|right].
    apply list_elem_of_fmap_2. by apply Hm.
Qed.
End tidy.

(** ** The Deployed flag *)

(** The flag is raised only over states that are all Deployed. *)
Definition flag_sound (s : ServiceSet) : Prop :=
  ssst_deployed (sset_status s) = true → ∀ st, st ∈ ssst_services (sset_status s) → st_state st = ServiceStateDeployed.

Lemma forallb_deployed l : forallb is_deployed l = true ↔ ∀ st, st ∈ l → st_state st = ServiceStateDeployed.
Proof.
  rewrite List.forallb_forall. split; intros Hall st Hst.
  - by apply list_elem_of_In, Hall, bool_decide_eq_true in Hst.
  - apply bool_decide_eq_true, Hall. by apply list_elem_of_In.
Qed.

Lemma consistent_flag_sound s : consistent s → flag_sound s.
Proof. intros Hc Hd. apply forallb_deployed. by rewrite <- Hc. Qed.

Lemma verification_frame_flag s s' : verification_frame s s' → flag_sound s → flag_sound s'.
Proof.
  intros [_ _ _ [Hc|[Hd Hs]]] Hf; [by apply consistent_flag_sound|]. intros Ht. rewrite Hd in Ht. specialize (Hf Ht).
  apply forallb_deployed in Hf. apply forallb_deployed. by rewrite forallb_is_deployed, Hs, <- forallb_is_deployed.
Qed.

(** ** Collecting *)

Section collect.
Context {C : Type} `{!StatusConditions} `{!Getter C Profile} `{!Getter C ClusterProfile} `{!Getter C ClusterSummary}.
Variable GetClusterSummaryName : string → string → string → bool → string.
Variable now : Z.
Notation collectServiceStatuses := (collectServiceStatuses GetClusterSummaryName now).

(** The states are those before or those of a summary; after a success the
    condition says so, and the flag is sound. *)
Record collected_as (s s' : ServiceSet) (err : option gerror) : Prop := {
  ca_meta : sset_meta s' = sset_meta s;
  ca_spec : sset_spec s' = sset_spec s;
  ca_services : ssst_services (sset_status s') = ssst_services (sset_status s) ∨
    ∃ summary, ssst_services (sset_status s') = servicesStateFromSummary now (Some summary) (Some s);
  ca_flag : err = None → flag_sound s';
  ca_condition : ∃ c, find_condition ServiceSetStatusesCollectedCondition (ssst_conditions (sset_status s')) = Some c ∧
    (cond_status c = CondTrue ↔ err = None) }.

Lemma ca_same s s1 s' err :
  sset_meta s1 = sset_meta s → sset_spec s1 = sset_spec s →
  (ssst_services (sset_status s1) = ssst_services (sset_status s) ∨
   ∃ summary, ssst_services (sset_status s1) = servicesStateFromSummary now (Some summary) (Some s)) →
  (err = None → flag_sound s1) → same_but_conditions s1 s' →
  (∃ c, find_condition ServiceSetStatusesCollectedCondition (ssst_conditions (sset_status s')) = Some c ∧
    (cond_status c = CondTrue ↔ err = None)) →
  collected_as s s' err.
Proof.
  intros Hm Hsp Hs Hf (Hm1 & Hsp1 & Hs1 & Hd1)%same_but_conditions_services Hc.
  split; rewrite ?Hm1, ?Hsp1, ?Hs1; try done. unfold flag_sound in *. by rewrite Hd1, Hs1.
Qed.

Lemma updateCondition_other s t status reason message time k :
  k ≠ t → find_condition k (ssst_conditions (sset_status (updateCondition s (findCondition s t) status reason message time).1)) =
          find_condition k (ssst_conditions (sset_status s)).
Proof.
  intros Hk. unfold updateCondition. destruct (SetStatusCondition _ _) as [cs ch] eqn:E. cbn.
  change cs with (cs, ch).1. rewrite <- E. apply find_condition_other. cbn. by rewrite findCondition_type.
Qed.

(** A step that leaves the condition on the collection as it is. *)
Lemma updateServicesInReadyStateCondition_collected s :
  findCondition (updateServicesInReadyStateCondition now s) ServiceSetStatusesCollectedCondition =
  findCondition s ServiceSetStatusesCollectedCondition.
Proof.
  unfold findCondition. destruct (same_but_conditions_services _ _ (updateServicesInReadyStateCondition_same now s)) as (-> & _).
  unfold updateServicesInReadyStateCondition. case_bool_decide; [|done]. by rewrite updateCondition_other.
Qed.

Lemma same_but_conditions_trans a b c : same_but_conditions a b → same_but_conditions b c → same_but_conditions a c.
Proof. unfold same_but_conditions. destruct a as [? ? []], b as [? ? []], c as [? ? []]. cbn. by intros [= -> -> -> -> -> -> ->] [= -> -> -> -> -> -> ->]. Qed.

(** The sentinel of the adapter never comes from the server. *)
Definition summary_errors_plain (rgnClient : C) : Prop :=
  ∀ k e, c_get (T:=ClusterSummary) rgnClient k = Err e → errors_Is "no matching clusters for ServiceSet" e = false.

Lemma collectServiceStatuses_spec rgnClient s :
  summary_errors_plain rgnClient →
  let '(s', err) := collectServiceStatuses rgnClient s in collected_as s s' err.
Proof.
  intros Hplain. assert (∀ s1 status reason message err,
    findCondition s ServiceSetStatusesCollectedCondition = findCondition s1 ServiceSetStatusesCollectedCondition →
    (status = CondTrue ↔ err = None) →
    let s2 := (updateCondition s1 (findCondition s ServiceSetStatusesCollectedCondition) status reason message now).1 in
    same_but_conditions s1 s2 ∧ ∃ c, find_condition ServiceSetStatusesCollectedCondition (ssst_conditions (sset_status s2)) = Some c ∧
      (cond_status c = CondTrue ↔ err = (None : option gerror))) as Hleave.
  { intros s1 status reason message err Hf Hst. cbn zeta. rewrite Hf. split; [apply updateCondition_same|].
    destruct (updateCondition_found s1 ServiceSetStatusesCollectedCondition status reason message now) as (c & Hc & Hs & _).
    exists c. by rewrite Hs. }
  unfold SveltosReconcile.collectServiceStatuses. cbn zeta.
  destruct (VerifyStates.get_profile rgnClient s) as [profile|e].
  2:{ destruct (Hleave s CondFalse ServiceSetStatusesNotCollectedReason "Statuses not collected"
        (Some (ErrWrap (if self_managed s then "failed to get ClusterProfile: " else "failed to get Profile: ") e)) eq_refl ltac:(done)) as [Hsame Hc].
      eapply ca_same; [done|done|by left|done|exact Hsame|exact Hc]. }
  unfold collectServiceStatusesFromProfileOrClusterProfile, getClusterSummaryForServiceSet.
  destruct profile as [[kind meta] matching]. destruct matching as [|obj matching].
  - cbn. set (s1 := updateServicesInReadyStateCondition now (set_sset_deployed false s)).
    destruct (Hleave s1 CondTrue ServiceSetStatusesCollectedReason "Statuses collected" None) as [Hsame Hc];
      [symmetry; apply (updateServicesInReadyStateCondition_collected (set_sset_deployed false s))|done|].
    eapply (ca_same _ (set_sset_deployed false s)); [done|done|by left|by intros _ ?| |exact Hc].
    eapply same_but_conditions_trans; [apply updateServicesInReadyStateCondition_same|exact Hsame].
  - cbv beta iota zeta. destruct (c_get rgnClient _) as [summary|e] eqn:Hg; cbn [wrap_err].
    + set (s1 := set_sset_deployed _ _).
      destruct (Hleave (updateServicesInReadyStateCondition now s1) CondTrue ServiceSetStatusesCollectedReason "Statuses collected" None) as [Hsame Hc];
        [symmetry; apply (updateServicesInReadyStateCondition_collected s1)|done|].
      eapply (ca_same _ s1); [done|done|right; by exists summary| | |exact Hc].
      * intros _. apply consistent_flag_sound. unfold consistent, s1. cbn. apply existsb_not_deployed.
      * eapply same_but_conditions_trans; [apply updateServicesInReadyStateCondition_same|exact Hsame].
    + cbn [errors_Is]. rewrite (Hplain _ _ Hg).
      edestruct (λ e, Hleave s CondFalse ServiceSetStatusesNotCollectedReason "Statuses not collected" (Some e) eq_refl ltac:(done)) as [Hsame Hc].
      eapply ca_same; [done|done|by left|done|exact Hsame|exact Hc].
Qed.
End collect.

(** ** What a build has seeded *)

Lemma and_then_Ok {A B} (r : ServiceSet * outcome A) (k : ServiceSet → A → ServiceSet * outcome B) s' b :
  and_then r k = (s', Ret (Ok b)) → ∃ s1 a, r = (s1, Ret (Ok a)) ∧ k s1 a = (s', Ret (Ok b)).
Proof. destruct r as [s1 [[a|e]|]]; cbn; [by eauto|done..]. Qed.

Lemma build_step_Ok {A} mark (r : list ServiceState * outcome (list A)) s s' items :
  build_step mark r s = (s', Ret (Ok items)) → r.2 = Ret (Ok items) ∧ s' = set_sset_services r.1 s.
Proof. unfold build_step. intros [= <-]. by destruct r.2 as [[l|e]|]; simplify_eq. Qed.

Section seeds.
Context {C : Type} `{Semver} `{!Getter C ClusterDeployment} `{!Getter C Credential} `{!Getter C ServiceTemplate}
  `{!Getter C FluxHelmChart} `{!Getter C HelmRepository} `{!Getter C GitRepository} `{!Getter C SveltosCluster} `{!Getter C CapiCluster}.
Variables (json_profileConfig : string → result profileConfig) (EqualFold : string → string → bool) (now : Z).

(** The template of a service, which has one of the three kinds. *)
Definition deployable (c : C) (ns : string) (svc : ServiceWithValues) : Prop :=
  ∃ t, serviceTemplateObjectFromService c svc ns = Ok t ∧
    (is_Some (sts_helm (stpl_spec t)) ∨ is_Some (sts_kustomize (stpl_spec t)) ∨ is_Some (sts_resources (stpl_spec t))).

Lemma refs_seeds {A} type version (build : ServiceWithValues → ServiceTemplate → option (outcome A)) mark c s s' items svc t :
  build_step mark (refs c now type version build s) s = (s', Ret (Ok items)) →
  seeded s s' ∧ (svc ∈ sss_services (sset_spec s) → is_Some (build svc t) →
  serviceTemplateObjectFromService c svc (om_namespace (sset_meta s)) = Ok t → sv_raw_key svc ∈ state_keys s').
Proof.
  intros Hb. pose proof (build_step_seeded now mark type version build (mkWorld c None) s) as Hs. change (w_mgmt (mkWorld c None)) with c in Hs.
  rewrite Hb in Hs. split; [exact Hs|].
  apply build_step_Ok in Hb as [Hr ->]. intros Hin Hk Ht. unfold refs in *.
  destruct (proj1 (refs_loop_Ok _ _ _ _ _ _ _ _ _ _ _) Hr) as (_ & tmpls & new & _ & Hc).
  assert ((svc, t) ∈ zip (sss_services (sset_spec s)) tmpls) as Hz.
  { pose proof (co_templates _ _ _ _ _ _ Hc) as Hm. apply mapM_result_Ok in Hm. clear -Hm Hin Ht.
    induction Hm as [|x y l k Hf Hm IH]; [by apply elem_of_nil in Hin|]. cbn.
    apply elem_of_cons in Hin as [<-|Hin]; [|right; auto]. assert (t = y) as -> by congruence. left. }
  by eapply refs_loop_seeds; [exact Hr|apply (co_templates _ _ _ _ _ _ Hc)|exact Hz|].
Qed.

Lemma seeded_state_keys s s' k : seeded s s' → k ∈ state_keys s → k ∈ state_keys s'.
Proof. intros (states & -> & Hg). by apply (grows_keys _ _ _ _ Hg). Qed.

(** After a build that succeeds each service that can be deployed has a state. *)
Lemma profileSpec_seeds w s s' spec svc :
  profileSpec json_profileConfig EqualFold now w s = (s', Ret (Ok spec)) →
  svc ∈ sss_services (sset_spec s) → deployable (w_mgmt w) (om_namespace (sset_meta s)) svc → sv_raw_key svc ∈ state_keys s'.
Proof.
  intros Hp Hin (t & Ht & Hkind). unfold profileSpec in Hp.
  apply and_then_Ok in Hp as (s0 & [[cref trrs] prs] & [= <- _] & Hp).
  apply and_then_Ok in Hp as (s0 & config & [= <- _] & Hp).
  apply and_then_Ok in Hp as (s1 & charts & H1 & Hp). apply and_then_Ok in Hp as (s2 & kustomizations & H2 & Hp).
  apply and_then_Ok in Hp as (s3 & policies & H3 & [= <- _]).
  apply (refs_seeds _ _ _ _ _ _ _ _ svc t) in H1 as [Hs1 Hk1]. apply (refs_seeds _ _ _ _ _ _ _ _ svc t) in H2 as [Hs2 Hk2].
  apply (refs_seeds _ _ _ _ _ _ _ _ svc t) in H3 as [Hs3 Hk3].
  assert (sset_meta s1 = sset_meta s ∧ sset_spec s1 = sset_spec s) as [Hm1 Hsp1] by by destruct Hs1 as (? & -> & _).
  assert (sset_meta s2 = sset_meta s1 ∧ sset_spec s2 = sset_spec s1) as [Hm2 Hsp2] by by destruct Hs2 as (? & -> & _).
  rewrite Hm2, Hsp2, Hm1, Hsp1 in Hk3. rewrite Hm1, Hsp1 in Hk2.
  destruct Hkind as [Hk|[Hk|Hk]].
  - eapply seeded_state_keys; [exact Hs3|]. eapply seeded_state_keys; [exact Hs2|]. apply Hk1; [done| |done].
    destruct Hk as [helm Hk]. unfold build_chart. rewrite Hk. by eexists.
  - eapply seeded_state_keys; [exact Hs3|]. apply Hk2; [done| |done]. destruct Hk as [k Hk]. unfold build_kustomization. rewrite Hk. by eexists.
  - apply Hk3; [done| |done]. destruct Hk as [k Hk]. unfold build_policy. rewrite Hk. by eexists.
Qed.
End seeds.

Lemma summary_keeps now summary s svc :
  NoDup (sv_key <$> sss_services (sset_spec s)) → tidy s → svc ∈ sss_services (sset_spec s) → sv_raw_key svc ∈ state_keys s →
  sv_raw_key svc ∈ st_raw_key <$> servicesStateFromSummary now (Some summary) (Some s).
Proof.
  intros Hnd Ht Hsvc Hk. pose proof (tidy_summary _ Hnd now summary s eq_refl Ht) as [_ Hsp].
  destruct (servicesStateFromSummary_spec now summary s Hnd) as (_ & Hp & _).
  assert (sv_key svc ∈ st_key <$> servicesStateFromSummary now (Some summary) (Some s)) as Hin.
  { rewrite Hp. apply filterb_elem_of. apply list_elem_of_fmap in Hk as (st & Hk & Hst). split.
    - apply list_elem_of_fmap. exists st. split; [|done]. change (effective_key (sv_raw_key svc) = effective_key (st_raw_key st)). by rewrite Hk.
    - apply bool_decide_eq_true. by apply list_elem_of_fmap_2. }
  apply list_elem_of_fmap in Hin as (st & Hst & Hin). rewrite <- (Hsp (st_raw_key st) svc); [by apply list_elem_of_fmap_2| |done|done].
  by apply list_elem_of_fmap_2.
Qed.

Lemma fill_nothing now s :
  (∀ svc, svc ∈ sss_services (sset_spec s) → sv_raw_key svc ∈ state_keys s) → fillNotDeployedServices now s = s.
Proof.
  intros Hall. unfold fillNotDeployedServices. cbn zeta.
  assert (∀ p : ServiceWithValues → bool, (∀ svc, svc ∈ sss_services (sset_spec s) → p svc = false) →
    filterb p (sss_services (sset_spec s)) = []) as Hn.
  { intros p Hp. apply elem_of_nil_inv. intros svc [Hs Hf]%filterb_elem_of. by rewrite (Hp svc Hs) in Hf. }
  rewrite Hn.
  - cbn. rewrite app_nil_r. apply set_sset_services_same.
  - intros svc Hsvc. rewrite bool_decide_eq_true_2; [done|]. rewrite elem_of_list_to_set. by apply Hall.
Qed.

(** ** A reconcile *)

Section reconcile.
Context {Obj C Scheme : Type} `{CEL Obj} (obj_meta : Obj → ObjectMeta) `{!StatusConditions} `{Semver}.
Context `{!MapRange GroupKind} `{!MapRange string} `{!ChildClient C Obj} `{!Lister C ConfigMap} `{!Lister C ClusterConfiguration}.
Context `{!Getter C ClusterDeployment} `{!Getter C Credential} `{!Getter C ServiceTemplate} `{!Getter C FluxHelmChart}
  `{!Getter C HelmRepository} `{!Getter C GitRepository} `{!Getter C SveltosCluster} `{!Getter C CapiCluster}.
Context `{!Getter C Profile} `{!Getter C ClusterProfile} `{!Getter C ClusterSummary} `{!Getter C Secret}
  `{!Writer C Profile} `{!Writer C ClusterProfile}.
Variable meta_IsNoMatchError : gerror → bool.
Variable yaml_Unmarshal : string → result (list ruleDoc).
Variable json_profileConfig : string → result profileConfig.
Variable GetClusterSummaryName : string → string → string → bool → string.
Variable sha256 : string → string.
Variable GetClusterConfigurationSectionIndex : ClusterConfiguration → string → string → result nat.
Variable clientFactory : string → Scheme → result C.
Variable client_scheme : C → Scheme.
Variable EqualFold : string → string → bool.
Variable ProfilePausedAnnotation : string.
Variables (now sweep : Z) (cm_now : ObjectKey → Z).
Variable systemNamespace : string.
Hypothesis plain : ∀ c : C, summary_errors_plain c.
Notation reconcile_services := (reconcile_services obj_meta meta_IsNoMatchError yaml_Unmarshal json_profileConfig GetClusterSummaryName
  sha256 GetClusterConfigurationSectionIndex clientFactory client_scheme EqualFold ProfilePausedAnnotation now sweep cm_now systemNamespace).
Notation verifyServiceStates := (verifyServiceStates obj_meta meta_IsNoMatchError yaml_Unmarshal GetClusterSummaryName
  sha256 GetClusterConfigurationSectionIndex clientFactory client_scheme now sweep cm_now).
Notation ensureProfile := (ensureProfile json_profileConfig EqualFold ProfilePausedAnnotation now).
Notation collectServiceStatuses := (collectServiceStatuses GetClusterSummaryName now).

(** What every part of a reconcile keeps. *)
Record kept (s s' : ServiceSet) : Prop := {
  k_meta : sset_meta s' = sset_meta s;
  k_spec : sset_spec s' = sset_spec s;
  k_tidy : NoDup (sv_key <$> sss_services (sset_spec s)) → tidy s → tidy s' }.

Lemma kept_refl s : kept s s.
Proof. by split. Qed.
Lemma kept_trans a b c : kept a b → kept b c → kept a c.
Proof. intros [M1 S1 T1] [M2 S2 T2]. split; [congruence..|]. intros Hnd Ht. apply T2; [by rewrite S1|auto]. Qed.

Lemma ensured_frame_kept s s' : ensured_frame s s' → kept s s'.
Proof.
  intros (Hm & Hsp & _ & Hg). split; [done..|]. intros Hnd Ht. unfold tidy, state_keys in *. rewrite Hsp. by eapply tidy_grows.
Qed.

Lemma collected_kept s s' err : collected_as now s s' err → kept s s'.
Proof.
  intros [Hm Hsp Hs _ _]. split; [done..|]. intros Hnd Ht. unfold tidy, state_keys. rewrite Hsp.
  destruct Hs as [->|[summary ->]]; [done|by apply tidy_summary].
Qed.

Lemma verification_kept s s' : verification_frame s s' → kept s s'.
Proof. intros [Hm Hsp Hk _]. split; [done..|]. intros _ Ht. unfold tidy, state_keys in *. by rewrite Hk, Hsp. Qed.

Lemma reconcile_services_kept w ca smp s :
  let '(_, _, s', _) := reconcile_services w ca smp s in kept s s'.
Proof.
  unfold SveltosReconcile.reconcile_services. cbn zeta. set (s0 := set_sset_provider _ _ _ s).
  assert (kept s s0) as K0 by by split. destruct (smp_ready smp); [|done]. destruct (smp_suspend smp); [done|]. cbn [negb].
  pose proof (ensureProfile_cases json_profileConfig EqualFold ProfilePausedAnnotation now w s0) as He.
  destruct (ensureProfile w s0) as [[w1 s1] r1]. destruct He as (_ & _ & K1%ensured_frame_kept & _).
  assert (kept s s1) as K01 by by eapply kept_trans. destruct r1 as [[u|e]|]; [|done..].
  pose proof (collectServiceStatuses_spec GetClusterSummaryName now (rgn w1) s1 (plain _)) as Hc.
  destruct (collectServiceStatuses (rgn w1) s1) as [s2 err]. apply collected_kept in Hc.
  assert (kept s s2) as K02 by by eapply kept_trans. destruct err; [done|].
  eapply kept_trans; [exact K02|]. apply verification_kept, verifyServiceStates_frame.
Qed.

(** C32: a reconcile keeps one state for each service. If the status lists no
    service twice, and none under another spelling of its namespace than the
    spec has, that stays so through the build, the summary of Sveltos, the
    verification and the services added at the end; unless the reconcile
    fails, each service of the spec then has a state. Metadata and spec are
    never touched. *)
Theorem reconcile_one_state_each w ca smp s :
  NoDup (sv_key <$> sss_services (sset_spec s)) → tidy s →
  let '(_, _, s', r) := reconcile_services w ca smp s in
  let written := match r with Failed _ => s' | _ => fillNotDeployedServices now s' end in
  sset_meta written = sset_meta s ∧ sset_spec written = sset_spec s ∧ tidy written ∧
  match r with
  | Failed _ => True
  | _ => ∀ svc, svc ∈ sss_services (sset_spec s) → sv_raw_key svc ∈ state_keys written
  end.
Proof.
  intros Hnd Ht. pose proof (reconcile_services_kept w ca smp s) as Hk. destruct (reconcile_services w ca smp s) as [[[w' ca'] s'] r].
  destruct Hk as [Hm Hsp Hk]. specialize (Hk Hnd Ht).
  destruct (tidy_fill (sss_services (sset_spec s)) Hnd now s') as [Hf1 Hf2]; [by rewrite Hsp|done|].
  assert (tidy (fillNotDeployedServices now s')) as Hf.
  { unfold tidy. change (sset_spec (fillNotDeployedServices now s')) with (sset_spec s'). by rewrite Hsp. }
  by destruct r.
Qed.

Context `{!ProfileServer C}.

(** The reconcile of a provider that is ready and not suspended, taken apart. *)
Lemma reconcile_services_Done w ca smp s w' ca' s' p :
  smp_ready smp = true → smp_suspend smp = false → reconcile_services w ca smp s = (w', ca', s', Done p) →
  ∃ s0 s1 s2, s0 = set_sset_provider (Some (SveltosReconcile.clusterReference s)) true false s ∧
    ensureProfile w s0 = (w', s1, Ret (Ok tt)) ∧ collectServiceStatuses (rgn w') s1 = (s2, None) ∧
    let o := verifyServiceStates (w_mgmt w') systemNamespace ca (Some (rgn w')) s2 in
    ca' = vo_caches o ∧ s' = vo_serviceSet o ∧ p = vo_pendingStamp o.
Proof.
  intros Hr Hs. unfold SveltosReconcile.reconcile_services. cbn zeta. rewrite Hr, Hs. cbn [negb].
  set (s0 := set_sset_provider _ _ _ s). destruct (ensureProfile w s0) as [[w1 s1] [[[]|e]|]] eqn:He; [|done..].
  destruct (collectServiceStatuses (rgn w1) s1) as [s2 [e|]] eqn:Hc; [done|]. intros [= <- <- <- <-].
  by exists s0, s1, s2.
Qed.

End reconcile.
