(* ===== verification/SveltosDemo.v ===== *)
(** * The Sveltos adapter at work

    A small server that keeps the laws the theorems on the adapter ask for, on
    which their instances are computed, and runs that show what the adapter does
    in the cases noted in the header. *)

From S2P Require Import Prelude GoStrings Api ApiManagement Kube Conditions ServiceBasics SveltosTypes SveltosState AccessManagement AdmissionChecks ServiceUpgrades SveltosProfile HealthRules Verdicts VerifyStates SveltosReconcile SveltosConverge SveltosStatus.

#[local] Arguments String.append !_ _ / : simpl nomatch.
#[local] Existing Instance simple_cel.
#[local] Existing Instance simple_conditions.
#[local] Existing Instance simple_finalizers.
#[local] Existing Instance simple_selectors.
#[local] Existing Instance dotted_semver.

(** ** The server *)

(** A cluster; its objects proper are [hub_objects]. *)
Record Hub := mkHub {
  hub_site : Site; hub_cds : list ClusterDeployment; hub_creds : list Credential; hub_templates : list ServiceTemplate;
  hub_charts : list FluxHelmChart; hub_repos : list HelmRepository; hub_clusters : list ObjectKey;
  hub_smps : list StateManagementProvider;
  hub_profiles : list Profile; hub_clusterProfiles : list ClusterProfile; hub_sets : list ServiceSet }.

Section put.
Context {T : Type} (key : T → ObjectKey).
Definition drop (k : ObjectKey) (l : list T) : list T := filterb (λ x, negb (bool_decide (key x = k))) l.
Definition put (x : T) (l : list T) : list T := x :: drop (key x) l.

Lemma by_key_put kind x l : by_key kind key (put x l) (key x) = Ok x.
Proof. unfold by_key, put, filterb. rewrite filter_cons, decide_True; [done|]. by apply bool_decide_eq_true. Qed.
Lemma by_key_Ok kind l k x : by_key kind key l k = Ok x → key x = k.
Proof.
  unfold by_key. destruct (filterb _ l) as [|y l'] eqn:E; [done|]. intros [= <-].
  assert (y ∈ filterb (λ x, bool_decide (key x = k)) l) as Hy by (rewrite E; left).
  apply filterb_elem_of in Hy as [_ Hy]. by apply bool_decide_eq_true in Hy.
Qed.
Lemma by_key_drop kind k l : by_key kind key (drop k l) k = Err (not_found_err kind k).
Proof.
  unfold by_key. destruct (filterb _ (drop k l)) as [|y l'] eqn:E; [done|].
  assert (y ∈ filterb (λ x, bool_decide (key x = k)) (drop k l)) as Hy by (rewrite E; left).
  apply filterb_elem_of in Hy as [[_ Hn]%filterb_elem_of Hy]. by rewrite Hy in Hn.
Qed.
End put.

Definition with_profiles (l : list Profile) (h : Hub) : Hub :=
  mkHub (hub_site h) (hub_cds h) (hub_creds h) (hub_templates h) (hub_charts h) (hub_repos h) (hub_clusters h) (hub_smps h) l
    (hub_clusterProfiles h) (hub_sets h).
Definition with_clusterProfiles (l : list ClusterProfile) (h : Hub) : Hub :=
  mkHub (hub_site h) (hub_cds h) (hub_creds h) (hub_templates h) (hub_charts h) (hub_repos h) (hub_clusters h) (hub_smps h)
    (hub_profiles h) l (hub_sets h).
Definition with_sets (l : list ServiceSet) (h : Hub) : Hub :=
  mkHub (hub_site h) (hub_cds h) (hub_creds h) (hub_templates h) (hub_charts h) (hub_repos h) (hub_clusters h) (hub_smps h)
    (hub_profiles h) (hub_clusterProfiles h) l.
Definition on_site (f : Site → Site) (h : Hub) : Hub :=
  mkHub (f (hub_site h)) (hub_cds h) (hub_creds h) (hub_templates h) (hub_charts h) (hub_repos h) (hub_clusters h) (hub_smps h)
    (hub_profiles h) (hub_clusterProfiles h) (hub_sets h).

Definition prf_key (p : Profile) : ObjectKey := meta_key (prf_meta p).
Definition cprf_key (p : ClusterProfile) : ObjectKey := mkKey "" (om_name (cprf_meta p)).
Definition sset_key (s : ServiceSet) : ObjectKey := meta_key (sset_meta s).

#[local] Instance hub_cms : Lister Hub ConfigMap :=
  λ h ns p, Ok (filterb (λ cm, in_namespace ns (cm_meta cm) && p cm) (site_configMaps (hub_site h))).
#[local] Instance hub_ccs : Lister Hub ClusterConfiguration :=
  λ h ns p, Ok (filterb (λ cc, in_namespace ns (ccf_meta cc) && p cc) (site_configurations (hub_site h))).
#[local] Instance hub_cs : Getter Hub ClusterSummary :=
  λ h k, snd <$> by_key "ClusterSummary" fst (site_summaries (hub_site h)) k.
#[local] Instance hub_sec : Getter Hub Secret :=
  λ h, by_key "Secret" (λ s, meta_key (sec_meta s)) (site_secrets (hub_site h)).
#[local] Instance hub_cd : Getter Hub ClusterDeployment := λ h, by_key "ClusterDeployment" (λ x, meta_key (cd_meta x)) (hub_cds h).
#[local] Instance hub_cred : Getter Hub Credential := λ h, by_key "Credential" (λ x, meta_key (cred_meta x)) (hub_creds h).
#[local] Instance hub_rgn : Getter Hub Region := λ h k, Err (not_found_err "Region" k).
#[local] Instance hub_tmpl : Getter Hub ServiceTemplate := λ h, by_key "ServiceTemplate" (λ x, meta_key (stpl_meta x)) (hub_templates h).
#[local] Instance hub_chart : Getter Hub FluxHelmChart := λ h, by_key "HelmChart" (λ x, meta_key (fhc_meta x)) (hub_charts h).
#[local] Instance hub_repo : Getter Hub HelmRepository := λ h, by_key "HelmRepository" (λ x, meta_key (hr_meta x)) (hub_repos h).
#[local] Instance hub_git : Getter Hub GitRepository := λ h k, Err (not_found_err "GitRepository" k).
#[local] Instance hub_capi : Getter Hub CapiCluster :=
  λ h k, if bool_decide (k ∈ hub_clusters h) then Ok (mkCapiCluster (named_meta (key_ns k) (key_name k)) None None [])
         else Err (not_found_err "Cluster" k).
#[local] Instance hub_sc : Getter Hub SveltosCluster := λ h k, Err (not_found_err "SveltosCluster" k).
#[local] Instance hub_smp : Getter Hub StateManagementProvider := λ h, by_key "StateManagementProvider" (λ x, meta_key (smp_meta x)) (hub_smps h).
#[local] Instance hub_prf : Getter Hub Profile := λ h, by_key "Profile" prf_key (hub_profiles h).
#[local] Instance hub_cprf : Getter Hub ClusterProfile := λ h k, by_key "ClusterProfile" cprf_key (hub_clusterProfiles h) (mkKey "" (key_name k)).
#[local] Instance hub_sset : Getter Hub ServiceSet := λ h, by_key "ServiceSet" sset_key (hub_sets h).
#[local] Instance hub_child : ChildClient Hub ObjectMeta :=
  {| cc_RESTMappings h := @cc_RESTMappings _ _ small_child (site_objects (hub_site h));
     cc_List h := @cc_List _ _ small_child (site_objects (hub_site h)) |}.

(** The defaults of the server are filled in on the way, and Sveltos matches the
    cluster at once. *)
Definition server_default (d given : string) : string := match given with "" => d | _ => given end.
Definition server_spec (spec : ProfileSpec) : ProfileSpec :=
  mkProfileSpec (prs_clusterSelector spec) (prs_clusterRefs spec) (match prs_tier spec with 0%Z => 100%Z | t => t end)
    (server_default "WithdrawPolicies" (prs_stopMatchingBehavior spec)) (server_default "Continuous" (prs_syncMode spec))
    (prs_continueOnConflict spec) (prs_continueOnError spec) (prs_reloader spec) (prs_templateResourceRefs spec)
    ((λ p, mkPolicyRef (plr_namespace p) (plr_name p) (plr_kind p) (plr_path p)
             (server_default "Remote" (plr_deploymentType p)) (plr_rest p)) <$> prs_policyRefs spec)
    ((λ h, set_chart_action (server_default "Install" (shc_action h)) h) <$> prs_helmCharts spec)
    ((λ k, mkKustomizationRef (kr_namespace k) (kr_name k) (kr_kind k) (kr_path k) (kr_targetNamespace k)
             (server_default "Remote" (kr_deploymentType k)) (kr_valuesFrom k)) <$> prs_kustomizationRefs spec)
    (prs_patches spec) (prs_patchesFrom spec) (prs_driftExclusions spec) (prs_maxConsecutiveFailures spec) (prs_rest spec).

Lemma server_default_honours d given : honours "" given (server_default d given).
Proof. intros Hg. by destruct given. Qed.
Lemma Forall2_map {A B} (R : A → B → Prop) (f : A → B) l : (∀ x, R x (f x)) → Forall2 R l (f <$> l).
Proof. intros Hf. induction l; constructor; auto. Qed.

Lemma server_spec_accepted spec : accepted spec (server_spec spec).
Proof.
  split; [unfold honours; cbn; by destruct (prs_tier spec)|]. do 2 (split; [apply server_default_honours|]).
  do 3 eexists. split; [done|].
  split_and!; apply Forall2_map; intros x; eexists; (split; [apply server_default_honours|done]).
Qed.

Definition stored_profile (p : Profile) : Profile :=
  mkProfile (prf_meta p) (server_spec (prf_spec p)) (prs_clusterRefs (prf_spec p)).
Definition stored_clusterProfile (p : ClusterProfile) : ClusterProfile :=
  mkClusterProfile (cprf_meta p) (server_spec (cprf_spec p)) (prs_clusterRefs (cprf_spec p)).
#[local] Instance hub_prf_writer : Writer Hub Profile :=
  let write h p := (with_profiles (put prf_key (stored_profile p) (hub_profiles h)) h, None) in
  {| c_create := write; c_update := write |}.
#[local] Instance hub_cprf_writer : Writer Hub ClusterProfile :=
  let write h p := (with_clusterProfiles (put cprf_key (stored_clusterProfile p) (hub_clusterProfiles h)) h, None) in
  {| c_create := write; c_update := write |}.

(** A profile has a finalizer of Sveltos, so it is only marked. *)
Definition mark_deleted (m : ObjectMeta) : ObjectMeta :=
  mkMeta (om_name m) (om_namespace m) (om_uid m) (om_generation m) (om_labels m) (om_annotations m) (om_ownerReferences m)
    (om_finalizers m) (Some 1%Z).
#[local] Instance hub_prf_deleter : Deleter Hub Profile :=
  λ h p, (with_profiles (put prf_key (mkProfile (mark_deleted (prf_meta p)) (prf_spec p) (prf_matchingClusterRefs p)) (hub_profiles h)) h, None).
#[local] Instance hub_cprf_deleter : Deleter Hub ClusterProfile :=
  λ h p, (with_clusterProfiles (put cprf_key (mkClusterProfile (mark_deleted (cprf_meta p)) (cprf_spec p) (cprf_matchingClusterRefs p))
            (hub_clusterProfiles h)) h, None).

(** The last finalizer gone, a ServiceSet that is deleted goes. *)
#[local] Instance hub_sset_refresher : Refresher Hub ServiceSet :=
  {| c_update_refresh h s :=
       if bool_decide (om_finalizers (sset_meta s) = []) && bool_decide (is_Some (om_deletionTimestamp (sset_meta s)))
       then (with_sets (drop sset_key (sset_key s) (hub_sets h)) h, s, None)
       else (with_sets (put sset_key s (hub_sets h)) h, s, None);
     c_patch_label h s _ _ := (h, s, None);
     c_status_update h s := (with_sets (put sset_key s (hub_sets h)) h, s, None) |}.

#[local] Instance hub_profile_server : ProfileServer Hub.
Proof.
  split.
  - intros h p c' [= <-]. exists (stored_profile p). split; [|split; [apply server_spec_accepted|done]]. apply (by_key_put prf_key "Profile" (stored_profile p)).
  - intros h p c' [= <-]. exists (stored_profile p). split; [|split; [apply server_spec_accepted|done]]. apply (by_key_put prf_key "Profile" (stored_profile p)).
  - intros h k p. apply (by_key_Ok prf_key).
  - intros h p c' ns [= <-]. exists (stored_clusterProfile p). split; [|split; [apply server_spec_accepted|done]]. apply (by_key_put cprf_key "ClusterProfile" (stored_clusterProfile p)).
  - intros h p c' ns [= <-]. exists (stored_clusterProfile p). split; [|split; [apply server_spec_accepted|done]]. apply (by_key_put cprf_key "ClusterProfile" (stored_clusterProfile p)).
  - intros h k p Hp. apply (by_key_Ok cprf_key) in Hp. by injection Hp.
Qed.

#[local] Instance hub_deletion_server : DeletionServer Hub.
Proof.
  split.
  - intros h s c' s2 [= <- <-]. exists s. split; [|done]. apply (by_key_put sset_key "ServiceSet" s).
  - intros h s c' s2. cbn. destruct (_ && _); intros [= <- <-].
    + change (c_get _ _) with (by_key "ServiceSet" sset_key (drop sset_key (sset_key s) (hub_sets h)) (sset_key s)).
      by rewrite by_key_drop.
    + change (c_get _ _) with (by_key "ServiceSet" sset_key (put sset_key s (hub_sets h)) (sset_key s)).
      by rewrite by_key_put.
  - intros h k p c' Hg [= <-]. split; [done|]. apply (by_key_Ok prf_key) in Hg as <-.
    set (q := mkProfile (mark_deleted (prf_meta p)) (prf_spec p) (prf_matchingClusterRefs p)).
    change (c_get _ _) with (by_key "Profile" prf_key (put prf_key q (hub_profiles h)) (prf_key q)). rewrite by_key_put. by eexists.
  - intros h k p c' Hg [= <-]. split; [done|]. apply (by_key_Ok cprf_key) in Hg.
    set (q := mkClusterProfile (mark_deleted (cprf_meta p)) (cprf_spec p) (cprf_matchingClusterRefs p)).
    change (c_get _ _) with (by_key "ClusterProfile" cprf_key (put cprf_key q (hub_clusterProfiles h)) (mkKey "" (key_name k))).
    rewrite <- Hg. change (cprf_key p) with (cprf_key q). rewrite by_key_put. by eexists.
Qed.

(** ** A ServiceSet of one service *)

Definition prod_cd : ClusterDeployment :=
  mkCD (named_meta "team" "prod")
    (mkCDSpec None (Some true) no_ipamClaim "" "cred" "" "" "" "" (empty_service_spec []) false false)
    (mkCDStatus [] [] "" "" "" [] [] 0).
Definition prod_cred : Credential :=
  mkCredential (named_meta "team" "cred")
    (mkCredentialSpec (Some (mkRef "AWSClusterStaticIdentity" "team" "identity" "infrastructure.cluster.x-k8s.io/v1beta2")) "" "")
    (mkCredentialStatus [] true).
(** Template [web-2]: the chart [web] of a repository, at 2.0.0. *)
Definition web_template (reconciled : bool) : ServiceTemplate :=
  mkServiceTemplate (named_meta "team" "web-2")
    (mkServiceTemplateSpec None (Some (mkHelmSpec (Some (mkChartSpec "web" "2.0.0" 0)) None None)) None None "2.0.0" "")
    (mkServiceTemplateStatus "" None (if reconciled then Some (mkChartRef "HelmChart" "web" "team") else None)
       (mkTemplateValidation "" true)).
Definition web_flux_chart : FluxHelmChart :=
  mkFluxHelmChart (named_meta "team" "web") "*" "web" "HelmRepository" "charts" (Some (mkArtifact "" "2.0.0" "")).
Definition charts_repo : HelmRepository := mkHelmRepository (named_meta "team" "charts") "oci://charts" "oci" false None None.
(** Template [base]: a kustomization whose source has not been looked at. *)
Definition base_template : ServiceTemplate :=
  mkServiceTemplate (named_meta "team" "base")
    (mkServiceTemplateSpec None None (Some (mkSourceSpec None None "Remote" "./base")) None "" "")
    (mkServiceTemplateStatus "" None None (mkTemplateValidation "" true)).

Definition live_meta : ObjectMeta := mkMeta "set" "team" "u0" 3 (Some ∅) ∅ [] [ServiceSetFinalizer] None.
Definition demo_set (svcs : list ServiceWithValues) (states : list ServiceState) (deployed : bool) : ServiceSet :=
  mkServiceSet live_meta (mkServiceSetSpec "prod" "" (mkProviderConfig None "ksm" false) svcs)
    (mkServiceSetStatus None [] states true false deployed).
Definition web_service (ns : string) : ServiceWithValues := mkServiceWithValues None "2.0.0" "" "web" ns "web-2" "" [].
Definition base_service : ServiceWithValues := mkServiceWithValues None "" "" "base" "prod" "base" "" [].

Definition demo_smp (ready suspend : bool) : StateManagementProvider := mkSMP (named_meta "" "ksm") None suspend ready.

(** Sveltos has applied the release, whatever its summary is asked for. *)
Definition demo_site (objects : SmallCluster) : Site :=
  mkSite [default_rules]
    [mkClusterConfiguration (mkMeta "cc" "team" "" 0 None ∅ [mkOwner "" ProfileKind "set" "" false false] [] None) []
      [[mkFeature FeatureHelm [web_chart]]]] []
    [(mkKey "team" "Profile-set-prod", mkClusterSummary [] [] [mkFeatureSummary FeatureHelm FeatureStatusProvisioned None]
        [mkHelmChartSummary "web" "prod" false "" "v" "" None])]
    [mkSecret (named_meta "team" "prod-kubeconfig") {[ "value" := "child" ]}] objects.
Definition demo_hub (smp : StateManagementProvider) (s : ServiceSet) : Hub :=
  mkHub (demo_site []) [prod_cd] [prod_cred] [web_template true; base_template] [web_flux_chart] [charts_repo] [mkKey "team" "prod"]
    [smp] [] [] [s].

Definition demo_factory (objects : SmallCluster) (kubeconfig : string) (_ : unit) : result Hub :=
  if bool_decide (kubeconfig = "child") then Ok (mkHub (demo_site objects) [] [] [] [] [] [] [] [] [] []) else Err (ErrNew "no such cluster").
Definition no_config (_ : string) : result profileConfig := Err (ErrNew "invalid configuration").
Definition PausedAnnotation := "profile.projectsveltos.io/paused".

Definition demo_ensure (h : Hub) (s : ServiceSet) : world Hub * ServiceSet * outcome unit :=
  ensureProfile no_config String.eqb PausedAnnotation 9 (mkWorld h None) s.
Definition demo_reconcile (h : Hub) (smp : StateManagementProvider) (s : ServiceSet) : world Hub * caches * ServiceSet * rec_result :=
  reconcile_services id (errors_Is "NoKindMatchError") simple_yaml no_config summary_name toy_hash (λ _ _ _, Ok 0)
    (demo_factory (small_cluster "true")) (λ _, ()) String.eqb PausedAnnotation 9 9 (λ _, 9%Z) "kcm-system"
    (mkWorld h None) (mkCaches ∅ ∅) smp s.
Definition Run (h : Hub) : world Hub * caches * rec_result :=
  Reconcile id (errors_Is "NoKindMatchError") simple_yaml no_config summary_name toy_hash (λ _ _ _, Ok 0)
    (demo_factory (small_cluster "true")) (λ _, ()) (Ok ()) String.eqb PausedAnnotation 9 9 (λ _, 9%Z) "kcm-system"
    h (mkCaches ∅ ∅) (mkKey "team" "set").

(** The states a reconcile leaves. *)
Definition states_after (h : Hub) : list (string * string * string) * bool * rec_result :=
  let '(w, _, r) := Run h in
  match c_get (T:=ServiceSet) (w_mgmt w) (mkKey "team" "set") with
  | Ok s => ((λ st, (st_namespace st, st_name st, st_state st)) <$> ssst_services (sset_status s), ssst_deployed (sset_status s), r)
  | Err _ => ([], false, r)
  end.

(** From nothing to a verified release in one reconcile. *)
Example web_deployed :
  states_after (demo_hub (demo_smp true false) (demo_set [web_service "prod"] [] false)) =
    ([("prod", "web", ServiceStateDeployed)], true, Done false).
Proof. vm_compute. reflexivity. Qed.

(** ** The theorems at work *)

Definition fresh_set : ServiceSet := demo_set [web_service "prod"] [] false.
Definition fresh_hub : Hub := demo_hub (demo_smp true false) fresh_set.


(** A ServiceSet being deleted, with one service deployed and one going. *)
Definition deleted_set (states : list ServiceState) : ServiceSet :=
  mkServiceSet (mark_deleted live_meta) (sset_spec fresh_set) (mkServiceSetStatus None [] states true false true).
Definition two_states : list ServiceState :=
  [web_state "prod" ServiceStateDeployed; set_state ServiceStateDeleting (web_state "stage" ServiceStateDeployed)].

Lemma reconcileDelete_progress_witness :
  let s := deleted_set two_states in
  let w := mkWorld (demo_hub (demo_smp true false) s) None in
  let '(w', r) := reconcileDelete 9 w s in
  r = Done false ∧ deletion_phase w s = 3 ∧
  ∃ s', c_get (w_mgmt w') (meta_key (sset_meta s)) = Ok s' ∧ deletion_phase w' s' < 3.
Proof.
  cbn zeta. set (s := deleted_set two_states). set (w := mkWorld (demo_hub (demo_smp true false) s) None).
  destruct (reconcileDelete 9 w s) as [w' r] eqn:E.
  assert (r = (reconcileDelete 9 w s).2) as Hr by by rewrite E.
  assert (r = Done false) as Hok by (rewrite Hr; vm_compute; reflexivity). rewrite Hok in *.
  assert (c_get (w_mgmt w) (meta_key (sset_meta s)) = Ok s) as Hg by (vm_compute; reflexivity).
  pose proof (reconcileDelete_progress 9 w s w' false Hg E) as Hp.
  assert (deletion_phase w s = 3) as H3 by (vm_compute; reflexivity). rewrite H3 in Hp.
  destruct Hp as (s' & Hs' & _ & _ & Hlt & _). split; [done|]. split; [exact H3|]. exists s'. split; [exact Hs'|exact Hlt].
Defined.

Lemma hub_plain : ∀ h : Hub, summary_errors_plain h.
Proof.
  intros h k e. unfold c_get, hub_cs, by_key.
  by destruct (filterb (λ x, bool_decide (x.1 = k)) (site_summaries (hub_site h))) as [|x l]; intros [= <-].
Qed.

Lemma reconcile_one_state_each_witness :
  let '(_, _, s', r) := demo_reconcile fresh_hub (demo_smp true false) fresh_set in
  r = Done false ∧ tidy fresh_set ∧ tidy (fillNotDeployedServices 9 s') ∧
  mkKey "prod" "web" ∈ state_keys (fillNotDeployedServices 9 s').
Proof.
  assert (NoDup (sv_key <$> sss_services (sset_spec fresh_set))) as Hnd by (apply (bool_decide_unpack _); vm_compute; exact I).
  assert (tidy fresh_set) as Ht by (split; [constructor|by intros k svc ?%elem_of_nil]).
  pose proof (reconcile_one_state_each id (errors_Is "NoKindMatchError") simple_yaml no_config summary_name toy_hash (λ _ _ _, Ok 0)
    (demo_factory (small_cluster "true")) (λ _, ()) String.eqb PausedAnnotation 9 9 (λ _, 9%Z) "kcm-system" hub_plain
    (mkWorld fresh_hub None) (mkCaches ∅ ∅) (demo_smp true false) fresh_set Hnd Ht) as Hr.
  fold (demo_reconcile fresh_hub (demo_smp true false) fresh_set) in Hr.
  destruct (demo_reconcile fresh_hub (demo_smp true false) fresh_set) as [[[w' ca'] s'] r] eqn:E.
  assert (r = (demo_reconcile fresh_hub (demo_smp true false) fresh_set).2) as Hr2 by by rewrite E.
  assert (s' = (demo_reconcile fresh_hub (demo_smp true false) fresh_set).1.2) as Hs2 by by rewrite E.
  assert (r = Done false) as Hok by (rewrite Hr2; vm_compute; reflexivity). rewrite Hok in *.
  destruct Hr as (_ & _ & Ht' & Hall). split_and!; [done..|]. apply (Hall (web_service "prod")). left.
Defined.


(** ** What else it does *)

(** A service whose namespace was written as the empty one, and is now spelled
    out, has two states, one of them for good. *)
Example respelled_namespace_two_states :
  let before := demo_set [web_service "default"] [web_state "" ServiceStateDeployed] true in
  (states_after (demo_hub (demo_smp true false) before)).1.1 =
    [("default", "web", ServiceStateNotDeployed); ("default", "web", ServiceStateNotDeployed)].
Proof. vm_compute. reflexivity. Qed.

(** While the provider is not ready the services missing are given states all
    the same, without a type, and the flag stays up over them. *)
Example not_ready_fills :
  let before := demo_set [web_service "prod"; base_service] [web_state "prod" ServiceStateDeployed] true in
  let '(w, _, _) := Run (demo_hub (demo_smp false false) before) in
  states_after (demo_hub (demo_smp false false) before) =
    ([("prod", "web", ServiceStateDeployed); ("prod", "base", ServiceStateNotDeployed)], true, Done false) ∧
  ((λ s, st_type <$> ssst_services (sset_status s)) <$> c_get (T:=ServiceSet) (w_mgmt w) (mkKey "team" "set")) =
    Ok [ServiceTypeHelm; ServiceTypeUnset].
Proof. vm_compute. split; reflexivity. Qed.

(** A kustomization template that has not been reconciled brings the reconcile
    down; the status is written on the way. *)
Example unreconciled_kustomization_panics :
  states_after (demo_hub (demo_smp true false) (demo_set [web_service "prod"; base_service] [] false)) =
    ([("prod", "web", ServiceStateProvisioning); ("prod", "base", ServiceStateNotDeployed)], false, Panicked).
Proof. vm_compute. reflexivity. Qed.

(** On deletion a service already going is dropped from the status. *)
Example deletion_drops_deleting :
  (states_after (demo_hub (demo_smp true false) (deleted_set two_states))).1.1 = [("prod", "web", ServiceStateDeleting)].
Proof. vm_compute. reflexivity. Qed.
