(* ===== verification/McsDependencies.v ===== *)
(** * Waiting for other MultiClusterServices
    ([src/internal/controller/multiclusterservice_controller.go], the part that
    checks dependencies).

    A MultiClusterService is rolled out to a cluster only once every
    MultiClusterService it depends on, and that targets the same cluster, has
    all its services Deployed there at the versions it asks for. *)

From S2P Require Import Prelude Api Kube ServiceBasics ServiceSetPipeline ServiceValidation Cluster.

Definition maxBlockingDependenciesInMessage : nat := 3.

(** ** What a dependency has deployed *)

(** The version each service of the ServiceSet's spec states. *)
Definition specVersions (sset : ServiceSet) : gmap ObjectKey string :=
  index_by sv_key (λ s, ServiceVersion (sv_version s) (sv_template s)) (sss_services (sset_spec sset)).

Definition st_reported (st : ServiceState) : string := ServiceVersion (st_version st) (st_template st).

Definition deployedAtDesiredVersion (sset : ServiceSet) (desired : gmap ObjectKey string)
  : nat * list string :=
  let specVersion := specVersions sset in
  foldl (λ '(deployed, lagging) svc,
    let key := st_key svc in
    match desired !! key with
    | None => (deployed, lagging)
    | Some want =>
        let spec := get_string specVersion key in
        let reported := st_reported svc in
        if AtDesiredVersion (st_state svc) reported spec want then (deployed + 1, lagging)
        else if negb (bool_decide (reported = "")) && negb (bool_decide (reported = want))
                && bool_decide (length lagging < maxBlockingDependenciesInMessage)
        then (deployed, lagging ++ [st_name svc +:+ " " +:+ reported +:+ " -> " +:+ want])
        else (deployed, lagging)
    end) (0, []) (ssst_services (sset_status sset)).

(** One entry of the blocked message. *)
Definition dependencyProgress (name : string) (deployed total : nat) (lagging : list string) : string :=
  let entry := name +:+ " (" +:+ pretty deployed +:+ "/" +:+ pretty total +:+ " services deployed)" in
  if bool_decide (0 < length lagging) then entry +:+ ": " +:+ String.concat ", " lagging else entry.

Definition blockedMessage (clusterRef : ObjectKey) (blockingDeps : list string) : string :=
  let '(shown, omitted) :=
    if bool_decide (maxBlockingDependenciesInMessage < length blockingDeps)
    then (take maxBlockingDependenciesInMessage blockingDeps,
          length blockingDeps - maxBlockingDependenciesInMessage)
    else (blockingDeps, 0) in
  let msg := "skipping create/update of ServiceSet for matching cluster " +:+ key_string clusterRef +:+
             ": waiting on " +:+ String.concat ", " shown in
  if bool_decide (0 < omitted) then msg +:+ " and " +:+ pretty omitted +:+ " more" else msg.

(** ** Resolving dependencies *)

(** A matching cluster that waits for a dependency. *)
Record blockedCluster := mkBlocked { bc_ref : ObjectReference; bc_msg : string }.

(** The cluster a call is about: [None] is the management cluster itself. *)
Definition target_key (cd : option ClusterDeployment) : ObjectKey :=
  match cd with Some cd => meta_key (cd_meta cd) | None => mkKey "mgmt" "mgmt" end.
Definition target_labels (cd : option ClusterDeployment) : gmap string string :=
  match cd with Some cd => labels_of (cd_meta cd) | None => ∅ end.
Definition target_ref (cd : option ClusterDeployment) : ObjectReference :=
  match cd with
  | Some cd => mkRef ClusterDeploymentKind (om_namespace (cd_meta cd)) (om_name (cd_meta cd)) kcm_GroupVersion
  | None => SelfManagementClusterReference
  end.

Definition mcs_services (m : MultiClusterService) : list Service :=
  ss_services (mcs_serviceSpec (mcs_spec m)).
Definition mcs_selfManagement (m : MultiClusterService) : bool :=
  pc_selfManagement (ss_provider (mcs_serviceSpec (mcs_spec m))).

Section dependencies.
Context `{!LabelSelectors} {C : Type}.
Context `{!Getter C MultiClusterService} `{!Getter C ServiceSet} `{!Getter C ServiceTemplate}.
Variable sha256_4 : string → string.
Variable SystemNamespace : string.

(** [rd_mcs] is the dependency with its compiled selector, either of which may
    be an error; the last field caches the desired versions by namespace. *)
Record resolvedDependency := mkResolved {
  rd_name : string;
  rd_key : ObjectKey;
  rd_mcs : result (MultiClusterService * result Selector);
  rd_desiredByNamespace : gmap string (result (gmap ObjectKey string)) }.

Definition resolveDependencies (c : C) (mcs : MultiClusterService) : list resolvedDependency :=
  (λ dep,
    let key := mkKey "" dep in
    mkResolved dep key
      (depMCS ← c_get c key;
       Ok (depMCS, LabelSelectorAsSelector (mcs_clusterSelector (mcs_spec depMCS)))) ∅)
  <$> mcs_dependsOn (mcs_spec mcs).

Definition desiredServiceVersions (c : C) (namespace : string) (services : list Service)
  : result (gmap ObjectKey string) :=
  desired ← fillServiceVersions c namespace services;
  Ok (index_by svc_key (λ s, ServiceVersion (svc_version s) (svc_template s)) desired).

(** Resolves on first use; the dependency returned carries the filled cache. *)
Definition desiredIn (c : C) (namespace : string) (depMCS : MultiClusterService) (rd : resolvedDependency)
  : result (gmap ObjectKey string) * resolvedDependency :=
  match rd_desiredByNamespace rd !! namespace with
  | Some d => (d, rd)
  | None =>
      let d := desiredServiceVersions c namespace (mcs_services depMCS) in
      (d, mkResolved (rd_name rd) (rd_key rd) (rd_mcs rd)
            (<[namespace := d]> (rd_desiredByNamespace rd)))
  end.

Definition unresolvedVersions (rd : resolvedDependency) (resolveErr : gerror) : string * option gerror :=
  if IsNotFound resolveErr
  then (rd_name rd +:+ " (desired versions not resolved yet)", None)
  else ("", Some (ErrWrap ("failed to resolve desired versions of MultiClusterService " +:+
                   key_string (rd_key rd) +:+ " which this depends on: ") resolveErr)).

(** Whether the dependency targets the cluster. *)
Definition dependency_applies (cd : option ClusterDeployment) (rd : resolvedDependency)
    (depMCS : MultiClusterService) (selector : result Selector) : result bool :=
  match cd with
  | None => Ok (mcs_selfManagement depMCS)
  | Some _ =>
      sel ← wrap_err ("failed to determine if MultiClusterService " +:+ key_string (rd_key rd) +:+
              " which this depends on matches cluster " +:+ key_string (target_key cd) +:+ ": ") selector;
      Ok (negb (Selector_Empty sel || negb (Selector_Matches sel (target_labels cd))))
  end.

(** The body of the loop over the dependencies. *)
Definition dep_step (c : C) (cd : option ClusterDeployment) (rd : resolvedDependency)
    (err : option gerror) (blockingDeps : list string)
  : resolvedDependency * option gerror * list string :=
  match rd_mcs rd with
  | Err getErr =>
      (rd, join_err err (ErrWrap ("failed to get MultiClusterService " +:+ key_string (rd_key rd) +:+
             " which this depends on: ") getErr), blockingDeps)
  | Ok (depMCS, selector) =>
      match dependency_applies cd rd depMCS selector with
      | Err e => (rd, join_err err e, blockingDeps)
      | Ok false => (rd, err, blockingDeps)
      | Ok true =>
          let ssetKey := ServiceSetObjectKey sha256_4 SystemNamespace cd depMCS in
          let '(desired, rd) := desiredIn c (key_ns ssetKey) depMCS rd in
          match desired with
          | Err resolveErr =>
              let '(blocking, unexpectedErr) := unresolvedVersions rd resolveErr in
              (rd, join_opt err unexpectedErr,
               if negb (bool_decide (blocking = "")) then blockingDeps ++ [blocking] else blockingDeps)
          | Ok desired =>
              match c_get (T:=ServiceSet) c ssetKey with
              | Err getErr =>
                  if IsNotFound getErr
                  then (rd, err, blockingDeps ++ [rd_name rd +:+ " (ServiceSet not yet created)"])
                  else (rd, join_err err (ErrWrap ("failed to get serviceSet " +:+ key_string ssetKey +:+
                          " (owned by MultiClusterService " +:+ key_string (rd_key rd) +:+ "): ") getErr),
                        blockingDeps)
              | Ok sset =>
                  let '(deployed, lagging) := deployedAtDesiredVersion sset desired in
                  let total := length (mcs_services depMCS) in
                  if negb (bool_decide (deployed = total))
                  then (rd, err, blockingDeps ++ [dependencyProgress (rd_name rd) deployed total lagging])
                  else (rd, err, blockingDeps)
              end
          end
      end
  end.

Fixpoint dep_loop (c : C) (cd : option ClusterDeployment) (deps : list resolvedDependency)
    (err : option gerror) (blockingDeps : list string)
  : list resolvedDependency * option gerror * list string :=
  match deps with
  | [] => ([], err, blockingDeps)
  | rd :: deps =>
      let '(rd, err, blockingDeps) := dep_step c cd rd err blockingDeps in
      let '(deps, err, blockingDeps) := dep_loop c cd deps err blockingDeps in
      (rd :: deps, err, blockingDeps)
  end.

(** Returns ok and err, the dependencies with their caches, and the blocked
    clusters, the two that are passed by reference. *)
Definition okToReconcileServiceSet (c : C) (cd : option ClusterDeployment)
    (deps : list resolvedDependency) (blocked : list blockedCluster)
  : bool * option gerror * list resolvedDependency * list blockedCluster :=
  let '(deps, err, blockingDeps) := dep_loop c cd deps None [] in
  let blocked :=
    if bool_decide (0 < length blockingDeps)
    then blocked ++ [mkBlocked (target_ref cd) (blockedMessage (target_key cd) blockingDeps)]
    else blocked in
  (bool_decide (err = None) && bool_decide (length blockingDeps = 0), err, deps, blocked).
End dependencies.

(** ** Counting deployed services *)

(** The reported state is that of a service wanted, done at the version wanted. *)
Definition done_at (sset : ServiceSet) (desired : gmap ObjectKey string) (st : ServiceState) : bool :=
  match desired !! st_key st with
  | Some want => AtDesiredVersion (st_state st) (st_reported st)
                   (get_string (specVersions sset) (st_key st)) want
  | None => false
  end.

Lemma deployedAtDesiredVersion_count sset desired :
  (deployedAtDesiredVersion sset desired).1 =
    length (filterb (done_at sset desired) (ssst_services (sset_status sset))) ∧
  length (deployedAtDesiredVersion sset desired).2 ≤ maxBlockingDependenciesInMessage.
Proof.
  unfold deployedAtDesiredVersion. cbn zeta. set (l := ssst_services (sset_status sset)). clearbody l.
  induction l as [|st l IH] using rev_ind; [simpl; unfold maxBlockingDependenciesInMessage; lia|].
  rewrite foldl_app. cbn [foldl]. unfold filterb in *. rewrite filter_app, length_app.
  destruct (foldl _ _ l) as [deployed lagging]. cbn [fst snd] in IH |- *. destruct IH as [-> Hl].
  assert (filter (λ x, done_at sset desired x = true) [st] = if done_at sset desired st then [st] else []) as ->.
  { rewrite filter_cons, filter_nil. by destruct (done_at sset desired st). }
  assert (done_at sset desired st = match desired !! st_key st with
    | Some want => AtDesiredVersion (st_state st) (st_reported st)
                     (get_string (specVersions sset) (st_key st)) want
    | None => false end) as -> by done.
  destruct (desired !! st_key st) as [want|]; simpl; [|lia].
  destruct (AtDesiredVersion _ _ _ _); simpl; [lia|].
  destruct (_ && _) eqn:E; simpl; [|lia]. bool_simpl. rewrite length_app. simpl. lia.
Qed.

(** A list of distinct keys of a set, as many as the set has, is all of them. *)
Lemma NoDup_covers `{Countable K} (l : list K) (X : gset K) :
  NoDup l → (∀ k, k ∈ l → k ∈ X) → size X ≤ length l → ∀ k, k ∈ X → k ∈ l.
Proof.
  intros Hnd Hsub Hsize k Hk.
  assert ((list_to_set l : gset K) = X) as Heq.
  { apply set_subseteq_size_eq; [set_solver|].
    rewrite size_list_to_set by done. lia. }
  set_solver.
Qed.

Lemma index_by_size {K A V} `{Countable K} (key : A → K) (val : A → V) l :
  size (index_by key val l) ≤ length l.
Proof.
  induction l as [|x l IH] using rev_ind; [done|].
  rewrite index_by_snoc, length_app. simpl.
  destruct (index_by key val l !! key x) eqn:E.
  - rewrite map_size_insert_Some by (by eexists). lia.
  - rewrite map_size_insert_None by done. lia.
Qed.

(** When as many services are done as there are keys wanted, every one wanted
    is; this needs every service to be reported once. *)
Lemma deployed_all sset desired n :
  NoDup (st_key <$> ssst_services (sset_status sset)) →
  size desired ≤ n → (deployedAtDesiredVersion sset desired).1 = n →
  ∀ k, k ∈ dom desired → ∃ st, st ∈ ssst_services (sset_status sset) ∧ st_key st = k ∧
    done_at sset desired st = true.
Proof.
  intros Hnd Hsize Hcount k Hk.
  rewrite (proj1 (deployedAtDesiredVersion_count sset desired)) in Hcount.
  set (done := filterb (done_at sset desired) (ssst_services (sset_status sset))) in *.
  assert (k ∈ st_key <$> done) as Hin.
  { apply (NoDup_covers _ (dom desired)); [| | |exact Hk].
    - eapply sublist_NoDup; [exact Hnd|]. apply sublist_fmap, filterb_sublist.
    - intros k' (st & -> & [_ Hst]%filterb_elem_of)%list_elem_of_fmap.
      unfold done_at in Hst. apply elem_of_dom. destruct (desired !! st_key st); [by eexists|done].
    - rewrite size_dom, length_fmap. lia. }
  apply list_elem_of_fmap in Hin as (st & -> & [? ?]%filterb_elem_of). eauto.
Qed.

(** The other way round the wanted keys are distinct. *)
Lemma deployed_all_count sset desired n :
  NoDup (st_key <$> ssst_services (sset_status sset)) → size desired = n →
  (∀ k, k ∈ dom desired → ∃ st, st ∈ ssst_services (sset_status sset) ∧ st_key st = k ∧
    done_at sset desired st = true) →
  (deployedAtDesiredVersion sset desired).1 = n.
Proof.
  intros Hnd <- Hall. rewrite (proj1 (deployedAtDesiredVersion_count sset desired)).
  set (done := filterb (done_at sset desired) (ssst_services (sset_status sset))) in *.
  assert (NoDup (st_key <$> done)) as Hnd'.
  { eapply sublist_NoDup; [exact Hnd|]. apply sublist_fmap, filterb_sublist. }
  rewrite <- (length_fmap st_key done), <- (size_list_to_set (C:=gset ObjectKey)) by done.
  rewrite <- size_dom. f_equal. apply set_eq. intros k. rewrite elem_of_list_to_set. split.
  - intros (st & -> & [_ Hst]%filterb_elem_of)%list_elem_of_fmap. unfold done_at in Hst.
    apply elem_of_dom. destruct (desired !! st_key st); [by eexists|done].
  - intros (st & Hst & <- & Hd)%Hall. apply list_elem_of_fmap_2. by apply filterb_elem_of.
Qed.

(** ** What a dependency's state is *)

(** The state of one dependency for one cluster, as the specification sees it:
    no cache, no accumulated errors. *)
Inductive dep_status :=
  | DepReady
  | DepBlocking (entry : string)
  | DepFailed (e : gerror).

Section dependencies_spec.
Context `{!LabelSelectors} {C : Type}.
Context `{!Getter C MultiClusterService} `{!Getter C ServiceSet} `{!Getter C ServiceTemplate}.
Variable sha256_4 : string → string.
Variable SystemNamespace : string.
Variable c : C.
Local Abbreviation okToReconcile := (okToReconcileServiceSet sha256_4 SystemNamespace c).
Local Abbreviation sset_key := (ServiceSetObjectKey sha256_4 SystemNamespace).

Definition deploy_status (rd : resolvedDependency) (depMCS : MultiClusterService)
    (ssetKey : ObjectKey) : dep_status :=
  match desiredServiceVersions c (key_ns ssetKey) (mcs_services depMCS) with
  | Err e =>
      if IsNotFound e then DepBlocking (rd_name rd +:+ " (desired versions not resolved yet)")
      else DepFailed e
  | Ok desired =>
      match c_get (T:=ServiceSet) c ssetKey with
      | Err e => if IsNotFound e then DepBlocking (rd_name rd +:+ " (ServiceSet not yet created)")
                 else DepFailed e
      | Ok sset =>
          let '(deployed, lagging) := deployedAtDesiredVersion sset desired in
          if bool_decide (deployed = length (mcs_services depMCS)) then DepReady
          else DepBlocking (dependencyProgress (rd_name rd) deployed (length (mcs_services depMCS)) lagging)
      end
  end.

Definition dep_check (cd : option ClusterDeployment) (rd : resolvedDependency) : dep_status :=
  match rd_mcs rd with
  | Err e => DepFailed e
  | Ok (depMCS, selector) =>
      match dependency_applies cd rd depMCS selector with
      | Err e => DepFailed e
      | Ok false => DepReady
      | Ok true => deploy_status rd depMCS (sset_key cd depMCS)
      end
  end.

(** Every cached entry is what resolving again would give. *)
Definition cache_ok (rd : resolvedDependency) : Prop :=
  ∀ depMCS selector ns d, rd_mcs rd = Ok (depMCS, selector) →
    rd_desiredByNamespace rd !! ns = Some d → d = desiredServiceVersions c ns (mcs_services depMCS).

(** The same dependency, whatever is cached. *)
Definition same_dep (a b : resolvedDependency) : Prop :=
  rd_name a = rd_name b ∧ rd_key a = rd_key b ∧ rd_mcs a = rd_mcs b.

Definition status_entries (s : dep_status) : list string :=
  match s with DepBlocking entry => [entry] | _ => [] end.
Definition status_failed (s : dep_status) : bool :=
  match s with DepFailed _ => true | _ => false end.

Lemma desiredIn_spec ns depMCS selector rd d rd' :
  rd_mcs rd = Ok (depMCS, selector) → cache_ok rd → desiredIn c ns depMCS rd = (d, rd') →
  d = desiredServiceVersions c ns (mcs_services depMCS) ∧ same_dep rd' rd ∧ cache_ok rd'.
Proof.
  intros Hm Hc. unfold desiredIn. destruct (rd_desiredByNamespace rd !! ns) as [d0|] eqn:E; intros [= <- <-].
  - split_and!; [by eapply Hc|done|done].
  - split_and!; [done|done|]. intros m s ns' d' Hm' Hd'. simpl in *.
    rewrite Hm in Hm'. apply Ok_inj in Hm' as [= <- <-].
    apply lookup_insert_Some in Hd' as [[<- <-]|[_ Hd']]; [done|]. by eapply Hc.
Qed.

Lemma join_opt_None err e : join_opt err e = None ↔ err = None ∧ e = None.
Proof. destruct err, e; naive_solver. Qed.

(** One pass of the loop body adds what the dependency's state calls for. *)
Lemma dep_step_spec cd rd err blockingDeps rd' err' blockingDeps' :
  cache_ok rd → dep_step sha256_4 SystemNamespace c cd rd err blockingDeps = (rd', err', blockingDeps') →
  same_dep rd' rd ∧ cache_ok rd' ∧
  (err' = None ↔ err = None ∧ status_failed (dep_check cd rd) = false) ∧
  blockingDeps' = blockingDeps ++ status_entries (dep_check cd rd).
Proof.
  intros Hc. unfold dep_step, dep_check, deploy_status.
  assert (same_dep rd rd) as Hrefl by done.
  assert (∀ e, join_err err e = None ↔ err = None ∧ true = false) as Hjoin.
  { intros e. pose proof (join_err_ne err e). naive_solver. }
  destruct (rd_mcs rd) as [[depMCS selector]|e] eqn:Hm; cbn [status_failed status_entries];
    [|intros [= <- <- <-]; rewrite app_nil_r; auto].
  destruct (dependency_applies cd rd depMCS selector) as [[]|e]; cbn [status_failed status_entries];
    [|intros [= <- <- <-]; rewrite app_nil_r; tauto|intros [= <- <- <-]; rewrite app_nil_r; auto].
  cbn zeta. destruct (desiredIn c _ depMCS rd) as [d rd1] eqn:Ed.
  apply (desiredIn_spec _ _ selector) in Ed as (-> & Hsame & Hc1); [|done..].
  assert (rd_name rd1 = rd_name rd) as Hn by apply Hsame.
  destruct (desiredServiceVersions _ _ _) as [desired|e].
  - destruct (c_get c _) as [sset|e].
    + destruct (deployedAtDesiredVersion sset desired) as [deployed lagging].
      case_bool_decide; simpl; intros [= <- <- <-]; rewrite ?Hn, ?app_nil_r; tauto.
    + destruct (IsNotFound e); simpl; intros [= <- <- <-]; rewrite ?Hn, ?app_nil_r; auto. tauto.
  - unfold unresolvedVersions. destruct (IsNotFound e).
    + rewrite bool_decide_eq_false_2 by by destruct (rd_name rd1).
      intros [= <- <- <-]. rewrite Hn, join_opt_None. simpl. tauto.
    + rewrite bool_decide_eq_true_2 by done. intros [= <- <- <-].
      rewrite app_nil_r, join_opt_None. simpl. naive_solver.
Qed.

Lemma dep_loop_spec cd deps err blockingDeps deps' err' blockingDeps' :
  Forall cache_ok deps →
  dep_loop sha256_4 SystemNamespace c cd deps err blockingDeps = (deps', err', blockingDeps') →
  Forall2 same_dep deps' deps ∧ Forall cache_ok deps' ∧
  (err' = None ↔ err = None ∧ ∀ rd, rd ∈ deps → status_failed (dep_check cd rd) = false) ∧
  blockingDeps' = blockingDeps ++ (rd ← deps; status_entries (dep_check cd rd)).
Proof.
  revert err blockingDeps deps' err' blockingDeps'.
  induction deps as [|rd deps IH]; intros err bd deps' err' bd' Hc; cbn [dep_loop]; rewrite ?bind_cons.
  - intros [= <- <- <-]. rewrite app_nil_r. split_and!; try constructor; [|by intros [-> _]].
    intros ->. split; [done|]. intros rd Hin. by apply elem_of_nil in Hin.
  - apply Forall_cons in Hc as [Hc Hcs].
    destruct (dep_step _ _ _ _ _ _ _) as [[rd1 err1] bd1] eqn:E1.
    destruct (dep_loop _ _ _ _ _ _ _) as [[deps2 err2] bd2] eqn:E2. intros [= <- <- <-].
    apply dep_step_spec in E1 as (Hs & Hc1 & He1 & ->); [|done].
    apply IH in E2 as (Hs2 & Hc2 & He2 & ->); [|done].
    split_and!; [by constructor|by constructor| |by rewrite <- app_assoc].
    rewrite He2, He1. setoid_rewrite elem_of_cons. naive_solver.
Qed.

(** The call in terms of the states of the dependencies. *)
Lemma okToReconcile_status cd deps blocked ok err deps' blocked' :
  Forall cache_ok deps → okToReconcile cd deps blocked = (ok, err, deps', blocked') →
  let entries := rd ← deps; status_entries (dep_check cd rd) in
  (ok = true ↔ ∀ rd, rd ∈ deps → dep_check cd rd = DepReady) ∧
  (err = None ↔ ∀ rd, rd ∈ deps → status_failed (dep_check cd rd) = false) ∧
  Forall2 same_dep deps' deps ∧ Forall cache_ok deps' ∧
  blocked' = blocked ++ (match entries with
                         | [] => []
                         | _ => [mkBlocked (target_ref cd) (blockedMessage (target_key cd) entries)]
                         end).
Proof.
  intros Hc. unfold okToReconcileServiceSet.
  destruct (dep_loop _ _ _ _ _ _ _) as [[deps1 err1] bd1] eqn:E. intros [= <- <- <- <-].
  apply dep_loop_spec in E as (Hs & Hcs & He & ->); [|done]. simpl.
  set (entries := rd ← deps; status_entries (dep_check cd rd)).
  assert (entries = [] ↔ ∀ rd, rd ∈ deps → status_entries (dep_check cd rd) = []) as Hent.
  { subst entries. clear. induction deps as [|rd deps IH]; [|rewrite bind_cons].
    - split; [|done]. intros _ rd Hin. by apply elem_of_nil in Hin.
    - split.
      + intros [H1 H2]%app_eq_nil rd' [->|Hin]%elem_of_cons; [done|]. exact (proj1 IH H2 rd' Hin).
      + intros Hall. rewrite (Hall rd) by left. apply IH. intros; apply Hall; by right. }
  split_and!; try done.
  - rewrite andb_true_iff, !bool_decide_eq_true, He.
    assert (length entries = 0 ↔ entries = []) as -> by (destruct entries; simpl; split; congruence).
    rewrite Hent. split.
    + intros [[_ Hf] Hb] rd Hin. specialize (Hf rd Hin). specialize (Hb rd Hin).
      by destruct (dep_check cd rd).
    + intros Hall. split; [split; [done|]|]; intros rd Hin; by rewrite (Hall rd Hin).
  - rewrite He. tauto.
  - destruct entries; simpl; [by rewrite app_nil_r|done].
Qed.

(** A dependency is ready exactly when all its services are done; both lists
    being free of duplicates. *)
Lemma deploy_status_ready rd depMCS ssetKey :
  deploy_status rd depMCS ssetKey = DepReady →
  ∃ sset desired, c_get c ssetKey = Ok sset ∧
    desiredServiceVersions c (key_ns ssetKey) (mcs_services depMCS) = Ok desired ∧
    (deployedAtDesiredVersion sset desired).1 = length (mcs_services depMCS).
Proof.
  unfold deploy_status.
  destruct (desiredServiceVersions _ _ _) as [desired|e]; [|by destruct (IsNotFound e)].
  destruct (c_get c ssetKey) as [sset|e]; [|by destruct (IsNotFound e)].
  destruct (deployedAtDesiredVersion sset desired) as [d l] eqn:E. case_bool_decide as Hd; [|done].
  intros _. exists sset, desired. by rewrite E.
Qed.

Lemma desiredServiceVersions_dom ns services desired :
  desiredServiceVersions c ns services = Ok desired →
  size desired ≤ length services ∧ (∀ k, k ∈ dom desired ↔ k ∈ svc_key <$> services) ∧
  (NoDup (svc_key <$> services) → size desired = length services).
Proof.
  unfold desiredServiceVersions. intros (l & Hl & [= <-])%bind_Ok.
  pose proof (fillServiceVersions_keys c _ _ _ Hl) as Hk.
  assert (length l = length services) as Hlen by (rewrite <- (length_fmap svc_key), Hk; apply length_fmap).
  set (m := index_by _ _ l).
  assert (∀ k, k ∈ dom m ↔ k ∈ svc_key <$> services) as Hdom.
  { intros k. rewrite <- Hk, elem_of_dom. subst m. rewrite index_by_is_Some, list_elem_of_fmap. naive_solver. }
  split_and!; [rewrite <- Hlen; apply index_by_size|done|].
  intros Hnd. rewrite <- size_dom. rewrite <- (length_fmap svc_key services), <- (size_list_to_set (C:=gset ObjectKey)) by done.
  f_equal. apply set_eq. intros k. by rewrite Hdom, elem_of_list_to_set.
Qed.

(** C11: a ServiceSet may be created or updated only when every dependency that
    targets the cluster has its ServiceSet there and, every service being
    reported once, reports each service it asks for as Deployed at exactly the
    version it asks for, which the spec of its ServiceSet states too; nothing is
    then reported as blocked. *)
Theorem okToReconcile_deployed cd deps blocked err deps' blocked' :
  Forall cache_ok deps → okToReconcile cd deps blocked = (true, err, deps', blocked') →
  err = None ∧ blocked' = blocked ∧
  ∀ rd, rd ∈ deps → ∃ depMCS selector applies,
    rd_mcs rd = Ok (depMCS, selector) ∧ dependency_applies cd rd depMCS selector = Ok applies ∧
    (applies = true → ∃ sset, c_get c (sset_key cd depMCS) = Ok sset ∧
      (NoDup (st_key <$> ssst_services (sset_status sset)) →
       ∀ svc, svc ∈ mcs_services depMCS → ∃ st want,
         desiredServiceVersions c (key_ns (sset_key cd depMCS)) (mcs_services depMCS) ≫=
           (λ d, Ok (d !! svc_key svc)) = Ok (Some want) ∧
         st ∈ ssst_services (sset_status sset) ∧ st_key st = svc_key svc ∧
         st_state st = ServiceStateDeployed ∧ st_reported st = want ∧
         get_string (specVersions sset) (svc_key svc) = want)).
Proof.
  intros Hc Hok. apply okToReconcile_status in Hok as (Hall & Herr & _ & _ & Hb); [|done].
  pose proof (proj1 Hall eq_refl) as Hready. split_and!.
  - apply Herr. intros rd Hin. by rewrite (Hready rd Hin).
  - rewrite Hb. assert ((rd ← deps; status_entries (dep_check cd rd)) = []) as ->; [|apply app_nil_r].
    clear -Hready. induction deps as [|rd deps IH]; [done|].
    rewrite bind_cons, (Hready rd) by left. apply IH. intros; apply Hready; by right.
  - intros rd Hin. specialize (Hready rd Hin). unfold dep_check in Hready.
    destruct (rd_mcs rd) as [[depMCS selector]|e]; [|done]. exists depMCS, selector.
    destruct (dependency_applies cd rd depMCS selector) as [[]|e]; [|by exists false|done].
    exists true. split_and!; [done..|]. intros _.
    apply deploy_status_ready in Hready as (sset & desired & Hs & Hd & Hn). exists sset. split; [done|].
    intros Hnd svc Hsvc. destruct (desiredServiceVersions_dom _ _ _ Hd) as (Hsize & Hdom & _).
    destruct (deployed_all sset desired _ Hnd Hsize Hn (svc_key svc)) as (st & Hst & Hk & Hdone);
      [by apply Hdom, list_elem_of_fmap_2|].
    unfold done_at in Hdone. rewrite Hk in Hdone.
    destruct (desired !! svc_key svc) as [want|] eqn:E; [|done].
    unfold AtDesiredVersion in Hdone. bool_simpl. exists st, want. rewrite Hd. simpl. rewrite E.
    split_and!; congruence.
Qed.

(** As soon as every dependency that targets the cluster reports each of
    its services, listed once, as done there, the cluster is no longer blocked. *)
Lemma okToReconcile_unblocks cd deps blocked :
  Forall cache_ok deps →
  (∀ rd, rd ∈ deps → ∃ depMCS selector applies,
    rd_mcs rd = Ok (depMCS, selector) ∧ dependency_applies cd rd depMCS selector = Ok applies ∧
    (applies = true → ∃ sset desired, c_get c (sset_key cd depMCS) = Ok sset ∧
      desiredServiceVersions c (key_ns (sset_key cd depMCS)) (mcs_services depMCS) = Ok desired ∧
      NoDup (st_key <$> ssst_services (sset_status sset)) ∧ NoDup (svc_key <$> mcs_services depMCS) ∧
      ∀ svc, svc ∈ mcs_services depMCS → ∃ st, st ∈ ssst_services (sset_status sset) ∧
        st_key st = svc_key svc ∧ done_at sset desired st = true)) →
  ∃ deps', okToReconcile cd deps blocked = (true, None, deps', blocked).
Proof.
  intros Hc Hall.
  assert (∀ rd, rd ∈ deps → dep_check cd rd = DepReady) as Hready.
  { intros rd Hin. destruct (Hall rd Hin) as (depMCS & selector & applies & Hm & Ha & Hdone).
    unfold dep_check. rewrite Hm, Ha. destruct applies; [|done].
    destruct (Hdone eq_refl) as (sset & desired & Hs & Hd & Hnd & Hnds & Hsvc).
    unfold deploy_status. rewrite Hd, Hs. destruct (deployedAtDesiredVersion sset desired) as [n l] eqn:E.
    assert (n = length (mcs_services depMCS)) as ->; [|by rewrite bool_decide_eq_true_2].
    destruct (desiredServiceVersions_dom _ _ _ Hd) as (_ & Hdom & Hsize).
    change n with ((n, l).1). rewrite <- E. apply deployed_all_count; [done|auto|].
    intros k (svc & -> & Hin')%Hdom%list_elem_of_fmap. auto. }
  destruct (okToReconcile cd deps blocked) as [[[ok err] deps'] blocked'] eqn:E.
  apply okToReconcile_status in E as (Hok & Herr & _ & _ & Hb); [|done]. exists deps'.
  rewrite (proj2 Hok Hready), (proj2 Herr) by (intros rd Hin; by rewrite (Hready rd Hin)).
  rewrite Hb. assert ((rd ← deps; status_entries (dep_check cd rd)) = []) as ->; [|by rewrite app_nil_r].
  clear -Hready. induction deps as [|rd deps IH]; [done|].
  rewrite bind_cons, (Hready rd) by left. apply IH. intros; apply Hready; by right.
Qed.

(** The three channels are exact: ok when every dependency is ready, an
    error when one could not be checked, one blocked entry for the cluster
    naming those not deployed yet, in order; what is cached makes no
    difference and stays right. *)
Lemma okToReconcile_channels cd deps blocked ok err deps' blocked' :
  Forall cache_ok deps → okToReconcile cd deps blocked = (ok, err, deps', blocked') →
  let entries := rd ← deps; status_entries (dep_check cd rd) in
  (ok = true ↔ ∀ rd, rd ∈ deps → dep_check cd rd = DepReady) ∧
  (err = None ↔ ∀ rd, rd ∈ deps → status_failed (dep_check cd rd) = false) ∧
  Forall2 same_dep deps' deps ∧ Forall cache_ok deps' ∧
  blocked' = blocked ++ (match entries with
                         | [] => []
                         | _ => [mkBlocked (target_ref cd) (blockedMessage (target_key cd) entries)]
                         end).
Proof. apply okToReconcile_status. Qed.

(** Dependencies just resolved have nothing cached. *)
Lemma resolveDependencies_cache mcs : Forall cache_ok (resolveDependencies c mcs).
Proof.
  unfold resolveDependencies. apply Forall_fmap, Forall_forall. intros d _ m s ns v _ Hv.
  simpl in Hv. by rewrite lookup_empty in Hv.
Qed.
End dependencies_spec.

(** ** Witnesses *)

#[export] Existing Instance simple_selectors.

(** [base] targets every cluster labelled [env=prod]; [app] depends on it. *)
Definition prod : gmap string string := {[ "env" := "prod" ]}.
Definition dep_mcs (name : string) (deps : list string) (services : list Service) : MultiClusterService :=
  mkMCS (named_meta "" name)
    (mkMCSSpec (mkSelector prod []) deps (empty_service_spec services) false) (mkMCSStatus [] [] [] [] 0).
Definition dep_services : list Service :=
  [simple_service "a" "a-1" "1.0.0" []; simple_service "b" "b-1" "2.0.0" []].
Definition dep_cluster : ClusterDeployment :=
  mkCD (mkMeta "cluster" "ns" "" 0 (Some prod) ∅ [] [] None)
    (mkCDSpec None None no_ipamClaim "" "" "" "" "" "" (empty_service_spec []) false false)
    (mkCDStatus [] [] "" "" "" [] [] 0).

(** The ServiceSet of [base] on the cluster, with the states reported for it. *)
Definition dep_sset (states : list ServiceState) : ServiceSet :=
  mkServiceSet (named_meta "ns" "cluster-base")
    (mkServiceSetSpec "cluster" "base" (mkProviderConfig None "ksm" false)
       [simple_stored "a" "a-1" "1.0.0"; simple_stored "b" "b-1" "2.0.0"])
    (mkServiceSetStatus (Some (target_ref (Some dep_cluster))) [] states true false true).

Definition dep_store (services : list Service) (states : list ServiceState) : Cluster :=
  mkCluster (mkStore ∅ ∅ {[ mkKey "ns" "cluster-base" := dep_sset states ]} ∅)
    {[ mkKey "" "base" := dep_mcs "base" [] services ]} {[ mkKey "ns" "cluster" := dep_cluster ]}
    ∅ ∅ ∅ ∅ ∅ ∅ ∅ ∅.

Definition states_done : list ServiceState :=
  [simple_state "a" "a-1" "1.0.0" ServiceStateDeployed; simple_state "b" "b-1" "2.0.0" ServiceStateDeployed].
(** [b] is still at the version before. *)
Definition states_behind : list ServiceState :=
  [simple_state "a" "a-1" "1.0.0" ServiceStateDeployed; simple_state "b" "b-0" "1.0.0" ServiceStateDeployed].

Definition dep_run (services : list Service) (states : list ServiceState) :=
  let c := dep_store services states in
  okToReconcileServiceSet (λ s, s) "sys" c (Some dep_cluster)
    (resolveDependencies c (dep_mcs "app" ["base"] [])) [].

Example dep_run_done : (dep_run dep_services states_done).1.1 = (true, None).
Proof. vm_compute. reflexivity. Qed.

Example dep_run_behind :
  let '(ok, err, _, blocked) := dep_run dep_services states_behind in
  ok = false ∧ err = None ∧ bc_msg <$> blocked =
    ["skipping create/update of ServiceSet for matching cluster ns/cluster: waiting on base (1/2 services deployed): b 1.0.0 -> 2.0.0"].
Proof. vm_compute. auto. Qed.

(** A service the dependency disables before it was ever deployed does not
    reach its ServiceSet, but still counts in the total: what depends on the
    dependency waits as long as it is disabled. *)
Example disabled_service_blocks :
  let disabled := mkService None "" "c" "" "c-1" "" "1.0.0" "" [] [] true in
  let '(ok, err, _, blocked) := dep_run (dep_services ++ [disabled]) states_done in
  ok = false ∧ err = None ∧ bc_msg <$> blocked =
    ["skipping create/update of ServiceSet for matching cluster ns/cluster: waiting on base (2/3 services deployed)"].
Proof. vm_compute. auto. Qed.

Definition dep_resolved : list resolvedDependency :=
  resolveDependencies (dep_store dep_services states_done) (dep_mcs "app" ["base"] []).

Definition dep_after : list resolvedDependency := (dep_run dep_services states_done).1.2.

Lemma dep_run_result : dep_run dep_services states_done = (true, None, dep_after, []).
Proof. vm_cast_no_check (eq_refl (true, None (A:=gerror), dep_after, [] : list blockedCluster)). Qed.

Lemma okToReconcile_deployed_witness :
  dep_run dep_services states_done = (true, None, dep_after, []) ∧
  ∀ rd, rd ∈ dep_resolved → ∃ depMCS selector applies,
    rd_mcs rd = Ok (depMCS, selector) ∧
    dependency_applies (Some dep_cluster) rd depMCS selector = Ok applies.
Proof.
  split; [exact dep_run_result|].
  destruct (okToReconcile_deployed (λ s, s) "sys" (dep_store dep_services states_done) (Some dep_cluster)
    dep_resolved [] None dep_after [] (resolveDependencies_cache _ _) dep_run_result) as (_ & _ & Hall).
  intros rd Hrd. destruct (Hall rd Hrd) as (m & sel & b & ? & ? & _). eauto.
Defined.

Lemma run_eta {A B D E} (r : A * B * D * E) : r = (r.1.1.1, r.1.1.2, r.1.2, r.2).
Proof. by destruct r as [[[a b] d] e]. Qed.

Lemma okToReconcile_channels_witness :
  (dep_run dep_services states_behind).1.1.1 = false ∧
  ((dep_run dep_services states_behind).1.1.2 = None ↔
   ∀ rd, rd ∈ resolveDependencies (dep_store dep_services states_behind) (dep_mcs "app" ["base"] []) →
     status_failed (dep_check (λ s, s) "sys" (dep_store dep_services states_behind) (Some dep_cluster) rd) = false).
Proof.
  split; [vm_compute; reflexivity|].
  apply (okToReconcile_channels (λ s, s) "sys" (dep_store dep_services states_behind) (Some dep_cluster)
    _ _ _ _ _ _ (resolveDependencies_cache _ _) (run_eta (dep_run dep_services states_behind))).
Defined.

Definition dep_base : MultiClusterService := dep_mcs "base" [] dep_services.
Definition dep_desired : gmap ObjectKey string :=
  {[ mkKey "default" "a" := "1.0.0"; mkKey "default" "b" := "2.0.0" ]}.

Lemma dep_get_sset :
  c_get (dep_store dep_services states_done) (ServiceSetObjectKey (λ s, s) "sys" (Some dep_cluster) dep_base) =
  Ok (dep_sset states_done).
Proof. reflexivity. Qed.
Lemma dep_versions :
  desiredServiceVersions (dep_store dep_services states_done) "ns" (mcs_services dep_base) = Ok dep_desired.
Proof. vm_cast_no_check (eq_refl (Ok dep_desired)). Qed.
Lemma dep_all_done svc :
  svc ∈ mcs_services dep_base → ∃ st, st ∈ ssst_services (sset_status (dep_sset states_done)) ∧
    st_key st = svc_key svc ∧ done_at (dep_sset states_done) dep_desired st = true.
Proof.
  intros [->| ->%list_elem_of_singleton]%elem_of_cons.
  - exists (simple_state "a" "a-1" "1.0.0" ServiceStateDeployed). by split; [left|].
  - exists (simple_state "b" "b-1" "2.0.0" ServiceStateDeployed). by split; [right; left|].
Qed.
Lemma dep_keys : NoDup (st_key <$> states_done) ∧ NoDup (svc_key <$> mcs_services dep_base).
Proof. by split; apply (bool_decide_unpack _); vm_compute. Qed.
Lemma dep_resolved_base :
  dep_resolved = [mkResolved "base" (mkKey "" "base") (Ok (dep_base, Ok (mkSelector prod []))) ∅] ∧
  dependency_applies (Some dep_cluster)
    (mkResolved "base" (mkKey "" "base") (Ok (dep_base, Ok (mkSelector prod []))) ∅)
    dep_base (Ok (mkSelector prod [])) = Ok true.
Proof. split; reflexivity. Qed.

Lemma okToReconcile_unblocks_witness :
  ∃ deps', okToReconcileServiceSet (λ s, s) "sys" (dep_store dep_services states_done) (Some dep_cluster)
    dep_resolved [] = (true, None, deps', []).
Proof.
  destruct dep_resolved_base as [Hr Ha]. apply okToReconcile_unblocks; [apply resolveDependencies_cache|].
  rewrite Hr. intros rd ->%list_elem_of_singleton.
  exists dep_base, (Ok (mkSelector prod [])), true. split; [reflexivity|]. split; [exact Ha|]. intros _.
  exists (dep_sset states_done), dep_desired.
  split; [exact dep_get_sset|]. split; [exact dep_versions|].
  split; [exact (proj1 dep_keys)|]. split; [exact (proj2 dep_keys)|exact dep_all_done].
Defined.
