(* ===== verification/McsStatus.v ===== *)
(** * The status of a MultiClusterService
    ([src/internal/controller/multiclusterservice_controller.go], conditions and
    matching clusters).

    What a reconcile reports: how many matching clusters are ready, whether
    dependencies hold it back, and one entry per matching cluster. *)

From S2P Require Import Prelude Api Kube Conditions ApiManagement ServiceBasics ServiceValidation Cluster McsDependencies.

Definition ClusterInReadyStateCondition := "ClusterInReadyState".
Definition MultiClusterServiceDependencyReadyCondition := "MultiClusterServiceDependencyReady".
Definition MultiClusterServiceDependencyNotReadyReason := "MultiClusterServiceDependencyNotReady".
Definition MultiClusterServiceDependencyCheckFailedReason := "MultiClusterServiceDependencyCheckFailed".

(** ** Keys of matching clusters *)

Record clusterTargetKey := mkTargetKey {
  ctk_kind : string; ctk_apiVersion : string; ctk_namespace : string; ctk_name : string }.
#[export] Instance clusterTargetKey_eq_dec : EqDecision clusterTargetKey.
Proof. solve_decision. Defined.
#[export] Program Instance clusterTargetKey_countable : Countable clusterTargetKey :=
  inj_countable' (λ k, (ctk_kind k, ctk_apiVersion k, ctk_namespace k, ctk_name k))
    (λ p, mkTargetKey p.1.1.1 p.1.1.2 p.1.2 p.2) _.
Next Obligation. by intros []. Qed.

Definition clusterTargetKeyFromRef (ref : ObjectReference) : clusterTargetKey :=
  mkTargetKey (ref_kind ref) (ref_apiVersion ref) (ref_namespace ref) (ref_name ref).

Definition mc_key (mc : MatchingCluster) : clusterTargetKey := clusterTargetKeyFromRef (mc_ref mc).
Definition bc_key (b : blockedCluster) : clusterTargetKey := clusterTargetKeyFromRef (bc_ref b).
Definition ss_target (s : ServiceSet) : clusterTargetKey :=
  clusterTargetKeyFromRef (ClusterReference (Some s)).

Definition set_mcs_conditions (cs : list Condition) (m : MultiClusterService) : MultiClusterService :=
  mkMCS (mcs_meta m) (mcs_spec m)
    (mkMCSStatus (mcss_services (mcs_status m)) (mcss_servicesUpgradePaths (mcs_status m))
       (mcss_matchingClusters (mcs_status m)) cs (mcss_observedGeneration (mcs_status m))).
Definition set_mcs_matchingClusters (l : list MatchingCluster) (m : MultiClusterService)
  : MultiClusterService :=
  mkMCS (mcs_meta m) (mcs_spec m)
    (mkMCSStatus (mcss_services (mcs_status m)) (mcss_servicesUpgradePaths (mcs_status m))
       l (mcss_conditions (mcs_status m)) (mcss_observedGeneration (mcs_status m))).

(** ** Conditions *)

(** The numerator of the ClusterInReadyState condition. *)
Definition readyDeployments (serviceSets : list ServiceSet) (blocked : list blockedCluster) : nat :=
  let blockedKeys : gset clusterTargetKey := list_to_set (bc_key <$> blocked) in
  foldl (λ n serviceSet,
    if being_deleted (sset_meta serviceSet) then n
    else if bool_decide (ss_target serviceSet ∈ blockedKeys) then n
    else if ssst_deployed (sset_status serviceSet) then n + 1 else n) 0 serviceSets.

(** The leaves of a tree of joined errors. *)
Fixpoint countJoinedErrors (err : gerror) : nat :=
  match err with
  | ErrJoin es => sum_list_with countJoinedErrors es
  | _ => 1
  end.

(** The number of bytes of the UTF-8 sequence a byte starts, given those that
    follow, unless the sequence is not valid. *)
Definition rune_width (a : Ascii.ascii) (rest : string) : option nat :=
  let in_range lo hi c := (bool_decide (lo ≤ Ascii.nat_of_ascii c) && bool_decide (Ascii.nat_of_ascii c ≤ hi))%nat in
  let cont := in_range 128 191 in
  let b := Ascii.nat_of_ascii a in
  if in_range 0 127 a then Some 1
  else if in_range 194 223 a then
    match rest with String c1 _ => if cont c1 then Some 2 else None | _ => None end
  else if in_range 224 239 a then
    match rest with
    | String c1 (String c2 _) =>
        if in_range (if bool_decide (b = 224) then 160 else 128) (if bool_decide (b = 237) then 159 else 191) c1
           && cont c2 then Some 3 else None
    | _ => None
    end
  else if in_range 240 244 a then
    match rest with
    | String c1 (String c2 (String c3 _)) =>
        if in_range (if bool_decide (b = 240) then 144 else 128) (if bool_decide (b = 244) then 143 else 191) c1
           && cont c2 && cont c3 then Some 4 else None
    | _ => None
    end
  else None.

(** [strings.ToValidUTF8(s, "")]; [keep] bytes of the current sequence are
    still to be copied. *)
Fixpoint ToValidUTF8 (keep : nat) (s : string) : string :=
  match s with
  | EmptyString => EmptyString
  | String a s' =>
      match keep with
      | S keep => String a (ToValidUTF8 keep s')
      | 0 => match rune_width a s' with
             | Some w => String a (ToValidUTF8 (w - 1) s')
             | None => ToValidUTF8 0 s'
             end
      end
  end.

Definition maxDependencyCheckMessageBytes : nat := Z.to_nat 1024.

Definition dependencyCheckMessage (checkErr : gerror) : string :=
  let msg := "failed to determine MultiClusterService dependency readiness (" +:+
             pretty (countJoinedErrors checkErr) +:+ " error(s)): " +:+ Error checkErr in
  if bool_decide (String.length msg ≤ maxDependencyCheckMessageBytes) then msg
  else
    let omittedBytes := String.length msg - maxDependencyCheckMessageBytes in
    let truncated := ToValidUTF8 0 (String.substring 0 maxDependencyCheckMessageBytes msg) in
    truncated +:+ "... (" +:+ pretty omittedBytes +:+
      " bytes omitted, see reconcile logs for the full error)".

Section conditions.
Context `{StatusConditions}.

Definition setClustersCondition (mcs : MultiClusterService) (totalClusters : nat)
    (serviceSets : list ServiceSet) (blocked : list blockedCluster) : MultiClusterService :=
  let ready := readyDeployments serviceSets blocked in
  let '(status, reason) := if bool_decide (ready < totalClusters) then (CondFalse, FailedReason)
                           else (CondTrue, SucceededReason) in
  set_mcs_conditions
    (SetStatusCondition (mcss_conditions (mcs_status mcs))
       (mkCondition ClusterInReadyStateCondition status reason
          (pretty ready +:+ "/" +:+ pretty totalClusters) 0 0)).1 mcs.

Definition setDependencyReadyCondition (mcs : MultiClusterService) (blocked : list blockedCluster)
    (checkErr : option gerror) : MultiClusterService :=
  let '(status, reason, message) :=
    match checkErr with
    | Some e => (CondUnknown, MultiClusterServiceDependencyCheckFailedReason, dependencyCheckMessage e)
    | None =>
        if bool_decide (0 < length blocked)
        then (CondFalse, MultiClusterServiceDependencyNotReadyReason,
              "waiting for MultiClusterService dependencies to be ready on " +:+
              pretty (length blocked) +:+ " matching cluster(s)")
        else (CondTrue, SucceededReason, "")
    end in
  set_mcs_conditions
    (SetStatusCondition (mcss_conditions (mcs_status mcs))
       (mkCondition MultiClusterServiceDependencyReadyCondition status reason message
          (om_generation (mcs_meta mcs)) 0)).1 mcs.

(** Returns whether the conditions changed as well. *)
Definition setCondition (mcs : MultiClusterService) (typ : string) (err : option gerror)
  : MultiClusterService * bool :=
  let '(reason, cstatus, msg) := match err with
                                 | Some e => (FailedReason, CondFalse, Error e)
                                 | None => (SucceededReason, CondTrue, "")
                                 end in
  let '(cs, changed) := SetStatusCondition (mcss_conditions (mcs_status mcs))
    (mkCondition typ cstatus reason msg (om_generation (mcs_meta mcs)) 0) in
  (set_mcs_conditions cs mcs, changed).
End conditions.

Definition handleMultiClusterServiceFailedCondition (cond : Condition) : string * string :=
  let errMsg :=
    if bool_decide (cond_type cond = ClusterInReadyStateCondition)
    then cond_message cond +:+ " Clusters are ready."
    else if bool_decide (cond_type cond = ServicesInReadyStateCondition)
    then cond_message cond +:+ " Services are ready."
    else cond_message cond in
  (errMsg, "").

(** ** Matching clusters *)

(** The comparison of the sort, [cmp(a, b) <= 0]. *)
Definition cluster_leb (a b : MatchingCluster) : bool :=
  let a := mc_ref a in let b := mc_ref b in
  if negb (bool_decide (ref_kind a = ref_kind b)) then string_leb (ref_kind a) (ref_kind b)
  else if negb (bool_decide (ref_namespace a = ref_namespace b))
  then string_leb (ref_namespace a) (ref_namespace b)
  else string_leb (ref_name a) (ref_name b).

(** An entry with the transition time of the one observed before, unless
    Deployed changed. *)
Definition merge_observed (observed : gmap clusterTargetKey MatchingCluster) (cluster : MatchingCluster)
  : MatchingCluster :=
  match observed !! mc_key cluster with
  | None => cluster
  | Some old =>
      let '(deployed, time) :=
        if negb (Bool.eqb (mc_deployed old) (mc_deployed cluster))
        then (mc_deployed cluster, mc_lastTransitionTime cluster)
        else (mc_deployed old, mc_lastTransitionTime old) in
      mkMatchingCluster (mc_ref cluster) time (mc_reason cluster) (mc_message cluster)
        (mc_regional cluster) deployed
  end.

Section matching.
Context `{!MapRange clusterTargetKey} {C : Type} `{!Getter C ClusterDeployment} `{!Getter C Credential}.
Variable c : C.
Variable now : Z.

Definition clusterRegional (ref : ObjectReference) : result bool :=
  if negb (bool_decide (ref_kind ref = ClusterDeploymentKind)) then Ok false
  else
    let key := mkKey (ref_namespace ref) (ref_name ref) in
    cd ← wrap_err ("failed to get ClusterDeployment " +:+ key_string key +:+ ": ")
           (c_get (T:=ClusterDeployment) c key);
    let key := mkKey (om_namespace (cd_meta cd)) (cds_credential (cd_spec cd)) in
    cred ← wrap_err ("failed to get Credential " +:+ key_string key +:+ ": ")
             (c_get (T:=Credential) c key);
    Ok (negb (bool_decide (crs_region (cred_spec cred) = ""))).

(** The first loop, over the ServiceSets. *)
Definition entries_of_sets (serviceSets : list ServiceSet)
  : gmap clusterTargetKey MatchingCluster * option gerror :=
  foldl (λ '(entries, errs) serviceSet,
    if being_deleted (sset_meta serviceSet) then (entries, errs)
    else
      match ssst_cluster (sset_status serviceSet) with
      | None => (entries, errs)
      | Some ref =>
          match clusterRegional ref with
          | Err err => (entries, join_err errs err)
          | Ok regional =>
              (<[clusterTargetKeyFromRef ref :=
                   mkMatchingCluster ref (Some now) "" "" regional
                     (ssst_deployed (sset_status serviceSet))]> entries, errs)
          end
      end) (∅, None) serviceSets.

(** The entry of a blocked cluster: a region that cannot be read is no region. *)
Definition blocked_entry (b : blockedCluster) : MatchingCluster :=
  mkMatchingCluster (bc_ref b) (Some now) MultiClusterServiceDependencyNotReadyReason (bc_msg b)
    (match clusterRegional (bc_ref b) with Ok regional => regional | Err _ => false end) false.

Definition setMatchingClusters (mcs : MultiClusterService) (serviceSets : list ServiceSet)
    (blocked : list blockedCluster) : MultiClusterService * option gerror :=
  let '(entries, errs) := entries_of_sets serviceSets in
  let clusterEntries := foldl (λ m b, <[bc_key b := blocked_entry b]> m) entries blocked in
  let observedClustersMap := index_by mc_key (λ mc, mc) (mcss_matchingClusters (mcs_status mcs)) in
  let resultingClusters := omap (λ k, merge_observed observedClustersMap <$> clusterEntries !! k)
    (range_seq 0 (dom clusterEntries)) in
  (set_mcs_matchingClusters (isort cluster_leb resultingClusters) mcs, errs).
End matching.

(** ** What the status says *)

Lemma readyDeployments_count serviceSets blocked :
  readyDeployments serviceSets blocked =
  length (filterb (λ s, negb (being_deleted (sset_meta s)) &&
    negb (bool_decide (ss_target s ∈ bc_key <$> blocked)) && ssst_deployed (sset_status s)) serviceSets).
Proof.
  unfold readyDeployments. cbn zeta. induction serviceSets as [|s l IH] using rev_ind; [done|].
  rewrite foldl_app. cbn [foldl]. rewrite IH. clear IH. unfold filterb.
  rewrite filter_app, length_app, filter_cons, filter_nil.
  assert (bool_decide (ss_target s ∈ (list_to_set (bc_key <$> blocked) : gset clusterTargetKey)) =
          bool_decide (ss_target s ∈ bc_key <$> blocked)) as ->.
  { apply bool_decide_ext. set_solver. }
  destruct (being_deleted (sset_meta s)), (bool_decide (ss_target s ∈ bc_key <$> blocked)),
    (ssst_deployed (sset_status s)); simpl; lia.
Qed.

Section matching_spec.
Context `{!MapRange clusterTargetKey} {C : Type} `{!Getter C ClusterDeployment} `{!Getter C Credential}.
Variable c : C.
Variable now : Z.

(** The entry a ServiceSet stands for, if it stands for one. *)
Definition set_entry (s : ServiceSet) : option MatchingCluster :=
  if being_deleted (sset_meta s) then None
  else match ssst_cluster (sset_status s) with
       | None => None
       | Some ref =>
           match clusterRegional c ref with
           | Err _ => None
           | Ok regional => Some (mkMatchingCluster ref (Some now) "" "" regional
                                    (ssst_deployed (sset_status s)))
           end
       end.

(** All entries in the order they are written to the map. *)
Definition all_entries (serviceSets : list ServiceSet) (blocked : list blockedCluster)
  : list MatchingCluster :=
  omap set_entry serviceSets ++ (blocked_entry c now <$> blocked).

Lemma entries_of_sets_index serviceSets :
  (entries_of_sets c now serviceSets).1 = index_by mc_key (λ mc, mc) (omap set_entry serviceSets).
Proof.
  unfold entries_of_sets. induction serviceSets as [|s l IH] using rev_ind; [done|].
  rewrite foldl_app, omap_app. cbn [foldl omap list_omap]. unfold set_entry at 2.
  destruct (foldl _ _ l) as [entries errs]. cbn [fst] in IH. subst entries.
  destruct (being_deleted (sset_meta s)); [by rewrite app_nil_r|].
  destruct (ssst_cluster (sset_status s)) as [ref|]; [|by rewrite app_nil_r].
  destruct (clusterRegional c ref); [|by rewrite app_nil_r].
  by rewrite index_by_snoc.
Qed.

Lemma clusterEntries_index serviceSets blocked :
  foldl (λ m b, <[bc_key b := blocked_entry c now b]> m) (entries_of_sets c now serviceSets).1 blocked =
  index_by mc_key (λ mc, mc) (all_entries serviceSets blocked).
Proof.
  rewrite entries_of_sets_index. unfold all_entries.
  induction blocked as [|b l IH] using rev_ind; [by rewrite fmap_nil, app_nil_r|].
  rewrite foldl_app, fmap_app, app_assoc. simpl. rewrite index_by_snoc, IH. done.
Qed.

(** The map of entries, and the list read off it. *)
Definition entry_map (serviceSets : list ServiceSet) (blocked : list blockedCluster)
  : gmap clusterTargetKey MatchingCluster :=
  index_by mc_key (λ mc, mc) (all_entries serviceSets blocked).
Definition observed_map (mcs : MultiClusterService) : gmap clusterTargetKey MatchingCluster :=
  index_by mc_key (λ mc, mc) (mcss_matchingClusters (mcs_status mcs)).
Definition matching_of (mcs : MultiClusterService) (serviceSets : list ServiceSet)
    (blocked : list blockedCluster) : list MatchingCluster :=
  mcss_matchingClusters (mcs_status (setMatchingClusters c now mcs serviceSets blocked).1).

Lemma entry_map_key serviceSets blocked k e :
  entry_map serviceSets blocked !! k = Some e → mc_key e = k ∧ e ∈ all_entries serviceSets blocked.
Proof. intros (x & Hx & Hk & ->)%index_by_Some. done. Qed.

Lemma matching_of_perm mcs serviceSets blocked :
  matching_of mcs serviceSets blocked ≡ₚ
  merge_observed (observed_map mcs) <$> (map_to_list (entry_map serviceSets blocked)).*2.
Proof.
  unfold matching_of, setMatchingClusters.
  pose proof (clusterEntries_index serviceSets blocked) as He.
  destruct (entries_of_sets c now serviceSets) as [entries errs]. cbn [fst] in He. rewrite He. simpl.
  rewrite isort_perm. fold (entry_map serviceSets blocked) (observed_map mcs).
  apply range_values.
Qed.

Lemma merge_observed_key observed e : mc_key (merge_observed observed e) = mc_key e.
Proof. unfold merge_observed. by repeat case_match. Qed.

Lemma merge_observed_deployed observed e : mc_deployed (merge_observed observed e) = mc_deployed e.
Proof.
  unfold merge_observed. destruct (observed !! mc_key e) as [old|]; [|done].
  destruct (mc_deployed old), (mc_deployed e) eqn:E; simpl; by rewrite ?E.
Qed.

(** The keys of the clusters that are not blocked. *)
Definition unblocked (serviceSets : list ServiceSet) (blocked : list blockedCluster)
  : list MatchingCluster :=
  filterb (λ e, negb (bool_decide (mc_key e ∈ bc_key <$> blocked))) (omap set_entry serviceSets).

(** What ends up in the map, nothing being listed twice. *)
Lemma entry_map_elem serviceSets blocked k e :
  NoDup (bc_key <$> blocked) → NoDup (mc_key <$> omap set_entry serviceSets) →
  entry_map serviceSets blocked !! k = Some e ↔
  mc_key e = k ∧ (e ∈ blocked_entry c now <$> blocked ∨ e ∈ unblocked serviceSets blocked).
Proof.
  intros Hb Hs. unfold entry_map, all_entries, unblocked. rewrite index_by_app, filterb_elem_of.
  assert (mc_key <$> (blocked_entry c now <$> blocked) = bc_key <$> blocked) as Hk by by rewrite <- list_fmap_compose.
  assert (∀ l x, NoDup (mc_key <$> l) → index_by mc_key (λ mc, mc) l !! mc_key x = Some x ↔ x ∈ l) as Hin.
  { intros l x Hnd. split; [|by apply (index_by_lookup mc_key (λ mc, mc))].
    by intros (y & Hy & _ & <-)%index_by_Some. }
  assert (∀ l k e, index_by mc_key (λ mc, mc) l !! k = Some e → mc_key e = k) as Hkey.
  { intros l k' e' (y & _ & Hk' & <-)%index_by_Some. done. }
  destruct (index_by mc_key (λ mc, mc) (blocked_entry c now <$> blocked) !! k) as [e'|] eqn:E.
  - assert (e' ∈ blocked_entry c now <$> blocked) as He' by (apply Hin; [by rewrite Hk|by rewrite (Hkey _ _ _ E)]).
    pose proof (Hkey _ _ _ E) as Hk'. split; [intros [= <-]; auto|].
    intros [<- [He|[_ He]]].
    + f_equal. eapply (NoDup_fmap_eq mc_key); [by rewrite Hk|done..].
    + exfalso. bool_simpl. apply He. rewrite <- Hk', <- Hk. by apply list_elem_of_fmap_2.
  - assert (k ∉ bc_key <$> blocked) as Hnb.
    { rewrite <- Hk. intros (x & -> & Hx)%list_elem_of_fmap. eapply index_by_None in E; [|exact Hx]. done. }
    split.
    + intros He. pose proof (Hkey _ _ _ He) as <-. split; [done|]. right. split; [by apply Hin in He|].
      by apply negb_true_iff, bool_decide_eq_false.
    + intros [<- [He|[He _]]]; [|by apply Hin].
      exfalso. apply Hnb. rewrite <- Hk. by apply list_elem_of_fmap_2.
Qed.

Lemma entry_map_elements serviceSets blocked e :
  NoDup (bc_key <$> blocked) → NoDup (mc_key <$> omap set_entry serviceSets) →
  e ∈ (map_to_list (entry_map serviceSets blocked)).*2 ↔
  e ∈ blocked_entry c now <$> blocked ∨ e ∈ unblocked serviceSets blocked.
Proof.
  intros Hb Hs. rewrite list_elem_of_fmap. split.
  - intros ([k e'] & -> & He%elem_of_map_to_list). simpl. apply entry_map_elem in He; tauto.
  - intros He. exists (mc_key e, e). split; [done|]. apply elem_of_map_to_list. by apply entry_map_elem.
Qed.

Lemma entry_map_keys_NoDup serviceSets blocked :
  NoDup (mc_key <$> (map_to_list (entry_map serviceSets blocked)).*2).
Proof.
  assert (mc_key <$> (map_to_list (entry_map serviceSets blocked)).*2 =
          (map_to_list (entry_map serviceSets blocked)).*1) as ->; [|apply NoDup_fst_map_to_list].
  assert (∀ k e, (k, e) ∈ map_to_list (entry_map serviceSets blocked) → mc_key e = k) as Hk.
  { intros k e He%elem_of_map_to_list. by apply entry_map_key in He as [? _]. }
  revert Hk. generalize (map_to_list (entry_map serviceSets blocked)). intros l.
  induction l as [|[k e] l IH]; intros Hk; [done|]. csimpl. f_equal; [apply Hk; left|].
  apply IH. intros; apply Hk; by right.
Qed.

Lemma matching_of_keys_NoDup mcs serviceSets blocked :
  NoDup (mc_key <$> matching_of mcs serviceSets blocked).
Proof.
  rewrite matching_of_perm. rewrite <- list_fmap_compose.
  rewrite (list_fmap_ext _ mc_key) by (intros ? e _; apply merge_observed_key).
  apply entry_map_keys_NoDup.
Qed.
End matching_spec.

Lemma cluster_leb_total a b : cluster_leb a b = true ∨ cluster_leb b a = true.
Proof.
  unfold cluster_leb. repeat case_bool_decide; simpl; try congruence; apply string_leb_total.
Qed.

Lemma cluster_leb_trans a b d : cluster_leb a b = true → cluster_leb b d = true → cluster_leb a d = true.
Proof.
  unfold cluster_leb. destruct (mc_ref a) as [ka na a' va], (mc_ref b) as [kb nb b' vb], (mc_ref d) as [kd nd d' vd].
  simpl. repeat case_bool_decide; simpl; subst; intros Hab Hbd; try done;
    try (eapply string_leb_trans; eassumption);
    match goal with H : ¬ _ |- _ => exfalso; apply H; by apply string_leb_antisym end.
Qed.

(** Entries that compare equal differ at most in their API version. *)
Lemma cluster_leb_antisym a b :
  cluster_leb a b = true → cluster_leb b a = true →
  ref_kind (mc_ref a) = ref_kind (mc_ref b) ∧ ref_namespace (mc_ref a) = ref_namespace (mc_ref b) ∧
  ref_name (mc_ref a) = ref_name (mc_ref b).
Proof.
  unfold cluster_leb. repeat case_bool_decide; simpl; try congruence; intros Hab Hba;
    try (match goal with H : ¬ _ |- _ => exfalso; apply H; by apply string_leb_antisym end).
  split_and!; try done. by apply string_leb_antisym.
Qed.

Section matching_properties.
Context `{!MapRange clusterTargetKey} {C : Type} `{!Getter C ClusterDeployment} `{!Getter C Credential}.
Variable c : C.
Variable now : Z.
Variable mcs : MultiClusterService.
Variable serviceSets : list ServiceSet.
Variable blocked : list blockedCluster.
Hypothesis blocked_once : NoDup (bc_key <$> blocked).
Hypothesis sets_once : NoDup (mc_key <$> omap (set_entry c now) serviceSets).

(** The status lists every cluster once: a blocked one with the message of
    what it waits for and not Deployed, whatever its ServiceSet still says,
    every other one as its ServiceSet reports it, and the order is by kind,
    namespace and name. *)
Lemma setMatchingClusters_entries :
  let result := matching_of c now mcs serviceSets blocked in
  NoDup (mc_key <$> result) ∧ StronglySorted (Rle cluster_leb) result ∧
  (∀ k, k ∈ mc_key <$> result ↔
     k ∈ bc_key <$> blocked ∨ k ∈ mc_key <$> omap (set_entry c now) serviceSets) ∧
  ∀ mc, mc ∈ result →
    (∃ b, b ∈ blocked ∧ mc_ref mc = bc_ref b ∧ mc_deployed mc = false ∧ mc_message mc = bc_msg b ∧
       mc_reason mc = MultiClusterServiceDependencyNotReadyReason) ∨
    (mc_key mc ∉ bc_key <$> blocked ∧ ∃ s, s ∈ serviceSets ∧ being_deleted (sset_meta s) = false ∧
       ssst_cluster (sset_status s) = Some (mc_ref mc) ∧
       clusterRegional c (mc_ref mc) = Ok (mc_regional mc) ∧
       mc_deployed mc = ssst_deployed (sset_status s) ∧ mc_reason mc = "" ∧ mc_message mc = "").
Proof.
  set (result := matching_of c now mcs serviceSets blocked). cbn zeta.
  assert (∀ mc, mc ∈ result ↔ ∃ e, mc = merge_observed (observed_map mcs) e ∧
    (e ∈ blocked_entry c now <$> blocked ∨ e ∈ unblocked c now serviceSets blocked)) as Helem.
  { intros mc. subst result. rewrite matching_of_perm, list_elem_of_fmap.
    setoid_rewrite (entry_map_elements c now serviceSets blocked); done. }
  assert (mc_key <$> (blocked_entry c now <$> blocked) = bc_key <$> blocked) as Hk by by rewrite <- list_fmap_compose.
  split_and!.
  - apply matching_of_keys_NoDup.
  - subst result. unfold matching_of, setMatchingClusters. destruct (entries_of_sets c now serviceSets). simpl.
    apply isort_sorted; [apply cluster_leb_total|apply cluster_leb_trans].
  - intros k. rewrite list_elem_of_fmap. setoid_rewrite Helem. split.
    + intros (mc & -> & e & -> & [He|[He _]%filterb_elem_of]); rewrite merge_observed_key;
        [left; rewrite <- Hk|right]; by apply list_elem_of_fmap_2.
    + intros Hin. destruct (decide (k ∈ bc_key <$> blocked)) as [Hb|Hb].
      * rewrite <- Hk in Hb. apply list_elem_of_fmap in Hb as (e & -> & He).
        eexists. split; [|exists e; split; [reflexivity|by left]]. by rewrite merge_observed_key.
      * destruct Hin as [Hin|(e & -> & He)%list_elem_of_fmap]; [done|].
        eexists. split; [|exists e; split; [reflexivity|right]]; [by rewrite merge_observed_key|].
        apply filterb_elem_of. split; [done|]. by apply negb_true_iff, bool_decide_eq_false.
  - intros mc (e & -> & He)%Helem. rewrite merge_observed_deployed, merge_observed_key.
    assert (∀ {A} (f : MatchingCluster → A), (∀ r t t' a m g d d', f (mkMatchingCluster r t a m g d) =
              f (mkMatchingCluster r t' a m g d')) → f (merge_observed (observed_map mcs) e) = f e) as Hsame.
    { intros A f Hf. unfold merge_observed. destruct (_ !! mc_key e) as [old|]; [|done].
      destruct e; simpl. case_match. apply Hf. }
    rewrite !(Hsame _ mc_ref), !(Hsame _ mc_message), !(Hsame _ mc_reason), !(Hsame _ mc_regional) by done.
    destruct He as [(b & -> & Hb)%list_elem_of_fmap|[He Hnb]%filterb_elem_of]; [left; by exists b|right].
    bool_simpl. split; [done|]. apply list_elem_of_omap in He as (s & Hs & He). exists s.
    unfold set_entry in He. destruct (being_deleted (sset_meta s)); [done|].
    destruct (ssst_cluster (sset_status s)) as [ref|]; [|done].
    destruct (clusterRegional c ref) as [r|] eqn:Er; [|done]. by injection He as <-.
Qed.

(** C34: the condition and the list of clusters agree: where every ServiceSet
    that is not being deleted points at the cluster it was built for and its
    region can be read, the number of clusters counted as ready is the number
    of entries listed as Deployed. *)
Theorem ready_count_agrees :
  (∀ s, s ∈ serviceSets → being_deleted (sset_meta s) = false →
     ssst_cluster (sset_status s) = Some (ClusterReference (Some s)) ∧
     is_ok (clusterRegional c (ClusterReference (Some s))) = true) →
  readyDeployments serviceSets blocked =
  length (filterb mc_deployed (matching_of c now mcs serviceSets blocked)).
Proof.
  intros Hall. rewrite readyDeployments_count, matching_of_perm.
  set (m := entry_map c now serviceSets blocked).
  assert (∀ l, length (filterb mc_deployed (merge_observed (observed_map mcs) <$> l)) =
               length (filterb mc_deployed l)) as ->.
  { intros l. induction l as [|e l IH]; [done|]. unfold filterb in *. csimpl.
    rewrite !filter_cons, merge_observed_deployed. case_decide; simpl; by rewrite IH. }
  rewrite <- (length_fmap mc_key). set (keys := mc_key <$> filterb mc_deployed (map_to_list m).*2).
  rewrite <- (length_fmap ss_target). apply Permutation_length, NoDup_Permutation.
  - assert (∀ l, (∀ s, s ∈ l → s ∈ serviceSets) →
      ss_target <$> filterb (λ s, negb (being_deleted (sset_meta s))) l = mc_key <$> omap (set_entry c now) l) as Hk.
    { intros l. induction l as [|s l IH]; intros Hl; [done|]. unfold filterb in *. simpl. rewrite filter_cons.
      destruct (being_deleted (sset_meta s)) eqn:Ed; simpl.
      - unfold set_entry at 1. rewrite Ed. apply IH. intros; apply Hl; by right.
      - destruct (Hall s (Hl s ltac:(left)) Ed) as [Hc Hr]. unfold set_entry at 1. rewrite Ed, Hc.
        destruct (clusterRegional c _); [|done]. csimpl. f_equal. apply IH. intros; apply Hl; by right. }
    eapply sublist_NoDup; [|apply sublist_fmap; apply (filterb_sublist_impl _ (λ s, negb (being_deleted (sset_meta s))))].
    + rewrite Hk by done. exact sets_once.
    + intros s. by destruct (being_deleted (sset_meta s)).
  - eapply sublist_NoDup; [apply (entry_map_keys_NoDup c now serviceSets blocked)|].
    apply sublist_fmap, filterb_sublist.
  - intros k. subst keys. rewrite !list_elem_of_fmap. split.
    + intros (s & -> & [Hs Hp]%filterb_elem_of).
      apply andb_true_iff in Hp as [[Hdel Hnb]%andb_true_iff Hdep].
      apply negb_true_iff in Hdel, Hnb. apply bool_decide_eq_false in Hnb.
      destruct (Hall s Hs) as [Hc Hr]; [done|].
      destruct (clusterRegional c (ClusterReference (Some s))) as [r|] eqn:Er; [|done].
      eexists (mkMatchingCluster (ClusterReference (Some s)) (Some now) "" "" r true). split; [done|].
      apply filterb_elem_of. split; [|done]. apply entry_map_elements; [done..|]. right.
      apply filterb_elem_of. split; [|by apply negb_true_iff, bool_decide_eq_false].
      apply list_elem_of_omap. exists s. split; [done|]. unfold set_entry.
      by rewrite Hdel, Hc, Er, Hdep.
    + intros (e & -> & [He Hd]%filterb_elem_of). apply entry_map_elements in He; [|done..].
      destruct He as [(b & -> & _)%list_elem_of_fmap|[He Hnb]%filterb_elem_of]; [done|]. bool_simpl.
      apply list_elem_of_omap in He as (s & Hs & He). unfold set_entry in He.
      destruct (being_deleted (sset_meta s)) eqn:Ed; [done|]. destruct (Hall s Hs Ed) as [Hc _].
      rewrite Hc in He. destruct (clusterRegional c _); [|done]. injection He as <-. simpl in Hd.
      exists s. split; [done|]. apply filterb_elem_of. split; [done|]. rewrite Ed, Hd.
      rewrite bool_decide_eq_false_2; [done|]. exact Hnb.
Qed.

(** The transition time of an entry moves only when its Deployed flag does:
    an entry seen before with the same flag keeps the time it had. *)
Lemma setMatchingClusters_transition mc :
  mc ∈ matching_of c now mcs serviceSets blocked →
  mc_lastTransitionTime mc =
    match observed_map mcs !! mc_key mc with
    | Some old => if Bool.eqb (mc_deployed old) (mc_deployed mc) then mc_lastTransitionTime old else Some now
    | None => Some now
    end.
Proof.
  rewrite matching_of_perm. intros (e & -> & He)%list_elem_of_fmap.
  apply entry_map_elements in He; [|done..].
  assert (mc_lastTransitionTime e = Some now) as Ht.
  { destruct He as [(b & -> & _)%list_elem_of_fmap|[He _]%filterb_elem_of]; [done|].
    apply list_elem_of_omap in He as (s & _ & He). unfold set_entry in He.
    destruct (being_deleted (sset_meta s)); [done|]. destruct (ssst_cluster (sset_status s)); [|done].
    destruct (clusterRegional c _); [|done]. by injection He as <-. }
  rewrite merge_observed_key, merge_observed_deployed. unfold merge_observed.
  destruct (observed_map mcs !! mc_key e) as [old|]; [|done].
  by destruct (mc_deployed old), (mc_deployed e).
Qed.
End matching_properties.

(** The list does not depend on the order the map of entries is ranged
    over, as long as no two matching clusters differ in nothing but their API
    version, which the sort does not compare. *)
Lemma setMatchingClusters_range_irrelevant (R1 R2 : MapRange clusterTargetKey)
    {C : Type} `{!Getter C ClusterDeployment} `{!Getter C Credential}
    (c : C) now mcs serviceSets blocked :
  (∀ a b, a ∈ all_entries c now serviceSets blocked → b ∈ all_entries c now serviceSets blocked →
     ref_kind (mc_ref a) = ref_kind (mc_ref b) → ref_namespace (mc_ref a) = ref_namespace (mc_ref b) →
     ref_name (mc_ref a) = ref_name (mc_ref b) → ref_apiVersion (mc_ref a) = ref_apiVersion (mc_ref b)) →
  setMatchingClusters (MapRange0:=R1) c now mcs serviceSets blocked =
  setMatchingClusters (MapRange0:=R2) c now mcs serviceSets blocked.
Proof.
  intros Hdist. unfold setMatchingClusters.
  pose proof (clusterEntries_index c now serviceSets blocked) as He.
  destruct (entries_of_sets c now serviceSets) as [entries errs]. cbn [fst] in He. rewrite He.
  fold (entry_map c now serviceSets blocked) (observed_map mcs).
  set (m := entry_map c now serviceSets blocked). do 2 f_equal.
  apply isort_unique; [apply cluster_leb_total|apply cluster_leb_trans| |by rewrite !range_values].
  intros a b Ha Hb Hab Hba. pose proof (cluster_leb_antisym _ _ Hab Hba) as (Hk & Hns & Hn).
  rewrite range_values in Ha, Hb. apply list_elem_of_fmap in Ha as (ea & -> & Ha), Hb as (eb & -> & Hb).
  assert (∀ e, mc_ref (merge_observed (observed_map mcs) e) = mc_ref e) as Href.
  { intros e. unfold merge_observed. by repeat case_match. }
  rewrite !Href in Hk, Hns, Hn.
  assert (∀ e, e ∈ (map_to_list m).*2 → e ∈ all_entries c now serviceSets blocked) as Hin.
  { intros e ([k e'] & -> & Hm%elem_of_map_to_list)%list_elem_of_fmap. simpl.
    by apply entry_map_key in Hm as [_ ?]. }
  f_equal. eapply (NoDup_fmap_eq mc_key);
    [apply (entry_map_keys_NoDup c now serviceSets blocked)|done|done|].
  unfold mc_key, clusterTargetKeyFromRef. f_equal; try done. by apply Hdist; try apply Hin.
Qed.

(** ** Messages *)

Lemma ToValidUTF8_length keep s : String.length (ToValidUTF8 keep s) ≤ String.length s.
Proof.
  revert keep. induction s as [|a s IH]; intros keep; [done|]. simpl. destruct keep as [|keep].
  - destruct (rune_width a s) as [w|]; simpl; [pose proof (IH (w - 1))|pose proof (IH 0)]; lia.
  - simpl. pose proof (IH keep). lia.
Qed.

(** What follows a kept byte is kept as far as its sequence goes. *)
Lemma rune_width_kept a s w : rune_width a s = Some w → rune_width a (ToValidUTF8 (w - 1) s) = Some w.
Proof.
  intros Hw. pose proof Hw as Hw'. unfold rune_width in Hw |- *. cbn zeta in *.
  destruct (bool_decide (0 ≤ _) && bool_decide (_ ≤ 127))%nat; [by injection Hw as <-|].
  destruct (bool_decide (194 ≤ _) && _)%nat.
  { destruct s as [|c1 s]; [done|]. destruct (_ && _)%nat eqn:E1 in Hw; [|done]. injection Hw as <-.
    cbn [ToValidUTF8 Nat.sub]. by rewrite E1. }
  destruct (bool_decide (224 ≤ _) && _)%nat.
  { destruct s as [|c1 [|c2 s]]; [done..|]. destruct (_ && _)%nat eqn:E1 in Hw; [|done]. injection Hw as <-.
    cbn [ToValidUTF8 Nat.sub]. by rewrite E1. }
  destruct (bool_decide (240 ≤ _) && _)%nat; [|done].
  destruct s as [|c1 [|c2 [|c3 s]]]; [done..|]. destruct (_ && _)%nat eqn:E1 in Hw; [|done]. injection Hw as <-.
  cbn [ToValidUTF8 Nat.sub]. by rewrite E1.
Qed.

(** Nothing more is dropped from a string that has been cleaned. *)
Lemma ToValidUTF8_idem keep s : ToValidUTF8 keep (ToValidUTF8 keep s) = ToValidUTF8 keep s.
Proof.
  revert keep. induction s as [|a s IH]; intros [|keep]; simpl; [done..| |by rewrite IH].
  destruct (rune_width a s) as [w|] eqn:Hw; [|apply IH].
  simpl. by rewrite (rune_width_kept _ _ _ Hw), IH.
Qed.

Lemma substring_length n s : String.length (String.substring 0 n s) ≤ n.
Proof. revert s. induction n as [|n IH]; intros [|a s]; simpl; try lia. pose proof (IH s). lia. Qed.

(** The message about failed dependency checks is the whole text when that
    is short, and otherwise valid UTF-8 of at most 1024 bytes followed by a note
    of how much was left out: 59 bytes and the digits of that number. *)
Lemma dependencyCheckMessage_bounded checkErr :
  let msg := "failed to determine MultiClusterService dependency readiness (" +:+
             pretty (countJoinedErrors checkErr) +:+ " error(s)): " +:+ Error checkErr in
  let omitted := String.length msg - maxDependencyCheckMessageBytes in
  (omitted = 0 → dependencyCheckMessage checkErr = msg) ∧
  (0 < omitted → ∃ kept, ToValidUTF8 0 kept = kept ∧ String.length kept ≤ maxDependencyCheckMessageBytes ∧
     dependencyCheckMessage checkErr =
       kept +:+ "... (" +:+ pretty omitted +:+ " bytes omitted, see reconcile logs for the full error)") ∧
  String.length (dependencyCheckMessage checkErr) ≤
    maxDependencyCheckMessageBytes + 59 + String.length (pretty omitted).
Proof.
  intros msg omitted. subst omitted. unfold dependencyCheckMessage. fold msg. clearbody msg.
  case_bool_decide as Hlen.
  - split_and!; [done|lia|lia].
  - split_and!; [lia| |].
    + intros _. eexists. split; [apply ToValidUTF8_idem|]. split; [|reflexivity].
      etrans; [apply ToValidUTF8_length|]. apply substring_length.
    + rewrite !string_length_app. cbn [String.length].
      pose proof (ToValidUTF8_length 0 (String.substring 0 maxDependencyCheckMessageBytes msg)) as H1.
      pose proof (substring_length maxDependencyCheckMessageBytes msg) as H2. lia.
Qed.

(** The cap is not a cap: 2000 bytes of error make a message of 1087. *)
Example dependencyCheckMessage_exceeds :
  let err := ErrNew (String.concat "" (repeat "a" (Z.to_nat 2000))) in
  bool_decide (maxDependencyCheckMessageBytes < String.length (dependencyCheckMessage err)) = true.
Proof. vm_compute. reflexivity. Qed.

(** ** Witnesses *)

(** The cluster of [dep_store], with the Credential it names in a region, while
    the management cluster waits for a dependency. *)
Definition status_cluster : Cluster :=
  mkCluster (cl_store (dep_store dep_services states_done)) ∅ {[ mkKey "ns" "cluster" := dep_cluster ]}
    {[ mkKey "ns" "" := mkCredential (named_meta "ns" "") (mkCredentialSpec None "eu" "")
                          (mkCredentialStatus [] true) ]} ∅ ∅ ∅ ∅ ∅ ∅ ∅.
Definition status_sets : list ServiceSet := [dep_sset states_done].
Definition status_blocked : list blockedCluster := [mkBlocked SelfManagementClusterReference "waiting on base"].
(** Seen before at time 5, already Deployed on the cluster. *)
Definition status_mcs : MultiClusterService :=
  mkMCS (named_meta "" "app")
    (mkMCSSpec (mkSelector prod []) ["base"] (empty_service_spec []) false)
    (mkMCSStatus [] [] [mkMatchingCluster (target_ref (Some dep_cluster)) (Some 5%Z) "" "" false true] [] 0).

Lemma status_blocked_once : NoDup (bc_key <$> status_blocked).
Proof. apply (bool_decide_unpack _). vm_compute. exact I. Qed.
Lemma status_sets_once : NoDup (mc_key <$> omap (set_entry status_cluster 9) status_sets).
Proof. apply (bool_decide_unpack _). vm_compute. exact I. Qed.

Definition status_result : list MatchingCluster :=
  [mkMatchingCluster (target_ref (Some dep_cluster)) (Some 5%Z) "" "" true true;
   mkMatchingCluster SelfManagementClusterReference (Some 9%Z)
     MultiClusterServiceDependencyNotReadyReason "waiting on base" false false].

Lemma status_run : matching_of status_cluster 9 status_mcs status_sets status_blocked = status_result.
Proof. vm_compute. reflexivity. Qed.

Lemma setMatchingClusters_entries_witness :
  matching_of status_cluster 9 status_mcs status_sets status_blocked = status_result ∧
  NoDup (mc_key <$> matching_of status_cluster 9 status_mcs status_sets status_blocked).
Proof.
  split; [exact status_run|].
  apply (setMatchingClusters_entries status_cluster 9 status_mcs status_sets status_blocked
           status_blocked_once status_sets_once).
Defined.

Lemma ready_count_agrees_witness :
  readyDeployments status_sets status_blocked = 1 ∧
  readyDeployments status_sets status_blocked =
  length (filterb mc_deployed (matching_of status_cluster 9 status_mcs status_sets status_blocked)).
Proof.
  split; [vm_compute; reflexivity|].
  apply (ready_count_agrees status_cluster 9 status_mcs status_sets status_blocked
           status_blocked_once status_sets_once).
  intros s ->%list_elem_of_singleton _. split; vm_compute; reflexivity.
Defined.

Lemma setMatchingClusters_transition_witness :
  ∃ mc, mc ∈ matching_of status_cluster 9 status_mcs status_sets status_blocked ∧
    mc_lastTransitionTime mc = Some 5%Z ∧
    mc_lastTransitionTime mc =
      match observed_map status_mcs !! mc_key mc with
      | Some old => if Bool.eqb (mc_deployed old) (mc_deployed mc) then mc_lastTransitionTime old else Some 9%Z
      | None => Some 9%Z
      end.
Proof.
  exists (mkMatchingCluster (target_ref (Some dep_cluster)) (Some 5%Z) "" "" true true).
  assert (mkMatchingCluster (target_ref (Some dep_cluster)) (Some 5%Z) "" "" true true ∈
    matching_of status_cluster 9 status_mcs status_sets status_blocked) as Hin by (rewrite status_run; left).
  split; [exact Hin|]. split; [reflexivity|].
  apply (setMatchingClusters_transition status_cluster 9 status_mcs status_sets status_blocked
           status_blocked_once status_sets_once _ Hin).
Defined.

Lemma setMatchingClusters_range_irrelevant_witness :
  setMatchingClusters (MapRange0:=elements_range) status_cluster 9 status_mcs status_sets status_blocked =
  setMatchingClusters (MapRange0:=reverse_range) status_cluster 9 status_mcs status_sets status_blocked.
Proof.
  apply setMatchingClusters_range_irrelevant.
  intros a b Ha Hb Hk _ _. apply list_elem_of_In in Ha, Hb. simpl in Ha, Hb.
  destruct Ha as [<-|[<-|[]]], Hb as [<-|[<-|[]]]; vm_compute in Hk |- *; congruence.
Defined.
