(* ===== verification/McsReconcile.v ===== *)
(** * Reconciling a MultiClusterService
    ([src/internal/controller/multiclusterservice_controller.go], the handlers).

    The whole reconcile as a function of the state of the API server: checks,
    cleanup of ServiceSets that no longer match, the roll-out to every matching
    cluster and the status. Logs, events and metrics are not part of it. *)

From S2P Require Import Prelude Api Kube Conditions ApiManagement TemplateChain ServiceBasics ServiceDeps ServiceOrder ServiceUpgrades ServiceSetPipeline DependencyGraph ServiceValidation Cluster McsDependencies McsStatus.

Definition MultiClusterServiceFinalizer := "k0rdent.mirantis.com/multicluster-service".
Definition ServicesReferencesValidationCondition := "ServicesReferencesValidation".
Definition MultiClusterServiceDependencyValidationCondition := "MultiClusterServiceDependencyValidation".

#[export] Instance UpgradePath_eq_dec : EqDecision UpgradePath.
Proof. solve_decision. Defined.
#[export] Instance ServiceUpgradePaths_eq_dec : EqDecision ServiceUpgradePaths.
Proof. solve_decision. Defined.
#[export] Instance MultiClusterServiceStatus_eq_dec : EqDecision MultiClusterServiceStatus.
Proof. solve_decision. Defined.

Definition set_mcs_meta (m : ObjectMeta) (mcs : MultiClusterService) : MultiClusterService :=
  mkMCS m (mcs_spec mcs) (mcs_status mcs).
Definition set_mcs_upgradePaths (l : list ServiceUpgradePaths) (m : MultiClusterService)
  : MultiClusterService :=
  mkMCS (mcs_meta m) (mcs_spec m)
    (mkMCSStatus (mcss_services (mcs_status m)) l (mcss_matchingClusters (mcs_status m))
       (mcss_conditions (mcs_status m)) (mcss_observedGeneration (mcs_status m))).

(** The ServiceSets of a MultiClusterService, by its index. *)
Definition owned_by (mcs : MultiClusterService) : ServiceSet → bool :=
  MatchingField ExtractServiceSetMultiClusterService (mcs_name mcs).

Section handlers.
Context `{!MapRange ObjectKey} `{!MapRange string} `{!MapRange clusterTargetKey}.
Context `{Semver} `{!LabelSelectors} `{!StatusConditions} `{!Finalizers} {C : Type}.
Context `{!Getter C ServiceTemplate} `{!Getter C ServiceTemplateChain} `{!Getter C ServiceSet}.
Context `{!Getter C StateManagementProvider} `{!Getter C MultiClusterService}.
Context `{!Getter C ClusterDeployment} `{!Getter C Credential} `{!Getter C Management}.
Context `{!Lister C ServiceSet} `{!Lister C ClusterDeployment} `{!Lister C MultiClusterService}.
Context `{!Writer C ServiceSet} `{!Deleter C ServiceSet} `{!Refresher C MultiClusterService}.
Variable json_Marshal : legacy_config → result string.
Variable selector_requirements : LabelSelector → result (list SelRequirement).
Variable invalid_name : string → string → list gerror.
Variable sha256_4 : string → string.
Variable SystemNamespace : string.
Variable now : Z.

(** ** Single steps *)

Definition AddKCMComponentLabel (c : C) (o : MultiClusterService)
  : C * MultiClusterService * option gerror :=
  if bool_decide (labels_of (mcs_meta o) !! GenericComponentNameLabel = Some GenericComponentLabelValueKCM)
  then (c, o, None)
  else
    let '(c, o, err) := c_patch_label c o GenericComponentNameLabel GenericComponentLabelValueKCM in
    match err with
    | Some e => (c, o, Some (ErrWrap ("failed to update " +:+ MultiClusterServiceKind +:+ " " +:+
                       key_string (meta_key (mcs_meta o)) +:+ " labels: ") e))
    | None => (c, o, None)
    end.

Definition createOrUpdateServiceSet (c : C) (mcs : MultiClusterService) (cd : option ClusterDeployment)
  : C * option gerror :=
  let serviceSetObjectKey := ServiceSetObjectKey sha256_4 SystemNamespace cd mcs in
  match GetServiceSetWithOperation c json_Marshal selector_requirements
          (mkRequisites serviceSetObjectKey (Some mcs) cd SystemNamespace) with
  | Err e => (c, Some (ErrWrap ("failed to get ServiceSet " +:+ key_string serviceSetObjectKey +:+ ": ") e))
  | Ok (serviceSet, op) =>
      if bool_decide (op = ServiceSetOperationNone) then (c, None)
      else CreateOrUpdateServiceSet c op serviceSet
  end.

(** One delete of the cleanup: a failure is collected, unless the ServiceSet is
    gone already. *)
Definition delete_ServiceSet (c : C) (serviceSet : ServiceSet) (errs : option gerror) : C * option gerror :=
  let '(c, err) := c_delete c serviceSet in
  match IgnoreNotFound err with
  | Some e => (c, join_err errs (ErrWrap ("failed to delete ServiceSet " +:+
                    om_namespace (sset_meta serviceSet) +:+ "/" +:+ om_name (sset_meta serviceSet) +:+ ": ") e))
  | None => (c, errs)
  end.

Fixpoint cleanup_loop (mcs : MultiClusterService) (selector : Selector) (serviceSets : list ServiceSet)
    (c : C) (errs : option gerror) : C * option gerror :=
  match serviceSets with
  | [] => (c, errs)
  | serviceSet :: rest =>
      if being_deleted (sset_meta serviceSet) then cleanup_loop mcs selector rest c errs
      else if bool_decide (sss_cluster (sset_spec serviceSet) = "") then
        if mcs_selfManagement mcs then cleanup_loop mcs selector rest c errs
        else let '(c, errs) := delete_ServiceSet c serviceSet errs in cleanup_loop mcs selector rest c errs
      else if Selector_Empty selector then
        let '(c, errs) := delete_ServiceSet c serviceSet errs in cleanup_loop mcs selector rest c errs
      else
        let key := mkKey (om_namespace (sset_meta serviceSet)) (sss_cluster (sset_spec serviceSet)) in
        match c_get (T:=ClusterDeployment) c key with
        | Err e => (c, Some (ErrWrap ("failed to get ClusterDeployment " +:+ key_string key +:+ ": ") e))
        | Ok cd =>
            if negb (Selector_Matches selector (labels_of (cd_meta cd)))
            then let '(c, errs) := delete_ServiceSet c serviceSet errs in cleanup_loop mcs selector rest c errs
            else cleanup_loop mcs selector rest c errs
        end
  end.

Definition cleanupServiceSets (c : C) (mcs : MultiClusterService) : C * option gerror :=
  if mcs_keepServicesOnSelectorMismatch (mcs_spec mcs) then (c, None)
  else
    match c_list (T:=ServiceSet) c "" (owned_by mcs) with
    | Err e => (c, Some (ErrWrap ("failed to list ServiceSets for MultiClusterService " +:+ mcs_name mcs +:+ ": ") e))
    | Ok serviceSets =>
        match LabelSelectorAsSelector (mcs_clusterSelector (mcs_spec mcs)) with
        | Err e => (c, Some (ErrWrap "failed to convert ClusterSelector to label selector: " e))
        | Ok selector => cleanup_loop mcs selector serviceSets c None
        end
    end.

(** Returns whether to requeue. *)
Definition updateStatus (c : C) (oldObj newObj : MultiClusterService) : C * bool * option gerror :=
  if bool_decide (mcs_status oldObj = mcs_status newObj) then (c, true, None)
  else
    let st := mcs_status newObj in
    let generation := om_generation (mcs_meta newObj) in
    let newObj := mkMCS (mcs_meta newObj) (mcs_spec newObj)
      (mkMCSStatus (mcss_services st) (mcss_servicesUpgradePaths st) (mcss_matchingClusters st)
         (UpdateReadyCondition handleMultiClusterServiceFailedCondition (mcss_conditions st) generation)
         generation) in
    let '(c, newObj, err) := c_status_update c newObj in
    match err with
    | Some e => (c, false, Some (ErrWrap ("failed to update status for MultiClusterService " +:+
                   key_string (meta_key (mcs_meta newObj)) +:+ ": ") e))
    | None => (c, true, None)
    end.

(** ** Deletion *)

Definition delete_all (serviceSets : list ServiceSet) (c : C) : C :=
  foldl (λ c serviceSet, if being_deleted (sset_meta serviceSet) then c else (c_delete c serviceSet).1)
    c serviceSets.

Definition reconcileDelete (c : C) (mcs : MultiClusterService)
  : C * MultiClusterService * bool * option gerror :=
  match ValidateMCSDelete c mcs with
  | Some err =>
      (c, (setCondition mcs MultiClusterServiceDependencyValidationCondition (Some err)).1, false, Some err)
  | None =>
      let mcs := (setCondition mcs MultiClusterServiceDependencyValidationCondition None).1 in
      match c_list (T:=ServiceSet) c "" (owned_by mcs) with
      | Err e => (c, mcs, false, Some (ErrWrap ("failed to list ServiceSets for MultiClusterService " +:+
                    mcs_name mcs +:+ ": ") e))
      | Ok serviceSets =>
          let c := delete_all serviceSets c in
          if bool_decide (0 < length serviceSets) then (c, mcs, true, None)
          else
            let '(finalizers, ok) := RemoveFinalizer (om_finalizers (mcs_meta mcs)) MultiClusterServiceFinalizer in
            let mcs := set_mcs_meta (set_finalizers finalizers (mcs_meta mcs)) mcs in
            if ok then
              let '(c, mcs, err) := c_update_refresh c mcs in
              match err with
              | Some e => (c, mcs, false, Some (ErrWrap ("failed to remove finalizer " +:+
                            MultiClusterServiceFinalizer +:+ " from MultiClusterService " +:+ mcs_name mcs +:+ ": ") e))
              | None => (c, mcs, false, None)
              end
            else (c, mcs, false, None)
      end
  end.

(** ** Update *)

Definition ensure_finalizer (c : C) (mcs : MultiClusterService) : C * MultiClusterService * option gerror :=
  let '(finalizers, added) := AddFinalizer (om_finalizers (mcs_meta mcs)) MultiClusterServiceFinalizer in
  let mcs := set_mcs_meta (set_finalizers finalizers (mcs_meta mcs)) mcs in
  if added then
    let '(c, mcs, err) := c_update_refresh c mcs in
    match err with
    | Some e => (c, mcs, Some (ErrWrap ("failed to update MultiClusterService " +:+ mcs_name mcs +:+
                  " with finalizer " +:+ MultiClusterServiceFinalizer +:+ ": ") e))
    | None => (c, mcs, None)
    end
  else (c, mcs, None).

(** The three checks, each recorded in its condition; the first to fail ends
    the reconcile without an error. *)
Definition validate_mcs (c : C) (mcs : MultiClusterService) : MultiClusterService * bool :=
  match ServicesHaveValidTemplates c invalid_name (mcs_services mcs) SystemNamespace with
  | Some err => ((setCondition mcs ServicesReferencesValidationCondition (Some err)).1, false)
  | None =>
      let mcs := (setCondition mcs ServicesReferencesValidationCondition None).1 in
      match ValidateServiceDependencyOverall (mcs_services mcs) with
      | Some err => ((setCondition mcs ServicesDependencyValidationCondition (Some err)).1, false)
      | None =>
          let mcs := (setCondition mcs ServicesDependencyValidationCondition None).1 in
          match ValidateMCSDependencyOverall c mcs with
          | Some err => ((setCondition mcs MultiClusterServiceDependencyValidationCondition (Some err)).1, false)
          | None => ((setCondition mcs MultiClusterServiceDependencyValidationCondition None).1, true)
          end
      end
  end.

(** The variables of the loop over the targets. *)
Record rollout := mkRollout {
  ro_client : C;
  ro_deps : list resolvedDependency;
  ro_blocked : list blockedCluster;
  ro_errs : option gerror;
  ro_checkErrs : option gerror }.

Definition reconcile_target (mcs : MultiClusterService) (st : rollout) (cd : option ClusterDeployment)
  : rollout :=
  let '(ok, err, deps, blocked) :=
    okToReconcileServiceSet sha256_4 SystemNamespace (ro_client st) cd (ro_deps st) (ro_blocked st) in
  let '(errs, checkErrs) := match err with
                            | Some e => (join_err (ro_errs st) e, join_err (ro_checkErrs st) e)
                            | None => (ro_errs st, ro_checkErrs st)
                            end in
  if ok then
    let '(c, err) := createOrUpdateServiceSet (ro_client st) mcs cd in
    mkRollout c deps blocked (join_opt errs err) checkErrs
  else mkRollout (ro_client st) deps blocked errs checkErrs.

(** The ServiceSets whose target matches now. *)
Definition currently_matching (mcs : MultiClusterService) (keys : gset ObjectKey) (ss : ServiceSet) : bool :=
  if bool_decide (sss_cluster (sset_spec ss) = "") then mcs_selfManagement mcs
  else bool_decide (mkKey (om_namespace (sset_meta ss)) (sss_cluster (sset_spec ss)) ∈ keys).

Definition self_targets (mcs : MultiClusterService) : list (option ClusterDeployment) :=
  if mcs_selfManagement mcs then [None] else [].

Definition live_clusters (clusters : list ClusterDeployment) : list ClusterDeployment :=
  filterb (λ cd, negb (being_deleted (cd_meta cd))) clusters.

(** From the selector on: roll-out and status. *)
Definition roll_out (c : C) (mcs : MultiClusterService) (selector : Selector)
  : C * MultiClusterService * option gerror :=
  let st := mkRollout c (resolveDependencies c mcs) [] None None in
  let st := foldl (reconcile_target mcs) st (self_targets mcs) in
  let listed := if Selector_Empty selector then Ok []
                else c_list (T:=ClusterDeployment) (ro_client st) ""
                       (λ cd, Selector_Matches selector (labels_of (cd_meta cd))) in
  match listed with
  | Err e => (ro_client st, mcs,
              join_err (ro_errs st) (ErrWrap "failed to list ClusterDeployments: " e))
  | Ok clusters =>
      let matching := live_clusters clusters in
      let total := length (self_targets mcs) + length matching in
      let keys : gset ObjectKey := list_to_set ((λ cd, meta_key (cd_meta cd)) <$> matching) in
      let st := foldl (reconcile_target mcs) st (Some <$> matching) in
      let c := ro_client st in
      match c_list (T:=ServiceSet) c "" (owned_by mcs) with
      | Err e => (c, mcs, join_err (ro_errs st)
                    (ErrWrap ("failed to list ServiceSets for MultiClusterService " +:+ mcs_name mcs +:+ ": ") e))
      | Ok serviceSets =>
          let current := filterb (currently_matching mcs keys) serviceSets in
          let mcs := setClustersCondition mcs total current (ro_blocked st) in
          let mcs := setDependencyReadyCondition mcs (ro_blocked st) (ro_checkErrs st) in
          let '(mcs, clustersErr) := setMatchingClusters c now mcs current (ro_blocked st) in
          match ro_errs st with
          | Some _ => (c, mcs, join_opt (ro_errs st) clustersErr)
          | None =>
              let '(upgradePaths, servicesErr) := ServicesUpgradePaths c (mcs_services mcs) SystemNamespace in
              (c, set_mcs_upgradePaths upgradePaths mcs, join_opt servicesErr clustersErr)
          end
      end
  end.

Definition reconcileUpdate (c : C) (mcs : MultiClusterService) : C * MultiClusterService * option gerror :=
  let '(c, mcs, err) := ensure_finalizer c mcs in
  match err with
  | Some e => (c, mcs, Some e)
  | None =>
      let '(c, mcs, err) := AddKCMComponentLabel c mcs in
      match err with
      | Some e => (c, mcs, Some e)
      | None =>
          let '(mcs, valid) := validate_mcs c mcs in
          if negb valid then (c, mcs, None)
          else
            let '(c, err) := cleanupServiceSets c mcs in
            match err with
            | Some e => (c, mcs, Some (ErrWrap "failed to reconcile cleanup: " e))
            | None =>
                match LabelSelectorAsSelector (mcs_clusterSelector (mcs_spec mcs)) with
                | Err e => (c, mcs, Some (ErrWrap "failed to convert ClusterSelector to selector: " e))
                | Ok selector => roll_out c mcs selector
                end
            end
      end
  end.

(** Returns whether the object is requeued, and the error. *)
Definition Reconcile (c : C) (key : ObjectKey) : C * bool * option gerror :=
  match c_get (T:=MultiClusterService) c key with
  | Err err => if IsNotFound err then (c, false, None) else (c, false, Some err)
  | Ok mcs =>
      let '(c, mcs', requeue, err) :=
        if being_deleted (mcs_meta mcs) then reconcileDelete c mcs
        else
          match c_get (T:=Management) c (mkKey "" ManagementName) with
          | Err e => (c, mcs, false, Some (ErrWrap "failed to get Management: " e))
          | Ok management =>
              if being_deleted (mgmt_meta management) then (c, mcs, false, None)
              else let '(c, mcs, err) := reconcileUpdate c mcs in (c, mcs, false, err)
          end in
      let '(c, requeueStatus, e) := updateStatus c mcs mcs' in
      match join_opt err e with
      | Some err => (c, false, Some err)
      | None => (c, requeueStatus || requeue, None)
      end
  end.
End handlers.

(** ** Cleanup *)

Section cleanup_spec.
Context `{!LabelSelectors} {C : Type} `{!Getter C ClusterDeployment} `{!Lister C ServiceSet} `{!Deleter C ServiceSet}.
Hypothesis delete_keeps_clusters : ∀ c (s : ServiceSet) k,
  c_get (T:=ClusterDeployment) (c_delete c s).1 k = c_get c k.

(** A ServiceSet whose target the MultiClusterService no longer matches. *)
Definition stale (c : C) (mcs : MultiClusterService) (selector : Selector) (s : ServiceSet) : bool :=
  negb (being_deleted (sset_meta s)) &&
  (if bool_decide (sss_cluster (sset_spec s) = "") then negb (mcs_selfManagement mcs)
   else Selector_Empty selector ||
        match c_get (T:=ClusterDeployment) c (mkKey (om_namespace (sset_meta s)) (sss_cluster (sset_spec s))) with
        | Ok cd => negb (Selector_Matches selector (labels_of (cd_meta cd)))
        | Err _ => false
        end).

(** Its cluster can be read, where the cleanup has to. *)
Definition readable (c : C) (s : ServiceSet) : Prop :=
  being_deleted (sset_meta s) = false → sss_cluster (sset_spec s) ≠ "" →
  ∃ cd, c_get (T:=ClusterDeployment) c (mkKey (om_namespace (sset_meta s)) (sss_cluster (sset_spec s))) = Ok cd.

Lemma delete_ServiceSet_client c s errs : (delete_ServiceSet c s errs).1 = (c_delete c s).1.
Proof. unfold delete_ServiceSet. destruct (c_delete c s) as [c' err]. by destruct (IgnoreNotFound err). Qed.

Lemma stale_delete c s' mcs selector s :
  stale (c_delete (T:=ServiceSet) c s').1 mcs selector s = stale c mcs selector s.
Proof. unfold stale. by rewrite delete_keeps_clusters. Qed.

Lemma cleanup_loop_spec mcs selector sss c errs :
  (∀ s, s ∈ sss → readable c s) →
  (cleanup_loop mcs selector sss c errs).1 =
  foldl (λ c s, (c_delete c s).1) c (filterb (stale c mcs selector) sss).
Proof.
  revert c errs. induction sss as [|s sss IH]; intros c errs Hr; [done|].
  assert (∀ x, x ∈ sss → readable c x) as Hr' by (intros; apply Hr; by right).
  assert (∀ x, x ∈ sss → readable (c_delete c s).1 x) as Hrd.
  { intros x Hx Hd Hc. rewrite delete_keeps_clusters. by apply Hr'. }
  assert (filterb (stale c mcs selector) (s :: sss) =
    if stale c mcs selector s then s :: filterb (stale c mcs selector) sss
    else filterb (stale c mcs selector) sss) as ->.
  { unfold filterb. rewrite filter_cons. by destruct (stale c mcs selector s). }
  assert (∀ errs, (let '(c, errs) := delete_ServiceSet c s errs in cleanup_loop mcs selector sss c errs).1 =
    foldl (λ c s, (c_delete c s).1) c (s :: filterb (stale c mcs selector) sss)) as Hdel.
  { intros e. pose proof (delete_ServiceSet_client c s e) as Hc.
    destruct (delete_ServiceSet c s e) as [c' e']. simpl in Hc. subst c'. rewrite IH by done. simpl. f_equal.
    apply filterb_ext. intros x _. apply stale_delete. }
  cbn [cleanup_loop]. unfold stale at 1. destruct (being_deleted (sset_meta s)) eqn:Ed; simpl; [by apply IH|].
  case_bool_decide as Ec.
  - destruct (mcs_selfManagement mcs); simpl; [by apply IH|apply Hdel].
  - destruct (Selector_Empty selector); simpl; [apply Hdel|].
    destruct (Hr s ltac:(left) Ed Ec) as [cd Hcd]. rewrite Hcd.
    destruct (Selector_Matches selector _); simpl; [by apply IH|apply Hdel].
Qed.

(** C27: the cleanup deletes exactly the ServiceSets whose target no longer
    matches, in order: those of clusters whose labels the selector does not
    match (all of them when it is empty) and the one of the management cluster
    once self-management is off; none at all when services are to be kept. *)
Theorem cleanup_deletes_exactly c mcs selector sss :
  c_list c "" (owned_by mcs) = Ok sss →
  LabelSelectorAsSelector (mcs_clusterSelector (mcs_spec mcs)) = Ok selector →
  (∀ s, s ∈ sss → readable c s) →
  (cleanupServiceSets c mcs).1 =
    if mcs_keepServicesOnSelectorMismatch (mcs_spec mcs) then c
    else foldl (λ c s, (c_delete c s).1) c (filterb (stale c mcs selector) sss).
Proof.
  intros Hl Hs Hr. unfold cleanupServiceSets. destruct (mcs_keepServicesOnSelectorMismatch _); [done|].
  rewrite Hl, Hs. by apply cleanup_loop_spec.
Qed.
End cleanup_spec.

(** ** The roll-out *)

Lemma string_app_inj_r s1 s2 t : s1 +:+ t = s2 +:+ t → s1 = s2.
Proof.
  revert s2. induction s1 as [|a s1 IH]; intros [|b s2] Heq; simpl in *; [done| | |].
  - assert (String.length t = S (String.length (s2 +:+ t))) as Hl by (rewrite Heq at 1; done).
    rewrite string_length_app in Hl. exfalso. lia.
  - assert (String.length t = S (String.length (s1 +:+ t))) as Hl by (rewrite <- Heq at 1; done).
    rewrite string_length_app in Hl. exfalso. lia.
  - injection Heq as -> Heq. f_equal. by apply IH.
Qed.

Section rollout_spec.
Context `{!MapRange ObjectKey} `{!MapRange string}.
Context `{Semver} `{!LabelSelectors} {C : Type}.
Context `{!Getter C ServiceTemplate} `{!Getter C ServiceTemplateChain} `{!Getter C ServiceSet}.
Context `{!Getter C StateManagementProvider} `{!Getter C MultiClusterService}.
Context `{!Lister C ServiceSet} `{!Writer C ServiceSet} `{!ObjectStore C ServiceSet sset_meta}.
Variable json_Marshal : legacy_config → result string.
Variable selector_requirements : LabelSelector → result (list SelRequirement).
Variable sha256_4 : string → string.
Variable SystemNamespace : string.
Variable mcs : MultiClusterService.
Local Abbreviation sset_of cd := (ServiceSetObjectKey sha256_4 SystemNamespace cd mcs).
Local Abbreviation create_or_update := (createOrUpdateServiceSet json_Marshal selector_requirements sha256_4 SystemNamespace).
Local Abbreviation target_step := (reconcile_target json_Marshal selector_requirements sha256_4 SystemNamespace mcs).

(** Clusters of different names have different ServiceSets. *)
Lemma ServiceSetObjectKey_inj cd1 cd2 :
  sset_of (Some cd1) = sset_of (Some cd2) → meta_key (cd_meta cd1) = meta_key (cd_meta cd2).
Proof. unfold meta_key. simpl. intros [= -> ->%string_app_inj_r]. done. Qed.

Lemma createOrUpdate_frame c cd k :
  store_ok c →
  store_ok (create_or_update c mcs cd).1 ∧
  (k ≠ sset_of cd → c_get (T:=ServiceSet) (create_or_update c mcs cd).1 k = c_get c k).
Proof.
  intros Hok. unfold createOrUpdateServiceSet.
  destruct (GetServiceSetWithOperation _ _ _ _) as [[s op]|e] eqn:E; [|done].
  apply GetServiceSetWithOperation_key in E; [|by intros s0 Hs0; eapply store_get_key].
  simpl in E. destruct op; simpl.
  - pose proof (store_ok_create c s Hok) as Hc. pose proof (store_create_frame c s k) as Hf. rewrite E in Hf.
    destruct (c_create c s) as [c' [e|]]; [destruct (IsAlreadyExists e)|]; by split.
  - pose proof (store_ok_update c s Hok) as Hc. pose proof (store_update_frame c s k) as Hf. rewrite E in Hf.
    destruct (c_update c s) as [c' [e|]]; [destruct (IsConflict e)|]; by split.
  - done.
Qed.

(** A call reports its own cluster or none, and none when it says ok. *)
Lemma okToReconcile_reports c cd deps blocked ok err deps' blocked' :
  okToReconcileServiceSet sha256_4 SystemNamespace c cd deps blocked = (ok, err, deps', blocked') →
  (∃ new, blocked' = blocked ++ new ∧ (∀ b, b ∈ new → bc_ref b = target_ref cd) ∧ (ok = true → new = [])).
Proof.
  unfold okToReconcileServiceSet. destruct (dep_loop _ _ _ _ _ _ _) as [[deps1 err1] entries].
  intros [= <- <- <- <-]. destruct entries as [|e entries]; simpl.
  - exists []. rewrite app_nil_r. split_and!; try done. intros b Hb. by apply elem_of_nil in Hb.
  - eexists. split; [reflexivity|]. split; [by intros b ->%list_elem_of_singleton|].
    by rewrite andb_false_r.
Qed.

(** One target: the others' ServiceSets are left alone, and so is its own when
    it is reported blocked. *)
Lemma reconcile_target_spec st cd :
  store_ok (ro_client st) →
  store_ok (ro_client (target_step st cd)) ∧
  (∃ new, ro_blocked (target_step st cd) = ro_blocked st ++ new ∧
     (∀ b, b ∈ new → bc_ref b = target_ref cd) ∧
     (new ≠ [] → ro_client (target_step st cd) = ro_client st)) ∧
  (∀ k, k ≠ sset_of cd →
     c_get (T:=ServiceSet) (ro_client (target_step st cd)) k = c_get (ro_client st) k).
Proof.
  intros Hok. unfold reconcile_target.
  destruct (okToReconcileServiceSet _ _ _ _ _ _) as [[[ok err] deps'] blocked'] eqn:E.
  apply okToReconcile_reports in E as (new & -> & Hnew & Hnone).
  destruct err as [e|]; destruct ok; try (destruct (Hnone eq_refl));
    try (pose proof (createOrUpdate_frame (ro_client st) cd) as Hf;
         destruct (createOrUpdateServiceSet _ _ _ _ _ _ _) as [c' err']);
    simpl in *; split_and!; try done; try (by apply (Hf (sset_of cd)));
    try (by exists new); try (by exists []); try (intros k Hk; by apply Hf).
Qed.

Lemma rollout_frame st targets k :
  store_ok (ro_client st) → k ∉ (λ cd, sset_of cd) <$> targets →
  store_ok (ro_client (foldl target_step st targets)) ∧
  c_get (T:=ServiceSet) (ro_client (foldl target_step st targets)) k = c_get (ro_client st) k.
Proof.
  revert st. induction targets as [|t targets IH]; intros st Hok Hk; [done|]. simpl.
  csimpl in Hk. apply not_elem_of_cons in Hk as [Hk1 Hk2].
  destruct (reconcile_target_spec st t Hok) as (Hok' & _ & Hf).
  destruct (IH (target_step st t) Hok' Hk2) as [H1 H2]. split; [done|]. rewrite H2. by apply Hf.
Qed.

Lemma rollout_reports st targets ref :
  store_ok (ro_client st) → ref ∉ target_ref <$> targets →
  ref ∈ bc_ref <$> ro_blocked (foldl target_step st targets) → ref ∈ bc_ref <$> ro_blocked st.
Proof.
  revert st. induction targets as [|t targets IH]; intros st Hok Hk; [done|]. simpl.
  csimpl in Hk. apply not_elem_of_cons in Hk as [Hk1 Hk2].
  destruct (reconcile_target_spec st t Hok) as (Hok' & (new & Hb & Hnew & _) & _).
  intros Hin. apply IH in Hin; [|done..]. rewrite Hb, fmap_app, elem_of_app in Hin.
  destruct Hin as [Hin|(b & -> & Hin)%list_elem_of_fmap]; [done|]. by destruct Hk1; apply Hnew.
Qed.

(** C26: a roll-out leaves the ServiceSet of every cluster it reports as blocked
    exactly as it was, whatever it does for the other targets. *)
Theorem blocked_ServiceSet_untouched st targets cd :
  store_ok (ro_client st) →
  NoDup ((λ cd, sset_of cd) <$> targets) → NoDup (target_ref <$> targets) →
  cd ∈ targets → target_ref cd ∉ bc_ref <$> ro_blocked st →
  target_ref cd ∈ bc_ref <$> ro_blocked (foldl target_step st targets) →
  c_get (T:=ServiceSet) (ro_client (foldl target_step st targets)) (sset_of cd) =
  c_get (ro_client st) (sset_of cd).
Proof.
  intros Hok Hnd Hndr Hin Hnot Hb. apply list_elem_of_split in Hin as (l1 & l2 & ->).
  rewrite fmap_app in Hnd. rewrite fmap_app in Hndr. csimpl in Hnd. csimpl in Hndr.
  apply NoDup_app in Hnd as (_ & Hd1 & [Hd2 _]%NoDup_cons).
  apply NoDup_app in Hndr as (_ & Hr1 & [Hr2 _]%NoDup_cons).
  rewrite foldl_app in Hb |- *. simpl in Hb |- *.
  assert (sset_of cd ∉ (λ cd, sset_of cd) <$> l1) as Hk1 by (intros Hx; apply (Hd1 _ Hx); left).
  assert (target_ref cd ∉ target_ref <$> l1) as Hk2 by (intros Hx; apply (Hr1 _ Hx); left).
  destruct (rollout_frame st l1 (sset_of cd) Hok Hk1) as [Hok1 Hg1].
  set (st1 := foldl target_step st l1) in *.
  destruct (reconcile_target_spec st1 cd Hok1) as (Hok2 & (new & Hb2 & _ & Hsame) & _).
  destruct (rollout_frame (target_step st1 cd) l2 (sset_of cd) Hok2 Hd2) as [_ Hg2].
  apply rollout_reports in Hb; [|done..]. rewrite Hg2, <- Hg1. f_equal. apply Hsame.
  intros ->. rewrite Hb2, app_nil_r in Hb. by apply Hnot, (rollout_reports st l1).
Qed.
End rollout_spec.

(** ** The numbers reported *)

Lemma currently_matching_target mcs clusters (s : ServiceSet) :
  currently_matching mcs (list_to_set ((λ cd, meta_key (cd_meta cd)) <$> clusters)) s = true →
  ss_target s ∈ (λ t, clusterTargetKeyFromRef (target_ref t)) <$> self_targets mcs ++ (Some <$> clusters).
Proof.
  unfold currently_matching, ss_target, ClusterReference, self_targets. case_bool_decide as Ec.
  - intros ->. left.
  - intros Hk%bool_decide_eq_true. apply elem_of_list_to_set, list_elem_of_fmap in Hk as (cd & Hk & Hcd).
    apply list_elem_of_fmap. exists (Some cd). split; [|apply elem_of_app; right; by apply list_elem_of_fmap_2].
    unfold meta_key in Hk. injection Hk as -> ->. done.
Qed.

(** With one ServiceSet per target the condition never counts more ready
    clusters than there are matching ones. *)
Lemma ready_at_most_total mcs clusters serviceSets blocked :
  let matching := live_clusters clusters in
  let keys : gset ObjectKey := list_to_set ((λ cd, meta_key (cd_meta cd)) <$> matching) in
  NoDup (ss_target <$> filterb (λ s, negb (being_deleted (sset_meta s))) serviceSets) →
  readyDeployments (filterb (currently_matching mcs keys) serviceSets) blocked ≤
  length (self_targets mcs) + length matching.
Proof.
  intros matching keys Hnd. rewrite readyDeployments_count, <- (length_fmap ss_target).
  set (targets := self_targets mcs ++ (Some <$> matching)).
  assert (length (self_targets mcs) + length matching =
          length ((λ t, clusterTargetKeyFromRef (target_ref t)) <$> targets)) as ->.
  { subst targets. by rewrite length_fmap, length_app, length_fmap. }
  set (counted := filterb _ (filterb (currently_matching mcs keys) serviceSets)).
  assert (∀ s, s ∈ counted → s ∈ serviceSets ∧ being_deleted (sset_meta s) = false ∧
    currently_matching mcs keys s = true) as Hc.
  { intros s [[Hs Hm]%filterb_elem_of Hp]%filterb_elem_of. by bool_simpl. }
  apply submseteq_length, NoDup_submseteq.
  - eapply sublist_NoDup; [exact Hnd|]. apply sublist_fmap.
    assert (counted = filterb (λ s, currently_matching mcs keys s && (negb (bool_decide (ss_target s ∈ bc_key <$> blocked))
      && ssst_deployed (sset_status s))) (filterb (λ s, negb (being_deleted (sset_meta s))) serviceSets)) as ->;
      [|apply filterb_sublist].
    subst counted. unfold filterb. rewrite !list_filter_filter. apply list_filter_iff. intros s.
    rewrite !andb_true_iff. tauto.
  - intros k (s & -> & (_ & _ & Hm)%Hc)%list_elem_of_fmap. by apply currently_matching_target.
Qed.

(** ** Deletion *)

Section deletion_spec.
Context `{!StatusConditions} `{!Finalizers} {C : Type}.
Context `{!Lister C ServiceSet} `{!Lister C MultiClusterService}.
Context `{!Deleter C ServiceSet} `{!Refresher C MultiClusterService}.

Lemma setCondition_meta mcs typ err : mcs_meta (setCondition mcs typ err).1 = mcs_meta mcs.
Proof. unfold setCondition. destruct err; by destruct (SetStatusCondition _ _). Qed.

(** Deletion ends, without an error, in one of three ways, and only when no
    other MultiClusterService depends on this one: every ServiceSet of it that
    is left is deleted and the object requeued, or, with none left, the
    finalizer goes and the object is updated, once. *)
Lemma reconcileDelete_releases c mcs c' mcs' requeue :
  reconcileDelete c mcs = (c', mcs', requeue, None) →
  ValidateMCSDelete c mcs = None ∧ ∃ serviceSets, c_list c "" (owned_by mcs) = Ok serviceSets ∧
    (serviceSets ≠ [] → requeue = true ∧ c' = delete_all serviceSets c ∧ mcs_meta mcs' = mcs_meta mcs) ∧
    (serviceSets = [] → requeue = false ∧
       (MultiClusterServiceFinalizer ∉ om_finalizers (mcs_meta mcs) → c' = c) ∧
       (MultiClusterServiceFinalizer ∈ om_finalizers (mcs_meta mcs) → ∃ released,
          om_finalizers (mcs_meta released) =
            (RemoveFinalizer (om_finalizers (mcs_meta mcs)) MultiClusterServiceFinalizer).1 ∧
          c_update_refresh c released = (c', mcs', None))).
Proof.
  unfold reconcileDelete. destruct (ValidateMCSDelete c mcs) as [e|]; [done|]. intros Hk. split; [done|].
  set (mcs1 := (setCondition mcs MultiClusterServiceDependencyValidationCondition None).1) in *.
  assert (mcs_meta mcs1 = mcs_meta mcs) as Hm by apply setCondition_meta.
  assert (owned_by mcs1 = owned_by mcs) as Ho by (unfold owned_by, mcs_name; by rewrite Hm).
  rewrite Ho in Hk. destruct (c_list c "" (owned_by mcs)) as [sss|e]; [|done]. exists sss. split; [done|].
  destruct sss as [|s sss]; cbn [length] in Hk.
  - rewrite bool_decide_eq_false_2 in Hk by lia. split; [done|]. intros _. rewrite Hm in Hk.
    pose proof (remove_finalizer_changed (om_finalizers (mcs_meta mcs)) MultiClusterServiceFinalizer) as Hr.
    destruct (RemoveFinalizer _ _) as [fs changed] eqn:E. cbn [fst snd] in *. destruct changed.
    + set (released := set_mcs_meta (set_finalizers fs (mcs_meta mcs)) mcs1) in *. simpl in Hk.
      destruct (c_update_refresh c released) as [[c1 m1] [e|]] eqn:Eu; [done|]. injection Hk as <- <- <-.
      split_and!; [done| |].
      * intros Hnot. by destruct Hnot; apply Hr.
      * intros _. by exists released.
    + injection Hk as <- _ <-. split_and!; [done..|]. intros Hin. by apply Hr in Hin.
  - rewrite bool_decide_eq_true_2 in Hk by lia. injection Hk as <- <- <-. by rewrite Hm.
Qed.
End deletion_spec.

(** ** Witnesses *)

#[local] Existing Instance simple_conditions.
#[local] Existing Instance simple_finalizers.

(** [app] asks for one service on the cluster, [base] is still behind there. *)
Definition app_mcs : MultiClusterService :=
  dep_mcs "app" ["base"] [simple_service "web" "web-1" "1.0.0" []].
Definition app_start (states : list ServiceState) : rollout (C:=Cluster) :=
  let c := dep_store dep_services states in mkRollout c (resolveDependencies c app_mcs) [] None None.
Definition app_rollout (states : list ServiceState) : rollout :=
  foldl (reconcile_target (H:=dotted_semver) simple_marshal simple_requirements (λ s, s) "sys" app_mcs)
    (app_start states) [Some dep_cluster].

Lemma app_keyed states : keyed (dep_store dep_services states).
Proof. intros k s Hs. simpl in Hs. apply lookup_singleton_Some in Hs as [<- <-]. reflexivity. Qed.

Lemma app_blocked : target_ref (Some dep_cluster) ∈ bc_ref <$> ro_blocked (app_rollout states_behind).
Proof. apply (bool_decide_unpack _). vm_compute. exact I. Qed.

Lemma blocked_ServiceSet_untouched_witness :
  target_ref (Some dep_cluster) ∈ bc_ref <$> ro_blocked (app_rollout states_behind) ∧
  c_get (T:=ServiceSet) (ro_client (app_rollout states_behind)) (mkKey "ns" "cluster-app") =
  c_get (T:=ServiceSet) (dep_store dep_services states_behind) (mkKey "ns" "cluster-app").
Proof.
  split; [exact app_blocked|].
  apply (blocked_ServiceSet_untouched (H:=dotted_semver) simple_marshal simple_requirements (λ s, s) "sys"
    app_mcs (app_start states_behind) [Some dep_cluster] (Some dep_cluster)).
  - apply app_keyed.
  - apply NoDup_singleton.
  - apply NoDup_singleton.
  - left.
  - apply not_elem_of_nil.
  - exact app_blocked.
Defined.

(** [base] has moved off the cluster: its ServiceSet there is stale. *)
Definition moved_mcs : MultiClusterService :=
  mkMCS (named_meta "" "base")
    (mkMCSSpec (mkSelector {[ "env" := "dev" ]} []) [] (empty_service_spec dep_services) false)
    (mkMCSStatus [] [] [] [] 0).

Lemma cluster_delete_keeps_clusters (c : Cluster) (s : ServiceSet) k :
  c_get (T:=ClusterDeployment) (c_delete c s).1 k = c_get c k.
Proof. unfold c_delete, cluster_delete_serviceSet. by destruct (has_serviceSet c s). Qed.

Lemma cleanup_deletes_exactly_witness :
  (cleanupServiceSets (dep_store dep_services states_done) moved_mcs).1 =
  foldl (λ c s, (c_delete c s).1) (dep_store dep_services states_done) [dep_sset states_done].
Proof.
  pose (selector := (mkSelector {[ "env" := "dev" ]} [] : @Selector simple_selectors)).
  rewrite (cleanup_deletes_exactly cluster_delete_keeps_clusters (dep_store dep_services states_done)
    moved_mcs selector [dep_sset states_done]).
  - reflexivity.
  - reflexivity.
  - reflexivity.
  - intros s ->%list_elem_of_singleton _ _. exists dep_cluster. reflexivity.
Defined.

Lemma ready_at_most_total_witness :
  readyDeployments (filterb (currently_matching app_mcs {[ mkKey "ns" "cluster" ]}) status_sets) [] = 1 ∧
  readyDeployments (filterb (currently_matching app_mcs
    (list_to_set ((λ cd, meta_key (cd_meta cd)) <$> live_clusters [dep_cluster]))) status_sets) [] ≤ 0 + 1.
Proof.
  split; [vm_compute; reflexivity|].
  apply (ready_at_most_total app_mcs [dep_cluster] status_sets []).
  apply (bool_decide_unpack _). vm_compute. exact I.
Defined.

Definition released_mcs : MultiClusterService :=
  set_mcs_meta (set_finalizers [MultiClusterServiceFinalizer] (named_meta "" "app")) app_mcs.
Definition delete_run :=
  reconcileDelete empty_cluster released_mcs.

Lemma reconcileDelete_releases_witness :
  delete_run.2 = None ∧ delete_run.1.2 = false ∧ ValidateMCSDelete empty_cluster released_mcs = None.
Proof.
  split; [reflexivity|]. split; [reflexivity|].
  apply (reconcileDelete_releases empty_cluster released_mcs
    delete_run.1.1.1 delete_run.1.1.2 delete_run.1.2).
  reflexivity.
Defined.

(** The ServiceSet of the management cluster is named as if by a
    ClusterDeployment "management" of the system namespace: a
    MultiClusterService with both as targets has one ServiceSet for the two. *)
Example management_ServiceSet_collision sha256_4 sys :
  let cd := mkCD (named_meta sys "management") (cd_spec dep_cluster) (cd_status dep_cluster) in
  ServiceSetObjectKey sha256_4 sys (Some cd) app_mcs = ServiceSetObjectKey sha256_4 sys None app_mcs.
Proof. reflexivity. Qed.
